(* ===== verification/_CoqProject ===== *)
-Q . S2P
Prelude.v
OrderedMap.v
Decimal.v
TextCodec.v
ColorCodec.v
Float64.v
Flags.v
Address.v
GroupTables.v
Cursor.v
Cemi.v
Tpci.v
SimWire.v
Knxnet.v
Channel.v
Tunnel.v
SimKnxnet.v
Gateway.v
GatewaySpec.v
TunnelSpec.v
TunnelNet.v
Crypto.v
Keyring.v
Sequence.v
Asdu.v
SecureSession.v
SecureGroup.v
IpSecure.v
SimIpSecure.v
SimMemory.v
SimDataSecure.v
SimTransport.v
GroupComm.v
Routing.v
GroupBus.v
WhenTest.v
Selector.v
ParamField.v
ParamValue.v
ParamImage.v
Dynamic.v
DynamicSpec.v
DptTables.v
FloatArith.v
Float16.v
Datapoint.v
DatapointSpec.v
MgmtError.v
Apci.v
Connection.v
SimBus.v
L4Compose.v
L4Request.v
Load.v
Mcb.v
Sys7.v
SimLsm.v
SimLoad.v
SimApp.v
SimSecureApp.v
ClientMemory.v
MemNet.v
MemTransfer.v
PropertyExt.v
ObjectTable.v
SimSecurity.v
SecurityTables.v
SecurityNet.v
FlashRegions.v
FlashPlan.v
FlashPartial.v
FlashSession.v
FlashReboot.v
FlashProps.v
FlashSteps.v
FlashProperty.v
FlashVerify.v
FlashSystemB.v
FlashSys7.v
Flash.v
