(* ===== verification/Prelude.v ===== *)
(** * Verification of bussard: the protocol, security, model and download core

    bussard is a command-line tool and service for KNX building-automation buses
    (Rust, [src/crates/]), with an independently written device simulator it is
    tested against ([src/knx-sim/]).  This library translates the core of both
    sides into executable definitions and proves what they promise each other.

    ** The program's parts and how they interact

    A project is a model (group addresses, links, parameter values) and a product
    description.  From the links the tool computes the tables of a device, from the
    product's Dynamic section which parameters are shown, from their values the
    images of its memory segments; a plan of ordered steps writes them.  A step
    becomes management services (memory, properties, load control); a service is
    an APDU, secured or not by KNX Data Secure, in a numbered transport PDU, in a
    cEMI frame, in a KNXnet/IP tunnelling datagram, which KNXnet/IP Secure may wrap
    once more.  The simulator's gateway takes the datagrams, its bus delivers the
    frames to devices, a device's transport layer hands the APDUs to its
    application, and that changes load-state machines, memory, tables and the
    security object.  Group telegrams take the same way down to the routing the
    device reads back out of the tables that were flashed.

    ** The files, bottom up

    Foundations: [Prelude] has the [result] type with its monad, machine integers
    as [Z] with their width predicates, big-endian octets and the shared tactics;
    [OrderedMap] the [BTreeMap]; [Decimal] Rust's text, [trim] and the parsing and
    printing of integers; [Float64], [FloatArith] IEEE 754 over [SpecFloat].

    The model (bussard-model): [Address] (address.rs), [Flags] (flags.rs), [TextCodec] (text_codec.rs), [ColorCodec] (color_codec.rs),
    [DptTables], [Float16], [Datapoint] with its promises in [DatapointSpec]
    (codec.rs, dpt.rs, dpt_tables.rs); [WhenTest], [Selector], [Dynamic] (dynamic.rs)
    and [DynamicSpec], a semantics of the Dynamic section that knows no walk.

    Products and tables: [ParamField], [ParamValue], [ParamImage]
    (bussard-prod/src/image.rs): placements, values, the images of the segments.
    [GroupTables] (bussard-download/src/compute.rs).

    Transports (bussard-transport): [Cursor], [Cemi] (cemi.rs), [Tpci] (tpci.rs),
    [Knxnet] (knxnet.rs), [Channel] (channel.rs), [Tunnel] (tunnel.rs) with the
    promises of the task in [TunnelSpec].

    Security (bussard-secure, bussard-project): [Crypto] (crypto.rs, key.rs),
    [Keyring] (keyring.rs), [Sequence] (sequence.rs; threads of the lock-free clock
    are values of [IssueThread] with one atomic access per [issue_step]), [Asdu],
    [SecureSession], [SecureGroup], [IpSecure].

    Management (bussard-mgmt): [MgmtError] (error.rs), [Apci] (apci.rs),
    [Connection] (connection.rs, secure.rs), [Load],
    [Mcb] (load.rs), [Sys7] (sys7.rs), [ClientMemory] (memory.rs), [PropertyExt]
    (property_ext.rs), [ObjectTable] (io_list.rs).

    Downloads (bussard-download): [SecurityTables] (security.rs), [FlashPlan]
    (flash/mod.rs, par_procedure.rs, load_records.rs), [FlashRegions] (the runs of
    execute.rs), [FlashPartial] (partial.rs), [FlashSession], [FlashReboot] (session.rs,
    with [write_image] of execute.rs), [FlashProps] (props.rs, knxnet_ip.rs), [FlashSteps]
    (steps.rs), the executors [FlashProperty] (execute_props.rs), [FlashSystemB]
    (execute.rs) and [FlashSys7] (execute_sys7.rs), [FlashVerify] (verify.rs), and
    [Flash], the download from [flash] on (execute.rs).

    The simulator (knx-sim): [SimWire], [SimKnxnet] (wire/), [Gateway] with
    [GatewaySpec] (net/), [GroupBus], [SimBus] (bus/), [SimTransport]
    (device/transport.rs), [SimApp] (device/apci.rs, memory_access.rs),
    [SimSecureApp] (device/data_secure.rs), [SimMemory], [SimLsm], [SimLoad],
    [GroupComm] (device/), [SimSecurity] (device/security_object), [SimDataSecure],
    [SimIpSecure] (secure/).

    Compositions of the two sides: [TunnelNet] (client task and gateway over a lossy
    network), [L4Compose] and [L4Request] (client connection and device over a lossy
    medium), [MemNet], [MemTransfer] (memory services over that),
    [SimLoad] (the load procedure), [Routing] (tables written, routing read back),
    [SecurityNet] (the secured tables and the security object).

    ** How state and effects are modelled

    A [&mut self] method is a function that also returns the state after it, on
    error paths too; [Result] is [result], [Option] is [option], a panic is [None].
    A byte is a [Z] with [is_u8] where a theorem needs it; wrapping, masking and
    saturation are written at each place.  Instants are integers (milliseconds or
    nanoseconds, as a file says).  Maps keyed by integers are [gmap]s, ordered maps
    association lists.  An asynchronous function that waits is a function of a
    world that has the clock and the arriving frames; the shared atomic of the
    sequence clock is explicit and its theorems quantify over every interleaving.

    ** What the theorems show

    - Downloads: a span of memory that was written in an open segment reads back, over a
      network that loses frames ([memory_write_then_read], [memory_write_prefix],
      [memory_telegrams_fit]); a stream survives any number of lost connections
      ([image_stream_survives_deaths], [image_stream_ends]); steps are asked in
      order, all but the skipped ones run, and each is repeated boundedly
      ([steps_run_in_order]); a write of regions
      leaves the whole image, and the octets the device owns as they were
      ([segment_write_leaves_image], [system7_stream_spares_device_octets]); a download
      that reports success is one the device holds, its application object loaded ([successful_download_is_loaded],
      [verified_download_is_loaded], [verified_properties_are_held],
      [image_verification], [load_control_verdict], [download_end_to_end]); a device that restarts is found again
      ([restarted_device_is_reached]); what a parameter-only download streams
      to memory writes parameters only and can be undone ([parameter_download_writes_only_placed],
      [parameter_steps_spare_the_rest], [restore_undoes_apply]); the security object
      is programmed wholly or not at all ([security_object_all_or_nothing]); the
      object table read from a list is the one a walk finds
      ([discovered_table_is_walked]).
    - The model: images hold the last value of every bit and every parameter of an
      exact encoding reads back ([parameter_image_holds_last_values], [written_parameter_reads_back]);
      the walk over the Dynamic section computes its semantics
      ([settled_walk_is_visible], [settled_active_least]); datapoint values read back
      ([written_value_reads_back]); flashed tables route as the links say, up to
      telegrams on the bus ([flashed_tables_route], [stimulus_reaches_linked_objects]).
    - Transport: a request is served at most once, an answered one exactly once, an
      undisturbed one is answered ([request_served_once], [exchanges_refine_calls],
      [undisturbed_request_answered], [receive_loop_terminates],
      [silence_closes_connection]); a tunnel's frames arrive in order
      ([sent_frames_reach_the_bus], [inbound_frames_queued_once],
      [send_ends_or_spends_budget]); the two frame decoders agree
      ([decoders_agree], [cemi_decode_wellformed]).
    - Security: the device accepts exactly what the client seals, and nothing twice
      ([device_accepts_exactly_sealed], [device_never_accepts_twice],
      [secured_requests_answered_as_plain], [clock_never_repeats]); the gateway serves
      a session only after its password was proved, and client and gateway establish
      one ([served_in_a_proven_session], [client_and_gateway_establish_session]).

    Beside these each file has the theorems of its own part: round trips of every
    codec, invariants of the state, and what its loops do on every branch.

    ** Bounds and fuel

    A loop that is not structural takes fuel, and for each there is a lemma that the
    fuel its caller gives is enough.  Received frames: [receive_until] takes one turn
    per frame that can still arrive and one more; [wait_until] of a tunnel and the
    repetition of a frame take the frames of the link and two; the re-establishing
    budget over the least backoff and two.  A stream of octets is split with one turn
    per octet; a session id is searched through 65536.  Pieces of a memory span, chunks
    of a compared segment, rows of a table, runs of a diff, elements of a list and characters of a text or of a
    selector take the length of what is cut.  The place of a module instance takes
    the number of instances, the levels of the walk [MAX_MODULE_DEPTH] and its passes
    [MAX_ASSIGN_PASSES], the constants of the source.  [Memory_free_base] takes one
    turn per segment and one more, proved enough when every segment ends below the
    last page, and proved not enough for any fuel otherwise (a loop of the source
    that does not end).  [settle_fuel] is one turn per polling period and three more;
    the probes after a restart one per interval of the bound and three more
    ([probes_end]); the exponent of a two-octet float sixteen; a decimal number
    twenty digits.

    ** Parameters and interfaces

    Crates the source only calls are classes with their documented laws:
    [SecureCiphers] (AES, SHA-256, PBKDF2), [X25519], [Base64], [FloatParams]; random
    draws are arguments, and [ColorCodec] takes the distance of two colours.  Each has
    a concrete instance that the witnesses run on.  Between components the classes
    are what one promises another: [L4World] (a channel with its clock; the bus of
    [SimBus] is an instance), [TunnelLink] and [ChannelTask], [GatewayBus] and
    [GatewaySessions] ([SimIpSecure] is an instance), [DeviceApp], [DeviceServices],
    [AnsweringApp], [ActivatedApp] (the device's application), [L4Management],
    [L4Requests], [L4Properties], [PropertyLink] (what procedures use of a
    connection; [Connection] or [SimLoad] are instances), and of a download
    [SessionLink], [RebootLink], [StepSession], [StepExecutor], [StepLink], [ExecLink],
    [VerifyLink], whose device-side promises ([LinkDevice], [CellDevice],
    [PropertyDevice], [ComesBack], [VerifyDevice], [TypedDevice]) have demonstration
    devices.

    ** Where code and documentation part

    Theorems state what the code does where it departs from what it means to do:
    [late_request_loses_disconnect] (a request that arrives with the timeout loses the
    disconnect), [free_base_may_hang], [tpci_classifications_agree], the saturation
    cases of [Sequence], [memory_telegrams_fit] on the chunk without a negotiated
    APDU, the panic of [SecurityObject_handle] on an offset past the flags, the
    passes of [evaluate_dynamic] that end unsettled, the comparison of branch values
    as floating-point numbers, the sample of a blind System 7 write that cannot be read
    ([unread_sample_passes]), and the objects that a download verified after its restart
    reports loaded without reading them ([successful_download_is_loaded]).

    ** Not modelled

    - I/O: sockets, channels, files, XML, ZIP, YAML, HTTP; message texts, progress
      and event streams.  Product and project parsing (bussard-ets, the parser of
      bussard-prod) is reading XML into records; its outcome is the input here.
    - bussard-transport: devmgmt.rs, the discovery DIBs, and secure.rs' choice of a
      user of a secure tunnel.
    - bussard-mgmt: broadcast.rs, tables.rs, probe.rs, device.rs, ip_secure.rs, factory_reset.rs.
    - bussard-model: the parsing of datapoint values from text.
    - bussard-download: the planning from a product's load procedures (plan.rs,
      plan_sys7.rs), the texts of warnings and progress, and the opening of a session.
    - knx-sim: the interface objects beside those of a download and of the security
      object, secured group communication of a device, restart, configuration.
    - bussard-service, -monitor, -mcp, -ha, -viz, -cli, -testkit: user-facing glue. *)

From stdpp Require Export base numbers list strings gmap.
From Stdlib Require Export ZArith Lia.

Local Open Scope Z_scope.

(** ** Fallible computations

    Rust's [Result<A, E>]: every fallible function of the model returns one. *)
Inductive result (E A : Type) : Type :=
| Ok (a : A)
| Err (e : E).
Arguments Ok {E A} a.
Arguments Err {E A} e.

#[export] Instance result_ret {E} : MRet (result E) := fun A a => Ok a.
#[export] Instance result_bind {E} : MBind (result E) := fun A B k m =>
  match m with
  | Ok a => k a
  | Err e => Err e
  end.

(** [Result::map_err]. *)
Definition map_err {E F A} (f : E -> F) (r : result E A) : result F A :=
  match r with
  | Ok a => Ok a
  | Err e => Err (f e)
  end.

(** [Option::ok_or]. *)
Definition ok_or {E A} (e : E) (o : option A) : result E A :=
  match o with
  | Some a => Ok a
  | None => Err e
  end.

Definition is_ok {E A} (r : result E A) : bool :=
  match r with
  | Ok _ => true
  | Err _ => false
  end.

#[export] Instance result_eq_dec {E A} `{EqDecision E, EqDecision A} : EqDecision (result E A).
Proof. solve_decision. Defined.

(** ** Machine integers

    A [w]-bit unsigned integer is a [Z] in [0, 2^w); the functions that build
    one say where the source wraps, masks or saturates. *)
Abbreviation u8 := Z (only parsing).
Abbreviation u16 := Z (only parsing).
Abbreviation u32 := Z (only parsing).
Abbreviation u64 := Z (only parsing).
Abbreviation bytes := (list Z) (only parsing).

Definition is_u8 (z : Z) : Prop := 0 <= z < 256.
Definition is_u16 (z : Z) : Prop := 0 <= z < 65536.
Definition is_u32 (z : Z) : Prop := 0 <= z < 4294967296.
Definition is_u48 (z : Z) : Prop := 0 <= z < 281474976710656.
Definition is_u64 (z : Z) : Prop := 0 <= z < 18446744073709551616.

#[export] Instance is_u8_dec z : Decision (is_u8 z).
Proof. unfold is_u8. apply _. Defined.
#[export] Instance is_u16_dec z : Decision (is_u16 z).
Proof. unfold is_u16. apply _. Defined.

(** [x as u8], [x as u16], [x as u32]: truncation to the low bits. *)
Definition as_u8 (z : Z) : u8 := z mod 256.
Definition as_u16 (z : Z) : u16 := z mod 65536.
Definition as_u32 (z : Z) : u32 := z mod 4294967296.

(** [bool as u8]. *)
Definition bool_as_u8 (b : bool) : u8 := Z.b2z b.

(** [u32::saturating_add], [u64::saturating_add] and [saturating_sub]. *)
Definition u32_max : Z := 4294967295.
Definition u32_saturating_add (a b : Z) : Z := Z.min (a + b) u32_max.
Definition u64_max : Z := 18446744073709551615.
Definition u64_saturating_add (a b : Z) : Z := Z.min (a + b) u64_max.
Definition saturating_sub (a b : Z) : Z := Z.max 0 (a - b).

Definition bytes_ok (l : bytes) : Prop := Forall is_u8 l.

#[export] Instance bytes_ok_dec l : Decision (bytes_ok l).
Proof. unfold bytes_ok. apply _. Defined.

(** [len()] of a byte slice as a number. *)
Definition zlen {A} (l : list A) : Z := Z.of_nat (length l).

(** ** Big-endian integers *)

(** The [n] low octets of [v], most significant first: [to_be_bytes] of an
    [8n]-bit integer. *)
Fixpoint be_bytes (n : nat) (v : Z) : bytes :=
  match n with
  | O => []
  | S m => (v / 256 ^ Z.of_nat m) mod 256 :: be_bytes m v
  end.

(** [from_be_bytes] of any number of octets. *)
Fixpoint be_val (l : bytes) : Z :=
  match l with
  | [] => 0
  | b :: r => b * 256 ^ Z.of_nat (length r) + be_val r
  end.

(** [u16::from_be_bytes([a, b])], the form the two-octet readers use. *)
Definition u16_of (a b : u8) : u16 := a * 256 + b.

(** [data[i..j]] on a list, for [i <= j <= len]. *)
Definition slice {A} (i j : nat) (l : list A) : list A := take (j - i) (drop i l).

(** ** Exhaustive checks over small integer ranges *)

(** [all_from z n P]: [P] holds at [z .. z+n-1], by evaluation. *)
Fixpoint all_from (z : Z) (n : nat) (P : Z -> bool) : bool :=
  match n with
  | O => true
  | S m => P z && all_from (z + 1) m P
  end.

Definition all_below (n : nat) (P : Z -> bool) : bool := all_from 0 n P.

(** ** Automation *)

Create HintDb bus.

(** Unfolds the width predicates of every hypothesis and of the goal. *)
Ltac unfold_widths :=
  unfold is_u8, is_u16, is_u32, is_u48, is_u64, as_u8, as_u16, as_u32, u16_of in *.

(** Linear arithmetic with division and remainder by constants. *)
Ltac zdiv := unfold_widths; Z.to_euclidean_division_equations; lia.

(** Case analysis on the fallible step the goal or a hypothesis is stuck on. *)
Ltac step_result H :=
  match type of H with
  | context [match ?m with Ok _ => _ | Err _ => _ end] =>
      let E := fresh "E" in destruct m eqn:E; simpl in H; try discriminate H
  end.

(** ** Lemmas *)

Lemma Ok_inj {E A} (a b : A) : @Ok E A a = Ok b -> a = b.
Proof. congruence. Qed.

Lemma bind_ok {E A B} (k : A -> result E B) m b :
  (m ≫= k) = Ok b <-> exists a, m = Ok a /\ k a = Ok b.
Proof.
  destruct m as [a|e]; simpl.
  - split; [eauto | intros (a' & [= ->] & ?); done].
  - split; [done | intros (a' & [=] & _)].
Qed.

Lemma all_from_spec P n : forall a, all_from a n P = true ->
  forall z, a <= z < a + Z.of_nat n -> P z = true.
Proof.
  induction n as [|n IH]; intros a H z Hz; [lia|]. simpl in H.
  apply andb_true_iff in H as [Ha Hn].
  destruct (decide (z = a)) as [->|Hne]; [done|]. apply (IH _ Hn). lia.
Qed.

Lemma all_below_spec n P :
  all_below n P = true -> forall z, 0 <= z < Z.of_nat n -> P z = true.
Proof. intros H z Hz. apply (all_from_spec P n 0 H). lia. Qed.

Lemma below_decide n (P : Z -> Prop) `{forall z, Decision (P z)} :
  all_below n (fun z => bool_decide (P z)) = true -> forall z, 0 <= z < Z.of_nat n -> P z.
Proof.
  intros H' z Hz. apply (bool_decide_eq_true (P z)).
  exact (all_below_spec n (fun z => bool_decide (P z)) H' z Hz).
Qed.

(** A property of one octet, checked on all 256 of them. *)
Lemma u8_decide (P : Z -> Prop) `{forall z, Decision (P z)} :
  all_below 256 (fun z => bool_decide (P z)) = true -> forall b, is_u8 b -> P b.
Proof. intros H' b Hb. apply (below_decide 256 P H'). exact Hb. Qed.

(** A property of two octets, checked on all pairs. *)
Lemma u8_decide2 (P : Z -> Z -> Prop) `{forall a b, Decision (P a b)} :
  all_below 256 (fun a => all_below 256 (fun b => bool_decide (P a b))) = true ->
  forall a b, is_u8 a -> is_u8 b -> P a b.
Proof.
  intros H' a b Ha Hb. apply (u8_decide (P a)); [|done].
  exact (all_below_spec 256 (fun a => all_below 256 (fun b => bool_decide (P a b))) H' a Ha).
Qed.

(** A property of a 16-bit word, checked on all of them. *)
Lemma u16_decide (P : Z -> Prop) `{forall z, Decision (P z)} :
  all_below (256 * 256) (fun z => bool_decide (P z)) = true -> forall w, is_u16 w -> P w.
Proof. intros H' w Hw. apply (below_decide (256 * 256) P H'). unfold is_u16 in Hw. lia. Qed.

Lemma length_be_bytes n v : length (be_bytes n v) = n.
Proof. induction n; simpl; congruence. Qed.

Lemma be_bytes_ok n v : bytes_ok (be_bytes n v).
Proof.
  unfold bytes_ok. induction n as [|n IH]; simpl; constructor; [|done].
  unfold is_u8. apply Z.mod_pos_bound. lia.
Qed.

Lemma be_val_be_bytes n v : be_val (be_bytes n v) = v mod 256 ^ Z.of_nat n.
Proof.
  induction n as [|n IH]; simpl be_bytes; simpl be_val.
  - rewrite Z.mod_1_r. done.
  - rewrite length_be_bytes, IH, Nat2Z.inj_succ, Z.pow_succ_r by lia.
    rewrite (Z.mul_comm 256), Z.rem_mul_r by lia. lia.
Qed.

Lemma be_val_bound l : bytes_ok l -> 0 <= be_val l < 256 ^ zlen l.
Proof.
  unfold bytes_ok, zlen. induction 1 as [|b l Hb Hl IH]; simpl be_val; simpl length.
  - simpl. lia.
  - rewrite Nat2Z.inj_succ, Z.pow_succ_r by lia. unfold is_u8 in Hb. nia.
Qed.

Lemma be_bytes_be_val l : bytes_ok l -> be_bytes (length l) (be_val l) = l.
Proof.
  assert (Hadd : forall n a v, be_bytes n (a * 256 ^ Z.of_nat n + v) = be_bytes n v).
  { induction n as [|n IH]; intros a v; [done|]. simpl be_bytes.
    rewrite Nat2Z.inj_succ, Z.pow_succ_r by lia. f_equal.
    - replace (a * (256 * 256 ^ Z.of_nat n) + v)
        with (v + (a * 256) * 256 ^ Z.of_nat n) by ring.
      rewrite Z.div_add by (apply Z.pow_nonzero; lia).
      rewrite Z.mod_add; [done|lia].
    - rewrite <- (IH (a * 256) v). f_equal. ring. }
  unfold bytes_ok. induction 1 as [|b l Hb Hl IH]; [done|].
  simpl length. simpl be_val. simpl be_bytes. f_equal.
  - pose proof (be_val_bound l Hl) as Hv. unfold zlen in Hv.
    rewrite Z.div_add_l by (apply Z.pow_nonzero; lia).
    rewrite (Z.div_small (be_val l)) by lia. rewrite Z.add_0_r.
    apply Z.mod_small, Hb.
  - rewrite Hadd. exact IH.
Qed.

(** The two zero octets in front of a 48-bit value widened to 64 bits. *)
Lemma be_val_pad l : be_val ([0; 0] ++ l) = be_val l.
Proof. cbn [app be_val]. lia. Qed.

Lemma be_bytes_2 v : is_u16 v -> be_bytes 2 v = [v / 256; v mod 256].
Proof.
  intros Hv. simpl. change (256 ^ Z.of_nat 1) with 256. change (256 ^ Z.of_nat 0) with 1.
  rewrite Z.div_1_r. f_equal. apply Z.mod_small. zdiv.
Qed.

Lemma u16_of_be v : is_u16 v -> u16_of ((v / 256) mod 256) (v mod 256) = v.
Proof. intros Hv. zdiv. Qed.

Lemma be_bytes_2_u16 addr : is_u16 addr ->
  exists hi lo, be_bytes 2 addr = [hi; lo] /\ is_u8 hi /\ is_u8 lo /\ u16_of hi lo = addr.
Proof.
  intros Ha. rewrite be_bytes_2 by done. eexists _, _. split; [done|]. unfold_widths.
  Z.to_euclidean_division_equations; lia.
Qed.

Lemma u16_of_ok a b : is_u8 a -> is_u8 b -> is_u16 (u16_of a b).
Proof. zdiv. Qed.

Lemma u16_of_bytes a b : is_u8 a -> is_u8 b -> be_bytes 2 (u16_of a b) = [a; b].
Proof.
  intros Ha Hb. rewrite be_bytes_2 by (by apply u16_of_ok).
  f_equal; [|f_equal]; zdiv.
Qed.

Lemma bytes_ok_app l k : bytes_ok (l ++ k) <-> bytes_ok l /\ bytes_ok k.
Proof. apply Forall_app. Qed.

Lemma bytes_ok_take n l : bytes_ok l -> bytes_ok (take n l).
Proof. apply Forall_take. Qed.

Lemma bytes_ok_drop n l : bytes_ok l -> bytes_ok (drop n l).
Proof. apply Forall_drop. Qed.

Lemma slice_app {A} (p l s : list A) :
  slice (length p) (length p + length l) (p ++ l ++ s) = l.
Proof.
  unfold slice. rewrite drop_app_length, Nat.add_comm, Nat.add_sub.
  apply take_app_length.
Qed.

Lemma length_slice {A} i j (l : list A) :
  (i <= j <= length l)%nat -> length (slice i j l) = (j - i)%nat.
Proof. intros H. unfold slice. rewrite length_take, length_drop. lia. Qed.

(** ** Shifts and masks as arithmetic *)

Lemma land_mask n m a : 0 <= n -> m = 2 ^ n - 1 -> Z.land a m = a mod 2 ^ n.
Proof. intros Hn ->. by rewrite <- Z.land_ones, Z.ones_equiv, Z.sub_1_r by done. Qed.

Lemma shiftr_div n a : 0 <= n -> Z.shiftr a n = a / 2 ^ n.
Proof. apply Z.shiftr_div_pow2. Qed.

(** OR of a shifted field and one that fits below it is their sum. *)
Lemma lor_shiftl_add n a b : 0 <= n -> 0 <= b < 2 ^ n -> Z.lor (Z.shiftl a n) b = a * 2 ^ n + b.
Proof.
  intros Hn Hb. assert (Hz : Z.land (Z.shiftl a n) b = 0).
  { apply Z.bits_inj'. intros i Hi. rewrite Z.land_spec, Z.shiftl_spec, Z.bits_0 by done.
    destruct (Z.ltb_spec i n) as [H|H].
    - by rewrite Z.testbit_neg_r by lia.
    - destruct (decide (b = 0)) as [->|Hne]; [by rewrite Z.bits_0, andb_false_r|].
      rewrite (Z.bits_above_log2 b i), andb_false_r; [done|lia|].
      assert (Z.log2 b < n) by (apply Z.log2_lt_pow2; lia). lia. }
  rewrite <- Z.lxor_lor, <- Z.add_nocarry_lxor, Z.shiftl_mul_pow2 by done.
  reflexivity.
Qed.

Lemma lxor_u8 a b : is_u8 a -> is_u8 b -> is_u8 (Z.lxor a b).
Proof. apply (u8_decide2 (fun a b => is_u8 (Z.lxor a b))). vm_compute. reflexivity. Qed.

Lemma zip_with_lxor_ok l k : bytes_ok l -> bytes_ok k -> bytes_ok (zip_with Z.lxor l k).
Proof.
  intros Hl. revert k. induction Hl as [|a l Ha Hl IH]; intros k Hk; [constructor|].
  destruct Hk as [|b k Hb Hk]; simpl; [constructor|].
  constructor; [by apply lxor_u8|]. by apply IH.
Qed.

(** XOR with the same octets undoes itself. *)
Lemma zip_with_lxor_involutive l k : length l = length k ->
  zip_with Z.lxor (zip_with Z.lxor l k) k = l.
Proof.
  revert k. induction l as [|x l IH]; intros [|y k] H; try done.
  simpl. f_equal; [|apply IH; simpl in H; lia].
  rewrite Z.lxor_assoc, Z.lxor_nilpotent, Z.lxor_0_r. done.
Qed.

#[export] Hint Resolve be_bytes_ok bytes_ok_take bytes_ok_drop u16_of_ok : bus.

(** Octet lists built by [::], [++], [take], [drop] and [be_bytes]. *)
Ltac solve_bytes :=
  repeat first
    [ assumption
    | apply Forall_nil_2
    | apply be_bytes_ok
    | apply Forall_cons_2
    | apply Forall_app_2
    | apply Forall_take
    | apply Forall_drop
    | progress unfold bytes_ok
    | done
    | (unfold_widths; lia) ].
