(* ===== verification/OrderedMap.v ===== *)
(** * Ordered maps and sets

    Rust's [BTreeMap] with integer keys, an association list kept in the order of
    its keys, as iteration sees it; and sorting with removal of duplicates
    ([sort_unstable] then [dedup]). *)

From S2P Require Import Prelude.
From Stdlib Require Import Sorting.Sorted.
From stdpp Require Import sorting.

Local Open Scope list_scope.
Local Open Scope Z_scope.

(** ** Maps *)

Definition BTree (V : Type) : Type := list (Z * V).

Section BTree.
  Context {V : Type}.
  Implicit Types (m : BTree V) (k : Z) (v : V).

Fixpoint bt_get k m : option V :=
  match m with
  | [] => None
  | (k', v) :: m => if k =? k' then Some v else bt_get k m
  end.

(** The entry of a key, created or changed ([entry(k).or_default()]). *)
Fixpoint bt_update k (f : option V -> V) m : BTree V :=
  match m with
  | [] => [(k, f None)]
  | (k', v) :: m' =>
      if k <? k' then (k, f None) :: m
      else if k =? k' then (k, f (Some v)) :: m'
      else (k', v) :: bt_update k f m'
  end.

Definition bt_retain (p : Z -> V -> bool) m : BTree V := List.filter (fun kv => p kv.1 kv.2) m.

(** The keys are in order, each once. *)
Definition bt_ok m : Prop := StronglySorted Z.lt (map fst m).

Lemma bt_ok_cons k v m : bt_ok ((k, v) :: m) -> bt_ok m /\ Forall (fun kv => k < kv.1) m.
Proof.
  unfold bt_ok. cbn [map fst]. intros H. apply StronglySorted_inv in H as [H1 H2]. split; [done|].
  clear H1. induction m as [|[k' v'] m IH]; [constructor|].
  apply Forall_cons_1 in H2 as [H2 H3]. constructor; [done|by apply IH].
Qed.

Lemma bt_ok_intro k v m : bt_ok m -> Forall (fun kv => k < kv.1) m -> bt_ok ((k, v) :: m).
Proof.
  intros H1 H2. unfold bt_ok. cbn [map fst]. constructor; [done|]. by apply Forall_fmap.
Qed.

Lemma bt_get_below k m : Forall (fun kv => k < kv.1) m -> bt_get k m = None.
Proof.
  induction m as [|[k' v] m IH]; [done|]. intros [Hk H]%Forall_cons_1. cbn in *.
  rewrite (proj2 (Z.eqb_neq _ _)) by lia. by apply IH.
Qed.

Lemma bt_update_above k0 k f m : k0 < k -> Forall (fun kv => k0 < kv.1) m ->
  Forall (fun kv => k0 < kv.1) (bt_update k f m).
Proof.
  intros Hk. induction m as [|[k' v] m IH]; intros H; cbn [bt_update].
  - constructor; [done|constructor].
  - apply Forall_cons_1 in H as [H1 H2]. cbn in H1.
    destruct (k <? k'); [by repeat constructor|]. destruct (k =? k'); constructor; auto.
Qed.

Lemma bt_update_ok k f m : bt_ok m -> bt_ok (bt_update k f m).
Proof.
  induction m as [|[k' v] m IH]; intros H; cbn [bt_update].
  - constructor; constructor.
  - destruct (bt_ok_cons _ _ _ H) as [Hm Hk'].
    destruct (Z.ltb_spec k k') as [Hlt|Hge].
    + apply bt_ok_intro; [done|]. constructor; [done|].
      eapply Forall_impl; [exact Hk'|]. intros kv. cbn. lia.
    + destruct (Z.eqb_spec k k') as [->|Hne]; [by apply bt_ok_intro|].
      apply bt_ok_intro; [by apply IH|]. apply bt_update_above; [lia|done].
Qed.

Lemma bt_get_update k f m k0 : bt_ok m ->
  bt_get k0 (bt_update k f m) = if k0 =? k then Some (f (bt_get k m)) else bt_get k0 m.
Proof.
  induction m as [|[k' v] m IH]; intros H; cbn [bt_update bt_get]; [done|].
  destruct (bt_ok_cons _ _ _ H) as [Hm Hk'].
  destruct (Z.ltb_spec k k') as [Hlt|Hge]; [|destruct (Z.eqb_spec k k') as [->|Hne]]; cbn [bt_get].
  - destruct (Z.eqb_spec k0 k) as [E|]; [|done]. rewrite (proj2 (Z.eqb_neq _ _)) by lia.
    rewrite (bt_get_below k m); [done|]. eapply Forall_impl; [exact Hk'|]. intros kv. cbn. lia.
  - by destruct (k0 =? k').
  - destruct (Z.eqb_spec k0 k') as [->|].
    + by rewrite (proj2 (Z.eqb_neq k' k)) by lia.
    + rewrite IH by done. done.
Qed.

Lemma bt_retain_ok p m : bt_ok m -> bt_ok (bt_retain p m).
Proof.
  induction m as [|[k v] m IH]; intros H; [done|]. destruct (bt_ok_cons _ _ _ H) as [Hm Hk].
  unfold bt_retain in *. cbn [List.filter fst snd]. destruct (p k v); [|by apply IH].
  apply bt_ok_intro; [by apply IH|]. apply List.Forall_forall.
  intros kv [Hin _]%List.filter_In. rewrite List.Forall_forall in Hk. by apply Hk.
Qed.

Lemma bt_get_retain p m k : bt_ok m ->
  bt_get k (bt_retain p m) = match bt_get k m with
                             | Some v => if p k v then Some v else None
                             | None => None
                             end.
Proof.
  induction m as [|[k' v] m IH]; intros H; [done|]. destruct (bt_ok_cons _ _ _ H) as [Hm Hk].
  unfold bt_retain in *. cbn [List.filter bt_get fst snd].
  destruct (Z.eqb_spec k k') as [->|Hne].
  - destruct (p k' v); cbn [bt_get fst snd]; [by rewrite Z.eqb_refl|].
    rewrite IH by done. by rewrite (bt_get_below k' m).
  - destruct (p k' v); cbn [bt_get fst snd]; rewrite ?(proj2 (Z.eqb_neq k k')) by done; by apply IH.
Qed.

Lemma bt_get_In m k v : bt_ok m -> In (k, v) m <-> bt_get k m = Some v.
Proof.
  induction m as [|[k' v'] m IH]; intros H; [done|]. destruct (bt_ok_cons _ _ _ H) as [Hm Hk].
  cbn [bt_get In]. destruct (Z.eqb_spec k k') as [->|Hne].
  - split; [|intros [= ->]; by left]. intros [[= ->]|Hin]; [done|].
    rewrite List.Forall_forall in Hk. specialize (Hk _ Hin). cbn in Hk. lia.
  - rewrite <- IH by done. split; [intros [[= -> ->]|]; done|by right].
Qed.

(** A map is determined by its lookups. *)
Lemma bt_ext m m' : bt_ok m -> bt_ok m' -> (forall k, bt_get k m = bt_get k m') -> m = m'.
Proof.
  revert m'. induction m as [|[k v] m IH]; intros m' H H' E.
  - destruct m' as [|[k' v'] m']; [done|]. specialize (E k'). cbn in E. by rewrite Z.eqb_refl in E.
  - destruct m' as [|[k' v'] m']; [specialize (E k); cbn in E; by rewrite Z.eqb_refl in E|].
    destruct (bt_ok_cons _ _ _ H) as [Hm Hk], (bt_ok_cons _ _ _ H') as [Hm' Hk'].
    assert (k = k') as <-.
    { pose proof (E k) as E1. pose proof (E k') as E2. cbn in E1, E2. rewrite Z.eqb_refl in E1, E2.
      destruct (Z.eqb_spec k k') as [->|Hne]; [done|]. destruct (Z.eqb_spec k' k) as [->|_]; [done|].
      symmetry in E1. apply bt_get_In in E1; [|done]. apply bt_get_In in E2; [|done].
      rewrite List.Forall_forall in Hk, Hk'. specialize (Hk _ E2). specialize (Hk' _ E1). cbn in *. lia. }
    pose proof (E k) as E0. cbn in E0. rewrite Z.eqb_refl in E0. injection E0 as ->. f_equal.
    apply IH; [done|done|]. intros k0. specialize (E k0). cbn in E.
    destruct (Z.eqb_spec k0 k) as [E1|]; [|done]. by rewrite E1, !bt_get_below.
Qed.

End BTree.

(** ** Sorting and removal of duplicates *)

(** [dedup]: consecutive equals are dropped. *)
Fixpoint dedup (l : list Z) : list Z :=
  match l with
  | x :: (y :: _) as t => if x =? y then dedup t else x :: dedup t
  | _ => l
  end.

Definition sort_dedup (l : list Z) : list Z := dedup (merge_sort Z.le l).

Lemma dedup_cons a b l : dedup (a :: b :: l) = if a =? b then dedup (b :: l) else a :: dedup (b :: l).
Proof. done. Qed.

Lemma dedup_in l x : In x (dedup l) <-> In x l.
Proof.
  induction l as [|a [|b l] IH]; [done|done|]. rewrite dedup_cons.
  destruct (Z.eqb_spec a b) as [->|].
  - rewrite IH. cbn [In]. tauto.
  - change (a = x \/ In x (dedup (b :: l)) <-> a = x \/ In x (b :: l)). by rewrite IH.
Qed.

Lemma dedup_sorted l : StronglySorted Z.le l -> StronglySorted Z.lt (dedup l).
Proof.
  induction l as [|a [|b l] IH]; [intros _; constructor|intros _; repeat constructor|]. intros H.
  apply StronglySorted_inv in H as [H1 H2]. specialize (IH H1). rewrite dedup_cons.
  destruct (Z.eqb_spec a b) as [->|Hne]; [done|]. constructor; [done|].
  apply List.Forall_forall. intros x Hx. rewrite dedup_in in Hx. rewrite List.Forall_forall in H2.
  apply StronglySorted_inv in H1 as [_ Hb]. rewrite List.Forall_forall in Hb.
  pose proof (H2 b (or_introl eq_refl)). destruct Hx as [<-|Hx]; [lia|]. specialize (Hb x Hx). lia.
Qed.

#[local] Instance le_total : Total Z.le.
Proof. intros x y. lia. Qed.

(** Sorted, each element once, and none lost or made up. *)
Lemma sort_dedup_spec l :
  StronglySorted Z.lt (sort_dedup l) /\ forall x, In x (sort_dedup l) <-> In x l.
Proof.
  split.
  - apply dedup_sorted, StronglySorted_merge_sort; apply _ || (intros x y z; lia).
  - intros x. unfold sort_dedup. rewrite dedup_in, <- !list_elem_of_In.
    by rewrite (merge_sort_Permutation Z.le l).
Qed.

Lemma sorted_nodup l : StronglySorted Z.lt l -> NoDup l.
Proof.
  induction 1 as [|x l Hl IH Hx]; constructor; [|done]. rewrite list_elem_of_In. intros Hin.
  rewrite List.Forall_forall in Hx. specialize (Hx x Hin). lia.
Qed.
