(* ===== verification/Decimal.v ===== *)
(** * Numbers as text

    Rust's text as its characters (Unicode scalar values), and what the program
    uses of the standard library on it: [trim], the parsing of integers, their
    decimal and hexadecimal forms. *)

From S2P Require Import Prelude.

Local Open Scope list_scope.
Local Open Scope Z_scope.

Definition char : Type := Z.
Definition text : Type := list char.

(** ** Characters *)

(** [char::is_whitespace]. *)
Definition is_whitespace (c : char) : bool :=
  ((9 <=? c) && (c <=? 13)) || (c =? 32) || (c =? 133) || (c =? 160) || (c =? 5760)
  || ((8192 <=? c) && (c <=? 8202)) || (c =? 8232) || (c =? 8233) || (c =? 8239) || (c =? 8287) || (c =? 12288).

Fixpoint trim_start (t : text) : text :=
  match t with
  | c :: t' => if is_whitespace c then trim_start t' else t
  | [] => []
  end.

Definition trim (t : text) : text := rev (trim_start (rev (trim_start t))).

Definition to_ascii_lowercase (c : char) : char := if (65 <=? c) && (c <=? 90) then c + 32 else c.

(** ** Parsing *)

Definition digit (c : char) : option Z := if (48 <=? c) && (c <=? 57) then Some (c - 48) else None.

Fixpoint parse_digits (acc : Z) (t : text) : option Z :=
  match t with
  | [] => Some acc
  | c :: t => d ← digit c; parse_digits (acc * 10 + d) t
  end.

Definition parse_unsigned (t : text) : option Z := match t with [] => None | _ => parse_digits 0 t end.

(** [t.parse::<i64>()] and [t.parse::<u32>()]. *)
Definition parse_i64 (t : text) : option Z :=
  n ← match t with
      | 43 :: t => parse_unsigned t
      | 45 :: t => option_map Z.opp (parse_unsigned t)
      | _ => parse_unsigned t
      end;
  if (-9223372036854775808 <=? n) && (n <=? 9223372036854775807) then Some n else None.

Definition parse_u32 (t : text) : option u32 :=
  n ← match t with 43 :: t => parse_unsigned t | _ => parse_unsigned t end;
  if n <=? u32_max then Some n else None.

Definition hex_digit (c : char) : option Z :=
  if (48 <=? c) && (c <=? 57) then Some (c - 48)
  else if (65 <=? c) && (c <=? 70) then Some (c - 55)
  else if (97 <=? c) && (c <=? 102) then Some (c - 87)
  else None.

(** ** Searching *)

Fixpoint strip_prefix (prefix t : text) : option text :=
  match prefix, t with
  | [], t => Some t
  | c :: prefix, d :: t => if c =? d then strip_prefix prefix t else None
  | _, [] => None
  end.

Definition strip_suffix (suffix t : text) : option text := option_map (@rev char) (strip_prefix (rev suffix) (rev t)).

(** [s.rsplit_once(mid)]. *)
Fixpoint rsplit_once (mid t : text) : option (text * text) :=
  match match t with [] => None | c :: t' => option_map (fun r => (c :: fst r, snd r)) (rsplit_once mid t') end with
  | Some r => Some r
  | None => option_map (fun rest => ([], rest)) (strip_prefix mid t)
  end.

(** [t.contains(mid)] and [t.starts_with(prefix)]. *)
Definition contains (mid t : text) : bool := bool_decide (is_Some (rsplit_once mid t)).

Definition starts_with (prefix t : text) : bool := bool_decide (is_Some (strip_prefix prefix t)).

(** [t.split_whitespace()]. *)
Fixpoint split_whitespace (t : text) : list text :=
  match t with
  | [] => []
  | c :: t' =>
      if is_whitespace c then split_whitespace t'
      else match t' with
           | c' :: _ => if is_whitespace c' then [c] :: split_whitespace t'
                        else match split_whitespace t' with word :: words => (c :: word) :: words | [] => [[c]] end
           | [] => [[c]]
           end
  end.

(** ** Printing *)

(** The digits of a number below [10 ^ n]. *)
Fixpoint decimal_digits (n : nat) (v : Z) : text :=
  match n with
  | O => []
  | S n => if v <? 10 then [48 + v] else decimal_digits n (v / 10) ++ [48 + v mod 10]
  end.

(** [n.to_string()] of a 64-bit integer: twenty digits are enough. *)
Definition to_text (n : Z) : text :=
  if n <? 0 then 45 :: decimal_digits 20 (- n) else decimal_digits 20 n.

Definition upper_hex_digit (d : Z) : char := if d <? 10 then 48 + d else 55 + d.

(** [{b:02X}]. *)
Definition hex2 (b : u8) : text := [upper_hex_digit (b / 16); upper_hex_digit (b mod 16)].

(** ** Lemmas *)

Lemma digit_of d : 0 <= d < 10 -> digit (48 + d) = Some d.
Proof.
  intros Hd. unfold digit. rewrite (proj2 (Z.leb_le 48 _)), (proj2 (Z.leb_le _ 57)) by lia. cbn [andb]. f_equal. lia.
Qed.

Lemma digit_range c d : digit c = Some d -> 0 <= d < 10.
Proof. unfold digit. destruct ((48 <=? c) && (c <=? 57)) eqn:E; [|done]. intros [= <-]. lia. Qed.

Lemma parse_digits_nonneg t : forall acc v, 0 <= acc -> parse_digits acc t = Some v -> 0 <= v.
Proof.
  induction t as [|c t IH]; intros acc v Ha; cbn [parse_digits]; [by intros [= <-]|].
  destruct (digit c) as [d|] eqn:E; [|done]. cbn [mbind option_bind]. apply IH.
  pose proof (digit_range c d E). lia.
Qed.

Lemma parse_digits_app acc t u : parse_digits acc (t ++ u) = (v ← parse_digits acc t; parse_digits v u).
Proof.
  revert acc. induction t as [|c t IH]; intros acc; [done|]. cbn [app parse_digits].
  destruct (digit c); [apply IH|done].
Qed.

Lemma decimal_digits_parse n v : 0 <= v < 10 ^ Z.of_nat n -> parse_digits 0 (decimal_digits n v) = Some v.
Proof.
  revert v. induction n as [|n IH]; intros v Hv.
  - cbn in *. f_equal. lia.
  - cbn [decimal_digits]. destruct (Z.ltb_spec v 10) as [Hlt|Hge].
    + cbn [parse_digits]. rewrite digit_of by lia. done.
    + rewrite Nat2Z.inj_succ, Z.pow_succ_r in Hv by lia.
      rewrite parse_digits_app, IH by (split; [apply Z.div_pos; lia|apply Z.div_lt_upper_bound; lia]).
      cbn [mbind option_bind parse_digits]. rewrite digit_of by (apply Z.mod_pos_bound; lia).
      cbn [mbind option_bind parse_digits]. f_equal. pose proof (Z.div_mod v 10 ltac:(lia)). lia.
Qed.

Lemma decimal_digits_first n v : (0 < n)%nat -> 0 <= v < 10 ^ Z.of_nat n ->
  exists d t, decimal_digits n v = 48 + d :: t /\ 0 <= d < 10.
Proof.
  revert v. induction n as [|n IH]; [lia|]. intros v _ Hv. cbn [decimal_digits].
  destruct (Z.ltb_spec v 10); [exists v, []; split; [done|lia]|]. rewrite Nat2Z.inj_succ, Z.pow_succ_r in Hv by lia.
  assert (Hn : (0 < n)%nat) by (destruct n; [cbn in Hv|]; lia).
  destruct (IH (v / 10) Hn) as (d & t & -> & Hd); [split; [apply Z.div_pos; lia|apply Z.div_lt_upper_bound; lia]|].
  by exists d, (t ++ [48 + v mod 10]).
Qed.

Lemma sign_match {X} (c : char) (a b e : X) : c <> 43 -> c <> 45 ->
  match c with 43 => a | 45 => b | _ => e end = e.
Proof. intros H1 H2. destruct c as [|p|]; [done| |done]. do 6 (destruct p as [p|p|]; try done). Qed.

Lemma plus_match {X} (c : char) (a e : X) : c <> 43 -> match c with 43 => a | _ => e end = e.
Proof. intros H. destruct c as [|p|]; [done| |done]. do 6 (destruct p as [p|p|]; try done). Qed.

(** A number is read back from its decimal form. *)
Lemma parse_to_text n : -9223372036854775808 <= n <= 9223372036854775807 -> parse_i64 (to_text n) = Some n.
Proof.
  intros Hn. unfold to_text, parse_i64.
  assert (Hp : 9223372036854775808 < 10 ^ Z.of_nat 20) by (apply Z.ltb_lt; vm_compute; reflexivity).
  assert (Hu : forall v, 0 <= v <= 9223372036854775808 -> parse_unsigned (decimal_digits 20 v) = Some v).
  { intros v Hv. destruct (decimal_digits_first 20 v) as (d & t & E & _); [lia|lia|].
    unfold parse_unsigned. rewrite E, <- E. apply decimal_digits_parse. lia. }
  assert (Hr : (-9223372036854775808 <=? n) && (n <=? 9223372036854775807) = true) by lia.
  destruct (Z.ltb_spec n 0).
  - rewrite Hu by lia. cbn [option_map mbind option_bind]. by rewrite Z.opp_involutive, Hr.
  - pose proof (Hu n ltac:(lia)) as H'. destruct (decimal_digits_first 20 n) as (d & t & E & Hd); [lia|lia|].
    rewrite E in *. rewrite (sign_match (48 + d)) by lia. rewrite H'. cbn [mbind option_bind]. by rewrite Hr.
Qed.

Lemma hex_digit_of d : 0 <= d < 16 -> hex_digit (upper_hex_digit d) = Some d.
Proof.
  revert d. refine (below_decide 16 (fun d => hex_digit (upper_hex_digit d) = Some d) _). vm_compute. reflexivity.
Qed.

(** Numbers in the range of [i64]. *)
Definition is_i64 (n : Z) : Prop := -9223372036854775808 <= n < 9223372036854775808.

Definition solid (t : text) : Prop := Forall (fun c => is_whitespace c = false) t.

Lemma trim_start_solid t : solid t -> trim_start t = t.
Proof. destruct 1 as [|c t Hc Ht]; [done|]. cbn [trim_start]. by rewrite Hc. Qed.

Lemma trim_id t : solid t -> trim t = t.
Proof.
  intros Ht. unfold trim. rewrite (trim_start_solid t Ht), trim_start_solid by (by apply Forall_rev).
  apply rev_involutive.
Qed.

Lemma digit_solid d : 0 <= d < 10 -> is_whitespace (48 + d) = false.
Proof.
  revert d. refine (below_decide 10 (fun d => is_whitespace (48 + d) = false) _). vm_compute. reflexivity.
Qed.

Lemma decimal_digits_chars n v : 0 <= v -> Forall (fun c => 48 <= c <= 57) (decimal_digits n v).
Proof.
  revert v. induction n as [|n IH]; intros v Hv; cbn [decimal_digits]; [constructor|].
  destruct (Z.ltb_spec v 10); [apply Forall_cons_2; [lia|constructor]|].
  apply Forall_app. split; [apply IH, Z.div_pos; lia|]. pose proof (Z.mod_pos_bound v 10 ltac:(lia)).
  apply Forall_cons_2; [lia|constructor].
Qed.

Lemma digits_solid t : Forall (fun c => 48 <= c <= 57) t -> solid t.
Proof.
  intros H. eapply Forall_impl; [exact H|]. intros c Hc. cbn beta in Hc.
  replace c with (48 + (c - 48)) by lia. apply digit_solid. lia.
Qed.

Lemma to_text_solid n : solid (to_text n).
Proof.
  unfold to_text. destruct (Z.ltb_spec n 0); [apply Forall_cons_2; [done|]|]; apply digits_solid, decimal_digits_chars; lia.
Qed.

Lemma parse_printed n : is_i64 n -> parse_i64 (trim (to_text n)) = Some n.
Proof. unfold is_i64. intros Hn. rewrite trim_id by apply to_text_solid. apply parse_to_text. lia. Qed.

Lemma parse_i64_range t n : parse_i64 t = Some n -> is_i64 n.
Proof.
  unfold parse_i64. destruct (match t with [] => _ | _ => _ end) as [m|]; [|done]. cbn [mbind option_bind].
  destruct (_ && _)%bool eqn:E; [|done]. intros [= <-]. unfold is_i64. lia.
Qed.

Lemma parse_printed_u32 n : is_u32 n -> parse_u32 (to_text n) = Some n.
Proof.
  unfold is_u32. intros Hn. unfold to_text, parse_u32. rewrite (proj2 (Z.ltb_ge n 0)) by lia.
  assert (Hp : 4294967296 < 10 ^ Z.of_nat 20) by (apply Z.ltb_lt; vm_compute; reflexivity).
  assert (E : parse_unsigned (decimal_digits 20 n) = Some n).
  { destruct (decimal_digits_first 20 n) as (d & t & E & _); [lia|lia|].
    unfold parse_unsigned. rewrite E, <- E. apply decimal_digits_parse. lia. }
  destruct (decimal_digits_first 20 n) as (d & t & Et & Hd); [lia|lia|]. rewrite Et in *.
  rewrite (plus_match (48 + d)) by lia. rewrite E. cbn [mbind option_bind].
  unfold u32_max. by rewrite (proj2 (Z.leb_le n _)) by lia.
Qed.
