(* ===== verification/TextCodec.v ===== *)
(** * The octets of a text parameter ([bussard-model/src/text_codec.rs])

    The code pages a program's text parameters are written in, and a text as the
    NUL-padded octets of its field. *)

From Stdlib Require Import String.
From S2P Require Import Prelude Decimal.

Local Open Scope list_scope.
Local Open Scope Z_scope.

Inductive TextCodec : Type := Utf8 | Latin1 | Latin9 | Windows1252 | Ascii | Undeclared | Unknown.

#[export] Instance TextCodec_eq_dec : EqDecision TextCodec.
Proof. solve_decision. Defined.

(** Latin-9's differences from Latin-1: (octet, character). *)
Definition LATIN9 : list (u8 * char) :=
  [(164, 8364); (166, 352); (168, 353); (180, 381); (184, 382); (188, 338); (189, 339); (190, 376)].

(** Windows-1252's octets 0x80 to 0x9F. *)
Definition CP1252_HIGH : list (option char) :=
  [Some 8364; None; Some 8218; Some 402; Some 8222; Some 8230; Some 8224; Some 8225; Some 710; Some 8240;
   Some 352; Some 8249; Some 338; None; Some 381; None; None; Some 8216; Some 8217; Some 8220; Some 8221;
   Some 8226; Some 8211; Some 8212; Some 732; Some 8482; Some 353; Some 8250; Some 339; None; Some 382; Some 376].

Definition chars (s : string) : text := map (fun a => Z.of_N (Ascii.N_of_ascii a)) (list_ascii_of_string s).

(** [name.trim().to_ascii_lowercase().replace('_', "-")]. *)
Definition normalised (name : text) : text :=
  map (fun c => let c := to_ascii_lowercase c in if c =? 95 then 45 else c) (trim name).

Definition one_of (name : text) (names : list string) : bool :=
  existsb (fun s => bool_decide (name = chars s)) names.

Definition TextCodec_from_declaration (name : option text) : TextCodec :=
  match name with
  | None => Undeclared
  | Some name =>
      let name := normalised name in
      if one_of name ["utf-8"; "utf8"]%string then Utf8
      else if one_of name ["iso-8859-1"; "iso8859-1"; "latin1"; "latin-1"; "l1"]%string then Latin1
      else if one_of name ["iso-8859-15"; "iso8859-15"; "latin9"; "latin-9"; "l9"]%string then Latin9
      else if one_of name ["windows-1252"; "cp1252"]%string then Windows1252
      else if one_of name ["us-ascii"; "ascii"]%string then Ascii
      else Unknown
  end.

(** The octets that mean the same in the three code pages. *)
Definition undeclared_octet (b : u8) : bool :=
  (b <? 128) || ((160 <=? b) && negb (existsb (fun e => fst e =? b) LATIN9)).

(** The place of a character in [CP1252_HIGH]. *)
Fixpoint position (i : Z) (c : char) (l : list (option char)) : option Z :=
  match l with
  | [] => None
  | ch :: l => if bool_decide (ch = Some c) then Some i else position (i + 1) c l
  end.

Definition as_octet (code : Z) : option u8 := if code <? 256 then Some code else None.

Definition TextCodec_octet (codec : TextCodec) (c : char) : option u8 :=
  if c <? 128 then as_octet c
  else
    match codec with
    | Utf8 | Ascii | Unknown => None
    | Latin1 => as_octet c
    | Undeclared => b ← as_octet c; if undeclared_octet b then Some b else None
    | Latin9 =>
        match List.find (fun e => snd e =? c) LATIN9 with
        | Some (b, _) => Some b
        | None => b ← as_octet c; if existsb (fun e => fst e =? b) LATIN9 then None else Some b
        end
    | Windows1252 =>
        match position 0 c CP1252_HIGH with
        | Some i => as_octet (128 + i)
        | None => b ← as_octet c; if 160 <=? b then Some b else None
        end
    end.

Definition TextCodec_char_of (codec : TextCodec) (b : u8) : option char :=
  if b <? 128 then Some b
  else
    match codec with
    | Utf8 | Ascii | Unknown => None
    | Latin1 => Some b
    | Undeclared => if undeclared_octet b then Some b else None
    | Latin9 => Some (match List.find (fun e => fst e =? b) LATIN9 with Some (_, c) => c | None => b end)
    | Windows1252 =>
        if (128 <=? b) && (b <=? 159) then mjoin (CP1252_HIGH !! Z.to_nat (b - 128)) else Some b
    end.

(** ** UTF-8, as the standard library encodes it *)

Definition utf8_char (c : char) : bytes :=
  if c <? 128 then [c]
  else if c <? 2048 then [192 + c / 64; 128 + c mod 64]
  else if c <? 65536 then [224 + c / 4096; 128 + (c / 64) mod 64; 128 + c mod 64]
  else [240 + c / 262144; 128 + (c / 4096) mod 64; 128 + (c / 64) mod 64; 128 + c mod 64].

Definition utf8 (t : text) : bytes := flat_map utf8_char t.

Definition REPLACEMENT : char := 65533.

(** The number of continuation octets after a lead octet, the bits it brings,
    and the range of the first continuation. *)
Definition utf8_lead (b : u8) : option (nat * Z * Z * Z) :=
  if (194 <=? b) && (b <=? 223) then Some (1%nat, b - 192, 128, 191)
  else if b =? 224 then Some (2%nat, 0, 160, 191)
  else if b =? 237 then Some (2%nat, 13, 128, 159)
  else if (225 <=? b) && (b <=? 239) then Some (2%nat, b - 224, 128, 191)
  else if b =? 240 then Some (3%nat, 0, 144, 191)
  else if b =? 244 then Some (3%nat, 4, 128, 143)
  else if (241 <=? b) && (b <=? 243) then Some (3%nat, b - 240, 128, 191)
  else None.

(** The rest of a sequence, or where it breaks off. *)
Fixpoint utf8_rest (n : nat) (acc lo hi : Z) (l : bytes) : option char * bytes :=
  match n with
  | O => (Some acc, l)
  | S n =>
      match l with
      | b :: l' => if (lo <=? b) && (b <=? hi) then utf8_rest n (acc * 64 + (b - 128)) 128 191 l' else (None, l)
      | [] => (None, [])
      end
  end.

(** [String::from_utf8_lossy]: each maximal broken sequence is one U+FFFD. *)
Fixpoint from_utf8_lossy (fuel : nat) (l : bytes) : text :=
  match fuel, l with
  | S fuel, b :: l =>
      if b <? 128 then b :: from_utf8_lossy fuel l
      else
        match utf8_lead b with
        | None => REPLACEMENT :: from_utf8_lossy fuel l
        | Some (n, acc, lo, hi) =>
            let '(c, l) := utf8_rest n acc lo hi l in
            default REPLACEMENT c :: from_utf8_lossy fuel l
        end
  | _, _ => []
  end.

(** ** Fields *)

Inductive TextError : Type :=
| NoOctet (c : char)
| TooLong (octets : Z).

Fixpoint one_octet_each (codec : TextCodec) (t : text) : result TextError bytes :=
  match t with
  | [] => Ok []
  | c :: t =>
      match TextCodec_octet codec c with
      | None => Err (NoOctet c)
      | Some b => match one_octet_each codec t with Ok l => Ok (b :: l) | Err e => Err e end
      end
  end.

Definition TextCodec_encode (codec : TextCodec) (t : text) (len : nat) : result TextError bytes :=
  match match codec with Utf8 => Ok (utf8 t) | _ => one_octet_each codec t end with
  | Err e => Err e
  | Ok out =>
      if (len <? length out)%nat then Err (TooLong (zlen out))
      else Ok (out ++ replicate (len - length out) 0)
  end.

(** The octets up to the last that is not NUL. *)
Fixpoint drop_nuls (l : bytes) : bytes :=
  match l with
  | b :: l' => if b =? 0 then drop_nuls l' else l
  | [] => []
  end.

Definition used_octets (field : bytes) : bytes := rev (drop_nuls (rev field)).

Definition TextCodec_decode (codec : TextCodec) (field : bytes) : text :=
  let used := used_octets field in
  match codec with
  | Utf8 | Unknown => from_utf8_lossy (length used) used
  | _ => map (fun b => default REPLACEMENT (TextCodec_char_of codec b)) used
  end.

(** ** Lemmas: the code pages *)

(** What stands in the tables. *)
Lemma position_spec l c : forall i j, position i c l = Some j ->
  exists n, j = i + Z.of_nat n /\ l !! n = Some (Some c).
Proof.
  induction l as [|ch l IH]; intros i j; cbn [position]; [done|]. case_bool_decide as E.
  - intros [= <-]. exists 0%nat. split; [lia|by rewrite E].
  - intros H. destruct (IH _ _ H) as (n & -> & Hn). exists (S n). split; [lia|done].
Qed.

Lemma octet_char codec c b : 0 <= c -> TextCodec_octet codec c = Some b ->
  is_u8 b /\ TextCodec_char_of codec b = Some c.
Proof.
  intros Hc. unfold TextCodec_octet, TextCodec_char_of, as_octet, is_u8.
  destruct (Z.ltb_spec c 128) as [H|H].
  { rewrite (proj2 (Z.ltb_lt c 256)) by lia. intros [= <-]. rewrite (proj2 (Z.ltb_lt c 128)) by lia. split; [lia|done]. }
  destruct codec; try done.
  - destruct (Z.ltb_spec c 256); [|done]. intros [= <-]. rewrite (proj2 (Z.ltb_ge c 128)) by lia. split; [lia|done].
  - destruct (List.find (fun e => snd e =? c) LATIN9) as [[b' c']|] eqn:E.
    + intros [= <-]. apply List.find_some in E as [Hin Ec]. cbn [snd] in Ec. apply Z.eqb_eq in Ec as <-.
      cbn in Hin. repeat destruct Hin as [[= <- <-]|Hin]; try done.
    + destruct (Z.ltb_spec c 256); [|done]. cbn [mbind option_bind].
      destruct (existsb _ LATIN9) eqn:Ex; [done|]. intros [= <-]. split; [lia|].
      rewrite (proj2 (Z.ltb_ge c 128)) by lia.
      destruct (List.find (fun e => fst e =? c) LATIN9) as [e|] eqn:Ef; [|done]. apply List.find_some in Ef as [Hin He].
      assert (Ht : existsb (fun e => fst e =? c) LATIN9 = true) by (apply existsb_exists; by exists e). congruence.
  - destruct (position 0 c CP1252_HIGH) as [i|] eqn:E.
    + destruct (position_spec _ _ _ _ E) as (n & -> & Hn). pose proof (lookup_lt_Some _ _ _ Hn) as Hl.
      change (length CP1252_HIGH) with 32%nat in Hl. rewrite Z.add_0_l.
      rewrite (proj2 (Z.ltb_lt _ 256)) by lia. intros [= <-]. split; [lia|].
      rewrite (proj2 (Z.ltb_ge _ 128)), (proj2 (Z.leb_le 128 _)), (proj2 (Z.leb_le _ 159)) by lia. cbn [andb].
      replace (Z.to_nat (128 + Z.of_nat n - 128)) with n by lia. by rewrite Hn.
    + destruct (Z.ltb_spec c 256); [|done]. cbn [mbind option_bind]. destruct (Z.leb_spec 160 c); [|done].
      intros [= <-]. split; [lia|]. rewrite (proj2 (Z.ltb_ge c 128)), (proj2 (Z.leb_gt c 159)) by lia.
      by rewrite andb_false_r.
  - destruct (Z.ltb_spec c 256); [|done]. cbn [mbind option_bind]. destruct (undeclared_octet c) eqn:Eu; [|done].
    intros [= <-]. rewrite (proj2 (Z.ltb_ge c 128)), Eu by lia. split; [lia|done].
Qed.

Lemma char_octet codec c b : is_u8 b -> TextCodec_char_of codec b = Some c -> TextCodec_octet codec c = Some b.
Proof.
  intros Hb E. revert b Hb E.
  assert (H : forall b, is_u8 b -> default true (option_map (fun c => bool_decide (TextCodec_octet codec c = Some b))
    (TextCodec_char_of codec b)) = true).
  { refine (u8_decide (fun b => default true (option_map (fun c => bool_decide (TextCodec_octet codec c = Some b))
      (TextCodec_char_of codec b)) = true) _). destruct codec; vm_compute; reflexivity. }
  intros b Hb E. specialize (H b Hb). rewrite E in H. cbn in H. by apply bool_decide_eq_true in H.
Qed.

(** ** Lemmas: UTF-8 *)

Definition is_char (c : char) : Prop := 0 <= c < 1114112 /\ ~ 55296 <= c < 57344.

Lemma utf8_char_length c : (1 <= length (utf8_char c) <= 4)%nat.
Proof. unfold utf8_char. repeat destruct (_ <? _); cbn; lia. Qed.

Lemma utf8_char_last c : 0 <= c -> exists l b, utf8_char c = l ++ [b] /\ (b = 0 -> c = 0).
Proof.
  intros Hc. pose proof (Z.mod_pos_bound c 64 ltac:(lia)). unfold utf8_char.
  destruct (c <? 128); [by exists [], c|].
  destruct (c <? 2048); [|destruct (c <? 65536)]; eexists (_ :: _), (128 + c mod 64);
    (split; [|lia]); [by instantiate (1 := [])|by instantiate (1 := [_])|by instantiate (1 := [_; _])].
Qed.

(** The octets of a character of more than one octet are read back. *)
Lemma utf8_sequence c l : is_char c -> 128 <= c -> exists b rest n acc lo hi, utf8_char c ++ l = b :: rest /\ 128 <= b /\
  utf8_lead b = Some (n, acc, lo, hi) /\ utf8_rest n acc lo hi rest = (Some c, l).
Proof.
  intros [Hc Hs] H1. unfold utf8_char. rewrite (proj2 (Z.ltb_ge c 128)) by done.
  assert (Hin : forall lo hi b, lo <= b <= hi -> (lo <=? b) && (b <=? hi) = true) by lia.
  pose proof (Z.div_mod c 64 ltac:(lia)) as D1. pose proof (Z.mod_pos_bound c 64 ltac:(lia)) as M1.
  pose proof (Z.div_mod (c / 64) 64 ltac:(lia)) as D2. pose proof (Z.mod_pos_bound (c / 64) 64 ltac:(lia)) as M2.
  pose proof (Z.div_mod (c / 64 / 64) 64 ltac:(lia)) as D3. pose proof (Z.mod_pos_bound (c / 64 / 64) 64 ltac:(lia)) as M3.
  assert (E2 : c / 4096 = c / 64 / 64) by (by rewrite Z.div_div by lia).
  assert (E3 : c / 262144 = c / 64 / 64 / 64) by (by rewrite !Z.div_div by lia).
  destruct (Z.ltb_spec c 2048) as [H2|H2]; [|destruct (Z.ltb_spec c 65536) as [H3|H3]]; cbn [app].
  - eexists _, _, 1%nat, _, _, _. split; [done|]. split; [lia|]. unfold utf8_lead. rewrite Hin by lia. split; [done|].
    cbn [utf8_rest]. rewrite Hin by lia. do 2 f_equal. lia.
  - rewrite E2. set (a := c / 64 / 64) in *. set (m := (c / 64) mod 64) in *. set (k := c mod 64) in *.
    assert (El : exists acc lo hi, utf8_lead (224 + a) = Some (2%nat, acc, lo, hi) /\ acc = a /\
      lo <= 128 + m <= hi).
    { unfold utf8_lead. rewrite (proj2 (Z.leb_gt (224 + a) 223)), andb_false_r by lia.
      destruct (Z.eqb_spec (224 + a) 224); [exists 0, 160, 191; split; [done|lia]|].
      destruct (Z.eqb_spec (224 + a) 237); [exists 13, 128, 159; split; [done|lia]|].
      rewrite Hin by lia. exists (224 + a - 224), 128, 191. split; [done|lia]. }
    destruct El as (acc & lo & hi & El & -> & Hm). eexists _, _, 2%nat, _, _, _. split; [done|]. split; [lia|]. split; [exact El|].
    cbn [utf8_rest]. rewrite !Hin by lia. do 2 f_equal. lia.
  - rewrite E2, E3. set (a := c / 64 / 64 / 64) in *. set (p := (c / 64 / 64) mod 64) in *.
    set (m := (c / 64) mod 64) in *. set (k := c mod 64) in *.
    assert (El : exists acc lo hi, utf8_lead (240 + a) = Some (3%nat, acc, lo, hi) /\ acc = a /\
      lo <= 128 + p <= hi).
    { unfold utf8_lead. rewrite (proj2 (Z.leb_gt (240 + a) 223)), (proj2 (Z.leb_gt (240 + a) 239)), !andb_false_r by lia.
      rewrite (proj2 (Z.eqb_neq (240 + a) 224)), (proj2 (Z.eqb_neq (240 + a) 237)) by lia.
      destruct (Z.eqb_spec (240 + a) 240); [exists 0, 144, 191; split; [done|lia]|].
      destruct (Z.eqb_spec (240 + a) 244); [exists 4, 128, 143; split; [done|lia]|].
      rewrite Hin by lia. exists (240 + a - 240), 128, 191. split; [done|lia]. }
    destruct El as (acc & lo & hi & El & -> & Hm). eexists _, _, 3%nat, _, _, _. split; [done|]. split; [lia|]. split; [exact El|].
    cbn [utf8_rest]. rewrite !Hin by lia. do 2 f_equal. lia.
Qed.

Lemma lossy_char fuel c l : is_char c -> from_utf8_lossy (S fuel) (utf8_char c ++ l) = c :: from_utf8_lossy fuel l.
Proof.
  intros Hc. destruct (Z.lt_ge_cases c 128) as [H|H].
  - unfold utf8_char. rewrite (proj2 (Z.ltb_lt c 128)) by done. cbn [app from_utf8_lossy]. by rewrite (proj2 (Z.ltb_lt c 128)).
  - destruct (utf8_sequence c l Hc H) as (b & rest & n & acc & lo & hi & -> & Hb & El & Er). cbn [from_utf8_lossy].
    by rewrite (proj2 (Z.ltb_ge b 128)), El, Er.
Qed.

Lemma lossy_utf8 t : Forall is_char t -> forall fuel, (length (utf8 t) <= fuel)%nat -> from_utf8_lossy fuel (utf8 t) = t.
Proof.
  induction 1 as [|c t Hc H IH]; intros fuel Hf; [by destruct fuel|]. cbn [utf8 flat_map] in *. fold (utf8 t) in *.
  rewrite length_app in Hf. pose proof (utf8_char_length c). destruct fuel as [|fuel]; [lia|].
  rewrite lossy_char by done. f_equal. apply IH. lia.
Qed.

(** ** Lemmas: fields *)

Lemma one_octet_each_ok codec t out : Forall is_char t -> one_octet_each codec t = Ok out ->
  map (TextCodec_char_of codec) out = map Some t /\ Forall is_u8 out.
Proof.
  intros H. revert out. induction H as [|c t [Hc _] H IH]; intros out; cbn [one_octet_each]; [by intros [= <-]|].
  destruct (TextCodec_octet codec c) as [b|] eqn:E; [|done].
  destruct (one_octet_each codec t) as [l|]; [|done]. intros [= <-]. destruct (IH l eq_refl) as [E1 E2].
  destruct (octet_char codec c b ltac:(lia) E) as [Hb Ec]. cbn [map]. rewrite Ec, E1. split; [done|by constructor].
Qed.

Lemma drop_nuls_replicate n l : drop_nuls (replicate n 0 ++ l) = drop_nuls l.
Proof. induction n as [|n IH]; [done|exact IH]. Qed.

Lemma drop_nuls_keep b l : b <> 0 -> drop_nuls (b :: l) = b :: l.
Proof. intros Hb. cbn [drop_nuls]. by rewrite (proj2 (Z.eqb_neq b 0)). Qed.

Lemma used_octets_padded out n : last out <> Some 0 -> used_octets (out ++ replicate n 0) = out.
Proof.
  intros Hl. unfold used_octets. rewrite rev_app_distr.
  assert (Er : rev (replicate n 0) = replicate n 0).
  { rewrite <- (reverse_replicate n 0) at 2. unfold reverse. apply rev_alt. }
  rewrite Er, drop_nuls_replicate. destruct out as [|b out _] using rev_ind; [done|].
  rewrite last_snoc in Hl. rewrite rev_app_distr. cbn [rev app].
  rewrite drop_nuls_keep by congruence. cbn [rev]. by rewrite rev_involutive.
Qed.

Lemma last_map_some {X} (f : X -> option X) (l t : list X) x :
  map f l = map Some t -> last l = Some x -> exists y, last t = Some y /\ f x = Some y.
Proof.
  revert t. induction l as [|a l IH] using rev_ind; [done|]. intros t E Hl.
  rewrite last_snoc in Hl. injection Hl as ->. destruct t as [|y t _] using rev_ind.
  - rewrite map_app in E. destruct (map f l); discriminate E.
  - rewrite !map_app in E. apply app_inj_2 in E as [_ E]; [|done]. injection E as E. exists y.
    by rewrite last_snoc.
Qed.

Lemma text_round codec t len field (Ht : Forall is_char t) (Hl : last t <> Some 0)
    (He : TextCodec_encode codec t len = Ok field) :
  length field = len /\ TextCodec_decode codec field = t.
Proof.
  unfold TextCodec_encode in He.
  destruct (match codec with Utf8 => _ | _ => _ end) as [out|] eqn:Eout; [|done].
  destruct (Nat.ltb_spec len (length out)) as [|Hlen]; [done|]. injection He as <-.
  split; [rewrite length_app, length_replicate; lia|]. unfold TextCodec_decode.
  destruct (decide (codec = Utf8)) as [->|Hn].
  - injection Eout as <-. rewrite used_octets_padded; [by apply lossy_utf8|]. intros Hlast. apply Hl.
    clear -Ht Hlast. destruct t as [|c t _] using rev_ind; [done|]. rewrite last_snoc.
    apply Forall_app in Ht as [_ Ht]. apply Forall_cons_1 in Ht as [[Hc _] _].
    unfold utf8 in Hlast. rewrite flat_map_app in Hlast. cbn [flat_map] in Hlast. rewrite app_nil_r in Hlast.
    destruct (utf8_char_last c ltac:(lia)) as (l & b & E & Hb). rewrite E, app_assoc, last_snoc in Hlast.
    injection Hlast as ->. by rewrite Hb.
  - assert (Eone : one_octet_each codec t = Ok out) by (by destruct codec).
    destruct (one_octet_each_ok codec t out Ht Eone) as [Em Hu].
    rewrite used_octets_padded.
    2: { intros Hlast. destruct (last_map_some _ _ _ _ Em Hlast) as (y & Ey & E0). apply Hl. rewrite Ey.
         unfold TextCodec_char_of in E0. cbn in E0. congruence. }
    assert (Ed : map (fun b => default REPLACEMENT (TextCodec_char_of codec b)) out = t).
    { clear -Em. revert t Em. induction out as [|b out IH]; intros [|c t]; try done. cbn [map]. intros [= E Em].
      rewrite E. cbn. by rewrite (IH t Em). }
    destruct (decide (codec = Unknown)) as [->|Hk]; [|by destruct codec].
    assert (Hascii : Forall (fun b => is_u8 b /\ b < 128) out).
    { clear -Em Hu. revert t Em. induction Hu as [|b out Hb Hu IH]; intros [|c t]; try done. cbn [map].
      intros [= E Em]. constructor; [|by apply (IH t)]. split; [done|]. unfold TextCodec_char_of in E.
      destruct (Z.ltb_spec b 128); [done|done]. }
    rewrite <- Ed. clear -Hascii.
    assert (Hf : forall fuel, (length out <= fuel)%nat ->
      from_utf8_lossy fuel out = map (fun b => default REPLACEMENT (TextCodec_char_of Unknown b)) out); [|by apply Hf].
    induction Hascii as [|b out [Hb Hlt] H IH]; intros [|fuel] Hf; try done; cbn [length] in Hf; [lia|].
    cbn [from_utf8_lossy map]. unfold TextCodec_char_of at 1. rewrite (proj2 (Z.ltb_lt b 128)) by done.
    cbn [default option_rect from_option id]. f_equal. apply IH. lia.
Qed.

(** ** Theorems *)

(** A code page is one to one: a character has an octet exactly when the octet
    stands for the character. *)
Theorem code_pages_one_to_one codec c b (Hc : 0 <= c) (Hb : is_u8 b) :
  TextCodec_octet codec c = Some b <-> TextCodec_char_of codec b = Some c.
Proof. split; [intros E; by apply octet_char|by apply char_octet]. Qed.

(** A text that fits its field fills it and is read back, in every code page, as
    long as it does not itself end in NUL. *)
Theorem text_reads_back codec t len field (Ht : Forall is_char t) (Hl : last t <> Some 0)
    (He : TextCodec_encode codec t len = Ok field) :
  length field = len /\ TextCodec_decode codec field = t.
Proof. by eapply text_round. Qed.

(** ** Examples *)

Lemma code_pages_one_to_one_witness : TextCodec_char_of Windows1252 128 = Some 8364.
Proof. apply (code_pages_one_to_one Windows1252 8364 128); [lia|unfold is_u8; lia|reflexivity]. Defined.

(** "Störung" and the euro sign. *)
Definition demo_text : text := [83; 116; 246; 114; 117; 110; 103; 8364].

Lemma text_reads_back_witness :
  TextCodec_encode Latin9 demo_text 10 = Ok [83; 116; 246; 114; 117; 110; 103; 164; 0; 0] /\
  TextCodec_decode Latin9 [83; 116; 246; 114; 117; 110; 103; 164; 0; 0] = demo_text /\
  TextCodec_encode Undeclared demo_text 10 = Err (NoOctet 8364).
Proof.
  assert (E : TextCodec_encode Latin9 demo_text 10 = Ok [83; 116; 246; 114; 117; 110; 103; 164; 0; 0])
    by (vm_compute; reflexivity).
  split; [exact E|]. split; [|vm_compute; reflexivity].
  apply (text_reads_back Latin9 demo_text 10); [|discriminate|exact E].
  unfold demo_text. repeat (apply Forall_cons_2; [unfold is_char; lia|]). apply Forall_nil_2.
Defined.
