(* ===== verification/ColorCodec.v ===== *)
(** * Colour parameters ([bussard-model/src/color_codec.rs])

    A colour as [#] and two hexadecimal digits per component, and its octets: the
    components, or for an HSV parameter the hue, saturation and value computed
    from them.

    The nearest of the RGB colours of a triple is chosen by a distance in
    floating point; the distances and their order are variables here. *)

From S2P Require Import Prelude Decimal.

Local Open Scope list_scope.
Local Open Scope Z_scope.

Inductive ColorSpace : Type := Rgb | Rgbw | Hsv.

#[export] Instance ColorSpace_eq_dec : EqDecision ColorSpace.
Proof. solve_decision. Defined.

Definition ColorSpace_octets (space : ColorSpace) : nat :=
  match space with Rgb | Hsv => 3 | Rgbw => 4 end.

Record rgb : Type := MkRgb { red : u8; green : u8; blue : u8 }.

#[export] Instance rgb_eq_dec : EqDecision rgb.
Proof. solve_decision. Defined.

Definition rgb_octets (c : rgb) : bytes := [red c; green c; blue c].

Definition rgb_to_hsv_octets (c : rgb) : Z * Z * Z :=
  let '(MkRgb r g b) := c in
  let max := Z.max (Z.max r g) b in
  let min := Z.min (Z.min r g) b in
  let d := max - min in
  if d =? 0 then (0, 0, max)
  else
    let sectors :=
      if max =? r then (if b <=? g then g - b else 6 * d - (b - g))
      else if max =? g then 2 * d + b - r
      else 4 * d + r - g in
    (sectors * 255 / (6 * d), 255 * d / max, max).

Section Nearest.
  Context {D : Type} (dist : rgb -> Z * Z * Z -> D) (nearer : D -> D -> bool).

(** The arrangements of the largest, middle and smallest component. *)
Definition arrangements (v mid min : u8) : list rgb :=
  [MkRgb v mid min; MkRgb mid v min; MkRgb min v mid; MkRgb min mid v; MkRgb mid min v; MkRgb v min mid].

Definition consider (hsv : Z * Z * Z) (best : option (rgb * D)) (cand : rgb) : option (rgb * D) :=
  if negb (bool_decide (rgb_to_hsv_octets cand = hsv)) then best
  else
    let d := dist cand hsv in
    match best with
    | None => Some (cand, d)
    | Some (_, d') => if nearer d d' then Some (cand, d) else best
    end.

Definition candidates (s v : u8) : list rgb :=
  flat_map (fun min =>
      if negb (bool_decide (snd (fst (rgb_to_hsv_octets (MkRgb v min min))) = s)) then []
      else flat_map (fun mid => arrangements v mid min) (seqZ min (v - min + 1)))
    (seqZ 0 (v + 1)).

Definition hsv_octets_to_rgb (h s v : u8) : option rgb :=
  option_map fst (foldl (consider (h, s, v)) None (candidates s v)).

(** ** The codec *)

Inductive ColorError : Type := NotAColour.

Fixpoint hex_pairs (t : text) : option bytes :=
  match t with
  | [] => Some []
  | a :: b :: t =>
      a ← hex_digit a; b ← hex_digit b; l ← hex_pairs t; Some (a * 16 + b :: l)
  | _ => None
  end.

Definition strip_hash (t : text) : text := match t with 35 :: t => t | _ => t end.

Definition ColorSpace_encode (space : ColorSpace) (value : text) : result ColorError bytes :=
  let hex := strip_hash (trim value) in
  if negb (length hex =? ColorSpace_octets space * 2)%nat then Err NotAColour
  else
    match hex_pairs hex with
    | None => Err NotAColour
    | Some components =>
        match space, components with
        | Hsv, [r; g; b] => let '(h, s, v) := rgb_to_hsv_octets (MkRgb r g b) in Ok [h; s; v]
        | _, _ => Ok components
        end
    end.

Definition HSV_PREFIX : text := [72; 83; 86; 58].

Definition ColorSpace_decode (space : ColorSpace) (octets : bytes) : option text :=
  if negb (length octets =? ColorSpace_octets space)%nat then None
  else
    match space, octets with
    | Hsv, [h; s; v] =>
        match hsv_octets_to_rgb h s v with
        | Some c => Some (35 :: flat_map hex2 (rgb_octets c))
        | None => Some (HSV_PREFIX ++ flat_map hex2 [h; s; v])
        end
    | _, _ => Some (35 :: flat_map hex2 octets)
    end.

(** ** Lemmas: the search *)

Definition rgb_ok (c : rgb) : Prop := is_u8 (red c) /\ is_u8 (green c) /\ is_u8 (blue c).

Lemma hsv_ok c : rgb_ok c -> let '(h, s, v) := rgb_to_hsv_octets c in is_u8 h /\ is_u8 s /\ is_u8 v.
Proof.
  destruct c as [r g b]. unfold rgb_ok, is_u8. cbn [red green blue rgb_to_hsv_octets]. intros (Hr & Hg & Hb).
  set (max := Z.max (Z.max r g) b). set (min := Z.min (Z.min r g) b).
  destruct (Z.eqb_spec (max - min) 0) as [|Hd]; [lia|].
  assert (Hpos : 0 < max - min) by lia. assert (Hmax : 0 < max) by lia.
  set (d := max - min) in *. set (sectors := if max =? r then _ else _).
  assert (Hsec : 0 <= sectors < 6 * d).
  { unfold sectors. destruct (Z.eqb_spec max r); [destruct (Z.leb_spec b g); lia|].
    destruct (Z.eqb_spec max g); lia. }
  split; [|split; [|lia]].
  - split; [apply Z.div_pos; nia|apply Z.div_lt_upper_bound; nia].
  - split; [apply Z.div_pos; nia|apply Z.div_lt_upper_bound; nia].
Qed.

Lemma consider_fold hsv l : forall best, (forall c d, best = Some (c, d) -> rgb_to_hsv_octets c = hsv) ->
  let r := foldl (consider hsv) best l in
  (forall c d, r = Some (c, d) -> rgb_to_hsv_octets c = hsv /\ (best = Some (c, d) \/ In c l)) /\
  ((best <> None \/ exists c, In c l /\ rgb_to_hsv_octets c = hsv) -> r <> None).
Proof.
  induction l as [|c l IH]; intros best Hb; cbn [foldl].
  - split; [intros c d E; split; [by eapply Hb|by left]|]. intros [H|(c & [] & _)]. done.
  - assert (Hb' : forall c' d, consider hsv best c = Some (c', d) ->
      rgb_to_hsv_octets c' = hsv /\ (best = Some (c', d) \/ c' = c)).
    { intros c' d. unfold consider. case_bool_decide as E; cbn [negb].
      - destruct best as [[c0 d0]|]; [|intros [= <- <-]; by split; [|right]].
        destruct (nearer _ _); [intros [= <- <-]; by split; [|right]|].
        intros E'. split; [by eapply Hb|by left].
      - intros E'. split; [by eapply Hb|by left]. }
    destruct (IH (consider hsv best c)) as [H1 H2]; [intros c' d E; by apply (Hb' c' d)|]. split.
    + intros c' d E. destruct (H1 c' d E) as [Eh [Ein|Hin]]; split; try done; [|by right; right].
      destruct (Hb' c' d Ein) as [_ [?| ->]]; [by left|by right; left].
    + intros Hne. apply H2. destruct Hne as [Hne|(c' & [->|Hin] & E)].
      * left. unfold consider. destruct (negb _); [done|]. destruct best as [[c0 d0]|]; [|done]. by destruct (nearer _ _).
      * left. unfold consider. rewrite bool_decide_eq_true_2 by done. cbn [negb].
        destruct best as [[c0 d0]|]; [|done]. by destruct (nearer _ _).
      * right. by exists c'.
Qed.

(** The saturation depends on the largest and the smallest component only. *)
Lemma saturation_of_extremes c : rgb_ok c ->
  let max := Z.max (Z.max (red c) (green c)) (blue c) in
  let min := Z.min (Z.min (red c) (green c)) (blue c) in
  snd (fst (rgb_to_hsv_octets (MkRgb max min min))) = snd (fst (rgb_to_hsv_octets c)) /\
  snd (rgb_to_hsv_octets c) = max.
Proof.
  destruct c as [r g b]. cbn [red green blue rgb_to_hsv_octets]. intros _.
  set (max := Z.max (Z.max r g) b). set (min := Z.min (Z.min r g) b).
  assert (E1 : Z.max (Z.max max min) min = max) by lia. assert (E2 : Z.min (Z.min max min) min = min) by lia.
  rewrite E1, E2. by destruct (max - min =? 0).
Qed.

Lemma candidate_of c h s v : rgb_ok c -> rgb_to_hsv_octets c = (h, s, v) -> In c (candidates s v).
Proof.
  intros Hc E. destruct (saturation_of_extremes c Hc) as [Es Ev]. rewrite E in Es, Ev. cbn [fst snd] in Es, Ev.
  destruct c as [r g b]. unfold rgb_ok, is_u8 in Hc. cbn [red green blue] in *.
  set (min := Z.min (Z.min r g) b) in *. unfold candidates. apply in_flat_map. exists min. split.
  { apply list_elem_of_In, elem_of_seqZ. lia. }
  rewrite <- Ev in Es. rewrite bool_decide_eq_true_2 by exact Es. cbn [negb]. apply in_flat_map.
  exists (r + g + b - v - min). split; [apply list_elem_of_In, elem_of_seqZ; lia|].
  unfold arrangements. cbn [In].
  destruct (Z.eq_dec r v) as [Hr|Hr]; [destruct (Z.eq_dec b min) as [Hb|Hb]|destruct (Z.eq_dec g v) as [Hg|Hg];
    [destruct (Z.eq_dec b min) as [Hb|Hb]|destruct (Z.eq_dec r min) as [Hrm|Hrm]]].
  - left. f_equal; lia.
  - right; right; right; right; right; left. f_equal; lia.
  - right; left. f_equal; lia.
  - right; right; left. f_equal; lia.
  - right; right; right; left. f_equal; lia.
  - right; right; right; right; left. f_equal; lia.
Qed.

Lemma search_spec h s v :
  (forall c, hsv_octets_to_rgb h s v = Some c -> rgb_to_hsv_octets c = (h, s, v) /\ In c (candidates s v)) /\
  ((exists c, rgb_ok c /\ rgb_to_hsv_octets c = (h, s, v)) -> hsv_octets_to_rgb h s v <> None).
Proof.
  unfold hsv_octets_to_rgb.
  destruct (consider_fold (h, s, v) (candidates s v) None ltac:(done)) as [H1 H2]. split.
  - intros c. destruct (foldl _ None _) as [[c' d]|]; [|done]. intros [= <-].
    destruct (H1 c' d eq_refl) as [E [F|Hin]]; done.
  - intros (c & Hc & E). specialize (H2 (or_intror (ex_intro _ c (conj (candidate_of c h s v Hc E) E)))).
    by destruct (foldl _ None _).
Qed.

Lemma candidates_ok s v c : is_u8 v -> In c (candidates s v) -> rgb_ok c.
Proof.
  intros Hv Hin. unfold candidates in Hin. apply in_flat_map in Hin as (min & Hmin & Hin).
  apply list_elem_of_In, elem_of_seqZ in Hmin. destruct (negb _); [done|].
  apply in_flat_map in Hin as (mid & Hmid & Hin). apply list_elem_of_In, elem_of_seqZ in Hmid.
  unfold arrangements, rgb_ok, is_u8 in *. cbn [In] in Hin.
  repeat destruct Hin as [<-|Hin]; try done; cbn [red green blue]; lia.
Qed.

End Nearest.

(** ** Lemmas: the text *)

Lemma trim_solid t a b : is_whitespace a = false -> is_whitespace b = false ->
  trim (a :: t ++ [b]) = a :: t ++ [b].
Proof.
  intros Ha Hb. unfold trim. cbn [trim_start]. rewrite Ha. change (a :: t ++ [b]) with ((a :: t) ++ [b]).
  rewrite rev_app_distr. cbn [rev app trim_start]. rewrite Hb. cbn [rev]. by rewrite rev_app_distr, rev_involutive.
Qed.

Lemma hex_solid d : 0 <= d < 16 -> is_whitespace (upper_hex_digit d) = false.
Proof.
  revert d. refine (below_decide 16 (fun d => is_whitespace (upper_hex_digit d) = false) _). vm_compute. reflexivity.
Qed.

Lemma three_octets a b c : is_u8 a -> is_u8 b -> is_u8 c -> bytes_ok [a; b; c].
Proof. intros. by apply Forall_cons_2; [|apply Forall_cons_2; [|apply Forall_cons_2; [|apply Forall_nil_2]]]. Qed.

Lemma octet_digits b : is_u8 b -> 0 <= b / 16 < 16 /\ 0 <= b mod 16 < 16 /\ b / 16 * 16 + b mod 16 = b.
Proof. unfold is_u8. intros Hb. pose proof (Z.div_mod b 16 ltac:(lia)). pose proof (Z.mod_pos_bound b 16 ltac:(lia)). lia. Qed.

Lemma hex_pairs_hex2 l : bytes_ok l -> hex_pairs (flat_map hex2 l) = Some l.
Proof.
  induction 1 as [|b l Hb H IH]; [done|]. destruct (octet_digits b Hb) as (H1 & H2 & E).
  cbn [flat_map hex2 app hex_pairs]. rewrite !hex_digit_of, IH by done. cbn [mbind option_bind]. by rewrite E.
Qed.

(** The text of octets, up to three of them and more, keeps its ends when trimmed. *)
Lemma trim_hash l : bytes_ok l -> l <> [] -> trim (35 :: flat_map hex2 l) = 35 :: flat_map hex2 l.
Proof.
  intros Hl Hne. destruct l as [|b l _] using rev_ind; [done|]. apply Forall_app in Hl as [_ Hb].
  apply Forall_cons_1 in Hb as [Hb _]. destruct (octet_digits b Hb) as (_ & H2 & _).
  rewrite flat_map_app. cbn [flat_map hex2 app].
  change (flat_map hex2 l ++ [upper_hex_digit (b / 16); upper_hex_digit (b mod 16)])
    with (flat_map hex2 l ++ [upper_hex_digit (b / 16)] ++ [upper_hex_digit (b mod 16)]).
  rewrite app_assoc. apply trim_solid; [done|by apply hex_solid].
Qed.

Lemma length_hex2 l : length (flat_map hex2 l) = (2 * length l)%nat.
Proof. induction l as [|b l IH]; [done|]. cbn [flat_map hex2 app length]. rewrite IH. lia. Qed.

Lemma encode_hash space l : bytes_ok l -> length l = ColorSpace_octets space ->
  ColorSpace_encode space (35 :: flat_map hex2 l)
  = match space, l with
    | Hsv, [r; g; b] => let '(h, s, v) := rgb_to_hsv_octets (MkRgb r g b) in Ok [h; s; v]
    | _, _ => Ok l
    end.
Proof.
  intros Hl Hn. unfold ColorSpace_encode. rewrite trim_hash; [|done|by intros ->; destruct space]. cbn [strip_hash].
  rewrite length_hex2, Hn, Nat.mul_comm, Nat.eqb_refl. cbn [negb]. by rewrite hex_pairs_hex2.
Qed.

Section Codec.
  Context {D : Type} (dist : rgb -> Z * Z * Z -> D) (nearer : D -> D -> bool).

Local Abbreviation decode := (ColorSpace_decode dist nearer).

Lemma hsv_found c : rgb_ok c -> let '(h, s, v) := rgb_to_hsv_octets c in
  exists c', hsv_octets_to_rgb dist nearer h s v = Some c' /\ rgb_ok c' /\ rgb_to_hsv_octets c' = (h, s, v).
Proof.
  intros Hc. pose proof (hsv_ok c Hc) as Hok. destruct (rgb_to_hsv_octets c) as [[h s] v] eqn:E.
  destruct (search_spec dist nearer h s v) as [H1 H2].
  destruct (hsv_octets_to_rgb dist nearer h s v) as [c'|] eqn:Es.
  - destruct (H1 c' eq_refl) as [E' Hin]. exists c'. split; [done|]. split; [|done].
    apply (candidates_ok s v c'); [apply Hok|exact Hin].
  - exfalso. apply H2; [by exists c|done].
Qed.

(** The octets of a decoded colour are those it was decoded from. *)
Lemma encode_decoded space octets t : bytes_ok octets -> decode space octets = Some (35 :: t) ->
  ColorSpace_encode space (35 :: t) = Ok octets.
Proof.
  intros Hok. unfold ColorSpace_decode. destruct (Nat.eqb_spec (length octets) (ColorSpace_octets space)) as [Hl|]; [|done].
  cbn [negb]. destruct space; [intros [= <-]; by rewrite encode_hash|intros [= <-]; by rewrite encode_hash|].
  destruct octets as [|h [|s [|v [|x octets]]]]; try done.
  apply Forall_cons_1 in Hok as [Hh Hok]. apply Forall_cons_1 in Hok as [Hs Hok]. apply Forall_cons_1 in Hok as [Hv _].
  destruct (hsv_octets_to_rgb dist nearer h s v) as [c|] eqn:E; [|done]. intros [= <-].
  destruct (search_spec dist nearer h s v) as [H1 _]. destruct (H1 c E) as [Ec Hin].
  pose proof (candidates_ok s v c Hv Hin) as (Hr & Hg & Hb). destruct c as [r g b]. cbn [red green blue] in *.
  etransitivity; [exact (encode_hash Hsv [r; g; b] (three_octets r g b Hr Hg Hb) eq_refl)|]. by rewrite Ec.
Qed.

Lemma hex_digit_range c d : hex_digit c = Some d -> 0 <= d < 16.
Proof.
  unfold hex_digit. destruct ((48 <=? c) && (c <=? 57)) eqn:E1; [intros [= <-]; lia|].
  destruct ((65 <=? c) && (c <=? 70)) eqn:E2; [intros [= <-]; lia|].
  destruct ((97 <=? c) && (c <=? 102)) eqn:E3; [intros [= <-]; lia|done].
Qed.

Lemma hex_pairs_ok n : forall t l, length t = (2 * n)%nat -> hex_pairs t = Some l -> bytes_ok l /\ length l = n.
Proof.
  induction n as [|n IH]; intros t l Hn E.
  - destruct t; [|done]. injection E as <-. split; [constructor|done].
  - destruct t as [|a [|b t]]; cbn [length] in Hn; [lia|lia|]. cbn [hex_pairs] in E.
    destruct (hex_digit a) as [x|] eqn:Ea; [|done]. destruct (hex_digit b) as [y|] eqn:Eb; [|done].
    cbn [mbind option_bind] in E. destruct (hex_pairs t) as [l'|] eqn:El; [|done]. injection E as <-.
    destruct (IH t l' ltac:(lia) El) as [H1 H2].
    pose proof (hex_digit_range a x Ea). pose proof (hex_digit_range b y Eb).
    split; [constructor; [unfold is_u8; lia|done]|cbn [length]; lia].
Qed.

(** What is encoded has a decoded form of its own, a [#] colour. *)
Lemma decode_encoded space value octets : ColorSpace_encode space value = Ok octets ->
  exists t, decode space octets = Some (35 :: t) /\ bytes_ok octets.
Proof.
  unfold ColorSpace_encode. set (hex := strip_hash (trim value)).
  destruct (Nat.eqb_spec (length hex) (ColorSpace_octets space * 2)) as [Hl|]; [|done]. cbn [negb].
  destruct (hex_pairs hex) as [l|] eqn:El; [|done].
  destruct (hex_pairs_ok (ColorSpace_octets space) hex l ltac:(lia) El) as [Hok Hlen].
  unfold ColorSpace_decode. destruct space.
  - intros [= <-]. rewrite Hlen, Nat.eqb_refl. by eexists.
  - intros [= <-]. rewrite Hlen, Nat.eqb_refl. by eexists.
  - destruct l as [|r [|g [|b [|x l]]]]; try done.
    apply Forall_cons_1 in Hok as [Hr Hok]. apply Forall_cons_1 in Hok as [Hg Hok]. apply Forall_cons_1 in Hok as [Hb _].
    pose proof (hsv_found (MkRgb r g b) (conj Hr (conj Hg Hb))) as Hf.
    pose proof (hsv_ok (MkRgb r g b) (conj Hr (conj Hg Hb))) as Ho.
    destruct (rgb_to_hsv_octets (MkRgb r g b)) as [[h s] v]. intros [= <-]. cbn [length Nat.eqb ColorSpace_octets negb].
    destruct Hf as (c' & -> & _). eexists. split; [done|]. destruct Ho as (H1 & H2 & H3). by apply three_octets.
Qed.

(** ** Theorems *)

(** A colour value that is accepted decodes, from the octets written for it, to a
    colour with exactly these octets, whichever way the nearest RGB colour of an
    HSV triple is chosen. *)
Theorem colour_reads_back space value octets (He : ColorSpace_encode space value = Ok octets) :
  exists canonical, decode space octets = Some canonical /\ ColorSpace_encode space canonical = Ok octets.
Proof.
  destruct (decode_encoded space value octets He) as (t & Ed & Hok). exists (35 :: t).
  split; [done|by apply encode_decoded].
Qed.

Lemma flat_hex_inj l l' : bytes_ok l -> bytes_ok l' -> flat_map hex2 l = flat_map hex2 l' -> l = l'.
Proof. intros H H' E. pose proof (hex_pairs_hex2 l H) as E1. rewrite E, hex_pairs_hex2 in E1 by done. by injection E1. Qed.

(** Different octets always decode to different texts, also the HSV triples that
    no colour has. *)
Theorem colours_decode_apart space octets octets' t (Hok : bytes_ok octets) (Hok' : bytes_ok octets')
    (E : decode space octets = Some t) (E' : decode space octets' = Some t) :
  octets = octets'.
Proof.
  assert (Hform : forall o, decode space o = Some t ->
    (exists u, t = 35 :: u) \/ t = HSV_PREFIX ++ flat_map hex2 o).
  { intros o Eo. unfold ColorSpace_decode in Eo. destruct (negb _); [done|].
    destruct space; [injection Eo as <-; by left; eexists|injection Eo as <-; by left; eexists|].
    destruct o as [|h [|s [|v [|x o]]]]; try (injection Eo as <-; by left; eexists).
    destruct (hsv_octets_to_rgb dist nearer h s v); injection Eo as <-; [by left; eexists|by right]. }
  destruct (Hform octets E) as [(u & ->)|Et], (Hform octets' E') as [(u' & Eu)|Et'].
  - pose proof (encode_decoded space octets u Hok E) as H1. pose proof (encode_decoded space octets' u Hok' E') as H2.
    congruence.
  - done.
  - by rewrite Eu in Et.
  - apply flat_hex_inj; [done|done|]. rewrite Et in Et'. by apply app_inv_head in Et'.
Qed.

End Codec.

(** ** Examples *)

(** The distance to the colour itself, exact; any other serves as well. *)
Definition demo_dist (c : rgb) (hsv : Z * Z * Z) : Z := red c + 256 * green c + 65536 * blue c.

(** [#FC35C7], captured from ETS as the triple DF C9 FC. *)
Definition demo_colour : text := [35; 70; 67; 51; 53; 67; 55].

Lemma colour_reads_back_witness :
  ColorSpace_encode Hsv demo_colour = Ok [223; 201; 252] /\
  exists canonical, ColorSpace_decode demo_dist Z.ltb Hsv [223; 201; 252] = Some canonical /\
    ColorSpace_encode Hsv canonical = Ok [223; 201; 252].
Proof.
  assert (E : ColorSpace_encode Hsv demo_colour = Ok [223; 201; 252]) by (vm_compute; reflexivity).
  split; [exact E|]. exact (colour_reads_back demo_dist Z.ltb Hsv demo_colour [223; 201; 252] E).
Defined.

(** A triple no colour has: hue without saturation. *)
Lemma colours_decode_apart_witness :
  ColorSpace_decode demo_dist Z.ltb Hsv [5; 0; 3] = Some [72; 83; 86; 58; 48; 53; 48; 48; 48; 51] /\
  forall octets, bytes_ok octets ->
    ColorSpace_decode demo_dist Z.ltb Hsv octets = Some [72; 83; 86; 58; 48; 53; 48; 48; 48; 51] -> [5; 0; 3] = octets.
Proof.
  assert (E : ColorSpace_decode demo_dist Z.ltb Hsv [5; 0; 3] = Some [72; 83; 86; 58; 48; 53; 48; 48; 48; 51])
    by (vm_compute; reflexivity).
  split; [exact E|]. intros octets Hok E'.
  apply (colours_decode_apart demo_dist Z.ltb Hsv [5; 0; 3] octets [72; 83; 86; 58; 48; 53; 48; 48; 48; 51]); [|exact Hok|exact E|exact E'].
  repeat (apply Forall_cons_2; [split; [apply Z.leb_le|apply Z.ltb_lt]; reflexivity|]). apply Forall_nil_2.
Defined.
