(* ===== verification/Float64.v ===== *)
(** * Binary floating-point numbers

    What the program uses of [f32] and [f64]: reading them from text, comparing
    them, and the conversion of integers, over the Standard Library's
    [SpecFloat] (IEEE 754 with rounding to nearest, ties to even). *)

From Stdlib Require Import String SpecFloat.
From S2P Require Import Prelude Decimal TextCodec.

Local Open Scope list_scope.
Local Open Scope Z_scope.

(** A format: its precision and the bound of its exponents. *)
Record FloatFormat : Type := MkFloatFormat { ff_prec : Z; ff_emax : Z }.

Definition F32 : FloatFormat := MkFloatFormat 24 128.
Definition F64 : FloatFormat := MkFloatFormat 53 1024.

Definition f64 : Type := spec_float.

(** ** Conversion and reading *)

(** [n as f64]. *)
Definition f64_of_int (n : Z) : f64 := binary_normalize 53 1024 n 0 false.

(** The number [m * 10 ^ e], rounded once. *)
Definition of_decimal (fmt : FloatFormat) (negative : bool) (m : positive) (e : Z) : spec_float :=
  if 0 <=? e then
    binary_normalize (ff_prec fmt) (ff_emax fmt) (if negative then - (Z.pos m * 10 ^ e) else Z.pos m * 10 ^ e) 0 negative
  else SFdiv (ff_prec fmt) (ff_emax fmt) (S754_finite negative m 0) (S754_finite false (Z.to_pos (10 ^ (- e))) 0).

(** The digits at the start of a text: their value after [acc], how many, the rest. *)
Fixpoint read_digits (acc : Z) (n : nat) (t : text) : Z * nat * text :=
  match t with
  | c :: t' => match digit c with Some d => read_digits (acc * 10 + d) (S n) t' | None => (acc, n, t) end
  | [] => (acc, n, [])
  end.

(** The exponent's digits: further ones are ignored once it is past 65536. *)
Fixpoint read_exponent (acc : Z) (t : text) : Z * text :=
  match t with
  | c :: t' =>
      match digit c with
      | Some d => read_exponent (if acc <? 65536 then acc * 10 + d else acc) t'
      | None => (acc, t)
      end
  | [] => (acc, [])
  end.

(** [e] with an optional sign and at least one digit. *)
Definition parse_scientific (t : text) : option (Z * text) :=
  let '(negative, t) := match t with 45 :: t => (true, t) | 43 :: t => (false, t) | _ => (false, t) end in
  match t with
  | c :: _ =>
      match digit c with
      | Some _ => let '(e, rest) := read_exponent 0 t in Some (if negative then - e else e, rest)
      | None => None
      end
  | [] => None
  end.

(** Digits, a fraction and an exponent: the number's digits and power of ten. *)
Definition parse_number (t : text) : option (Z * Z) :=
  let '(m, int_digits, t) := read_digits 0 0 t in
  let '(m, frac_digits, t) :=
    match t with
    | 46 :: t => read_digits m 0 t
    | _ => (m, O, t)
    end in
  if (int_digits + frac_digits =? 0)%nat then None
  else
    '(e, t) ← match t with
              | c :: t' => if (c =? 101) || (c =? 69) then parse_scientific t' else Some (0, t)
              | [] => Some (0, t)
              end;
    match t with [] => Some (m, e - Z.of_nat frac_digits) | _ => None end.

Definition parse_inf_nan (t : text) (negative : bool) : option spec_float :=
  let t := map to_ascii_lowercase t in
  if bool_decide (t = chars "nan") then Some S754_nan
  else if bool_decide (t = chars "inf") || bool_decide (t = chars "infinity") then Some (S754_infinity negative)
  else None.

(** [t.parse()]. *)
Definition parse_float (fmt : FloatFormat) (t : text) : option spec_float :=
  let '(negative, t) := match t with 45 :: t => (true, t) | 43 :: t => (false, t) | _ => (false, t) end in
  match t with
  | [] => None
  | _ =>
      match parse_number t with
      | Some (m, e) =>
          Some match m with Z.pos m => of_decimal fmt negative m e | _ => S754_zero negative end
      | None => parse_inf_nan t negative
      end
  end.

Definition parse_f64 (t : text) : option f64 := parse_float F64 t.

(** [v.fract() == 0.0]: false for the infinities, whose fraction is no number. *)
Definition is_whole (v : f64) : bool :=
  match v with
  | S754_zero _ => true
  | S754_finite _ m e => (0 <=? e) || (Z.pos m mod 2 ^ (- e) =? 0)
  | _ => false
  end.

(** ** Lemmas: integers are exact below 2 ^ 53 *)

Lemma digits2_bounds p : 2 ^ (Z.pos (digits2_pos p) - 1) <= Z.pos p < 2 ^ Z.pos (digits2_pos p).
Proof.
  assert (H : forall k v w, 0 < k -> 2 ^ (k - 1) <= v < 2 ^ k -> 2 * v <= w < 2 * v + 2 -> 2 ^ (Z.succ k - 1) <= w < 2 ^ Z.succ k).
  { intros k v w Hk Hv Hw. replace (Z.succ k - 1) with (Z.succ (k - 1)) by lia. rewrite !Z.pow_succ_r by lia. lia. }
  induction p as [p IH|p IH|]; cbn [digits2_pos]; [| |cbn; lia];
    rewrite Pos2Z.inj_succ; (eapply H; [|exact IH|]; lia).
Qed.

Lemma digits2_unique p d : 0 < d -> 2 ^ (d - 1) <= Z.pos p < 2 ^ d -> Z.pos (digits2_pos p) = d.
Proof.
  intros Hd Hp. pose proof (digits2_bounds p) as Hb. set (k := Z.pos (digits2_pos p)) in *.
  assert (Hk : 0 < k) by (unfold k; lia).
  destruct (Z.lt_trichotomy k d) as [H|[H|H]]; [|done|].
  - pose proof (Z.pow_le_mono_r 2 k (d - 1) ltac:(lia) ltac:(lia)). lia.
  - pose proof (Z.pow_le_mono_r 2 d (k - 1) ltac:(lia) ltac:(lia)). lia.
Qed.

Lemma iter_xO n p : Z.pos (Pos.iter xO p n) = Z.pos p * 2 ^ Z.pos n.
Proof.
  revert p. induction n as [|n IH] using Pos.peano_ind; intros p; [cbn; lia|].
  rewrite Pos.iter_succ, Pos2Z.inj_xO, IH, Pos2Z.inj_succ, Z.pow_succ_r by lia. lia.
Qed.

Definition exponent_of (p : positive) : Z := Z.pos (digits2_pos p) - 53.

Lemma finite_rounded sx m e : 2 ^ 52 <= Z.pos m < 2 ^ 53 -> -1074 <= e <= 971 ->
  binary_round_aux 53 1024 sx (Z.pos m) e loc_Exact = S754_finite sx m e.
Proof.
  intros Hm He. assert (Hd : Z.pos (digits2_pos m) = 53) by (apply digits2_unique; lia).
  assert (Hf : fexp 53 1024 (53 + e) - e = 0) by (unfold fexp, emin; lia).
  unfold binary_round_aux, shr_fexp. cbn [Zdigits2]. rewrite Hd, Hf. cbn [shr_record_of_loc shr shr_m loc_of_shr_record round_nearest_even].
  cbn [Zdigits2]. rewrite Hd, Hf. cbn [shr_record_of_loc shr shr_m]. by rewrite (proj2 (Z.leb_le e (1024 - 53))) by lia.
Qed.

Lemma round_small sx p : Z.pos p < 2 ^ 53 -> exists m, Z.pos m = Z.pos p * 2 ^ (- exponent_of p) /\
  binary_round 53 1024 sx p 0 = S754_finite sx m (exponent_of p).
Proof.
  intros Hp. pose proof (digits2_bounds p) as Hb. unfold exponent_of. set (d := Z.pos (digits2_pos p)) in *.
  assert (Hd : 0 < d <= 53).
  { split; [unfold d; lia|]. destruct (Z.le_gt_cases d 53); [done|].
    pose proof (Z.pow_le_mono_r 2 53 (d - 1) ltac:(lia) ltac:(lia)). lia. }
  unfold binary_round. change (Z.pos (digits2_pos p)) with d. replace (fexp 53 1024 (d + 0)) with (d - 53) by (unfold fexp, emin; lia).
  unfold shl_align. rewrite Z.sub_0_r. destruct (d - 53) as [|k|k] eqn:Ek.
  - exists p. split; [cbn; lia|]. apply finite_rounded; [|lia]. replace d with 53 in Hb by lia. lia.
  - lia.
  - exists (Pos.iter xO p k). split; [rewrite iter_xO; done|]. apply finite_rounded; [|lia].
    rewrite iter_xO. replace (Z.pos k) with (53 - d) by lia.
    assert (E1 : 2 ^ (d - 1) * 2 ^ (53 - d) = 2 ^ 52) by (rewrite <- Z.pow_add_r by lia; f_equal; lia).
    assert (E2 : 2 ^ d * 2 ^ (53 - d) = 2 ^ 53) by (rewrite <- Z.pow_add_r by lia; f_equal; lia).
    assert (0 < 2 ^ (53 - d)) by (apply Z.pow_pos_nonneg; lia). nia.
Qed.

(** Two positive floats of that form compare as their numbers. *)
Lemma compare_small p q m1 m2 : Z.pos p < 2 ^ 53 -> Z.pos q < 2 ^ 53 ->
  Z.pos m1 = Z.pos p * 2 ^ (- exponent_of p) -> Z.pos m2 = Z.pos q * 2 ^ (- exponent_of q) ->
  match exponent_of p ?= exponent_of q with Eq => Pos.compare_cont Eq m1 m2 | Lt => Lt | Gt => Gt end = (p ?= q)%positive.
Proof.
  intros Hp Hq E1 E2. pose proof (digits2_bounds p) as Bp. pose proof (digits2_bounds q) as Bq. unfold exponent_of in *.
  set (d1 := Z.pos (digits2_pos p)) in *. set (d2 := Z.pos (digits2_pos q)) in *.
  assert (0 < d1 /\ 0 < d2) as [Hd1 Hd2] by (unfold d1, d2; lia).
  destruct (Z.compare_spec (d1 - 53) (d2 - 53)) as [H|H|H].
  - replace d2 with d1 in * by lia. change (Pos.compare_cont Eq m1 m2) with (m1 ?= m2)%positive.
    assert (d1 <= 53).
    { destruct (Z.le_gt_cases d1 53); [done|]. pose proof (Z.pow_le_mono_r 2 53 (d1 - 1) ltac:(lia) ltac:(lia)). lia. }
    assert (0 < 2 ^ (- (d1 - 53))) by (apply Z.pow_pos_nonneg; lia).
    change (p ?= q)%positive with (Z.pos p ?= Z.pos q). change (m1 ?= m2)%positive with (Z.pos m1 ?= Z.pos m2).
    rewrite E1, E2. symmetry. apply Zmult_compare_compat_r. lia.
  - symmetry. apply Pos.compare_lt_iff. apply Pos2Z.pos_lt_pos.
    pose proof (Z.pow_le_mono_r 2 d1 (d2 - 1) ltac:(lia) ltac:(lia)). lia.
  - symmetry. apply Pos.compare_gt_iff. apply Pos2Z.pos_lt_pos.
    pose proof (Z.pow_le_mono_r 2 d2 (d1 - 1) ltac:(lia) ltac:(lia)). lia.
Qed.

Definition small (n : Z) : Prop := - 2 ^ 53 < n < 2 ^ 53.

Lemma f64_compare a b : small a -> small b -> SFcompare (f64_of_int a) (f64_of_int b) = Some (a ?= b).
Proof.
  unfold small, f64_of_int, binary_normalize. intros Ha Hb.
  destruct a as [|p|p], b as [|q|q]; try done.
  - by destruct (round_small false q ltac:(lia)) as (m & _ & ->).
  - by destruct (round_small true q ltac:(lia)) as (m & _ & ->).
  - by destruct (round_small false p ltac:(lia)) as (m & _ & ->).
  - destruct (round_small false p ltac:(lia)) as (m1 & E1 & ->), (round_small false q ltac:(lia)) as (m2 & E2 & ->).
    cbn [SFcompare]. by rewrite (compare_small p q m1 m2) by (done || lia).
  - destruct (round_small false p ltac:(lia)) as (m1 & E1 & ->), (round_small true q ltac:(lia)) as (m2 & E2 & ->). done.
  - by destruct (round_small true p ltac:(lia)) as (m & _ & ->).
  - destruct (round_small true p ltac:(lia)) as (m1 & E1 & ->), (round_small false q ltac:(lia)) as (m2 & E2 & ->). done.
  - destruct (round_small true p ltac:(lia)) as (m1 & E1 & ->), (round_small true q ltac:(lia)) as (m2 & E2 & ->).
    cbn [SFcompare Z.compare]. rewrite <- (compare_small p q m1 m2) by (done || lia).
    by destruct (exponent_of p ?= exponent_of q).
Qed.

Lemma f64_eqb a b : small a -> small b -> SFeqb (f64_of_int a) (f64_of_int b) = (a =? b).
Proof. intros Ha Hb. unfold SFeqb. rewrite f64_compare by done. by rewrite Z.eqb_compare. Qed.

Lemma f64_ltb a b : small a -> small b -> SFltb (f64_of_int a) (f64_of_int b) = (a <? b).
Proof. intros Ha Hb. unfold SFltb. rewrite f64_compare by done. unfold Z.ltb. by destruct (a ?= b). Qed.

Lemma f64_leb a b : small a -> small b -> SFleb (f64_of_int a) (f64_of_int b) = (a <=? b).
Proof. intros Ha Hb. unfold SFleb. rewrite f64_compare by done. unfold Z.leb. by destruct (a ?= b). Qed.

Lemma f64_whole n : small n -> is_whole (f64_of_int n) = true.
Proof.
  intros Hn. assert (H : forall sx p, Z.pos p < 2 ^ 53 -> is_whole (binary_round 53 1024 sx p 0) = true).
  { intros sx p Hp. destruct (round_small sx p Hp) as (m & E & ->). cbn [is_whole]. rewrite E.
    destruct (Z.leb_spec 0 (exponent_of p)); [done|]. cbn [orb]. rewrite Z.mod_mul; [done|].
    apply Z.pow_nonzero; lia. }
  unfold small in Hn. unfold f64_of_int, binary_normalize. destruct n; [done|apply H; lia|apply H; lia].
Qed.

(** The decimal form of an integer is read as that integer. *)
Lemma read_digits_all n v acc k rest : 0 <= v < 10 ^ Z.of_nat n ->
  exists j, read_digits acc k (decimal_digits n v ++ rest)
    = read_digits (acc * 10 ^ Z.of_nat j + v) (k + j) rest /\ (0 < n -> 0 < j)%nat.
Proof.
  revert v acc k rest. induction n as [|n IH]; intros v acc k rest Hv.
  - exists 0%nat. cbn in Hv. cbn [decimal_digits app]. split; [|lia]. f_equal; [lia|lia].
  - cbn [decimal_digits]. destruct (Z.ltb_spec v 10) as [Hlt|Hge].
    + exists 1%nat. cbn [app read_digits]. rewrite digit_of by lia. split; [|lia]. f_equal; lia.
    + rewrite Nat2Z.inj_succ, Z.pow_succ_r in Hv by lia.
      destruct (IH (v / 10) acc k ((48 + v mod 10) :: rest)) as (j & E & _);
        [split; [apply Z.div_pos; lia|apply Z.div_lt_upper_bound; lia]|].
      exists (S j). rewrite <- app_assoc. cbn [app]. split; [|lia]. etransitivity; [exact E|]. cbn [read_digits].
      rewrite digit_of by (apply Z.mod_pos_bound; lia). f_equal; [|lia].
      rewrite Nat2Z.inj_succ, Z.pow_succ_r by lia. pose proof (Z.div_mod v 10 ltac:(lia)). lia.
Qed.

Lemma parse_number_digits v : 0 <= v < 10 ^ 20 -> parse_number (decimal_digits 20 v) = Some (v, 0).
Proof.
  intros Hv. destruct (read_digits_all 20 v 0 0 [] Hv) as (j & E & Hj). rewrite app_nil_r in E.
  unfold parse_number. rewrite E. cbn [read_digits]. specialize (Hj ltac:(lia)).
  destruct (Nat.eqb_spec (0 + j + 0) 0); [lia|]. cbn [mbind option_bind]. by rewrite Z.mul_0_l, Z.add_0_l.
Qed.

Lemma parse_f64_integer n : -9223372036854775808 <= n <= 9223372036854775807 -> parse_f64 (to_text n) = Some (f64_of_int n).
Proof.
  intros Hn. assert (Hp : 9223372036854775808 < 10 ^ 20) by (apply Z.ltb_lt; vm_compute; reflexivity).
  assert (Hpos : forall sx v, 0 <= v <= 9223372036854775808 ->
    match decimal_digits 20 v with [] => None | _ => match parse_number (decimal_digits 20 v) with
      | Some (m, e) => Some match m with Z.pos m => of_decimal F64 sx m e | _ => S754_zero sx end
      | None => parse_inf_nan (decimal_digits 20 v) sx end end
    = Some match v with Z.pos p => binary_normalize 53 1024 (if sx then - v else v) 0 sx | _ => S754_zero sx end).
  { intros sx v Hv. rewrite parse_number_digits by lia.
    destruct (decimal_digits_first 20 v) as (d & t & E & _); [lia|lia|]. rewrite E.
    destruct v as [|p|p]; [done| |lia]. unfold of_decimal. cbn [Z.leb]. rewrite Z.mul_1_r. done. }
  unfold parse_f64, parse_float, to_text, f64_of_int. destruct (Z.ltb_spec n 0) as [Hneg|Hge].
  - rewrite (Hpos true (- n)) by lia. destruct n; [lia|lia|]. done.
  - destruct (decimal_digits_first 20 n) as (d & t & E & Hd); [lia|lia|].
    pose proof (Hpos false n ltac:(lia)) as H. rewrite E in H |- *. rewrite sign_match by lia. rewrite H.
    destruct n; [done|done|lia].
Qed.

(** ** Examples *)

Example parse_f64_decimal :
  map parse_f64 [chars "0.1"; chars "-1.5e3"; chars ".5"; chars "9007199254740993"; chars "1e400"; chars "-Infinity";
    chars "1e"; chars "."; chars "2.4703282292062328e-324"]
  = [Some (S754_finite false 7205759403792794 (-56)); Some (S754_finite true 6597069766656000 (-42));
     Some (S754_finite false 4503599627370496 (-53)); Some (S754_finite false 4503599627370496 1);
     Some (S754_infinity false); Some (S754_infinity true); None; None; Some (S754_finite false 1 (-1074))].
Proof. vm_compute. reflexivity. Qed.
