(* ===== verification/Flags.v ===== *)
(** * Com-object flags and priorities ([crates/bussard-model/src/flags.rs])

    The six flags as the bits of an octet, with their text form [CRWTUI], and the
    two-bit transmission priority. *)

From S2P Require Import Prelude.
From Stdlib Require Import Ascii String.

Local Open Scope string_scope.
Local Open Scope list_scope.
Local Open Scope Z_scope.

Definition Flags : Type := u8.

Definition FLAG_COMMUNICATION : Flags := 1.
Definition FLAG_READ : Flags := 2.
Definition FLAG_WRITE : Flags := 4.
Definition FLAG_TRANSMIT : Flags := 8.
Definition FLAG_UPDATE : Flags := 16.
Definition FLAG_INIT : Flags := 32.

Definition Flags_contains (f g : Flags) : bool := Z.land f g =? g.

(** The order of printing and parsing. *)
Definition FLAGS_ORDER : list (ascii * Flags) :=
  [("C"%char, FLAG_COMMUNICATION); ("R"%char, FLAG_READ); ("W"%char, FLAG_WRITE);
   ("T"%char, FLAG_TRANSMIT); ("U"%char, FLAG_UPDATE); ("I"%char, FLAG_INIT)].

Inductive FlagsParseError : Type :=
| UnexpectedChar (found : ascii) (input : string)
| Duplicate (found : ascii) (input : string).

#[export] Instance FlagsParseError_eq_dec : EqDecision FlagsParseError.
Proof. solve_decision. Defined.

Definition Flags_to_string (f : Flags) : string :=
  foldr (fun '(ch, flag) rest => if Flags_contains f flag then String ch rest else rest)
    EmptyString FLAGS_ORDER.

(** [from_str]'s loop over the characters (of ASCII text). *)
Fixpoint Flags_parse (input s : string) (flags : Flags) : result FlagsParseError Flags :=
  match s with
  | EmptyString => Ok flags
  | String ch s =>
      match List.find (fun e => bool_decide (fst e = ch)) FLAGS_ORDER with
      | None => Err (UnexpectedChar ch input)
      | Some (_, flag) =>
          if Flags_contains flags flag then Err (Duplicate ch input)
          else Flags_parse input s (Z.lor flags flag)
      end
  end.

Definition Flags_from_str (s : string) : result FlagsParseError Flags := Flags_parse s s 0.

Inductive ComPriority : Type := ComSystem | ComHigh | ComAlarm | ComLow.

Definition ComPriority_default : ComPriority := ComLow.

Definition ComPriority_code (p : ComPriority) : u16 :=
  match p with ComSystem => 0 | ComHigh => 1 | ComAlarm => 2 | ComLow => 3 end.

(** ** Theorems *)

Lemma flag_find ch flag : In (ch, flag) FLAGS_ORDER ->
  List.find (fun e => bool_decide (fst e = ch)) FLAGS_ORDER = Some (ch, flag).
Proof. intros H. repeat destruct H as [[= <- <-]|H]; done. Qed.

(** What parsing reaches holds the flags it started with and no bit of its own. *)
Lemma Flags_parse_range input s : forall flags f, 0 <= flags < 64 ->
  Flags_parse input s flags = Ok f -> 0 <= f < 64.
Proof.
  induction s as [|ch s IH]; intros flags f Hf; cbn [Flags_parse]; [by intros [= <-]|].
  destruct (List.find _ FLAGS_ORDER) as [[c flag]|] eqn:E; [|done].
  destruct (Flags_contains flags flag); [done|]. apply IH.
  apply List.find_some in E as [Hin _].
  assert (Hlor : all_below 64 (fun v => forallb (fun e =>
    (0 <=? Z.lor v (snd e)) && (Z.lor v (snd e) <? 64)) FLAGS_ORDER) = true) by (vm_compute; reflexivity).
  pose proof (all_below_spec 64 _ Hlor flags Hf) as Hb. cbn beta in Hb.
  rewrite forallb_forall in Hb. specialize (Hb _ Hin). cbn [snd] in Hb. lia.
Qed.

(** The text of a set of flags is read back as that set, and whatever text is
    accepted prints, in its canonical order, to a text of the same flags. *)
Theorem flags_roundtrip :
  (forall f, 0 <= f < 64 -> Flags_from_str (Flags_to_string f) = Ok f) /\
  (forall s f, Flags_from_str s = Ok f -> 0 <= f < 64 /\ Flags_from_str (Flags_to_string f) = Ok f).
Proof.
  assert (Hrt : forall f, 0 <= f < 64 -> Flags_from_str (Flags_to_string f) = Ok f).
  { intros f Hf. refine (below_decide 64 (fun f => Flags_from_str (Flags_to_string f) = Ok f) _ f Hf).
    vm_compute. reflexivity. }
  split; [exact Hrt|]. intros s f E. pose proof (Flags_parse_range s s 0 f ltac:(lia) E). by split; [|apply Hrt].
Qed.
