(* ===== verification/Address.v ===== *)
(** * KNX addresses ([crates/bussard-model/src/address.rs])

    Group addresses [main/middle/sub] (5/3/8 bits) and individual addresses
    [area.line.device] (4/4/8 bits), both held as one 16-bit word.  A word is
    the record's only field, so [from_raw] is the constructor and [raw] the
    projection, as in the source's tuple structs.  Their printing and parsing follow. *)

From S2P Require Import Prelude Decimal.

Local Open Scope string_scope.
Local Open Scope list_scope.
Local Open Scope Z_scope.

(** The reason of [NotAnInteger], the error of the integer parser, is left out. *)
Inductive AddressParseError : Type :=
| Shape (expected : string) (found : text)
| NotAnInteger (index : nat) (value : text)
| OutOfRange (part : string) (value min max : u32).

#[export] Instance AddressParseError_eq_dec : EqDecision AddressParseError.
Proof. solve_decision. Defined.

Record GroupAddress : Type := GroupAddress_from_raw { GroupAddress_raw : u16 }.

Record IndividualAddress : Type :=
  IndividualAddress_from_raw { IndividualAddress_raw : u16 }.

#[export] Instance GroupAddress_eq_dec : EqDecision GroupAddress.
Proof. solve_decision. Defined.
#[export] Instance IndividualAddress_eq_dec : EqDecision IndividualAddress.
Proof. solve_decision. Defined.

Definition MAIN_MAX : u32 := 31.
Definition MIDDLE_MAX : u32 := 7.
Definition AREA_MAX : u32 := 15.
Definition LINE_MAX : u32 := 15.

(** [GroupAddress::new]. *)
Definition GroupAddress_new (main middle sub : u8) : result AddressParseError GroupAddress :=
  if MAIN_MAX <? main then Err (OutOfRange "main" main 0 MAIN_MAX)
  else if MIDDLE_MAX <? middle then Err (OutOfRange "middle" middle 0 MIDDLE_MAX)
  else Ok (GroupAddress_from_raw
             (Z.lor (Z.lor (Z.shiftl main 11) (Z.shiftl middle 8)) sub)).

Definition GroupAddress_main (g : GroupAddress) : u8 :=
  as_u8 (Z.shiftr (GroupAddress_raw g) 11).

Definition GroupAddress_middle (g : GroupAddress) : u8 :=
  as_u8 (Z.land (Z.shiftr (GroupAddress_raw g) 8) 7).

Definition GroupAddress_sub (g : GroupAddress) : u8 :=
  as_u8 (Z.land (GroupAddress_raw g) 255).

Definition GroupAddress_is_reserved (g : GroupAddress) : bool :=
  GroupAddress_raw g =? 0.

(** [IndividualAddress::new]. *)
Definition IndividualAddress_new (area line device : u8)
    : result AddressParseError IndividualAddress :=
  if AREA_MAX <? area then Err (OutOfRange "area" area 0 AREA_MAX)
  else if LINE_MAX <? line then Err (OutOfRange "line" line 0 LINE_MAX)
  else Ok (IndividualAddress_from_raw
             (Z.lor (Z.lor (Z.shiftl area 12) (Z.shiftl line 8)) device)).

Definition IndividualAddress_area (i : IndividualAddress) : u8 :=
  as_u8 (Z.shiftr (IndividualAddress_raw i) 12).

Definition IndividualAddress_line (i : IndividualAddress) : u8 :=
  as_u8 (Z.land (Z.shiftr (IndividualAddress_raw i) 8) 15).

Definition IndividualAddress_device (i : IndividualAddress) : u8 :=
  as_u8 (Z.land (IndividualAddress_raw i) 255).

(** ** Lemmas *)

(** Splitting any 16-bit word into its parts and building the address again
    gives the word back, for both address kinds. *)
Lemma GroupAddress_split_new w : is_u16 w ->
  let g := GroupAddress_from_raw w in
  GroupAddress_new (GroupAddress_main g) (GroupAddress_middle g) (GroupAddress_sub g) = Ok g.
Proof.
  revert w. apply (u16_decide (fun w => let g := GroupAddress_from_raw w in
    GroupAddress_new (GroupAddress_main g) (GroupAddress_middle g) (GroupAddress_sub g) = Ok g)).
  vm_compute. reflexivity.
Qed.

Lemma IndividualAddress_split_new w : is_u16 w ->
  let i := IndividualAddress_from_raw w in
  IndividualAddress_new (IndividualAddress_area i) (IndividualAddress_line i) (IndividualAddress_device i) = Ok i.
Proof.
  revert w. apply (u16_decide (fun w => let i := IndividualAddress_from_raw w in
    IndividualAddress_new (IndividualAddress_area i) (IndividualAddress_line i) (IndividualAddress_device i) = Ok i)).
  vm_compute. reflexivity.
Qed.

(** ** Addresses as text

    Printing a group or an individual address with its separators, and parsing the
    three components of one.  A text that was printed is parsed to the address, and
    what is parsed has its components in range. *)

Definition SUB_MAX : u32 := 255.
Definition DEVICE_MAX : u32 := 255.

(** [t.split(sep)] by one character. *)
Fixpoint split_on (sep : char) (t : text) : list text :=
  match t with
  | [] => [[]]
  | c :: t =>
      if c =? sep then [] :: split_on sep t
      else match split_on sep t with
           | part :: parts => (c :: part) :: parts
           | [] => [[c]]
           end
  end.

Definition parse_component (parts : list text) (index : nat) (part : string) (max : u32) : result AddressParseError u16 :=
  let raw := nth index parts [] in
  value ← ok_or (NotAnInteger index raw) (parse_u32 (trim raw));
  if max <? value then Err (OutOfRange part value 0 max) else Ok (as_u16 value).

(** [impl Display] and [impl FromStr]. *)
Definition GroupAddress_fmt (g : GroupAddress) : text :=
  to_text (GroupAddress_main g) ++ 47 :: to_text (GroupAddress_middle g) ++ 47 :: to_text (GroupAddress_sub g).

Definition GroupAddress_from_str (s : text) : result AddressParseError GroupAddress :=
  let parts := split_on 47 s in
  if negb (length parts =? 3)%nat then Err (Shape "a 3-level group address" s) else
  main ← parse_component parts 0 "main" MAIN_MAX;
  middle ← parse_component parts 1 "middle" MIDDLE_MAX;
  sub ← parse_component parts 2 "sub" SUB_MAX;
  Ok (GroupAddress_from_raw (Z.lor (Z.lor (Z.shiftl main 11) (Z.shiftl middle 8)) sub)).

Definition IndividualAddress_fmt (i : IndividualAddress) : text :=
  to_text (IndividualAddress_area i) ++ 46 :: to_text (IndividualAddress_line i) ++ 46 :: to_text (IndividualAddress_device i).

Definition IndividualAddress_from_str (s : text) : result AddressParseError IndividualAddress :=
  let parts := split_on 46 s in
  if negb (length parts =? 3)%nat then Err (Shape "an individual address" s) else
  area ← parse_component parts 0 "area" AREA_MAX;
  line ← parse_component parts 1 "line" LINE_MAX;
  device ← parse_component parts 2 "device" DEVICE_MAX;
  Ok (IndividualAddress_from_raw (Z.lor (Z.lor (Z.shiftl area 12) (Z.shiftl line 8)) device)).

(** ** Splitting *)

Lemma split_on_none sep t : sep ∉ t -> split_on sep t = [t].
Proof.
  induction t as [|c t IH]; intros Hn; [done|]. apply not_elem_of_cons in Hn as [Hc Ht]. cbn [split_on].
  rewrite (proj2 (Z.eqb_neq c sep)) by congruence. by rewrite IH.
Qed.

Lemma split_on_app sep a b : sep ∉ a -> split_on sep (a ++ sep :: b) = a :: split_on sep b.
Proof.
  induction a as [|c a IH]; intros Hn; cbn [app split_on]; [by rewrite Z.eqb_refl|].
  apply not_elem_of_cons in Hn as [Hc Ha]. rewrite (proj2 (Z.eqb_neq c sep)) by congruence. by rewrite IH.
Qed.

Lemma to_text_avoids sep n : 0 <= n -> sep < 48 -> sep ∉ to_text n.
Proof.
  intros Hn Hs Hin. unfold to_text in Hin. rewrite (proj2 (Z.ltb_ge n 0)) in Hin by lia.
  pose proof (decimal_digits_chars 20 n Hn) as Hd. rewrite Forall_forall in Hd. specialize (Hd _ Hin). cbn beta in Hd. lia.
Qed.

(** Three printed components are split again. *)
Lemma split_printed sep a b c : 0 <= a -> 0 <= b -> 0 <= c -> sep < 48 ->
  split_on sep (to_text a ++ sep :: to_text b ++ sep :: to_text c) = [to_text a; to_text b; to_text c].
Proof.
  intros Ha Hb Hc Hs. rewrite !split_on_app by (by apply to_text_avoids). by rewrite split_on_none by (by apply to_text_avoids).
Qed.

Lemma component_printed (parts : list text) index part max n : nth index parts [] = to_text n -> 0 <= n <= max -> max <= 65535 ->
  parse_component parts index part max = Ok n.
Proof.
  intros E Hn Hm. unfold parse_component. cbv zeta. rewrite E, trim_id by apply to_text_solid.
  rewrite parse_printed_u32 by (unfold is_u32; lia). cbn [ok_or mbind result_bind].
  rewrite (proj2 (Z.ltb_ge max n)) by lia. unfold as_u16. by rewrite Z.mod_small by lia.
Qed.

Lemma component_range parts index part max n : parse_component parts index part max = Ok n -> 0 <= max <= 65535 -> 0 <= n <= max.
Proof.
  unfold parse_component. destruct (parse_u32 _) as [v|] eqn:Ev; cbn [ok_or mbind result_bind]; [|done].
  assert (Hv : 0 <= v).
  { revert Ev. unfold parse_u32. destruct (match trim _ with [] => _ | _ => _ end) as [m|] eqn:Em; [|done].
    cbn [mbind option_bind]. destruct (m <=? u32_max); [|done]. intros [= <-].
    assert (Hu : forall t x, parse_unsigned t = Some x -> 0 <= x).
    { intros t x. unfold parse_unsigned. destruct t; [done|]. apply parse_digits_nonneg. lia. }
    revert Em. destruct (trim _) as [|c t]; [done|]. destruct (decide (c = 43)) as [->|Hc]; [apply Hu|]. rewrite plus_match by done. apply Hu. }
  destruct (Z.ltb_spec max v); [done|]. intros [= <-] Hm. unfold as_u16. rewrite Z.mod_small by lia. lia.
Qed.

(** ** Round trips *)

(** A printed group address is parsed to itself. *)
Theorem group_address_reads_back w : is_u16 w ->
  GroupAddress_from_str (GroupAddress_fmt (GroupAddress_from_raw w)) = Ok (GroupAddress_from_raw w).
Proof.
  intros Hw. pose proof (GroupAddress_split_new w Hw) as Hn. cbv zeta in Hn. unfold GroupAddress_from_str, GroupAddress_fmt.
  set (g := GroupAddress_from_raw w) in *.
  assert (H1 : is_u8 (GroupAddress_main g)) by (apply Z.mod_pos_bound; lia).
  assert (H2 : is_u8 (GroupAddress_middle g)) by (apply Z.mod_pos_bound; lia).
  assert (H3 : is_u8 (GroupAddress_sub g)) by (apply Z.mod_pos_bound; lia).
  unfold is_u8 in *. unfold GroupAddress_new in Hn.
  destruct (Z.ltb_spec MAIN_MAX (GroupAddress_main g)) as [|Hm]; [done|].
  destruct (Z.ltb_spec MIDDLE_MAX (GroupAddress_middle g)) as [|Hd]; [done|].
  rewrite split_printed by lia. cbn [length Nat.eqb negb].
  unfold MAIN_MAX, MIDDLE_MAX, SUB_MAX in *.
  rewrite (component_printed _ 0 _ _ (GroupAddress_main g)) by (done || lia). cbn [mbind result_bind].
  rewrite (component_printed _ 1 _ _ (GroupAddress_middle g)) by (done || lia). cbn [mbind result_bind].
  rewrite (component_printed _ 2 _ _ (GroupAddress_sub g)) by (done || lia). exact Hn.
Qed.

(** A printed individual address is parsed to itself. *)
Theorem individual_address_reads_back w : is_u16 w ->
  IndividualAddress_from_str (IndividualAddress_fmt (IndividualAddress_from_raw w)) = Ok (IndividualAddress_from_raw w).
Proof.
  intros Hw. pose proof (IndividualAddress_split_new w Hw) as Hn. cbv zeta in Hn.
  unfold IndividualAddress_from_str, IndividualAddress_fmt. set (i := IndividualAddress_from_raw w) in *.
  assert (H1 : is_u8 (IndividualAddress_area i)) by (apply Z.mod_pos_bound; lia).
  assert (H2 : is_u8 (IndividualAddress_line i)) by (apply Z.mod_pos_bound; lia).
  assert (H3 : is_u8 (IndividualAddress_device i)) by (apply Z.mod_pos_bound; lia).
  unfold is_u8 in *. unfold IndividualAddress_new in Hn.
  destruct (Z.ltb_spec AREA_MAX (IndividualAddress_area i)) as [|Hm]; [done|].
  destruct (Z.ltb_spec LINE_MAX (IndividualAddress_line i)) as [|Hd]; [done|].
  rewrite split_printed by lia. cbn [length Nat.eqb negb].
  unfold AREA_MAX, LINE_MAX, DEVICE_MAX in *.
  rewrite (component_printed _ 0 _ _ (IndividualAddress_area i)) by (done || lia). cbn [mbind result_bind].
  rewrite (component_printed _ 1 _ _ (IndividualAddress_line i)) by (done || lia). cbn [mbind result_bind].
  rewrite (component_printed _ 2 _ _ (IndividualAddress_device i)) by (done || lia). exact Hn.
Qed.

(** What is parsed is what the constructor makes of components in range. *)
Theorem parsed_group_address s g : GroupAddress_from_str s = Ok g ->
  exists main middle sub, is_u8 main /\ is_u8 middle /\ is_u8 sub /\ GroupAddress_new main middle sub = Ok g.
Proof.
  unfold GroupAddress_from_str. destruct (negb _); [done|].
  destruct (parse_component _ 0 _ _) as [main|] eqn:E1; [|done]. cbn [mbind result_bind].
  destruct (parse_component _ 1 _ _) as [middle|] eqn:E2; [|done]. cbn [mbind result_bind].
  destruct (parse_component _ 2 _ _) as [sub|] eqn:E3; [|done]. intros [= <-].
  apply component_range in E1, E2, E3; try (vm_compute; split; discriminate). unfold MAIN_MAX, MIDDLE_MAX, SUB_MAX in *.
  exists main, middle, sub. unfold is_u8, GroupAddress_new. split_and!; try lia.
  unfold MAIN_MAX, MIDDLE_MAX. by rewrite !(proj2 (Z.ltb_ge _ _)) by lia.
Qed.

Example parse_spaced_address : GroupAddress_from_str ([32; 51; 47; 48; 32; 47; 43; 52]) = Ok (GroupAddress_from_raw 6148).
Proof. reflexivity. Qed.
