(* ===== verification/GroupTables.v ===== *)
(** * The tables of a device from its links ([bussard-download/src/compute.rs])

    The group-address table, the association table and the group-object table
    that a download writes, computed from the model's links. *)

From S2P Require Import Prelude OrderedMap Address Flags.
From Stdlib Require Import Sorting.Sorted.

Local Open Scope string_scope.
Local Open Scope list_scope.
Local Open Scope Z_scope.

(** ** Links and desired tables *)

(** The links of a com-object in the model ([schema::Link], without its display
    name). *)
Record Link : Type := MkLink {
  link_object : u16;
  link_send : option GroupAddress;
  link_listen : list GroupAddress }.

Record DesiredTables : Type := MkDesiredTables {
  dt_addresses : list GroupAddress;
  dt_associations : list (u16 * u16) }.

Definition DesiredTables_address_count (t : DesiredTables) : nat := length (dt_addresses t).
Definition DesiredTables_association_count (t : DesiredTables) : nat := length (dt_associations t).

Definition DesiredTables_address_elements (t : DesiredTables) : bytes :=
  flat_map (fun ga => be_bytes 2 (GroupAddress_raw ga)) (dt_addresses t).

Definition DesiredTables_association_elements (t : DesiredTables) : bytes :=
  flat_map (fun '(tsap, asap) => be_bytes 2 tsap ++ be_bytes 2 asap) (dt_associations t).

(** ** Computation *)

(** [if !gas.contains(&ga) { gas.push(ga) }]. *)
Definition push_new (gas : list GroupAddress) (ga : GroupAddress) : list GroupAddress :=
  if bool_decide (ga ∈ gas) then gas else gas ++ [ga].

Definition object_gas (link : Link) : list GroupAddress :=
  foldl push_new (match link_send link with Some send => [send] | None => [] end) (link_listen link).

(** The links merged per object. *)
Definition per_object (links : list Link) : BTree (list GroupAddress) :=
  foldl (fun m link =>
      bt_update (link_object link) (fun e => foldl push_new (default [] e) (object_gas link)) m)
    [] links.

Definition not_empty (gas : list GroupAddress) : bool := negb (bool_decide (gas = [])).

(** The 1-based position of an address ([tsap_of[ga]]; 0 for one not in the
    table, where the source panics). *)
Fixpoint tsap_from (i : nat) (addresses : list GroupAddress) (ga : GroupAddress) : u16 :=
  match addresses with
  | [] => 0
  | a :: addresses => if bool_decide (a = ga) then as_u16 (Z.of_nat i + 1) else tsap_from (S i) addresses ga
  end.

Definition tsap_of : list GroupAddress -> GroupAddress -> u16 := tsap_from 0.

Definition compute_tables (links : list Link) : DesiredTables :=
  let per_object := bt_retain (fun _ gas => not_empty gas) (per_object links) in
  let all_gas := flat_map snd per_object in
  let addresses := map GroupAddress_from_raw (sort_dedup (map GroupAddress_raw all_gas)) in
  let first := flat_map (fun '(object, gas) =>
                 map (fun ga => (tsap_of addresses ga, object)) (take 1 gas)) per_object in
  let rest := flat_map (fun '(object, gas) =>
                map (fun ga => (tsap_of addresses ga, object)) (drop 1 gas)) per_object in
  MkDesiredTables addresses (first ++ rest).

Definition table_image_with_count (count : nat) (elements : bytes) : bytes :=
  be_bytes 2 (as_u16 (Z.of_nat count)) ++ elements.

Definition app_program_version (manufacturer application_number : u16) (application_version : u8) : bytes :=
  be_bytes 2 manufacturer ++ be_bytes 2 application_number ++ [application_version].

(** ** The group-object table *)

Record GroupObjectDescriptor : Type := MkDescriptor {
  god_asap : u16;
  god_flags : Flags;
  god_size_code : u8;
  god_priority : ComPriority }.

Definition set_bit (on : bool) (bit : Z) (w : u16) : u16 := if on then Z.lor w (Z.shiftl 1 bit) else w.

Definition group_object_word (flags : Flags) (size_code : u8) (priority : ComPriority) : u16 :=
  let w := set_bit (Flags_contains flags FLAG_UPDATE) 15 0 in
  let w := set_bit (Flags_contains flags FLAG_TRANSMIT) 14 w in
  let w := set_bit (Flags_contains flags FLAG_INIT) 13 w in
  let w := set_bit (Flags_contains flags FLAG_WRITE) 12 w in
  let w := set_bit (Flags_contains flags FLAG_READ) 11 w in
  let w := set_bit (Flags_contains flags FLAG_COMMUNICATION) 10 w in
  Z.lor (Z.lor w (Z.shiftl (ComPriority_code priority) 8)) size_code.

Definition max_asap (descriptors : list GroupObjectDescriptor) : Z :=
  foldr (fun d m => Z.max (god_asap d) m) 0 descriptors.

(** The words, each descriptor's at its ASAP. *)
Definition descriptor_words (count : nat) (descriptors : list GroupObjectDescriptor) : list u16 :=
  foldl (fun words d =>
      if god_asap d =? 0 then words
      else <[(Z.to_nat (god_asap d) - 1)%nat
             := group_object_word (god_flags d) (god_size_code d) (god_priority d)]> words)
    (replicate count 0) descriptors.

Definition group_object_image (count : nat) (descriptors : list GroupObjectDescriptor) : bytes :=
  table_image_with_count count (flat_map (be_bytes 2) (descriptor_words count descriptors)).

Definition compute_group_object_table (descriptors : list GroupObjectDescriptor) : option bytes :=
  match descriptors with
  | [] => None
  | _ => Some (group_object_image (Z.to_nat (max_asap descriptors)) descriptors)
  end.

Definition compute_group_object_table_with_count (descriptors : list GroupObjectDescriptor) (count : nat)
    : option bytes :=
  let count := Nat.max count (Z.to_nat (max_asap descriptors)) in
  if (count =? 0)%nat then None else Some (group_object_image count descriptors).

(** ** What the model says of an object *)

(** What the links of an object name, link by link: the address a link sends to,
    then those it listens to. *)
Definition links_of (links : list Link) (object : u16) : list Link :=
  List.filter (fun l => link_object l =? object) links.

Definition sends (l : Link) : list GroupAddress := match link_send l with Some ga => [ga] | None => [] end.

Definition mentions (links : list Link) (object : u16) : list GroupAddress :=
  flat_map (fun l => sends l ++ link_listen l) (links_of links object).

(** A list without the later copies of what it repeats. *)
Fixpoint keep_first (gas : list GroupAddress) : list GroupAddress :=
  match gas with
  | [] => []
  | ga :: gas => ga :: List.filter (fun x => negb (bool_decide (x = ga))) (keep_first gas)
  end.

(** The addresses of an object, each once, in the order its links name them. *)
Definition model_gas (links : list Link) (object : u16) : list GroupAddress := keep_first (mentions links object).

(** The order of the merged link: what any of the links sends to, then what they
    listen to.  It is the same when no link but the object's first sends. *)
Definition merged_gas (links : list Link) (object : u16) : list GroupAddress :=
  keep_first (flat_map sends (links_of links object) ++ flat_map link_listen (links_of links object)).

Definition sends_first (links : list Link) (object : u16) : Prop :=
  match links_of links object with [] => True | _ :: rest => Forall (fun l => link_send l = None) rest end.

Lemma sends_first_merged links o : sends_first links o -> model_gas links o = merged_gas links o.
Proof.
  unfold sends_first, model_gas, merged_gas, mentions. destruct (links_of links o) as [|l rest]; [done|]. intros H. f_equal.
  cbn [flat_map]. rewrite <- !app_assoc. f_equal.
  assert (E : flat_map sends rest = [] /\ flat_map (fun l => sends l ++ link_listen l) rest = flat_map link_listen rest).
  { induction H as [|l' rest Hl H [IH1 IH2]]; [done|]. cbn [flat_map]. unfold sends at 1 3. by rewrite Hl, IH1, IH2. }
  by destruct E as [-> ->].
Qed.

(** ** Lemmas: merging *)

Lemma push_new_nodup gas ga : NoDup gas -> NoDup (push_new gas ga).
Proof.
  intros H. unfold push_new. case_bool_decide as Hin; [done|]. apply NoDup_app. split; [done|].
  split; [|apply NoDup_singleton]. by intros x Hx ->%list_elem_of_singleton.
Qed.

Lemma foldl_push_nodup l : forall gas, NoDup gas -> NoDup (foldl push_new gas l).
Proof. induction l as [|ga l IH]; intros gas H; [done|]. cbn. by apply IH, push_new_nodup. Qed.

Lemma push_new_in gas ga x : In x (push_new gas ga) <-> In x gas \/ x = ga.
Proof.
  unfold push_new. case_bool_decide as Hin; [rewrite list_elem_of_In in Hin|].
  - split; [by left|]. by intros [| ->].
  - rewrite in_app_iff. cbn. intuition congruence.
Qed.

Lemma foldl_push_in l : forall gas x, In x (foldl push_new gas l) <-> In x gas \/ In x l.
Proof.
  induction l as [|ga l IH]; intros gas x; cbn; [tauto|]. rewrite IH, push_new_in. intuition congruence.
Qed.

(** Pushing elements that are new, one after another, appends them. *)
Lemma foldl_push_fresh l : forall gas, NoDup (gas ++ l) -> foldl push_new gas l = gas ++ l.
Proof.
  induction l as [|ga l IH]; intros gas H; cbn [foldl]; [by rewrite app_nil_r|].
  assert (E : push_new gas ga = gas ++ [ga]).
  { unfold push_new. rewrite bool_decide_eq_false_2; [done|]. intros Hin.
    apply NoDup_app in H as (_ & H & _). apply (H ga); [done|left]. }
  rewrite E, IH; [by rewrite <- app_assoc|]. by rewrite <- app_assoc.
Qed.

Lemma filter_filter {X} (f g : X -> bool) l :
  List.filter f (List.filter g l) = List.filter (fun x => g x && f x)%bool l.
Proof.
  induction l as [|x l IH]; [done|]. cbn [List.filter]. destruct (g x); cbn [List.filter andb]; [|done].
  destruct (f x); by rewrite IH.
Qed.

(** Pushing a list appends what is new of it. *)
Lemma foldl_push_keep l : forall gas,
  foldl push_new gas l = gas ++ List.filter (fun x => negb (bool_decide (x ∈ gas))) (keep_first l).
Proof.
  induction l as [|ga l IH]; intros gas; cbn [foldl keep_first List.filter]; [by rewrite app_nil_r|].
  rewrite IH, filter_filter. unfold push_new. case_bool_decide as Hin; cbn [negb].
  - f_equal. apply filter_ext. intros x. destruct (bool_decide_reflect (x = ga)) as [->|]; [|done].
    by rewrite bool_decide_eq_true_2.
  - rewrite <- app_assoc. cbn [app]. do 2 f_equal. apply filter_ext. intros x.
    rewrite (bool_decide_ext (x ∈ gas ++ [ga]) (x ∈ gas \/ x = ga)) by (rewrite elem_of_app, list_elem_of_singleton; done).
    destruct (bool_decide_reflect (x = ga)) as [->|Hne]; cbn [negb andb].
    + by rewrite bool_decide_eq_true_2 by (by right).
    + f_equal. apply bool_decide_ext. tauto.
Qed.

Lemma keep_first_push l : keep_first l = foldl push_new [] l.
Proof.
  rewrite foldl_push_keep. cbn [app]. rewrite (filter_ext _ (fun _ => true)).
  - induction (keep_first l) as [|x k IH]; [done|]. cbn [List.filter]. by rewrite <- IH.
  - intros x. by rewrite bool_decide_eq_false_2 by apply not_elem_of_nil.
Qed.

Lemma push_keep_first l gas : foldl push_new gas (keep_first l) = foldl push_new gas l.
Proof.
  rewrite !foldl_push_keep. f_equal. f_equal. rewrite (keep_first_push (keep_first l)).
  rewrite foldl_push_fresh; [done|]. cbn [app]. rewrite keep_first_push. apply foldl_push_nodup. constructor.
Qed.

Lemma object_gas_keep l : object_gas l = keep_first (sends l ++ link_listen l).
Proof. unfold object_gas, sends. rewrite keep_first_push. by destruct (link_send l). Qed.

(** Merging the links as the code does. *)
Lemma push_mentions ls : forall gas,
  foldl push_new gas (flat_map object_gas ls) = foldl push_new gas (flat_map (fun l => sends l ++ link_listen l) ls).
Proof.
  induction ls as [|l ls IH]; intros gas; [done|]. cbn [flat_map]. rewrite !(foldl_app push_new), object_gas_keep, push_keep_first, foldl_app.
  apply IH.
Qed.

Lemma model_gas_nodup links o : NoDup (model_gas links o).
Proof. unfold model_gas. rewrite keep_first_push. apply foldl_push_nodup. constructor. Qed.

(** The addresses of an object are those its links name. *)
Lemma model_gas_in links o ga : In ga (model_gas links o) <->
  exists l, In l links /\ link_object l = o /\ (link_send l = Some ga \/ In ga (link_listen l)).
Proof.
  unfold model_gas, mentions, links_of. rewrite keep_first_push, foldl_push_in, in_flat_map. cbn [In].
  assert (Hgas : forall l, In ga (sends l ++ link_listen l) <-> link_send l = Some ga \/ In ga (link_listen l)).
  { intros l. unfold sends. rewrite in_app_iff. destruct (link_send l); cbn [In]; intuition congruence. }
  split.
  - intros [F|(l & [Hin Ho]%List.filter_In & Hga)]; [destruct F|]. exists l. rewrite <- Hgas. by apply Z.eqb_eq in Ho.
  - intros (l & Hin & Ho & Hga). right. exists l. rewrite Hgas, List.filter_In, Z.eqb_eq. done.
Qed.

Lemma per_object_ok links : bt_ok (per_object links).
Proof.
  unfold per_object. assert (H : forall m, bt_ok m -> bt_ok (foldl (fun m link =>
    bt_update (link_object link) (fun e => foldl push_new (default [] e) (object_gas link)) m) m links)).
  { induction links as [|l links IH]; intros m Hm; [done|]. cbn [foldl]. by apply IH, bt_update_ok. }
  apply H. constructor.
Qed.

Lemma per_object_get links o : default [] (bt_get o (per_object links)) = model_gas links o.
Proof.
  assert (H : forall m, bt_ok m -> default [] (bt_get o (foldl (fun m link =>
      bt_update (link_object link) (fun e => foldl push_new (default [] e) (object_gas link)) m) m links))
    = foldl push_new (default [] (bt_get o m))
        (flat_map object_gas (List.filter (fun l => link_object l =? o) links))).
  { induction links as [|l links IH]; intros m Hm; [done|]. cbn [foldl List.filter].
    rewrite IH by (by apply bt_update_ok). rewrite bt_get_update by done.
    rewrite (Z.eqb_sym o). destruct (Z.eqb_spec (link_object l) o) as [->|Hne]; [|done].
    cbn [flat_map default option_rect from_option id]. by rewrite foldl_app. }
  etransitivity; [apply H; constructor|]. unfold model_gas, mentions, links_of. rewrite keep_first_push. apply push_mentions.
Qed.

(** The objects of the tables: those the links give an address. *)
Definition linked_objects (links : list Link) : BTree (list GroupAddress) :=
  bt_retain (fun _ gas => not_empty gas) (per_object links).

Lemma linked_objects_ok links : bt_ok (linked_objects links).
Proof. apply bt_retain_ok, per_object_ok. Qed.

Lemma linked_objects_get links o :
  bt_get o (linked_objects links)
  = match model_gas links o with [] => None | gas => Some gas end.
Proof.
  unfold linked_objects. rewrite bt_get_retain by apply per_object_ok.
  rewrite <- per_object_get. destruct (bt_get o (per_object links)) as [[|ga gas]|]; done.
Qed.

(** ** Lemmas: the two tables *)

Lemma compute_tables_eq links :
  compute_tables links =
  let addresses := map GroupAddress_from_raw
    (sort_dedup (map GroupAddress_raw (flat_map snd (linked_objects links)))) in
  let entries (part : list GroupAddress -> list GroupAddress) :=
    flat_map (fun e => map (fun ga => (tsap_of addresses ga, fst e)) (part (snd e))) (linked_objects links) in
  MkDesiredTables addresses (entries (take 1) ++ entries (drop 1)).
Proof.
  unfold compute_tables, linked_objects. cbv zeta. f_equal. f_equal; apply flat_map_ext; by intros [object gas].
Qed.

Lemma linked_objects_in links o ga :
  (exists gas, In (o, gas) (linked_objects links) /\ In ga gas) <-> In ga (model_gas links o).
Proof.
  split.
  - intros (gas & Hin & Hga). apply bt_get_In in Hin; [|apply linked_objects_ok].
    rewrite linked_objects_get in Hin. destruct (model_gas links o); [done|]. by injection Hin as <-.
  - intros Hga. exists (model_gas links o). split; [|done].
    apply bt_get_In; [apply linked_objects_ok|]. rewrite linked_objects_get. by destruct (model_gas links o).
Qed.

(** The address table is sorted, without repetition, and holds the addresses of
    the links. *)
Lemma addresses_spec links :
  let addresses := dt_addresses (compute_tables links) in
  StronglySorted Z.lt (map GroupAddress_raw addresses) /\ NoDup addresses /\
  forall ga, In ga addresses <-> exists o, In ga (model_gas links o).
Proof.
  rewrite compute_tables_eq. cbn [dt_addresses].
  set (raws := map GroupAddress_raw (flat_map snd (linked_objects links))).
  destruct (sort_dedup_spec raws) as [Hs Hin].
  assert (Er : forall l, map GroupAddress_raw (map GroupAddress_from_raw l) = l).
  { intros l. rewrite map_map. apply map_id. }
  cbv zeta. rewrite Er. split; [done|]. split.
  - apply (NoDup_fmap_1 GroupAddress_raw). change (NoDup (map GroupAddress_raw
      (map GroupAddress_from_raw (sort_dedup raws)))). rewrite Er. by apply sorted_nodup.
  - intros ga. rewrite in_map_iff. unfold raws in Hin. split.
    + intros (w & <- & Hw). apply Hin, in_map_iff in Hw as (ga & <- & Hga).
      apply in_flat_map in Hga as ([o gas] & Ho & Hga). exists o.
      destruct ga as [w]. apply linked_objects_in. by exists gas.
    + intros (o & Hga). apply linked_objects_in in Hga as (gas & Ho & Hga).
      exists (GroupAddress_raw ga). split; [by destruct ga|]. apply Hin, in_map, in_flat_map.
      by exists (o, gas).
Qed.

Lemma tsap_from_spec addresses ga : In ga addresses -> forall i,
  Z.of_nat i + zlen addresses <= 65535 -> exists n, addresses !! n = Some ga /\
    tsap_from i addresses ga = Z.of_nat i + Z.of_nat n + 1 /\ (n < length addresses)%nat.
Proof.
  unfold zlen. induction addresses as [|a addresses IH]; [done|]. intros Hin i Hlen. cbn [tsap_from length] in *.
  case_bool_decide as Ea.
  - subst a. exists 0%nat. split; [done|]. split; [|lia]. unfold as_u16. rewrite Z.mod_small by lia. lia.
  - destruct Hin as [->|Hin]; [done|]. destruct (IH Hin (S i) ltac:(lia)) as (n & Hn & Et & Hl).
    exists (S n). split; [done|]. split; [rewrite Et; lia|lia].
Qed.

(** The TSAP of an address of the table is its 1-based place. *)
Lemma tsap_spec addresses ga : In ga addresses -> zlen addresses <= 65535 ->
  1 <= tsap_of addresses ga <= zlen addresses /\
  addresses !! Z.to_nat (tsap_of addresses ga - 1) = Some ga.
Proof.
  intros Hin Hlen. destruct (tsap_from_spec addresses ga Hin 0 ltac:(lia)) as (n & Hn & Et & Hl).
  unfold tsap_of. rewrite Et. unfold zlen. split; [lia|]. by replace (Z.to_nat _) with n by lia.
Qed.

Lemma filter_one_key {X} (f : Z -> list GroupAddress -> list X) (key : X -> Z) (m : BTree (list GroupAddress)) o :
  bt_ok m -> (forall k gas x, In x (f k gas) -> key x = k) ->
  List.filter (fun x => key x =? o) (flat_map (fun e => f (fst e) (snd e)) m)
  = match bt_get o m with Some gas => f o gas | None => [] end.
Proof.
  intros Hm Hkey.
  assert (Hall : forall k gas, List.filter (fun x => key x =? o) (f k gas) = if k =? o then f k gas else []).
  { intros k gas. specialize (Hkey k gas). induction (f k gas) as [|x l IH]; cbn [List.filter].
    - by destruct (k =? o).
    - rewrite (Hkey x (or_introl eq_refl)), IH by (intros y Hy; apply Hkey; by right).
      by destruct (k =? o). }
  induction m as [|[k gas] m IH]; [done|]. destruct (bt_ok_cons _ _ _ Hm) as [Hm' Hk].
  cbn [flat_map fst snd bt_get]. rewrite List.filter_app, Hall, IH by done. rewrite (Z.eqb_sym o).
  destruct (Z.eqb_spec k o) as [->|]; [|done]. by rewrite bt_get_below, app_nil_r.
Qed.

(** The association entries of an object, in table order, are its addresses in
    the model's order. *)
Lemma associations_of_object links o :
  let t := compute_tables links in
  List.filter (fun e => snd e =? o) (dt_associations t)
  = map (fun ga => (tsap_of (dt_addresses t) ga, o)) (model_gas links o).
Proof.
  rewrite compute_tables_eq. cbn [dt_addresses dt_associations]. set (addresses := map _ _).
  cbv zeta. rewrite List.filter_app.
  assert (Hkey : forall (part : list GroupAddress -> list GroupAddress) (k : Z) gas (x : u16 * u16),
    In x (map (fun ga => (tsap_of addresses ga, k)) (part gas)) -> snd x = k).
  { intros part k gas x. rewrite in_map_iff. by intros (ga & <- & _). }
  pose proof (filter_one_key (fun k gas => map (fun ga => (tsap_of addresses ga, k)) (take 1 gas)) snd
    (linked_objects links) o (linked_objects_ok links) (Hkey (take 1))) as E1. cbn beta in E1.
  pose proof (filter_one_key (fun k gas => map (fun ga => (tsap_of addresses ga, k)) (drop 1 gas)) snd
    (linked_objects links) o (linked_objects_ok links) (Hkey (drop 1))) as E2. cbn beta in E2.
  rewrite E1, E2, linked_objects_get. destruct (model_gas links o) as [|ga gas]; done.
Qed.

(** Every entry is one of an object's addresses. *)
Lemma associations_in links e : In e (dt_associations (compute_tables links)) ->
  exists ga, In ga (model_gas links (snd e)) /\
    fst e = tsap_of (dt_addresses (compute_tables links)) ga.
Proof.
  intros Hin. assert (Hf : In e (List.filter (fun x => snd x =? snd e) (dt_associations (compute_tables links)))).
  { apply List.filter_In. by rewrite Z.eqb_refl. }
  rewrite associations_of_object in Hf. apply in_map_iff in Hf as (ga & <- & Hga). by exists ga.
Qed.

(** Two links of an object are not the one that merges them when a later one
    sends: the address that is sent to, the object's first association, is the first
    of the first link. *)
Example split_links_change_the_sending_address :
  let a := GroupAddress_from_raw 1 in
  let b := GroupAddress_from_raw 2 in
  let split := [MkLink 1 None [a]; MkLink 1 (Some b) []] in
  model_gas split 1 = [a; b] /\ merged_gas split 1 = [b; a] /\
  dt_associations (compute_tables split) = [(1, 1); (2, 1)] /\
  dt_associations (compute_tables [MkLink 1 (Some b) [a]]) = [(2, 1); (1, 1)].
Proof. vm_compute. done. Qed.
