(* ===== verification/Cursor.v ===== *)
(** * The forward-only byte reader
    ([Cursor] of [crates/bussard-transport/src/cemi.rs]) and the decoding errors
    of [crates/bussard-transport/src/error.rs].

    Every transport decoder reads through a [Cursor]; running off the buffer is
    a [Truncated] error naming the field.  The reader's state (buffer and
    position) is threaded explicitly. *)

From S2P Require Import Prelude.

Local Open Scope string_scope.
Local Open Scope list_scope.
Local Open Scope Z_scope.

(** [std::io::ErrorKind], as far as the crate distinguishes it. *)
Inductive ErrorKind : Type :=
| ConnectionRefused | ConnectionReset | ConnectionAborted | BrokenPipe | UnexpectedEof | HostUnreachable
| OtherErrorKind.

#[export] Instance ErrorKind_eq_dec : EqDecision ErrorKind.
Proof. solve_decision. Defined.

(** The variants of [TransportError] a plain tunnel and the frame codecs meet,
    without the socket addresses that only their messages name. *)
Inductive TransportError : Type :=
| Truncated (needed had : Z) (context : string)
| InvalidField (field : string) (value : u16)
| BadHeader (b0 b1 : u8)
| GatewayStatus (status : u8) (context : string)
| NoMoreConnections
| TransportTimeout (what : string)
| HeartbeatLost
| TunnelLost (budget : Z) (cause : TransportError)
| TransportDisconnected (channel : u8)
| TransportClosed
| NotOnDeviceManagement (what : string)
| SecureSessionEnded (status : u8)
| TransportIo (kind : ErrorKind).

#[export] Instance TransportError_eq_dec : EqDecision TransportError.
Proof. solve_decision. Defined.

Record Cursor : Type := MkCursor { cur_buf : bytes; cur_pos : nat }.

Definition Cursor_new (buf : bytes) : Cursor := MkCursor buf 0.

Definition Cursor_remaining (c : Cursor) : nat := length (cur_buf c) - cur_pos c.

Definition Cursor_take (n : nat) (context : string) (c : Cursor)
    : result TransportError (bytes * Cursor) :=
  if bool_decide (Cursor_remaining c < n)%nat
  then Err (Truncated (Z.of_nat n) (Z.of_nat (Cursor_remaining c)) context)
  else Ok (slice (cur_pos c) (cur_pos c + n) (cur_buf c),
           MkCursor (cur_buf c) (cur_pos c + n)).

Definition Cursor_u8 (context : string) (c : Cursor) : result TransportError (u8 * Cursor) :=
  '(s, c) ← Cursor_take 1 context c;
  mret (nth 0 s 0, c).

Definition Cursor_u16 (context : string) (c : Cursor) : result TransportError (u16 * Cursor) :=
  '(s, c) ← Cursor_take 2 context c;
  mret (u16_of (nth 0 s 0) (nth 1 s 0), c).

(** ** What a reader has left

    [cur_rest c l]: [l] is what [c] has not read yet.  Reading lemmas are stated
    on it, so a decoder's proof follows its sequence of reads. *)
Definition cur_rest (c : Cursor) (l : bytes) : Prop :=
  (cur_pos c <= length (cur_buf c))%nat /\ drop (cur_pos c) (cur_buf c) = l.

(** ** Lemmas *)

Lemma cur_rest_new buf : cur_rest (Cursor_new buf) buf.
Proof. split; simpl; [lia|done]. Qed.

Lemma cur_rest_remaining c l : cur_rest c l -> Cursor_remaining c = length l.
Proof. intros [Hp <-]. unfold Cursor_remaining. rewrite length_drop. done. Qed.

Lemma Cursor_take_ok c l r ctx : cur_rest c (l ++ r) ->
  exists c', Cursor_take (length l) ctx c = Ok (l, c') /\ cur_rest c' r.
Proof.
  intros Hc. pose proof (cur_rest_remaining _ _ Hc) as Hr. destruct Hc as [Hp Hd].
  rewrite length_app in Hr. unfold Cursor_take.
  rewrite bool_decide_false by lia. eexists. split.
  - unfold slice. rewrite Hd. replace (cur_pos c + length l - cur_pos c)%nat with (length l) by lia.
    rewrite take_app_length. done.
  - split; simpl.
    + unfold Cursor_remaining in Hr. lia.
    + rewrite <- drop_drop, Hd. apply drop_app_length.
Qed.

Lemma Cursor_take_n c l n r ctx : cur_rest c (l ++ r) -> length l = n ->
  exists c', Cursor_take n ctx c = Ok (l, c') /\ cur_rest c' r.
Proof. intros Hc <-. by apply Cursor_take_ok. Qed.

Lemma Cursor_take_short c l n ctx : cur_rest c l -> (length l < n)%nat ->
  Cursor_take n ctx c = Err (Truncated (Z.of_nat n) (zlen l) ctx).
Proof.
  intros Hc Hn. pose proof (cur_rest_remaining _ _ Hc) as Hr. unfold Cursor_take.
  rewrite bool_decide_true by lia. rewrite Hr. done.
Qed.

Lemma Cursor_u8_ok c b r ctx : cur_rest c (b :: r) ->
  exists c', Cursor_u8 ctx c = Ok (b, c') /\ cur_rest c' r.
Proof.
  intros Hc. destruct (Cursor_take_ok c [b] r ctx Hc) as (c' & E & H).
  exists c'. unfold Cursor_u8. simpl in E. rewrite E. done.
Qed.

Lemma Cursor_u16_ok c a b r ctx : cur_rest c (a :: b :: r) ->
  exists c', Cursor_u16 ctx c = Ok (u16_of a b, c') /\ cur_rest c' r.
Proof.
  intros Hc. destruct (Cursor_take_ok c [a; b] r ctx Hc) as (c' & E & H).
  exists c'. unfold Cursor_u16. simpl in E. rewrite E. done.
Qed.

(** The converse: a read that succeeds splits what was left. *)
Lemma Cursor_take_inv c l n ctx s c' : cur_rest c l -> Cursor_take n ctx c = Ok (s, c') ->
  exists r, l = s ++ r /\ length s = n /\ cur_rest c' r.
Proof.
  intros Hc E. destruct (decide (length l < n)%nat) as [Hlt|Hge].
  { rewrite (Cursor_take_short _ _ _ _ Hc Hlt) in E. done. }
  rewrite <- (take_drop n l) in Hc.
  destruct (Cursor_take_n _ (take n l) n _ ctx Hc) as (c2 & E2 & H2).
  { rewrite length_take. lia. }
  rewrite E2 in E. injection E as <- <-. exists (drop n l).
  rewrite take_drop, length_take. repeat split; [lia|apply H2..].
Qed.

Lemma Cursor_u8_inv c l ctx b c' : cur_rest c l -> Cursor_u8 ctx c = Ok (b, c') ->
  exists r, l = b :: r /\ cur_rest c' r.
Proof.
  unfold Cursor_u8. intros Hc E. apply bind_ok in E as ([s c2] & E & [= <- <-]).
  destruct (Cursor_take_inv _ _ _ _ _ _ Hc E) as (r & -> & Hl & Hr).
  destruct s as [|x [|]]; [done| |done]. exists r. done.
Qed.

Lemma Cursor_u16_inv c l ctx w c' : cur_rest c l -> Cursor_u16 ctx c = Ok (w, c') ->
  exists a b r, l = a :: b :: r /\ w = u16_of a b /\ cur_rest c' r.
Proof.
  unfold Cursor_u16. intros Hc E. apply bind_ok in E as ([s c2] & E & [= <- <-]).
  destruct (Cursor_take_inv _ _ _ _ _ _ Hc E) as (r & -> & Hl & Hr).
  destruct s as [|x [|y [|]]]; try done. exists x, y, r. done.
Qed.

#[export] Hint Resolve cur_rest_new : bus.

(** Runs the next read of a decoder whose goal starts with it. *)
Ltac cur_step :=
  lazymatch goal with
  | Hc : cur_rest ?c (?a :: ?b :: _) |- context [Cursor_u16 ?ctx ?c] =>
      let c' := fresh "c" in let E := fresh "E" in let H := fresh "Hc" in
      destruct (Cursor_u16_ok c a b _ ctx Hc) as (c' & E & H);
      rewrite E; clear E Hc; rename H into Hc; cbn [mbind mret result_bind result_ret]
  | Hc : cur_rest ?c (?b :: _) |- context [Cursor_u8 ?ctx ?c] =>
      let c' := fresh "c" in let E := fresh "E" in let H := fresh "Hc" in
      destruct (Cursor_u8_ok c b _ ctx Hc) as (c' & E & H);
      rewrite E; clear E Hc; rename H into Hc; cbn [mbind mret result_bind result_ret]
  | Hc : cur_rest ?c (?l ++ _) |- context [Cursor_take ?n ?ctx ?c] =>
      let c' := fresh "c" in let E := fresh "E" in let H := fresh "Hc" in
      destruct (Cursor_take_n c l n _ ctx Hc) as (c' & E & H);
      [ | rewrite E; clear E Hc; rename H into Hc; cbn [mbind mret result_bind result_ret] ]
  end.

(** Inverts the next read of a decoder that succeeded. *)
Ltac cur_inv E :=
  lazymatch type of E with
  | context [Cursor_u16 ?ctx ?c] =>
      apply bind_ok in E as ([? ?] & ?E & E);
      match goal with
      | Hc : cur_rest c _, E' : Cursor_u16 ctx c = Ok _ |- _ =>
          destruct (Cursor_u16_inv _ _ _ _ _ Hc E') as (? & ? & ? & -> & -> & ?);
          clear E' Hc
      end
  | context [Cursor_u8 ?ctx ?c] =>
      apply bind_ok in E as ([? ?] & ?E & E);
      match goal with
      | Hc : cur_rest c _, E' : Cursor_u8 ctx c = Ok _ |- _ =>
          destruct (Cursor_u8_inv _ _ _ _ _ Hc E') as (? & -> & ?);
          clear E' Hc
      end
  | context [Cursor_take ?n ?ctx ?c] =>
      apply bind_ok in E as ([? ?] & ?E & E);
      match goal with
      | Hc : cur_rest c _, E' : Cursor_take n ctx c = Ok _ |- _ =>
          destruct (Cursor_take_inv _ _ _ _ _ _ Hc E') as (? & -> & ? & ?);
          clear E' Hc
      end
  end.
