(* ===== verification/Cemi.v ===== *)
(** * The cEMI [L_Data] codec ([crates/bussard-transport/src/cemi.rs]) *)

From S2P Require Import Prelude Address Cursor.

Local Open Scope string_scope.
Local Open Scope list_scope.
Local Open Scope Z_scope.

(** ** Message code *)

Inductive MessageCode : Type := LDataReq | LDataCon | LDataInd.

#[export] Instance MessageCode_eq_dec : EqDecision MessageCode.
Proof. solve_decision. Defined.

(** [self as u8]: the [repr(u8)] discriminant. *)
Definition MessageCode_as_u8 (m : MessageCode) : u8 :=
  match m with
  | LDataReq => 17
  | LDataCon => 46
  | LDataInd => 41
  end.

Definition MessageCode_from_u8 (v : u8) : result TransportError MessageCode :=
  match v with
  | 17 => Ok LDataReq
  | 46 => Ok LDataCon
  | 41 => Ok LDataInd
  | other => Err (InvalidField "cEMI message code" other)
  end.

(** ** Control fields *)

Inductive Priority : Type := System | Normal | Urgent | Low.

#[export] Instance Priority_eq_dec : EqDecision Priority.
Proof. solve_decision. Defined.

Definition Priority_as_u8 (p : Priority) : u8 :=
  match p with
  | System => 0
  | Normal => 1
  | Urgent => 2
  | Low => 3
  end.

Definition Priority_from_bits (bits : u8) : Priority :=
  match Z.land bits 3 with
  | 0 => System
  | 2 => Urgent
  | 3 => Low
  | _ => Normal
  end.

(** Control field 1 bit 4; [BroadcastKind::System] and [::Normal]. *)
Inductive BroadcastKind : Type := SystemBroadcast | NormalBroadcast.

#[export] Instance BroadcastKind_eq_dec : EqDecision BroadcastKind.
Proof. solve_decision. Defined.

Definition BroadcastKind_from_bit (set : bool) : BroadcastKind :=
  if set then NormalBroadcast else SystemBroadcast.

Record Control1 : Type := MkControl1 {
  standard_frame : bool;
  repeated : bool;
  broadcast : BroadcastKind;
  priority : Priority;
  ack_requested : bool;
  error : bool }.

#[export] Instance Control1_eq_dec : EqDecision Control1.
Proof. solve_decision. Defined.

Definition Control1_default : Control1 :=
  MkControl1 true false NormalBroadcast Normal true false.

Definition Control1_system : Control1 :=
  MkControl1 true false NormalBroadcast System true false.

Definition Control1_from_byte (b : u8) : Control1 :=
  MkControl1
    (negb (Z.land b 128 =? 0))
    (Z.land b 32 =? 0)
    (BroadcastKind_from_bit (negb (Z.land b 16 =? 0)))
    (Priority_from_bits (Z.shiftr b 2))
    (negb (Z.land b 2 =? 0))
    (negb (Z.land b 1 =? 0)).

Definition Control1_to_byte (c : Control1) : u8 :=
  let b := 0 in
  let b := if standard_frame c then Z.lor b 128 else b in
  let b := if negb (repeated c) then Z.lor b 32 else b in
  let b := if decide (broadcast c = NormalBroadcast) then Z.lor b 16 else b in
  let b := Z.lor b (as_u8 (Z.shiftl (Priority_as_u8 (priority c)) 2)) in
  let b := if ack_requested c then Z.lor b 2 else b in
  if error c then Z.lor b 1 else b.

Record Control2 : Type := MkControl2 {
  group_address : bool;
  hop_count : u8;
  extended_frame_format : u8 }.

#[export] Instance Control2_eq_dec : EqDecision Control2.
Proof. solve_decision. Defined.

Definition Control2_default : Control2 := MkControl2 true 6 0.

Definition Control2_from_byte (b : u8) : Control2 :=
  MkControl2 (negb (Z.land b 128 =? 0)) (Z.land (Z.shiftr b 4) 7) (Z.land b 15).

Definition Control2_to_byte (c : Control2) : u8 :=
  let b := 0 in
  let b := if group_address c then Z.lor b 128 else b in
  let b := Z.lor b (as_u8 (Z.shiftl (Z.land (hop_count c) 7) 4)) in
  Z.lor b (Z.land (extended_frame_format c) 15).

(** ** Destination, TPCI, APDU *)

Inductive Destination : Type :=
| Group (g : GroupAddress)
| Individual (i : IndividualAddress).

Inductive Tpci : Type :=
| DataGroup
| Control (raw : u8)
| TpciOther (raw : u8).

Inductive GroupData : Type :=
| Small (v : u8)
| Large (b : bytes).

Inductive Apdu : Type :=
| GroupValueRead
| GroupValueResponse (d : GroupData)
| GroupValueWrite (d : GroupData)
| ApduOther (apci : u16) (data : bytes)
| Empty.

#[export] Instance Destination_eq_dec : EqDecision Destination.
Proof. solve_decision. Defined.
#[export] Instance Tpci_eq_dec : EqDecision Tpci.
Proof. solve_decision. Defined.
#[export] Instance GroupData_eq_dec : EqDecision GroupData.
Proof. solve_decision. Defined.
#[export] Instance Apdu_eq_dec : EqDecision Apdu.
Proof. solve_decision. Defined.

Definition GroupData_bytes (d : GroupData) : bytes :=
  match d with
  | Small v => [Z.land v 63]
  | Large b => b
  end.

Definition APCI_SECURE_DATA : u16 := 1009.
Definition APCI_GROUP_READ : u16 := 0.
Definition APCI_GROUP_RESPONSE : u16 := 64.
Definition APCI_GROUP_WRITE : u16 := 128.
Definition APCI_GROUP_MASK : u16 := 960.
Definition MAX_STANDARD_NPDU_LEN : nat := 15.

(** [group_data]: the small form only when asked for and when it fits. *)
Definition group_data (payload : bytes) (packed : bool) : GroupData :=
  match payload with
  | [p] => if packed && (p <=? 63) then Small p else Large payload
  | _ => Large payload
  end.

(** [decode_group_data]. *)
Definition decode_group_data (octet1 : u8) (tpdu : bytes) (npdu_len : nat) : GroupData :=
  if bool_decide (npdu_len <= 1)%nat then Small (Z.land octet1 63) else Large (drop 2 tpdu).

(** [decode_tpdu]: a one-octet TPDU is a control frame; otherwise the two
    APCI octets select the service. *)
Definition decode_tpdu (tpdu : bytes) (npdu_len : nat)
    : result TransportError (Tpci * Apdu) :=
  match tpdu with
  | [raw] => Ok (Control raw, Empty)
  | octet0 :: octet1 :: data =>
      let tpci := if Z.land octet0 192 =? 0 then DataGroup else TpciOther octet0 in
      let apci := Z.lor (Z.shiftl (Z.land octet0 3) 8) octet1 in
      let apci_selector := Z.land apci APCI_GROUP_MASK in
      match tpci with
      | TpciOther _ => Ok (tpci, ApduOther apci data)
      | _ =>
          Ok (tpci,
            if apci_selector =? APCI_GROUP_READ then GroupValueRead
            else if apci_selector =? APCI_GROUP_RESPONSE
            then GroupValueResponse (decode_group_data octet1 tpdu npdu_len)
            else if apci_selector =? APCI_GROUP_WRITE
            then GroupValueWrite (decode_group_data octet1 tpdu npdu_len)
            else ApduOther apci data)
      end
  | _ => Err (Truncated 2 (zlen tpdu) "TPDU (TPCI/APCI)")
  end.

Definition gd_small (d : GroupData) : option u8 :=
  match d with
  | Small v => Some v
  | Large _ => None
  end.

Definition gd_large (d : GroupData) : option bytes :=
  match d with
  | Small _ => None
  | Large b => Some b
  end.

(** [(apci >> 8) as u8 & 0x03] and [(apci & 0xff) as u8]. *)
Definition apci_hi (apci : u16) : u8 := Z.land (as_u8 (Z.shiftr apci 8)) 3.
Definition apci_lo (apci : u16) : u8 := as_u8 (Z.land apci 255).

(** The group services' part of [encode_tpdu]: [small] and [large] are the two
    payload forms, at most one of them present. *)
Definition encode_group_tpdu (apci : u16) (small : option u8) (large : option bytes)
    : bytes * nat :=
  let octet0 := apci_hi apci in
  let octet1 := apci_lo apci in
  match small, large with
  | Some v, None => ([octet0; Z.lor octet1 (Z.land v 63)], 1%nat)
  | _, Some b => let tpdu := octet0 :: octet1 :: b in (tpdu, (length tpdu - 1)%nat)
  | None, None => ([octet0; octet1], 1%nat)
  end.

(** [encode_tpdu]: the TPDU octets and the NPDU length. *)
Definition encode_tpdu (tpci : Tpci) (apdu : Apdu) : bytes * nat :=
  match tpci with
  | Control raw => ([raw], 0%nat)
  | TpciOther raw =>
      let '(apci, data) := match apdu with
                           | ApduOther apci data => (apci, data)
                           | _ => (0, [])
                           end in
      let tpdu := Z.lor raw (apci_hi apci) :: apci_lo apci :: data in
      (tpdu, (length tpdu - 1)%nat)
  | DataGroup =>
      match apdu with
      | GroupValueRead => encode_group_tpdu APCI_GROUP_READ (Some 0) None
      | GroupValueResponse d => encode_group_tpdu APCI_GROUP_RESPONSE (gd_small d) (gd_large d)
      | GroupValueWrite d => encode_group_tpdu APCI_GROUP_WRITE (gd_small d) (gd_large d)
      | ApduOther apci data =>
          let tpdu := apci_hi apci :: apci_lo apci :: data in
          (tpdu, (length tpdu - 1)%nat)
      | Empty => ([0], 0%nat)
      end
  end.

Definition Apdu_group_tpdu_bytes (a : Apdu) : bytes := fst (encode_tpdu DataGroup a).

Definition Apdu_from_group_tpdu (tpdu : bytes) : result TransportError Apdu :=
  if bool_decide (length tpdu < 2)%nat
  then Err (Truncated 2 (zlen tpdu) "group APDU")
  else '(_, apdu) ← decode_tpdu tpdu (length tpdu - 1);
       mret apdu.

(** ** The frame *)

Record CemiFrame : Type := MkCemiFrame {
  message_code : MessageCode;
  additional_info : bytes;
  control1 : Control1;
  control2 : Control2;
  source : IndividualAddress;
  destination : Destination;
  tpci : Tpci;
  apdu : Apdu }.

#[export] Instance CemiFrame_eq_dec : EqDecision CemiFrame.
Proof. solve_decision. Defined.

(** The group-value frame builders. *)
Definition group_frame (source : IndividualAddress) (destination : GroupAddress) (a : Apdu)
    : CemiFrame :=
  MkCemiFrame LDataReq [] Control1_default Control2_default source (Group destination)
    DataGroup a.

Definition CemiFrame_group_write (destination : GroupAddress) (source : IndividualAddress)
    (payload : bytes) (packed : bool) : CemiFrame :=
  group_frame source destination (GroupValueWrite (group_data payload packed)).

Definition CemiFrame_group_read (destination : GroupAddress) (source : IndividualAddress)
    : CemiFrame :=
  group_frame source destination GroupValueRead.

Definition CemiFrame_group_secure (destination : GroupAddress) (source : IndividualAddress)
    (asdu : bytes) : CemiFrame :=
  group_frame source destination (ApduOther APCI_SECURE_DATA asdu).

Definition CemiFrame_secure_asdu (f : CemiFrame) : option bytes :=
  match apdu f with
  | ApduOther apci data => if apci =? APCI_SECURE_DATA then Some data else None
  | _ => None
  end.

Definition CemiFrame_group_response (destination : GroupAddress) (source : IndividualAddress)
    (payload : bytes) (packed : bool) : CemiFrame :=
  group_frame source destination (GroupValueResponse (group_data payload packed)).

(** [payload.len() == 1 && payload[0] <= 0x3f]. *)
Definition packs_by_length (payload : bytes) : bool :=
  match payload with
  | [p] => p <=? 63
  | _ => false
  end.

Definition CemiFrame_group_write_packed (destination : GroupAddress)
    (source : IndividualAddress) (payload : bytes) : CemiFrame :=
  CemiFrame_group_write destination source payload (packs_by_length payload).

Definition CemiFrame_group_response_packed (destination : GroupAddress)
    (source : IndividualAddress) (payload : bytes) : CemiFrame :=
  CemiFrame_group_response destination source payload (packs_by_length payload).

Definition CemiFrame_decode (buf : bytes) : result TransportError CemiFrame :=
  let cur := Cursor_new buf in
  '(mc, cur) ← Cursor_u8 "message code" cur;
  message_code ← MessageCode_from_u8 mc;
  '(ai_len, cur) ← Cursor_u8 "additional-info length" cur;
  '(additional_info, cur) ← Cursor_take (Z.to_nat ai_len) "additional info" cur;
  '(c1, cur) ← Cursor_u8 "control field 1" cur;
  '(c2, cur) ← Cursor_u8 "control field 2" cur;
  '(src, cur) ← Cursor_u16 "source address" cur;
  '(dst_raw, cur) ← Cursor_u16 "destination address" cur;
  let control2 := Control2_from_byte c2 in
  let destination := if group_address control2
                     then Group (GroupAddress_from_raw dst_raw)
                     else Individual (IndividualAddress_from_raw dst_raw) in
  '(npdu, cur) ← Cursor_u8 "NPDU length" cur;
  let npdu_len := Z.to_nat npdu in
  '(tpdu, cur) ← Cursor_take (npdu_len + 1) "TPDU" cur;
  '(tpci, apdu) ← decode_tpdu tpdu npdu_len;
  mret (MkCemiFrame message_code additional_info (Control1_from_byte c1) control2
          (IndividualAddress_from_raw src) destination tpci apdu).

Definition Control1_with_standard (c : Control1) (b : bool) : Control1 :=
  MkControl1 b (repeated c) (broadcast c) (priority c) (ack_requested c) (error c).

Definition Destination_raw (d : Destination) : u16 :=
  match d with
  | Group g => GroupAddress_raw g
  | Individual i => IndividualAddress_raw i
  end.

(** [CemiFrame::encode]: control field 1 is pushed as held and then rewritten
    in place with the frame type the NPDU length calls for. *)
Definition CemiFrame_encode (f : CemiFrame) : bytes :=
  let out := [MessageCode_as_u8 (message_code f); as_u8 (zlen (additional_info f))]
             ++ additional_info f
             ++ [Control1_to_byte (control1 f); Control2_to_byte (control2 f)]
             ++ be_bytes 2 (IndividualAddress_raw (source f))
             ++ be_bytes 2 (Destination_raw (destination f)) in
  let '(tpdu, npdu_len) := encode_tpdu (tpci f) (apdu f) in
  let control1 := Control1_with_standard (control1 f)
                    (bool_decide (npdu_len <= MAX_STANDARD_NPDU_LEN)%nat) in
  let ctl1_offset := (2 + length (additional_info f))%nat in
  let out := <[ctl1_offset := Control1_to_byte control1]> out in
  out ++ [as_u8 (Z.of_nat npdu_len)] ++ tpdu.

Definition CemiFrame_group_destination (f : CemiFrame) : option GroupAddress :=
  match destination f with
  | Group g => Some g
  | Individual _ => None
  end.

Definition CemiFrame_individual_destination (f : CemiFrame) : option IndividualAddress :=
  match destination f with
  | Individual i => Some i
  | Group _ => None
  end.

Definition CemiFrame_is_negative_confirmation (f : CemiFrame) : bool :=
  bool_decide (message_code f = LDataCon) && error (control1 f).

Definition CemiFrame_confirms (f : CemiFrame) (src target : IndividualAddress) : bool :=
  bool_decide (message_code f = LDataCon) && bool_decide (source f = src)
  && bool_decide (CemiFrame_individual_destination f = Some target).

Definition CemiFrame_t_control (destination source : IndividualAddress) (raw : u8)
    : CemiFrame :=
  MkCemiFrame LDataReq [] Control1_system (MkControl2 false 6 0) source
    (Individual destination) (Control raw) Empty.

Definition CemiFrame_t_data_connected (destination source : IndividualAddress) (raw : u8)
    (apci : u16) (data : bytes) : CemiFrame :=
  MkCemiFrame LDataReq [] Control1_system (MkControl2 false 6 0) source
    (Individual destination) (TpciOther raw) (ApduOther apci data).

Definition CemiFrame_t_broadcast (source : IndividualAddress) (apci : u16) (data : bytes)
    : CemiFrame :=
  MkCemiFrame LDataReq [] Control1_system Control2_default source
    (Group (GroupAddress_from_raw 0)) DataGroup (ApduOther apci data).

Definition CemiFrame_with_priority (f : CemiFrame) (p : Priority) : CemiFrame :=
  let c := control1 f in
  MkCemiFrame (message_code f) (additional_info f)
    (MkControl1 (standard_frame c) (repeated c) (broadcast c) p (ack_requested c) (error c))
    (control2 f) (source f) (destination f) (tpci f) (apdu f).

(** [CemiFrame::tpci_octet]. *)
Definition CemiFrame_tpci_octet (f : CemiFrame) : u8 :=
  match tpci f with
  | DataGroup =>
      match apdu f with
      | GroupValueRead => apci_hi APCI_GROUP_READ
      | GroupValueResponse _ => apci_hi APCI_GROUP_RESPONSE
      | GroupValueWrite _ => apci_hi APCI_GROUP_WRITE
      | ApduOther apci _ => apci_hi apci
      | Empty => 0
      end
  | Control raw | TpciOther raw => raw
  end.

(** ** Well-formed frames *)

Definition GroupData_ok (d : GroupData) : Prop :=
  match d with
  | Small v => 0 <= v < 64
  | Large b => b <> [] /\ bytes_ok b
  end.

(** The APCI selects one of the three group-value services. *)
Definition is_group_apci (apci : u16) : bool :=
  let s := Z.land apci APCI_GROUP_MASK in
  (s =? APCI_GROUP_READ) || (s =? APCI_GROUP_RESPONSE) || (s =? APCI_GROUP_WRITE).

(** The transport and application parts fit together, the way the decoder
    pairs them.  A connection-oriented TPCI may already carry the APCI's two
    high bits, never others. *)
Definition Tpdu_ok (t : Tpci) (a : Apdu) : Prop :=
  match t, a with
  | Control raw, Empty => is_u8 raw
  | TpciOther raw, ApduOther apci data =>
      is_u8 raw /\ Z.land raw 192 <> 0 /\ 0 <= apci < 1024 /\
      Z.lor (Z.land raw 3) (apci_hi apci) = apci_hi apci /\ bytes_ok data
  | DataGroup, GroupValueRead => True
  | DataGroup, GroupValueResponse d | DataGroup, GroupValueWrite d => GroupData_ok d
  | DataGroup, ApduOther apci data =>
      0 <= apci < 1024 /\ is_group_apci apci = false /\ bytes_ok data
  | _, _ => False
  end.

(** The TPCI the wire carries: a connection-oriented octet with the APCI's high
    bits in it. *)
Definition Tpci_wire (t : Tpci) (a : Apdu) : Tpci :=
  match t, a with
  | TpciOther raw, ApduOther apci _ => TpciOther (Z.lor raw (apci_hi apci))
  | _, _ => t
  end.

Definition Control2_ok (c : Control2) : Prop :=
  0 <= hop_count c < 8 /\ 0 <= extended_frame_format c < 16.

Definition Destination_ok (c : Control2) (d : Destination) : Prop :=
  is_u16 (Destination_raw d) /\
  match d with
  | Group _ => group_address c = true
  | Individual _ => group_address c = false
  end.

(** The NPDU length [encode] computes. *)
Definition npdu_len_of (f : CemiFrame) : nat := snd (encode_tpdu (tpci f) (apdu f)).

Definition CemiFrame_ok (f : CemiFrame) : Prop :=
  bytes_ok (additional_info f) /\ zlen (additional_info f) < 256 /\
  Control2_ok (control2 f) /\ is_u16 (IndividualAddress_raw (source f)) /\
  Destination_ok (control2 f) (destination f) /\ Tpdu_ok (tpci f) (apdu f) /\
  (npdu_len_of f < 256)%nat.

(** The frame a receiver sees: the frame type follows the NPDU length and the
    TPCI octet carries the APCI's high bits. *)
Definition CemiFrame_wire (f : CemiFrame) : CemiFrame :=
  MkCemiFrame (message_code f) (additional_info f)
    (Control1_with_standard (control1 f)
       (bool_decide (npdu_len_of f <= MAX_STANDARD_NPDU_LEN)%nat))
    (control2 f) (source f) (destination f) (Tpci_wire (tpci f) (apdu f)) (apdu f).

(** ** Lemmas: fields *)

Lemma MessageCode_roundtrip m : MessageCode_from_u8 (MessageCode_as_u8 m) = Ok m.
Proof. destruct m; reflexivity. Qed.

Lemma MessageCode_from_inv v m : MessageCode_from_u8 v = Ok m -> v = MessageCode_as_u8 m.
Proof.
  unfold MessageCode_from_u8. intros H.
  repeat case_match; try discriminate H; injection H as <-; reflexivity.
Qed.

Lemma MessageCode_u8 m : is_u8 (MessageCode_as_u8 m).
Proof. destruct m; done. Qed.

Lemma Control1_of_to c : Control1_from_byte (Control1_to_byte c) = c.
Proof. destruct c as [[] [] [] [] [] []]; reflexivity. Qed.

(** Bit 6 is the field's one bit the record does not hold. *)
Lemma Control1_to_of b : is_u8 b -> Control1_to_byte (Control1_from_byte b) = Z.land b 191.
Proof.
  revert b. apply (u8_decide (fun b => Control1_to_byte (Control1_from_byte b) = Z.land b 191)).
  vm_compute. reflexivity.
Qed.

Lemma Control1_to_u8 c : is_u8 (Control1_to_byte c).
Proof. destruct c as [[] [] [] [] [] []]; done. Qed.

Lemma Control2_of_to c : Control2_ok c -> Control2_from_byte (Control2_to_byte c) = c.
Proof.
  destruct c as [g h e]. intros [Hh He]. simpl in *.
  assert (H : forall h e, is_u8 h -> is_u8 e -> h < 8 -> e < 16 ->
    Control2_from_byte (Control2_to_byte (MkControl2 g h e)) = MkControl2 g h e);
    [|apply H; unfold is_u8; lia].
  clear. destruct g.
  - apply (u8_decide2 (fun h e => h < 8 -> e < 16 ->
      Control2_from_byte (Control2_to_byte (MkControl2 true h e)) = MkControl2 true h e)).
    vm_compute. reflexivity.
  - apply (u8_decide2 (fun h e => h < 8 -> e < 16 ->
      Control2_from_byte (Control2_to_byte (MkControl2 false h e)) = MkControl2 false h e)).
    vm_compute. reflexivity.
Qed.

Lemma Control2_to_of b : is_u8 b -> Control2_to_byte (Control2_from_byte b) = b.
Proof.
  revert b. apply (u8_decide (fun b => Control2_to_byte (Control2_from_byte b) = b)).
  vm_compute. reflexivity.
Qed.

Lemma Control2_from_ok b : is_u8 b -> Control2_ok (Control2_from_byte b).
Proof.
  revert b. apply (u8_decide (fun b => Control2_ok (Control2_from_byte b))).
  vm_compute. reflexivity.
Qed.

Lemma Control2_to_u8 c : Control2_ok c -> is_u8 (Control2_to_byte c).
Proof.
  destruct c as [g h e]. intros [Hh He]. simpl in *.
  assert (H : forall h e, is_u8 h -> is_u8 e -> is_u8 (Control2_to_byte (MkControl2 g h e)));
    [|apply H; unfold is_u8; lia].
  clear. destruct g.
  - apply (u8_decide2 (fun h e => is_u8 (Control2_to_byte (MkControl2 true h e)))).
    vm_compute. reflexivity.
  - apply (u8_decide2 (fun h e => is_u8 (Control2_to_byte (MkControl2 false h e)))).
    vm_compute. reflexivity.
Qed.

(** ** Lemmas: the TPDU *)

Lemma apci_split apci : 0 <= apci < 1024 ->
  is_u8 (apci_hi apci) /\ is_u8 (apci_lo apci) /\ Z.land (apci_hi apci) 192 = 0 /\
  Z.lor (Z.shiftl (Z.land (apci_hi apci) 3) 8) (apci_lo apci) = apci.
Proof.
  intros H. apply (below_decide 1024 (fun apci =>
    is_u8 (apci_hi apci) /\ is_u8 (apci_lo apci) /\ Z.land (apci_hi apci) 192 = 0 /\
    Z.lor (Z.shiftl (Z.land (apci_hi apci) 3) 8) (apci_lo apci) = apci)); [|done].
  vm_compute. reflexivity.
Qed.

Lemma apci_hi_range apci : 0 <= apci < 1024 -> 0 <= apci_hi apci < 4.
Proof.
  intros H. apply (below_decide 1024 (fun apci => 0 <= apci_hi apci < 4)); [|done].
  vm_compute. reflexivity.
Qed.

(** OR-ing the APCI's high bits into a connection-oriented octet. *)
Lemma tpci_or raw h : is_u8 raw -> 0 <= h < 4 -> Z.land raw 192 <> 0 ->
  is_u8 (Z.lor raw h) /\ Z.land (Z.lor raw h) 192 <> 0 /\
  (Z.lor (Z.land raw 3) h = h -> Z.land (Z.lor raw h) 3 = h).
Proof.
  intros Hr Hh Hn.
  assert (H : forall raw h, is_u8 raw -> is_u8 h -> h < 4 -> Z.land raw 192 <> 0 ->
    is_u8 (Z.lor raw h) /\ Z.land (Z.lor raw h) 192 <> 0 /\
    (Z.lor (Z.land raw 3) h = h -> Z.land (Z.lor raw h) 3 = h));
    [|apply H; unfold is_u8 in *; lia || done].
  apply (u8_decide2 (fun raw h => h < 4 -> Z.land raw 192 <> 0 ->
    is_u8 (Z.lor raw h) /\ Z.land (Z.lor raw h) 192 <> 0 /\
    (Z.lor (Z.land raw 3) h = h -> Z.land (Z.lor raw h) 3 = h))).
  vm_compute. reflexivity.
Qed.

(** What the receiver reads off a small group APDU's second octet. *)
Lemma small_octet v : 0 <= v < 64 ->
  forall base, base = APCI_GROUP_RESPONSE \/ base = APCI_GROUP_WRITE ->
  is_u8 (Z.lor base (Z.land v 63)) /\ Z.land (Z.lor base (Z.land v 63)) 63 = v /\
  Z.land (Z.lor base (Z.land v 63)) APCI_GROUP_MASK = base.
Proof.
  intros Hv base Hb.
  assert (H : forall v, is_u8 v -> v < 64 ->
    is_u8 (Z.lor base (Z.land v 63)) /\ Z.land (Z.lor base (Z.land v 63)) 63 = v /\
    Z.land (Z.lor base (Z.land v 63)) APCI_GROUP_MASK = base);
    [|apply H; unfold is_u8 in *; lia].
  destruct Hb as [-> | ->].
  - apply (u8_decide (fun v => v < 64 ->
      is_u8 (Z.lor APCI_GROUP_RESPONSE (Z.land v 63)) /\
      Z.land (Z.lor APCI_GROUP_RESPONSE (Z.land v 63)) 63 = v /\
      Z.land (Z.lor APCI_GROUP_RESPONSE (Z.land v 63)) APCI_GROUP_MASK = APCI_GROUP_RESPONSE)).
    vm_compute. reflexivity.
  - apply (u8_decide (fun v => v < 64 ->
      is_u8 (Z.lor APCI_GROUP_WRITE (Z.land v 63)) /\
      Z.land (Z.lor APCI_GROUP_WRITE (Z.land v 63)) 63 = v /\
      Z.land (Z.lor APCI_GROUP_WRITE (Z.land v 63)) APCI_GROUP_MASK = APCI_GROUP_WRITE)).
    vm_compute. reflexivity.
Qed.

Lemma is_group_apci_false apci : is_group_apci apci = false ->
  (Z.land apci APCI_GROUP_MASK =? APCI_GROUP_READ) = false /\
  (Z.land apci APCI_GROUP_MASK =? APCI_GROUP_RESPONSE) = false /\
  (Z.land apci APCI_GROUP_MASK =? APCI_GROUP_WRITE) = false.
Proof.
  unfold is_group_apci. intros H. apply orb_false_iff in H as [H ?].
  apply orb_false_iff in H as [? ?]. done.
Qed.

(** Encoding the two forms of a group payload and reading it back. *)
Lemma decode_encode_group apci d :
  (apci = APCI_GROUP_RESPONSE \/ apci = APCI_GROUP_WRITE) -> GroupData_ok d ->
  exists o1 data n, encode_group_tpdu apci (gd_small d) (gd_large d) = (0 :: o1 :: data, n)
    /\ length data = (n - 1)%nat /\ (1 <= n)%nat /\ bytes_ok (0 :: o1 :: data)
    /\ Z.land o1 APCI_GROUP_MASK = apci /\ decode_group_data o1 (0 :: o1 :: data) n = d.
Proof.
  intros Hb Hd. destruct d as [v|b]; simpl in Hd.
  - destruct (small_octet v Hd apci Hb) as (H1 & H2 & H3).
    exists (Z.lor apci (Z.land v 63)), [], 1%nat.
    destruct Hb as [-> | ->]; (repeat split; [..|unfold decode_group_data; simpl; by rewrite H2]);
      done || lia || solve_bytes.
  - destruct Hd as [Hne Hok]. exists apci, b, (S (length b)).
    destruct b as [|x b]; [done|].
    destruct Hb as [-> | ->]; repeat split; simpl; done || lia || solve_bytes.
Qed.

(** Decoding what [encode_tpdu] produced. *)
Lemma decode_encode_tpdu t a : Tpdu_ok t a ->
  let '(tpdu, n) := encode_tpdu t a in
  decode_tpdu tpdu n = Ok (Tpci_wire t a, a) /\ length tpdu = (n + 1)%nat /\ bytes_ok tpdu.
Proof.
  destruct t as [|raw|raw]; destruct a as [|d|d|apci data|]; try done; simpl Tpdu_ok.
  - intros _. simpl. repeat split. solve_bytes.
  - intros Hd. destruct (decode_encode_group APCI_GROUP_RESPONSE d) as
      (o1 & data & n & E & Hl & Hn & Hok & Hsel & Hdec); [by left|done|].
    cbn [encode_tpdu]. rewrite E. cbn [decode_tpdu]. rewrite Hdec.
    change (Z.land 0 192 =? 0) with true. change (Z.shiftl (Z.land 0 3) 8) with 0.
    cbn iota. rewrite Z.lor_0_l, Hsel. simpl.
    repeat split; [lia|done].
  - intros Hd. destruct (decode_encode_group APCI_GROUP_WRITE d) as
      (o1 & data & n & E & Hl & Hn & Hok & Hsel & Hdec); [by right|done|].
    cbn [encode_tpdu]. rewrite E. cbn [decode_tpdu]. rewrite Hdec.
    change (Z.land 0 192 =? 0) with true. change (Z.shiftl (Z.land 0 3) 8) with 0.
    cbn iota. rewrite Z.lor_0_l, Hsel. simpl.
    repeat split; [lia|done].
  - intros (Ha & Hg & Hok). destruct (apci_split apci Ha) as (H1 & H2 & H3 & H4).
    destruct (is_group_apci_false _ Hg) as (G1 & G2 & G3).
    cbn [encode_tpdu decode_tpdu]. rewrite H3, H4. simpl. rewrite G1, G2, G3.
    repeat split; [lia|]. solve_bytes.
  - intros Hr. simpl. repeat split. solve_bytes.
  - intros (Hr & Hn & Ha & Hlow & Hok). destruct (apci_split apci Ha) as (H1 & H2 & H3 & H4).
    pose proof (apci_hi_range apci Ha) as Hh.
    destruct (tpci_or raw _ Hr Hh Hn) as (O1 & O2 & O3). specialize (O3 Hlow).
    cbn [encode_tpdu decode_tpdu]. apply Z.eqb_neq in O2. rewrite O2, O3.
    assert (E3 : Z.land (apci_hi apci) 3 = apci_hi apci).
    { rewrite <- O3 at 1. rewrite <- Z.land_assoc. exact O3. }
    rewrite E3 in H4. rewrite H4. simpl.
    repeat split; [lia|]. solve_bytes.
Qed.

(** ** Lemmas: the frame *)

Lemma CemiFrame_encode_eq f :
  let '(tpdu, n) := encode_tpdu (tpci f) (apdu f) in
  CemiFrame_encode f =
    [MessageCode_as_u8 (message_code f); as_u8 (zlen (additional_info f))]
    ++ additional_info f
    ++ Control1_to_byte (control1 (CemiFrame_wire f)) :: Control2_to_byte (control2 f)
    :: be_bytes 2 (IndividualAddress_raw (source f))
    ++ be_bytes 2 (Destination_raw (destination f))
    ++ as_u8 (Z.of_nat n) :: tpdu.
Proof.
  unfold CemiFrame_encode, CemiFrame_wire, npdu_len_of.
  destruct (encode_tpdu (tpci f) (apdu f)) as [tpdu n]. cbn [control1 snd].
  set (x := Control1_to_byte _).
  rewrite (app_assoc [_; _] (additional_info f)).
  replace (2 + length (additional_info f))%nat
    with (length ([MessageCode_as_u8 (message_code f); as_u8 (zlen (additional_info f))]
                  ++ additional_info f) + 0)%nat by (rewrite length_app; simpl; lia).
  rewrite insert_app_r. simpl. rewrite <- !app_assoc. reflexivity.
Qed.

Lemma CemiFrame_decode_encode f : CemiFrame_ok f ->
  CemiFrame_decode (CemiFrame_encode f) = Ok (CemiFrame_wire f).
Proof.
  intros (Hai & Hail & Hc2 & Hsrc & [Hdst Hkind] & Htp & Hn).
  pose proof (CemiFrame_encode_eq f) as Henc. pose proof (decode_encode_tpdu _ _ Htp) as Hdec.
  unfold npdu_len_of in Hn.
  destruct (encode_tpdu (tpci f) (apdu f)) as [tpdu n]. simpl snd in Hn.
  destruct Hdec as (Hd & Hl & Hok). rewrite Henc. clear Henc.
  rewrite (be_bytes_2 _ Hsrc), (be_bytes_2 _ Hdst). unfold CemiFrame_decode.
  match goal with |- context [Cursor_new ?b] => pose proof (cur_rest_new b) as Hc end.
  assert (Hai' : Z.to_nat (as_u8 (zlen (additional_info f))) = length (additional_info f))
    by (unfold zlen in *; zdiv).
  assert (Hn' : Z.to_nat (as_u8 (Z.of_nat n)) = n) by zdiv.
  simpl app in Hc |- *. cur_step. rewrite MessageCode_roundtrip. cbn [mbind result_bind].
  cur_step. rewrite Hai'. cur_step; [done|]. simpl app in Hc. do 5 cur_step.
  rewrite Hn'. rewrite <- (app_nil_r tpdu) in Hc. cur_step; [lia|].
  rewrite Hd. cbn [mbind result_bind mret result_ret].
  rewrite Control1_of_to, (Control2_of_to _ Hc2).
  assert (Hw : forall w, is_u16 w -> u16_of (w / 256) (w mod 256) = w) by (intros; zdiv).
  rewrite !Hw by done.
  unfold CemiFrame_wire. destruct f as [mc ai ctl1 ctl2 [s] dst t a]. simpl in *.
  destruct dst as [[g]|[g]]; simpl in Hkind; rewrite Hkind; reflexivity.
Qed.

(** ** Lemmas: what the decoder produces *)

Lemma decode_apci_range o0 o1 : is_u8 o0 -> is_u8 o1 ->
  let apci := Z.lor (Z.shiftl (Z.land o0 3) 8) o1 in
  0 <= apci < 1024 /\ apci_hi apci = Z.land o0 3 /\ Z.lor (Z.land o0 3) (Z.land o0 3) = Z.land o0 3.
Proof.
  intros H0 H1. revert o0 o1 H0 H1.
  apply (u8_decide2 (fun o0 o1 => let apci := Z.lor (Z.shiftl (Z.land o0 3) 8) o1 in
    0 <= apci < 1024 /\ apci_hi apci = Z.land o0 3
    /\ Z.lor (Z.land o0 3) (Z.land o0 3) = Z.land o0 3)).
  vm_compute. reflexivity.
Qed.

Lemma land_63 o : is_u8 o -> 0 <= Z.land o 63 < 64.
Proof.
  revert o. apply (u8_decide (fun o => 0 <= Z.land o 63 < 64)). vm_compute. reflexivity.
Qed.

Lemma decode_group_data_ok o0 o1 data :
  bytes_ok (o0 :: o1 :: data) ->
  GroupData_ok (decode_group_data o1 (o0 :: o1 :: data) (S (length data))).
Proof.
  intros Hok. unfold decode_group_data. inversion Hok as [|? ? H0 Hr]; subst.
  inversion Hr as [|? ? H1 Hd]; subst. case_bool_decide as Hn.
  - simpl. by apply land_63.
  - simpl. split; [|exact Hd]. destruct data; simpl in *; [lia|done].
Qed.

Lemma group_npdu o0 o1 data base :
  let d := decode_group_data o1 (o0 :: o1 :: data) (S (length data)) in
  snd (encode_group_tpdu base (gd_small d) (gd_large d)) = S (length data).
Proof. destruct data; simpl; [done|lia]. Qed.

(** The decoder pairs the two layers canonically, and the TPCI it returns is
    the octet on the wire. *)
Lemma decode_tpdu_ok tpdu n t a : bytes_ok tpdu -> length tpdu = (n + 1)%nat ->
  decode_tpdu tpdu n = Ok (t, a) ->
  Tpdu_ok t a /\ Tpci_wire t a = t /\ (snd (encode_tpdu t a) <= Nat.max n 1)%nat.
Proof.
  intros Hok Hl E. destruct tpdu as [|o0 [|o1 data]]; [done|..].
  - simpl in E. injection E as <- <-. inversion Hok; subst. split; [done|]. split; [done|simpl; lia].
  - simpl in Hl. assert (n = S (length data)) as -> by lia.
    pose proof (decode_group_data_ok _ _ _ Hok) as Hg.
    inversion Hok as [|? ? H0 Hr]; subst. inversion Hr as [|? ? H1 Hd]; subst.
    destruct (decode_apci_range o0 o1 H0 H1) as (R1 & R2 & R3).
    cbn [decode_tpdu] in E. set (apci := Z.lor _ _) in *.
    destruct (Z.land o0 192 =? 0) eqn:Ef.
    + pose proof (group_npdu o0 o1 data) as Hlen.
      destruct (Z.land apci APCI_GROUP_MASK =? APCI_GROUP_READ) eqn:S1;
        [|destruct (Z.land apci APCI_GROUP_MASK =? APCI_GROUP_RESPONSE) eqn:S2;
          [|destruct (Z.land apci APCI_GROUP_MASK =? APCI_GROUP_WRITE) eqn:S3]];
        injection E as <- <-.
      * simpl. repeat split. lia.
      * split; [exact Hg|]. split; [done|].
        cbn [encode_tpdu]. rewrite Hlen. lia.
      * split; [exact Hg|]. split; [done|].
        cbn [encode_tpdu]. rewrite Hlen. lia.
      * split; [|split; [done|simpl; lia]]. simpl. split; [exact R1|]. split; [|exact Hd].
        unfold is_group_apci. rewrite S1, S2, S3. done.
    + injection E as <- <-. simpl. rewrite R2. apply Z.eqb_neq in Ef.
      split; [|split; [|lia]].
      * split; [exact H0|]. split; [exact Ef|]. split; [exact R1|]. split; [exact R3|exact Hd].
      * f_equal. apply Z.bits_inj'. intros i Hi. rewrite Z.lor_spec, Z.land_spec.
        destruct (Z.testbit o0 i); done.
Qed.

(** The octet of the TPCI, and what the frame keeps of it. *)
Definition tpci_octet (octet : u8) (t : Tpci) : Prop :=
  match t with
  | DataGroup => Z.land octet 192 = 0
  | Control raw | TpciOther raw => raw = octet
  end.

Lemma decode_tpdu_octet tpdu n t a : decode_tpdu tpdu n = Ok (t, a) -> exists octet rest, tpdu = octet :: rest /\ tpci_octet octet t.
Proof.
  intros E. destruct tpdu as [|octet [|octet1 data]]; [done|by injection E as <- <-; exists octet, []|].
  exists octet, (octet1 :: data). split; [done|]. cbn [decode_tpdu] in E.
  destruct (Z.eqb_spec (Z.land octet 192) 0) as [Hz|]; by injection E as <- <-.
Qed.

(** Where the TPCI is in a frame. *)
Definition tpci_at (f : CemiFrame) : nat := (9 + length (additional_info f))%nat.

Lemma CemiFrame_decode_ok buf f : bytes_ok buf -> CemiFrame_decode buf = Ok f ->
  CemiFrame_ok f /\ Tpci_wire (tpci f) (apdu f) = tpci f /\
  exists octet, buf !! tpci_at f = Some octet /\ tpci_octet octet (tpci f).
Proof.
  intros Hok E. unfold CemiFrame_decode in E.
  pose proof (cur_rest_new buf) as Hc. cbn zeta in E.
  cur_inv E. apply bind_ok in E as (mc & Em & E).
  cur_inv E. cur_inv E. do 4 cur_inv E. cbn zeta in E. cur_inv E. cbn zeta in E. cur_inv E.
  apply bind_ok in E as ([t a] & Ed & E). injection E as <-.
  destruct (decode_tpdu_octet _ _ _ _ Ed) as (octet & rest & Et & Ho).
  assert (Hat : exists octet, (z :: z0 :: l ++ z1 :: z2 :: x0 :: x1 :: x :: x3 :: z3 :: l0 ++ x4) !! (9 + length l)%nat = Some octet
    /\ tpci_octet octet t).
  { exists octet. split; [|done]. rewrite Et. change (9 + length l)%nat with (S (S (7 + length l))).
    rewrite !lookup_cons_ne_0 by done. cbn [pred]. rewrite lookup_app_r by lia. by replace (7 + length l - length l)%nat with 7%nat by lia. }
  clear Et Ho. simpl in Hok. unfold bytes_ok in Hok.
  repeat (rewrite Forall_cons in Hok || rewrite Forall_app in Hok). destruct_and! Hok.
  match goal with Ed : decode_tpdu ?l ?n = _, Hl : length ?l = _ |- _ =>
    destruct (decode_tpdu_ok l n t a) as (T1 & T2 & T3); [done|lia|done|] end.
  split; [|split; [exact T2|exact Hat]]. unfold CemiFrame_ok, npdu_len_of. cbn -[Control2_ok].
  split; [done|]. split; [unfold zlen; unfold_widths; lia|].
  split; [by apply Control2_from_ok|]. split; [by apply u16_of_ok|].
  split; [|split; [exact T1|unfold_widths; lia]].
  unfold Destination_ok. simpl. destruct (negb _) eqn:Eg; simpl; split; auto with bus.
Qed.

(** ** Properties *)

(** The payload a group-value service carries. *)
Definition group_payload (a : Apdu) : option bytes :=
  match a with
  | GroupValueResponse d | GroupValueWrite d => Some (GroupData_bytes d)
  | _ => None
  end.

(** serializing any well-formed frame and decoding the octets gives back the
    frame, with the frame-type bit the NPDU length calls for and the TPCI octet
    as it is on the wire. *)
Theorem cemi_roundtrip f :
  CemiFrame_ok f -> CemiFrame_decode (CemiFrame_encode f) = Ok (CemiFrame_wire f).
Proof. apply CemiFrame_decode_encode. Qed.

Lemma cemi_roundtrip_witness :
  CemiFrame_decode (CemiFrame_encode
    (CemiFrame_t_data_connected (IndividualAddress_from_raw 4356) (IndividualAddress_from_raw 4607)
       68 981 [0; 11; 16; 1]))
  = Ok (CemiFrame_wire
    (CemiFrame_t_data_connected (IndividualAddress_from_raw 4356) (IndividualAddress_from_raw 4607)
       68 981 [0; 11; 16; 1])).
Proof.
  apply cemi_roundtrip. unfold CemiFrame_ok. simpl.
  split; [solve_bytes|]. split; [done|]. split; [done|]. split; [done|]. split; [done|].
  split; [|unfold npdu_len_of; simpl; lia].
  split; [done|]. split; [done|]. split; [done|]. split; [done|]. solve_bytes.
Defined.

(** C40: whatever octets arrive, a frame the decoder accepts is well-formed
    (field widths, destination kind, TPDU shape), its TPCI is the octet that was on
    the wire, nine octets past the additional information (or an unnumbered data
    TPCI, when the two leading bits of that octet are clear), and sending it again
    changes at most the frame-type bit. *)
Theorem cemi_decode_wellformed buf f :
  bytes_ok buf -> CemiFrame_decode buf = Ok f ->
  CemiFrame_ok f /\
  (exists octet, buf !! tpci_at f = Some octet /\ tpci_octet octet (tpci f)) /\
  exists b, CemiFrame_decode (CemiFrame_encode f)
    = Ok (MkCemiFrame (message_code f) (additional_info f) (Control1_with_standard (control1 f) b)
            (control2 f) (source f) (destination f) (tpci f) (apdu f)).
Proof.
  intros Hok E. destruct (CemiFrame_decode_ok _ _ Hok E) as (Hf & Ht & Ho).
  split; [done|]. split; [done|]. eexists.
  rewrite CemiFrame_decode_encode by done. unfold CemiFrame_wire. rewrite Ht. reflexivity.
Qed.

Lemma cemi_decode_wellformed_witness :
  exists f, CemiFrame_decode [41; 0; 188; 224; 17; 1; 9; 1; 1; 0; 129] = Ok f /\ CemiFrame_ok f.
Proof.
  eexists. split; [vm_compute; reflexivity|].
  eapply (cemi_decode_wellformed [41; 0; 188; 224; 17; 1; 9; 1; 1; 0; 129]);
    [solve_bytes | vm_compute; reflexivity].
Defined.

(** a group write delivers exactly its payload octets whether or not the
    datapoint packs: the receiver's payload is the sender's, and it travels in the
    6-bit form exactly when packing was asked for and the payload is one octet below
    64 (issue #59: a byte-sized datapoint never packs). *)
Theorem group_write_delivers_payload dst src payload packed :
  is_u16 (GroupAddress_raw dst) -> is_u16 (IndividualAddress_raw src) ->
  bytes_ok payload -> payload <> [] -> zlen payload < 255 ->
  exists f d, CemiFrame_decode (CemiFrame_encode (CemiFrame_group_write dst src payload packed)) = Ok f
    /\ apdu f = GroupValueWrite d /\ GroupData_bytes d = payload
    /\ destination f = Group dst /\ source f = src
    /\ (d = Large payload <-> packed && packs_by_length payload = false).
Proof.
  intros Hd Hs Hok Hne Hlen.
  assert (Hg : GroupData_ok (group_data payload packed)
    /\ GroupData_bytes (group_data payload packed) = payload
    /\ (group_data payload packed = Large payload <-> packed && packs_by_length payload = false)).
  { unfold group_data, packs_by_length. destruct payload as [|p [|q r]]; [done| |].
    - destruct packed; simpl; [|done].
      destruct (Z.leb_spec p 63) as [Hp|Hp]; simpl; [|done].
      inversion Hok as [|? ? Hp8 _]; subst. unfold is_u8 in Hp8. split; [lia|]. split; [|done].
      f_equal. change 63 with (Z.ones 6). rewrite Z.land_ones by lia. apply Z.mod_small. lia.
    - simpl. rewrite andb_false_r. done. }
  destruct Hg as (Hg & Hb & Hform).
  exists (CemiFrame_wire (CemiFrame_group_write dst src payload packed)), (group_data payload packed).
  split; [|done]. apply CemiFrame_decode_encode.
  unfold CemiFrame_ok, CemiFrame_group_write, group_frame, npdu_len_of. cbn -[group_data].
  split; [solve_bytes|]. split; [done|]. split; [done|]. split; [done|]. split; [done|].
  split; [exact Hg|].
  destruct (group_data payload packed) as [v|b] eqn:Eg; simpl in Hb |- *; [lia|].
  subst b. unfold zlen in Hlen. lia.
Qed.

Lemma group_write_delivers_payload_witness :
  exists f d, CemiFrame_decode (CemiFrame_encode (CemiFrame_group_write (GroupAddress_from_raw 2305)
      (IndividualAddress_from_raw 4351) [50] false)) = Ok f
    /\ apdu f = GroupValueWrite d /\ GroupData_bytes d = [50]
    /\ destination f = Group (GroupAddress_from_raw 2305)
    /\ source f = IndividualAddress_from_raw 4351
    /\ (d = Large [50] <-> false && packs_by_length [50] = false).
Proof. apply group_write_delivers_payload; [done|done|solve_bytes|done|done]. Defined.
