(* ===== verification/Tpci.v ===== *)
(** * The transport-layer control octet ([crates/bussard-transport/src/tpci.rs]) *)

From S2P Require Import Prelude.

Local Open Scope Z_scope.

Definition T_CONNECT : u8 := 128.
Definition T_DISCONNECT : u8 := 129.
Definition NDT_BASE : u8 := 64.
Definition T_ACK_BASE : u8 := 194.
Definition T_NAK_BASE : u8 := 195.

Inductive TpciKind : Type :=
| UnnumberedData
| NumberedData (seq : u8)
| Connect
| Disconnect
| Ack (seq : u8)
| Nak (seq : u8)
| Unknown (octet : u8).

#[export] Instance TpciKind_eq_dec : EqDecision TpciKind.
Proof. solve_decision. Defined.

Definition sequence (octet : u8) : u8 := Z.land (Z.shiftr octet 2) 15.

Definition ndt (seq : u8) : u8 := Z.lor NDT_BASE (as_u8 (Z.shiftl (Z.land seq 15) 2)).
Definition t_ack (seq : u8) : u8 := Z.lor T_ACK_BASE (as_u8 (Z.shiftl (Z.land seq 15) 2)).
Definition t_nak (seq : u8) : u8 := Z.lor T_NAK_BASE (as_u8 (Z.shiftl (Z.land seq 15) 2)).

Definition classify (octet : u8) : TpciKind :=
  match Z.land octet 192 with
  | 0 => UnnumberedData
  | 64 => NumberedData (sequence octet)
  | 128 =>
      if octet =? T_CONNECT then Connect
      else if octet =? T_DISCONNECT then Disconnect
      else Unknown octet
  | 192 =>
      match Z.land octet 3 with
      | 2 => Ack (sequence octet)
      | 3 => Nak (sequence octet)
      | _ => Unknown octet
      end
  | _ => Unknown octet
  end.

(** The octet a kind stands for; [low] gives the bits the kind does not hold
    (the application bits of a data octet). *)
Definition TpciKind_octet (k : TpciKind) (low : u8) : u8 :=
  match k with
  | UnnumberedData => Z.land low 63
  | NumberedData s => Z.lor (ndt s) (Z.land low 3)
  | Connect => T_CONNECT
  | Disconnect => T_DISCONNECT
  | Ack s => t_ack s
  | Nak s => t_nak s
  | Unknown o => o
  end.

(** ** Properties *)

(** The octet builders are inverted by the classifier for every sequence value
    (only the low nibble counts), also when application bits are OR-ed into a data
    octet; and an octet is classified as a control or data telegram only if it is
    exactly one a builder makes. *)
Theorem tpci_classify_build seq hi :
  is_u8 seq -> is_u8 hi -> hi < 4 ->
  classify (ndt seq) = NumberedData (Z.land seq 15)
  /\ classify (Z.lor (ndt seq) hi) = NumberedData (Z.land seq 15)
  /\ classify (t_ack seq) = Ack (Z.land seq 15)
  /\ classify (t_nak seq) = Nak (Z.land seq 15)
  /\ classify T_CONNECT = Connect /\ classify T_DISCONNECT = Disconnect
  /\ TpciKind_octet (classify seq) seq = seq.
Proof.
  intros Hs Hh Hlt.
  assert (Hcheck : Forall (fun hi => classify (Z.lor (ndt seq) hi) = NumberedData (Z.land seq 15))
      [0; 1; 2; 3]
    /\ classify (t_ack seq) = Ack (Z.land seq 15) /\ classify (t_nak seq) = Nak (Z.land seq 15)
    /\ TpciKind_octet (classify seq) seq = seq).
  { revert seq Hs. apply (u8_decide (fun seq =>
      Forall (fun hi => classify (Z.lor (ndt seq) hi) = NumberedData (Z.land seq 15)) [0; 1; 2; 3]
      /\ classify (t_ack seq) = Ack (Z.land seq 15) /\ classify (t_nak seq) = Nak (Z.land seq 15)
      /\ TpciKind_octet (classify seq) seq = seq)).
    vm_compute. reflexivity. }
  destruct Hcheck as (Hall & Ha & Hn & Hinv). rewrite Forall_forall in Hall.
  split; [|split; [|done]].
  - rewrite <- (Z.lor_0_r (ndt seq)). apply Hall. set_solver.
  - apply Hall. unfold is_u8 in Hh.
    assert (hi = 0 \/ hi = 1 \/ hi = 2 \/ hi = 3) as [-> | [-> | [-> | ->]]] by lia; set_solver.
Qed.

Lemma tpci_classify_build_witness :
  classify (t_ack 5) = Ack 5 /\ classify (Z.lor (ndt 5) 3) = NumberedData 5.
Proof.
  destruct (tpci_classify_build 5 3) as (_ & H & H' & _); [done|done|done|]. split; assumption.
Defined.
