(* ===== verification/SimWire.v ===== *)
(** * The simulator's wire layer ([knx-sim/src/wire])

    knx-sim is written independently of the other crates and decodes the same
    frames with its own code: addresses (address.rs), cEMI (cemi.rs), TPCI and
    APCI (apdu.rs).  Names clash with the client's codec, so everything here
    carries the prefix [sim_] or a [Sim] in its name. *)

From S2P Require Import Prelude Address Cursor Cemi Tpci.

Local Open Scope Z_scope.

(** ** Addresses *)

Record SimIndividualAddress : Type := MkSimIA { sim_ia_raw : u16 }.
Record SimGroupAddress : Type := MkSimGA { sim_ga_raw : u16 }.

#[export] Instance SimIndividualAddress_eq_dec : EqDecision SimIndividualAddress.
Proof. solve_decision. Defined.

Definition sim_ia_new (area line device : u8) : SimIndividualAddress :=
  MkSimIA (Z.lor (Z.lor (as_u16 (Z.shiftl area 12)) (Z.shiftl (Z.land line 15) 8)) device).

Definition sim_ia_area (a : SimIndividualAddress) : u8 := as_u8 (Z.shiftr (sim_ia_raw a) 12).
Definition sim_ia_line (a : SimIndividualAddress) : u8 :=
  as_u8 (Z.land (Z.shiftr (sim_ia_raw a) 8) 15).
Definition sim_ia_device (a : SimIndividualAddress) : u8 := as_u8 (Z.land (sim_ia_raw a) 255).

(** ** cEMI *)

Inductive SimMessageCode : Type := SimLDataReq | SimLDataInd | SimLDataCon.

Definition sim_mc_from_byte (b : u8) : option SimMessageCode :=
  match b with
  | 17 => Some SimLDataReq
  | 41 => Some SimLDataInd
  | 46 => Some SimLDataCon
  | _ => None
  end.

Definition sim_mc_to_byte (m : SimMessageCode) : u8 :=
  match m with
  | SimLDataReq => 17
  | SimLDataInd => 41
  | SimLDataCon => 46
  end.

Record CemiLData : Type := MkCemiLData {
  sim_message_code : SimMessageCode;
  sim_ctrl1 : u8;
  sim_ctrl2 : u8;
  sim_source : SimIndividualAddress;
  sim_dest : u16;
  sim_tpdu : bytes }.

#[export] Instance SimMessageCode_eq_dec : EqDecision SimMessageCode.
Proof. solve_decision. Defined.
#[export] Instance CemiLData_eq_dec : EqDecision CemiLData.
Proof. solve_decision. Defined.

Inductive CemiError : Type :=
| CemiTruncated (need have : Z)
| UnsupportedMessageCode (b : u8)
| NpduLengthMismatch (declared actual : Z).

Definition sim_is_group (c : CemiLData) : bool := negb (Z.land (sim_ctrl2 c) 128 =? 0).
Definition sim_is_standard_frame (c : CemiLData) : bool := negb (Z.land (sim_ctrl1 c) 128 =? 0).
Definition sim_dest_individual (c : CemiLData) : SimIndividualAddress := MkSimIA (sim_dest c).
Definition sim_dest_group (c : CemiLData) : SimGroupAddress := MkSimGA (sim_dest c).

(** [buf[i]], with [i] in range at every use. *)
Definition octet (buf : bytes) (i : nat) : u8 := nth i buf 0.

(** [CemiLData::decode]. *)
Definition sim_cemi_decode (buf : bytes) : result CemiError CemiLData :=
  if bool_decide (length buf < 2)%nat then Err (CemiTruncated 2 (zlen buf)) else
  message_code ← ok_or (UnsupportedMessageCode (octet buf 0)) (sim_mc_from_byte (octet buf 0));
  let addl_len := Z.to_nat (octet buf 1) in
  let header_end := (2 + addl_len)%nat in
  let fixed_need := (header_end + 7)%nat in
  if bool_decide (length buf < fixed_need)%nat
  then Err (CemiTruncated (Z.of_nat fixed_need) (zlen buf)) else
  let ctrl1 := octet buf header_end in
  let ctrl2 := octet buf (header_end + 1) in
  let source := MkSimIA (u16_of (octet buf (header_end + 2)) (octet buf (header_end + 3))) in
  let dest := u16_of (octet buf (header_end + 4)) (octet buf (header_end + 5)) in
  let npdu_len := Z.to_nat (octet buf (header_end + 6)) in
  let tpdu_start := (header_end + 7)%nat in
  let tpdu_len := (npdu_len + 1)%nat in
  let available := (length buf - tpdu_start)%nat in
  if bool_decide (available < tpdu_len)%nat
  then Err (NpduLengthMismatch (Z.of_nat tpdu_len) (Z.of_nat available)) else
  Ok (MkCemiLData message_code ctrl1 ctrl2 source dest
        (slice tpdu_start (tpdu_start + tpdu_len) buf)).

(** [CemiLData::encode] (no additional information). *)
Definition sim_cemi_encode (c : CemiLData) : bytes :=
  let npdu_len := as_u8 (Z.of_nat (length (sim_tpdu c) - 1)) in
  [sim_mc_to_byte (sim_message_code c); 0; sim_ctrl1 c; sim_ctrl2 c]
  ++ be_bytes 2 (sim_ia_raw (sim_source c)) ++ be_bytes 2 (sim_dest c)
  ++ [npdu_len] ++ sim_tpdu c.

(** ** TPCI *)

Inductive SimTpci : Type :=
| SimDataUnnumbered
| SimDataConnected (seq : u8)
| SimConnect
| SimDisconnect
| SimAck (seq : u8)
| SimNak (seq : u8).

#[export] Instance SimTpci_eq_dec : EqDecision SimTpci.
Proof. solve_decision. Defined.

(** [Tpci::from_byte]. *)
Definition sim_tpci_from_byte (b : u8) : SimTpci :=
  if b =? 128 then SimConnect
  else if b =? 129 then SimDisconnect
  else
    match Z.land b 192 with
    | 0 => SimDataUnnumbered
    | 64 => SimDataConnected (Z.land (Z.shiftr b 2) 15)
    | 192 =>
        let seq := Z.land (Z.shiftr b 2) 15 in
        if Z.land b 3 =? 2 then SimAck seq else SimNak seq
    | _ => SimDataUnnumbered
    end.

Definition sim_data_connected_byte (seq : u8) : u8 :=
  Z.lor 64 (as_u8 (Z.shiftl (Z.land seq 15) 2)).
Definition sim_ack_byte (seq : u8) : u8 :=
  Z.lor (Z.lor 192 (as_u8 (Z.shiftl (Z.land seq 15) 2))) 2.
Definition sim_nak_byte (seq : u8) : u8 :=
  Z.lor (Z.lor 192 (as_u8 (Z.shiftl (Z.land seq 15) 2))) 3.
Definition SIM_DISCONNECT_BYTE : u8 := 129.

(** ** APCI *)

Inductive SimApci : Type :=
| SimGroupValueRead | SimGroupValueResponse | SimGroupValueWrite
| SimIndividualAddressWrite | SimIndividualAddressRead | SimIndividualAddressResponse
| SimMemoryRead (n : u8) | SimMemoryResponse (n : u8) | SimMemoryWrite (n : u8)
| SimUserMemoryRead | SimUserMemoryResponse | SimUserMemoryWrite
| SimMemoryExtendedWrite | SimMemoryExtendedWriteResponse
| SimMemoryExtendedRead | SimMemoryExtendedReadResponse
| SimPropertyExtValueRead | SimPropertyExtValueResponse
| SimPropertyExtValueWriteCon | SimPropertyExtValueWriteConResponse
| SimPropertyExtDescriptionRead | SimPropertyExtDescriptionResponse
| SimFunctionPropertyCommand | SimFunctionPropertyStateRead
| SimFunctionPropertyStateResponse | SimFunctionPropertyExtCommand
| SimFunctionPropertyExtStateRead | SimFunctionPropertyExtStateResponse
| SimDeviceDescriptorRead (t : u8) | SimDeviceDescriptorResponse (t : u8)
| SimRestart | SimRestartResponse | SimAuthorizeRequest | SimAuthorizeResponse
| SimPropertyValueRead | SimPropertyValueResponse | SimPropertyValueWrite
| SimPropertyDescriptionRead | SimPropertyDescriptionResponse
| SimApciOther (v : u16).

#[export] Instance SimApci_eq_dec : EqDecision SimApci.
Proof. solve_decision. Defined.

(** The exact-value part of [Apci::from_u10]. *)
Definition sim_apci_exact (apci : u16) : SimApci :=
  match apci with
  | 192 => SimIndividualAddressWrite
  | 256 => SimIndividualAddressRead
  | 320 => SimIndividualAddressResponse
  | 460 => SimPropertyExtValueRead
  | 461 => SimPropertyExtValueResponse
  | 462 => SimPropertyExtValueWriteCon
  | 463 => SimPropertyExtValueWriteConResponse
  | 466 => SimPropertyExtDescriptionRead
  | 467 => SimPropertyExtDescriptionResponse
  | 468 => SimFunctionPropertyExtCommand
  | 469 => SimFunctionPropertyExtStateRead
  | 470 => SimFunctionPropertyExtStateResponse
  | 711 => SimFunctionPropertyCommand
  | 712 => SimFunctionPropertyStateRead
  | 713 => SimFunctionPropertyStateResponse
  | 704 => SimUserMemoryRead
  | 705 => SimUserMemoryResponse
  | 706 => SimUserMemoryWrite
  | 507 => SimMemoryExtendedWrite
  | 508 => SimMemoryExtendedWriteResponse
  | 509 => SimMemoryExtendedRead
  | 510 => SimMemoryExtendedReadResponse
  | 896 => SimRestart
  | 897 => SimRestartResponse
  | 977 => SimAuthorizeRequest
  | 978 => SimAuthorizeResponse
  | 981 => SimPropertyValueRead
  | 982 => SimPropertyValueResponse
  | 983 => SimPropertyValueWrite
  | 984 => SimPropertyDescriptionRead
  | 985 => SimPropertyDescriptionResponse
  | other => SimApciOther other
  end.

(** [Apci::from_u10]: the selector families first, exact values after them. *)
Definition sim_apci_from_u10 (apci : u16) : SimApci :=
  let n := as_u8 (Z.land apci 63) in
  match Z.land apci 960 with
  | 0 => SimGroupValueRead
  | 64 => SimGroupValueResponse
  | 128 => SimGroupValueWrite
  | 512 => SimMemoryRead n
  | 576 => SimMemoryResponse n
  | 640 => SimMemoryWrite n
  | 768 => SimDeviceDescriptorRead n
  | 832 => SimDeviceDescriptorResponse n
  | _ => sim_apci_exact apci
  end.

(** [Apci::to_u10]. *)
Definition sim_apci_to_u10 (a : SimApci) : u16 :=
  match a with
  | SimGroupValueRead => 0
  | SimGroupValueResponse => 64
  | SimGroupValueWrite => 128
  | SimIndividualAddressWrite => 192
  | SimIndividualAddressRead => 256
  | SimIndividualAddressResponse => 320
  | SimMemoryRead n => Z.lor 512 (Z.land n 63)
  | SimMemoryResponse n => Z.lor 576 (Z.land n 63)
  | SimMemoryWrite n => Z.lor 640 (Z.land n 63)
  | SimPropertyExtValueRead => 460
  | SimPropertyExtValueResponse => 461
  | SimPropertyExtValueWriteCon => 462
  | SimPropertyExtValueWriteConResponse => 463
  | SimPropertyExtDescriptionRead => 466
  | SimPropertyExtDescriptionResponse => 467
  | SimFunctionPropertyExtCommand => 468
  | SimFunctionPropertyExtStateRead => 469
  | SimFunctionPropertyExtStateResponse => 470
  | SimFunctionPropertyCommand => 711
  | SimFunctionPropertyStateRead => 712
  | SimFunctionPropertyStateResponse => 713
  | SimUserMemoryRead => 704
  | SimUserMemoryResponse => 705
  | SimUserMemoryWrite => 706
  | SimMemoryExtendedWrite => 507
  | SimMemoryExtendedWriteResponse => 508
  | SimMemoryExtendedRead => 509
  | SimMemoryExtendedReadResponse => 510
  | SimDeviceDescriptorRead t => Z.lor 768 (Z.land t 63)
  | SimDeviceDescriptorResponse t => Z.lor 832 (Z.land t 63)
  | SimRestart => 896
  | SimRestartResponse => 897
  | SimAuthorizeRequest => 977
  | SimAuthorizeResponse => 978
  | SimPropertyValueRead => 981
  | SimPropertyValueResponse => 982
  | SimPropertyValueWrite => 983
  | SimPropertyDescriptionRead => 984
  | SimPropertyDescriptionResponse => 985
  | SimApciOther v => v
  end.

Record SimApdu : Type := MkSimApdu {
  sim_apci : SimApci;
  sim_apci_raw : u16;
  sim_apdu_data : bytes }.

#[export] Instance SimApdu_eq_dec : EqDecision SimApdu.
Proof. solve_decision. Defined.

(** [Apdu::parse]. *)
Definition sim_apdu_parse (tpdu : bytes) : option SimApdu :=
  match tpdu with
  | t0 :: t1 :: data =>
      let apci_raw := Z.lor (Z.shiftl (Z.land t0 3) 8) t1 in
      Some (MkSimApdu (sim_apci_from_u10 apci_raw) apci_raw data)
  | _ => None
  end.

Definition sim_memory_count (a : SimApdu) : u8 := as_u8 (Z.land (sim_apci_raw a) 63).

(** [Apdu::encode_connected]. *)
Definition sim_encode_connected (seq : u8) (apci10 : u16) (data : bytes) : bytes :=
  Z.lor (sim_data_connected_byte seq) (Z.land (as_u8 (Z.shiftr apci10 8)) 3)
  :: as_u8 (Z.land apci10 255) :: data.

(** ** How the simulator's frame and the client's relate *)

(** The two decoded frames name the same telegram. *)
Definition same_telegram (f : CemiFrame) (c : CemiLData) : Prop :=
  sim_mc_to_byte (sim_message_code c) = MessageCode_as_u8 (message_code f)
  /\ Control1_from_byte (sim_ctrl1 c) = control1 f
  /\ Control2_from_byte (sim_ctrl2 c) = control2 f
  /\ sim_ia_raw (sim_source c) = IndividualAddress_raw (source f)
  /\ sim_dest c = Destination_raw (destination f)
  /\ sim_is_group c = group_address (control2 f)
  /\ sim_is_standard_frame c = standard_frame (control1 f)
  /\ decode_tpdu (sim_tpdu c) (length (sim_tpdu c) - 1) = Ok (tpci f, apdu f).

(** What the simulator makes of a client frame. *)
Definition sim_view (f : CemiFrame) : CemiLData :=
  MkCemiLData
    (match message_code f with
     | LDataReq => SimLDataReq
     | LDataCon => SimLDataCon
     | LDataInd => SimLDataInd
     end)
    (Control1_to_byte (control1 (CemiFrame_wire f)))
    (Control2_to_byte (control2 f))
    (MkSimIA (IndividualAddress_raw (source f)))
    (Destination_raw (destination f))
    (fst (encode_tpdu (tpci f) (apdu f))).

(** How the simulator's TPCI classification reads next to the client's: they
    agree on every octet the client knows; an octet the client calls unknown the
    simulator takes as unnumbered data (10xxxxxx) or as a NAK (11xxxx0x). *)
Definition tpci_kinds_agree (octet : u8) (k : TpciKind) (t : SimTpci) : bool :=
  match k, t with
  | UnnumberedData, SimDataUnnumbered => true
  | NumberedData s, SimDataConnected s' => s =? s'
  | Connect, SimConnect => true
  | Disconnect, SimDisconnect => true
  | Ack s, SimAck s' => s =? s'
  | Nak s, SimNak s' => s =? s'
  | Unknown o, SimDataUnnumbered => (Z.land o 192 =? 128) && (o =? octet)
  | Unknown o, SimNak s =>
      (Z.land o 192 =? 192) && (Z.land o 2 =? 0) && (s =? sequence o) && (o =? octet)
  | _, _ => false
  end.

(** ** Lemmas *)

Lemma octet_app_l l k i : (i < length l)%nat -> octet (l ++ k) i = octet l i.
Proof. intros H. unfold octet. by apply app_nth1. Qed.

Lemma octet_app_r l k i : octet (l ++ k) (length l + i) = octet k i.
Proof. unfold octet. rewrite app_nth2 by lia. f_equal. lia. Qed.

(** The simulator's reader on a buffer laid out field by field. *)
Lemma sim_cemi_decode_layout m mc al ai c1 c2 s0 s1 d0 d1 n tpdu rest :
  sim_mc_from_byte m = Some mc -> Z.to_nat al = length ai ->
  length tpdu = (Z.to_nat n + 1)%nat ->
  sim_cemi_decode (m :: al :: ai ++ c1 :: c2 :: s0 :: s1 :: d0 :: d1 :: n :: tpdu ++ rest)
  = Ok (MkCemiLData mc c1 c2 (MkSimIA (u16_of s0 s1)) (u16_of d0 d1) tpdu).
Proof.
  intros Hm Hai Ht. unfold sim_cemi_decode.
  set (buf := m :: al :: _). set (hdr := m :: al :: ai).
  set (body := c1 :: c2 :: s0 :: s1 :: d0 :: d1 :: n :: tpdu ++ rest).
  assert (Hbuf : buf = hdr ++ body) by done.
  assert (Hh : length hdr = (2 + length ai)%nat) by done.
  assert (Hb : length body = (7 + length tpdu + length rest)%nat)
    by (unfold body; simpl; rewrite length_app; lia).
  assert (Hl : length buf = (length hdr + length body)%nat) by (rewrite Hbuf, length_app; lia).
  change (octet buf 0) with m. change (octet buf 1) with al. rewrite Hm, Hai, <- Hh.
  cbn [ok_or mbind result_bind].
  rewrite bool_decide_false by lia. rewrite bool_decide_false by lia.
  assert (Ho : forall i, octet buf (length hdr + i) = octet body i)
    by (intros i; rewrite Hbuf; apply octet_app_r).
  replace (octet buf (length hdr)) with (octet buf (length hdr + 0)) by (f_equal; lia).
  rewrite !Ho. change (octet body 6) with n. change (octet body 0) with c1.
  change (octet body 1) with c2. change (octet body 2) with s0. change (octet body 3) with s1.
  change (octet body 4) with d0. change (octet body 5) with d1.
  rewrite bool_decide_false by lia. do 2 f_equal.
  assert (Hsplit : buf = (hdr ++ [c1; c2; s0; s1; d0; d1; n]) ++ tpdu ++ rest)
    by (rewrite <- app_assoc; done).
  rewrite Hsplit, <- Ht.
  replace (length hdr + 7)%nat with (length (hdr ++ [c1; c2; s0; s1; d0; d1; n]))
    by (rewrite length_app; done).
  apply slice_app.
Qed.

(** What an accepted buffer looks like to the simulator. *)
Lemma sim_cemi_decode_inv buf c : sim_cemi_decode buf = Ok c ->
  exists m al ai c1 c2 s0 s1 d0 d1 n tpdu rest,
    buf = m :: al :: ai ++ c1 :: c2 :: s0 :: s1 :: d0 :: d1 :: n :: tpdu ++ rest
    /\ is_Some (sim_mc_from_byte m) /\ Z.to_nat al = length ai
    /\ length tpdu = (Z.to_nat n + 1)%nat.
Proof.
  unfold sim_cemi_decode. intros E. case_bool_decide as H2; [done|].
  destruct buf as [|m [|al r]]; simpl in H2; [lia|lia|].
  change (octet (m :: al :: r) 0) with m in E. change (octet (m :: al :: r) 1) with al in E.
  destruct (sim_mc_from_byte m) as [mc|] eqn:Em; [|done]. cbn [ok_or mbind result_bind] in E.
  case_bool_decide as H3; [done|]. simpl length in H3. set (k := Z.to_nat al) in *.
  assert (Hk : length (take k r) = k) by (rewrite length_take; lia).
  pose proof (take_drop k r) as Hr. set (ai := take k r) in *. set (q := drop k r) in *.
  assert (Hq : (7 <= length q)%nat) by (unfold q; rewrite length_drop; lia).
  destruct q as [|c1 [|c2 [|s0 [|s1 [|d0 [|d1 [|n t]]]]]]] eqn:Eq; simpl in Hq; try lia.
  case_bool_decide as H4; [done|].
  assert (Hn : octet (m :: al :: r) (2 + k + 6) = n).
  { rewrite <- Hr. change (m :: al :: ai ++ c1 :: c2 :: s0 :: s1 :: d0 :: d1 :: n :: t)
      with ((m :: al :: ai) ++ c1 :: c2 :: s0 :: s1 :: d0 :: d1 :: n :: t).
    replace (2 + k + 6)%nat with (length (m :: al :: ai) + 6)%nat by (simpl; lia).
    apply octet_app_r. }
  rewrite Hn in H4. clear E Hn.
  assert (Ht : (Z.to_nat n + 1 <= length t)%nat).
  { simpl length in H4. assert (length r = k + 7 + length t)%nat; [|lia].
    rewrite <- Hr, length_app, Hk. simpl. lia. }
  exists m, al, ai, c1, c2, s0, s1, d0, d1, n, (take (Z.to_nat n + 1) t), (drop (Z.to_nat n + 1) t).
  rewrite take_drop. split; [by rewrite <- Hr|]. split; [by eexists|].
  split; [done|]. rewrite length_take. lia.
Qed.

Lemma sim_mc_agrees m : is_u8 m ->
  match MessageCode_from_u8 m, sim_mc_from_byte m with
  | Ok mc, Some smc => sim_mc_to_byte smc = MessageCode_as_u8 mc
  | Err _, None => True
  | _, _ => False
  end.
Proof.
  intros _. unfold MessageCode_from_u8, sim_mc_from_byte.
  destruct m as [|p|p]; try done.
  do 6 (try destruct p as [p|p|]); done.
Qed.

(** The same for the client's decoder: the layout it accepts, and what it reads. *)
Lemma CemiFrame_decode_layout m mc al ai c1 c2 s0 s1 d0 d1 n tpdu rest :
  MessageCode_from_u8 m = Ok mc -> Z.to_nat al = length ai ->
  length tpdu = (Z.to_nat n + 1)%nat ->
  CemiFrame_decode (m :: al :: ai ++ c1 :: c2 :: s0 :: s1 :: d0 :: d1 :: n :: tpdu ++ rest)
  = '(t, a) ← decode_tpdu tpdu (Z.to_nat n);
    mret (MkCemiFrame mc ai (Control1_from_byte c1) (Control2_from_byte c2)
      (IndividualAddress_from_raw (u16_of s0 s1))
      (if group_address (Control2_from_byte c2)
       then Group (GroupAddress_from_raw (u16_of d0 d1))
       else Individual (IndividualAddress_from_raw (u16_of d0 d1))) t a).
Proof.
  intros Hm Hai Ht. unfold CemiFrame_decode. cbn zeta.
  match goal with |- context [Cursor_new ?b] => pose proof (cur_rest_new b) as Hc end.
  cur_step. rewrite Hm. cbn [mbind result_bind]. cur_step. rewrite Hai. cur_step; [done|].
  do 5 cur_step. cur_step; [lia|]. done.
Qed.

Lemma CemiFrame_decode_inv buf f : CemiFrame_decode buf = Ok f ->
  exists m al ai c1 c2 s0 s1 d0 d1 n tpdu rest,
    buf = m :: al :: ai ++ c1 :: c2 :: s0 :: s1 :: d0 :: d1 :: n :: tpdu ++ rest
    /\ is_ok (MessageCode_from_u8 m) = true /\ Z.to_nat al = length ai
    /\ length tpdu = (Z.to_nat n + 1)%nat.
Proof.
  intros E. unfold CemiFrame_decode in E. pose proof (cur_rest_new buf) as Hc. cbn zeta in E.
  cur_inv E. apply bind_ok in E as (mc & Em & E). cur_inv E. cur_inv E.
  do 4 cur_inv E. cbn zeta in E. cur_inv E. cbn zeta in E. cur_inv E.
  do 12 eexists. split; [reflexivity|]. rewrite Em. repeat split; done || lia.
Qed.

Lemma decode_tpdu_total tpdu n : length tpdu = (n + 1)%nat ->
  is_ok (decode_tpdu tpdu n) = true.
Proof.
  intros H. destruct tpdu as [|a [|b r]]; simpl in H; [lia|done|].
  cbn [decode_tpdu]. destruct (_ =? 0); done.
Qed.

(** What the simulator reads of a client's frame. *)
Lemma sim_decode_encode f : CemiFrame_ok f -> sim_cemi_decode (CemiFrame_encode f) = Ok (sim_view f).
Proof.
  intros (Hai & Hail & Hc2 & Hsrc & [Hdst Hkind] & Htp & Hn).
  pose proof (CemiFrame_encode_eq f) as Henc. pose proof (decode_encode_tpdu _ _ Htp) as Hdec.
  unfold npdu_len_of in Hn. unfold sim_view.
  destruct (encode_tpdu (tpci f) (apdu f)) as [tpdu n]. simpl snd in Hn.
  destruct Hdec as (_ & Hl & _). rewrite Henc.
  rewrite (be_bytes_2 _ Hsrc), (be_bytes_2 _ Hdst). cbn [app fst].
  assert (Hmc : sim_mc_from_byte (MessageCode_as_u8 (message_code f))
    = Some (match message_code f with LDataReq => SimLDataReq | LDataCon => SimLDataCon
            | LDataInd => SimLDataInd end)) by (by destruct (message_code f)).
  assert (Hal : Z.to_nat (as_u8 (zlen (additional_info f))) = length (additional_info f))
    by (unfold zlen in *; zdiv).
  pose proof (fun c1 c2 s0 s1 d0 d1 => sim_cemi_decode_layout _ _ _ _ c1 c2 s0 s1 d0 d1
    (as_u8 (Z.of_nat n)) tpdu [] Hmc Hal ltac:(rewrite Hl; zdiv)) as E.
  setoid_rewrite app_nil_r in E. rewrite E.
  assert (Hw : forall w, is_u16 w -> u16_of (w / 256) (w mod 256) = w) by (intros; zdiv).
  by rewrite !Hw by done.
Qed.

(** ** Properties *)

(** C31: the client's and the simulator's decoders, written independently, accept
    the same octet strings, and read the same telegram from each. *)
Theorem decoders_agree buf :
  bytes_ok buf ->
  match CemiFrame_decode buf, sim_cemi_decode buf with
  | Ok f, Ok c => same_telegram f c
  | Err _, Err _ => True
  | _, _ => False
  end.
Proof.
  intros Hok.
  assert (Hboth : forall m al ai c1 c2 s0 s1 d0 d1 n tpdu rest,
    buf = m :: al :: ai ++ c1 :: c2 :: s0 :: s1 :: d0 :: d1 :: n :: tpdu ++ rest ->
    (is_ok (MessageCode_from_u8 m) = true \/ is_Some (sim_mc_from_byte m)) ->
    Z.to_nat al = length ai -> length tpdu = (Z.to_nat n + 1)%nat ->
    exists f c, CemiFrame_decode buf = Ok f /\ sim_cemi_decode buf = Ok c /\ same_telegram f c).
  { intros m al ai c1 c2 s0 s1 d0 d1 n tpdu rest -> Hm Hai Ht.
    assert (Hm8 : is_u8 m) by (by inversion Hok). pose proof (sim_mc_agrees m Hm8) as Hag.
    destruct (MessageCode_from_u8 m) as [mc|] eqn:Em, (sim_mc_from_byte m) as [smc|] eqn:Es;
      try done; [|destruct Hm as [|[]]; done].
    rewrite (CemiFrame_decode_layout _ mc), (sim_cemi_decode_layout _ smc) by done.
    pose proof (decode_tpdu_total _ _ Ht) as Htot.
    destruct (decode_tpdu tpdu (Z.to_nat n)) as [[t a]|] eqn:Ed; [|done].
    do 2 eexists. split; [reflexivity|]. split; [reflexivity|].
    unfold same_telegram. cbn -[Z.land decode_tpdu]. rewrite Ht, Nat.add_sub.
    repeat split; try done. destruct (negb _); done. }
  destruct (CemiFrame_decode buf) as [f|e] eqn:Ef.
  - destruct (CemiFrame_decode_inv _ _ Ef) as (m & al & ai & c1 & c2 & s0 & s1 & d0 & d1 & n & tpdu
      & rest & Hb & Hm & Hai & Ht).
    edestruct Hboth as (f' & c & Hf & Hc & Hs); [exact Hb|by left|done|done|].
    rewrite Hc. congruence.
  - destruct (sim_cemi_decode buf) as [c|] eqn:Ec; [|done].
    destruct (sim_cemi_decode_inv _ _ Ec) as (m & al & ai & c1 & c2 & s0 & s1 & d0 & d1 & n & tpdu
      & rest & Hb & Hm & Hai & Ht).
    edestruct Hboth as (f' & c' & Hf & Hc & Hs); [exact Hb|by right|done|done|]. congruence.
Qed.

Lemma decoders_agree_witness :
  exists f c, CemiFrame_decode [41; 0; 188; 224; 17; 1; 9; 1; 1; 0; 129] = Ok f
    /\ sim_cemi_decode [41; 0; 188; 224; 17; 1; 9; 1; 1; 0; 129] = Ok c /\ same_telegram f c.
Proof.
  assert (H : bytes_ok [41; 0; 188; 224; 17; 1; 9; 1; 1; 0; 129]) by solve_bytes.
  pose proof (decoders_agree _ H) as A.
  destruct (CemiFrame_decode [41; 0; 188; 224; 17; 1; 9; 1; 1; 0; 129]) as [f|] eqn:Ef;
    [|vm_compute in Ef; discriminate].
  destruct (sim_cemi_decode [41; 0; 188; 224; 17; 1; 9; 1; 1; 0; 129]) as [c|] eqn:Ec;
    [|vm_compute in Ec; discriminate].
  exists f, c. split; [reflexivity|]. split; [reflexivity|exact A].
Defined.

(** on every octet the simulator's TPCI classification agrees with the
    client's wherever the client knows the octet; where the client answers
    [Unknown], the simulator takes 10xxxxxx as unnumbered data and 11xxxx0x as a
    T_NAK.  The octet builders of both sides make the same octets. *)
Theorem tpci_classifications_agree o :
  is_u8 o ->
  tpci_kinds_agree o (classify o) (sim_tpci_from_byte o) = true
  /\ ndt o = sim_data_connected_byte o /\ t_ack o = sim_ack_byte o /\ t_nak o = sim_nak_byte o.
Proof.
  revert o. apply (u8_decide (fun o =>
    tpci_kinds_agree o (classify o) (sim_tpci_from_byte o) = true
    /\ ndt o = sim_data_connected_byte o /\ t_ack o = sim_ack_byte o /\ t_nak o = sim_nak_byte o)).
  vm_compute. reflexivity.
Qed.

(** A T_NAK by the simulator's reading, no telegram at all by the client's: *)
Lemma tpci_classifications_agree_witness :
  tpci_kinds_agree 192 (classify 192) (sim_tpci_from_byte 192) = true
  /\ classify 192 = Unknown 192 /\ sim_tpci_from_byte 192 = SimNak 0.
Proof. split; [apply tpci_classifications_agree; done|]. split; reflexivity. Defined.

(** The simulator's APCI table is exact: reading a 10-bit APCI and writing it
    back is the identity outside the group-value family (whose low six bits are
    payload), so no two services share a code. *)
Theorem sim_apci_roundtrip apci :
  0 <= apci < 1024 ->
  sim_apci_to_u10 (sim_apci_from_u10 apci)
  = (if is_group_apci apci then Z.land apci 960 else apci).
Proof.
  intros H. apply (below_decide 1024 (fun apci =>
    sim_apci_to_u10 (sim_apci_from_u10 apci)
    = (if is_group_apci apci then Z.land apci 960 else apci))); [|exact H].
  vm_compute. reflexivity.
Qed.

Lemma sim_apci_roundtrip_witness :
  sim_apci_to_u10 (sim_apci_from_u10 981) = (if is_group_apci 981 then Z.land 981 960 else 981).
Proof. apply sim_apci_roundtrip. lia. Defined.
