(* ===== verification/Knxnet.v ===== *)
(** * KNXnet/IP framing ([crates/bussard-transport/src/knxnet.rs])

    The six-octet header, HPAIs and the connection, tunnelling, routing and
    device-management service bodies.  The description blocks (DIBs) of the
    discovery answers are not modelled here. *)

From S2P Require Import Prelude Address Cursor Cemi.

Local Open Scope string_scope.
Local Open Scope list_scope.
Local Open Scope Z_scope.

Definition HEADER_LEN : nat := 6.
Definition HEADER_SIZE_10 : u8 := 6.
Definition KNXNETIP_VERSION_10 : u8 := 16.

Inductive ServiceType : Type :=
| SearchRequest | SearchResponse | DescriptionRequest | DescriptionResponse
| ConnectRequest | SvcConnectResponse | ConnectionstateRequest | ConnectionstateResponse
| DisconnectRequest | DisconnectResponse | SvcTunnelingRequest | TunnelingAck
| RoutingIndication | RoutingLostMessage | SvcRoutingBusy
| SearchRequestExtended | SearchResponseExtended
| TunnelingFeatureGet | TunnelingFeatureResponse | TunnelingFeatureSet | TunnelingFeatureInfo
| SecureWrapper | SvcSessionRequest | SvcSessionResponse | SvcSessionAuthenticate
| SvcSessionStatus | TimerNotify
| DeviceConfigurationRequest | DeviceConfigurationAck.

#[export] Instance ServiceType_eq_dec : EqDecision ServiceType.
Proof. solve_decision. Defined.

(** [service as u16]: the [repr(u16)] discriminant. *)
Definition ServiceType_as_u16 (s : ServiceType) : u16 :=
  match s with
  | SearchRequest => 513
  | SearchResponse => 514
  | DescriptionRequest => 515
  | DescriptionResponse => 516
  | ConnectRequest => 517
  | SvcConnectResponse => 518
  | ConnectionstateRequest => 519
  | ConnectionstateResponse => 520
  | DisconnectRequest => 521
  | DisconnectResponse => 522
  | SvcTunnelingRequest => 1056
  | TunnelingAck => 1057
  | RoutingIndication => 1328
  | RoutingLostMessage => 1329
  | SvcRoutingBusy => 1330
  | SearchRequestExtended => 523
  | SearchResponseExtended => 524
  | TunnelingFeatureGet => 1058
  | TunnelingFeatureResponse => 1059
  | TunnelingFeatureSet => 1060
  | TunnelingFeatureInfo => 1061
  | SecureWrapper => 2384
  | SvcSessionRequest => 2385
  | SvcSessionResponse => 2386
  | SvcSessionAuthenticate => 2387
  | SvcSessionStatus => 2388
  | TimerNotify => 2389
  | DeviceConfigurationRequest => 784
  | DeviceConfigurationAck => 785
  end.

Definition ServiceType_from_u16 (v : u16) : result TransportError ServiceType :=
  match v with
  | 513 => Ok SearchRequest
  | 514 => Ok SearchResponse
  | 515 => Ok DescriptionRequest
  | 516 => Ok DescriptionResponse
  | 517 => Ok ConnectRequest
  | 518 => Ok SvcConnectResponse
  | 519 => Ok ConnectionstateRequest
  | 520 => Ok ConnectionstateResponse
  | 521 => Ok DisconnectRequest
  | 522 => Ok DisconnectResponse
  | 1056 => Ok SvcTunnelingRequest
  | 1057 => Ok TunnelingAck
  | 1328 => Ok RoutingIndication
  | 1329 => Ok RoutingLostMessage
  | 1330 => Ok SvcRoutingBusy
  | 523 => Ok SearchRequestExtended
  | 524 => Ok SearchResponseExtended
  | 1058 => Ok TunnelingFeatureGet
  | 1059 => Ok TunnelingFeatureResponse
  | 1060 => Ok TunnelingFeatureSet
  | 1061 => Ok TunnelingFeatureInfo
  | 2384 => Ok SecureWrapper
  | 2385 => Ok SvcSessionRequest
  | 2386 => Ok SvcSessionResponse
  | 2387 => Ok SvcSessionAuthenticate
  | 2388 => Ok SvcSessionStatus
  | 2389 => Ok TimerNotify
  | 784 => Ok DeviceConfigurationRequest
  | 785 => Ok DeviceConfigurationAck
  | other => Err (InvalidField "KNXnet/IP service type" other)
  end.

(** [frame]: the total length is truncated to 16 bits. *)
Definition frame (service : ServiceType) (body : bytes) : bytes :=
  let total := as_u16 (Z.of_nat (HEADER_LEN + length body)) in
  [HEADER_SIZE_10; KNXNETIP_VERSION_10] ++ be_bytes 2 (ServiceType_as_u16 service)
  ++ be_bytes 2 total ++ body.

Record ParsedFrame : Type := MkParsedFrame { pf_service : ServiceType; pf_body : bytes }.

#[export] Instance ParsedFrame_eq_dec : EqDecision ParsedFrame.
Proof. solve_decision. Defined.

Definition parse (buf : bytes) : result TransportError ParsedFrame :=
  match buf with
  | b0 :: b1 :: b2 :: b3 :: b4 :: b5 :: _ =>
      if negb (b0 =? HEADER_SIZE_10) || negb (b1 =? KNXNETIP_VERSION_10)
      then Err (BadHeader b0 b1)
      else
        service ← ServiceType_from_u16 (u16_of b2 b3);
        let total := Z.to_nat (u16_of b4 b5) in
        if bool_decide (length buf < total)%nat || bool_decide (total < HEADER_LEN)%nat
        then Err (Truncated (Z.of_nat total) (zlen buf) "KNXnet/IP total length")
        else mret (MkParsedFrame service (slice HEADER_LEN total buf))
  | _ => Err (Truncated (Z.of_nat HEADER_LEN) (zlen buf) "KNXnet/IP header")
  end.

(** ** HPAI *)

(** [SocketAddrV4]: the four address octets and the port. *)
Record SocketAddrV4 : Type := MkSocketAddrV4 { ip0 : u8; ip1 : u8; ip2 : u8; ip3 : u8; port : u16 }.

Record Hpai : Type := MkHpai { hpai_addr : SocketAddrV4; hpai_protocol : u8 }.

#[export] Instance SocketAddrV4_eq_dec : EqDecision SocketAddrV4.
Proof. solve_decision. Defined.
#[export] Instance Hpai_eq_dec : EqDecision Hpai.
Proof. solve_decision. Defined.

Definition HPAI_UDP_IPV4 : u8 := 1.
Definition HPAI_TCP_IPV4 : u8 := 2.
Definition HPAI_LEN : u8 := 8.

Definition UNSPECIFIED : SocketAddrV4 := MkSocketAddrV4 0 0 0 0 0.

Definition Hpai_new (addr : SocketAddrV4) : Hpai := MkHpai addr HPAI_UDP_IPV4.
Definition Hpai_wildcard : Hpai := Hpai_new UNSPECIFIED.
Definition Hpai_tcp_route_back : Hpai := MkHpai UNSPECIFIED HPAI_TCP_IPV4.

(** [Hpai::encode]: what it appends to the output. *)
Definition Hpai_encode (h : Hpai) : bytes :=
  let a := hpai_addr h in
  [HPAI_LEN; hpai_protocol h; ip0 a; ip1 a; ip2 a; ip3 a] ++ be_bytes 2 (port a).

Definition Hpai_decode (cur : Cursor) : result TransportError (Hpai * Cursor) :=
  '(len, cur) ← Cursor_u8 "HPAI length" cur;
  if negb (len =? HPAI_LEN) then Err (InvalidField "HPAI length" len) else
  '(protocol, cur) ← Cursor_u8 "HPAI host protocol" cur;
  '(ip, cur) ← Cursor_take 4 "HPAI IPv4" cur;
  '(p, cur) ← Cursor_u16 "HPAI port" cur;
  mret (MkHpai (MkSocketAddrV4 (nth 0 ip 0) (nth 1 ip 0) (nth 2 ip 0) (nth 3 ip 0) p) protocol,
        cur).

(** ** Connection services *)

Definition CONNECTION_TYPE_TUNNEL : u8 := 4.
Definition TUNNEL_LINK_LAYER : u8 := 2.
Definition CONNECTION_TYPE_DEVICE_MGMT : u8 := 3.

Definition connect_request (control data : Hpai) : bytes :=
  frame ConnectRequest
    (Hpai_encode control ++ Hpai_encode data
     ++ [4; CONNECTION_TYPE_TUNNEL; TUNNEL_LINK_LAYER; 0]).

Definition connect_request_tcp : bytes := connect_request Hpai_tcp_route_back Hpai_tcp_route_back.

Definition connect_request_device_mgmt (control data : Hpai) : bytes :=
  frame ConnectRequest
    (Hpai_encode control ++ Hpai_encode data ++ [2; CONNECTION_TYPE_DEVICE_MGMT]).

Record ConnectResponse : Type := MkConnectResponse {
  cr_channel_id : u8;
  cr_status : u8;
  cr_data_endpoint : option SocketAddrV4;
  cr_assigned_ia : option u16 }.

(** [parse_connect_response]: the CRD is optional, and only a tunnel CRD of at
    least four octets names an address. *)
Definition parse_connect_response (body : bytes) : result TransportError ConnectResponse :=
  let cur := Cursor_new body in
  '(channel_id, cur) ← Cursor_u8 "connect-response channel id" cur;
  '(status, cur) ← Cursor_u8 "connect-response status" cur;
  if negb (status =? 0) then Ok (MkConnectResponse channel_id status None None) else
  '(data_hpai, cur) ← Hpai_decode cur;
  assigned_ia ←
    (if bool_decide (2 <= Cursor_remaining cur)%nat then
       '(crd_len, cur) ← Cursor_u8 "CRD length" cur;
       '(conn_type, cur) ← Cursor_u8 "CRD connection type" cur;
       if (conn_type =? CONNECTION_TYPE_TUNNEL) && (4 <=? crd_len)
          && bool_decide (2 <= Cursor_remaining cur)%nat
       then '(ia, _) ← Cursor_u16 "CRD assigned IA" cur; mret (Some ia)
       else mret None
     else mret None);
  mret (MkConnectResponse channel_id status (Some (hpai_addr data_hpai)) assigned_ia).

Definition connectionstate_request (channel_id : u8) (control : Hpai) : bytes :=
  frame ConnectionstateRequest ([channel_id; 0] ++ Hpai_encode control).

Definition connectionstate_response (channel_id status : u8) : bytes :=
  frame ConnectionstateResponse [channel_id; status].

Record ChannelStatus : Type := MkChannelStatus { cs_channel_id : u8; cs_status : u8 }.

Definition parse_channel_status (body : bytes) : result TransportError ChannelStatus :=
  match body with
  | c :: s :: _ => Ok (MkChannelStatus c s)
  | _ => Err (Truncated 2 (zlen body) "channel id + status")
  end.

Definition disconnect_request (channel_id : u8) (control : Hpai) : bytes :=
  frame DisconnectRequest ([channel_id; 0] ++ Hpai_encode control).

Definition disconnect_response (channel_id status : u8) : bytes :=
  frame DisconnectResponse [channel_id; status].

Definition parse_disconnect_request (body : bytes) : result TransportError u8 :=
  match body with
  | [] => Err (Truncated 1 0 "disconnect-request channel id")
  | c :: _ => Ok c
  end.

(** ** Tunnelling *)

Record ConnectionHeader : Type := MkConnectionHeader { ch_channel_id : u8; ch_seq : u8 }.

#[export] Instance ConnectionHeader_eq_dec : EqDecision ConnectionHeader.
Proof. solve_decision. Defined.

Definition CONNECTION_HEADER_LEN : u8 := 4.

Definition ConnectionHeader_encode (h : ConnectionHeader) : bytes :=
  [CONNECTION_HEADER_LEN; ch_channel_id h; ch_seq h; 0].

Definition ConnectionHeader_decode (cur : Cursor)
    : result TransportError (ConnectionHeader * Cursor) :=
  '(len, cur) ← Cursor_u8 "connection-header length" cur;
  if negb (len =? CONNECTION_HEADER_LEN)
  then Err (InvalidField "connection-header length" len) else
  '(channel_id, cur) ← Cursor_u8 "connection-header channel" cur;
  '(seq, cur) ← Cursor_u8 "connection-header seq" cur;
  '(_, cur) ← Cursor_u8 "connection-header reserved" cur;
  mret (MkConnectionHeader channel_id seq, cur).

Definition device_configuration_request (header : ConnectionHeader) (cemi : bytes) : bytes :=
  frame DeviceConfigurationRequest (ConnectionHeader_encode header ++ cemi).

Definition device_configuration_ack (channel_id seq status : u8) : bytes :=
  frame DeviceConfigurationAck [CONNECTION_HEADER_LEN; channel_id; seq; status].

Definition tunneling_request (header : ConnectionHeader) (cemi : CemiFrame) : bytes :=
  frame SvcTunnelingRequest (ConnectionHeader_encode header ++ CemiFrame_encode cemi).

Definition tunneling_feature_get (header : ConnectionHeader) (feature : u8) : bytes :=
  frame TunnelingFeatureGet (ConnectionHeader_encode header ++ [feature; 0]).

Definition tunneling_ack (channel_id seq status : u8) : bytes :=
  frame TunnelingAck [CONNECTION_HEADER_LEN; channel_id; seq; status].

Record TunnelingRequest : Type := MkTunnelingRequest {
  tr_header : ConnectionHeader;
  tr_cemi : CemiFrame }.

Definition parse_tunneling_request (body : bytes) : result TransportError TunnelingRequest :=
  let cur := Cursor_new body in
  '(header, cur) ← ConnectionHeader_decode cur;
  '(cemi_bytes, _) ← Cursor_take (Cursor_remaining cur) "tunneling cEMI" cur;
  cemi ← CemiFrame_decode cemi_bytes;
  mret (MkTunnelingRequest header cemi).

Definition parse_tunneling_header (body : bytes)
    : result TransportError (ConnectionHeader * bytes) :=
  let cur := Cursor_new body in
  '(header, cur) ← ConnectionHeader_decode cur;
  '(cemi_bytes, _) ← Cursor_take (Cursor_remaining cur) "tunneling cEMI" cur;
  mret (header, cemi_bytes).

(** [parse_tunneling_ack] does not look at the structure length octet. *)
Definition parse_tunneling_ack (body : bytes) : result TransportError (ConnectionHeader * u8) :=
  match body with
  | _ :: channel_id :: seq :: status :: _ => Ok (MkConnectionHeader channel_id seq, status)
  | _ => Err (Truncated 4 (zlen body) "tunneling ack")
  end.

(** ** Routing and discovery *)

Definition routing_indication (cemi : CemiFrame) : bytes :=
  frame RoutingIndication (CemiFrame_encode cemi).

Definition parse_routing_indication (body : bytes) : result TransportError CemiFrame :=
  CemiFrame_decode body.

Record RoutingBusy : Type := MkRoutingBusy {
  rb_device_state : u8;
  rb_wait_time_ms : u16;
  rb_control : u16 }.

Definition parse_routing_busy (body : bytes) : result TransportError RoutingBusy :=
  let cur := Cursor_new body in
  '(_, cur) ← Cursor_u8 "routing-busy length" cur;
  '(device_state, cur) ← Cursor_u8 "routing-busy device state" cur;
  '(wait_time_ms, cur) ← Cursor_u16 "routing-busy wait time" cur;
  '(control, _) ← Cursor_u16 "routing-busy control" cur;
  mret (MkRoutingBusy device_state wait_time_ms control).

Record RoutingLost : Type := MkRoutingLost { rl_device_state : u8; rl_lost : u16 }.

Definition parse_routing_lost (body : bytes) : result TransportError RoutingLost :=
  let cur := Cursor_new body in
  '(_, cur) ← Cursor_u8 "routing-lost length" cur;
  '(device_state, cur) ← Cursor_u8 "routing-lost device state" cur;
  '(lost, _) ← Cursor_u16 "routing-lost count" cur;
  mret (MkRoutingLost device_state lost).

Definition search_request (discovery : Hpai) : bytes :=
  frame SearchRequest (Hpai_encode discovery).

Definition description_request (control : Hpai) : bytes :=
  frame DescriptionRequest (Hpai_encode control).

Definition SRP_REQUEST_DIBS : u8 := 4.
Definition DIB_DEVICE_INFO : u8 := 1.
Definition DIB_SUPP_SVC_FAMILIES : u8 := 2.
Definition DIB_SECURED_SERVICE_FAMILIES : u8 := 6.
Definition DIB_TUNNELING_INFO : u8 := 7.
Definition DIB_EXTENDED_DEVICE_INFO : u8 := 8.

Definition SEARCH_EXTENDED_SRP : bytes :=
  [8; SRP_REQUEST_DIBS; DIB_DEVICE_INFO; DIB_EXTENDED_DEVICE_INFO; DIB_SUPP_SVC_FAMILIES;
   DIB_SECURED_SERVICE_FAMILIES; DIB_TUNNELING_INFO; 0].

Definition search_request_extended (discovery : Hpai) : bytes :=
  frame SearchRequestExtended (Hpai_encode discovery ++ SEARCH_EXTENDED_SRP).

(** ** Well-formedness *)

Definition SocketAddrV4_ok (a : SocketAddrV4) : Prop :=
  is_u8 (ip0 a) /\ is_u8 (ip1 a) /\ is_u8 (ip2 a) /\ is_u8 (ip3 a) /\ is_u16 (port a).

Definition Hpai_ok (h : Hpai) : Prop := SocketAddrV4_ok (hpai_addr h) /\ is_u8 (hpai_protocol h).

Definition ConnectionHeader_ok (h : ConnectionHeader) : Prop :=
  is_u8 (ch_channel_id h) /\ is_u8 (ch_seq h).

(** ** Lemmas *)

Lemma ServiceType_roundtrip s : ServiceType_from_u16 (ServiceType_as_u16 s) = Ok s.
Proof. destruct s; reflexivity. Qed.

Lemma ServiceType_u16 s : is_u16 (ServiceType_as_u16 s).
Proof. destruct s; done. Qed.

Lemma ServiceType_from_inv v s : ServiceType_from_u16 v = Ok s -> v = ServiceType_as_u16 s.
Proof.
  unfold ServiceType_from_u16. intros H.
  repeat case_match; try discriminate H; injection H as <-; reflexivity.
Qed.

Lemma u16_of_split w : is_u16 w -> u16_of (w / 256) (w mod 256) = w.
Proof. zdiv. Qed.

(** [parse] of a framed body, whatever follows it in the datagram. *)
Lemma parse_frame s body rest : zlen body <= 65529 ->
  parse (frame s body ++ rest) = Ok (MkParsedFrame s body).
Proof.
  unfold zlen. intros Hl. unfold frame.
  assert (Ht : is_u16 (Z.of_nat (HEADER_LEN + length body)))
    by (unfold is_u16, HEADER_LEN; lia).
  assert (Has : as_u16 (Z.of_nat (HEADER_LEN + length body)) = Z.of_nat (HEADER_LEN + length body))
    by (apply Z.mod_small, Ht).
  rewrite Has. rewrite (be_bytes_2 _ (ServiceType_u16 s)), (be_bytes_2 _ Ht).
  cbn [app]. unfold parse.
  change (negb (HEADER_SIZE_10 =? HEADER_SIZE_10) || negb (KNXNETIP_VERSION_10 =? KNXNETIP_VERSION_10))
    with false. cbn iota.
  rewrite (u16_of_split _ (ServiceType_u16 s)), (u16_of_split _ Ht), ServiceType_roundtrip.
  cbn [mbind result_bind]. rewrite Nat2Z.id.
  rewrite bool_decide_false by (simpl; rewrite length_app; unfold HEADER_LEN; lia).
  rewrite bool_decide_false by (unfold HEADER_LEN; lia). cbn [orb]. cbv iota.
  do 2 f_equal. unfold slice. replace (HEADER_LEN + length body - HEADER_LEN)%nat with (length body) by lia.
  simpl. apply take_app_length.
Qed.

(** The converse: what [parse] accepts is a framed body with octets after it. *)
Lemma parse_inv buf p : bytes_ok buf -> parse buf = Ok p ->
  exists rest, buf = frame (pf_service p) (pf_body p) ++ rest /\ zlen (pf_body p) <= 65529.
Proof.
  intros Hok E. unfold parse in E.
  destruct buf as [|b0 [|b1 [|b2 [|b3 [|b4 [|b5 r]]]]]]; try done.
  destruct (negb _ || negb _) eqn:Eh; [done|].
  apply orb_false_iff in Eh as [Eh0 Eh1].
  apply negb_false_iff, Z.eqb_eq in Eh0. apply negb_false_iff, Z.eqb_eq in Eh1. subst b0 b1.
  apply bind_ok in E as (s & Es & E). unfold bytes_ok in Hok. rewrite !Forall_cons in Hok.
  destruct Hok as (_ & _ & H2 & H3 & H4 & H5 & Hr).
  pose proof (u16_of_ok _ _ H2 H3) as Hs16. pose proof (u16_of_ok _ _ H4 H5) as Ht16.
  apply ServiceType_from_inv in Es.
  destruct (bool_decide _ || bool_decide _) eqn:El; [done|].
  apply orb_false_iff in El as [El0 El1].
  apply bool_decide_eq_false in El0. apply bool_decide_eq_false in El1.
  injection E as <-. simpl pf_service. simpl pf_body.
  set (t := Z.to_nat (u16_of b4 b5)) in *. unfold HEADER_LEN in El1. simpl length in El0.
  unfold slice, HEADER_LEN. simpl drop.
  exists (drop (t - 6) r). unfold is_u16 in Ht16.
  assert (Hlt : length (take (t - 6) r) = (t - 6)%nat) by (rewrite length_take; lia).
  rewrite drop_0. split; [|unfold zlen; rewrite Hlt; unfold t; lia].
  unfold frame. rewrite Hlt, <- Es.
  replace (Z.of_nat (HEADER_LEN + (t - 6))) with (u16_of b4 b5) by (unfold HEADER_LEN; lia).
  unfold as_u16. rewrite (Z.mod_small (u16_of b4 b5)) by exact Ht16.
  rewrite !u16_of_bytes by done. simpl. rewrite take_drop. reflexivity.
Qed.

Lemma Hpai_decode_encode h c r : Hpai_ok h -> cur_rest c (Hpai_encode h ++ r) ->
  exists c', Hpai_decode c = Ok (h, c') /\ cur_rest c' r.
Proof.
  destruct h as [[a b d e p] pr]. intros [(H0 & H1 & H2 & H3 & H4) H5] Hc.
  unfold Hpai_encode in Hc. cbn [hpai_addr hpai_protocol ip0 ip1 ip2 ip3 port] in H4, Hc.
  rewrite (be_bytes_2 _ H4) in Hc. cbn [app] in Hc. unfold Hpai_decode.
  cur_step. cbn. cur_step.
  change (a :: b :: d :: e :: p / 256 :: p mod 256 :: r)
    with ([a; b; d; e] ++ p / 256 :: p mod 256 :: r) in Hc.
  cur_step; [done|]. cur_step. rewrite u16_of_split by done. eexists. split; [reflexivity|done].
Qed.

Lemma ConnectionHeader_decode_encode h c r : cur_rest c (ConnectionHeader_encode h ++ r) ->
  exists c', ConnectionHeader_decode c = Ok (h, c') /\ cur_rest c' r.
Proof.
  destruct h as [ch sq]. intros Hc. cbn in Hc. unfold ConnectionHeader_decode.
  cur_step. cbn. do 3 cur_step. eexists. split; [reflexivity|done].
Qed.

Lemma parse_tunneling_header_encode h cemi :
  parse_tunneling_header (ConnectionHeader_encode h ++ cemi) = Ok (h, cemi).
Proof.
  unfold parse_tunneling_header. cbn zeta.
  destruct (ConnectionHeader_decode_encode h _ cemi
              (cur_rest_new (ConnectionHeader_encode h ++ cemi))) as (c & E & Hc).
  rewrite E. cbn [mbind result_bind]. rewrite (cur_rest_remaining _ _ Hc).
  rewrite <- (app_nil_r cemi) in Hc. cur_step; [done|]. done.
Qed.


Lemma CemiFrame_encode_length f : CemiFrame_ok f -> zlen (CemiFrame_encode f) <= 522.
Proof.
  intros (Hai & Hail & _ & _ & _ & Htp & Hn).
  pose proof (CemiFrame_encode_eq f) as Henc. pose proof (decode_encode_tpdu _ _ Htp) as Hdec.
  unfold npdu_len_of in Hn. destruct (encode_tpdu (tpci f) (apdu f)) as [tpdu n].
  destruct Hdec as (_ & Hl & _). simpl snd in Hn. rewrite Henc. unfold zlen in *.
  rewrite !length_app; cbn [length]; rewrite !length_app; cbn [length].
  rewrite !length_be_bytes. lia.
Qed.

Lemma parse_tunneling_request_encode h f : CemiFrame_ok f ->
  parse_tunneling_request (ConnectionHeader_encode h ++ CemiFrame_encode f)
  = Ok (MkTunnelingRequest h (CemiFrame_wire f)).
Proof.
  intros Hf. unfold parse_tunneling_request. cbn zeta. set (cemi := CemiFrame_encode f).
  destruct (ConnectionHeader_decode_encode h _ cemi
              (cur_rest_new (ConnectionHeader_encode h ++ cemi))) as (c & E & Hc).
  rewrite E. cbn [mbind result_bind]. rewrite (cur_rest_remaining _ _ Hc).
  rewrite <- (app_nil_r cemi) in Hc. cur_step; [done|]. unfold cemi.
  rewrite CemiFrame_decode_encode by done. done.
Qed.

(** A tunnel connect response as the specification lays it out: channel, status,
    data endpoint, then a CRD of connection type [ty] and octets [crd]. *)
Definition connect_response_body (channel : u8) (data : Hpai) (crd : bytes) : bytes :=
  [channel; 0] ++ Hpai_encode data ++ crd.

Lemma parse_connect_response_body channel data crd : Hpai_ok data ->
  parse_connect_response (connect_response_body channel data crd)
  = Ok (MkConnectResponse channel 0 (Some (hpai_addr data))
          (match crd with
           | len :: ty :: a :: b :: _ =>
               if (ty =? CONNECTION_TYPE_TUNNEL) && (4 <=? len) then Some (u16_of a b) else None
           | _ => None
           end)).
Proof.
  intros Hd. unfold parse_connect_response, connect_response_body. cbn zeta.
  pose proof (cur_rest_new ([channel; 0] ++ Hpai_encode data ++ crd)) as Hc.
  set (c := Cursor_new _) in *. clearbody c. simpl app in Hc. do 2 cur_step. simpl negb. cbv iota.
  destruct (Hpai_decode_encode _ _ _ Hd Hc) as (c' & E & Hc'). rewrite E. cbn [mbind result_bind].
  rewrite (cur_rest_remaining _ _ Hc').
  destruct crd as [|len [|ty r]]; [done|done|]. simpl length.
  rewrite bool_decide_true by lia. clear Hc E. do 2 cur_step.
  rewrite (cur_rest_remaining _ _ Hc'). destruct r as [|a [|b r]].
  - rewrite andb_false_r. done.
  - rewrite andb_false_r. done.
  - simpl length. rewrite (bool_decide_true (2 <= _)%nat) by lia. rewrite andb_true_r.
    destruct (_ && _); [|done]. cur_step. done.
Qed.

(** ** Properties *)

(** [parse] accepts exactly the framed messages with octets after them, and
    returns the framed service and body: no octet of the datagram past the header's
    total length reaches a service parser, and no shorter datagram is accepted. *)
Theorem parse_accepts_exactly_frames buf p :
  bytes_ok buf ->
  parse buf = Ok p <->
  exists rest, buf = frame (pf_service p) (pf_body p) ++ rest /\ zlen (pf_body p) <= 65529.
Proof.
  intros Hok. split; [by apply parse_inv|]. intros (rest & -> & Hl).
  rewrite parse_frame by done. destruct p. done.
Qed.

Lemma parse_accepts_exactly_frames_witness :
  exists rest, [6; 16; 2; 8; 0; 8; 21; 0; 99] = frame ConnectionstateResponse [21; 0] ++ rest
    /\ zlen [21; 0] <= 65529.
Proof.
  apply (parse_accepts_exactly_frames [6; 16; 2; 8; 0; 8; 21; 0; 99]
           (MkParsedFrame ConnectionstateResponse [21; 0])); [solve_bytes|vm_compute; reflexivity].
Defined.

(** a tunnelled telegram arrives: the datagram [tunneling_request] builds for
    any well-formed cEMI frame is parsed (with anything after it ignored) to the
    same channel and sequence number and to the frame as it is on the wire; the
    header-only reader finds the same header, also when the cEMI octets are
    undecodable, so the gateway always gets its ack, and that ack parses back to
    the channel and sequence number it acknowledges. *)
Theorem tunneling_request_delivers h f rest :
  CemiFrame_ok f ->
  exists body,
    parse (tunneling_request h f ++ rest) = Ok (MkParsedFrame SvcTunnelingRequest body)
    /\ parse_tunneling_request body = Ok (MkTunnelingRequest h (CemiFrame_wire f))
    /\ (forall cemi, parse_tunneling_header (ConnectionHeader_encode h ++ cemi) = Ok (h, cemi))
    /\ (forall status, exists ack,
          parse (tunneling_ack (ch_channel_id h) (ch_seq h) status)
            = Ok (MkParsedFrame TunnelingAck ack)
          /\ parse_tunneling_ack ack = Ok (h, status)).
Proof.
  intros Hf. exists (ConnectionHeader_encode h ++ CemiFrame_encode f). split; [|split; [|split]].
  - apply parse_frame. pose proof (CemiFrame_encode_length f Hf) as Hl.
    unfold zlen in *. rewrite length_app. simpl length. lia.
  - by apply parse_tunneling_request_encode.
  - apply parse_tunneling_header_encode.
  - intros status. eexists. split.
    + unfold tunneling_ack. rewrite <- (app_nil_r (frame _ _)). apply parse_frame. unfold zlen. simpl. lia.
    + destruct h. reflexivity.
Qed.

Lemma tunneling_request_delivers_witness :
  exists body,
    parse (tunneling_request (MkConnectionHeader 21 3)
             (CemiFrame_group_read (GroupAddress_from_raw 2305) (IndividualAddress_from_raw 4351)) ++ [7])
      = Ok (MkParsedFrame SvcTunnelingRequest body).
Proof.
  destruct (tunneling_request_delivers (MkConnectionHeader 21 3)
    (CemiFrame_group_read (GroupAddress_from_raw 2305) (IndividualAddress_from_raw 4351)) [7])
    as (body & H & _); [|exists body; exact H].
  unfold CemiFrame_ok. split; [constructor|]. repeat (split; [done|]). vm_compute. lia.
Defined.

(** what a connect response means, on every branch: with status 0 the data
    endpoint is the HPAI of the answer and the tunnel's individual address is the
    CRD's third and fourth octets exactly when a CRD of at least four octets names
    a tunnel connection; a refused connect (non-zero status) yields the status and
    neither endpoint nor address, whatever follows. *)
Theorem connect_response_meaning channel data crd :
  Hpai_ok data ->
  parse_connect_response (connect_response_body channel data crd)
    = Ok (MkConnectResponse channel 0 (Some (hpai_addr data))
            (match crd with
             | len :: ty :: a :: b :: _ =>
                 if (ty =? CONNECTION_TYPE_TUNNEL) && (4 <=? len) then Some (u16_of a b) else None
             | _ => None
             end))
  /\ (forall status r, status <> 0 ->
        parse_connect_response (channel :: status :: r)
        = Ok (MkConnectResponse channel status None None)).
Proof.
  intros Hd. split; [by apply parse_connect_response_body|].
  intros status r Hs. unfold parse_connect_response. cbn zeta.
  pose proof (cur_rest_new (channel :: status :: r)) as Hc.
  set (c := Cursor_new _) in *. clearbody c. do 2 cur_step.
  rewrite (proj2 (Z.eqb_neq status 0) Hs). done.
Qed.

Lemma connect_response_meaning_witness :
  parse_connect_response (connect_response_body 21 (Hpai_new (MkSocketAddrV4 192 168 1 10 3671))
    [4; 4; 17; 250])
  = Ok (MkConnectResponse 21 0 (Some (MkSocketAddrV4 192 168 1 10 3671)) (Some 4602)).
Proof.
  apply (connect_response_meaning 21 (Hpai_new (MkSocketAddrV4 192 168 1 10 3671)) [4; 4; 17; 250]).
  unfold Hpai_ok, SocketAddrV4_ok. cbn. done.
Defined.
