(* ===== verification/Channel.v ===== *)
(** * The KNXnet/IP connection machine ([bussard-transport/src/channel.rs])

    What a tunnel and a device-management connection share: a sequenced request
    confirmed by an ACK and repeated without one, the heartbeat, the inbound
    sequence check and the closing exchange.  The socket under it is the class
    [TunnelLink], the task that owns the channel the class [ChannelTask].
    Instants and durations are nanoseconds. *)

From S2P Require Import Prelude Address Cursor Cemi Knxnet.

Local Open Scope string_scope.
Local Open Scope list_scope.
Local Open Scope Z_scope.

Definition MS : Z := 1000000.
Definition SECS : Z := 1000 * MS.

Definition HEARTBEAT_INTERVAL : Z := 60 * SECS.
Definition HEARTBEAT_TIMEOUT : Z := 10 * SECS.
Definition HEARTBEAT_RETRIES : nat := 3.
Definition HEARTBEAT_ATTEMPTS : nat := HEARTBEAT_RETRIES + 1.
Definition TUNNELING_ACK_TIMEOUT : Z := 1 * SECS.
Definition TUNNELING_RETRANSMITS : nat := 1.
Definition FEATURE_RESPONSE_TIMEOUT : Z := 3 * SECS.
Definition CONNECT_TIMEOUT : Z := 10 * SECS.
Definition DISCONNECT_TIMEOUT : Z := 5 * SECS.

(** ** The link

    [link_send] goes to the control endpoint, [link_send_data] to the data
    endpoint; [link_recv size budget] is [timeout(budget, link.recv(buf))] with a
    buffer of [size] octets; [link_reopen] opens the secure session of a secure
    link anew; [link_frames deadline] bounds the datagrams that can still be
    received before [deadline]. *)
Inductive LinkOutcome : Type :=
| LinkDatagram (datagram : bytes)
| LinkFailed (e : TransportError)
| LinkElapsed.

Class TunnelLink (W : Type) : Type := {
  link_send : bytes -> W -> result TransportError unit * W;
  link_send_data : bytes -> W -> result TransportError unit * W;
  link_recv : nat -> Z -> W -> LinkOutcome * W;
  link_adopt : option SocketAddrV4 -> W -> result TransportError unit * W;
  link_acks : W -> bool;
  link_is_deferred_refusal : TransportError -> W -> bool;
  link_keepalive : W -> result TransportError unit * W;
  link_close : W -> W;
  link_reopen : Z -> W -> result TransportError Hpai * W;
  link_now : W -> Z;
  link_sleep : Z -> W -> W;
  link_frames : Z -> W -> nat }.

(** [later w w']: the clock did not go back and no deadline sees more datagrams. *)
Definition later {W} `{TunnelLink W} (w w' : W) : Prop :=
  link_now w <= link_now w' /\ forall dl, (link_frames dl w' <= link_frames dl w)%nat.

(** What the loops rely on: no call turns the clock back, a receive that returns
    something by a deadline uses up one of the datagrams that could come before it,
    and one that returns nothing took its whole budget. *)
Class TunnelLinkLaws (W : Type) `{TunnelLink W} : Prop := {
  send_later : forall d w, later w (snd (link_send d w));
  send_data_later : forall d w, later w (snd (link_send_data d w));
  adopt_later : forall h w, later w (snd (link_adopt h w));
  keepalive_later : forall w, later w (snd (link_keepalive w));
  close_later : forall w, later w (link_close w);
  reopen_later : forall b w, later w (snd (link_reopen b w));
  sleep_later : forall d w, later w (link_sleep d w) /\ link_now w + d <= link_now (link_sleep d w);
  recv_later : forall n b w o w', 0 < b -> link_recv n b w = (o, w') ->
    later w w' /\
    match o with
    | LinkElapsed => link_now w + b <= link_now w'
    | _ => forall dl, link_now w' <= dl -> (link_frames dl w' < link_frames dl w)%nat
    end }.

(** ** The channel *)

Record ChannelKind : Type := MkChannelKind {
  ck_ack_service : ServiceType;
  ck_ack : u8 -> u8 -> u8 -> bytes;
  ck_ack_context : string;
  ck_ack_timeout : Z;
  ck_retransmits : nat }.

Record Channel : Type := MkChannel {
  chan_kind : ChannelKind;
  chan_id : u8;
  chan_hpai : Hpai;
  chan_outgoing_seq : u8;
  chan_incoming_seq : u8;
  chan_first_incoming : bool }.

Definition Channel_new (kind : ChannelKind) (id : u8) (hpai : Hpai) : Channel :=
  MkChannel kind id hpai 0 0 false.

Definition chan_set_outgoing (seq : u8) (c : Channel) : Channel :=
  MkChannel (chan_kind c) (chan_id c) (chan_hpai c) seq (chan_incoming_seq c) (chan_first_incoming c).
Definition chan_set_incoming (seq : u8) (c : Channel) : Channel :=
  MkChannel (chan_kind c) (chan_id c) (chan_hpai c) (chan_outgoing_seq c) seq false.

(** ** Operations

    Each returns its result and the state after, on errors too. *)
Record TaskIn (T W : Type) : Type := MkTaskIn { st_task : T; st_world : W }.
Arguments MkTaskIn {T W}.
Arguments st_task {T W}.
Arguments st_world {T W}.

Definition TaskOp (T W A : Type) : Type := TaskIn T W -> result TransportError A * TaskIn T W.

#[export] Instance TaskOp_ret {T W} : MRet (TaskOp T W) := fun A a s => (Ok a, s).
#[export] Instance TaskOp_bind {T W} : MBind (TaskOp T W) := fun A B k m s =>
  match m s with
  | (Ok a, s') => k a s'
  | (Err e, s') => (Err e, s')
  end.

Section Operations.
  Context {T W : Type} `{TunnelLink W}.

Definition raise {A} (e : TransportError) : TaskOp T W A := fun s => (Err e, s).
Definition get_task : TaskOp T W T := fun s => (Ok (st_task s), s).
Definition put_task (f : T -> T) : TaskOp T W unit := fun s => (Ok tt, MkTaskIn (f (st_task s)) (st_world s)).
Definition clock : TaskOp T W Z := fun s => (Ok (link_now (st_world s)), s).

(** A call of the link. *)
Definition on_link {A} (f : W -> result TransportError A * W) : TaskOp T W A := fun s =>
  let '(r, w) := f (st_world s) in (r, MkTaskIn (st_task s) w).

Definition recv_in (size : nat) (budget : Z) : TaskOp T W LinkOutcome := fun s =>
  let '(o, w) := link_recv size budget (st_world s) in (Ok o, MkTaskIn (st_task s) w).

(** [let _ = ...] and [match ... .await]. *)
Definition outcome_of {A} (m : TaskOp T W A) : TaskOp T W (result TransportError A) := fun s =>
  let '(r, s') := m s in (Ok r, s').

(** A loop over what arrives before [deadline]; [None] when the fuel runs out
    ([wait_loop_ends]: [link_frames] and two more are enough). *)
Fixpoint wait_loop {A} (fuel : nat) (size : nat) (deadline : Z) (elapsed : TaskOp T W A)
    (failed : TransportError -> TaskOp T W (option A)) (body : bytes -> TaskOp T W (option A))
    (s : TaskIn T W) : option (result TransportError A * TaskIn T W) :=
  match fuel with
  | O => None
  | S fuel =>
      let remaining := saturating_sub deadline (link_now (st_world s)) in
      if remaining =? 0 then Some (elapsed s) else
      let go_on r :=
        match r with
        | (Err e, s) => Some (Err e, s)
        | (Ok (Some a), s) => Some (Ok a, s)
        | (Ok None, s) => wait_loop fuel size deadline elapsed failed body s
        end in
      match recv_in size remaining s with
      | (Err e, s) => Some (Err e, s)
      | (Ok LinkElapsed, s) => Some (elapsed s)
      | (Ok (LinkDatagram d), s) => go_on (body d s)
      | (Ok (LinkFailed e), s) => go_on (failed e s)
      end
  end.

Definition wait_until {A} (size : nat) (deadline : Z) (elapsed : TaskOp T W A)
    (failed : TransportError -> TaskOp T W (option A)) (body : bytes -> TaskOp T W (option A)) : TaskOp T W A := fun s =>
  match wait_loop (S (S (link_frames deadline (st_world s)))) size deadline elapsed failed body s with
  | Some r => r
  | None => elapsed s
  end.

End Operations.

(** ** The inbound sequence check *)

Section AcceptIncoming.
  Context {W : Type} `{TunnelLink W}.

(** How far [seq] is behind the expected one decides: the expected one is
    acknowledged and taken, the one before it acknowledged again and dropped, any
    other dropped. *)
Definition accept_incoming (seq : u8) (c : Channel) (w : W) : bool * Channel * W :=
  let c := if chan_first_incoming c then chan_set_incoming seq c else c in
  let behind := as_u8 (chan_incoming_seq c - seq) in
  if 1 <? behind then (false, c, w)
  else
    let w :=
      if link_acks w then snd (link_send_data (ck_ack (chan_kind c) (chan_id c) seq 0) w) else w in
    if behind =? 1 then (false, c, w)
    else (true, chan_set_incoming (as_u8 (chan_incoming_seq c + 1)) c, w).

End AcceptIncoming.

(** ** The task that owns the channel

    [handle_inbound] serves a datagram that is not the awaited answer; [false]
    when the server ended the connection. *)
Class ChannelTask (T W : Type) : Type := {
  task_channel : T -> Channel;
  task_set_channel : Channel -> T -> T;
  handle_inbound : bytes -> TaskIn T W -> bool * TaskIn T W }.

Section Machine.
  Context {T W : Type} `{TunnelLink W} `{ChannelTask T W}.

Definition get_channel : TaskOp T W Channel := fun s => (Ok (task_channel (st_task s)), s).
Definition put_channel (f : Channel -> Channel) : TaskOp T W unit :=
  put_task (fun t => task_set_channel (f (task_channel t)) t).

(** Serves a datagram; an ended connection is an error. *)
Definition serve_inbound (datagram : bytes) : TaskOp T W unit := fun s =>
  match handle_inbound datagram s with
  | (true, s) => (Ok tt, s)
  | (false, s) => (Err (TransportDisconnected (chan_id (task_channel (st_task s)))), s)
  end.

(** The size of the task's receive buffer. *)
Definition TASK_BUFFER : nat := 1024.

(** *** Sequenced requests *)

Definition ack_datagram (kind : ChannelKind) (seq : u8) (datagram : bytes) : TaskOp T W (option unit) :=
  match parse datagram with
  | Err _ => mret None
  | Ok parsed =>
      if bool_decide (pf_service parsed = ck_ack_service kind) then
        match parse_tunneling_ack (pf_body parsed) with
        | Ok (header, status) =>
            if ch_seq header =? seq then
              if negb (status =? 0) then raise (GatewayStatus status (ck_ack_context kind)) else mret (Some tt)
            else mret None
        | Err _ => mret None
        end
      else _ ← serve_inbound datagram; mret None
  end.

Definition chan_await_ack (seq : u8) : TaskOp T W unit :=
  c ← get_channel;
  let kind := chan_kind c in
  t ← clock;
  wait_until TASK_BUFFER (t + ck_ack_timeout kind) (raise (TransportTimeout (ck_ack_context kind)))
    raise (ack_datagram kind seq).

(** Sends [datagram], [repeats] more times while its ACK is missing or an error. *)
Fixpoint send_loop (repeats : nat) (kind : ChannelKind) (seq : u8) (datagram : bytes) : TaskOp T W unit :=
  _ ← on_link (link_send_data datagram);
  r ← outcome_of (chan_await_ack seq);
  match r with
  | Ok _ => put_channel (chan_set_outgoing (as_u8 (seq + 1)))
  | Err e =>
      let repeated :=
        match e with
        | TransportTimeout _ => true
        | GatewayStatus _ context => String.eqb context (ck_ack_context kind)
        | _ => false
        end in
      match repeats with
      | S repeats => if repeated then send_loop repeats kind seq datagram else raise e
      | O => raise e
      end
  end.

Definition send_sequenced (build : ConnectionHeader -> bytes) : TaskOp T W unit :=
  c ← get_channel;
  let seq := chan_outgoing_seq c in
  let datagram := build (MkConnectionHeader (chan_id c) seq) in
  acks ← on_link (fun w => (Ok (link_acks w), w));
  if negb acks then
    _ ← on_link (link_send_data datagram);
    put_channel (chan_set_outgoing (as_u8 (seq + 1)))
  else send_loop (ck_retransmits (chan_kind c)) (chan_kind c) seq datagram.

(** *** The heartbeat *)

(** [Some true]: answered, [Some false]: an error status, the next outcome_of. *)
Definition heartbeat_datagram (datagram : bytes) : TaskOp T W (option bool) :=
  match parse datagram with
  | Err _ => mret None
  | Ok parsed =>
      if bool_decide (pf_service parsed = ConnectionstateResponse) then
        c ← get_channel;
        match parse_channel_status (pf_body parsed) with
        | Ok status =>
            if cs_channel_id status =? chan_id c then mret (Some (cs_status status =? 0)) else mret None
        | Err _ => mret None
        end
      else _ ← serve_inbound datagram; mret None
  end.

Fixpoint heartbeat_loop (attempts : nat) (timeout : Z) (request : bytes) : TaskOp T W unit :=
  match attempts with
  | O => raise HeartbeatLost
  | S attempts =>
      _ ← on_link (link_send request);
      t ← clock;
      answered ← wait_until TASK_BUFFER (t + timeout) (mret false) raise heartbeat_datagram;
      if (answered : bool) then mret tt else heartbeat_loop attempts timeout request
  end.

Definition heartbeat_with (attempts : nat) (timeout : Z) : TaskOp T W unit :=
  c ← get_channel;
  heartbeat_loop attempts timeout (connectionstate_request (chan_id c) (chan_hpai c)).

(** *** Closing: a missing response is not an error. *)
Definition Channel_disconnect : TaskOp T W unit :=
  c ← get_channel;
  _ ← on_link (link_send (disconnect_request (chan_id c) (chan_hpai c)));
  t ← clock;
  wait_until TASK_BUFFER (t + DISCONNECT_TIMEOUT) (mret tt) (fun _ => mret (Some tt)) (fun datagram =>
    match parse datagram with
    | Ok parsed => if bool_decide (pf_service parsed = DisconnectResponse) then mret (Some tt) else mret None
    | Err _ => mret None
    end).

End Machine.
