(* ===== verification/Tunnel.v ===== *)
(** * The tunnelling client's task ([bussard-transport/src/tunnel.rs])

    The background task that owns the link: the CONNECT handshake, sending a frame
    (confirmed, repeated, and sent again on a re-established tunnel), serving
    inbound datagrams, feature reads, the heartbeat and the liveness probe, the
    re-establishing of a lost tunnel, and closing.  The queue to the handle is
    [ts_frames]; its depth meter only feeds a log message and is left out, as is
    the choice between a plain and a secure tunnel before the handshake. *)

From S2P Require Import Prelude Address Cursor Cemi Knxnet Channel.

Local Open Scope string_scope.
Local Open Scope list_scope.
Local Open Scope Z_scope.

Definition ACK_CONTEXT : string := "TUNNELING_ACK".

Definition TUNNELLING : ChannelKind :=
  MkChannelKind TunnelingAck tunneling_ack ACK_CONTEXT TUNNELING_ACK_TIMEOUT TUNNELING_RETRANSMITS.

Definition FEATURE_MAX_APDU_LENGTH : u8 := 7.

Inductive LinkState : Type := LinkUp (assigned_ia : option u16) | LinkReconnecting.

(** ** Endpoints of a plain tunnel *)

Definition is_unspecified (a : SocketAddrV4) : bool :=
  (ip0 a =? 0) && (ip1 a =? 0) && (ip2 a =? 0) && (ip3 a =? 0).

Definition resolve_data_endpoint (hpai : option SocketAddrV4) (control : SocketAddrV4) : SocketAddrV4 :=
  match hpai with
  | Some addr =>
      let ip := if is_unspecified addr then control else addr in
      let p := if port addr =? 0 then port control else port addr in
      MkSocketAddrV4 (ip0 ip) (ip1 ip) (ip2 ip) (ip3 ip) p
  | None => control
  end.

(** ** The reconnect policy *)

Record TunnelReconnect : Type := MkTunnelReconnect {
  rc_budget : Z;
  rc_initial_backoff : Z;
  rc_max_backoff : Z;
  rc_attempt_timeout : Z;
  rc_tcp_read_deadline : Z }.

Definition TCP_LINK_PROBE_TIMEOUT : Z := 2 * SECS.

Definition TunnelReconnect_default : TunnelReconnect :=
  MkTunnelReconnect (60 * SECS) (1 * SECS) (8 * SECS) (3 * SECS) (5 * SECS).

Definition TunnelReconnect_enabled (r : TunnelReconnect) : bool := negb (rc_budget r =? 0).
Definition TunnelReconnect_tcp_probe_timeout (r : TunnelReconnect) : Z :=
  Z.min (rc_tcp_read_deadline r) TCP_LINK_PROBE_TIMEOUT.

(** ** The handshake *)

Definition E_NO_MORE_CONNECTIONS : u8 := 36.

Record Granted : Type := MkGranted {
  gr_channel_id : u8;
  gr_assigned_ia : option u16;
  gr_data_endpoint : option SocketAddrV4 }.

Definition accept_connect_response (body : bytes) : result TransportError Granted :=
  resp ← parse_connect_response body;
  if cr_status resp =? E_NO_MORE_CONNECTIONS then Err NoMoreConnections
  else if negb (cr_status resp =? 0) then Err (GatewayStatus (cr_status resp) "CONNECT_RESPONSE")
  else mret (MkGranted (cr_channel_id resp) (cr_assigned_ia resp) (cr_data_endpoint resp)).

(** The task does not exist yet: the operations run on the link alone. *)
Section Handshake.
  Context {W : Type} `{TunnelLink W}.

Definition CONNECT_BUFFER : nat := 512.

(** Over UDP the first datagram has to be the answer; a secure session may bring
    other frames before it. *)
Definition connect_datagram (datagram : bytes) : TaskOp unit W (option Granted) :=
  match parse datagram with
  | Err e => raise e
  | Ok parsed =>
      if bool_decide (pf_service parsed = SvcConnectResponse) then
        match accept_connect_response (pf_body parsed) with
        | Err e => raise e
        | Ok granted => _ ← on_link (link_adopt (gr_data_endpoint granted)); mret (Some granted)
        end
      else
        udp ← on_link (fun w => (Ok (link_acks w), w));
        if (udp : bool) then raise (InvalidField "expected CONNECT_RESPONSE" 0) else mret None
  end.

(** With no time left the source's timer still looks once at the socket before it
    gives up, [wait_until] does not. *)
Definition connect_handshake (req : bytes) : TaskOp unit W Granted :=
  _ ← on_link (link_send req);
  t ← clock;
  wait_until CONNECT_BUFFER (t + CONNECT_TIMEOUT) (raise (TransportTimeout "CONNECT_RESPONSE"))
    raise connect_datagram.

Definition handshake (hpai : Hpai) : TaskOp unit W Granted := connect_handshake (connect_request hpai hpai).

End Handshake.

(** ** The task *)

Record TaskState : Type := MkTaskState {
  ts_chan : Channel;
  ts_frames : list (result TransportError CemiFrame);
  ts_handle : bool;
  ts_secure_user : bool;
  ts_keepalive : Z;
  ts_reconnect : TunnelReconnect;
  ts_link_state : LinkState;
  ts_last_rx : Z;
  ts_feature_answer : option (u8 * u8 * bytes) }.

Definition ts_set_chan c (t : TaskState) : TaskState :=
  MkTaskState c (ts_frames t) (ts_handle t) (ts_secure_user t) (ts_keepalive t) (ts_reconnect t) (ts_link_state t)
    (ts_last_rx t) (ts_feature_answer t).
Definition ts_set_frames fs (t : TaskState) : TaskState :=
  MkTaskState (ts_chan t) fs (ts_handle t) (ts_secure_user t) (ts_keepalive t) (ts_reconnect t) (ts_link_state t)
    (ts_last_rx t) (ts_feature_answer t).
Definition ts_set_link_state l (t : TaskState) : TaskState :=
  MkTaskState (ts_chan t) (ts_frames t) (ts_handle t) (ts_secure_user t) (ts_keepalive t) (ts_reconnect t) l
    (ts_last_rx t) (ts_feature_answer t).
Definition ts_set_last_rx x (t : TaskState) : TaskState :=
  MkTaskState (ts_chan t) (ts_frames t) (ts_handle t) (ts_secure_user t) (ts_keepalive t) (ts_reconnect t)
    (ts_link_state t) x (ts_feature_answer t).
Definition ts_set_feature_answer a (t : TaskState) : TaskState :=
  MkTaskState (ts_chan t) (ts_frames t) (ts_handle t) (ts_secure_user t) (ts_keepalive t) (ts_reconnect t)
    (ts_link_state t) (ts_last_rx t) a.

(** The task a granted handshake starts. *)
Definition TaskState_new (granted : Granted) (hpai : Hpai) (secure_user : bool) (keepalive : Z)
    (reconnect : TunnelReconnect) (t : Z) : TaskState :=
  MkTaskState (MkChannel TUNNELLING (gr_channel_id granted) hpai 0 0 true) [] true secure_user keepalive reconnect
    (LinkUp (gr_assigned_ia granted)) t None.

Definition deliver (item : result TransportError CemiFrame) (t : TaskState) : TaskState :=
  if ts_handle t then ts_set_frames (ts_frames t ++ [item]) t else t.

Section Tunnel.
  Context {W : Type} `{TunnelLink W}.

(** *** Inbound datagrams *)

(** An in-sequence feature frame, its body after the connection header. *)
Definition handle_feature_frame (service : ServiceType) (body : bytes) (t : TaskState) : TaskState :=
  match body with
  | feature :: code :: value =>
      if bool_decide (service = TunnelingFeatureResponse) then ts_set_feature_answer (Some (feature, code, value)) t else t
  | _ => t
  end.

(** The sequence is checked before the cEMI frame is decoded: an undecodable
    frame is acknowledged and advances the window. *)
Definition handle_tunneling_request (service : ServiceType) (body : bytes) (s : TaskIn TaskState W)
    : TaskIn TaskState W :=
  match parse_tunneling_header body with
  | Err _ => s
  | Ok (header, cemi_bytes) =>
      let '(accepted, c, w) := accept_incoming (ch_seq header) (ts_chan (st_task s)) (st_world s) in
      let t := ts_set_chan c (st_task s) in
      if negb accepted then MkTaskIn t w
      else if negb (bool_decide (service = SvcTunnelingRequest)) then MkTaskIn (handle_feature_frame service cemi_bytes t) w
      else
        match CemiFrame_decode cemi_bytes with
        | Ok cemi => MkTaskIn (deliver (Ok cemi) t) w
        | Err _ => MkTaskIn t w
        end
  end.

Definition tunnel_handle_inbound (datagram : bytes) (s : TaskIn TaskState W) : bool * TaskIn TaskState W :=
  match parse datagram with
  | Err _ => (true, s)
  | Ok parsed =>
      match pf_service parsed with
      | SvcTunnelingRequest | TunnelingFeatureGet | TunnelingFeatureResponse | TunnelingFeatureSet | TunnelingFeatureInfo =>
          (true, handle_tunneling_request (pf_service parsed) (pf_body parsed) s)
      | DisconnectRequest =>
          let w :=
            match parse_disconnect_request (pf_body parsed) with
            | Ok channel => snd (link_send (disconnect_response channel 0) (st_world s))
            | Err _ => st_world s
            end in
          (false, MkTaskIn (deliver (Err (TransportDisconnected (chan_id (ts_chan (st_task s))))) (st_task s)) w)
      | _ => (true, s)
      end
  end.

#[export] Instance tunnel_task : ChannelTask TaskState W := {
  task_channel := ts_chan;
  task_set_channel := ts_set_chan;
  handle_inbound := tunnel_handle_inbound }.

(** *** Lost links *)

Definition should_reestablish (reconnect : TunnelReconnect) (e : TransportError) : bool :=
  TunnelReconnect_enabled reconnect &&
  match e with
  | TransportTimeout _ | HeartbeatLost | TransportIo _ | SecureSessionEnded _ | BadHeader _ _ => true
  | GatewayStatus _ context => String.eqb context ACK_CONTEXT
  | _ => false
  end.

(** The CONNECT_REQUEST of a re-establish attempt; a deferred refusal of an
    earlier datagram is worth one more try. *)
Definition send_connect (req : bytes) : TaskOp TaskState W unit :=
  r ← outcome_of (on_link (link_send req));
  match r with
  | Ok _ => mret tt
  | Err e =>
      deferred ← on_link (fun w => (Ok (link_is_deferred_refusal e w), w));
      if (deferred : bool) then on_link (link_send req) else raise e
  end.

(** While an attempt waits, the old channel's traffic is dropped; [old_open] is
    cleared by what ends the old channel.  The flag is state of the loop. *)
Definition attempt_datagram (old_channel : u8) (datagram : bytes) : TaskOp (TaskState * bool) W (option Granted) :=
  match parse datagram with
  | Err _ => mret None
  | Ok parsed =>
      match pf_service parsed with
      | SvcConnectResponse =>
          match accept_connect_response (pf_body parsed) with
          | Err e => raise e
          | Ok granted => _ ← on_link (link_adopt (gr_data_endpoint granted)); mret (Some granted)
          end
      | DisconnectResponse =>
          _ ← put_task (fun '(t, old_open) =>
                (t, if bool_decide (head (pf_body parsed) = Some old_channel) then false else old_open));
          mret None
      | DisconnectRequest =>
          match parse_disconnect_request (pf_body parsed) with
          | Ok channel =>
              _ ← outcome_of (on_link (link_send (disconnect_response channel 0)));
              _ ← put_task (fun '(t, old_open) => (t, if channel =? old_channel then false else old_open));
              mret None
          | Err _ => mret None
          end
      | _ => mret None
      end
  end.

Definition attempt_failed (e : TransportError) : TaskOp (TaskState * bool) W (option Granted) :=
  deferred ← on_link (fun w => (Ok (link_is_deferred_refusal e w), w));
  if (deferred : bool) then mret None else raise e.

(** An operation of the task inside one that also carries the flag. *)
Definition with_flag {A} (m : TaskOp TaskState W A) : TaskOp (TaskState * bool) W A := fun s =>
  let '(r, s') := m (MkTaskIn (fst (st_task s)) (st_world s)) in
  (r, MkTaskIn (st_task s', snd (st_task s)) (st_world s')).

(** A secure tunnel needs a fresh session; ending the old one releases the old
    channel. *)
Definition reopen (wait : Z) : TaskOp (TaskState * bool) W unit := fun s =>
  let '(t, old_open) := st_task s in
  if ts_secure_user t then
    match link_reopen wait (link_close (st_world s)) with
    | (Err e, w) => (Err e, MkTaskIn (t, false) w)
    | (Ok hpai, w) =>
        let c := ts_chan t in
        (Ok tt, MkTaskIn (ts_set_chan (MkChannel (chan_kind c) (chan_id c) hpai (chan_outgoing_seq c) (chan_incoming_seq c)
                            (chan_first_incoming c)) t, false) w)
    end
  else (Ok tt, s).

Definition connect_attempt (wait : Z) (old_channel : u8) : TaskOp (TaskState * bool) W Granted :=
  t ← clock;
  let deadline := t + wait in
  _ ← reopen wait;
  task ← get_task;
  let hpai := chan_hpai (ts_chan (fst task)) in
  _ ← with_flag (send_connect (connect_request hpai hpai));
  wait_until TASK_BUFFER deadline (raise (TransportTimeout "CONNECT_RESPONSE")) attempt_failed
    (attempt_datagram old_channel).

(** A granted channel: its id is adopted, both counters start over. *)
Definition adopt_channel (granted : Granted) (t : Z) (task : TaskState) : TaskState :=
  let c := ts_chan task in
  ts_set_last_rx t (ts_set_link_state (LinkUp (gr_assigned_ia granted))
    (ts_set_chan (MkChannel (chan_kind c) (gr_channel_id granted) (chan_hpai c) 0 0 true) task)).

(** Attempts until [deadline], [backoff] between them; [fuel] bounds them
    ([reestablish_ends]). *)
Fixpoint reestablish_loop (fuel : nat) (deadline : Z) (old_channel : u8) (backoff : Z) (lost : TransportError)
    : TaskOp (TaskState * bool) W unit :=
  match fuel with
  | O => raise lost
  | S fuel =>
      t ← clock;
      let remaining := saturating_sub deadline t in
      if remaining =? 0 then raise lost else
      task ← get_task;
      let '(state, old_open) := task in
      _ ← (if (old_open : bool)
           then _ ← outcome_of (on_link (link_send (disconnect_request old_channel (chan_hpai (ts_chan state))))); mret tt
           else mret tt);
      r ← outcome_of (connect_attempt (Z.min (rc_attempt_timeout (ts_reconnect state)) remaining) old_channel);
      match r with
      | Ok granted => t ← clock; put_task (fun '(task, old_open) => (adopt_channel granted t task, old_open))
      | Err _ =>
          t ← clock;
          let remaining := saturating_sub deadline t in
          if remaining =? 0 then raise lost else
          _ ← on_link (fun w => (Ok tt, link_sleep (Z.min backoff remaining) w));
          reestablish_loop fuel deadline old_channel (Z.min (2 * backoff) (rc_max_backoff (ts_reconnect state))) lost
      end
  end.

Definition reestablish_fuel (r : TunnelReconnect) : nat :=
  S (S (Z.to_nat (rc_budget r / Z.max 1 (Z.min (rc_initial_backoff r) (rc_max_backoff r))))).

Definition reestablish (cause : TransportError) (started : Z) : TaskOp TaskState W unit := fun s =>
  let task := st_task s in
  let rc := ts_reconnect task in
  let '(r, s') :=
    reestablish_loop (reestablish_fuel rc) (started + rc_budget rc) (chan_id (ts_chan task)) (rc_initial_backoff rc)
      (TunnelLost (rc_budget rc) cause) (MkTaskIn (ts_set_link_state LinkReconnecting task, true) (st_world s)) in
  (r, MkTaskIn (fst (st_task s')) (st_world s')).

Definition recover (e : TransportError) : TaskOp TaskState W unit :=
  task ← get_task;
  if should_reestablish (ts_reconnect task) e then t ← clock; reestablish e t else raise e.

(** *** Sending *)

Definition send_once (frame : CemiFrame) : TaskOp TaskState W unit :=
  send_sequenced (fun header => tunneling_request header frame).

(** After the first loss: re-establish and send the pending frame again, on one
    budget; [fuel] bounds the losses ([do_send_ends]). *)
Fixpoint resend_loop (fuel : nat) (cause : TransportError) (started : Z) (frame : CemiFrame) : TaskOp TaskState W unit :=
  match fuel with
  | O => raise cause
  | S fuel =>
      _ ← reestablish cause started;
      r ← outcome_of (send_once frame);
      match r with
      | Ok _ => mret tt
      | Err e =>
          task ← get_task;
          if should_reestablish (ts_reconnect task) e then resend_loop fuel e started frame else raise e
      end
  end.

(** The first loss starts the budget. *)
Definition resend (cause : TransportError) (frame : CemiFrame) : TaskOp TaskState W unit := fun s =>
  let started := link_now (st_world s) in
  resend_loop (S (S (link_frames (started + rc_budget (ts_reconnect (st_task s))) (st_world s)))) cause started frame s.

Definition do_send (frame : CemiFrame) : TaskOp TaskState W unit :=
  r ← outcome_of (send_once frame);
  match r with
  | Ok _ => mret tt
  | Err e =>
      task ← get_task;
      if should_reestablish (ts_reconnect task) e then resend e frame else raise e
  end.

(** *** Interface features *)

(** What the answer that came, if one did, means for a read of [feature]: answers
    to other reads are dropped. *)
Definition take_feature_answer (feature : u8) : TaskOp TaskState W (option bytes) :=
  task ← get_task;
  _ ← put_task (ts_set_feature_answer None);
  match ts_feature_answer task with
  | None => mret None
  | Some (answered, code, value) =>
      if negb (answered =? feature) then mret None
      else if negb (code =? 0) then raise (GatewayStatus code "TUNNELLING_FEATURE_RESPONSE")
      else mret (Some value)
  end.

Definition feature_datagram (feature : u8) (datagram : bytes) : TaskOp TaskState W (option (option bytes)) :=
  t ← clock;
  _ ← put_task (ts_set_last_rx t);
  _ ← serve_inbound datagram;
  answer ← take_feature_answer feature;
  match (answer : option bytes) with Some value => mret (Some (Some value)) | None => mret None end.

Fixpoint do_feature_get (attempts : nat) (feature : u8) : TaskOp TaskState W (option bytes) :=
  match attempts with
  | O => mret None
  | S attempts =>
      _ ← put_task (ts_set_feature_answer None);
      _ ← send_sequenced (fun header => tunneling_feature_get header feature);
      t ← clock;
      early ← take_feature_answer feature;
      answer ← (match (early : option bytes) with
                | Some value => mret (Some value)
                | None => wait_until TASK_BUFFER (t + FEATURE_RESPONSE_TIMEOUT) (mret None) raise (feature_datagram feature)
                end);
      match (answer : option bytes) with Some value => mret (Some value) | None => do_feature_get attempts feature end
  end.

Definition feature_get_command (feature : u8) (attempts : nat) : TaskOp TaskState W (option bytes) :=
  r ← outcome_of (do_feature_get attempts feature);
  match r with
  | Ok value => mret value
  | Err e =>
      task ← get_task;
      if should_reestablish (ts_reconnect task) e then t ← clock; _ ← reestablish e t; mret None
      else raise e
  end.

(** *** Heartbeat, liveness probe, closing *)

Definition note_rx : TaskOp TaskState W unit := t ← clock; put_task (ts_set_last_rx t).

Definition do_heartbeat : TaskOp TaskState W unit :=
  _ ← heartbeat_with HEARTBEAT_ATTEMPTS HEARTBEAT_TIMEOUT;
  note_rx.

Definition probe_link (timeout : Z) : TaskOp TaskState W unit :=
  r ← outcome_of (heartbeat_with 1 timeout);
  match r with
  | Ok _ => note_rx
  | Err HeartbeatLost => raise (TransportTimeout "CONNECTIONSTATE_RESPONSE (TCP read deadline)")
  | Err e => raise e
  end.

Definition do_close : TaskOp TaskState W unit := fun s =>
  let '(r, s) := Channel_disconnect s in (r, MkTaskIn (st_task s) (link_close (st_world s))).

(** *** The task's loop: one round for each thing it waits for *)

Inductive Command : Type :=
| CmdSend (frame : CemiFrame)
| CmdFeatureGet (feature : u8) (attempts : nat)
| CmdClose
| CmdHandleDropped.

Inductive TaskEvent : Type :=
| EvCommand (cmd : Command)
| EvInbound (outcome : LinkOutcome)
| EvKeepalive
| EvLinkCheck
| EvHeartbeat.

Inductive Reply : Type :=
| ReplyDone (r : result TransportError unit)
| ReplyFeature (r : result TransportError (option bytes)).

(** Which timers the task polls, and when the liveness probe is due. *)
Definition keepalive_on (t : TaskState) : bool := negb (ts_keepalive t =? 0).
Definition link_check_enabled (s : TaskIn TaskState W) : bool :=
  negb (link_acks (st_world s)) && negb (rc_tcp_read_deadline (ts_reconnect (st_task s)) =? 0).
Definition link_check_at (t : TaskState) : Z := ts_last_rx t + rc_tcp_read_deadline (ts_reconnect t).

(** The end of a round whose error may be recovered from: the task goes on, or the
    error is delivered and it ends. *)
Definition recovering (m : TaskOp TaskState W unit) (s : TaskIn TaskState W) : bool * TaskIn TaskState W :=
  match m s with
  | (Ok _, s) => (true, s)
  | (Err e, s) =>
      match recover e s with
      | (Ok _, s) => (true, s)
      | (Err e, s) => (false, MkTaskIn (deliver (Err e) (st_task s)) (st_world s))
      end
  end.

(** Whether the task goes on, the reply to a command, and the state after. *)
Definition run_event (event : TaskEvent) (s : TaskIn TaskState W) : bool * option Reply * TaskIn TaskState W :=
  match event with
  | EvCommand (CmdSend frame) => let '(r, s) := do_send frame s in (true, Some (ReplyDone r), s)
  | EvCommand (CmdFeatureGet feature attempts) =>
      let '(r, s) := feature_get_command feature attempts s in (true, Some (ReplyFeature r), s)
  | EvCommand CmdClose => let '(r, s) := do_close s in (false, Some (ReplyDone r), s)
  | EvCommand CmdHandleDropped => let '(_, s) := do_close s in (false, None, s)
  | EvInbound (LinkDatagram datagram) =>
      let s := MkTaskIn (ts_set_last_rx (link_now (st_world s)) (st_task s)) (st_world s) in
      let '(go_on, s) := handle_inbound datagram s in (go_on, None, s)
  | EvInbound (LinkFailed e) => let '(go_on, s) := recovering (raise e) s in (go_on, None, s)
  | EvInbound LinkElapsed => (true, None, s)
  | EvKeepalive => let '(go_on, s) := recovering (on_link link_keepalive) s in (go_on, None, s)
  | EvLinkCheck =>
      let '(go_on, s) :=
        recovering (probe_link (TunnelReconnect_tcp_probe_timeout (ts_reconnect (st_task s)))) s in (go_on, None, s)
  | EvHeartbeat => let '(go_on, s) := recovering do_heartbeat s in (go_on, None, s)
  end.

(** [BusConnection::recv] of the handle: the oldest undelivered item. *)
Definition handle_recv (t : TaskState) : option (result TransportError CemiFrame) * TaskState :=
  match ts_frames t with
  | [] => (None, t)
  | item :: frames => (Some item, ts_set_frames frames t)
  end.

End Tunnel.
