(* ===== verification/SimKnxnet.v ===== *)
(** * The simulator's KNXnet/IP framing ([knx-sim/src/wire/knxnetip.rs])

    The gateway's own header and connection-header codec, and that it agrees with
    the client's ([Knxnet]). *)

From S2P Require Import Prelude Address Cursor Cemi Knxnet.

Local Open Scope string_scope.
Local Open Scope list_scope.
Local Open Scope Z_scope.

(** ** Service types *)

Module service.
Definition SEARCH_REQUEST : u16 := 513.
Definition SEARCH_RESPONSE : u16 := 514.
Definition DESCRIPTION_REQUEST : u16 := 515.
Definition DESCRIPTION_RESPONSE : u16 := 516.
Definition CONNECT_REQUEST : u16 := 517.
Definition CONNECT_RESPONSE : u16 := 518.
Definition CONNECTIONSTATE_REQUEST : u16 := 519.
Definition CONNECTIONSTATE_RESPONSE : u16 := 520.
Definition DISCONNECT_REQUEST : u16 := 521.
Definition DISCONNECT_RESPONSE : u16 := 522.
Definition SEARCH_REQUEST_EXTENDED : u16 := 523.
Definition SEARCH_RESPONSE_EXTENDED : u16 := 524.
Definition DEVICE_CONFIGURATION_REQUEST : u16 := 784.
Definition DEVICE_CONFIGURATION_ACK : u16 := 785.
Definition TUNNELLING_REQUEST : u16 := 1056.
Definition TUNNELLING_ACK : u16 := 1057.
Definition TUNNELLING_FEATURE_GET : u16 := 1058.
Definition TUNNELLING_FEATURE_RESPONSE : u16 := 1059.
Definition TUNNELLING_FEATURE_SET : u16 := 1060.
Definition TUNNELLING_FEATURE_INFO : u16 := 1061.
End service.

Definition DEVICE_MGMT_CONNECTION : u8 := 3.
Definition E_CONNECTION_ID : u8 := 33.
Definition E_CONNECTION_TYPE : u8 := 34.

(** ** Frames *)

Record KnxnetIpFrame : Type := MkKnxnetIpFrame { kf_service : u16; kf_body : bytes }.

Inductive FrameError : Type :=
| FrameTruncated (need have : Z)
| FrameBadHeader (b0 b1 : u8)
| FrameBadLength (total_len : Z).

Definition KnxnetIpFrame_decode (buf : bytes) : result FrameError KnxnetIpFrame :=
  match buf with
  | b0 :: b1 :: b2 :: b3 :: b4 :: b5 :: _ =>
      if negb (b0 =? 6) || negb (b1 =? 16) then Err (FrameBadHeader b0 b1)
      else
        let total_len := u16_of b4 b5 in
        if total_len <? 6 then Err (FrameBadLength total_len)
        else if zlen buf <? total_len then Err (FrameTruncated total_len (zlen buf))
        else Ok (MkKnxnetIpFrame (u16_of b2 b3) (slice 6 (Z.to_nat total_len) buf))
  | _ => Err (FrameTruncated 6 (zlen buf))
  end.

Definition KnxnetIpFrame_encode (svc : u16) (body : bytes) : bytes :=
  [6; 16] ++ be_bytes 2 svc ++ be_bytes 2 (as_u16 (Z.of_nat (6 + length body))) ++ body.

(** ** Connection headers *)

Record SimConnectionHeader : Type := MkSimConnectionHeader { sch_channel : u8; sch_seq : u8; sch_status : u8 }.

Definition SimConnectionHeader_parse (body : bytes) : option SimConnectionHeader :=
  match body with
  | len :: channel :: seq :: status :: _ =>
      if len =? 4 then Some (MkSimConnectionHeader channel seq status) else None
  | _ => None
  end.

Definition SimConnectionHeader_to_bytes (h : SimConnectionHeader) : bytes := [4; sch_channel h; sch_seq h; sch_status h].

(** ** Agreement with the client's codec *)

Lemma sim_frame_encode_eq s body : KnxnetIpFrame_encode (ServiceType_as_u16 s) body = frame s body.
Proof. reflexivity. Qed.

Lemma sim_frame_decode_encode s body rest : is_u16 s -> zlen body <= 65529 ->
  KnxnetIpFrame_decode (KnxnetIpFrame_encode s body ++ rest) = Ok (MkKnxnetIpFrame s body).
Proof.
  intros Hs Hl. unfold KnxnetIpFrame_encode, KnxnetIpFrame_decode.
  rewrite (be_bytes_2 _ Hs), be_bytes_2 by (unfold zlen in *; zdiv).
  cbn [app Z.eqb Pos.eqb negb orb].
  assert (E : u16_of (as_u16 (Z.of_nat (6 + length body)) / 256) (as_u16 (Z.of_nat (6 + length body)) mod 256)
    = Z.of_nat (6 + length body)) by (unfold zlen in *; zdiv).
  rewrite E. destruct (Z.ltb_spec (Z.of_nat (6 + length body)) 6) as [|_]; [lia|].
  unfold zlen. cbn [length]. rewrite length_app.
  destruct (Z.ltb_spec (Z.of_nat (S (S (S (S (S (S (length body + length rest)))))))) (Z.of_nat (6 + length body))) as [|_]; [lia|].
  rewrite Nat2Z.id. f_equal. f_equal; [by rewrite u16_of_split|].
  unfold slice. replace (6 + length body - 6)%nat with (length body) by lia. cbn [drop]. by rewrite drop_0, take_app_length.
Qed.

(** What the gateway takes for a frame, the client takes for the same frame, when
    it knows the service; and the other way round. *)
Lemma frame_decoders_agree buf s body : bytes_ok buf ->
  parse buf = Ok (MkParsedFrame s body) <-> KnxnetIpFrame_decode buf = Ok (MkKnxnetIpFrame (ServiceType_as_u16 s) body).
Proof.
  intros Hb. split.
  - intros E. destruct (parse_inv buf _ Hb E) as (rest & -> & Hl). cbn [pf_service pf_body] in *.
    rewrite <- sim_frame_encode_eq. apply sim_frame_decode_encode; [apply ServiceType_u16|done].
  - intros E. unfold KnxnetIpFrame_decode in E. destruct buf as [|b0 [|b1 [|b2 [|b3 [|b4 [|b5 r]]]]]]; try done.
    unfold parse. change HEADER_SIZE_10 with 6. change KNXNETIP_VERSION_10 with 16.
    destruct (negb (b0 =? 6) || negb (b1 =? 16)); [done|].
    destruct (Z.ltb_spec (u16_of b4 b5) 6) as [|H6]; [done|].
    destruct (Z.ltb_spec (zlen (b0 :: b1 :: b2 :: b3 :: b4 :: b5 :: r)) (u16_of b4 b5)) as [|Hlen]; [done|].
    injection E as E1 E2. rewrite E1, ServiceType_roundtrip. cbn [mbind result_bind]. unfold zlen in Hlen.
    rewrite !bool_decide_false by (unfold HEADER_LEN; lia). cbn [orb]. cbv iota. rewrite <- E2. done.
Qed.
