(* ===== verification/Gateway.v ===== *)
(** * The simulator's KNXnet/IP gateway ([knx-sim/src/net/mod.rs])

    The server a tunnel connects to: tunnelling and device-management connections
    over UDP, tunnelling inside secure sessions over TCP, the discovery answers,
    the forwarding of what the bus sends, and the session state machine.  The bus
    is the class [GatewayBus], the session cryptography the class [GatewaySessions].
    An operation returns what it sends, in order, and the gateway after; sockets
    that fail, the packet capture and the accept loop's I/O are left out.
    Instants are nanoseconds. *)

From S2P Require Import Prelude OrderedMap Address Cursor Cemi Knxnet Channel SimWire SimKnxnet.

Local Open Scope string_scope.
Local Open Scope list_scope.
Local Open Scope Z_scope.

(** ** Peers *)

Inductive Peer : Type := PeerUdp (addr : SocketAddrV4) | PeerTcp (id : Z).

#[export] Instance SocketAddrV4_countable : Countable SocketAddrV4.
Proof.
  refine (inj_countable' (fun a => (ip0 a, ip1 a, ip2 a, ip3 a, port a))
            (fun '(a, b, c, d, p) => MkSocketAddrV4 a b c d p) _).
  by intros [].
Defined.
#[export] Instance Peer_eq_dec : EqDecision Peer.
Proof. solve_decision. Defined.
#[export] Instance Peer_countable : Countable Peer.
Proof.
  refine (inj_countable' (fun p => match p with PeerUdp a => inl a | PeerTcp i => inr i end)
            (fun x => match x with inl a => PeerUdp a | inr i => PeerTcp i end) _).
  by intros [].
Defined.

Definition is_udp (p : Peer) : bool := match p with PeerUdp _ => true | PeerTcp _ => false end.

(** ** What the gateway is built on *)

(** The credentials a master reset of the interface device applied. *)
Record InterfaceSecure : Type := MkInterfaceSecure {
  is_device_key : bytes;
  is_users : list (u8 * bytes * u16);
  is_management : option bytes }.

(** The bus: telegrams of the tool, the scripted stimuli and the devices' timers
    at an instant, and of the interface device whether its transport connection to
    0.0.0 is open, its local management and its applied security. *)
Class GatewayBus (B : Type) : Type := {
  bus_deliver_from_tool : CemiLData -> B -> list CemiLData * B;
  bus_tick_stimulus : Z -> B -> list CemiLData * B;
  bus_tick_transport : Z -> B -> list CemiLData * B;
  bus_l4_connected : u16 -> B -> bool;
  bus_local_management : u16 -> bytes -> B -> option bytes * B;
  bus_interface_secure : u16 -> B -> option (Z * option InterfaceSecure) }.

(** Sessions: the answer to a SESSION_REQUEST body, the user an authenticate frame
    proves, and the sealed frames of an established session. *)
Class GatewaySessions : Type := {
  Handshake : Type;
  Session : Type;
  hs_respond : bytes -> u16 -> bytes -> option (Handshake * bytes);
  hs_session_id : Handshake -> u16;
  hs_session : Handshake -> Session;
  hs_authenticate : Handshake -> bytes -> list (u8 * bytes) -> option u8;
  session_id : Session -> u16;
  session_seal : Session -> bytes -> bytes * Session;
  session_open : Session -> bytes -> option bytes * Session }.

Definition SVC_SECURE_WRAPPER : u16 := 2384.
Definition SVC_SESSION_REQUEST : u16 := 2385.
Definition SVC_SESSION_AUTHENTICATE : u16 := 2387.
Definition SVC_SESSION_STATUS : u16 := 2388.
Definition STATUS_SUCCESS : u8 := 0.
Definition STATUS_AUTH_FAILED : u8 := 1.
Definition STATUS_UNAUTHENTICATED : u8 := 2.
Definition STATUS_TIMEOUT : u8 := 3.
Definition STATUS_KEEPALIVE : u8 := 4.
Definition STATUS_CLOSE : u8 := 5.

Definition gw_session_status (status : u8) : bytes := KnxnetIpFrame_encode SVC_SESSION_STATUS [status; 0].

Definition MANAGEMENT_USER : u8 := 1.
Definition GW_SESSION_REQUEST_LEN : nat := 46.
Definition GW_SESSION_AUTHENTICATE_LEN : nat := 24.
Definition ROUTE_BACK_HPAI : bytes := [8; 2; 0; 0; 0; 0; 0; 0].
Definition SESSION_TIMEOUT : Z := 60 * SECS.
Definition AUTHENTICATION_TIMEOUT : Z := 10 * SECS.

Section Gateway.
  Context {B : Type} `{GatewayBus B} `{GS : GatewaySessions}.

(** ** State *)

Inductive SessionState : Type :=
| SessPlain
| SessAuthenticating (hs : Handshake) (session : Session) (since : Z)
| SessEstablished (session : Session) (user : u8) (tunnel_ia : u16) (last_valid : Z).

Definition SessionState_session_id (s : SessionState) : option u16 :=
  match s with
  | SessPlain => None
  | SessAuthenticating hs _ _ => Some (hs_session_id hs)
  | SessEstablished session _ _ _ => Some (session_id session)
  end.

(** [last_rx] is written and never read. *)
Record TcpConn : Type := MkTcpConn { tc_buf : bytes; tc_state : SessionState; tc_channel : u8 }.

Record SecureGateway : Type := MkSecureGateway {
  sg_individual_address : u16;
  sg_device_key : bytes;
  sg_secure_only : bool;
  sg_users : list (u8 * bytes * u16);
  sg_management : option bytes;
  sg_next_id : Z;
  sg_conns : BTree TcpConn;
  sg_session_timeout : Z;
  sg_authentication_timeout : Z;
  sg_next_session_id : u16 }.

Definition sg_set_conns (conns : BTree TcpConn) (g : SecureGateway) : SecureGateway :=
  MkSecureGateway (sg_individual_address g) (sg_device_key g) (sg_secure_only g) (sg_users g) (sg_management g)
    (sg_next_id g) conns (sg_session_timeout g) (sg_authentication_timeout g) (sg_next_session_id g).
Definition sg_set_next_session_id (id : u16) (g : SecureGateway) : SecureGateway :=
  MkSecureGateway (sg_individual_address g) (sg_device_key g) (sg_secure_only g) (sg_users g) (sg_management g)
    (sg_next_id g) (sg_conns g) (sg_session_timeout g) (sg_authentication_timeout g) id.

Record Gateway : Type := MkGateway {
  gw_local : SocketAddrV4;
  gw_data_port : option SocketAddrV4;
  gw_bus : B;
  gw_channel : u8;
  gw_tx_seqs : gmap Peer u8;
  gw_peer : option Peer;
  gw_secure : option SecureGateway;
  gw_interface_device : option u16;
  gw_plain_ia : u16;
  gw_switch_due : option Z;
  gw_interface_epoch : Z;
  gw_mgmt : gmap Peer (u8 * u8);
  gw_mgmt_transport : gmap Peer u8 }.

(** [KnxnetIpServer::bind]. *)
Definition Gateway_bind (addr : SocketAddrV4) (bus : B) : Gateway :=
  MkGateway addr None bus 1 ∅ None None None 4096 None 0 ∅ ∅.

Definition gw_set_bus b (g : Gateway) : Gateway :=
  MkGateway (gw_local g) (gw_data_port g) b (gw_channel g) (gw_tx_seqs g) (gw_peer g) (gw_secure g)
    (gw_interface_device g) (gw_plain_ia g) (gw_switch_due g) (gw_interface_epoch g) (gw_mgmt g) (gw_mgmt_transport g).
Definition gw_set_tx_seqs m (g : Gateway) : Gateway :=
  MkGateway (gw_local g) (gw_data_port g) (gw_bus g) (gw_channel g) m (gw_peer g) (gw_secure g)
    (gw_interface_device g) (gw_plain_ia g) (gw_switch_due g) (gw_interface_epoch g) (gw_mgmt g) (gw_mgmt_transport g).
Definition gw_set_peer p (g : Gateway) : Gateway :=
  MkGateway (gw_local g) (gw_data_port g) (gw_bus g) (gw_channel g) (gw_tx_seqs g) p (gw_secure g)
    (gw_interface_device g) (gw_plain_ia g) (gw_switch_due g) (gw_interface_epoch g) (gw_mgmt g) (gw_mgmt_transport g).
Definition gw_set_secure s (g : Gateway) : Gateway :=
  MkGateway (gw_local g) (gw_data_port g) (gw_bus g) (gw_channel g) (gw_tx_seqs g) (gw_peer g) s
    (gw_interface_device g) (gw_plain_ia g) (gw_switch_due g) (gw_interface_epoch g) (gw_mgmt g) (gw_mgmt_transport g).
Definition gw_set_switch due epoch (g : Gateway) : Gateway :=
  MkGateway (gw_local g) (gw_data_port g) (gw_bus g) (gw_channel g) (gw_tx_seqs g) (gw_peer g) (gw_secure g)
    (gw_interface_device g) (gw_plain_ia g) due epoch (gw_mgmt g) (gw_mgmt_transport g).
Definition gw_set_mgmt m (g : Gateway) : Gateway :=
  MkGateway (gw_local g) (gw_data_port g) (gw_bus g) (gw_channel g) (gw_tx_seqs g) (gw_peer g) (gw_secure g)
    (gw_interface_device g) (gw_plain_ia g) (gw_switch_due g) (gw_interface_epoch g) m (gw_mgmt_transport g).
Definition gw_set_mgmt_transport m (g : Gateway) : Gateway :=
  MkGateway (gw_local g) (gw_data_port g) (gw_bus g) (gw_channel g) (gw_tx_seqs g) (gw_peer g) (gw_secure g)
    (gw_interface_device g) (gw_plain_ia g) (gw_switch_due g) (gw_interface_epoch g) (gw_mgmt g) m.

(** A frame sent to a peer, from the data port or the main socket. *)
Record Sent : Type := MkSent { sent_to : Peer; sent_from_data : bool; sent_frame : bytes }.

Definition GwOp (A : Type) : Type := Gateway -> A * list Sent * Gateway.

#[export] Instance GwOp_ret : MRet GwOp := fun A a g => (a, [], g).
#[export] Instance GwOp_bind : MBind GwOp := fun A B k m g =>
  let '(a, out, g) := m g in let '(b, out', g) := k a g in (b, out ++ out', g).

Definition gw : GwOp Gateway := fun g => (g, [], g).
Definition gw_modify (f : Gateway -> Gateway) : GwOp unit := fun g => (tt, [], f g).
Definition gw_send (s : Sent) : GwOp unit := fun g => (tt, [s], g).
Definition on_bus {A} (f : B -> A * B) : GwOp A := fun g =>
  let '(a, b) := f (gw_bus g) in (a, [], gw_set_bus b g).

(** ** Peers and their sessions *)

Definition conn_of (g : Gateway) (id : Z) : option TcpConn := s ← gw_secure g; bt_get id (sg_conns s).

Definition session_state (g : Gateway) (peer : Peer) : option SessionState :=
  match peer with PeerUdp _ => None | PeerTcp id => tc_state <$> conn_of g id end.

Definition put_state (id : Z) (state : SessionState) (g : Gateway) : Gateway :=
  match gw_secure g, conn_of g id with
  | Some s, Some c =>
      gw_set_secure (Some (sg_set_conns (bt_update id (fun _ => MkTcpConn (tc_buf c) state (tc_channel c)) (sg_conns s)) s)) g
  | _, _ => g
  end.

Definition channel_of (g : Gateway) (peer : Peer) : u8 :=
  match peer with
  | PeerUdp _ => gw_channel g
  | PeerTcp id => match conn_of g id with Some c => tc_channel c | None => gw_channel g end
  end.

Definition tunnel_ia_of (g : Gateway) (peer : Peer) : u16 :=
  match session_state g peer with Some (SessEstablished _ _ ia _) => ia | _ => gw_plain_ia g end.

(** The address the discovery answers and the features report. *)
Definition reported_ia (g : Gateway) : u16 :=
  match gw_secure g with
  | Some s => sg_individual_address s
  | None => default (gw_plain_ia g) (gw_interface_device g)
  end.

Definition secure_only (g : Gateway) : bool := match gw_secure g with Some s => sg_secure_only s | None => false end.

(** ** Sending *)

Definition is_data_service (frame : bytes) : bool :=
  match frame with
  | _ :: _ :: s1 :: s2 :: _ =>
      bool_decide (u16_of s1 s2 ∈ [service.TUNNELLING_REQUEST; service.TUNNELLING_ACK; service.TUNNELLING_FEATURE_GET;
        service.TUNNELLING_FEATURE_RESPONSE; service.TUNNELLING_FEATURE_SET; service.TUNNELLING_FEATURE_INFO])
  | _ => false
  end.

(** Raw octets to a peer; a connection that is gone takes none. *)
Definition write_raw (peer : Peer) (raw : bytes) : GwOp unit :=
  g ← gw;
  match peer with
  | PeerUdp _ => gw_send (MkSent peer false raw)
  | PeerTcp id => match conn_of g id with Some _ => gw_send (MkSent peer false raw) | None => mret tt end
  end.

(** Sealed on an established session, plain before. *)
Definition send_frame (frame : bytes) (peer : Peer) : GwOp unit :=
  g ← gw;
  match peer with
  | PeerUdp _ => gw_send (MkSent peer (bool_decide (is_Some (gw_data_port g)) && is_data_service frame) frame)
  | PeerTcp id =>
      match session_state g peer with
      | None => mret tt
      | Some (SessEstablished session user ia last_valid) =>
          let '(raw, session) := session_seal session frame in
          _ ← gw_modify (put_state id (SessEstablished session user ia last_valid));
          write_raw peer raw
      | Some _ => write_raw peer frame
      end
  end.

(** The next sequence of the requests sent to a peer. *)
Definition next_tx_seq (peer : Peer) : GwOp u8 := fun g =>
  let seq := default 0 (gw_tx_seqs g !! peer) in
  (seq, [], gw_set_tx_seqs (<[peer := as_u8 (seq + 1)]> (gw_tx_seqs g)) g).

Definition send_tunnelling (cemi : CemiLData) (peer : Peer) : GwOp unit :=
  g ← gw;
  seq ← next_tx_seq peer;
  send_frame (KnxnetIpFrame_encode service.TUNNELLING_REQUEST
    (SimConnectionHeader_to_bytes (MkSimConnectionHeader (channel_of g peer) seq 0) ++ sim_cemi_encode cemi)) peer.

Fixpoint send_all (cemis : list CemiLData) (peer : Peer) : GwOp unit :=
  match cemis with
  | [] => mret tt
  | cemi :: cemis => _ ← send_tunnelling cemi peer; send_all cemis peer
  end.

Definition acknowledge (svc : u16) (channel seq status : u8) (peer : Peer) : GwOp unit :=
  send_frame (KnxnetIpFrame_encode svc (SimConnectionHeader_to_bytes (MkSimConnectionHeader channel seq status))) peer.

(** [hpai]. *)
Definition gw_hpai (addr : SocketAddrV4) : bytes :=
  [8; 1; ip0 addr; ip1 addr; ip2 addr; ip3 addr] ++ be_bytes 2 (port addr).

(** ** Discovery *)

Definition sessions_in_use (s : SecureGateway) : list u16 :=
  omap (fun '(_, c) => match tc_state c with SessEstablished _ _ ia _ => Some ia | _ => None end) (sg_conns s).

(** The tunnelling slots of a secure gateway: usable, and free when no session
    has the address. *)
Definition tunnelling_slots (s : SecureGateway) : bytes :=
  [as_u8 (Z.of_nat (4 + 4 * length (sg_users s))); 7] ++ be_bytes 2 248 ++
  concat (map (fun '(_, _, ia) => be_bytes 2 ia ++ be_bytes 2 (if bool_decide (ia ∈ sessions_in_use s) then 4 else 5))
            (sg_users s)).

Definition device_info (ia : u16) : bytes :=
  [54; 1; 2; 0] ++ be_bytes 2 ia ++ replicate 18 0 ++ [107; 110; 120; 45; 115; 105; 109] ++ replicate 23 0.

Definition dibs (g : Gateway) (extended : bool) : bytes :=
  let secure := if extended then gw_secure g else None in
  let families := [2; 2; 3; 2; 4; 2] ++ match secure with Some _ => [9; 1] | None => [] end in
  device_info (reported_ia g) ++ [as_u8 (Z.of_nat (2 + length families)); 2] ++ families ++
  match secure with
  | Some s => (if sg_secure_only s then [6; 6; 3; 1; 4; 1] else []) ++ tunnelling_slots s
  | None => []
  end.

Definition answer_hpai (g : Gateway) (peer : Peer) : bytes :=
  if is_udp peer then gw_hpai (gw_local g) else ROUTE_BACK_HPAI.

(** ** Connections *)

Definition refuse_connect (peer : Peer) : GwOp unit :=
  send_frame (KnxnetIpFrame_encode service.CONNECT_RESPONSE [0; E_CONNECTION_TYPE]) peer.

Definition on_mgmt_connect (peer : Peer) : GwOp unit :=
  g ← gw;
  if is_udp peer && secure_only g then refuse_connect peer
  else if (match session_state g peer with Some (SessEstablished _ user _ _) => negb (user =? MANAGEMENT_USER) | _ => false end)
  then refuse_connect peer
  else
    let channel := as_u8 (128 + Z.of_nat (size (gw_mgmt g))) in
    _ ← gw_modify (gw_set_mgmt (<[peer := (channel, 0)]> (gw_mgmt g)));
    send_frame (KnxnetIpFrame_encode service.CONNECT_RESPONSE
      ([channel; 0] ++ answer_hpai g peer ++ [2; DEVICE_MGMT_CONNECTION])) peer.

Definition on_connect_request (body : bytes) (peer : Peer) : GwOp unit :=
  g ← gw;
  if bool_decide (body !! 17%nat = Some DEVICE_MGMT_CONNECTION) && bool_decide (is_Some (gw_interface_device g))
  then on_mgmt_connect peer
  else if is_udp peer && secure_only g then refuse_connect peer
  else
    _ ← gw_modify (fun g => gw_set_tx_seqs (<[peer := 0]> (gw_tx_seqs g)) (gw_set_peer (Some peer) g));
    let hpai := if is_udp peer then gw_hpai (default (gw_local g) (gw_data_port g)) else ROUTE_BACK_HPAI in
    send_frame (KnxnetIpFrame_encode service.CONNECT_RESPONSE
      ([channel_of g peer; 0] ++ hpai ++ [4; 4] ++ be_bytes 2 (tunnel_ia_of g peer))) peer.

Definition on_connectionstate_request (body : bytes) (peer : Peer) : GwOp unit :=
  g ← gw;
  let own := channel_of g peer in
  let channel := default own (head body) in
  let status := if channel =? own then 0 else E_CONNECTION_ID in
  send_frame (KnxnetIpFrame_encode service.CONNECTIONSTATE_RESPONSE [channel; status]) peer.

Definition forget_peer (peer : Peer) (g : Gateway) : Gateway :=
  let g := gw_set_tx_seqs (delete peer (gw_tx_seqs g)) g in
  if bool_decide (gw_peer g = Some peer) then gw_set_peer None g else g.

Definition on_disconnect_request (body : bytes) (peer : Peer) : GwOp unit :=
  g ← gw;
  let channel := default (channel_of g peer) (head body) in
  _ ← send_frame (KnxnetIpFrame_encode service.DISCONNECT_RESPONSE [channel; 0]) peer;
  gw_modify (forget_peer peer).

(** ** Tunnelling *)

Definition feature_value (g : Gateway) (feature : u8) : u8 * bytes :=
  match feature with
  | 1 => (0, [0; 4])
  | 2 => (0, [87; 176])
  | 3 => (0, [1])
  | 4 => (0, [0; 0])
  | 5 => (0, [0; 4])
  | 6 => (0, be_bytes 2 (reported_ia g))
  | 7 => (0, [0; 254])
  | 8 => (0, [0])
  | _ => (1, [])
  end.

Definition on_tunnelling_feature (body : bytes) (peer : Peer) (set : bool) : GwOp unit :=
  g ← gw;
  match SimConnectionHeader_parse body with
  | None => mret tt
  | Some hdr =>
      if negb (sch_channel hdr =? channel_of g peer) || (length body <? 6)%nat then mret tt
      else
        let feature := nth 4 body 0 in
        let '(code, value) := if set then (0, drop 6 body) else feature_value g feature in
        _ ← (if is_udp peer then acknowledge service.TUNNELLING_ACK (sch_channel hdr) (sch_seq hdr) 0 peer else mret tt);
        seq ← next_tx_seq peer;
        send_frame (KnxnetIpFrame_encode service.TUNNELLING_FEATURE_RESPONSE
          (SimConnectionHeader_to_bytes (MkSimConnectionHeader (sch_channel hdr) seq 0) ++ [feature; code] ++ value)) peer
  end.

(** Every request is confirmed once before the answers of the bus. *)
Definition confirmed (cemi : CemiLData) (responses : list CemiLData) : list CemiLData :=
  if bool_decide (sim_message_code cemi = SimLDataReq)
     && negb (existsb (fun r => bool_decide (sim_message_code r = SimLDataCon)) responses)
  then MkCemiLData SimLDataCon (sim_ctrl1 cemi) (sim_ctrl2 cemi) (sim_source cemi) (sim_dest cemi) (sim_tpdu cemi) :: responses
  else responses.

Definition under_tunnel_address (ia : u16) (cemi : CemiLData) : CemiLData :=
  if bool_decide (sim_message_code cemi = SimLDataReq) && (sim_ia_raw (sim_source cemi) =? 0)
  then MkCemiLData (sim_message_code cemi) (sim_ctrl1 cemi) (sim_ctrl2 cemi) (MkSimIA ia) (sim_dest cemi) (sim_tpdu cemi)
  else cemi.

Definition on_tunnelling_request (body : bytes) (peer : Peer) : GwOp unit :=
  g ← gw;
  match SimConnectionHeader_parse body with
  | None => mret tt
  | Some hdr =>
      if is_udp peer && secure_only g then mret tt
      else if negb (sch_channel hdr =? channel_of g peer)
      then acknowledge service.TUNNELLING_ACK (sch_channel hdr) (sch_seq hdr) E_CONNECTION_ID peer
      else
        _ ← gw_modify (gw_set_peer (Some peer));
        _ ← (if is_udp peer then acknowledge service.TUNNELLING_ACK (sch_channel hdr) (sch_seq hdr) 0 peer else mret tt);
        match sim_cemi_decode (drop 4 body) with
        | Err _ => mret tt
        | Ok cemi =>
            let cemi := under_tunnel_address (tunnel_ia_of g peer) cemi in
            responses ← on_bus (bus_deliver_from_tool cemi);
            send_all (confirmed cemi responses) peer
        end
  end.

(** ** Device management *)

Definition mgmt_frame (device : u16) (tpdu : bytes) : CemiLData :=
  MkCemiLData SimLDataReq 188 96 (MkSimIA 0) device tpdu.

(** The numbered request on the connection the gateway holds to the interface
    device, opened when it is not. *)
Definition mgmt_numbered (peer : Peer) (device : u16) (tpdu : bytes) : GwOp bytes :=
  g ← gw;
  let is_open := bus_l4_connected device (gw_bus g) in
  _ ← (if negb is_open || bool_decide (gw_mgmt_transport g !! peer = None) then
         _ ← (if is_open then on_bus (bus_deliver_from_tool (mgmt_frame device [129])) else mret []);
         _ ← on_bus (bus_deliver_from_tool (mgmt_frame device [128]));
         gw_modify (fun g => gw_set_mgmt_transport (<[peer := 0]> (gw_mgmt_transport g)) g)
       else mret tt);
  g ← gw;
  let seq := default 0 (gw_mgmt_transport g !! peer) in
  _ ← gw_modify (fun g => gw_set_mgmt_transport (<[peer := Z.land (as_u8 (seq + 1)) 15]> (gw_mgmt_transport g)) g);
  mret (match tpdu with
        | o :: rest => Z.lor (Z.lor 64 (as_u8 (Z.shiftl (Z.land seq 15) 2))) (Z.land o 3) :: rest
        | [] => []
        end).

(** The application answers, unnumbered; numbered ones are acknowledged. *)
Fixpoint mgmt_answers (device : u16) (responses : list CemiLData) : GwOp (list bytes) :=
  match responses with
  | [] => mret []
  | resp :: responses =>
      match sim_tpdu resp with
      | first :: _ :: _ =>
          _ ← (if Z.land first 192 =? 64
               then on_bus (bus_deliver_from_tool (mgmt_frame device [Z.lor 194 (Z.land first 60)]))
               else mret []);
          rest ← mgmt_answers device responses;
          mret ((Z.land first 3 :: tail (sim_tpdu resp)) :: rest)
      | _ => mgmt_answers device responses
      end
  end.

Definition mgmt_deliver (peer : Peer) (device : u16) (tpdu : bytes) (connected : bool) : GwOp (list bytes) :=
  request ← (if connected then mgmt_numbered peer device tpdu else mret tpdu);
  responses ← on_bus (bus_deliver_from_tool (mgmt_frame device request));
  mgmt_answers device responses.

Definition next_mgmt_seq (peer : Peer) : GwOp u8 := fun g =>
  match gw_mgmt g !! peer with
  | Some (channel, seq) => (seq, [], gw_set_mgmt (<[peer := (channel, as_u8 (seq + 1))]> (gw_mgmt g)) g)
  | None => (0, [], g)
  end.

Fixpoint send_mgmt_answers (channel : u8) (answers : list bytes) (peer : Peer) : GwOp unit :=
  match answers with
  | [] => mret tt
  | cemi :: answers =>
      seq ← next_mgmt_seq peer;
      _ ← send_frame (KnxnetIpFrame_encode service.DEVICE_CONFIGURATION_REQUEST
            (SimConnectionHeader_to_bytes (MkSimConnectionHeader channel seq 0) ++ cemi)) peer;
      send_mgmt_answers channel answers peer
  end.

(** A transport service reaches the device as L_Data, the local services its local
    management. *)
Definition mgmt_service (peer : Peer) (device : u16) (cemi : bytes) : GwOp (list bytes) :=
  match cemi with
  | [] => mret []
  | mc :: _ =>
      if (mc =? 65) || (mc =? 74) then
        let off := (2 + Z.to_nat (nth 1 cemi 0%Z) + 6)%nat in
        match drop (off + 1) cemi with
        | [] => mret []
        | tpdu =>
            let ind := if mc =? 65 then 137 else 148 in
            answers ← mgmt_deliver peer device tpdu (mc =? 65);
            mret (map (fun resp => [ind; 0; 0; 0; 0; 0; 0; 0; as_u8 (Z.of_nat (length resp - 1))] ++ resp) answers)
        end
      else
        con ← on_bus (bus_local_management device cemi);
        mret (match con with Some c => [c] | None => [] end)
  end.

Definition on_device_configuration (body : bytes) (peer : Peer) : GwOp unit :=
  g ← gw;
  match SimConnectionHeader_parse body, gw_mgmt g !! peer, gw_interface_device g with
  | Some hdr, Some (channel, _), Some device =>
      let ours := sch_channel hdr =? channel in
      _ ← (if is_udp peer
           then acknowledge service.DEVICE_CONFIGURATION_ACK (sch_channel hdr) (sch_seq hdr) (if ours then 0 else E_CONNECTION_ID) peer
           else mret tt);
      if negb ours then mret tt
      else
        answers ← mgmt_service peer device (drop 4 body);
        send_mgmt_answers channel answers peer
  | _, _, _ => mret tt
  end.

(** ** Datagrams *)

(** The interface device's security after a master reset, applied 300 ms after it
    was first seen. *)
Definition sync_interface_secure (now : Z) (g : Gateway) : Gateway :=
  match gw_interface_device g with
  | None => g
  | Some address =>
      match bus_interface_secure address (gw_bus g) with
      | None => g
      | Some (epoch, applied) =>
          if epoch =? gw_interface_epoch g then g
          else
            let due := default (now + 300 * MS) (gw_switch_due g) in
            if now <? due then gw_set_switch (Some due) (gw_interface_epoch g) g
            else
              let g := gw_set_tx_seqs ∅ (gw_set_peer None (gw_set_switch None epoch g)) in
              gw_set_secure (state ← applied;
                Some (MkSecureGateway address (is_device_key state) true (is_users state) (is_management state) 0 []
                        SESSION_TIMEOUT AUTHENTICATION_TIMEOUT 1)) g
      end
  end.

Definition old_channel_traffic (svc : u16) : bool :=
  bool_decide (svc ∈ [service.TUNNELLING_REQUEST; service.TUNNELLING_ACK; service.TUNNELLING_FEATURE_GET;
    service.TUNNELLING_FEATURE_SET; service.CONNECTIONSTATE_REQUEST; service.DISCONNECT_REQUEST]).

(** The handler of each service; anything else is dropped. *)
Definition dispatch (svc : u16) (body : bytes) (peer : Peer) : GwOp unit :=
  if svc =? service.CONNECT_REQUEST then on_connect_request body peer
  else if svc =? service.CONNECTIONSTATE_REQUEST then on_connectionstate_request body peer
  else if svc =? service.DISCONNECT_REQUEST then on_disconnect_request body peer
  else if svc =? service.TUNNELLING_REQUEST then on_tunnelling_request body peer
  else if svc =? service.TUNNELLING_FEATURE_GET then on_tunnelling_feature body peer false
  else if svc =? service.TUNNELLING_FEATURE_SET then on_tunnelling_feature body peer true
  else if svc =? service.DEVICE_CONFIGURATION_REQUEST then on_device_configuration body peer
  else if svc =? service.DESCRIPTION_REQUEST then
    g ← gw; send_frame (KnxnetIpFrame_encode service.DESCRIPTION_RESPONSE (dibs g false)) peer
  else if svc =? service.SEARCH_REQUEST then
    g ← gw; send_frame (KnxnetIpFrame_encode service.SEARCH_RESPONSE (answer_hpai g peer ++ dibs g false)) peer
  else if svc =? service.SEARCH_REQUEST_EXTENDED then
    g ← gw; send_frame (KnxnetIpFrame_encode service.SEARCH_RESPONSE_EXTENDED (answer_hpai g peer ++ dibs g true)) peer
  else mret tt.

Definition gw_handle_frame (now : Z) (data : bytes) (peer : Peer) : GwOp unit :=
  match KnxnetIpFrame_decode data with
  | Err _ => mret tt
  | Ok frame =>
      _ ← gw_modify (fun g =>
            if bool_decide (is_Some (gw_switch_due g)) && negb (old_channel_traffic (kf_service frame))
            then sync_interface_secure now (gw_set_switch (Some now) (gw_interface_epoch g) g) else g);
      dispatch (kf_service frame) (kf_body frame) peer
  end.

(** The control port: a session is TCP-only, and with a data port tunnelling
    frames do not belong here. *)
Definition gw_handle_datagram (now : Z) (data : bytes) (addr : SocketAddrV4) : GwOp unit :=
  g ← gw;
  let svc := match data with _ :: _ :: s1 :: s2 :: _ => Some (u16_of s1 s2) | _ => None end in
  if bool_decide (is_Some (gw_secure g)) && bool_decide (svc = Some SVC_SESSION_REQUEST) then mret tt
  else if bool_decide (is_Some (gw_data_port g)) && is_data_service data then mret tt
  else gw_handle_frame now data (PeerUdp addr).

(** The data port takes tunnelling frames only. *)
Definition gw_handle_data_datagram (now : Z) (data : bytes) (addr : SocketAddrV4) : GwOp unit :=
  if negb (is_data_service data) then mret tt else gw_handle_frame now data (PeerUdp addr).

(** ** What the bus sends on its own *)

Definition pump_stimulus (now_ms : Z) : GwOp unit :=
  g ← gw;
  match gw_peer g with
  | None => mret tt
  | Some peer => telegrams ← on_bus (bus_tick_stimulus now_ms); send_all telegrams peer
  end.

(** The devices' timers run without a client too; their frames then go nowhere. *)
Definition pump_transport (now : Z) : GwOp unit :=
  telegrams ← on_bus (bus_tick_transport now);
  g ← gw;
  match gw_peer g with None => mret tt | Some peer => send_all telegrams peer end.

(** ** Secure sessions *)

(** A session id no open session has, never 0; [fuel] of 65536 tries them all. *)
Fixpoint allocate_session_id (fuel : nat) (used : list u16) (next : u16) : option (u16 * u16) :=
  match fuel with
  | O => None
  | S fuel =>
      let following := Z.max (as_u16 (next + 1)) 1 in
      if negb (next =? 0) && negb (bool_decide (next ∈ used)) then Some (next, following)
      else allocate_session_id fuel used following
  end.

Definition drop_session (peer : Peer) (g : Gateway) : Gateway :=
  let g :=
    match peer, gw_secure g with
    | PeerTcp id, Some s => gw_set_secure (Some (sg_set_conns (bt_retain (fun k _ => negb (k =? id)) (sg_conns s)) s)) g
    | _, _ => g
    end in
  forget_peer peer (gw_set_mgmt_transport (delete peer (gw_mgmt_transport g)) (gw_set_mgmt (delete peer (gw_mgmt g)) g)).

Definition inner_service (frame : bytes) : option u16 :=
  match frame with _ :: _ :: s1 :: s2 :: _ :: _ :: _ => Some (u16_of s1 s2) | _ => None end.

(** The password keys sessions may authenticate with. *)
Definition session_users (s : SecureGateway) : list (u8 * bytes) :=
  let users := map (fun '(id, key, _) => (id, key)) (sg_users s) in
  match sg_management s with
  | Some key => if existsb (fun '(id, _) => id =? MANAGEMENT_USER) users then users else users ++ [(MANAGEMENT_USER, key)]
  | None => users
  end.

Definition user_tunnel (s : SecureGateway) (user : u8) : option u16 :=
  match find (fun '(id, _, _) => id =? user) (sg_users s) with Some (_, _, ia) => Some ia | None => None end.

(** The reply to a frame of a session in its state, whether the connection stays,
    and the state after; [None]: the frame is ignored. *)
Definition in_authenticating (now : Z) (s : SecureGateway) (hs : Handshake) (session : Session) (since : Z) (frame : bytes)
    : SessionState * option (bytes * bool) :=
  match session_open session frame with
  | (None, session) => (SessAuthenticating hs session since, None)
  | (Some inner, session) =>
      let answer status keep :=
        let '(raw, session) := session_seal session (gw_session_status status) in
        (SessAuthenticating hs session since, Some (raw, keep)) in
      let ignored := (SessAuthenticating hs session since, None) in
      let svc := inner_service inner in
      let status := inner !! 6%nat in
      if bool_decide (svc = Some SVC_SESSION_AUTHENTICATE) then
        if negb (length inner =? GW_SESSION_AUTHENTICATE_LEN)%nat || negb (bool_decide (status = Some 0)) then ignored
        else
          match hs_authenticate hs inner (session_users s) with
          | Some user =>
              let '(raw, session) := session_seal session (gw_session_status STATUS_SUCCESS) in
              (SessEstablished session user (default 0 (user_tunnel s user)) now, Some (raw, true))
          | None => answer STATUS_AUTH_FAILED false
          end
      else if bool_decide (svc = Some SVC_SESSION_STATUS) && bool_decide (status = Some STATUS_CLOSE)
      then answer STATUS_CLOSE false
      else if bool_decide (svc = Some SVC_SESSION_STATUS) && negb (bool_decide (status = Some STATUS_KEEPALIVE)) then ignored
      else answer STATUS_UNAUTHENTICATED false
  end.

Inductive SessionReaction : Type :=
| Ignored
| Replied (raw : bytes) (keep : bool)
| Refused
| Served (frame : bytes).

Definition in_established (now : Z) (session : Session) (user : u8) (ia : u16) (last_valid : Z) (frame : bytes)
    : SessionState * SessionReaction :=
  match session_open session frame with
  | (None, session) => (SessEstablished session user ia last_valid, Ignored)
  | (Some inner, session) =>
      let answer status :=
        let '(raw, session) := session_seal session (gw_session_status status) in
        (SessEstablished session user ia now, Replied raw false) in
      if bool_decide (inner_service inner = Some SVC_SESSION_AUTHENTICATE) then answer STATUS_AUTH_FAILED
      else if bool_decide (inner_service inner = Some SVC_SESSION_STATUS) then
        if bool_decide (inner !! 6%nat = Some STATUS_CLOSE) then answer STATUS_CLOSE
        else (SessEstablished session user ia now, Ignored)
      else (SessEstablished session user ia now, Served inner)
  end.

(** The state machine of a connection. *)
Definition session_step (now : Z) (s : SecureGateway) (fresh_id : option u16) (state : SessionState) (svc : u16)
    (body frame : bytes) : SessionState * SessionReaction :=
  match state with
  | SessPlain =>
      if svc =? SVC_SESSION_REQUEST then
        if negb (length frame =? GW_SESSION_REQUEST_LEN)%nat || negb (bool_decide (take 8 body = ROUTE_BACK_HPAI))
        then (SessPlain, Ignored)
        else
          match hs_respond body (default 1 fresh_id) (sg_device_key s) with
          | Some (hs, response) => (SessAuthenticating hs (hs_session hs) now, Replied response true)
          | None => (SessPlain, Refused)
          end
      else if svc =? SVC_SECURE_WRAPPER then (SessPlain, Ignored)
      else (SessPlain, Served frame)
  | SessAuthenticating hs session since =>
      if svc =? SVC_SECURE_WRAPPER then
        match in_authenticating now s hs session since frame with
        | (state, None) => (state, Ignored)
        | (state, Some (raw, keep)) => (state, Replied raw keep)
        end
      else (state, Ignored)
  | SessEstablished session user ia last_valid =>
      if svc =? SVC_SECURE_WRAPPER then in_established now session user ia last_valid frame else (state, Ignored)
  end.

(** One frame of a TCP connection; [false] ends it. *)
Definition on_session_frame (now : Z) (peer : Peer) (frame : bytes) : GwOp bool :=
  g ← gw;
  match KnxnetIpFrame_decode frame, peer, gw_secure g with
  | Err _, _, _ => mret true
  | Ok _, PeerUdp _, _ | Ok _, _, None => mret false
  | Ok parsed, PeerTcp id, Some s =>
      match bt_get id (sg_conns s) with
      | None => mret false
      | Some conn =>
          let used := omap (fun '(_, c) => SessionState_session_id (tc_state c)) (sg_conns s) in
          let allocated :=
            match tc_state conn with
            | SessPlain =>
                if kf_service parsed =? SVC_SESSION_REQUEST
                then allocate_session_id (Z.to_nat 65536) used (sg_next_session_id s) else None
            | _ => None
            end in
          let '(state, reaction) :=
            session_step now s (fst <$> allocated) (tc_state conn) (kf_service parsed) (kf_body parsed) frame in
          _ ← gw_modify (fun g =>
                match allocated with
                | Some (_, next) => gw_set_secure (Some (sg_set_next_session_id next s)) g
                | None => g
                end);
          _ ← gw_modify (put_state id state);
          match reaction with
          | Ignored => mret true
          | Refused => mret false
          | Replied raw keep => _ ← write_raw peer raw; mret keep
          | Served inner => _ ← gw_handle_frame now inner peer; mret true
          end
      end
  end.

(** The sessions whose timer ran out, told so and dropped. *)
Definition expired (now : Z) (s : SecureGateway) (c : TcpConn) : bool :=
  match tc_state c with
  | SessPlain => false
  | SessAuthenticating _ _ since => sg_authentication_timeout s <=? now - since
  | SessEstablished _ _ _ last_valid => sg_session_timeout s <=? now - last_valid
  end.

Definition expire_one (peer : Peer) : GwOp unit :=
  g ← gw;
  let sealed session := fst (session_seal session (gw_session_status STATUS_TIMEOUT)) in
  _ ← match session_state g peer with
      | Some (SessAuthenticating _ session _) | Some (SessEstablished session _ _ _) => write_raw peer (sealed session)
      | _ => mret tt
      end;
  gw_modify (drop_session peer).

Fixpoint expire_all (ids : list Z) : GwOp unit :=
  match ids with [] => mret tt | id :: ids => _ ← expire_one (PeerTcp id); expire_all ids end.

Definition expire_sessions (now : Z) : GwOp unit :=
  g ← gw;
  match gw_secure g with
  | None => mret tt
  | Some s => expire_all (map fst (List.filter (fun '(_, c) => expired now s c) (sg_conns s)))
  end.

(** ** The TCP stream *)

(** The frames of a stream's octets, what is left of them, and whether the stream
    lost its framing; a frame is six octets at least, so the octets bound the turns. *)
Fixpoint split_stream (fuel : nat) (buf : bytes) : list bytes * bytes * bool :=
  match fuel, buf with
  | S fuel, b0 :: b1 :: _ :: _ :: t1 :: t2 :: _ =>
      if negb (b0 =? 6) || negb (b1 =? 16) then ([], buf, true)
      else
        let total := u16_of t1 t2 in
        if total <? 6 then ([], buf, true)
        else if zlen buf <? total then ([], buf, false)
        else
          let '(frames, rest, lost) := split_stream fuel (drop (Z.to_nat total) buf) in
          (take (Z.to_nat total) buf :: frames, rest, lost)
  | _, _ => ([], buf, false)
  end.

(** [read_frames] of a connection that received [chunk]. *)
Definition read_frames (c : TcpConn) (chunk : bytes) (closed : bool) : list bytes * bool * TcpConn :=
  let buf := tc_buf c ++ chunk in
  let '(frames, rest, lost) := split_stream (length buf) buf in
  (frames, lost || closed, MkTcpConn rest (tc_state c) (tc_channel c)).

Fixpoint serve_frames (now : Z) (peer : Peer) (frames : list bytes) : GwOp unit :=
  match frames with
  | [] => mret tt
  | frame :: frames =>
      keep ← on_session_frame now peer frame;
      if (keep : bool) then serve_frames now peer frames else gw_modify (drop_session peer)
  end.

(** A connection of [poll_tcp]: accepted, and served with what arrived on it. *)
Definition accept_connection (g : Gateway) : Gateway :=
  match gw_secure g with
  | None => g
  | Some s =>
      let id := sg_next_id s in
      gw_set_secure (Some (MkSecureGateway (sg_individual_address s) (sg_device_key s) (sg_secure_only s) (sg_users s)
        (sg_management s) (id + 1) (bt_update id (fun _ => MkTcpConn [] SessPlain (as_u8 (64 + as_u8 id))) (sg_conns s))
        (sg_session_timeout s) (sg_authentication_timeout s) (sg_next_session_id s))) g
  end.

Definition serve_connection (now : Z) (id : Z) (chunk : bytes) (closed : bool) : GwOp unit :=
  g ← gw;
  match gw_secure g, conn_of g id with
  | Some s, Some conn =>
      let '(frames, ended, conn) := read_frames conn chunk closed in
      _ ← gw_modify (gw_set_secure (Some (sg_set_conns (bt_update id (fun _ => conn) (sg_conns s)) s)));
      _ ← serve_frames now (PeerTcp id) frames;
      if ended then gw_modify (drop_session (PeerTcp id)) else mret tt
  | _, _ => mret tt
  end.

End Gateway.
