(* ===== verification/GatewaySpec.v ===== *)
(** * Promises of the gateway ([knx-sim/src/net/mod.rs])

    The TCP stream is cut into the frames that were sent however the network
    chunks it; who can reach an established session and what it serves. *)

From S2P Require Import Prelude OrderedMap Address Cursor Cemi Knxnet Channel SimWire SimKnxnet Gateway.

Local Open Scope string_scope.
Local Open Scope list_scope.
Local Open Scope Z_scope.

(** ** Reassembly *)

Definition stream_frame (f : bytes) : Prop :=
  exists svc body, is_u16 svc /\ zlen body <= 65529 /\ f = KnxnetIpFrame_encode svc body.

Lemma stream_frame_layout f : stream_frame f ->
  exists s1 s2 t1 t2 body, f = 6 :: 16 :: s1 :: s2 :: t1 :: t2 :: body /\ u16_of t1 t2 = zlen f /\ 6 <= zlen f.
Proof.
  intros (svc & body & Hs & Hl & ->). unfold KnxnetIpFrame_encode.
  rewrite (be_bytes_2 _ Hs), be_bytes_2 by (unfold zlen in *; zdiv). cbn [app].
  do 5 eexists. split; [reflexivity|]. unfold zlen in *. cbn [length]. split; [zdiv|lia].
Qed.

(** A prefix of the stream gives the frames that are whole in it. *)
Lemma split_stream_prefix frames : Forall stream_frame frames -> forall fuel buf more,
  (length buf <= fuel)%nat -> buf ++ more = concat frames ->
  exists whole rest later, split_stream fuel buf = (whole, rest, false) /\ frames = whole ++ later /\
    rest ++ more = concat later /\ (more = [] -> rest = []).
Proof.
  induction 1 as [|f frames Hf Hfs IH]; intros fuel buf more Hfuel E; cbn [concat] in E.
  { apply app_eq_nil in E as [-> ->]. exists [], [], []. by destruct fuel. }
  destruct (stream_frame_layout f Hf) as (s1 & s2 & t1 & t2 & body & Ef & Ht & Hlen).
  destruct (decide (length buf < length f)%nat) as [Hlt|Hge].
  - exists [], buf, (f :: frames). split; [|split; [done|split; [done|]]].
    + assert (Hp : exists tl, f = buf ++ tl).
      { exists (drop (length buf) f). rewrite <- (take_drop (length buf) f) at 1. f_equal.
        apply (f_equal (take (length buf))) in E. rewrite take_app_length, take_app_le in E by lia. by symmetry. }
      destruct Hp as [tl Hp]. rewrite Ef in Hp. destruct fuel as [|fuel]; [by destruct buf|].
      destruct buf as [|b0 [|b1 [|b2 [|b3 [|b4 [|b5 r]]]]]]; try done. injection Hp as <- <- <- <- <- <- Hp.
      cbn [split_stream Z.eqb Pos.eqb negb orb]. rewrite Ht. unfold zlen in *.
      destruct (Z.ltb_spec (Z.of_nat (length f)) 6); [lia|].
      destruct (Z.ltb_spec (Z.of_nat (length (6 :: 16 :: s1 :: s2 :: t1 :: t2 :: r))) (Z.of_nat (length f))); [done|lia].
    + intros ->. rewrite app_nil_r in E. subst buf. rewrite length_app in Hlt. lia.
  - assert (Hp : exists buf', buf = f ++ buf').
    { exists (drop (length f) buf). rewrite <- (take_drop (length f) buf) at 1. f_equal.
      apply (f_equal (take (length f))) in E. rewrite take_app_le, take_app_length in E by lia. done. }
    destruct Hp as [buf' ->]. rewrite <- app_assoc in E. apply app_inv_head in E.
    assert (Hpos : (0 < length f)%nat) by (unfold zlen in Hlen; lia). rewrite length_app in Hfuel.
    destruct fuel as [|fuel]; [lia|]. destruct (IH fuel buf' more ltac:(lia) E) as (whole & rest & later & Es & -> & Er & Hm).
    exists (f :: whole), rest, later. split; [|done].
    assert (Es' : split_stream (S fuel) (f ++ buf') =
      let '(frames, rest, lost) := split_stream fuel (drop (Z.to_nat (zlen f)) (f ++ buf')) in
      (take (Z.to_nat (zlen f)) (f ++ buf') :: frames, rest, lost)).
    { rewrite <- Ht. rewrite Ef at 1. cbn [app split_stream Z.eqb Pos.eqb negb orb].
      destruct (Z.ltb_spec (u16_of t1 t2) 6); [lia|].
      destruct (Z.ltb_spec (zlen (6 :: 16 :: s1 :: s2 :: t1 :: t2 :: body ++ buf')) (u16_of t1 t2)) as [Hl|]; [|by rewrite Ef].
      rewrite Ht, Ef in Hl. unfold zlen in Hl. cbn [length] in Hl. rewrite length_app in Hl. lia. }
    rewrite Es'. unfold zlen. rewrite Nat2Z.id, drop_app_length, take_app_length, Es. done.
Qed.

Section Stream.
  Context `{GS : GatewaySessions}.

(** What a connection gets of the chunks that arrive on it, one read each. *)
Fixpoint serve_chunks (c : TcpConn) (chunks : list bytes) : list bytes * bool * TcpConn :=
  match chunks with
  | [] => ([], false, c)
  | chunk :: chunks =>
      let '(frames, ended, c) := read_frames c chunk false in
      let '(frames', ended', c) := serve_chunks c chunks in
      (frames ++ frames', ended || ended', c)
  end.

Lemma serve_chunks_rest c chunks : forall frames, Forall stream_frame frames ->
  tc_buf c ++ concat chunks = concat frames -> (chunks = [] -> tc_buf c = []) ->
  serve_chunks c chunks = (frames, false, MkTcpConn [] (tc_state c) (tc_channel c)).
Proof.
  revert c. induction chunks as [|chunk chunks IH]; intros c frames Hf E He.
  - cbn in E |- *. rewrite app_nil_r, (He eq_refl) in E. destruct frames as [|f frames].
    + destruct c. cbn in He |- *. by rewrite (He eq_refl).
    + apply Forall_cons in Hf as [Hf _]. destruct (stream_frame_layout f Hf) as (? & ? & ? & ? & ? & -> & _). done.
  - cbn [serve_chunks concat] in *. unfold read_frames. rewrite app_assoc in E.
    destruct (split_stream_prefix frames Hf _ _ _ (le_n _) E) as (whole & rest & later & Es & Ef & Er & Hm).
    rewrite Es. apply Forall_app in Hf as [_ Hl] || (rewrite Ef in Hf; apply Forall_app in Hf as [_ Hl]).
    rewrite (IH (MkTcpConn rest (tc_state c) (tc_channel c)) later Hl Er); [cbn; by rewrite Ef|].
    intros ->. by apply Hm.
Qed.

(** a TCP connection serves exactly the frames the client sent, in order and
    whole, however the network cuts the stream into chunks: also when a chunk ends
    inside a header, holds several frames, or is empty; nothing is left over, and
    the connection is not ended. *)
Theorem chunking_does_not_matter (frames chunks : list bytes) (c : TcpConn) :
  Forall stream_frame frames -> tc_buf c = [] -> concat chunks = concat frames ->
  serve_chunks c chunks = (frames, false, MkTcpConn [] (tc_state c) (tc_channel c)).
Proof.
  intros Hf Hb E. apply serve_chunks_rest; [done|by rewrite Hb|by intros _].
Qed.

End Stream.

(** ** Sessions *)

Section Sessions.
  Context `{GS : GatewaySessions} (s : SecureGateway).

(** The states a connection reaches from [start] with the frames it receives, in
    between those the gateway seals for it. *)
Inductive session_runs (start : SessionState) : list bytes -> SessionState -> Prop :=
| runs_start : session_runs start [] start
| runs_frame frames state frame parsed now fresh_id :
    session_runs start frames state -> KnxnetIpFrame_decode frame = Ok parsed ->
    session_runs start (frames ++ [frame])
      (fst (session_step now s fresh_id state (kf_service parsed) (kf_body parsed) frame))
| runs_sent frames session user ia last frame :
    session_runs start frames (SessEstablished session user ia last) ->
    session_runs start frames (SessEstablished (snd (session_seal session frame)) user ia last).

(** The session of a handshake: the one it derives, moved on by the frames it opens
    and seals. *)
Inductive own_session (hs : Handshake) : Session -> Prop :=
| own_derived : own_session hs (hs_session hs)
| own_opened session frame : own_session hs session -> own_session hs (snd (session_open session frame))
| own_sealed session frame : own_session hs session -> own_session hs (snd (session_seal session frame)).

(** [frame] asked for the session of the handshake [hs]. *)
Definition opened_by (frame : bytes) (hs : Handshake) : Prop :=
  exists body id response, KnxnetIpFrame_decode frame = Ok (MkKnxnetIpFrame SVC_SESSION_REQUEST body) /\
    take 8 body = ROUTE_BACK_HPAI /\ hs_respond body id (sg_device_key s) = Some (hs, response).

(** [frame], sealed for the handshake's own session, proves [user] for it. *)
Definition authenticated_by (frame : bytes) (hs : Handshake) (user : u8) : Prop :=
  exists session inner, own_session hs session /\ fst (session_open session frame) = Some inner /\
    length inner = GW_SESSION_AUTHENTICATE_LEN /\ inner_service inner = Some SVC_SESSION_AUTHENTICATE /\
    hs_authenticate hs inner (session_users s) = Some user.

(** A request of the handshake, then an authentication for it, are among the frames. *)
Definition authenticated (frames : list bytes) (hs : Handshake) (user : u8) (ia : u16) : Prop :=
  exists before request between auth after,
    frames = before ++ request :: between ++ auth :: after /\
    opened_by request hs /\ authenticated_by auth hs user /\ ia = default 0 (user_tunnel s user).

Definition session_invariant (frames : list bytes) (state : SessionState) : Prop :=
  match state with
  | SessPlain => True
  | SessAuthenticating hs session _ => own_session hs session /\
      exists before request after, frames = before ++ request :: after /\ opened_by request hs
  | SessEstablished session user ia _ => exists hs, own_session hs session /\ authenticated frames hs user ia
  end.

Lemma authenticated_more frames more hs user ia : authenticated frames hs user ia -> authenticated (frames ++ more) hs user ia.
Proof.
  intros (b & r & m & a & l & -> & Hr). exists b, r, m, a, (l ++ more). split; [|done].
  rewrite <- app_assoc. cbn. by rewrite <- app_assoc.
Qed.

Lemma opened_more (before : list bytes) request after more : (before ++ request :: after) ++ more = before ++ request :: after ++ more.
Proof. by rewrite <- app_assoc. Qed.

(** Opening and sealing stay within the handshake's session. *)
Lemma own_open hs session frame r session' : own_session hs session -> session_open session frame = (r, session') ->
  own_session hs session'.
Proof. intros Ho E. pose proof (own_opened hs session frame Ho) as H. by rewrite E in H. Qed.

Lemma own_seal hs session frame raw session' : own_session hs session -> session_seal session frame = (raw, session') ->
  own_session hs session'.
Proof. intros Ho E. pose proof (own_sealed hs session frame Ho) as H. by rewrite E in H. Qed.

(** An established session stays: its user, its address and its handshake. *)
Lemma established_step hs now fresh_id session user ia last svc body frame : own_session hs session ->
  exists session' last', own_session hs session' /\
    fst (session_step now s fresh_id (SessEstablished session user ia last) svc body frame)
    = SessEstablished session' user ia last'.
Proof.
  intros Ho. cbn [session_step]. destruct (_ =? _); [|by eexists _, _]. unfold in_established.
  destruct (session_open session frame) as [[inner|] session'] eqn:Eo; pose proof (own_open _ _ _ _ _ Ho Eo) as Ho';
    [|by eexists _, _].
  repeat case_bool_decide; try (by eexists _, _);
    destruct (session_seal session' _) as [raw session''] eqn:Es; pose proof (own_seal _ _ _ _ _ Ho' Es); by eexists _, _.
Qed.

Lemma established_stays hs user ia start : (exists session last, own_session hs session /\ start = SessEstablished session user ia last) ->
  forall later state, session_runs start later state ->
  exists session last, own_session hs session /\ state = SessEstablished session user ia last.
Proof.
  intros Hstart later state. induction 1 as [|frames state frame parsed now fresh Hr IH Ed|frames session user' ia' last frame Hr IH];
    [done| |].
  - destruct IH as (session & last & Ho & ->).
    destruct (established_step hs now fresh session user ia last (kf_service parsed) (kf_body parsed) frame Ho) as (x & t & Hx & ->).
    by exists x, t.
  - destruct IH as (x & t & Ho & [= -> -> -> ->]). eexists _, _. split; [by apply own_sealed|done].
Qed.

Lemma session_invariant_step frames state frame parsed now fresh_id : session_invariant frames state ->
  KnxnetIpFrame_decode frame = Ok parsed ->
  session_invariant (frames ++ [frame]) (fst (session_step now s fresh_id state (kf_service parsed) (kf_body parsed) frame)).
Proof.
  intros Hi Ed. destruct state as [|hs session since|session user ia last].
  - cbn [session_step]. destruct (Z.eqb_spec (kf_service parsed) SVC_SESSION_REQUEST) as [Es|]; [|by destruct (_ =? _)].
    destruct (negb _ || negb _) eqn:Eg; [done|]. apply orb_false_iff in Eg as [_ Eh].
    apply negb_false_iff, bool_decide_eq_true_1 in Eh.
    destruct (hs_respond _ _ _) as [[hs response]|] eqn:Er; [|done]. cbn. split; [constructor|].
    exists frames, frame, []. split; [done|]. exists (kf_body parsed), (default 1 fresh_id), response.
    destruct parsed as [svc body]. cbn in *. by subst svc.
  - cbn [session_step]. destruct Hi as [Ho (b & r & a & -> & Hreq)].
    assert (Hk : forall s' t', own_session hs s' -> session_invariant ((b ++ r :: a) ++ [frame]) (SessAuthenticating hs s' t')).
    { intros s' t' Ho'. split; [done|]. exists b, r, (a ++ [frame]). split; [apply opened_more|done]. }
    assert (Hs : forall s' m t', own_session hs s' ->
      session_invariant ((b ++ r :: a) ++ [frame]) (SessAuthenticating hs (snd (session_seal s' m)) t'))
      by (intros s' m t' Ho'; by apply Hk, own_sealed).
    destruct (_ =? _); [|by apply Hk]. unfold in_authenticating.
    destruct (session_open session frame) as [[inner|] session'] eqn:Eo; pose proof (own_open _ _ _ _ _ Ho Eo) as Ho'; [|by apply Hk].
    destruct (bool_decide (inner_service inner = _)) eqn:Esvc.
    + apply bool_decide_eq_true_1 in Esvc. destruct (negb _ || _) eqn:Eg; [by apply Hk|].
      apply orb_false_iff in Eg as [El _]. apply negb_false_iff, Nat.eqb_eq in El.
      destruct (hs_authenticate _ _ _) as [user|] eqn:Ea.
      * destruct (session_seal session' _) as [raw session''] eqn:Es. cbn.
        exists hs. split; [by eapply own_seal|]. exists b, r, a, frame, []. split; [apply opened_more|]. split; [done|].
        split; [|done]. exists session, inner. by rewrite Eo.
      * specialize (Hs session' (gw_session_status STATUS_AUTH_FAILED) since Ho'). by destruct (session_seal session' _).
    + destruct (bool_decide _ && bool_decide _).
      { specialize (Hs session' (gw_session_status STATUS_CLOSE) since Ho'). by destruct (session_seal session' _). }
      destruct (_ && negb _); [by apply Hk|].
      specialize (Hs session' (gw_session_status STATUS_UNAUTHENTICATED) since Ho'). by destruct (session_seal session' _).
  - destruct Hi as (hs & Ho & Ha).
    destruct (established_step hs now fresh_id session user ia last (kf_service parsed) (kf_body parsed) frame Ho) as (x & t & Hx & ->).
    exists hs. split; [done|]. by apply authenticated_more.
Qed.

Lemma session_invariant_reached frames state : session_runs SessPlain frames state -> session_invariant frames state.
Proof.
  induction 1 as [|frames state frame parsed now fresh Hr IH Ed|frames session user ia last frame Hr (hs & Ho & Ha)];
    [done|by apply session_invariant_step|]. exists hs. split; [by apply own_sealed|done].
Qed.

(** C25: What the gateway serves out of a secure wrapper, and whatever it serves on a
    TCP connection that has asked for a session, it serves only after the
    connection proved a user's password for that very handshake, over the
    handshake's own session.  It is what the session of this handshake opens, and no
    session service; it is served under the user's tunnel address, and neither the
    user nor the address changes with any frame received or sent after it. *)
Theorem served_in_a_proven_session (frames : list bytes) (state state' : SessionState) (frame inner : bytes)
    (parsed : KnxnetIpFrame) (now : Z) (fresh_id : option u16) :
  session_runs SessPlain frames state -> KnxnetIpFrame_decode frame = Ok parsed ->
  session_step now s fresh_id state (kf_service parsed) (kf_body parsed) frame = (state', Served inner) ->
  kf_service parsed = SVC_SECURE_WRAPPER \/ state <> SessPlain ->
  exists hs session session' user ia last,
    state = SessEstablished session user ia last /\ state' = SessEstablished session' user ia now /\
    kf_service parsed = SVC_SECURE_WRAPPER /\ session_open session frame = (Some inner, session') /\
    inner_service inner <> Some SVC_SESSION_AUTHENTICATE /\ inner_service inner <> Some SVC_SESSION_STATUS /\
    own_session hs session /\ authenticated frames hs user ia /\
    forall later state2, session_runs state' later state2 ->
      exists session2 last2, own_session hs session2 /\ state2 = SessEstablished session2 user ia last2.
Proof.
  intros Hr Ed E Hin. apply session_invariant_reached in Hr.
  destruct state as [|hs session since|session user ia last]; cbn [session_step] in E.
  - exfalso. destruct Hin as [Hw|]; [|done]. rewrite Hw in E. done.
  - exfalso. destruct (_ =? _); [|done]. destruct (in_authenticating _ _ _ _ _ _) as [st [[raw keep]|]]; done.
  - destruct Hr as (hs & Ho & Ha).
    destruct (Z.eqb_spec (kf_service parsed) SVC_SECURE_WRAPPER) as [Hw|]; [|done]. unfold in_established in E.
    destruct (session_open session frame) as [[i|] session'] eqn:Eo; [|done].
    case_bool_decide as H1; [by destruct (session_seal session' _)|].
    case_bool_decide as H2; [case_bool_decide; [by destruct (session_seal session' _)|done]|].
    injection E as <- <-. exists hs, session, session', user, ia, last. split_and!; try done.
    apply established_stays. exists session', now. split; [by eapply own_open|done].
Qed.

End Sessions.

(** ** A concrete gateway *)

Module GatewayDemo.

(** A bus that records what the tool sends, and sessions whose password is the
    authentication frame's last octets and whose wrapper has no cryptography. *)
#[export] Instance recording_bus : GatewayBus (list CemiLData) := {
  bus_deliver_from_tool c l := ([], l ++ [c]);
  bus_tick_stimulus _ l := ([], l);
  bus_tick_transport _ l := ([], l);
  bus_l4_connected _ _ := false;
  bus_local_management _ _ l := (None, l);
  bus_interface_secure _ _ := None }.

#[export] Instance open_sessions : GatewaySessions := {
  Handshake := u16;
  Session := u16;
  hs_respond _ id _ := Some (id, []);
  hs_session_id id := id;
  hs_session id := id;
  hs_authenticate _ inner users := fst <$> find (fun '(_, key) => bool_decide (drop 8 inner = key)) users;
  session_id id := id;
  session_seal id d := (KnxnetIpFrame_encode SVC_SECURE_WRAPPER d, id);
  session_open id d := (Some (drop 6 d), id) }.

Definition key : bytes := replicate 16 7.
Definition secure : SecureGateway :=
  MkSecureGateway 4096 [] true [(2, key, 4097)] None 0 [] SESSION_TIMEOUT AUTHENTICATION_TIMEOUT 1.

Definition demo_session_request : bytes := KnxnetIpFrame_encode SVC_SESSION_REQUEST (ROUTE_BACK_HPAI ++ replicate 32 0).
Definition auth_inner : bytes := KnxnetIpFrame_encode SVC_SESSION_AUTHENTICATE ([0; 2] ++ key).
Definition wrapped (inner : bytes) : bytes := KnxnetIpFrame_encode SVC_SECURE_WRAPPER inner.
Definition search : bytes := KnxnetIpFrame_encode service.SEARCH_REQUEST ROUTE_BACK_HPAI.

Lemma session_established : session_runs secure SessPlain [demo_session_request; wrapped auth_inner] (SessEstablished 5 2 4097 20).
Proof.
  apply (runs_frame secure SessPlain [demo_session_request] (SessAuthenticating (5 : @Handshake open_sessions) (5 : @Session open_sessions) 10) (wrapped auth_inner)
    (MkKnxnetIpFrame SVC_SECURE_WRAPPER auth_inner) 20 None); [|reflexivity].
  apply (runs_frame secure SessPlain [] SessPlain demo_session_request (MkKnxnetIpFrame SVC_SESSION_REQUEST (ROUTE_BACK_HPAI ++ replicate 32 0)) 10 (Some 5));
    [constructor|reflexivity].
Qed.

(** A secure-only gateway with one accepted TCP connection. *)
Definition gateway : Gateway (B := list CemiLData) :=
  accept_connection (gw_set_secure (Some secure) (Gateway_bind (MkSocketAddrV4 192 168 1 20 3671) [])).

Definition bus_log (g : Gateway (B := list CemiLData)) : list CemiLData := gw_bus g.

Definition group_read : CemiFrame := CemiFrame_group_read (GroupAddress_from_raw 2305) (IndividualAddress_from_raw 0).
Definition tunnelled (channel seq : u8) : bytes := tunneling_request (MkConnectionHeader channel seq) group_read.
Definition connect : bytes := connect_request Hpai_tcp_route_back Hpai_tcp_route_back.

End GatewayDemo.
Import GatewayDemo.

Lemma chunking_does_not_matter_witness :
  serve_chunks (MkTcpConn [] SessPlain 64) [take 3 search; []; drop 3 search ++ take 7 demo_session_request; drop 7 demo_session_request]
    = ([search; demo_session_request], false, MkTcpConn [] SessPlain 64).
Proof.
  apply (chunking_does_not_matter [search; demo_session_request] _ (MkTcpConn [] SessPlain 64)); [|reflexivity|reflexivity].
  constructor; [|constructor; [|constructor]];
    [exists service.SEARCH_REQUEST, ROUTE_BACK_HPAI|exists SVC_SESSION_REQUEST, (ROUTE_BACK_HPAI ++ replicate 32 0)];
    (split; [done|split; [vm_compute; discriminate|reflexivity]]).
Defined.

Lemma served_in_a_proven_session_witness :
  exists hs, authenticated secure [demo_session_request; wrapped auth_inner] hs 2 4097 /\
    forall later state2, session_runs secure (SessEstablished (5 : @Session open_sessions) 2 4097 30) later state2 ->
      exists session2 last2, own_session hs session2 /\ state2 = SessEstablished session2 2 4097 last2.
Proof.
  destruct (served_in_a_proven_session secure [demo_session_request; wrapped auth_inner] (SessEstablished (5 : @Session open_sessions) 2 4097 20)
    (SessEstablished (5 : @Session open_sessions) 2 4097 30) (wrapped connect) connect (MkKnxnetIpFrame SVC_SECURE_WRAPPER connect) 30 None)
    as (hs & session & session' & user & ia & last & H & _ & _ & _ & _ & _ & _ & Ha & Hl);
    [apply session_established|reflexivity|reflexivity|by left|].
  injection H as <- <- <- <-. exists hs. split; [exact Ha|exact Hl].
Defined.

(** On a TCP connection that has proved nothing, a plain CONNECT_REQUEST and a
    tunnelling request are served by a secure-only gateway: the telegram is on the
    bus. *)
Example secure_only_gateway_tunnels_in_plain :
  let '(_, out, g) := serve_connection 0 0 (connect ++ tunnelled 64 0) false gateway in
  bus_log g = [MkCemiLData SimLDataReq 182 224 (MkSimIA 4096) 2305 [0; 0]] /\
  map sent_frame out = [KnxnetIpFrame_encode service.CONNECT_RESPONSE ([64; 0] ++ ROUTE_BACK_HPAI ++ [4; 4; 16; 0]);
    KnxnetIpFrame_encode service.TUNNELLING_REQUEST [4; 64; 0; 0; 46; 0; 182; 224; 16; 0; 9; 1; 1; 0; 0]].
Proof. vm_compute. by split. Qed.

(** Over UDP it refuses both. *)
Example secure_only_gateway_refuses_udp :
  let '(_, out, g) := gw_handle_datagram 0 connect (MkSocketAddrV4 192 168 1 10 50000) gateway in
  bus_log g = [] /\ map sent_frame out = [KnxnetIpFrame_encode service.CONNECT_RESPONSE [0; E_CONNECTION_TYPE]].
Proof. vm_compute. by split. Qed.

(** A tunnelling request that is repeated, its acknowledgement lost, reaches the
    bus again: the gateway does not look at its sequence. *)
Example gateway_delivers_repetitions :
  let addr := MkSocketAddrV4 192 168 1 10 50000 in
  let g := Gateway_bind (MkSocketAddrV4 192 168 1 20 3671) [] in
  let '(_, _, g) := (_ ← gw_handle_datagram 0 (tunnelled 1 0) addr; gw_handle_datagram 1 (tunnelled 1 0) addr) g in
  length (bus_log g) = 2%nat.
Proof. vm_compute. reflexivity. Qed.
