(* ===== verification/TunnelSpec.v ===== *)
(** * Promises of the tunnelling client's task

    The loops of [Channel] and [Tunnel] end, whatever the gateway sends, and what
    the end of a re-establishing means; which inbound requests are taken and
    acknowledged. *)

From S2P Require Import Prelude Address Cursor Cemi Knxnet Channel Tunnel.

Local Open Scope string_scope.
Local Open Scope list_scope.
Local Open Scope Z_scope.

(** ** Time goes on *)

Section Later.
  Context {W : Type} `{TunnelLinkLaws W}.

#[export] Instance later_preorder : PreOrder (later (W := W)).
Proof.
  split; [by split|]. intros a b c [A1 A2] [B1 B2]. split; [lia|]. intros dl. specialize (A2 dl). specialize (B2 dl). lia.
Qed.

End Later.

(** An operation that only lets time go on. *)
Definition forward {T W A} `{TunnelLink W} (m : TaskOp T W A) : Prop := forall s, later (st_world s) (st_world (snd (m s))).

Section Forward.
  Context {T W : Type} `{TunnelLinkLaws W}.

Lemma forward_ret {A} (a : A) : forward (T := T) (W := W) (mret a).
Proof. intros s. reflexivity. Qed.

Lemma forward_raise {A} e : forward (T := T) (W := W) (raise (A := A) e).
Proof. intros s. reflexivity. Qed.

Lemma forward_get_task : forward (T := T) (W := W) get_task.
Proof. intros s. reflexivity. Qed.

Lemma forward_put_task f : forward (T := T) (W := W) (put_task f).
Proof. intros s. reflexivity. Qed.

Lemma forward_clock : forward (T := T) (W := W) clock.
Proof. intros s. reflexivity. Qed.

Lemma forward_bind {A B} (m : TaskOp T W A) (k : A -> TaskOp T W B) :
  forward m -> (forall a, forward (k a)) -> forward (a ← m; k a).
Proof.
  intros Hm Hk s. unfold mbind, TaskOp_bind. specialize (Hm s). destruct (m s) as [[a|e] s']; [|done].
  etrans; [exact Hm|]. apply Hk.
Qed.

Lemma step_ok {A B} (m : TaskOp T W A) (k : A -> TaskOp T W B) s a s1 : m s = (Ok a, s1) -> (a ← m; k a) s = k a s1.
Proof. intros E. unfold mbind, TaskOp_bind. by rewrite E. Qed.

Lemma step_inv {A B} (m : TaskOp T W A) (k : A -> TaskOp T W B) s b s' :
  (a ← m; k a) s = (Ok b, s') -> exists a s1, m s = (Ok a, s1) /\ k a s1 = (Ok b, s').
Proof. unfold mbind, TaskOp_bind. destruct (m s) as [[a|e] s1]; [intros E; by exists a, s1|done]. Qed.

Lemma forward_outcome {A} (m : TaskOp T W A) : forward m -> forward (outcome_of m).
Proof. intros Hm s. unfold outcome_of. specialize (Hm s). by destruct (m s). Qed.

Lemma forward_link {A} (f : W -> result TransportError A * W) :
  (forall w, later w (snd (f w))) -> forward (T := T) (on_link f).
Proof. intros Hf s. unfold on_link. specialize (Hf (st_world s)). by destruct (f (st_world s)). Qed.

Lemma forward_look {A} (f : W -> A) : forward (T := T) (on_link (fun w => (Ok (f w), w))).
Proof. apply forward_link. intros w. reflexivity. Qed.

Lemma forward_recv n b s : 0 < b -> later (st_world s) (st_world (snd (recv_in (T := T) n b s))).
Proof.
  intros Hb. unfold recv_in. destruct (link_recv n b (st_world s)) as [o w] eqn:E.
  by apply recv_later in E as [? _].
Qed.

End Forward.

#[export] Hint Resolve forward_ret forward_raise forward_get_task forward_put_task forward_clock forward_outcome
  forward_look : bus.
#[export] Hint Resolve send_later send_data_later adopt_later keepalive_later close_later reopen_later : bus.

(** Decides [forward] goals of straight-line operations. *)
Ltac forward :=
  repeat first
    [ progress intros
    | solve [eauto with bus]
    | apply forward_bind
    | apply forward_outcome
    | apply forward_link
    | match goal with |- forward (match ?x with _ => _ end) => destruct x end
    | match goal with |- forward (if ?x then _ else _) => destruct x end
    | match goal with |- forward (let '(_, _) := ?x in _) => destruct x end ].

Section Loops.
  Context {T W : Type} `{TunnelLinkLaws W}.
  Context {A : Type} (size : nat) (deadline : Z) (elapsed : TaskOp T W A).
  Context (failed : TransportError -> TaskOp T W (option A)) (body : bytes -> TaskOp T W (option A)).
  Hypotheses (Hfailed : forall e, forward (failed e)) (Hbody : forall d, forward (body d)).

(** What [link_frames] allows is enough fuel. *)
Lemma wait_loop_enough fuel : forall s,
  (S (link_frames deadline (st_world s)) < fuel)%nat \/ (deadline < link_now (st_world s) /\ (0 < fuel)%nat) ->
  is_Some (wait_loop fuel size deadline elapsed failed body s).
Proof.
  induction fuel as [|fuel IH]; intros s Hf; [lia|]. cbn [wait_loop]. unfold saturating_sub.
  destruct (Z.eqb_spec (Z.max 0 (deadline - link_now (st_world s))) 0) as [|Hr]; [by eexists|].
  unfold recv_in. destruct (link_recv size _ (st_world s)) as [o w] eqn:E.
  assert (Hb : 0 < Z.max 0 (deadline - link_now (st_world s))) by lia.
  destruct (recv_later _ _ _ _ _ Hb E) as [_ Ho].
  assert (Hgo : forall m : TaskOp T W (option A), forward m ->
    (forall dl, link_now w <= dl -> (link_frames dl w < link_frames dl (st_world s))%nat) ->
    is_Some (match m (MkTaskIn (st_task s) w) with
      | (Err e, s) => Some (Err e, s)
      | (Ok (Some a), s) => Some (Ok a, s)
      | (Ok None, s) => wait_loop fuel size deadline elapsed failed body s
      end)).
  { intros m Hm Hp. destruct (Hm (MkTaskIn (st_task s) w)) as [Hn Hl]. specialize (Hl deadline). specialize (Hp deadline). cbn in *.
    destruct (m _) as [[[a|]|e] s']; try by eexists. cbn in *. apply IH. lia. }
  destruct o as [d|e|]; [by apply Hgo|by apply Hgo|by eexists].
Qed.

Lemma wait_loop_more fuel fuel' : forall s r, (fuel <= fuel')%nat ->
  wait_loop fuel size deadline elapsed failed body s = Some r -> wait_loop fuel' size deadline elapsed failed body s = Some r.
Proof.
  revert fuel'. induction fuel as [|fuel IH]; intros fuel' s r Hle E; [done|]. destruct fuel' as [|fuel']; [lia|].
  cbn [wait_loop] in *. destruct (_ =? 0); [done|]. destruct (recv_in _ _ s) as [[[d|e|]|e] s1]; try done.
  - destruct (body d s1) as [[[a|]|e] s2]; try done. apply IH; [lia|done].
  - destruct (failed e s1) as [[[a|]|e'] s2]; try done. apply IH; [lia|done].
Qed.

(** [wait_until] runs its loop to the end. *)
Lemma wait_loop_ends s : exists r, wait_until size deadline elapsed failed body s = r /\
  forall fuel, (S (link_frames deadline (st_world s)) < fuel)%nat -> wait_loop fuel size deadline elapsed failed body s = Some r.
Proof.
  unfold wait_until. destruct (wait_loop_enough (S (S (link_frames deadline (st_world s)))) s ltac:(lia)) as [r E].
  rewrite E. exists r. split; [done|]. intros fuel Hf. by eapply wait_loop_more; [|exact E].
Qed.

Lemma forward_wait_loop (Helapsed : forward elapsed) fuel : forall s r,
  wait_loop fuel size deadline elapsed failed body s = Some r -> later (st_world s) (st_world (snd r)).
Proof.
  induction fuel as [|fuel IH]; intros s r E; [done|]. cbn [wait_loop] in E. unfold saturating_sub in E.
  destruct (Z.eqb_spec (Z.max 0 (deadline - link_now (st_world s))) 0) as [|Hr]; [injection E as <-; apply Helapsed|].
  assert (Hb : 0 < Z.max 0 (deadline - link_now (st_world s))) by lia.
  pose proof (forward_recv (T := T) size _ s Hb) as Hl.
  destruct (recv_in _ _ s) as [[[d|e|]|e] s1]; cbn [snd] in Hl; (etrans; [exact Hl|]).
  - pose proof (Hbody d s1) as Hl2. destruct (body d s1) as [[[a|]|e] s2]; try (injection E as <-; exact Hl2).
    etrans; [exact Hl2|]. by apply IH.
  - pose proof (Hfailed e s1) as Hl2. destruct (failed e s1) as [[[a|]|e'] s2]; try (injection E as <-; exact Hl2).
    etrans; [exact Hl2|]. by apply IH.
  - injection E as <-. apply Helapsed.
  - injection E as <-. reflexivity.
Qed.

Lemma forward_wait (Helapsed : forward elapsed) : forward (wait_until size deadline elapsed failed body).
Proof.
  intros s. unfold wait_until. destruct (wait_loop _ _ _ _ _ _ s) as [r|] eqn:E; [by eapply forward_wait_loop|apply Helapsed].
Qed.

End Loops.

(** ** The task's operations let time go on *)

Section TaskForward.
  Context {W : Type} `{TunnelLinkLaws W}.
  Abbreviation task_forward := (forward (T := TaskState) (W := W)).

Lemma accept_incoming_later seq c (w : W) : later w (snd (accept_incoming seq c w)).
Proof.
  unfold accept_incoming. destruct (chan_first_incoming c); cbn [snd];
    destruct (1 <? _); try reflexivity; destruct (link_acks w); destruct (_ =? 1); cbn [snd]; try reflexivity; apply send_data_later.
Qed.

Lemma handle_inbound_later d (s : TaskIn TaskState W) : later (st_world s) (st_world (snd (handle_inbound d s))).
Proof.
  cbn. unfold tunnel_handle_inbound. destruct (parse d) as [p|]; [|done].
  assert (Hreq : later (st_world s) (st_world (handle_tunneling_request (pf_service p) (pf_body p) s))).
  { unfold handle_tunneling_request. destruct (parse_tunneling_header _) as [[h c]|]; [|done].
    pose proof (accept_incoming_later (ch_seq h) (ts_chan (st_task s)) (st_world s)) as Hl.
    destruct (accept_incoming _ _ _) as [[a c'] w]. cbn [snd] in Hl.
    repeat (match goal with |- context [if ?x then _ else _] => destruct x end); cbn; try done.
    by destruct (CemiFrame_decode c). }
  destruct (pf_service p); cbn [snd]; try exact Hreq; try reflexivity; cbn.
  destruct (parse_disconnect_request _); [apply send_later|done].
Qed.

Lemma forward_serve d : task_forward (serve_inbound d).
Proof. intros s. unfold serve_inbound. pose proof (handle_inbound_later d s) as Hl. by destruct (handle_inbound d s) as [[] s']. Qed.
Hint Resolve forward_serve : bus.

Lemma forward_get_channel : task_forward get_channel.
Proof. intros s. reflexivity. Qed.
Lemma forward_put_channel f : task_forward (put_channel f).
Proof. intros s. reflexivity. Qed.
Hint Resolve forward_get_channel forward_put_channel : bus.

Lemma forward_ack_datagram kind seq d : task_forward (ack_datagram kind seq d).
Proof. unfold ack_datagram. forward. Qed.
Hint Resolve forward_ack_datagram : bus.

Lemma forward_await_ack seq : task_forward (chan_await_ack seq).
Proof. unfold chan_await_ack. forward. by apply forward_wait; forward. Qed.
Hint Resolve forward_await_ack : bus.

Lemma forward_send_loop n kind seq d : task_forward (send_loop n kind seq d).
Proof. induction n; cbn [send_loop]; forward. Qed.
Hint Resolve forward_send_loop : bus.

Lemma forward_send_sequenced build : task_forward (send_sequenced build).
Proof. unfold send_sequenced. forward. Qed.
Hint Resolve forward_send_sequenced : bus.

Lemma forward_heartbeat_datagram d : task_forward (heartbeat_datagram d).
Proof. unfold heartbeat_datagram. forward. Qed.
Hint Resolve forward_heartbeat_datagram : bus.

Lemma forward_heartbeat n timeout : task_forward (heartbeat_with n timeout).
Proof.
  unfold heartbeat_with. forward. generalize (connectionstate_request (chan_id a) (chan_hpai a)). intros req.
  induction n; cbn [heartbeat_loop]; forward. by apply forward_wait; forward.
Qed.

End TaskForward.

(** ** Re-establishing *)

Section Reestablish.
  Context {W : Type} `{TunnelLinkLaws W}.
  Abbreviation flagged_forward := (forward (T := TaskState * bool) (W := W)).

Definition set_hpai (h : Hpai) (t : TaskState) : TaskState :=
  let c := ts_chan t in
  ts_set_chan (MkChannel (chan_kind c) (chan_id c) h (chan_outgoing_seq c) (chan_incoming_seq c) (chan_first_incoming c)) t.

Lemma set_own_hpai t : set_hpai (chan_hpai (ts_chan t)) t = t.
Proof. by destruct t as [[] ? ? ? ? ? ? ? ?]. Qed.

(** [keeps m]: [m] changes the task at most by advertising another endpoint. *)
Definition keeps {A} (m : TaskOp (TaskState * bool) W A) : Prop :=
  forall s, exists h, fst (st_task (snd (m s))) = set_hpai h (fst (st_task s)).

Lemma keeps_same {A} (m : TaskOp (TaskState * bool) W A) :
  (forall s, fst (st_task (snd (m s))) = fst (st_task s)) -> keeps m.
Proof. intros Hm s. exists (chan_hpai (ts_chan (fst (st_task s)))). by rewrite set_own_hpai. Qed.

Lemma keeps_bind {A B} (m : TaskOp (TaskState * bool) W A) (k : A -> TaskOp (TaskState * bool) W B) :
  keeps m -> (forall a, keeps (k a)) -> keeps (a ← m; k a).
Proof.
  intros Hm Hk s. unfold mbind, TaskOp_bind. destruct (Hm s) as [h Eh]. destruct (m s) as [[a|e] s']; [|by exists h].
  destruct (Hk a s') as [h' Eh']. exists h'. cbn [snd] in Eh. by rewrite Eh', Eh.
Qed.

Lemma keeps_outcome {A} (m : TaskOp (TaskState * bool) W A) : keeps m -> keeps (outcome_of m).
Proof. intros Hm s. unfold outcome_of. specialize (Hm s). by destruct (m s). Qed.

Lemma keeps_link {A} (f : W -> result TransportError A * W) : keeps (on_link f).
Proof. apply keeps_same. intros s. unfold on_link. by destruct (f (st_world s)). Qed.

Lemma keeps_ret {A} (a : A) : keeps (mret a).
Proof. by apply keeps_same. Qed.
Lemma keeps_raise {A} e : keeps (raise (A := A) e).
Proof. by apply keeps_same. Qed.
Lemma keeps_clock : keeps clock.
Proof. by apply keeps_same. Qed.
Lemma keeps_get_task : keeps get_task.
Proof. by apply keeps_same. Qed.
Hint Resolve keeps_link keeps_ret keeps_raise keeps_clock keeps_get_task keeps_outcome : bus.

Ltac keeps :=
  repeat first
    [ progress intros
    | solve [eauto with bus]
    | apply keeps_bind
    | apply keeps_outcome
    | match goal with |- keeps (put_task _) => apply keeps_same; intros s; cbn; by destruct (st_task s) end
    | match goal with |- keeps (match ?x with _ => _ end) => destruct x end
    | match goal with |- keeps (if ?x then _ else _) => destruct x end ].

Lemma forward_attempt_datagram old d : flagged_forward (attempt_datagram old d).
Proof. unfold attempt_datagram. forward. Qed.
Lemma keeps_attempt_datagram old d : keeps (attempt_datagram old d).
Proof. unfold attempt_datagram. keeps. Qed.
Lemma forward_attempt_failed e : flagged_forward (attempt_failed e).
Proof. unfold attempt_failed. forward. Qed.
Lemma keeps_attempt_failed e : keeps (attempt_failed e).
Proof. unfold attempt_failed. keeps. Qed.

Lemma forward_send_connect req : forward (T := TaskState) (W := W) (send_connect req).
Proof. unfold send_connect. forward. Qed.

Lemma forward_with_flag {A} (m : TaskOp TaskState W A) : forward m -> flagged_forward (with_flag m).
Proof.
  intros Hm s. unfold with_flag. specialize (Hm (MkTaskIn (fst (st_task s)) (st_world s))). by destruct (m _).
Qed.

Lemma keeps_send_connect req : keeps (with_flag (send_connect req)).
Proof.
  apply keeps_same. intros s. unfold with_flag, send_connect, outcome_of, on_link, mbind, TaskOp_bind, mret, TaskOp_ret, raise.
  cbn. destruct (link_send req (st_world s)) as [[u|e] w]; cbn; [done|].
  destruct (link_is_deferred_refusal e w); cbn; [|done]. by destruct (link_send req w).
Qed.

Lemma forward_reopen wait : flagged_forward (reopen wait).
Proof.
  intros s. unfold reopen. destruct (st_task s) as [t o]. destruct (ts_secure_user t); [|done].
  pose proof (reopen_later wait (link_close (st_world s))) as Hl. pose proof (close_later (st_world s)) as Hc.
  by destruct (link_reopen _ _) as [[h|e] w]; etrans.
Qed.

Lemma keeps_reopen wait : keeps (reopen wait).
Proof.
  intros s. unfold reopen. destruct (st_task s) as [t o] eqn:E. cbn [fst].
  destruct (ts_secure_user t); [|exists (chan_hpai (ts_chan t)); cbn; by rewrite E, set_own_hpai].
  destruct (link_reopen _ _) as [[h|e] w]; cbn; [by exists h|exists (chan_hpai (ts_chan t)); by rewrite set_own_hpai].
Qed.

(** *** One attempt *)

Lemma keeps_wait_loop {A} size deadline (elapsed : TaskOp (TaskState * bool) W A) failed body fuel :
  keeps elapsed -> (forall e, keeps (failed e)) -> (forall d, keeps (body d)) -> forall s r,
  wait_loop fuel size deadline elapsed failed body s = Some r ->
  exists h, fst (st_task (snd r)) = set_hpai h (fst (st_task s)).
Proof.
  intros He Hf Hb. induction fuel as [|fuel IH]; intros s r E; [done|]. cbn [wait_loop] in E.
  destruct (_ =? 0); [injection E as <-; apply He|].
  assert (Hs : forall s1 o, recv_in size (saturating_sub deadline (link_now (st_world s))) s = (o, s1) -> st_task s1 = st_task s).
  { intros s1 o Es. unfold recv_in in Es. destruct (link_recv _ _ _). by simplify_eq. }
  destruct (recv_in _ _ s) as [o s1]. specialize (Hs _ _ eq_refl). rewrite <- Hs.
  assert (Hgo : forall m : TaskOp (TaskState * bool) W (option A), keeps m ->
    match m s1 with
    | (Err e, s) => Some (Err e, s)
    | (Ok (Some a), s) => Some (Ok a, s)
    | (Ok None, s) => wait_loop fuel size deadline elapsed failed body s
    end = Some r -> exists h, fst (st_task (snd r)) = set_hpai h (fst (st_task s1))).
  { intros m Hm Em. destruct (Hm s1) as [h Eh]. destruct (m s1) as [[[a|]|e] s2]; try (injection Em as <-; by exists h).
    destruct (IH _ _ Em) as [h' Eh']. exists h'. cbn [snd] in Eh. by rewrite Eh', Eh. }
  destruct o as [[d|e|]|e]; [by apply (Hgo (body d))|by apply (Hgo (failed e))|injection E as <-; apply He|].
  injection E as <-. exists (chan_hpai (ts_chan (fst (st_task s1)))). by rewrite set_own_hpai.
Qed.

Lemma keeps_wait {A} size deadline (elapsed : TaskOp (TaskState * bool) W A) failed body :
  keeps elapsed -> (forall e, keeps (failed e)) -> (forall d, keeps (body d)) ->
  keeps (wait_until size deadline elapsed failed body).
Proof.
  intros He Hf Hb s. unfold wait_until. destruct (wait_loop _ _ _ _ _ _ s) as [r|] eqn:E; [|apply He].
  by eapply keeps_wait_loop.
Qed.

Lemma keeps_connect_attempt wait old : keeps (connect_attempt wait old).
Proof.
  unfold connect_attempt. apply keeps_bind; [apply keeps_clock|intros t]. apply keeps_bind; [apply keeps_reopen|intros _].
  apply keeps_bind; [apply keeps_get_task|intros task]. apply keeps_bind; [apply keeps_send_connect|intros _].
  apply keeps_wait; [apply keeps_raise|apply keeps_attempt_failed|apply keeps_attempt_datagram].
Qed.

Lemma forward_connect_attempt wait old : flagged_forward (connect_attempt wait old).
Proof.
  unfold connect_attempt. apply forward_bind; [apply forward_clock|intros t]. apply forward_bind; [apply forward_reopen|intros _].
  apply forward_bind; [apply forward_get_task|intros task].
  apply forward_bind; [apply forward_with_flag, forward_send_connect|intros _].
  apply forward_wait; [apply forward_attempt_failed|apply forward_attempt_datagram|apply forward_raise].
Qed.

(** A wait that gives a value has received something. *)
Lemma wait_ok_received {T A} size deadline (elapsed : TaskOp T W A) failed body fuel :
  (forall s a s', elapsed s <> (Ok a, s')) -> forward elapsed -> (forall e, forward (failed e)) -> (forall d, forward (body d)) ->
  forall s a s', wait_loop fuel size deadline elapsed failed body s = Some (Ok a, s') ->
  forall dl, link_now (st_world s') <= dl -> (link_frames dl (st_world s') < link_frames dl (st_world s))%nat.
Proof.
  intros He Helapsed Hf Hb. induction fuel as [|fuel IH]; intros s a s' E dl Hdl; [done|]. cbn [wait_loop] in E.
  unfold saturating_sub in E.
  destruct (Z.eqb_spec (Z.max 0 (deadline - link_now (st_world s))) 0) as [|Hr]; [injection E as E; by apply He in E|].
  unfold recv_in in E. destruct (link_recv size _ (st_world s)) as [o w] eqn:Er.
  assert (Hpos : 0 < Z.max 0 (deadline - link_now (st_world s))) by lia.
  destruct (recv_later _ _ _ _ _ Hpos Er) as [_ Ho].
  assert (Hgo : forall m : TaskOp T W (option A), forward m ->
    (forall dl, link_now w <= dl -> (link_frames dl w < link_frames dl (st_world s))%nat) ->
    match m (MkTaskIn (st_task s) w) with
    | (Err e, s) => Some (Err e, s)
    | (Ok (Some a), s) => Some (Ok a, s)
    | (Ok None, s) => wait_loop fuel size deadline elapsed failed body s
    end = Some (Ok a, s') -> (link_frames dl (st_world s') < link_frames dl (st_world s))%nat).
  { intros m Hm Hp Em. destruct (Hm (MkTaskIn (st_task s) w)) as [Hn Hl]. specialize (Hl dl). specialize (Hp dl). cbn in Hn, Hl.
    destruct (m (MkTaskIn (st_task s) w)) as [[[a'|]|e] s2]; [injection Em as <- <-; cbn in *; lia| |done].
    pose proof (IH _ _ _ Em dl Hdl). cbn in Hn, Hl.
    assert (Hl' : link_now (st_world s2) <= link_now (st_world s')).
    { by destruct (forward_wait_loop size deadline elapsed failed body Hf Hb Helapsed _ _ _ Em). }
    lia. }
  destruct o as [d|e|]; [by apply (Hgo (body d))|by apply (Hgo (failed e))|].
  injection E as E. by apply He in E.
Qed.

Lemma connect_attempt_received wait old s granted s' : connect_attempt wait old s = (Ok granted, s') ->
  forall dl, link_now (st_world s') <= dl -> (link_frames dl (st_world s') < link_frames dl (st_world s))%nat.
Proof.
  intros E dl Hdl. unfold connect_attempt in E.
  apply step_inv in E as (t & s0 & [= <- <-] & E). apply step_inv in E as (u & s1 & E1 & E).
  apply step_inv in E as (task & s1' & [= <- <-] & E). apply step_inv in E as (u' & s2 & E2 & E).
  pose proof (forward_reopen wait s) as [_ H1]. specialize (H1 dl). rewrite E1 in H1. cbn [snd] in H1.
  pose proof (forward_with_flag _ (forward_send_connect (connect_request (chan_hpai (ts_chan (fst (st_task s1)))) (chan_hpai (ts_chan (fst (st_task s1)))))) s1) as [_ H2].
  specialize (H2 dl). rewrite E2 in H2. cbn [snd] in H2.
  unfold wait_until in E. destruct (wait_loop _ _ _ _ _ _ s2) as [r|] eqn:Ew; [|done]. subst r.
  eapply wait_ok_received in Ew; [|done|apply forward_raise|apply forward_attempt_failed|apply forward_attempt_datagram|exact Hdl]. lia.
Qed.

(** *** All attempts *)

Lemma outcome_inv {A} (m : TaskOp (TaskState * bool) W A) s r s' : outcome_of m s = (r, s') -> exists o, r = Ok o /\ m s = (o, s').
Proof. unfold outcome_of. destruct (m s) as [o s1]. intros [= <- <-]. by exists o. Qed.

(** Either a channel was granted, and something received for it, or the deadline
    has passed. *)
Lemma reestablish_loop_decides deadline old lost rc (Hm : 1 <= Z.min (rc_initial_backoff rc) (rc_max_backoff rc))
    (Ha : 0 <= rc_attempt_timeout rc) fuel : forall backoff s r s',
  let m := Z.min (rc_initial_backoff rc) (rc_max_backoff rc) in
  ts_reconnect (fst (st_task s)) = rc -> m <= backoff -> (1 <= fuel)%nat ->
  deadline - link_now (st_world s) <= (Z.of_nat fuel - 1) * m ->
  reestablish_loop fuel deadline old backoff lost s = (r, s') ->
  later (st_world s) (st_world s') /\
  match r with
  | Ok _ => link_now (st_world s) < deadline /\ exists granted now h,
      fst (st_task s') = adopt_channel granted now (set_hpai h (fst (st_task s))) /\
      (link_now (st_world s') <= deadline -> (link_frames deadline (st_world s') < link_frames deadline (st_world s))%nat)
  | Err e => e = lost /\ deadline <= link_now (st_world s') /\ exists h, fst (st_task s') = set_hpai h (fst (st_task s))
  end.
Proof.
  cbn zeta. induction fuel as [|fuel IH]; intros backoff s r s' Hrc Hback Hfuel Htime E; [lia|]. cbn [reestablish_loop] in E.
  rewrite (step_ok clock _ s _ s eq_refl) in E. set (rem := saturating_sub deadline (link_now (st_world s))) in *.
  destruct (Z.eqb_spec rem 0) as [Hz|Hr].
  { injection E as <- <-. unfold rem, saturating_sub in Hz. split; [reflexivity|]. split; [done|]. split; [lia|].
    exists (chan_hpai (ts_chan (fst (st_task s)))). by rewrite set_own_hpai. }
  assert (Hbefore : link_now (st_world s) < deadline) by (unfold rem, saturating_sub in Hr; lia).
  rewrite (step_ok get_task _ s _ s eq_refl) in E. destruct (st_task s) as [t o] eqn:Et. cbn [fst] in *.
  set (pre := if o then _ else _ : TaskOp (TaskState * bool) W unit) in E.
  assert (Hpre : exists s1, pre s = (Ok tt, s1) /\ later (st_world s) (st_world s1) /\ st_task s1 = st_task s).
  { unfold pre. destruct o; [|by exists s]. unfold mbind, TaskOp_bind, outcome_of, on_link.
    pose proof (send_later (disconnect_request old (chan_hpai (ts_chan t))) (st_world s)) as Hl.
    destruct (link_send _ (st_world s)) as [r0 w]. by eexists. }
  destruct Hpre as (s1 & Epre & Hl1 & Et1). rewrite (step_ok _ _ _ _ _ Epre) in E. clearbody pre. clear pre Epre.
  set (wait := Z.min _ rem) in E.
  pose proof (keeps_connect_attempt wait old s1) as [h Eh]. pose proof (forward_connect_attempt wait old s1) as Hl2.
  destruct (connect_attempt wait old s1) as [ro s2] eqn:Ec. cbn [snd] in Eh, Hl2. rewrite Et1, Et in Eh. cbn [fst] in Eh.
  assert (Eo : outcome_of (connect_attempt wait old) s1 = (Ok ro, s2)) by (unfold outcome_of; by rewrite Ec).
  rewrite (step_ok _ _ _ _ _ Eo) in E. clear Eo. destruct ro as [granted|e].
  - rewrite (step_ok clock _ s2 _ s2 eq_refl) in E. unfold put_task in E. destruct (st_task s2) as [t2 o2] eqn:Et2.
    injection E as <- <-. cbn [st_world st_task fst] in *. split; [by etrans|]. subst t2.
    split; [done|]. exists granted, (link_now (st_world s2)), h. split; [done|]. intros Hdl.
    destruct Hl1 as [Hn Hf]. specialize (Hf deadline).
    pose proof (connect_attempt_received wait old s1 granted s2 Ec deadline Hdl). lia.
  - rewrite (step_ok clock _ s2 _ s2 eq_refl) in E. set (rem2 := saturating_sub deadline (link_now (st_world s2))) in *.
    destruct (Z.eqb_spec rem2 0) as [Hz|Hr2].
    { injection E as <- <-. unfold rem2, saturating_sub in Hz. split; [by etrans|]. split; [done|]. split; [lia|]. by exists h. }
    erewrite (step_ok (on_link _) _ s2 tt (MkTaskIn (st_task s2) (link_sleep (Z.min backoff rem2) (st_world s2)))) in E by reflexivity.
    destruct (sleep_later (Z.min backoff rem2) (st_world s2)) as [Hl3 Hslept].
    apply IH in E.
    + destruct E as [Hl4 E]. cbn [st_world st_task] in *. rewrite Eh in E. split; [do 3 (etrans; [eassumption|]); done|].
      destruct r as [u|e']; [|destruct E as (-> & Hd & h' & ->); split; [done|split; [done|by exists h']]].
      destruct E as (_ & granted & t0 & h' & -> & Hfr). split; [done|]. exists granted, t0, h'. split; [done|]. intros Hdl. specialize (Hfr Hdl).
      destruct Hl1 as [_ F1], Hl2 as [_ F2], Hl3 as [_ F3]. specialize (F1 deadline). specialize (F2 deadline). specialize (F3 deadline). lia.
    + cbn [st_task]. rewrite Eh. done.
    + rewrite Hrc. lia.
    + destruct fuel; [|lia]. unfold rem, saturating_sub in Hr. lia.
    + cbn [st_world]. unfold rem, rem2, saturating_sub in *. destruct Hl1 as [N1 _], Hl2 as [N2 _]. clear E.
      destruct fuel as [|n]; [lia|]. set (m := Z.min (rc_initial_backoff rc) (rc_max_backoff rc)) in *.
      replace (Z.of_nat (S (S n)) - 1) with (Z.of_nat n + 1) in Htime by lia.
      replace (Z.of_nat (S n) - 1) with (Z.of_nat n) by lia. assert (Hp : 0 <= Z.of_nat n * m) by nia.
      rewrite Z.mul_add_distr_r in Htime. fold m in Hback.
      assert (Hc : Z.min backoff (Z.max 0 (deadline - link_now (st_world s2))) = Z.max 0 (deadline - link_now (st_world s2))
        \/ m <= Z.min backoff (Z.max 0 (deadline - link_now (st_world s2)))) by lia.
      lia.
Qed.

End Reestablish.

(** ** Sending *)

Section Sending.
  Context {W : Type} `{TunnelLinkLaws W}.

(** [steady m]: [m] leaves the reconnect policy alone. *)
Definition steady {A} (m : TaskOp TaskState W A) : Prop :=
  forall s, ts_reconnect (st_task (snd (m s))) = ts_reconnect (st_task s).

Lemma steady_bind {A B} (m : TaskOp TaskState W A) (k : A -> TaskOp TaskState W B) :
  steady m -> (forall a, steady (k a)) -> steady (a ← m; k a).
Proof.
  intros Hm Hk s. unfold mbind, TaskOp_bind. specialize (Hm s). destruct (m s) as [[a|e] s']; [|done].
  rewrite (Hk a s'). exact Hm.
Qed.

Lemma steady_outcome {A} (m : TaskOp TaskState W A) : steady m -> steady (outcome_of m).
Proof. intros Hm s. unfold outcome_of. specialize (Hm s). by destruct (m s). Qed.

Lemma steady_link {A} (f : W -> result TransportError A * W) : steady (on_link f).
Proof. intros s. unfold on_link. by destruct (f (st_world s)). Qed.

Lemma steady_serve d : steady (serve_inbound d).
Proof.
  intros s. unfold serve_inbound. cbn. unfold tunnel_handle_inbound. destruct (parse d) as [p|]; [|done].
  assert (Hr : ts_reconnect (st_task (handle_tunneling_request (pf_service p) (pf_body p) s)) = ts_reconnect (st_task s)).
  { unfold handle_tunneling_request. destruct (parse_tunneling_header _) as [[h c]|]; [|done].
    destruct (accept_incoming _ _ _) as [[a c'] w]. destruct a; [|done]. cbn [negb].
    destruct (bool_decide (pf_service p = SvcTunnelingRequest)); cbn [negb].
    - destruct (CemiFrame_decode c); cbn; [|done]. unfold deliver. by destruct (ts_handle _).
    - unfold handle_feature_frame. destruct c as [|? [|? ?]]; try done. cbn. by destruct (bool_decide _). }
  destruct (pf_service p); try exact Hr; try done. cbn. unfold deliver. by destruct (ts_handle _).
Qed.

Lemma steady_raise {A} e : steady (raise (A := A) e).
Proof. done. Qed.
Lemma steady_ret {A} (a : A) : steady (mret a).
Proof. done. Qed.
Hint Resolve steady_link steady_serve steady_outcome steady_raise steady_ret : bus.

Lemma steady_wait {A} size deadline (elapsed : TaskOp TaskState W A) failed body :
  steady elapsed -> (forall e, steady (failed e)) -> (forall d, steady (body d)) ->
  steady (wait_until size deadline elapsed failed body).
Proof.
  intros He Hf Hb s. unfold wait_until. generalize (S (S (link_frames deadline (st_world s)))). intros fuel.
  destruct (wait_loop fuel size deadline elapsed failed body s) as [r|] eqn:E; [|apply He].
  revert s E. induction fuel as [|fuel IH]; intros s E; [done|]. cbn [wait_loop] in E.
  destruct (_ =? 0); [injection E as <-; apply He|].
  destruct (recv_in _ _ s) as [o s1] eqn:Es. unfold recv_in in Es. destruct (link_recv _ _ _) as [o' w]. injection Es as <- <-.
  assert (Hgo : forall m : TaskOp TaskState W (option A), steady m ->
    match m (MkTaskIn (st_task s) w) with
    | (Err e, s) => Some (Err e, s)
    | (Ok (Some a), s) => Some (Ok a, s)
    | (Ok None, s) => wait_loop fuel size deadline elapsed failed body s
    end = Some r -> ts_reconnect (st_task (snd r)) = ts_reconnect (st_task s)).
  { intros m Hm Em. specialize (Hm (MkTaskIn (st_task s) w)). cbn in Hm. rewrite <- Hm.
    destruct (m _) as [[[a|]|e] s2]; [by injection Em as <-|by apply IH|by injection Em as <-]. }
  destruct o' as [d|e|]; [by apply (Hgo (body d))|by apply (Hgo (failed e))|]. injection E as <-. by rewrite (He _).
Qed.

Lemma steady_await_ack seq : steady (chan_await_ack seq).
Proof.
  unfold chan_await_ack. apply steady_bind; [done|intros c]. apply steady_bind; [done|intros t].
  apply steady_wait; [apply steady_raise|intros; apply steady_raise|intros d]. unfold ack_datagram.
  destruct (parse d) as [p|]; [|done]. destruct (bool_decide _).
  - destruct (parse_tunneling_ack _) as [[h st]|]; [|done]. destruct (_ =? seq); [|done]. by destruct (negb _).
  - apply steady_bind; [apply steady_serve|done].
Qed.

Lemma steady_send_once frame : steady (send_once frame).
Proof.
  unfold send_once, send_sequenced. apply steady_bind; [done|intros c]. apply steady_bind; [apply steady_link|intros acks].
  destruct (negb acks); [apply steady_bind; [apply steady_link|done]|].
  generalize (ck_retransmits (chan_kind c)), (tunneling_request (MkConnectionHeader (chan_id c) (chan_outgoing_seq c)) frame).
  intros n d. induction n as [|n IH]; cbn [send_loop]; (apply steady_bind; [apply steady_link|intros _]);
    (apply steady_bind; [apply steady_outcome, steady_await_ack|intros [u|e]]); try done.
  match goal with |- steady (if ?b then _ else _) => destruct b end; done.
Qed.

Lemma outcome_inv' {A} (m : TaskOp TaskState W A) s r s' : m s = (r, s') -> outcome_of m s = (Ok r, s').
Proof. unfold outcome_of. by intros ->. Qed.

Section Policy.
  Context (rc : TunnelReconnect).
  Hypotheses (Hb : 0 <= rc_budget rc) (Hm : 1 <= Z.min (rc_initial_backoff rc) (rc_max_backoff rc)) (Ha : 0 <= rc_attempt_timeout rc).

(** A re-establish grants a new channel, its counters at the start, or gives up
    when the budget has passed; the frames received before stay queued. *)
Lemma reestablish_outcome cause started s r s' : ts_reconnect (st_task s) = rc -> started <= link_now (st_world s) ->
  reestablish cause started s = (r, s') ->
  later (st_world s) (st_world s') /\ ts_reconnect (st_task s') = rc /\ ts_frames (st_task s') = ts_frames (st_task s) /\
  match r with
  | Ok _ => link_now (st_world s) < started + rc_budget rc /\
      (exists granted h, ts_link_state (st_task s') = LinkUp (gr_assigned_ia granted) /\
        ts_chan (st_task s') = MkChannel (chan_kind (ts_chan (st_task s))) (gr_channel_id granted) h 0 0 true) /\
      (link_now (st_world s') <= started + rc_budget rc ->
       (link_frames (started + rc_budget rc) (st_world s') < link_frames (started + rc_budget rc) (st_world s))%nat)
  | Err e => e = TunnelLost (rc_budget rc) cause /\ started + rc_budget rc <= link_now (st_world s') /\
      ts_link_state (st_task s') = LinkReconnecting
  end.
Proof.
  intros Hrc Hs E. unfold reestablish in E. rewrite Hrc in E.
  destruct (reestablish_loop _ _ _ _ _ _) as [r1 s1] eqn:El. injection E as <- <-.
  eapply (reestablish_loop_decides _ _ _ rc) in El; try done; [|lia|unfold reestablish_fuel; lia|].
  - cbn [st_task st_world fst] in *. destruct El as [Hl El]. split; [done|]. destruct r1 as [u|e].
    + destruct El as (Hd & granted & t & h & -> & Hf). split; [done|]. split; [done|]. split; [done|]. split; [|done].
      by exists granted, h.
    + destruct El as (-> & Hd & h & ->). done.
  - cbn [st_world]. unfold reestablish_fuel. set (m := Z.min _ _) in *. rewrite (Z.max_r 1 m) by lia.
    pose proof (Z.div_mod (rc_budget rc) m ltac:(lia)). pose proof (Z.mod_pos_bound (rc_budget rc) m ltac:(lia)).
    assert (0 <= rc_budget rc / m) by (apply Z.div_pos; lia).
    rewrite !Nat2Z.inj_succ, Z2Nat.id by done. nia.
Qed.

Lemma send_once_later frame s r s' : send_once frame s = (r, s') ->
  later (st_world s) (st_world s') /\ ts_reconnect (st_task s') = ts_reconnect (st_task s).
Proof.
  intros E. pose proof (forward_send_sequenced (fun h => tunneling_request h frame) s) as Hl.
  pose proof (steady_send_once frame s) as Hs. unfold send_once in E. unfold send_once in Hs. rewrite E in Hl, Hs. done.
Qed.

(** The task on a channel granted anew: both counters at the start. *)
Definition on_new_channel (s : TaskIn TaskState W) : Prop :=
  chan_outgoing_seq (ts_chan (st_task s)) = 0 /\ chan_incoming_seq (ts_chan (st_task s)) = 0 /\
  chan_first_incoming (ts_chan (st_task s)) = true /\ exists ia, ts_link_state (st_task s) = LinkUp ia.

(** What a send that lost the link ends with: the frame sent on a new channel,
    the budget spent, or an error of a send that no new channel would cure. *)
Definition resent (frame : CemiFrame) (started : Z) (r : result TransportError unit) (s' : TaskIn TaskState W) : Prop :=
  match r with
  | Ok _ => exists s1, on_new_channel s1 /\ send_once frame s1 = (Ok tt, s')
  | Err e =>
      (exists cause, e = TunnelLost (rc_budget rc) cause /\ started + rc_budget rc <= link_now (st_world s') /\
        ts_link_state (st_task s') = LinkReconnecting) \/
      (should_reestablish rc e = false /\ exists s1, on_new_channel s1 /\ send_once frame s1 = (Err e, s'))
  end.

Lemma resend_loop_decides frame started fuel : forall cause s r s', ts_reconnect (st_task s) = rc ->
  started <= link_now (st_world s) ->
  (S (link_frames (started + rc_budget rc) (st_world s)) < fuel)%nat \/
    (started + rc_budget rc < link_now (st_world s) /\ (0 < fuel)%nat) ->
  resend_loop fuel cause started frame s = (r, s') ->
  later (st_world s) (st_world s') /\ resent frame started r s'.
Proof.
  induction fuel as [|fuel IH]; intros cause s r s' Hrc Hst Hfuel E; [lia|]. cbn [resend_loop] in E.
  destruct (reestablish cause started s) as [r1 s1] eqn:E1.
  destruct (reestablish_outcome _ _ _ _ _ Hrc Hst E1) as (Hl1 & Hrc1 & _ & H1).
  unfold mbind at 1, TaskOp_bind at 1 in E. rewrite E1 in E. destruct r1 as [u|e1].
  - destruct H1 as (Hbefore & (granted & h & Hup & Hch) & H1).
    assert (Hnew : on_new_channel s1) by (unfold on_new_channel; rewrite Hch; repeat split; by eexists). destruct (send_once frame s1) as [r2 s2] eqn:E2.
    rewrite (step_ok (outcome_of (send_once frame)) _ s1 r2 s2 (outcome_inv' _ _ _ _ E2)) in E.
    destruct (send_once_later _ _ _ _ E2) as [Hl2 Hrc2]. destruct r2 as [[]|e2].
    { injection E as <- <-. split; [by etrans|]. by exists s1; split. }
    rewrite (step_ok get_task _ s2 _ s2 eq_refl), Hrc2, Hrc1 in E. destruct (should_reestablish rc e2) eqn:Esh.
    + apply IH in E as [Hl3 E]; [|congruence|destruct Hl1, Hl2; lia|].
      * split; [by do 2 (etrans; [eassumption|])|done].
      * destruct Hl1 as [Hn Hf], Hl2 as [Hn2 Hf2]. specialize (Hf (started + rc_budget rc)). specialize (Hf2 (started + rc_budget rc)). lia.
    + injection E as <- <-. split; [by etrans|]. right. split; [done|]. by exists s1.
  - injection E as <- <-. destruct H1 as (-> & Hd & Hls). split; [done|]. left. by exists cause.
Qed.

End Policy.

(** C24: a send that finds the link lost re-establishes it and sends the pending
    frame again, however often it is lost anew.  It ends as its first transmissions
    do when they are acknowledged or fail with an error that a new channel would not
    cure, and in no other case; else with the frame acknowledged on the channel in
    use, with such an error of a later send, or with [TunnelLost], and that only when
    the whole budget, counted from the first loss, has passed. *)
Theorem send_ends_or_spends_budget (frame : CemiFrame) (s : TaskIn TaskState W) (r : result TransportError unit)
    (s' : TaskIn TaskState W) :
  let rc := ts_reconnect (st_task s) in
  0 <= rc_budget rc -> 1 <= Z.min (rc_initial_backoff rc) (rc_max_backoff rc) -> 0 <= rc_attempt_timeout rc ->
  do_send frame s = (r, s') ->
  (send_once frame s = (r, s') /\ forall e, r = Err e -> should_reestablish rc e = false) \/
  exists cause s0, send_once frame s = (Err cause, s0) /\ should_reestablish rc cause = true /\
    resent rc frame (link_now (st_world s0)) r s'.
Proof.
  intros rc Hb Hm Ha E. unfold do_send in E. destruct (send_once frame s) as [r0 s0] eqn:E0.
  rewrite (step_ok (outcome_of (send_once frame)) _ s r0 s0 (outcome_inv' _ _ _ _ E0)) in E.
  destruct (send_once_later _ _ _ _ E0) as [_ Hrc]. destruct r0 as [[]|cause]; [injection E as <- <-; by left|].
  rewrite (step_ok get_task _ s0 _ s0 eq_refl), Hrc in E. fold rc in E, Hrc.
  destruct (should_reestablish rc cause) eqn:Esh; [|injection E as <- <-; left; split; [done|by intros e [= <-]]]. right. exists cause, s0. split; [done|]. split; [done|].
  unfold resend in E. rewrite Hrc in E. eapply (resend_loop_decides rc Hb Hm Ha) in E; [by destruct E|done|lia|].
  left. cbn. lia.
Qed.

End Sending.

(** ** Inbound requests *)

Section Inbound.
  Context {W : Type} `{TunnelLink W}.

(** The requests of a server that numbers its frames from [seq] on and sends each
    one or more times. *)
Fixpoint repeated (channel seq : u8) (frames : list (nat * CemiFrame)) : list bytes :=
  match frames with
  | [] => []
  | (again, f) :: frames =>
      replicate (S again) (tunneling_request (MkConnectionHeader channel seq) f) ++ repeated channel (as_u8 (seq + 1)) frames
  end.

Definition serve_all (datagrams : list bytes) (s : TaskIn TaskState W) : TaskIn TaskState W :=
  foldl (fun s d => snd (handle_inbound d s)) s datagrams.

(** The next sequence the task takes. *)
Definition expects (seq : u8) (s : TaskIn TaskState W) : Prop :=
  let c := ts_chan (st_task s) in chan_first_incoming c = false /\ chan_incoming_seq c = seq.

Definition queue (s : TaskIn TaskState W) : list (result TransportError CemiFrame) := ts_frames (st_task s).

Lemma inbound_request channel seq f s : CemiFrame_ok f ->
  snd (handle_inbound (tunneling_request (MkConnectionHeader channel seq) f) s) =
  let '(accepted, c, w) := accept_incoming seq (ts_chan (st_task s)) (st_world s) in
  let t := ts_set_chan c (st_task s) in
  MkTaskIn (if accepted then deliver (Ok (CemiFrame_wire f)) t else t) w.
Proof.
  intros Hf. cbn [handle_inbound tunnel_task]. unfold tunnel_handle_inbound, tunneling_request. rewrite <- (app_nil_r (frame _ _)).
  rewrite parse_frame by (pose proof (CemiFrame_encode_length f Hf); unfold zlen in *; rewrite length_app; simpl length; lia).
  cbn [pf_service pf_body snd]. unfold handle_tunneling_request. rewrite parse_tunneling_header_encode. cbn [ch_seq].
  destruct (accept_incoming seq _ _) as [[a c] w]. destruct a; cbn [negb]; [|done].
  rewrite bool_decide_true by done. cbn [negb]. by rewrite (CemiFrame_decode_encode f Hf).
Qed.

(** The expected request is taken; its repetition is not. *)
Lemma request_taken channel seq f s : CemiFrame_ok f -> ts_handle (st_task s) = true -> is_u8 seq ->
  chan_first_incoming (ts_chan (st_task s)) = true \/ expects seq s ->
  let s' := snd (handle_inbound (tunneling_request (MkConnectionHeader channel seq) f) s) in
  queue s' = queue s ++ [Ok (CemiFrame_wire f)] /\ ts_handle (st_task s') = true /\ expects (as_u8 (seq + 1)) s'.
Proof.
  intros Hf Hh Hq He. cbn zeta. rewrite inbound_request by done. unfold accept_incoming.
  set (c := if chan_first_incoming _ then _ else _).
  assert (Hc : chan_incoming_seq c = seq /\ chan_first_incoming c = false).
  { unfold c. destruct He as [-> | [E He]]; [done|by rewrite E]. }
  destruct Hc as [Ec Ef]. rewrite Ec, Z.sub_diag. change (as_u8 0) with 0. cbn [Z.ltb Z.compare Z.eqb].
  unfold queue, expects. cbn. unfold deliver. cbn. rewrite Hh. by cbn.
Qed.

Lemma request_repeated channel seq f s : CemiFrame_ok f -> ts_handle (st_task s) = true -> is_u8 seq -> expects (as_u8 (seq + 1)) s ->
  let s' := snd (handle_inbound (tunneling_request (MkConnectionHeader channel seq) f) s) in
  queue s' = queue s /\ ts_handle (st_task s') = true /\ expects (as_u8 (seq + 1)) s'.
Proof.
  intros Hf Hh Hq [Ef Ei]. cbn zeta. rewrite inbound_request by done. unfold accept_incoming. rewrite Ef, Ei.
  replace (as_u8 (as_u8 (seq + 1) - seq)) with 1 by (unfold is_u8 in Hq; unfold as_u8; rewrite Zminus_mod_idemp_l; by replace (seq + 1 - seq) with 1 by lia).
  cbn [Z.ltb Z.compare Pos.compare Pos.compare_cont Z.eqb Pos.eqb]. unfold queue, expects. cbn. by rewrite Hh.
Qed.

(** C26: however often the server repeats each of its tunnelling requests (it does
    when an acknowledgement is lost), the task queues every frame once, in the
    order of their sequence numbers, across the wrap at 256; after the handshake
    the first request it sees sets the sequence. *)
Theorem inbound_frames_queued_once (frames : list (nat * CemiFrame)) (channel seq : u8) (s : TaskIn TaskState W) :
  Forall (fun '(_, f) => CemiFrame_ok f) frames -> is_u8 seq -> ts_handle (st_task s) = true ->
  chan_first_incoming (ts_chan (st_task s)) = true \/ expects seq s ->
  queue (serve_all (repeated channel seq frames) s) = queue s ++ map (fun '(_, f) => Ok (CemiFrame_wire f)) frames.
Proof.
  revert seq s. induction frames as [|[again f] frames IH]; intros seq s Hf Hq Hh He; [cbn; by rewrite app_nil_r|].
  apply Forall_cons in Hf as [Hf1 Hf]. cbn [repeated map]. unfold serve_all in *. rewrite foldl_app.
  destruct (request_taken channel seq f s Hf1 Hh Hq He) as (E1 & Hh1 & He1). cbn [replicate foldl].
  set (s1 := snd (handle_inbound _ s)) in *.
  assert (Hr : forall s, ts_handle (st_task s) = true -> expects (as_u8 (seq + 1)) s ->
    let s' := foldl (fun s d => snd (handle_inbound d s)) s (replicate again (tunneling_request (MkConnectionHeader channel seq) f)) in
    queue s' = queue s /\ ts_handle (st_task s') = true /\ expects (as_u8 (seq + 1)) s').
  { clear - Hf1 Hq. induction again as [|again IH]; intros s Hh He; [done|]. cbn [replicate foldl].
    destruct (request_repeated channel seq f s Hf1 Hh Hq He) as (E2 & Hh2 & He2). rewrite <- E2. by apply IH. }
  destruct (Hr s1 Hh1 He1) as (E2 & Hh2 & He2). rewrite IH; [|done|unfold is_u8, as_u8; zdiv|done|by right].
  by rewrite E2, E1, <- app_assoc.
Qed.

End Inbound.

(** A gateway that is switched off: sends go out, nothing comes back. *)
Module DeadLink.

#[export] Instance dead_link : TunnelLink Z := {
  link_send _ w := (Ok tt, w);
  link_send_data _ w := (Ok tt, w);
  link_recv _ b w := (LinkElapsed, w + b);
  link_adopt _ w := (Ok tt, w);
  link_acks _ := true;
  link_is_deferred_refusal _ _ := false;
  link_keepalive w := (Ok tt, w);
  link_close w := w;
  link_reopen _ w := (Ok Hpai_wildcard, w);
  link_now w := w;
  link_sleep d w := w + Z.max 0 d;
  link_frames _ _ := O }.

Lemma later_dead (w w' : Z) : w <= w' -> later w w'.
Proof. intros Hw. by split. Qed.

#[export] Instance dead_link_laws : TunnelLinkLaws Z.
Proof.
  constructor; intros; try by apply later_dead.
  - split; [apply later_dead|]; cbn; lia.
  - cbn in *. simplify_eq. split; [apply later_dead; cbn; lia|lia].
Qed.

Definition start : TaskIn TaskState Z :=
  MkTaskIn (TaskState_new (MkGranted 1 (Some 4096) None) Hpai_wildcard false (30 * SECS) TunnelReconnect_default 0) 0.

Definition read : CemiFrame := CemiFrame_group_read (GroupAddress_from_raw 2305) (IndividualAddress_from_raw 0).

End DeadLink.
Import DeadLink.

(** Two seconds for the two transmissions, then the sixty of the budget. *)
Lemma send_ends_or_spends_budget_witness :
  exists s', do_send DeadLink.read DeadLink.start = (Err (TunnelLost (60 * SECS) (TransportTimeout ACK_CONTEXT)), s') /\
    st_world s' = 62 * SECS /\
    exists cause s0, send_once DeadLink.read DeadLink.start = (Err cause, s0) /\
      should_reestablish TunnelReconnect_default cause = true /\
      resent TunnelReconnect_default DeadLink.read (link_now (st_world s0))
        (Err (TunnelLost (60 * SECS) (TransportTimeout ACK_CONTEXT))) s'.
Proof.
  eexists. split; [vm_compute; reflexivity|]. split; [reflexivity|].
  match goal with |- context [resent _ _ _ ?r ?s'] =>
    destruct (send_ends_or_spends_budget DeadLink.read DeadLink.start r s') as [[H _]|H] end;
    [vm_compute; discriminate..|vm_compute; reflexivity| |exact H].
  exfalso. vm_compute in H. discriminate H.
Defined.

(** Sequence 255, sent twice, then 0. *)
Lemma inbound_frames_queued_once_witness :
  queue (serve_all (repeated 1 255 [(1%nat, DeadLink.read); (0%nat, DeadLink.read)]) DeadLink.start)
    = [Ok (CemiFrame_wire DeadLink.read); Ok (CemiFrame_wire DeadLink.read)].
Proof.
  assert (Hf : CemiFrame_ok DeadLink.read) by (unfold CemiFrame_ok; split; [constructor|]; repeat (split; [done|]); vm_compute; lia).
  apply (inbound_frames_queued_once [(1%nat, DeadLink.read); (0%nat, DeadLink.read)] 1 255 DeadLink.start);
    [by repeat constructor|done|done|by left].
Defined.

(** The channel of a request is not looked at: after a re-establishing, a late
    request of the old channel sets the sequence, and the first requests of the new
    one are dropped without an acknowledgement. *)
Example late_request_of_the_old_channel :
  let request channel seq := tunneling_request (MkConnectionHeader channel seq) DeadLink.read in
  queue (serve_all [request 9 200; request 1 0; request 1 1; request 1 2] DeadLink.start) = [Ok (CemiFrame_wire DeadLink.read)].
Proof. vm_compute. reflexivity. Qed.
