(* ===== verification/TunnelNet.v ===== *)
(** * A tunnel over a lossy network

    The client's task ([Channel], [Tunnel]) against the simulator's gateway
    ([Gateway]) over UDP: an instance of [TunnelLink] whose medium loses the
    datagrams a list of losses names, in both directions.  Every frame sent
    without an error reaches the bus, in order, at least once and at most once
    per transmission. *)

From S2P Require Import Prelude OrderedMap Address Cursor Cemi Knxnet Channel Tunnel SimWire SimKnxnet Gateway TunnelSpec.

Local Open Scope string_scope.
Local Open Scope list_scope.
Local Open Scope Z_scope.

#[local] Arguments KnxnetIpFrame_encode : simpl never.

(** ** The bus, with a record of what the tool sent *)

Section LoggingBus.
  Context {B : Type} `{GatewayBus B}.

#[export] Instance logging_bus : GatewayBus (B * list CemiLData) := {
  bus_deliver_from_tool c '(b, sent) := let '(r, b) := bus_deliver_from_tool c b in (r, (b, sent ++ [c]));
  bus_tick_stimulus t '(b, sent) := let '(r, b) := bus_tick_stimulus t b in (r, (b, sent));
  bus_tick_transport t '(b, sent) := let '(r, b) := bus_tick_transport t b in (r, (b, sent));
  bus_l4_connected d '(b, _) := bus_l4_connected d b;
  bus_local_management d c '(b, sent) := let '(r, b) := bus_local_management d c b in (r, (b, sent));
  bus_interface_secure d '(b, _) := bus_interface_secure d b }.

End LoggingBus.

(** ** Waiting, by an invariant *)

Lemma wait_rule {T W A} `{TunnelLink W} size deadline (elapsed : TaskOp T W A) failed body
    (I : TaskIn T W -> Prop) (Q : result TransportError A -> TaskIn T W -> Prop) :
  (forall s, I s -> let '(r, s') := elapsed s in Q r s') ->
  (forall s b, I s ->
    let step (m : result TransportError (option A) * TaskIn T W) :=
      match m with (Ok None, s2) => I s2 | (Ok (Some a), s2) => Q (Ok a) s2 | (Err e, s2) => Q (Err e) s2 end in
    match recv_in size b s with
    | (Ok LinkElapsed, s1) => I s1
    | (Ok (LinkDatagram d), s1) => step (body d s1)
    | (Ok (LinkFailed e), s1) => step (failed e s1)
    | (Err e, s1) => Q (Err e) s1
    end) ->
  forall s, I s -> let '(r, s') := wait_until size deadline elapsed failed body s in Q r s'.
Proof.
  intros He Hstep s Hs. unfold wait_until. generalize (S (S (link_frames deadline (st_world s)))). intros fuel.
  destruct (wait_loop fuel size deadline elapsed failed body s) as [r|] eqn:E; [|by apply He].
  revert s Hs E. induction fuel as [|fuel IH]; intros s Hs E; [done|]. cbn [wait_loop] in E.
  destruct (_ =? 0); [injection E as <-; by apply He|].
  specialize (Hstep s (saturating_sub deadline (link_now (st_world s))) Hs). cbn zeta in Hstep.
  destruct (recv_in _ _ s) as [[[d|e|]|e] s1].
  - destruct (body d s1) as [[[a|]|e] s2]; [by injection E as <-|by apply (IH s2)|by injection E as <-].
  - destruct (failed e s1) as [[[a|]|e'] s2]; [by injection E as <-|by apply (IH s2)|by injection E as <-].
  - injection E as <-. by apply He.
  - by injection E as <-.
Qed.

(** ** The network *)

Section Net.
  Context {B : Type} `{GatewayBus B} `{GS : GatewaySessions} (client : SocketAddrV4).

(** [lw_losses]: which of the next datagrams are lost; later ones arrive. *)
Record LossyWorld : Type := MkLossyWorld {
  lw_gateway : Gateway (B := B * list CemiLData);
  lw_inbox : list bytes;
  lw_now : Z;
  lw_losses : list bool }.

(** The datagrams for the client that arrive. *)
Fixpoint carry (losses : list bool) (out : list Sent) : list bytes * list bool :=
  match out with
  | [] => ([], losses)
  | s :: out =>
      if bool_decide (sent_to s = PeerUdp client) then
        let '(arrived, rest) := carry (tail losses) out in
        (if default false (head losses) then arrived else sent_frame s :: arrived, rest)
      else carry losses out
  end.

(** What the gateway sends of an operation goes on its way. *)
Definition run_gateway (m : GwOp unit) (w : LossyWorld) : LossyWorld :=
  let '(_, out, g) := m (lw_gateway w) in
  let '(arrived, losses) := carry (lw_losses w) out in
  MkLossyWorld g (lw_inbox w ++ arrived) (lw_now w) losses.

Definition lossy_send (d : bytes) (w : LossyWorld) : result TransportError unit * LossyWorld :=
  let w' := MkLossyWorld (lw_gateway w) (lw_inbox w) (lw_now w) (tail (lw_losses w)) in
  (Ok tt, if default false (head (lw_losses w)) then w' else run_gateway (gw_handle_datagram (lw_now w) d client) w').

(** The gateway's bus goes on first; a datagram takes a millisecond, and a shorter
    wait sees none. *)
Definition lossy_recv (size : nat) (budget : Z) (w : LossyWorld) : LinkOutcome * LossyWorld :=
  let w := run_gateway (pump_transport (lw_now w)) w in
  let elapsed := (LinkElapsed, MkLossyWorld (lw_gateway w) (lw_inbox w) (lw_now w + budget) (lw_losses w)) in
  if budget <? MS then elapsed else
  match lw_inbox w with
  | d :: inbox => (LinkDatagram (take size d), MkLossyWorld (lw_gateway w) inbox (lw_now w + MS) (lw_losses w))
  | [] => elapsed
  end.

#[export] Instance lossy_link : TunnelLink LossyWorld := {
  link_send := lossy_send;
  link_send_data := lossy_send;
  link_recv := lossy_recv;
  link_adopt _ w := (Ok tt, w);
  link_acks _ := true;
  link_is_deferred_refusal _ _ := false;
  link_keepalive w := (Ok tt, w);
  link_close w := w;
  link_reopen _ w := (Ok Hpai_wildcard, w);
  link_now := lw_now;
  link_sleep d w := MkLossyWorld (lw_gateway w) (lw_inbox w) (lw_now w + Z.max 0 d) (lw_losses w);
  link_frames deadline w := Z.to_nat ((deadline - lw_now w) / MS + 1) }.

Lemma run_gateway_now m w : lw_now (run_gateway m w) = lw_now w.
Proof. unfold run_gateway. destruct (m _) as [[? out] g]. by destruct (carry _ out). Qed.

Lemma lossy_send_now d w : lw_now (snd (lossy_send d w)) = lw_now w.
Proof. unfold lossy_send. cbn. by destruct (default false _); [|rewrite run_gateway_now]. Qed.

Lemma later_clock (w w' : LossyWorld) : lw_now w <= lw_now w' -> later w w'.
Proof.
  intros Hn. split; [exact Hn|]. intros dl. cbn.
  assert ((dl - lw_now w') / MS <= (dl - lw_now w) / MS) by (apply Z.div_le_mono; unfold MS; lia). lia.
Qed.

#[export] Instance lossy_link_laws : TunnelLinkLaws LossyWorld.
Proof.
  constructor.
  - intros d w. apply later_clock. cbn [link_send lossy_link]. by rewrite lossy_send_now.
  - intros d w. apply later_clock. cbn [link_send_data lossy_link]. by rewrite lossy_send_now.
  - intros h w. by apply later_clock.
  - intros w. by apply later_clock.
  - intros w. by apply later_clock.
  - intros b w. by apply later_clock.
  - intros d w. split; [apply later_clock|]; cbn; lia.
  - intros n b w o w' Hb E. cbn in E. unfold lossy_recv in E.
    pose proof (run_gateway_now (pump_transport (lw_now w)) w) as En.
    set (w1 := run_gateway _ w) in *. destruct (Z.ltb_spec b MS) as [|Hm].
    { injection E as <- <-. cbn. rewrite En. split; [apply later_clock; cbn; lia|lia]. }
    destruct (lw_inbox w1) as [|d inbox]; injection E as <- <-; cbn.
    + rewrite En. split; [apply later_clock; cbn; lia|lia].
    + rewrite En. split; [apply later_clock; cbn; unfold MS; lia|]. intros dl Hdl.
      replace (dl - lw_now w) with (dl - (lw_now w + MS) + 1 * MS) by lia. rewrite Z.div_add by (unfold MS; lia).
      assert (0 <= (dl - (lw_now w + MS)) / MS) by (apply Z.div_pos; unfold MS in *; lia). lia.
Qed.

(** ** What the gateway does with a datagram of the client *)

(** A gateway that tunnels in plain, and serves no interface device. *)
Definition plain_gateway (g : Gateway (B := B * list CemiLData)) : Prop :=
  gw_secure g = None /\ gw_data_port g = None /\ gw_interface_device g = None.

Definition sent_log (g : Gateway (B := B * list CemiLData)) : list CemiLData := snd (gw_bus g).

(** [same_side g g']: of the same kind, on the same channel, and with the same
    tunnel address. *)
Definition same_side (g g' : Gateway (B := B * list CemiLData)) : Prop :=
  plain_gateway g' /\ gw_channel g' = gw_channel g /\ gw_plain_ia g' = gw_plain_ia g.

(** The sequence a datagram acknowledges. *)
Definition ack_seq (d : bytes) : option u8 :=
  match parse (take TASK_BUFFER d) with
  | Ok (MkParsedFrame TunnelingAck body) =>
      match parse_tunneling_ack body with Ok (h, _) => Some (ch_seq h) | Err _ => None end
  | _ => None
  end.

Lemma ack_seq_ack channel seq status : ack_seq (KnxnetIpFrame_encode service.TUNNELLING_ACK [4; channel; seq; status]) = Some seq.
Proof.
  unfold ack_seq. rewrite take_ge by (unfold KnxnetIpFrame_encode, TASK_BUFFER; cbn; lia).
  change (KnxnetIpFrame_encode _ ?b) with (frame TunnelingAck b ++ []). by rewrite parse_frame by (unfold zlen; cbn; lia).
Qed.

Lemma parse_service svc body n p : is_u16 svc -> (6 <= n)%nat ->
  parse (take n (KnxnetIpFrame_encode svc body)) = Ok p -> ServiceType_as_u16 (pf_service p) = svc.
Proof.
  intros Hs Hn E. unfold KnxnetIpFrame_encode in E. rewrite (be_bytes_2 _ Hs), be_bytes_2 in E by zdiv.
  do 6 (destruct n as [|n]; [lia|]). cbn [app firstn] in E. unfold parse in E. cbn [negb orb Z.eqb Pos.eqb HEADER_SIZE_10] in E.
  rewrite (u16_of_split svc Hs) in E. change (negb (16 =? KNXNETIP_VERSION_10)) with false in E. cbv iota in E.
  destruct (ServiceType_from_u16 svc) as [s|e] eqn:Es; [|done]. apply ServiceType_from_inv in Es. subst svc.
  cbn [mbind result_bind] in E. destruct (_ || _); [done|]. by injection E as <-.
Qed.

Lemma ack_seq_request body : ack_seq (KnxnetIpFrame_encode service.TUNNELLING_REQUEST body) = None.
Proof.
  unfold ack_seq. destruct (parse _) as [[s b]|e] eqn:E; [|done].
  apply parse_service in E; [|done|unfold TASK_BUFFER; lia]. cbn in E. by destruct s.
Qed.

(** [only P m]: [m] sends frames of [P] and leaves the gateway as it is but for
    its counters. *)
Definition only (P : bytes -> Prop) {A} (m : GwOp (B := B * list CemiLData) A) : Prop := forall g, plain_gateway g ->
  let '(_, out, g') := m g in Forall (fun s => P (sent_frame s)) out /\ same_side g g' /\ gw_bus g' = gw_bus g.

Definition requests (d : bytes) : Prop := exists body, d = KnxnetIpFrame_encode service.TUNNELLING_REQUEST body.

Lemma only_bind P {A C} (m : GwOp A) (k : A -> GwOp C) : only P m -> (forall a, only P (k a)) -> only P (a ← m; k a).
Proof.
  intros Hm Hk g Hg. unfold mbind, GwOp_bind. specialize (Hm g Hg). destruct (m g) as [[a out] g1].
  destruct Hm as (F1 & (P1 & C1 & I1) & B1). specialize (Hk a g1 P1). destruct (k a g1) as [[c out2] g2].
  destruct Hk as (F2 & (P2 & C2 & I2) & B2). split; [by apply Forall_app|]. split; [|congruence].
  split; [done|]. split; congruence.
Qed.

Lemma only_ret P {A} (a : A) : only P (mret a).
Proof. intros g Hg. by split. Qed.

Lemma only_gw P : only P gw.
Proof. intros g Hg. by split. Qed.

Lemma only_next P peer : only P (next_tx_seq peer).
Proof. intros g Hg. by split. Qed.

Lemma only_send (P : bytes -> Prop) raw addr : P raw -> only P (send_frame raw (PeerUdp addr)).
Proof. intros Hp g Hg. unfold send_frame. cbn. split; [by constructor|]. done. Qed.

(** A gateway without sessions has no connection to write to. *)
Lemma only_send_tcp P raw id : only P (send_frame raw (PeerTcp id)).
Proof.
  intros g Hg. unfold send_frame, mbind, GwOp_bind, gw, session_state, conn_of. rewrite (proj1 Hg). by split.
Qed.

Lemma only_send_all peer P cemis : (forall body, only P (send_frame (KnxnetIpFrame_encode service.TUNNELLING_REQUEST body) peer)) ->
  only P (send_all cemis peer).
Proof.
  intros Hp. induction cemis as [|c cemis IH]; cbn [send_all]; [apply only_ret|]. apply only_bind; [|done].
  unfold send_tunnelling. apply only_bind; [apply only_gw|intros g]. apply only_bind; [apply only_next|done].
Qed.

Lemma only_send_all_udp cemis addr : only requests (send_all cemis (PeerUdp addr)).
Proof. apply only_send_all. intros body. apply only_send. by eexists. Qed.

(** What is sent to other peers does not matter; a bus timer sends requests only. *)
Lemma only_pump t g : plain_gateway g ->
  let '(_, out, g') := pump_transport t g in
  Forall (fun s => sent_to s = PeerUdp client -> ack_seq (sent_frame s) = None) out /\ same_side g g' /\ sent_log g' = sent_log g.
Proof.
  intros Hg. unfold pump_transport, on_bus, mbind, GwOp_bind, gw. cbn. unfold sent_log.
  destruct (gw_bus g) as [b l]. destruct (bus_tick_transport t b) as [r b'].
  set (g1 := gw_set_bus _ g). assert (H1 : plain_gateway g1) by done.
  change (gw_peer g1) with (gw_peer g). destruct (gw_peer g) as [[addr|id]|]; [| |done].
  - pose proof (only_send_all_udp r addr g1 H1) as Ho. destruct (send_all r (PeerUdp addr) g1) as [[u out] g2].
    destruct Ho as (F & Sd & B2). rewrite B2. split; [|by split].
    eapply Forall_impl; [exact F|]. intros s [body Es] _. cbn in Es. rewrite Es. apply ack_seq_request.
  - pose proof (only_send_all (PeerTcp id) (fun _ => False) r (fun b => only_send_tcp _ _ _) g1 H1) as Ho.
    destruct (send_all r (PeerTcp id) g1) as [[u out] g2]. destruct Ho as (F & Sd & B2). rewrite B2. split; [|by split].
    eapply Forall_impl; [exact F|]. by intros s [].
Qed.

(** The frame a datagram of the client is, and what handling it comes to. *)
Lemma plain_datagram t d addr g svc body : plain_gateway g -> KnxnetIpFrame_decode d = Ok (MkKnxnetIpFrame svc body) ->
  exists g1, plain_gateway g1 /\ gw_bus g1 = gw_bus g /\ same_side g g1 /\
    gw_handle_datagram t d addr g = dispatch svc body (PeerUdp addr) g1.
Proof.
  intros (S1 & S2 & S3) Ed. unfold gw_handle_datagram, mbind, GwOp_bind, gw. rewrite S1, S2. cbn.
  unfold gw_handle_frame. rewrite Ed. unfold mbind, GwOp_bind, gw_modify. cbn.
  set (g1 := if _ && _ then _ else g). exists g1.
  assert (Hg1 : plain_gateway g1 /\ gw_bus g1 = gw_bus g /\ same_side g g1).
  { unfold g1. destruct (_ && _); [|done]. unfold sync_interface_secure. cbn. rewrite S3. done. }
  destruct Hg1 as (P1 & B1 & Sd). do 3 (split; [done|]). by destruct (dispatch svc body (PeerUdp addr) g1) as [[[] out] g'].
Qed.

(** Acknowledgements and disconnect responses leave the bus alone. *)
Lemma quiet_datagram t d addr g svc body : plain_gateway g -> KnxnetIpFrame_decode d = Ok (MkKnxnetIpFrame svc body) ->
  svc = service.TUNNELLING_ACK \/ svc = service.DISCONNECT_RESPONSE ->
  let '(_, out, g') := gw_handle_datagram t d addr g in out = [] /\ same_side g g' /\ gw_bus g' = gw_bus g.
Proof.
  intros Hg Ed Hs. destruct (plain_datagram t d addr g svc body Hg Ed) as (g1 & P1 & B1 & Sd & ->).
  by destruct Hs as [-> | ->].
Qed.

(** What a tunnelling request leaves behind: one acknowledgement, then requests. *)
Definition answers_of (channel seq : u8) (d : bytes) : Prop :=
  d = KnxnetIpFrame_encode service.TUNNELLING_ACK [4; channel; seq; 0] \/ requests d.

Lemma only_weaken (P Q : bytes -> Prop) {A} (m : GwOp A) : (forall d, P d -> Q d) -> only P m -> only Q m.
Proof.
  intros Hpq Hm g Hg. specialize (Hm g Hg). destruct (m g) as [[a out] g']. destruct Hm as (F & Hr).
  split; [|done]. eapply Forall_impl; [exact F|]. cbn. auto.
Qed.

Lemma request_datagram t header frame addr g cemi : plain_gateway g ->
  zlen (CemiFrame_encode frame) <= 65000 -> sim_cemi_decode (CemiFrame_encode frame) = Ok cemi ->
  ch_channel_id header = gw_channel g ->
  let '(_, out, g') := gw_handle_datagram t (tunneling_request header frame) addr g in
  Forall (fun s => answers_of (ch_channel_id header) (ch_seq header) (sent_frame s)) out /\ same_side g g' /\
  sent_log g' = sent_log g ++ [under_tunnel_address (gw_plain_ia g) cemi].
Proof.
  intros Hg Hl Ec Eid. destruct header as [channel seq]. cbn [ch_channel_id ch_seq] in *.
  assert (Ed : KnxnetIpFrame_decode (tunneling_request (MkConnectionHeader channel seq) frame) =
    Ok (MkKnxnetIpFrame service.TUNNELLING_REQUEST ([4; channel; seq; 0] ++ CemiFrame_encode frame))).
  { unfold tunneling_request. change (Knxnet.frame SvcTunnelingRequest ?b) with (KnxnetIpFrame_encode service.TUNNELLING_REQUEST b).
    rewrite <- (app_nil_r (KnxnetIpFrame_encode _ _)). rewrite sim_frame_decode_encode; [done|done|].
    unfold zlen in *. rewrite length_app. cbn. lia. }
  destruct (plain_datagram t _ addr g _ _ Hg Ed) as (g1 & P1 & B1 & (P1' & C1 & I1) & ->).
  assert (Ed' : forall b p, dispatch service.TUNNELLING_REQUEST b p g1 = on_tunnelling_request b p g1) by reflexivity. rewrite Ed'.
  unfold on_tunnelling_request. set (body := [4; channel; seq; 0] ++ _).
  assert (Eh : SimConnectionHeader_parse body = Some (MkSimConnectionHeader channel seq 0)) by reflexivity.
  assert (Eb : drop 4 body = CemiFrame_encode frame) by reflexivity. rewrite Eb, Ec. clearbody body.
  unfold mbind at 1, GwOp_bind at 1, gw at 1. rewrite Eh. destruct P1 as (S1 & S2 & S3).
  unfold secure_only. rewrite S1. cbn [is_udp andb sch_channel sch_seq channel_of].
  rewrite C1, <- Eid, Z.eqb_refl. cbn [negb]. unfold tunnel_ia_of. cbn [session_state]. rewrite I1.
  set (c := under_tunnel_address _ cemi).
  unfold acknowledge, SimConnectionHeader_to_bytes, send_frame at 1, on_bus, gw_modify, gw_send, gw, mbind, GwOp_bind.
  cbn [gw_bus gw_set_peer gw_data_port sch_channel sch_seq sch_status]. rewrite B1.
  destruct (gw_bus g) as [b l] eqn:Ebus. cbn [bus_deliver_from_tool logging_bus].
  destruct (bus_deliver_from_tool c b) as [r b']. set (g2 := gw_set_bus (b', l ++ [c]) _).
  assert (P2 : plain_gateway g2) by done. assert (Sd2 : same_side g g2) by by split.
  pose proof (only_send_all_udp (confirmed c r) addr g2 P2) as Ho.
  destruct (send_all (confirmed c r) (PeerUdp addr) g2) as [[u out] g3]. destruct Ho as (F & (P3 & C3 & I3) & B3).
  split; [|split].
  - constructor; [by left|]. eapply Forall_impl; [exact F|]. intros s Hs. by right.
  - split; [done|]. rewrite C3, I3. by destruct Sd2.
  - unfold sent_log. by rewrite B3, Ebus.
Qed.

(** ** What is in the inbox *)

Lemma carry_arrived (P : bytes -> Prop) out : forall losses,
  Forall (fun s => sent_to s = PeerUdp client -> P (sent_frame s)) out -> Forall P (fst (carry losses out)).
Proof.
  induction out as [|s out IH]; intros losses F; [constructor|]. apply Forall_cons in F as [Hs F]. cbn [carry].
  case_bool_decide as Ht; [|by apply IH]. specialize (IH (tail losses) F).
  destruct (carry (tail losses) out) as [arrived rest]. cbn in IH |- *. destruct (default false _); [done|].
  constructor; [by apply Hs|done].
Qed.

(** ** Sending one frame *)

Section OneFrame.
  Context (channel k : u8) (ia : u16) (log0 : list CemiLData) (X : CemiLData).

Definition acks_only (d : bytes) : Prop := forall q, ack_seq d = Some q -> q = k.

(** [n] copies have reached the bus; an acknowledgement of [k] is in the inbox only
    behind every other, and only after the first copy. *)
Record sending (n : nat) (s : TaskIn TaskState LossyWorld) : Prop := {
  se_plain : plain_gateway (lw_gateway (st_world s));
  se_channel : chan_id (ts_chan (st_task s)) = channel;
  se_gw_channel : gw_channel (lw_gateway (st_world s)) = channel;
  se_kind : chan_kind (ts_chan (st_task s)) = TUNNELLING;
  se_ia : gw_plain_ia (lw_gateway (st_world s)) = ia;
  se_seq : chan_outgoing_seq (ts_chan (st_task s)) = k;
  se_log : sent_log (lw_gateway (st_world s)) = log0 ++ replicate n X;
  se_inbox : exists l1 l2, lw_inbox (st_world s) = l1 ++ l2 /\
    Forall (fun d => ack_seq d <> Some k) l1 /\ Forall acks_only l2 /\ (n = O -> l2 = []) }.

(** The channel but for what inbound requests change of it. *)
Definition same_outgoing (t t' : TaskState) : Prop :=
  chan_id (ts_chan t') = chan_id (ts_chan t) /\ chan_kind (ts_chan t') = chan_kind (ts_chan t) /\
  chan_outgoing_seq (ts_chan t') = chan_outgoing_seq (ts_chan t).

Lemma sending_after n s t' w' : sending n s -> same_outgoing (st_task s) t' ->
  same_side (lw_gateway (st_world s)) (lw_gateway w') -> sent_log (lw_gateway w') = sent_log (lw_gateway (st_world s)) ->
  (exists l1 l2, lw_inbox w' = l1 ++ l2 /\ Forall (fun d => ack_seq d <> Some k) l1 /\ Forall acks_only l2 /\ (n = O -> l2 = [])) ->
  sending n (MkTaskIn t' w').
Proof. intros [] (E1 & E2 & E3) (P & C & I) El Hi. constructor; cbn; try done; congruence. Qed.

Lemma silent_not_k d : ack_seq d = None -> ack_seq d <> Some k.
Proof. congruence. Qed.
Lemma silent_only d : ack_seq d = None -> acks_only d.
Proof. intros E q Eq. congruence. Qed.

Lemma sending_recv n size b s : TASK_BUFFER = size -> sending n s ->
  match recv_in size b s with
  | (Ok LinkElapsed, s1) => sending n s1
  | (Ok (LinkDatagram d), s1) => sending n s1 /\ take TASK_BUFFER d = d /\
      (ack_seq d = Some k -> (1 <= n)%nat /\ Forall acks_only (lw_inbox (st_world s1)))
  | (Ok (LinkFailed _), _) | (Err _, _) => False
  end.
Proof.
  intros <- Hs. unfold recv_in. cbn [link_recv lossy_link]. unfold lossy_recv.
  set (w1 := run_gateway _ (st_world s)).
  assert (H1 : sending n (MkTaskIn (st_task s) w1)).
  { unfold w1, run_gateway. pose proof (only_pump (lw_now (st_world s)) _ (se_plain _ _ Hs)) as Ho.
    destruct (pump_transport _ _) as [[u out] g']. destruct Ho as (F & Sd & El).
    pose proof (carry_arrived (fun d => ack_seq d = None) out (lw_losses (st_world s)) F) as Fa. destruct (carry _ out) as [arrived losses]. cbn in Fa.
    apply (sending_after n s); [done|by repeat split|done|done|]. cbn.
    destruct (se_inbox _ _ Hs) as (l1 & l2 & -> & F1 & F2 & E2). destruct n as [|n].
    - exists (l1 ++ arrived), []. rewrite (E2 eq_refl), !app_nil_r. repeat split; [|constructor].
      apply Forall_app. split; [done|]. eapply Forall_impl; [exact Fa|apply silent_not_k].
    - exists l1, (l2 ++ arrived). rewrite <- app_assoc. repeat split; [done| |done].
      apply Forall_app. split; [done|]. eapply Forall_impl; [exact Fa|apply silent_only]. }
  destruct (b <? MS); [by destruct H1; constructor|].
  destruct H1 as [P C C' K I Q L Hi]. cbn in P, C, C', K, I, Q, L, Hi. destruct Hi as (l1 & l2 & Ei & F1 & F2 & E2).
  destruct (lw_inbox w1) as [|d inbox] eqn:Ein.
  - constructor; cbn; try done. exists [], []. by repeat split.
  - assert (Hd : ack_seq (take TASK_BUFFER d) = ack_seq d) by (unfold ack_seq; by rewrite take_take, Nat.min_id).
    rewrite Hd. split; [|split; [by rewrite take_take, Nat.min_id|]].
    + constructor; cbn; try done. destruct l1 as [|d1 l1]; cbn in Ei.
      * subst l2. apply Forall_cons in F2 as [_ F2]. exists [], inbox. repeat split; [constructor|done|]. intros E. by apply E2 in E.
      * injection Ei as <- ->. apply Forall_cons in F1 as [_ F1]. by exists l1, l2.
    + intros Ea. destruct l1 as [|d1 l1]; cbn in Ei.
      * subst l2. apply Forall_cons in F2 as [_ F2]. cbn. split; [|done]. destruct n; [|lia]. by specialize (E2 eq_refl).
      * injection Ei as <- ->. by apply Forall_cons in F1 as [F1 _].
Qed.

(** An acknowledgement or a disconnect response the client sends changes nothing. *)
Lemma sending_quiet n s t' d svc body : sending n s -> same_outgoing (st_task s) t' ->
  KnxnetIpFrame_decode d = Ok (MkKnxnetIpFrame svc body) -> svc = service.TUNNELLING_ACK \/ svc = service.DISCONNECT_RESPONSE ->
  sending n (MkTaskIn t' (snd (lossy_send d (st_world s)))).
Proof.
  intros Hs Ht Ed Hq. unfold lossy_send. cbn [snd]. set (w := MkLossyWorld _ _ _ _).
  destruct (default false _).
  - apply (sending_after n s); [done|done| |done|apply Hs]. split; [apply Hs|done].
  - unfold run_gateway. pose proof (quiet_datagram (lw_now (st_world s)) d client _ svc body (se_plain _ _ Hs) Ed Hq) as Ho.
    cbn [lw_gateway w]. destruct (gw_handle_datagram _ d client _) as [[u out] g']. destruct Ho as (-> & Sd & Eb). cbn.
    apply (sending_after n s); [done|done|done| |]; cbn; [by unfold sent_log; rewrite Eb|]. rewrite app_nil_r. apply Hs.
Qed.

Lemma sending_same n s t' : sending n s -> same_outgoing (st_task s) t' -> sending n (MkTaskIn t' (st_world s)).
Proof. intros Hs Ht. apply (sending_after n s); [done|done| |done|apply Hs]. split; [apply Hs|done]. Qed.

Lemma sending_request n svc body s : sending n s -> sending n (handle_tunneling_request svc body s).
Proof.
  intros Hs. unfold handle_tunneling_request. destruct (parse_tunneling_header body) as [[h c]|]; [|done].
  set (chan := ts_chan (st_task s)).
  assert (Ha : exists chan', snd (fst (accept_incoming (ch_seq h) chan (st_world s))) = chan' /\
    (forall t', ts_chan t' = chan' -> same_outgoing (st_task s) t') /\
    forall t', ts_chan t' = chan' -> sending n (MkTaskIn t' (snd (accept_incoming (ch_seq h) chan (st_world s))))).
  { eexists. split; [reflexivity|]. unfold accept_incoming. set (c0 := if chan_first_incoming chan then _ else _).
    assert (Hc0 : chan_id c0 = chan_id chan /\ chan_kind c0 = chan_kind chan /\ chan_outgoing_seq c0 = chan_outgoing_seq chan)
      by (unfold c0; by destruct (chan_first_incoming chan)).
    cbn [link_acks lossy_link]. destruct (1 <? _); cbn [fst snd].
    { assert (Hso : forall t', ts_chan t' = c0 -> same_outgoing (st_task s) t') by (intros t' E; unfold same_outgoing; by rewrite E).
      split; [done|]. intros t' E. by apply sending_same, Hso. }
    assert (Hq : forall t', same_outgoing (st_task s) t' -> sending n (MkTaskIn t'
      (snd (link_send_data (ck_ack (chan_kind c0) (chan_id c0) (ch_seq h) 0) (st_world s))))).
    { intros t' Ht'. destruct Hc0 as (_ & -> & _). unfold chan. rewrite (se_kind _ _ Hs).
      eapply sending_quiet; [done|done| |by left]. cbn [TUNNELLING ck_ack]. unfold tunneling_ack.
      change (Knxnet.frame TunnelingAck ?b) with (KnxnetIpFrame_encode service.TUNNELLING_ACK b).
      rewrite <- (app_nil_r (KnxnetIpFrame_encode _ _)). apply sim_frame_decode_encode; [done|]. unfold zlen. cbn. lia. }
    destruct (_ =? 1); cbn [fst snd].
    - assert (Hso : forall t', ts_chan t' = c0 -> same_outgoing (st_task s) t') by (intros t' E; unfold same_outgoing; by rewrite E).
      split; [done|]. intros t' E. by apply Hq, Hso.
    - assert (Hso : forall t', ts_chan t' = chan_set_incoming (as_u8 (chan_incoming_seq c0 + 1)) c0 -> same_outgoing (st_task s) t')
        by (intros t' E; unfold same_outgoing; by rewrite E).
      split; [done|]. intros t' E. by apply Hq, Hso. }
  destruct (accept_incoming _ _ _) as [[a c'] w]. destruct Ha as (c'' & Ec & _ & Ha). cbn in Ec, Ha. subst c''.
  destruct a; cbn [negb]; [|by apply Ha]. destruct (bool_decide _); cbn [negb].
  - destruct (CemiFrame_decode c); [|by apply Ha]. apply Ha. unfold deliver. by destruct (ts_handle _).
  - apply Ha. unfold handle_feature_frame. destruct c as [|? [|? ?]]; try done. by destruct (bool_decide _).
Qed.

Lemma sending_serve n d s : sending n s -> sending n (snd (serve_inbound d s)).
Proof.
  intros Hs. unfold serve_inbound. assert (Hh : sending n (snd (handle_inbound d s))); [|by destruct (handle_inbound d s) as [[] s']].
  cbn. unfold tunnel_handle_inbound. destruct (parse d) as [p|]; [|done].
  destruct (pf_service p); cbn [snd]; try apply (sending_request n); try done.
  assert (Ht : same_outgoing (st_task s) (deliver (Err (TransportDisconnected (chan_id (ts_chan (st_task s))))) (st_task s)))
    by (unfold deliver; by destruct (ts_handle _)).
  destruct (parse_disconnect_request _) as [c|]; [|by apply sending_same].
  eapply sending_quiet; [done|done| |by right]. unfold disconnect_response.
  change (Knxnet.frame DisconnectResponse ?b) with (KnxnetIpFrame_encode service.DISCONNECT_RESPONSE b).
  rewrite <- (app_nil_r (KnxnetIpFrame_encode _ _)). apply sim_frame_decode_encode; [done|]. unfold zlen. cbn. lia.
Qed.

(** Waiting for the acknowledgement of [k]. *)
Lemma sending_await n s : sending n s ->
  let '(r, s1) := chan_await_ack k s in
  sending n s1 /\ (r = Ok tt -> (1 <= n)%nat /\ Forall acks_only (lw_inbox (st_world s1))).
Proof.
  intros Hs. unfold chan_await_ack. rewrite (step_ok get_channel _ s _ s eq_refl), (step_ok clock _ s _ s eq_refl).
  change (task_channel (st_task s)) with (ts_chan (st_task s)). rewrite (se_kind _ _ Hs).
  apply (wait_rule _ _ _ _ _ (sending n)); [by intros s1 H1| |done]. clear s Hs. intros s b Hs step.
  pose proof (sending_recv n TASK_BUFFER b s eq_refl Hs) as Hr.
  destruct (recv_in TASK_BUFFER b s) as [[[d|e|]|e] s1]; [|done..].
  destruct Hr as (H1 & Hd & Ha). unfold ack_datagram.
  destruct (parse d) as [p|] eqn:Ep; [|done]. case_bool_decide as Hsvc.
  - destruct (parse_tunneling_ack (pf_body p)) as [[h status]|] eqn:Ea; [|done].
    destruct (Z.eqb_spec (ch_seq h) k) as [Ek|]; [|done]. destruct (negb (status =? 0)); cbn; [by split|].
    split; [done|]. intros _. apply Ha. unfold ack_seq. rewrite Hd, Ep. destruct p as [svc body]. cbn in *. subst svc.
    by rewrite Ea, Ek.
  - pose proof (sending_serve n d s1 H1) as Hv. unfold mbind, TaskOp_bind. by destruct (serve_inbound d s1) as [[u|e] s2].
Qed.

Context (frame : CemiFrame) (cemi : CemiLData).
Hypotheses (Hlen : zlen (CemiFrame_encode frame) <= 65000) (Hcemi : sim_cemi_decode (CemiFrame_encode frame) = Ok cemi).
Hypothesis (HX : X = under_tunnel_address ia cemi).

(** Each transmission arrives or is lost. *)
Lemma sending_transmit n s : sending n s ->
  let d := tunneling_request (MkConnectionHeader channel k) frame in
  exists w', link_send_data d (st_world s) = (Ok tt, w') /\
    (sending n (MkTaskIn (st_task s) w') \/ sending (S n) (MkTaskIn (st_task s) w')).
Proof.
  intros Hs d. cbn [link_send_data lossy_link]. unfold lossy_send. eexists. split; [reflexivity|]. set (w := MkLossyWorld _ _ _ _).
  destruct (default false _).
  - left. apply (sending_after n s); [done|by repeat split| |done|apply Hs]. split; [apply Hs|done].
  - right. unfold run_gateway. cbn [lw_gateway w].
    pose proof (request_datagram (lw_now (st_world s)) (MkConnectionHeader channel k) frame client
      _ cemi (se_plain _ _ Hs) Hlen Hcemi (eq_sym (se_gw_channel _ _ Hs))) as Ho. fold d in Ho.
    destruct (gw_handle_datagram _ d client _) as [[u out] g']. destruct Ho as (F & (P & C & I) & L).
    assert (F' : Forall (fun s0 => sent_to s0 = PeerUdp client -> acks_only (sent_frame s0)) out).
    { eapply Forall_impl; [exact F|]. intros s0 [E|[body E]] _ q Eq; rewrite E in Eq.
      - cbn [ch_channel_id ch_seq] in Eq. rewrite ack_seq_ack in Eq. congruence.
      - by rewrite ack_seq_request in Eq. }
    pose proof (carry_arrived _ out (lw_losses w) F') as Fa. destruct (carry (lw_losses w) out) as [arrived losses]. cbn in Fa.
    destruct Hs as [sP sC sC' sK sI sQ sL (l1 & l2 & Ei & F1 & F2 & E2)]. constructor; cbn; try done; try congruence.
    + rewrite L, sI, sL, <- HX, <- app_assoc. by rewrite replicate_cons_app.
    + exists l1, (l2 ++ arrived). rewrite Ei, <- app_assoc. repeat split; [done|by apply Forall_app|done].
Qed.

(** All transmissions of one frame. *)
Lemma sending_loop repeats : forall n s s', sending n s ->
  send_loop repeats TUNNELLING k (tunneling_request (MkConnectionHeader channel k) frame) s = (Ok tt, s') ->
  exists n' s1, (1 <= n' <= n + S repeats)%nat /\ sending n' s1 /\ Forall acks_only (lw_inbox (st_world s1)) /\
    put_channel (chan_set_outgoing (as_u8 (k + 1))) s1 = (Ok tt, s').
Proof.
  induction repeats as [|repeats IH]; intros n s s' Hs E; cbn [send_loop] in E;
    destruct (sending_transmit n s Hs) as (w' & Ew & Hw);
    set (d := tunneling_request _ frame) in *;
    (assert (Hw' : exists m, (m <= S n)%nat /\ sending m (MkTaskIn (st_task s) w')) by (destruct Hw; eexists; split; try eassumption; lia));
    clear Hw; destruct Hw' as (m & Hm & Hw);
    erewrite (step_ok (on_link (link_send_data d)) _ s tt (MkTaskIn (st_task s) w')) in E by (unfold on_link; by rewrite Ew);
    pose proof (sending_await m _ Hw) as Ha; destruct (chan_await_ack k (MkTaskIn (st_task s) w')) as [r s1] eqn:Ea;
    rewrite (step_ok (outcome_of (chan_await_ack k)) _ _ r s1 (outcome_inv' _ _ _ _ Ea)) in E; destruct Ha as [H1 Ha];
    (destruct r as [[]|e]; [exists m, s1; destruct (Ha eq_refl); split; [lia|]; split; [exact H1|]; split; [done|exact E]|]); [done|].
  destruct (match e with TransportTimeout _ => true | _ => _ end) in E; [|done].
  destruct (IH m s1 s' H1 E) as (n' & s2 & Hn & Hr). exists n', s2. split; [lia|done].
Qed.

End OneFrame.

(** ** Sending a list of frames on one channel *)

Fixpoint send_frames (frames : list CemiFrame) : TaskOp TaskState LossyWorld unit :=
  match frames with
  | [] => mret tt
  | f :: frames => _ ← send_once f; send_frames frames
  end.

(** The task is on the channel the gateway granted, and no acknowledgement of its
    next sequence is on the way. *)
Record ready (s : TaskIn TaskState LossyWorld) : Prop := {
  rd_plain : plain_gateway (lw_gateway (st_world s));
  rd_channel : gw_channel (lw_gateway (st_world s)) = chan_id (ts_chan (st_task s));
  rd_kind : chan_kind (ts_chan (st_task s)) = TUNNELLING;
  rd_inbox : Forall (fun d => ack_seq d <> Some (chan_outgoing_seq (ts_chan (st_task s)))) (lw_inbox (st_world s)) }.

(** The telegram a client's frame stands for on the bus: its message code, control
    octets, destination and TPDU; its own source address, or the tunnel's when it is
    a request that has none. *)
Definition telegram_of (ia : u16) (f : CemiFrame) : CemiLData :=
  let own := IndividualAddress_raw (source f) in
  MkCemiLData
    (match message_code f with LDataReq => SimLDataReq | LDataCon => SimLDataCon | LDataInd => SimLDataInd end)
    (Control1_to_byte (control1 (CemiFrame_wire f))) (Control2_to_byte (control2 f))
    (MkSimIA (match message_code f with LDataReq => if own =? 0 then ia else own | _ => own end))
    (Destination_raw (destination f)) (fst (encode_tpdu (tpci f) (apdu f))).

Lemma telegram_under_tunnel_address ia f : telegram_of ia f = under_tunnel_address ia (sim_view f).
Proof. unfold telegram_of, under_tunnel_address, sim_view. by destruct (message_code f); cbn; try destruct (_ =? 0). Qed.

(** A frame the client can encode and a datagram can carry. *)
Definition sendable (f : CemiFrame) : Prop := CemiFrame_ok f /\ zlen (CemiFrame_encode f) <= 65000.

Definition world_log (s : TaskIn TaskState LossyWorld) : list CemiLData := sent_log (lw_gateway (st_world s)).
Definition world_ia (s : TaskIn TaskState LossyWorld) : u16 := gw_plain_ia (lw_gateway (st_world s)).

Lemma send_once_delivers f s s' : ready s -> sendable f -> send_once f s = (Ok tt, s') ->
  exists n, (1 <= n <= 1 + TUNNELING_RETRANSMITS)%nat /\
    world_log s' = world_log s ++ replicate n (telegram_of (world_ia s) f) /\
    ready s' /\ world_ia s' = world_ia s.
Proof.
  intros Hs [Hf Hlen] E. pose proof (sim_decode_encode f Hf) as Hc. set (c := sim_view f) in *.
  pose proof (telegram_under_tunnel_address (world_ia s) f) as HX. set (X := telegram_of (world_ia s) f) in *. set (chan := ts_chan (st_task s)).
  assert (H0 : sending (chan_id chan) (chan_outgoing_seq chan) (world_ia s) (world_log s) X 0 s).
  { destruct Hs. constructor; try done; cbn; [by rewrite app_nil_r|].
    exists (lw_inbox (st_world s)), []. by rewrite app_nil_r. }
  unfold send_once, send_sequenced in E. rewrite (step_ok get_channel _ s _ s eq_refl) in E.
  change (task_channel (st_task s)) with chan in E.
  erewrite (step_ok (on_link _) _ s true s) in E by by destruct s. cbn [negb] in E.
  replace (chan_kind chan) with TUNNELLING in E by (symmetry; apply Hs).
  destruct (sending_loop _ _ _ _ _ f c Hlen Hc HX _ _ _ _ H0 E) as (n & s1 & Hn & H1 & Ha & Ep).
  exists n. split; [exact Hn|]. unfold put_channel, put_task in Ep. injection Ep as <-.
  destruct H1 as [P C C' K I Q L Hi]. unfold world_log, world_ia. cbn. split; [done|]. split; [|done].
  constructor; cbn; try done; [congruence|]. eapply Forall_impl; [exact Ha|]. intros d Hd Ed.
  apply Hd in Ed. pose proof (Z.mod_pos_bound (chan_outgoing_seq chan + 1) 256). unfold as_u8 in Ed.
  pose proof (Z.div_mod (chan_outgoing_seq chan + 1) 256). lia.
Qed.

(** C23: Over a medium that loses any datagrams, in either direction, the frames a
    tunnel has sent on its channel without an error have reached the gateway's bus
    in their order, each at least once and at most once per transmission, and the
    channel is ready for the next one.  On the bus each has the frame's own message
    code, control octets, destination and TPDU, and the frame's own source address,
    save that a request without one has the tunnel's. *)
Theorem sent_frames_reach_the_bus (frames : list CemiFrame) (s s' : TaskIn TaskState LossyWorld) :
  ready s -> Forall sendable frames -> send_frames frames s = (Ok tt, s') ->
  exists copies, length copies = length frames /\
    Forall (fun n => (1 <= n <= 1 + TUNNELING_RETRANSMITS)%nat) copies /\
    world_log s' = world_log s ++ concat (zip_with replicate copies (map (telegram_of (world_ia s)) frames)) /\ ready s'.
Proof.
  revert s. induction frames as [|f frames IH]; intros s Hs Ht E; cbn [send_frames] in E.
  - injection E as <-. exists []. cbn. by rewrite app_nil_r.
  - apply Forall_cons in Ht as [Hf Ht]. apply step_inv in E as (u & s1 & E1 & E). destruct u.
    destruct (send_once_delivers f s s1 Hs Hf E1) as (n & Hn & Hl & Hs1 & Hia).
    destruct (IH s1 Hs1 Ht E) as (copies & Hlen & Hc & Hl' & Hs'). rewrite Hia in Hl'.
    exists (n :: copies). cbn. split; [by f_equal|]. split; [by constructor|]. split; [|done].
    by rewrite Hl', Hl, <- app_assoc.
Qed.

End Net.

(** ** A bus that answers nothing, and a gateway without sessions *)

Module Demo.

#[export] Instance silent_bus : GatewayBus unit := {
  bus_deliver_from_tool _ b := ([], b);
  bus_tick_stimulus _ b := ([], b);
  bus_tick_transport _ b := ([], b);
  bus_l4_connected _ _ := false;
  bus_local_management _ _ b := (None, b);
  bus_interface_secure _ _ := None }.

#[export] Instance no_sessions : GatewaySessions := {
  Handshake := unit;
  Session := unit;
  hs_respond _ _ _ := None;
  hs_session_id _ := 0;
  hs_session _ := tt;
  hs_authenticate _ _ _ := None;
  session_id _ := 0;
  session_seal s d := (d, s);
  session_open s _ := (None, s) }.

Definition client : SocketAddrV4 := MkSocketAddrV4 192 168 1 10 50000.
Definition server : SocketAddrV4 := MkSocketAddrV4 192 168 1 20 3671.

(** The task right after a handshake, its policy, and what the network loses. *)
Definition start (reconnect : TunnelReconnect) (losses : list bool) : TaskIn TaskState (LossyWorld (B := unit)) :=
  MkTaskIn (TaskState_new (MkGranted 1 (Some 4096) None) (Hpai_new client) false (30 * SECS) reconnect 0)
    (MkLossyWorld (Gateway_bind server (tt, [])) [] 0 losses).

Definition read_of (group : u16) : CemiFrame :=
  CemiFrame_group_read (GroupAddress_from_raw group) (IndividualAddress_from_raw 0).

(** A request with a source of its own. *)
Definition read_from (own group : u16) : CemiFrame :=
  CemiFrame_group_read (GroupAddress_from_raw group) (IndividualAddress_from_raw own).

Lemma read_sendable own group : is_u16 own -> is_u16 group -> zlen (CemiFrame_encode (read_from own group)) <= 65000 ->
  sendable (read_from own group).
Proof.
  intros Ho Hg Hl. split; [|done]. unfold CemiFrame_ok. split; [constructor|]. repeat (split; [done|]). vm_compute. lia.
Qed.

End Demo.
Import Demo.

(** The acknowledgement of the first frame is lost: the frame reaches the bus
    twice, under the tunnel's address; the second one once, under its own. *)
Lemma sent_frames_reach_the_bus_witness :
  let s := Demo.start TunnelReconnect_default [false; true] in
  let s' := snd (send_frames Demo.client [Demo.read_of 2305; Demo.read_from 4357 2306] s) in
  map (fun c => (sim_ia_raw (sim_source c), sim_dest c)) (world_log s') = [(4096, 2305); (4096, 2305); (4357, 2306)] /\
  exists copies, length copies = 2%nat /\ Forall (fun n => (1 <= n <= 1 + TUNNELING_RETRANSMITS)%nat) copies /\
    world_log s' = concat (zip_with replicate copies
      [telegram_of 4096 (Demo.read_of 2305); telegram_of 4096 (Demo.read_from 4357 2306)]) /\ ready s'.
Proof.
  cbn zeta. split; [vm_compute; reflexivity|].
  set (s := Demo.start TunnelReconnect_default [false; true]). set (frames := [Demo.read_of 2305; Demo.read_from 4357 2306]).
  destruct (sent_frames_reach_the_bus Demo.client frames s (snd (send_frames Demo.client frames s))) as (copies & H1 & H2 & H3 & H4).
  - repeat constructor.
  - apply Forall_cons_2; [|apply Forall_cons_2; [|apply Forall_nil_2]]; apply Demo.read_sendable; done.
  - vm_compute. reflexivity.
  - exists copies. split; [exact H1|]. split; [exact H2|]. split; [exact H3|exact H4].
Defined.

(** With the loss of every answer the send fails, though the frame reached the bus
    with each transmission. *)
Example unconfirmed_send_delivered :
  let '(r, s') := do_send (H := lossy_link Demo.client) (Demo.read_of 2305)
    (Demo.start (MkTunnelReconnect 0 SECS SECS SECS SECS) [false; true; true; false; true; true]) in
  r = Err (TransportTimeout ACK_CONTEXT) /\ world_log s' = replicate 2 (telegram_of 4096 (Demo.read_of 2305)).
Proof. vm_compute. by split. Qed.
