(* ===== verification/Crypto.v ===== *)
(** * The decomposed AES-CCM of KNX Secure
    ([crates/bussard-secure/src/crypto.rs], [key.rs])

    CBC-MAC for the tag and AES-CTR for the payload and the tag, the keyring
    attribute encryption and the constant-time comparison.  The block cipher and
    its chaining and stream objects, PBKDF2, SHA-256 and HMAC are crates the
    source only calls: they are the class [SecureCiphers], and what the code
    relies on of them is [SecureCiphersLaws]. *)

From S2P Require Import Prelude.

Local Open Scope string_scope.
Local Open Scope list_scope.
Local Open Scope Z_scope.

(** ** The cipher crates

    [keystream key iv i]: octet [i] of the stream an [Aes128Ctr] keyed with
    [key] and started at [iv] produces.  [cbc_enc] and [cbc_dec] are the states
    of the [Aes128CbcEnc] and [Aes128CbcDec] objects, which chain internally:
    one call transforms one block and moves the state on. *)
Class SecureCiphers : Type := {
  keystream : bytes -> bytes -> nat -> u8;
  cbc_enc : Type;
  cbc_enc_new : bytes -> bytes -> cbc_enc;
  cbc_enc_block : cbc_enc -> bytes -> bytes * cbc_enc;
  cbc_dec : Type;
  cbc_dec_new : bytes -> bytes -> cbc_dec;
  cbc_dec_block : cbc_dec -> bytes -> bytes * cbc_dec;
  pbkdf2_hmac_sha256 : bytes -> bytes -> u32 -> nat -> bytes;
  sha256_digest : bytes -> bytes;
  hmac_sha256 : bytes -> bytes -> bytes }.

(** The stream consists of octets, a block call returns a block, and a decryptor that started with an
    encryptor's key and IV undoes it block by block. *)
Class SecureCiphersLaws `(SecureCiphers) : Prop := {
  keystream_octet : forall key iv i, is_u8 (keystream key iv i);
  cbc_enc_block_octets : forall s b, bytes_ok (fst (cbc_enc_block s b));
  cbc_enc_block_len : forall s b, length b = 16%nat -> length (fst (cbc_enc_block s b)) = 16%nat;
  cbc_dec_block_len : forall s b, length b = 16%nat -> length (fst (cbc_dec_block s b)) = 16%nat;
  cbc_inverse : exists paired : cbc_enc -> cbc_dec -> Prop,
    (forall key iv, paired (cbc_enc_new key iv) (cbc_dec_new key iv)) /\
    (forall e d b, paired e d -> length b = 16%nat -> bytes_ok b ->
       exists d', cbc_dec_block d (fst (cbc_enc_block e b)) = (b, d') /\
                  paired (snd (cbc_enc_block e b)) d') }.

(** ** Keys and errors *)

(** [Key16]: its content is a 16-octet array. *)
Record Key16 : Type := Key16_new { Key16_bytes : bytes }.

Definition Key16_ok (k : Key16) : Prop := length (Key16_bytes k) = 16%nat.

Inductive CryptoError : Type :=
| BadBlockLen (n : nat)
| AdditionalDataTooLong (n : nat)
| RandomFailed (what : string).

#[export] Instance Key16_eq_dec : EqDecision Key16.
Proof. solve_decision. Defined.
#[export] Instance CryptoError_eq_dec : EqDecision CryptoError.
Proof. solve_decision. Defined.

Definition BLOCK : nat := 16.

(** ** Plain octet operations *)

(** [bytes_xor]: [None] is the panic on unequal lengths. *)
Definition bytes_xor (a b : bytes) : option bytes :=
  if bool_decide (length a = length b) then Some (zip_with Z.lxor a b) else None.

Definition byte_pad (data : bytes) : bytes :=
  let rem := (length data mod BLOCK)%nat in
  if bool_decide (rem <> 0%nat) then data ++ replicate (BLOCK - rem) 0 else data.

(** The loop [diff |= x ^ y]. *)
Definition xor_diff (a b : bytes) : u8 :=
  foldl (fun diff p => Z.lor diff (Z.lxor p.1 p.2)) 0 (zip a b).

Definition constant_time_eq (a b : bytes) : bool :=
  if negb (bool_decide (length a = length b)) then false else xor_diff a b =? 0.

Definition Key16_eq (a b : Key16) : bool := xor_diff (Key16_bytes a) (Key16_bytes b) =? 0.

(** [char as u32] of each character of the text. *)
Definition latin1_bytes (s : list Z) : bytes :=
  map (fun cp => if cp <=? 255 then as_u8 cp else 63) s.

Section Ciphers.
  Context `{C : SecureCiphers}.

(** ** CBC *)

(** The in-place loop over the [n] blocks of a buffer. *)
Fixpoint cbc_enc_blocks (n : nat) (s : cbc_enc) (buf : bytes) : bytes :=
  match n with
  | O => []
  | S m => let '(c, s') := cbc_enc_block s (take BLOCK buf) in
           c ++ cbc_enc_blocks m s' (drop BLOCK buf)
  end.

Fixpoint cbc_dec_blocks (n : nat) (s : cbc_dec) (buf : bytes) : bytes :=
  match n with
  | O => []
  | S m => let '(c, s') := cbc_dec_block s (take BLOCK buf) in
           c ++ cbc_dec_blocks m s' (drop BLOCK buf)
  end.

(** The octets the CBC-MAC covers. *)
Definition cbc_mac_input (additional_data payload block_0 : bytes) : bytes :=
  byte_pad (block_0 ++ be_bytes 2 (zlen additional_data) ++ additional_data ++ payload).

Definition cbc_mac (key : Key16) (additional_data payload block_0 : bytes)
    : result CryptoError bytes :=
  if negb (bool_decide (length block_0 = BLOCK)) then Err (BadBlockLen (length block_0))
  else if negb (zlen additional_data <? 65536)
  then Err (AdditionalDataTooLong (length additional_data))
  else
    let buf := cbc_mac_input additional_data payload block_0 in
    let enc := cbc_enc_new (Key16_bytes key) (replicate BLOCK 0) in
    let out := cbc_enc_blocks (length buf / BLOCK) enc buf in
    Ok (drop (length out - BLOCK) out).

Definition aes_cbc_decrypt (key : Key16) (iv ciphertext : bytes) : result CryptoError bytes :=
  if negb (bool_decide (length iv = BLOCK)) then Err (BadBlockLen (length iv))
  else if bool_decide (ciphertext = []) || negb (bool_decide (length ciphertext mod BLOCK = 0)%nat)
  then Err (BadBlockLen (length ciphertext))
  else Ok (cbc_dec_blocks (length ciphertext / BLOCK) (cbc_dec_new (Key16_bytes key) iv)
             ciphertext).

Definition aes_cbc_encrypt (key : Key16) (iv plaintext : bytes) : result CryptoError bytes :=
  if negb (bool_decide (length iv = BLOCK)) then Err (BadBlockLen (length iv))
  else if bool_decide (plaintext = []) || negb (bool_decide (length plaintext mod BLOCK = 0)%nat)
  then Err (BadBlockLen (length plaintext))
  else Ok (cbc_enc_blocks (length plaintext / BLOCK) (cbc_enc_new (Key16_bytes key) iv)
             plaintext).

(** ** CTR *)

(** [StreamCipher::apply_keystream] of a cipher that already used [pos] octets
    of its stream: the data is XORed with the stream, which moves on. *)
Definition apply_keystream (key iv : bytes) (pos : nat) (buf : bytes) : bytes :=
  imap (fun i b => Z.lxor b (keystream key iv (pos + i))) buf.

Definition encrypt_ctr (key : Key16) (counter_0 mac payload : bytes)
    : result CryptoError (bytes * bytes) :=
  if negb (bool_decide (length counter_0 = BLOCK)) then Err (BadBlockLen (length counter_0))
  else if bool_decide (BLOCK < length mac)%nat then Err (BadBlockLen (length mac))
  else
    let enc_mac := apply_keystream (Key16_bytes key) counter_0 0 mac in
    let enc_payload := apply_keystream (Key16_bytes key) counter_0 (length mac) payload in
    Ok (enc_payload, enc_mac).

Definition decrypt_ctr (key : Key16) (counter_0 enc_mac enc_payload : bytes)
    : result CryptoError (bytes * bytes) :=
  encrypt_ctr key counter_0 enc_mac enc_payload.

(** ** Key derivation and keyring attributes *)

Definition PBKDF2_ITERATIONS : u32 := 65536.

Definition pbkdf2_sha256 (password_bytes salt : bytes) (iterations : u32) (out_len : nat)
    : bytes :=
  pbkdf2_hmac_sha256 password_bytes salt iterations out_len.

Definition pbkdf2_key (password_latin1 salt : bytes) : Key16 :=
  Key16_new (pbkdf2_sha256 password_latin1 salt PBKDF2_ITERATIONS BLOCK).

(** [Password::derive] of the password's characters. *)
Definition Password_derive (password : list Z) (salt : bytes) : Key16 :=
  pbkdf2_key (latin1_bytes password) salt.

Definition KEYRING_PASSWORD_PREFIX_LEN : nat := 8.

Definition keyring_iv (created : bytes) : bytes := take BLOCK (sha256_digest created).

Definition keyring_encrypt_key (keyring_key : Key16) (iv : bytes) (key : Key16)
    : result CryptoError bytes :=
  ct ← aes_cbc_encrypt keyring_key iv (Key16_bytes key);
  mret (take BLOCK ct).

(** The padded plaintext of an encrypted password: PKCS#7, a full block when
    already aligned. *)
Definition keyring_password_plain (prefix body : bytes) : bytes :=
  let unpadded := (KEYRING_PASSWORD_PREFIX_LEN + length body)%nat in
  let pad := (BLOCK - unpadded mod BLOCK)%nat in
  prefix ++ body ++ replicate pad (as_u8 (Z.of_nat pad)).

Definition keyring_encrypt_password (keyring_key : Key16) (iv prefix body : bytes)
    : result CryptoError bytes :=
  aes_cbc_encrypt keyring_key iv (keyring_password_plain prefix body).

Definition keyring_password_prefix (keyring_key : Key16) (context password : bytes) : bytes :=
  take KEYRING_PASSWORD_PREFIX_LEN
    (hmac_sha256 (Key16_bytes keyring_key) (context ++ [0] ++ password)).

End Ciphers.

(** ** An instance

    Used where a theorem is applied at a concrete input: the block function and
    the stream are XORs with the key, which satisfies the laws.  [block16] makes
    a buffer one block of octets. *)
Definition block16 (b : bytes) : bytes := map as_u8 (take 16 (b ++ replicate 16 0)).

Definition xor_block (a b : bytes) : bytes := zip_with Z.lxor a b.

Definition demo_ciphers : SecureCiphers := {|
  keystream key iv i :=
    as_u8 (Z.lxor (nth (i mod 16) key 0) (Z.lxor (nth (i mod 16) iv 0) (Z.of_nat i)));
  cbc_enc := bytes * bytes;
  cbc_enc_new key iv := (block16 key, block16 iv);
  cbc_enc_block s b :=
    let c := xor_block (xor_block (block16 b) (block16 s.2)) (block16 s.1) in (c, (s.1, c));
  cbc_dec := bytes * bytes;
  cbc_dec_new key iv := (block16 key, block16 iv);
  cbc_dec_block s c :=
    (xor_block (xor_block (block16 c) (block16 s.1)) (block16 s.2), (s.1, block16 c));
  pbkdf2_hmac_sha256 p s _ n := take n (p ++ s ++ replicate n 0);
  sha256_digest d := take 32 (d ++ replicate 32 0);
  hmac_sha256 k d := take 32 (k ++ d ++ replicate 32 0) |}.

(** ** Lemmas *)

Lemma length_block16 b : length (block16 b) = 16%nat.
Proof. unfold block16. rewrite length_map, length_take, length_app, length_replicate. lia. Qed.

Lemma block16_ok b : bytes_ok (block16 b).
Proof. unfold block16, bytes_ok. apply Forall_map, Forall_true. intros x. zdiv. Qed.

Lemma block16_id b : length b = 16%nat -> bytes_ok b -> block16 b = b.
Proof.
  intros H Hb. unfold block16. rewrite <- H at 1. rewrite take_app_length.
  rewrite <- (map_id b) at 2. apply map_ext_Forall. eapply Forall_impl; [exact Hb|].
  intros x Hx. by apply Z.mod_small.
Qed.

Lemma length_xor_block a b : length a = length b -> length (xor_block a b) = length a.
Proof. intros H. unfold xor_block. rewrite length_zip_with. lia. Qed.

Lemma xor_block_involutive a k : length a = length k -> xor_block (xor_block a k) k = a.
Proof. apply zip_with_lxor_involutive. Qed.

#[export] Instance demo_ciphers_laws : SecureCiphersLaws demo_ciphers.
Proof.
  assert (Hx : forall a b c, length (xor_block (xor_block (block16 a) (block16 b)) (block16 c))
                             = 16%nat).
  { intros a b c. rewrite !length_xor_block; rewrite ?length_block16; try done.
    rewrite length_xor_block; rewrite ?length_block16; done. }
  assert (Ho : forall a b c, bytes_ok (xor_block (xor_block (block16 a) (block16 b)) (block16 c))).
  { intros a b c. unfold xor_block. auto using zip_with_lxor_ok, block16_ok. }
  split.
  - intros key iv i. simpl. zdiv.
  - intros s b. apply Ho.
  - intros s b _. simpl. apply Hx.
  - intros s b _. simpl. apply Hx.
  - exists eq. split; [done|]. intros e d b <- Hb Hbok. destruct e as [k v]. simpl.
    rewrite !(block16_id (xor_block _ _)) by (first [apply Hx | apply Ho]). eexists. split; [f_equal|done].
    rewrite xor_block_involutive by (rewrite length_xor_block, !length_block16; rewrite ?length_block16; done).
    rewrite xor_block_involutive by (by rewrite !length_block16). by apply block16_id.
Qed.

Lemma length_byte_pad data :
  exists n, length (byte_pad data) = (n * 16)%nat /\ (length data <= n * 16)%nat.
Proof.
  unfold byte_pad, BLOCK. pose proof (Nat.div_mod_eq (length data) 16) as Hd.
  pose proof (Nat.mod_upper_bound (length data) 16). case_bool_decide as Hr.
  - exists (S (length data / 16)). rewrite length_app, length_replicate. lia.
  - exists (length data / 16)%nat. lia.
Qed.

Lemma xor_diff_acc l d :
  foldl (fun diff p => Z.lor diff (Z.lxor p.1 p.2)) d l = 0 <->
  d = 0 /\ Forall (fun p : Z * Z => p.1 = p.2) l.
Proof.
  revert d. induction l as [|p l IH]; intros d; simpl.
  - split; [intros ->; split; [done|constructor] | tauto].
  - rewrite IH, Z.lor_eq_0_iff, Z.lxor_eq_0_iff, Forall_cons. tauto.
Qed.

Lemma xor_diff_zero a b : length a = length b -> xor_diff a b = 0 <-> a = b.
Proof.
  intros Hl. unfold xor_diff. rewrite xor_diff_acc. split.
  - intros [_ HF]. revert b Hl HF. induction a as [|x a IH]; intros [|y b] Hl HF; try done.
    simpl in HF. apply Forall_cons in HF as [E HF]. simpl in E, Hl. f_equal; [done|].
    apply IH; [lia|done].
  - intros <-. split; [done|]. clear. induction a; simpl; constructor; done.
Qed.

Lemma constant_time_eq_iff a b : constant_time_eq a b = true <-> a = b.
Proof.
  unfold constant_time_eq. case_bool_decide as Hl; simpl.
  - rewrite Z.eqb_eq. by apply xor_diff_zero.
  - split; [done | intros ->; done].
Qed.

Lemma constant_time_eq_refl a : constant_time_eq a a = true.
Proof. by apply constant_time_eq_iff. Qed.

Section CipherLemmas.
  Context `{C : SecureCiphers}.

Lemma length_apply_keystream key iv pos buf :
  length (apply_keystream key iv pos buf) = length buf.
Proof. apply length_imap. Qed.

Lemma apply_keystream_involutive key iv pos buf :
  apply_keystream key iv pos (apply_keystream key iv pos buf) = buf.
Proof.
  unfold apply_keystream. apply list_eq. intros i. rewrite !list_lookup_imap.
  destruct (buf !! i) as [b|]; [|done]. simpl.
  rewrite Z.lxor_assoc, Z.lxor_nilpotent, Z.lxor_0_r. done.
Qed.

Lemma encrypt_ctr_eq key counter_0 mac payload :
  length counter_0 = BLOCK -> (length mac <= BLOCK)%nat ->
  encrypt_ctr key counter_0 mac payload
  = Ok (apply_keystream (Key16_bytes key) counter_0 (length mac) payload,
        apply_keystream (Key16_bytes key) counter_0 0 mac).
Proof.
  intros Hc Hm. unfold encrypt_ctr. rewrite bool_decide_true by done. simpl.
  rewrite bool_decide_false by lia. done.
Qed.

(** Decryption recovers what encryption was given, for any keystream. *)
Lemma decrypt_encrypt_ctr_eq key counter_0 mac payload ep em :
  length counter_0 = BLOCK -> (length mac <= BLOCK)%nat ->
  encrypt_ctr key counter_0 mac payload = Ok (ep, em) ->
  length ep = length payload /\ length em = length mac /\
  decrypt_ctr key counter_0 em ep = Ok (payload, mac).
Proof.
  intros Hc Hm E. rewrite encrypt_ctr_eq in E by done. injection E as <- <-.
  rewrite !length_apply_keystream. split; [done|]. split; [done|].
  unfold decrypt_ctr. rewrite encrypt_ctr_eq by (rewrite ?length_apply_keystream; done).
  rewrite length_apply_keystream, !apply_keystream_involutive. done.
Qed.

Context `{L : !SecureCiphersLaws C}.

Lemma apply_keystream_octets key iv pos buf :
  bytes_ok buf -> bytes_ok (apply_keystream key iv pos buf).
Proof.
  intros Hb. unfold apply_keystream, bytes_ok. apply Forall_lookup. intros i x Hx.
  rewrite list_lookup_imap in Hx. destruct (buf !! i) as [b|] eqn:E; [|done].
  injection Hx as <-. apply lxor_u8; [|apply keystream_octet].
  by eapply Forall_lookup_1 in E.
Qed.

Lemma length_cbc_enc_blocks n s buf : length buf = (n * 16)%nat ->
  length (cbc_enc_blocks n s buf) = (n * 16)%nat.
Proof.
  revert s buf. induction n as [|n IH]; intros s buf Hl; [done|]. simpl cbc_enc_blocks.
  assert (Ht : length (take BLOCK buf) = 16%nat) by (unfold BLOCK; rewrite length_take; lia).
  pose proof (cbc_enc_block_len s _ Ht) as Hc.
  destruct (cbc_enc_block s (take BLOCK buf)) as [c s']. simpl in Hc.
  rewrite length_app, Hc, IH; [lia|]. unfold BLOCK. rewrite length_drop. lia.
Qed.

Lemma cbc_enc_blocks_octets n s buf : bytes_ok (cbc_enc_blocks n s buf).
Proof.
  revert s buf. induction n as [|n IH]; intros s buf; [constructor|]. simpl cbc_enc_blocks.
  pose proof (cbc_enc_block_octets s (take BLOCK buf)) as Hc.
  destruct (cbc_enc_block s (take BLOCK buf)) as [c s']. apply Forall_app. split; [exact Hc|apply IH].
Qed.

Lemma cbc_dec_enc_blocks n e d buf (paired : cbc_enc -> cbc_dec -> Prop) :
  (forall e d b, paired e d -> length b = 16%nat -> bytes_ok b ->
     exists d', cbc_dec_block d (fst (cbc_enc_block e b)) = (b, d') /\
                paired (snd (cbc_enc_block e b)) d') ->
  paired e d -> length buf = (n * 16)%nat -> bytes_ok buf ->
  cbc_dec_blocks n d (cbc_enc_blocks n e buf) = buf.
Proof.
  intros Hstep. revert e d buf. induction n as [|n IH]; intros e d buf Hp Hl Hok.
  { destruct buf; done. }
  simpl cbc_enc_blocks.
  assert (Ht : length (take BLOCK buf) = 16%nat) by (unfold BLOCK; rewrite length_take; lia).
  pose proof (cbc_enc_block_len e _ Ht) as Hc.
  destruct (Hstep e d _ Hp Ht (bytes_ok_take _ _ Hok)) as (d' & Hd & Hp').
  destruct (cbc_enc_block e (take BLOCK buf)) as [c e']. simpl in Hc, Hd, Hp'.
  simpl cbc_dec_blocks. rewrite take_app_length', drop_app_length', Hd by done.
  rewrite IH; [|done|unfold BLOCK; rewrite length_drop; lia|by apply bytes_ok_drop].
  unfold BLOCK. apply take_drop.
Qed.

Lemma cbc_mac_ok key ad payload block_0 :
  length block_0 = BLOCK -> zlen ad < 65536 ->
  exists mac, cbc_mac key ad payload block_0 = Ok mac /\ length mac = BLOCK /\ bytes_ok mac.
Proof.
  intros Hb Ha. unfold cbc_mac. rewrite bool_decide_true by done. cbn [negb].
  apply Z.ltb_lt in Ha as ->. cbn [negb]. eexists. split; [reflexivity|].
  unfold cbc_mac_input. set (data := block_0 ++ _).
  assert (Hge : (16 <= length data)%nat)
    by (unfold data; rewrite length_app, Hb; unfold BLOCK; lia).
  destruct (length_byte_pad data) as (n & Hn & Hle).
  rewrite Hn. replace (n * 16 / BLOCK)%nat with n by (unfold BLOCK; rewrite Nat.div_mul; lia).
  split; [|apply bytes_ok_drop, cbc_enc_blocks_octets].
  rewrite length_drop, length_cbc_enc_blocks by done. unfold BLOCK in *. lia.
Qed.

Lemma aes_cbc_roundtrip key iv plain :
  length iv = BLOCK -> plain <> [] -> (length plain mod BLOCK = 0)%nat -> bytes_ok plain ->
  exists ct, aes_cbc_encrypt key iv plain = Ok ct /\ length ct = length plain /\
             aes_cbc_decrypt key iv ct = Ok plain.
Proof.
  intros Hiv Hne Hmod Hok. unfold aes_cbc_encrypt, aes_cbc_decrypt.
  rewrite !(bool_decide_true (length iv = BLOCK)) by done.
  rewrite (bool_decide_false (plain = [])), (bool_decide_true (_ mod _ = _)%nat) by done. cbn [negb orb].
  assert (Hl : length plain = (length plain / BLOCK * 16)%nat).
  { pose proof (Nat.div_mod_eq (length plain) BLOCK). unfold BLOCK in *. lia. }
  pose proof (length_cbc_enc_blocks _ (cbc_enc_new (Key16_bytes key) iv) _ Hl) as Hcl.
  eexists. split; [reflexivity|]. rewrite Hcl, <- Hl. split; [done|].
  rewrite bool_decide_false; [|intros E; rewrite E in Hcl; destruct plain; [done|simpl in *; lia]].
  rewrite bool_decide_true by done. cbn [negb orb]. f_equal.
  destruct cbc_inverse as (paired & Hnew & Hstep). by eapply cbc_dec_enc_blocks.
Qed.

End CipherLemmas.

(** ** Properties *)

(** AES-CTR decryption undoes encryption for every keystream: with the MAC
    passed as long as it is on the wire, both the payload and the MAC come back,
    and nothing changes length.  A counter that is not one block or a MAC longer
    than a block is refused. *)
Theorem ctr_roundtrip `{C : SecureCiphers} key counter_0 mac payload :
  if bool_decide (length counter_0 = BLOCK) && bool_decide (length mac <= BLOCK)%nat
  then exists ep em, encrypt_ctr key counter_0 mac payload = Ok (ep, em)
    /\ length ep = length payload /\ length em = length mac
    /\ decrypt_ctr key counter_0 em ep = Ok (payload, mac)
  else exists n, encrypt_ctr key counter_0 mac payload = Err (BadBlockLen n) /\
       (n = length counter_0 \/ n = length mac).
Proof.
  destruct (decide (length counter_0 = BLOCK)) as [Hc|Hc].
  - rewrite (bool_decide_true (_ = _)) by done. simpl. case_bool_decide as Hm.
    + eexists _, _. rewrite encrypt_ctr_eq by done. split; [reflexivity|].
      apply decrypt_encrypt_ctr_eq; [done..|]. by rewrite encrypt_ctr_eq.
    + exists (length mac). unfold encrypt_ctr. rewrite (bool_decide_true (_ = _)) by done. simpl.
      rewrite bool_decide_true by lia. auto.
  - rewrite (bool_decide_false (_ = _)) by done. simpl. exists (length counter_0).
    unfold encrypt_ctr. rewrite bool_decide_false by done. auto.
Qed.

(** The comparison without early exit decides equality: slices of different
    length compare unequal, and a single differing octet anywhere is found. *)
Theorem constant_time_eq_correct a b :
  constant_time_eq a b = bool_decide (a = b).
Proof.
  apply eq_true_iff_eq. rewrite constant_time_eq_iff, bool_decide_eq_true. done.
Qed.
