(* ===== verification/Keyring.v ===== *)
(** * Passwords of a keyring ([crates/bussard-project/src/keyring.rs])

    The reader of the encrypted password attributes whose writer is
    [keyring_encrypt_password]: prefix, PKCS#7 padding and UTF-8.  The XML
    reader, base64 and the signature walk are not modelled. *)

From stdpp Require Import pretty.
From S2P Require Import Prelude Crypto.

Local Open Scope string_scope.
Local Open Scope list_scope.
Local Open Scope Z_scope.

Definition EXTRACT_PREFIX_LEN : nat := 8.
Definition AES_BLOCK_LEN : nat := 16.

(** The errors of [KeyringError] the extraction returns. *)
Inductive KeyringError : Type :=
| ShortBlob (attribute : string)
| BadPadding (attribute reason : string)
| InvalidAttribute (attribute reason : string)
| KeyringCrypto (e : CryptoError).

(** A continuation octet of a multi-octet UTF-8 sequence. *)
Definition utf8_cont (b : u8) : bool := (128 <=? b) && (b <=? 191).

(** The standard library's [str::from_utf8] check: the well-formed sequences of
    the Unicode standard (no overlong form, no surrogate, at most U+10FFFF). *)
Fixpoint utf8_valid (l : bytes) : bool :=
  match l with
  | [] => true
  | a :: r =>
      if a <? 128 then utf8_valid r else
      match r with
      | b :: r2 =>
          if (194 <=? a) && (a <=? 223) then utf8_cont b && utf8_valid r2 else
          match r2 with
          | c :: r3 =>
              if (224 <=? a) && (a <=? 239)
              then ((if a =? 224 then 160 else 128) <=? b) && (b <=? (if a =? 237 then 159 else 191))
                   && utf8_cont c && utf8_valid r3
              else
              match r3 with
              | d :: r4 =>
                  (240 <=? a) && (a <=? 244)
                  && ((if a =? 240 then 144 else 128) <=? b)
                  && (b <=? (if a =? 244 then 143 else 191))
                  && utf8_cont c && utf8_cont d && utf8_valid r4
              | [] => false
              end
          | [] => false
          end
      | [] => false
      end
  end.

Definition extract_password (data : bytes) (attribute : string) : result KeyringError bytes :=
  if bool_decide (length data <= EXTRACT_PREFIX_LEN)%nat then Err (ShortBlob attribute) else
  last ← ok_or (BadPadding attribute "the blob is empty") (last data);
  let pad := Z.to_nat last in
  if bool_decide (pad = 0%nat) || bool_decide (AES_BLOCK_LEN < pad)%nat
  then Err (BadPadding attribute ("pad length " +:+ pretty pad +:+ " is not 1..=16"))
  else if bool_decide (length data < pad)%nat
          || bool_decide (length data - pad < EXTRACT_PREFIX_LEN)%nat
  then Err (ShortBlob attribute)
  else
    let end_ := (length data - pad)%nat in
    if existsb (fun b => negb (b =? last)) (drop end_ data)
    then Err (BadPadding attribute "the padding bytes are not all equal")
    else
      let body := slice EXTRACT_PREFIX_LEN end_ data in
      if utf8_valid body then Ok body
      else Err (InvalidAttribute attribute "decrypted password is not valid UTF-8").

(** [decrypt_password] once the attribute is read and base64-decoded. *)
Definition decrypt_password `{SecureCiphers} (ciphertext : bytes) (attribute : string)
    (keyring_key : Key16) (iv : bytes) : result KeyringError bytes :=
  plaintext ← map_err KeyringCrypto (aes_cbc_decrypt keyring_key iv ciphertext);
  extract_password plaintext attribute.

(** ** Lemmas *)

Lemma keyring_plain_length prefix body : length prefix = KEYRING_PASSWORD_PREFIX_LEN ->
  exists pad, keyring_password_plain prefix body = prefix ++ body ++ replicate pad (Z.of_nat pad)
    /\ (1 <= pad <= 16)%nat
    /\ (length (keyring_password_plain prefix body) mod BLOCK = 0)%nat.
Proof.
  intros Hp. unfold keyring_password_plain, KEYRING_PASSWORD_PREFIX_LEN, BLOCK in *.
  set (n := (8 + length body)%nat).
  pose proof (Nat.mod_upper_bound n 16). pose proof (Nat.div_mod_eq n 16).
  assert (E : as_u8 (Z.of_nat (16 - n mod 16)) = Z.of_nat (16 - n mod 16)) by zdiv.
  rewrite E. eexists. split; [reflexivity|]. split; [lia|].
  rewrite !length_app, length_replicate, Hp.
  replace (8 + (length body + (16 - n mod 16)))%nat with ((n / 16 + 1) * 16)%nat by lia.
  apply Nat.Div0.mod_mul.
Qed.

Lemma existsb_replicate n v : existsb (fun b => negb (b =? v)) (replicate n v) = false.
Proof. induction n; simpl; [done|]. rewrite Z.eqb_refl. done. Qed.

Lemma extract_password_plain prefix body pad attribute :
  length prefix = EXTRACT_PREFIX_LEN -> (1 <= pad <= 16)%nat -> utf8_valid body = true ->
  extract_password (prefix ++ body ++ replicate pad (Z.of_nat pad)) attribute = Ok body.
Proof.
  intros Hp Hpad Hu. unfold extract_password.
  set (data := prefix ++ body ++ replicate pad (Z.of_nat pad)).
  assert (Hl : length data = (8 + length body + pad)%nat).
  { unfold data. rewrite !length_app, length_replicate, Hp. unfold EXTRACT_PREFIX_LEN. lia. }
  rewrite Hl. unfold EXTRACT_PREFIX_LEN, AES_BLOCK_LEN in *. rewrite bool_decide_false by lia.
  assert (Hlast : last data = Some (Z.of_nat pad)).
  { unfold data. rewrite app_assoc. destruct pad as [|p]; [lia|].
    rewrite replicate_S_end, app_assoc, last_snoc. done. }
  rewrite Hlast. cbn [ok_or mbind result_bind]. rewrite Nat2Z.id.
  rewrite !bool_decide_false by lia. cbn [orb].
  replace (8 + length body + pad - pad)%nat with (length (prefix ++ body))
    by (rewrite length_app; lia).
  assert (Hd : drop (length (prefix ++ body)) data = replicate pad (Z.of_nat pad)).
  { unfold data. rewrite app_assoc. apply drop_app_length. }
  rewrite Hd, existsb_replicate. rewrite length_app, <- Hp. unfold data. rewrite slice_app, Hu. done.
Qed.

(** ** Properties *)

(** a password written into a key store or keyring export is read back: for
    every cipher with the laws, key, IV, 8-octet prefix and UTF-8 password, the
    encryption succeeds and [decrypt_password] of the ciphertext under the same
    key and IV returns exactly the password, whatever its length (a full padding
    block is added when it is already aligned). *)
Theorem keyring_password_roundtrip `{C : SecureCiphers, !SecureCiphersLaws C}
    keyring_key iv prefix body attribute :
  length iv = BLOCK -> length prefix = KEYRING_PASSWORD_PREFIX_LEN -> bytes_ok prefix ->
  bytes_ok body -> utf8_valid body = true ->
  exists ct, keyring_encrypt_password keyring_key iv prefix body = Ok ct
    /\ (length ct mod BLOCK = 0)%nat
    /\ decrypt_password ct attribute keyring_key iv = Ok body.
Proof.
  intros Hiv Hp Hpok Hbok Hu. destruct (keyring_plain_length prefix body Hp) as (pad & E & Hpad & Hmod).
  assert (Hne : keyring_password_plain prefix body <> []).
  { rewrite E. destruct prefix; done. }
  assert (Hok : bytes_ok (keyring_password_plain prefix body)).
  { rewrite E. apply Forall_app. split; [done|]. apply Forall_app. split; [done|].
    apply Forall_replicate. unfold is_u8. lia. }
  destruct (aes_cbc_roundtrip keyring_key iv _ Hiv Hne Hmod Hok) as (ct & He & Hl & Hd).
  exists ct. split; [exact He|]. rewrite Hl. split; [done|].
  unfold decrypt_password. rewrite Hd. cbn [map_err mbind result_bind]. rewrite E.
  by apply extract_password_plain.
Qed.

Lemma keyring_password_roundtrip_witness :
  exists ct, @keyring_encrypt_password demo_ciphers (Key16_new (replicate 16 7)) (replicate 16 9)
      (replicate 8 1) [103; 101; 104; 101; 105; 109; 195; 159] = Ok ct
    /\ (length ct mod BLOCK = 0)%nat
    /\ @decrypt_password demo_ciphers ct "Password" (Key16_new (replicate 16 7)) (replicate 16 9)
       = Ok [103; 101; 104; 101; 105; 109; 195; 159].
Proof.
  apply keyring_password_roundtrip;
    [reflexivity|reflexivity|solve_bytes|solve_bytes|vm_compute; reflexivity].
Defined.

(** the padding is checked, not trusted: a blob yields a password only when it
    is longer than the prefix, its last octet is a count of 1 to 16 that stays
    behind the prefix, all the counted octets equal it, and what remains is UTF-8;
    then the password is exactly what is between prefix and padding. *)
Theorem extract_password_checks data attribute body :
  bytes_ok data ->
  extract_password data attribute = Ok body <->
  exists prefix pad, data = prefix ++ body ++ replicate pad (Z.of_nat pad)
    /\ length prefix = EXTRACT_PREFIX_LEN /\ (1 <= pad <= 16)%nat /\ utf8_valid body = true.
Proof.
  intros Hok. split; [|intros (p & pad & -> & ? & ? & ?); by apply extract_password_plain].
  unfold extract_password, EXTRACT_PREFIX_LEN, AES_BLOCK_LEN. case_bool_decide as Hlen; [done|].
  destruct (last data) as [l|] eqn:El; [|done]. cbn [ok_or mbind result_bind].
  assert (Hl8 : is_u8 l).
  { apply last_Some_elem_of in El. by eapply Forall_forall in Hok. }
  unfold is_u8 in Hl8.
  destruct (bool_decide _ || bool_decide _) eqn:E1; [done|].
  apply orb_false_iff in E1 as [E1 E2]. apply bool_decide_eq_false in E1, E2.
  destruct (bool_decide _ || bool_decide _) eqn:E3; [done|].
  apply orb_false_iff in E3 as [E3 E4]. apply bool_decide_eq_false in E3, E4.
  set (e := (length data - Z.to_nat l)%nat) in *.
  destruct (existsb _ _) eqn:Ee; [done|]. destruct (utf8_valid _) eqn:Eu; [|done].
  intros [= <-]. exists (take 8 data), (Z.to_nat l). rewrite Z2Nat.id by lia.
  assert (Hrep : drop e data = replicate (Z.to_nat l) l).
  { symmetry. apply replicate_as_elem_of. split.
    - rewrite length_drop. unfold e. lia.
    - intros y Hy. destruct (Z.eq_dec y l) as [|Hne]; [done|].
      exfalso. apply (eq_true_false_abs (existsb (fun b => negb (b =? l)) (drop e data))); [|done].
      apply existsb_exists. exists y. split; [by apply list_elem_of_In|].
      by rewrite (proj2 (Z.eqb_neq y l)). }
  split; [|split; [rewrite length_take; lia|split; [lia|done]]].
  unfold slice. rewrite <- Hrep, app_assoc.
  replace (take 8 data ++ take (e - 8) (drop 8 data)) with (take e data).
  - symmetry. apply take_drop.
  - rewrite <- (take_drop 8 (take e data)). rewrite take_take, <- skipn_firstn_comm.
    f_equal. f_equal. lia.
Qed.

Lemma extract_password_checks_witness :
  exists prefix pad, replicate 8 1 ++ [97; 98] ++ replicate 6 6
      = prefix ++ [97; 98] ++ replicate pad (Z.of_nat pad)
    /\ length prefix = EXTRACT_PREFIX_LEN /\ (1 <= pad <= 16)%nat /\ utf8_valid [97; 98] = true.
Proof.
  apply (extract_password_checks _ "Password"); [|vm_compute; reflexivity].
  vm_compute. repeat constructor; discriminate.
Defined.
