(* ===== verification/Sequence.v ===== *)
(** * Data Secure sequence numbers ([crates/bussard-secure/src/sequence.rs])

    The 48-bit sequence, the clock-seeded issuer [SequenceClock] whose [issue]
    is a compare-and-exchange loop on a shared atomic, and the per-device
    high-water mark.  [issue] is modelled twice: as the steps of a thread on the
    shared word, interleaved with every other thread, and as the atomic
    operation those steps implement. *)

From S2P Require Import Prelude.

Local Open Scope string_scope.
Local Open Scope list_scope.
Local Open Scope Z_scope.

Definition KNX_SECURE_EPOCH_MS : u64 := 1515110400000.
Definition MAX_SEQUENCE : u64 := 281474976710655.

(** [system_clock_ms]: [unix] is what the system clock says, in milliseconds
    since the Unix epoch, [None] when it stands before it. *)
Definition system_clock_ms (unix : option Z) : u64 :=
  let unix_ms := match unix with
                 | Some ms => if ms <=? u64_max then ms else u64_max
                 | None => KNX_SECURE_EPOCH_MS
                 end in
  saturating_sub unix_ms KNX_SECURE_EPOCH_MS.

(** ** The sequence *)

Record Sequence : Type := MkSequence { Sequence_value : u64 }.

#[export] Instance Sequence_eq_dec : EqDecision Sequence.
Proof. solve_decision. Defined.

Definition Sequence_new (value : u64) : Sequence := MkSequence (Z.land value MAX_SEQUENCE).

Definition Sequence_now (unix : option Z) : Sequence := Sequence_new (system_clock_ms unix).

Definition Sequence_to_bytes (s : Sequence) : bytes := drop 2 (be_bytes 8 (Sequence_value s)).

(** [Sequence::from_bytes] of the six octets. *)
Definition Sequence_from_bytes (b : bytes) : Sequence :=
  Sequence_new (be_val ([0; 0] ++ b)).

Definition Sequence_next (s : Sequence) : Sequence :=
  Sequence_new (Z.min (u64_saturating_add (Sequence_value s) 1) MAX_SEQUENCE).

Definition Sequence_ok (s : Sequence) : Prop := is_u48 (Sequence_value s).

(** ** The issuer, atomically *)

(** The value [issue] proposes when it has read [current]. *)
Definition issue_candidate (clock current : u64) : u64 :=
  Z.min (Z.max clock (u64_saturating_add current 1)) MAX_SEQUENCE.

(** [SequenceClock::issue] without contention: the issued sequence and the new
    [last], for a clock reading of [now]. *)
Definition SequenceClock_issue (now last : u64) : Sequence * u64 :=
  let next := issue_candidate (Z.land now MAX_SEQUENCE) last in
  (Sequence_new next, next).

(** [SequenceClock::observe]: [fetch_max]. *)
Definition SequenceClock_observe (seq : Sequence) (last : u64) : u64 :=
  Z.max last (Sequence_value seq).

(** ** The issuer, as interleaved threads

    A call of [issue] reads the clock, loads [last], then tries to exchange
    until it succeeds. *)
Inductive IssueThread : Type :=
| IssueStart (now : u64)
| IssueLoop (clock current : u64)
| IssueDone (seq : Sequence).

(** One atomic action of a call on the shared word. *)
Definition issue_step (t : IssueThread) (last : u64) : IssueThread * u64 :=
  match t with
  | IssueStart now => (IssueLoop (Z.land now MAX_SEQUENCE) last, last)
  | IssueLoop clock current =>
      let next := issue_candidate clock current in
      if last =? current then (IssueDone (Sequence_new next), next)
      else (IssueLoop clock last, last)
  | IssueDone seq => (IssueDone seq, last)
  end.

(** What the rest of the process sees of a step. *)
Inductive ClockEvent : Type :=
| Issued (now : u64) (seq : Sequence)
| Observed (seq : Sequence).

Definition event_value (e : ClockEvent) : u64 :=
  match e with
  | Issued _ s | Observed s => Sequence_value s
  end.

(** The shared word and the calls in flight: each thread with its clock
    reading. *)
Record ClockState : Type := MkClockState {
  clock_last : u64;
  clock_threads : list (u64 * IssueThread) }.

(** One step of the process: some call takes its next action, a new call
    starts, or a sequence is observed. *)
Inductive clock_step : ClockState -> list ClockEvent -> ClockState -> Prop :=
| step_call s now :
    is_u64 now ->
    clock_step s []
      (MkClockState (clock_last s) (clock_threads s ++ [(now, IssueStart now)]))
| step_thread s i now t t' last' :
    clock_threads s !! i = Some (now, t) ->
    issue_step t (clock_last s) = (t', last') ->
    clock_step s
      (match t, t' with
       | IssueLoop _ _, IssueDone seq => [Issued now seq]
       | _, _ => []
       end)
      (MkClockState last' (<[i := (now, t')]> (clock_threads s)))
| step_observe s seq :
    Sequence_ok seq ->
    clock_step s [Observed seq]
      (MkClockState (SequenceClock_observe seq (clock_last s)) (clock_threads s)).

Inductive clock_run : ClockState -> list ClockEvent -> ClockState -> Prop :=
| run_nil s : clock_run s [] s
| run_step s tr s' ev s'' :
    clock_run s tr s' -> clock_step s' ev s'' -> clock_run s (tr ++ ev) s''.

(** The atomic specification of an event on [last]. *)
Definition atomic_event (last : u64) (e : ClockEvent) : option u64 :=
  match e with
  | Issued now seq =>
      let '(s, last') := SequenceClock_issue now last in
      if bool_decide (s = seq) then Some last' else None
  | Observed seq => Some (SequenceClock_observe seq last)
  end.

Fixpoint atomic_run (last : u64) (tr : list ClockEvent) : option u64 :=
  match tr with
  | [] => Some last
  | e :: r => last' ← atomic_event last e; atomic_run last' r
  end.

(** Runs one call alone for [fuel] actions. *)
Fixpoint issue_alone (fuel : nat) (t : IssueThread) (last : u64) : IssueThread * u64 :=
  match fuel with
  | O => (t, last)
  | S f => let '(t', last') := issue_step t last in issue_alone f t' last'
  end.

(** A process in which no call has been made yet. *)
Definition clock_init : ClockState := MkClockState 0 [].

(** ** The high-water mark

    [hw_last] is the mark shared by the sessions with one device, [hw_clock] the
    process-wide issuer's word. *)
Record HighWaterState : Type := MkHighWater { hw_last : u64; hw_clock : u64 }.

(** [SequenceHighWater::next_seed] for a clock reading of [now]. *)
Definition SequenceHighWater_next_seed (now : u64) (s : HighWaterState)
    : Sequence * HighWaterState :=
  let last := hw_last s in
  let '(seed, clock) := SequenceClock_issue now (hw_clock s) in
  let next := Sequence_new (Z.max (Sequence_value seed) (u64_saturating_add last 1)) in
  (next, MkHighWater last (SequenceClock_observe next clock)).

Definition SequenceHighWater_observe (seq : Sequence) (s : HighWaterState) : HighWaterState :=
  MkHighWater (Z.max (hw_last s) (Sequence_value seq)) (SequenceClock_observe seq (hw_clock s)).

Definition SequenceHighWater_last_sent (s : HighWaterState) : u64 := hw_last s.

#[local] Arguments SequenceClock_issue : simpl never.
#[local] Arguments issue_candidate : simpl never.

(** ** Lemmas *)

Lemma land_max_sequence v : 0 <= v -> Z.land v MAX_SEQUENCE = v mod 281474976710656.
Proof. intros _. change MAX_SEQUENCE with (Z.ones 48). rewrite Z.land_ones by lia. done. Qed.

Lemma land_max_range v : 0 <= v -> is_u48 (Z.land v MAX_SEQUENCE).
Proof. intros Hv. rewrite land_max_sequence by done. zdiv. Qed.

Lemma Sequence_new_small v : is_u48 v -> Sequence_new v = MkSequence v.
Proof.
  intros Hv. unfold Sequence_new. f_equal. unfold is_u48 in Hv.
  rewrite land_max_sequence by lia. apply Z.mod_small. lia.
Qed.

Lemma Sequence_new_ok v : 0 <= v -> Sequence_ok (Sequence_new v).
Proof. apply land_max_range. Qed.

Lemma Sequence_new_value s : Sequence_ok s -> Sequence_new (Sequence_value s) = s.
Proof. intros H. rewrite Sequence_new_small by exact H. by destruct s. Qed.

Lemma issue_candidate_range clock current : is_u48 clock -> 0 <= current ->
  0 < issue_candidate clock current <= MAX_SEQUENCE.
Proof.
  unfold issue_candidate, u64_saturating_add, u64_max, MAX_SEQUENCE, is_u48. lia.
Qed.

(** The candidate exceeds what was read, unless the 48 bits are used up. *)
Lemma issue_candidate_above clock current : 0 <= current < MAX_SEQUENCE ->
  current < issue_candidate clock current.
Proof. unfold issue_candidate, u64_saturating_add, u64_max, MAX_SEQUENCE. lia. Qed.

Lemma issue_candidate_max clock current : MAX_SEQUENCE <= current ->
  issue_candidate clock current = MAX_SEQUENCE.
Proof. unfold issue_candidate, u64_saturating_add, u64_max, MAX_SEQUENCE. lia. Qed.

Lemma SequenceClock_issue_spec now last : 0 <= now -> 0 <= last <= MAX_SEQUENCE ->
  SequenceClock_issue now last
  = (MkSequence (issue_candidate (Z.land now MAX_SEQUENCE) last),
     issue_candidate (Z.land now MAX_SEQUENCE) last).
Proof.
  intros Hn Hl. unfold SequenceClock_issue.
  pose proof (issue_candidate_range _ last (land_max_range _ Hn)) as Hr.
  rewrite Sequence_new_small; [done|]. unfold is_u48, MAX_SEQUENCE in *. lia.
Qed.

Lemma length_Sequence_to_bytes s : length (Sequence_to_bytes s) = 6%nat.
Proof. unfold Sequence_to_bytes. rewrite length_drop, length_be_bytes. done. Qed.

Lemma Sequence_to_bytes_ok s : bytes_ok (Sequence_to_bytes s).
Proof. unfold Sequence_to_bytes. auto with bus. Qed.

Lemma Sequence_to_bytes_be s : Sequence_to_bytes s = be_bytes 6 (Sequence_value s).
Proof. reflexivity. Qed.

Lemma Sequence_from_bytes_eq b : Sequence_from_bytes b = Sequence_new (be_val b).
Proof. unfold Sequence_from_bytes. by rewrite be_val_pad. Qed.

Lemma Sequence_from_to s : Sequence_ok s -> Sequence_from_bytes (Sequence_to_bytes s) = s.
Proof.
  intros Hs. rewrite Sequence_from_bytes_eq, Sequence_to_bytes_be, be_val_be_bytes.
  rewrite Z.mod_small by exact Hs. by apply Sequence_new_value.
Qed.

Lemma Sequence_from_bytes_value b : bytes_ok b -> length b = 6%nat ->
  Sequence_from_bytes b = MkSequence (be_val b) /\ is_u48 (be_val b).
Proof.
  intros Hb Hl. pose proof (be_val_bound b Hb) as Hv. unfold zlen in Hv. rewrite Hl in Hv.
  assert (H48 : is_u48 (be_val b)) by exact Hv. split; [|done].
  rewrite Sequence_from_bytes_eq. by apply Sequence_new_small.
Qed.

Lemma Sequence_to_from b : bytes_ok b -> length b = 6%nat ->
  Sequence_to_bytes (Sequence_from_bytes b) = b.
Proof.
  intros Hb Hl. destruct (Sequence_from_bytes_value b Hb Hl) as [-> _].
  rewrite Sequence_to_bytes_be. simpl Sequence_value. rewrite <- Hl. by apply be_bytes_be_val.
Qed.

Lemma Sequence_from_bytes_ok b : bytes_ok b -> length b = 6%nat ->
  Sequence_ok (Sequence_from_bytes b).
Proof. intros Hb Hl. by destruct (Sequence_from_bytes_value b Hb Hl) as [-> ?]. Qed.

Lemma Sequence_next_value s : Sequence_ok s ->
  Sequence_value (Sequence_next s) = Z.min (Sequence_value s + 1) MAX_SEQUENCE.
Proof.
  intros Hs. unfold Sequence_ok, is_u48 in Hs. unfold Sequence_next.
  rewrite Sequence_new_small; unfold u64_saturating_add, u64_max, MAX_SEQUENCE, is_u48; simpl; lia.
Qed.

Lemma Sequence_next_ok s : Sequence_ok s -> Sequence_ok (Sequence_next s).
Proof.
  intros Hs. unfold Sequence_ok. rewrite Sequence_next_value by done.
  unfold Sequence_ok, is_u48, MAX_SEQUENCE in *. lia.
Qed.

(** *** The interleaved issuer *)

Definition thread_ok (last : u64) (p : u64 * IssueThread) : Prop :=
  is_u64 p.1 /\
  match p.2 with
  | IssueStart now => now = p.1
  | IssueLoop clock current => clock = Z.land p.1 MAX_SEQUENCE /\ 0 <= current <= last
  | IssueDone _ => True
  end.

Definition clock_inv (s : ClockState) : Prop :=
  0 <= clock_last s <= MAX_SEQUENCE /\ Forall (thread_ok (clock_last s)) (clock_threads s).

Definition event_ok (e : ClockEvent) : Prop :=
  match e with
  | Issued now _ => is_u64 now
  | Observed seq => Sequence_ok seq
  end.

Lemma thread_ok_mono l l' p : l <= l' -> thread_ok l p -> thread_ok l' p.
Proof. intros Hl [Hn Hp]. split; [done|]. destruct p.2; [done| |done]. lia. Qed.

Lemma observe_range last seq : 0 <= last <= MAX_SEQUENCE -> Sequence_ok seq ->
  last <= SequenceClock_observe seq last <= MAX_SEQUENCE /\
  Sequence_value seq <= SequenceClock_observe seq last.
Proof. unfold SequenceClock_observe, Sequence_ok, is_u48, MAX_SEQUENCE. lia. Qed.

Lemma candidate_mono clock current : is_u48 clock -> 0 <= current <= MAX_SEQUENCE ->
  current <= issue_candidate clock current <= MAX_SEQUENCE.
Proof. unfold issue_candidate, u64_saturating_add, u64_max, MAX_SEQUENCE, is_u48. lia. Qed.

(** A step keeps the invariant, and its effect on the shared word is the one the
    atomic specification gives its event. *)
Lemma clock_step_atomic s ev s' : clock_inv s -> clock_step s ev s' ->
  clock_inv s' /\ Forall event_ok ev /\ atomic_run (clock_last s) ev = Some (clock_last s').
Proof.
  intros [Hlast Hth] Hstep.
  destruct Hstep as [s now Hnow | s i now t t' last' Hi Ht | s seq Hseq]; simpl in *.
  - split; [|by split]. split; [done|]. apply Forall_app. split; [done|]. apply Forall_singleton. done.
  - pose proof (Forall_lookup_1 _ _ _ _ Hth Hi) as [Hnow Htok]. simpl in Hnow, Htok.
    assert (Hset : forall l, clock_last s <= l -> thread_ok l (now, t') ->
      Forall (thread_ok l) (<[i := (now, t')]> (clock_threads s))).
    { intros l Hl Hp. apply Forall_insert; [|done].
      eapply Forall_impl; [exact Hth|]. intros p. by apply thread_ok_mono. }
    assert (Hc : is_u48 (Z.land now MAX_SEQUENCE))
      by (apply land_max_range; unfold is_u64 in Hnow; lia).
    destruct t as [n0|clock current|seq]; simpl in Ht.
    + injection Ht as <- <-. subst n0. split; [|by split]. split; [done|]. simpl; apply Hset; [lia|]. split; [done|].
      simpl. split; [done|lia].
    + destruct Htok as [-> Hcur].
      destruct (Z.eqb_spec (clock_last s) current) as [E|E]; injection Ht as <- <-.
      * subst current. pose proof (candidate_mono _ _ Hc Hlast) as Hm.
        split; [split; [simpl; lia|simpl; apply Hset; [lia|done]]|]. split; [by apply Forall_singleton|].
        simpl. unfold SequenceClock_issue. rewrite bool_decide_true by done. done.
      * split; [|by split]. split; [done|]. simpl; apply Hset; [lia|]. split; [done|]. simpl. split; [done|lia].
    + injection Ht as <- <-. split; [|by split]. split; [done|]. simpl; apply Hset; [lia|done].
  - destruct (observe_range _ _ Hlast Hseq) as [Hr _].
    split; [split; [simpl; lia|]|]; [|split; [by apply Forall_singleton|done]].
    eapply Forall_impl; [exact Hth|]. intros p. apply thread_ok_mono. simpl. lia.
Qed.

Lemma atomic_run_app l a b :
  atomic_run l (a ++ b) = (l' ← atomic_run l a; atomic_run l' b).
Proof.
  revert l. induction a as [|e a IH]; intros l; [done|]. simpl.
  destruct (atomic_event l e); simpl; [apply IH|done].
Qed.

Lemma clock_run_atomic s tr s' : clock_inv s -> clock_run s tr s' ->
  clock_inv s' /\ Forall event_ok tr /\ atomic_run (clock_last s) tr = Some (clock_last s').
Proof.
  intros Hinv Hrun. induction Hrun as [s|s tr s' ev s'' Hrun IH Hstep]; [done|].
  destruct (IH Hinv) as (Hi & Hev & Ha).
  destruct (clock_step_atomic _ _ _ Hi Hstep) as (Hi' & Hev' & Ha').
  split; [done|]. split; [by apply Forall_app|]. rewrite atomic_run_app, Ha. exact Ha'.
Qed.

Lemma atomic_event_range l e l' : 0 <= l <= MAX_SEQUENCE -> event_ok e ->
  atomic_event l e = Some l' -> l <= l' <= MAX_SEQUENCE /\ event_value e <= l'.
Proof.
  intros Hl He E. destruct e as [now seq|seq]; unfold event_ok, atomic_event in *.
  - unfold is_u64 in He. rewrite SequenceClock_issue_spec in E by lia.
    case_bool_decide as Hs; [|done]. injection E as <-. subst seq. cbn [event_value Sequence_value].
    pose proof (candidate_mono _ _ (land_max_range now ltac:(lia)) Hl). lia.
  - injection E as <-. destruct (observe_range _ _ Hl He). simpl. lia.
Qed.

Lemma atomic_run_range tr : forall l l', 0 <= l <= MAX_SEQUENCE -> Forall event_ok tr ->
  atomic_run l tr = Some l' ->
  l <= l' <= MAX_SEQUENCE /\ Forall (fun e => event_value e <= l') tr.
Proof.
  induction tr as [|e tr IH]; intros l l' Hl Hok E.
  { injection E as <-. split; [lia|constructor]. }
  apply Forall_cons in Hok as [He Hok]. simpl in E.
  destruct (atomic_event l e) as [l1|] eqn:E1; [|done]. simpl in E.
  destruct (atomic_event_range _ _ _ Hl He E1) as [H1 H2].
  destruct (IH l1 l' ltac:(lia) Hok E) as [H3 H4]. split; [lia|]. constructor; [lia|done].
Qed.

(** An issued value exceeds every value before it, until the width is used up. *)
Lemma atomic_issued_above tr now seq rest l l' : 0 <= l <= MAX_SEQUENCE ->
  Forall event_ok (tr ++ Issued now seq :: rest) ->
  atomic_run l (tr ++ Issued now seq :: rest) = Some l' ->
  (Sequence_value seq = MAX_SEQUENCE \/
   l < Sequence_value seq /\ Forall (fun e => event_value e < Sequence_value seq) tr)
  /\ Z.land now MAX_SEQUENCE <= Sequence_value seq.
Proof.
  intros Hl Hok E. apply Forall_app in Hok as [Hok1 Hok2].
  apply Forall_cons in Hok2 as [Hn _]. rewrite atomic_run_app in E.
  destruct (atomic_run l tr) as [l1|] eqn:E1; [|done]. cbn [mbind option_bind] in E.
  destruct (atomic_run_range _ _ _ Hl Hok1 E1) as [H1 H2].
  cbn [atomic_run] in E. unfold event_ok, atomic_event, is_u64 in *.
  rewrite SequenceClock_issue_spec in E by lia.
  case_bool_decide as Hs; [|done]. subst seq. simpl Sequence_value.
  pose proof (land_max_range now ltac:(lia)) as Hc. unfold is_u48 in Hc. split.
  - destruct (decide (l1 < MAX_SEQUENCE)) as [Hlt|Hge].
    + right. pose proof (issue_candidate_above (Z.land now MAX_SEQUENCE) l1 ltac:(lia)).
      split; [lia|]. eapply Forall_impl; [exact H2|]. simpl. intros. lia.
    + left. apply issue_candidate_max. lia.
  - unfold issue_candidate, u64_saturating_add, u64_max, MAX_SEQUENCE in *. lia.
Qed.

(** *** The high-water mark *)

Definition HighWater_ok (s : HighWaterState) : Prop := is_u48 (hw_last s) /\ is_u48 (hw_clock s).

Lemma next_seed_spec now s : is_u64 now -> HighWater_ok s -> hw_last s < MAX_SEQUENCE ->
  exists n s', SequenceHighWater_next_seed now s = (MkSequence n, s') /\ is_u48 n
    /\ hw_last s < n /\ (hw_clock s < n \/ n = MAX_SEQUENCE)
    /\ hw_last s' = hw_last s /\ hw_clock s' = n.
Proof.
  intros Hn [Hl Hc] Hlt. unfold is_u48, is_u64 in *. unfold SequenceHighWater_next_seed.
  pose proof (issue_candidate_range _ (hw_clock s) (land_max_range now ltac:(lia)) ltac:(lia)) as Hr.
  rewrite SequenceClock_issue_spec by (unfold MAX_SEQUENCE; lia).
  set (cand := issue_candidate _ _) in *. cbn zeta. simpl Sequence_value.
  assert (Hm : u64_saturating_add (hw_last s) 1 = hw_last s + 1)
    by (unfold u64_saturating_add, u64_max; unfold MAX_SEQUENCE in Hlt; lia).
  rewrite Hm, Sequence_new_small by (unfold is_u48, MAX_SEQUENCE in *; lia).
  eexists _, _. split; [reflexivity|]. simpl.
  assert (Habove : hw_clock s < cand \/ cand = MAX_SEQUENCE).
  { destruct (decide (hw_clock s < MAX_SEQUENCE)).
    - left. apply issue_candidate_above. lia.
    - right. apply issue_candidate_max. lia. }
  unfold SequenceClock_observe, is_u48, MAX_SEQUENCE in *. simpl. lia.
Qed.

(** ** Properties *)

(** C33: however the calls of a process interleave on the shared word, with
    sequences observed in between, every issued sequence is greater than every
    sequence issued or observed before it and not below its own clock reading,
    unless it is the largest 48-bit value (where the issuer stays); and the run is
    linearizable: its events, executed one after the other by the atomic [issue]
    and [observe], leave the same word. *)
Theorem clock_never_repeats tr s :
  clock_run clock_init tr s ->
  atomic_run 0 tr = Some (clock_last s) /\
  forall before now seq after, tr = before ++ Issued now seq :: after ->
    Z.land now MAX_SEQUENCE <= Sequence_value seq /\
    (Sequence_value seq = MAX_SEQUENCE \/
     Forall (fun e => event_value e < Sequence_value seq) before).
Proof.
  intros Hrun. assert (Hinit : clock_inv clock_init).
  { split; [unfold MAX_SEQUENCE; simpl; lia|constructor]. }
  destruct (clock_run_atomic _ _ _ Hinit Hrun) as (_ & Hok & Ha). split; [exact Ha|].
  intros before now seq after ->. simpl in Ha.
  destruct (atomic_issued_above before now seq after 0 _ ltac:(unfold MAX_SEQUENCE; lia) Hok Ha)
    as [[H|[_ H]] Hc]; auto.
Qed.

(** Two calls in the same millisecond whose exchanges collide: the second fails
    its first exchange and issues the next value. *)
Lemma clock_never_repeats_witness :
  exists s, clock_run clock_init
      [Issued 5 (MkSequence 5); Issued 5 (MkSequence 6)] s /\
    atomic_run 0 [Issued 5 (MkSequence 5); Issued 5 (MkSequence 6)] = Some (clock_last s).
Proof.
  pose (st := fun l a b => MkClockState l [(5, a); (5, b)]).
  assert (Hrun : clock_run clock_init [Issued 5 (MkSequence 5); Issued 5 (MkSequence 6)]
    (st 6 (IssueDone (MkSequence 5)) (IssueDone (MkSequence 6)))).
  { assert (R0 := run_nil clock_init).
    assert (R1 := run_step _ _ _ _ _ R0 (step_call clock_init 5 ltac:(done))).
    assert (R2 := run_step _ _ _ _ _ R1 (step_call (MkClockState 0 [(5, IssueStart 5)]) 5 ltac:(done))).
    assert (R3 := run_step _ _ _ _ _ R2 (step_thread (st 0 (IssueStart 5) (IssueStart 5))
                    0 5 (IssueStart 5) (IssueLoop 5 0) 0 eq_refl eq_refl)).
    assert (R4 := run_step _ _ _ _ _ R3 (step_thread (st 0 (IssueLoop 5 0) (IssueStart 5))
                    1 5 (IssueStart 5) (IssueLoop 5 0) 0 eq_refl eq_refl)).
    assert (R5 := run_step _ _ _ _ _ R4 (step_thread (st 0 (IssueLoop 5 0) (IssueLoop 5 0))
                    0 5 (IssueLoop 5 0) (IssueDone (MkSequence 5)) 5 eq_refl eq_refl)).
    assert (R6 := run_step _ _ _ _ _ R5 (step_thread (st 5 (IssueDone (MkSequence 5)) (IssueLoop 5 0))
                    1 5 (IssueLoop 5 0) (IssueLoop 5 5) 5 eq_refl eq_refl)).
    exact (run_step _ _ _ _ _ R6 (step_thread (st 5 (IssueDone (MkSequence 5)) (IssueLoop 5 5))
                    1 5 (IssueLoop 5 5) (IssueDone (MkSequence 6)) 6 eq_refl eq_refl)). }
  eexists. split; [exact Hrun|]. apply (clock_never_repeats _ _ Hrun).
Defined.

(** a call of [issue] that runs alone returns: two actions from its start, and
    from any stale reading at most two exchange attempts, with exactly the result
    and word of the atomic operation. *)
Theorem issue_terminates now last :
  is_u64 now ->
  issue_alone 2 (IssueStart now) last
    = (let '(seq, last') := SequenceClock_issue now last in (IssueDone seq, last'))
  /\ forall current,
       issue_alone 2 (IssueLoop (Z.land now MAX_SEQUENCE) current) last
       = (let '(seq, last') := SequenceClock_issue now last in (IssueDone seq, last')).
Proof.
  intros _. unfold SequenceClock_issue. split.
  - simpl. rewrite Z.eqb_refl. done.
  - intros current. simpl. destruct (Z.eqb_spec last current) as [->|Hne]; simpl; [done|].
    rewrite Z.eqb_refl. done.
Qed.

Lemma issue_terminates_witness :
  issue_alone 2 (IssueLoop (Z.land 7 MAX_SEQUENCE) 3) 9 = (IssueDone (MkSequence 10), 10).
Proof. apply (issue_terminates 7 9). done. Defined.

(** reconnecting never replays: the seed of a new session is above the last
    sequence sent to the device and above everything the process issued or
    observed (or is the largest value), the mark itself does not move, and the seed
    of the session after it is higher still.  Only when the mark already stands at
    the largest 48-bit value does the seed wrap to zero. *)
Theorem next_seed_never_replays now now' s :
  is_u64 now -> is_u64 now' -> HighWater_ok s ->
  if hw_last s =? MAX_SEQUENCE
  then Sequence_value (fst (SequenceHighWater_next_seed now s)) = 0
  else
    let '(seed, s') := SequenceHighWater_next_seed now s in
    let '(seed', _) := SequenceHighWater_next_seed now' (SequenceHighWater_observe seed s') in
    hw_last s < Sequence_value seed /\ hw_last s' = hw_last s /\
    (hw_clock s < Sequence_value seed \/ Sequence_value seed = MAX_SEQUENCE) /\
    (Sequence_value seed < MAX_SEQUENCE -> Sequence_value seed < Sequence_value seed').
Proof.
  intros Hn Hn' Hok. pose proof Hok as [Hl Hc]. destruct (Z.eqb_spec (hw_last s) MAX_SEQUENCE) as [E|E].
  - unfold SequenceHighWater_next_seed, is_u48, is_u64 in *.
    pose proof (issue_candidate_range _ (hw_clock s) (land_max_range now ltac:(lia)) ltac:(lia)) as Hr.
    rewrite SequenceClock_issue_spec by (unfold MAX_SEQUENCE; lia). rewrite E.
    set (cand := issue_candidate _ _) in *. cbn [fst Sequence_value].
    change (u64_saturating_add MAX_SEQUENCE 1) with 281474976710656.
    rewrite Z.max_r by (unfold MAX_SEQUENCE in Hr; lia). reflexivity.
  - destruct (next_seed_spec now s Hn Hok) as (n & s' & -> & Hn48 & H1 & H2 & H3 & H4).
    { unfold is_u48, MAX_SEQUENCE in *. lia. }
    destruct (decide (n < MAX_SEQUENCE)) as [Hlt|Hge].
    + destruct (next_seed_spec now' (SequenceHighWater_observe (MkSequence n) s') Hn')
        as (n' & s2 & -> & _ & H5 & _).
      * unfold HighWater_ok, SequenceHighWater_observe, SequenceClock_observe, is_u48 in *. simpl.
        rewrite H3, H4. lia.
      * simpl. lia.
      * simpl in H5 |- *. split; [done|]. split; [done|]. split; [done|]. lia.
    + destruct (SequenceHighWater_next_seed now' _) as [n' s2]. simpl.
      split; [done|]. split; [done|]. split; [done|]. lia.
Qed.

Lemma next_seed_never_replays_witness :
  100 < Sequence_value (fst (SequenceHighWater_next_seed 50 (MkHighWater 100 60))).
Proof.
  refine (proj1 (next_seed_never_replays 50 50 (MkHighWater 100 60) _ _ _)); [done|done|split; done].
Defined.
