(* ===== verification/Asdu.v ===== *)
(** * The A_SecureData ASDU ([crates/bussard-secure/src/asdu.rs])

    The Security Control Field, the CCM nonce of a TP frame, sealing and
    opening, the S-A_Data wrapping of an APDU and the two S-A_Sync frames. *)

From S2P Require Import Prelude Crypto Sequence.

Local Open Scope string_scope.
Local Open Scope list_scope.
Local Open Scope Z_scope.

Definition A_SECURE_DATA : u16 := 1009.
Definition APCI_SEC_HIGH : u8 := 3.
Definition APCI_SEC_LOW : u8 := 241.
Definition TP_MAC_LEN : nat := 4.
Definition SERIAL_LEN : nat := 6.
Definition CHALLENGE_LEN : nat := 6.
Definition SEQ_LEN : nat := 6.
Definition INNER_RESERVED_MASK : u8 := 252.

Inductive AsduError : Type :=
| PayloadTooLong (n : nat)
| TooShort (n : nat)
| InnerTooShort (n : nat)
| MacMismatch
| StaleSequence (got last : u64)
| UnknownScf (b : u8)
| UnexpectedService (b : u8)
| UnsolicitedSyncResponse
| SyncUnanswered
| NotGroupTraffic (b : u8)
| GroupApduTooShort (n : nat)
| ReservedBits (octet : u8) (sequence : u64)
| AsduCrypto (e : CryptoError).

#[export] Instance AsduError_eq_dec : EqDecision AsduError.
Proof. solve_decision. Defined.

(** ** The Security Control Field *)

Inductive SecurityAlgorithm : Type := AuthenticationOnly | AuthenticationEncryption.

Definition SecurityAlgorithm_code (a : SecurityAlgorithm) : u8 :=
  match a with
  | AuthenticationOnly => 0
  | AuthenticationEncryption => 1
  end.

Definition SecurityAlgorithm_from_code (code : u8) : option SecurityAlgorithm :=
  match Z.land code 7 with
  | 0 => Some AuthenticationOnly
  | 1 => Some AuthenticationEncryption
  | _ => None
  end.

Definition SecurityAlgorithm_encrypts (a : SecurityAlgorithm) : bool :=
  match a with
  | AuthenticationEncryption => true
  | AuthenticationOnly => false
  end.

Inductive SecureService : Type := SvcData | SvcSyncReq | SvcSyncRes.

Definition SecureService_code (s : SecureService) : u8 :=
  match s with
  | SvcData => 0
  | SvcSyncReq => 2
  | SvcSyncRes => 3
  end.

Definition SecureService_from_code (code : u8) : option SecureService :=
  match Z.land code 7 with
  | 0 => Some SvcData
  | 2 => Some SvcSyncReq
  | 3 => Some SvcSyncRes
  | _ => None
  end.

#[export] Instance SecurityAlgorithm_eq_dec : EqDecision SecurityAlgorithm.
Proof. solve_decision. Defined.
#[export] Instance SecureService_eq_dec : EqDecision SecureService.
Proof. solve_decision. Defined.

Record Scf : Type := MkScf {
  tool_access : bool;
  algorithm : SecurityAlgorithm;
  system_broadcast : bool;
  service : SecureService }.

#[export] Instance Scf_eq_dec : EqDecision Scf.
Proof. solve_decision. Defined.

Definition Scf_tool_data (a : SecurityAlgorithm) : Scf := MkScf true a false SvcData.
Definition Scf_tool_sync (s : SecureService) : Scf := MkScf true AuthenticationEncryption false s.
Definition Scf_group_data (a : SecurityAlgorithm) : Scf := MkScf false a false SvcData.

Definition Scf_to_byte (s : Scf) : u8 :=
  Z.lor (Z.lor (Z.lor (as_u8 (Z.shiftl (bool_as_u8 (tool_access s)) 7))
                      (as_u8 (Z.shiftl (SecurityAlgorithm_code (algorithm s)) 4)))
               (as_u8 (Z.shiftl (bool_as_u8 (system_broadcast s)) 3)))
        (SecureService_code (service s)).

Definition Scf_from_byte (b : u8) : result AsduError Scf :=
  algorithm ← ok_or (UnknownScf b) (SecurityAlgorithm_from_code (Z.land (Z.shiftr b 4) 7));
  service ← ok_or (UnknownScf b) (SecureService_from_code (Z.land b 7));
  mret (MkScf (negb (Z.land b 128 =? 0)) algorithm (negb (Z.land b 8 =? 0)) service).

(** ** The nonce *)

Record TpAddressing : Type := MkTpAddressing {
  tp_source : u16;
  tp_destination : u16;
  address_type_group : bool;
  tp_extended_frame_format : u8;
  tp_tpci : u8 }.

Definition TpAddressing_group (source group : u16) : TpAddressing :=
  MkTpAddressing source group true 0 0.

Definition TpAddressing_address_fields (a : TpAddressing) : bytes :=
  be_bytes 2 (tp_source a) ++ be_bytes 2 (tp_destination a).

Definition TpAddressing_ctrl2_byte (a : TpAddressing) : u8 :=
  Z.lor (as_u8 (Z.shiftl (bool_as_u8 (address_type_group a)) 7))
        (Z.land (tp_extended_frame_format a) 15).

Definition tp_block_0 (seq : Sequence) (addr : TpAddressing) (payload_len : u8) : bytes :=
  Sequence_to_bytes seq ++ TpAddressing_address_fields addr
  ++ [0; TpAddressing_ctrl2_byte addr; Z.lor (Z.land (tp_tpci addr) 252) APCI_SEC_HIGH;
      APCI_SEC_LOW; 0; payload_len].

Definition tp_counter_0 (seq : Sequence) (addr : TpAddressing) : bytes :=
  Sequence_to_bytes seq ++ TpAddressing_address_fields addr ++ [0; 0; 0; 0; 1; 0].

(** ** Sealing and opening *)

Section Asdu.
  Context `{C : SecureCiphers}.

(** The CBC-MAC is truncated before the CTR stage; in auth-only mode the payload
    joins the additional data and the length octet is 0. *)
Definition seal (key : Key16) (seq : Sequence) (addr : TpAddressing) (ad payload : bytes)
    (encrypt : bool) : result AsduError (bytes * bytes) :=
  let counter_0 := tp_counter_0 seq addr in
  '(secured, enc_mac) ←
    (if encrypt then
       if negb (zlen payload <? 256) then Err (PayloadTooLong (length payload)) else
       let block_0 := tp_block_0 seq addr (zlen payload) in
       mac_cbc ← map_err AsduCrypto (cbc_mac key ad payload block_0);
       map_err AsduCrypto (encrypt_ctr key counter_0 (take TP_MAC_LEN mac_cbc) payload)
     else
       let full_ad := ad ++ payload in
       let block_0 := tp_block_0 seq addr 0 in
       mac_cbc ← map_err AsduCrypto (cbc_mac key full_ad [] block_0);
       '(_, enc_mac) ← map_err AsduCrypto
                         (encrypt_ctr key counter_0 (take TP_MAC_LEN mac_cbc) []);
       mret (payload, enc_mac));
  mret (secured, take TP_MAC_LEN enc_mac).

Definition open (key : Key16) (seq : Sequence) (addr : TpAddressing)
    (ad secured received_mac : bytes) (encrypt : bool) : result AsduError bytes :=
  plain ←
    (if encrypt then
       let counter_0 := tp_counter_0 seq addr in
       '(plain, _) ← map_err AsduCrypto (decrypt_ctr key counter_0 received_mac secured);
       mret plain
     else mret secured);
  '(_, expected) ← seal key seq addr ad plain encrypt;
  if negb (constant_time_eq expected received_mac) then Err MacMismatch else Ok plain.

Definition split_asdu (asdu : bytes) : result AsduError (Scf * bytes * bytes * bytes) :=
  if bool_decide (length asdu < 1 + SEQ_LEN + TP_MAC_LEN)%nat then Err (TooShort (length asdu))
  else
    scf ← Scf_from_byte (nth 0 asdu 0);
    let seq := slice 1 (1 + SEQ_LEN) asdu in
    let body := slice (1 + SEQ_LEN) (length asdu - TP_MAC_LEN) asdu in
    let mac := drop (length asdu - TP_MAC_LEN) asdu in
    mret (scf, seq, body, mac).

(** ** S-A_Data *)

Definition inner_apdu_bytes (apci : u16) (data : bytes) : bytes :=
  as_u8 (Z.land (Z.shiftr apci 8) 3) :: as_u8 (Z.land apci 255) :: data.

Definition parse_inner_apdu (apdu : bytes) : result AsduError (u16 * bytes) :=
  match apdu with
  | a :: b :: data =>
      if negb (Z.land a INNER_RESERVED_MASK =? 0) then Err (ReservedBits a 0)
      else Ok (Z.lor (Z.shiftl (Z.land a 3) 8) b, data)
  | _ => Err (InnerTooShort (length apdu))
  end.

Definition encode_apdu (key : Key16) (scf : Scf) (seq : Sequence) (addr : TpAddressing)
    (apdu : bytes) : result AsduError bytes :=
  if negb (zlen apdu <? 256) then Err (PayloadTooLong (length apdu)) else
  let scf_byte := Scf_to_byte scf in
  '(secured_apdu, mac4) ← seal key seq addr [scf_byte] apdu
                            (SecurityAlgorithm_encrypts (algorithm scf));
  mret (scf_byte :: Sequence_to_bytes seq ++ secured_apdu ++ mac4).

Definition asdu_encode (key : Key16) (scf : Scf) (seq : Sequence) (addr : TpAddressing)
    (inner_apci : u16) (inner_data : bytes) : result AsduError bytes :=
  encode_apdu key scf seq addr (inner_apdu_bytes inner_apci inner_data).

Record DecodedInner : Type := MkDecodedInner {
  di_scf : Scf;
  di_sequence : Sequence;
  di_apci : u16;
  di_data : bytes }.

Definition asdu_decode (key : Key16) (asdu : bytes) (addr : TpAddressing)
    : result AsduError DecodedInner :=
  '(scf, seq_bytes, secured_apdu, received_mac) ← split_asdu asdu;
  if negb (bool_decide (service scf = SvcData)) then Err (UnexpectedService (nth 0 asdu 0)) else
  let seq := Sequence_from_bytes seq_bytes in
  apdu ← open key seq addr [nth 0 asdu 0] secured_apdu received_mac
           (SecurityAlgorithm_encrypts (algorithm scf));
  '(apci, data) ← map_err (fun e => match e with
                                    | ReservedBits octet _ =>
                                        ReservedBits octet (Sequence_value seq)
                                    | other => other
                                    end) (parse_inner_apdu apdu);
  mret (MkDecodedInner scf seq apci data).

(** ** S-A_Sync *)

Record SyncRequest : Type := MkSyncRequest {
  sr_sequence : Sequence;
  sr_serial : bytes;
  sr_challenge : bytes }.

Record SyncResponse : Type := MkSyncResponse {
  responder_sequence : Sequence;
  requester_sequence : Sequence }.

Definition encode_sync_req (key : Key16) (scf : Scf) (req : SyncRequest) (addr : TpAddressing)
    : result AsduError bytes :=
  let scf_byte := Scf_to_byte scf in
  if negb (bool_decide (service scf = SvcSyncReq)) then Err (UnexpectedService scf_byte) else
  let ad := scf_byte :: sr_serial req in
  '(secured, mac4) ← seal key (sr_sequence req) addr ad (sr_challenge req)
                       (SecurityAlgorithm_encrypts (algorithm scf));
  mret (scf_byte :: Sequence_to_bytes (sr_sequence req) ++ sr_serial req ++ secured ++ mac4).

Definition decode_sync_req (key : Key16) (asdu : bytes) (addr : TpAddressing)
    : result AsduError (Scf * SyncRequest) :=
  '(scf, seq_bytes, body, mac) ← split_asdu asdu;
  if negb (bool_decide (service scf = SvcSyncReq)) then Err (UnexpectedService (nth 0 asdu 0)) else
  if negb (bool_decide (length body = SERIAL_LEN + CHALLENGE_LEN)%nat)
  then Err (TooShort (length asdu)) else
  let serial := take SERIAL_LEN body in
  let ad := nth 0 asdu 0 :: serial in
  let sequence := Sequence_from_bytes seq_bytes in
  challenge ← open key sequence addr ad (drop SERIAL_LEN body) mac
                (SecurityAlgorithm_encrypts (algorithm scf));
  mret (scf, MkSyncRequest sequence serial challenge).

(** [mask]: the six octets of the two, XORed. *)
Definition mask (value challenge : bytes) : bytes := zip_with Z.lxor value challenge.

Definition encode_sync_res (key : Key16) (scf : Scf) (res : SyncResponse) (challenge : bytes)
    (nonce : Sequence) (addr : TpAddressing) : result AsduError bytes :=
  let scf_byte := Scf_to_byte scf in
  if negb (bool_decide (service scf = SvcSyncRes)) then Err (UnexpectedService scf_byte) else
  let payload := Sequence_to_bytes (responder_sequence res)
                 ++ Sequence_to_bytes (requester_sequence res) in
  '(secured, mac4) ← seal key nonce addr [scf_byte] payload
                       (SecurityAlgorithm_encrypts (algorithm scf));
  mret (scf_byte :: mask (Sequence_to_bytes nonce) challenge ++ secured ++ mac4).

Definition decode_sync_res (key : Key16) (asdu : bytes) (addr : TpAddressing) (challenge : bytes)
    : result AsduError SyncResponse :=
  '(scf, masked, body, mac) ← split_asdu asdu;
  if negb (bool_decide (service scf = SvcSyncRes)) then Err (UnexpectedService (nth 0 asdu 0)) else
  if negb (bool_decide (length body = 2 * SEQ_LEN)%nat) then Err (TooShort (length asdu)) else
  let nonce := Sequence_from_bytes (mask masked challenge) in
  plain ← open key nonce addr [nth 0 asdu 0] body mac
            (SecurityAlgorithm_encrypts (algorithm scf));
  mret (MkSyncResponse (Sequence_from_bytes (take SEQ_LEN plain))
                       (Sequence_from_bytes (drop SEQ_LEN plain))).

End Asdu.

(** ** Lemmas *)

Lemma Scf_from_to s : Scf_from_byte (Scf_to_byte s) = Ok s.
Proof. destruct s as [[] [] [] []]; reflexivity. Qed.

Lemma Scf_to_byte_u8 s : is_u8 (Scf_to_byte s).
Proof. destruct s as [[] [] [] []]; done. Qed.

Lemma Scf_to_from b s : is_u8 b -> Scf_from_byte b = Ok s -> Scf_to_byte s = b.
Proof.
  intros Hb E.
  pose proof (u8_decide (fun b => match Scf_from_byte b with
                                  | Ok s => Scf_to_byte s =? b
                                  | Err _ => true
                                  end = true)) as H.
  specialize (H ltac:(vm_compute; reflexivity) b Hb). simpl in H. rewrite E in H.
  by apply Z.eqb_eq in H.
Qed.

Lemma length_tp_block_0 seq addr n : length (tp_block_0 seq addr n) = BLOCK.
Proof.
  unfold tp_block_0, TpAddressing_address_fields.
  rewrite !length_app, length_Sequence_to_bytes, !length_be_bytes. reflexivity.
Qed.

Lemma length_tp_counter_0 seq addr : length (tp_counter_0 seq addr) = BLOCK.
Proof.
  unfold tp_counter_0, TpAddressing_address_fields.
  rewrite !length_app, length_Sequence_to_bytes, !length_be_bytes. reflexivity.
Qed.

Lemma Sequence_to_bytes_inj s s' : Sequence_ok s -> Sequence_ok s' ->
  Sequence_to_bytes s = Sequence_to_bytes s' -> s = s'.
Proof. intros H H' E. by rewrite <- (Sequence_from_to s), <- (Sequence_from_to s'), E. Qed.

Lemma be_bytes_2_inj v w : is_u16 v -> is_u16 w -> be_bytes 2 v = be_bytes 2 w -> v = w.
Proof. intros Hv Hw E. rewrite !be_bytes_2 in E by done. injection E. zdiv. Qed.

(** The counter a frame is encrypted with determines its sequence and its
    addresses. *)
Lemma tp_counter_0_inj s a s' a' : Sequence_ok s -> Sequence_ok s' ->
  is_u16 (tp_source a) -> is_u16 (tp_source a') ->
  is_u16 (tp_destination a) -> is_u16 (tp_destination a') ->
  tp_counter_0 s a = tp_counter_0 s' a' ->
  s = s' /\ tp_source a = tp_source a' /\ tp_destination a = tp_destination a'.
Proof.
  intros Hs Hs' H1 H2 H3 H4 E. unfold tp_counter_0, TpAddressing_address_fields in E.
  apply app_inj_1 in E as [E1 E]; [|by rewrite !length_Sequence_to_bytes].
  rewrite <- !app_assoc in E.
  apply app_inj_1 in E as [E2 E]; [|by rewrite !length_be_bytes].
  apply app_inj_1 in E as [E3 _]; [|by rewrite !length_be_bytes].
  split; [by apply Sequence_to_bytes_inj|]. split; by apply be_bytes_2_inj.
Qed.

Section AsduLemmas.
  Context `{C : SecureCiphers, L : !SecureCiphersLaws C}.

(** What a successful sealing looks like, in both modes. *)
Lemma seal_inv key seq addr ad payload e secured mac :
  seal key seq addr ad payload e = Ok (secured, mac) ->
  length mac = TP_MAC_LEN /\ length secured = length payload /\
  (if e then zlen payload < 256 else True) /\
  exists tag, length tag = TP_MAC_LEN /\ bytes_ok tag /\
    mac = apply_keystream (Key16_bytes key) (tp_counter_0 seq addr) 0 tag /\
    secured = (if e then apply_keystream (Key16_bytes key) (tp_counter_0 seq addr) TP_MAC_LEN payload
               else payload).
Proof.
  assert (Htag : forall ad p b m, length b = BLOCK -> cbc_mac key ad p b = Ok m ->
    length (take TP_MAC_LEN m) = TP_MAC_LEN /\ bytes_ok (take TP_MAC_LEN m)).
  { intros ad' p b m Hb Hm. destruct (decide (zlen ad' < 65536)) as [Ha|Ha].
    - destruct (cbc_mac_ok key ad' p b Hb Ha) as (m' & Hm' & Hl & Ho). rewrite Hm in Hm'.
      injection Hm' as <-. split; [|by apply bytes_ok_take].
      rewrite length_take, Hl. unfold TP_MAC_LEN, BLOCK. lia.
    - exfalso. unfold cbc_mac in Hm. rewrite bool_decide_true in Hm by done.
      rewrite (proj2 (Z.ltb_ge _ _)) in Hm by lia. done. }
  assert (Hle : (TP_MAC_LEN <= BLOCK)%nat) by (unfold TP_MAC_LEN, BLOCK; lia).
  intros E. unfold seal in E. destruct e.
  - destruct (zlen payload <? 256) eqn:Hp; [|done]. cbn [negb] in E. apply Z.ltb_lt in Hp.
    destruct (cbc_mac _ _ _ _) as [m|] eqn:Em; [|done]. cbn [map_err mbind result_bind] in E.
    apply Htag in Em as [Em Eo]; [|apply length_tp_block_0].
    rewrite encrypt_ctr_eq in E by (rewrite ?Em; [apply length_tp_counter_0 || done..]).
    cbn [map_err mbind result_bind mret result_ret] in E. injection E as <- <-.
    rewrite firstn_all2 by (rewrite length_apply_keystream, Em; done).
    rewrite !length_apply_keystream, Em. split; [done|]. split; [done|]. split; [done|].
    eexists. split; [exact Em|]. split; [exact Eo|]. done.
  - destruct (cbc_mac _ _ _ _) as [m|] eqn:Em; [|done]. cbn [map_err mbind result_bind] in E.
    apply Htag in Em as [Em Eo]; [|apply length_tp_block_0].
    rewrite encrypt_ctr_eq in E by (rewrite ?Em; [apply length_tp_counter_0 || done..]).
    cbn [map_err mbind result_bind mret result_ret] in E. injection E as <- <-.
    rewrite firstn_all2 by (rewrite length_apply_keystream, Em; done).
    rewrite !length_apply_keystream, Em. split; [done|]. split; [done|]. split; [done|].
    eexists. split; [exact Em|]. split; [exact Eo|]. done.
Qed.

(** Opening accepts exactly what sealing produces, and returns what was sealed. *)
Lemma open_seal key seq addr ad secured mac e payload :
  open key seq addr ad secured mac e = Ok payload <->
  seal key seq addr ad payload e = Ok (secured, mac).
Proof.
  unfold open. split.
  - destruct e.
    + destruct (decrypt_ctr _ _ _ _) as [[p t]|] eqn:Ed; [|done].
      cbn [map_err mbind result_bind mret result_ret].
      destruct (seal key seq addr ad p true) as [[s m]|] eqn:Es; [|done]. cbn [mbind result_bind].
      destruct (constant_time_eq m mac) eqn:Ec; [|done]. cbn [negb]. intros [= <-].
      apply constant_time_eq_iff in Ec. subst m.
      destruct (seal_inv _ _ _ _ _ _ _ _ Es) as (Hm & _ & _ & tag & _ & _ & _ & Hsec).
      unfold decrypt_ctr in Ed.
      rewrite encrypt_ctr_eq in Ed
        by (rewrite ?Hm; [apply length_tp_counter_0 || (unfold TP_MAC_LEN, BLOCK; lia)..]).
      injection Ed as Hp _. rewrite Es. f_equal. f_equal.
      rewrite Hsec, <- Hp, Hm. apply apply_keystream_involutive.
    + cbn [mbind result_bind mret result_ret].
      destruct (seal key seq addr ad secured false) as [[s m]|] eqn:Es; [|done].
      cbn [mbind result_bind]. destruct (constant_time_eq m mac) eqn:Ec; [|done]. cbn [negb].
      intros [= <-]. apply constant_time_eq_iff in Ec. subst m.
      destruct (seal_inv _ _ _ _ _ _ _ _ Es) as (_ & _ & _ & tag & _ & _ & _ & Hsec).
      by rewrite Es, Hsec.
  - intros Es. destruct (seal_inv _ _ _ _ _ _ _ _ Es) as (Hm & _ & _ & tag & Ht & _ & Hmac & Hsec).
    assert (Hp : (if e then '(plain, _) ← map_err AsduCrypto
                              (decrypt_ctr key (tp_counter_0 seq addr) mac secured); mret plain
                  else mret secured) = Ok payload).
    { destruct e; [|by rewrite Hsec]. unfold decrypt_ctr.
      rewrite encrypt_ctr_eq
        by (rewrite ?Hm; [apply length_tp_counter_0 || (unfold TP_MAC_LEN, BLOCK; lia)..]).
      cbn. do 2 f_equal. rewrite Hsec, Hm. apply apply_keystream_involutive. }
    cbn zeta. rewrite Hp. cbn [mbind result_bind]. rewrite Es. cbn [mbind result_bind].
    rewrite constant_time_eq_refl. done.
Qed.

(** A sealed payload never fails for the sizes the frames have. *)
Lemma seal_ok key seq addr ad payload e :
  zlen payload < 256 -> zlen ad + zlen payload < 65536 ->
  exists secured mac, seal key seq addr ad payload e = Ok (secured, mac).
Proof.
  intros Hp Ha. assert (0 <= zlen payload) by (unfold zlen; lia).
  assert (Hm : forall m : bytes, length m = BLOCK -> (length (take TP_MAC_LEN m) <= BLOCK)%nat)
    by (intros m Hm; rewrite length_take; lia).
  unfold seal. destruct e.
  - apply Z.ltb_lt in Hp as ->. cbn [negb].
    destruct (cbc_mac_ok key ad payload (tp_block_0 seq addr (zlen payload))) as (m & -> & Hl & _);
      [apply length_tp_block_0|lia|]. cbn [map_err mbind result_bind].
    rewrite encrypt_ctr_eq by (auto using length_tp_counter_0). cbn. eauto.
  - destruct (cbc_mac_ok key (ad ++ payload) [] (tp_block_0 seq addr 0)) as (m & -> & Hl & _);
      [apply length_tp_block_0|unfold zlen in *; rewrite length_app; lia|].
    cbn [map_err mbind result_bind].
    rewrite encrypt_ctr_eq by (auto using length_tp_counter_0). cbn. eauto.
Qed.

End AsduLemmas.

(** [split_asdu] cuts an ASDU into its four fields. *)
Lemma split_asdu_spec asdu scf seq body mac : bytes_ok asdu ->
  split_asdu asdu = Ok (scf, seq, body, mac) <->
  asdu = Scf_to_byte scf :: seq ++ body ++ mac /\ length seq = SEQ_LEN /\ length mac = TP_MAC_LEN.
Proof.
  intros Hok. unfold split_asdu, SEQ_LEN, TP_MAC_LEN. split.
  - case_bool_decide as Hlen; [done|]. destruct asdu as [|b r]; [simpl in Hlen; lia|].
    simpl nth. destruct (Scf_from_byte b) as [s|] eqn:Es; [|done]. cbn [mbind result_bind].
    intros [= <- <- <- <-]. apply Forall_cons in Hok as [Hb _]. simpl length in *.
    rewrite (Scf_to_from _ _ Hb Es). unfold slice.
    split; [|split; [rewrite length_take, length_drop; cbn [length]; lia|
                     rewrite length_drop; cbn [length]; lia]].
    replace (length r - 3)%nat with (S (length r - 4)) by lia.
    cbn [drop Nat.add]. f_equal. rewrite <- (take_drop 6 r) at 1. f_equal.
    rewrite <- (take_drop (length r - 10) (drop 6 r)) at 1. rewrite drop_drop.
    f_equal; [|f_equal; lia]. f_equal. lia.
  - intros (-> & Hs & Hm). simpl length. rewrite !length_app, Hs, Hm.
    rewrite bool_decide_false by lia. simpl nth. rewrite Scf_from_to. cbn [mbind result_bind].
    unfold mret, result_ret. do 2 f_equal; [f_equal; [f_equal|]|].
    + unfold slice. simpl. rewrite drop_0. by apply take_app_length'.
    + unfold slice. replace (S (6 + (length body + 4)) - 4)%nat with (7 + length body)%nat by lia.
      change (drop (1 + 6) (Scf_to_byte scf :: seq ++ body ++ mac)) with (drop 6 (seq ++ body ++ mac)).
      rewrite drop_app_length' by done. apply take_app_length'. lia.
    + replace (S (6 + (length body + 4)) - 4)%nat with (S (length (seq ++ body)))
        by (rewrite length_app; lia).
      simpl. rewrite app_assoc. apply drop_app_length.
Qed.

Lemma inner_apdu_roundtrip apci data : 0 <= apci < 1024 ->
  parse_inner_apdu (inner_apdu_bytes apci data) = Ok (apci, data).
Proof.
  intros Ha. unfold inner_apdu_bytes, parse_inner_apdu.
  assert (H : Z.land (as_u8 (Z.land (Z.shiftr apci 8) 3)) INNER_RESERVED_MASK = 0 /\
    Z.lor (Z.shiftl (Z.land (as_u8 (Z.land (Z.shiftr apci 8) 3)) 3) 8) (as_u8 (Z.land apci 255))
    = apci).
  { apply (below_decide 1024 (fun a =>
      Z.land (as_u8 (Z.land (Z.shiftr a 8) 3)) INNER_RESERVED_MASK = 0 /\
      Z.lor (Z.shiftl (Z.land (as_u8 (Z.land (Z.shiftr a 8) 3)) 3) 8) (as_u8 (Z.land a 255)) = a));
      [vm_compute; reflexivity | exact Ha]. }
  destruct H as [-> ->]. done.
Qed.

Lemma parse_inner_apdu_inv apdu apci data : bytes_ok apdu ->
  parse_inner_apdu apdu = Ok (apci, data) ->
  apdu = inner_apdu_bytes apci data /\ 0 <= apci < 1024.
Proof.
  unfold parse_inner_apdu. intros Hok E. destruct apdu as [|a [|b d]]; try done.
  unfold bytes_ok in Hok. rewrite !Forall_cons in Hok. destruct Hok as (Ha & Hb & _).
  destruct (negb _) eqn:Er; [done|]. apply negb_false_iff, Z.eqb_eq in Er. injection E as <- <-.
  assert (H : Z.land a INNER_RESERVED_MASK = 0 ->
    a = as_u8 (Z.land (Z.shiftr (Z.lor (Z.shiftl (Z.land a 3) 8) b) 8) 3) /\
    b = as_u8 (Z.land (Z.lor (Z.shiftl (Z.land a 3) 8) b) 255) /\
    0 <= Z.lor (Z.shiftl (Z.land a 3) 8) b < 1024).
  { apply (u8_decide2 (fun a b => Z.land a INNER_RESERVED_MASK = 0 ->
      a = as_u8 (Z.land (Z.shiftr (Z.lor (Z.shiftl (Z.land a 3) 8) b) 8) 3) /\
      b = as_u8 (Z.land (Z.lor (Z.shiftl (Z.land a 3) 8) b) 255) /\
      0 <= Z.lor (Z.shiftl (Z.land a 3) 8) b < 1024)); [vm_compute; reflexivity|done|done]. }
  destruct (H Er) as (H1 & H2 & H3). unfold inner_apdu_bytes. rewrite <- H1, <- H2. done.
Qed.

Lemma mask_involutive v c : length v = length c -> mask (mask v c) c = v.
Proof. apply zip_with_lxor_involutive. Qed.

Section AsduProperties.
  Context `{C : SecureCiphers, L : !SecureCiphersLaws C}.

Lemma seal_octets key seq addr ad payload e secured mac :
  bytes_ok secured -> seal key seq addr ad payload e = Ok (secured, mac) -> bytes_ok payload.
Proof.
  intros Hok E. destruct (seal_inv _ _ _ _ _ _ _ _ E) as (_ & _ & _ & _ & _ & _ & _ & Hs).
  destruct e; [|by subst]. rewrite <- (apply_keystream_involutive (Key16_bytes key)
    (tp_counter_0 seq addr) TP_MAC_LEN payload), <- Hs. by apply apply_keystream_octets.
Qed.

(** The direct round trip, used by the sessions. *)
Lemma asdu_decode_encode key scf seq addr apci data asdu :
  service scf = SvcData -> Sequence_ok seq -> 0 <= apci < 1024 -> bytes_ok asdu ->
  asdu_encode key scf seq addr apci data = Ok asdu ->
  asdu_decode key asdu addr = Ok (MkDecodedInner scf seq apci data).
Proof.
  intros Hsvc Hseq Hapci Hok E. unfold asdu_encode, encode_apdu in E.
  destruct (_ <? 256) eqn:Hlen; [|done]. cbn [negb] in E.
  apply bind_ok in E as ([secured mac] & Es & E). injection E as <-.
  destruct (seal_inv _ _ _ _ _ _ _ _ Es) as (Hm & _). unfold asdu_decode.
  rewrite (proj2 (split_asdu_spec _ scf (Sequence_to_bytes seq) secured mac Hok))
    by (split; [done|split; [apply length_Sequence_to_bytes|done]]).
  cbn [mbind result_bind]. rewrite bool_decide_true by done. cbn [negb].
  rewrite Sequence_from_to by done. simpl nth. rewrite (proj2 (open_seal _ _ _ _ _ _ _ _) Es).
  cbn [mbind result_bind]. rewrite inner_apdu_roundtrip by done. done.
Qed.

(** What the decoder accepts was sealed by a holder of the key. *)
Lemma asdu_decode_inv key asdu addr d : bytes_ok asdu ->
  asdu_decode key asdu addr = Ok d ->
  service (di_scf d) = SvcData /\ Sequence_ok (di_sequence d) /\ 0 <= di_apci d < 1024 /\
  exists secured mac,
    seal key (di_sequence d) addr [Scf_to_byte (di_scf d)] (inner_apdu_bytes (di_apci d) (di_data d))
      (SecurityAlgorithm_encrypts (algorithm (di_scf d))) = Ok (secured, mac) /\
    asdu = Scf_to_byte (di_scf d) :: Sequence_to_bytes (di_sequence d) ++ secured ++ mac.
Proof.
  intros Hok E. unfold asdu_decode in E.
  apply bind_ok in E as ([[[scf seq] body] mac] & Esp & E).
  apply split_asdu_spec in Esp as (Ea & Hl & Hm); [|done].
  case_bool_decide as Hsvc; [|done]. cbn [negb] in E.
  apply bind_ok in E as (apdu & Eo & E). apply open_seal in Eo.
  apply bind_ok in E as ([apci data] & Ep & E). injection E as <-.
  cbn [di_scf di_sequence di_apci di_data].
  assert (Hb : bytes_ok seq /\ bytes_ok body).
  { rewrite Ea in Hok. apply Forall_cons in Hok as [_ Hok].
    rewrite !bytes_ok_app in Hok. tauto. }
  destruct Hb as [Hbs Hbb].
  destruct (parse_inner_apdu apdu) as [[a' d']|err] eqn:Ei; [|destruct err; done].
  injection Ep as -> ->. apply parse_inner_apdu_inv in Ei as [-> Hapci];
    [|by eapply seal_octets].
  split; [done|]. split; [by apply Sequence_from_bytes_ok|]. split; [done|].
  exists body, mac. rewrite Ea in Eo. simpl nth in Eo. split; [exact Eo|].
  by rewrite Sequence_to_from.
Qed.

Lemma seal_octets_out key seq addr ad payload e secured mac :
  bytes_ok payload -> seal key seq addr ad payload e = Ok (secured, mac) ->
  bytes_ok secured /\ bytes_ok mac.
Proof.
  intros Hok E. destruct (seal_inv _ _ _ _ _ _ _ _ E) as (_ & _ & _ & tag & _ & Ht & -> & ->).
  split; [|by apply apply_keystream_octets]. destruct e; [by apply apply_keystream_octets|done].
Qed.

Lemma inner_apdu_bytes_ok apci data : bytes_ok data -> bytes_ok (inner_apdu_bytes apci data).
Proof. intros H. constructor; [zdiv|]. constructor; [zdiv|done]. Qed.

Lemma asdu_encode_ok key scf seq addr apci data : zlen data < 254 -> bytes_ok data ->
  exists asdu, asdu_encode key scf seq addr apci data = Ok asdu /\ bytes_ok asdu.
Proof.
  intros Hlen Hok. unfold asdu_encode, encode_apdu.
  assert (Hl : zlen (inner_apdu_bytes apci data) = zlen data + 2) by (unfold zlen, inner_apdu_bytes; cbn [length]; lia).
  rewrite Hl. rewrite (proj2 (Z.ltb_lt (zlen data + 2) 256)) by lia. cbn [negb].
  destruct (seal_ok key seq addr [Scf_to_byte scf] (inner_apdu_bytes apci data)
              (SecurityAlgorithm_encrypts (algorithm scf))) as (sec & mac & E);
    [lia|change (zlen [_]) with 1; lia|].
  destruct (seal_octets_out _ _ _ _ _ _ _ _ (inner_apdu_bytes_ok apci data Hok) E) as [H1 H2].
  rewrite E. eexists. split; [reflexivity|]. constructor; [apply Scf_to_byte_u8|].
  apply Forall_app. split; [apply Sequence_to_bytes_ok|]. by apply Forall_app.
Qed.

Lemma asdu_encode_head key scf seq addr apci data asdu :
  asdu_encode key scf seq addr apci data = Ok asdu -> exists r, asdu = Scf_to_byte scf :: r.
Proof.
  unfold asdu_encode, encode_apdu. destruct (negb _); [done|]. intros E.
  apply bind_ok in E as ([sec mac] & _ & E). injection E as <-. eauto.
Qed.

Lemma encode_sync_req_ok key req addr :
  bytes_ok (sr_serial req) -> bytes_ok (sr_challenge req) ->
  length (sr_serial req) = SERIAL_LEN -> length (sr_challenge req) = CHALLENGE_LEN ->
  exists r, encode_sync_req key (Scf_tool_sync SvcSyncReq) req addr
            = Ok (Scf_to_byte (Scf_tool_sync SvcSyncReq) :: r) /\
            bytes_ok (Scf_to_byte (Scf_tool_sync SvcSyncReq) :: r).
Proof.
  intros Hs Hc Hsl Hcl. unfold encode_sync_req. cbn [service Scf_tool_sync].
  rewrite bool_decide_true by done. cbn [negb].
  destruct (seal_ok key (sr_sequence req) addr
    (Scf_to_byte (Scf_tool_sync SvcSyncReq) :: sr_serial req) (sr_challenge req) true)
    as (sec & mac & E);
    [unfold zlen; rewrite Hcl; done|unfold zlen; cbn [length]; rewrite Hcl, Hsl; done|].
  change (SecurityAlgorithm_encrypts _) with true. rewrite E.
  destruct (seal_octets_out _ _ _ _ _ _ _ _ Hc E) as [H1 H2].
  eexists. split; [reflexivity|]. constructor; [apply Scf_to_byte_u8|].
  apply Forall_app. split; [apply Sequence_to_bytes_ok|].
  apply Forall_app. split; [done|]. by apply Forall_app.
Qed.

Lemma encode_sync_res_ok key res challenge nonce addr :
  bytes_ok challenge ->
  exists r, encode_sync_res key (Scf_tool_sync SvcSyncRes) res challenge nonce addr
            = Ok (Scf_to_byte (Scf_tool_sync SvcSyncRes) :: r) /\
            bytes_ok (Scf_to_byte (Scf_tool_sync SvcSyncRes) :: r).
Proof.
  intros Hc. unfold encode_sync_res. cbn [service Scf_tool_sync].
  rewrite bool_decide_true by done. cbn [negb].
  set (payload := Sequence_to_bytes (responder_sequence res)
                  ++ Sequence_to_bytes (requester_sequence res)).
  assert (Hl : zlen payload = 12).
  { unfold zlen, payload. rewrite length_app, !length_Sequence_to_bytes. done. }
  assert (Hp : bytes_ok payload) by (apply Forall_app; split; apply Sequence_to_bytes_ok).
  destruct (seal_ok key nonce addr [Scf_to_byte (Scf_tool_sync SvcSyncRes)] payload true)
    as (sec & mac & E); [lia|rewrite Hl; done|].
  change (SecurityAlgorithm_encrypts _) with true. rewrite E.
  destruct (seal_octets_out _ _ _ _ _ _ _ _ Hp E) as [H1 H2].
  eexists. split; [reflexivity|]. constructor; [apply Scf_to_byte_u8|].
  apply Forall_app. split; [apply zip_with_lxor_ok; [apply Sequence_to_bytes_ok|done]|].
  by apply Forall_app.
Qed.

(** The two directions of the sync round trips, used by the sessions. *)
Lemma decode_encode_sync_req key asdu addr scf req :
  bytes_ok asdu -> service scf = SvcSyncReq -> Sequence_ok (sr_sequence req) ->
  length (sr_serial req) = SERIAL_LEN -> length (sr_challenge req) = CHALLENGE_LEN ->
  encode_sync_req key scf req addr = Ok asdu ->
  decode_sync_req key asdu addr = Ok (scf, req).
Proof.
  intros Hok Hsvc Hseq Hser Hch E. unfold decode_sync_req, encode_sync_req in *.
  rewrite bool_decide_true in E by done. cbn [negb] in E.
  apply bind_ok in E as ([sec mac] & Es & E). cbn [mret result_ret] in E.
  apply Ok_inj in E. subst asdu.
  destruct (seal_inv _ _ _ _ _ _ _ _ Es) as (Hm & Hsec & _).
  rewrite (proj2 (split_asdu_spec _ scf (Sequence_to_bytes (sr_sequence req))
             (sr_serial req ++ sec) mac Hok))
    by (rewrite <- app_assoc; split; [done|split; [apply length_Sequence_to_bytes|done]]).
  cbn [mbind result_bind]. rewrite bool_decide_true by done. cbn [negb].
  rewrite bool_decide_true by (rewrite length_app, Hsec, Hser, Hch; done). cbn [negb nth].
  rewrite (take_app_length' (sr_serial req)), (drop_app_length' (sr_serial req)) by done.
  rewrite Sequence_from_to by done. rewrite (proj2 (open_seal _ _ _ _ _ _ _ _) Es).
  cbn. destruct req. done.
Qed.

Lemma decode_encode_sync_res key asdu addr challenge res scf nonce :
  bytes_ok asdu -> length challenge = CHALLENGE_LEN ->
  Sequence_ok (responder_sequence res) -> Sequence_ok (requester_sequence res) ->
  service scf = SvcSyncRes -> Sequence_ok nonce ->
  encode_sync_res key scf res challenge nonce addr = Ok asdu ->
  decode_sync_res key asdu addr challenge = Ok res.
Proof.
  intros Hok Hcl Hr1 Hr2 Hsvc Hn E. unfold decode_sync_res, encode_sync_res in *.
  rewrite bool_decide_true in E by done. cbn [negb] in E.
  apply bind_ok in E as ([sec mac] & Es & E). cbn [mret result_ret] in E.
  apply Ok_inj in E. subst asdu.
  destruct (seal_inv _ _ _ _ _ _ _ _ Es) as (Hm & Hsec & _).
  rewrite length_app, !length_Sequence_to_bytes in Hsec.
  assert (Hl : length (mask (Sequence_to_bytes nonce) challenge) = SEQ_LEN).
  { unfold mask. rewrite length_zip_with, length_Sequence_to_bytes, Hcl. done. }
  rewrite (proj2 (split_asdu_spec _ scf (mask (Sequence_to_bytes nonce) challenge) sec mac Hok))
    by done.
  cbn [mbind result_bind]. rewrite bool_decide_true by done. cbn [negb].
  rewrite bool_decide_true by (rewrite Hsec; done). cbn [negb nth].
  rewrite mask_involutive by (rewrite length_Sequence_to_bytes; done).
  rewrite Sequence_from_to by done. rewrite (proj2 (open_seal _ _ _ _ _ _ _ _) Es).
  cbn [mbind result_bind mret result_ret].
  rewrite take_app_length', drop_app_length' by (by rewrite length_Sequence_to_bytes).
  rewrite !Sequence_from_to by done. destruct res. done.
Qed.

End AsduProperties.

(** ** Properties *)

(** the decoder accepts exactly what the encoder produces under the same key
    and addressing: an ASDU (of a size a frame can carry) decodes to an inner APDU
    if and only if encoding that APDU with that SCF and sequence yields these very
    octets, for both algorithms.  So a frame is delivered unchanged, and no other
    octets (a wrong key, a changed octet, another address or TPCI) are taken for
    it. *)
Theorem asdu_accepts_exactly_encodings `{C : SecureCiphers, L : !SecureCiphersLaws C}
    key asdu addr d :
  bytes_ok asdu -> zlen asdu <= 266 ->
  asdu_decode key asdu addr = Ok d <->
  service (di_scf d) = SvcData /\ Sequence_ok (di_sequence d) /\ 0 <= di_apci d < 1024 /\
  asdu_encode key (di_scf d) (di_sequence d) addr (di_apci d) (di_data d) = Ok asdu.
Proof.
  intros Hok Hlen. split.
  - intros E. destruct (asdu_decode_inv _ _ _ _ Hok E) as (H1 & H2 & H3 & sec & mac & Es & Ea).
    split; [done|]. split; [done|]. split; [done|]. unfold asdu_encode, encode_apdu.
    destruct (seal_inv _ _ _ _ _ _ _ _ Es) as (Hm & Hs & _).
    rewrite (proj2 (Z.ltb_lt _ _)).
    + cbn [negb]. rewrite Es. cbn. by rewrite Ea.
    + rewrite Ea in Hlen. unfold zlen in *. cbn [length] in Hlen.
      rewrite !length_app, length_Sequence_to_bytes, Hm, Hs in Hlen. unfold TP_MAC_LEN in Hlen. lia.
  - intros (H1 & H2 & H3 & E). destruct d. by eapply asdu_decode_encode.
Qed.

Lemma asdu_accepts_exactly_encodings_witness :
  exists asdu, @asdu_encode demo_ciphers (Key16_new (replicate 16 7))
      (Scf_tool_data AuthenticationEncryption) (MkSequence 1234)
      (MkTpAddressing 4351 4356 false 0 68) 981 [0; 11; 16; 1] = Ok asdu /\
    @asdu_decode demo_ciphers (Key16_new (replicate 16 7)) asdu
      (MkTpAddressing 4351 4356 false 0 68)
    = Ok (MkDecodedInner (Scf_tool_data AuthenticationEncryption) (MkSequence 1234) 981
            [0; 11; 16; 1]).
Proof.
  eexists. split; [vm_compute; reflexivity|].
  apply asdu_accepts_exactly_encodings; [vm_compute; repeat constructor; discriminate|done|].
  split; [done|]. split; [done|]. split; [done|]. vm_compute. reflexivity.
Defined.

(** an S-A_Sync_Req is accepted exactly when it is the encoding of the request
    returned, with the serial number authenticated in the clear and the challenge
    recovered from under the encryption. *)
Theorem sync_req_accepts_exactly_encodings `{C : SecureCiphers, L : !SecureCiphersLaws C}
    key asdu addr scf req :
  bytes_ok asdu ->
  decode_sync_req key asdu addr = Ok (scf, req) <->
  service scf = SvcSyncReq /\ Sequence_ok (sr_sequence req) /\
  length (sr_serial req) = SERIAL_LEN /\ length (sr_challenge req) = CHALLENGE_LEN /\
  encode_sync_req key scf req addr = Ok asdu.
Proof.
  intros Hok. unfold decode_sync_req, encode_sync_req. split.
  - intros E. apply bind_ok in E as ([[[s seq] body] mac] & Esp & E).
    apply split_asdu_spec in Esp as (Ea & Hl & Hm); [|done].
    case_bool_decide as Hsvc; [|done]. cbn [negb] in E.
    case_bool_decide as Hb; [|done]. cbn [negb] in E.
    apply bind_ok in E as (ch & Eo & E). injection E as <- <-. cbn [sr_sequence sr_serial sr_challenge].
    apply open_seal in Eo. rewrite Ea in Eo. cbn [nth] in Eo.
    assert (Hbs : bytes_ok seq).
    { rewrite Ea in Hok. apply Forall_cons in Hok as [_ Hok]. by apply bytes_ok_app in Hok as [? _]. }
    destruct (seal_inv _ _ _ _ _ _ _ _ Eo) as (_ & Hsec & _). rewrite length_drop in Hsec.
    unfold SERIAL_LEN, CHALLENGE_LEN in *.
    split; [done|]. split; [by apply Sequence_from_bytes_ok|].
    split; [rewrite length_take; lia|]. split; [lia|].
    rewrite bool_decide_true by done. cbn [negb]. rewrite Eo. cbn [mbind result_bind mret result_ret].
    rewrite Sequence_to_from by done.
    rewrite (app_assoc (take 6 body)), take_drop. by rewrite Ea.
  - intros (Hsvc & Hseq & Hser & Hch & E). by eapply decode_encode_sync_req.
Qed.

Lemma sync_req_accepts_exactly_encodings_witness :
  exists asdu, @encode_sync_req demo_ciphers (Key16_new (replicate 16 7)) (Scf_tool_sync SvcSyncReq)
      (MkSyncRequest (MkSequence 1234) (replicate 6 0) [1; 2; 3; 4; 5; 6])
      (MkTpAddressing 4351 4356 false 0 68) = Ok asdu /\
    @decode_sync_req demo_ciphers (Key16_new (replicate 16 7)) asdu
      (MkTpAddressing 4351 4356 false 0 68)
    = Ok (Scf_tool_sync SvcSyncReq,
          MkSyncRequest (MkSequence 1234) (replicate 6 0) [1; 2; 3; 4; 5; 6]).
Proof.
  eexists. split; [vm_compute; reflexivity|].
  apply sync_req_accepts_exactly_encodings; [vm_compute; repeat constructor; discriminate|].
  split; [done|]. split; [done|]. split; [done|]. split; [done|]. vm_compute. reflexivity.
Defined.

(** an S-A_Sync_Res is accepted against a challenge exactly when it is an
    encoding of the response returned for that challenge, under some nonce of the
    responder: a response to another challenge or an altered one is refused, and
    both sequences arrive as the responder stated them. *)
Theorem sync_res_bound_to_challenge `{C : SecureCiphers, L : !SecureCiphersLaws C}
    key asdu addr challenge res :
  bytes_ok asdu -> bytes_ok challenge -> length challenge = CHALLENGE_LEN ->
  decode_sync_res key asdu addr challenge = Ok res <->
  Sequence_ok (responder_sequence res) /\ Sequence_ok (requester_sequence res) /\
  exists scf nonce, service scf = SvcSyncRes /\ Sequence_ok nonce /\
    encode_sync_res key scf res challenge nonce addr = Ok asdu.
Proof.
  intros Hok Hcok Hcl. unfold decode_sync_res, encode_sync_res. split.
  - intros E. apply bind_ok in E as ([[[s seq] body] mac] & Esp & E).
    apply split_asdu_spec in Esp as (Ea & Hl & Hm); [|done].
    case_bool_decide as Hsvc; [|done]. cbn [negb] in E.
    case_bool_decide as Hb; [|done]. cbn [negb] in E.
    apply bind_ok in E as (plain & Eo & E). injection E as <-. cbn [responder_sequence requester_sequence].
    apply open_seal in Eo. rewrite Ea in Eo. cbn [nth] in Eo.
    assert (Hbs : bytes_ok seq /\ bytes_ok body).
    { rewrite Ea in Hok. apply Forall_cons in Hok as [_ Hok]. rewrite !bytes_ok_app in Hok. tauto. }
    destruct Hbs as [Hbs Hbb]. pose proof (seal_octets _ _ _ _ _ _ _ _ Hbb Eo) as Hpo.
    destruct (seal_inv _ _ _ _ _ _ _ _ Eo) as (_ & Hsec & _).
    unfold SEQ_LEN, CHALLENGE_LEN in *.
    assert (Ht : length (take 6 plain) = 6%nat) by (rewrite length_take; lia).
    assert (Hd : length (drop 6 plain) = 6%nat) by (rewrite length_drop; lia).
    assert (Hmk : bytes_ok (mask seq challenge)) by (by apply zip_with_lxor_ok).
    assert (Hml : length (mask seq challenge) = 6%nat)
      by (unfold mask; rewrite length_zip_with; lia).
    split; [apply Sequence_from_bytes_ok; auto with bus|].
    split; [apply Sequence_from_bytes_ok; auto with bus|].
    exists s, (Sequence_from_bytes (mask seq challenge)). split; [done|].
    split; [by apply Sequence_from_bytes_ok|].
    rewrite bool_decide_true by done. cbn [negb].
    rewrite !Sequence_to_from by auto with bus. rewrite take_drop, Eo. cbn [mbind result_bind].
    rewrite mask_involutive by lia. by rewrite Ea.
  - intros (Hr1 & Hr2 & scf & nonce & Hsvc & Hn & E). by eapply decode_encode_sync_res.
Qed.

Lemma sync_res_bound_to_challenge_witness :
  exists asdu, @encode_sync_res demo_ciphers (Key16_new (replicate 16 7)) (Scf_tool_sync SvcSyncRes)
      (MkSyncResponse (MkSequence 77) (MkSequence 1234)) [1; 2; 3; 4; 5; 6] (MkSequence 9)
      (MkTpAddressing 4356 4351 false 0 68) = Ok asdu /\
    @decode_sync_res demo_ciphers (Key16_new (replicate 16 7)) asdu
      (MkTpAddressing 4356 4351 false 0 68) [1; 2; 3; 4; 5; 6]
    = Ok (MkSyncResponse (MkSequence 77) (MkSequence 1234)).
Proof.
  eexists. split; [vm_compute; reflexivity|].
  apply sync_res_bound_to_challenge;
    [vm_compute; repeat constructor; discriminate|vm_compute; repeat constructor; discriminate|done|].
  split; [done|]. split; [done|]. exists (Scf_tool_sync SvcSyncRes), (MkSequence 9).
  split; [done|]. split; [done|]. vm_compute. reflexivity.
Defined.
