(* ===== verification/SecureSession.v ===== *)
(** * The Data Secure session ([crates/bussard-secure/src/session.rs])

    The per-device session: wrapping with the next send sequence, unwrapping with
    freshness per source, and the S-A_Sync handshake in the tool's and in the
    device's role.  The shared objects a session writes to (the per-device
    high-water mark and the process-wide clock) are threaded as a
    [HighWaterState]; randomness is an argument. *)

From Stdlib Require Import Sorting.Sorted.
From S2P Require Import Prelude Crypto Sequence Asdu.

Local Open Scope string_scope.
Local Open Scope list_scope.
Local Open Scope Z_scope.

Inductive SyncState : Type :=
| NotStarted
| Pending (challenge : bytes)
| Done.

#[export] Instance SyncState_eq_dec : EqDecision SyncState.
Proof. solve_decision. Defined.

Record DataSecureSession : Type := MkSession {
  tool_key : Key16;
  ss_algorithm : SecurityAlgorithm;
  send_seq : Sequence;
  last_seen : gmap Z Sequence;
  high_water : bool;              (* tied to the shared mark *)
  sync : SyncState }.

Inductive UnwrapOutcome : Type :=
| Secured (apci : u16) (data : bytes)
| Plain
| Synced (device_sequence next_send_sequence : Sequence).

#[export] Instance UnwrapOutcome_eq_dec : EqDecision UnwrapOutcome.
Proof. solve_decision. Defined.

(** [fresh_challenge]: six octets of a random 64-bit value. *)
Definition fresh_challenge (value : u64) : bytes := take 6 (be_bytes 8 value).

(** Field updates. *)
Definition set_send_seq (v : Sequence) (s : DataSecureSession) : DataSecureSession :=
  MkSession (tool_key s) (ss_algorithm s) v (last_seen s) (high_water s) (sync s).
Definition set_last_seen (m : gmap Z Sequence) (s : DataSecureSession) : DataSecureSession :=
  MkSession (tool_key s) (ss_algorithm s) (send_seq s) m (high_water s) (sync s).
Definition set_sync (v : SyncState) (s : DataSecureSession) : DataSecureSession :=
  MkSession (tool_key s) (ss_algorithm s) (send_seq s) (last_seen s) (high_water s) v.

(** ** Construction *)

Definition DataSecureSession_new (key : Key16) (now : u64) (env : HighWaterState)
    : DataSecureSession * HighWaterState :=
  let '(seed, clock) := SequenceClock_issue now (hw_clock env) in
  (MkSession key AuthenticationEncryption seed ∅ false NotStarted,
   MkHighWater (hw_last env) clock).

Definition DataSecureSession_with_high_water (now : u64) (s : DataSecureSession)
    (env : HighWaterState) : DataSecureSession * HighWaterState :=
  let '(seed, env) := SequenceHighWater_next_seed now env in
  (MkSession (tool_key s) (ss_algorithm s) seed (last_seen s) true (sync s), env).

Definition DataSecureSession_with_send_sequence (s : DataSecureSession) (seed : Sequence)
    : DataSecureSession := set_send_seq seed s.

Definition DataSecureSession_with_algorithm (s : DataSecureSession) (a : SecurityAlgorithm)
    : DataSecureSession :=
  MkSession (tool_key s) a (send_seq s) (last_seen s) (high_water s) (sync s).

Definition DataSecureSession_set_tool_key (s : DataSecureSession) (key : Key16)
    : DataSecureSession :=
  MkSession key (ss_algorithm s) (send_seq s) (last_seen s) (high_water s) (sync s).

Definition DataSecureSession_is_synced (s : DataSecureSession) : bool :=
  bool_decide (sync s = Done).

Definition DataSecureSession_peer_next_sequence (s : DataSecureSession) (source : u16)
    : option Sequence :=
  Sequence_next <$> last_seen s !! source.

Definition DataSecureSession_expect_peer_sequence (s : DataSecureSession) (source : u16)
    (next : Sequence) : DataSecureSession :=
  set_last_seen (<[source := Sequence_new (saturating_sub (Sequence_value next) 1)]> (last_seen s)) s.

(** What sending a sequence records: in the shared mark when the session has one,
    and in the process clock. *)
Definition record_sent (s : DataSecureSession) (seq : Sequence) (env : HighWaterState)
    : HighWaterState :=
  let env := if high_water s then SequenceHighWater_observe seq env else env in
  MkHighWater (hw_last env) (SequenceClock_observe seq (hw_clock env)).

Section Session.
  Context `{C : SecureCiphers}.

(** ** The S-A_Sync handshake *)

Definition DataSecureSession_sync_request_with_challenge (s : DataSecureSession)
    (env : HighWaterState) (addr : TpAddressing) (challenge : bytes)
    : result AsduError (u16 * bytes) * DataSecureSession * HighWaterState :=
  let req := MkSyncRequest (send_seq s) (replicate SERIAL_LEN 0) challenge in
  match encode_sync_req (tool_key s) (Scf_tool_sync SvcSyncReq) req addr with
  | Err e => (Err e, s, env)
  | Ok asdu => (Ok (A_SECURE_DATA, asdu), set_sync (Pending challenge) s,
                record_sent s (sr_sequence req) env)
  end.

Definition DataSecureSession_sync_request (s : DataSecureSession) (env : HighWaterState)
    (addr : TpAddressing) (random : u64)
    : result AsduError (u16 * bytes) * DataSecureSession * HighWaterState :=
  DataSecureSession_sync_request_with_challenge s env addr (fresh_challenge random).

Definition DataSecureSession_apply_sync_response (s : DataSecureSession) (addr : TpAddressing)
    (asdu_bytes : bytes) : result AsduError UnwrapOutcome * DataSecureSession :=
  match sync s with
  | Pending challenge =>
      match decode_sync_res (tool_key s) asdu_bytes addr challenge with
      | Err e => (Err e, s)
      | Ok res =>
          let s := if Sequence_value (send_seq s) <? Sequence_value (requester_sequence res)
                   then set_send_seq (requester_sequence res) s else s in
          let floor := saturating_sub (Sequence_value (responder_sequence res)) 1 in
          let s := set_last_seen (<[tp_source addr := Sequence_new floor]> (last_seen s)) s in
          let s := set_sync Done s in
          (Ok (Synced (responder_sequence res) (send_seq s)), s)
      end
  | _ => (Err UnsolicitedSyncResponse, s)
  end.

Definition DataSecureSession_answer_sync_request (s : DataSecureSession)
    (req_addr : TpAddressing) (asdu_bytes : bytes) (res_addr : TpAddressing) (random : u64)
    : result AsduError (u16 * bytes) * DataSecureSession :=
  match decode_sync_req (tool_key s) asdu_bytes req_addr with
  | Err e => (Err e, s)
  | Ok (_, req) =>
      let requested := saturating_sub (Sequence_value (sr_sequence req)) 1 in
      let stored := match last_seen s !! tp_source req_addr with
                    | None => requested
                    | Some v => Z.max (Sequence_value v) requested
                    end in
      let s := set_last_seen (<[tp_source req_addr := Sequence_new stored]> (last_seen s)) s in
      let accepted_next := Sequence_next (Sequence_new stored) in
      let res := MkSyncResponse (send_seq s) accepted_next in
      let nonce := Sequence_from_bytes (fresh_challenge random) in
      (asdu ← encode_sync_res (tool_key s) (Scf_tool_sync SvcSyncRes) res (sr_challenge req)
                nonce res_addr;
       mret (A_SECURE_DATA, asdu), s)
  end.

(** ** S-A_Data *)

Definition DataSecureSession_wrap (s : DataSecureSession) (env : HighWaterState)
    (addr : TpAddressing) (apci : u16) (data : bytes)
    : result AsduError (u16 * bytes) * DataSecureSession * HighWaterState :=
  let scf := Scf_tool_data (ss_algorithm s) in
  let seq := send_seq s in
  match asdu_encode (tool_key s) scf seq addr apci data with
  | Err e => (Err e, s, env)
  | Ok asdu => (Ok (A_SECURE_DATA, asdu), set_send_seq (Sequence_next (send_seq s)) s,
                record_sent s seq env)
  end.

(** The part of [unwrap] after the service dispatch: decoding and freshness.  An
    authentic frame with reserved bits is refused, its sequence still counts. *)
Definition DataSecureSession_unwrap_data (s : DataSecureSession) (addr : TpAddressing)
    (asdu_bytes : bytes) : result AsduError UnwrapOutcome * DataSecureSession :=
  let source := tp_source addr in
  match asdu_decode (tool_key s) asdu_bytes addr with
  | Err (ReservedBits octet sequence) =>
      let sequence := Sequence_new sequence in
      let s := match last_seen s !! source with
               | Some last => if Sequence_value last <? Sequence_value sequence
                              then set_last_seen (<[source := sequence]> (last_seen s)) s else s
               | None => set_last_seen (<[source := sequence]> (last_seen s)) s
               end in
      (Err (ReservedBits octet (Sequence_value sequence)), s)
  | Err e => (Err e, s)
  | Ok decoded =>
      match last_seen s !! source with
      | Some last =>
          if Sequence_value (di_sequence decoded) <=? Sequence_value last
          then (Err (StaleSequence (Sequence_value (di_sequence decoded)) (Sequence_value last)), s)
          else (Ok (Secured (di_apci decoded) (di_data decoded)),
                set_last_seen (<[source := di_sequence decoded]> (last_seen s)) s)
      | None => (Ok (Secured (di_apci decoded) (di_data decoded)),
                 set_last_seen (<[source := di_sequence decoded]> (last_seen s)) s)
      end
  end.

Definition DataSecureSession_unwrap (s : DataSecureSession) (addr : TpAddressing)
    (outer_apci : u16) (asdu_bytes : bytes)
    : result AsduError UnwrapOutcome * DataSecureSession :=
  if negb (outer_apci =? A_SECURE_DATA) then (Ok Plain, s) else
  match asdu_bytes with
  | [] => DataSecureSession_unwrap_data s addr asdu_bytes
  | b :: _ =>
      match Scf_from_byte b with
      | Err _ => DataSecureSession_unwrap_data s addr asdu_bytes
      | Ok scf =>
          match service scf with
          | SvcSyncRes => DataSecureSession_apply_sync_response s addr asdu_bytes
          | SvcSyncReq => (Err (UnexpectedService (Scf_to_byte scf)), s)
          | SvcData => DataSecureSession_unwrap_data s addr asdu_bytes
          end
      end
  end.

End Session.

(** ** Freshness and runs *)

(** The receive-side rule: strictly above the last sequence accepted from the
    source. *)
Definition accepts (s : DataSecureSession) (source : u16) (seq : Sequence) : bool :=
  match last_seen s !! source with
  | Some last => Sequence_value last <? Sequence_value seq
  | None => true
  end.

Definition session_ok (s : DataSecureSession) : Prop :=
  Sequence_ok (send_seq s) /\
  (forall source v, last_seen s !! source = Some v -> Sequence_ok v).

Section Runs.
  Context `{C : SecureCiphers}.

(** An inbound frame: its addressing, outer APCI and ASDU. *)
Definition Inbound : Type := (TpAddressing * u16 * bytes)%type.

(** Source and sequence of every frame the session accepted as secured data. *)
Fixpoint accepted_run (s : DataSecureSession) (frames : list Inbound) : list (u16 * u64) :=
  match frames with
  | [] => []
  | (addr, apci, asdu) :: r =>
      let '(out, s') := DataSecureSession_unwrap s addr apci asdu in
      match out, asdu_decode (tool_key s) asdu addr with
      | Ok (Secured _ _), Ok d => [(tp_source addr, Sequence_value (di_sequence d))]
      | _, _ => []
      end ++ accepted_run s' r
  end.

(** The counters under which a series of outgoing APDUs is encrypted. *)
Fixpoint wrap_counters (s : DataSecureSession) (env : HighWaterState)
    (out : list (TpAddressing * u16 * bytes)) : list bytes :=
  match out with
  | [] => []
  | (addr, apci, data) :: r =>
      match DataSecureSession_wrap s env addr apci data with
      | (Ok _, s', env') => tp_counter_0 (send_seq s) addr :: wrap_counters s' env' r
      | (Err _, s', env') => wrap_counters s' env' r
      end
  end.

End Runs.

(** ** Lemmas *)

Lemma saturating_pred_ok v : is_u48 v -> is_u48 (saturating_sub v 1).
Proof. unfold is_u48, saturating_sub. lia. Qed.

Section SessionLemmas.
  Context `{C : SecureCiphers, L : !SecureCiphersLaws C}.

(** What unwrapping a data frame that decodes does. *)
Lemma unwrap_data s addr scf r d :
  service scf = SvcData ->
  asdu_decode (tool_key s) (Scf_to_byte scf :: r) addr = Ok d ->
  DataSecureSession_unwrap s addr A_SECURE_DATA (Scf_to_byte scf :: r)
  = if accepts s (tp_source addr) (di_sequence d)
    then (Ok (Secured (di_apci d) (di_data d)),
          set_last_seen (<[tp_source addr := di_sequence d]> (last_seen s)) s)
    else (Err (StaleSequence (Sequence_value (di_sequence d))
                 match last_seen s !! tp_source addr with
                 | Some last => Sequence_value last
                 | None => 0
                 end), s).
Proof.
  intros Hsvc Hd. unfold DataSecureSession_unwrap, accepts. rewrite Z.eqb_refl. cbn [negb].
  rewrite Scf_from_to, Hsvc. unfold DataSecureSession_unwrap_data. rewrite Hd.
  destruct (last_seen s !! tp_source addr) as [last|]; [|done].
  rewrite Z.ltb_antisym. destruct (_ <=? _); done.
Qed.

(** Every way a session can react to an inbound frame: nothing changes, a data
    frame is accepted, an authentic frame with reserved bits only moves the floor,
    or a sync response is applied. *)
Inductive unwrap_effects (s : DataSecureSession) (addr : TpAddressing) (asdu : bytes)
    : result AsduError UnwrapOutcome -> DataSecureSession -> Prop :=
| effect_plain : unwrap_effects s addr asdu (Ok Plain) s
| effect_error e : unwrap_effects s addr asdu (Err e) s
| effect_secured d :
    asdu_decode (tool_key s) asdu addr = Ok d ->
    accepts s (tp_source addr) (di_sequence d) = true ->
    unwrap_effects s addr asdu (Ok (Secured (di_apci d) (di_data d)))
      (set_last_seen (<[tp_source addr := di_sequence d]> (last_seen s)) s)
| effect_reserved o v :
    asdu_decode (tool_key s) asdu addr = Err (ReservedBits o v) ->
    accepts s (tp_source addr) (Sequence_new v) = true ->
    unwrap_effects s addr asdu (Err (ReservedBits o (Sequence_value (Sequence_new v))))
      (set_last_seen (<[tp_source addr := Sequence_new v]> (last_seen s)) s)
| effect_synced challenge res s' :
    sync s = Pending challenge ->
    decode_sync_res (tool_key s) asdu addr challenge = Ok res ->
    sync s' = Done -> tool_key s' = tool_key s ->
    unwrap_effects s addr asdu (Ok (Synced (responder_sequence res) (send_seq s'))) s'.

Lemma unwrap_data_effect s addr asdu out s' :
  DataSecureSession_unwrap_data s addr asdu = (out, s') -> unwrap_effects s addr asdu out s'.
Proof.
  unfold DataSecureSession_unwrap_data.
  destruct (asdu_decode _ _ _) as [d|e] eqn:Ed.
  - destruct (last_seen s !! tp_source addr) as [last|] eqn:El.
    + destruct (_ <=? _) eqn:E; intros [= <- <-]; constructor; [done|].
      unfold accepts. by rewrite El, Z.ltb_antisym, E.
    + intros [= <- <-]. constructor; [done|]. unfold accepts. by rewrite El.
  - destruct e; try (intros [= <- <-]; by constructor). cbn zeta.
    destruct (last_seen s !! tp_source addr) as [last|] eqn:El.
    + destruct (_ <? _) eqn:E; intros [= <- <-]; constructor; [done|].
      unfold accepts. by rewrite El, E.
    + intros [= <- <-]. constructor; [done|]. unfold accepts. by rewrite El.
Qed.

Lemma unwrap_effect s addr apci asdu out s' :
  DataSecureSession_unwrap s addr apci asdu = (out, s') -> unwrap_effects s addr asdu out s'.
Proof.
  unfold DataSecureSession_unwrap. destruct (negb _); [intros [= <- <-]; constructor|].
  destruct asdu as [|b r]; [apply unwrap_data_effect|].
  destruct (Scf_from_byte b) as [scf|]; [|apply unwrap_data_effect].
  destruct (service scf); [apply unwrap_data_effect | intros [= <- <-]; constructor |].
  unfold DataSecureSession_apply_sync_response.
  destruct (sync s) as [|challenge|] eqn:Es; try (intros [= <- <-]; by constructor).
  destruct (decode_sync_res _ _ _ _) as [res|e] eqn:Ed; [|intros [= <- <-]; by constructor].
  intros H. apply pair_eq in H as [<- <-].
  eapply effect_synced; [exact Es|exact Ed|done|]. by destruct (_ <? _).
Qed.

Lemma wrap_ok s env addr apci data : zlen data < 254 -> bytes_ok data ->
  exists asdu, bytes_ok asdu /\
    asdu_encode (tool_key s) (Scf_tool_data (ss_algorithm s)) (send_seq s) addr apci data = Ok asdu /\
    DataSecureSession_wrap s env addr apci data
    = (Ok (A_SECURE_DATA, asdu), set_send_seq (Sequence_next (send_seq s)) s,
       record_sent s (send_seq s) env).
Proof.
  intros Hl Hok. unfold DataSecureSession_wrap.
  destruct (asdu_encode_ok (tool_key s) (Scf_tool_data (ss_algorithm s)) (send_seq s) addr apci data
              Hl Hok) as (asdu & E & Ho).
  exists asdu. rewrite E. done.
Qed.

(** A wrapped APDU, received by a session with the same key. *)
Lemma unwrap_wrapped s dev addr apci data asdu :
  tool_key dev = tool_key s -> Sequence_ok (send_seq s) -> 0 <= apci < 1024 -> bytes_ok asdu ->
  asdu_encode (tool_key s) (Scf_tool_data (ss_algorithm s)) (send_seq s) addr apci data = Ok asdu ->
  DataSecureSession_unwrap dev addr A_SECURE_DATA asdu
  = if accepts dev (tp_source addr) (send_seq s)
    then (Ok (Secured apci data),
          set_last_seen (<[tp_source addr := send_seq s]> (last_seen dev)) dev)
    else (Err (StaleSequence (Sequence_value (send_seq s))
                 match last_seen dev !! tp_source addr with
                 | Some last => Sequence_value last
                 | None => 0
                 end), dev).
Proof.
  intros Hk Hs Ha Ho E.
  assert (Hd : asdu_decode (tool_key dev) asdu addr
               = Ok (MkDecodedInner (Scf_tool_data (ss_algorithm s)) (send_seq s) apci data))
    by (rewrite Hk; by apply asdu_decode_encode).
  destruct (asdu_encode_head _ _ _ _ _ _ _ E) as (r & ->).
  exact (unwrap_data dev addr (Scf_tool_data (ss_algorithm s)) r _ eq_refl Hd).
Qed.

Lemma accepts_insert s source seq seq' :
  accepts (set_last_seen (<[source := seq]> (last_seen s)) s) source seq'
  = (Sequence_value seq <? Sequence_value seq').
Proof. unfold accepts. cbn [last_seen set_last_seen]. by rewrite lookup_insert_eq. Qed.

End SessionLemmas.

(** ** Properties *)

(** a wrapped APDU is delivered exactly once: for any cipher, a session with
    the same key that has not yet accepted this sequence unwraps it to the APDU that
    was wrapped; presenting the same frame again is refused as stale and changes
    nothing; and the sender's next frame is fresh again (until the 48 bits are used
    up). *)
Theorem secured_delivery_once `{C : SecureCiphers, L : !SecureCiphersLaws C}
    tool dev env addr apci data :
  tool_key dev = tool_key tool -> session_ok tool -> 0 <= apci < 1024 ->
  zlen data < 254 -> bytes_ok data -> accepts dev (tp_source addr) (send_seq tool) = true ->
  exists asdu tool' env' dev',
    DataSecureSession_wrap tool env addr apci data = (Ok (A_SECURE_DATA, asdu), tool', env') /\
    DataSecureSession_unwrap dev addr A_SECURE_DATA asdu = (Ok (Secured apci data), dev') /\
    DataSecureSession_unwrap dev' addr A_SECURE_DATA asdu
      = (Err (StaleSequence (Sequence_value (send_seq tool)) (Sequence_value (send_seq tool))), dev') /\
    (Sequence_value (send_seq tool) < MAX_SEQUENCE ->
       accepts dev' (tp_source addr) (send_seq tool') = true).
Proof.
  intros Hk [Hs _] Ha Hl Hok Hf.
  destruct (wrap_ok tool env addr apci data Hl Hok) as (asdu & Ho & E & Hw).
  set (dev' := set_last_seen (<[tp_source addr := send_seq tool]> (last_seen dev)) dev).
  assert (Hk' : tool_key dev' = tool_key tool) by exact Hk.
  eexists asdu, _, _, dev'. split; [exact Hw|].
  split; [rewrite (unwrap_wrapped tool dev addr apci data asdu), Hf by done; done|].
  split.
  - rewrite (unwrap_wrapped tool dev' addr apci data asdu Hk') by done. unfold dev'.
    rewrite accepts_insert, Z.ltb_irrefl. cbn [last_seen set_last_seen].
    by rewrite lookup_insert_eq.
  - intros Hlt. unfold dev'. rewrite accepts_insert. apply Z.ltb_lt. cbn [send_seq set_send_seq].
    rewrite Sequence_next_value by done. lia.
Qed.

(** The sessions of the examples. *)
Definition demo_session (seq : Z) : DataSecureSession :=
  MkSession (Key16_new (replicate 16 7)) AuthenticationEncryption (MkSequence seq) ∅ false Done.

Lemma demo_session_ok seq : is_u48 seq -> session_ok (demo_session seq).
Proof. intros H. split; [exact H|]. intros source v E. simpl in E. by rewrite lookup_empty in E. Qed.

Lemma secured_delivery_once_witness :
  exists asdu tool' env' dev',
    @DataSecureSession_wrap demo_ciphers (demo_session 1234) (MkHighWater 0 0)
      (MkTpAddressing 4351 4356 false 0 68) 981 [0; 11; 16; 1]
      = (Ok (A_SECURE_DATA, asdu), tool', env') /\
    @DataSecureSession_unwrap demo_ciphers (demo_session 77) (MkTpAddressing 4351 4356 false 0 68)
      A_SECURE_DATA asdu = (Ok (Secured 981 [0; 11; 16; 1]), dev').
Proof.
  destruct (@secured_delivery_once demo_ciphers _ (demo_session 1234) (demo_session 77)
    (MkHighWater 0 0) (MkTpAddressing 4351 4356 false 0 68) 981 [0; 11; 16; 1])
    as (asdu & tool' & env' & dev' & H1 & H2 & _);
    [done|by apply demo_session_ok|done|done|solve_bytes|done|].
  exists asdu, tool', env', dev'. split; [exact H1|exact H2].
Defined.

(** no replay is ever accepted: over any series of inbound frames, whatever
    their origin, the sequences accepted from one source strictly increase and stay
    above the floor the session started with, as long as no sync handshake is
    outstanding (a verified S-A_Sync_Res is the only thing that may reset a floor,
    and it is bound to a fresh challenge). *)
Theorem accepted_sequences_increase `{C : SecureCiphers, L : !SecureCiphersLaws C}
    frames : forall s source,
  (forall ch, sync s <> Pending ch) ->
  StronglySorted Z.lt (map snd (filter (fun p => p.1 = source) (accepted_run s frames))) /\
  (forall floor, last_seen s !! source = Some floor ->
     Forall (fun v => Sequence_value floor < v)
       (map snd (filter (fun p => p.1 = source) (accepted_run s frames)))).
Proof.
  induction frames as [|[[addr apci] asdu] r IH]; intros s source Hp.
  { split; constructor. }
  simpl. destruct (DataSecureSession_unwrap s addr apci asdu) as [out s'] eqn:E.
  simpl. apply unwrap_effect in E.
  destruct E as [| e | d Hd Hacc | o v Hd Hacc | ch res s' Hch].
  - exact (IH s source Hp).
  - exact (IH s source Hp).
  - set (s' := set_last_seen _ s). rewrite Hd.
    destruct (IH s' source Hp) as [Hs Hf]. unfold s' in Hf. cbn [last_seen set_last_seen] in Hf.
    rewrite filter_app, map_app. split.
    + rewrite filter_cons. case_decide as Hsrc; [|exact Hs]. simpl in Hsrc |- *.
      constructor; [exact Hs|]. apply Hf. rewrite <- Hsrc. apply lookup_insert_eq.
    + intros floor Hfl. rewrite filter_cons. case_decide as Hsrc; simpl in Hsrc |- *.
      * assert (Hlt : Sequence_value floor < Sequence_value (di_sequence d)).
        { unfold accepts in Hacc. rewrite Hsrc, Hfl in Hacc. by apply Z.ltb_lt. }
        constructor; [exact Hlt|]. eapply Forall_impl; [apply Hf; rewrite <- Hsrc; apply lookup_insert_eq|].
        cbn beta. intros. lia.
      * apply Hf. by rewrite lookup_insert_ne.
  - set (s' := set_last_seen _ s).
    destruct (IH s' source Hp) as [Hs Hf]. unfold s' in Hf. cbn [last_seen set_last_seen] in Hf.
    split; [exact Hs|]. intros floor Hfl.
    destruct (decide (tp_source addr = source)) as [Hsrc|Hsrc].
    + unfold accepts in Hacc. rewrite Hsrc, Hfl in Hacc. apply Z.ltb_lt in Hacc.
      eapply Forall_impl; [apply Hf; rewrite <- Hsrc; apply lookup_insert_eq|]. cbn beta. intros. lia.
    + apply Hf. by rewrite lookup_insert_ne.
  - by destruct (Hp ch).
Qed.

(** The frames a session wraps one after the other, as they reach a receiver. *)
Definition demo_frame (seq : Z) : bytes :=
  match @DataSecureSession_wrap demo_ciphers (demo_session seq) (MkHighWater 0 0)
          (MkTpAddressing 4351 4356 false 0 68) 981 [0; 11; 16; 1] with
  | (Ok (_, asdu), _, _) => asdu
  | _ => []
  end.

Lemma accepted_sequences_increase_witness :
  @accepted_run demo_ciphers (demo_session 77)
    (map (fun seq => (MkTpAddressing 4351 4356 false 0 68, A_SECURE_DATA, demo_frame seq))
       [100; 101; 100; 101; 99; 105]) = [(4351, 100); (4351, 101); (4351, 105)] /\
  StronglySorted Z.lt (map snd (filter (fun p => p.1 = 4351)
    (@accepted_run demo_ciphers (demo_session 77)
      (map (fun seq => (MkTpAddressing 4351 4356 false 0 68, A_SECURE_DATA, demo_frame seq))
         [100; 101; 100; 101; 99; 105])))).
Proof. split; [vm_compute; reflexivity|]. apply accepted_sequences_increase. done. Defined.

Section Nonces.
  Context `{C : SecureCiphers, L : !SecureCiphersLaws C}.

Lemma tp_counter_0_seq_inj s a s' a' : Sequence_ok s -> Sequence_ok s' ->
  tp_counter_0 s a = tp_counter_0 s' a' -> s = s'.
Proof.
  intros Hs Hs' E. unfold tp_counter_0 in E.
  apply app_inj_1 in E as [E _]; [|by rewrite !length_Sequence_to_bytes].
  by apply Sequence_to_bytes_inj.
Qed.

(** Every counter of a run belongs to a sequence at or above the session's. *)
Lemma wrap_counters_above out : forall s env, Sequence_ok (send_seq s) ->
  Sequence_value (send_seq s) + zlen out <= MAX_SEQUENCE + 1 ->
  NoDup (wrap_counters s env out) /\
  (forall c, c ∈ wrap_counters s env out ->
     exists seq addr, c = tp_counter_0 seq addr /\ Sequence_ok seq /\
       Sequence_value (send_seq s) <= Sequence_value seq).
Proof.
  induction out as [|[[addr apci] data] r IH]; intros s env Hok Hle.
  { split; [constructor|]. intros c Hc. by apply not_elem_of_nil in Hc. }
  assert (Hz : zlen ((addr, apci, data) :: r) = zlen r + 1) by (unfold zlen; cbn [length]; lia).
  rewrite Hz in Hle. assert (Hr0 : 0 <= zlen r) by (unfold zlen; lia).
  cbn [wrap_counters]. unfold DataSecureSession_wrap.
  destruct (asdu_encode _ _ _ _ _ _) as [asdu|e]; [|apply IH; [done|lia]].
  set (s' := set_send_seq _ s). set (env' := record_sent _ _ _).
  destruct (decide (r = [])) as [->|Hne].
  { cbn [wrap_counters]. split; [apply NoDup_singleton|]. intros c Hc.
    apply list_elem_of_singleton in Hc as ->. exists (send_seq s), addr. split; [done|]. split; [done|lia]. }
  assert (Hr1 : 1 <= zlen r) by (unfold zlen; destruct r; [done|cbn [length]; lia]).
  assert (Hv : Sequence_value (send_seq s') = Sequence_value (send_seq s) + 1).
  { unfold s'. cbn [send_seq set_send_seq]. rewrite Sequence_next_value by done. lia. }
  destruct (IH s' env') as [Hnd Hin]; [by apply Sequence_next_ok|lia|].
  split.
  - constructor; [|exact Hnd]. intros Hc. apply Hin in Hc as (seq & a & E & Hso & Hge).
    apply tp_counter_0_seq_inj in E; [|done|done]. subst seq. lia.
  - intros c Hc. apply elem_of_cons in Hc as [->|Hc].
    + exists (send_seq s), addr. split; [done|]. split; [done|lia].
    + apply Hin in Hc as (seq & a & E & Hso & Hge). exists seq, a. split; [done|]. split; [done|lia].
Qed.

(** What the tool stores when it sends a request, and the device's answer. *)
Lemma sync_request_ok s env addr challenge :
  bytes_ok challenge -> length challenge = CHALLENGE_LEN ->
  exists r, bytes_ok (Scf_to_byte (Scf_tool_sync SvcSyncReq) :: r) /\
    encode_sync_req (tool_key s) (Scf_tool_sync SvcSyncReq)
      (MkSyncRequest (send_seq s) (replicate SERIAL_LEN 0) challenge) addr
    = Ok (Scf_to_byte (Scf_tool_sync SvcSyncReq) :: r) /\
    DataSecureSession_sync_request_with_challenge s env addr challenge
    = (Ok (A_SECURE_DATA, Scf_to_byte (Scf_tool_sync SvcSyncReq) :: r), set_sync (Pending challenge) s,
       record_sent s (send_seq s) env).
Proof.
  intros Hc Hl. unfold DataSecureSession_sync_request_with_challenge.
  set (req := MkSyncRequest (send_seq s) (replicate SERIAL_LEN 0) challenge).
  destruct (encode_sync_req_ok (tool_key s) req addr) as (r & E & Ho);
    [apply Forall_replicate; done|done|done|done|].
  exists r. rewrite E. done.
Qed.

(** The counter the device stores for the requester when it answers. *)
Definition stored_for (dev : DataSecureSession) (source : u16) (requested : Sequence) : u64 :=
  match last_seen dev !! source with
  | None => saturating_sub (Sequence_value requested) 1
  | Some v => Z.max (Sequence_value v) (saturating_sub (Sequence_value requested) 1)
  end.

Lemma answer_sync_request_ok dev req_addr asdu res_addr random req :
  bytes_ok (sr_challenge req) ->
  decode_sync_req (tool_key dev) asdu req_addr = Ok (Scf_tool_sync SvcSyncReq, req) ->
  let stored := stored_for dev (tp_source req_addr) (sr_sequence req) in
  exists r, bytes_ok (Scf_to_byte (Scf_tool_sync SvcSyncRes) :: r) /\
    encode_sync_res (tool_key dev) (Scf_tool_sync SvcSyncRes)
      (MkSyncResponse (send_seq dev) (Sequence_next (Sequence_new stored))) (sr_challenge req)
      (Sequence_from_bytes (fresh_challenge random)) res_addr
    = Ok (Scf_to_byte (Scf_tool_sync SvcSyncRes) :: r) /\
    DataSecureSession_answer_sync_request dev req_addr asdu res_addr random
    = (Ok (A_SECURE_DATA, Scf_to_byte (Scf_tool_sync SvcSyncRes) :: r),
       set_last_seen (<[tp_source req_addr := Sequence_new stored]> (last_seen dev)) dev).
Proof.
  intros Hc Hd stored. unfold DataSecureSession_answer_sync_request. rewrite Hd.
  change (match last_seen dev !! tp_source req_addr with
          | Some v => Z.max (Sequence_value v) (saturating_sub (Sequence_value (sr_sequence req)) 1)
          | None => saturating_sub (Sequence_value (sr_sequence req)) 1
          end) with stored.
  destruct (encode_sync_res_ok (tool_key dev)
    (MkSyncResponse (send_seq dev) (Sequence_next (Sequence_new stored))) (sr_challenge req)
    (Sequence_from_bytes (fresh_challenge random)) res_addr Hc) as (r & E & Ho).
  exists r. cbn [tool_key set_last_seen send_seq]. rewrite E. done.
Qed.

(** A verified response applied by the session that asked. *)
Lemma unwrap_sync_response s addr r challenge res :
  sync s = Pending challenge ->
  decode_sync_res (tool_key s) (Scf_to_byte (Scf_tool_sync SvcSyncRes) :: r) addr challenge = Ok res ->
  exists s', DataSecureSession_unwrap s addr A_SECURE_DATA
               (Scf_to_byte (Scf_tool_sync SvcSyncRes) :: r)
             = (Ok (Synced (responder_sequence res) (send_seq s')), s') /\
    sync s' = Done /\ tool_key s' = tool_key s /\ ss_algorithm s' = ss_algorithm s /\
    Sequence_value (send_seq s')
      = Z.max (Sequence_value (send_seq s)) (Sequence_value (requester_sequence res)) /\
    (send_seq s' = send_seq s \/ send_seq s' = requester_sequence res) /\
    last_seen s' !! tp_source addr
      = Some (Sequence_new (saturating_sub (Sequence_value (responder_sequence res)) 1)).
Proof.
  intros Hs Hd. unfold DataSecureSession_unwrap. rewrite Z.eqb_refl. cbn [negb].
  rewrite Scf_from_to. cbn [service Scf_tool_sync].
  unfold DataSecureSession_apply_sync_response. rewrite Hs, Hd.
  eexists. split; [reflexivity|].
  destruct (Z.ltb_spec (Sequence_value (send_seq s)) (Sequence_value (requester_sequence res)));
    cbn [sync set_sync tool_key set_last_seen set_send_seq ss_algorithm send_seq last_seen];
    (split; [done|]; split; [done|]; split; [done|]; split; [lia|]; split; [auto|];
     apply lookup_insert_eq).
Qed.

End Nonces.

(** no counter is used twice under a session's key: over any series of
    outgoing APDUs (the ones refused as too long consume nothing) the counters the
    frames are encrypted with are pairwise distinct, as long as the 48-bit sequence
    is not used up. *)
Theorem counters_never_repeat `{C : SecureCiphers, L : !SecureCiphersLaws C} s env out :
  session_ok s -> Sequence_value (send_seq s) + zlen out <= MAX_SEQUENCE + 1 ->
  NoDup (wrap_counters s env out).
Proof. intros [Hs _] Hle. by apply wrap_counters_above. Qed.

Lemma counters_never_repeat_witness :
  NoDup (@wrap_counters demo_ciphers (demo_session 77) (MkHighWater 0 0)
    (replicate 5 (MkTpAddressing 4351 4356 false 0 68, 981, [0; 11; 16; 1]))).
Proof.
  apply (@counters_never_repeat demo_ciphers _);
    [by apply demo_session_ok|vm_compute; intros E; discriminate E].
Defined.

(** The counter a device answers a sync request with fits 48 bits. *)
Lemma stored_for_u48 dev source seq : session_ok dev -> Sequence_ok seq ->
  is_u48 (stored_for dev source seq).
Proof.
  intros [_ Hdl] Hs. unfold stored_for. pose proof (saturating_pred_ok _ Hs).
  destruct (last_seen dev !! source) as [v|] eqn:Ev; [|done].
  pose proof (Hdl _ _ Ev). unfold Sequence_ok, is_u48 in *. lia.
Qed.

(** The first APDU after a sync: above what the device stored, it is accepted. *)
Lemma first_apdu_accepted `{C : SecureCiphers, L : !SecureCiphersLaws C}
    tool dev env addr apci data source stored :
  tool_key dev = tool_key tool -> Sequence_ok (send_seq tool) -> tp_source addr = source ->
  stored < Sequence_value (send_seq tool) -> 0 <= apci < 1024 -> zlen data < 254 -> bytes_ok data ->
  exists asdu tool' env' dev',
    DataSecureSession_wrap tool env addr apci data = (Ok (A_SECURE_DATA, asdu), tool', env') /\
    DataSecureSession_unwrap (set_last_seen (<[source := MkSequence stored]> (last_seen dev)) dev)
      addr A_SECURE_DATA asdu = (Ok (Secured apci data), dev').
Proof.
  intros Hk Hok <- Hlt Ha Hl Hd.
  destruct (wrap_ok tool env addr apci data Hl Hd) as (asdu & Ho & Ee & Hw).
  eexists asdu, _, _, _. split; [exact Hw|].
  rewrite (unwrap_wrapped tool _ addr apci data asdu); [| |done..]; [|exact Hk].
  rewrite accepts_insert. cbn [Sequence_value]. rewrite (proj2 (Z.ltb_lt _ _)) by lia. reflexivity.
Qed.

(** the S-A_Sync handshake brings the two ends together, whatever their
    counters were: the tool's request is answered by the device, the answer verifies
    against the tool's challenge and reports the device's next sequence, the tool
    never moves its send sequence down, and from then on the tool's first secured
    APDU is accepted by the device, as is the device's next one by the tool (a
    device that would send sequence 0 excepted). *)
Theorem sync_handshake_establishes `{C : SecureCiphers, L : !SecureCiphersLaws C}
    tool dev env req_addr res_addr challenge random :
  tool_key dev = tool_key tool -> session_ok tool -> session_ok dev ->
  bytes_ok challenge -> length challenge = CHALLENGE_LEN ->
  stored_for dev (tp_source req_addr) (send_seq tool) < MAX_SEQUENCE ->
  exists req tool1 env1 res dev1 tool2,
    DataSecureSession_sync_request_with_challenge tool env req_addr challenge
      = (Ok (A_SECURE_DATA, req), tool1, env1) /\
    DataSecureSession_answer_sync_request dev req_addr req res_addr random
      = (Ok (A_SECURE_DATA, res), dev1) /\
    DataSecureSession_unwrap tool1 res_addr A_SECURE_DATA res
      = (Ok (Synced (send_seq dev) (send_seq tool2)), tool2) /\
    DataSecureSession_is_synced tool2 = true /\
    Sequence_value (send_seq tool) <= Sequence_value (send_seq tool2) /\
    (0 < Sequence_value (send_seq dev) ->
       accepts tool2 (tp_source res_addr) (send_seq dev) = true) /\
    (forall addr env2 apci data, tp_source addr = tp_source req_addr ->
       0 <= apci < 1024 -> zlen data < 254 -> bytes_ok data ->
       exists asdu tool3 env3 dev2,
         DataSecureSession_wrap tool2 env2 addr apci data = (Ok (A_SECURE_DATA, asdu), tool3, env3) /\
         DataSecureSession_unwrap dev1 addr A_SECURE_DATA asdu = (Ok (Secured apci data), dev2)).
Proof.
  intros Hk [Hts _] Hdev Hc Hcl Hst. pose proof (proj1 Hdev) as Hds.
  destruct (sync_request_ok tool env req_addr challenge Hc Hcl) as (rq & Hrqo & Erq & Hreq).
  set (req := MkSyncRequest (send_seq tool) (replicate SERIAL_LEN 0) challenge) in *.
  assert (Hdec : decode_sync_req (tool_key dev) (Scf_to_byte (Scf_tool_sync SvcSyncReq) :: rq) req_addr
                 = Ok (Scf_tool_sync SvcSyncReq, req)).
  { rewrite Hk. by apply decode_encode_sync_req. }
  destruct (answer_sync_request_ok dev req_addr _ res_addr random req Hc Hdec)
    as (rs & Hrso & Ers & Hans). cbn [sr_sequence sr_challenge req] in Hans, Ers.
  set (stored := stored_for dev (tp_source req_addr) (send_seq tool)) in *.
  assert (Hst48 : is_u48 stored) by (by apply stored_for_u48).
  rewrite (Sequence_new_small stored Hst48) in Ers, Hans.
  assert (Hnv : Sequence_value (Sequence_next (MkSequence stored)) = stored + 1).
  { rewrite Sequence_next_value by exact Hst48. simpl Sequence_value. lia. }
  set (response := MkSyncResponse (send_seq dev) (Sequence_next (MkSequence stored))) in *.
  set (tool1 := set_sync (Pending challenge) tool).
  assert (Hnok : Sequence_ok (Sequence_from_bytes (fresh_challenge random))).
  { apply Sequence_from_bytes_ok; [|done]. unfold fresh_challenge. auto with bus. }
  assert (Hdres : decode_sync_res (tool_key tool1) (Scf_to_byte (Scf_tool_sync SvcSyncRes) :: rs)
                    res_addr challenge = Ok response).
  { change (tool_key tool1) with (tool_key tool). rewrite <- Hk.
    eapply (decode_encode_sync_res _ _ _ _ _ (Scf_tool_sync SvcSyncRes));
      [exact Hrso|exact Hcl|exact Hds|by apply Sequence_next_ok|
                                    reflexivity|exact Hnok|exact Ers]. }
  destruct (unwrap_sync_response tool1 res_addr rs challenge response eq_refl Hdres)
    as (tool2 & Hun & Hdone & Hk2 & _ & Hval & Hcase & Hfl).
  cbn [response responder_sequence requester_sequence] in Hun, Hval, Hcase, Hfl.
  change (send_seq tool1) with (send_seq tool) in *. rewrite Hnv in Hval.
  assert (Hok2 : Sequence_ok (send_seq tool2)).
  { destruct Hcase as [->| ->]; [done|by apply Sequence_next_ok]. }
  eexists _, tool1, _, _, _, tool2. split; [exact Hreq|]. split; [exact Hans|].
  split; [exact Hun|]. split; [unfold DataSecureSession_is_synced; by rewrite bool_decide_true|].
  split; [lia|]. split.
  - intros Hpos. unfold accepts. rewrite Hfl. apply Z.ltb_lt.
    rewrite Sequence_new_small by (by apply saturating_pred_ok).
    cbn [Sequence_value]. unfold saturating_sub. lia.
  - intros addr env2 apci data Hsrc Ha Hl Hok.
    apply first_apdu_accepted; [by rewrite Hk2|done|done|lia|done|done|done].
Qed.

Lemma sync_handshake_establishes_witness :
  exists req tool1 env1 res dev1 tool2,
    @DataSecureSession_sync_request_with_challenge demo_ciphers (demo_session 1234)
      (MkHighWater 0 0) (MkTpAddressing 4351 4356 false 0 68) [1; 2; 3; 4; 5; 6]
      = (Ok (A_SECURE_DATA, req), tool1, env1) /\
    @DataSecureSession_answer_sync_request demo_ciphers (demo_session 99)
      (MkTpAddressing 4351 4356 false 0 68) req (MkTpAddressing 4356 4351 false 0 68) 424242
      = (Ok (A_SECURE_DATA, res), dev1) /\
    @DataSecureSession_unwrap demo_ciphers tool1 (MkTpAddressing 4356 4351 false 0 68)
      A_SECURE_DATA res = (Ok (Synced (MkSequence 99) (send_seq tool2)), tool2).
Proof.
  destruct (@sync_handshake_establishes demo_ciphers _ (demo_session 1234) (demo_session 99)
    (MkHighWater 0 0) (MkTpAddressing 4351 4356 false 0 68) (MkTpAddressing 4356 4351 false 0 68)
    [1; 2; 3; 4; 5; 6] 424242)
    as (req & tool1 & env1 & res & dev1 & tool2 & H1 & H2 & H3 & _);
    [done|by apply demo_session_ok|by apply demo_session_ok|solve_bytes|done|done|].
  exists req, tool1, env1, res, dev1, tool2. split; [exact H1|]. split; [exact H2|exact H3].
Defined.
