(* ===== verification/SecureGroup.v ===== *)
(** * Secured group telegrams ([crates/bussard-secure/src/group.rs])

    Sealing and opening a group APDU under the group key, the keyless header, and
    the passive observer's freshness table. *)

From S2P Require Import Prelude Crypto Sequence Asdu.

Local Open Scope string_scope.
Local Open Scope list_scope.
Local Open Scope Z_scope.

Record GroupPlain : Type := MkGroupPlain {
  gp_scf : Scf;
  gp_sequence : Sequence;
  gp_apdu : bytes }.

(** [peek_header]: no key needed. *)
Definition peek_header (asdu : bytes) : result AsduError (Scf * Sequence) :=
  if bool_decide (length asdu < 1 + SEQ_LEN + TP_MAC_LEN)%nat then Err (TooShort (length asdu))
  else
    scf ← Scf_from_byte (nth 0 asdu 0);
    mret (scf, Sequence_from_bytes (slice 1 (1 + SEQ_LEN) asdu)).

Definition is_group_data (asdu : bytes) : bool :=
  match peek_header asdu with
  | Ok (scf, _) => negb (tool_access scf) && negb (system_broadcast scf)
                   && bool_decide (service scf = SvcData)
  | Err _ => false
  end.

Section Group.
  Context `{C : SecureCiphers}.

Definition encode_group (key : Key16) (a : SecurityAlgorithm) (seq : Sequence)
    (source group : u16) (apdu : bytes) : result AsduError bytes :=
  match apdu with
  | hi :: lo :: data =>
      let apci := Z.lor (Z.shiftl (Z.land hi 3) 8) lo in
      asdu_encode key (Scf_group_data a) seq (TpAddressing_group source group) apci data
  | _ => Err (GroupApduTooShort (length apdu))
  end.

Definition decode_group (key : Key16) (asdu : bytes) (source group : u16)
    : result AsduError GroupPlain :=
  '(scf, _) ← peek_header asdu;
  if tool_access scf || system_broadcast scf then Err (NotGroupTraffic (Scf_to_byte scf)) else
  inner ← asdu_decode key asdu (TpAddressing_group source group);
  mret (MkGroupPlain (di_scf inner) (di_sequence inner)
          (inner_apdu_bytes (di_apci inner) (di_data inner))).

End Group.

(** ** The observer's table *)

(** [Freshness]: the last sequence per source. *)
Abbreviation Freshness := (gmap Z Z) (only parsing).

Definition Freshness_new : Freshness := ∅.

Definition Freshness_observe (t : Freshness) (source : u16) (seq : Sequence)
    : option u64 * Freshness :=
  let value := Sequence_value seq in
  match t !! source with
  | Some last => if value <=? last then (Some last, t) else (None, <[source := value]> t)
  | None => (None, <[source := value]> t)
  end.

Definition Freshness_last (t : Freshness) (source : u16) : option u64 := t !! source.

(** Observing a series of telegrams: the verdict on each. *)
Fixpoint observe_all (t : Freshness) (l : list (u16 * Sequence)) : list (option u64) * Freshness :=
  match l with
  | [] => ([], t)
  | (source, seq) :: r =>
      let '(v, t) := Freshness_observe t source seq in
      let '(vs, t) := observe_all t r in
      (v :: vs, t)
  end.

(** ** Lemmas *)

Lemma peek_header_spec asdu scf seq body mac : bytes_ok asdu ->
  asdu = Scf_to_byte scf :: seq ++ body ++ mac -> length seq = SEQ_LEN -> length mac = TP_MAC_LEN ->
  peek_header asdu = Ok (scf, Sequence_from_bytes seq).
Proof.
  intros Hok Ea Hl Hm.
  pose proof (proj2 (split_asdu_spec asdu scf seq body mac Hok) (conj Ea (conj Hl Hm))) as E.
  unfold split_asdu in E. unfold peek_header. case_bool_decide; [done|].
  destruct (Scf_from_byte _) as [s|]; [|done]. cbn [mbind result_bind mret result_ret] in *.
  injection E as -> <- _ _. done.
Qed.

Lemma apdu_inner hi lo data : is_u8 hi -> is_u8 lo ->
  inner_apdu_bytes (Z.lor (Z.shiftl (Z.land hi 3) 8) lo) data = Z.land hi 3 :: lo :: data /\
  0 <= Z.lor (Z.shiftl (Z.land hi 3) 8) lo < 1024.
Proof.
  intros Hh Hl. unfold inner_apdu_bytes.
  assert (H : as_u8 (Z.land (Z.shiftr (Z.lor (Z.shiftl (Z.land hi 3) 8) lo) 8) 3) = Z.land hi 3 /\
              as_u8 (Z.land (Z.lor (Z.shiftl (Z.land hi 3) 8) lo) 255) = lo /\
              0 <= Z.lor (Z.shiftl (Z.land hi 3) 8) lo < 1024).
  { apply (u8_decide2 (fun hi lo =>
      as_u8 (Z.land (Z.shiftr (Z.lor (Z.shiftl (Z.land hi 3) 8) lo) 8) 3) = Z.land hi 3 /\
      as_u8 (Z.land (Z.lor (Z.shiftl (Z.land hi 3) 8) lo) 255) = lo /\
      0 <= Z.lor (Z.shiftl (Z.land hi 3) 8) lo < 1024)); [vm_compute; reflexivity|done|done]. }
  destruct H as (-> & -> & H). done.
Qed.

Lemma observe_all_app t a b :
  observe_all t (a ++ b) =
    let '(va, t) := observe_all t a in let '(vb, t) := observe_all t b in (va ++ vb, t).
Proof.
  revert t. induction a as [|[source seq] a IH]; intros t; simpl.
  - destruct (observe_all t b). done.
  - destruct (Freshness_observe t source seq) as [v t1]. rewrite IH.
    destruct (observe_all t1 a) as [va t2]. destruct (observe_all t2 b). done.
Qed.

(** The table holds the maximum seen from each source. *)
Definition max_seen (l : list (u16 * Sequence)) (source : u16) : option u64 :=
  foldl (fun acc p => if decide (p.1 = source)
                      then Some (match acc with
                                 | Some m => Z.max m (Sequence_value p.2)
                                 | None => Sequence_value p.2
                                 end)
                      else acc) None l.

Lemma max_seen_snoc l source' seq source :
  max_seen (l ++ [(source', seq)]) source
  = if decide (source' = source)
    then Some (match max_seen l source with
               | Some m => Z.max m (Sequence_value seq)
               | None => Sequence_value seq
               end)
    else max_seen l source.
Proof. unfold max_seen. rewrite foldl_app. done. Qed.

Lemma observe_all_max l : forall source, snd (observe_all Freshness_new l) !! source = max_seen l source.
Proof.
  induction l as [|[src seq] l IH] using rev_ind; intros source; [done|].
  rewrite observe_all_app, max_seen_snoc. specialize (IH source) as IHs. specialize (IH src).
  destruct (observe_all Freshness_new l) as [vs t]. simpl in IH, IHs |- *.
  unfold Freshness_observe. destruct (decide (src = source)) as [->|Hne].
  - rewrite <- IH. destruct (t !! source) as [m|] eqn:E.
    + destruct (Z.leb_spec (Sequence_value seq) m); simpl.
      * rewrite E. f_equal. lia.
      * rewrite lookup_insert_eq. f_equal. lia.
    + simpl. by rewrite lookup_insert_eq.
  - rewrite <- IHs. destruct (t !! src) as [m|]; [destruct (_ <=? _)|]; simpl;
      [done| |]; by rewrite lookup_insert_ne.
Qed.

(** ** Properties *)

(** a secured group telegram is readable by every holder of the group key and
    only as sent: sealing a plain group APDU and opening it under the same key,
    source and group address returns the sequence and the APDU (its six reserved
    bits cleared), the keyless header shows the same SCF and sequence, and the frame
    is recognised as group data; a tool-access or system-broadcast frame is refused
    before any key is tried. *)
Theorem group_telegram_roundtrip `{C : SecureCiphers, L : !SecureCiphersLaws C}
    key a seq source group hi lo data :
  is_u8 hi -> is_u8 lo -> bytes_ok data -> zlen data < 254 -> Sequence_ok seq ->
  (exists asdu, encode_group key a seq source group (hi :: lo :: data) = Ok asdu /\
    peek_header asdu = Ok (Scf_group_data a, seq) /\ is_group_data asdu = true /\
    decode_group key asdu source group
      = Ok (MkGroupPlain (Scf_group_data a) seq (Z.land hi 3 :: lo :: data))) /\
  (forall asdu scf s, peek_header asdu = Ok (scf, s) -> tool_access scf || system_broadcast scf = true ->
     decode_group key asdu source group = Err (NotGroupTraffic (Scf_to_byte scf))).
Proof.
  intros Hh Hl Hok Hlen Hseq. destruct (apdu_inner hi lo data Hh Hl) as [Hin Hapci]. split.
  - unfold encode_group. set (apci := Z.lor _ lo) in *.
    destruct (asdu_encode_ok key (Scf_group_data a) seq (TpAddressing_group source group) apci data
                Hlen Hok) as (asdu & E & Ho).
    pose proof (asdu_decode_encode key (Scf_group_data a) seq _ apci data asdu eq_refl Hseq Hapci Ho E)
      as Hdec.
    destruct (asdu_decode_inv _ _ _ _ Ho Hdec) as (_ & _ & _ & sec & mac & Es & Ea).
    destruct (seal_inv _ _ _ _ _ _ _ _ Es) as (Hm & _).
    assert (Hp : peek_header asdu = Ok (Scf_group_data a, seq)).
    { rewrite (peek_header_spec asdu (Scf_group_data a) (Sequence_to_bytes seq) sec mac Ho Ea
                 (length_Sequence_to_bytes seq) Hm). by rewrite Sequence_from_to. }
    exists asdu. split; [exact E|]. split; [exact Hp|]. unfold is_group_data, decode_group.
    rewrite Hp. split; [done|]. cbn [mbind result_bind tool_access system_broadcast Scf_group_data orb].
    rewrite Hdec. cbn [mbind result_bind mret result_ret di_scf di_sequence di_apci di_data].
    by rewrite Hin.
  - intros asdu scf s Hp Hbits. unfold decode_group. rewrite Hp. cbn [mbind result_bind].
    by rewrite Hbits.
Qed.

Lemma group_telegram_roundtrip_witness :
  exists asdu, @encode_group demo_ciphers (Key16_new (replicate 16 7)) AuthenticationEncryption
      (MkSequence 1234) 4351 2305 [0; 129] = Ok asdu /\
    @decode_group demo_ciphers (Key16_new (replicate 16 7)) asdu 4351 2305
      = Ok (MkGroupPlain (Scf_group_data AuthenticationEncryption) (MkSequence 1234) [0; 129]).
Proof.
  destruct (@group_telegram_roundtrip demo_ciphers _ (Key16_new (replicate 16 7))
    AuthenticationEncryption (MkSequence 1234) 4351 2305 0 129 [])
    as [(asdu & H1 & _ & _ & H2) _]; [done|done|constructor|done|done|].
  exists asdu. split; [exact H1|exact H2].
Defined.

(** the observer's verdict is exact: after any series of telegrams, the next
    one is reported stale, naming the highest sequence so far from its source, if
    and only if it does not exceed that; and the table then holds the maximum seen
    from every source, so a stale telegram never lowers it. *)
Theorem freshness_tracks_maximum l source seq :
  let t := snd (observe_all Freshness_new l) in
  fst (Freshness_observe t source seq)
    = match max_seen l source with
      | Some m => if Sequence_value seq <=? m then Some m else None
      | None => None
      end
  /\ forall s, Freshness_last (snd (Freshness_observe t source seq)) s
               = max_seen (l ++ [(source, seq)]) s.
Proof.
  intros t. split.
  - unfold Freshness_observe, t. rewrite observe_all_max.
    destruct (max_seen l source) as [m|]; [|done]. by destruct (_ <=? _).
  - intros s. unfold Freshness_last. rewrite <- observe_all_max, observe_all_app. unfold t.
    destruct (observe_all Freshness_new l) as [vs t']. simpl.
    by destruct (Freshness_observe t' source seq).
Qed.
