(* ===== verification/IpSecure.v ===== *)
(** * KNXnet/IP Secure ([crates/bussard-secure/src/ipsecure.rs])

    The session handshake frames with their MACs, the SECURE_WRAPPER codec and the
    established session with its send counter and replay floor.  The X25519
    functions are the class [X25519]. *)

From Stdlib Require Import Sorting.Sorted.
From S2P Require Import Prelude Crypto.

Local Open Scope string_scope.
Local Open Scope list_scope.
Local Open Scope Z_scope.

Definition IP_HEADER_LEN : nat := 6.
Definition SECURE_WRAPPER : u16 := 2384.
Definition SESSION_REQUEST : u16 := 2385.
Definition SESSION_RESPONSE : u16 := 2386.
Definition SESSION_AUTHENTICATE : u16 := 2387.
Definition SESSION_STATUS : u16 := 2388.
Definition PUBLIC_KEY_LEN : nat := 32.
Definition MAC_LEN : nat := 16.
Definition SECURITY_INFO_LEN : nat := 16.
Definition WRAPPER_OVERHEAD : nat := IP_HEADER_LEN + SECURITY_INFO_LEN + MAC_LEN.
Definition MIN_WRAPPER_LEN : nat := WRAPPER_OVERHEAD + IP_HEADER_LEN.
Definition SESSION_RESPONSE_LEN : nat := IP_HEADER_LEN + 2 + PUBLIC_KEY_LEN + MAC_LEN.
Definition SESSION_AUTHENTICATE_LEN : nat := IP_HEADER_LEN + 2 + MAC_LEN.
Definition IP_MAX_SEQUENCE : u64 := 281474976710655.
Definition COUNTER_0_HANDSHAKE : bytes := [0; 0; 0; 0; 0; 0; 0; 0; 0; 0; 0; 0; 0; 0; 255; 0].

Inductive SessionStatus : Type :=
| Success | AuthenticationFailed | Unauthenticated | StatusTimeout | KeepAlive | StatusClose
| StatusOther (b : u8).

#[export] Instance SessionStatus_eq_dec : EqDecision SessionStatus.
Proof. solve_decision. Defined.

Definition SessionStatus_from_byte (b : u8) : SessionStatus :=
  match b with
  | 0 => Success
  | 1 => AuthenticationFailed
  | 2 => Unauthenticated
  | 3 => StatusTimeout
  | 4 => KeepAlive
  | 5 => StatusClose
  | other => StatusOther other
  end.

Definition SessionStatus_to_byte (s : SessionStatus) : u8 :=
  match s with
  | Success => 0
  | AuthenticationFailed => 1
  | Unauthenticated => 2
  | StatusTimeout => 3
  | KeepAlive => 4
  | StatusClose => 5
  | StatusOther b => b
  end.

Inductive IpSecureError : Type :=
| IpTruncated (what : string) (needed had : nat)
| WrongService (expected found : u16)
| BadMac (what : string)
| WrongSession (expected found : u16)
| Replay (expected found : u64)
| WrongLength (what : string) (expected had : nat)
| Reserved (what : string) (value : u8)
| SequenceExhausted
| IpCrypto (e : CryptoError).

#[export] Instance IpSecureError_eq_dec : EqDecision IpSecureError.
Proof. solve_decision. Defined.

(** ** Framing *)

Definition knxip_frame (service : u16) (body : bytes) : bytes :=
  let total := as_u16 (Z.of_nat (IP_HEADER_LEN + length body)) in
  [6; 16] ++ be_bytes 2 service ++ be_bytes 2 total ++ body.

Definition split_frame (frame : bytes) (what : string) : result IpSecureError (u16 * bytes) :=
  match frame with
  | _ :: _ :: s1 :: s2 :: t1 :: t2 :: _ =>
      let service := u16_of s1 s2 in
      let total := Z.to_nat (u16_of t1 t2) in
      if bool_decide (total < IP_HEADER_LEN)%nat || bool_decide (length frame < total)%nat
      then Err (IpTruncated what (Nat.max total IP_HEADER_LEN) (length frame))
      else Ok (service, slice IP_HEADER_LEN total frame)
  | _ => Err (IpTruncated what IP_HEADER_LEN (length frame))
  end.

(** ** The handshake *)

(** X25519: the public key of a secret, and the secret shared with a peer. *)
Class X25519 : Type := {
  x25519_public : bytes -> bytes;
  x25519_shared : bytes -> bytes -> bytes }.

(** Both ends of an exchange compute the same shared secret. *)
Class X25519Laws `(X25519) : Prop := {
  x25519_public_len : forall s, length (x25519_public s) = 32%nat;
  x25519_public_octets : forall s, bytes_ok (x25519_public s);
  x25519_agree : forall a b,
    x25519_shared a (x25519_public b) = x25519_shared b (x25519_public a) }.

Definition session_request (hpai client_public : bytes) : bytes :=
  knxip_frame SESSION_REQUEST (hpai ++ client_public).

Record SessionRequest : Type := MkSessionRequest { sq_hpai : bytes; sq_client_public : bytes }.

Definition parse_session_request (frame : bytes) : result IpSecureError SessionRequest :=
  '(service, body) ← split_frame frame "SESSION_REQUEST";
  if negb (service =? SESSION_REQUEST) then Err (WrongService SESSION_REQUEST service) else
  if bool_decide (length body < 8 + PUBLIC_KEY_LEN)%nat
  then Err (IpTruncated "SESSION_REQUEST" (8 + PUBLIC_KEY_LEN) (length body))
  else mret (MkSessionRequest (take 8 body) (slice 8 (8 + PUBLIC_KEY_LEN) body)).

Record SessionResponse : Type := MkSessionResponse {
  sp_session_id : u16;
  sp_server_public : bytes;
  sp_mac : bytes }.

Definition parse_session_response (frame : bytes) : result IpSecureError SessionResponse :=
  '(service, body) ← split_frame frame "SESSION_RESPONSE";
  if negb (service =? SESSION_RESPONSE) then Err (WrongService SESSION_RESPONSE service) else
  let needed := (2 + PUBLIC_KEY_LEN + MAC_LEN)%nat in
  if bool_decide (length body < needed)%nat
  then Err (IpTruncated "SESSION_RESPONSE" needed (length body)) else
  if negb (bool_decide (length body = needed)) || negb (bool_decide (length frame = SESSION_RESPONSE_LEN))
  then Err (WrongLength "SESSION_RESPONSE" SESSION_RESPONSE_LEN (length frame))
  else mret (MkSessionResponse (u16_of (nth 0 body 0) (nth 1 body 0))
               (slice 2 (2 + PUBLIC_KEY_LEN) body) (slice (2 + PUBLIC_KEY_LEN) needed body)).

Definition xor_keys (a b : bytes) : bytes := zip_with Z.lxor a b.

Section IpSecure.
  Context `{C : SecureCiphers}.

Definition session_key_from_shared (shared : bytes) : Key16 :=
  Key16_new (take 16 (sha256_digest shared)).

(** [X25519KeyPair::session_key] of the key pair with this secret. *)
Definition X25519KeyPair_session_key `{X25519} (secret peer_public : bytes) : Key16 :=
  session_key_from_shared (x25519_shared secret peer_public).

Definition handshake_mac (key : Key16) (ad : bytes) : result IpSecureError bytes :=
  mac_cbc ← map_err IpCrypto (cbc_mac key ad [] (replicate BLOCK 0));
  '(_, enc_mac) ← map_err IpCrypto (encrypt_ctr key COUNTER_0_HANDSHAKE mac_cbc []);
  mret enc_mac.

Definition session_response_mac (device_auth_key : Key16) (session_id : u16)
    (client_public server_public : bytes) : result IpSecureError bytes :=
  let total := as_u16 (Z.of_nat (IP_HEADER_LEN + 2 + PUBLIC_KEY_LEN + MAC_LEN)) in
  let ad := [6; 16] ++ be_bytes 2 SESSION_RESPONSE ++ be_bytes 2 total ++ be_bytes 2 session_id
            ++ xor_keys client_public server_public in
  handshake_mac device_auth_key ad.

Definition verify_session_response (response : SessionResponse) (device_auth_key : Key16)
    (client_public : bytes) : result IpSecureError unit :=
  expected ← session_response_mac device_auth_key (sp_session_id response) client_public
               (sp_server_public response);
  if constant_time_eq expected (sp_mac response) then Ok tt else Err (BadMac "SESSION_RESPONSE").

Definition session_response (device_auth_key : Key16) (session_id : u16)
    (client_public server_public : bytes) : result IpSecureError bytes :=
  mac ← session_response_mac device_auth_key session_id client_public server_public;
  mret (knxip_frame SESSION_RESPONSE (be_bytes 2 session_id ++ server_public ++ mac)).

Definition authenticate_mac (user_key : Key16) (user_id : u8) (client_public server_public : bytes)
    : result IpSecureError bytes :=
  let total := as_u16 (Z.of_nat (IP_HEADER_LEN + 2 + MAC_LEN)) in
  let ad := [6; 16] ++ be_bytes 2 SESSION_AUTHENTICATE ++ be_bytes 2 total ++ [0; user_id]
            ++ xor_keys client_public server_public in
  handshake_mac user_key ad.

Definition session_authenticate (user_key : Key16) (user_id : u8)
    (client_public server_public : bytes) : result IpSecureError bytes :=
  mac ← authenticate_mac user_key user_id client_public server_public;
  mret (knxip_frame SESSION_AUTHENTICATE ([0; user_id] ++ mac)).

Record SessionAuthenticate : Type := MkSessionAuthenticate { sa_user_id : u8; sa_mac : bytes }.

Definition parse_session_authenticate (frame : bytes) : result IpSecureError SessionAuthenticate :=
  '(service, body) ← split_frame frame "SESSION_AUTHENTICATE";
  if negb (service =? SESSION_AUTHENTICATE) then Err (WrongService SESSION_AUTHENTICATE service) else
  if bool_decide (length body < 2 + MAC_LEN)%nat
  then Err (IpTruncated "SESSION_AUTHENTICATE" (2 + MAC_LEN) (length body)) else
  if negb (bool_decide (length body = 2 + MAC_LEN)%nat)
     || negb (bool_decide (length frame = SESSION_AUTHENTICATE_LEN))
  then Err (WrongLength "SESSION_AUTHENTICATE" SESSION_AUTHENTICATE_LEN (length frame)) else
  if negb (nth 0 body 0 =? 0) then Err (Reserved "SESSION_AUTHENTICATE" (nth 0 body 0))
  else mret (MkSessionAuthenticate (nth 1 body 0) (slice 2 (2 + MAC_LEN) body)).

Definition session_status (status : SessionStatus) : bytes :=
  knxip_frame SESSION_STATUS [SessionStatus_to_byte status; 0].

Definition parse_session_status (frame : bytes) : result IpSecureError SessionStatus :=
  '(service, body) ← split_frame frame "SESSION_STATUS";
  if negb (service =? SESSION_STATUS) then Err (WrongService SESSION_STATUS service) else
  match body with
  | b :: _ => Ok (SessionStatus_from_byte b)
  | [] => Err (IpTruncated "SESSION_STATUS" 1 0)
  end.

(** ** The SECURE_WRAPPER *)

Record WrapperHeader : Type := MkWrapperHeader {
  wh_session_id : u16;
  wh_sequence : u64;
  wh_serial : bytes;
  wh_tag : u16;
  wh_payload_len : nat }.

Definition peek_wrapper (frame : bytes) : result IpSecureError WrapperHeader :=
  '(service, body) ← split_frame frame "SECURE_WRAPPER";
  if negb (service =? SECURE_WRAPPER) then Err (WrongService SECURE_WRAPPER service) else
  if bool_decide (length body < MIN_WRAPPER_LEN - IP_HEADER_LEN)%nat
  then Err (IpTruncated "SECURE_WRAPPER" MIN_WRAPPER_LEN (length body + IP_HEADER_LEN))
  else mret (MkWrapperHeader (u16_of (nth 0 body 0) (nth 1 body 0))
               (be_val ([0; 0] ++ slice 2 8 body)) (slice 8 14 body)
               (u16_of (nth 14 body 0) (nth 15 body 0))
               (length body - SECURITY_INFO_LEN - MAC_LEN)).

Definition security_prefix (sequence : u64) (serial : bytes) (tag : u16) : bytes :=
  drop 2 (be_bytes 8 sequence) ++ serial ++ be_bytes 2 tag.

(** [u16::try_from(payload.len()).unwrap_or(u16::MAX)]. *)
Definition payload_len_u16 (n : nat) : u16 := if Z.of_nat n <? 65536 then Z.of_nat n else 65535.

Definition ip_wrap (session_key : Key16) (session_id : u16) (sequence : u64) (serial : bytes)
    (tag : u16) (payload : bytes) : result IpSecureError bytes :=
  let total := (WRAPPER_OVERHEAD + length payload)%nat in
  if negb (Z.of_nat total <? 65536)
  then Err (IpTruncated "SECURE_WRAPPER payload (too long)" (Z.to_nat 65535) total) else
  let header := [6; 16] ++ be_bytes 2 SECURE_WRAPPER ++ be_bytes 2 (Z.of_nat total)
                ++ be_bytes 2 session_id in
  let prefix := security_prefix sequence serial tag in
  let block_0 := prefix ++ be_bytes 2 (payload_len_u16 (length payload)) in
  let counter_0 := prefix ++ [255; 0] in
  mac_cbc ← map_err IpCrypto (cbc_mac session_key header payload block_0);
  '(enc_payload, enc_mac) ← map_err IpCrypto (encrypt_ctr session_key counter_0 mac_cbc payload);
  mret (header ++ prefix ++ enc_payload ++ enc_mac).

Definition ip_unwrap (session_key : Key16) (frame : bytes)
    : result IpSecureError (WrapperHeader * bytes) :=
  header ← peek_wrapper frame;
  '(_, body) ← split_frame frame "SECURE_WRAPPER";
  let enc_payload := slice SECURITY_INFO_LEN (length body - MAC_LEN) body in
  let enc_mac := drop (length body - MAC_LEN) body in
  let prefix := security_prefix (wh_sequence header) (wh_serial header) (wh_tag header) in
  let counter_0 := prefix ++ [255; 0] in
  '(payload, mac_cbc_rx) ← map_err IpCrypto (encrypt_ctr session_key counter_0 enc_mac enc_payload);
  let block_0 := prefix ++ be_bytes 2 (payload_len_u16 (length payload)) in
  let ad := take (IP_HEADER_LEN + 2) frame in
  mac_cbc ← map_err IpCrypto (cbc_mac session_key ad payload block_0);
  if negb (constant_time_eq mac_cbc mac_cbc_rx) then Err (BadMac "SECURE_WRAPPER")
  else Ok (header, payload).

(** ** The session *)

Record IpSecureSession : Type := MkIpSecureSession {
  ip_key : Key16;
  ip_session_id : u16;
  ip_serial : bytes;
  tx_seq : u64;
  rx_next : u64 }.

Definition IpSecureSession_new (key : Key16) (session_id : u16) (serial : bytes)
    : IpSecureSession := MkIpSecureSession key session_id serial 0 0.

Definition IpSecureSession_seal (s : IpSecureSession) (payload : bytes)
    : result IpSecureError bytes * IpSecureSession :=
  if IP_MAX_SEQUENCE <? tx_seq s then (Err SequenceExhausted, s) else
  match ip_wrap (ip_key s) (ip_session_id s) (tx_seq s) (ip_serial s) 0 payload with
  | Err e => (Err e, s)
  | Ok out => (Ok out, MkIpSecureSession (ip_key s) (ip_session_id s) (ip_serial s) (tx_seq s + 1)
                         (rx_next s))
  end.

Definition IpSecureSession_open (s : IpSecureSession) (frame : bytes)
    : result IpSecureError bytes * IpSecureSession :=
  match peek_wrapper frame with
  | Err e => (Err e, s)
  | Ok header =>
      if negb (wh_session_id header =? ip_session_id s)
      then (Err (WrongSession (ip_session_id s) (wh_session_id header)), s)
      else if wh_sequence header <? rx_next s
      then (Err (Replay (rx_next s) (wh_sequence header)), s)
      else
        match ip_unwrap (ip_key s) frame with
        | Err e => (Err e, s)
        | Ok (_, payload) =>
            (Ok payload, MkIpSecureSession (ip_key s) (ip_session_id s) (ip_serial s) (tx_seq s)
                           (u64_saturating_add (wh_sequence header) 1))
        end
  end.

End IpSecure.

(** ** Lemmas: framing *)

Lemma be_bytes_val n l : length l = n -> bytes_ok l -> be_bytes n (be_val l) = l.
Proof. intros <-. apply be_bytes_be_val. Qed.

Lemma split_frame_build service body rest what : is_u16 service -> zlen body <= 65529 ->
  split_frame (knxip_frame service body ++ rest) what = Ok (service, body).
Proof.
  intros Hs Hl. unfold zlen in Hl. unfold knxip_frame.
  assert (Ht : is_u16 (Z.of_nat (IP_HEADER_LEN + length body)))
    by (unfold is_u16, IP_HEADER_LEN; lia).
  unfold as_u16. rewrite (Z.mod_small (Z.of_nat _)) by exact Ht.
  rewrite (be_bytes_2 _ Hs), (be_bytes_2 _ Ht). cbn [app]. unfold split_frame.
  assert (Hw : forall w, is_u16 w -> u16_of (w / 256) (w mod 256) = w) by (intros; zdiv).
  rewrite !Hw by done. rewrite Nat2Z.id. unfold IP_HEADER_LEN.
  rewrite !bool_decide_false by (cbn [length]; rewrite ?length_app; lia). cbn [orb].
  unfold slice. replace (6 + length body - 6)%nat with (length body) by lia.
  cbn [drop]. by rewrite drop_0, take_app_length.
Qed.

Lemma split_frame_inv frame what service body : bytes_ok frame ->
  split_frame frame what = Ok (service, body) ->
  exists b0 b1 rest,
    frame = b0 :: b1 :: be_bytes 2 service ++ be_bytes 2 (Z.of_nat (6 + length body)) ++ body ++ rest
    /\ is_u16 service /\ zlen body <= 65529.
Proof.
  intros Hok E. unfold split_frame in E.
  destruct frame as [|b0 [|b1 [|s1 [|s2 [|t1 [|t2 r]]]]]]; try done.
  unfold bytes_ok in Hok. rewrite !Forall_cons in Hok. destruct Hok as (_ & _ & H2 & H3 & H4 & H5 & Hr).
  destruct (bool_decide _ || bool_decide _) eqn:El; [done|].
  apply orb_false_iff in El as [El0 El1]. apply bool_decide_eq_false in El0, El1.
  unfold IP_HEADER_LEN in *. cbn [length] in El1. injection E as <- <-.
  pose proof (u16_of_ok _ _ H4 H5) as Ht. unfold slice. cbn [drop]. rewrite drop_0.
  set (t := Z.to_nat (u16_of t1 t2)) in *. unfold is_u16 in Ht.
  assert (Hlt : length (take (t - 6) r) = (t - 6)%nat) by (rewrite length_take; lia).
  exists b0, b1, (drop (t - 6) r). rewrite Hlt.
  replace (Z.of_nat (6 + (t - 6))) with (u16_of t1 t2) by lia.
  rewrite !u16_of_bytes by done. cbn [app]. rewrite take_drop.
  split; [done|]. split; [by apply u16_of_ok|]. unfold zlen. lia.
Qed.

Lemma u16_of_div w : is_u16 w -> u16_of (w / 256) (w mod 256) = w.
Proof. zdiv. Qed.

Lemma SessionStatus_roundtrip s : (forall b, s = StatusOther b -> 6 <= b < 256) ->
  SessionStatus_from_byte (SessionStatus_to_byte s) = s.
Proof.
  destruct s as [| | | | | |b]; try done. intros H. specialize (H b eq_refl). simpl.
  unfold SessionStatus_from_byte. repeat case_match; lia || done.
Qed.

(** ** Lemmas: the wrapper's layout *)

(** The octets of a wrapper: header and session id, security information, then the
    encrypted payload and MAC. *)
Definition wrapper_layout (session_id sequence : Z) (serial : bytes) (tag : u16) (ep em : bytes)
    : bytes :=
  ([6; 16] ++ be_bytes 2 SECURE_WRAPPER ++ be_bytes 2 (Z.of_nat (WRAPPER_OVERHEAD + length ep))
   ++ be_bytes 2 session_id)
  ++ security_prefix sequence serial tag ++ ep ++ em.

Definition wrapper_body (session_id sequence : Z) (serial : bytes) (tag : u16) (ep em : bytes)
    : bytes :=
  be_bytes 2 session_id ++ be_bytes 6 sequence ++ serial ++ be_bytes 2 tag ++ ep ++ em.

Lemma wrapper_layout_frame sid seq serial tag ep em :
  length serial = 6%nat -> length em = MAC_LEN -> zlen ep <= 65497 ->
  wrapper_layout sid seq serial tag ep em
  = knxip_frame SECURE_WRAPPER (wrapper_body sid seq serial tag ep em).
Proof.
  intros Hs Hm Hl. unfold wrapper_layout, knxip_frame, wrapper_body, security_prefix.
  assert (Hlen : length (be_bytes 2 sid ++ be_bytes 6 seq ++ serial ++ be_bytes 2 tag ++ ep ++ em)
                 = (32 + length ep)%nat).
  { rewrite !length_app, !length_be_bytes, Hs, Hm. unfold MAC_LEN. lia. }
  rewrite Hlen. unfold as_u16, WRAPPER_OVERHEAD, IP_HEADER_LEN, SECURITY_INFO_LEN, MAC_LEN.
  rewrite Z.mod_small by (unfold zlen in Hl; lia).
  change (drop 2 (be_bytes 8 seq)) with (be_bytes 6 seq).
  replace (6 + 16 + 16 + length ep)%nat with (6 + (32 + length ep))%nat by lia.
  rewrite <- !app_assoc. reflexivity.
Qed.

Lemma wrapper_body_parts sid seq serial tag ep em :
  is_u16 sid -> is_u48 seq -> length serial = 6%nat -> is_u16 tag -> length em = MAC_LEN ->
  let body := wrapper_body sid seq serial tag ep em in
  length body = (32 + length ep)%nat /\
  u16_of (nth 0 body 0) (nth 1 body 0) = sid /\ be_val ([0; 0] ++ slice 2 8 body) = seq /\
  slice 8 14 body = serial /\ u16_of (nth 14 body 0) (nth 15 body 0) = tag /\
  slice SECURITY_INFO_LEN (length body - MAC_LEN) body = ep /\
  drop (length body - MAC_LEN) body = em.
Proof.
  intros Hsid Hseq Hser Htag Hem body.
  assert (Hlen : length body = (32 + length ep)%nat).
  { unfold body, wrapper_body. rewrite !length_app, !length_be_bytes, Hser, Hem. unfold MAC_LEN. lia. }
  split; [exact Hlen|]. rewrite Hlen. unfold MAC_LEN, SECURITY_INFO_LEN in *.
  assert (Hq : be_val (be_bytes 6 seq) = seq)
    by (rewrite be_val_be_bytes; apply Z.mod_small; exact Hseq).
  pose proof (length_be_bytes 6 seq) as Hl6.
  assert (Hw : forall w, is_u16 w -> u16_of (w / 256) (w mod 256) = w) by (intros; zdiv).
  unfold body, wrapper_body. rewrite (be_bytes_2 _ Hsid), (be_bytes_2 _ Htag).
  set (q := be_bytes 6 seq) in *. clearbody q.
  destruct q as [|q0 [|q1 [|q2 [|q3 [|q4 [|q5 [|]]]]]]]; try discriminate Hl6.
  destruct serial as [|s0 [|s1 [|s2 [|s3 [|s4 [|s5 [|]]]]]]]; try discriminate Hser.
  cbn [app nth]. split; [by apply Hw|]. split.
  { etransitivity; [exact (be_val_pad [q0; q1; q2; q3; q4; q5])|exact Hq]. }
  split; [done|]. split; [by apply Hw|].
  replace (32 + length ep - 16)%nat with (16 + length ep)%nat by lia. split.
  - unfold slice. replace (16 + length ep - 16)%nat with (length ep) by lia.
    cbn [drop]. rewrite drop_0. apply take_app_length.
  - cbn [Nat.add drop]. apply drop_app_length.
Qed.

Lemma peek_wrapper_layout sid seq serial tag ep em rest :
  is_u16 sid -> is_u48 seq -> length serial = 6%nat -> is_u16 tag -> length em = MAC_LEN ->
  (6 <= length ep)%nat -> zlen ep <= 65497 ->
  peek_wrapper (wrapper_layout sid seq serial tag ep em ++ rest)
  = Ok (MkWrapperHeader sid seq serial tag (length ep)).
Proof.
  intros Hsid Hseq Hser Htag Hem Hep Hepl.
  destruct (wrapper_body_parts sid seq serial tag ep em Hsid Hseq Hser Htag Hem)
    as (Hlen & P1 & P2 & P3 & P4 & _ & _).
  unfold peek_wrapper. rewrite wrapper_layout_frame by done.
  rewrite split_frame_build by (done || (unfold zlen in *; rewrite Hlen; lia)).
  cbn [mbind result_bind]. rewrite Z.eqb_refl. cbn [negb].
  rewrite P1, P2, P3, P4, Hlen. unfold MIN_WRAPPER_LEN, WRAPPER_OVERHEAD, IP_HEADER_LEN, SECURITY_INFO_LEN, MAC_LEN.
  rewrite bool_decide_false by lia. do 2 f_equal. lia.
Qed.

(** The sequence field is 48 bits wide, whatever the octets. *)
Lemma peek_wrapper_sequence frame h : bytes_ok frame -> peek_wrapper frame = Ok h ->
  0 <= wh_sequence h < u64_max.
Proof.
  intros Hok E. unfold peek_wrapper in E. apply bind_ok in E as ([service body] & Es & E).
  destruct (negb _); [done|]. case_bool_decide as Hlen; [done|].
  cbn [mret result_ret] in E. apply Ok_inj in E. subst h. cbn [wh_sequence]. rewrite be_val_pad.
  apply split_frame_inv in Es as (b0 & b1 & rest & -> & _); [|done].
  assert (Hb : bytes_ok (slice 2 8 body)).
  { unfold bytes_ok in Hok. rewrite !Forall_cons, !Forall_app in Hok.
    unfold slice. auto 8 with bus || (apply bytes_ok_take, bytes_ok_drop; unfold bytes_ok; tauto). }
  pose proof (be_val_bound _ Hb) as H. unfold zlen in H.
  rewrite length_slice in H
    by (unfold MIN_WRAPPER_LEN, WRAPPER_OVERHEAD, IP_HEADER_LEN, SECURITY_INFO_LEN, MAC_LEN in Hlen; lia).
  change (256 ^ Z.of_nat (8 - 2)) with 281474976710656 in H. unfold u64_max. lia.
Qed.

Lemma cons2_inj {A} (a b c d : A) l k : a :: b :: l = c :: d :: k -> a = c /\ b = d /\ l = k.
Proof. intros E. injection E. auto. Qed.

Lemma list_split_at {A} n (l : list A) : (n <= length l)%nat ->
  exists a b, l = a ++ b /\ length a = n.
Proof.
  intros H. exists (take n l), (drop n l). rewrite take_drop, length_take. split; [done|lia].
Qed.

(** Every frame with the KNXnet/IP header whose wrapper header can be read has the
    layout. *)
Lemma peek_wrapper_inv r h : bytes_ok (6 :: 16 :: r) -> peek_wrapper (6 :: 16 :: r) = Ok h ->
  exists ep em rest,
    6 :: 16 :: r = wrapper_layout (wh_session_id h) (wh_sequence h) (wh_serial h) (wh_tag h) ep em ++ rest
    /\ is_u16 (wh_session_id h) /\ is_u48 (wh_sequence h) /\ length (wh_serial h) = 6%nat
    /\ is_u16 (wh_tag h) /\ length em = MAC_LEN /\ wh_payload_len h = length ep
    /\ (6 <= length ep)%nat /\ zlen ep <= 65497 /\ bytes_ok ep.
Proof.
  intros Hok E. pose proof E as Epeek. unfold peek_wrapper in E.
  apply bind_ok in E as ([service body] & Es & E).
  destruct (Z.eqb_spec service SECURE_WRAPPER) as [->|]; [|done]. cbn [negb] in E.
  case_bool_decide as Hlen; [done|]. clear E.
  unfold MIN_WRAPPER_LEN, WRAPPER_OVERHEAD, IP_HEADER_LEN, SECURITY_INFO_LEN, MAC_LEN in Hlen.
  apply split_frame_inv in Es as (b0 & b1 & rest & Ef & _ & Hl); [|done].
  apply cons2_inj in Ef as (<- & <- & Er).
  assert (Hbok : bytes_ok body).
  { unfold bytes_ok in Hok. rewrite !Forall_cons in Hok. destruct Hok as (_ & _ & Hok).
    rewrite Er in Hok. rewrite !Forall_app in Hok. tauto. }
  destruct (list_split_at 2 body) as (sidb & r1 & -> & Hsid); [lia|]. rewrite length_app in Hlen.
  destruct (list_split_at 6 r1) as (q & r2 & -> & Hq); [lia|]. rewrite length_app in Hlen.
  destruct (list_split_at 6 r2) as (ser & r3 & -> & Hser); [lia|]. rewrite length_app in Hlen.
  destruct (list_split_at 2 r3) as (tagb & r4 & -> & Htag); [lia|]. rewrite length_app in Hlen.
  destruct (list_split_at (length r4 - 16) r4) as (ep & em & -> & Hep); [lia|].
  rewrite length_app in Hlen, Hep.
  rewrite !bytes_ok_app in Hbok. destruct Hbok as (B1 & B2 & B3 & B4 & B5 & B6).
  pose proof (be_val_bound _ B1) as V1. pose proof (be_val_bound _ B2) as V2.
  pose proof (be_val_bound _ B4) as V4. unfold zlen in V1, V2, V4. rewrite Hsid in V1. rewrite Hq in V2.
  rewrite Htag in V4.
  assert (Heq : sidb ++ q ++ ser ++ tagb ++ ep ++ em
                = wrapper_body (be_val sidb) (be_val q) ser (be_val tagb) ep em).
  { unfold wrapper_body. by rewrite !be_bytes_val by done. }
  assert (Hepl : zlen ep <= 65497) by (unfold zlen in *; rewrite !length_app in Hl; lia).
  assert (Hem : length em = MAC_LEN) by (unfold MAC_LEN; lia).
  assert (Hfr : 6 :: 16 :: r = wrapper_layout (be_val sidb) (be_val q) ser (be_val tagb) ep em ++ rest).
  { rewrite wrapper_layout_frame by done. rewrite <- Heq, Er. unfold knxip_frame.
    unfold as_u16, IP_HEADER_LEN.
    rewrite Z.mod_small by (unfold zlen in Hl; rewrite !length_app in *; lia).
    by rewrite <- !app_assoc. }
  rewrite Hfr, peek_wrapper_layout in Epeek by (done || lia). apply Ok_inj in Epeek. subst h.
  exists ep, em, rest. cbn [wh_session_id wh_sequence wh_serial wh_tag wh_payload_len].
  split; [exact Hfr|]. repeat (split; [done || lia|]). done.
Qed.

(** ** Lemmas: sealing a wrapper *)

Section WrapperLemmas.
  Context `{C : SecureCiphers, L : !SecureCiphersLaws C}.

Definition wrapper_header (session_id : u16) (n : nat) : bytes :=
  [6; 16] ++ be_bytes 2 SECURE_WRAPPER ++ be_bytes 2 (Z.of_nat (WRAPPER_OVERHEAD + n))
  ++ be_bytes 2 session_id.

Lemma length_security_prefix seq serial tag : length serial = 6%nat ->
  length (security_prefix seq serial tag) = 14%nat.
Proof.
  intros Hs. unfold security_prefix. rewrite !length_app, length_drop, !length_be_bytes, Hs. done.
Qed.

(** A wrapper is its layout over the encrypted payload and MAC. *)
Lemma ip_wrap_spec key sid seq serial tag payload w : length serial = 6%nat ->
  ip_wrap key sid seq serial tag payload = Ok w <->
  zlen payload <= 65497 /\ exists mac,
    cbc_mac key (wrapper_header sid (length payload)) payload
      (security_prefix seq serial tag ++ be_bytes 2 (payload_len_u16 (length payload))) = Ok mac /\
    length mac = MAC_LEN /\
    w = wrapper_layout sid seq serial tag
          (apply_keystream (Key16_bytes key) (security_prefix seq serial tag ++ [255; 0]) MAC_LEN payload)
          (apply_keystream (Key16_bytes key) (security_prefix seq serial tag ++ [255; 0]) 0 mac).
Proof.
  intros Hs. pose proof (length_security_prefix seq serial tag Hs) as Hp.
  assert (Hb : length (security_prefix seq serial tag ++ be_bytes 2 (payload_len_u16 (length payload)))
               = BLOCK) by (rewrite length_app, Hp, length_be_bytes; done).
  assert (Hc : length (security_prefix seq serial tag ++ [255; 0]) = BLOCK)
    by (rewrite length_app, Hp; done).
  destruct (cbc_mac_ok key (wrapper_header sid (length payload)) payload _ Hb eq_refl)
    as (mac & Em & Hm & _).
  unfold ip_wrap, zlen. unfold WRAPPER_OVERHEAD at 1 2, IP_HEADER_LEN, SECURITY_INFO_LEN, MAC_LEN at 1 2.
  destruct (Z.ltb_spec (Z.of_nat (6 + 16 + 16 + length payload)) 65536) as [Hlt|Hge]; cbn [negb].
  - fold (wrapper_header sid (length payload)). rewrite Em. cbn [map_err mbind result_bind].
    rewrite encrypt_ctr_eq by (rewrite ?Hm; done). cbn [map_err mbind result_bind mret result_ret].
    rewrite Hm. unfold wrapper_layout. rewrite length_apply_keystream. split.
    + intros E. apply Ok_inj in E. split; [lia|]. exists mac. split; [done|]. split; [exact Hm|]. by rewrite <- E.
    + intros (_ & mac' & [= <-] & _ & ->). done.
  - split; [done|]. intros [H _]. lia.
Qed.

(** What unwrapping does on octets with the layout. *)
Lemma ip_unwrap_layout key sid seq serial tag ep em rest :
  is_u16 sid -> is_u48 seq -> length serial = 6%nat -> is_u16 tag -> length em = MAC_LEN ->
  (6 <= length ep)%nat -> zlen ep <= 65497 ->
  let ctr := security_prefix seq serial tag ++ [255; 0] in
  let payload := apply_keystream (Key16_bytes key) ctr MAC_LEN ep in
  exists mac,
    cbc_mac key (wrapper_header sid (length ep)) payload
      (security_prefix seq serial tag ++ be_bytes 2 (payload_len_u16 (length ep))) = Ok mac /\
    length mac = MAC_LEN /\
    ip_unwrap key (wrapper_layout sid seq serial tag ep em ++ rest)
    = if constant_time_eq mac (apply_keystream (Key16_bytes key) ctr 0 em)
      then Ok (MkWrapperHeader sid seq serial tag (length ep), payload)
      else Err (BadMac "SECURE_WRAPPER").
Proof.
  intros Hsid Hseq Hser Htag Hem Hep Hepl ctr payload.
  pose proof (length_security_prefix seq serial tag Hser) as Hp.
  assert (Hb : length (security_prefix seq serial tag ++ be_bytes 2 (payload_len_u16 (length ep)))
               = BLOCK) by (rewrite length_app, Hp, length_be_bytes; done).
  destruct (cbc_mac_ok key (wrapper_header sid (length ep)) payload _ Hb eq_refl) as (mac & Em & Hm & _).
  exists mac. split; [exact Em|]. split; [exact Hm|].
  destruct (wrapper_body_parts sid seq serial tag ep em Hsid Hseq Hser Htag Hem)
    as (Hlen & _ & _ & _ & _ & P5 & P6).
  unfold ip_unwrap. rewrite peek_wrapper_layout by done. cbn [mbind result_bind].
  assert (Had : take (IP_HEADER_LEN + 2) (wrapper_layout sid seq serial tag ep em ++ rest)
                = wrapper_header sid (length ep)).
  { unfold wrapper_layout. fold (wrapper_header sid (length ep)). rewrite <- app_assoc.
    apply take_app_length'. done. }
  rewrite Had. rewrite wrapper_layout_frame by done.
  rewrite split_frame_build by (done || (unfold zlen in *; rewrite Hlen; lia)).
  cbn [mbind result_bind wh_sequence wh_serial wh_tag]. rewrite P5, P6.
  rewrite encrypt_ctr_eq by (rewrite ?Hem, ?length_app, ?Hp; done). rewrite Hem.
  cbn [map_err mbind result_bind]. rewrite length_apply_keystream. fold ctr payload. rewrite Em.
  cbn [map_err mbind result_bind]. destruct (constant_time_eq _ _); done.
Qed.

Lemma apply_keystream_swap key iv pos a b :
  a = apply_keystream key iv pos b -> b = apply_keystream key iv pos a.
Proof. intros ->. by rewrite apply_keystream_involutive. Qed.

(** A wrapped frame, with octets after it, opens to what was wrapped. *)
Lemma ip_unwrap_wrap key sid seq serial tag payload w rest :
  is_u16 sid -> is_u48 seq -> length serial = 6%nat -> is_u16 tag -> (6 <= length payload)%nat ->
  ip_wrap key sid seq serial tag payload = Ok w ->
  peek_wrapper (w ++ rest) = Ok (MkWrapperHeader sid seq serial tag (length payload)) /\
  ip_unwrap key (w ++ rest) = Ok (MkWrapperHeader sid seq serial tag (length payload), payload).
Proof.
  intros Hsid Hseq Hser Htag Hpl E. apply ip_wrap_spec in E as (Hl & mac & Em & Hm & ->); [|done].
  set (ctr := security_prefix seq serial tag ++ [255; 0]).
  set (ep := apply_keystream _ ctr MAC_LEN payload). set (em := apply_keystream _ ctr 0 mac).
  assert (Hepl : length ep = length payload) by apply length_apply_keystream.
  assert (Heml : length em = MAC_LEN) by (rewrite <- Hm; apply length_apply_keystream).
  assert (Hepz : zlen ep <= 65497) by (unfold zlen in *; rewrite Hepl; lia).
  split; [rewrite peek_wrapper_layout by (done || lia); by rewrite Hepl|].
  destruct (ip_unwrap_layout key sid seq serial tag ep em rest) as (mac' & Em' & _ & ->);
    [done|done|done|done|done|lia|done|].
  fold ctr in Em' |- *.
  assert (Hpay : apply_keystream (Key16_bytes key) ctr MAC_LEN ep = payload)
    by apply apply_keystream_involutive.
  rewrite Hpay, Hepl in Em'. rewrite Em in Em'. apply Ok_inj in Em'. subst mac'.
  unfold em. rewrite apply_keystream_involutive, constant_time_eq_refl, Hpay, Hepl. done.
Qed.

(** Conversely, what opens was wrapped by a holder of the key. *)
Lemma ip_unwrap_inv key r h payload : bytes_ok (6 :: 16 :: r) ->
  ip_unwrap key (6 :: 16 :: r) = Ok (h, payload) ->
  is_u16 (wh_session_id h) /\ is_u48 (wh_sequence h) /\ length (wh_serial h) = 6%nat /\
  is_u16 (wh_tag h) /\ wh_payload_len h = length payload /\ (6 <= length payload)%nat /\
  exists w rest, 6 :: 16 :: r = w ++ rest /\
    ip_wrap key (wh_session_id h) (wh_sequence h) (wh_serial h) (wh_tag h) payload = Ok w.
Proof.
  intros Hok E. pose proof E as E0. unfold ip_unwrap in E0.
  apply bind_ok in E0 as (h' & Epeek & E0).
  destruct (peek_wrapper_inv r h' Hok Epeek)
    as (ep & em & rest & Efr & H1 & H2 & H3 & H4 & H5 & H6 & H7 & H8 & _).
  destruct (ip_unwrap_layout key (wh_session_id h') (wh_sequence h') (wh_serial h') (wh_tag h') ep em
              rest H1 H2 H3 H4 H5 H7 H8) as (mac & Em & Hm & Eu).
  rewrite <- Efr in Eu. rewrite Eu in E.
  destruct (constant_time_eq mac _) eqn:Ec; [|done]. injection E as <- <-.
  apply constant_time_eq_iff in Ec. rewrite length_apply_keystream.
  cbn [wh_session_id wh_sequence wh_serial wh_tag wh_payload_len].
  repeat (split; [done|]).
  eexists _, rest. split; [exact Efr|]. apply ip_wrap_spec; [done|].
  unfold zlen in *. rewrite !length_apply_keystream. split; [lia|].
  exists mac. split; [exact Em|]. split; [done|].
  rewrite apply_keystream_involutive. f_equal. by apply apply_keystream_swap.
Qed.

Lemma handshake_mac_ok key ad : zlen ad < 65536 ->
  exists mac, handshake_mac key ad = Ok mac /\ length mac = MAC_LEN /\ bytes_ok mac.
Proof.
  intros Ha. unfold handshake_mac.
  destruct (cbc_mac_ok key ad [] (replicate BLOCK 0) eq_refl Ha) as (mac & -> & Hm & Ho).
  cbn [map_err mbind result_bind]. rewrite encrypt_ctr_eq by (rewrite ?Hm; done). cbn [map_err mbind result_bind mret result_ret].
  eexists. split; [reflexivity|]. split; [by rewrite length_apply_keystream|].
  by apply apply_keystream_octets.
Qed.

End WrapperLemmas.

Section HandshakeLemmas.
  Context `{C : SecureCiphers, L : !SecureCiphersLaws C}.

Lemma length_xor_keys c s : length c = PUBLIC_KEY_LEN -> length s = PUBLIC_KEY_LEN ->
  length (xor_keys c s) = PUBLIC_KEY_LEN.
Proof. intros Hc Hs. unfold xor_keys. rewrite length_zip_with. lia. Qed.

Lemma session_response_mac_ok key sid c s :
  length c = PUBLIC_KEY_LEN -> length s = PUBLIC_KEY_LEN ->
  exists mac, session_response_mac key sid c s = Ok mac /\ length mac = MAC_LEN /\ bytes_ok mac.
Proof.
  intros Hc Hs. apply handshake_mac_ok. unfold zlen.
  rewrite !length_app, !length_be_bytes, length_xor_keys by done. done.
Qed.

Lemma authenticate_mac_ok key uid c s :
  length c = PUBLIC_KEY_LEN -> length s = PUBLIC_KEY_LEN ->
  exists mac, authenticate_mac key uid c s = Ok mac /\ length mac = MAC_LEN /\ bytes_ok mac.
Proof.
  intros Hc Hs. apply handshake_mac_ok. unfold zlen.
  rewrite !length_app, !length_be_bytes, length_xor_keys by done. done.
Qed.

Lemma parse_session_request_build hpai c : length hpai = 8%nat -> length c = PUBLIC_KEY_LEN ->
  parse_session_request (session_request hpai c) = Ok (MkSessionRequest hpai c).
Proof.
  intros Hh Hc. unfold parse_session_request, session_request.
  rewrite <- (app_nil_r (knxip_frame _ _)), split_frame_build
    by (done || (unfold zlen; rewrite length_app, Hh, Hc; done)).
  cbn [mbind result_bind]. rewrite Z.eqb_refl. cbn [negb].
  rewrite bool_decide_false by (rewrite length_app, Hh, Hc; lia).
  unfold slice. rewrite (take_app_length' hpai), (drop_app_length' hpai) by done.
  rewrite firstn_all2 by (rewrite Hc; lia). done.
Qed.

Lemma parse_session_response_build sid s mac :
  is_u16 sid -> length s = PUBLIC_KEY_LEN -> length mac = MAC_LEN ->
  parse_session_response (knxip_frame SESSION_RESPONSE (be_bytes 2 sid ++ s ++ mac))
  = Ok (MkSessionResponse sid s mac).
Proof.
  intros Hsid Hs Hm. unfold parse_session_response.
  assert (Hl : length (be_bytes 2 sid ++ s ++ mac) = (2 + PUBLIC_KEY_LEN + MAC_LEN)%nat)
    by (rewrite !length_app, length_be_bytes, Hs, Hm; lia).
  assert (Hf : length (knxip_frame SESSION_RESPONSE (be_bytes 2 sid ++ s ++ mac)) = SESSION_RESPONSE_LEN)
    by (unfold knxip_frame; rewrite !length_app, !length_be_bytes, Hs, Hm; done).
  rewrite Hf. rewrite <- (app_nil_r (knxip_frame _ _)), split_frame_build
    by (done || (unfold zlen; rewrite Hl; done)).
  cbn [mbind result_bind]. rewrite Z.eqb_refl, Hl. cbn [negb].
  rewrite bool_decide_false, !bool_decide_true by lia. cbn [negb orb mret result_ret].
  rewrite (be_bytes_2 _ Hsid). cbn [app nth]. rewrite u16_of_div by done.
  f_equal. f_equal; unfold slice.
  - cbn [drop]. rewrite drop_0. apply take_app_length'. rewrite Hs. lia.
  - change (drop (2 + PUBLIC_KEY_LEN) (sid / 256 :: sid mod 256 :: s ++ mac))
      with (drop PUBLIC_KEY_LEN (s ++ mac)).
    rewrite drop_app_length' by done. apply firstn_all2. rewrite Hm. lia.
Qed.

Lemma parse_session_authenticate_build uid mac : length mac = MAC_LEN ->
  parse_session_authenticate (knxip_frame SESSION_AUTHENTICATE ([0; uid] ++ mac))
  = Ok (MkSessionAuthenticate uid mac).
Proof.
  intros Hm. unfold parse_session_authenticate.
  assert (Hl : length ([0; uid] ++ mac) = (2 + MAC_LEN)%nat) by (rewrite length_app, Hm; done).
  assert (Hf : length (knxip_frame SESSION_AUTHENTICATE ([0; uid] ++ mac)) = SESSION_AUTHENTICATE_LEN)
    by (unfold knxip_frame; rewrite !length_app, !length_be_bytes, Hm; done).
  rewrite Hf. rewrite <- (app_nil_r (knxip_frame _ _)), split_frame_build
    by (done || (unfold zlen; rewrite Hl; done)).
  cbn [mbind result_bind]. rewrite Z.eqb_refl, Hl. cbn [negb].
  rewrite bool_decide_false, !bool_decide_true by lia. cbn [negb orb mret result_ret app nth Z.eqb].
  unfold slice. cbn [drop]. rewrite drop_0, firstn_all2 by (rewrite Hm; lia). done.
Qed.

Lemma parse_session_status_build s : (forall b, s = StatusOther b -> 6 <= b < 256) ->
  parse_session_status (session_status s) = Ok s.
Proof.
  intros Hs. unfold parse_session_status, session_status.
  rewrite <- (app_nil_r (knxip_frame _ _)), split_frame_build by done.
  cbn [mbind result_bind]. rewrite Z.eqb_refl. cbn [negb]. by rewrite SessionStatus_roundtrip.
Qed.

Lemma verify_session_response_iff r key c :
  length c = PUBLIC_KEY_LEN -> length (sp_server_public r) = PUBLIC_KEY_LEN ->
  verify_session_response r key c = Ok tt <->
  session_response_mac key (sp_session_id r) c (sp_server_public r) = Ok (sp_mac r).
Proof.
  intros Hc Hs. unfold verify_session_response.
  destruct (session_response_mac_ok key (sp_session_id r) c _ Hc Hs) as (mac & -> & _).
  cbn [mbind result_bind]. destruct (constant_time_eq mac (sp_mac r)) eqn:E.
  - apply constant_time_eq_iff in E as ->. done.
  - split; [done|]. intros [= ->]. by rewrite constant_time_eq_refl in E.
Qed.

(** Sealing and opening at the two ends of an established session. *)
Lemma seal_open a b payload :
  ip_key b = ip_key a -> ip_session_id b = ip_session_id a -> is_u16 (ip_session_id a) ->
  length (ip_serial a) = 6%nat -> 0 <= tx_seq a <= IP_MAX_SEQUENCE -> rx_next b <= tx_seq a ->
  (6 <= length payload)%nat -> zlen payload <= 65497 ->
  exists w, IpSecureSession_seal a payload
      = (Ok w, MkIpSecureSession (ip_key a) (ip_session_id a) (ip_serial a) (tx_seq a + 1) (rx_next a))
    /\ forall b', ip_key b' = ip_key a -> ip_session_id b' = ip_session_id a ->
         IpSecureSession_open b' w
         = if tx_seq a <? rx_next b' then (Err (Replay (rx_next b') (tx_seq a)), b')
           else (Ok payload, MkIpSecureSession (ip_key a) (ip_session_id a) (ip_serial b') (tx_seq b')
                               (tx_seq a + 1)).
Proof.
  intros Hk Hi Hid Hser Htx Hrx Hpl Hpz.
  assert (H48 : is_u48 (tx_seq a)) by (unfold is_u48, IP_MAX_SEQUENCE in *; lia).
  assert (Hw : exists w, ip_wrap (ip_key a) (ip_session_id a) (tx_seq a) (ip_serial a) 0 payload = Ok w).
  { pose proof (length_security_prefix (tx_seq a) (ip_serial a) 0 Hser) as Hp.
    destruct (cbc_mac_ok (ip_key a) (wrapper_header (ip_session_id a) (length payload)) payload
      (security_prefix (tx_seq a) (ip_serial a) 0 ++ be_bytes 2 (payload_len_u16 (length payload))))
      as (mac & Em & Hm & _); [rewrite length_app, Hp, length_be_bytes; done|done|].
    eexists. apply ip_wrap_spec; [done|]. split; [done|]. exists mac. split; [exact Em|]. by split. }
  destruct Hw as [w Hw]. exists w. unfold IpSecureSession_seal.
  rewrite (proj2 (Z.ltb_ge _ _)) by lia. rewrite Hw. split; [done|]. intros b' Hk' Hi'.
  destruct (ip_unwrap_wrap (ip_key a) (ip_session_id a) (tx_seq a) (ip_serial a) 0 payload w []
              Hid H48 Hser ltac:(done) Hpl Hw) as [Hpk Hun].
  rewrite app_nil_r in Hpk, Hun. unfold IpSecureSession_open.
  rewrite Hpk. cbn [wh_session_id wh_sequence]. rewrite Hi', Z.eqb_refl. cbn [negb].
  destruct (tx_seq a <? rx_next b'); [done|]. rewrite Hk', Hun. do 2 f_equal.
  unfold u64_saturating_add, u64_max. unfold is_u48 in H48. lia.
Qed.

End HandshakeLemmas.

(** Session and sequence of every inbound frame a session opens. *)
Fixpoint opened_run `{SecureCiphers} (s : IpSecureSession) (frames : list bytes) : list u64 :=
  match frames with
  | [] => []
  | frame :: r =>
      let '(out, s') := IpSecureSession_open s frame in
      match out, peek_wrapper frame with
      | Ok _, Ok h => [wh_sequence h]
      | _, _ => []
      end ++ opened_run s' r
  end.

(** ** Properties *)

(** A SECURE_WRAPPER opens under a session key exactly when it is the wrapping,
    under that key, of the payload returned with the session id, sequence, serial
    number and tag of its header (octets after the frame's total length apart): the
    payload arrives unchanged and nothing else is accepted. *)
Theorem wrapper_accepts_exactly_wraps `{C : SecureCiphers, L : !SecureCiphersLaws C}
    key r h payload :
  bytes_ok (6 :: 16 :: r) ->
  ip_unwrap key (6 :: 16 :: r) = Ok (h, payload) <->
  is_u16 (wh_session_id h) /\ is_u48 (wh_sequence h) /\ length (wh_serial h) = 6%nat /\
  is_u16 (wh_tag h) /\ wh_payload_len h = length payload /\ (6 <= length payload)%nat /\
  exists w rest, 6 :: 16 :: r = w ++ rest /\
    ip_wrap key (wh_session_id h) (wh_sequence h) (wh_serial h) (wh_tag h) payload = Ok w.
Proof.
  intros Hok. split; [by apply ip_unwrap_inv|].
  intros (H1 & H2 & H3 & H4 & H5 & H6 & w & rest & -> & Hw).
  destruct (ip_unwrap_wrap key _ _ _ _ payload w rest H1 H2 H3 H4 H6 Hw) as [_ ->].
  destruct h. simpl in *. by subst.
Qed.

Lemma wrapper_accepts_exactly_wraps_witness :
  exists w, @ip_wrap demo_ciphers (Key16_new (replicate 16 7)) 1 0 [0; 250; 1; 2; 3; 4] 0
      [6; 16; 4; 32; 0; 6] = Ok (6 :: 16 :: w) /\
    @ip_unwrap demo_ciphers (Key16_new (replicate 16 7)) (6 :: 16 :: w)
      = Ok (MkWrapperHeader 1 0 [0; 250; 1; 2; 3; 4] 0 6, [6; 16; 4; 32; 0; 6]).
Proof.
  eexists. split; [vm_compute; reflexivity|].
  apply wrapper_accepts_exactly_wraps; [vm_compute; repeat constructor; discriminate|].
  split; [done|]. split; [done|]. split; [done|]. split; [done|]. split; [done|]. split; [done|].
  eexists _, []. split; [|vm_compute; reflexivity]. reflexivity.
Defined.

(** the two ends of a session stay in step: a sealed frame opens at the peer to
    its payload and moves the peer's floor to the sender's next sequence, opening it
    again is a replay and changes nothing, and the sender's counter moves by one;
    over any series of inbound frames the accepted sequences strictly increase, and
    a refused frame leaves the session as it was. *)
Theorem ip_session_in_step `{C : SecureCiphers, L : !SecureCiphersLaws C} a b payload :
  ip_key b = ip_key a -> ip_session_id b = ip_session_id a -> is_u16 (ip_session_id a) ->
  length (ip_serial a) = 6%nat -> 0 <= tx_seq a <= IP_MAX_SEQUENCE -> rx_next b <= tx_seq a ->
  (6 <= length payload)%nat -> zlen payload <= 65497 ->
  (exists w a' b', IpSecureSession_seal a payload = (Ok w, a') /\
     IpSecureSession_open b w = (Ok payload, b') /\
     tx_seq a' = tx_seq a + 1 /\ rx_next b' = tx_seq a' /\
     IpSecureSession_open b' w = (Err (Replay (tx_seq a + 1) (tx_seq a)), b')) /\
  (forall frame e s s', IpSecureSession_open s frame = (Err e, s') -> s' = s).
Proof.
  intros Hk Hi Hid Hser Htx Hrx Hpl Hpz. split.
  - destruct (seal_open a b payload Hk Hi Hid Hser Htx Hrx Hpl Hpz) as (w & Hs & Ho).
    eexists w, _, _. split; [exact Hs|]. rewrite (Ho b Hk Hi), (proj2 (Z.ltb_ge _ _)) by lia.
    split; [reflexivity|]. split; [done|]. split; [done|].
    rewrite Ho by done. cbn [rx_next]. rewrite (proj2 (Z.ltb_lt _ _)) by lia. done.
  - intros frame e s s'. unfold IpSecureSession_open.
    destruct (peek_wrapper frame) as [h|]; [|congruence].
    destruct (negb _); [congruence|]. destruct (_ <? _); [congruence|].
    destruct (ip_unwrap _ _) as [[? ?]|]; congruence.
Qed.

Lemma ip_session_in_step_witness :
  exists w a' b', @IpSecureSession_seal demo_ciphers
      (IpSecureSession_new (Key16_new (replicate 16 7)) 1 [0; 250; 1; 2; 3; 4])
      [6; 16; 4; 32; 0; 6] = (Ok w, a') /\
    @IpSecureSession_open demo_ciphers
      (IpSecureSession_new (Key16_new (replicate 16 7)) 1 [0; 0; 0; 0; 0; 0]) w
      = (Ok [6; 16; 4; 32; 0; 6], b').
Proof.
  destruct (proj1 (@ip_session_in_step demo_ciphers _
    (IpSecureSession_new (Key16_new (replicate 16 7)) 1 [0; 250; 1; 2; 3; 4])
    (IpSecureSession_new (Key16_new (replicate 16 7)) 1 [0; 0; 0; 0; 0; 0]) [6; 16; 4; 32; 0; 6]
    eq_refl eq_refl ltac:(done) eq_refl ltac:(done) ltac:(done) ltac:(simpl; lia) ltac:(done)))
    as (w & a' & b' & H1 & H2 & _).
  exists w, a', b'. split; [exact H1|exact H2].
Defined.

(** whatever frames arrive, in whatever order and from whoever, the sequences a
    session accepts strictly increase from its floor: a replayed or reordered
    wrapper is never opened twice. *)
Theorem opened_sequences_increase `{C : SecureCiphers} frames : forall s,
  Forall bytes_ok frames ->
  StronglySorted Z.lt (opened_run s frames) /\ Forall (fun v => rx_next s <= v) (opened_run s frames).
Proof.
  induction frames as [|frame r IH]; intros s Hok; [split; constructor|].
  apply Forall_cons in Hok as [Hf Hr]. simpl.
  assert (Hsame : StronglySorted Z.lt (opened_run s r) /\
                  Forall (fun v => rx_next s <= v) (opened_run s r)) by (by apply IH).
  destruct (IpSecureSession_open s frame) as [out s'] eqn:E. unfold IpSecureSession_open in E.
  destruct (peek_wrapper frame) as [h|] eqn:Ep; [|injection E as <- <-; exact Hsame].
  destruct (negb _); [injection E as <- <-; exact Hsame|].
  destruct (Z.ltb_spec (wh_sequence h) (rx_next s)) as [|Hge]; [injection E as <- <-; exact Hsame|].
  destruct (ip_unwrap _ _) as [[h' payload]|]; [|injection E as <- <-; exact Hsame].
  injection E as <- <-. simpl.
  assert (Hseq : 0 <= wh_sequence h < u64_max).
  { by apply peek_wrapper_sequence in Ep. }
  destruct (IH (MkIpSecureSession (ip_key s) (ip_session_id s) (ip_serial s) (tx_seq s)
                  (u64_saturating_add (wh_sequence h) 1)) Hr) as [Hs Hfl].
  cbn [rx_next] in Hfl.
  assert (Hfl' : Forall (fun v => wh_sequence h < v)
    (opened_run (MkIpSecureSession (ip_key s) (ip_session_id s) (ip_serial s) (tx_seq s)
                   (u64_saturating_add (wh_sequence h) 1)) r)).
  { eapply Forall_impl; [exact Hfl|]. cbn beta. unfold u64_saturating_add, u64_max in *. lia. }
  split; [constructor; [exact Hs|exact Hfl']|]. constructor; [exact Hge|].
  eapply Forall_impl; [exact Hfl'|]. cbn beta. lia.
Qed.

Lemma opened_sequences_increase_witness :
  StronglySorted Z.lt (@opened_run demo_ciphers
    (IpSecureSession_new (Key16_new (replicate 16 7)) 1 [0; 0; 0; 0; 0; 0])
    (map (fun seq => match @ip_wrap demo_ciphers (Key16_new (replicate 16 7)) 1 seq [0; 250; 1; 2; 3; 4] 0
                             [6; 16; 4; 32; 0; 6] with Ok w => w | Err _ => [] end) [0; 2; 1; 2; 5])).
Proof.
  apply opened_sequences_increase. vm_compute. repeat constructor; discriminate.
Defined.

(** The secure handshake establishes one session at both ends: the server parses
    the client's request to its HPAI and public key; the client accepts the server's
    response, which parses to the session id and the server's key and verifies under
    the device authentication key (and a response verifies only when its MAC is the
    one that key yields); both ends derive the same session key; the client's
    wrapped SESSION_AUTHENTICATE opens at the server, parses to the user id and
    carries the MAC of the user's key; and the server's wrapped status opens at the
    client to that status. *)
Theorem session_handshake_establishes
    `{C : SecureCiphers, L : !SecureCiphersLaws C, X : X25519, XL : !X25519Laws X}
    (client_secret server_secret hpai : bytes) (auth user_key : Key16) (sid : u16) (uid : u8)
    (cserial sserial : bytes) (status : SessionStatus) :
  length hpai = 8%nat -> is_u16 sid -> length cserial = 6%nat -> length sserial = 6%nat ->
  (forall b, status = StatusOther b -> 6 <= b < 256) ->
  let cpub := x25519_public client_secret in
  let spub := x25519_public server_secret in
  let ckey := X25519KeyPair_session_key client_secret spub in
  let skey := X25519KeyPair_session_key server_secret cpub in
  parse_session_request (session_request hpai cpub) = Ok (MkSessionRequest hpai cpub) /\
  (exists resp r, session_response auth sid cpub spub = Ok resp /\
     parse_session_response resp = Ok r /\ sp_session_id r = sid /\ sp_server_public r = spub /\
     verify_session_response r auth cpub = Ok tt) /\
  (forall r key, length (sp_server_public r) = PUBLIC_KEY_LEN ->
     verify_session_response r key cpub = Ok tt <->
     session_response_mac key (sp_session_id r) cpub (sp_server_public r) = Ok (sp_mac r)) /\
  ckey = skey /\
  (exists af mac w c' s' w2 c'' s'',
     session_authenticate user_key uid cpub spub = Ok af /\
     IpSecureSession_seal (IpSecureSession_new ckey sid cserial) af = (Ok w, c') /\
     IpSecureSession_open (IpSecureSession_new skey sid sserial) w = (Ok af, s') /\
     parse_session_authenticate af = Ok (MkSessionAuthenticate uid mac) /\
     authenticate_mac user_key uid cpub spub = Ok mac /\
     IpSecureSession_seal s' (session_status status) = (Ok w2, s'') /\
     IpSecureSession_open c' w2 = (Ok (session_status status), c'') /\
     parse_session_status (session_status status) = Ok status).
Proof.
  intros Hh Hsid Hcs Hss Hst cpub spub ckey skey.
  assert (Hcp : length cpub = PUBLIC_KEY_LEN) by apply x25519_public_len.
  assert (Hsp : length spub = PUBLIC_KEY_LEN) by apply x25519_public_len.
  assert (Hkey : ckey = skey).
  { unfold ckey, skey, X25519KeyPair_session_key, cpub, spub. by rewrite x25519_agree. }
  split; [by apply parse_session_request_build|]. split; [|split; [|split; [exact Hkey|]]].
  - destruct (session_response_mac_ok auth sid cpub spub Hcp Hsp) as (mac & Em & Hm & _).
    unfold session_response. rewrite Em. eexists _, (MkSessionResponse sid spub mac).
    split; [reflexivity|]. split; [by apply parse_session_response_build|].
    split; [done|]. split; [done|]. by apply verify_session_response_iff.
  - intros r key Hr. by apply verify_session_response_iff.
  - destruct (authenticate_mac_ok user_key uid cpub spub Hcp Hsp) as (mac & Em & Hm & _).
    unfold session_authenticate. rewrite Em. cbn [mbind result_bind mret result_ret].
    set (af := knxip_frame SESSION_AUTHENTICATE ([0; uid] ++ mac)).
    assert (Hafl : length af = 24%nat)
      by (unfold af, knxip_frame; rewrite !length_app, !length_be_bytes, Hm; done).
    set (c0 := IpSecureSession_new ckey sid cserial). set (s0 := IpSecureSession_new skey sid sserial).
    destruct (seal_open c0 s0 af (eq_sym Hkey) eq_refl Hsid Hcs) as (w & Hw & Ho);
      [done|done|lia|unfold zlen; rewrite Hafl; done|].
    specialize (Ho s0 (eq_sym Hkey) eq_refl). change (rx_next s0) with 0 in Ho.
    change (tx_seq c0 <? 0) with false in Ho. cbv iota in Ho.
    set (s1 := MkIpSecureSession _ _ _ _ _) in Ho. set (c1 := MkIpSecureSession _ _ _ _ _) in Hw.
    destruct (seal_open s1 c1 (session_status status)) as (w2 & Hw2 & Ho2);
      [done|done|done|done|done|done|vm_compute; lia|done|].
    specialize (Ho2 c1 eq_refl eq_refl). change (tx_seq s1 <? rx_next c1) with false in Ho2.
    cbv iota in Ho2.
    eexists af, mac, w, c1, s1, w2, _, _. split; [reflexivity|]. split; [exact Hw|].
    split; [exact Ho|]. split; [by apply parse_session_authenticate_build|]. split; [done|].
    split; [exact Hw2|]. split; [exact Ho2|]. by apply parse_session_status_build.
Qed.

(** An instance whose shared secret is the XOR of the two public keys, which both
    ends compute alike. *)
Definition demo_x25519 : X25519 := {|
  x25519_public s := block16 s ++ block16 (drop 16 s);
  x25519_shared a p := xor_block (block16 a ++ block16 (drop 16 a)) p |}.

#[export] Instance demo_x25519_laws : X25519Laws demo_x25519.
Proof.
  split.
  - intros s. simpl. by rewrite length_app, !length_block16.
  - intros s. simpl. apply Forall_app. split; apply block16_ok.
  - intros a b. simpl. unfold xor_block. apply list_eq. intros i.
    rewrite !lookup_zip_with.
    destruct ((block16 a ++ block16 (drop 16 a)) !! i), ((block16 b ++ block16 (drop 16 b)) !! i);
      simpl; try done. by rewrite Z.lxor_comm.
Qed.

Lemma session_handshake_establishes_witness :
  exists resp r, @session_response demo_ciphers (Key16_new (replicate 16 7)) 1
      (@x25519_public demo_x25519 (replicate 32 3)) (@x25519_public demo_x25519 (replicate 32 5))
      = Ok resp /\
    parse_session_response resp = Ok r /\
    @verify_session_response demo_ciphers r (Key16_new (replicate 16 7))
      (@x25519_public demo_x25519 (replicate 32 3)) = Ok tt.
Proof.
  destruct (@session_handshake_establishes demo_ciphers _ demo_x25519 _ (replicate 32 3)
    (replicate 32 5) [8; 2; 0; 0; 0; 0; 0; 0] (Key16_new (replicate 16 7))
    (Key16_new (replicate 16 8)) 1 1 [0; 250; 1; 2; 3; 4] [0; 0; 0; 0; 0; 0] Success)
    as (_ & (resp & r & H1 & H2 & _ & _ & H3) & _);
    [done|done|done|done|intros b E; discriminate E|].
  exists resp, r. split; [exact H1|]. split; [exact H2|exact H3].
Defined.
