(* ===== verification/SimIpSecure.v ===== *)
(** * The simulator's KNXnet/IP Secure ([knx-sim/src/secure/ipsecure.rs, crypto.rs])

    The server half of a secure session, written independently of the client's
    ([IpSecure]) over the same AES, PBKDF2 and X25519 crates: an instance of the
    gateway's [GatewaySessions].  The two halves compute the same MACs, accept the
    same wrappers, and a client with a user's password establishes a session. *)

From S2P Require Import Prelude OrderedMap Address Cursor Cemi Knxnet Channel SimWire SimKnxnet Gateway Crypto IpSecure.

Local Open Scope string_scope.
Local Open Scope list_scope.
Local Open Scope Z_scope.

Section SimIpSecure.
  Context `{C : SecureCiphers}.

(** ** The CCM pieces ([crypto.rs]) *)

Definition sim_byte_pad (data : bytes) : bytes :=
  let rem := (length data mod BLOCK)%nat in
  if bool_decide (rem <> 0%nat) then data ++ replicate (BLOCK - rem) 0 else data.

(** The loop over the blocks: the last cipher block is kept. *)
Fixpoint sim_cbc_last (blocks : nat) (enc : cbc_enc) (buf last : bytes) : bytes :=
  match blocks with
  | O => last
  | S blocks => let '(block, enc) := cbc_enc_block enc (take BLOCK buf) in sim_cbc_last blocks enc (drop BLOCK buf) block
  end.

Definition sim_cbc_mac (key additional_data payload block_0 : bytes) : bytes :=
  let buf := sim_byte_pad (block_0 ++ be_bytes 2 (as_u16 (zlen additional_data)) ++ additional_data ++ payload) in
  sim_cbc_last (length buf / BLOCK) (cbc_enc_new key (replicate BLOCK 0)) buf (replicate BLOCK 0).

Definition ctr_keystream (key counter_0 : bytes) (blocks : nat) : bytes :=
  map (keystream key counter_0) (seq 0 (blocks * BLOCK)).

Definition sim_bytes_xor (a b : bytes) : bytes := zip_with Z.lxor a b.

Definition encrypt_data_ctr (key counter_0 mac payload : bytes) : bytes * bytes :=
  let total := (length mac + length payload)%nat in
  let ks := ctr_keystream key counter_0 ((total + (BLOCK - 1)) / BLOCK) in
  (sim_bytes_xor payload (slice (length mac) total ks), sim_bytes_xor mac (take (length mac) ks)).

Definition decrypt_data_ctr (key counter_0 enc_mac enc_payload : bytes) : bytes * bytes :=
  encrypt_data_ctr key counter_0 enc_mac enc_payload.

Definition ct_eq (a b : bytes) : bool :=
  if negb (bool_decide (length a = length b)) then false else xor_diff a b =? 0.

(** ** Keys and handshake MACs *)

Definition SALT_USER : bytes := map (fun c => Z.of_nat (Ascii.nat_of_ascii c)) (String.list_ascii_of_string "user-password.1.secure.ip.knx.org").
Definition SALT_DEVICE : bytes :=
  map (fun c => Z.of_nat (Ascii.nat_of_ascii c)) (String.list_ascii_of_string "device-authentication-code.1.secure.ip.knx.org").

Definition HANDSHAKE_CTR : bytes := [0; 0; 0; 0; 0; 0; 0; 0; 0; 0; 0; 0; 0; 0; 255; 0].

(** A password is its characters. *)
Definition pbkdf2_16 (password : list Z) (salt : bytes) : bytes :=
  pbkdf2_hmac_sha256 (map (fun c => if c <? 256 then c else 63) password) salt 65536 16.

Definition user_password_key (password : list Z) : bytes := pbkdf2_16 password SALT_USER.
Definition device_authentication_key (code : list Z) : bytes := pbkdf2_16 code SALT_DEVICE.

Definition sim_frame (svc : u16) (body : bytes) : bytes :=
  [6; 16] ++ be_bytes 2 svc ++ be_bytes 2 (as_u16 (Z.of_nat (6 + length body))) ++ body.

Definition response_mac (device_key : bytes) (sid : u16) (client server : bytes) : bytes :=
  let ad := [6; 16; 9; 82; 0; 56] ++ be_bytes 2 sid ++ zip_with Z.lxor client server in
  snd (encrypt_data_ctr device_key HANDSHAKE_CTR (sim_cbc_mac device_key ad [] (replicate 16 0)) []).

Definition sim_authenticate_mac (user_key : bytes) (user_id : u8) (client server : bytes) : bytes :=
  let ad := [6; 16; 9; 83; 0; 24; 0; user_id] ++ zip_with Z.lxor client server in
  snd (encrypt_data_ctr user_key HANDSHAKE_CTR (sim_cbc_mac user_key ad [] (replicate 16 0)) []).

(** ** The handshake *)

Record SimHandshake : Type := MkSimHandshake {
  sh_session_id : u16;
  sh_client_public : bytes;
  sh_server_public : bytes;
  sh_session_key : bytes }.

Inductive IpSecureRefusal : Type :=
| SimShort | SimBadMac | SimWrongSession | SimReplay (seq : u64) | SimNoUser | SimRandom.

(** The drawn secret is an argument; [None] when there is no randomness. *)
Definition Handshake_respond `{X25519} (drawn : option bytes) (request_body : bytes) (sid : u16) (device_auth_key : bytes)
    : result IpSecureRefusal (SimHandshake * bytes) :=
  if (length request_body <? 40)%nat then Err SimShort else
  let client_public := slice 8 40 request_body in
  match drawn with
  | None => Err SimRandom
  | Some secret =>
      let server_public := x25519_public secret in
      let session_key := take 16 (sha256_digest (x25519_shared secret client_public)) in
      let mac := response_mac device_auth_key sid client_public server_public in
      Ok (MkSimHandshake sid client_public server_public session_key,
          sim_frame SESSION_RESPONSE (be_bytes 2 sid ++ server_public ++ mac))
  end.

Fixpoint find_user (users : list (u8 * bytes)) (hs : SimHandshake) (user_id : u8) (mac : bytes) : option u8 :=
  match users with
  | [] => None
  | (id, key) :: users =>
      if (id =? user_id) && ct_eq (sim_authenticate_mac key user_id (sh_client_public hs) (sh_server_public hs)) mac
      then Some id else find_user users hs user_id mac
  end.

Definition Handshake_authenticate (hs : SimHandshake) (frame : bytes) (users : list (u8 * bytes)) : result IpSecureRefusal u8 :=
  if (length frame <? 24)%nat || negb (u16_of (nth 2 frame 0) (nth 3 frame 0) =? SESSION_AUTHENTICATE) then Err SimShort
  else
    match find_user users hs (nth 7 frame 0) (slice 8 24 frame) with
    | Some id => Ok id
    | None => Err SimNoUser
    end.

(** ** The session *)

Record SimSecureSession : Type := MkSimSecureSession {
  ss_key : bytes;
  ss_session_id : u16;
  ss_serial : bytes;
  ss_next_tx : u64;
  ss_next_rx : u64 }.

Definition Handshake_session (hs : SimHandshake) (serial : bytes) : SimSecureSession :=
  MkSimSecureSession (sh_session_key hs) (sh_session_id hs) serial 0 0.

(** The last six of the eight octets of the sequence. *)
Definition nonce_prefix (seq : u64) (serial tag : bytes) : bytes := drop 2 (be_bytes 8 seq) ++ serial ++ tag.

Definition SimSecureSession_seal (s : SimSecureSession) (inner : bytes) : bytes * SimSecureSession :=
  let total := as_u16 (Z.of_nat (6 + 16 + length inner + 16)) in
  let head := [6; 16] ++ be_bytes 2 SECURE_WRAPPER ++ be_bytes 2 total ++ be_bytes 2 (ss_session_id s) in
  let prefix := nonce_prefix (ss_next_tx s) (ss_serial s) [0; 0] in
  let block_0 := prefix ++ be_bytes 2 (as_u16 (zlen inner)) in
  let counter_0 := prefix ++ [255; 0] in
  let tag := sim_cbc_mac (ss_key s) head inner block_0 in
  let '(enc, mac) := encrypt_data_ctr (ss_key s) counter_0 tag inner in
  (head ++ prefix ++ enc ++ mac,
   MkSimSecureSession (ss_key s) (ss_session_id s) (ss_serial s) (ss_next_tx s + 1) (ss_next_rx s)).

Definition SimSecureSession_open (s : SimSecureSession) (wrapper : bytes) : result IpSecureRefusal bytes * SimSecureSession :=
  let n := length wrapper in
  if (n <? 44)%nat then (Err SimShort, s)
  else if negb (u16_of (nth 6 wrapper 0) (nth 7 wrapper 0) =? ss_session_id s) then (Err SimWrongSession, s)
  else
    let seq := be_val ([0; 0] ++ slice 8 14 wrapper) in
    if seq <? ss_next_rx s then (Err (SimReplay seq), s)
    else
      let prefix := slice 8 22 wrapper in
      let enc := slice 22 (n - 16) wrapper in
      let enc_mac := drop (n - 16) wrapper in
      let '(inner, tag_rx) := decrypt_data_ctr (ss_key s) (prefix ++ [255; 0]) enc_mac enc in
      let block_0 := prefix ++ be_bytes 2 (as_u16 (zlen inner)) in
      let tag := sim_cbc_mac (ss_key s) (take 8 wrapper) inner block_0 in
      if negb (ct_eq tag tag_rx) then (Err SimBadMac, s)
      else (Ok inner, MkSimSecureSession (ss_key s) (ss_session_id s) (ss_serial s) (ss_next_tx s) (seq + 1)).

(** The serial number the gateway puts into its wrappers ([on_session_frame]). *)
Definition GATEWAY_SERIAL : bytes := [0; 250; 94; 192; 0; 1].

(** What the gateway uses of it; the secret it draws is a parameter. *)
Definition sim_sessions `{X25519} (drawn : option bytes) : GatewaySessions := {|
  Handshake := SimHandshake;
  Session := SimSecureSession;
  hs_respond body sid key := match Handshake_respond drawn body sid key with Ok r => Some r | Err _ => None end;
  hs_session_id := sh_session_id;
  hs_session hs := Handshake_session hs GATEWAY_SERIAL;
  hs_authenticate hs frame users := match Handshake_authenticate hs frame users with Ok u => Some u | Err _ => None end;
  session_id := ss_session_id;
  session_seal s inner := SimSecureSession_seal s inner;
  session_open s wrapper :=
    let '(r, s) := SimSecureSession_open s wrapper in (match r with Ok inner => Some inner | Err _ => None end, s) |}.

End SimIpSecure.

(** ** The same cryptography on both sides *)

Section Agreement.
  Context `{C : SecureCiphers, L : !SecureCiphersLaws C}.

Lemma sim_cbc_last_eq n enc buf last : length buf = (n * 16)%nat -> length last = 16%nat ->
  sim_cbc_last n enc buf last = drop (n * 16) (last ++ cbc_enc_blocks n enc buf).
Proof.
  revert enc buf last. induction n as [|n IH]; intros enc buf last Hb Hl; cbn [sim_cbc_last cbc_enc_blocks].
  { by rewrite app_nil_r. }
  assert (Ht : length (take BLOCK buf) = 16%nat) by (unfold BLOCK; rewrite length_take; lia).
  pose proof (cbc_enc_block_len enc _ Ht) as Hc. destruct (cbc_enc_block enc (take BLOCK buf)) as [c enc']. cbn [fst] in Hc.
  rewrite IH by (unfold BLOCK; rewrite ?length_drop; lia).
  replace (S n * 16)%nat with (length last + n * 16)%nat by lia. by rewrite <- drop_drop, drop_app_length.
Qed.

(** Where the client's function answers, the simulator's gives the same. *)
Lemma sim_cbc_mac_eq key ad payload block_0 : length block_0 = BLOCK -> zlen ad < 65536 ->
  cbc_mac (Key16_new key) ad payload block_0 = Ok (sim_cbc_mac key ad payload block_0).
Proof.
  intros Hb Ha. unfold cbc_mac. rewrite bool_decide_true by done. cbn [negb]. pose proof Ha as Ha'. apply Z.ltb_lt in Ha' as ->.
  cbn [negb Key16_bytes]. f_equal. unfold sim_cbc_mac, cbc_mac_input. change sim_byte_pad with byte_pad.
  replace (as_u16 (zlen ad)) with (zlen ad) by (unfold as_u16; rewrite Z.mod_small; unfold zlen in *; lia).
  set (data := block_0 ++ _). destruct (length_byte_pad data) as (n & Hn & Hle). rewrite Hn.
  replace (n * 16 / BLOCK)%nat with n by (unfold BLOCK; rewrite Nat.div_mul; lia).
  rewrite (sim_cbc_last_eq n _ _ (replicate BLOCK 0)) by (done || by rewrite length_replicate).
  rewrite length_cbc_enc_blocks by done.
  assert (Hp : (1 <= n)%nat) by (unfold data in Hle; rewrite length_app, Hb in Hle; unfold BLOCK in Hle; lia).
  rewrite drop_app_ge by (rewrite length_replicate; unfold BLOCK; lia). by rewrite length_replicate.
Qed.

Lemma xor_keystream key ctr pos n buf : (pos + length buf <= n)%nat ->
  zip_with Z.lxor buf (slice pos (pos + length buf) (map (keystream key ctr) (seq 0 n))) = apply_keystream key ctr pos buf.
Proof.
  intros Hn. apply list_eq. intros i. unfold apply_keystream. rewrite lookup_zip_with, list_lookup_imap.
  destruct (buf !! i) as [b|] eqn:Eb; [|done]. cbn. apply lookup_lt_Some in Eb.
  unfold slice. rewrite lookup_take_lt by lia. rewrite lookup_drop. rewrite list_lookup_fmap.
  rewrite lookup_seq_lt by lia. done.
Qed.

Lemma encrypt_data_ctr_eq key counter_0 mac payload : length counter_0 = BLOCK -> (length mac <= BLOCK)%nat ->
  encrypt_ctr (Key16_new key) counter_0 mac payload = Ok (encrypt_data_ctr key counter_0 mac payload).
Proof.
  intros Hc Hm. rewrite encrypt_ctr_eq by done. cbn [Key16_bytes]. unfold encrypt_data_ctr, ctr_keystream, sim_bytes_xor.
  set (total := (length mac + length payload)%nat). set (n := ((total + (BLOCK - 1)) / BLOCK * BLOCK)%nat).
  assert (Hn : (total <= n)%nat).
  { unfold n, BLOCK. change (16 - 1)%nat with 15%nat.
    pose proof (Nat.div_mod_eq (total + 15) 16). pose proof (Nat.mod_upper_bound (total + 15) 16 ltac:(done)). lia. }
  f_equal. f_equal; [by rewrite xor_keystream by lia|].
  change (take (length mac) ?l) with (take (length mac) l). replace (take (length mac) (map (keystream key counter_0) (seq 0 n)))
    with (slice 0 (0 + length mac) (map (keystream key counter_0) (seq 0 n)))
    by (unfold slice; rewrite drop_0; f_equal; lia).
  by rewrite xor_keystream by lia.
Qed.

(** A session of the simulator as one of the client. *)
Definition session_view (s : SimSecureSession) : IpSecureSession :=
  MkIpSecureSession (Key16_new (ss_key s)) (ss_session_id s) (ss_serial s) (ss_next_tx s) (ss_next_rx s).

Lemma nonce_prefix_eq seq serial : nonce_prefix seq serial [0; 0] = security_prefix seq serial 0.
Proof. reflexivity. Qed.

(** Sealing is the same. *)
Lemma sim_seal_eq s inner : length (ss_serial s) = 6%nat -> ss_next_tx s <= IP_MAX_SEQUENCE -> zlen inner <= 65497 ->
  IpSecureSession_seal (session_view s) inner =
  (Ok (fst (SimSecureSession_seal s inner)), session_view (snd (SimSecureSession_seal s inner))).
Proof.
  intros Hs Ht Hl. unfold IpSecureSession_seal. cbn [tx_seq session_view]. apply Z.ltb_ge in Ht as ->.
  unfold ip_wrap. cbn [ip_key ip_session_id ip_serial tx_seq session_view rx_next].
  set (total := (WRAPPER_OVERHEAD + length inner)%nat).
  assert (Htot : Z.of_nat total < 65536) by (unfold total, WRAPPER_OVERHEAD, IP_HEADER_LEN, SECURITY_INFO_LEN, MAC_LEN, zlen in *; lia).
  pose proof Htot as Htot'. apply Z.ltb_lt in Htot' as ->. cbn [negb].
  unfold SimSecureSession_seal. change (6 + 16 + length inner + 16)%nat with (22 + length inner + 16)%nat.
  replace (as_u16 (Z.of_nat (22 + length inner + 16))) with (Z.of_nat total)
    by (unfold as_u16, total, WRAPPER_OVERHEAD, IP_HEADER_LEN, SECURITY_INFO_LEN, MAC_LEN, zlen in *; rewrite Z.mod_small; lia).
  rewrite nonce_prefix_eq. set (head := [6; 16] ++ _). set (prefix := security_prefix _ _ 0).
  assert (Hp : length prefix = 14%nat) by by apply length_security_prefix.
  replace (payload_len_u16 (length inner)) with (as_u16 (zlen inner))
    by (unfold payload_len_u16, as_u16, zlen in *; destruct (Z.ltb_spec (Z.of_nat (length inner)) 65536); [|lia]; by rewrite Z.mod_small by lia).
  assert (Hb : length (prefix ++ be_bytes 2 (as_u16 (zlen inner))) = BLOCK) by (rewrite length_app, Hp, length_be_bytes; done).
  rewrite (sim_cbc_mac_eq _ head) by (done || (unfold zlen, head; rewrite !length_app, !length_be_bytes; done)).
  cbn [map_err mbind result_bind]. set (tag := sim_cbc_mac _ _ _ _).
  assert (Htag : length tag = BLOCK).
  { destruct (cbc_mac_ok (Key16_new (ss_key s)) head inner _ Hb) as (mac & Em & Hm & _);
      [unfold zlen, head; rewrite !length_app, !length_be_bytes; done|].
    rewrite sim_cbc_mac_eq in Em by (done || (unfold zlen, head; rewrite !length_app, !length_be_bytes; done)).
    injection Em as <-. exact Hm. }
  rewrite encrypt_data_ctr_eq; [|by rewrite length_app, Hp|by rewrite Htag].
  destruct (encrypt_data_ctr _ _ tag inner) as [enc mac]. cbn. by rewrite <- !app_assoc.
Qed.

(** Opening an exact frame: both ends answer alike. *)
Definition same_answer (r : result IpSecureRefusal bytes * SimSecureSession) (c : result IpSecureError bytes * IpSecureSession) : Prop :=
  match r, c with
  | (Ok inner, s), (Ok inner', s') => inner' = inner /\ s' = session_view s
  | (Err _, s), (Err _, s') => s' = session_view s
  | _, _ => False
  end.

Lemma sim_open_layout s sid seq serial tag ep em : length (ss_serial s) = 6%nat ->
  is_u16 sid -> is_u48 seq -> length serial = 6%nat -> is_u16 tag -> length em = MAC_LEN ->
  (6 <= length ep)%nat -> zlen ep <= 65497 ->
  let w := wrapper_layout sid seq serial tag ep em in
  same_answer (SimSecureSession_open s w) (IpSecureSession_open (session_view s) w).
Proof.
  intros Hss Hsid Hseq Hser Htag Hem Hep Hepl w.
  pose proof (peek_wrapper_layout sid seq serial tag ep em [] Hsid Hseq Hser Htag Hem Hep Hepl) as Hpeek. rewrite app_nil_r in Hpeek.
  destruct (ip_unwrap_layout (Key16_new (ss_key s)) sid seq serial tag ep em [] Hsid Hseq Hser Htag Hem Hep Hepl) as (mac & Emac & Hmac & Eun).
  rewrite app_nil_r in Eun. fold w in Hpeek, Eun.
  set (prefix := security_prefix seq serial tag) in *.
  assert (Hp : length prefix = 14%nat) by by apply length_security_prefix.
  set (head := wrapper_header sid (length ep)).
  assert (Hh : length head = 8%nat) by (unfold head, wrapper_header; rewrite !length_app, !length_be_bytes; done).
  assert (Ew : w = head ++ prefix ++ ep ++ em) by reflexivity.
  assert (Hn : length w = (38 + length ep)%nat) by (rewrite Ew, !length_app, Hh, Hp, Hem; unfold MAC_LEN; lia).
  unfold SimSecureSession_open, IpSecureSession_open. rewrite Hpeek. cbn [wh_session_id wh_sequence session_view ip_session_id rx_next ip_key].
  rewrite Hn. destruct (Nat.ltb_spec (38 + length ep) 44) as [|_]; [lia|].
  assert (E67 : u16_of (nth 6 w 0) (nth 7 w 0) = sid).
  { rewrite Ew. unfold head, wrapper_header. rewrite (be_bytes_2 sid Hsid).
    rewrite (be_bytes_2 SECURE_WRAPPER), be_bytes_2 by (done || (unfold is_u16, WRAPPER_OVERHEAD, IP_HEADER_LEN, SECURITY_INFO_LEN, MAC_LEN, zlen in *; lia)).
    cbn [app nth]. by apply u16_of_div. }
  rewrite E67. destruct (negb (sid =? ss_session_id s)); [by split|].
  assert (Epre : slice 8 22 w = prefix).
  { unfold slice. rewrite Ew, drop_app_length' by done. rewrite take_app_length' by (rewrite Hp; done). done. }
  assert (Eseq : be_val ([0; 0] ++ slice 8 14 w) = seq).
  { assert (slice 8 14 w = be_bytes 6 seq) as ->.
    { unfold slice. rewrite Ew, drop_app_length' by done. unfold prefix, security_prefix.
      change (drop 2 (be_bytes 8 seq)) with (be_bytes 6 seq) || idtac.
      rewrite <- !app_assoc. apply take_app_length'. by rewrite ?length_be_bytes. }
    assert (Hq : be_val (be_bytes 6 seq) = seq) by (rewrite be_val_be_bytes; apply Z.mod_small; exact Hseq).
    rewrite <- Hq at 2. destruct (be_bytes 6 seq) as [|q0 [|q1 [|q2 [|q3 [|q4 [|q5 [|]]]]]]] eqn:Eb;
      try (apply (f_equal length) in Eb; by rewrite length_be_bytes in Eb). }
  rewrite Eseq. destruct (seq <? ss_next_rx s); [by split|].
  assert (Eenc : slice 22 (38 + length ep - 16) w = ep).
  { unfold slice. rewrite Ew, app_assoc, drop_app_length' by (rewrite length_app, Hh, Hp; done). apply take_app_length'. lia. }
  assert (Eem : drop (38 + length ep - 16) w = em).
  { rewrite Ew, app_assoc, app_assoc. apply drop_app_length'. rewrite !length_app, Hh, Hp. lia. }
  assert (E8 : take 8 w = head) by (rewrite Ew; by apply take_app_length').
  rewrite Epre, Eenc, Eem, E8. unfold decrypt_data_ctr.
  assert (Hc : length (prefix ++ [255; 0]) = BLOCK) by (rewrite length_app, Hp; done).
  pose proof (encrypt_data_ctr_eq (ss_key s) (prefix ++ [255; 0]) em ep Hc ltac:(rewrite Hem; done)) as Ectr.
  rewrite encrypt_ctr_eq in Ectr by (done || by rewrite Hem). apply Ok_inj in Ectr.
  destruct (encrypt_data_ctr (ss_key s) (prefix ++ [255; 0]) em ep) as [inner rx]. apply pair_equal_spec in Ectr as [Einner Erx].
  rewrite Eun. cbn [Key16_bytes] in *. rewrite Hem in Einner. rewrite Einner in *. rewrite Erx in *.
  assert (Hil : length inner = length ep) by (rewrite <- Einner; apply length_apply_keystream).
  assert (Hlen : as_u16 (zlen inner) = payload_len_u16 (length ep)).
  { unfold payload_len_u16, as_u16, zlen in *. rewrite Hil. destruct (Z.ltb_spec (Z.of_nat (length ep)) 65536); [|lia]. by rewrite Z.mod_small by lia. }
  rewrite Hlen. fold head in Emac.
  rewrite sim_cbc_mac_eq in Emac by ((rewrite length_app, Hp, length_be_bytes; done) || (unfold zlen; rewrite Hh; done)).
  apply Ok_inj in Emac. rewrite Emac. change (ct_eq mac rx) with (constant_time_eq mac rx).
  destruct (constant_time_eq mac rx); cbn [negb]; [|by split].
  split; [done|]. unfold session_view. cbn. f_equal. unfold u64_saturating_add, u64_max, is_u48 in *. lia.
Qed.

(** *** The handshake MACs *)

Lemma sim_handshake_mac_eq key ad : zlen ad < 65536 ->
  handshake_mac (Key16_new key) ad = Ok (snd (encrypt_data_ctr key HANDSHAKE_CTR (sim_cbc_mac key ad [] (replicate 16 0)) [])).
Proof.
  intros Ha. unfold handshake_mac. destruct (cbc_mac_ok (Key16_new key) ad [] (replicate BLOCK 0) eq_refl Ha) as (mac & Em & Hm & _).
  rewrite Em. rewrite sim_cbc_mac_eq in Em by done. apply Ok_inj in Em. change (replicate BLOCK 0) with (replicate 16 0) in Em. rewrite Em.
  cbn [map_err mbind result_bind]. change COUNTER_0_HANDSHAKE with HANDSHAKE_CTR.
  rewrite encrypt_data_ctr_eq by (done || by rewrite Hm). by destruct (encrypt_data_ctr _ _ _ _).
Qed.

Lemma response_mac_eq key sid c s : length c = PUBLIC_KEY_LEN -> length s = PUBLIC_KEY_LEN ->
  session_response_mac (Key16_new key) sid c s = Ok (response_mac key sid c s).
Proof.
  intros Hc Hs. unfold session_response_mac. rewrite sim_handshake_mac_eq; [reflexivity|].
  unfold zlen. rewrite !length_app, !length_be_bytes, length_xor_keys by done. done.
Qed.

Lemma sim_authenticate_mac_eq key uid c s : length c = PUBLIC_KEY_LEN -> length s = PUBLIC_KEY_LEN ->
  authenticate_mac (Key16_new key) uid c s = Ok (sim_authenticate_mac key uid c s).
Proof.
  intros Hc Hs. unfold authenticate_mac. rewrite sim_handshake_mac_eq; [reflexivity|].
  unfold zlen. rewrite !length_app, !length_be_bytes, length_xor_keys by done. done.
Qed.

(** *** Sessions in step *)

(** The client's session [c] and the gateway's [g] talk to each other: neither
    sequence is behind what the other expects, and neither is used up before [n] more
    frames of the client and [m] of the gateway. *)
Record in_step (n m : Z) (c : IpSecureSession) (g : SimSecureSession) : Prop := {
  is_key : ip_key c = Key16_new (ss_key g);
  is_id : ip_session_id c = ss_session_id g;
  is_id_word : is_u16 (ss_session_id g);
  is_client_serial : length (ip_serial c) = 6%nat;
  is_gateway_serial : length (ss_serial g) = 6%nat;
  is_client_tx : 0 <= ss_next_rx g <= tx_seq c /\ tx_seq c + n <= IP_MAX_SEQUENCE + 1;
  is_gateway_tx : 0 <= rx_next c <= ss_next_tx g /\ ss_next_tx g + m <= IP_MAX_SEQUENCE + 1 }.

Definition frame_size_ok (d : bytes) : Prop := (6 <= length d)%nat /\ zlen d <= 65497.

Lemma in_step_to_gateway n m c g payload : in_step (n + 1) m c g -> 0 <= n -> frame_size_ok payload ->
  exists w c' g' body, IpSecureSession_seal c payload = (Ok w, c') /\
    KnxnetIpFrame_decode w = Ok (MkKnxnetIpFrame SECURE_WRAPPER body) /\
    SimSecureSession_open g w = (Ok payload, g') /\
    in_step n m c' g'.
Proof.
  intros [Hk Hi Hw Hcs Hgs [Hrx Htx] [Hrx2 Htx2]] Hn [Hp6 Hpl].
  destruct (seal_open c (session_view g) payload) as (w & Ew & Ho); [done|done|by rewrite Hi|done|unfold IP_MAX_SEQUENCE in *; lia|cbn; lia|done|done|].
  specialize (Ho (session_view g) (eq_sym Hk) (eq_sym Hi)). cbn [rx_next session_view] in Ho.
  destruct (Z.ltb_spec (tx_seq c) (ss_next_rx g)) as [|_] in Ho; [lia|].
  assert (Hwrap : ip_wrap (ip_key c) (ip_session_id c) (tx_seq c) (ip_serial c) 0 payload = Ok w).
  { unfold IpSecureSession_seal in Ew. destruct (_ <? _); [done|]. destruct (ip_wrap _ _ _ _ _ _); [|done]. by simplify_eq. }
  apply ip_wrap_spec in Hwrap as (_ & mac & _ & Hmac & Elay); [|done].
  set (ep := apply_keystream _ _ MAC_LEN payload) in Elay. set (em := apply_keystream _ _ 0 mac) in Elay.
  assert (Hep : length ep = length payload) by apply length_apply_keystream.
  assert (Hem : length em = MAC_LEN) by (rewrite <- Hmac; apply length_apply_keystream).
  assert (Hepl : zlen ep <= 65497) by (unfold zlen in *; by rewrite Hep).
  pose proof (sim_open_layout g (ip_session_id c) (tx_seq c) (ip_serial c) 0 ep em Hgs) as Hsame.
  specialize (Hsame ltac:(by rewrite Hi) ltac:(unfold is_u48, IP_MAX_SEQUENCE in *; lia) Hcs ltac:(done) Hem ltac:(lia) Hepl).
  cbv zeta in Hsame. rewrite <- Elay, Ho in Hsame.
  destruct (SimSecureSession_open g w) as [[inner|e] g'] eqn:Eo; [|done]. destruct Hsame as [<- Eg].
  eexists w, _, g', _. split; [exact Ew|]. split; [|split; [done|]].
  - rewrite Elay, wrapper_layout_frame by done. rewrite <- (app_nil_r (knxip_frame _ _)). apply (sim_frame_decode_encode SECURE_WRAPPER); [done|].
    unfold zlen, wrapper_body in *. rewrite !length_app, !length_be_bytes, Hcs, Hem. unfold MAC_LEN. lia.
  - clear - Eg Hk Hi Hw Hcs Hgs Hrx Htx Hrx2 Htx2. rewrite Hk, Hi in Eg. destruct g', g. unfold session_view in Eg. cbn in *.
    injection Eg as -> -> -> -> E5. constructor; cbn; (done || congruence || lia).
Qed.

Lemma in_step_to_client n m c g answer : in_step n (m + 1) c g -> 0 <= m -> frame_size_ok answer ->
  exists w g' c', SimSecureSession_seal g answer = (w, g') /\ IpSecureSession_open c w = (Ok answer, c') /\ in_step n m c' g'.
Proof.
  intros [Hk Hi Hw Hcs Hgs [Hrx Htx] [Hrx2 Htx2]] Hn [Hp6 Hpl].
  pose proof (sim_seal_eq g answer Hgs ltac:(lia) Hpl) as Es.
  destruct (seal_open (session_view g) c answer) as (w & Ew & Ho); [done|done|done|done|cbn; lia|cbn; lia|done|done|].
  specialize (Ho c Hk Hi). cbn [tx_seq session_view ip_key ip_session_id] in Ho.
  destruct (Z.ltb_spec (ss_next_tx g) (rx_next c)) as [|_] in Ho; [lia|].
  rewrite Ew in Es. destruct (SimSecureSession_seal g answer) as [w' g'] eqn:Eseal. cbn [fst snd] in Es. injection Es as <- _ _ _ _ _.
  eexists w, g', _. split; [done|]. split; [exact Ho|].
  unfold SimSecureSession_seal in Eseal. destruct (encrypt_data_ctr _ _ _ answer). injection Eseal as _ <-.
  constructor; cbn; (done || congruence || lia).
Qed.

End Agreement.

(** ** A client and the gateway *)

Section EndToEnd.
  Context `{C : SecureCiphers, L : !SecureCiphersLaws C, X : X25519, XL : !X25519Laws X}.
  Context (server_secret : bytes).

#[local] Instance gateway_sessions : GatewaySessions := sim_sessions (Some server_secret).

  Context (gateway : SecureGateway).

(** One frame of the TCP connection, decoded as [on_session_frame] does. *)
Definition gateway_step (now : Z) (fresh_id : option u16) (state : SessionState) (frame : bytes)
    : SessionState * SessionReaction :=
  match KnxnetIpFrame_decode frame with
  | Ok parsed => session_step now gateway fresh_id state (kf_service parsed) (kf_body parsed) frame
  | Err _ => (state, Ignored)
  end.

(** What the gateway serves of the payloads a client seals, and what the client
    opens of the answers the gateway seals, in turn. *)
Fixpoint talk (now : Z) (exchanges : list (bytes * bytes)) (c : IpSecureSession) (state : SessionState)
    : option (list (bytes * bytes)) :=
  match exchanges with
  | [] => Some []
  | (payload, answer) :: exchanges =>
      match IpSecureSession_seal c payload with
      | (Err _, _) => None
      | (Ok w, c) =>
          match gateway_step now None state w with
          | (SessEstablished session user ia last, Served inner) =>
              let '(w, session) := session_seal session answer in
              match IpSecureSession_open c w with
              | (Ok opened, c) =>
                  match talk (now + 1) exchanges c (SessEstablished session user ia last) with
                  | Some rest => Some ((inner, opened) :: rest)
                  | None => None
                  end
              | (Err _, _) => None
              end
          | _ => None
          end
      end
  end.

(** Not a service of the session itself. *)
Definition application_frame (d : bytes) : Prop :=
  frame_size_ok d /\ inner_service d <> Some SVC_SESSION_AUTHENTICATE /\ inner_service d <> Some SVC_SESSION_STATUS.

Lemma talk_in_step exchanges : forall now c (session : Session) user ia last,
  Forall (fun '(payload, answer) => application_frame payload /\ frame_size_ok answer) exchanges ->
  in_step (Z.of_nat (length exchanges)) (Z.of_nat (length exchanges)) c session ->
  talk now exchanges c (SessEstablished session user ia last) = Some exchanges.
Proof.
  induction exchanges as [|[payload answer] exchanges IH]; intros now c session user ia last Hf Hs; cbn [talk]; [done|].
  apply Forall_cons in Hf as [[(Hp & Ha & Hst) Hans] Hf].
  set (n := Z.of_nat (length exchanges)) in *. assert (Hn : 0 <= n) by lia.
  assert (Hs' : in_step (n + 1) (n + 1) c session) by (replace (n + 1) with (Z.of_nat (S (length exchanges))) by lia; exact Hs).
  destruct (in_step_to_gateway _ _ c session payload Hs' Hn Hp) as (w & c1 & g1 & body & Ew & Ed & Eo & H1).
  rewrite Ew. unfold gateway_step. rewrite Ed. cbn [kf_service kf_body session_step].
  change (SECURE_WRAPPER =? SVC_SECURE_WRAPPER) with true. cbv iota. unfold in_established. cbn [session_open gateway_sessions sim_sessions].
  rewrite Eo. rewrite !bool_decide_false by done. cbn [session_seal gateway_sessions sim_sessions].
  destruct (in_step_to_client n n c1 g1 answer H1 Hn Hans) as (w2 & g2 & c2 & Es & Eo2 & H2).
  rewrite Es, Eo2. by rewrite IH.
Qed.

(** The handshake of the gateway, for the client's public key. *)
Definition gateway_handshake (sid : u16) (client_public : bytes) : SimHandshake :=
  MkSimHandshake sid client_public (x25519_public server_secret) (take 16 (sha256_digest (x25519_shared server_secret client_public))).

Lemma gateway_responds now sid cpub : is_u16 sid -> length cpub = PUBLIC_KEY_LEN ->
  let hs := gateway_handshake sid cpub in
  let spub := x25519_public server_secret in
  let mac := response_mac (sg_device_key gateway) sid cpub spub in
  gateway_step now (Some sid) SessPlain (session_request ROUTE_BACK_HPAI cpub) =
  (SessAuthenticating (hs : Handshake) (Handshake_session hs GATEWAY_SERIAL : Session) now,
   Replied (knxip_frame SESSION_RESPONSE (be_bytes 2 sid ++ spub ++ mac)) true).
Proof.
  intros Hs Hc hs spub mac. unfold gateway_step, session_request.
  assert (Hl : length (ROUTE_BACK_HPAI ++ cpub) = 40%nat) by (rewrite length_app, Hc; done).
  assert (Ed : KnxnetIpFrame_decode (knxip_frame SESSION_REQUEST (ROUTE_BACK_HPAI ++ cpub)) =
    Ok (MkKnxnetIpFrame SESSION_REQUEST (ROUTE_BACK_HPAI ++ cpub))).
  { rewrite <- (app_nil_r (knxip_frame _ _)). apply (sim_frame_decode_encode SESSION_REQUEST); [done|]. unfold zlen. by rewrite Hl. }
  rewrite Ed. cbn [kf_service kf_body session_step]. change (SESSION_REQUEST =? SVC_SESSION_REQUEST) with true. cbv iota.
  assert (Hf : length (knxip_frame SESSION_REQUEST (ROUTE_BACK_HPAI ++ cpub)) = GW_SESSION_REQUEST_LEN)
    by (unfold knxip_frame; rewrite !length_app, !length_be_bytes, Hc; done).
  rewrite Hf. change (GW_SESSION_REQUEST_LEN =? GW_SESSION_REQUEST_LEN)%nat with true.
  rewrite take_app_length' by done. rewrite bool_decide_true by done. cbn [negb orb].
  cbn [hs_respond gateway_sessions sim_sessions default]. unfold Handshake_respond. rewrite Hl. cbn [Nat.ltb Nat.leb].
  assert (Ek : slice 8 40 (ROUTE_BACK_HPAI ++ cpub) = cpub).
  { unfold slice. rewrite drop_app_length' by done. apply firstn_all2. rewrite Hc. done. }
  rewrite Ek. reflexivity.
Qed.

Lemma find_user_known users hs uid key mac : (uid, key) ∈ users ->
  mac = sim_authenticate_mac key uid (sh_client_public hs) (sh_server_public hs) -> find_user users hs uid mac = Some uid.
Proof.
  intros Hu Hm. induction users as [|[id k] users IH]; [by apply elem_of_nil in Hu|]. cbn [find_user].
  destruct (Z.eqb_spec id uid) as [->|Hne]; cbn [andb].
  - destruct (ct_eq _ mac) eqn:Ec; [done|]. apply elem_of_cons in Hu as [[= <-]|Hu]; [|by apply IH].
    rewrite <- Hm in Ec. change (constant_time_eq mac mac = false) in Ec. by rewrite constant_time_eq_refl in Ec.
  - apply IH. apply elem_of_cons in Hu as [[= -> ->]|Hu]; done.
Qed.

(** C27: the client's session code and the simulator's gateway, written
    independently, establish a session: the gateway answers the client's request
    with a response the client accepts under the device's authentication code;
    for any user of the gateway whose password key the client has, the wrapped
    authentication puts the connection into that user's session, under the user's
    tunnel address, with a success status the client opens; from then on the
    gateway serves every frame the client seals, exactly as it was, and the client
    opens every answer, until the 48-bit sequence is used up. *)
Theorem client_and_gateway_establish_session (client_secret cserial key : bytes) (sid : u16) (uid : u8)
    (t0 t1 t2 : Z) (exchanges : list (bytes * bytes)) :
  is_u16 sid -> length cserial = 6%nat -> (uid, key) ∈ session_users gateway ->
  Forall (fun '(payload, answer) => application_frame payload /\ frame_size_ok answer) exchanges ->
  Z.of_nat (length exchanges) <= IP_MAX_SEQUENCE ->
  let cpub := x25519_public client_secret in
  exists hs session0 response r auth w c1 session w2 c2,
    gateway_step t0 (Some sid) SessPlain (session_request ROUTE_BACK_HPAI cpub)
      = (SessAuthenticating hs session0 t0, Replied response true) /\
    parse_session_response response = Ok r /\
    verify_session_response r (Key16_new (sg_device_key gateway)) cpub = Ok tt /\
    session_authenticate (Key16_new key) uid cpub (sp_server_public r) = Ok auth /\
    IpSecureSession_seal
      (IpSecureSession_new (X25519KeyPair_session_key client_secret (sp_server_public r)) (sp_session_id r) cserial) auth
      = (Ok w, c1) /\
    gateway_step t1 None (SessAuthenticating hs session0 t0) w
      = (SessEstablished session uid (default 0 (user_tunnel gateway uid)) t1, Replied w2 true) /\
    IpSecureSession_open c1 w2 = (Ok (session_status Success), c2) /\
    talk t2 exchanges c2 (SessEstablished session uid (default 0 (user_tunnel gateway uid)) t1) = Some exchanges.
Proof.
  intros Hsid Hcs Hu Hf Hn cpub. set (spub := x25519_public server_secret).
  assert (Hcp : length cpub = PUBLIC_KEY_LEN) by apply x25519_public_len.
  assert (Hsp : length spub = PUBLIC_KEY_LEN) by apply x25519_public_len.
  set (hs := gateway_handshake sid cpub). set (mac := response_mac (sg_device_key gateway) sid cpub spub).
  assert (Hmac : length mac = MAC_LEN).
  { destruct (session_response_mac_ok (Key16_new (sg_device_key gateway)) sid cpub spub Hcp Hsp) as (m & Em & Hm & _).
    rewrite response_mac_eq in Em by done. apply Ok_inj in Em as <-. exact Hm. }
  set (r := MkSessionResponse sid spub mac). set (amac := sim_authenticate_mac key uid cpub spub).
  assert (Hamac : length amac = MAC_LEN).
  { destruct (authenticate_mac_ok (Key16_new key) uid cpub spub Hcp Hsp) as (m & Em & Hm & _).
    rewrite sim_authenticate_mac_eq in Em by done. apply Ok_inj in Em as <-. exact Hm. }
  set (auth := knxip_frame SESSION_AUTHENTICATE ([0; uid] ++ amac)).
  assert (Hal : length auth = 24%nat) by (unfold auth, knxip_frame; rewrite !length_app, !length_be_bytes, Hamac; done).
  set (c0 := IpSecureSession_new (X25519KeyPair_session_key client_secret spub) sid cserial).
  set (n := Z.of_nat (length exchanges)) in *.
  assert (H0 : in_step (n + 1) (n + 1) c0 (Handshake_session hs GATEWAY_SERIAL)).
  { constructor; cbn; try done; try (unfold IP_MAX_SEQUENCE in *; lia).
    unfold X25519KeyPair_session_key, session_key_from_shared, cpub, spub. by rewrite x25519_agree. }
  destruct (in_step_to_gateway n _ c0 _ auth H0 ltac:(lia)) as (w & c1 & g1 & body & Ew & Ed & Eo & H1);
    [split; [lia|unfold zlen; by rewrite Hal]|].
  destruct (in_step_to_client n n c1 g1 (gw_session_status STATUS_SUCCESS) H1 ltac:(lia)) as (w2 & g2 & c2 & Es & Eo2 & H2); [split; [vm_compute; lia|by vm_compute]|].
  exists hs, (Handshake_session hs GATEWAY_SERIAL), (knxip_frame SESSION_RESPONSE (be_bytes 2 sid ++ spub ++ mac)), r, auth, w, c1, g2, w2, c2.
  split; [by apply gateway_responds|]. split; [by apply parse_session_response_build|].
  split; [apply verify_session_response_iff; [done|done|by apply response_mac_eq]|].
  split; [unfold session_authenticate; rewrite sim_authenticate_mac_eq by done; reflexivity|].
  split; [exact Ew|]. split; [|split; [exact Eo2|by apply talk_in_step]].
  unfold gateway_step. rewrite Ed. cbn [kf_service kf_body session_step]. change (SECURE_WRAPPER =? SVC_SECURE_WRAPPER) with true. cbv iota.
  unfold in_authenticating. cbn [session_open session_seal hs_authenticate gateway_sessions sim_sessions]. rewrite Eo.
  assert (Elay : exists t1' t2' rest, auth = 6 :: 16 :: 9 :: 83 :: t1' :: t2' :: 0 :: uid :: rest /\ rest = amac) by (by do 3 eexists).
  destruct Elay as (t1' & t2' & rest & Ea & Er). assert (Esvc : inner_service auth = Some SVC_SESSION_AUTHENTICATE) by by rewrite Ea.
  rewrite Esvc, bool_decide_true, Hal by done. assert (E6 : auth !! 6%nat = Some 0) by by rewrite Ea. rewrite E6, bool_decide_true by done.
  change (24 =? GW_SESSION_AUTHENTICATE_LEN)%nat with true. cbn [negb orb].
  unfold Handshake_authenticate. rewrite Hal. change (24 <? 24)%nat with false.
  assert (En : u16_of (nth 2 auth 0) (nth 3 auth 0) = SESSION_AUTHENTICATE /\ nth 7 auth 0 = uid) by (rewrite Ea; by split).
  destruct En as [-> ->]. rewrite Z.eqb_refl. cbn [negb orb].
  rewrite (find_user_known _ hs uid key) by (done || (rewrite Ea, Er; unfold slice; cbn [drop Nat.sub]; rewrite drop_0, firstn_all2 by (rewrite Hamac; done); done)).
  by rewrite Es.
Qed.

End EndToEnd.

(** ** A concrete session *)

Definition demo_secret : bytes := replicate 32 5.

Definition demo_secure_gateway : @SecureGateway (@gateway_sessions demo_ciphers demo_x25519 demo_secret) :=
  @MkSecureGateway (@gateway_sessions demo_ciphers demo_x25519 demo_secret) 4096 (replicate 16 9) true
    [(2, replicate 16 7, 4097)] (Some (replicate 16 8)) 0 [] SESSION_TIMEOUT AUTHENTICATION_TIMEOUT 1.

Definition demo_exchanges : list (bytes * bytes) :=
  [(KnxnetIpFrame_encode service.CONNECTIONSTATE_REQUEST [64; 0], KnxnetIpFrame_encode service.CONNECTIONSTATE_RESPONSE [64; 0]);
   (KnxnetIpFrame_encode service.DISCONNECT_REQUEST [64; 0], KnxnetIpFrame_encode service.DISCONNECT_RESPONSE [64; 0])].

(** The management user, who has no tunnel address. *)
Lemma client_and_gateway_establish_session_witness :
  exists (session : SimSecureSession) c,
    @talk demo_ciphers demo_x25519 demo_secret demo_secure_gateway 30 demo_exchanges c
      (@SessEstablished (@gateway_sessions demo_ciphers demo_x25519 demo_secret) session 1 0 20) = Some demo_exchanges.
Proof.
  destruct (@client_and_gateway_establish_session demo_ciphers _ demo_x25519 _ demo_secret demo_secure_gateway
    (replicate 32 3) [0; 250; 1; 2; 3; 4] (replicate 16 8) 7 1 10 20 30 demo_exchanges)
    as (hs & s0 & response & r & auth & w & c1 & session & w2 & c2 & _ & _ & _ & _ & _ & _ & _ & H);
    [done|done|apply (bool_decide_eq_true_1 _); reflexivity| |done|exists session, c2; exact H].
  repeat constructor; try (vm_compute; lia); try (vm_compute; discriminate).
Defined.
