(* ===== verification/SimMemory.v ===== *)
(** * The simulator's device memory ([knx-sim/src/device/memory.rs])

    Sparse cells and the allocated segments that bound every write: allocation,
    release and erasure per owner, the search for a free base, and the reads; and the
    errors of the device ([mod.rs], [secure/mod.rs]). *)

From S2P Require Import Prelude.

Local Open Scope string_scope.
Local Open Scope list_scope.
Local Open Scope Z_scope.

(** ** Data *)

Record Segment : Type := MkSegment {
  seg_owner : u8;
  seg_base : u32;
  seg_len : u32 }.

#[export] Instance Segment_eq_dec : EqDecision Segment.
Proof. solve_decision. Defined.

Definition seg_end (s : Segment) : Z := seg_base s + seg_len s.

Definition Segment_contains (s : Segment) (addr : u32) (len : Z) : bool :=
  (seg_base s <=? addr) && (addr + len <=? seg_end s).

Definition Segment_overlaps (s other : Segment) : bool :=
  (seg_base s <? seg_end other) && (seg_base other <? seg_end s).

Inductive MemoryError : Type :=
| OutOfSegment (addr : u32) (len : Z)
| WrongOwner (addr : u32) (found expected : u8).

Record Memory : Type := MkMemory {
  cells : gmap Z u8;
  segments : list Segment }.

Definition Memory_new : Memory := MkMemory ∅ [].

(** ** Allocation *)

Definition owned (owner : u8) (s : Segment) : bool := seg_owner s =? owner.

Definition Memory_allocate (m : Memory) (owner : u8) (base len : u32) : Memory :=
  MkMemory (cells m)
    (List.filter (fun s => negb (owned owner s)) (segments m) ++ [MkSegment owner base len]).

Definition Memory_allocate_additional (m : Memory) (owner : u8) (base len : u32) : Memory :=
  let new := MkSegment owner base len in
  MkMemory (cells m)
    (List.filter (fun s => negb (owned owner s) || negb (Segment_overlaps s new)) (segments m)
     ++ [new]).

Definition Memory_overlaps_other (m : Memory) (owner : u8) (base len : u32) : bool :=
  let new := MkSegment owner base len in
  existsb (fun s => negb (owned owner s) && Segment_overlaps s new) (segments m).

(** [Iterator::max] of non-negative numbers. *)
Fixpoint maximum (l : list Z) : option Z :=
  match l with
  | [] => None
  | x :: r => Some (match maximum r with Some y => Z.max x y | None => x end)
  end.

(** [x.saturating_add(0xFFF) & !0xFFF]. *)
Definition page_up (x : u32) : u32 := Z.land (u32_saturating_add x 4095) 4294963200.

(** The ends of the segments of others a candidate place collides with. *)
Definition conflict_ends (m : Memory) (owner : u8) (base len : u32) : list u32 :=
  map (fun s => u32_saturating_add (seg_base s) (seg_len s))
    (List.filter (fun s => negb (owned owner s) && Segment_overlaps s (MkSegment owner base len))
       (segments m)).

(** The [while let] loop; [None] when the fuel runs out. *)
Fixpoint Memory_free_base (fuel : nat) (m : Memory) (owner : u8) (from len : u32) : option u32 :=
  match fuel with
  | O => None
  | S fuel' =>
      match maximum (conflict_ends m owner from len) with
      | Some e => Memory_free_base fuel' m owner (page_up e) len
      | None => Some from
      end
  end.

Definition Memory_owner_covers (m : Memory) (owner : u8) (addr : u32) : bool :=
  existsb (fun s => owned owner s && Segment_contains s addr 1) (segments m).

Definition Memory_segment_of (m : Memory) (owner : u8) : option Segment :=
  List.find (owned owner) (segments m).

Definition Memory_segment_at (m : Memory) (addr : u32) : option Segment :=
  List.find (fun s => Segment_contains s addr 1) (segments m).

Definition Memory_release_owner (m : Memory) (owner : u8) : Memory :=
  MkMemory (cells m) (List.filter (fun s => negb (owned owner s)) (segments m)).

Definition Memory_erase_owner (m : Memory) (owner : u8) : Memory :=
  match Memory_segment_of m owner with
  | None => m
  | Some seg =>
      MkMemory (filter (fun kv => kv.1 < seg_base seg \/ seg_end seg <= kv.1) (cells m))
        (List.filter (fun s => negb (owned owner s)) (segments m))
  end.

(** [for addr in base .. base.saturating_add(len)]. *)
Definition Memory_fill_owner (m : Memory) (owner : u8) (byte : u8) : Memory :=
  match Memory_segment_of m owner with
  | None => m
  | Some seg =>
      let upto := u32_saturating_add (seg_base seg) (seg_len seg) in
      MkMemory
        (foldl (fun c addr => if byte =? 0 then delete addr c else <[addr := byte]> c)
           (cells m) (seqZ (seg_base seg) (upto - seg_base seg)))
        (segments m)
  end.

(** ** Access *)

(** The cells [addr.wrapping_add(i)] for the octets from the [i]th on. *)
Fixpoint write_cells (c : gmap Z u8) (addr : u32) (i : Z) (data : bytes) : gmap Z u8 :=
  match data with
  | [] => c
  | b :: r => write_cells (<[as_u32 (addr + i) := b]> c) addr (i + 1) r
  end.

Definition Memory_write (m : Memory) (expected_owner : u8) (addr : u32) (data : bytes)
    : result MemoryError Memory :=
  match List.find (fun s => Segment_contains s addr (zlen data)) (segments m) with
  | None => Err (OutOfSegment addr (zlen data))
  | Some seg =>
      if negb (seg_owner seg =? expected_owner)
      then Err (WrongOwner addr (seg_owner seg) expected_owner)
      else Ok (MkMemory (write_cells (cells m) addr 0 data) (segments m))
  end.

Definition Memory_seed (m : Memory) (addr : u32) (data : bytes) : Memory :=
  MkMemory (write_cells (cells m) addr 0 data) (segments m).

Definition read_cell (m : Memory) (a : u32) : u8 := default 0 (cells m !! a).

Definition Memory_read (m : Memory) (addr : u32) (len : Z) : bytes :=
  map (fun i => read_cell m (as_u32 (addr + i))) (seqZ 0 len).

Definition Memory_read_bounded (m : Memory) (addr : u32) (len : Z) : option bytes :=
  match List.find (fun s => Segment_contains s addr len) (segments m) with
  | Some _ => Some (Memory_read m addr len)
  | None => None
  end.

Definition Memory_written_len (m : Memory) : nat := size (cells m).

Definition Memory_written_span (m : Memory) (owner : u8) : option bytes :=
  match Memory_segment_of m owner with
  | None => None
  | Some seg =>
      match maximum (List.filter (fun a => (seg_base seg <=? a) && (a <? seg_end seg))
                       (map fst (map_to_list (cells m)))) with
      | None => Some []
      | Some high => Some (Memory_read m (seg_base seg) (high - seg_base seg + 1))
      end
  end.

(** Segments within the 32-bit address space. *)
Definition Segment_ok (s : Segment) : Prop :=
  is_u8 (seg_owner s) /\ 0 <= seg_base s /\ 0 <= seg_len s /\ seg_end s <= 4294967296.
Definition Memory_ok (m : Memory) : Prop := Forall Segment_ok (segments m).


(** ** Lemmas *)

Lemma write_cells_lookup data : forall c addr i k,
  0 <= addr + i -> addr + i + zlen data <= 4294967296 ->
  write_cells c addr i data !! k =
    if decide (addr + i <= k < addr + i + zlen data)
    then data !! Z.to_nat (k - (addr + i)) else c !! k.
Proof.
  unfold zlen. induction data as [|b r IH]; intros c addr i k Hlo Hhi; cbn [write_cells length].
  - rewrite decide_False by lia. done.
  - cbn [length] in Hhi. rewrite IH by lia. rewrite Nat2Z.inj_succ.
    assert (Hw : as_u32 (addr + i) = addr + i) by (apply Z.mod_small; lia). rewrite Hw.
    destruct (decide (k = addr + i)) as [->|Hne].
    + rewrite decide_False, lookup_insert_eq, decide_True by lia. by rewrite Z.sub_diag.
    + rewrite lookup_insert_ne by done.
      destruct (decide (addr + (i + 1) <= k < addr + (i + 1) + Z.of_nat (length r))).
      * rewrite decide_True by lia.
        replace (Z.to_nat (k - (addr + i))) with (S (Z.to_nat (k - (addr + (i + 1))))) by lia. done.
      * by rewrite decide_False by lia.
Qed.

Lemma length_Memory_read m addr len : 0 <= len -> zlen (Memory_read m addr len) = len.
Proof. intros H. unfold zlen, Memory_read. rewrite length_map, length_seqZ. lia. Qed.

Lemma lookup_Memory_read m addr len i : 0 <= i < len -> 0 <= addr -> addr + len <= 4294967296 ->
  Memory_read m addr len !! Z.to_nat i = Some (read_cell m (addr + i)).
Proof.
  intros Hi Ha Hl. unfold Memory_read. rewrite list_lookup_fmap, lookup_seqZ_lt by lia. simpl.
  rewrite Z2Nat.id by lia. unfold as_u32. by rewrite Z.mod_small by lia.
Qed.

Lemma Memory_read_app m at_ n k : 0 <= n -> 0 <= k ->
  Memory_read m at_ n ++ Memory_read m (at_ + n) k = Memory_read m at_ (n + k).
Proof.
  intros Hn Hk. unfold Memory_read. rewrite seqZ_app, map_app by done. f_equal.
  replace (0 + n) with (n + 0) by lia. rewrite <- fmap_add_seqZ.
  change (Z.add n <$> seqZ 0 k) with (map (Z.add n) (seqZ 0 k)). rewrite map_map.
  apply map_ext. intros i. f_equal. f_equal. lia.
Qed.

(** Two reads agree when the cells do. *)
Lemma Memory_read_ext m m' addr len : 0 <= addr -> addr + len <= 4294967296 ->
  (forall k, addr <= k < addr + len -> read_cell m k = read_cell m' k) ->
  Memory_read m addr len = Memory_read m' addr len.
Proof.
  intros Ha Hl Hk. unfold Memory_read. apply map_ext_in. intros i Hi.
  apply list_elem_of_In, elem_of_seqZ in Hi. unfold as_u32. rewrite Z.mod_small by lia. apply Hk. lia.
Qed.

(** A write, read back. *)
Lemma Memory_read_written m addr data segs : 0 <= addr -> addr + zlen data <= 4294967296 ->
  Memory_read (MkMemory (write_cells (cells m) addr 0 data) segs) addr (zlen data) = data.
Proof.
  intros Ha Hl. apply list_eq. intros n.
  destruct (decide (n < length data)%nat) as [Hn|Hn].
  - replace n with (Z.to_nat (Z.of_nat n)) by lia.
    rewrite lookup_Memory_read by (unfold zlen in *; lia). unfold read_cell. cbn [cells].
    rewrite write_cells_lookup, decide_True by (unfold zlen in *; lia).
    replace (Z.to_nat (addr + Z.of_nat n - (addr + 0))) with n by lia. rewrite Nat2Z.id.
    destruct (lookup_lt_is_Some_2 data n Hn) as [b ->]. done.
  - rewrite !lookup_ge_None_2; [done|lia|].
    pose proof (length_Memory_read (MkMemory (write_cells (cells m) addr 0 data) segs) addr (zlen data)).
    unfold zlen in *. lia.
Qed.

Lemma contains_bounds s addr len : Segment_contains s addr len = true ->
  seg_base s <= addr /\ addr + len <= seg_end s.
Proof. intros [H1 H2]%andb_true_iff. lia. Qed.

Lemma contains_in_space m s addr len : Memory_ok m -> In s (segments m) ->
  Segment_contains s addr len = true -> 0 <= addr /\ addr + len <= 4294967296.
Proof.
  intros Hm Hin Hc. apply contains_bounds in Hc.
  unfold Memory_ok in Hm. rewrite List.Forall_forall in Hm. destruct (Hm s Hin) as (_ & ? & ? & ?). lia.
Qed.

Lemma overlaps_bounds s t : Segment_overlaps s t = true <->
  seg_base s < seg_end t /\ seg_base t < seg_end s.
Proof. unfold Segment_overlaps. rewrite andb_true_iff, !Z.ltb_lt. done. Qed.

Lemma maximum_spec l : match maximum l with
  | None => l = []
  | Some y => In y l /\ (forall x, In x l -> x <= y)
  end.
Proof.
  induction l as [|x l IH]; [done|]. cbn [maximum]. destruct (maximum l) as [y|].
  - destruct IH as [Hin Hmax]. split.
    + destruct (Z.max_spec x y) as [[_ ->]|[_ ->]]; [by right|by left].
    + intros z [<-|Hz]; [lia|]. specialize (Hmax z Hz). lia.
  - subst l. split; [by left|]. intros z [<-|[]]. lia.
Qed.

Lemma land_page x : 0 <= x < 4294967296 -> Z.land x 4294963200 = x / 4096 * 4096.
Proof.
  intros Hx. change 4294963200 with (Z.ldiff (Z.ones 32) (Z.ones 12)).
  rewrite Z.ldiff_land, Z.land_assoc, Z.land_ones, Z.mod_small by (lia || exact Hx).
  rewrite <- Z.ldiff_land, Z.ldiff_ones_r, Z.shiftl_mul_pow2, Z.shiftr_div_pow2 by lia. done.
Qed.

(** Rounding up to a page, where it does not saturate, and where it does. *)
Lemma page_up_spec x : 0 <= x <= 4294963200 ->
  x <= page_up x < x + 4096 /\ page_up x mod 4096 = 0.
Proof.
  intros Hx. unfold page_up, u32_saturating_add, u32_max.
  rewrite Z.min_l, land_page by lia. split; zdiv.
Qed.

Lemma page_up_saturated x : 4294963200 < x -> page_up x = 4294963200.
Proof.
  intros Hx. unfold page_up, u32_saturating_add, u32_max. by rewrite Z.min_r by lia.
Qed.

Lemma conflict_ends_in m owner base len e :
  In e (conflict_ends m owner base len) <->
  exists s, In s (segments m) /\ owned owner s = false /\
    Segment_overlaps s (MkSegment owner base len) = true /\
    e = u32_saturating_add (seg_base s) (seg_len s).
Proof.
  unfold conflict_ends. rewrite in_map_iff. split.
  - intros (s & <- & Hin). apply filter_In in Hin as [Hin Hp].
    apply andb_true_iff in Hp as [Ho Hv]. apply negb_true_iff in Ho. by exists s.
  - intros (s & Hin & Ho & Hv & ->). exists s. split; [done|]. apply filter_In. split; [done|].
    by rewrite Ho, Hv.
Qed.

Lemma overlaps_other_in m owner base len :
  Memory_overlaps_other m owner base len = true <->
  exists s, In s (segments m) /\ owned owner s = false /\
    Segment_overlaps s (MkSegment owner base len) = true.
Proof.
  unfold Memory_overlaps_other. rewrite existsb_exists. split.
  - intros (s & Hin & Hp). apply andb_true_iff in Hp as [Ho Hv]. apply negb_true_iff in Ho. by exists s.
  - intros (s & Hin & Ho & Hv). exists s. split; [done|]. by rewrite Ho, Hv.
Qed.

Lemma no_conflict m owner base len : conflict_ends m owner base len = [] <->
  Memory_overlaps_other m owner base len = false.
Proof.
  split; intros H.
  - apply not_true_iff_false. intros (s & Hin & Ho & Hv)%overlaps_other_in.
    assert (Hc : In (u32_saturating_add (seg_base s) (seg_len s)) (conflict_ends m owner base len))
      by (apply conflict_ends_in; by exists s). by rewrite H in Hc.
  - destruct (conflict_ends m owner base len) as [|e r] eqn:E; [done|]. exfalso.
    assert (Hc : In e (conflict_ends m owner base len)) by (rewrite E; by left).
    apply conflict_ends_in in Hc as (s & Hin & Ho & Hv & _).
    assert (Ht : Memory_overlaps_other m owner base len = true)
      by (apply overlaps_other_in; by exists s). congruence.
Qed.

(** Segments the search can pass: they end below the last page. *)
Definition Memory_passable (m : Memory) : Prop :=
  Forall (fun s => 0 <= seg_base s /\ 0 <= seg_len s /\ seg_end s <= 4294963200) (segments m).

Lemma saturating_end s : 4294963200 < seg_end s ->
  4294963200 < u32_saturating_add (seg_base s) (seg_len s).
Proof. intros H. unfold u32_saturating_add, u32_max. apply Z.min_glb_lt; [exact H|lia]. Qed.

(** The conflict that ends last. *)
Lemma conflict_max m owner base len e :
  Memory_passable m -> maximum (conflict_ends m owner base len) = Some e ->
  exists s, In s (segments m) /\ owned owner s = false /\ seg_end s = e /\
    0 <= e <= 4294963200 /\ seg_base s < base + len /\ base < e.
Proof.
  intros Hm He. pose proof (maximum_spec (conflict_ends m owner base len)) as Hmax.
  rewrite He in Hmax. destruct Hmax as [Hin _].
  apply conflict_ends_in in Hin as (s & Hs & Ho & Hv & Ee).
  unfold Memory_passable in Hm. rewrite List.Forall_forall in Hm. destruct (Hm s Hs) as (H1 & H2 & H3).
  apply overlaps_bounds in Hv as [Hv1 Hv2]. cbn [seg_base] in Hv2.
  assert (He' : e = seg_end s).
  { rewrite Ee. unfold u32_saturating_add, u32_max. apply Z.min_l. unfold seg_end in H3 |- *. lia. }
  exists s. rewrite He'. split; [done|]. split; [done|]. split; [done|].
  split; [unfold seg_end in *; lia|]. split; [exact Hv1|exact Hv2].
Qed.

(** One turn of the search: past the conflict that ends last, skipping only places
    that collide with it. *)
Lemma free_base_turn m owner base len e :
  Memory_passable m -> 0 <= base -> maximum (conflict_ends m owner base len) = Some e ->
  base < page_up e /\ page_up e mod 4096 = 0 /\
  (exists s, In s (segments m) /\ base < seg_end s <= page_up e) /\
  forall b, base <= b < page_up e -> b = base \/ b mod 4096 = 0 ->
    Memory_overlaps_other m owner b len = true.
Proof.
  intros Hm Hb He. destruct (conflict_max m owner base len e Hm He) as (s & Hs & Ho & Hend & Hr & Hl & Hlt).
  destruct (page_up_spec e Hr) as [Hp Hmod].
  generalize dependent (page_up e). intros p Hp Hmod.
  split; [lia|]. split; [done|]. split; [exists s; split; [done|lia]|].
  intros b Hbb Hal. apply overlaps_other_in. exists s. split; [done|]. split; [done|].
  apply overlaps_bounds. cbn [seg_base]. rewrite Hend. split.
  - unfold seg_end. cbn [seg_base seg_len]. lia.
  - destruct Hal as [->|Hal]; [done|]. zdiv.
Qed.

(** Segments still ahead of the search: its measure. *)
Definition ahead (m : Memory) (base : Z) : nat :=
  length (List.filter (fun s => base <? seg_end s) (segments m)).

Lemma filter_shrinks {A} (P Q : A -> bool) (l : list A) x :
  (forall y, P y = true -> Q y = true) -> In x l -> Q x = true -> P x = false ->
  (length (List.filter P l) < length (List.filter Q l))%nat.
Proof.
  intros Hpq Hin Hq Hp.
  assert (Hle : forall k, (length (List.filter P k) <= length (List.filter Q k))%nat).
  { induction k as [|y k IH]; [done|]. cbn [List.filter]. specialize (Hpq y).
    destruct (P y); [rewrite (Hpq eq_refl); simpl; lia|]. destruct (Q y); simpl; lia. }
  induction l as [|y l IH]; [done|]. cbn [List.filter]. specialize (Hle l).
  destruct Hin as [->|Hin].
  - rewrite Hq, Hp. simpl. lia.
  - specialize (IH Hin). specialize (Hpq y). destruct (P y); [rewrite (Hpq eq_refl); simpl; lia|].
    destruct (Q y); simpl; lia.
Qed.

Lemma free_base_spec fuel m owner : forall from len,
  Memory_passable m -> 0 <= from -> (ahead m from < fuel)%nat ->
  exists b, Memory_free_base fuel m owner from len = Some b /\ from <= b /\
    (b = from \/ b mod 4096 = 0) /\ Memory_overlaps_other m owner b len = false /\
    forall b', from <= b' < b -> b' = from \/ b' mod 4096 = 0 ->
      Memory_overlaps_other m owner b' len = true.
Proof.
  induction fuel as [|fuel IH]; intros from len Hm Hf Hfuel; [lia|]. cbn [Memory_free_base].
  destruct (maximum (conflict_ends m owner from len)) as [e|] eqn:He.
  - destruct (free_base_turn m owner from len e Hm Hf He) as (Hlt & Hmod & (s & Hs & Hse) & Hskip).
    destruct (IH (page_up e) len Hm) as (b & Eb & Hle & Hal & Hno & Hmin); [lia| |].
    { enough (ahead m (page_up e) < ahead m from)%nat by lia. apply (filter_shrinks _ _ _ s); [|done| |].
      - intros y Hy%Z.ltb_lt. apply Z.ltb_lt. lia.
      - apply Z.ltb_lt. lia.
      - apply Z.ltb_ge. lia. }
    exists b. split; [done|]. split; [lia|]. split; [right; destruct Hal as [->|?]; done|].
    split; [done|]. intros b' Hb' Hal'.
    destruct (Z.lt_ge_cases b' (page_up e)) as [Hl|Hg]; [by apply Hskip; [lia|]|].
    apply Hmin; [lia|]. destruct Hal' as [->|?]; [lia|by right].
  - exists from. split; [done|]. split; [lia|]. split; [by left|].
    pose proof (maximum_spec (conflict_ends m owner from len)) as Hmax. rewrite He in Hmax.
    split; [by apply no_conflict|]. intros b' ?. lia.
Qed.

(** ** The properties *)

(** A write lands in one segment of its owner or nowhere.  It succeeds exactly
    when the first segment holding the whole range belongs to the expected owner;
    the octets then read back, every range it does not touch reads as before, and
    the segments are unchanged.  It fails with [OutOfSegment] when no segment
    holds the range, and with [WrongOwner] when the first that does is another's. *)
Theorem write_bounded_to_owner m owner addr data : Memory_ok m ->
  match Memory_write m owner addr data with
  | Ok m' =>
      (exists s, In s (segments m) /\ seg_owner s = owner /\
         seg_base s <= addr /\ addr + zlen data <= seg_end s) /\
      segments m' = segments m /\ Memory_read m' addr (zlen data) = data /\
      (forall a n, 0 <= a -> a + n <= 4294967296 -> a + n <= addr \/ addr + zlen data <= a ->
         Memory_read m' a n = Memory_read m a n)
  | Err (OutOfSegment a n) =>
      a = addr /\ n = zlen data /\
      forall s, In s (segments m) -> Segment_contains s addr (zlen data) = false
  | Err (WrongOwner a found expected) =>
      a = addr /\ expected = owner /\ found <> owner /\
      exists s, In s (segments m) /\ seg_owner s = found /\
        Segment_contains s addr (zlen data) = true
  end.
Proof.
  intros Hm. unfold Memory_write.
  destruct (List.find _ (segments m)) as [s|] eqn:Ef.
  - apply List.find_some in Ef as [Hin Hc].
    destruct (contains_in_space m s addr (zlen data) Hm Hin Hc) as [Ha Hl].
    destruct (Z.eqb_spec (seg_owner s) owner) as [Ho|Ho]; cbn [negb].
    + apply contains_bounds in Hc. split; [by exists s|]. split; [done|].
      split; [by apply Memory_read_written|]. intros a n Ha' Hn Hdis.
      apply Memory_read_ext; [done|done|]. intros k Hk. unfold read_cell. cbn [cells].
      rewrite write_cells_lookup, decide_False by lia. done.
    + do 3 (split; [done|]). by exists s.
  - do 2 (split; [done|]). intros s Hin. exact (List.find_none _ _ Ef s Hin).
Qed.

(** The search for a place finds the lowest one.  When the segments end below
    the last page of the address space, the loop ends within one turn per segment
    and gives a base at or above the start where the wanted octets overlap no
    segment of another object, while every 4 KiB page boundary (and the start)
    below it would overlap one. *)
Theorem free_base_is_lowest m owner from len :
  Memory_passable m -> 0 <= from ->
  exists b, Memory_free_base (S (length (segments m))) m owner from len = Some b /\
    from <= b /\ (b = from \/ b mod 4096 = 0) /\ Memory_overlaps_other m owner b len = false /\
    forall b', from <= b' < b -> b' = from \/ b' mod 4096 = 0 ->
      Memory_overlaps_other m owner b' len = true.
Proof.
  intros Hm Hf. apply free_base_spec; [done|done|].
  unfold ahead. pose proof (List.filter_length_le (fun s => from <? seg_end s) (segments m)). lia.
Qed.

(** The search can run forever: once a segment of another object that reaches
    into the last page of the 32-bit space overlaps the start, the rounded end
    saturates at the last page, which that segment still covers, and no number of
    turns ends the loop. *)
Theorem free_base_may_hang m owner from len s :
  In s (segments m) -> owned owner s = false ->
  seg_base s < from + len -> 4294963200 < seg_end s -> from <= 4294963200 ->
  forall fuel, Memory_free_base fuel m owner from len = None.
Proof.
  intros Hin Ho Hb He Hf fuel. revert from Hb Hf.
  induction fuel as [|fuel IH]; intros from Hb Hf; [done|]. cbn [Memory_free_base].
  set (e := u32_saturating_add (seg_base s) (seg_len s)).
  assert (Hc : In e (conflict_ends m owner from len)).
  { apply conflict_ends_in. exists s. split; [done|]. split; [done|]. split; [|done].
    apply overlaps_bounds. split; [exact Hb|]. cbn [seg_base]. lia. }
  pose proof (maximum_spec (conflict_ends m owner from len)) as Hmax.
  destruct (maximum (conflict_ends m owner from len)) as [x|]; [|by rewrite Hmax in Hc].
  destruct Hmax as [_ Hmax]. specialize (Hmax e Hc).
  assert (Hx : 4294963200 < x) by (eapply Z.lt_le_trans; [by apply saturating_end|exact Hmax]).
  clear Hc Hmax.
  rewrite (page_up_saturated x Hx). apply IH; lia.
Qed.

(** ** Witnesses *)

Definition demo_memory : Memory :=
  MkMemory ∅ [MkSegment 1 24576 256; MkSegment 3 45056 70000].

Lemma demo_memory_ok : Memory_ok demo_memory.
Proof. repeat constructor; unfold seg_end; simpl; lia. Qed.

Lemma write_bounded_to_owner_witness : exists m',
  Memory_write demo_memory 1 24580 [17; 34] = Ok m' /\ Memory_read m' 24580 2 = [17; 34].
Proof.
  pose proof (write_bounded_to_owner demo_memory 1 24580 [17; 34] demo_memory_ok) as H.
  eexists. split; [reflexivity|]. exact (proj1 (proj2 (proj2 H))).
Defined.

(** 2 kB for object 4 beside object 3's 70 000 octets: the page after them. *)
Lemma free_base_is_lowest_witness :
  Memory_free_base 3 demo_memory 4 65536 2048 = Some 118784.
Proof.
  destruct (free_base_is_lowest demo_memory 4 65536 2048) as (b & E & _);
    [repeat constructor; unfold seg_end; simpl; lia|lia|].
  transitivity (Some b); [exact E|]. rewrite <- E. vm_compute. reflexivity.
Defined.

Lemma free_base_may_hang_witness :
  Memory_free_base 1000 (MkMemory ∅ [MkSegment 4 65536 4294901760]) 5 65536 16 = None.
Proof.
  apply (free_base_may_hang _ 5 65536 16 (MkSegment 4 65536 4294901760));
    [left; reflexivity|reflexivity|reflexivity|reflexivity|discriminate].
Defined.

(** ** Errors of the device ([knx-sim/src/device/mod.rs], [secure/mod.rs])

    Why the device refused a telegram; on the bus every one of them is silence. *)

Inductive SimSecureError : Type :=
| SimTooShort (len : Z)
| SimBadScf (scf : u8)
| SimBadMac
| SimStaleSequence (got last : u64)
| SimPlainAccessRefused
| SimUnexpectedService (scf : u8)
| SimSyncSerialMismatch
| SimSyncWithinWindow
| SimReservedBits (octet : u8) (seq : bytes)
| SimNotActivated.

Inductive DeviceError : Type :=
| NotConnected
| Unauthorized (level : u8)
| NoProperty (object pid : u8)
| ReadOnlyProperty (object pid : u8)
| LoadControlError (why : string)
| MemoryRejected (e : MemoryError)
| Malformed (service detail : string)
| WireStrictness (detail : string)
| SecureRefused (e : SimSecureError).
