(* ===== verification/SimDataSecure.v ===== *)
(** * The simulated device's Data Secure session ([knx-sim/src/secure/mod.rs])

    The device's side of KNX Data Secure, written independently of the client's
    ([Asdu], [SecureSession]) over the primitives of [SimIpSecure]: the
    security control field, the nonces, wrapping and opening, the S-A_Sync
    answer and the freshness tables of tool access and of group senders.  An
    instant is a number of nanoseconds. *)

From Stdlib Require Import Sorting.Sorted.
From S2P Require Import Prelude Crypto Sequence Asdu SecureSession SimWire SimMemory SimIpSecure.

Local Open Scope string_scope.
Local Open Scope list_scope.
Local Open Scope Z_scope.

(** ** The security control field *)

Inductive SecAlgorithm : Type := AuthOnly | AuthEnc.

Definition SecAlgorithm_to_bits (a : SecAlgorithm) : u8 :=
  match a with
  | AuthOnly => 0
  | AuthEnc => 1
  end.

Definition SecAlgorithm_from_bits (bits : u8) : option SecAlgorithm :=
  match Z.land bits 7 with
  | 0 => Some AuthOnly
  | 1 => Some AuthEnc
  | _ => None
  end.

Inductive SecService : Type := SecData | SecSyncReq | SecSyncRes.

Definition SecService_to_bits (s : SecService) : u8 :=
  match s with
  | SecData => 0
  | SecSyncReq => 2
  | SecSyncRes => 3
  end.

Definition SecService_from_bits (bits : u8) : option SecService :=
  match Z.land bits 7 with
  | 0 => Some SecData
  | 2 => Some SecSyncReq
  | 3 => Some SecSyncRes
  | _ => None
  end.

#[export] Instance SecAlgorithm_eq_dec : EqDecision SecAlgorithm.
Proof. solve_decision. Defined.
#[export] Instance SecService_eq_dec : EqDecision SecService.
Proof. solve_decision. Defined.

Record SimScf : Type := MkSimScf {
  sscf_tool_access : bool;
  sscf_algorithm : SecAlgorithm;
  sscf_system_broadcast : bool;
  sscf_service : SecService }.

#[export] Instance SimScf_eq_dec : EqDecision SimScf.
Proof. solve_decision. Defined.

Definition SimScf_to_byte (s : SimScf) : u8 :=
  Z.lor (Z.lor (Z.lor (as_u8 (Z.shiftl (bool_as_u8 (sscf_tool_access s)) 7))
                      (as_u8 (Z.shiftl (SecAlgorithm_to_bits (sscf_algorithm s)) 4)))
               (as_u8 (Z.shiftl (bool_as_u8 (sscf_system_broadcast s)) 3)))
        (SecService_to_bits (sscf_service s)).

Definition SimScf_from_byte (b : u8) : option SimScf :=
  algorithm ← SecAlgorithm_from_bits (Z.land (Z.shiftr b 4) 7);
  service ← SecService_from_bits (Z.land b 7);
  mret (MkSimScf (negb (Z.land b 128 =? 0)) algorithm (negb (Z.land b 8 =? 0)) service).

Definition tool_scf (a : SecAlgorithm) : SimScf := MkSimScf true a false SecData.
Definition group_scf (a : SecAlgorithm) : SimScf := MkSimScf false a false SecData.

(** ** The nonces *)

Record FrameContext : Type := MkFrameContext {
  address_fields : bytes;
  addr_type_frame_format : u8;
  tpci_int : u8 }.

Definition FrameContext_from_cemi (cemi : CemiLData) (tpci : u8) : FrameContext :=
  MkFrameContext (be_bytes 2 (sim_ia_raw (sim_source cemi)) ++ be_bytes 2 (sim_dest cemi))
    (Z.land (sim_ctrl2 cemi) 143) tpci.

Definition FrameContext_group (source ga : u16) : FrameContext :=
  MkFrameContext (be_bytes 2 source ++ be_bytes 2 ga) 128 0.

Definition FrameContext_group_from_cemi (cemi : CemiLData) : FrameContext :=
  let ctx := FrameContext_from_cemi cemi 0 in
  MkFrameContext (address_fields ctx) (Z.lor (addr_type_frame_format ctx) 128) (tpci_int ctx).

Definition FrameContext_block_0 (ctx : FrameContext) (seq : bytes) (payload_len : u8) : bytes :=
  seq ++ address_fields ctx
  ++ [0; addr_type_frame_format ctx; as_u8 (Z.shiftl (tpci_int ctx) 2) + 3; 241; 0; payload_len].

Definition FrameContext_counter_0 (ctx : FrameContext) (seq : bytes) : bytes :=
  seq ++ address_fields ctx ++ [0; 0; 0; 0; 1; 0].

(** ** The session *)

Record Unwrapped : Type := MkUnwrapped {
  inner_tpdu : bytes;
  uw_scf : SimScf;
  uw_seq : bytes }.

Record SimDataSession : Type := MkSimDataSession {
  sds_tool_key : bytes;
  sds_tx_seq : u64;
  sds_rx_last : gmap Z Z;
  sds_group_rx_last : gmap Z Z;
  sds_rx_floor : u64;
  sds_require_secure : bool;
  sds_last_sync_res : option Z }.

Definition SYNC_IGNORE_WINDOW : Z := 1000000000.

Record SyncReceiver : Type := MkSyncReceiver {
  sr_own_serial : option bytes;
  sr_now : Z }.

Definition SimDataSession_new (tool_key : bytes) (initial_tx_seq initial_rx_seq : u64) : SimDataSession :=
  MkSimDataSession tool_key initial_tx_seq ∅ ∅ initial_rx_seq true None.

Definition sds_set_tool_key (key : bytes) (s : SimDataSession) : SimDataSession :=
  MkSimDataSession key (sds_tx_seq s) (sds_rx_last s) (sds_group_rx_last s) (sds_rx_floor s)
    (sds_require_secure s) (sds_last_sync_res s).
Definition sds_put_tx_seq (seq : u64) (s : SimDataSession) : SimDataSession :=
  MkSimDataSession (sds_tool_key s) seq (sds_rx_last s) (sds_group_rx_last s) (sds_rx_floor s)
    (sds_require_secure s) (sds_last_sync_res s).
Definition sds_put_rx_last (m : gmap Z Z) (s : SimDataSession) : SimDataSession :=
  MkSimDataSession (sds_tool_key s) (sds_tx_seq s) m (sds_group_rx_last s) (sds_rx_floor s)
    (sds_require_secure s) (sds_last_sync_res s).
Definition sds_put_group_rx_last (m : gmap Z Z) (s : SimDataSession) : SimDataSession :=
  MkSimDataSession (sds_tool_key s) (sds_tx_seq s) (sds_rx_last s) m (sds_rx_floor s)
    (sds_require_secure s) (sds_last_sync_res s).
Definition sds_put_last_sync_res (t : option Z) (s : SimDataSession) : SimDataSession :=
  MkSimDataSession (sds_tool_key s) (sds_tx_seq s) (sds_rx_last s) (sds_group_rx_last s) (sds_rx_floor s)
    (sds_require_secure s) t.

(** [set_tx_seq]: the 48 low bits. *)
Definition sds_set_tx_seq (seq : u64) (s : SimDataSession) : SimDataSession :=
  sds_put_tx_seq (Z.land seq MAX_SEQUENCE) s.

Definition seq_to_bytes (seq : u64) : bytes := drop 2 (be_bytes 8 seq).
Definition seq_from_bytes (b : bytes) : u64 := be_val ([0; 0] ++ b).

(** What a source's next frame must exceed. *)
Definition rx_bound (table : gmap Z Z) (floor source : Z) : u64 := default floor (table !! source).

(** [commit_rx] on a table: the entry is made and never lowered. *)
Definition raise_entry (table : gmap Z Z) (floor source got : Z) : gmap Z Z :=
  let last := rx_bound table floor source in
  <[source := if last <? got then got else last]> table.

Definition SimDataSession_commit_rx (s : SimDataSession) (source : u16) (seq : bytes) : SimDataSession :=
  sds_put_rx_last (raise_entry (sds_rx_last s) (sds_rx_floor s) source (seq_from_bytes seq)) s.

Definition SimDataSession_commit_group_rx (s : SimDataSession) (source : u16) (seq : bytes) : SimDataSession :=
  sds_put_group_rx_last (raise_entry (sds_group_rx_last s) (sds_rx_floor s) source (seq_from_bytes seq)) s.

(** The send sequence and its successor, modulo 2^48. *)
Definition SimDataSession_take_tx_seq (s : SimDataSession) : bytes * SimDataSession :=
  (seq_to_bytes (sds_tx_seq s), sds_put_tx_seq (Z.land ((sds_tx_seq s + 1) mod 18446744073709551616) MAX_SEQUENCE) s).

Section DataSecure.
  Context `{C : SecureCiphers}.

(** ** Wrapping and opening *)

Definition wrap_with_context (key : bytes) (scf : SimScf) (seq inner : bytes) (context : FrameContext) : bytes :=
  let scf_byte := SimScf_to_byte scf in
  let counter_0 := FrameContext_counter_0 context seq in
  let '(secured_apdu, mac4) :=
    match sscf_algorithm scf with
    | AuthOnly =>
        let mac_cbc := sim_cbc_mac key (scf_byte :: inner) [] (FrameContext_block_0 context seq 0) in
        let '(_, enc_mac) := encrypt_data_ctr key counter_0 (take TP_MAC_LEN mac_cbc) [] in
        (inner, take TP_MAC_LEN enc_mac)
    | AuthEnc =>
        let mac_cbc := sim_cbc_mac key [scf_byte] inner (FrameContext_block_0 context seq (as_u8 (zlen inner))) in
        let '(enc_payload, enc_mac) := encrypt_data_ctr key counter_0 (take TP_MAC_LEN mac_cbc) inner in
        (enc_payload, take TP_MAC_LEN enc_mac)
    end in
  scf_byte :: seq ++ secured_apdu ++ mac4.

(** The inner APDU of a body and whether its MAC verifies. *)
Definition sim_open_body (key : bytes) (scf : SimScf) (scf_byte : u8) (seq body wire_mac : bytes)
    (carrier : FrameContext) : bytes * bool :=
  let counter_0 := FrameContext_counter_0 carrier seq in
  match sscf_algorithm scf with
  | AuthOnly =>
      let mac_cbc := sim_cbc_mac key (scf_byte :: body) [] (FrameContext_block_0 carrier seq 0) in
      let '(_, enc_mac) := encrypt_data_ctr key counter_0 (take TP_MAC_LEN mac_cbc) [] in
      (body, ct_eq (take TP_MAC_LEN enc_mac) wire_mac)
  | AuthEnc =>
      let '(plain, _) := decrypt_data_ctr key counter_0 wire_mac body in
      let mac_cbc := sim_cbc_mac key [scf_byte] plain (FrameContext_block_0 carrier seq (as_u8 (zlen plain))) in
      let '(_, enc_mac) := encrypt_data_ctr key counter_0 (take TP_MAC_LEN mac_cbc) plain in
      (plain, ct_eq (take TP_MAC_LEN enc_mac) wire_mac)
  end.

Definition verified (opened : bytes * bool) : result SimSecureError bytes :=
  let '(inner, ok) := opened in
  if negb ok then Err SimMemory.SimBadMac else Ok inner.

(** The freshness check and, once the MAC has verified, that of the reserved bits. *)
Definition fresh_check (last : option u64) (got : u64) : result SimSecureError () :=
  match last with
  | Some last => if got <=? last then Err (SimStaleSequence got last) else Ok tt
  | None => Ok tt
  end.

Definition reserved_check (inner seq : bytes) : result SimSecureError () :=
  match inner with
  | octet :: _ => if negb (Z.land octet 252 =? 0) then Err (SimReservedBits octet seq) else Ok tt
  | [] => Ok tt
  end.

Definition open_fresh (key asdu : bytes) (carrier : FrameContext) (last : option u64)
    : result SimSecureError Unwrapped :=
  let n := length asdu in
  if (n <? 1 + SEQ_LEN + TP_MAC_LEN)%nat then Err (SimTooShort (zlen asdu)) else
  let scf_byte := nth 0 asdu 0 in
  scf ← ok_or (SimBadScf scf_byte) (SimScf_from_byte scf_byte);
  if negb (bool_decide (sscf_service scf = SecData)) then Err (SimUnexpectedService scf_byte) else
  let seq := slice 1 (1 + SEQ_LEN) asdu in
  let body := slice (1 + SEQ_LEN) (n - TP_MAC_LEN) asdu in
  let wire_mac := drop (n - TP_MAC_LEN) asdu in
  let got := seq_from_bytes seq in
  _ ← fresh_check last got;
  inner ← verified (sim_open_body key scf scf_byte seq body wire_mac carrier);
  _ ← reserved_check inner seq;
  mret (MkUnwrapped inner scf seq).

(** ** Tool access *)

Definition SimDataSession_unwrap_with_context (s : SimDataSession) (asdu : bytes) (carrier : FrameContext)
    (source : u16) : result SimSecureError Unwrapped :=
  open_fresh (sds_tool_key s) asdu carrier (Some (rx_bound (sds_rx_last s) (sds_rx_floor s) source)).

(** An authentic frame with reserved bits is dropped, but its sequence counts. *)
Definition SimDataSession_unwrap_incoming (s : SimDataSession) (carrier : CemiLData) (tpci : u8) (asdu : bytes)
    : result SimSecureError Unwrapped * SimDataSession :=
  let ctx := FrameContext_from_cemi carrier tpci in
  let source := sim_ia_raw (sim_source carrier) in
  match SimDataSession_unwrap_with_context s asdu ctx source with
  | Ok u => (Ok u, SimDataSession_commit_rx s source (uw_seq u))
  | Err (SimReservedBits octet seq) => (Err (SimReservedBits octet seq), SimDataSession_commit_rx s source seq)
  | Err e => (Err e, s)
  end.

Definition SimDataSession_wrap_outgoing (s : SimDataSession) (carrier : CemiLData) (tpci : u8) (algorithm : SecAlgorithm)
    (inner : bytes) : bytes * bytes * SimDataSession :=
  let ctx := FrameContext_from_cemi carrier tpci in
  let '(seq, s) := SimDataSession_take_tx_seq s in
  (wrap_with_context (sds_tool_key s) (tool_scf algorithm) seq inner ctx, seq, s).

(** ** Group telegrams *)

Definition check_group_scf (asdu : bytes) : result SimSecureError SimScf :=
  match asdu with
  | [] => Err (SimTooShort 0)
  | scf_byte :: _ =>
      scf ← ok_or (SimBadScf scf_byte) (SimScf_from_byte scf_byte);
      if sscf_tool_access scf then Err (SimBadScf scf_byte)
      else if negb (bool_decide (sscf_service scf = SecData)) then Err (SimUnexpectedService scf_byte)
      else Ok scf
  end.

Definition SimDataSession_unwrap_group_incoming (s : SimDataSession) (group_key : bytes) (carrier : CemiLData)
    (asdu : bytes) : result SimSecureError Unwrapped * SimDataSession :=
  match check_group_scf asdu with
  | Err e => (Err e, s)
  | Ok _ =>
      let source := sim_ia_raw (sim_source carrier) in
      let last := rx_bound (sds_group_rx_last s) (sds_rx_floor s) source in
      let opened := open_fresh group_key asdu (FrameContext_group_from_cemi carrier) (Some last) in
      match opened with
      | Ok u => (opened, SimDataSession_commit_group_rx s source (uw_seq u))
      | Err (SimReservedBits _ seq) => (opened, SimDataSession_commit_group_rx s source seq)
      | Err _ => (opened, s)
      end
  end.

Definition SimDataSession_wrap_group_outgoing (s : SimDataSession) (group_key : bytes) (carrier : CemiLData)
    (algorithm : SecAlgorithm) (inner : bytes) : bytes * bytes * SimDataSession :=
  let ctx := FrameContext_group_from_cemi carrier in
  let '(seq, s) := SimDataSession_take_tx_seq s in
  (wrap_with_context group_key (group_scf algorithm) seq inner ctx, seq, s).

Definition sim_seal_group (key : bytes) (algorithm : SecAlgorithm) (seq : u64) (source ga : u16) (inner : bytes) : bytes :=
  wrap_with_context key (group_scf algorithm) (seq_to_bytes seq) inner (FrameContext_group source ga).

Definition sim_open_group (key : bytes) (source ga : u16) (asdu : bytes) : result SimSecureError Unwrapped :=
  _ ← check_group_scf asdu;
  open_fresh key asdu (FrameContext_group source ga) None.

(** ** S-A_Sync *)

(** The checks before the security check: the window and the serial number. *)
Definition sync_request_due (s : SimDataSession) (carrier : CemiLData) (serial : bytes) (receiver : SyncReceiver)
    : result SimSecureError () :=
  if match sds_last_sync_res s with
     | Some t => saturating_sub (sr_now receiver) t <? SYNC_IGNORE_WINDOW
     | None => false
     end then Err SimSyncWithinWindow else
  let broadcast := negb (Z.land (sim_ctrl2 carrier) 128 =? 0) && (sim_dest carrier =? 0) in
  let zero := forallb (Z.eqb 0) serial in
  let own := match sr_own_serial receiver with Some own => bool_decide (own = serial) | None => false end in
  if negb (own || (zero && negb broadcast)) then Err SimSyncSerialMismatch else Ok tt.

(** The challenge of a request that verifies. *)
Definition open_sync_request (key : bytes) (ctx : FrameContext) (scf_byte : u8) (seq serial enc_challenge wire_mac : bytes)
    : result SimSecureError bytes :=
  let counter_0 := FrameContext_counter_0 ctx seq in
  let '(challenge, _) := decrypt_data_ctr key counter_0 wire_mac enc_challenge in
  let mac_cbc := sim_cbc_mac key (scf_byte :: serial) challenge (FrameContext_block_0 ctx seq 6) in
  let '(_, expected) := encrypt_data_ctr key counter_0 (take TP_MAC_LEN mac_cbc) [] in
  if negb (ct_eq expected wire_mac) then Err SimMemory.SimBadMac else Ok challenge.

(** The response under a masked nonce. *)
Definition seal_sync_response (key : bytes) (tool_access : bool) (rctx : FrameContext) (nonce challenge plain : bytes) : bytes :=
  let res_scf := SimScf_to_byte (MkSimScf tool_access AuthEnc false SecSyncRes) in
  let rmac := sim_cbc_mac key [res_scf] plain (FrameContext_block_0 rctx nonce (as_u8 (zlen plain))) in
  let '(enc_plain, enc_mac) := encrypt_data_ctr key (FrameContext_counter_0 rctx nonce) (take TP_MAC_LEN rmac) plain in
  res_scf :: zip_with Z.lxor nonce challenge ++ enc_plain ++ enc_mac.

Definition SimDataSession_answer_sync_request (s : SimDataSession) (carrier : CemiLData) (tpci : u8) (asdu : bytes)
    (resp_carrier : CemiLData) (resp_tpci : u8) (receiver : SyncReceiver)
    : result SimSecureError bytes * SimDataSession :=
  if negb (length asdu =? 1 + SEQ_LEN + 6 + 6 + TP_MAC_LEN)%nat then (Err (SimTooShort (zlen asdu)), s) else
  let scf_byte := nth 0 asdu 0 in
  match SimScf_from_byte scf_byte with
  | None => (Err (SimBadScf scf_byte), s)
  | Some scf =>
      if negb (bool_decide (sscf_service scf = SecSyncReq)) then (Err (SimUnexpectedService scf_byte), s) else
      let seq := slice 1 7 asdu in
      let serial := slice 7 13 asdu in
      match sync_request_due s carrier serial receiver with
      | Err e => (Err e, s)
      | Ok _ =>
          match open_sync_request (sds_tool_key s) (FrameContext_from_cemi carrier tpci) scf_byte seq serial
                  (slice 13 19 asdu) (slice 19 23 asdu) with
          | Err e => (Err e, s)
          | Ok challenge =>
              let source := sim_ia_raw (sim_source carrier) in
              let last := rx_bound (sds_rx_last s) (sds_rx_floor s) source in
              let stored := Z.max last (saturating_sub (seq_from_bytes seq) 1) in
              let s := sds_put_rx_last (<[source := stored]> (sds_rx_last s)) s in
              let accepted := u64_saturating_add stored 1 in
              let s := sds_put_last_sync_res (Some (sr_now receiver)) s in
              let plain := seq_to_bytes (sds_tx_seq s) ++ seq_to_bytes accepted in
              let nonce := seq_to_bytes (Z.lxor (sds_tx_seq s) 99344109427290) in
              (Ok (seal_sync_response (sds_tool_key s) (sscf_tool_access scf)
                     (FrameContext_from_cemi resp_carrier resp_tpci) nonce challenge plain), s)
          end
      end
  end.

End DataSecure.

(** ** The same records on both sides *)

Definition algorithm_view (a : SecAlgorithm) : SecurityAlgorithm :=
  match a with
  | AuthOnly => AuthenticationOnly
  | AuthEnc => AuthenticationEncryption
  end.

Definition service_view (s : SecService) : SecureService :=
  match s with
  | SecData => SvcData
  | SecSyncReq => SvcSyncReq
  | SecSyncRes => SvcSyncRes
  end.

Definition scf_view (s : SimScf) : Scf :=
  MkScf (sscf_tool_access s) (algorithm_view (sscf_algorithm s)) (sscf_system_broadcast s)
    (service_view (sscf_service s)).

(** The nonce context the two ends take from one frame. *)
Definition same_nonce (ctx : FrameContext) (addr : TpAddressing) : Prop :=
  address_fields ctx = TpAddressing_address_fields addr /\
  addr_type_frame_format ctx = TpAddressing_ctrl2_byte addr /\
  as_u8 (Z.shiftl (tpci_int ctx) 2) + 3 = Z.lor (Z.land (tp_tpci addr) 252) APCI_SEC_HIGH.

Lemma scf_to_byte_view s : Scf_to_byte (scf_view s) = SimScf_to_byte s.
Proof. destruct s as [[] [] [] []]; reflexivity. Qed.

Lemma scf_from_byte_view b :
  Scf_from_byte b = ok_or (UnknownScf b) (scf_view <$> SimScf_from_byte b).
Proof.
  unfold Scf_from_byte, SimScf_from_byte, SecurityAlgorithm_from_code, SecAlgorithm_from_bits,
    SecureService_from_code, SecService_from_bits.
  destruct (Z.land (Z.land (Z.shiftr b 4) 7) 7) as [|[p|p|]|p]; try done;
    destruct (Z.land (Z.land b 7) 7) as [|[[q|q|]|[q|q|]|]|q]; done.
Qed.

Lemma seq_to_bytes_eq seq : seq_to_bytes (Sequence_value seq) = Sequence_to_bytes seq.
Proof. done. Qed.

Lemma seq_from_bytes_eq b : bytes_ok b -> length b = 6%nat ->
  seq_from_bytes b = Sequence_value (Sequence_from_bytes b).
Proof. intros Hb Hl. destruct (Sequence_from_bytes_value b Hb Hl) as [-> _]. unfold seq_from_bytes. by rewrite be_val_pad. Qed.

Lemma same_nonce_block ctx addr seq n : same_nonce ctx addr ->
  FrameContext_block_0 ctx (Sequence_to_bytes seq) n = tp_block_0 seq addr n.
Proof. intros (Ha & Ht & Hp). unfold FrameContext_block_0, tp_block_0. by rewrite Ha, Ht, Hp. Qed.

Lemma same_nonce_counter ctx addr seq : same_nonce ctx addr ->
  FrameContext_counter_0 ctx (Sequence_to_bytes seq) = tp_counter_0 seq addr.
Proof. intros (Ha & _). unfold FrameContext_counter_0, tp_counter_0. by rewrite Ha. Qed.

Section Agreement.
  Context `{C : SecureCiphers, L : !SecureCiphersLaws C}.

Lemma sim_cbc_mac_octets key ad payload block_0 : length block_0 = BLOCK -> zlen ad < 65536 ->
  length (sim_cbc_mac key ad payload block_0) = BLOCK.
Proof.
  intros Hb Ha. destruct (cbc_mac_ok (Key16_new key) ad payload block_0 Hb Ha) as (m & Em & Hm & _).
  rewrite sim_cbc_mac_eq in Em by done. apply Ok_inj in Em as ->. exact Hm.
Qed.

Lemma length_enc_mac key counter_0 mac payload : length counter_0 = BLOCK -> (length mac <= BLOCK)%nat ->
  length (snd (encrypt_data_ctr key counter_0 mac payload)) = length mac.
Proof.
  intros Hc Hm. pose proof (encrypt_data_ctr_eq key counter_0 mac payload Hc Hm) as E.
  rewrite encrypt_ctr_eq in E by done. apply Ok_inj in E as <-. apply length_apply_keystream.
Qed.

(** The client's sealing, with the device's primitives. *)
Lemma seal_sim key seq addr ad payload (e : bool) : (if e then zlen payload < 256 else True) ->
  zlen ad + zlen payload < 65536 ->
  seal (Key16_new key) seq addr ad payload e =
  Ok (if e
      then encrypt_data_ctr key (tp_counter_0 seq addr)
             (take TP_MAC_LEN (sim_cbc_mac key ad payload (tp_block_0 seq addr (zlen payload)))) payload
      else (payload, snd (encrypt_data_ctr key (tp_counter_0 seq addr)
             (take TP_MAC_LEN (sim_cbc_mac key (ad ++ payload) [] (tp_block_0 seq addr 0))) []))).
Proof.
  intros Hp Ha. assert (0 <= zlen payload /\ 0 <= zlen ad) as [] by (unfold zlen; lia).
  assert (Hle : forall k a p b, length b = BLOCK -> zlen a < 65536 ->
    length (take TP_MAC_LEN (sim_cbc_mac k a p b)) = TP_MAC_LEN).
  { intros. rewrite length_take, sim_cbc_mac_octets by done. done. }
  assert (H4 : (TP_MAC_LEN <= BLOCK)%nat) by (unfold TP_MAC_LEN, BLOCK; lia).
  unfold seal. destruct e.
  - apply Z.ltb_lt in Hp. rewrite Hp. cbn [negb].
    rewrite sim_cbc_mac_eq by (apply length_tp_block_0 || lia). cbn [map_err mbind result_bind].
    rewrite encrypt_data_ctr_eq by (apply length_tp_counter_0 || (rewrite Hle; [done|apply length_tp_block_0|lia])).
    pose proof (length_enc_mac key (tp_counter_0 seq addr) (take TP_MAC_LEN (sim_cbc_mac key ad payload (tp_block_0 seq addr (zlen payload)))) payload
      ltac:(apply length_tp_counter_0)) as Hm. rewrite Hle in Hm by (apply length_tp_block_0 || lia). specialize (Hm H4).
    destruct (encrypt_data_ctr _ _ _ payload) as [p m]. cbn [map_err mbind result_bind mret result_ret snd] in *. by rewrite firstn_all2 by (rewrite Hm; lia).
  - rewrite sim_cbc_mac_eq by (apply length_tp_block_0 || (unfold zlen in *; rewrite length_app; lia)). cbn [map_err mbind result_bind].
    assert (Hz : zlen (ad ++ payload) < 65536) by (unfold zlen in *; rewrite length_app; lia).
    rewrite encrypt_data_ctr_eq by (apply length_tp_counter_0 || (rewrite Hle; [done|apply length_tp_block_0|lia])).
    pose proof (length_enc_mac key (tp_counter_0 seq addr) (take TP_MAC_LEN (sim_cbc_mac key (ad ++ payload) [] (tp_block_0 seq addr 0))) []
      ltac:(apply length_tp_counter_0)) as Hm. rewrite Hle in Hm by (apply length_tp_block_0 || lia). specialize (Hm H4).
    destruct (encrypt_data_ctr _ _ _ []) as [p m]. cbn [map_err mbind result_bind mret result_ret snd] in *. by rewrite firstn_all2 by (rewrite Hm; lia).
Qed.

(** Wrapping is the client's encoding. *)
Lemma wrap_with_context_eq key scf seq inner ctx addr : same_nonce ctx addr -> zlen inner < 256 ->
  encode_apdu (Key16_new key) (scf_view scf) seq addr inner
  = Ok (wrap_with_context key scf (Sequence_to_bytes seq) inner ctx).
Proof.
  intros Hn Hl. assert (0 <= zlen inner) by (unfold zlen; lia). unfold encode_apdu.
  pose proof Hl as Hl'. apply Z.ltb_lt in Hl'. rewrite Hl'. cbn [negb].
  rewrite scf_to_byte_view, seal_sim by ((unfold zlen in *; cbn [length]; lia) || by destruct (SecurityAlgorithm_encrypts _)).
  unfold wrap_with_context. rewrite (same_nonce_counter ctx addr), !(same_nonce_block ctx addr) by done.
  assert (Hb : as_u8 (zlen inner) = zlen inner) by (unfold as_u8; rewrite Z.mod_small; lia). rewrite Hb.
  assert (Hm : forall a p b q, length b = BLOCK -> zlen a < 65536 ->
    take TP_MAC_LEN (snd (encrypt_data_ctr key (tp_counter_0 seq addr) (take TP_MAC_LEN (sim_cbc_mac key a p b)) q))
    = snd (encrypt_data_ctr key (tp_counter_0 seq addr) (take TP_MAC_LEN (sim_cbc_mac key a p b)) q)).
  { intros a p b q Hb' Ha. apply firstn_all2. rewrite length_enc_mac; rewrite ?length_take, ?sim_cbc_mac_octets; unfold TP_MAC_LEN, BLOCK; try done; lia. }
  destruct scf as [t [] sb sv]; cbn [sscf_algorithm scf_view algorithm algorithm_view SecurityAlgorithm_encrypts].
  - specialize (Hm (SimScf_to_byte (MkSimScf t AuthOnly sb sv) :: inner) [] (tp_block_0 seq addr 0) []
      (length_tp_block_0 _ _ _) ltac:(unfold zlen in *; cbn; lia)). cbn [app] in *.
    destruct (encrypt_data_ctr _ _ _ []) as [p m]. cbn [mbind result_bind mret result_ret snd] in *. by rewrite Hm.
  - specialize (Hm [SimScf_to_byte (MkSimScf t AuthEnc sb sv)] inner (tp_block_0 seq addr (zlen inner)) inner
      (length_tp_block_0 _ _ _) ltac:(done)).
    destruct (encrypt_data_ctr _ _ _ inner) as [p m]. cbn [mbind result_bind mret result_ret snd] in *. by rewrite Hm.
Qed.

(** A body verifies on the device when it does on the client. *)
Lemma open_body_eq key scf seq body mac ctx addr : same_nonce ctx addr -> zlen body < 256 -> length mac = TP_MAC_LEN ->
  verified (sim_open_body key scf (SimScf_to_byte scf) (Sequence_to_bytes seq) body mac ctx) =
  match open (Key16_new key) seq addr [SimScf_to_byte scf] body mac
          (SecurityAlgorithm_encrypts (algorithm_view (sscf_algorithm scf))) with
  | Ok plain => Ok plain
  | Err _ => Err SimMemory.SimBadMac
  end.
Proof.
  intros Hn Hb Hm. assert (0 <= zlen body) by (unfold zlen; lia).
  assert (Hm' : forall a p b q, length b = BLOCK -> zlen a < 65536 ->
    take TP_MAC_LEN (snd (encrypt_data_ctr key (tp_counter_0 seq addr) (take TP_MAC_LEN (sim_cbc_mac key a p b)) q))
    = snd (encrypt_data_ctr key (tp_counter_0 seq addr) (take TP_MAC_LEN (sim_cbc_mac key a p b)) q)).
  { intros a p b q Hb' Ha. apply firstn_all2. rewrite length_enc_mac; rewrite ?length_take, ?sim_cbc_mac_octets; unfold TP_MAC_LEN, BLOCK; try done; lia. }
  unfold sim_open_body, open, verified. rewrite (same_nonce_counter ctx addr) by done.
  destruct scf as [t [] sb sv]; cbn [sscf_algorithm algorithm_view SecurityAlgorithm_encrypts mbind result_bind mret result_ret].
  - rewrite seal_sim by (done || (unfold zlen in *; cbn [length]; lia)).
    rewrite (same_nonce_block ctx addr) by done. cbn [mbind result_bind app].
    specialize (Hm' (SimScf_to_byte (MkSimScf t AuthOnly sb sv) :: body) [] (tp_block_0 seq addr 0) []
      (length_tp_block_0 _ _ _) ltac:(unfold zlen in *; cbn [length]; lia)).
    destruct (encrypt_data_ctr _ _ _ []) as [p m]. cbn [snd] in *. rewrite Hm'. change ct_eq with constant_time_eq.
    by destruct (constant_time_eq m mac).
  - unfold decrypt_ctr, decrypt_data_ctr. rewrite encrypt_data_ctr_eq
      by (apply length_tp_counter_0 || (rewrite Hm; unfold TP_MAC_LEN, BLOCK; lia)).
    assert (Hl : length (fst (encrypt_data_ctr key (tp_counter_0 seq addr) mac body)) = length body).
    { pose proof (encrypt_data_ctr_eq key (tp_counter_0 seq addr) mac body) as E.
      rewrite encrypt_ctr_eq in E by (apply length_tp_counter_0 || (rewrite Hm; unfold TP_MAC_LEN, BLOCK; lia)).
      specialize (E ltac:(apply length_tp_counter_0) ltac:(rewrite Hm; unfold TP_MAC_LEN, BLOCK; lia)).
      apply Ok_inj in E as <-. apply length_apply_keystream. }
    destruct (encrypt_data_ctr _ _ mac body) as [plain rx]. cbn [fst map_err mbind result_bind mret result_ret] in *.
    assert (Hz : zlen plain = zlen body) by (unfold zlen; by rewrite Hl).
    rewrite seal_sim by (lia || (rewrite Hz; change (zlen [_]) with 1; lia)).
    assert (Hu : as_u8 (zlen plain) = zlen plain) by (unfold as_u8; rewrite Z.mod_small; lia).
    rewrite (same_nonce_block ctx addr), Hu by done. cbn [mbind result_bind].
    specialize (Hm' [SimScf_to_byte (MkSimScf t AuthEnc sb sv)] plain (tp_block_0 seq addr (zlen plain)) plain
      (length_tp_block_0 _ _ _) ltac:(done)).
    destruct (encrypt_data_ctr _ _ _ plain) as [p m]. cbn [snd] in *. rewrite Hm'. change ct_eq with constant_time_eq.
    by destruct (constant_time_eq m mac).
Qed.

(** What [open_fresh] reads of an ASDU is what the client's decoder splits it into. *)
Lemma open_fresh_split key asdu ctx addr last scf seqb body mac : bytes_ok asdu -> same_nonce ctx addr ->
  zlen body < 256 -> sscf_service scf = SecData ->
  asdu = SimScf_to_byte scf :: seqb ++ body ++ mac -> length seqb = SEQ_LEN -> length mac = TP_MAC_LEN ->
  let seq := Sequence_from_bytes seqb in
  open_fresh key asdu ctx last =
  (_ ← fresh_check last (Sequence_value seq);
   inner ← match open (Key16_new key) seq addr [SimScf_to_byte scf] body mac
                   (SecurityAlgorithm_encrypts (algorithm_view (sscf_algorithm scf))) with
           | Ok plain => Ok plain
           | Err _ => Err SimMemory.SimBadMac
           end;
   _ ← reserved_check inner seqb;
   mret (MkUnwrapped inner scf seqb)).
Proof.
  intros Hok Hn Hl Hsvc Ea Hs Hm seq.
  assert (Hsb : bytes_ok seqb) by (rewrite Ea in Hok; apply Forall_cons in Hok as [_ Hok]; rewrite !bytes_ok_app in Hok; tauto).
  pose proof (proj2 (split_asdu_spec asdu (scf_view scf) seqb body mac Hok)) as Esp.
  rewrite scf_to_byte_view in Esp. specialize (Esp (conj Ea (conj Hs Hm))). unfold split_asdu in Esp.
  case_bool_decide as Hlen; [done|]. apply bind_ok in Esp as (scf' & Escf & Esp). apply Ok_inj in Esp.
  apply pair_equal_spec in Esp as [Esp E3]. apply pair_equal_spec in Esp as [Esp E2]. apply pair_equal_spec in Esp as [-> E1].
  rewrite scf_from_byte_view in Escf. unfold open_fresh. destruct (Nat.ltb_spec (length asdu) (1 + SEQ_LEN + TP_MAC_LEN)) as [|_]; [done|].
  assert (E0 : nth 0 asdu 0 = SimScf_to_byte scf) by by rewrite Ea.
  assert (Ef : SimScf_from_byte (SimScf_to_byte scf) = Some scf) by (clear; destruct scf as [[] [] [] []]; reflexivity).
  rewrite E0, Ef, E1, E2, E3. cbn [ok_or mbind result_bind]. rewrite bool_decide_true by done. cbn [negb].
  rewrite seq_from_bytes_eq by done. fold seq. destruct (fresh_check last _); [|done]. cbn [mbind result_bind].
  rewrite <- (open_body_eq key scf seq body mac ctx addr) by done. unfold seq. by rewrite Sequence_to_from by done.
Qed.

(** An ASDU the device looks into has the four fields. *)
Lemma open_fresh_fields key asdu ctx last : bytes_ok asdu ->
  (exists scf seqb body mac, asdu = SimScf_to_byte scf :: seqb ++ body ++ mac /\ length seqb = SEQ_LEN /\
     length mac = TP_MAC_LEN /\ sscf_service scf = SecData) \/
  (exists e, open_fresh key asdu ctx last = Err e /\ (forall o s, e <> SimReservedBits o s)).
Proof.
  intros Hok. unfold open_fresh. destruct (Nat.ltb_spec (length asdu) (1 + SEQ_LEN + TP_MAC_LEN)) as [|Hlen];
    [right; by eexists|].
  destruct (SimScf_from_byte (nth 0 asdu 0)) as [scf|] eqn:Escf; [|right; by eexists]. cbn [ok_or mbind result_bind].
  case_bool_decide as Hsvc; [|right; by eexists]. left.
  assert (Esp : split_asdu asdu = Ok (scf_view scf, slice 1 (1 + SEQ_LEN) asdu,
    slice (1 + SEQ_LEN) (length asdu - TP_MAC_LEN) asdu, drop (length asdu - TP_MAC_LEN) asdu)).
  { unfold split_asdu. rewrite bool_decide_false by lia. by rewrite scf_from_byte_view, Escf. }
  apply split_asdu_spec in Esp as (Ea & Hs & Hm); [|done]. rewrite scf_to_byte_view in Ea. eauto 10.
Qed.

(** The device opens what a holder of the key wrapped for it, ... *)
Lemma open_fresh_wrapped key scf seq inner ctx addr last : same_nonce ctx addr -> zlen inner < 256 -> bytes_ok inner ->
  Sequence_ok seq -> sscf_service scf = SecData ->
  open_fresh key (wrap_with_context key scf (Sequence_to_bytes seq) inner ctx) ctx last =
  (_ ← fresh_check last (Sequence_value seq);
   _ ← reserved_check inner (Sequence_to_bytes seq);
   mret (MkUnwrapped inner scf (Sequence_to_bytes seq))).
Proof.
  intros Hn Hl Hi Hs Hsvc. pose proof (wrap_with_context_eq key scf seq inner ctx addr Hn Hl) as E.
  unfold encode_apdu in E. destruct (negb _); [done|]. apply bind_ok in E as ([secured mac] & Es & E). apply Ok_inj in E.
  destruct (seal_inv _ _ _ _ _ _ _ _ Es) as (Hm & Hsl & _).
  destruct (seal_octets_out _ _ _ _ _ _ _ _ Hi Es) as [Hso Hmo]. rewrite scf_to_byte_view in *.
  rewrite (open_fresh_split key _ ctx addr last scf (Sequence_to_bytes seq) secured mac).
  - rewrite Sequence_from_to by done. destruct (fresh_check last _); [|done]. cbn [mbind result_bind].
    apply open_seal in Es. cbn [scf_view algorithm] in Es. by rewrite Es.
  - rewrite <- E. constructor; [rewrite <- scf_to_byte_view; apply Scf_to_byte_u8|].
    apply Forall_app. split; [apply Sequence_to_bytes_ok|]. by apply Forall_app.
  - done.
  - unfold zlen in *. by rewrite Hsl.
  - done.
  - done.
  - apply length_Sequence_to_bytes.
  - done.
Qed.

(** ... and nothing else. *)
Lemma open_fresh_inv key asdu ctx addr last r : bytes_ok asdu -> same_nonce ctx addr -> zlen asdu <= 266 ->
  open_fresh key asdu ctx last = r ->
  match r with
  | Ok u => exists seq, Sequence_ok seq /\ uw_seq u = Sequence_to_bytes seq /\
      fresh_check last (Sequence_value seq) = Ok tt /\ sscf_service (uw_scf u) = SecData /\
      encode_apdu (Key16_new key) (scf_view (uw_scf u)) seq addr (inner_tpdu u) = Ok asdu
  | Err (SimReservedBits o s) => exists seq, Sequence_ok seq /\ s = Sequence_to_bytes seq /\
      fresh_check last (Sequence_value seq) = Ok tt
  | Err _ => True
  end.
Proof.
  intros Hok Hn Hl E. destruct (open_fresh_fields key asdu ctx last Hok) as [(scf & seqb & body & mac & Ea & Hs & Hm & Hsvc)|(e & Ee & He)].
  2:{ rewrite Ee in E. subst r. destruct e; try done. by destruct (He octet seq). }
  assert (Hlen : zlen asdu = 11 + zlen body) by (rewrite Ea; unfold zlen, SEQ_LEN, TP_MAC_LEN in *; cbn [length]; rewrite !length_app; lia).
  assert (Hsb : bytes_ok seqb) by (rewrite Ea in Hok; apply Forall_cons in Hok as [_ Hok]; rewrite !bytes_ok_app in Hok; tauto).
  rewrite (open_fresh_split key asdu ctx addr last scf seqb body mac) in E by (done || lia).
  set (seq := Sequence_from_bytes seqb) in *.
  assert (Hseq : Sequence_ok seq) by by apply Sequence_from_bytes_ok.
  assert (Hsq : Sequence_to_bytes seq = seqb) by by apply Sequence_to_from.
  destruct (fresh_check last (Sequence_value seq)) as [[]|e] eqn:Ef.
  2:{ subst r. unfold fresh_check in Ef. destruct last as [l|]; [|done]. destruct (_ <=? _); [|done]. by injection Ef as <-. }
  cbn [mbind result_bind] in E.
  destruct (open _ _ _ _ _ _ _) as [inner|] eqn:Eo; cbn [mbind result_bind] in E; [|by subst r].
  destruct (reserved_check inner seqb) as [[]|e] eqn:Er; cbn [mbind result_bind mret result_ret] in E; subst r.
  - exists seq. cbn [uw_seq uw_scf inner_tpdu]. repeat split_and; [done|done|done|done|].
    apply open_seal in Eo. unfold encode_apdu. destruct (seal_inv _ _ _ _ _ _ _ _ Eo) as (_ & Hil & _).
    assert (Hil' : (zlen inner <? 256) = true) by (apply Z.ltb_lt; unfold zlen in *; lia). rewrite Hil'. cbn [negb].
    rewrite scf_to_byte_view. cbn [scf_view algorithm]. rewrite Eo. cbn [mbind result_bind mret result_ret]. by rewrite Ea, Hsq.
  - unfold reserved_check in Er. destruct inner as [|o rest]; [done|]. destruct (negb _); [|done]. injection Er as <-. by exists seq.
Qed.

(** ** The S-A_Sync answer *)

Lemma enc_mac_any_payload key counter_0 mac p q : length counter_0 = BLOCK -> (length mac <= BLOCK)%nat ->
  snd (encrypt_data_ctr key counter_0 mac p) = snd (encrypt_data_ctr key counter_0 mac q).
Proof.
  intros Hc Hm. pose proof (encrypt_data_ctr_eq key counter_0 mac p Hc Hm) as E.
  pose proof (encrypt_data_ctr_eq key counter_0 mac q Hc Hm) as E'.
  rewrite encrypt_ctr_eq in E, E' by done. apply Ok_inj in E as <-. by apply Ok_inj in E' as <-.
Qed.

Lemma open_sync_request_eq key ctx addr seq b serial enc mac : same_nonce ctx addr -> length serial = 6%nat ->
  length enc = 6%nat -> length mac = TP_MAC_LEN ->
  open_sync_request key ctx b (Sequence_to_bytes seq) serial enc mac =
  match open (Key16_new key) seq addr (b :: serial) enc mac true with
  | Ok plain => Ok plain
  | Err _ => Err SimMemory.SimBadMac
  end.
Proof.
  intros Hn Hs He Hm. unfold open_sync_request, open. rewrite (same_nonce_counter ctx addr) by done.
  assert (Hm' : (length mac <= BLOCK)%nat) by (rewrite Hm; unfold TP_MAC_LEN, BLOCK; lia).
  pose proof (length_tp_counter_0 seq addr) as Hc.
  unfold decrypt_ctr, decrypt_data_ctr. rewrite encrypt_data_ctr_eq by done.
  assert (Hl : length (fst (encrypt_data_ctr key (tp_counter_0 seq addr) mac enc)) = length enc).
  { pose proof (encrypt_data_ctr_eq key _ mac enc Hc Hm') as E.
    rewrite encrypt_ctr_eq in E by done. apply Ok_inj in E as <-. apply length_apply_keystream. }
  destruct (encrypt_data_ctr _ _ mac enc) as [plain rx]. cbn [fst map_err mbind result_bind mret result_ret] in *.
  assert (Hz : zlen plain = 6) by (unfold zlen; by rewrite Hl, He).
  rewrite seal_sim by ((rewrite Hz; done) || (rewrite Hz; unfold zlen; cbn [length]; rewrite Hs; done)). rewrite (same_nonce_block ctx addr), Hz by done.
  cbn [mbind result_bind].
  set (tag := take TP_MAC_LEN _). assert (Ht : (length tag <= BLOCK)%nat) by (unfold tag; rewrite length_take; unfold TP_MAC_LEN, BLOCK; lia).
  pose proof (enc_mac_any_payload key _ tag [] plain Hc Ht) as Ep.
  destruct (encrypt_data_ctr _ _ tag []) as [p1 m1]. destruct (encrypt_data_ctr _ _ tag plain) as [p2 m2]. cbn [snd] in Ep. subst m2.
  change ct_eq with constant_time_eq. by destruct (constant_time_eq m1 mac).
Qed.

Lemma seal_sync_response_eq key rctx raddr nonce challenge a b : same_nonce rctx raddr ->
  encode_sync_res (Key16_new key) (Scf_tool_sync SvcSyncRes) (MkSyncResponse a b) challenge nonce raddr
  = Ok (seal_sync_response key true rctx (Sequence_to_bytes nonce) challenge (Sequence_to_bytes a ++ Sequence_to_bytes b)).
Proof.
  intros Hn. unfold encode_sync_res. cbn [service Scf_tool_sync responder_sequence requester_sequence algorithm SecurityAlgorithm_encrypts].
  rewrite bool_decide_true by done. cbn [negb]. set (plain := Sequence_to_bytes a ++ Sequence_to_bytes b).
  assert (Hl : zlen plain = 12) by (unfold zlen, plain; rewrite length_app, !length_Sequence_to_bytes; done).
  rewrite seal_sim by (rewrite Hl; done). unfold seal_sync_response. change (SimScf_to_byte _) with (Scf_to_byte (Scf_tool_sync SvcSyncRes)).
  rewrite (same_nonce_counter rctx raddr), (same_nonce_block rctx raddr) by done. change (as_u8 (zlen plain)) with (zlen plain mod 256).
  rewrite Hl. change (12 mod 256) with 12. destruct (encrypt_data_ctr _ _ _ plain) as [p m]. reflexivity.
Qed.

(** The counter the device stores when it answers. *)
Definition sync_stored (s : SimDataSession) (source : u16) (seq : Sequence) : u64 :=
  Z.max (rx_bound (sds_rx_last s) (sds_rx_floor s) source) (saturating_sub (Sequence_value seq) 1).

Definition sync_answered (s : SimDataSession) (source : u16) (seq : Sequence) (now : Z) : SimDataSession :=
  sds_put_last_sync_res (Some now) (sds_put_rx_last (<[source := sync_stored s source seq]> (sds_rx_last s)) s).

Lemma device_answers_sync s carrier tpci addr rcarrier rtpci raddr receiver seq challenge asdu :
  same_nonce (FrameContext_from_cemi carrier tpci) addr -> same_nonce (FrameContext_from_cemi rcarrier rtpci) raddr ->
  Sequence_ok seq -> bytes_ok challenge -> length challenge = CHALLENGE_LEN ->
  encode_sync_req (Key16_new (sds_tool_key s)) (Scf_tool_sync SvcSyncReq)
    (MkSyncRequest seq (replicate SERIAL_LEN 0) challenge) addr = Ok asdu ->
  sync_request_due s carrier (replicate SERIAL_LEN 0) receiver = Ok tt ->
  is_u48 (sds_tx_seq s) -> sync_stored s (sim_ia_raw (sim_source carrier)) seq < MAX_SEQUENCE ->
  exists res nonce, Sequence_ok nonce /\
    encode_sync_res (Key16_new (sds_tool_key s)) (Scf_tool_sync SvcSyncRes)
      (MkSyncResponse (MkSequence (sds_tx_seq s)) (MkSequence (sync_stored s (sim_ia_raw (sim_source carrier)) seq + 1)))
      challenge nonce raddr = Ok res /\
    SimDataSession_answer_sync_request s carrier tpci asdu rcarrier rtpci receiver
    = (Ok res, sync_answered s (sim_ia_raw (sim_source carrier)) seq (sr_now receiver)).
Proof.
  intros Hn Hrn Hseq Hch Hchl E Hdue Htx Hst. set (source := sim_ia_raw (sim_source carrier)) in *.
  set (nonce := MkSequence (Z.lxor (sds_tx_seq s) 99344109427290)).
  assert (Hno : Sequence_ok nonce).
  { unfold Sequence_ok, nonce, is_u48 in *. cbn [Sequence_value].
    assert (Hnn : 0 <= Z.lxor (sds_tx_seq s) 99344109427290) by (apply Z.lxor_nonneg; lia). split; [exact Hnn|].
    destruct (Z.eq_dec (Z.lxor (sds_tx_seq s) 99344109427290) 0) as [->|Hnz]; [done|].
    change 281474976710656 with (2 ^ 48). apply Z.log2_lt_pow2; [lia|].
    eapply Z.le_lt_trans; [apply Z.log2_lxor; lia|]. apply Z.max_lub_lt; [|done].
    destruct (Z.eq_dec (sds_tx_seq s) 0) as [->|]; [done|]. apply Z.log2_lt_pow2; [lia|]. change (2 ^ 48) with 281474976710656. lia. }
  unfold encode_sync_req in E. cbn [service Scf_tool_sync sr_sequence sr_serial sr_challenge algorithm SecurityAlgorithm_encrypts] in E.
  rewrite bool_decide_true in E by done. cbn [negb] in E. apply bind_ok in E as ([enc mac] & Es & E). apply Ok_inj in E.
  destruct (seal_inv _ _ _ _ _ _ _ _ Es) as (Hm & Hel & _). rewrite Hchl in Hel. cbn [SecurityAlgorithm_encrypts] in *.
  exists (seal_sync_response (sds_tool_key s) true (FrameContext_from_cemi rcarrier rtpci) (Sequence_to_bytes nonce) challenge
    (Sequence_to_bytes (MkSequence (sds_tx_seq s)) ++ Sequence_to_bytes (MkSequence (sync_stored s source seq + 1)))), nonce.
  split; [done|]. split; [by apply seal_sync_response_eq|].
  set (sb := Scf_to_byte (Scf_tool_sync SvcSyncReq)) in *. set (sq := Sequence_to_bytes seq) in *.
  assert (Hsq : length sq = 6%nat) by apply length_Sequence_to_bytes.
  assert (Hlen : length asdu = 23%nat).
  { rewrite <- E. cbn [length]. rewrite !length_app, Hsq, Hel, Hm, length_replicate. done. }
  assert (E1 : slice 1 7 asdu = sq) by (rewrite <- E; unfold slice; cbn [drop Nat.sub]; by apply take_app_length').
  assert (E2 : slice 7 13 asdu = replicate SERIAL_LEN 0).
  { rewrite <- E. unfold slice. change (drop 7 (sb :: ?l)) with (drop 6 l). cbn [drop Nat.sub]. rewrite drop_app_length' by done. by apply take_app_length'. }
  assert (E3 : slice 13 19 asdu = enc).
  { rewrite <- E. unfold slice. change (drop 13 (sb :: ?l)) with (drop 12 l). rewrite app_assoc, drop_app_length' by (rewrite length_app, Hsq; done).
    by apply take_app_length'. }
  assert (E4 : slice 19 23 asdu = mac).
  { rewrite <- E. unfold slice. change (drop 19 (sb :: ?l)) with (drop 18 l).
    rewrite app_assoc, app_assoc, drop_app_length' by (rewrite !length_app, Hsq, Hel; done). apply firstn_all2. rewrite Hm. done. }
  unfold SimDataSession_answer_sync_request. rewrite Hlen. cbn [Nat.eqb Nat.add SEQ_LEN TP_MAC_LEN negb].
  assert (E0 : nth 0 asdu 0 = sb) by by rewrite <- E. rewrite E0, E1, E2, E3, E4.
  change (SimScf_from_byte sb) with (Some (MkSimScf true AuthEnc false SecSyncReq)). cbn [sscf_service sscf_tool_access].
  rewrite bool_decide_true by done. cbn [negb]. rewrite Hdue. unfold sq.
  rewrite (open_sync_request_eq _ _ addr) by done. rewrite (proj2 (open_seal _ _ _ _ _ _ _ _) Es).
  unfold sync_answered, sync_stored. fold source sq. cbn [sds_tx_seq sds_put_rx_last sds_put_last_sync_res sds_tool_key].
  assert (Hv : seq_from_bytes sq = Sequence_value seq).
  { rewrite seq_from_bytes_eq by (apply Sequence_to_bytes_ok || done). unfold sq. by rewrite Sequence_from_to by done. }
  rewrite Hv. f_equal. f_equal. fold (sync_stored s source seq).
  assert (0 <= sync_stored s source seq) by (unfold sync_stored, saturating_sub; lia).
  replace (u64_saturating_add (sync_stored s source seq) 1) with (sync_stored s source seq + 1)
    by (unfold u64_saturating_add, u64_max, MAX_SEQUENCE in *; lia).
  reflexivity.
Qed.

End Agreement.

(** ** Histories *)

(** What can happen to a session: records of any origin, answers, and the writes
    that exchange its key or its send sequence. *)
Inductive SecureEvent : Type :=
| EvToolData (carrier : CemiLData) (tpci : u8) (asdu : bytes)
| EvGroupData (group_key : bytes) (carrier : CemiLData) (asdu : bytes)
| EvSyncRequest (carrier : CemiLData) (tpci : u8) (asdu : bytes) (resp_carrier : CemiLData) (resp_tpci : u8)
    (receiver : SyncReceiver)
| EvAnswer (carrier : CemiLData) (tpci : u8) (algorithm : SecAlgorithm) (inner : bytes)
| EvGroupSend (group_key : bytes) (carrier : CemiLData) (algorithm : SecAlgorithm) (inner : bytes)
| EvToolKey (key : bytes)
| EvTxSeq (seq : u64).

(** A table a sequence was accepted against: tool access or group, and the source. *)
Definition Sender : Type := bool * Z.

Definition sender_bound (s : SimDataSession) (who : Sender) : u64 :=
  rx_bound (if fst who then sds_group_rx_last s else sds_rx_last s) (sds_rx_floor s) (snd who).

Definition accepted_as (group : bool) (carrier : CemiLData) (r : result SimSecureError Unwrapped) : list (Sender * u64) :=
  match r with
  | Ok u => [((group, sim_ia_raw (sim_source carrier)), seq_from_bytes (uw_seq u))]
  | Err _ => []
  end.

Section Histories.
  Context `{C : SecureCiphers}.

(** One event: what it accepts, and the session after. *)
Definition secure_event (s : SimDataSession) (ev : SecureEvent) : list (Sender * u64) * SimDataSession :=
  match ev with
  | EvToolData carrier tpci asdu =>
      let '(r, s) := SimDataSession_unwrap_incoming s carrier tpci asdu in (accepted_as false carrier r, s)
  | EvGroupData key carrier asdu =>
      let '(r, s) := SimDataSession_unwrap_group_incoming s key carrier asdu in (accepted_as true carrier r, s)
  | EvSyncRequest carrier tpci asdu rcarrier rtpci receiver =>
      ([], snd (SimDataSession_answer_sync_request s carrier tpci asdu rcarrier rtpci receiver))
  | EvAnswer carrier tpci algorithm inner => ([], snd (SimDataSession_wrap_outgoing s carrier tpci algorithm inner))
  | EvGroupSend key carrier algorithm inner =>
      ([], snd (SimDataSession_wrap_group_outgoing s key carrier algorithm inner))
  | EvToolKey key => ([], sds_set_tool_key key s)
  | EvTxSeq seq => ([], sds_set_tx_seq seq s)
  end.

(** The sequences a history accepts, in order, with their senders. *)
Fixpoint secure_history (s : SimDataSession) (evs : list SecureEvent) : list (Sender * u64) :=
  match evs with
  | [] => []
  | ev :: evs => let '(out, s) := secure_event s ev in out ++ secure_history s evs
  end.

Lemma rx_bound_insert t floor source source' v :
  rx_bound (<[source := v]> t) floor source' = if decide (source = source') then v else rx_bound t floor source'.
Proof. unfold rx_bound. by rewrite lookup_insert; destruct (decide _). Qed.

Lemma rx_bound_raise t floor source source' got :
  rx_bound (raise_entry t floor source got) floor source' =
  if decide (source = source') then Z.max (rx_bound t floor source) got else rx_bound t floor source'.
Proof.
  unfold raise_entry. rewrite rx_bound_insert. destruct (decide _); [|done].
  destruct (Z.ltb_spec (rx_bound t floor source) got); lia.
Qed.

Lemma open_fresh_above key asdu ctx last u : open_fresh key asdu ctx (Some last) = Ok u -> last < seq_from_bytes (uw_seq u).
Proof.
  unfold open_fresh. destruct (_ <? _)%nat; [done|]. intros E.
  apply bind_ok in E as (scf & _ & E). destruct (negb _); [done|].
  apply bind_ok in E as ([] & Ef & E). apply bind_ok in E as (inner & _ & E). apply bind_ok in E as (? & _ & E).
  apply Ok_inj in E. subst u. cbn [uw_seq]. unfold fresh_check in Ef. destruct (Z.leb_spec (seq_from_bytes (slice 1 (1 + SEQ_LEN) asdu)) last); [done|lia].
Qed.

Lemma commit_bound s source seq who :
  sender_bound (SimDataSession_commit_rx s source seq) who =
  if decide (who = (false, source)) then Z.max (sender_bound s who) (seq_from_bytes seq) else sender_bound s who.
Proof.
  destruct who as [[] w]; [by rewrite decide_False by congruence|]. unfold sender_bound.
  cbn [fst snd SimDataSession_commit_rx sds_put_rx_last sds_rx_last sds_rx_floor]. rewrite rx_bound_raise.
  destruct (decide (source = w)) as [->|]; [by rewrite decide_True by done|by rewrite decide_False by congruence].
Qed.

Lemma commit_group_bound s source seq who :
  sender_bound (SimDataSession_commit_group_rx s source seq) who =
  if decide (who = (true, source)) then Z.max (sender_bound s who) (seq_from_bytes seq) else sender_bound s who.
Proof.
  destruct who as [[] w]; [|by rewrite decide_False by congruence]. unfold sender_bound.
  cbn [fst snd SimDataSession_commit_group_rx sds_put_group_rx_last sds_group_rx_last sds_rx_floor]. rewrite rx_bound_raise.
  destruct (decide (source = w)) as [->|]; [by rewrite decide_True by done|by rewrite decide_False by congruence].
Qed.

(** An event only raises what a sender must exceed, and raises it to what it
    accepts. *)
Lemma secure_event_bounds s ev out s' : secure_event s ev = (out, s') ->
  (forall who, sender_bound s who <= sender_bound s' who) /\
  (out = [] \/ exists who v, out = [(who, v)] /\ sender_bound s who < v <= sender_bound s' who).
Proof.
  destruct ev as [carrier tpci asdu|key carrier asdu|carrier tpci asdu rc rt rcv|carrier tpci alg inner|key carrier alg inner|key|seq];
    cbn [secure_event].
  - unfold SimDataSession_unwrap_incoming, SimDataSession_unwrap_with_context.
    set (source := sim_ia_raw (sim_source carrier)).
    destruct (open_fresh _ _ _ _) as [u|e] eqn:E.
    + intros [= <- <-]. apply open_fresh_above in E. change (rx_bound _ _ source) with (sender_bound s (false, source)) in E. split.
      * intros who. rewrite commit_bound. destruct (decide _); lia.
      * right. exists (false, source), (seq_from_bytes (uw_seq u)). split; [done|].
        rewrite commit_bound, decide_True by done. lia.
    + destruct e; intros [= <- <-]; (split; [|by left]); intros who; first [lia | rewrite commit_bound; destruct (decide _); lia].
  - unfold SimDataSession_unwrap_group_incoming. set (source := sim_ia_raw (sim_source carrier)).
    destruct (check_group_scf asdu); [|intros [= <- <-]; split; [done|by left]].
    destruct (open_fresh _ _ _ _) as [u|e] eqn:E.
    + intros [= <- <-]. apply open_fresh_above in E. change (rx_bound _ _ source) with (sender_bound s (true, source)) in E. split.
      * intros who. rewrite commit_group_bound. destruct (decide _); lia.
      * right. exists (true, source), (seq_from_bytes (uw_seq u)). split; [done|].
        rewrite commit_group_bound, decide_True by done. lia.
    + destruct e; intros [= <- <-]; (split; [|by left]); intros who; first [lia | rewrite commit_group_bound; destruct (decide _); lia].
  - intros [= <- <-]. split; [|by left]. intros [b w].
    unfold SimDataSession_answer_sync_request. destruct (negb _); [done|]. destruct (SimScf_from_byte _) as [scf|]; [|done].
    destruct (negb _); [done|]. destruct (sync_request_due _ _ _ _); [|done]. destruct (open_sync_request _ _ _ _ _ _ _); [|done].
    destruct b; [done|]. unfold sender_bound. cbn [fst snd sds_rx_last sds_put_last_sync_res sds_put_rx_last sds_rx_floor].
    rewrite rx_bound_insert. destruct (decide _) as [->|]; lia.
  - intros [= <- <-]. split; [|by left]. by intros [[] w].
  - intros [= <- <-]. split; [|by left]. by intros [[] w].
  - intros [= <- <-]. split; [|by left]. by intros [[] w].
  - intros [= <- <-]. split; [|by left]. by intros [[] w].
Qed.

End Histories.

Section Properties.
  Context `{C : SecureCiphers, L : !SecureCiphersLaws C}.

Definition reserved_clear (inner : bytes) : Prop :=
  match inner with
  | octet :: _ => Z.land octet 252 = 0
  | [] => True
  end.

Lemma reserved_check_ok inner seq : reserved_check inner seq = Ok tt <-> reserved_clear inner.
Proof. destruct inner as [|o r]; [done|]. cbn. destruct (Z.eqb_spec (Z.land o 252) 0); cbn; done. Qed.

Lemma fresh_check_ok last got : fresh_check (Some last) got = Ok tt <-> last < got.
Proof. cbn. destruct (Z.leb_spec got last); split; (done || lia). Qed.

(** A secured record the device accepts. *)
Definition sealed_record (s : SimDataSession) (source : u16) (addr : TpAddressing) (asdu : bytes) (u : Unwrapped) : Prop :=
  exists seq, Sequence_ok seq /\ uw_seq u = Sequence_to_bytes seq /\
    rx_bound (sds_rx_last s) (sds_rx_floor s) source < Sequence_value seq /\
    sscf_service (uw_scf u) = SecData /\ reserved_clear (inner_tpdu u) /\
    encode_apdu (Key16_new (sds_tool_key s)) (scf_view (uw_scf u)) seq addr (inner_tpdu u) = Ok asdu.

(** What remembering a fresh sequence changes. *)
Lemma commit_fresh s source seq b : Sequence_ok seq -> b = Sequence_to_bytes seq ->
  rx_bound (sds_rx_last s) (sds_rx_floor s) source < Sequence_value seq ->
  SimDataSession_commit_rx s source b
  = MkSimDataSession (sds_tool_key s) (sds_tx_seq s) (<[source := seq_from_bytes b]> (sds_rx_last s))
      (sds_group_rx_last s) (sds_rx_floor s) (sds_require_secure s) (sds_last_sync_res s).
Proof.
  intros Hs -> Hf. unfold SimDataSession_commit_rx, raise_entry, sds_put_rx_last.
  rewrite seq_from_bytes_eq by (apply Sequence_to_bytes_ok || done). rewrite Sequence_from_to by done.
  by rewrite (proj2 (Z.ltb_lt _ _) Hf).
Qed.

(** C21: the device accepts exactly what the client's encoder makes under the
    device's tool key, addressing and a fresh sequence: a record is opened if and
    only if it is the encoding of the APDU that is delivered, with a service of
    S-A_Data, clear reserved bits and a sequence above the sender's last one.  It
    then remembers that sequence as the sender's last one, and nothing else of it
    changes: not another sender's, a group's, the keys, the floor, its own send
    sequence, the security mode or the last sync. *)
Theorem device_accepts_exactly_sealed s carrier tpci addr asdu u s' :
  bytes_ok asdu -> zlen asdu <= 266 -> same_nonce (FrameContext_from_cemi carrier tpci) addr ->
  SimDataSession_unwrap_incoming s carrier tpci asdu = (Ok u, s') <->
  sealed_record s (sim_ia_raw (sim_source carrier)) addr asdu u /\
  s' = MkSimDataSession (sds_tool_key s) (sds_tx_seq s)
         (<[sim_ia_raw (sim_source carrier) := seq_from_bytes (uw_seq u)]> (sds_rx_last s))
         (sds_group_rx_last s) (sds_rx_floor s) (sds_require_secure s) (sds_last_sync_res s).
Proof.
  intros Hok Hl Hn. unfold SimDataSession_unwrap_incoming, SimDataSession_unwrap_with_context, sealed_record.
  set (source := sim_ia_raw (sim_source carrier)). set (last := rx_bound _ _ source). split.
  - destruct (open_fresh _ _ _ _) as [v|e] eqn:E; [|by destruct e]. intros [= -> <-].
    pose proof (open_fresh_inv _ _ _ addr _ _ Hok Hn Hl E) as (seq & H1 & H2 & H3 & H4 & H5).
    split; [|by apply (commit_fresh s source seq); [..|apply fresh_check_ok]].
    exists seq. repeat split_and; [done|done|by apply fresh_check_ok|done| |done].
    unfold open_fresh in E. destruct (_ <? _)%nat; [done|].
    apply bind_ok in E as (scf & _ & E). destruct (negb _); [done|]. apply bind_ok in E as (? & _ & E).
    apply bind_ok in E as (inner & _ & E). apply bind_ok in E as ([] & Er & E). apply Ok_inj in E. subst u. by apply reserved_check_ok in Er.
  - intros [(seq & H1 & H2 & H3 & H4 & H5 & H6) ->]. rewrite <- (commit_fresh s source seq) by done.
    assert (Hi : zlen (inner_tpdu u) < 256).
    { unfold encode_apdu in H6. destruct (Z.ltb_spec (zlen (inner_tpdu u)) 256); [done|done]. }
    pose proof (wrap_with_context_eq (sds_tool_key s) (uw_scf u) seq (inner_tpdu u) _ addr Hn Hi) as Ew. rewrite H6 in Ew. apply Ok_inj in Ew.
    assert (Hio : bytes_ok (inner_tpdu u)).
    { unfold encode_apdu in H6. destruct (negb _); [done|]. apply bind_ok in H6 as ([sec mac] & Es & E). apply Ok_inj in E.
      eapply seal_octets; [|exact Es]. rewrite <- E in Hok. apply Forall_cons in Hok as [_ Hok]. rewrite !bytes_ok_app in Hok. tauto. }
    rewrite Ew, (open_fresh_wrapped _ _ _ _ _ addr) by done.
    apply fresh_check_ok in H3. fold last in H3. rewrite H3. cbn [mbind result_bind].
    apply (reserved_check_ok _ (Sequence_to_bytes seq)) in H5. rewrite H5. cbn [mbind result_bind mret result_ret].
    rewrite <- H2. by destruct u.
Qed.

(** C22: no record is accepted twice, whatever happens to the device: over any
    history of secured records of any origin, sync requests, answers, group
    telegrams and writes of the key and of the send sequence, the sequences accepted
    from one sender strictly increase and stay above what the device had stored for
    it, in the tool-access table and in the group table alike. *)
Theorem device_never_accepts_twice (evs : list SecureEvent) : forall s (who : Sender),
  StronglySorted Z.lt (map snd (filter (fun a => fst a = who) (secure_history s evs))) /\
  Forall (fun v => sender_bound s who < v) (map snd (filter (fun a => fst a = who) (secure_history s evs))).
Proof.
  induction evs as [|ev evs IH]; intros s who; cbn [secure_history]; [split; constructor|].
  destruct (secure_event s ev) as [out s'] eqn:E. apply secure_event_bounds in E as [Hm Hout].
  destruct (IH s' who) as [Hs Hf]. specialize (Hm who).
  assert (Hf' : Forall (fun v => sender_bound s who < v) (map snd (filter (fun a => fst a = who) (secure_history s' evs)))).
  { eapply Forall_impl; [exact Hf|]. cbn beta. intros. lia. }
  destruct Hout as [->|(w & v & -> & Hv)]; [done|]. cbn [app]. rewrite filter_cons. cbn [fst].
  destruct (decide (w = who)) as [->|]; [|done]. cbn [map snd]. split.
  - constructor; [done|]. eapply Forall_impl; [exact Hf|]. cbn beta. intros. lia.
  - constructor; [lia|done].
Qed.

End Properties.

(** ** Examples *)

Definition demo_secure_session : SimDataSession := SimDataSession_new (replicate 16 7) 500 50.
Definition demo_carrier : CemiLData := MkCemiLData SimLDataInd 188 96 (MkSimIA 4351) 4356 [67; 241].

(** The carrier's hop count rides in the same octet as the address type: only the
    low nibble enters the nonce. *)
Lemma demo_same_nonce : same_nonce (FrameContext_from_cemi demo_carrier 16) (MkTpAddressing 4351 4356 false 0 64).
Proof. repeat split. Qed.

Definition demo_record (seq : Z) : bytes :=
  @wrap_with_context demo_ciphers (replicate 16 7) (tool_scf AuthEnc) (seq_to_bytes seq) [3; 213; 0; 11; 16; 1]
    (FrameContext_from_cemi demo_carrier 16).

Lemma device_accepts_exactly_sealed_witness :
  exists u s', @SimDataSession_unwrap_incoming demo_ciphers demo_secure_session demo_carrier 16 (demo_record 51) = (Ok u, s') /\
    @sealed_record demo_ciphers demo_secure_session 4351 (MkTpAddressing 4351 4356 false 0 64) (demo_record 51) u.
Proof.
  eexists _, _. split; [vm_compute; reflexivity|].
  refine (proj1 (proj1 (@device_accepts_exactly_sealed demo_ciphers _ demo_secure_session demo_carrier 16
    (MkTpAddressing 4351 4356 false 0 64) (demo_record 51) _ _ _ _ demo_same_nonce) _)).
  - apply (bool_decide_eq_true_1 _). vm_compute. reflexivity.
  - vm_compute. done.
  - vm_compute. reflexivity.
Defined.

(** A replay, a record of before the floor and one refused by the key. *)
Lemma device_never_accepts_twice_witness :
  let record seq := EvToolData demo_carrier 16 (demo_record seq) in
  let evs := [record 50; record 51; record 60; record 51; record 60; EvToolKey (replicate 16 9); record 70] in
  @secure_history demo_ciphers demo_secure_session evs = [((false, 4351), 51); ((false, 4351), 60)] /\
  StronglySorted Z.lt (map snd (filter (fun a => fst a = (false, 4351)) (@secure_history demo_ciphers demo_secure_session evs))).
Proof.
  intros record evs. split; [vm_compute; reflexivity|].
  exact (proj1 (@device_never_accepts_twice demo_ciphers evs demo_secure_session (false, 4351))).
Defined.
