(* ===== verification/SimTransport.v ===== *)
(** * The simulator's transport layer ([knx-sim/src/device/transport.rs])

    The Style 3 server side of a connection-oriented transport connection:
    opening and closing, numbered data with acknowledgement and duplicate
    suppression, the response waiting for its T_ACK with its repetitions, and the
    two timers; driven by [handle_cemi_at] and [tick_l4].  The application layer
    is the interface [DeviceApp]. *)

From S2P Require Import Prelude SimWire SimMemory.

Local Open Scope string_scope.
Local Open Scope list_scope.
Local Open Scope Z_scope.

(** Instants and durations, in nanoseconds. *)
Definition CONNECTION_TIMEOUT : Z := 6000000000.
Definition ACKNOWLEDGE_TIMEOUT : Z := 3000000000.
Definition MAX_REPETITIONS : u8 := 3.
Definition CTRL1_SYSTEM : u8 := 176.

Record DeviceReaction : Type := MkReaction {
  responses : list CemiLData;
  did_master_reset : bool }.

Definition DeviceReaction_default : DeviceReaction := MkReaction [] false.

(** ** The application interface

    [handle_apdu] sees whether a connection is open and the send sequence (its
    answers are numbered with it) and may drop the connection (a restart). *)
Record AppResult (A : Type) : Type := MkAppResult {
  ar_result : result DeviceError DeviceReaction;
  ar_app : A;
  ar_connected : bool;
  ar_tx_seq : u8 }.
Arguments MkAppResult {A}.
Arguments ar_result {A}.
Arguments ar_app {A}.
Arguments ar_connected {A}.
Arguments ar_tx_seq {A}.

Class DeviceApp (A : Type) : Type := {
  app_address : A -> SimIndividualAddress;
  app_sys7 : A -> bool;
  app_clear_verify_mode : A -> A;
  handle_apdu : A -> bool -> u8 -> CemiLData -> SimApdu -> AppResult A }.

(** No service opens a connection; without one, numbered data is refused unless
    it reads the device descriptor of type 0, which a device with Data Secure
    activated answers in the clear; clearing verify mode keeps the address. *)
Class DeviceAppLaws (A : Type) `{DeviceApp A} : Prop := {
  app_never_connects : forall a tx cemi apdu,
    ar_connected (handle_apdu a false tx cemi apdu) = false;
  app_needs_connection : forall a tx cemi apdu,
    Z.land (nth 0 (sim_tpdu cemi) 0) 192 = 64 ->
    sim_apci apdu <> SimDeviceDescriptorRead 0 ->
    exists e, ar_result (handle_apdu a false tx cemi apdu) = Err e;
  app_clear_keeps_address : forall a, app_address (app_clear_verify_mode a) = app_address a }.

Section Device.
  Context {A : Type} `{DeviceApp A}.

(** ** State *)

Record PendingResponse : Type := MkPending {
  pr_frame : CemiLData;
  pr_seq : u8;
  pr_sent_at : Z;
  pr_repetitions : u8 }.

Record L4Session : Type := MkL4 {
  l4_peer : SimIndividualAddress;
  l4_last_traffic : Z;
  l4_pending : option PendingResponse;
  l4_strict_drop : bool }.

Record Device : Type := MkDevice {
  d_app : A;
  d_connected : bool;
  d_tx_seq : u8;
  d_rx_seq : u8;
  d_exchange_budget : option Z;
  d_exchanges : Z;
  d_l4 : L4Session }.

(** The device's address, which services of the application change. *)
Definition d_address (d : Device) : SimIndividualAddress := app_address (d_app d).

(** Field updates. *)
Definition set_app (a : A) (d : Device) : Device :=
  MkDevice a (d_connected d) (d_tx_seq d) (d_rx_seq d) (d_exchange_budget d)
    (d_exchanges d) (d_l4 d).
Definition set_connected (b : bool) (d : Device) : Device :=
  MkDevice (d_app d) b (d_tx_seq d) (d_rx_seq d) (d_exchange_budget d)
    (d_exchanges d) (d_l4 d).
Definition set_tx_seq (v : u8) (d : Device) : Device :=
  MkDevice (d_app d) (d_connected d) v (d_rx_seq d) (d_exchange_budget d)
    (d_exchanges d) (d_l4 d).
Definition set_rx_seq (v : u8) (d : Device) : Device :=
  MkDevice (d_app d) (d_connected d) (d_tx_seq d) v (d_exchange_budget d)
    (d_exchanges d) (d_l4 d).
Definition set_exchanges (v : Z) (d : Device) : Device :=
  MkDevice (d_app d) (d_connected d) (d_tx_seq d) (d_rx_seq d) (d_exchange_budget d)
    v (d_l4 d).
Definition set_l4 (l : L4Session) (d : Device) : Device :=
  MkDevice (d_app d) (d_connected d) (d_tx_seq d) (d_rx_seq d) (d_exchange_budget d)
    (d_exchanges d) l.
Definition set_pending (p : option PendingResponse) (d : Device) : Device :=
  set_l4 (MkL4 (l4_peer (d_l4 d)) (l4_last_traffic (d_l4 d)) p (l4_strict_drop (d_l4 d))) d.
Definition set_last_traffic (t : Z) (d : Device) : Device :=
  set_l4 (MkL4 (l4_peer (d_l4 d)) t (l4_pending (d_l4 d)) (l4_strict_drop (d_l4 d))) d.

Definition Device_with_strict_l4_drop (d : Device) (on : bool) : Device :=
  set_l4 (MkL4 (l4_peer (d_l4 d)) (l4_last_traffic (d_l4 d)) (l4_pending (d_l4 d)) on) d.

Definition Device_l4_connected_to (d : Device) (peer : SimIndividualAddress) : bool :=
  d_connected d && bool_decide (l4_peer (d_l4 d) = peer).

(** ** Control frames *)

Definition t_control (d : Device) (to : SimIndividualAddress) (octet : u8) : CemiLData :=
  MkCemiLData SimLDataInd CTRL1_SYSTEM 96 (d_address d) (sim_ia_raw to) [octet].

Definition sim_t_ack (d : Device) (to : SimIndividualAddress) (seq : u8) : CemiLData :=
  t_control d to (sim_ack_byte seq).

(** [respond]: a numbered answer and the advanced send sequence. *)
Definition respond (d : Device) (to : SimIndividualAddress) (apci10 : u16) (data : bytes)
    : CemiLData * Device :=
  let seq := d_tx_seq d in
  (MkCemiLData SimLDataInd 188 96 (d_address d) (sim_ia_raw to)
     (sim_encode_connected seq apci10 data),
   set_tx_seq (Z.land (d_tx_seq d + 1) 15) d).

(** ** Opening and closing *)

Definition clear_verify_if_sys7 (d : Device) : Device :=
  if app_sys7 (d_app d) then set_app (app_clear_verify_mode (d_app d)) d else d.

Definition l4_close (d : Device) : Device :=
  clear_verify_if_sys7 (set_pending None (set_connected false d)).

Definition l4_abandon (d : Device) : list CemiLData * Device :=
  let peer := l4_peer (d_l4 d) in
  let d := l4_close d in
  ([t_control d peer SIM_DISCONNECT_BYTE], d).

Definition l4_open (d : Device) (peer : SimIndividualAddress) (now : Z) : Device :=
  clear_verify_if_sys7
    (set_exchanges 0 (set_rx_seq 0 (set_tx_seq 0
       (set_l4 (MkL4 peer now None (l4_strict_drop (d_l4 d))) (set_connected true d))))).

(** [saturating_duration_since]. *)
Definition duration_since (now earlier : Z) : Z := Z.max 0 (now - earlier).

Definition expire_l4 (d : Device) (now : Z) : list CemiLData * Device :=
  if d_connected d && (CONNECTION_TIMEOUT <=? duration_since now (l4_last_traffic (d_l4 d)))
  then l4_abandon d
  else ([], d).

(** ** Timers *)

Definition tick_l4 (d : Device) (now : Z) : list CemiLData * Device :=
  if negb (d_connected d) then ([], d) else
  if CONNECTION_TIMEOUT <=? duration_since now (l4_last_traffic (d_l4 d)) then l4_abandon d else
  match l4_pending (d_l4 d) with
  | None => ([], d)
  | Some p =>
      if duration_since now (pr_sent_at p) <? ACKNOWLEDGE_TIMEOUT then ([], d)
      else if MAX_REPETITIONS <=? pr_repetitions p then l4_abandon d
      else
        let p := MkPending (pr_frame p) (pr_seq p) now (pr_repetitions p + 1) in
        ([pr_frame p], set_last_traffic now (set_pending (Some p) d))
  end.

Definition next_l4_deadline (d : Device) : option Z :=
  if negb (d_connected d) then None else
  let idle := l4_last_traffic (d_l4 d) + CONNECTION_TIMEOUT in
  Some (match l4_pending (d_l4 d) with
        | Some p => Z.min idle (pr_sent_at p + ACKNOWLEDGE_TIMEOUT)
        | None => idle
        end).

(** ** Transport control PDUs *)

Definition handle_transport_control (d : Device) (cemi : CemiLData) (tpci : SimTpci) (now : Z)
    : DeviceReaction * Device :=
  let from := sim_source cemi in
  let from_peer := d_connected d && bool_decide (from = l4_peer (d_l4 d)) in
  let '(out, d) :=
    match tpci with
    | SimConnect =>
        if negb (d_connected d) then ([], l4_open d from now)
        else if from_peer then ([], d)
        else ([t_control d from SIM_DISCONNECT_BYTE], d)
    | SimDisconnect => if from_peer then ([], l4_close d) else ([], d)
    | SimAck seq =>
        if from_peer then
          let d := set_last_traffic now d in
          match l4_pending (d_l4 d) with
          | Some p => if pr_seq p =? seq then ([], set_pending None d) else ([], d)
          | None => ([], d)
          end
        else ([], d)
    | SimNak seq =>
        if from_peer then
          let d := set_last_traffic now d in
          match l4_pending (d_l4 d) with
          | Some p =>
              if pr_seq p =? seq then
                if MAX_REPETITIONS <=? pr_repetitions p then l4_abandon d
                else ([pr_frame p],
                      set_pending (Some (MkPending (pr_frame p) (pr_seq p) now
                                           (pr_repetitions p + 1))) d)
              else ([], d)
          | None => ([], d)
          end
        else ([], d)
    | _ => ([], d)
    end in
  (MkReaction out false, d).

(** ** Numbered data *)

(** A numbered frame: the first octet of its TPDU is 01xxxxxx. *)
Definition is_numbered (c : CemiLData) : bool :=
  match sim_tpdu c with
  | b :: _ => Z.land b 192 =? 64
  | [] => false
  end.

(** [responses.iter().rev().find(numbered)]. *)
Definition last_numbered (l : list CemiLData) : option CemiLData :=
  List.find is_numbered (reverse l).

(** The part of [handle_numbered_data] once the frame is in sequence and within
    the exchange budget: process, advance, acknowledge. *)
Definition process_numbered (d : Device) (cemi : CemiLData) (seq : u8) (now : Z)
    : result DeviceError DeviceReaction * Device :=
  match sim_apdu_parse (sim_tpdu cemi) with
  | None => (Err (Malformed "APDU" "too short"), d)
  | Some apdu =>
      let d := set_rx_seq (Z.land (d_rx_seq d + 1) 15) d in
      let r := handle_apdu (d_app d) (d_connected d) (d_tx_seq d) cemi apdu in
      let d := set_tx_seq (ar_tx_seq r) (set_connected (ar_connected r) (set_app (ar_app r) d)) in
      match ar_result r with
      | Err e => (Err e, d)
      | Ok reaction =>
          let out := if bool_decide (responses reaction = [])
                     then [sim_t_ack d (sim_source cemi) seq]
                     else responses reaction in
          let d := if d_connected d then
                     match last_numbered out with
                     | Some resp =>
                         set_pending (Some (MkPending resp
                           (Z.land (Z.shiftr (nth 0 (sim_tpdu resp) 0) 2) 15) now 0)) d
                     | None => d
                     end
                   else d in
          (Ok (MkReaction out (did_master_reset reaction)), d)
      end
  end.

Definition handle_numbered_data (d : Device) (cemi : CemiLData) (seq : u8) (now : Z)
    : result DeviceError DeviceReaction * Device :=
  let tool := sim_source cemi in
  if d_connected d && negb (bool_decide (tool = l4_peer (d_l4 d)))
  then (Ok DeviceReaction_default, d) else
  let d := if d_connected d then set_last_traffic now d else d in
  let last_accepted := Z.land (as_u8 (d_rx_seq d - 1)) 15 in
  if d_connected d && (seq =? last_accepted)
  then (Ok (MkReaction [sim_t_ack d tool seq] false), d) else
  if d_connected d && negb (seq =? d_rx_seq d) then
    if l4_strict_drop (d_l4 d) then (Ok DeviceReaction_default, d)
    else (Ok (MkReaction [t_control d tool (sim_nak_byte seq)] false), d)
  else
    match d_exchange_budget d with
    | Some budget =>
        if budget <=? d_exchanges d
        then (Ok DeviceReaction_default, set_connected false d)
        else process_numbered (set_exchanges (d_exchanges d + 1) d) cemi seq now
    | None => process_numbered d cemi seq now
    end.

(** ** The entry point *)

Definition handle_cemi_at (d : Device) (cemi : CemiLData) (now : Z)
    : result DeviceError DeviceReaction * Device :=
  match sim_tpdu cemi with
  | [] => (Ok DeviceReaction_default, d)
  | b :: _ =>
      let tpci := sim_tpci_from_byte b in
      let '(expired, d) := expire_l4 d now in
      let '(res, d) :=
        match tpci with
        | SimConnect | SimDisconnect | SimAck _ | SimNak _ =>
            let '(r, d) := handle_transport_control d cemi tpci now in (Ok r, d)
        | SimDataUnnumbered =>
            match sim_apdu_parse (sim_tpdu cemi) with
            | None => (Err (Malformed "APDU" "too short"), d)
            | Some apdu =>
                let r := handle_apdu (d_app d) (d_connected d) (d_tx_seq d) cemi apdu in
                (ar_result r,
                 set_tx_seq (ar_tx_seq r) (set_connected (ar_connected r) (set_app (ar_app r) d)))
            end
        | SimDataConnected seq => handle_numbered_data d cemi seq now
        end in
      match res with
      | Err e => (Err e, d)
      | Ok reaction => (Ok (MkReaction (expired ++ responses reaction) (did_master_reset reaction)), d)
      end
  end.

End Device.

Arguments Device : clear implicits.

(** ** Runs *)

Section Runs.
  Context {A : Type} `{DeviceApp A}.

(** The connection has seen traffic recently enough. *)
Definition in_time (d : Device A) (now : Z) : Prop :=
  duration_since now (l4_last_traffic (d_l4 d)) < CONNECTION_TIMEOUT.

(** The sequence of a numbered frame. *)
Definition numbered_seq (cemi : CemiLData) : option u8 :=
  match sim_tpdu cemi with
  | b :: _ => match sim_tpci_from_byte b with
              | SimDataConnected seq => Some seq
              | _ => None
              end
  | [] => None
  end.

(** A transport control PDU. *)
Definition is_control (cemi : CemiLData) : bool :=
  match sim_tpdu cemi with
  | b :: _ => match sim_tpci_from_byte b with
              | SimDataConnected _ | SimDataUnnumbered => false
              | _ => true
              end
  | [] => false
  end.

Definition from_peer (d : Device A) (cemi : CemiLData) : Prop := sim_source cemi = l4_peer (d_l4 d).

(** The events of a device on one open connection, in time: the partner's frame in
    sequence, its repetition, its acknowledgements, and the frames of others. *)
Inductive tool_run : Device A -> list CemiLData -> Device A -> Prop :=
| run_start d : tool_run d [] d
| run_send d l d1 cemi now r d2 :
    tool_run d l d1 -> in_time d1 now -> from_peer d1 cemi ->
    numbered_seq cemi = Some (d_rx_seq d1) ->
    handle_cemi_at d1 cemi now = (Ok r, d2) -> d_connected d2 = true ->
    tool_run d (l ++ [cemi]) d2
| run_repeat d l d1 cemi now r d2 :
    tool_run d l d1 -> in_time d1 now -> from_peer d1 cemi ->
    numbered_seq cemi = Some ((d_rx_seq d1 - 1) mod 16) ->
    handle_cemi_at d1 cemi now = (r, d2) ->
    tool_run d l d2
| run_ack d l d1 cemi seq now r d2 :
    tool_run d l d1 -> in_time d1 now -> from_peer d1 cemi ->
    (exists b t, sim_tpdu cemi = b :: t /\ sim_tpci_from_byte b = SimAck seq) ->
    handle_cemi_at d1 cemi now = (r, d2) ->
    tool_run d l d2
| run_foreign d l d1 cemi now r d2 :
    tool_run d l d1 -> in_time d1 now -> ~ from_peer d1 cemi ->
    is_control cemi = true \/ is_Some (numbered_seq cemi) ->
    handle_cemi_at d1 cemi now = (r, d2) ->
    tool_run d l d2.

(** One service, as the application sees it. *)
Definition app_step (st : A * u8) (cemi : CemiLData) : A * u8 :=
  match sim_apdu_parse (sim_tpdu cemi) with
  | None => st
  | Some apdu => let r := handle_apdu st.1 true st.2 cemi apdu in (ar_app r, ar_tx_seq r)
  end.

(** Lets the device's timer run out [n] times, with nothing arriving: the frames
    it sends, and the device after. *)
Fixpoint run_deadlines (n : nat) (d : Device A) : list CemiLData * Device A :=
  match n with
  | O => ([], d)
  | S m =>
      match next_l4_deadline d with
      | None => ([], d)
      | Some t => let '(out, d') := tick_l4 d t in
                  let '(out', d'') := run_deadlines m d' in
                  (out ++ out', d'')
      end
  end.

(** Every state a device reaches from a fresh one, whatever arrives whenever. *)
Inductive device_reach (d0 : Device A) : Device A -> Prop :=
| reach_start : device_reach d0 d0
| reach_frame d cemi now : device_reach d0 d -> device_reach d0 (snd (handle_cemi_at d cemi now))
| reach_tick d now : device_reach d0 d -> device_reach d0 (snd (tick_l4 d now)).

Definition pending_ok (p : PendingResponse) : Prop :=
  0 <= pr_repetitions p <= MAX_REPETITIONS /\ 0 <= pr_seq p < 16 /\ is_numbered (pr_frame p) = true.

(** The transport state's invariant. *)
Definition l4_inv (d : Device A) : Prop :=
  0 <= d_rx_seq d < 16 /\
  (forall b, d_exchange_budget d = Some b -> 0 <= d_exchanges d <= b) /\
  (forall p, l4_pending (d_l4 d) = Some p -> pending_ok p).

End Runs.

(** ** Lemmas *)

Section Lemmas.
  Context {A : Type} `{DeviceApp A}.
  Implicit Types d : Device A.

Lemma clear_verify_l4 d : d_l4 (clear_verify_if_sys7 d) = d_l4 d.
Proof. unfold clear_verify_if_sys7. by destruct (app_sys7 _). Qed.
Lemma clear_verify_connected d : d_connected (clear_verify_if_sys7 d) = d_connected d.
Proof. unfold clear_verify_if_sys7. by destruct (app_sys7 _). Qed.
Lemma clear_verify_rx d : d_rx_seq (clear_verify_if_sys7 d) = d_rx_seq d.
Proof. unfold clear_verify_if_sys7. by destruct (app_sys7 _). Qed.
Lemma clear_verify_budget d :
  d_exchange_budget (clear_verify_if_sys7 d) = d_exchange_budget d /\
  d_exchanges (clear_verify_if_sys7 d) = d_exchanges d.
Proof. unfold clear_verify_if_sys7. by destruct (app_sys7 _). Qed.

Lemma expire_in_time d now : in_time d now -> expire_l4 d now = ([], d).
Proof.
  intros Ht. unfold expire_l4. unfold in_time in Ht.
  rewrite (proj2 (Z.leb_gt _ _)) by lia. by rewrite andb_false_r.
Qed.

Lemma expire_late d now : d_connected d = true -> ~ in_time d now -> expire_l4 d now = l4_abandon d.
Proof.
  intros Hc Ht. unfold expire_l4. unfold in_time in Ht. rewrite Hc.
  by rewrite (proj2 (Z.leb_le _ _)) by lia.
Qed.

(** A numbered frame of the open connection's partner goes to
    [handle_numbered_data] alone. *)
Lemma handle_cemi_numbered d cemi seq now : in_time d now -> numbered_seq cemi = Some seq ->
  handle_cemi_at d cemi now =
    match handle_numbered_data d cemi seq now with
    | (Err e, d') => (Err e, d')
    | (Ok r, d') => (Ok r, d')
    end.
Proof.
  intros Ht Hs. unfold numbered_seq in Hs. unfold handle_cemi_at.
  destruct (sim_tpdu cemi) as [|b t] eqn:Et; [done|].
  destruct (sim_tpci_from_byte b); try done. injection Hs as ->.
  rewrite expire_in_time by done.
  destruct (handle_numbered_data d cemi seq now) as [[r|e] d']; [|done].
  by destruct r.
Qed.

Lemma rx_pred v : 0 <= v < 16 -> Z.land (as_u8 (v - 1)) 15 = (v - 1) mod 16.
Proof.
  intros Hv. apply (below_decide 16 (fun v => Z.land (as_u8 (v - 1)) 15 = (v - 1) mod 16));
    [vm_compute; reflexivity|exact Hv].
Qed.

Lemma rx_succ v : 0 <= v < 16 -> Z.land (v + 1) 15 = (v + 1) mod 16.
Proof. intros _. change 15 with (Z.ones 4). by rewrite Z.land_ones by lia. Qed.

(** The partner's frame in sequence: with the connection still open afterwards,
    the application ran once on it, the sequence advanced, and something was
    answered. *)
Lemma numbered_in_sequence d cemi now r d' :
  d_connected d = true -> 0 <= d_rx_seq d < 16 -> from_peer d cemi ->
  handle_numbered_data d cemi (d_rx_seq d) now = (Ok r, d') -> d_connected d' = true ->
  (d_app d', d_tx_seq d') = app_step (d_app d, d_tx_seq d) cemi /\
  d_rx_seq d' = (d_rx_seq d + 1) mod 16 /\ l4_peer (d_l4 d') = l4_peer (d_l4 d) /\
  responses r <> [].
Proof.
  intros Hc Hrx Hp E Hc'. unfold handle_numbered_data in E. rewrite Hc in E.
  rewrite bool_decide_true in E by done. cbn [negb andb] in E.
  change (d_rx_seq (set_last_traffic now d)) with (d_rx_seq d) in E.
  rewrite rx_pred in E by done.
  assert (Hne : (d_rx_seq d =? (d_rx_seq d - 1) mod 16) = false).
  { apply Z.eqb_neq. zdiv. }
  rewrite Hne, Z.eqb_refl, andb_false_r in E. cbn [negb] in E. rewrite andb_false_r in E.
  assert (Hproc : forall d0, d_app d0 = d_app d -> d_tx_seq d0 = d_tx_seq d -> d_rx_seq d0 = d_rx_seq d ->
    d_connected d0 = true -> l4_peer (d_l4 d0) = l4_peer (d_l4 d) ->
    process_numbered d0 cemi (d_rx_seq d) now = (Ok r, d') ->
    (d_app d', d_tx_seq d') = app_step (d_app d, d_tx_seq d) cemi /\
    d_rx_seq d' = (d_rx_seq d + 1) mod 16 /\ l4_peer (d_l4 d') = l4_peer (d_l4 d) /\
    responses r <> []).
  { intros d0 Ha Htx Hr0 Hc0 Hpeer Eo. unfold process_numbered in Eo. unfold app_step.
    destruct (sim_apdu_parse (sim_tpdu cemi)) as [apdu|]; [|done]. cbn [fst snd].
    cbn [d_app d_connected d_tx_seq set_rx_seq] in Eo. rewrite Hc0, Ha, Htx, Hr0 in Eo.
    set (res := handle_apdu (d_app d) true (d_tx_seq d) cemi apdu) in *.
    destruct (ar_result res) as [reaction|e]; [|done].
    rewrite <- (rx_succ _ Hrx).
    set (out := if bool_decide _ then _ else _) in Eo.
    assert (Hout : out <> []) by (unfold out; case_bool_decide; [done|done]).
    clearbody out. apply pair_eq in Eo as [Er Ed].
    injection Er as <-. subst d'. revert Hc'. cbn [d_connected set_tx_seq set_connected].
    destruct (ar_connected res); [|done].
    destruct (last_numbered out); intros _; cbn; by rewrite ?Hpeer, ?Hr0. }
  destruct (d_exchange_budget (set_last_traffic now d)) as [budget|].
  - destruct (budget <=? _); [|by eapply Hproc; [..|exact E]].
    apply pair_eq in E as [_ <-]. done.
  - by eapply Hproc; [..|exact E].
Qed.

(** A repetition of the frame accepted last: acknowledged, nothing else. *)
Lemma numbered_repeat d cemi now :
  d_connected d = true -> 0 <= d_rx_seq d < 16 -> from_peer d cemi ->
  handle_numbered_data d cemi ((d_rx_seq d - 1) mod 16) now
  = (Ok (MkReaction [sim_t_ack d (sim_source cemi) ((d_rx_seq d - 1) mod 16)] false),
     set_last_traffic now d).
Proof.
  intros Hc Hrx Hp. unfold handle_numbered_data. rewrite Hc.
  rewrite bool_decide_true by done. cbn [negb andb].
  change (d_rx_seq (set_last_traffic now d)) with (d_rx_seq d).
  change (d_connected (set_last_traffic now d)) with (d_connected d).
  rewrite rx_pred, Z.eqb_refl, Hc by done. done.
Qed.

(** A request in sequence that its service refuses still advances the sequence, so
    its repetition in time is acknowledged, unprocessed. *)
Lemma refused_then_repeated d cemi apdu e now :
  d_connected d = true -> 0 <= d_rx_seq d < 16 -> d_exchange_budget d = None ->
  in_time d now -> from_peer d cemi -> numbered_seq cemi = Some (d_rx_seq d) ->
  sim_apdu_parse (sim_tpdu cemi) = Some apdu ->
  let served := handle_apdu (d_app d) true (d_tx_seq d) cemi apdu in
  ar_result served = Err e -> ar_connected served = true ->
  exists d1, handle_cemi_at d cemi now = (Err e, d1) /\ d_app d1 = ar_app served /\
    forall now', duration_since now' now < CONNECTION_TIMEOUT ->
      handle_cemi_at d1 cemi now'
      = (Ok (MkReaction [sim_t_ack d1 (sim_source cemi) (d_rx_seq d)] false), set_last_traffic now' d1).
Proof.
  intros Hc Hrx Hbud Ht Hp Hs Hparse served Herr Hopen.
  rewrite (handle_cemi_numbered d cemi _ now Ht Hs). unfold handle_numbered_data. rewrite Hc.
  rewrite bool_decide_true by done. cbn [negb andb].
  change (d_rx_seq (set_last_traffic now d)) with (d_rx_seq d).
  change (d_connected (set_last_traffic now d)) with (d_connected d).
  change (d_exchange_budget (set_last_traffic now d)) with (d_exchange_budget d).
  rewrite rx_pred by done. rewrite (proj2 (Z.eqb_neq _ _)) by zdiv.
  rewrite Z.eqb_refl, Hbud, andb_false_r. cbn [negb]. rewrite andb_false_r.
  unfold process_numbered. rewrite Hparse.
  cbn [d_app d_connected d_tx_seq set_rx_seq set_last_traffic set_l4]. rewrite Hc. fold served.
  rewrite Herr. eexists. split; [reflexivity|]. split; [done|]. intros now' Hnow'.
  set (d1 := set_tx_seq _ _).
  assert (Erx : (d_rx_seq d1 - 1) mod 16 = d_rx_seq d).
  { unfold d1. cbn [d_rx_seq set_tx_seq set_connected set_app set_rx_seq set_last_traffic set_l4].
    rewrite rx_succ by done. zdiv. }
  rewrite (handle_cemi_numbered d1 cemi (d_rx_seq d) now' Hnow' Hs). rewrite <- Erx.
  rewrite numbered_repeat; [done|exact Hopen| |exact Hp].
  unfold d1. cbn [d_rx_seq set_tx_seq set_connected set_app set_rx_seq set_last_traffic set_l4].
  rewrite rx_succ by done. apply Z.mod_pos_bound. lia.
Qed.

(** Frames of others leave an open connection alone. *)
Lemma foreign_ignored d cemi now :
  d_connected d = true -> in_time d now -> ~ from_peer d cemi ->
  is_control cemi = true \/ is_Some (numbered_seq cemi) ->
  exists out, handle_cemi_at d cemi now = (Ok (MkReaction out false), d) /\
    (out = [] \/ out = [t_control d (sim_source cemi) SIM_DISCONNECT_BYTE]).
Proof.
  intros Hc Ht Hp Hk. destruct Hk as [Hk|[seq Hs]].
  - unfold is_control in Hk. unfold handle_cemi_at. destruct (sim_tpdu cemi) as [|b t]; [done|].
    rewrite expire_in_time by done. unfold handle_transport_control.
    rewrite Hc, (bool_decide_false (_ = _)) by done. cbn [andb negb].
    destruct (sim_tpci_from_byte b); try done; eexists; (split; [reflexivity|]); auto.
  - rewrite (handle_cemi_numbered d cemi seq now Ht Hs). unfold handle_numbered_data.
    rewrite Hc, (bool_decide_false (_ = _)) by done. cbn [andb negb]. eauto.
Qed.

(** An acknowledgement touches the timer and the pending response only. *)
Lemma ack_effect d cemi b t seq now r d' :
  d_connected d = true -> in_time d now -> from_peer d cemi ->
  sim_tpdu cemi = b :: t -> sim_tpci_from_byte b = SimAck seq ->
  handle_cemi_at d cemi now = (r, d') ->
  d_app d' = d_app d /\ d_tx_seq d' = d_tx_seq d /\ d_rx_seq d' = d_rx_seq d /\
  d_connected d' = true /\ l4_peer (d_l4 d') = l4_peer (d_l4 d).
Proof.
  intros Hc Ht Hp Et Eb E. unfold handle_cemi_at in E. rewrite Et, Eb in E.
  rewrite expire_in_time in E by done. unfold handle_transport_control in E.
  rewrite Hc, (bool_decide_true (_ = _)) in E by done. cbn [andb] in E.
  destruct (l4_pending (d_l4 (set_last_traffic now d))) as [p|];
    [destruct (pr_seq p =? seq)|]; apply pair_eq in E as [_ <-]; done.
Qed.

Lemma tool_run_spec d l d' : d_connected d = true -> 0 <= d_rx_seq d < 16 -> tool_run d l d' ->
  d_connected d' = true /\ l4_peer (d_l4 d') = l4_peer (d_l4 d) /\
  (d_app d', d_tx_seq d') = foldl app_step (d_app d, d_tx_seq d) l /\
  d_rx_seq d' = (d_rx_seq d + zlen l) mod 16.
Proof.
  intros Hc Hrx Hrun. induction Hrun as [d|d l d1 cemi now r d2 Hrun IH Ht Hp Hs E Hc2
    |d l d1 cemi now r d2 Hrun IH Ht Hp Hs E|d l d1 cemi seq now r d2 Hrun IH Ht Hp Hb E
    |d l d1 cemi now r d2 Hrun IH Ht Hp Hk E].
  - split; [done|]. split; [done|]. split; [done|]. unfold zlen. simpl. rewrite Z.add_0_r. by rewrite Z.mod_small.
  - destruct (IH Hc Hrx) as (Hc1 & Hp1 & Ha1 & Hr1).
    assert (Hrx1 : 0 <= d_rx_seq d1 < 16) by (rewrite Hr1; apply Z.mod_pos_bound; lia).
    rewrite (handle_cemi_numbered d1 cemi _ now Ht Hs) in E.
    destruct (handle_numbered_data d1 cemi (d_rx_seq d1) now) as [[r'|e] d'] eqn:En; [|done].
    injection E as -> ->.
    destruct (numbered_in_sequence d1 cemi now r d2 Hc1 Hrx1 Hp En Hc2) as (Ha & Hr & Hpe & _).
    split; [done|]. split; [by rewrite Hpe|]. split.
    + rewrite foldl_app, <- Ha1. exact Ha.
    + rewrite Hr, Hr1. unfold zlen. rewrite length_app. cbn [length]. zdiv.
  - destruct (IH Hc Hrx) as (Hc1 & Hp1 & Ha1 & Hr1).
    assert (Hrx1 : 0 <= d_rx_seq d1 < 16) by (rewrite Hr1; apply Z.mod_pos_bound; lia).
    rewrite (handle_cemi_numbered d1 cemi _ now Ht Hs), numbered_repeat in E by done.
    apply pair_eq in E as [_ <-]. done.
  - destruct (IH Hc Hrx) as (Hc1 & Hp1 & Ha1 & Hr1). destruct Hb as (b & t & Et & Eb).
    destruct (ack_effect d1 cemi b t seq now r d2 Hc1 Ht Hp Et Eb E) as (Ha & Htx & Hr & Hc2 & Hpe).
    rewrite Ha, Htx, Hr, Hpe. done.
  - destruct (IH Hc Hrx) as (Hc1 & Hp1 & Ha1 & Hr1).
    destruct (foreign_ignored d1 cemi now Hc1 Ht Hp Hk) as (out & Eo & _).
    rewrite Eo in E. apply pair_eq in E as [_ <-]. done.
Qed.

End Lemmas.

Section Timers.
  Context {A : Type} `{DeviceAppLaws A}.
  Implicit Types d : Device A.

Lemma abandon_closed d : d_connected (snd (l4_abandon d)) = false.
Proof. unfold l4_abandon, l4_close. simpl. by rewrite clear_verify_connected. Qed.

Lemma abandon_out d :
  fst (l4_abandon d) = [t_control d (l4_peer (d_l4 d)) SIM_DISCONNECT_BYTE].
Proof.
  unfold l4_abandon, l4_close, clear_verify_if_sys7, t_control, d_address. simpl.
  destruct (app_sys7 _); [|done]. simpl. by rewrite app_clear_keeps_address.
Qed.

(** What the timer does when it runs out. *)
Lemma tick_at_deadline d t : d_connected d = true -> next_l4_deadline d = Some t ->
  tick_l4 d t = l4_abandon d \/
  exists p, l4_pending (d_l4 d) = Some p /\ pr_repetitions p < MAX_REPETITIONS /\
    tick_l4 d t = ([pr_frame p],
      set_last_traffic t (set_pending (Some (MkPending (pr_frame p) (pr_seq p) t (pr_repetitions p + 1))) d)).
Proof.
  intros Hc Hd. unfold next_l4_deadline in Hd. rewrite Hc in Hd. cbn [negb] in Hd. injection Hd as Ht.
  unfold tick_l4. rewrite Hc. cbn [negb].
  destruct (Z.leb_spec CONNECTION_TIMEOUT (duration_since t (l4_last_traffic (d_l4 d)))) as [Hle|Hgt];
    [by left|].
  unfold duration_since in Hgt |- *. destruct (l4_pending (d_l4 d)) as [p|].
  - rewrite (proj2 (Z.ltb_ge _ _)) by lia.
    destruct (Z.leb_spec MAX_REPETITIONS (pr_repetitions p)); [by left|]. right. exists p. done.
  - exfalso. lia.
Qed.

Lemma run_deadlines_closed n d : d_connected d = false -> run_deadlines n d = ([], d).
Proof. intros Hc. destruct n; [done|]. simpl. unfold next_l4_deadline. by rewrite Hc. Qed.

Definition repetitions_left (d : Device A) : Z :=
  match l4_pending (d_l4 d) with
  | Some p => MAX_REPETITIONS - pr_repetitions p
  | None => 0
  end.

Lemma run_deadlines_spec n : forall d, d_connected d = true -> 0 <= repetitions_left d ->
  repetitions_left d < Z.of_nat n ->
  d_connected (snd (run_deadlines n d)) = false /\
  exists k, Z.of_nat k <= repetitions_left d /\
    fst (run_deadlines n d)
    = match l4_pending (d_l4 d) with
      | Some p => replicate k (pr_frame p)
      | None => []
      end ++ [t_control d (l4_peer (d_l4 d)) SIM_DISCONNECT_BYTE].
Proof.
  induction n as [|n IH]; intros d Hc Hn0 Hn; [lia|]. cbn [run_deadlines].
  destruct (next_l4_deadline d) as [t|] eqn:Ed;
    [|unfold next_l4_deadline in Ed; by rewrite Hc in Ed].
  destruct (tick_at_deadline d t Hc Ed) as [E|(p & Hp & Hrep & E)]; rewrite E.
  - pose proof (abandon_closed d) as Hcl. pose proof (abandon_out d) as Ho.
    destruct (l4_abandon d) as [out d1]. simpl in Hcl, Ho. subst out.
    rewrite run_deadlines_closed by done. simpl. split; [done|]. exists 0%nat. split; [lia|].
    by destruct (l4_pending (d_l4 d)).
  - unfold repetitions_left in Hn, Hn0 |- *. rewrite Hp in *.
    set (d1 := set_last_traffic _ _).
    destruct (IH d1) as [Hcl (k & Hk & Ho)]; [done| |unfold repetitions_left; simpl; lia|].
    { unfold repetitions_left. simpl. lia. }
    destruct (run_deadlines n d1) as [out d2]. simpl in Hcl, Ho |- *. split; [done|].
    exists (S k). unfold repetitions_left in Hk. simpl in Hk. split; [lia|]. by rewrite Ho.
Qed.

(** A tick strictly before the deadline does nothing. *)
Lemma tick_before_deadline d now :
  (match next_l4_deadline d with Some t => now < t | None => True end) -> tick_l4 d now = ([], d).
Proof.
  unfold next_l4_deadline, tick_l4. destruct (d_connected d); [|done]. cbn [negb].
  intros Ht. unfold duration_since. rewrite (proj2 (Z.leb_gt _ _)).
  - destruct (l4_pending (d_l4 d)) as [p|]; [|done]. rewrite (proj2 (Z.ltb_lt _ _)); [done|].
    unfold ACKNOWLEDGE_TIMEOUT in *. lia.
  - unfold CONNECTION_TIMEOUT in *. destruct (l4_pending (d_l4 d)); lia.
Qed.

End Timers.

(** ** The invariant *)

Section Invariant.
  Context {A : Type} `{DeviceApp A}.
  Implicit Types d : Device A.

Lemma land15_range v : 0 <= Z.land v 15 < 16.
Proof. change 15 with (Z.ones 4). rewrite Z.land_ones by lia. apply Z.mod_pos_bound. lia. Qed.

Lemma l4_inv_close d : l4_inv d -> l4_inv (l4_close d).
Proof.
  intros (H1 & H2 & _). unfold l4_close. split; [by rewrite clear_verify_rx|]. split.
  - intros b. destruct (clear_verify_budget (set_pending None (set_connected false d))) as [-> ->].
    apply H2.
  - intros p. rewrite clear_verify_l4. done.
Qed.

Lemma l4_inv_open d peer now : l4_inv d -> l4_inv (l4_open d peer now).
Proof.
  intros (H1 & H2 & _). unfold l4_open. set (d0 := set_exchanges _ _).
  split; [rewrite clear_verify_rx; simpl; lia|]. split.
  - intros b. destruct (clear_verify_budget d0) as [-> ->]. simpl. intros Hb. specialize (H2 b Hb). lia.
  - intros p. rewrite clear_verify_l4. done.
Qed.

Lemma l4_inv_abandon d out d' : l4_inv d -> l4_abandon d = (out, d') -> l4_inv d'.
Proof. intros Hd [= _ <-]. by apply l4_inv_close. Qed.

Lemma l4_inv_expire d now out d' : l4_inv d -> expire_l4 d now = (out, d') -> l4_inv d'.
Proof.
  intros Hd. unfold expire_l4. destruct (_ && _); [by apply l4_inv_abandon|]. by intros [= _ <-].
Qed.

(** Updates the invariant does not look at. *)
Lemma l4_inv_traffic d t : l4_inv d -> l4_inv (set_last_traffic t d).
Proof. done. Qed.

Lemma l4_inv_connected d b : l4_inv d -> l4_inv (set_connected b d).
Proof. done. Qed.

Lemma l4_inv_app d a b tx : l4_inv d -> l4_inv (set_tx_seq tx (set_connected b (set_app a d))).
Proof. done. Qed.

Lemma l4_inv_pending d p : l4_inv d -> pending_ok p -> l4_inv (set_pending (Some p) d).
Proof. intros (H1 & H2 & _) Hp. split; [done|]. split; [done|]. simpl. by intros ? [= <-]. Qed.

Lemma l4_inv_no_pending d : l4_inv d -> l4_inv (set_pending None d).
Proof. intros (H1 & H2 & _). by split. Qed.

Lemma l4_inv_tick d now : l4_inv d -> l4_inv (snd (tick_l4 d now)).
Proof.
  intros Hd. unfold tick_l4. destruct (negb _); [done|].
  destruct (_ <=? _); [destruct (l4_abandon d) eqn:E; by eapply l4_inv_abandon|].
  destruct (l4_pending (d_l4 d)) as [p|] eqn:Ep; [|done].
  destruct (_ <? _); [done|].
  destruct (Z.leb_spec MAX_REPETITIONS (pr_repetitions p)) as [|Hlt];
    [destruct (l4_abandon d) eqn:E; by eapply l4_inv_abandon|].
  apply l4_inv_traffic, l4_inv_pending; [done|]. destruct Hd as (_ & _ & Hp).
  destruct (Hp p Ep) as (Hr & Hs & Hf). split; [simpl; lia|]. done.
Qed.

Lemma l4_inv_control d cemi tpci now :
  l4_inv d -> l4_inv (snd (handle_transport_control d cemi tpci now)).
Proof.
  intros Hd. unfold handle_transport_control.
  destruct tpci as [| | | |seq|seq]; try done.
  - destruct (negb _); [by apply l4_inv_open|]. by destruct (_ && _).
  - destruct (_ && _); [by apply l4_inv_close|done].
  - destruct (_ && _); [|done].
    destruct (l4_pending (d_l4 (set_last_traffic now d))) as [p|]; [|done].
    destruct (_ =? _); [by apply l4_inv_no_pending|done].
  - destruct (_ && _); [|done].
    destruct (l4_pending (d_l4 (set_last_traffic now d))) as [p|] eqn:Ep; [|done].
    destruct (_ =? _); [|done].
    destruct (Z.leb_spec MAX_REPETITIONS (pr_repetitions p)) as [|Hlt].
    + destruct (l4_abandon (set_last_traffic now d)) eqn:E. simpl. by eapply l4_inv_abandon in E.
    + apply l4_inv_pending; [done|]. destruct Hd as (_ & _ & Hp).
      destruct (Hp p Ep) as (Hr & Hs & Hf). split; [simpl; lia|]. done.
Qed.

Lemma last_numbered_ok l c : last_numbered l = Some c -> is_numbered c = true.
Proof. unfold last_numbered. intros E. by apply List.find_some in E as [_ E]. Qed.

Lemma l4_inv_process d cemi seq now : l4_inv d -> l4_inv (snd (process_numbered d cemi seq now)).
Proof.
  intros Hd. unfold process_numbered. destruct (sim_apdu_parse _) as [apdu|]; [|done].
  set (d1 := set_rx_seq _ d).
  assert (H1 : l4_inv d1) by (destruct Hd as (_ & H2 & H3); split; [apply land15_range|by split]).
  set (r := handle_apdu _ _ _ _ _). set (d2 := set_tx_seq _ _).
  assert (H2 : l4_inv d2) by (by apply l4_inv_app).
  destruct (ar_result r) as [reaction|e]; [|done]. set (out := if bool_decide _ then _ else _). cbn [snd].
  destruct (d_connected d2) eqn:Ec2; [|exact H2].
  destruct (last_numbered out) as [resp|] eqn:El; [|done].
  apply l4_inv_pending; [done|]. split; [simpl; unfold MAX_REPETITIONS; lia|].
  split; [apply land15_range|]. simpl. by eapply last_numbered_ok.
Qed.

Lemma l4_inv_numbered d cemi seq now :
  l4_inv d -> l4_inv (snd (handle_numbered_data d cemi seq now)).
Proof.
  intros Hd. unfold handle_numbered_data. destruct (_ && _); [done|].
  set (d1 := if d_connected d then _ else _).
  assert (H1 : l4_inv d1) by (unfold d1; by destruct (d_connected d)).
  destruct (_ && _); [done|]. destruct (_ && _); [by destruct (l4_strict_drop _)|].
  destruct (d_exchange_budget d1) as [budget|] eqn:Eb; [|by apply l4_inv_process].
  destruct (Z.leb_spec budget (d_exchanges d1)); [done|]. apply l4_inv_process.
  destruct H1 as (Ha & Hb & Hc). split; [done|]. split; [|done].
  simpl. intros b Hb'. specialize (Hb b Hb'). rewrite Eb in Hb'. injection Hb' as <-. lia.
Qed.

Lemma l4_inv_frame d cemi now : l4_inv d -> l4_inv (snd (handle_cemi_at d cemi now)).
Proof.
  intros Hd. unfold handle_cemi_at. destruct (sim_tpdu cemi) as [|b t]; [done|].
  destruct (expire_l4 d now) as [expired d1] eqn:Ex.
  assert (H1 : l4_inv d1) by (by eapply l4_inv_expire).
  destruct (sim_tpci_from_byte b) eqn:Eb.
  - destruct (sim_apdu_parse _) as [apdu|]; [|done]. by destruct (ar_result _).
  - pose proof (l4_inv_numbered d1 cemi seq now H1) as Hn.
    destruct (handle_numbered_data d1 cemi seq now) as [[r|e] d2]; done.
  - pose proof (l4_inv_control d1 cemi SimConnect now H1) as Hn.
    by destruct (handle_transport_control d1 cemi SimConnect now).
  - pose proof (l4_inv_control d1 cemi SimDisconnect now H1) as Hn.
    by destruct (handle_transport_control d1 cemi SimDisconnect now).
  - pose proof (l4_inv_control d1 cemi (SimAck seq) now H1) as Hn.
    by destruct (handle_transport_control d1 cemi (SimAck seq) now).
  - pose proof (l4_inv_control d1 cemi (SimNak seq) now H1) as Hn.
    by destruct (handle_transport_control d1 cemi (SimNak seq) now).
Qed.

End Invariant.

(** ** An unacknowledged late frame *)

Section Late.
  Context {A : Type} `{DeviceAppLaws A}.
  Implicit Types d : Device A.

Lemma numbered_tpci b : Z.land b 192 = 64 ->
  sim_tpci_from_byte b = SimDataConnected (Z.land (Z.shiftr b 2) 15).
Proof.
  intros Hb. unfold sim_tpci_from_byte.
  destruct (Z.eqb_spec b 128) as [->|_]; [done|]. destruct (Z.eqb_spec b 129) as [->|_]; [done|].
  by rewrite Hb.
Qed.

(** Numbered data on a closed connection: refused, and the device stays closed. *)
Lemma process_closed d cemi apdu seq now :
  d_connected d = false -> is_numbered cemi = true ->
  sim_apdu_parse (sim_tpdu cemi) = Some apdu -> sim_apci apdu <> SimDeviceDescriptorRead 0 ->
  exists e d', process_numbered d cemi seq now = (Err e, d') /\ d_connected d' = false.
Proof.
  intros Hc Hn Hparse Hdd. unfold process_numbered. rewrite Hparse. cbn [d_connected d_app d_tx_seq set_rx_seq].
  rewrite Hc. assert (Hb : Z.land (nth 0 (sim_tpdu cemi) 0) 192 = 64).
  { unfold is_numbered in Hn. destruct (sim_tpdu cemi); [done|]. simpl. by apply Z.eqb_eq. }
  destruct (app_needs_connection (d_app d) (d_tx_seq d) cemi apdu Hb Hdd) as [e E]. rewrite E.
  eexists e, _. split; [reflexivity|]. simpl. apply app_never_connects.
Qed.

Lemma numbered_closed d cemi apdu seq now :
  d_connected d = false -> is_numbered cemi = true ->
  (match d_exchange_budget d with Some b => d_exchanges d < b | None => True end) ->
  sim_apdu_parse (sim_tpdu cemi) = Some apdu -> sim_apci apdu <> SimDeviceDescriptorRead 0 ->
  exists e d', handle_numbered_data d cemi seq now = (Err e, d') /\ d_connected d' = false.
Proof.
  intros Hc Hn Hb Hparse Hdd. unfold handle_numbered_data. rewrite Hc. cbn [andb]. rewrite Hc. cbn [andb].
  destruct (d_exchange_budget d) as [b|]; [|by eapply process_closed].
  rewrite (proj2 (Z.leb_gt _ _)) by done. by eapply process_closed.
Qed.

End Late.

(** ** The properties *)

Section Properties.
  Context {A : Type} `{DeviceAppLaws A}.
  Implicit Types d : Device A.

(** Exactly-once delivery.  On an open connection, whatever mixture of frames
    in sequence, repetitions of the frame accepted last, acknowledgements and
    frames of other stations arrives in time, the application has run exactly once
    on every frame in sequence, in order, and the receive sequence counts them
    modulo 16; the connection stays open to the same partner, and a further
    repetition is answered by the T_ACK of its sequence and changes neither the
    application nor a sequence. *)
Theorem exactly_once_delivery d l d' :
  d_connected d = true -> 0 <= d_rx_seq d < 16 -> tool_run d l d' ->
  d_connected d' = true /\ l4_peer (d_l4 d') = l4_peer (d_l4 d) /\
  (d_app d', d_tx_seq d') = foldl app_step (d_app d, d_tx_seq d) l /\
  d_rx_seq d' = (d_rx_seq d + zlen l) mod 16 /\
  (forall cemi now, in_time d' now -> from_peer d' cemi ->
    numbered_seq cemi = Some ((d_rx_seq d' - 1) mod 16) ->
    handle_cemi_at d' cemi now
    = (Ok (MkReaction [sim_t_ack d' (sim_source cemi) ((d_rx_seq d' - 1) mod 16)] false),
       set_last_traffic now d')).
Proof.
  intros Hc Hrx Hrun. destruct (tool_run_spec d l d' Hc Hrx Hrun) as (Hc' & Hp & Ha & Hr).
  do 4 (split; [done|]). intros cemi now Ht Hf Hs.
  rewrite (handle_cemi_numbered d' cemi _ now Ht Hs), numbered_repeat; try done.
  rewrite Hr. apply Z.mod_pos_bound. lia.
Qed.

(** Silence closes the connection.  With nothing arriving, no timer acts
    before [next_l4_deadline]; at most four of its expiries close an open
    connection, and all the device sends meanwhile is at most three repetitions of
    the unacknowledged response and then one T_Disconnect to its partner. *)
Theorem silence_closes_connection d :
  l4_inv d -> d_connected d = true ->
  (forall now, (match next_l4_deadline d with Some t => now < t | None => True end) ->
    tick_l4 d now = ([], d)) /\
  d_connected (snd (run_deadlines 4 d)) = false /\
  exists k, (k <= 3)%nat /\
    fst (run_deadlines 4 d)
    = match l4_pending (d_l4 d) with
      | Some p => replicate k (pr_frame p)
      | None => []
      end ++ [t_control d (l4_peer (d_l4 d)) SIM_DISCONNECT_BYTE].
Proof.
  intros (_ & _ & Hp) Hc. split; [intros now; apply tick_before_deadline|].
  assert (Hrep : 0 <= repetitions_left d <= 3).
  { unfold repetitions_left. destruct (l4_pending (d_l4 d)) as [p|]; [|lia].
    destruct (Hp p eq_refl) as (Hr & _). unfold MAX_REPETITIONS in *. lia. }
  destruct (run_deadlines_spec 4 d Hc) as (Hcl & k & Hk & Ho); [lia|lia|].
  split; [done|]. exists k. split; [lia|done].
Qed.

(** The transport state stays well-formed in every state reached from a
    well-formed one, whatever frames arrive and whenever the timer ticks: the
    receive sequence is below 16, a device with an exchange budget never
    processes more numbered requests on a connection than the budget, and a
    pending response is a numbered frame repeated at most three times. *)
Theorem transport_state_invariant d0 d : l4_inv d0 -> device_reach d0 d -> l4_inv d.
Proof.
  intros Hinv Hr. induction Hr; [done|by apply l4_inv_frame|by apply l4_inv_tick].
Qed.

(** A connection belongs to its partner.  While it is open and in time, a
    control PDU or numbered data of any other station changes nothing of the
    device, and is answered by nothing or by a T_Disconnect to that station. *)
Theorem connection_belongs_to_partner d cemi now :
  d_connected d = true -> in_time d now -> ~ from_peer d cemi ->
  is_control cemi = true \/ is_Some (numbered_seq cemi) ->
  snd (handle_cemi_at d cemi now) = d /\
  exists out, fst (handle_cemi_at d cemi now) = Ok (MkReaction out false) /\
    (out = [] \/ out = [t_control d (sim_source cemi) SIM_DISCONNECT_BYTE]).
Proof.
  intros Hc Ht Hp Hk. destruct (foreign_ignored d cemi now Hc Ht Hp Hk) as (out & E & Ho).
  rewrite E. split; [done|]. by exists out.
Qed.

(** A numbered request that arrives on an open connection after the
    connection timeout loses the T_Disconnect: the timer would have sent it to the
    partner, but [handle_cemi_at] closes the connection and then returns the
    error of the refused request instead of the frames to send. *)
Theorem late_request_loses_disconnect d cemi apdu now :
  d_connected d = true -> ~ in_time d now -> is_numbered cemi = true ->
  (match d_exchange_budget d with Some b => d_exchanges d < b | None => True end) ->
  sim_apdu_parse (sim_tpdu cemi) = Some apdu -> sim_apci apdu <> SimDeviceDescriptorRead 0 ->
  fst (tick_l4 d now) = [t_control d (l4_peer (d_l4 d)) SIM_DISCONNECT_BYTE] /\
  exists e d', handle_cemi_at d cemi now = (Err e, d') /\ d_connected d' = false.
Proof.
  intros Hc Ht Hn Hb Hparse Hdd. split.
  - unfold tick_l4. rewrite Hc. cbn [negb]. unfold in_time in Ht.
    rewrite (proj2 (Z.leb_le _ _)) by lia. apply abandon_out.
  - unfold handle_cemi_at. destruct (sim_tpdu cemi) as [|b t] eqn:Et; [done|]. rewrite <- Et in Hparse |- *.
    rewrite expire_late by done. pose proof (abandon_closed d) as Hcl.
    assert (Hbud : match d_exchange_budget (snd (l4_abandon d)) with
                   | Some b => d_exchanges (snd (l4_abandon d)) < b | None => True end).
    { unfold l4_abandon, l4_close. cbn [snd].
      destruct (clear_verify_budget (set_pending None (set_connected false d))) as [-> ->]. done. }
    destruct (l4_abandon d) as [expired d1]. cbn [snd] in Hcl, Hbud.
    assert (Hb64 : Z.land b 192 = 64) by (unfold is_numbered in Hn; rewrite Et in Hn; by apply Z.eqb_eq).
    rewrite (numbered_tpci b Hb64).
    destruct (numbered_closed d1 cemi apdu (Z.land (Z.shiftr b 2) 15) now Hcl Hn Hbud Hparse Hdd)
      as (e & d' & E & Hcl'). rewrite E. by exists e, d'.
Qed.

End Properties.

(** ** Witnesses: an application that counts what it serves

    It answers every service but the restart with a numbered response and refuses
    everything without a connection. *)

Definition counting_handle (a : list u16) (connected : bool) (tx : u8) (cemi : CemiLData)
    (apdu : SimApdu) : AppResult (list u16) :=
  if negb connected then MkAppResult (Err NotConnected) a false tx
  else if sim_apci_raw apdu =? 896
  then MkAppResult (Ok (MkReaction [] false)) (a ++ [sim_apci_raw apdu]) false tx
  else MkAppResult
         (Ok (MkReaction [MkCemiLData SimLDataInd 188 96 (MkSimIA 4353) (sim_ia_raw (sim_source cemi))
                            (sim_encode_connected tx (sim_apci_raw apdu) [])] false))
         (a ++ [sim_apci_raw apdu]) true (Z.land (tx + 1) 15).

#[export] Instance counting_app : DeviceApp (list u16) := {
  app_address _ := MkSimIA 4353;
  app_sys7 _ := false;
  app_clear_verify_mode a := a;
  handle_apdu := counting_handle }.

#[export] Instance counting_app_laws : DeviceAppLaws (list u16).
Proof.
  split; [done| |done]. intros a tx cemi apdu _ _. by exists NotConnected.
Qed.

Definition demo_tool : SimIndividualAddress := MkSimIA 4607.
Definition demo_device : Device (list u16) :=
  MkDevice [] true 0 0 (Some 2) 0 (MkL4 demo_tool 0 None false).
Definition tool_frame (from : SimIndividualAddress) (tpdu : bytes) : CemiLData :=
  MkCemiLData SimLDataInd 188 96 from 4353 tpdu.
(** A_Memory_Read with sequence 0, its repetition, and the T_ACK of the answer. *)
Definition demo_read : CemiLData := tool_frame demo_tool [66; 1; 0; 16].
Definition demo_ack : CemiLData := tool_frame demo_tool [194].

Definition demo_run1 : Device (list u16) := snd (handle_cemi_at demo_device demo_read 1).
Definition demo_run2 : Device (list u16) := snd (handle_cemi_at demo_run1 demo_read 2).
Definition demo_run3 : Device (list u16) := snd (handle_cemi_at demo_run2 demo_ack 3).

Lemma demo_tool_run : tool_run demo_device [demo_read] demo_run3.
Proof.
  apply (run_ack _ _ demo_run2 demo_ack 0 3 (fst (handle_cemi_at demo_run2 demo_ack 3)));
    [|done|done|by exists 194, []|by vm_compute].
  apply (run_repeat _ _ demo_run1 demo_read 2 (fst (handle_cemi_at demo_run1 demo_read 2)));
    [|done|done|done|by vm_compute].
  apply (run_send _ [] demo_device demo_read 1
    (MkReaction [MkCemiLData SimLDataInd 188 96 (MkSimIA 4353) 4607 [66; 1]] false));
    [constructor|done|done|done|by vm_compute|done].
Qed.

Lemma exactly_once_delivery_witness : d_app demo_run3 = [513] /\ d_rx_seq demo_run3 = 1.
Proof.
  destruct (exactly_once_delivery demo_device [demo_read] demo_run3 eq_refl
    ltac:(split; reflexivity + discriminate) demo_tool_run) as (_ & _ & Ha & Hr & _).
  apply pair_eq in Ha as [Ha _]. split; [rewrite Ha; reflexivity|rewrite Hr; reflexivity].
Defined.

Lemma demo_run1_inv : l4_inv demo_run1.
Proof. apply l4_inv_frame. split; [simpl; lia|]. split; [|done]. intros b [= <-]. simpl. lia. Qed.

(** One answer unacknowledged: three repetitions, then the T_Disconnect. *)
Lemma silence_closes_connection_witness :
  d_connected (snd (run_deadlines 4 demo_run1)) = false /\
  length (fst (run_deadlines 4 demo_run1)) = 4%nat.
Proof.
  destruct (silence_closes_connection demo_run1 demo_run1_inv eq_refl) as (_ & Hc & _).
  split; [exact Hc|vm_compute; reflexivity].
Defined.

Lemma transport_state_invariant_witness :
  l4_inv demo_run2 /\ l4_pending (d_l4 demo_run2) <> None.
Proof.
  split; [|vm_compute; discriminate].
  apply (transport_state_invariant demo_run1 demo_run2 demo_run1_inv).
  apply (reach_frame demo_run1 demo_run1 demo_read 2), reach_start.
Defined.

Lemma connection_belongs_to_partner_witness :
  snd (handle_cemi_at demo_run1 (tool_frame (MkSimIA 4608) [128]) 2) = demo_run1.
Proof.
  destruct (connection_belongs_to_partner demo_run1 (tool_frame (MkSimIA 4608) [128]) 2)
    as [E _]; [reflexivity|reflexivity|discriminate|left; reflexivity|exact E].
Defined.

Lemma late_request_loses_disconnect_witness : exists e d',
  handle_cemi_at demo_device demo_read 6000000000 = (Err e, d') /\ d_connected d' = false.
Proof.
  destruct (late_request_loses_disconnect demo_device demo_read
    (MkSimApdu (SimMemoryRead 1) 513 [0; 16]) 6000000000) as [_ E];
    [reflexivity|discriminate|reflexivity|reflexivity|reflexivity|discriminate|exact E].
Defined.
