(* ===== verification/GroupComm.v ===== *)
(** * Group communication of the simulated device ([knx-sim/src/device/group_comm.rs, group_dispatch.rs])

    The routing a System B device reads back out of the tables in its memory, and
    what it does with group telegrams. *)

From S2P Require Import Prelude OrderedMap Flags SimWire SimMemory SimTransport.

Local Open Scope string_scope.
Local Open Scope list_scope.
Local Open Scope Z_scope.

#[export] Instance SimGroupAddress_eq_dec : EqDecision SimGroupAddress.
Proof. solve_decision. Defined.

(** ** Objects *)

Definition GO_COMMUNICATION : u16 := 1024.
Definition GO_READ : u16 := 2048.
Definition GO_WRITE : u16 := 4096.
Definition GO_TRANSMIT : u16 := 16384.

Record ComObject : Type := MkComObject {
  co_asap : u16;
  co_flags : u16;
  co_size_code : u8;
  co_gas : list SimGroupAddress;
  co_value : bytes }.

Definition co_set_gas (gas : list SimGroupAddress) (o : ComObject) : ComObject :=
  MkComObject (co_asap o) (co_flags o) (co_size_code o) gas (co_value o).
Definition co_set_value (value : bytes) (o : ComObject) : ComObject :=
  MkComObject (co_asap o) (co_flags o) (co_size_code o) (co_gas o) value.

Definition has_flags (mask : u16) (o : ComObject) : bool := Z.land (co_flags o) mask =? mask.

Definition ComObject_is_writable : ComObject -> bool := has_flags (Z.lor GO_COMMUNICATION GO_WRITE).
Definition ComObject_is_readable : ComObject -> bool := has_flags (Z.lor GO_COMMUNICATION GO_READ).
Definition ComObject_is_transmitter : ComObject -> bool := has_flags (Z.lor GO_COMMUNICATION GO_TRANSMIT).

Record GroupComm : Type := MkGroupComm {
  gc_objects : BTree ComObject;
  gc_by_ga : BTree (list u16) }.

(** ** Reading the tables *)

Definition read_counted_table (mem : Memory) (base : u16) (elem_size : Z) : option bytes :=
  count_bytes ← Memory_read_bounded mem base 2;
  let count := u16_of (nth 0 count_bytes 0) (nth 1 count_bytes 0) in
  if count =? 0 then Some []
  else Memory_read_bounded mem (as_u32 (base + 2)) (count * elem_size).

(** [as_chunks::<2>] and [as_chunks::<4>], each chunk read as words. *)
Fixpoint words_of (l : bytes) : list u16 :=
  match l with
  | hi :: lo :: l => u16_of hi lo :: words_of l
  | _ => []
  end.

Fixpoint pairs_of (l : bytes) : list (u16 * u16) :=
  match l with
  | a :: b :: c :: d :: l => (u16_of a b, u16_of c d) :: pairs_of l
  | _ => []
  end.

Definition address_table (memory : Memory) (addr_base : u16) : list SimGroupAddress :=
  map MkSimGA (words_of (default [] (read_counted_table memory addr_base 2))).

(** A 1-based entry. *)
Definition entry_1 {A} (l : list A) (i : u16) : option A :=
  if 1 <=? i then l !! Z.to_nat (i - 1) else None.

Definition push_address (gas : list SimGroupAddress) (ga : SimGroupAddress) : list SimGroupAddress :=
  if bool_decide (ga ∈ gas) then gas else gas ++ [ga].

(** One association entry wired onto its object. *)
Definition associate (addresses : list SimGroupAddress) (descriptors : list u16)
    (objects : BTree ComObject) (entry : u16 * u16) : BTree ComObject :=
  let '(tsap, asap) := entry in
  match entry_1 addresses tsap with
  | None => objects
  | Some ga =>
      let word := default 0 (entry_1 descriptors asap) in
      bt_update asap (fun e =>
          let obj := default (MkComObject asap (Z.land word 64512) (Z.land word 255) [] []) e in
          co_set_gas (push_address (co_gas obj) ga) obj)
        objects
  end.

(** [by_ga.entry(ga).or_default().push(asap)]. *)
Definition push_asap (by_ga : BTree (list u16)) (ga : SimGroupAddress) (asap : u16) : BTree (list u16) :=
  bt_update (sim_ga_raw ga) (fun e => default [] e ++ [asap]) by_ga.

Definition index_objects (objects : BTree ComObject) : BTree (list u16) :=
  foldl (fun by_ga o => foldl (fun by_ga ga => push_asap by_ga ga (co_asap o)) by_ga (co_gas o))
    [] (map snd objects).

Definition GroupComm_from_tables (memory : Memory) (addr_base assoc_base comobj_base : u16) : GroupComm :=
  let addresses := map MkSimGA (words_of (default [] (read_counted_table memory addr_base 2))) in
  let descriptors := words_of (default [] (read_counted_table memory comobj_base 2)) in
  let entries := pairs_of (default [] (read_counted_table memory assoc_base 4)) in
  let objects := foldl (associate addresses descriptors) [] entries in
  MkGroupComm objects (index_objects objects).

Definition GroupComm_is_empty (gc : GroupComm) : bool := bool_decide (gc_objects gc = []).

Definition GroupComm_object (gc : GroupComm) (asap : u16) : option ComObject := bt_get asap (gc_objects gc).

Definition GroupComm_send_ga (gc : GroupComm) (asap : u16) : option SimGroupAddress :=
  obj ← bt_get asap (gc_objects gc);
  if negb (ComObject_is_transmitter obj) then None else head (co_gas obj).

(** ** Telegrams *)

(** The objects of an address that accept a write get the value, in order. *)
Fixpoint write_objects (payload : bytes) (asaps : list u16) (objects : BTree ComObject)
    : list u16 * BTree ComObject :=
  match asaps with
  | [] => ([], objects)
  | asap :: asaps =>
      match bt_get asap objects with
      | Some obj =>
          if ComObject_is_writable obj then
            let '(updated, objects) :=
              write_objects payload asaps
                (bt_update asap (fun e => co_set_value payload (default obj e)) objects) in
            (asap :: updated, objects)
          else write_objects payload asaps objects
      | None => write_objects payload asaps objects
      end
  end.

Definition GroupComm_on_group_write (gc : GroupComm) (ga : SimGroupAddress) (payload : bytes)
    : list u16 * GroupComm :=
  let asaps := default [] (bt_get (sim_ga_raw ga) (gc_by_ga gc)) in
  let '(updated, objects) := write_objects payload asaps (gc_objects gc) in
  (updated, MkGroupComm objects (gc_by_ga gc)).

Fixpoint first_readable (asaps : list u16) (objects : BTree ComObject) : option bytes :=
  match asaps with
  | [] => None
  | asap :: asaps =>
      match bt_get asap objects with
      | Some obj => if ComObject_is_readable obj then Some (co_value obj) else first_readable asaps objects
      | None => first_readable asaps objects
      end
  end.

Definition GroupComm_on_group_read (gc : GroupComm) (ga : SimGroupAddress) : option bytes :=
  asaps ← bt_get (sim_ga_raw ga) (gc_by_ga gc);
  first_readable asaps (gc_objects gc).

Definition GroupComm_set_value (gc : GroupComm) (asap : u16) (payload : bytes) : GroupComm :=
  match bt_get asap (gc_objects gc) with
  | None => gc
  | Some obj =>
      MkGroupComm (bt_update asap (fun e => co_set_value payload (default obj e)) (gc_objects gc)) (gc_by_ga gc)
  end.

(** [group_telegram]: a telegram of the device to a group, the small form for a
    payload of at most six bits. *)
Definition group_telegram (address : SimIndividualAddress) (apci : SimApci) (ga : SimGroupAddress)
    (payload : bytes) : CemiLData :=
  let apci10 := sim_apci_to_u10 apci in
  let hi := Z.land (as_u8 (Z.shiftr apci10 8)) 3 in
  let tpdu :=
    match payload with
    | [b] => if b <=? 63 then [hi; Z.lor (as_u8 (Z.land apci10 192)) (Z.land b 63)]
             else [hi; as_u8 (Z.land apci10 255); b]
    | _ => [hi; as_u8 (Z.land apci10 255)] ++ payload
    end in
  MkCemiLData SimLDataInd 188 224 address (sim_ga_raw ga) tpdu.

(** [handle_group], on a device with this routing, if any. *)
Definition handle_group (address : SimIndividualAddress) (group_comm : option GroupComm) (apci : SimApci)
    (ga : SimGroupAddress) (payload : bytes) : list CemiLData * option GroupComm :=
  match group_comm with
  | None => ([], None)
  | Some gc =>
      match apci with
      | SimGroupValueWrite => ([], Some (snd (GroupComm_on_group_write gc ga payload)))
      | SimGroupValueRead =>
          match GroupComm_on_group_read gc ga with
          | Some value => ([group_telegram address SimGroupValueResponse ga value], Some gc)
          | None => ([], Some gc)
          end
      | _ => ([], Some gc)
      end
  end.

(** [emit_stimulus] without Data Secure. *)
Definition emit_stimulus (address : SimIndividualAddress) (gc : GroupComm) (object : u16) (payload : bytes)
    : option CemiLData * GroupComm :=
  match GroupComm_send_ga gc object with
  | None => (None, gc)
  | Some ga =>
      (Some (group_telegram address SimGroupValueWrite ga payload), GroupComm_set_value gc object payload)
  end.
