(* ===== verification/Routing.v ===== *)
(** * From the model's links to the device's routing

    The tables [GroupTables] computes, written where the device looks for them,
    and the routing [GroupComm] reads back: group telegrams reach the objects the
    links name. *)

From S2P Require Import Prelude OrderedMap Flags Address GroupTables SimWire SimMemory.
From S2P Require Import SimTransport GroupComm.
From Stdlib Require Import Sorting.Sorted.

Local Open Scope string_scope.
Local Open Scope list_scope.
Local Open Scope Z_scope.

(** ** A table in memory *)

(** An image the tool wrote, in one segment. *)
Definition holds_table (m : Memory) (base : u16) (image : bytes) : Prop :=
  is_u16 base /\
  (exists seg, In seg (segments m) /\ Segment_contains seg base (zlen image) = true) /\
  Memory_read m base (zlen image) = image.

Lemma find_some {X} (f : X -> bool) l x : In x l -> f x = true -> is_Some (List.find f l).
Proof.
  intros Hin Hx. destruct (List.find f l) eqn:E; [by eexists|].
  pose proof (List.find_none _ _ E x Hin). congruence.
Qed.

Lemma read_bounded_part m base (image : bytes) k n : 0 <= base -> 0 <= k -> 0 <= n -> k + n <= zlen image ->
  (exists seg, In seg (segments m) /\ Segment_contains seg base (zlen image) = true) ->
  Memory_read_bounded m (base + k) n = Some (Memory_read m (base + k) n).
Proof.
  intros Hb Hk Hn Hl (seg & Hin & Hc). apply contains_bounds in Hc. unfold Memory_read_bounded.
  destruct (find_some (fun s => Segment_contains s (base + k) n) (segments m) seg Hin) as [s ->]; [|done].
  unfold Segment_contains. apply andb_true_iff. lia.
Qed.

Lemma read_counted m base count elements size : holds_table m base (table_image_with_count count elements) ->
  Z.of_nat count <= 65535 -> zlen elements = Z.of_nat count * size -> 0 <= size <= 4 ->
  read_counted_table m base size = Some elements.
Proof.
  intros (Hb & Hseg & Hread) Hc Hl Hs. unfold read_counted_table, table_image_with_count in *.
  set (w := as_u16 (Z.of_nat count)) in *.
  assert (Hw : w = Z.of_nat count) by (unfold w, as_u16; apply Z.mod_small; lia).
  assert (Hw16 : is_u16 w) by (unfold is_u16; lia).
  assert (Hlen : zlen (be_bytes 2 w ++ elements) = 2 + zlen elements)
    by (unfold zlen; rewrite length_app, length_be_bytes; lia).
  assert (He : 0 <= zlen elements) by (unfold zlen; lia). rewrite Hlen in Hread.
  unfold is_u16 in Hb.
  rewrite <- Memory_read_app in Hread by lia.
  assert (H2 : length (Memory_read m base 2) = 2%nat)
    by (pose proof (length_Memory_read m base 2 ltac:(lia)) as H2; unfold zlen in H2; lia).
  apply app_inj_1 in Hread as [E1 E2]; [|by rewrite H2, length_be_bytes].
  pose proof (read_bounded_part m base (be_bytes 2 w ++ elements) 0 2 ltac:(lia) ltac:(lia) ltac:(lia) ltac:(lia) Hseg) as R1.
  rewrite Z.add_0_r in R1. rewrite R1, E1. cbn [mbind option_bind].
  assert (Eu : u16_of (nth 0 (be_bytes 2 w) 0) (nth 1 (be_bytes 2 w) 0) = w).
  { by destruct (be_bytes_2_u16 w Hw16) as (hi & lo & -> & _ & _ & Eu). }
  rewrite Eu. destruct (Z.eqb_spec w 0) as [E0|Hne].
  - f_equal. destruct elements; [done|]. unfold zlen in Hl. cbn [length] in Hl. nia.
  - unfold as_u32. rewrite Z.mod_small by lia.
    rewrite (read_bounded_part m base (be_bytes 2 w ++ elements) 2 (w * size) ltac:(lia) ltac:(lia) ltac:(nia) ltac:(nia) Hseg).
    f_equal. rewrite Hw, <- Hl. exact E2.
Qed.

Lemma words_of_words ws : Forall is_u16 ws -> words_of (flat_map (be_bytes 2) ws) = ws.
Proof.
  induction 1 as [|w ws Hw H IH]; [done|]. cbn [flat_map].
  destruct (be_bytes_2_u16 w Hw) as (hi & lo & -> & _ & _ & Eu). cbn [app words_of]. by rewrite Eu, IH.
Qed.

Lemma pairs_of_pairs es : Forall (fun e => is_u16 (fst e) /\ is_u16 (snd e)) es ->
  pairs_of (flat_map (fun '(tsap, asap) => be_bytes 2 tsap ++ be_bytes 2 asap) es) = es.
Proof.
  induction 1 as [|[t a] es [Ht Ha] H IH]; [done|]. cbn [flat_map fst snd] in *.
  destruct (be_bytes_2_u16 t Ht) as (h1 & l1 & -> & _ & _ & E1).
  destruct (be_bytes_2_u16 a Ha) as (h2 & l2 & -> & _ & _ & E2). cbn [app pairs_of]. by rewrite E1, E2, IH.
Qed.

Lemma flat_map_size {X} (f : X -> bytes) n l : (forall x, zlen (f x) = n) ->
  zlen (flat_map f l) = Z.of_nat (length l) * n.
Proof.
  intros Hf. induction l as [|x l IH]; [done|]. cbn [flat_map length]. specialize (Hf x).
  unfold zlen in *. rewrite length_app. lia.
Qed.

(** ** Wiring *)

Definition sim_group (ga : GroupAddress) : SimGroupAddress := MkSimGA (GroupAddress_raw ga).

Lemma sim_group_inj ga ga' : sim_group ga = sim_group ga' -> ga = ga'.
Proof. destruct ga, ga'. by intros [= ->]. Qed.

Lemma push_address_sim gas ga : push_address (map sim_group gas) (sim_group ga) = map sim_group (push_new gas ga).
Proof.
  unfold push_address, push_new. rewrite (bool_decide_ext _ (ga ∈ gas)).
  - case_bool_decide; [done|]. by rewrite map_app.
  - rewrite !list_elem_of_In, in_map_iff. split; [|by eexists]. by intros (x & <-%sim_group_inj & Hx).
Qed.

Lemma foldl_push_sim l : forall gas,
  foldl push_address (map sim_group gas) (map sim_group l) = map sim_group (foldl push_new gas l).
Proof. induction l as [|ga l IH]; intros gas; [done|]. cbn [map foldl]. by rewrite push_address_sim, IH. Qed.

Section Wiring.
  Variables (addresses : list SimGroupAddress) (descriptors : list u16).

Definition fresh_object (asap : u16) : ComObject :=
  let word := default 0 (entry_1 descriptors asap) in
  MkComObject asap (Z.land word 64512) (Z.land word 255) [] [].

Definition wire (o : u16) (e : option ComObject) (ga : SimGroupAddress) : option ComObject :=
  Some (co_set_gas (push_address (co_gas (default (fresh_object o) e)) ga) (default (fresh_object o) e)).

(** Each entry with an address changes its own object. *)
Lemma associate_get l o : forall m, bt_ok m ->
  bt_ok (foldl (associate addresses descriptors) m l) /\
  bt_get o (foldl (associate addresses descriptors) m l)
  = foldl (wire o) (bt_get o m)
      (omap (fun e => entry_1 addresses (fst e)) (List.filter (fun e => snd e =? o) l)).
Proof.
  induction l as [|[tsap asap] l IH]; intros m Hm; [done|]. cbn [foldl List.filter fst snd].
  unfold associate at 2 4. destruct (entry_1 addresses tsap) as [ga|] eqn:E.
  - destruct (IH (bt_update asap (fun e => co_set_gas (push_address (co_gas (default (fresh_object asap) e)) ga)
      (default (fresh_object asap) e)) m) (bt_update_ok _ _ _ Hm)) as [H1 H2].
    split; [exact H1|]. etransitivity; [exact H2|]. rewrite bt_get_update by done. rewrite (Z.eqb_sym o).
    destruct (Z.eqb_spec asap o) as [->|]; [|done]. cbn [omap list_omap fst]. by rewrite E.
  - destruct (IH m Hm) as [H1 H2]. split; [exact H1|]. rewrite H2.
    destruct (Z.eqb_spec asap o) as [->|]; [|done]. cbn [omap list_omap fst]. by rewrite E.
Qed.

Lemma wire_all o l : forall gas, foldl (wire o) (Some (co_set_gas gas (fresh_object o))) l
  = Some (co_set_gas (foldl push_address gas l) (fresh_object o)).
Proof. induction l as [|ga l IH]; intros gas; [done|]. cbn [foldl]. apply IH. Qed.

Lemma wire_fresh o l : foldl (wire o) None l
  = match l with [] => None | _ => Some (co_set_gas (foldl push_address [] l) (fresh_object o)) end.
Proof. destruct l as [|ga l]; [done|]. cbn [foldl]. apply (wire_all o l (push_address [] ga)). Qed.

End Wiring.

(** ** The reverse index *)

Lemma push_asap_get m ga asap w : bt_ok m ->
  default [] (bt_get w (push_asap m ga asap))
  = default [] (bt_get w m) ++ (if w =? sim_ga_raw ga then [asap] else []).
Proof.
  intros Hm. unfold push_asap. rewrite bt_get_update by done.
  destruct (Z.eqb_spec w (sim_ga_raw ga)) as [->|]; [done|]. by rewrite app_nil_r.
Qed.

Lemma index_object gas asap w : NoDup gas -> forall m, bt_ok m ->
  let m' := foldl (fun m ga => push_asap m ga asap) m gas in
  bt_ok m' /\ default [] (bt_get w m')
    = default [] (bt_get w m) ++ (if bool_decide (MkSimGA w ∈ gas) then [asap] else []).
Proof.
  induction 1 as [|ga gas Hga Hnd IH]; intros m Hm; [by rewrite app_nil_r|]. cbn [foldl].
  destruct (IH (push_asap m ga asap) (bt_update_ok _ _ _ Hm)) as [H1 H2]. split; [exact H1|].
  rewrite H2, push_asap_get, <- app_assoc by done. f_equal.
  destruct (Z.eqb_spec w (sim_ga_raw ga)) as [->|Hne].
  - rewrite (bool_decide_eq_true_2 (_ ∈ ga :: gas)) by (destruct ga; left).
    by rewrite bool_decide_eq_false_2 by (by destruct ga).
  - cbn [app]. erewrite bool_decide_ext; [done|]. rewrite elem_of_cons.
    split; [by right|]. intros [<-|]; [by destruct Hne|done].
Qed.

(** The objects of an address, in the order of their numbers. *)
Definition objects_of (objects : BTree ComObject) (ga : SimGroupAddress) : list u16 :=
  map co_asap (List.filter (fun o => bool_decide (ga ∈ co_gas o)) (map snd objects)).

Lemma index_objects_get objects ga : Forall (fun e => NoDup (co_gas (snd e))) objects ->
  default [] (bt_get (sim_ga_raw ga) (index_objects objects)) = objects_of objects ga.
Proof.
  intros Hnd. unfold index_objects, objects_of.
  assert (H : forall m, bt_ok m -> default [] (bt_get (sim_ga_raw ga)
      (foldl (fun by_ga o => foldl (fun by_ga ga => push_asap by_ga ga (co_asap o)) by_ga (co_gas o)) m
         (map snd objects)))
    = default [] (bt_get (sim_ga_raw ga) m)
      ++ map co_asap (List.filter (fun o => bool_decide (ga ∈ co_gas o)) (map snd objects))).
  { induction Hnd as [|[k o] objects Ho Hnd IH]; intros m Hm; [by rewrite app_nil_r|].
    cbn [map snd foldl List.filter] in *.
    destruct (index_object (co_gas o) (co_asap o) (sim_ga_raw ga) Ho m Hm) as [H1 H2].
    rewrite IH by done. rewrite H2, <- app_assoc. f_equal.
    replace (MkSimGA (sim_ga_raw ga)) with ga by (by destruct ga). cbn [co_gas].
    by destruct (bool_decide (ga ∈ co_gas o)). }
  rewrite H by constructor. done.
Qed.

(** ** The descriptors *)

(** The word of an object number: its descriptor's, 0 without one. *)
Definition word_at (descriptors : list GroupObjectDescriptor) (o : u16) : u16 :=
  if o =? 0 then 0
  else match List.find (fun d => god_asap d =? o) descriptors with
       | Some d => group_object_word (god_flags d) (god_size_code d) (god_priority d)
       | None => 0
       end.

Lemma find_none_notin descriptors o :
  ~ In o (map god_asap descriptors) -> List.find (fun d => god_asap d =? o) descriptors = None.
Proof.
  intros Hn. destruct (List.find _ _) as [d|] eqn:E; [|done].
  apply List.find_some in E as [Hin <-%Z.eqb_eq]. destruct Hn. by apply in_map.
Qed.

Lemma placed_words descriptors o : NoDup (map god_asap descriptors) -> 1 <= o ->
  Forall (fun d => 0 <= god_asap d) descriptors ->
  forall words, o <= zlen words -> 
  default 0 (foldl (fun words d =>
      if god_asap d =? 0 then words
      else <[(Z.to_nat (god_asap d) - 1)%nat
             := group_object_word (god_flags d) (god_size_code d) (god_priority d)]> words)
    words descriptors !! Z.to_nat (o - 1))
  = match List.find (fun d => god_asap d =? o) descriptors with
    | Some d => group_object_word (god_flags d) (god_size_code d) (god_priority d)
    | None => default 0 (words !! Z.to_nat (o - 1))
    end.
Proof.
  intros Hnd Ho. induction descriptors as [|d ds IH]; intros Hr words Hl; [done|].
  cbn [map] in Hnd. apply NoDup_cons in Hnd as [Hd Hnd]. apply Forall_cons in Hr as [Hd0 Hr].
  cbn [foldl List.find]. rewrite IH; [|done|done|].
  2: { destruct (god_asap d =? 0); [done|]. unfold zlen. by rewrite length_insert. }
  destruct (Z.eqb_spec (god_asap d) o) as [E|Hne].
  - rewrite find_none_notin by (rewrite <- E, <- list_elem_of_In; exact Hd).
    rewrite (proj2 (Z.eqb_neq _ _)) by lia.
    replace (Z.to_nat (god_asap d) - 1)%nat with (Z.to_nat (o - 1)) by lia.
    rewrite list_lookup_insert_eq; [done|]. unfold zlen in Hl. lia.
  - destruct (List.find _ ds); [done|]. destruct (Z.eqb_spec (god_asap d) 0); [done|].
    by rewrite list_lookup_insert_ne by lia.
Qed.

Lemma entry_1_length {X} (l : list X) o : zlen l < o -> entry_1 l o = None.
Proof.
  intros H. unfold entry_1. destruct (1 <=? o); [|done]. apply lookup_ge_None. unfold zlen in H. lia.
Qed.

Lemma length_descriptor_words count descriptors : length (descriptor_words count descriptors) = count.
Proof.
  unfold descriptor_words. rewrite <- (length_replicate count 0) at 2.
  generalize (replicate count 0). induction descriptors as [|d ds IH]; intros ws; [done|].
  cbn [foldl]. rewrite IH. destruct (god_asap d =? 0); [done|]. by rewrite length_insert.
Qed.

Lemma max_asap_bound descriptors d : In d descriptors -> god_asap d <= max_asap descriptors.
Proof.
  induction descriptors as [|d' ds IH]; [done|]. cbn [max_asap foldr]. fold (max_asap ds).
  intros [->|Hin]; [lia|]. specialize (IH Hin). lia.
Qed.

Lemma descriptor_words_entry descriptors o : NoDup (map god_asap descriptors) -> 0 <= o ->
  Forall (fun d => 0 <= god_asap d) descriptors ->
  default 0 (entry_1 (descriptor_words (Z.to_nat (max_asap descriptors)) descriptors) o)
  = word_at descriptors o.
Proof.
  intros Hnd Ho Hr. unfold word_at. destruct (Z.eqb_spec o 0) as [->|Hne]; [done|].
  destruct (Z.le_gt_cases o (max_asap descriptors)) as [Hle|Hgt].
  - unfold entry_1. rewrite (proj2 (Z.leb_le 1 o)) by lia. unfold descriptor_words.
    rewrite placed_words by (done || lia || (unfold zlen; rewrite length_replicate; lia)).
    destruct (List.find _ _); [done|]. rewrite lookup_replicate_2 by lia. done.
  - rewrite entry_1_length by (unfold zlen; rewrite length_descriptor_words;
      assert (0 <= max_asap descriptors) by (unfold max_asap; clear; induction descriptors; cbn; lia); lia).
    rewrite find_none_notin; [done|]. intros (d & <- & Hin)%in_map_iff.
    pose proof (max_asap_bound descriptors d Hin). lia.
Qed.

(** A descriptor the model can hold. *)
Definition descriptor_ok (d : GroupObjectDescriptor) : Prop :=
  is_u16 (god_asap d) /\ 0 <= god_flags d < 64 /\ is_u8 (god_size_code d).

(** The word without its low octet. *)
Definition word_high (flags : Flags) (priority : ComPriority) : u16 := group_object_word flags 0 priority.

Lemma word_split flags size_code priority :
  group_object_word flags size_code priority = Z.lor (word_high flags priority) size_code.
Proof. unfold word_high, group_object_word. by rewrite Z.lor_0_r. Qed.

Lemma word_high_flags flags priority : 0 <= flags < 64 ->
  let high := Z.land (word_high flags priority) 64512 in
  Z.land (word_high flags priority) 255 = 0 /\ 0 <= word_high flags priority < 65536 /\
  (Z.land high 5120 =? 5120) = (Flags_contains flags FLAG_COMMUNICATION && Flags_contains flags FLAG_WRITE)%bool /\
  (Z.land high 3072 =? 3072) = (Flags_contains flags FLAG_COMMUNICATION && Flags_contains flags FLAG_READ)%bool /\
  (Z.land high 17408 =? 17408) = (Flags_contains flags FLAG_COMMUNICATION && Flags_contains flags FLAG_TRANSMIT)%bool.
Proof.
  intros Hf. cbv zeta. revert flags Hf.
  refine (below_decide 64 (fun flags => let high := Z.land (word_high flags priority) 64512 in
    Z.land (word_high flags priority) 255 = 0 /\ 0 <= word_high flags priority < 65536 /\
    (Z.land high 5120 =? 5120) = (Flags_contains flags FLAG_COMMUNICATION && Flags_contains flags FLAG_WRITE)%bool /\
    (Z.land high 3072 =? 3072) = (Flags_contains flags FLAG_COMMUNICATION && Flags_contains flags FLAG_READ)%bool /\
    (Z.land high 17408 =? 17408) = (Flags_contains flags FLAG_COMMUNICATION && Flags_contains flags FLAG_TRANSMIT)%bool) _).
  destruct priority; vm_compute; reflexivity.
Qed.

Lemma lor_below n a b : 0 <= a < 2 ^ n -> 0 <= b < 2 ^ n -> Z.lor a b < 2 ^ n.
Proof.
  intros Ha Hb. assert (Hn : 0 <= n) by (destruct (Z.ltb_spec n 0); [rewrite Z.pow_neg_r in Ha by done|]; lia).
  assert (Hl : 0 <= Z.lor a b) by (apply Z.lor_nonneg; lia).
  destruct (Z.eq_dec (Z.lor a b) 0) as [->|Hne]; [lia|]. apply Z.log2_lt_pow2; [lia|].
  assert (0 < n) by (destruct (Z.eq_dec n 0) as [->|]; [|lia]; replace a with 0 in Hne by lia;
    by replace b with 0 in Hne by lia).
  assert (Hlog : forall x, 0 <= x < 2 ^ n -> Z.log2 x < n).
  { intros x Hx. destruct (Z.eq_dec x 0) as [->|]; [by rewrite Z.log2_nonpos|]. by apply Z.log2_lt_pow2; lia. }
  rewrite Z.log2_lor by lia. pose proof (Hlog a Ha). pose proof (Hlog b Hb). lia.
Qed.

Lemma word_octets flags size_code priority : 0 <= flags < 64 -> is_u8 size_code ->
  let word := group_object_word flags size_code priority in
  Z.land word 64512 = Z.land (word_high flags priority) 64512 /\ Z.land word 255 = size_code /\ is_u16 word.
Proof.
  intros Hf Hs. cbv zeta. rewrite word_split, !Z.land_lor_distr_l.
  destruct (word_high_flags flags priority Hf) as (E & Hr & _). rewrite E.
  assert (H : forall v, 0 <= v < 256 -> Z.land v 64512 = 0 /\ Z.land v 255 = v).
  { refine (below_decide 256 (fun v => Z.land v 64512 = 0 /\ Z.land v 255 = v) _). vm_compute. reflexivity. }
  destruct (H size_code Hs) as [-> ->]. rewrite Z.lor_0_r. split; [done|]. split; [done|].
  split; [apply Z.lor_nonneg; unfold is_u8 in Hs; lia|].
  apply (lor_below 16); unfold is_u8 in Hs; lia.
Qed.

(** ** Writes *)

Definition writable_at (objects : BTree ComObject) (o : u16) : bool :=
  match bt_get o objects with Some obj => ComObject_is_writable obj | None => false end.

(** A write goes to the writable objects of the list, in its order, and to no
    other object. *)
Lemma write_objects_spec payload asaps : forall objects, bt_ok objects -> NoDup asaps ->
  let r := write_objects payload asaps objects in
  fst r = List.filter (writable_at objects) asaps /\ bt_ok (snd r) /\
  forall o, bt_get o (snd r)
    = if bool_decide (o ∈ asaps) && writable_at objects o
      then option_map (co_set_value payload) (bt_get o objects) else bt_get o objects.
Proof.
  induction asaps as [|a asaps IH]; intros objects Hok Hnd; [done|].
  apply NoDup_cons in Hnd as [Ha Hnd]. cbn [write_objects List.filter].
  assert (Hcons : forall o, bool_decide (o ∈ a :: asaps) = ((o =? a) || bool_decide (o ∈ asaps))%bool).
  { intros o. destruct (Z.eqb_spec o a) as [->|Hne]; [by apply bool_decide_eq_true_2; left|].
    apply bool_decide_ext. rewrite elem_of_cons. tauto. }
  destruct (writable_at objects a) eqn:Ew.
  - assert (exists obj, bt_get a objects = Some obj /\ ComObject_is_writable obj = true) as (obj & Eo & Hw).
    { unfold writable_at in Ew. destruct (bt_get a objects) as [obj|]; [by exists obj|done]. }
    rewrite Eo, Hw. set (objects' := bt_update a _ objects).
    assert (Hget : forall o, bt_get o objects' = if o =? a then Some (co_set_value payload obj) else bt_get o objects).
    { intros o. unfold objects'. rewrite bt_get_update by done. by rewrite Eo. }
    assert (Hwr : forall o, writable_at objects' o = writable_at objects o).
    { intros o. unfold writable_at. rewrite Hget. destruct (Z.eqb_spec o a) as [->|]; [by rewrite Eo|done]. }
    specialize (IH objects' (bt_update_ok _ _ _ Hok) Hnd). cbv zeta in IH.
    destruct (write_objects payload asaps objects') as [updated final] eqn:Er. cbn [fst snd] in *.
    destruct IH as (E1 & H2 & H3). split; [|split; [done|]].
    + f_equal. rewrite E1. by apply List.filter_ext.
    + intros o. rewrite H3, Hcons, Hwr, Hget. destruct (Z.eqb_spec o a) as [->|]; [|done].
      rewrite bool_decide_eq_false_2 by done. cbn [orb andb]. by rewrite Ew, Eo.
  - replace (match bt_get a objects with Some _ => _ | None => _ end) with (write_objects payload asaps objects).
    2: { unfold writable_at in Ew. destruct (bt_get a objects); [by rewrite Ew|done]. }
    destruct (IH objects Hok Hnd) as (E1 & H2 & H3). split; [done|]. split; [done|]. intros o.
    rewrite H3, Hcons. destruct (Z.eqb_spec o a) as [->|]; [|done]. rewrite Ew. by rewrite !andb_false_r.
Qed.

(** ** A flashed device *)

Definition link_ok (l : Link) : Prop :=
  is_u16 (link_object l) /\
  Forall (fun ga => is_u16 (GroupAddress_raw ga)) (sends l ++ link_listen l).

(** The three tables computed from the links and the com-objects, each within
    its 16-bit count, where the device looks for them. *)
Record flashed (m : Memory) (links : list Link) (descriptors : list GroupObjectDescriptor)
    (addr_base assoc_base comobj_base : u16) : Prop := MkFlashed {
  fl_links : Forall link_ok links;
  fl_descriptors : Forall descriptor_ok descriptors;
  fl_asaps : NoDup (map god_asap descriptors);
  fl_address_count : (DesiredTables_address_count (compute_tables links) <= Z.to_nat 65535)%nat;
  fl_association_count : (DesiredTables_association_count (compute_tables links) <= Z.to_nat 65535)%nat;
  fl_addresses : holds_table m addr_base
    (table_image_with_count (DesiredTables_address_count (compute_tables links))
       (DesiredTables_address_elements (compute_tables links)));
  fl_associations : holds_table m assoc_base
    (table_image_with_count (DesiredTables_association_count (compute_tables links))
       (DesiredTables_association_elements (compute_tables links)));
  fl_objects : exists image, compute_group_object_table descriptors = Some image /\
    holds_table m comobj_base image }.

Lemma model_gas_ok links o ga : Forall link_ok links -> In ga (model_gas links o) ->
  is_u16 o /\ is_u16 (GroupAddress_raw ga).
Proof.
  intros Hl (l & Hin & <- & Hga)%model_gas_in. rewrite List.Forall_forall in Hl. destruct (Hl l Hin) as [H1 H2].
  split; [done|]. rewrite List.Forall_forall in H2. apply H2, in_app_iff. unfold sends.
  destruct Hga as [-> |Hga]; [left; by left|by right].
Qed.

Lemma max_asap_range descriptors : Forall descriptor_ok descriptors -> 0 <= max_asap descriptors <= 65535.
Proof.
  induction 1 as [|d ds [Hd _] H IH]; cbn [max_asap foldr]; [lia|]. fold (max_asap ds).
  unfold is_u16 in Hd. lia.
Qed.

Lemma descriptor_words_u16 count descriptors : Forall descriptor_ok descriptors ->
  Forall is_u16 (descriptor_words count descriptors).
Proof.
  intros H. unfold descriptor_words.
  assert (Hw : Forall is_u16 (replicate count 0)) by (apply Forall_replicate; unfold is_u16; lia).
  revert Hw. generalize (replicate count 0). induction H as [|d ds (Ha & Hf & Hs) H IH]; intros ws Hw; [done|].
  cbn [foldl]. apply IH. destruct (god_asap d =? 0); [done|].
  apply Forall_insert; [done|]. by apply word_octets.
Qed.

Section Flashed.
  Variables (m : Memory) (links : list Link) (descriptors : list GroupObjectDescriptor).
  Variables (addr_base assoc_base comobj_base : u16).
  Hypothesis Hfl : flashed m links descriptors addr_base assoc_base comobj_base.

Local Abbreviation t := (compute_tables links).

Lemma flashed_address_table : address_table m addr_base = map sim_group (dt_addresses t).
Proof.
  destruct Hfl as [Hl _ _ Hc _ Ht _ _]. unfold address_table.
  unfold DesiredTables_address_count in *. rewrite (read_counted _ _ _ _ 2 Ht).
  2: { apply Nat2Z.inj_le in Hc. by rewrite Z2Nat.id in Hc. }
  2: { apply flat_map_size. intros ga. unfold zlen. by rewrite length_be_bytes. }
  2: lia.
  cbn [default option_rect from_option id]. unfold DesiredTables_address_elements.
  replace (flat_map (fun ga => be_bytes 2 (GroupAddress_raw ga)) (dt_addresses t))
    with (flat_map (be_bytes 2) (map GroupAddress_raw (dt_addresses t)))
    by (by rewrite !flat_map_concat_map, map_map).
  rewrite words_of_words; [by rewrite map_map|].
  apply Forall_fmap, List.Forall_forall. intros ga Hga. apply addresses_spec in Hga as (o & Hga).
  exact (proj2 (model_gas_ok links o ga Hl Hga)).
Qed.

Lemma address_places ga o : In ga (model_gas links o) ->
  is_u16 (tsap_of (dt_addresses t) ga) /\
  entry_1 (map sim_group (dt_addresses t)) (tsap_of (dt_addresses t) ga) = Some (sim_group ga).
Proof.
  intros Hga. destruct Hfl as [_ _ _ Hc _ _ _ _]. unfold DesiredTables_address_count in Hc.
  apply Nat2Z.inj_le in Hc. rewrite Z2Nat.id in Hc by lia.
  destruct (tsap_spec (dt_addresses t) ga) as [Hr He]; [apply addresses_spec; by exists o|done|].
  unfold zlen in Hr. split; [unfold is_u16; lia|]. unfold entry_1. rewrite (proj2 (Z.leb_le 1 _)) by lia.
  change (map sim_group (dt_addresses t)) with (sim_group <$> dt_addresses t).
  by rewrite list_lookup_fmap, He.
Qed.

Lemma flashed_associations :
  pairs_of (default [] (read_counted_table m assoc_base 4)) = dt_associations t.
Proof.
  destruct Hfl as [Hl _ _ _ Hc _ Ht _]. unfold DesiredTables_association_count in *.
  rewrite (read_counted _ _ _ _ 4 Ht).
  2: { apply Nat2Z.inj_le in Hc. by rewrite Z2Nat.id in Hc. }
  2: { apply flat_map_size. intros [tsap asap]. unfold zlen. by rewrite length_app, !length_be_bytes. }
  2: lia.
  cbn [default option_rect from_option id]. unfold DesiredTables_association_elements.
  apply pairs_of_pairs, List.Forall_forall. intros e He.
  destruct (associations_in links e He) as (ga & Hga & ->).
  split; [exact (proj1 (address_places ga _ Hga))|exact (proj1 (model_gas_ok links _ _ Hl Hga))].
Qed.

Lemma flashed_descriptors :
  let words := words_of (default [] (read_counted_table m comobj_base 2)) in
  forall o, is_u16 o -> default 0 (entry_1 words o) = word_at descriptors o.
Proof.
  destruct Hfl as [_ Hd Hnd _ _ _ _ (image & Ei & Ht)]. cbv zeta. intros o Ho.
  assert (Hn : 0 <= max_asap descriptors <= 65535) by (by apply max_asap_range).
  unfold compute_group_object_table in Ei. destruct descriptors as [|d ds] eqn:E; [done|].
  rewrite <- E in *. injection Ei as <-. unfold group_object_image in Ht.
  rewrite (read_counted _ _ _ _ 2 Ht).
  2: rewrite Z2Nat.id; lia.
  2: { rewrite (flat_map_size (be_bytes 2) 2) by (intros w; unfold zlen; by rewrite length_be_bytes).
       by rewrite length_descriptor_words. }
  2: lia.
  cbn [default option_rect from_option id]. rewrite words_of_words by (by apply descriptor_words_u16).
  unfold is_u16 in Ho. apply descriptor_words_entry; [done|lia|].
  eapply Forall_impl; [exact Hd|]. intros d' [Hd' _]. unfold is_u16 in Hd'. lia.
Qed.

(** An object has its links' addresses in the model's order, and its
    descriptor's flags and size; without links it is not there. *)
Definition model_object (o : u16) : option ComObject :=
  match model_gas links o with
  | [] => None
  | gas => Some (MkComObject o (Z.land (word_at descriptors o) 64512) (Z.land (word_at descriptors o) 255)
                   (map sim_group gas) [])
  end.

Local Abbreviation gc := (GroupComm_from_tables m addr_base assoc_base comobj_base).

Lemma flashed_objects_eq : gc_objects gc
  = foldl (associate (map sim_group (dt_addresses t))
             (words_of (default [] (read_counted_table m comobj_base 2)))) [] (dt_associations t).
Proof.
  unfold GroupComm_from_tables. cbn [gc_objects]. rewrite flashed_associations.
  fold (address_table m addr_base). by rewrite flashed_address_table.
Qed.

Lemma flashed_objects_ok : bt_ok (gc_objects gc).
Proof. rewrite flashed_objects_eq. exact (proj1 (associate_get _ _ _ 0 [] ltac:(constructor))). Qed.

Lemma flashed_object o : GroupComm_object gc o = model_object o.
Proof.
  unfold GroupComm_object. rewrite flashed_objects_eq.
  rewrite (proj2 (associate_get _ _ _ o [] ltac:(constructor))). cbn [bt_get].
  rewrite associations_of_object. unfold model_object. set (gas := model_gas links o).
  assert (Eo : omap (fun e : u16 * u16 => entry_1 (map sim_group (dt_addresses t)) (fst e))
      (map (fun ga => (tsap_of (dt_addresses t) ga, o)) gas) = map sim_group gas).
  { assert (Hin : forall ga, In ga gas -> In ga (model_gas links o)) by done.
    clearbody gas. induction gas as [|ga gas IH]; [done|]. cbn [map omap list_omap fst].
    rewrite (proj2 (address_places ga o (Hin ga (or_introl eq_refl)))).
    f_equal. apply IH. intros ga' H'. apply Hin. by right. }
  rewrite Eo, wire_fresh. destruct gas as [|ga gas'] eqn:E; [done|]. rewrite <- E at 2.
  change (map sim_group (ga :: gas')) with (sim_group ga :: map sim_group gas') at 1. cbv iota.
  change (@nil SimGroupAddress) with (map sim_group []). rewrite <- E, foldl_push_sim.
  rewrite foldl_push_fresh by apply model_gas_nodup. cbn [app].
  unfold co_set_gas, fresh_object. cbn [co_asap co_flags co_size_code co_value].
  assert (Ho : is_u16 o).
  { apply (model_gas_ok links o ga); [by destruct Hfl|]. fold gas. rewrite E. by left. }
  by rewrite (flashed_descriptors o Ho).
Qed.

(** The objects of an address are those the links give it, in the order of
    their numbers. *)
Lemma flashed_index ga :
  let asaps := default [] (bt_get (sim_ga_raw (sim_group ga)) (gc_by_ga gc)) in
  StronglySorted Z.lt asaps /\ forall o, In o asaps <-> In ga (model_gas links o).
Proof.
  cbv zeta. change (gc_by_ga gc) with (index_objects (gc_objects gc)).
  pose proof flashed_objects_ok as Hok.
  assert (Hobj : forall o obj, In (o, obj) (gc_objects gc) ->
    co_asap obj = o /\ co_gas obj = map sim_group (model_gas links o)).
  { intros o obj Hin. apply bt_get_In in Hin; [|done].
    pose proof (flashed_object o) as E. unfold GroupComm_object in E. rewrite Hin in E.
    unfold model_object in E. by destruct (model_gas links o); [|injection E as ->]. }
  rewrite index_objects_get.
  2: { apply List.Forall_forall. intros [o obj] Hin. cbn [snd]. rewrite (proj2 (Hobj o obj Hin)).
       apply (NoDup_fmap_2_strong sim_group); [|apply model_gas_nodup].
       intros x y _ _. apply sim_group_inj. }
  set (p := fun (_ : Z) obj => bool_decide (sim_group ga ∈ co_gas obj)).
  assert (E : objects_of (gc_objects gc) (sim_group ga) = map fst (bt_retain p (gc_objects gc))).
  { unfold objects_of, bt_retain. assert (Hk : forall o obj, In (o, obj) (gc_objects gc) -> co_asap obj = o)
      by (intros o obj Hin; apply Hobj; done).
    unfold p. clear -Hk. induction (gc_objects gc) as [|[o obj] objects IH]; [done|].
    specialize (IH (fun o obj Hin => Hk o obj (or_intror Hin))). cbn [map snd List.filter fst] in *.
    destruct (bool_decide _); cbn [map fst]; rewrite IH; [|done]. by rewrite (Hk o obj (or_introl eq_refl)). }
  rewrite E. split; [by apply bt_retain_ok|]. intros o. rewrite in_map_iff.
  assert (Hp : forall obj, In (o, obj) (bt_retain p (gc_objects gc)) <->
    bt_get o (gc_objects gc) = Some obj /\ sim_group ga ∈ co_gas obj).
  { intros obj. unfold bt_retain. rewrite List.filter_In, bt_get_In by done. unfold p. cbn [fst snd].
    by rewrite bool_decide_eq_true. }
  assert (Hm : forall gas, sim_group ga ∈ map sim_group gas <-> In ga gas).
  { intros gas. rewrite list_elem_of_In, in_map_iff. split; [|by eexists]. by intros (x & <-%sim_group_inj & Hx). }
  pose proof (flashed_object o) as Eo. unfold GroupComm_object, model_object in Eo. split.
  - intros ([o' obj] & Ef & Hin). cbn [fst] in Ef. subst o'. apply Hp in Hin as [Hg Hin].
    rewrite Hg in Eo. destruct (model_gas links o) as [|g gas]; [done|]. injection Eo as ->. by apply Hm.
  - intros Hin. destruct (model_gas links o) as [|g gas] eqn:Eg; [done|].
    eexists (o, _). split; [done|]. apply Hp. split; [exact Eo|]. by apply Hm.
Qed.

End Flashed.

(** ** Behaviour of a flashed device *)

(** The com-object takes part in group communication in the way of the flag. *)
Definition enabled (descriptors : list GroupObjectDescriptor) (flag : Flags) (o : u16) : bool :=
  negb (o =? 0) &&
  match List.find (fun d => god_asap d =? o) descriptors with
  | Some d => Flags_contains (god_flags d) FLAG_COMMUNICATION && Flags_contains (god_flags d) flag
  | None => false
  end.

Lemma word_at_flags descriptors o : Forall descriptor_ok descriptors ->
  let high := Z.land (word_at descriptors o) 64512 in
  (Z.land high 5120 =? 5120) = enabled descriptors FLAG_WRITE o /\
  (Z.land high 3072 =? 3072) = enabled descriptors FLAG_READ o /\
  (Z.land high 17408 =? 17408) = enabled descriptors FLAG_TRANSMIT o.
Proof.
  intros Hd. unfold word_at, enabled. destruct (o =? 0); [done|]. cbn [negb andb].
  destruct (List.find _ descriptors) as [d|] eqn:E; [|done].
  apply List.find_some in E as [Hin _]. rewrite List.Forall_forall in Hd. destruct (Hd d Hin) as (_ & Hf & Hs).
  destruct (word_octets (god_flags d) (god_size_code d) (god_priority d) Hf Hs) as [E _]. cbv zeta. rewrite E.
  by destruct (word_high_flags (god_flags d) (god_priority d) Hf) as (_ & _ & H).
Qed.

Section Behaviour.
  Variables (m : Memory) (links : list Link) (descriptors : list GroupObjectDescriptor).
  Variables (addr_base assoc_base comobj_base : u16).
  Hypothesis Hfl : flashed m links descriptors addr_base assoc_base comobj_base.

Local Abbreviation gc0 := (GroupComm_from_tables m addr_base assoc_base comobj_base).

(** The routing of the tables, with whatever values the objects have by now. *)
Definition routes (gc : GroupComm) : Prop :=
  bt_ok (gc_objects gc) /\
  (forall o, option_map (co_set_value []) (GroupComm_object gc o) = model_object links descriptors o) /\
  forall ga, let asaps := default [] (bt_get (sim_ga_raw (sim_group ga)) (gc_by_ga gc)) in
    StronglySorted Z.lt asaps /\ forall o, In o asaps <-> In ga (model_gas links o).

Lemma flashed_routes : routes gc0.
Proof.
  split; [by eapply flashed_objects_ok|]. split; [|by eapply flashed_index].
  intros o. rewrite (flashed_object _ _ _ _ _ _ Hfl). unfold model_object. by destruct (model_gas links o).
Qed.

Lemma routes_object gc o obj : routes gc -> GroupComm_object gc o = Some obj ->
  co_asap obj = o /\ co_gas obj = map sim_group (model_gas links o) /\ model_gas links o <> [] /\
  ComObject_is_writable obj = enabled descriptors FLAG_WRITE o /\
  ComObject_is_readable obj = enabled descriptors FLAG_READ o /\
  ComObject_is_transmitter obj = enabled descriptors FLAG_TRANSMIT o.
Proof.
  intros (_ & H & _) E. specialize (H o). rewrite E in H. cbn in H. unfold model_object in H.
  destruct (model_gas links o) as [|ga gas] eqn:Eg; [done|]. injection H as H1 H2 _ H3.
  split; [done|]. split; [done|]. split; [done|].
  destruct (word_at_flags descriptors o (fl_descriptors _ _ _ _ _ _ Hfl)) as (W & R & T).
  unfold ComObject_is_writable, ComObject_is_readable, ComObject_is_transmitter, has_flags. rewrite H2.
  split; [exact W|]. split; [exact R|exact T].
Qed.

Lemma routes_present gc o : routes gc -> model_gas links o <> [] -> exists obj, GroupComm_object gc o = Some obj.
Proof.
  intros (_ & H & _) Hne. specialize (H o). unfold model_object in H.
  destruct (model_gas links o); [done|]. destruct (GroupComm_object gc o); [by eexists|done].
Qed.

Lemma writable_enabled gc ga o : routes gc -> In ga (model_gas links o) ->
  writable_at (gc_objects gc) o = enabled descriptors FLAG_WRITE o.
Proof.
  intros Hr Hin. destruct (routes_present gc o Hr) as [obj E]; [by destruct (model_gas links o)|].
  unfold writable_at. unfold GroupComm_object in E. rewrite E. by apply (routes_object gc o obj Hr E).
Qed.

Lemma routes_write gc ga payload : routes gc ->
  let r := GroupComm_on_group_write gc (sim_group ga) payload in
  (forall o, In o (fst r) <-> In ga (model_gas links o) /\ enabled descriptors FLAG_WRITE o = true) /\
  (forall o, GroupComm_object (snd r) o
    = if bool_decide (ga ∈ model_gas links o) && enabled descriptors FLAG_WRITE o
      then option_map (co_set_value payload) (GroupComm_object gc o) else GroupComm_object gc o) /\
  StronglySorted Z.lt (fst r) /\ routes (snd r).
Proof.
  intros Hr. pose proof Hr as (Hok & Hobj & Hidx). destruct (Hidx ga) as [Hs Hin]. cbv zeta.
  unfold GroupComm_on_group_write. set (asaps := default [] _) in *.
  pose proof (write_objects_spec payload asaps (gc_objects gc) Hok (sorted_nodup _ Hs)) as H. cbv zeta in H.
  destruct (write_objects payload asaps (gc_objects gc)) as [updated objects]. cbn [fst snd] in *.
  destruct H as (E & Hok' & Hget).
  assert (Hget' : forall o, GroupComm_object (MkGroupComm objects (gc_by_ga gc)) o
    = if bool_decide (ga ∈ model_gas links o) && enabled descriptors FLAG_WRITE o
      then option_map (co_set_value payload) (GroupComm_object gc o) else GroupComm_object gc o).
  { intros o. unfold GroupComm_object at 1. cbn [gc_objects]. rewrite Hget.
    rewrite (bool_decide_ext (o ∈ asaps) (ga ∈ model_gas links o)) by (by rewrite !list_elem_of_In).
    case_bool_decide as Hga; [|done]. cbn [andb]. rewrite list_elem_of_In in Hga.
    by rewrite (writable_enabled gc ga o Hr Hga). }
  split; [|split; [exact Hget'|split]].
  - intros o. rewrite E, List.filter_In, Hin. split; intros [H1 H2]; (split; [done|]).
    + by rewrite <- (writable_enabled gc ga o Hr H1).
    + by rewrite (writable_enabled gc ga o Hr H1).
  - rewrite E. clear -Hs. induction Hs as [|o l Hl IH Ho]; [constructor|]. cbn [List.filter].
    destruct (writable_at _ o); [|done]. constructor; [done|]. apply List.Forall_forall.
    intros x [Hx _]%List.filter_In. rewrite List.Forall_forall in Ho. by apply Ho.
  - split; [done|]. split; [|exact Hidx]. intros o. rewrite Hget', <- Hobj.
    destruct (_ && _)%bool; [|done]. by destruct (GroupComm_object gc o).
Qed.

(** The sending address is the first the links name. *)
Lemma routes_send gc o : routes gc ->
  GroupComm_send_ga gc o
  = if enabled descriptors FLAG_TRANSMIT o then option_map sim_group (head (model_gas links o)) else None.
Proof.
  intros Hr. unfold GroupComm_send_ga. fold (GroupComm_object gc o).
  destruct (GroupComm_object gc o) as [obj|] eqn:E; cbn [mbind option_bind].
  - destruct (routes_object gc o obj Hr E) as (_ & Hg & _ & _ & _ & ->). rewrite Hg.
    destruct (enabled _ _ _); [|done]. cbn [negb]. by destruct (model_gas links o).
  - assert (model_gas links o = []) as ->; [|by destruct (enabled _ _ _)].
    destruct (model_gas links o) eqn:Eg; [done|].
    destruct (routes_present gc o Hr) as [obj E']; [by rewrite Eg|congruence].
Qed.

Lemma routes_set_value gc o payload : routes gc ->
  routes (GroupComm_set_value gc o payload) /\
  forall o', GroupComm_object (GroupComm_set_value gc o payload) o'
    = if o' =? o then option_map (co_set_value payload) (GroupComm_object gc o') else GroupComm_object gc o'.
Proof.
  intros (Hok & Hobj & Hidx).
  assert (Hget : forall o', GroupComm_object (GroupComm_set_value gc o payload) o'
    = if o' =? o then option_map (co_set_value payload) (GroupComm_object gc o') else GroupComm_object gc o').
  { intros o'. unfold GroupComm_object, GroupComm_set_value. destruct (bt_get o (gc_objects gc)) as [obj|] eqn:E.
    - cbn [gc_objects]. rewrite bt_get_update by done. rewrite E. destruct (Z.eqb_spec o' o) as [->|]; [|done].
      by rewrite E.
    - destruct (Z.eqb_spec o' o) as [->|]; [|done]. by rewrite E. }
  split; [|exact Hget]. split; [|split].
  - unfold GroupComm_set_value. destruct (bt_get o _); [|done]. by apply bt_update_ok.
  - intros o'. rewrite Hget, <- Hobj. destruct (o' =? o); [|done]. by destruct (GroupComm_object gc o').
  - unfold GroupComm_set_value. by destruct (bt_get o _).
Qed.

End Behaviour.

(** A run of group telegrams. *)
Definition after_writes (gc : GroupComm) (writes : list (GroupAddress * bytes)) : GroupComm :=
  foldl (fun gc '(ga, payload) => snd (GroupComm_on_group_write gc (sim_group ga) payload)) gc writes.

(** The payload of the last write an object takes, of those to its addresses. *)
Definition last_written (links : list Link) (descriptors : list GroupObjectDescriptor) (o : u16)
    (initial : bytes) (writes : list (GroupAddress * bytes)) : bytes :=
  if enabled descriptors FLAG_WRITE o
  then foldl (fun value '(ga, payload) => if bool_decide (ga ∈ model_gas links o) then payload else value)
         initial writes
  else initial.

Definition with_value (f : bytes -> bytes) (obj : ComObject) : ComObject := co_set_value (f (co_value obj)) obj.

Lemma after_writes_object m links descriptors a b c : flashed m links descriptors a b c ->
  forall writes gc, routes links descriptors gc ->
  routes links descriptors (after_writes gc writes) /\
  forall o, GroupComm_object (after_writes gc writes) o
    = option_map (with_value (fun v => last_written links descriptors o v writes)) (GroupComm_object gc o).
Proof.
  intros Hfl. unfold last_written. induction writes as [|[ga payload] writes IH]; intros gc Hr.
  - split; [done|]. intros o. cbn [after_writes foldl].
    destruct (enabled descriptors FLAG_WRITE o), (GroupComm_object gc o) as [[]|]; reflexivity.
  - cbn [after_writes foldl]. destruct (routes_write m links descriptors a b c Hfl gc ga payload Hr) as (_ & H & _ & Hr').
    destruct (IH _ Hr') as [H1 H2]. split; [exact H1|]. intros o. unfold after_writes in H2. rewrite H2, H.
    destruct (enabled _ _ _); [|by rewrite andb_false_r]. rewrite andb_true_r.
    case_bool_decide; [|done]. by destruct (GroupComm_object gc o).
Qed.

(** ** Theorems *)


(** After any run of group writes, an object of a flashed device holds the
    payload of the last one to an address linked to it, when its descriptor lets
    it be written, and nothing else of it has changed. *)
Theorem group_value_is_last_write m links descriptors addr_base assoc_base comobj_base writes o
    (Hfl : flashed m links descriptors addr_base assoc_base comobj_base) :
  let gc := GroupComm_from_tables m addr_base assoc_base comobj_base in
  GroupComm_object (after_writes gc writes) o
  = option_map (co_set_value (last_written links descriptors o [] writes)) (model_object links descriptors o).
Proof.
  cbv zeta. rewrite (proj2 (after_writes_object _ _ _ _ _ _ Hfl writes _ (flashed_routes _ _ _ _ _ _ Hfl))).
  rewrite (flashed_object _ _ _ _ _ _ Hfl). unfold model_object. by destruct (model_gas links o).
Qed.

(** ** A project *)

Definition flash_image (m : Memory) (owner : u8) (base : u16) (image : bytes) : Memory :=
  Memory_seed (Memory_allocate m owner base (zlen image)) base image.

(** A switch (object 1) that sends to 0/0/2 and listens to 0/0/1; a lamp (object
    3) on both. *)
Definition demo_links : list Link :=
  [MkLink 3 None [GroupAddress_from_raw 2; GroupAddress_from_raw 1];
   MkLink 1 (Some (GroupAddress_from_raw 2)) [GroupAddress_from_raw 1]].

Definition demo_descriptors : list GroupObjectDescriptor :=
  [MkDescriptor 3 (Z.lor FLAG_COMMUNICATION (Z.lor FLAG_WRITE FLAG_READ)) 0 ComLow;
   MkDescriptor 1 (Z.lor FLAG_COMMUNICATION (Z.lor FLAG_TRANSMIT FLAG_WRITE)) 0 ComLow].

Definition demo_flashed : Memory :=
  let t := compute_tables demo_links in
  let m := flash_image Memory_new 1 16384
             (table_image_with_count (DesiredTables_address_count t) (DesiredTables_address_elements t)) in
  let m := flash_image m 2 20480
             (table_image_with_count (DesiredTables_association_count t) (DesiredTables_association_elements t)) in
  flash_image m 3 24576 (default [] (compute_group_object_table demo_descriptors)).

Lemma demo_holds base image : is_u16 base ->
  existsb (fun seg => Segment_contains seg base (zlen image)) (segments demo_flashed) = true ->
  Memory_read demo_flashed base (zlen image) = image -> holds_table demo_flashed base image.
Proof. intros Hb Hs Hr. split; [done|]. split; [|done]. by apply existsb_exists in Hs. Qed.

Lemma demo_flashed_ok : flashed demo_flashed demo_links demo_descriptors 16384 20480 24576.
Proof.
  assert (Hu : forall w, (0 <=? w) && (w <? 65536) = true -> is_u16 w) by (unfold is_u16; lia).
  split.
  - repeat apply Forall_cons_2; try apply Forall_nil_2;
      (split; [by apply Hu|repeat apply Forall_cons_2; try apply Forall_nil_2; by apply Hu]).
  - repeat apply Forall_cons_2; try apply Forall_nil_2;
      (split; [by apply Hu|split; split; [apply Z.leb_le|apply Z.ltb_lt|apply Z.leb_le|apply Z.ltb_lt]; reflexivity]).
  - apply (bool_decide_unpack _). vm_compute. exact I.
  - apply Nat.leb_le. vm_compute. reflexivity.
  - apply Nat.leb_le. vm_compute. reflexivity.
  - apply demo_holds; [by apply Hu|vm_compute; reflexivity..].
  - apply demo_holds; [by apply Hu|vm_compute; reflexivity..].
  - eexists. split; [vm_compute; reflexivity|].
    apply demo_holds; [by apply Hu|vm_compute; reflexivity..].
Defined.


Lemma group_value_is_last_write_witness :
  let gc := GroupComm_from_tables demo_flashed 16384 20480 24576 in
  let run := after_writes gc [(GroupAddress_from_raw 1, [1]); (GroupAddress_from_raw 2, [0]);
                              (GroupAddress_from_raw 9, [7])] in
  option_map co_value (GroupComm_object run 3) = Some [0].
Proof.
  cbv zeta. rewrite (group_value_is_last_write _ _ _ _ _ _ _ 3 demo_flashed_ok). reflexivity.
Defined.
