(* ===== verification/GroupBus.v ===== *)
(** * Group traffic on the simulated bus ([knx-sim/src/bus/mod.rs, device/secure_group.rs])

    The bus with its devices keyed by address: group telegrams of the tool, of
    devices and of scripted stimuli, and the broadcast services that read and
    write individual addresses.  Of each device the address, the programming mode
    and the group routing; none has Data Secure activated. *)

From S2P Require Import Prelude OrderedMap Flags Address GroupTables SimWire SimMemory.
From S2P Require Import SimTransport GroupComm Routing.
From Stdlib Require Import Sorting.Sorted.

Local Open Scope string_scope.
Local Open Scope list_scope.
Local Open Scope Z_scope.

(** ** Frames *)

Definition response_as_write (apci : SimApci) : SimApci :=
  match apci with SimGroupValueResponse => SimGroupValueWrite | other => other end.

(** The ten APCI bits of a TPDU of two octets or more. *)
Definition apci10_of (tpdu : bytes) : u16 := Z.lor (Z.shiftl (Z.land (nth 0 tpdu 0) 3) 8) (nth 1 tpdu 0).

Definition bus_decode_group (cemi : CemiLData) : option (SimApci * SimGroupAddress * bytes) :=
  if negb (sim_is_group cemi) || (length (sim_tpdu cemi) <? 2)%nat then None
  else
    let apci10 := apci10_of (sim_tpdu cemi) in
    match sim_apci_from_u10 apci10 with
    | SimGroupValueRead => Some (SimGroupValueRead, sim_dest_group cemi, [])
    | (SimGroupValueWrite | SimGroupValueResponse) as apci =>
        let payload :=
          if (2 <? length (sim_tpdu cemi))%nat then drop 2 (sim_tpdu cemi)
          else [as_u8 (Z.land apci10 63)] in
        Some (apci, sim_dest_group cemi, payload)
    | _ => None
    end.

Definition A_SECURE_DATA_APCI : u16 := 1009.

Definition is_secure_data (cemi : CemiLData) : bool :=
  (2 <=? length (sim_tpdu cemi))%nat && (apci10_of (sim_tpdu cemi) =? A_SECURE_DATA_APCI).

Definition is_secure_group (cemi : CemiLData) : bool := sim_is_group cemi && is_secure_data cemi.

Definition is_individual_address_read (cemi : CemiLData) : bool :=
  if negb (sim_is_group cemi) || negb (sim_dest cemi =? 0) || (length (sim_tpdu cemi) <? 2)%nat then false
  else bool_decide (sim_apci_from_u10 (apci10_of (sim_tpdu cemi)) = SimIndividualAddressRead).

Definition individual_address_write_target (cemi : CemiLData) : option SimIndividualAddress :=
  if negb (sim_is_group cemi) || negb (sim_dest cemi =? 0) || (length (sim_tpdu cemi) <? 4)%nat then None
  else if negb (bool_decide (sim_apci_from_u10 (apci10_of (sim_tpdu cemi)) = SimIndividualAddressWrite)) then None
  else Some (MkSimIA (u16_of (nth 2 (sim_tpdu cemi) 0) (nth 3 (sim_tpdu cemi) 0))).

Definition confirm_echo (cemi : CemiLData) : CemiLData :=
  MkCemiLData SimLDataCon (sim_ctrl1 cemi) (sim_ctrl2 cemi) (sim_source cemi) (sim_dest cemi) (sim_tpdu cemi).

(** ** Devices *)

Record GroupDevice : Type := MkGroupDevice {
  gd_address : SimIndividualAddress;
  gd_prog_mode : bool;
  gd_group_comm : option GroupComm }.

Definition gd_set_comm (gc : option GroupComm) (d : GroupDevice) : GroupDevice :=
  MkGroupDevice (gd_address d) (gd_prog_mode d) gc.

(** [handle_group_frame] of a device without Data Secure: it has no group key,
    and no object asks for one. *)
Definition handle_group_frame (d : GroupDevice) (cemi : CemiLData) (listener : bool)
    : list CemiLData * GroupDevice :=
  if is_secure_data cemi then ([], d)
  else
    match bus_decode_group cemi with
    | None => ([], d)
    | Some (apci, ga, payload) =>
        if listener then
          let '(_, gc) := handle_group (gd_address d) (gd_group_comm d) (response_as_write apci) ga payload in
          ([], gd_set_comm gc d)
        else
          let '(out, gc) := handle_group (gd_address d) (gd_group_comm d) apci ga payload in
          (out, gd_set_comm gc d)
    end.

Definition individual_address_response (d : GroupDevice) : option CemiLData :=
  if negb (gd_prog_mode d) then None
  else
    let apci10 := sim_apci_to_u10 SimIndividualAddressResponse in
    Some (MkCemiLData SimLDataInd 188 224 (gd_address d) 0
            [Z.land (as_u8 (Z.shiftr apci10 8)) 3; as_u8 (Z.land apci10 255)]).

Definition adopt_individual_address (d : GroupDevice) (new_address : SimIndividualAddress) : bool * GroupDevice :=
  if negb (gd_prog_mode d) then (false, d)
  else (true, MkGroupDevice new_address (gd_prog_mode d) (gd_group_comm d)).

Definition stimulus_send_ga (d : GroupDevice) (object : u16) : option SimGroupAddress :=
  gc ← gd_group_comm d; GroupComm_send_ga gc object.

(** [emit_stimulus] and [emit_stimulus_current]. *)
Definition device_emit_stimulus (d : GroupDevice) (object : u16) (payload : bytes)
    : option CemiLData * GroupDevice :=
  match gd_group_comm d with
  | None => (None, d)
  | Some gc =>
      let '(frame, gc) := emit_stimulus (gd_address d) gc object payload in (frame, gd_set_comm (Some gc) d)
  end.

Definition device_emit_stimulus_current (d : GroupDevice) (object : u16) : option CemiLData :=
  ga ← stimulus_send_ga d object;
  let value := default [] (gc ← gd_group_comm d; obj ← GroupComm_object gc object; Some (co_value obj)) in
  Some (group_telegram (gd_address d) SimGroupValueWrite ga value).

(** ** The bus *)

Record StimulusJob : Type := MkStimulusJob {
  sj_device : SimIndividualAddress;
  sj_object : u16;
  sj_period_ms : Z;
  sj_values : list bytes;
  sj_next_due_ms : Z;
  sj_cursor : nat }.

Record GroupBus : Type := MkGroupBus {
  gb_devices : BTree GroupDevice;
  gb_stimulus : list StimulusJob }.

Definition GroupBus_new : GroupBus := MkGroupBus [] [].

Definition gb_set_devices (devices : BTree GroupDevice) (b : GroupBus) : GroupBus :=
  MkGroupBus devices (gb_stimulus b).

Definition Bus_add_device (b : GroupBus) (d : GroupDevice) : GroupBus :=
  gb_set_devices (bt_update (sim_ia_raw (gd_address d)) (fun _ => d) (gb_devices b)) b.

Definition Bus_device (b : GroupBus) (address : SimIndividualAddress) : option GroupDevice :=
  bt_get (sim_ia_raw address) (gb_devices b).

(** Every device but the sender handles the frame, in the order of addresses. *)
Fixpoint deliver_to_others (origin : u16) (cemi : CemiLData) (listener : bool) (devices : BTree GroupDevice)
    : list CemiLData * BTree GroupDevice :=
  match devices with
  | [] => ([], [])
  | (addr, dev) :: devices =>
      let '(out, dev) := if addr =? origin then ([], dev) else handle_group_frame dev cemi listener in
      let '(outs, devices) := deliver_to_others origin cemi listener devices in
      (out ++ outs, (addr, dev) :: devices)
  end.

(** Replies go to the tool, and update the other devices. *)
Fixpoint fan_out (replies : list CemiLData) (devices : BTree GroupDevice) : BTree GroupDevice :=
  match replies with
  | [] => devices
  | reply :: replies =>
      fan_out replies (snd (deliver_to_others (sim_ia_raw (sim_source reply)) reply true devices))
  end.

Definition deliver_group (b : GroupBus) (cemi : CemiLData) : list CemiLData * GroupBus :=
  let apci := if is_secure_group cemi then Some SimGroupValueWrite
              else option_map (fun d => fst (fst d)) (bus_decode_group cemi) in
  match apci with
  | None => ([], b)
  | Some apci =>
      let echo := match apci with
                  | SimGroupValueWrite | SimGroupValueResponse => [confirm_echo cemi]
                  | _ => []
                  end in
      let '(replies, devices) := deliver_to_others (sim_ia_raw (sim_source cemi)) cemi false (gb_devices b) in
      (echo ++ replies, gb_set_devices (fan_out replies devices) b)
  end.

Definition deliver_individual_address_read (b : GroupBus) : list CemiLData :=
  omap individual_address_response (map snd (gb_devices b)).

Definition in_prog (b : GroupBus) : list u16 :=
  map fst (List.filter (fun e => gd_prog_mode (snd e)) (gb_devices b)).

Definition deliver_individual_address_write (b : GroupBus) (new_address : SimIndividualAddress) : GroupBus :=
  match in_prog b with
  | [old_address] =>
      if negb (old_address =? sim_ia_raw new_address)
         && bool_decide (is_Some (bt_get (sim_ia_raw new_address) (gb_devices b))) then b
      else
        match bt_get old_address (gb_devices b) with
        | None => b
        | Some dev =>
            let dev := snd (adopt_individual_address dev new_address) in
            Bus_add_device (gb_set_devices (bt_retain (fun k _ => negb (k =? old_address)) (gb_devices b)) b) dev
        end
  | _ => b
  end.

(** The group branches of [deliver_from_tool]. *)
Definition deliver_group_from_tool (b : GroupBus) (cemi : CemiLData) : list CemiLData * GroupBus :=
  if is_individual_address_read cemi then (deliver_individual_address_read b, b)
  else
    match individual_address_write_target cemi with
    | Some new_address => ([], deliver_individual_address_write b new_address)
    | None => deliver_group b cemi
    end.

Definition inject_from_device (b : GroupBus) (cemi : CemiLData) : list CemiLData * GroupBus :=
  ([cemi],
   if sim_is_group cemi
   then gb_set_devices (snd (deliver_to_others (sim_ia_raw (sim_source cemi)) cemi true (gb_devices b))) b
   else b).

(** One due job: its device transmits, and the others listen. *)
Definition fire (b : GroupBus) (s : StimulusJob) : list CemiLData * GroupBus :=
  let payload := match length (sj_values s) with
                 | O => None
                 | n => nth_error (sj_values s) (sj_cursor s mod n)
                 end in
  match Bus_device b (sj_device s) with
  | None => ([], b)
  | Some dev =>
      let '(emitted, dev) := match payload with
                             | Some p => device_emit_stimulus dev (sj_object s) p
                             | None => (device_emit_stimulus_current dev (sj_object s), dev)
                             end in
      let b := gb_set_devices (bt_update (sim_ia_raw (sj_device s)) (fun _ => dev) (gb_devices b)) b in
      match emitted with
      | Some cemi => inject_from_device b cemi
      | None => ([], b)
      end
  end.

Fixpoint tick_jobs (b : GroupBus) (now_ms : Z) (schedule : list StimulusJob)
    : list CemiLData * GroupBus * list StimulusJob :=
  match schedule with
  | [] => ([], b, [])
  | s :: schedule =>
      if now_ms <? sj_next_due_ms s then
        let '(out, b, schedule) := tick_jobs b now_ms schedule in (out, b, s :: schedule)
      else
        let s' := MkStimulusJob (sj_device s) (sj_object s) (sj_period_ms s) (sj_values s)
                    (now_ms + sj_period_ms s) (S (sj_cursor s)) in
        let '(out, b) := fire b s in
        let '(outs, b, schedule) := tick_jobs b now_ms schedule in
        (out ++ outs, b, s' :: schedule)
  end.

Definition tick_stimulus (b : GroupBus) (now_ms : Z) : list CemiLData * GroupBus :=
  let '(out, b', schedule) := tick_jobs (MkGroupBus (gb_devices b) []) now_ms (gb_stimulus b) in
  (out, MkGroupBus (gb_devices b') schedule).

Definition set_stimulus (b : GroupBus) (stimulus : list StimulusJob) : GroupBus :=
  MkGroupBus (gb_devices b) stimulus.

Definition next_stimulus_due_ms (b : GroupBus) : option Z :=
  match map sj_next_due_ms (gb_stimulus b) with
  | [] => None
  | due :: dues => Some (foldl Z.min due dues)
  end.

(** ** Frames: lemmas *)

Lemma decode_group_write source ga payload : payload <> [] -> Forall is_u8 payload ->
  let frame := group_telegram source SimGroupValueWrite ga payload in
  is_secure_data frame = false /\ bus_decode_group frame = Some (SimGroupValueWrite, ga, payload).
Proof.
  intros Hne Hb. cbv zeta. unfold group_telegram. set (tpdu := match payload with [] => _ | _ => _ end).
  assert (H : (exists b, payload = [b] /\ 0 <= b < 64 /\ tpdu = [0; Z.lor 128 (Z.land b 63)]) \/
              tpdu = 0 :: 128 :: payload).
  { unfold tpdu. destruct payload as [|b [|b' payload]]; [done| |by right].
    apply Forall_cons_1 in Hb as [Hb _]. unfold is_u8 in Hb. destruct (Z.leb_spec b 63); [left|by right].
    exists b. split; [done|]. split; [lia|done]. }
  clearbody tpdu. unfold is_secure_data, bus_decode_group. cbn [sim_tpdu sim_is_group sim_ctrl2 sim_dest_group sim_dest].
  assert (Eg : MkSimGA (sim_ga_raw ga) = ga) by (by destruct ga).
  destruct H as [(b & -> & Hb' & ->)| ->].
  - clear Hne Hb.
    assert (H : Nat.leb 2 (length [0; Z.lor 128 (Z.land b 63)])
        && (apci10_of [0; Z.lor 128 (Z.land b 63)] =? A_SECURE_DATA_APCI) = false /\
      sim_apci_from_u10 (apci10_of [0; Z.lor 128 (Z.land b 63)]) = SimGroupValueWrite /\
      as_u8 (Z.land (apci10_of [0; Z.lor 128 (Z.land b 63)]) 63) = b).
    { revert b Hb'. refine (below_decide 64 (fun b =>
        Nat.leb 2 (length [0; Z.lor 128 (Z.land b 63)])
          && (apci10_of [0; Z.lor 128 (Z.land b 63)] =? A_SECURE_DATA_APCI) = false /\
        sim_apci_from_u10 (apci10_of [0; Z.lor 128 (Z.land b 63)]) = SimGroupValueWrite /\
        as_u8 (Z.land (apci10_of [0; Z.lor 128 (Z.land b 63)]) 63) = b) _). vm_compute. reflexivity. }
    destruct H as (-> & Ea & Eb). split; [done|].
    change (negb (sim_is_group _) || _) with false. cbv iota. rewrite Ea, Eb. unfold sim_dest_group. cbn [sim_dest]. by rewrite Eg.
  - destruct payload as [|b payload]; [done|]. split; [reflexivity|].
    unfold sim_dest_group. cbn [length Nat.ltb Nat.leb drop sim_dest]. rewrite Eg. reflexivity.
Qed.

(** ** A commissioned device *)

Definition commissioned (links : list Link) (descriptors : list GroupObjectDescriptor) (d : GroupDevice) : Prop :=
  (exists m a b c, flashed m links descriptors a b c) /\
  exists gc, gd_group_comm d = Some gc /\ routes links descriptors gc.

Definition object_value (d : GroupDevice) (o : u16) : option bytes :=
  gc ← gd_group_comm d; option_map co_value (GroupComm_object gc o).

(** The object takes writes to the address. *)
Definition takes (links : list Link) (descriptors : list GroupObjectDescriptor) (ga : GroupAddress) (o : u16) : bool :=
  bool_decide (ga ∈ model_gas links o) && enabled descriptors FLAG_WRITE o.

(** The objects that take writes to [ga] hold [payload] in [d'], the others what they had in [d]. *)
Definition updated_by (links : list Link) (descriptors : list GroupObjectDescriptor) (ga : GroupAddress)
    (payload : bytes) (d d' : GroupDevice) : Prop :=
  commissioned links descriptors d' /\ gd_address d' = gd_address d /\ gd_prog_mode d' = gd_prog_mode d /\
  forall o, object_value d' o
    = if takes links descriptors ga o then option_map (fun _ => payload) (object_value d o) else object_value d o.

Lemma listen_write links descriptors d source ga payload : commissioned links descriptors d ->
  payload <> [] -> Forall is_u8 payload ->
  let '(out, d') := handle_group_frame d (group_telegram source SimGroupValueWrite (sim_group ga) payload) true in
  out = [] /\ updated_by links descriptors ga payload d d'.
Proof.
  intros [(m & a & b & c & Hfl) (gc & Egc & Hr)] Hne Hb.
  destruct (decode_group_write source (sim_group ga) payload Hne Hb) as [Es Ed].
  unfold handle_group_frame. rewrite Es, Ed, Egc. cbn [response_as_write handle_group].
  destruct (routes_write m links descriptors a b c Hfl gc ga payload Hr) as (_ & Hget & _ & Hr').
  split; [done|]. split; [split; [by exists m, a, b, c|by eexists]|]. split; [done|]. split; [done|].
  intros o. unfold object_value, takes. rewrite Egc. cbn [gd_group_comm gd_set_comm mbind option_bind].
  rewrite Hget. destruct (_ && _)%bool; [|done]. by destruct (GroupComm_object gc o).
Qed.

(** ** Delivery: lemmas *)

Definition bus_ok (b : GroupBus) : Prop :=
  bt_ok (gb_devices b) /\ Forall (fun e => sim_ia_raw (gd_address (snd e)) = fst e) (gb_devices b).

Lemma deliver_keys origin cemi listener devices :
  map fst (snd (deliver_to_others origin cemi listener devices)) = map fst devices.
Proof.
  induction devices as [|[addr dev] devices IH]; [done|]. cbn [deliver_to_others].
  destruct (if addr =? origin then _ else _) as [out dev'].
  destruct (deliver_to_others origin cemi listener devices) as [outs devices']. cbn in *. by rewrite IH.
Qed.

Lemma deliver_get origin cemi listener devices k :
  bt_get k (snd (deliver_to_others origin cemi listener devices))
  = option_map (fun d => if k =? origin then d else snd (handle_group_frame d cemi listener)) (bt_get k devices).
Proof.
  induction devices as [|[addr dev] devices IH]; [done|]. cbn [deliver_to_others].
  destruct (if addr =? origin then _ else _) as [out dev'] eqn:E.
  destruct (deliver_to_others origin cemi listener devices) as [outs devices']. cbn [snd bt_get] in *.
  destruct (Z.eqb_spec k addr) as [->|]; [|exact IH]. cbn [option_map]. f_equal.
  destruct (addr =? origin); [by injection E|]. by rewrite E.
Qed.

Lemma handle_frame_address d cemi listener :
  gd_address (snd (handle_group_frame d cemi listener)) = gd_address d /\
  gd_prog_mode (snd (handle_group_frame d cemi listener)) = gd_prog_mode d.
Proof.
  unfold handle_group_frame. destruct (is_secure_data cemi); [done|].
  destruct (bus_decode_group cemi) as [[[apci ga] payload]|]; [|done].
  destruct listener; destruct (handle_group _ _ _ _ _) as [out gc]; done.
Qed.

Lemma deliver_addresses origin cemi listener devices :
  Forall (fun e => sim_ia_raw (gd_address (snd e)) = fst e) devices ->
  Forall (fun e => sim_ia_raw (gd_address (snd e)) = fst e) (snd (deliver_to_others origin cemi listener devices)).
Proof.
  induction 1 as [|[addr dev] devices Ha H IH]; [constructor|]. cbn [deliver_to_others].
  destruct (if addr =? origin then _ else _) as [out dev'] eqn:E.
  destruct (deliver_to_others origin cemi listener devices) as [outs devices']. cbn [fst snd] in *.
  constructor; [|done]. cbn [fst snd]. rewrite <- Ha. f_equal. destruct (addr =? origin).
  - by injection E as _ <-.
  - pose proof (proj1 (handle_frame_address dev cemi listener)) as H'. by rewrite E in H'.
Qed.

Lemma deliver_ok origin cemi listener b : bus_ok b ->
  bus_ok (gb_set_devices (snd (deliver_to_others origin cemi listener (gb_devices b))) b).
Proof.
  intros [H1 H2]. split; cbn [gb_devices gb_set_devices].
  - unfold bt_ok. by rewrite deliver_keys.
  - by apply deliver_addresses.
Qed.

Lemma bus_ok_get b k d : bus_ok b -> bt_get k (gb_devices b) = Some d -> sim_ia_raw (gd_address d) = k.
Proof.
  intros [H1 H2] E. apply bt_get_In in E; [|done]. rewrite List.Forall_forall in H2. apply (H2 (k, d) E).
Qed.

Lemma bt_update_forall {V} (P : Z * V -> Prop) k f (m : BTree V) :
  Forall P m -> (forall e, P (k, f e)) -> Forall P (bt_update k f m).
Proof.
  intros H Hk. induction H as [|[k' v] m Hv H IH]; cbn [bt_update]; [by repeat constructor|].
  destruct (k <? k'); [by repeat constructor|]. destruct (k =? k'); by constructor.
Qed.

Lemma add_ok b d : bus_ok b -> bus_ok (Bus_add_device b d).
Proof. intros [H1 H2]. split; [by apply bt_update_ok|]. by apply bt_update_forall. Qed.

(** ** Reachable buses *)

Inductive BusStep : GroupBus -> GroupBus -> Prop :=
| StepAdd b d : BusStep b (Bus_add_device b d)
| StepTool b cemi : BusStep b (snd (deliver_group_from_tool b cemi))
| StepInject b cemi : BusStep b (snd (inject_from_device b cemi))
| StepTick b now_ms : BusStep b (snd (tick_stimulus b now_ms))
| StepSchedule b jobs : BusStep b (set_stimulus b jobs).

Inductive BusReachable : GroupBus -> Prop :=
| ReachNew : BusReachable GroupBus_new
| ReachStep b b' : BusReachable b -> BusStep b b' -> BusReachable b'.

Lemma bus_ok_devices b jobs : bus_ok b -> bus_ok (MkGroupBus (gb_devices b) jobs).
Proof. done. Qed.

Lemma fan_out_ok b replies : forall devices, bus_ok (gb_set_devices devices b) ->
  bus_ok (gb_set_devices (fan_out replies devices) b).
Proof.
  induction replies as [|r replies IH]; intros devices H; [done|]. cbn [fan_out]. apply IH.
  exact (deliver_ok _ r true _ H).
Qed.

Lemma deliver_group_ok b cemi : bus_ok b -> bus_ok (snd (deliver_group b cemi)).
Proof.
  intros H. unfold deliver_group. destruct (if is_secure_group cemi then _ else _) as [apci|]; [|done].
  pose proof (deliver_ok (sim_ia_raw (sim_source cemi)) cemi false b H) as H'.
  destruct (deliver_to_others _ _ _ _) as [replies devices]. cbn [snd] in *. by apply fan_out_ok.
Qed.

Lemma retain_ok p b : bus_ok b -> bus_ok (gb_set_devices (bt_retain p (gb_devices b)) b).
Proof.
  intros [H1 H2]. split; [by apply bt_retain_ok|]. cbn [gb_devices gb_set_devices]. unfold bt_retain.
  apply List.Forall_forall. intros e [He _]%List.filter_In. rewrite List.Forall_forall in H2. by apply H2.
Qed.

Lemma address_write_ok b a : bus_ok b -> bus_ok (deliver_individual_address_write b a).
Proof.
  intros H. unfold deliver_individual_address_write. destruct (in_prog b) as [|old [|]]; [done| |done].
  destruct (_ && _)%bool; [done|]. destruct (bt_get old (gb_devices b)); [|done]. by apply add_ok, retain_ok.
Qed.

Lemma emit_stimulus_address d o payload :
  gd_address (snd (device_emit_stimulus d o payload)) = gd_address d.
Proof.
  unfold device_emit_stimulus. destruct (gd_group_comm d) as [gc|]; [|done].
  by destruct (emit_stimulus _ _ _ _).
Qed.

Lemma put_device_ok b k d : bus_ok b -> sim_ia_raw (gd_address d) = k ->
  bus_ok (gb_set_devices (bt_update k (fun _ => d) (gb_devices b)) b).
Proof. intros H <-. exact (add_ok b d H). Qed.

Lemma inject_ok b cemi : bus_ok b -> bus_ok (snd (inject_from_device b cemi)).
Proof. intros H. unfold inject_from_device. cbn [snd]. destruct (sim_is_group cemi); [by apply deliver_ok|done]. Qed.

Lemma fire_ok b s : bus_ok b -> bus_ok (snd (fire b s)).
Proof.
  intros H. unfold fire. destruct (Bus_device b (sj_device s)) as [d|] eqn:E; [|done].
  pose proof (bus_ok_get b _ d H E) as Ha.
  set (payload := match length (sj_values s) with O => None | n => nth_error (sj_values s) (sj_cursor s mod n) end).
  clearbody payload.
  destruct (match payload with Some p => _ | None => _ end) as [emitted d'] eqn:Ed.
  assert (Ha' : sim_ia_raw (gd_address d') = sim_ia_raw (sj_device s)).
  { rewrite <- Ha. f_equal. destruct payload as [p|]; [|by injection Ed as _ <-].
    rewrite <- (emit_stimulus_address d (sj_object s) p). by rewrite Ed. }
  pose proof (put_device_ok b _ d' H Ha') as H'. destruct emitted; [by apply inject_ok|done].
Qed.

Lemma tick_jobs_ok now jobs : forall b, bus_ok b -> bus_ok (snd (fst (tick_jobs b now jobs))).
Proof.
  induction jobs as [|s jobs IH]; intros b H; [done|]. cbn [tick_jobs]. destruct (now <? sj_next_due_ms s).
  - specialize (IH b H). by destruct (tick_jobs b now jobs) as [[out b'] jobs'].
  - pose proof (fire_ok b s H) as Hf. destruct (fire b s) as [out b']. cbn [snd] in Hf. specialize (IH b' Hf).
    by destruct (tick_jobs b' now jobs) as [[outs b''] jobs'].
Qed.

Lemma bus_step_ok b b' : bus_ok b -> BusStep b b' -> bus_ok b'.
Proof.
  intros H Hs. destruct Hs as [b d|b cemi|b cemi|b now_ms|b jobs].
  - by apply add_ok.
  - unfold deliver_group_from_tool. destruct (is_individual_address_read cemi); [done|].
    destruct (individual_address_write_target cemi); [by apply address_write_ok|by apply deliver_group_ok].
  - by apply inject_ok.
  - unfold tick_stimulus. pose proof (tick_jobs_ok now_ms (gb_stimulus b) _ (bus_ok_devices b [] H)) as H'.
    by destruct (tick_jobs _ _ _) as [[out b'] jobs].
  - done.
Qed.

(** ** Theorems *)

(** On every bus reached by adding devices, traffic of the tool and of devices,
    address writes and stimuli, the devices are in the order of their addresses
    and each is found under its own: no two have the same address. *)
Theorem devices_under_their_address b (Hb : BusReachable b) :
  bus_ok b /\ forall address d, Bus_device b address = Some d -> gd_address d = address.
Proof.
  assert (H : bus_ok b). { induction Hb as [|b b' _ IH Hs]; [by split; constructor|by eapply bus_step_ok]. }
  split; [done|]. intros [a] d E. pose proof (bus_ok_get b _ d H E) as Ha. cbn in Ha.
  destruct (gd_address d). cbn in Ha. by rewrite Ha.
Qed.

Lemma in_prog_get b k : bus_ok b ->
  In k (in_prog b) <-> exists d, bt_get k (gb_devices b) = Some d /\ gd_prog_mode d = true.
Proof.
  intros [H1 _]. unfold in_prog. rewrite in_map_iff. split.
  - intros ([k' d] & <- & [Hin Hp]%List.filter_In). exists d. split; [by apply bt_get_In|done].
  - intros (d & Hg & Hp). exists (k, d). split; [done|]. apply List.filter_In.
    split; [by apply bt_get_In|done].
Qed.

(** An address write moves the one device in programming mode to the new
    address, if no other device has it; with none or several of them, or on a
    collision, the bus is unchanged. *)
Theorem address_write_moves_one b address (Hb : bus_ok b) :
  let b' := deliver_individual_address_write b address in
  (exists old d, in_prog b = [sim_ia_raw old] /\ Bus_device b old = Some d /\
     (old = address \/ Bus_device b address = None) /\
     forall a, Bus_device b' a
       = if bool_decide (a = address) then Some (MkGroupDevice address true (gd_group_comm d))
         else if bool_decide (a = old) then None else Bus_device b a) \/
  (b' = b /\ forall old, in_prog b = [sim_ia_raw old] -> old <> address /\ is_Some (Bus_device b address)).
Proof.
  cbv zeta. unfold deliver_individual_address_write.
  destruct (in_prog b) as [|old [|old' rest]] eqn:Ep; [by right| |by right].
  assert (Hin : exists d, bt_get old (gb_devices b) = Some d /\ gd_prog_mode d = true).
  { apply in_prog_get; [done|]. rewrite Ep. by left. }
  destruct Hin as (d & Ed & Hp). rewrite Ed. unfold Bus_device.
  destruct (negb (old =? sim_ia_raw address) && _)%bool eqn:Ec.
  - right. split; [done|]. apply andb_true_iff in Ec as [E1 E2]. apply bool_decide_eq_true in E2.
    apply negb_true_iff, Z.eqb_neq in E1. intros old' [= ->]. split; [by intros ->|done].
  - left. exists (MkSimIA old), d. split; [done|]. split; [done|]. split.
    { apply andb_false_iff in Ec as [E1|E2].
      - left. apply negb_false_iff, Z.eqb_eq in E1. subst old. by destruct address.
      - right. apply bool_decide_eq_false in E2. by apply eq_None_not_Some. }
    intros [a]. unfold Bus_add_device, adopt_individual_address. rewrite Hp.
    cbn [negb snd gd_address gb_devices gb_set_devices]. destruct Hb as [H1 _].
    rewrite bt_get_update by (by apply bt_retain_ok). cbn [sim_ia_raw].
    destruct (Z.eqb_spec a (sim_ia_raw address)) as [E|Hne].
    + rewrite bool_decide_eq_true_2; [by rewrite ?Hp|]. destruct address. cbn in E. by rewrite E.
    + rewrite bool_decide_eq_false_2 by (by intros [= <-]). rewrite bt_get_retain by done.
      destruct (Z.eqb_spec a old) as [E|Hne'].
      * rewrite bool_decide_eq_true_2 by (by rewrite E). by rewrite E, Ed.
      * rewrite bool_decide_eq_false_2 by congruence.
        by destruct (bt_get a (gb_devices b)).
Qed.

(** A due job with a scripted value, of a commissioned device that may transmit the
    object: the frame on the bus, the sender and the listeners. *)
Lemma fire_reaches b s d links descriptors ga payload
    (Hb : bus_ok b) (Hd : Bus_device b (sj_device s) = Some d) (Hc : commissioned links descriptors d)
    (Ht : enabled descriptors FLAG_TRANSMIT (sj_object s) = true)
    (Hga : head (model_gas links (sj_object s)) = Some ga)
    (Hp : nth_error (sj_values s) (sj_cursor s mod length (sj_values s)) = Some payload)
    (Hne : payload <> []) (Hu : Forall is_u8 payload) :
  let '(out, b') := fire b s in
  out = [group_telegram (sj_device s) SimGroupValueWrite (sim_group ga) payload] /\
  (exists d', Bus_device b' (sj_device s) = Some d' /\ commissioned links descriptors d' /\
     forall o, object_value d' o = if o =? sj_object s then Some payload else object_value d o) /\
  forall a, a <> sj_device s -> match Bus_device b a with
    | None => Bus_device b' a = None
    | Some other => exists other', Bus_device b' a = Some other' /\
        forall links descriptors, commissioned links descriptors other ->
          updated_by links descriptors ga payload other other'
    end.
Proof.
  pose proof (bus_ok_get b _ d Hb Hd) as Ha.
  assert (Had : gd_address d = sj_device s) by (destruct (gd_address d), (sj_device s); cbn in Ha; by rewrite Ha).
  unfold fire. rewrite Hd. replace (match length (sj_values s) with O => None | _ => _ end) with (Some payload).
  2: { destruct (sj_values s); [by rewrite nth_error_nil in Hp|]. by rewrite <- Hp. }
  destruct Hc as [(m & ab & sb & cb & Hfl) (gc & Egc & Hr)].
  unfold device_emit_stimulus, emit_stimulus. rewrite Egc, (routes_send m links descriptors ab sb cb Hfl gc _ Hr), Ht, Hga, Had.
  cbn [option_map]. unfold inject_from_device.
  change (sim_is_group (group_telegram (sj_device s) SimGroupValueWrite (sim_group ga) payload)) with true.
  change (sim_source (group_telegram _ _ _ _)) with (sj_device s). cbv iota.
  set (devices := bt_update _ _ _). split; [done|].
  assert (Hget : forall k, bt_get k devices = if k =? sim_ia_raw (sj_device s)
    then Some (gd_set_comm (Some (GroupComm_set_value gc (sj_object s) payload)) d) else bt_get k (gb_devices b)).
  { intros k. unfold devices. by rewrite bt_get_update by apply Hb. }
  destruct (routes_set_value links descriptors gc (sj_object s) payload Hr) as [Hr' Hval].
  split.
  - eexists. split.
    { unfold Bus_device. cbn [gb_devices gb_set_devices]. by rewrite deliver_get, Hget, Z.eqb_refl. }
    split; [split; [by exists m, ab, sb, cb|by eexists]|]. intros o.
    unfold object_value. rewrite Egc. cbn [gd_group_comm gd_set_comm mbind option_bind]. rewrite Hval.
    destruct (Z.eqb_spec o (sj_object s)) as [->|]; [|done].
    destruct (routes_present links descriptors gc (sj_object s) Hr) as [obj ->]; [by destruct (model_gas links _)|done].
  - intros a Hna. assert (Hk : sim_ia_raw a <> sim_ia_raw (sj_device s))
      by (destruct a, (sj_device s); intros E; cbn in E; by rewrite E in Hna).
    unfold Bus_device. cbn [gb_devices gb_set_devices]. rewrite deliver_get, Hget.
    rewrite (proj2 (Z.eqb_neq _ _) Hk). destruct (bt_get (sim_ia_raw a) (gb_devices b)) as [other|]; [|done].
    cbn [option_map]. eexists. split; [done|]. intros links' descriptors' Hc'.
    pose proof (listen_write links' descriptors' other (sj_device s) ga payload Hc' Hne Hu) as H.
    destruct (handle_group_frame _ _ _) as [out d']. apply H.
Qed.

(** The job after it fired. *)
Definition fired_at (now_ms : Z) (s : StimulusJob) : StimulusJob :=
  MkStimulusJob (sj_device s) (sj_object s) (sj_period_ms s) (sj_values s) (now_ms + sj_period_ms s) (S (sj_cursor s)).

Definition not_due (now_ms : Z) (s : StimulusJob) : Prop := now_ms < sj_next_due_ms s.

Lemma tick_none now jobs : Forall (not_due now) jobs -> forall b, tick_jobs b now jobs = ([], b, jobs).
Proof.
  induction 1 as [|s jobs Hs H IH]; intros b; [done|]. cbn [tick_jobs]. by rewrite (proj2 (Z.ltb_lt _ _) Hs), IH.
Qed.

Lemma tick_one now before s after : Forall (not_due now) before -> ~ not_due now s -> Forall (not_due now) after ->
  forall b, tick_jobs b now (before ++ s :: after) =
    let '(out, b') := fire b s in (out, b', before ++ fired_at now s :: after).
Proof.
  intros Hb Hs Ha b. induction Hb as [|s' before Hs' H IH]; cbn [app tick_jobs].
  - rewrite (proj2 (Z.ltb_ge _ _)) by (unfold not_due in Hs; lia). destruct (fire b s) as [out b'].
    by rewrite (tick_none _ _ Ha), app_nil_r.
  - rewrite (proj2 (Z.ltb_lt _ _) Hs'), IH. by destruct (fire b s).
Qed.

(** C34: A tick of the stimulus at which one job is due, with a scripted value for an
    object of a commissioned device that may transmit it, sends one telegram, to the
    first address of the object.  The sender's object then holds the value, whether
    or not it takes writes, and the sender's other objects what they held.  Every
    other commissioned device holds the value on the objects that take writes to
    this address, and what it held on the others.  The job is due again a period
    later, with its next value; the other jobs are as they were. *)
Theorem stimulus_reaches_linked_objects b now_ms before s after d links descriptors ga payload
    (Hb : bus_ok b) (Hsched : gb_stimulus b = before ++ s :: after)
    (Hbefore : Forall (not_due now_ms) before) (Hafter : Forall (not_due now_ms) after)
    (Hdue : ~ not_due now_ms s)
    (Hd : Bus_device b (sj_device s) = Some d) (Hc : commissioned links descriptors d)
    (Ht : enabled descriptors FLAG_TRANSMIT (sj_object s) = true)
    (Hga : head (model_gas links (sj_object s)) = Some ga)
    (Hp : nth_error (sj_values s) (sj_cursor s mod length (sj_values s)) = Some payload)
    (Hne : payload <> []) (Hu : Forall is_u8 payload) :
  let '(out, b') := tick_stimulus b now_ms in
  out = [group_telegram (sj_device s) SimGroupValueWrite (sim_group ga) payload] /\
  gb_stimulus b' = before ++ fired_at now_ms s :: after /\
  (exists d', Bus_device b' (sj_device s) = Some d' /\ commissioned links descriptors d' /\
     forall o, object_value d' o = if o =? sj_object s then Some payload else object_value d o) /\
  forall a, a <> sj_device s -> match Bus_device b a with
    | None => Bus_device b' a = None
    | Some other => exists other', Bus_device b' a = Some other' /\
        forall links descriptors, commissioned links descriptors other ->
          updated_by links descriptors ga payload other other'
    end.
Proof.
  unfold tick_stimulus. rewrite Hsched, tick_one by done.
  pose proof (fire_reaches (MkGroupBus (gb_devices b) []) s d links descriptors ga payload
    (bus_ok_devices b [] Hb) Hd Hc Ht Hga Hp Hne Hu) as H.
  destruct (fire _ s) as [out b']. destruct H as (H1 & H2 & H3). split; [exact H1|]. split; [done|]. split; [exact H2|exact H3].
Qed.

(** ** An installation *)

Definition demo_device (address : u16) : GroupDevice :=
  MkGroupDevice (MkSimIA address) (address =? 4353)
    (Some (GroupComm_from_tables demo_flashed 16384 20480 24576)).

Definition demo_job : StimulusJob := MkStimulusJob (MkSimIA 4353) 1 1000 [[0]; [1]] 0 1.

Definition demo_bus : GroupBus :=
  set_stimulus (Bus_add_device (Bus_add_device GroupBus_new (demo_device 4354)) (demo_device 4353)) [demo_job].

Lemma demo_bus_reachable : BusReachable demo_bus.
Proof.
  repeat (eapply ReachStep; [|apply StepSchedule || apply StepAdd]). constructor.
Qed.

Lemma demo_commissioned address : commissioned demo_links demo_descriptors (demo_device address).
Proof.
  split; [exists demo_flashed, 16384, 20480, 24576; exact demo_flashed_ok|].
  eexists. split; [reflexivity|]. exact (flashed_routes _ _ _ _ _ _ demo_flashed_ok).
Qed.

Lemma demo_bus_ok : bus_ok demo_bus.
Proof. split; repeat apply add_ok; by split; constructor. Qed.

Lemma devices_under_their_address_witness :
  BusReachable (snd (tick_stimulus demo_bus 5)) /\ bus_ok (snd (tick_stimulus demo_bus 5)).
Proof.
  assert (H : BusReachable (snd (tick_stimulus demo_bus 5)))
    by (eapply ReachStep; [exact demo_bus_reachable|apply StepTick]).
  split; [exact H|]. exact (proj1 (devices_under_their_address _ H)).
Defined.

(** The device in programming mode, 1.1.1, becomes 1.1.3. *)
Lemma address_write_moves_one_witness :
  let b' := deliver_individual_address_write demo_bus (MkSimIA 4355) in
  map fst (gb_devices b') = [4354; 4355] /\ Bus_device b' (MkSimIA 4353) = None.
Proof.
  cbv zeta. split; [vm_compute; reflexivity|].
  destruct (address_write_moves_one demo_bus (MkSimIA 4355) demo_bus_ok) as [(old & d & E & Hd & _ & H)|[_ H]].
  - rewrite H. assert (old = MkSimIA 4353) as ->; [|reflexivity].
    destruct old as [w]. vm_compute in E. injection E as ->. reflexivity.
  - exfalso. destruct (H (MkSimIA 4353) ltac:(vm_compute; reflexivity)) as [_ [x Hx]]. vm_compute in Hx. discriminate Hx.
Defined.

(** The switch sends the second of its values; the lamp takes it, and the job is
    due again a second later. *)
Lemma stimulus_reaches_linked_objects_witness :
  let '(out, b') := tick_stimulus demo_bus 5 in
  map sim_tpdu out = [[0; 129]] /\ map sj_next_due_ms (gb_stimulus b') = [1005] /\
  exists d, Bus_device b' (MkSimIA 4354) = Some d /\ object_value d 3 = Some [1].
Proof.
  assert (H : let '(out, b') := tick_stimulus demo_bus 5 in
    out = [group_telegram (sj_device demo_job) SimGroupValueWrite (sim_group (GroupAddress_from_raw 2)) [1]] /\
    gb_stimulus b' = [fired_at 5 demo_job] /\
    exists other', Bus_device b' (MkSimIA 4354) = Some other' /\
      updated_by demo_links demo_descriptors (GroupAddress_from_raw 2) [1] (demo_device 4354) other').
  { pose proof (stimulus_reaches_linked_objects demo_bus 5 [] demo_job [] (demo_device 4353) demo_links demo_descriptors
      (GroupAddress_from_raw 2) [1] demo_bus_ok eq_refl (Forall_nil_2 _) (Forall_nil_2 _)
      ltac:(unfold not_due; cbn; lia) eq_refl (demo_commissioned 4353) eq_refl eq_refl eq_refl
      ltac:(discriminate) ltac:(apply Forall_cons_2; [split; [apply Z.leb_le|apply Z.ltb_lt]; reflexivity|apply Forall_nil_2]))
      as Hs.
    destruct (tick_stimulus demo_bus 5) as [out b']. destruct Hs as (Ho & Hj & _ & Hs). split; [exact Ho|]. split; [exact Hj|].
    specialize (Hs (MkSimIA 4354) ltac:(discriminate)).
    assert (E : Bus_device demo_bus (MkSimIA 4354) = Some (demo_device 4354)) by reflexivity.
    rewrite E in Hs. destruct Hs as (other' & Eo & Hs). exists other'. split; [exact Eo|].
    apply Hs. apply demo_commissioned. }
  destruct (tick_stimulus demo_bus 5) as [out b']. destruct H as (-> & Ej & other' & Eo & _ & _ & _ & Hv).
  split; [reflexivity|]. split; [by rewrite Ej|]. exists other'. split; [exact Eo|]. rewrite Hv. vm_compute. reflexivity.
Defined.
