(* ===== verification/WhenTest.v ===== *)
(** * The tests of [<when>] branches ([bussard-model/src/dynamic.rs])

    Reading and writing the test of a branch, and which branches of a [<choose>]
    a parameter's value takes.  The value is compared as an [f64]. *)

From Stdlib Require Import String SpecFloat.
From S2P Require Import Prelude Decimal TextCodec Float64.

Local Open Scope string_scope.
Local Open Scope list_scope.
Local Open Scope Z_scope.

Inductive CompareOp : Type := OpNe | OpLt | OpLe | OpGt | OpGe.

Definition CompareOp_matches (op : CompareOp) (value against : Z) : bool :=
  match op with
  | OpNe => negb (value =? against)
  | OpLt => value <? against
  | OpLe => value <=? against
  | OpGt => against <? value
  | OpGe => against <=? value
  end.

Inductive WhenTest : Type :=
| WhenValues (vs : list Z)
| WhenCompare (op : CompareOp) (value : Z)
| WhenDefault
| WhenUnknown (raw : text).

#[export] Instance CompareOp_eq_dec : EqDecision CompareOp.
Proof. solve_decision. Defined.

#[export] Instance WhenTest_eq_dec : EqDecision WhenTest.
Proof. solve_decision. Defined.

(** [!=], [<], [<=], [>] and [>=]. *)
Definition op_text (op : CompareOp) : text :=
  match op with OpNe => [33; 61] | OpLt => [60] | OpLe => [60; 61] | OpGt => [62] | OpGe => [62; 61] end.

Example op_texts : map op_text [OpNe; OpLt; OpLe; OpGt; OpGe] = map chars ["!="; "<"; "<="; ">"; ">="].
Proof. reflexivity. Qed.

(** The operators in the order they are tried. *)
Definition WHEN_OPS : list CompareOp := [OpNe; OpLe; OpGe; OpLt; OpGt].

Fixpoint parse_compare (ops : list CompareOp) (raw : text) : option WhenTest :=
  match ops with
  | [] => None
  | op :: ops =>
      match strip_prefix (op_text op) raw with
      | Some rest =>
          Some match parse_i64 (trim rest) with Some value => WhenCompare op value | None => WhenUnknown raw end
      | None => parse_compare ops raw
      end
  end.

Fixpoint parse_tokens (tokens : list text) : option (list Z) :=
  match tokens with
  | [] => Some []
  | token :: tokens => v ← parse_i64 token; vs ← parse_tokens tokens; Some (v :: vs)
  end.

Definition WhenTest_parse (test default_attr : option text) : WhenTest :=
  if match option_map trim default_attr with
     | Some t => bool_decide (t = chars "true") || bool_decide (t = chars "1")
     | None => false
     end then WhenDefault
  else
    let raw := trim (default [] test) in
    if bool_decide (raw = []) then WhenUnknown []
    else
      match parse_compare WHEN_OPS raw with
      | Some t => t
      | None => match parse_tokens (split_whitespace raw) with Some vs => WhenValues vs | None => WhenUnknown raw end
      end.

(** [join(" ")]. *)
Fixpoint join_words (ts : list text) : text :=
  match ts with
  | [] => []
  | [t] => t
  | t :: ts => t ++ 32 :: join_words ts
  end.

Definition WhenTest_text (t : WhenTest) : option text :=
  match t with
  | WhenValues vs => Some (join_words (map to_text vs))
  | WhenCompare op value => Some (op_text op ++ to_text value)
  | WhenDefault => None
  | WhenUnknown raw => Some raw
  end.

Definition WhenTest_matches (t : WhenTest) (value : Z) : bool :=
  match t with
  | WhenValues vs => existsb (Z.eqb value) vs
  | WhenCompare op against => CompareOp_matches op value against
  | _ => false
  end.

(** [when_matches]: the value as a number, if it is one. *)
Definition when_matches (t : WhenTest) (value : option f64) : bool :=
  match value with
  | None => false
  | Some v =>
      match t with
      | WhenValues vs => is_whole v && existsb (fun x => SFeqb (f64_of_int x) v) vs
      | WhenCompare op value =>
          let x := f64_of_int value in
          match op with
          | OpNe => negb (SFeqb v x)
          | OpLt => SFltb v x
          | OpLe => SFleb v x
          | OpGt => SFltb x v
          | OpGe => SFleb x v
          end
      | _ => false
      end
  end.

(** The indices of the elements that satisfy [f]. *)
Fixpoint indices_from {A} (f : A -> bool) (i : nat) (l : list A) : list nat :=
  match l with
  | [] => []
  | x :: l => if f x then i :: indices_from f (S i) l else indices_from f (S i) l
  end.

Definition taken_branches (tests : list WhenTest) (value : option f64) : list nat :=
  match indices_from (fun t => when_matches t value) 0 tests with
  | [] => indices_from (fun t => bool_decide (t = WhenDefault)) 0 tests
  | hits => hits
  end.

(** ** Lemmas: texts *)

Lemma trim_start_length t : (length (trim_start t) <= length t)%nat.
Proof. induction t as [|c t IH]; [done|]. cbn [trim_start]. destruct (is_whitespace c); cbn [length]; lia. Qed.

(** No white space at either end. *)
Definition trimmed (t : text) : Prop := trim_start t = t /\ trim_start (rev t) = rev t.

Lemma trimmed_trim t : trimmed t -> trim t = t.
Proof. intros [H1 H2]. unfold trim. by rewrite H1, H2, rev_involutive. Qed.

Lemma trim_start_stable t : trim_start (trim_start t) = trim_start t.
Proof. induction t as [|c t IH]; [done|]. cbn [trim_start]. destruct (is_whitespace c) eqn:E; [done|]. cbn [trim_start]. by rewrite E. Qed.

Lemma trim_start_head c t u : trim_start t = c :: u -> is_whitespace c = false.
Proof. induction t as [|d t IH]; [done|]. cbn [trim_start]. destruct (is_whitespace d) eqn:E; [done|]. by intros [= -> ->]. Qed.

Lemma trim_start_suffix t : exists u, t = u ++ trim_start t.
Proof.
  induction t as [|c t [u IH]]; [by exists []|]. cbn [trim_start]. destruct (is_whitespace c); [|by exists []].
  exists (c :: u). cbn [app]. by rewrite <- IH.
Qed.

Lemma trim_trimmed t : trimmed (trim t).
Proof.
  unfold trim. set (u := trim_start t). split; [|rewrite rev_involutive; apply trim_start_stable].
  destruct (trim_start_suffix (rev u)) as [v Ev]. set (w := trim_start (rev u)) in *.
  assert (Eu : u = rev w ++ rev v) by (rewrite <- rev_app_distr, <- Ev, rev_involutive; done).
  destruct (rev w) as [|c r] eqn:Er; [done|]. cbn [trim_start].
  rewrite (trim_start_head c t (r ++ rev v)); [done|]. exact Eu.
Qed.

Lemma solid_trimmed t : solid t -> trimmed t.
Proof. intros H. split; apply trim_start_solid; [done|by apply Forall_rev]. Qed.

Lemma trimmed_app t u v : solid t -> t <> [] -> solid v -> v <> [] -> trimmed (t ++ u ++ v).
Proof.
  intros Ht Hnt Hv Hnv. split.
  - destruct Ht as [|c t Hc Ht]; [done|]. cbn [app trim_start]. by rewrite Hc.
  - rewrite !rev_app_distr. assert (Hr : solid (rev v)) by (by apply Forall_rev).
    destruct (rev v) as [|c r] eqn:E; [apply (f_equal (@rev char)) in E; rewrite rev_involutive in E; done|].
    inversion Hr as [|? ? Hc]; subst. rewrite <- app_assoc. cbn [app trim_start]. by rewrite Hc.
Qed.

Lemma to_text_nonempty n : to_text n <> [].
Proof.
  assert (H : forall v, decimal_digits 20 v <> []).
  { intros v. change (decimal_digits 20 v) with (if v <? 10 then [48 + v] else decimal_digits 19 (v / 10) ++ [48 + v mod 10]).
    destruct (v <? 10); [done|]. by destruct (decimal_digits 19 (v / 10)). }
  unfold to_text. destruct (n <? 0); [done|apply H].
Qed.

Lemma to_text_head n : exists c t, to_text n = c :: t /\ (c = 45 \/ 48 <= c <= 57).
Proof.
  unfold to_text. destruct (Z.ltb_spec n 0); [eexists 45, _; by auto|].
  pose proof (decimal_digits_chars 20 n ltac:(lia)) as Hc. pose proof (to_text_nonempty n) as Hne. unfold to_text in Hne.
  rewrite (proj2 (Z.ltb_ge n 0)) in Hne by lia.
  destruct (decimal_digits 20 n) as [|c t]; [done|]. inversion Hc; subst. exists c, t. auto.
Qed.

(** Solid words between blanks are the words. *)
Lemma split_words ws : Forall (fun w => solid w /\ w <> []) ws -> split_whitespace (join_words ws) = ws.
Proof.
  assert (Hword : forall w rest, solid w -> w <> [] -> (rest = [] \/ exists r, rest = 32 :: r) ->
    split_whitespace (w ++ rest) = w :: split_whitespace rest).
  { intros w rest Hw Hne Hrest. induction Hw as [|c w Hc Hw IH]; [done|]. cbn [app split_whitespace]. rewrite Hc.
    destruct w as [|d w].
    - cbn [app]. by destruct Hrest as [->|[r ->]].
    - assert (Hd : is_whitespace d = false) by (by inversion Hw). cbn [app] in *. rewrite Hd.
      rewrite IH by done. done. }
  induction 1 as [|w ws [Hw Hne] Hws IH]; [done|]. destruct ws as [|w' ws].
  - cbn [join_words]. rewrite <- (app_nil_r w) at 1. rewrite Hword by (done || by left). done.
  - change (join_words (w :: w' :: ws)) with (w ++ 32 :: join_words (w' :: ws)).
    rewrite Hword by (done || (right; by eexists)). cbn [split_whitespace]. f_equal. exact IH.
Qed.

Lemma parse_tokens_printed vs : Forall is_i64 vs -> parse_tokens (map to_text vs) = Some vs.
Proof.
  induction 1 as [|v vs Hv Hvs IH]; [done|]. cbn [map parse_tokens]. unfold is_i64 in Hv. rewrite parse_to_text by lia.
  cbn [mbind option_bind]. by rewrite IH.
Qed.

Lemma parse_tokens_range tokens vs : parse_tokens tokens = Some vs -> Forall is_i64 vs /\ length vs = length tokens.
Proof.
  revert vs. induction tokens as [|t tokens IH]; intros vs; cbn [parse_tokens]; [by intros [= <-]|].
  destruct (parse_i64 t) as [v|] eqn:Ev; cbn [mbind option_bind]; [|done].
  destruct (parse_tokens tokens) as [ws|]; cbn [mbind option_bind]; [|done]. intros [= <-].
  destruct (IH ws eq_refl) as [H1 H2]. split; [|cbn; lia]. constructor; [by eapply parse_i64_range|done].
Qed.

Lemma no_operator ops c t : Forall (fun op => exists d u, op_text op = d :: u /\ (d = 33 \/ d = 60 \/ d = 62)) ops ->
  c = 45 \/ 48 <= c <= 57 -> parse_compare ops (c :: t) = None.
Proof.
  induction 1 as [|op ops (d & u & Eo & Hd) Ho IH]; intros Hc; [done|]. cbn [parse_compare]. rewrite Eo. cbn [strip_prefix].
  rewrite (proj2 (Z.eqb_neq d c)) by lia. by apply IH.
Qed.

Lemma ops_heads ops : Forall (fun op => exists d u, op_text op = d :: u /\ (d = 33 \/ d = 60 \/ d = 62)) ops.
Proof. apply List.Forall_forall. intros op _. destruct op; [exists 33|exists 60|exists 60|exists 62|exists 62]; eexists; (split; [reflexivity|lia]). Qed.

Lemma parse_compare_printed op n : is_i64 n -> parse_compare WHEN_OPS (op_text op ++ to_text n) = Some (WhenCompare op n).
Proof.
  intros Hn. pose proof (parse_printed n Hn) as Hp. destruct (to_text_head n) as (c & t & E & Hc). rewrite E in *.
  assert (H61 : (61 =? c) = false) by (apply Z.eqb_neq; lia).
  assert (Hm : forall f raw, match parse_i64 (trim (c :: t)) with Some v => f v | None => WhenUnknown raw end = f n)
    by (intros f raw; by rewrite Hp).
  destruct op; cbn [op_text parse_compare WHEN_OPS app strip_prefix]; rewrite ?H61; cbn -[trim parse_i64];
    exact (f_equal Some (Hm _ _)).
Qed.

Lemma operator_trimmed op n : trimmed (op_text op ++ to_text n).
Proof.
  apply (trimmed_app _ []); [|by destruct op|apply to_text_solid|apply to_text_nonempty].
  destruct op; repeat constructor.
Qed.

Lemma words_head vs : vs <> [] -> exists c t, join_words (map to_text vs) = c :: t /\ (c = 45 \/ 48 <= c <= 57).
Proof.
  intros Hne. destruct vs as [|v vs]; [done|]. destruct (to_text_head v) as (c & t & E & Hc).
  destruct vs as [|v' vs]; [by exists c, t|]. exists c. eexists. split; [|exact Hc].
  change (join_words (map to_text (v :: v' :: vs))) with (to_text v ++ 32 :: join_words (map to_text (v' :: vs))).
  by rewrite E.
Qed.

Lemma words_trimmed vs : vs <> [] -> trimmed (join_words (map to_text vs)).
Proof.
  intros Hne. destruct vs as [|v vs]; [done|]. clear Hne.
  assert (Hend : forall vs v, exists u w, join_words (map to_text (v :: vs)) = u ++ w /\ solid w /\ w <> []).
  { induction vs0 as [|v' vs' IH]; intros v0.
    - exists [], (to_text v0). split; [done|]. split; [apply to_text_solid|apply to_text_nonempty].
    - destruct (IH v') as (u & w & E & Hw). exists (to_text v0 ++ 32 :: u), w. split; [|done].
      change (join_words (map to_text (v0 :: v' :: vs'))) with (to_text v0 ++ 32 :: join_words (map to_text (v' :: vs'))).
      rewrite E, <- app_assoc. done. }
  destruct vs as [|v' vs]; [apply solid_trimmed, to_text_solid|].
  destruct (Hend vs v') as (u & w & E & Hw & Hnw).
  change (join_words (map to_text (v :: v' :: vs))) with (to_text v ++ 32 :: join_words (map to_text (v' :: vs))).
  rewrite E. change (32 :: u ++ w) with ((32 :: u) ++ w).
  apply trimmed_app; [apply to_text_solid|apply to_text_nonempty|done|done].
Qed.

(** ** Properties *)

Lemma parse_raw raw : trimmed raw -> raw <> [] ->
  WhenTest_parse (Some raw) None
  = match parse_compare WHEN_OPS raw with
    | Some t => t
    | None => match parse_tokens (split_whitespace raw) with Some vs => WhenValues vs | None => WhenUnknown raw end
    end.
Proof.
  intros Ht Hne. unfold WhenTest_parse. cbn [option_map default option_rect from_option id].
  rewrite (trimmed_trim raw Ht). by rewrite bool_decide_eq_false_2.
Qed.

(** A comparison is one of the operators with a number, or not understood. *)
Lemma parse_compare_result ops raw t : parse_compare ops raw = Some t ->
  t = WhenUnknown raw \/ exists op n, t = WhenCompare op n /\ is_i64 n.
Proof.
  induction ops as [|op ops IH]; [done|]. cbn [parse_compare]. destruct (strip_prefix _ raw) as [rest|]; [|done].
  intros [= <-]. destruct (parse_i64 (trim rest)) as [n|] eqn:E; [right|by left].
  exists op, n. split; [done|]. by eapply parse_i64_range.
Qed.

(** What is stored for the test of a branch is read back to the same test,
    whatever the product data said; only the default branch is stored without
    one. *)
Theorem test_text_reads_back test default_attr :
  let t := WhenTest_parse test default_attr in
  match WhenTest_text t with
  | Some stored => WhenTest_parse (Some stored) None = t
  | None => t = WhenDefault
  end.
Proof.
  cbv zeta. unfold WhenTest_parse at 1 3 4. destruct (match option_map trim default_attr with Some _ => _ | None => _ end); [done|].
  set (raw := trim (default [] test)). assert (Ht : trimmed raw) by apply trim_trimmed.
  case_bool_decide as Hraw; [done|].
  destruct (parse_compare WHEN_OPS raw) as [t|] eqn:Ec.
  - destruct (parse_compare_result _ _ _ Ec) as [->|(op & n & -> & Hn)]; cbn [WhenTest_text].
    + rewrite parse_raw by done. by rewrite Ec.
    + rewrite parse_raw by (try apply operator_trimmed; by destruct op). by rewrite parse_compare_printed.
  - destruct (parse_tokens (split_whitespace raw)) as [vs|] eqn:Ep; cbn [WhenTest_text].
    + destruct (parse_tokens_range _ _ Ep) as [Hvs Hl].
      assert (Hne : vs <> []).
      { intros ->. destruct Ht as [Hs _]. destruct raw as [|c r]; [done|]. cbn [trim_start] in Hs. 
        destruct (is_whitespace c) eqn:Ew.
        - pose proof (trim_start_length r) as Hlen. rewrite Hs in Hlen. exact (Nat.nle_succ_diag_l _ Hlen).
        - cbn [split_whitespace] in Hl. rewrite Ew in Hl. destruct r as [|d r]; [done|].
          destruct (is_whitespace d); [done|]. by destruct (split_whitespace (d :: r)). }
      destruct (words_head vs Hne) as (c & t & E & Hc).
      rewrite parse_raw by (try (by apply words_trimmed); by rewrite E).
      assert (Hnone : parse_compare WHEN_OPS (join_words (map to_text vs)) = None)
        by (rewrite E; by apply no_operator; [apply ops_heads|]).
      rewrite Hnone, split_words.
      * by rewrite parse_tokens_printed.
      * apply Forall_map. apply List.Forall_forall. intros v _. split; [apply to_text_solid|apply to_text_nonempty].
    + rewrite parse_raw by done. by rewrite Ec, Ep.
Qed.

(** The numbers of a test. *)
Definition test_small (t : WhenTest) : Prop :=
  match t with WhenValues vs => Forall small vs | WhenCompare _ v => small v | _ => True end.

Lemma when_matches_exact t n : test_small t -> small n -> when_matches t (Some (f64_of_int n)) = WhenTest_matches t n.
Proof.
  intros Ht Hn. destruct t as [vs|op v| |raw]; cbn [when_matches WhenTest_matches test_small] in *; [|destruct op|done|done].
  - rewrite f64_whole by done. cbn [andb]. induction Ht as [|v vs Hv Hvs IH]; [done|]. cbn [existsb].
    by rewrite IH, f64_eqb, Z.eqb_sym.
  - cbn [CompareOp_matches]. by rewrite f64_eqb.
  - by apply f64_ltb.
  - by apply f64_leb.
  - by apply f64_ltb.
  - by apply f64_leb.
Qed.

Lemma in_indices {A} (f : A -> bool) l i k :
  In k (indices_from f i l) <-> exists x, (i <= k)%nat /\ nth_error l (k - i) = Some x /\ f x = true.
Proof.
  revert i. induction l as [|x l IH]; intros i; cbn [indices_from].
  - split; [done|]. intros (x & _ & E & _). by destruct (k - i)%nat.
  - assert (Hrec : In k (indices_from f (S i) l) <-> exists y, (i < k)%nat /\ nth_error (x :: l) (k - i) = Some y /\ f y = true).
    { rewrite IH. split; intros (y & Hle & E & Hf); exists y; (split; [lia|]); (split; [|done]);
        replace (k - i)%nat with (S (k - S i))%nat in * by lia; exact E. }
    destruct (f x) eqn:Ef; cbn [In]; rewrite Hrec; split.
    + intros [<-|(y & Hlt & H)]; [exists x; rewrite Nat.sub_diag; split; [lia|done]|exists y; split; [lia|done]].
    + intros (y & Hle & E & Hf). destruct (Nat.eq_dec i k); [by left|right]. exists y. split; [lia|done].
    + intros (y & Hlt & H). exists y. split; [lia|done].
    + intros (y & Hle & E & Hf). exists y. split; [|done]. destruct (Nat.eq_dec i k) as [->|]; [|lia].
      rewrite Nat.sub_diag in E. injection E as ->. congruence.
Qed.

(** The branches a value takes: with a whole number as its value, every branch
    whose test holds of the number, or the default branches when none does;
    with no number, the default branches. *)
Theorem branches_taken tests (n : Z) k (Ht : Forall test_small tests) (Hn : small n) :
  (In k (taken_branches tests (parse_f64 (to_text n))) <->
     exists t, nth_error tests k = Some t /\
       (WhenTest_matches t n = true \/ t = WhenDefault /\ Forall (fun t => WhenTest_matches t n = false) tests)) /\
  (In k (taken_branches tests None) <-> nth_error tests k = Some WhenDefault).
Proof.
  assert (Hi64 : -9223372036854775808 <= n <= 9223372036854775807).
  { unfold small in Hn. assert (2 ^ 53 < 9223372036854775807) by (vm_compute; reflexivity). lia. }
  rewrite parse_f64_integer by done. unfold taken_branches.
  assert (Hm : forall t, In t tests -> when_matches t (Some (f64_of_int n)) = WhenTest_matches t n).
  { intros t Hin. apply when_matches_exact; [|done]. rewrite List.Forall_forall in Ht. by apply Ht. }
  assert (Hd : forall k, In k (indices_from (fun t => bool_decide (t = WhenDefault)) 0 tests) <-> nth_error tests k = Some WhenDefault).
  { intros j. rewrite in_indices, Nat.sub_0_r. split.
    - intros (t & _ & E & Ed%bool_decide_eq_true). by rewrite <- Ed.
    - intros E. exists WhenDefault. split; [lia|]. split; [done|]. by apply bool_decide_eq_true_2. }
  assert (Hno : indices_from (fun t => when_matches t None) 0 tests = []).
  { clear. generalize 0%nat. induction tests as [|t tests IH]; intros i; [done|]. cbn [indices_from when_matches]. apply IH. }
  rewrite Hno. split; [|apply Hd].
  set (hits := indices_from (fun t => when_matches t (Some (f64_of_int n))) 0 tests).
  assert (Hh : forall j, In j hits <-> exists t, nth_error tests j = Some t /\ WhenTest_matches t n = true).
  { intros j. unfold hits. rewrite in_indices, Nat.sub_0_r. split.
    - intros (t & _ & E & Hf). exists t. split; [done|]. rewrite <- Hm; [done|]. by eapply nth_error_In.
    - intros (t & E & Hf). exists t. split; [lia|]. split; [done|]. rewrite Hm; [done|]. by eapply nth_error_In. }
  destruct hits as [|j l] eqn:El.
  - rewrite Hd. split; [intros E; exists WhenDefault; split; [done|right]; split; [done|]|].
    + apply List.Forall_forall. intros t (i & Ei)%In_nth_error. apply not_true_is_false. intros Hf.
      assert (H : In i []) by (apply Hh; by exists t). done.
    + intros (t & E & [Hf|[-> _]]); [|done]. assert (H : In k []) by (apply Hh; by exists t). done.
  - rewrite Hh. split; intros (t & E & H); exists t; (split; [done|]); [by left|]. destruct H as [|[-> Hall]]; [done|].
    exfalso. destruct (proj1 (Hh j) (or_introl eq_refl)) as (t' & E' & Hf').
    rewrite List.Forall_forall in Hall. rewrite (Hall t' ltac:(by eapply nth_error_In)) in Hf'. done.
Qed.

(** ** Examples *)

Lemma branches_taken_witness :
  In 1%nat (taken_branches [WhenValues [1; 2]; WhenDefault] (parse_f64 (to_text 7))).
Proof.
  refine (proj2 (proj1 (branches_taken [WhenValues [1; 2]; WhenDefault] 7 1%nat _ _)) _).
  - repeat constructor; vm_compute; done.
  - vm_compute. done.
  - exists WhenDefault. split; [reflexivity|right]. split; [reflexivity|]. repeat constructor.
Defined.

(** Past 2 ^ 53 neighbouring numbers are not told apart. *)
Example large_values_not_exact :
  WhenTest_matches (WhenValues [9007199254740993]) 9007199254740992 = false /\
  when_matches (WhenValues [9007199254740993]) (parse_f64 (to_text 9007199254740992)) = true.
Proof. split; vm_compute; reflexivity. Qed.
