(* ===== verification/Selector.v ===== *)
(** * Keys of parameters ([bussard-model/src/dynamic.rs])

    The device-file key of a parameter of a module instance, split into the
    instance and the reference and put together again. *)

From Stdlib Require Import String.
From S2P Require Import Prelude Decimal TextCodec.

Local Open Scope string_scope.
Local Open Scope list_scope.
Local Open Scope Z_scope.

(** ** Splitting *)

Definition is_digit (c : char) : bool := (48 <=? c) && (c <=? 57).

(** The digits at the start, one at least, and the rest. *)
Fixpoint digit_run (t : text) : text * text :=
  match t with
  | c :: t' => if is_digit c then let '(ds, rest) := digit_run t' in (c :: ds, rest) else ([], t)
  | [] => ([], [])
  end.

Definition digits (t : text) : option (text * text) :=
  match digit_run t with ([], _) => None | r => Some r end.

(** The levels of [parse_selector]: how many, the last instance number, the
    definition and the rest. *)
Fixpoint selector_levels (fuel : nat) (levels : nat) (def rest : text) : option (nat * text * text * text) :=
  match fuel with
  | O => None
  | S fuel =>
      after ← strip_prefix (chars "_M-") rest; '(_, after) ← digits after;
      after ← strip_prefix (chars "_MI-") after; '(mi, rest) ← digits after;
      match (sm ← strip_prefix (chars "_SM-") rest; '(s, tail) ← digits sm;
             _ ← strip_prefix (chars "_M-") tail; Some (s, tail)) with
      | Some (s, tail) => selector_levels fuel (S levels) (def ++ chars "_SM-" ++ s) tail
      | None => Some (S levels, mi, def, rest)
      end
  end.

Definition parse_selector (key : text) : option (text * text * text) :=
  md_rest ← strip_prefix (chars "MD-") key; '(md, rest) ← digits md_rest;
  '(levels, last_mi, def, rest) ← selector_levels (length key) 0 (chars "MD-" ++ md) rest;
  match rest with
  | 95 :: ((_ :: _) as param) =>
      let selector := take (length key - length rest) key in
      let instance := if (levels =? 1)%nat && bool_decide (last_mi = chars "1")
                      then default selector (strip_suffix (chars "_MI-1") selector) else selector in
      Some (instance, def, param)
  | _ => None
  end.

Definition split_selector (key : text) : option text * text :=
  match parse_selector key with
  | Some (instance, def, rest) => (Some instance, def ++ chars "_" ++ rest)
  | None => (None, key)
  end.

(** ** Putting together *)

(** [t.split(c)]. *)
Fixpoint split_on (c : char) (t : text) : list text :=
  match t with
  | [] => [[]]
  | d :: t =>
      if d =? c then [] :: split_on c t
      else match split_on c t with part :: parts => (d :: part) :: parts | [] => [[d]] end
  end.

(** [t.split_once(mid)]. *)
Fixpoint split_once (mid t : text) : option (text * text) :=
  match strip_prefix mid t with
  | Some rest => Some ([], rest)
  | None => match t with [] => None | c :: t => option_map (fun r => (c :: fst r, snd r)) (split_once mid t) end
  end.

Definition instance_module_def (instance : text) : text :=
  match split_on 95 instance with
  | first :: parts => foldl (fun def part => def ++ chars "_" ++ part) first (List.filter (starts_with (chars "SM-")) parts)
  | [] => []
  end.

(** The id without its module definition, if it starts with it. *)
Definition own_id (module_def app_relative_id : text) : text :=
  default app_relative_id (r ← strip_prefix module_def app_relative_id; strip_prefix (chars "_") r).

Definition selector_key (instance : option text) (app_relative_id : text) : text :=
  match instance with
  | None => app_relative_id
  | Some instance =>
      if contains (chars "_MI-") instance then
        instance ++ chars "_" ++ own_id (instance_module_def instance) app_relative_id
      else
        let module_def := match split_once (chars "_M-") instance with Some (md, _) => md | None => instance end in
        instance ++ chars "_MI-1_" ++ own_id module_def app_relative_id
  end.

(** ** Lemmas *)

Lemma strip_prefix_app p t : strip_prefix p (p ++ t) = Some t.
Proof. induction p as [|c p IH]; [by destruct t|]. cbn [app strip_prefix]. by rewrite Z.eqb_refl. Qed.

Lemma strip_prefix_Some p t r : strip_prefix p t = Some r -> t = p ++ r.
Proof.
  revert t. induction p as [|c p IH]; intros t E; [by injection E as ->|]. destruct t as [|d t]; [done|].
  cbn [strip_prefix] in E. destruct (Z.eqb_spec c d) as [->|]; [|done]. cbn [app]. f_equal. by apply IH.
Qed.

(** A module instance: its module definition's number, its [<Module>]'s and its
    repetition's; and the same of each submodule. *)
Record Path : Type := MkPath { p_md : text; p_m : text; p_mi : text; p_subs : list (text * text * text) }.

Definition is_number (t : text) : Prop := t <> [] /\ Forall (fun c => 48 <= c <= 57) t.

Definition path_ok (p : Path) : Prop :=
  is_number (p_md p) /\ is_number (p_m p) /\ is_number (p_mi p) /\
  Forall (fun '(s, m, n) => is_number s /\ is_number m /\ is_number n) (p_subs p).

Definition sub_selector (sub : text * text * text) : text :=
  let '(s, m, n) := sub in chars "_SM-" ++ s ++ chars "_M-" ++ m ++ chars "_MI-" ++ n.

Definition path_selector (p : Path) : text :=
  chars "MD-" ++ p_md p ++ chars "_M-" ++ p_m p ++ chars "_MI-" ++ p_mi p ++ flat_map sub_selector (p_subs p).

Definition path_def (p : Path) : text := chars "MD-" ++ p_md p ++ flat_map (fun '(s, _, _) => chars "_SM-" ++ s) (p_subs p).

(** The key of the instance ([ActiveModule::id]). *)
Definition path_instance (p : Path) : text :=
  if bool_decide (p_subs p = []) && bool_decide (p_mi p = chars "1")
  then chars "MD-" ++ p_md p ++ chars "_M-" ++ p_m p else path_selector p.

(** A reference's own part, which is not a submodule's selector. *)
Definition own_part (rest : text) : Prop :=
  rest <> [] /\ (sm ← strip_prefix (chars "SM-") rest; '(_, tail) ← digits sm; strip_prefix (chars "_M-") tail) = None.

Lemma digit_run_app t u : Forall (fun c => 48 <= c <= 57) t -> match u with c :: _ => is_digit c = false | [] => True end ->
  digit_run (t ++ u) = (t, u).
Proof.
  intros Ht Hu. induction Ht as [|c t Hc Ht IH]; cbn [app].
  - destruct u as [|c u]; [done|]. cbn [digit_run]. by rewrite Hu.
  - cbn [digit_run]. unfold is_digit at 1. rewrite (proj2 (Z.leb_le 48 c)), (proj2 (Z.leb_le c 57)) by lia. cbn [andb].
    by rewrite IH.
Qed.

Lemma digits_app t u : is_number t -> match u with c :: _ => is_digit c = false | [] => True end ->
  digits (t ++ u) = Some (t, u).
Proof.
  intros [Hne Ht] Hu. unfold digits. rewrite digit_run_app by done. by destruct t.
Qed.

Definition last_number (mi : text) (subs : list (text * text * text)) : text := foldl (fun _ sub => snd sub) mi subs.

Definition subs_ok (subs : list (text * text * text)) : Prop :=
  Forall (fun '(s, m, n) => is_number s /\ is_number m /\ is_number n) subs.

Definition sub_defs (subs : list (text * text * text)) : text := flat_map (fun '(s, _, _) => chars "_SM-" ++ s) subs.

(** The levels, read one by one. *)
Lemma selector_levels_subs subs rest : own_part rest -> forall fuel levels def mi m,
  subs_ok subs -> (length subs < fuel)%nat -> is_number m -> is_number mi ->
  selector_levels fuel levels def (chars "_M-" ++ m ++ chars "_MI-" ++ mi ++ flat_map sub_selector subs ++ 95 :: rest)
  = Some ((levels + S (length subs))%nat, last_number mi subs, def ++ sub_defs subs, 95 :: rest).
Proof.
  intros Hr. induction subs as [|[[s m'] n] subs IH]; intros fuel levels def mi m Hs Hf Hm Hmi;
    (destruct fuel as [|fuel]; [cbn in Hf; lia|]); cbn [selector_levels];
    rewrite strip_prefix_app; cbn [mbind option_bind]; rewrite digits_app by done; cbn [mbind option_bind];
    rewrite strip_prefix_app; cbn [mbind option_bind]; (rewrite digits_app; [|done|done]); cbn [mbind option_bind].
  - cbn [flat_map app]. change (strip_prefix (chars "_SM-") (95 :: rest)) with (strip_prefix (chars "SM-") rest).
    destruct Hr as [_ Hr]. unfold sub_defs, last_number. cbn [flat_map foldl length].
    rewrite app_nil_r, Nat.add_1_r.
    destruct (strip_prefix (chars "SM-") rest) as [sm|]; cbn [mbind option_bind] in *; [|done].
    destruct (digits sm) as [[d tail]|]; cbn [mbind option_bind] in *; [|done]. by rewrite Hr.
  - apply Forall_cons in Hs as [(Hs1 & Hs2 & Hs3) Hs4]. cbn [flat_map sub_selector]. rewrite <- !app_assoc.
    rewrite strip_prefix_app. cbn [mbind option_bind]. rewrite digits_app by done. cbn [mbind option_bind].
    rewrite strip_prefix_app. cbn [mbind option_bind]. rewrite IH by (done || (cbn in Hf; lia)).
    unfold sub_defs, last_number. cbn [flat_map foldl length snd]. rewrite <- !app_assoc.
    by replace (S levels + S (length subs))%nat with (levels + S (S (length subs)))%nat by lia.
Qed.

Lemma sub_selectors_length subs : (length subs <= length (flat_map sub_selector subs))%nat.
Proof.
  induction subs as [|[[s m] n] subs IH]; [done|]. cbn [flat_map sub_selector].
  change (chars "_SM-") with (95 :: chars "SM-"). cbn [app length]. rewrite !length_app. lia.
Qed.

Lemma parse_selector_path p rest : path_ok p -> own_part rest ->
  parse_selector (path_selector p ++ chars "_" ++ rest) = Some (path_instance p, path_def p, rest).
Proof.
  intros (H1 & H2 & H3 & H4) Hr. destruct p as [md m mi subs]. cbn [p_md p_m p_mi p_subs] in *.
  unfold parse_selector, path_selector. cbn [p_md p_m p_mi p_subs].
  set (key := (chars "MD-" ++ md ++ _ ++ _) ++ _ ++ rest).
  assert (Ek : key = chars "MD-" ++ md ++ chars "_M-" ++ m ++ chars "_MI-" ++ mi ++ flat_map sub_selector subs ++ 95 :: rest).
  { unfold key. rewrite <- !app_assoc. done. }
  rewrite Ek at 1. rewrite strip_prefix_app. cbn [mbind option_bind]. rewrite digits_app by done. cbn [mbind option_bind].
  rewrite selector_levels_subs; [|done|done| |done|done].
  2: { rewrite Ek, !length_app. pose proof (sub_selectors_length subs). change (length (chars "MD-")) with 3%nat. lia. }
  cbn [mbind option_bind]. destruct rest as [|c rest]; [by destruct Hr|].
  assert (Et : take (length key - length (95 :: c :: rest)) key = path_selector (MkPath md m mi subs)).
  { change key with (path_selector (MkPath md m mi subs) ++ 95 :: c :: rest).
    rewrite length_app, Nat.add_sub. apply take_app_length. }
  rewrite Et. unfold path_instance, path_def, sub_defs. cbn [p_md p_m p_mi p_subs]. rewrite <- !app_assoc.
  destruct subs as [|sub subs].
  - cbn [length last_number foldl Nat.add Nat.eqb andb]. rewrite (bool_decide_eq_true_2 ([] = [])) by done. cbn [andb].
    case_bool_decide as E; [|done]. unfold path_selector. cbn [p_md p_m p_mi p_subs flat_map]. rewrite E, app_nil_r.
    unfold strip_suffix. change (chars "_MI-" ++ chars "1") with (chars "_MI-1"). rewrite !app_assoc.
    rewrite rev_app_distr, strip_prefix_app. cbn [option_map]. rewrite rev_involutive. done.
  - rewrite (bool_decide_eq_false_2 (sub :: subs = [])) by done. cbn [andb]. done.
Qed.

(** A part of a key: no underscore in it. *)
Definition part (t : text) : Prop := Forall (fun c => c <> 95) t.

Lemma number_part name t : part (chars name) -> is_number t -> part (chars name ++ t).
Proof. intros Hn [_ Ht]. apply Forall_app. split; [done|]. eapply Forall_impl; [exact Ht|]. cbn. lia. Qed.

Lemma split_on_part a t : part a -> split_on 95 (a ++ 95 :: t) = a :: split_on 95 t.
Proof.
  induction 1 as [|c a Hc Ha IH]; [done|]. cbn [app split_on]. rewrite (proj2 (Z.eqb_neq c 95)) by done. by rewrite IH.
Qed.

Lemma split_on_last a : part a -> split_on 95 a = [a].
Proof.
  induction 1 as [|c a Hc Ha IH]; [done|]. cbn [split_on]. rewrite (proj2 (Z.eqb_neq c 95)) by done. by rewrite IH.
Qed.

Lemma split_on_subs subs : subs_ok subs -> forall a, part a ->
  split_on 95 (a ++ flat_map sub_selector subs)
  = a :: flat_map (fun '(s, m, n) => [chars "SM-" ++ s; chars "M-" ++ m; chars "MI-" ++ n]) subs.
Proof.
  induction 1 as [|[[s m] n] subs (H1 & H2 & H3) Hs IH]; intros a Ha.
  - cbn [flat_map]. rewrite app_nil_r. by apply split_on_last.
  - cbn [flat_map sub_selector app]. rewrite <- !app_assoc.
    change (chars "_SM-" ++ ?t) with (95 :: chars "SM-" ++ t). rewrite split_on_part by done. f_equal.
    change (chars "_M-" ++ ?t) with (95 :: chars "M-" ++ t). rewrite app_assoc, split_on_part
      by (apply number_part; [by repeat constructor|done]). f_equal.
    change (chars "_MI-" ++ ?t) with (95 :: chars "MI-" ++ t). rewrite app_assoc, split_on_part
      by (apply number_part; [by repeat constructor|done]). f_equal.
    rewrite app_assoc. apply IH. apply number_part; [by repeat constructor|done].
Qed.

Lemma foldl_sub_defs subs def :
  foldl (fun def part => def ++ chars "_" ++ part) def (List.filter (starts_with (chars "SM-"))
    (flat_map (fun '(s, m, n) => [chars "SM-" ++ s; chars "M-" ++ m; chars "MI-" ++ n]) subs)) = def ++ sub_defs subs.
Proof.
  revert def. induction subs as [|[[s m] n] subs IH]; intros def; [cbn; by rewrite app_nil_r|].
  cbn [flat_map app]. cbn [List.filter]. unfold starts_with at 1. rewrite strip_prefix_app.
  rewrite bool_decide_eq_true_2 by (by eexists).
  assert (E : forall name t, strip_prefix (chars "SM-") (chars name ++ t) = None -> starts_with (chars "SM-") (chars name ++ t) = false).
  { intros name t E. unfold starts_with. rewrite E. apply bool_decide_eq_false_2. by intros [? ?]. }
  rewrite (E "M-" m), (E "MI-" n) by done. cbn [foldl]. rewrite IH. unfold sub_defs. cbn [flat_map].
  rewrite <- !app_assoc. done.
Qed.

Lemma path_def_of p : path_ok p -> instance_module_def (path_selector p) = path_def p.
Proof.
  intros (H1 & H2 & H3 & H4). unfold path_selector, path_def, instance_module_def.
  change (chars "_M-" ++ ?t) with (95 :: chars "M-" ++ t). rewrite app_assoc, split_on_part
    by (apply number_part; [by repeat constructor|done]).
  change (chars "_MI-" ++ ?t) with (95 :: chars "MI-" ++ t). rewrite (app_assoc (chars "M-")), split_on_part
    by (apply number_part; [by repeat constructor|done]).
  rewrite app_assoc, split_on_subs by (done || (apply number_part; [by repeat constructor|done])).
  assert (E : forall name t, strip_prefix (chars "SM-") (chars name ++ t) = None -> starts_with (chars "SM-") (chars name ++ t) = false).
  { intros name t E. unfold starts_with. rewrite E. apply bool_decide_eq_false_2. by intros [? ?]. }
  cbn [List.filter]. rewrite (E "M-"), (E "MI-") by done. rewrite foldl_sub_defs, <- app_assoc. done.
Qed.

Lemma contains_app mid a b : contains mid (a ++ mid ++ b) = true.
Proof.
  unfold contains. apply bool_decide_eq_true_2. induction a as [|c a IH]; cbn [app].
  - assert (H : forall t, strip_prefix mid (mid ++ b) = Some b -> mid ++ b = t -> is_Some (rsplit_once mid t)).
    { intros t E Et. destruct t as [|c t]; cbn [rsplit_once].
      - rewrite <- Et, E. by eexists.
      - destruct (rsplit_once mid t); cbn [option_map]; [by eexists|]. rewrite <- Et, E. by eexists. }
    apply H; [apply strip_prefix_app|done].
  - cbn [rsplit_once]. destruct IH as [r E]. rewrite E. by eexists.
Qed.

Lemma rsplit_part mid a b : part a -> rsplit_once (95 :: mid) b = None -> rsplit_once (95 :: mid) (a ++ b) = None.
Proof.
  intros Ha Hb. induction Ha as [|c a Hc Ha IH]; [done|]. cbn [app rsplit_once]. rewrite IH. cbn [option_map strip_prefix].
  by rewrite (proj2 (Z.eqb_neq 95 c)) by done.
Qed.

Lemma split_once_part mid a b : part a -> split_once (95 :: mid) (a ++ (95 :: mid) ++ b) = Some (a, b).
Proof.
  induction 1 as [|c a Hc Ha IH].
  - cbn [app split_once strip_prefix]. rewrite Z.eqb_refl. by rewrite strip_prefix_app.
  - cbn [app]. cbn [split_once strip_prefix]. rewrite (proj2 (Z.eqb_neq 95 c)) by done.
    change (95 :: mid ++ b) with ((95 :: mid) ++ b). by rewrite IH.
Qed.

Lemma own_id_def def rest : own_id def (def ++ chars "_" ++ rest) = rest.
Proof. unfold own_id. rewrite strip_prefix_app. cbn [mbind option_bind]. by rewrite strip_prefix_app. Qed.

Lemma selector_key_path p rest : path_ok p ->
  selector_key (Some (path_instance p)) (path_def p ++ chars "_" ++ rest) = path_selector p ++ chars "_" ++ rest.
Proof.
  intros Hp. pose proof Hp as (H1 & H2 & H3 & H4). unfold selector_key.
  assert (Hlong : contains (chars "_MI-") (path_selector p) = true).
  { unfold path_selector. rewrite (app_assoc (chars "MD-")), (app_assoc (_ ++ _) (chars "_M-")), (app_assoc _ (p_m p)).
    apply contains_app. }
  unfold path_instance. destruct (_ && _)%bool eqn:E.
  2: { rewrite Hlong, path_def_of by done. by rewrite own_id_def. }
  apply andb_true_iff in E as [Es%bool_decide_eq_true Em%bool_decide_eq_true].
  assert (Ha : part (chars "MD-" ++ p_md p)) by (apply number_part; [by repeat constructor|done]).
  assert (Hshort : contains (chars "_MI-") (chars "MD-" ++ p_md p ++ chars "_M-" ++ p_m p) = false).
  { unfold contains. apply bool_decide_eq_false_2. rewrite app_assoc. change (chars "_MI-") with (95 :: chars "MI-").
    rewrite rsplit_part; [by intros [? ?]|done|]. change (chars "_M-" ++ p_m p) with (95 :: chars "M-" ++ p_m p).
    cbn [rsplit_once]. rewrite <- (app_nil_r (chars "M-" ++ p_m p)).
    rewrite rsplit_part; [done|apply number_part; [by repeat constructor|done]|done]. }
  assert (Hsplit : split_once (chars "_M-") (chars "MD-" ++ p_md p ++ chars "_M-" ++ p_m p) = Some (chars "MD-" ++ p_md p, p_m p)).
  { rewrite app_assoc. exact (split_once_part (chars "M-") _ _ Ha). }
  rewrite Hshort, Hsplit.
  unfold path_def. rewrite Es. cbn [flat_map]. rewrite app_nil_r, own_id_def.
  unfold path_selector. rewrite Es, Em. cbn [flat_map]. rewrite app_nil_r, <- !app_assoc. done.
Qed.

(** A device-file key names one instance and one reference: the key made of a
    module instance (once instantiated or repeated, with any depth of submodules)
    and a reference of its definition is split into these again. *)
Theorem keys_split_back p rest (Hp : path_ok p) (Hr : own_part rest) :
  split_selector (selector_key (Some (path_instance p)) (path_def p ++ chars "_" ++ rest))
  = (Some (path_instance p), path_def p ++ chars "_" ++ rest).
Proof. unfold split_selector. by rewrite selector_key_path, parse_selector_path. Qed.

(** ** Examples *)

Example split_selector_of_instance :
  map split_selector [chars "MD-15_M-26_MI-1_UP-22_R-27"; chars "MD-1_M-1_MI-2_P-3_R-5";
    chars "MD-1_M-1_MI-1_SM-1_M-1_MI-3_P-1_R-1"; chars "MD-1_P-1_R-1"]
  = [(Some (chars "MD-15_M-26"), chars "MD-15_UP-22_R-27"); (Some (chars "MD-1_M-1_MI-2"), chars "MD-1_P-3_R-5");
     (Some (chars "MD-1_M-1_MI-1_SM-1_M-1_MI-3"), chars "MD-1_SM-1_P-1_R-1"); (None, chars "MD-1_P-1_R-1")].
Proof. vm_compute. reflexivity. Qed.


Lemma keys_split_back_witness :
  split_selector (selector_key (Some (chars "MD-1_M-1_MI-1_SM-1_M-1_MI-3")) (chars "MD-1_SM-1_P-1_R-1"))
  = (Some (chars "MD-1_M-1_MI-1_SM-1_M-1_MI-3"), chars "MD-1_SM-1_P-1_R-1").
Proof.
  assert (H1 : is_number (chars "1")) by (split; [done|repeat constructor; done]).
  assert (H3 : is_number (chars "3")) by (split; [done|repeat constructor; done]).
  assert (Hp : path_ok (MkPath (chars "1") (chars "1") (chars "1") [(chars "1", chars "1", chars "3")])).
  { split; [done|]. split; [done|]. split; [done|]. apply Forall_cons_2; [|apply Forall_nil_2]. done. }
  assert (Hr : own_part (chars "P-1_R-1")) by (split; [discriminate|reflexivity]).
  exact (keys_split_back _ _ Hp Hr).
Defined.
