(* ===== verification/ParamField.v ===== *)
(** * Parameter values as bits of a segment image ([bussard-prod/src/image.rs])

    Placing an encoded parameter value into a segment image, MSB-first and across
    octet boundaries, and reading fields back; and the encoding of integers into
    placements. *)

From S2P Require Import Prelude Decimal.

Local Open Scope string_scope.
Local Open Scope list_scope.
Local Open Scope Z_scope.

(** ** Placements *)

Inductive Placement : Type :=
| PBytes (octets : bytes)
| PFloat (octets : bytes)
| PField (bits : u32) (value : u64)
| PEmpty.

#[export] Instance Placement_eq_dec : EqDecision Placement.
Proof. solve_decision. Defined.

Inductive ValueSource : Type := VendorDefault | UserOverride | Computed.

(** The reasons for which a parameter is refused ([ProdError::ParameterImage],
    without its texts). *)
Inductive ParamError : Type :=
| NotAnInteger
| BelowMinimum (n lo : Z)
| AboveMaximum (n hi : Z)
| ComputedOutOfRange (n : Z)
| UnalignedWidth (bits : Z)
| NegativeUnsigned (n bits : Z)
| NotInSignedBits (n bits : Z)
| NotInUnsignedBits (n bits : Z)
| PastTheSegment (end_ : Z)
| NotAMember (n : Z)
| NoSuchLabel
| AmbiguousLabel
| NotADuration
| DayOrMore (secs : Z)
| NotAnAddress
| NoWidth
| NotEncodable
| MissingOffset
| NoSegment
| NoArgumentValue
| OutOfRangeAddress
| NoInstanceSelector
| NoInstanceBase
| OffsetOverflow
| UnknownParameter
| InvalidKey
| OversizedSegment
| OversizedPayload
| CalculationTriggered.

#[export] Instance ParamError_eq_dec : EqDecision ParamError.
Proof. solve_decision. Defined.

(** [image.resize(n, 0)] where the image is shorter. *)
Definition grow (image : bytes) (n : Z) : bytes := image ++ replicate (Z.to_nat n - length image) 0.

(** One bit of the image, counted from the high bit of the first octet: cleared,
    then set. *)
Definition put_bit (image : bytes) (pos : Z) (bit_val : Z) : bytes :=
  let byte := Z.to_nat (pos / 8) in
  let shift := 7 - pos mod 8 in
  let cleared := Z.land (nth byte image 0) (Z.lxor 255 (Z.shiftl 1 shift)) in
  <[byte := Z.lor cleared (Z.shiftl bit_val shift)]> image.

Definition div_ceil_8 (n : Z) : Z := (n + 7) / 8.

Definition place (image : bytes) (offset bit_offset : Z) (p : Placement) : bytes :=
  match p with
  | PEmpty => image
  | PBytes octets | PFloat octets =>
      let end_ := offset + zlen octets in
      let image := grow image end_ in
      take (Z.to_nat offset) image ++ octets ++ drop (Z.to_nat end_) image
  | PField bits value =>
      let start := offset * 8 + bit_offset in
      let image := grow image (div_ceil_8 (start + bits)) in
      foldl (fun image i => put_bit image (start + i) (Z.land (Z.shiftr value (bits - 1 - i)) 1))
        image (seqZ 0 bits)
  end.

(** An enumeration member's [BinaryValue] octets in a field. *)
Definition binary_value_placement (bits : u32) (octets : bytes) : Placement :=
  if bits mod 8 =? 0 then
    let n := Z.to_nat (bits / 8) in
    PBytes (take n octets ++ replicate (n - length octets) 0)
  else
    let value := foldl (fun acc b => Z.lor (Z.shiftl acc 8 mod 18446744073709551616) b) 0 (take 8 octets) in
    let mask := if 64 <=? bits then u64_max else Z.shiftl 1 bits - 1 in
    PField bits (Z.land value mask).

(** [parameters_little_endian] of the program is the first argument. *)
Definition little_endian_field (parameters_little_endian : bool) (bit_offset : Z) (p : Placement)
    : option Placement :=
  match p with
  | PField bits value =>
      if parameters_little_endian && (bit_offset =? 0) && (8 <? bits) && (bits mod 8 =? 0)
      then Some (PBytes (rev (be_bytes (Z.to_nat (bits / 8)) value))) else None
  | PFloat octets => if parameters_little_endian then Some (PBytes (rev octets)) else None
  | _ => None
  end.

Definition MAX_SEGMENT_IMAGE : Z := 1048576.

(** The exclusive end, in octets, of what a placement writes. *)
Definition placement_end (offset bit_offset : Z) (p : Placement) : Z :=
  match p with
  | PEmpty => offset
  | PBytes octets | PFloat octets => u64_saturating_add offset (zlen octets)
  | PField bits _ =>
      let start_bit := u64_saturating_add (Z.min (offset * 8) u64_max) bit_offset in
      div_ceil_8 (u64_saturating_add start_bit bits)
  end.

Definition image_limit (seg_size : option u32) : Z :=
  match seg_size with Some sz => Z.min sz MAX_SEGMENT_IMAGE | None => MAX_SEGMENT_IMAGE end.

(** The image after, and the octets written, as first and end. *)
Definition place_checked (le : bool) (image : bytes) (offset bit_offset : Z) (p : Placement)
    (seg_size : option u32) : result ParamError (bytes * (Z * Z)) :=
  let p := default p (little_endian_field le bit_offset p) in
  let end_ := placement_end offset bit_offset p in
  if image_limit seg_size <? end_ then Err (PastTheSegment end_)
  else
    let first := match p with PField _ _ => offset + bit_offset / 8 | _ => offset end in
    Ok (place image offset bit_offset p, (first, Z.max end_ first)).

(** ** Reading back *)

Definition image_bit (image : bytes) (pos : Z) : bool :=
  Z.testbit (nth (Z.to_nat (pos / 8)) image 0) (7 - pos mod 8).

Definition USIZE_MAX : Z := u64_max.

Definition read_field (image : bytes) (offset bit_offset : Z) (bits : u32) : option u64 :=
  if (bits =? 0) || (64 <? bits) then None
  else
    let start := offset * 8 + bit_offset in
    let end_ := start + bits in
    if (USIZE_MAX <? end_) || (zlen image <? div_ceil_8 end_) then None
    else
      Some (foldl (fun acc pos =>
              Z.lor (Z.shiftl acc 1 mod 18446744073709551616)
                (Z.land (Z.shiftr (nth (Z.to_nat (pos / 8)) image 0) (7 - pos mod 8)) 1))
              0 (seqZ start bits)).

(** [image.get(offset..offset + len)]. *)
Definition get_range (image : bytes) (offset len : Z) : option bytes :=
  if offset + len <=? zlen image then Some (take (Z.to_nat len) (drop (Z.to_nat offset) image)) else None.

Definition read_int_field (image : bytes) (offset bit_offset : Z) (bits : u32) (little_endian : bool)
    : option u64 :=
  if little_endian && (bit_offset =? 0) && (8 <? bits) && (bits <=? 64) && (bits mod 8 =? 0) then
    held ← get_range image offset (bits / 8);
    Some (be_val (rev held))
  else read_field image offset bit_offset bits.

Definition field_matches (image : bytes) (offset bit_offset : Z) (p : Placement) : bool :=
  match p with
  | PEmpty => true
  | PBytes octets | PFloat octets => bool_decide (get_range image offset (zlen octets) = Some octets)
  | PField bits value => bool_decide (read_field image offset bit_offset bits = Some value)
  end.

(** [raw as i64] and the two's complement of narrower fields. *)
Definition as_i64 (raw : u64) : Z := if raw <? 9223372036854775808 then raw else raw - 18446744073709551616.

Definition sign_extend (raw : u64) (bits : u32) : Z :=
  if 64 <=? bits then as_i64 raw
  else if negb (Z.land raw (Z.shiftl 1 (bits - 1)) =? 0) then raw - Z.shiftl 1 bits
  else raw.

Definition decode_wide_int (octets : bytes) (bits : u32) (signed : bool) : option Z :=
  if negb (bits mod 8 =? 0) || (length octets <? 8)%nat then None
  else
    let head := take (length octets - 8) octets in
    let tail := drop (length octets - 8) octets in
    let n := as_i64 (be_val tail) in
    let fill := if n <? 0 then 255 else 0 in
    if forallb (fun b => b =? fill) head && (signed || (0 <=? n)) then Some n else None.

(** ** Integers *)

(** [n.to_be_bytes()] of an [i64]. *)
Definition i64_be_bytes (n : Z) : bytes := be_bytes 8 (n mod 18446744073709551616).

Definition encode_int_bits (bits : u32) (signed : bool) (n : Z) : result ParamError Placement :=
  if bits =? 0 then Ok PEmpty
  else if 64 <? bits then
    if negb (bits mod 8 =? 0) then Err (UnalignedWidth bits)
    else if negb signed && (n <? 0) then Err (NegativeUnsigned n bits)
    else
      let fill := if n <? 0 then 255 else 0 in
      Ok (PBytes (replicate (Z.to_nat (bits / 8) - 8) fill ++ i64_be_bytes n))
  else if signed then
    let lo := - Z.shiftl 1 (bits - 1) in
    let hi := Z.shiftl 1 (bits - 1) - 1 in
    if (n <? lo) || (hi <? n) then Err (NotInSignedBits n bits)
    else Ok (PField bits (Z.land n (Z.shiftl 1 bits - 1)))
  else if n <? 0 then Err (NegativeUnsigned n bits)
  else
    let max := if 64 <=? bits then u64_max else Z.shiftl 1 bits - 1 in
    if max <? n then Err (NotInUnsignedBits n bits) else Ok (PField bits n).

(** [encode_int] on the number parsed. *)
Definition encode_int (size_bits : option u32) (signed : bool) (min max : option Z) (n : Z)
    (source : ValueSource) : result ParamError Placement :=
  let out_of_range :=
    match min, max with
    | Some lo, _ => if n <? lo then Some (BelowMinimum n lo)
                    else match max with
                         | Some hi => if hi <? n then Some (AboveMaximum n hi) else None
                         | None => None
                         end
    | None, Some hi => if hi <? n then Some (AboveMaximum n hi) else None
    | None, None => None
    end in
  match out_of_range, source with
  | Some why, UserOverride => Err why
  | Some _, Computed => Err (ComputedOutOfRange n)
  | _, _ => encode_int_bits (default 8 size_bits) signed n
  end.

(** [decode_value]'s integers, before they are written out in decimal. *)
Definition decode_int (size_bits : option u32) (signed : bool) (image : bytes) (offset bit_offset : Z)
    (little_endian : bool) : option Z :=
  let bits := default 8 size_bits in
  if 64 <? bits then
    octets ← get_range image offset (bits / 8);
    decode_wide_int octets bits signed
  else
    raw ← read_int_field image offset bit_offset bits little_endian;
    Some (if signed then sign_extend raw bits else raw).

(** ** Lemmas: single bits *)

Definition octet_at (image : bytes) (pos : Z) : u8 := nth (Z.to_nat (pos / 8)) image 0.

Lemma octet_at_ok image pos : bytes_ok image -> is_u8 (octet_at image pos).
Proof.
  intros H. unfold octet_at. destruct (nth_in_or_default (Z.to_nat (pos / 8)) image 0) as [Hin|E].
  - unfold bytes_ok in H. rewrite List.Forall_forall in H. by apply H.
  - rewrite E. unfold is_u8. lia.
Qed.

(** The octet with one bit replaced. *)
Lemma put_bit_octet old shift b k : is_u8 old -> 0 <= shift < 8 -> 0 <= k < 8 ->
  Z.testbit (Z.lor (Z.land old (Z.lxor 255 (Z.shiftl 1 shift))) (Z.shiftl (Z.b2z b) shift)) k
  = if k =? shift then b else Z.testbit old k.
Proof.
  intros Hold Hs Hk. rewrite Z.lor_spec, Z.land_spec, Z.lxor_spec, !Z.shiftl_spec by lia.
  change 255 with (Z.ones 8). rewrite Z.ones_spec_low by lia.
  assert (Hbit : forall c, Z.testbit (Z.b2z c) (k - shift) = if k =? shift then c else false).
  { intros c. destruct (Z.eqb_spec k shift) as [->|Hne]; [rewrite Z.sub_diag; by destruct c|].
    destruct (Z.lt_total (k - shift) 0) as [Hl|[Hl|Hl]]; [by apply Z.testbit_neg_r|lia|].
    destruct c; [|by apply Z.testbit_0_l]. apply (Z.bits_above_log2 1); cbn; lia. }
  pose proof (Hbit true) as H1. change (Z.b2z true) with 1 in H1. rewrite H1, Hbit.
  destruct (k =? shift); cbn [xorb]; [by rewrite andb_false_r|]. by rewrite andb_true_r, orb_false_r.
Qed.

Lemma put_bit_octet_ok old shift b : is_u8 old -> 0 <= shift < 8 ->
  is_u8 (Z.lor (Z.land old (Z.lxor 255 (Z.shiftl 1 shift))) (Z.shiftl (Z.b2z b) shift)).
Proof.
  intros Hold Hs. revert old Hold.
  assert (Hshift : Forall (fun shift => forall b, all_below 256 (fun old => bool_decide
      (0 <= Z.lor (Z.land old (Z.lxor 255 (Z.shiftl 1 shift))) (Z.shiftl (Z.b2z b) shift) < 256)) = true)
    (seqZ 0 8)).
  { repeat (apply Forall_cons_2; [intros []; vm_compute; reflexivity|]). apply Forall_nil_2. }
  rewrite Forall_forall in Hshift. specialize (Hshift shift). rewrite elem_of_seqZ in Hshift.
  refine (u8_decide (fun old => 0 <= Z.lor (Z.land old (Z.lxor 255 (Z.shiftl 1 shift))) (Z.shiftl (Z.b2z b) shift) < 256) _).
  apply Hshift. lia.
Qed.

Lemma shifted_bit value k : 0 <= k -> Z.land (Z.shiftr value k) 1 = Z.b2z (Z.testbit value k).
Proof.
  intros Hk. rewrite (land_mask 1 1) by done. rewrite <- Z.bit0_mod, Z.shiftr_spec, Z.add_0_l by lia. done.
Qed.

Lemma put_bit_get image pos b k : bytes_ok image -> 0 <= pos < 8 * zlen image -> 0 <= k ->
  image_bit (put_bit image pos (Z.b2z b)) k = if k =? pos then b else image_bit image k.
Proof.
  intros Hi Hp Hk. unfold image_bit, put_bit, zlen in *.
  assert (Hq : 0 <= pos / 8 < Z.of_nat (length image)) by (split; [apply Z.div_pos|apply Z.div_lt_upper_bound]; lia).
  pose proof (Z.mod_pos_bound pos 8 ltac:(lia)). pose proof (Z.mod_pos_bound k 8 ltac:(lia)).
  pose proof (Z.div_mod pos 8 ltac:(lia)). pose proof (Z.div_mod k 8 ltac:(lia)).
  set (new := Z.lor _ _).
  destruct (Z.eq_dec (k / 8) (pos / 8)) as [E|Hne].
  - rewrite E, nth_lookup, list_lookup_insert_eq by lia. cbn [default option_rect from_option id].
    unfold new. rewrite put_bit_octet by (lia || by apply octet_at_ok).
    destruct (Z.eqb_spec k pos) as [->|]; [by rewrite Z.eqb_refl|].
    rewrite (proj2 (Z.eqb_neq _ _)) by lia. done.
  - rewrite nth_lookup, list_lookup_insert_ne by (assert (0 <= k / 8) by (apply Z.div_pos; lia); lia).
    rewrite <- nth_lookup. rewrite (proj2 (Z.eqb_neq k pos)); [done|]. intros ->. done.
Qed.

Lemma put_bit_length image pos b : length (put_bit image pos b) = length image.
Proof. apply length_insert. Qed.

Lemma put_bit_ok image pos b : bytes_ok image -> bytes_ok (put_bit image pos (Z.b2z b)).
Proof.
  intros H. unfold put_bit. apply Forall_insert; [done|].
  apply put_bit_octet_ok; [by apply octet_at_ok|]. pose proof (Z.mod_pos_bound pos 8 ltac:(lia)). lia.
Qed.

(** An image is its bits. *)
Lemma image_ext image image' : bytes_ok image -> bytes_ok image' -> length image = length image' ->
  (forall pos, 0 <= pos -> image_bit image pos = image_bit image' pos) -> image = image'.
Proof.
  intros H H' Hl E. apply (nth_ext _ _ 0 0 Hl). intros n Hn. apply Z.bits_inj'. intros k Hk.
  assert (Ho : forall l, bytes_ok l -> is_u8 (nth n l 0)).
  { intros l Hlok. pose proof (octet_at_ok l (Z.of_nat n * 8) Hlok) as Ho. unfold octet_at in Ho.
    by rewrite Z.div_mul, Nat2Z.id in Ho by lia. }
  destruct (Z.lt_ge_cases k 8) as [Hk8|Hk8].
  - specialize (E (8 * Z.of_nat n + (7 - k)) ltac:(lia)). unfold image_bit in E.
    replace (8 * Z.of_nat n + (7 - k)) with ((7 - k) + Z.of_nat n * 8) in E by lia.
    rewrite Z.div_add, Z.mod_add, (Z.div_small (7 - k)), (Z.mod_small (7 - k)), Z.add_0_l, Nat2Z.id in E by lia.
    by replace (7 - (7 - k)) with k in E by lia.
  - assert (Hh : forall l, bytes_ok l -> Z.testbit (nth n l 0) k = false); [|by rewrite !Hh].
    intros l Hlok. destruct (Ho l Hlok) as [H0 H1]. destruct (Z.eq_dec (nth n l 0) 0) as [->|]; [apply Z.testbit_0_l|].
    apply Z.bits_above_log2; [done|]. apply Z.log2_lt_pow2; [lia|].
    apply (Z.lt_le_trans _ (2 ^ 8)); [exact H1|]. apply Z.pow_le_mono_r; lia.
Qed.

(** ** Lemmas: placements *)

Lemma grow_length image n : 0 <= n -> zlen (grow image n) = Z.max (zlen image) n.
Proof. intros Hn. unfold grow, zlen. rewrite length_app, length_replicate. lia. Qed.

Lemma grow_bit image n pos : image_bit (grow image n) pos = image_bit image pos.
Proof.
  unfold image_bit, grow. f_equal. set (i := Z.to_nat (pos / 8)).
  destruct (Nat.lt_ge_cases i (length image)) as [Hl|Hl].
  - by rewrite app_nth1.
  - rewrite app_nth2 by done. rewrite (nth_overflow image) by done.
    destruct (nth_in_or_default (i - length image) (replicate (Z.to_nat n - length image) 0) 0) as [Hin| ->]; [|done].
    apply list_elem_of_In, elem_of_replicate in Hin. by destruct Hin as [-> _].
Qed.

Lemma grow_ok image n : bytes_ok image -> bytes_ok (grow image n).
Proof.
  intros H. apply bytes_ok_app. split; [done|]. apply Forall_replicate. unfold is_u8. lia.
Qed.

(** The first bit of a placement, and how many it has. *)
Definition span_start (offset bit_offset : Z) (p : Placement) : Z :=
  match p with PField _ _ => offset * 8 + bit_offset | _ => offset * 8 end.

Definition span_len (p : Placement) : Z :=
  match p with
  | PEmpty => 0
  | PBytes octets | PFloat octets => 8 * zlen octets
  | PField bits _ => bits
  end.

Definition payload_bit (p : Placement) (i : Z) : bool :=
  match p with
  | PEmpty => false
  | PBytes octets | PFloat octets => image_bit octets i
  | PField bits value => Z.testbit value (bits - 1 - i)
  end.

Definition placement_ok (p : Placement) : Prop :=
  match p with
  | PEmpty => True
  | PBytes octets | PFloat octets => bytes_ok octets
  | PField bits value => 1 <= bits <= 64 /\ 0 <= value < 2 ^ bits
  end.

(** What a placement makes the image at least. *)
Definition span_octets (offset bit_offset : Z) (p : Placement) : Z :=
  match p with PEmpty => 0 | _ => div_ceil_8 (span_start offset bit_offset p + span_len p) end.

Lemma div_ceil_8_spec n : n <= 8 * div_ceil_8 n < n + 8.
Proof. unfold div_ceil_8. pose proof (Z.div_mod (n + 7) 8 ltac:(lia)). pose proof (Z.mod_pos_bound (n + 7) 8 ltac:(lia)). lia. Qed.

Lemma put_bits image start n f : bytes_ok image -> 0 <= start -> 0 <= n -> start + n <= 8 * zlen image ->
  let image' := foldl (fun image i => put_bit image (start + i) (Z.b2z (f i))) image (seqZ 0 n) in
  bytes_ok image' /\ length image' = length image /\
  forall k, 0 <= k -> image_bit image' k = if (start <=? k) && (k <? start + n) then f (k - start) else image_bit image k.
Proof.
  intros Hi Hs Hn Hl. cbv zeta. revert n Hn Hl. refine (natlike_ind _ _ _).
  - intros _. split; [done|]. split; [done|]. intros k Hk. cbn [seqZ foldl].
    rewrite Z.add_0_r. by destruct (Z.leb_spec start k), (Z.ltb_spec k start); try lia.
  - intros n Hn IH Hl. destruct (IH ltac:(lia)) as (H1 & H2 & H3).
    rewrite <- Z.add_1_r, seqZ_app, foldl_app by lia. set (image' := foldl _ image _) in *.
    change (seqZ (0 + n) 1) with [0 + n]. cbn [foldl]. rewrite Z.add_0_l.
    split; [by apply put_bit_ok|]. split; [by rewrite put_bit_length|]. intros k Hk.
    rewrite put_bit_get by (done || unfold zlen in *; lia). destruct (Z.eqb_spec k (start + n)) as [->|Hne].
    + rewrite (proj2 (Z.leb_le _ _)), (proj2 (Z.ltb_lt _ _)) by lia. cbn [andb]. f_equal. lia.
    + rewrite H3 by done. destruct (Z.leb_spec start k), (Z.ltb_spec k (start + n)), (Z.ltb_spec k (start + (n + 1)));
        try lia; done.
Qed.

Lemma splice_bit (a octets c : bytes) pos : 0 <= pos ->
  image_bit (a ++ octets ++ c) pos
  = if (8 * zlen a <=? pos) && (pos <? 8 * (zlen a + zlen octets)) then image_bit octets (pos - 8 * zlen a)
    else if pos <? 8 * zlen a then image_bit a pos else image_bit c (pos - 8 * (zlen a + zlen octets)).
Proof.
  intros Hp. unfold image_bit, zlen. set (la := Z.of_nat (length a)). set (lo := Z.of_nat (length octets)).
  assert (Hd : forall k, 0 <= k -> (pos - 8 * k) / 8 = pos / 8 - k /\ (pos - 8 * k) mod 8 = pos mod 8).
  { intros k Hk. replace (pos - 8 * k) with (pos + (- k) * 8) by lia.
    rewrite Z.div_add, Z.mod_add by lia. lia. }
  pose proof (Z.div_mod pos 8 ltac:(lia)). pose proof (Z.mod_pos_bound pos 8 ltac:(lia)).
  assert (0 <= pos / 8) by (apply Z.div_pos; lia).
  destruct (Z.ltb_spec pos (8 * la)).
  - rewrite (proj2 (Z.leb_gt _ _)) by lia. cbn [andb]. by rewrite app_nth1 by lia.
  - rewrite (proj2 (Z.leb_le _ _)) by lia. rewrite app_nth2 by lia. cbn [andb].
    destruct (Z.ltb_spec pos (8 * (la + lo))).
    + destruct (Hd la ltac:(lia)) as [-> ->]. rewrite app_nth1 by lia. f_equal. f_equal. lia.
    + destruct (Hd (la + lo) ltac:(lia)) as [-> ->]. rewrite app_nth2 by lia. f_equal. f_equal. lia.
Qed.

(** Placing a value: the bits of its span are the value's, and all others are
    as before; the image is only grown as far as the span. *)
Lemma place_spec image offset bit_offset p : bytes_ok image -> placement_ok p -> 0 <= offset -> 0 <= bit_offset ->
  let image' := place image offset bit_offset p in
  let start := span_start offset bit_offset p in
  bytes_ok image' /\ zlen image' = Z.max (zlen image) (span_octets offset bit_offset p) /\
  forall k, 0 <= k -> image_bit image' k
    = if (start <=? k) && (k <? start + span_len p) then payload_bit p (k - start) else image_bit image k.
Proof.
  intros Hi Hp Ho Hb. cbv zeta.
  assert (Hoct : forall octets, bytes_ok octets ->
    let image' := take (Z.to_nat offset) (grow image (offset + zlen octets)) ++ octets
                  ++ drop (Z.to_nat (offset + zlen octets)) (grow image (offset + zlen octets)) in
    bytes_ok image' /\ zlen image' = Z.max (zlen image) (div_ceil_8 (offset * 8 + 8 * zlen octets)) /\
    forall k, 0 <= k -> image_bit image' k
      = if (offset * 8 <=? k) && (k <? offset * 8 + 8 * zlen octets) then image_bit octets (k - offset * 8)
        else image_bit image k).
  { intros octets Hok. cbv zeta. assert (He : div_ceil_8 (offset * 8 + 8 * zlen octets) = offset + zlen octets).
    { pose proof (div_ceil_8_spec (offset * 8 + 8 * zlen octets)). lia. }
    assert (Hz : 0 <= zlen octets) by (unfold zlen; lia).
    pose proof (grow_length image (offset + zlen octets) ltac:(lia)) as Hg.
    pose proof (grow_ok image (offset + zlen octets) Hi) as Hgok.
    set (g := grow image (offset + zlen octets)) in *.
    assert (Ht : zlen (take (Z.to_nat offset) g) = offset) by (unfold zlen in *; rewrite length_take; lia).
    split; [|split].
    - apply bytes_ok_app. split; [by apply bytes_ok_take|]. apply bytes_ok_app. split; [done|by apply bytes_ok_drop].
    - rewrite He. unfold zlen in *. rewrite !length_app, length_drop. lia.
    - intros k Hk. rewrite splice_bit, Ht by done. rewrite (Z.mul_comm 8 offset), Z.mul_add_distr_l, (Z.mul_comm 8 offset).
      destruct (_ && _)%bool eqn:E; [done|]. rewrite <- (grow_bit image (offset + zlen octets) k). fold g.
      assert (Hq : 0 <= k / 8) by (apply Z.div_pos; lia). pose proof (Z.div_mod k 8 ltac:(lia)).
      pose proof (Z.mod_pos_bound k 8 ltac:(lia)). unfold image_bit.
      destruct (Z.ltb_spec k (offset * 8)).
      + f_equal. rewrite nth_lookup, lookup_take_lt by lia. by rewrite <- nth_lookup.
      + replace (k - (offset * 8 + 8 * zlen octets)) with (k + (- (offset + zlen octets)) * 8) by lia.
        rewrite Z.div_add, Z.mod_add by lia. f_equal. rewrite nth_lookup, lookup_drop.
        destruct (Z.ltb_spec k (offset * 8 + 8 * zlen octets)); [rewrite (proj2 (Z.leb_le _ _)) in E by lia; done|].
        rewrite <- nth_lookup. f_equal. lia. }
  destruct p as [octets|octets|bits value|]; cbn [place span_start span_len span_octets payload_bit placement_ok] in *.
  - by apply Hoct.
  - by apply Hoct.
  - destruct Hp as [Hbits Hv]. set (start := offset * 8 + bit_offset).
    pose proof (div_ceil_8_spec (start + bits)) as Hc.
    pose proof (grow_length image (div_ceil_8 (start + bits)) ltac:(lia)) as Hg.
    pose proof (put_bits (grow image (div_ceil_8 (start + bits))) start bits (fun i => Z.testbit value (bits - 1 - i))
      (grow_ok _ _ Hi) ltac:(lia) ltac:(lia) ltac:(lia)) as (H1 & H2 & H3).
    assert (E : foldl (fun image i => put_bit image (start + i) (Z.land (Z.shiftr value (bits - 1 - i)) 1))
        (grow image (div_ceil_8 (start + bits))) (seqZ 0 bits)
      = foldl (fun image i => put_bit image (start + i) (Z.b2z (Z.testbit value (bits - 1 - i))))
        (grow image (div_ceil_8 (start + bits))) (seqZ 0 bits)).
    { assert (Hall : Forall (fun i => 0 <= i < bits) (seqZ 0 bits)).
      { apply Forall_forall. intros i. rewrite elem_of_seqZ. lia. }
      revert Hall. generalize (grow image (div_ceil_8 (start + bits))). generalize (seqZ 0 bits).
      induction l as [|i l IH]; intros g Hall; [done|]. apply Forall_cons_1 in Hall as [Hr Hall].
      cbn [foldl]. rewrite shifted_bit by lia. by apply IH. }
    rewrite E. split; [exact H1|]. split; [|].
    + unfold zlen in *. rewrite H2. lia.
    + intros k Hk. rewrite H3, grow_bit by done. done.
  - split; [done|]. split; [unfold zlen; lia|]. intros k Hk.
    by destruct (Z.leb_spec (offset * 8) k), (Z.ltb_spec k (offset * 8 + 0)); try lia.
Qed.

(** ** Lemmas: reading *)

(** The number spelled by bits, the first the highest. *)
Definition bits_val (f : Z -> bool) (n : Z) : Z :=
  foldl (fun acc i => acc * 2 + Z.b2z (f i)) 0 (seqZ 0 n).

Lemma bits_val_succ f n : 0 <= n -> bits_val f (n + 1) = bits_val f n * 2 + Z.b2z (f n).
Proof. intros Hn. unfold bits_val. rewrite seqZ_app, foldl_app by lia. by rewrite Z.add_0_l. Qed.

Lemma bits_val_bound f n : 0 <= n -> 0 <= bits_val f n < 2 ^ n.
Proof.
  revert n. refine (natlike_ind _ _ _); [done|]. intros n Hn IH. rewrite <- Z.add_1_r, bits_val_succ by done.
  rewrite Z.pow_add_r by lia. destruct (f n); cbn [Z.b2z]; lia.
Qed.

(** The bits are those of the number. *)
Lemma bits_val_testbit value n : 0 <= n -> bits_val (fun i => Z.testbit value (n - 1 - i)) n = value mod 2 ^ n.
Proof.
  intros Hn.
  assert (H : forall m, 0 <= m -> m <= n ->
    bits_val (fun i => Z.testbit value (n - 1 - i)) m = (value / 2 ^ (n - m)) mod 2 ^ m).
  { refine (natlike_ind _ _ _).
    - intros _. by rewrite Z.mod_1_r.
    - intros m Hm IH Hl. rewrite <- Z.add_1_r, bits_val_succ, IH by lia.
      replace (n - 1 - m) with (n - (m + 1)) by lia. set (v := value / 2 ^ (n - (m + 1))).
      assert (Ev : value / 2 ^ (n - m) = v / 2).
      { unfold v. rewrite Z.div_div by lia. f_equal. replace (n - m) with (n - (m + 1) + 1) by lia.
        rewrite Z.pow_add_r by lia. done. }
      assert (Et : Z.testbit value (n - (m + 1)) = Z.odd v).
      { rewrite Z.testbit_odd, Z.shiftr_div_pow2 by lia. done. }
      rewrite Ev, Et. replace (m + 1) with (1 + m) by lia. rewrite Z.pow_add_r by lia. change (2 ^ 1) with 2.
      assert (0 < 2 ^ m) by (apply Z.pow_pos_nonneg; lia).
      rewrite Z.rem_mul_r by lia. rewrite Zmod_odd. destruct (Z.odd v); cbn [Z.b2z]; lia. }
  rewrite H by lia. by rewrite Z.sub_diag, Z.div_1_r.
Qed.

Lemma bits_val_ext f g n : (forall i, 0 <= i < n -> f i = g i) -> bits_val f n = bits_val g n.
Proof.
  intros E. unfold bits_val.
  assert (H : forall l acc, Forall (fun i => 0 <= i < n) l ->
    foldl (fun acc i => acc * 2 + Z.b2z (f i)) acc l = foldl (fun acc i => acc * 2 + Z.b2z (g i)) acc l).
  { induction l as [|i l IH]; intros acc Hall; [done|]. apply Forall_cons_1 in Hall as [Hi Hall].
    cbn [foldl]. rewrite E by done. by apply IH. }
  apply H, Forall_forall. intros i. rewrite elem_of_seqZ. lia.
Qed.

Lemma read_field_eq image offset bit_offset bits : bytes_ok image -> 0 <= offset -> 0 <= bit_offset ->
  1 <= bits <= 64 ->
  let start := offset * 8 + bit_offset in
  read_field image offset bit_offset bits
  = if (USIZE_MAX <? start + bits) || (zlen image <? div_ceil_8 (start + bits)) then None
    else Some (bits_val (fun i => image_bit image (start + i)) bits).
Proof.
  intros Hi Ho Hb Hbits. cbv zeta. unfold read_field. rewrite (proj2 (Z.eqb_neq _ _)), (proj2 (Z.ltb_ge 64 _)) by lia.
  cbn [orb]. destruct (_ || _)%bool eqn:Eo; [done|]. f_equal. set (start := offset * 8 + bit_offset).
  assert (Hz : forall n, 0 <= n -> n <= 64 ->
    foldl (fun acc pos => Z.lor (Z.shiftl acc 1 mod 18446744073709551616)
       (Z.land (Z.shiftr (nth (Z.to_nat (pos / 8)) image 0) (7 - pos mod 8)) 1)) 0 (seqZ start n)
    = bits_val (fun i => image_bit image (start + i)) n).
  { refine (natlike_ind _ _ _); [done|]. intros n Hn IH Hl.
    rewrite <- Z.add_1_r, bits_val_succ, seqZ_app, foldl_app, IH by lia. change (seqZ (start + n) 1) with [start + n].
    cbn [foldl]. pose proof (Z.mod_pos_bound (start + n) 8 ltac:(lia)).
    rewrite shifted_bit by lia. fold (image_bit image (start + n)).
    pose proof (bits_val_bound (fun i => image_bit image (start + i)) n Hn) as Hv.
    assert (2 ^ n <= 2 ^ 63) by (apply Z.pow_le_mono_r; lia).
    rewrite Z.mod_small by (rewrite Z.shiftl_mul_pow2 by lia; change (2 ^ 1) with 2; change (2 ^ 63) with 9223372036854775808 in *; lia).
    rewrite lor_shiftl_add by (lia || destruct (image_bit _ _); cbn; lia). done. }
  apply Hz; lia.
Qed.

(** The value of a field is read back where it was placed. *)
Lemma read_place image offset bit_offset bits value : bytes_ok image -> 0 <= offset -> 0 <= bit_offset ->
  1 <= bits <= 64 -> 0 <= value < 2 ^ bits -> offset * 8 + bit_offset + bits <= USIZE_MAX ->
  read_field (place image offset bit_offset (PField bits value)) offset bit_offset bits = Some value.
Proof.
  intros Hi Ho Hb Hbits Hv Hu.
  destruct (place_spec image offset bit_offset (PField bits value) Hi ltac:(cbn; lia) Ho Hb) as (H1 & H2 & H3).
  rewrite read_field_eq by done. cbn [span_octets span_start span_len payload_bit] in *.
  rewrite (proj2 (Z.ltb_ge USIZE_MAX _)), (proj2 (Z.ltb_ge (zlen _) _)) by lia. cbn [orb]. f_equal.
  assert (Ev : bits_val (fun i => Z.testbit value (bits - 1 - i)) bits = value)
    by (rewrite bits_val_testbit, Z.mod_small; lia).
  etransitivity; [|exact Ev]. apply bits_val_ext. intros i Hir. rewrite H3 by lia. rewrite (proj2 (Z.leb_le _ _)), (proj2 (Z.ltb_lt _ _)) by lia. cbn [andb]. f_equal. lia.
Qed.

Lemma bits_val_get f n i : 0 <= i < n -> Z.testbit (bits_val f n) (n - 1 - i) = f i.
Proof.
  intros Hi. assert (Hn : 0 <= n) by lia. revert n Hn i Hi. refine (natlike_ind _ _ _); [lia|].
  intros n Hn IH i Hi. rewrite <- Z.add_1_r, bits_val_succ by done.
  assert (Ed : bits_val f n * 2 + Z.b2z (f n) = 2 * bits_val f n + Z.b2z (f n)) by lia. rewrite Ed.
  destruct (Z.eq_dec i n) as [->|Hne].
  - replace (n + 1 - 1 - n) with 0 by lia. apply Z.testbit_0_r.
  - replace (n + 1 - 1 - i) with (Z.succ (n - 1 - i)) by lia.
    rewrite Z.testbit_succ_r by lia. apply IH. lia.
Qed.

Lemma get_range_spec image offset len held : 0 <= offset -> 0 <= len ->
  get_range image offset len = Some held <->
  offset + len <= zlen image /\ image = take (Z.to_nat offset) image ++ held ++ drop (Z.to_nat (offset + len)) image
    /\ zlen held = len.
Proof.
  intros Ho Hl. unfold get_range, zlen. destruct (Z.leb_spec (offset + len) (Z.of_nat (length image))).
  - split.
    + intros [= <-]. split; [done|]. split; [|rewrite length_take, length_drop; lia].
      rewrite <- (take_drop (Z.to_nat offset) image) at 1. f_equal.
      rewrite <- (take_drop (Z.to_nat len) (drop _ image)) at 1. f_equal. rewrite drop_drop. f_equal. lia.
    + intros (_ & E & Hh). f_equal. rewrite E at 1. rewrite drop_app_length' by (rewrite length_take; lia).
      apply take_app_length'. lia.
  - split; [done|]. lia.
Qed.

Lemma get_place_octets image offset octets : 0 <= offset ->
  get_range (place image offset 0 (PBytes octets)) offset (zlen octets) = Some octets.
Proof.
  intros Ho. cbn [place]. assert (Hz : 0 <= zlen octets) by (unfold zlen; lia).
  pose proof (grow_length image (offset + zlen octets) ltac:(lia)) as Hg. set (g := grow _ _) in *.
  unfold get_range, zlen in *. rewrite !length_app, length_take, length_drop.
  rewrite (proj2 (Z.leb_le _ _)) by lia. f_equal.
  rewrite drop_app_length' by (rewrite length_take; lia). apply take_app_length'. lia.
Qed.

(** ** Theorems *)

(** Parameters that share no bit can be placed in any order. *)
Theorem disjoint_placements_commute image o1 b1 p1 o2 b2 p2
    (Hi : bytes_ok image) (H1 : placement_ok p1) (H2 : placement_ok p2)
    (Ho1 : 0 <= o1) (Hb1 : 0 <= b1) (Ho2 : 0 <= o2) (Hb2 : 0 <= b2)
    (Hd : span_start o1 b1 p1 + span_len p1 <= span_start o2 b2 p2 \/
          span_start o2 b2 p2 + span_len p2 <= span_start o1 b1 p1) :
  place (place image o1 b1 p1) o2 b2 p2 = place (place image o2 b2 p2) o1 b1 p1.
Proof.
  destruct (place_spec image o1 b1 p1 Hi H1 Ho1 Hb1) as (K1 & L1 & B1).
  destruct (place_spec image o2 b2 p2 Hi H2 Ho2 Hb2) as (K2 & L2 & B2).
  destruct (place_spec _ o2 b2 p2 K1 H2 Ho2 Hb2) as (K12 & L12 & B12).
  destruct (place_spec _ o1 b1 p1 K2 H1 Ho1 Hb1) as (K21 & L21 & B21).
  apply image_ext; [done|done|unfold zlen in *; lia|]. intros pos Hp. rewrite B12, B21, B1, B2 by done.
  destruct (Z.leb_spec (span_start o1 b1 p1) pos), (Z.ltb_spec pos (span_start o1 b1 p1 + span_len p1)),
    (Z.leb_spec (span_start o2 b2 p2) pos), (Z.ltb_spec pos (span_start o2 b2 p2 + span_len p2)); cbn [andb]; lia || done.
Qed.

(** A value is recognised in an image exactly when placing it would leave the
    image as it is. *)
Theorem field_matches_iff_unchanged image offset bit_offset p
    (Hi : bytes_ok image) (Hp : placement_ok p) (Ho : 0 <= offset) (Hb : 0 <= bit_offset)
    (Hne : 0 < span_len p \/ p = PEmpty)
    (Hu : offset * 8 + bit_offset + span_len p <= USIZE_MAX) :
  field_matches image offset bit_offset p = true <-> place image offset bit_offset p = image.
Proof.
  assert (Hoct : forall octets, bool_decide (get_range image offset (zlen octets) = Some octets) = true <->
    place image offset bit_offset (PBytes octets) = image).
  { intros octets. rewrite bool_decide_eq_true. assert (Hz : 0 <= zlen octets) by (unfold zlen; lia). split.
    - intros (Hl & E & _)%get_range_spec; [|done|done]. cbn [place]. unfold grow.
      replace (Z.to_nat (offset + zlen octets) - length image)%nat with 0%nat by (unfold zlen in *; lia).
      cbn [replicate]. by rewrite app_nil_r.
    - intros E. rewrite <- E. exact (get_place_octets image offset octets Ho). }
  destruct p as [octets|octets|bits value|]; [apply Hoct|apply Hoct| |done].
  cbn [field_matches placement_ok span_len] in *. destruct Hne as [Hne|]; [|done]. rewrite bool_decide_eq_true.
  split; [|intros E; rewrite <- E; apply read_place; done || lia].
  intros E. rewrite read_field_eq in E by (done || lia).
  destruct (_ || _)%bool eqn:Eo; [done|]. apply orb_false_iff in Eo as [_ El]. apply Z.ltb_ge in El. injection E as E.
  destruct (place_spec image offset bit_offset (PField bits value) Hi Hp Ho Hb) as (K & L & B).
  apply image_ext; [done|done|unfold zlen in *; cbn [span_octets span_start span_len] in L; lia|].
  intros pos Hpos. rewrite B by done. destruct (_ && _)%bool eqn:Ein; [|done].
  cbn [span_start span_len payload_bit] in *. apply andb_true_iff in Ein as [H1 H2].
  apply Z.leb_le in H1. apply Z.ltb_lt in H2. rewrite <- E.
  rewrite (bits_val_get (fun i => image_bit image (offset * 8 + bit_offset + i))) by lia. f_equal. lia.
Qed.

(** ** Lemmas: checked placements and integers *)

Lemma little_endian_span le offset bit_offset p p' : placement_ok p -> 0 <= span_len p ->
  little_endian_field le bit_offset p = Some p' ->
  placement_ok p' /\ span_start offset bit_offset p' = span_start offset bit_offset p /\ span_len p' = span_len p.
Proof.
  intros Hp Hl E. destruct p as [octets|octets|bits value|]; cbn [little_endian_field] in E; [done| | |done].
  - destruct le; [|done]. injection E as <-. cbn. split; [by apply Forall_rev|].
    split; [done|]. unfold zlen. by rewrite length_rev.
  - destruct (_ && _)%bool eqn:Ec; [|done]. injection E as <-.
    apply andb_true_iff in Ec as [[[_ E1]%andb_true_iff E2]%andb_true_iff E3].
    apply Z.eqb_eq in E1 as ->. apply Z.ltb_lt in E2. apply Z.eqb_eq in E3.
    cbn [placement_ok span_start span_len]. split; [apply Forall_rev, be_bytes_ok|].
    split; [lia|]. unfold zlen. rewrite length_rev, length_be_bytes. pose proof (Z.div_mod bits 8 ltac:(lia)). lia.
Qed.

(** The placement that is made, in the program's byte order. *)
Definition ordered (le : bool) (bit_offset : Z) (p : Placement) : Placement :=
  default p (little_endian_field le bit_offset p).

Lemma ordered_span le offset bit_offset p : placement_ok p ->
  placement_ok (ordered le bit_offset p) /\
  span_start offset bit_offset (ordered le bit_offset p) = span_start offset bit_offset p /\
  span_len (ordered le bit_offset p) = span_len p.
Proof.
  intros Hp. unfold ordered. destruct (little_endian_field le bit_offset p) as [p'|] eqn:E; [|done].
  eapply little_endian_span; [done| |exact E]. destruct p; cbn in *; unfold zlen; lia.
Qed.

Lemma placement_end_exact offset bit_offset p : placement_ok p -> 0 <= offset -> 0 <= bit_offset ->
  placement_end offset bit_offset p <= MAX_SEGMENT_IMAGE ->
  placement_end offset bit_offset p
  = match p with PEmpty => offset | _ => div_ceil_8 (span_start offset bit_offset p + span_len p) end.
Proof.
  intros Hp Ho Hb. unfold MAX_SEGMENT_IMAGE.
  assert (Hoct : forall octets : bytes, u64_saturating_add offset (zlen octets) <= 1048576 ->
    u64_saturating_add offset (zlen octets) = div_ceil_8 (offset * 8 + 8 * zlen octets)).
  { intros octets. unfold u64_saturating_add, u64_max. assert (0 <= zlen octets) by (unfold zlen; lia).
    pose proof (div_ceil_8_spec (offset * 8 + 8 * zlen octets)). lia. }
  destruct p as [octets|octets|bits value|]; cbn [placement_end span_start span_len placement_ok] in *;
    [apply Hoct|apply Hoct| |done].
  unfold u64_saturating_add, u64_max. set (x := Z.min _ 18446744073709551615).
  intros H. pose proof (div_ceil_8_spec x) as Hx. assert (E : x = offset * 8 + bit_offset + bits) by (unfold x in *; lia).
  by rewrite E.
Qed.

Lemma image_limit_max size : image_limit size <= MAX_SEGMENT_IMAGE.
Proof. unfold image_limit. destruct size; lia. Qed.

Lemma place_checked_ok le image offset bit_offset p size image' range : placement_ok p -> 0 <= offset -> 0 <= bit_offset ->
  place_checked le image offset bit_offset p size = Ok (image', range) ->
  let q := ordered le bit_offset p in
  image' = place image offset bit_offset q /\ placement_end offset bit_offset q <= image_limit size /\
  snd range = placement_end offset bit_offset q /\
  fst range = match q with PField _ _ => offset + bit_offset / 8 | _ => offset end /\
  offset * 8 + bit_offset + span_len p <= 8 * image_limit size + bit_offset.
Proof.
  intros Hp Ho Hb. unfold place_checked. fold (ordered le bit_offset p). cbv zeta.
  destruct (ordered_span le offset bit_offset p Hp) as (Hq & Es & El). set (q := ordered le bit_offset p) in *.
  destruct (Z.ltb_spec (image_limit size) (placement_end offset bit_offset q)) as [|Hle]; [done|].
  intros [= <- <-]. cbn [fst snd]. split; [done|]. split; [done|].
  assert (Hlim : image_limit size <= MAX_SEGMENT_IMAGE) by (unfold image_limit; destruct size; lia).
  pose proof (placement_end_exact offset bit_offset q Hq Ho Hb ltac:(lia)) as Ee.
  pose proof (div_ceil_8_spec (span_start offset bit_offset q + span_len q)) as Hc.
  pose proof (Z.div_mod bit_offset 8 ltac:(lia)). pose proof (Z.mod_pos_bound bit_offset 8 ltac:(lia)).
  assert (Hz : forall octets : bytes, 0 <= zlen octets) by (unfold zlen; lia).
  destruct q as [octets|octets|bits value|]; cbn [span_start span_len placement_ok] in *;
    try specialize (Hz octets); (split; [lia|]); (split; [done|]); lia.
Qed.

Lemma land_top raw bits : 1 <= bits -> 0 <= raw < 2 ^ bits ->
  negb (Z.land raw (Z.shiftl 1 (bits - 1)) =? 0) = (2 ^ (bits - 1) <=? raw).
Proof.
  intros Hb Hr. set (k := bits - 1). assert (Ek : bits = k + 1) by lia. assert (Hk : 0 <= k) by lia.
  rewrite Ek, Z.pow_add_r in Hr by lia. change (2 ^ 1) with 2 in Hr.
  assert (Hp : 0 < 2 ^ k) by (apply Z.pow_pos_nonneg; lia).
  assert (El : Z.land raw (Z.shiftl 1 k) = Z.shiftl (Z.b2z (Z.testbit raw k)) k).
  { apply Z.bits_inj'. intros i Hi. rewrite Z.land_spec, !Z.shiftl_spec by done.
    destruct (Z.eq_dec i k) as [->|Hne].
    - rewrite Z.sub_diag. destruct (Z.testbit raw k); done.
    - assert (Hone : forall c, Z.testbit (Z.b2z c) (i - k) = false).
      { intros c. destruct (Z.lt_total (i - k) 0) as [Hl|[Hl|Hl]]; [by apply Z.testbit_neg_r|lia|].
        destruct c; [|by apply Z.testbit_0_l]. apply (Z.bits_above_log2 1); cbn; lia. }
      pose proof (Hone true) as H1. change (Z.b2z true) with 1 in H1. rewrite H1, Hone. by rewrite andb_false_r. }
  rewrite El, Z.shiftl_mul_pow2 by done. destruct (Z.testbit raw k) eqn:E.
  - apply Z.testbit_true in E; [|done]. rewrite (proj2 (Z.eqb_neq _ _)) by (cbn; lia). symmetry. apply Z.leb_le.
    destruct (Z.le_gt_cases (2 ^ k) raw); [done|]. rewrite Z.div_small in E by lia. done.
  - apply Z.testbit_false in E; [|done]. cbn [Z.b2z]. rewrite Z.mul_0_l. symmetry. apply Z.leb_gt.
    destruct (Z.lt_ge_cases raw (2 ^ k)); [done|]. assert (E1 : raw / 2 ^ k = 1).
    { symmetry. apply (Z.div_unique_pos raw (2 ^ k) 1 (raw - 2 ^ k)); lia. }
    rewrite E1 in E. done.
Qed.

Lemma sign_extend_spec n bits : 1 <= bits <= 64 -> - 2 ^ (bits - 1) <= n < 2 ^ (bits - 1) ->
  sign_extend (n mod 2 ^ bits) bits = n.
Proof.
  intros Hb Hn. assert (E2 : 2 ^ bits = 2 * 2 ^ (bits - 1)).
  { replace bits with (1 + (bits - 1)) at 1 by lia. by rewrite Z.pow_add_r by lia. }
  assert (Hp : 0 < 2 ^ (bits - 1)) by (apply Z.pow_pos_nonneg; lia).
  assert (Em : n mod 2 ^ bits = if n <? 0 then n + 2 ^ bits else n).
  { destruct (Z.ltb_spec n 0); [|apply Z.mod_small; lia]. symmetry. apply (Z.mod_unique_pos n (2 ^ bits) (-1)); lia. }
  unfold sign_extend. destruct (Z.leb_spec 64 bits).
  - assert (bits = 64) as -> by lia. unfold as_i64. rewrite Em.
    change (2 ^ 64) with 18446744073709551616 in *. change (2 ^ (64 - 1)) with 9223372036854775808 in *.
    destruct (Z.ltb_spec n 0); [rewrite (proj2 (Z.ltb_ge _ _)) by lia; lia|].
    by rewrite (proj2 (Z.ltb_lt _ _)) by lia.
  - rewrite land_top by (lia || apply Z.mod_pos_bound; lia). rewrite Em, Z.shiftl_mul_pow2, Z.mul_1_l by lia.
    destruct (Z.ltb_spec n 0); [rewrite (proj2 (Z.leb_le _ _)) by lia; lia|].
    by rewrite (proj2 (Z.leb_gt _ _)) by lia.
Qed.

Lemma i64_octets n : is_i64 n -> as_i64 (be_val (i64_be_bytes n)) = n.
Proof.
  intros Hn. unfold i64_be_bytes. rewrite be_val_be_bytes. change (256 ^ Z.of_nat 8) with (2 ^ 64).
  change 18446744073709551616 with (2 ^ 64). rewrite Z.mod_mod by done.
  apply (sign_extend_spec n 64); [lia|exact Hn].
Qed.

Lemma encode_int_bits_ok bits signed n p : is_i64 n -> 1 <= bits -> encode_int_bits bits signed n = Ok p ->
  (64 < bits /\ bits mod 8 = 0 /\ (signed = true \/ 0 <= n) /\
     p = PBytes (replicate (Z.to_nat (bits / 8) - 8) (if n <? 0 then 255 else 0) ++ i64_be_bytes n)) \/
  (bits <= 64 /\ (if signed then - 2 ^ (bits - 1) <= n < 2 ^ (bits - 1) else 0 <= n < 2 ^ bits) /\
     p = PField bits (n mod 2 ^ bits)).
Proof.
  intros Hn Hb. unfold encode_int_bits. rewrite (proj2 (Z.eqb_neq bits 0)) by lia.
  destruct (Z.ltb_spec 64 bits) as [Hw|Hw].
  - destruct (Z.eqb_spec (bits mod 8) 0) as [E|]; [|done]. cbn [negb].
    destruct (negb signed && (n <? 0))%bool eqn:Es; [done|]. intros [= <-]. left. split; [done|]. split; [done|].
    split; [|done]. destruct signed; [by left|right]. cbn in Es. by apply Z.ltb_ge in Es.
  - assert (Hs : forall k, 0 <= k -> Z.shiftl 1 k = 2 ^ k) by (intros k Hk; rewrite Z.shiftl_mul_pow2; lia).
    destruct signed.
    + rewrite !Hs by lia. destruct (_ || _)%bool eqn:Eo; [done|]. apply orb_false_iff in Eo as [E1 E2].
      apply Z.ltb_ge in E1, E2. intros [= <-]. right. split; [done|]. split; [lia|]. f_equal.
      apply (land_mask bits); lia.
    + destruct (Z.ltb_spec n 0) as [|H0]; [done|].
      assert (Emax : (if 64 <=? bits then u64_max else Z.shiftl 1 bits - 1) = 2 ^ bits - 1).
      { destruct (Z.leb_spec 64 bits); [by replace bits with 64 by lia|by rewrite Hs by lia]. }
      rewrite Emax. destruct (Z.ltb_spec (2 ^ bits - 1) n); [done|]. intros [= <-]. right.
      split; [done|]. split; [lia|]. by rewrite Z.mod_small by lia.
Qed.

Lemma read_little_endian image offset bits value : 0 <= offset -> 8 < bits <= 64 -> bits mod 8 = 0 ->
  0 <= value < 2 ^ bits ->
  read_int_field (place image offset 0 (PBytes (rev (be_bytes (Z.to_nat (bits / 8)) value)))) offset 0 bits true
  = Some value.
Proof.
  intros Ho Hb Em Hv. unfold read_int_field. rewrite (proj2 (Z.ltb_lt 8 bits)), (proj2 (Z.leb_le bits 64)), Em by lia.
  cbn [andb Z.eqb]. pose proof (Z.div_mod bits 8 ltac:(lia)) as Hd.
  assert (El : zlen (rev (be_bytes (Z.to_nat (bits / 8)) value)) = bits / 8).
  { unfold zlen. rewrite length_rev, length_be_bytes. lia. }
  rewrite <- El at 2. rewrite get_place_octets by done. cbn [mbind option_bind]. f_equal.
  rewrite rev_involutive, be_val_be_bytes. replace (256 ^ Z.of_nat (Z.to_nat (bits / 8))) with (2 ^ bits).
  - by apply Z.mod_small.
  - change 256 with (2 ^ 8). rewrite <- Z.pow_mul_r by lia. f_equal. lia.
Qed.

Lemma int_reads_back le image offset bit_offset bits signed n p size image' range
    (Hi : bytes_ok image) (Ho : 0 <= offset) (Hbo : is_u8 bit_offset) (Hb : 1 <= bits) (Hn : is_i64 n)
    (He : encode_int_bits bits signed n = Ok p)
    (Hp : place_checked le image offset bit_offset p size = Ok (image', range)) :
  decode_int (Some bits) signed image' offset bit_offset le = Some n.
Proof.
  unfold is_u8 in Hbo. unfold decode_int. cbn [default option_rect from_option id].
  destruct (encode_int_bits_ok bits signed n p Hn Hb He) as [(Hw & Em & Hs & ->)|(Hw & Hr & ->)].
  - rewrite (proj2 (Z.ltb_lt 64 bits)) by done.
    set (octets := replicate (Z.to_nat (bits / 8) - 8) (if n <? 0 then 255 else 0) ++ i64_be_bytes n) in *.
    pose proof (Z.div_mod bits 8 ltac:(lia)) as Hd.
    assert (El : zlen octets = bits / 8).
    { unfold octets, zlen, i64_be_bytes. rewrite length_app, length_replicate, length_be_bytes. lia. }
    assert (Eimg : image' = place image offset 0 (PBytes octets)).
    { unfold place_checked in Hp. cbn [little_endian_field default option_rect from_option id] in Hp.
      destruct (image_limit size <? _); [done|]. injection Hp as <- _. reflexivity. }
    rewrite Eimg, <- El at 1. rewrite get_place_octets by done. cbn [mbind option_bind].
    unfold decode_wide_int. rewrite Em. unfold octets.
    assert (L8 : length (i64_be_bytes n) = 8%nat) by apply length_be_bytes.
    rewrite !length_app, !length_replicate, L8. cbn [negb orb Z.eqb].
    rewrite (proj2 (Nat.ltb_ge _ _)) by lia. rewrite Nat.add_sub.
    rewrite take_app_length', drop_app_length' by (by rewrite length_replicate).
    rewrite i64_octets by done.
    rewrite (proj2 (forallb_forall _ _)).
    2: { intros x Hx. apply list_elem_of_In, elem_of_replicate in Hx as [-> _]. apply Z.eqb_refl. }
    destruct Hs as [->|Hs]; [done|]. rewrite (proj2 (Z.leb_le 0 n)) by done. by rewrite orb_true_r.
  - rewrite (proj2 (Z.ltb_ge 64 bits)) by done.
    assert (Hv : 0 <= n mod 2 ^ bits < 2 ^ bits) by (apply Z.mod_pos_bound, Z.pow_pos_nonneg; lia).
    assert (Hok : placement_ok (PField bits (n mod 2 ^ bits))) by (split; [lia|exact Hv]).
    destruct (place_checked_ok _ _ _ _ _ _ _ _ Hok Ho (proj1 Hbo) Hp) as (-> & _ & _ & _ & Hend).
    assert (Hread : read_int_field (place image offset bit_offset (ordered le bit_offset (PField bits (n mod 2 ^ bits))))
                      offset bit_offset bits le = Some (n mod 2 ^ bits)).
    { unfold ordered. cbn [little_endian_field span_len] in *. destruct (le && _ && _ && _)%bool eqn:Ele.
      - apply andb_true_iff in Ele as [[[-> E1]%andb_true_iff E2]%andb_true_iff E3].
        apply Z.eqb_eq in E1 as ->. apply Z.ltb_lt in E2. apply Z.eqb_eq in E3.
        apply read_little_endian; lia.
      - unfold read_int_field. replace (le && _ && _ && _ && _)%bool with false.
        + apply (read_place image offset bit_offset bits); [done|done|exact (proj1 Hbo)|lia|exact Hv|]. unfold USIZE_MAX, u64_max.
          assert (image_limit size <= 1048576) by (unfold image_limit, MAX_SEGMENT_IMAGE; destruct size; lia). lia.
        + symmetry. rewrite (proj2 (Z.leb_le bits 64)) by done. by rewrite andb_true_r. }
    rewrite Hread. cbn [mbind option_bind]. f_equal. destruct signed.
    + apply sign_extend_spec; [lia|done].
    + by apply Z.mod_small.
Qed.

(** An integer is written to the image and read back as itself: signed or not,
    of any width, in either byte order, at any bit. *)
Theorem integer_reads_back le image offset bit_offset bits signed n p size image' range
    (Hi : bytes_ok image) (Ho : 0 <= offset) (Hbo : is_u8 bit_offset) (Hb : 1 <= bits) (Hn : is_i64 n)
    (He : encode_int_bits bits signed n = Ok p)
    (Hp : place_checked le image offset bit_offset p size = Ok (image', range)) :
  decode_int (Some bits) signed image' offset bit_offset le = Some n.
Proof. by eapply int_reads_back. Qed.

Lemma checked_in_bounds le image offset bit_offset p size
    (Hi : bytes_ok image) (Hp : placement_ok p) (Hl : 0 < span_len p) (Ho : 0 <= offset) (Hbo : is_u8 bit_offset) :
  match place_checked le image offset bit_offset p size with
  | Err e => exists end_, e = PastTheSegment end_ /\ image_limit size < end_
  | Ok (image', (first, end_)) =>
      end_ <= image_limit size /\ zlen image' <= Z.max (zlen image) (image_limit size) /\ bytes_ok image' /\
      (forall k, 0 <= k -> image_bit image' k <> image_bit image k -> first <= k / 8 < end_) /\
      (forall o, first <= o < end_ <-> exists k, k / 8 = o /\
         span_start offset bit_offset p <= k < span_start offset bit_offset p + span_len p)
  end.
Proof.
  unfold is_u8 in Hbo. destruct (place_checked le image offset bit_offset p size) as [[image' [first end_]]|e] eqn:E.
  - destruct (place_checked_ok _ _ _ _ _ _ _ _ Hp Ho (proj1 Hbo) E) as (-> & Hend & Hsnd & Hfst & _).
    destruct (ordered_span le offset bit_offset p Hp) as (Hq & Es & El). set (q := ordered le bit_offset p) in *.
    cbn [fst snd] in *. assert (Hlim : image_limit size <= MAX_SEGMENT_IMAGE) by (unfold image_limit; destruct size; lia).
    pose proof (placement_end_exact offset bit_offset q Hq Ho ltac:(lia) ltac:(lia)) as Ee.
    destruct (place_spec image offset bit_offset q Hi Hq Ho ltac:(lia)) as (K & L & B).
    assert (Hne : q <> PEmpty) by (intros Eq; rewrite Eq in El; cbn in El; lia).
    set (start := span_start offset bit_offset p) in *. rewrite Es in *.
    assert (Ee' : end_ = div_ceil_8 (start + span_len p)).
    { rewrite Hsnd, Ee, El. by destruct q. }
    assert (Ef : first = start / 8).
    { rewrite Hfst, <- Es. destruct q; cbn [span_start]; try (by rewrite Z.div_mul by lia).
      rewrite (Z.add_comm (offset * 8)), Z.div_add by lia. lia. }
    assert (So : span_octets offset bit_offset q = end_) by (rewrite Ee', <- El, <- Es; by destruct q).
    pose proof (div_ceil_8_spec (start + span_len p)) as Hc. rewrite <- Ee' in Hc.
    assert (Hs0 : 0 <= start) by (unfold start; destruct p; cbn; lia).
    assert (Hin : forall k, start <= k < start + span_len p -> first <= k / 8 < end_).
    { intros k Hk. rewrite Ef. split; [apply Z.div_le_mono; lia|apply Z.div_lt_upper_bound; lia]. }
    split; [lia|]. split; [lia|]. split; [done|]. split.
    + intros k Hk Hd. rewrite B in Hd by done. rewrite El in Hd.
      destruct (Z.leb_spec start k), (Z.ltb_spec k (start + span_len p)); try done. apply Hin. lia.
    + intros o. split; [|by intros (k & <- & Hk); apply Hin].
      intros Hr. pose proof (Z.div_mod start 8 ltac:(lia)). pose proof (Z.mod_pos_bound start 8 ltac:(lia)).
      exists (Z.max start (8 * o)). split; [|lia].
      destruct (Z.max_spec start (8 * o)) as [[_ ->]|[Hm ->]]; [by rewrite Z.mul_comm, Z.div_mul by lia|].
      rewrite <- Ef. apply Z.le_antisymm; [lia|]. rewrite Ef. apply Z.div_le_lower_bound; lia.
  - unfold place_checked in E. destruct (Z.ltb_spec (image_limit size)
      (placement_end offset bit_offset (default p (little_endian_field le bit_offset p)))); [|done].
    injection E as <-. by eexists.
Qed.

(** A value that is placed ends within the segment and its cap, grows the image
    no further, and changes bits only in the octets reported as written, each of
    which holds a bit of it. *)
Theorem checked_placement_in_bounds le image offset bit_offset p size
    (Hi : bytes_ok image) (Hp : placement_ok p) (Hl : 0 < span_len p) (Ho : 0 <= offset) (Hbo : is_u8 bit_offset) :
  match place_checked le image offset bit_offset p size with
  | Err e => exists end_, e = PastTheSegment end_ /\ image_limit size < end_
  | Ok (image', (first, end_)) =>
      end_ <= image_limit size /\ zlen image' <= Z.max (zlen image) (image_limit size) /\ bytes_ok image' /\
      (forall k, 0 <= k -> image_bit image' k <> image_bit image k -> first <= k / 8 < end_) /\
      (forall o, first <= o < end_ <-> exists k, k / 8 = o /\
         span_start offset bit_offset p <= k < span_start offset bit_offset p + span_len p)
  end.
Proof. by apply checked_in_bounds. Qed.

(** The integers a field can hold. *)
Definition fits (bits : u32) (signed : bool) (n : Z) : Prop :=
  if 64 <? bits then bits mod 8 = 0 /\ (signed = true \/ 0 <= n)
  else if signed then - 2 ^ (bits - 1) <= n < 2 ^ (bits - 1) else 0 <= n < 2 ^ bits.

(** An integer is encoded exactly when its field can hold it; a width of 64 bits
    and a signed one are exact at both ends. *)
Theorem encode_int_bits_exact bits signed n (Hb : 1 <= bits) (Hn : is_i64 n) :
  is_ok (encode_int_bits bits signed n) = true <-> fits bits signed n.
Proof.
  split.
  - destruct (encode_int_bits bits signed n) as [p|] eqn:E; [intros _|done]. unfold fits.
    destruct (encode_int_bits_ok bits signed n p Hn Hb E) as [(Hw & Em & Hs & _)|(Hw & Hr & _)].
    + by rewrite (proj2 (Z.ltb_lt 64 bits)).
    + rewrite (proj2 (Z.ltb_ge 64 bits)) by done. by destruct signed.
  - unfold fits, encode_int_bits. rewrite (proj2 (Z.eqb_neq bits 0)) by lia.
    destruct (Z.ltb_spec 64 bits) as [Hw|Hw].
    + intros [-> Hs]. cbn [Z.eqb negb]. destruct signed; [done|]. destruct Hs as [|Hs]; [done|].
      by rewrite (proj2 (Z.ltb_ge n 0)).
    + assert (Hs : forall k, 0 <= k -> Z.shiftl 1 k = 2 ^ k) by (intros k Hk; rewrite Z.shiftl_mul_pow2; lia).
      destruct signed; intros Hr.
      * rewrite !Hs, (proj2 (Z.ltb_ge n _)), (proj2 (Z.ltb_ge _ n)) by lia. done.
      * rewrite (proj2 (Z.ltb_ge n 0)) by lia. destruct (Z.leb_spec 64 bits).
        -- rewrite (proj2 (Z.ltb_ge _ n)); [done|]. unfold u64_max. unfold is_i64 in Hn. lia.
        -- rewrite Hs, (proj2 (Z.ltb_ge _ n)) by lia. done.
Qed.

(** ** Examples *)

(** A fifteen-bit field at bit 1, as ETS uses. *)
Definition demo_field : Placement := PField 15 4660.

Definition demo_image : bytes := [255; 0; 170].

Lemma demo_image_ok : bytes_ok demo_image.
Proof.
  unfold bytes_ok, demo_image. repeat (apply Forall_cons_2; [split; [apply Z.leb_le|apply Z.ltb_lt]; reflexivity|]).
  apply Forall_nil_2.
Qed.

Lemma disjoint_placements_commute_witness :
  place (place demo_image 0 1 demo_field) 2 4 (PField 3 5) = place (place demo_image 2 4 (PField 3 5)) 0 1 demo_field
  /\ place (place demo_image 0 1 demo_field) 2 4 (PField 3 5) = [146; 52; 170].
Proof.
  split; [|vm_compute; reflexivity].
  apply (disjoint_placements_commute demo_image 0 1 demo_field 2 4 (PField 3 5) demo_image_ok);
    try (cbn; lia); split; (split; [apply Z.leb_le|(apply Z.leb_le || apply Z.ltb_lt)]); reflexivity.
Defined.

Lemma field_matches_iff_unchanged_witness :
  field_matches [146; 52; 170] 0 1 demo_field = true /\ place [146; 52; 170] 0 1 demo_field = [146; 52; 170].
Proof.
  assert (Hok : bytes_ok [146; 52; 170]).
  { repeat (apply Forall_cons_2; [split; [apply Z.leb_le|apply Z.ltb_lt]; reflexivity|]). apply Forall_nil_2. }
  split; [vm_compute; reflexivity|]. apply (field_matches_iff_unchanged [146; 52; 170] 0 1 demo_field Hok);
    [split; (split; [apply Z.leb_le|(apply Z.leb_le || apply Z.ltb_lt)]); reflexivity|lia|lia|left; cbn; lia
    |apply Z.leb_le; reflexivity|vm_compute; reflexivity].
Defined.

(** -2 in sixteen bits, least significant octet first. *)
Lemma integer_reads_back_witness :
  place_checked true demo_image 1 0 (PField 16 65534) (Some 8) = Ok ([255; 254; 255], (1, 3)) /\
  decode_int (Some 16) true [255; 254; 255] 1 0 true = Some (-2).
Proof.
  assert (E : place_checked true demo_image 1 0 (PField 16 65534) (Some 8) = Ok ([255; 254; 255], (1, 3)))
    by (vm_compute; reflexivity).
  split; [exact E|].
  apply (integer_reads_back true demo_image 1 0 16 true (-2) (PField 16 65534) (Some 8) [255; 254; 255] (1, 3)
    demo_image_ok ltac:(lia) ltac:(split; [apply Z.leb_le|apply Z.ltb_lt]; reflexivity) ltac:(lia)
    ltac:(split; [apply Z.leb_le|apply Z.ltb_lt]; reflexivity) ltac:(vm_compute; reflexivity) E).
Defined.

Lemma checked_placement_in_bounds_witness :
  place_checked false demo_image 1 1 demo_field (Some 3) = Ok ([255; 18; 52], (1, 3)) /\
  forall o, 1 <= o < 3 <-> exists k, k / 8 = o /\ 9 <= k < 9 + 15.
Proof.
  assert (E : place_checked false demo_image 1 1 demo_field (Some 3) = Ok ([255; 18; 52], (1, 3)))
    by (vm_compute; reflexivity).
  split; [exact E|].
  pose proof (checked_placement_in_bounds false demo_image 1 1 demo_field (Some 3) demo_image_ok
    ltac:(split; (split; [apply Z.leb_le|(apply Z.leb_le || apply Z.ltb_lt)]); reflexivity) ltac:(cbn; lia) ltac:(lia)
    ltac:(split; [apply Z.leb_le|apply Z.ltb_lt]; reflexivity)) as H.
  rewrite E in H. destruct H as (_ & _ & _ & _ & H). exact H.
Defined.

Lemma encode_int_bits_exact_witness :
  is_ok (encode_int_bits 64 true (-9223372036854775808)) = true /\ ~ fits 8 false 256.
Proof.
  split.
  - apply (encode_int_bits_exact 64 true (-9223372036854775808)); [lia|split; [apply Z.leb_le|apply Z.ltb_lt]; reflexivity|].
    split; [apply Z.leb_le|apply Z.ltb_lt]; reflexivity.
  - intros H. apply (encode_int_bits_exact 8 false 256) in H; [discriminate H|lia|].
    split; [apply Z.leb_le|apply Z.ltb_lt]; reflexivity.
Defined.
