(* ===== verification/ParamValue.v ===== *)
(** * Parameter values and their types ([bussard-prod/src/image.rs])

    [encode_value], from the text a model or a product gives a parameter to the
    placement in memory, and [decode_value], from the image back to the text.

    Floating-point values are encoded by [encode_float] through the arithmetic of
    [f64], which is not modelled: [FloatParams] stands for it.  [Base64] stands for
    the base64 crate. *)

From Stdlib Require Import String.
From S2P Require Import Prelude OrderedMap Decimal TextCodec ColorCodec ParamField.

Local Open Scope string_scope.
Local Open Scope list_scope.
Local Open Scope Z_scope.

Class Base64 : Type := {
  base64_decode : text -> option bytes;
  base64_encode : bytes -> text;
  base64_octets : forall t data, base64_decode t = Some data -> bytes_ok data }.

(** [encode_float] on the encoding, the type's maximum and the value, and the
    float branch of [decode_value] on the encoding and the octets. *)
Class FloatParams : Type := {
  encode_float : option text -> option Z -> option text -> result ParamError bytes;
  decode_float : option text -> bool -> bytes -> Z -> option text;
  float_octets : forall encoding max value octets,
    encode_float encoding max value = Ok octets -> bytes_ok octets }.

(** The distance between colours of [hsv_octets_to_rgb]. *)
Class ColourDistance : Type := {
  colour_dist : rgb -> Z * Z * Z -> Z;
  colour_nearer : Z -> Z -> bool }.

(** ** Types *)

Record EnumValue : Type := MkEnumValue {
  ev_value : Z;
  ev_text : text;
  ev_default_text : text;
  ev_translations : list text;
  ev_binary_value : option bytes }.

Inductive ParameterType : Type :=
| TypeInt (size_bits : option u32) (min max : option Z) (signed : bool)
| TypeEnum (size_bits : option u32) (values : list EnumValue)
| TypeText (size_bits : option u32)
| TypeFloat (encoding : option text) (max : option Z)
| TypeNone
| TypeColor (space : ColorSpace)
| TypeOther (kind : string) (size_bits : option u32) (unit : option string).

(** ** Labels ([bussard-model/src/dynamic.rs]) *)

Inductive LabelMatch : Type := Member (n : Z) | Ambiguous | UnknownLabel.

Definition label_tier (values : list EnumValue) (matches : EnumValue -> bool) : list Z :=
  sort_dedup (map ev_value (List.filter matches values)).

Definition enum_member_by_label (values : list EnumValue) (label : text) : LabelMatch :=
  let label := trim label in
  let is_label (t : text) := bool_decide (trim t = label) in
  let fix go (tiers : list (EnumValue -> bool)) : LabelMatch :=
    match tiers with
    | [] => UnknownLabel
    | tier :: tiers =>
        match label_tier values tier with
        | [] => go tiers
        | [one] => Member one
        | _ => Ambiguous
        end
    end in
  go [fun e => is_label (ev_text e); fun e => is_label (ev_default_text e);
      fun e => existsb is_label (ev_translations e)].

(** ** Addresses and durations *)

(** One octet of [Ipv4Addr::from_str]: up to three digits, no leading zero. *)
Definition parse_ip_octet (t : text) : option u8 :=
  match t with
  | [] => None
  | 48 :: _ :: _ => None
  | _ => if (3 <? length t)%nat then None
         else n ← parse_digits 0 t; if n <=? 255 then Some n else None
  end.

(** The parts between dots. *)
Fixpoint split_dots (t : text) : list text :=
  match t with
  | [] => [[]]
  | c :: t =>
      if c =? 46 then [] :: split_dots t
      else match split_dots t with part :: parts => (c :: part) :: parts | [] => [[c]] end
  end.

Definition parse_ipv4 (t : text) : option bytes :=
  match split_dots t with
  | [a; b; c; d] =>
      a ← parse_ip_octet a; b ← parse_ip_octet b; c ← parse_ip_octet c; d ← parse_ip_octet d;
      Some [a; b; c; d]
  | _ => None
  end.

Definition ipv4_to_text (a b c d : u8) : text :=
  to_text a ++ 46 :: to_text b ++ 46 :: to_text c ++ 46 :: to_text d.

Definition encode_ip_address (value : option text) : result ParamError Placement :=
  let raw := trim (default [48] value) in
  match parse_ipv4 raw with
  | Some octets => Ok (PBytes octets)
  | None =>
      match parse_u32 raw with
      | Some n => Ok (PBytes (be_bytes 4 n))
      | None => Err NotAnAddress
      end
  end.

Definition encode_packed_hms (value : option text) : result ParamError Placement :=
  let raw := match value with Some v => trim v | None => [48] end in
  match parse_u32 raw with
  | None => Err NotADuration
  | Some secs =>
      if 24 * 3600 <=? secs then Err (DayOrMore secs)
      else Ok (PBytes [as_u8 (secs mod 60); as_u8 ((secs / 60) mod 60); as_u8 (secs / 3600)])
  end.

(** ** Values *)

Section Values.
  Context `{HB : Base64} `{HF : FloatParams} `{HC : ColourDistance}.

Definition encode_raw_data (value : option text) : result ParamError Placement :=
  let raw := match value with Some v => trim v | None => [] end in
  match raw with
  | [] => Ok PEmpty
  | _ =>
      match base64_decode raw with
      | None => Err NotEncodable
      | Some data =>
          if u32_max <? zlen data then Err NotEncodable else Ok (PBytes (be_bytes 4 (zlen data) ++ data))
      end
  end.

Definition encode_enum (size_bits : option u32) (values : list EnumValue) (value : option text)
    (source : ValueSource) : result ParamError Placement :=
  let raw := default [48] value in
  let number := match parse_i64 (trim raw) with
                | Some n => Ok n
                | None => match enum_member_by_label values raw with
                          | Member n => Ok n
                          | Ambiguous => Err AmbiguousLabel
                          | UnknownLabel => Err NoSuchLabel
                          end
                end in
  match number with
  | Err e => Err e
  | Ok n =>
      if negb (bool_decide (length values = 0%nat)) && negb (existsb (fun e => ev_value e =? n) values)
         && match source with VendorDefault => false | _ => true end
      then Err (NotAMember n)
      else
        match e ← List.find (fun e => ev_value e =? n) values; ev_binary_value e with
        | Some octets => Ok (binary_value_placement (default 8 size_bits) octets)
        | None => encode_int_bits (default 8 size_bits) false n
        end
  end.

Definition PACKED_HMS : string := "PackedDaysHoursMinutesAndSeconds".

Definition is_packed_time (kind : string) (size_bits : option u32) (unit : option string) : bool :=
  bool_decide (kind = "TypeTime") && bool_decide (size_bits = Some 24) && bool_decide (unit = Some PACKED_HMS).

Definition encode_value (codec : TextCodec) (ptype : option ParameterType) (value : option text)
    (source : ValueSource) : result ParamError Placement :=
  match ptype with
  | Some (TypeInt size_bits min max signed) =>
      match parse_i64 (trim (default [48] value)) with
      | None => Err NotAnInteger
      | Some n => encode_int size_bits signed min max n source
      end
  | Some (TypeEnum size_bits values) => encode_enum size_bits values value source
  | Some (TypeText size_bits) =>
      match TextCodec_encode codec (default [] value) (Z.to_nat (default 0 size_bits / 8)) with
      | Ok octets => Ok (PBytes octets)
      | Err _ => Err NotEncodable
      end
  | Some (TypeFloat encoding max) =>
      match encode_float encoding max value with Ok octets => Ok (PFloat octets) | Err e => Err e end
  | Some TypeNone | None => Ok PEmpty
  | Some (TypeColor space) =>
      match ColorSpace_encode space (default [] value) with
      | Ok octets => Ok (PBytes octets)
      | Err _ => Err NotEncodable
      end
  | Some (TypeOther kind size_bits unit) =>
      if bool_decide (kind = "TypeRawData") then encode_raw_data value
      else if bool_decide (kind = "TypeIPAddress") then encode_ip_address value
      else if bool_decide (kind = "TypeColor") then Err NotEncodable
      else if is_packed_time kind size_bits unit then encode_packed_hms value
      else
        match size_bits, value with
        | Some bits, Some v =>
            if bits mod 8 =? 0 then
              match parse_i64 (trim v) with
              | None => Err NotAnInteger
              | Some n => encode_int_bits bits false n
              end
            else Ok PEmpty
        | None, Some v => if bool_decide (trim v = []) then Ok PEmpty else Err NoWidth
        | _, None => Ok PEmpty
        end
  end.

Definition decode_value (codec : TextCodec) (ptype : option ParameterType) (image : bytes)
    (offset bit_offset : Z) (little_endian : bool) : option text :=
  match ptype with
  | None => None
  | Some (TypeInt size_bits _ _ signed) =>
      option_map to_text (decode_int size_bits signed image offset bit_offset little_endian)
  | Some (TypeEnum size_bits values) =>
      let bits := default 8 size_bits in
      if existsb (fun v => bool_decide (is_Some (ev_binary_value v))) values then
        member ← List.find (fun v => match ev_binary_value v with
                                     | Some bv => field_matches image offset bit_offset (binary_value_placement bits bv)
                                     | None => false
                                     end) values;
        Some (to_text (ev_value member))
      else option_map to_text (read_int_field image offset bit_offset bits little_endian)
  | Some (TypeText size_bits) =>
      option_map (TextCodec_decode codec) (get_range image offset (default 0 size_bits / 8))
  | Some (TypeFloat encoding _) => decode_float encoding little_endian image offset
  | Some TypeNone => None
  | Some (TypeColor space) =>
      octets ← get_range image offset (Z.of_nat (ColorSpace_octets space));
      ColorSpace_decode colour_dist colour_nearer space octets
  | Some (TypeOther kind size_bits unit) =>
      if bool_decide (kind = "TypeRawData") then
        len ← get_range image offset 4;
        option_map base64_encode (get_range image (offset + 4) (be_val len))
      else if bool_decide (kind = "TypeIPAddress") then
        match get_range image offset 4 with
        | Some [a; b; c; d] => Some (ipv4_to_text a b c d)
        | _ => None
        end
      else if is_packed_time kind size_bits unit then
        match get_range image offset 3 with
        | Some [s; m; h] => Some (to_text (s + m * 60 + h * 3600))
        | _ => None
        end
      else
        bits ← size_bits;
        if (0 <? bits) && (bits <=? 64) && (bits mod 8 =? 0) then
          option_map to_text (read_int_field image offset bit_offset bits little_endian)
        else None
  end.

End Values.

(** ** Lemmas: addresses as text *)

Lemma parse_printed_octet b : is_u8 b -> parse_ip_octet (to_text b) = Some b.
Proof.
  refine (u8_decide (fun b => parse_ip_octet (to_text b) = Some b) _ b). vm_compute. reflexivity.
Qed.

Lemma split_dots_part t u : Forall (fun c => 48 <= c <= 57) t -> split_dots (t ++ 46 :: u) = t :: split_dots u.
Proof.
  induction 1 as [|c t Hc H IH]; [done|]. cbn [app split_dots]. rewrite (proj2 (Z.eqb_neq c 46)) by lia. by rewrite IH.
Qed.

Lemma split_dots_last t : Forall (fun c => 48 <= c <= 57) t -> split_dots t = [t].
Proof.
  induction 1 as [|c t Hc H IH]; [done|]. cbn [split_dots]. rewrite (proj2 (Z.eqb_neq c 46)) by lia. by rewrite IH.
Qed.

Lemma to_text_digits n : 0 <= n -> Forall (fun c => 48 <= c <= 57) (to_text n).
Proof. intros Hn. unfold to_text. rewrite (proj2 (Z.ltb_ge n 0)) by lia. by apply decimal_digits_chars. Qed.

Lemma parse_printed_ipv4 a b c d : is_u8 a -> is_u8 b -> is_u8 c -> is_u8 d ->
  trim (ipv4_to_text a b c d) = ipv4_to_text a b c d /\ parse_ipv4 (ipv4_to_text a b c d) = Some [a; b; c; d].
Proof.
  intros Ha Hb Hc Hd. assert (Hdig : forall n, is_u8 n -> Forall (fun c => 48 <= c <= 57) (to_text n)).
  { unfold is_u8. intros n Hn. apply to_text_digits. lia. }
  split.
  - apply trim_id. unfold ipv4_to_text, solid.
    repeat (apply Forall_app; split; [by apply to_text_solid|apply Forall_cons_2; [done|]]). apply to_text_solid.
  - unfold parse_ipv4, ipv4_to_text. rewrite !split_dots_part, split_dots_last by auto.
    by rewrite !parse_printed_octet.
Qed.

(** ** Lemmas: reading back *)

Lemma placed_octets le image offset bit_offset octets size image' range : 0 <= offset ->
  place_checked le image offset bit_offset (PBytes octets) size = Ok (image', range) ->
  get_range image' offset (zlen octets) = Some octets.
Proof.
  intros Ho. unfold place_checked. cbn [little_endian_field default option_rect from_option id].
  destruct (image_limit size <? _); [done|]. intros [= <- _]. exact (get_place_octets image offset octets Ho).
Qed.

(** A placement of whole octets, or of a field that is not: the same in both
    byte orders. *)
Lemma placed_matches le image offset bit_offset p size image' range : bytes_ok image -> 0 <= offset -> is_u8 bit_offset ->
  placement_ok p -> 0 < span_len p -> little_endian_field le bit_offset p = None ->
  place_checked le image offset bit_offset p size = Ok (image', range) ->
  field_matches image' offset bit_offset p = true.
Proof.
  intros Hi Ho Hb Hp Hs Hle E. unfold is_u8 in Hb.
  destruct (place_checked_ok _ _ _ _ _ _ _ _ Hp Ho (proj1 Hb) E) as (-> & _ & _ & _ & Hend).
  unfold ordered. rewrite Hle. cbn [default option_rect from_option id].
  destruct p as [octets|octets|bits value|]; cbn [field_matches].
  - apply bool_decide_eq_true_2. exact (get_place_octets image offset octets Ho).
  - apply bool_decide_eq_true_2. exact (get_place_octets image offset octets Ho).
  - apply bool_decide_eq_true_2. cbn [placement_ok span_len] in *.
    apply read_place; [done|done|lia|lia|lia|]. unfold USIZE_MAX, u64_max.
    assert (image_limit size <= 1048576) by (unfold image_limit, MAX_SEGMENT_IMAGE; destruct size; lia). lia.
  - done.
Qed.

Lemma binary_placement_le le bit_offset bits octets :
  little_endian_field le bit_offset (binary_value_placement bits octets) = None.
Proof.
  unfold binary_value_placement. destruct (Z.eqb_spec (bits mod 8) 0) as [E|E]; [done|]. cbn [little_endian_field].
  rewrite (proj2 (Z.eqb_neq (bits mod 8) 0) E). by rewrite andb_false_r.
Qed.

(** Two members recognised in the same image have the same placement. *)
Lemma binary_match_same image offset bit_offset bits o1 o2 :
  field_matches image offset bit_offset (binary_value_placement bits o1) = true ->
  field_matches image offset bit_offset (binary_value_placement bits o2) = true ->
  binary_value_placement bits o1 = binary_value_placement bits o2.
Proof.
  unfold binary_value_placement. destruct (bits mod 8 =? 0); cbn [field_matches];
    rewrite !bool_decide_eq_true.
  - set (n := Z.to_nat (bits / 8)). intros E1 E2.
    assert (El : forall o : bytes, length (take n o ++ replicate (n - length o) 0) = n).
    { intros o. rewrite length_app, length_take, length_replicate. lia. }
    unfold zlen in E1, E2. rewrite El in E1, E2. congruence.
  - congruence.
Qed.

Section ReadBack.
  Context `{HB : Base64} `{HF : FloatParams} `{HC : ColourDistance}.

(** The number an enumeration value means. *)
Definition enum_number (values : list EnumValue) (raw : text) : result ParamError Z :=
  match parse_i64 (trim raw) with
  | Some n => Ok n
  | None => match enum_member_by_label values raw with
            | Member n => Ok n
            | Ambiguous => Err AmbiguousLabel
            | UnknownLabel => Err NoSuchLabel
            end
  end.

(** The types whose values are read back: all but floats, base64 data and fields
    the decoder has no reading for; an enumeration names each octet value of its
    members once, or has none. *)
Definition readable (ptype : ParameterType) (value : option text) : Prop :=
  match ptype with
  | TypeInt size_bits _ _ _ => 1 <= default 8 size_bits
  | TypeEnum size_bits values =>
      1 <= default 8 size_bits <= 64 /\
      Forall (fun e => is_i64 (ev_value e)) values /\
      (Forall (fun e => ev_binary_value e = None) values \/
       NoDup (map ev_value values) /\
       (forall n, enum_number values (default [48] value) = Ok n -> In n (map ev_value values)) /\
       forall e, In e values -> exists octets, ev_binary_value e = Some octets /\
         placement_ok (binary_value_placement (default 8 size_bits) octets))
  | TypeText size_bits =>
      0 <= default 0 size_bits /\ Forall is_char (default [] value) /\ last (default [] value) <> Some 0
  | TypeFloat _ _ | TypeNone => False
  | TypeColor _ => True
  | TypeOther kind size_bits unit =>
      kind <> "TypeRawData" /\
      (kind = "TypeIPAddress" \/ is_packed_time kind size_bits unit = true \/
       exists bits, size_bits = Some bits /\ 1 <= bits <= 64)
  end.

Lemma int_branch le image offset bit_offset bits n p size image' range : bytes_ok image -> 0 <= offset ->
  is_u8 bit_offset -> 1 <= bits <= 64 -> is_i64 n ->
  encode_int_bits bits false n = Ok p -> place_checked le image offset bit_offset p size = Ok (image', range) ->
  read_int_field image' offset bit_offset bits le = Some n.
Proof.
  intros Hi Ho Hb Hbits Hn He Hp.
  pose proof (int_reads_back le image offset bit_offset bits false n p size image' range Hi Ho Hb ltac:(lia) Hn He Hp) as E.
  unfold decode_int in E. cbn [default option_rect from_option id] in E.
  rewrite (proj2 (Z.ltb_ge 64 bits)) in E by lia.
  destruct (read_int_field image' offset bit_offset bits le); [|done]. by injection E as ->.
Qed.

Lemma label_in values raw n : enum_member_by_label values raw = Member n -> In n (map ev_value values).
Proof.
  assert (Ht : forall matches l, label_tier values matches = l -> forall m, In m l -> In m (map ev_value values)).
  { intros matches l <- m Hm. unfold label_tier in Hm. apply sort_dedup_spec, in_map_iff in Hm as (e & <- & He).
    apply List.filter_In in He as [He _]. by apply in_map. }
  unfold enum_member_by_label. cbv zeta.
  repeat (match goal with |- context [label_tier values ?m] => destruct (label_tier values m) as [|? [|? ?]] eqn:?E end;
    [|intros [= <-]; eapply Ht; [eassumption|by left]|done]). done.
Qed.

Lemma enum_number_range values raw n : Forall (fun e => is_i64 (ev_value e)) values ->
  enum_number values raw = Ok n -> is_i64 n.
Proof.
  intros Hv. unfold enum_number. destruct (parse_i64 (trim raw)) as [m|] eqn:E.
  - intros [= <-]. by eapply parse_i64_range.
  - destruct (enum_member_by_label values raw) as [m| |] eqn:El; [|done|done]. intros [= <-].
    apply label_in, in_map_iff in El as (e & <- & He). rewrite List.Forall_forall in Hv. by apply Hv.
Qed.

Lemma find_value values e : NoDup (map ev_value values) -> In e values ->
  List.find (fun e' => ev_value e' =? ev_value e) values = Some e.
Proof.
  intros Hnd He. induction values as [|e' values IH]; [done|]. cbn [map List.find] in *.
  apply NoDup_cons in Hnd as [Hn Hnd]. destruct He as [->|He]; [by rewrite Z.eqb_refl|].
  destruct (Z.eqb_spec (ev_value e') (ev_value e)) as [E|]; [|by apply IH].
  destruct Hn. rewrite E, list_elem_of_In. by apply in_map.
Qed.

Lemma enum_reads_back codec le image offset bit_offset size_bits values value source p size image' range :
  bytes_ok image -> 0 <= offset -> is_u8 bit_offset ->
  readable (TypeEnum size_bits values) value ->
  encode_enum size_bits values value source = Ok p ->
  place_checked le image offset bit_offset p size = Ok (image', range) ->
  exists t, decode_value codec (Some (TypeEnum size_bits values)) image' offset bit_offset le = Some t /\
    encode_enum size_bits values (Some t) source = Ok p.
Proof.
  intros Hi Ho Hb (Hbits & Hi64 & Hbin) He Hp. unfold encode_enum in He.
  fold (enum_number values (default [48] value)) in He. set (bits := default 8 size_bits) in *.
  destruct (enum_number values (default [48] value)) as [n|e] eqn:En; [|done].
  pose proof (enum_number_range values _ n Hi64 En) as Hn.
  destruct (_ && _)%bool eqn:Em; [done|]. destruct Hbin as [Hnone|(Hnd & Hmem & Hall)].
  - assert (Eb : forall m, (e ← List.find (fun e => ev_value e =? m) values; ev_binary_value e) = None).
    { intros m. destruct (List.find (fun e => ev_value e =? m) values) as [e|] eqn:Ef; [|reflexivity]. apply List.find_some in Ef as [Hin _].
      rewrite List.Forall_forall in Hnone. exact (Hnone e Hin). }
    rewrite Eb in He. exists (to_text n). unfold decode_value. fold bits.
    assert (Ex : existsb (fun v => bool_decide (is_Some (ev_binary_value v))) values = false).
    { apply not_true_is_false. intros (e & Hin & Hs)%existsb_exists. rewrite List.Forall_forall in Hnone.
      rewrite (Hnone e Hin) in Hs. apply bool_decide_eq_true in Hs. by destruct Hs. }
    rewrite Ex, (int_branch le image offset bit_offset bits n p size image' range) by done. split; [done|].
    unfold encode_enum. cbn [default option_rect from_option id]. rewrite parse_printed by done.
    rewrite Em, Eb. exact He.
  - destruct (List.find (fun e => ev_value e =? n) values) as [e|] eqn:Ef; cbn [mbind option_bind] in He.
    + apply List.find_some in Ef as [Hin Een]. destruct (Hall e Hin) as (octets & Eo & Hok). rewrite Eo in He.
      injection He as <-. fold bits in Hok.
      assert (Hspan : 0 < span_len (binary_value_placement bits octets)).
      { unfold binary_value_placement. destruct (Z.eqb_spec (bits mod 8) 0) as [E8|]; cbn [span_len]; [|lia].
        unfold zlen. rewrite length_app, length_take, length_replicate.
        pose proof (Z.div_mod bits 8 ltac:(lia)). lia. }
      pose proof (placed_matches le image offset bit_offset _ size image' range Hi Ho Hb Hok Hspan
        (binary_placement_le le bit_offset bits octets) Hp) as Hm.
      unfold decode_value. fold bits.
      assert (Ex : existsb (fun v => bool_decide (is_Some (ev_binary_value v))) values = true).
      { apply existsb_exists. exists e. split; [done|]. apply bool_decide_eq_true. by rewrite Eo. }
      rewrite Ex. destruct (List.find _ values) as [e'|] eqn:Ef'.
      * apply List.find_some in Ef' as [Hin' Hm']. destruct (ev_binary_value e') as [o'|] eqn:Eo'; [|done].
        eexists. split; [reflexivity|]. unfold encode_enum. cbn [default option_rect from_option id].
        rewrite List.Forall_forall in Hi64. rewrite parse_printed by (by apply Hi64).
        assert (Ein : existsb (fun e => ev_value e =? ev_value e') values = true).
        { apply existsb_exists. exists e'. split; [done|apply Z.eqb_refl]. }
        rewrite Ein, andb_false_r. cbn [andb]. rewrite find_value by done. cbn [mbind option_bind]. rewrite Eo'.
        f_equal. fold bits. by eapply binary_match_same.
      * exfalso. pose proof (List.find_none _ _ Ef' e Hin) as Hc. cbn beta in Hc. rewrite Eo in Hc. congruence.
    + exfalso. specialize (Hmem n eq_refl). apply in_map_iff in Hmem as (e & <- & Hin).
      rewrite find_value in Ef by done. done.
Qed.

Lemma parse_u32_range t n : parse_u32 t = Some n -> is_u32 n.
Proof.
  assert (Hu : forall t v, parse_unsigned t = Some v -> 0 <= v).
  { intros [|c t0] v; [done|]. by apply parse_digits_nonneg. }
  assert (Hb : forall o : option Z, (forall v, o = Some v -> 0 <= v) ->
    (m ← o; if m <=? u32_max then Some m else None) = Some n -> is_u32 n).
  { intros [m|] Hm; [|done]. cbn [mbind option_bind]. destruct (Z.leb_spec m u32_max); [|done]. intros [= <-].
    specialize (Hm m eq_refl). unfold is_u32, u32_max in *. lia. }
  unfold parse_u32. apply Hb. intros v. destruct t as [|c t]; [apply Hu|].
  destruct (Z.eq_dec c 43) as [->|Hc]; [apply Hu|]. rewrite plus_match by done. apply Hu.
Qed.

Lemma ip_parts_ok t octets : parse_ipv4 t = Some octets -> bytes_ok octets /\ zlen octets = 4.
Proof.
  assert (Ho : forall t o, parse_ip_octet t = Some o -> is_u8 o).
  { intros t0 o E.
    assert (Hb : (n ← parse_digits 0 t0; if n <=? 255 then Some n else None) = Some o -> is_u8 o).
    { destruct (parse_digits 0 t0) as [v|] eqn:Ev; [|done]. cbn [mbind option_bind].
      destruct (Z.leb_spec v 255); [|done]. intros [= <-]. pose proof (parse_digits_nonneg t0 0 v ltac:(lia) Ev). unfold is_u8. lia. }
    apply Hb. unfold parse_ip_octet in E. destruct t0 as [|c [|c' t0]]; [done| |].
    - destruct c as [|q|]; try exact E. do 6 (destruct q as [q|q|]; try exact E).
    - assert (H : (if (3 <? length (c :: c' :: t0))%nat then None
         else n ← parse_digits 0 (c :: c' :: t0); if n <=? 255 then Some n else None) = Some o).
      { destruct c as [|q|]; try exact E. do 6 (destruct q as [q|q|]; try exact E). done. }
      destruct (_ <? _)%nat; [done|exact H]. }
  unfold parse_ipv4. destruct (split_dots t) as [|a [|b [|c [|d [|x l]]]]]; try done.
  destruct (parse_ip_octet a) as [a'|] eqn:Ea; [|done]. destruct (parse_ip_octet b) as [b'|] eqn:Eb; [|done].
  destruct (parse_ip_octet c) as [c'|] eqn:Ec; [|done]. destruct (parse_ip_octet d) as [d'|] eqn:Ed; [|done].
  intros [= <-]. split; [|done].
  apply Forall_cons_2; [by eapply Ho|]. apply three_octets; by eapply Ho.
Qed.

Lemma encode_ip_ok value p : encode_ip_address value = Ok p ->
  exists a b c d, p = PBytes [a; b; c; d] /\ bytes_ok [a; b; c; d].
Proof.
  unfold encode_ip_address. destruct (parse_ipv4 _) as [octets|] eqn:E.
  - intros [= <-]. destruct (ip_parts_ok _ _ E) as [Hok Hl]. unfold zlen in Hl.
    destruct octets as [|a [|b [|c [|d [|x l]]]]]; cbn [length] in Hl; try lia. by exists a, b, c, d.
  - destruct (parse_u32 _) as [n|]; [|done]. intros [= <-].
    eexists _, _, _, _. split; [reflexivity|exact (be_bytes_ok 4 n)].
Qed.

Lemma packed_spec secs : 0 <= secs < 86400 ->
  as_u8 (secs mod 60) + as_u8 ((secs / 60) mod 60) * 60 + as_u8 (secs / 3600) * 3600 = secs.
Proof.
  intros Hs. pose proof (Z.div_mod secs 60 ltac:(lia)). pose proof (Z.mod_pos_bound secs 60 ltac:(lia)).
  pose proof (Z.div_mod (secs / 60) 60 ltac:(lia)). pose proof (Z.mod_pos_bound (secs / 60) 60 ltac:(lia)).
  assert (E : secs / 3600 = secs / 60 / 60) by (by rewrite Z.div_div by lia). rewrite E. unfold as_u8.
  rewrite !(Z.mod_small _ 256) by lia. lia.
Qed.

Lemma colour_octets space value octets : ColorSpace_encode space value = Ok octets ->
  zlen octets = Z.of_nat (ColorSpace_octets space).
Proof.
  intros E. destruct (decode_encoded colour_dist colour_nearer space value octets E) as (t & Ed & _).
  unfold ColorSpace_decode in Ed. destruct (Nat.eqb_spec (length octets) (ColorSpace_octets space)) as [Hl|]; [|done].
  unfold zlen. by rewrite Hl.
Qed.

(** ** Lemmas: what is encoded can be placed *)

Definition type_ok (ptype : ParameterType) : Prop :=
  match ptype with
  | TypeInt size_bits _ _ _ => 0 <= default 8 size_bits
  | TypeEnum size_bits values =>
      0 <= default 8 size_bits /\ Forall (fun e => is_i64 (ev_value e)) values /\
      forall e octets, In e values -> ev_binary_value e = Some octets ->
        bytes_ok octets /\ (default 8 size_bits mod 8 = 0 \/ default 8 size_bits <= 64)
  | TypeOther _ size_bits _ => 0 <= default 8 size_bits
  | _ => True
  end.

Lemma bytes_ok_replicate n b : is_u8 b -> bytes_ok (replicate n b).
Proof. intros Hb. by apply Forall_replicate. Qed.

Lemma int_placement_ok bits signed n p : 0 <= bits -> is_i64 n -> encode_int_bits bits signed n = Ok p ->
  placement_ok p.
Proof.
  intros Hb Hn E. destruct (Z.eq_dec bits 0) as [->|Hne]; [by injection E as <-|].
  destruct (encode_int_bits_ok bits signed n p Hn ltac:(lia) E) as [(_ & _ & _ & ->)|(Hw & _ & ->)]; cbn [placement_ok].
  - apply bytes_ok_app. split; [|apply be_bytes_ok]. apply bytes_ok_replicate. unfold is_u8. destruct (n <? 0); lia.
  - split; [lia|]. apply Z.mod_pos_bound, Z.pow_pos_nonneg; lia.
Qed.

Lemma binary_placement_ok bits octets : 0 <= bits -> bytes_ok octets -> bits mod 8 = 0 \/ bits <= 64 ->
  placement_ok (binary_value_placement bits octets).
Proof.
  intros Hb Ho Hbits. unfold binary_value_placement. destruct (Z.eqb_spec (bits mod 8) 0) as [E|E].
  - apply bytes_ok_app. split; [by apply bytes_ok_take|]. apply bytes_ok_replicate. unfold is_u8. lia.
  - destruct Hbits as [|Hbits]; [done|]. cbn [placement_ok]. assert (bits <> 0) by (intros ->; done). split; [lia|]. set (v := foldl _ 0 _).
    assert (E64 : bits < 64) by (destruct (Z.eq_dec bits 64) as [->|]; [done|lia]).
    rewrite (proj2 (Z.leb_gt 64 bits)), (land_mask bits) by (lia || (rewrite Z.shiftl_mul_pow2; lia)).
    apply Z.mod_pos_bound, Z.pow_pos_nonneg; lia.
Qed.

Lemma utf8_octets t : Forall is_char t -> bytes_ok (utf8 t).
Proof.
  induction 1 as [|c t [Hc _] H IH]; [constructor|]. cbn [utf8 flat_map]. apply bytes_ok_app. split; [|exact IH].
  unfold utf8_char.
  pose proof (Z.mod_pos_bound c 64 ltac:(lia)). pose proof (Z.mod_pos_bound (c / 64) 64 ltac:(lia)).
  pose proof (Z.mod_pos_bound (c / 4096) 64 ltac:(lia)).
  destruct (Z.ltb_spec c 128); [apply Forall_cons_2; [unfold is_u8; lia|apply Forall_nil_2]|].
  assert (0 <= c / 64) by (apply Z.div_pos; lia). assert (0 <= c / 4096) by (apply Z.div_pos; lia).
  assert (0 <= c / 262144) by (apply Z.div_pos; lia).
  destruct (Z.ltb_spec c 2048); [|destruct (Z.ltb_spec c 65536)].
  - assert (c / 64 < 32) by (apply Z.div_lt_upper_bound; lia).
    repeat (apply Forall_cons_2; [unfold is_u8; lia|]). apply Forall_nil_2.
  - assert (c / 4096 < 16) by (apply Z.div_lt_upper_bound; lia).
    repeat (apply Forall_cons_2; [unfold is_u8; lia|]). apply Forall_nil_2.
  - assert (c / 262144 < 5) by (apply Z.div_lt_upper_bound; lia).
    repeat (apply Forall_cons_2; [unfold is_u8; lia|]). apply Forall_nil_2.
Qed.

Lemma text_octets_ok codec t len octets : Forall is_char t -> TextCodec_encode codec t len = Ok octets -> bytes_ok octets.
Proof.
  intros Ht. unfold TextCodec_encode. destruct (match codec with Utf8 => _ | _ => _ end) as [out|] eqn:E; [|done].
  destruct (_ <? _)%nat; [done|]. intros [= <-]. apply bytes_ok_app.
  split; [|apply bytes_ok_replicate; unfold is_u8; lia]. destruct (decide (codec = Utf8)) as [->|Hn].
  - injection E as <-. by apply utf8_octets.
  - assert (E' : one_octet_each codec t = Ok out) by (by destruct codec). by apply (one_octet_each_ok codec t out Ht E').
Qed.

Lemma encode_value_ok codec ptype value source p : default True (option_map type_ok ptype) ->
  Forall is_char (default [] value) -> encode_value codec ptype value source = Ok p -> placement_ok p.
Proof.
  intros Ht Hv E. destruct ptype as [ptype|]; [|by injection E as <-]. cbn in Ht.
  destruct ptype as [size_bits min max signed|size_bits values|size_bits|encoding max| |space|kind size_bits unit];
    cbn [encode_value type_ok] in *.
  - destruct (parse_i64 _) as [n|] eqn:En; [|done]. pose proof (parse_i64_range _ _ En) as Hn.
    unfold encode_int in E. destruct (match min with Some _ => _ | None => _ end) in E; [destruct source|];
      try done; by eapply int_placement_ok.
  - unfold encode_enum in E. fold (enum_number values (default [48] value)) in E.
    destruct Ht as (Hb & Hi64 & Hbin). destruct (enum_number _ _) as [n|] eqn:En; [|done].
    pose proof (enum_number_range _ _ _ Hi64 En) as Hn. destruct (_ && _)%bool; [done|].
    destruct (List.find (fun e => ev_value e =? n) values) as [e|] eqn:Ef; cbn [mbind option_bind] in E.
    + destruct (ev_binary_value e) as [octets|] eqn:Eo; [|by eapply int_placement_ok].
      apply List.find_some in Ef as [Hin _]. destruct (Hbin e octets Hin Eo) as [H1 H2]. injection E as <-.
      by apply binary_placement_ok.
    + by eapply int_placement_ok.
  - destruct (TextCodec_encode _ _ _) as [octets|] eqn:Ee; [|done]. injection E as <-. by eapply text_octets_ok.
  - destruct (encode_float encoding max value) as [octets|] eqn:Ee; [|done]. injection E as <-. by eapply float_octets.
  - by injection E as <-.
  - destruct (ColorSpace_encode _ _) as [octets|] eqn:Ee; [|done]. injection E as <-.
    by destruct (decode_encoded colour_dist colour_nearer _ _ _ Ee) as (t & _ & Hok).
  - destruct (bool_decide (kind = "TypeRawData")).
    { unfold encode_raw_data in E. destruct (match value with Some v => _ | None => _ end) as [|c raw]; [by injection E as <-|].
      destruct (base64_decode (c :: raw)) as [data|] eqn:Ed; [|done]. destruct (_ <? _); [done|]. injection E as <-.
      change (bytes_ok (be_bytes 4 (zlen data) ++ data)). apply bytes_ok_app.
      split; [apply be_bytes_ok|by eapply base64_octets]. }
    destruct (bool_decide (kind = "TypeIPAddress")).
    { destruct (encode_ip_ok _ _ E) as (a & b & c & d & -> & Hok). done. }
    destruct (bool_decide (kind = "TypeColor")); [done|]. destruct (is_packed_time kind size_bits unit).
    { unfold encode_packed_hms in E. destruct (parse_u32 _); [|done]. destruct (_ <=? _); [done|]. injection E as <-.
      assert (Hu : forall x, is_u8 (as_u8 x)) by (intros x; unfold is_u8, as_u8; apply Z.mod_pos_bound; lia).
      by apply three_octets. }
    destruct size_bits as [bits|], value as [v|]; try (by injection E as <-).
    + destruct (bits mod 8 =? 0); [|by injection E as <-]. destruct (parse_i64 (trim v)) as [n|] eqn:En; [|done].
      pose proof (parse_i64_range _ _ En). by eapply int_placement_ok.
    + destruct (bool_decide _); [by injection E as <-|done].
Qed.

(** ** Theorems *)

Lemma value_read_back codec le image offset bit_offset ptype value source p size image' range
    (Hi : bytes_ok image) (Ho : 0 <= offset) (Hb : is_u8 bit_offset) (Hr : readable ptype value)
    (He : encode_value codec (Some ptype) value source = Ok p)
    (Hp : place_checked le image offset bit_offset p size = Ok (image', range)) (Hne : p <> PEmpty) :
  exists t, decode_value codec (Some ptype) image' offset bit_offset le = Some t /\
    encode_value codec (Some ptype) (Some t) source = Ok p.
Proof.
  destruct ptype as [size_bits min max signed|size_bits values|size_bits|encoding max| |space|kind size_bits unit];
    cbn [readable encode_value decode_value] in *; try done.
  - destruct (parse_i64 _) as [n|] eqn:En; [|done]. pose proof (parse_i64_range _ _ En) as Hn.
    assert (Hbits : encode_int_bits (default 8 size_bits) signed n = Ok p).
    { unfold encode_int in He. destruct (match min with Some _ => _ | None => _ end); [|done]. by destruct source. }
    exists (to_text n). split; [|cbn [default option_rect from_option id]; by rewrite parse_printed].
    pose proof (int_reads_back le image offset bit_offset _ signed n p size image' range Hi Ho Hb Hr Hn Hbits Hp) as E.
    change (decode_int (Some (default 8 size_bits))) with (decode_int size_bits) in E. by rewrite E.
  - by apply (enum_reads_back codec le image offset bit_offset size_bits values value source p size image' range).
  - destruct (TextCodec_encode codec _ _) as [octets|] eqn:Et; [|done]. injection He as <-.
    destruct Hr as (Hs & Hc & Hl). destruct (text_round codec _ _ _ Hc Hl Et) as [Hlen Hd].
    pose proof (placed_octets _ _ _ _ _ _ _ _ Ho Hp) as Hget.
    assert (Hz : zlen octets = default 0 size_bits / 8).
    { unfold zlen. rewrite Hlen. apply Z2Nat.id, Z.div_pos; lia. }
    rewrite Hz in Hget. rewrite Hget. eexists. split; [reflexivity|].
    rewrite Hd. cbn [default option_rect from_option id]. by rewrite Et.
  - destruct (ColorSpace_encode space _) as [octets|] eqn:Ec; [|done]. injection He as <-.
    pose proof (placed_octets _ _ _ _ _ _ _ _ Ho Hp) as Hget. rewrite (colour_octets _ _ _ Ec) in Hget.
    rewrite Hget. cbn [mbind option_bind].
    destruct (decode_encoded colour_dist colour_nearer space _ octets Ec) as (t & Ed & Hok).
    exists (35 :: t). split; [done|]. cbn [default option_rect from_option id].
    by rewrite (encode_decoded colour_dist colour_nearer space octets t Hok Ed).
  - destruct Hr as [Hraw Hcase]. rewrite (bool_decide_eq_false_2 _ Hraw) in *.
    destruct (bool_decide (kind = "TypeIPAddress")) eqn:Eip.
    { destruct (encode_ip_ok _ _ He) as (a & b & c & d & -> & Hok).
      pose proof (placed_octets _ _ _ _ _ _ _ _ Ho Hp) as Hget. change (zlen [a; b; c; d]) with 4 in Hget.
      rewrite Hget. eexists. split; [reflexivity|]. unfold encode_ip_address. cbn [default option_rect from_option id].
      apply Forall_cons_1 in Hok as [Ha Hok]. apply Forall_cons_1 in Hok as [Hb' Hok].
      apply Forall_cons_1 in Hok as [Hc Hok]. apply Forall_cons_1 in Hok as [Hd _].
      destruct (parse_printed_ipv4 a b c d Ha Hb' Hc Hd) as [-> ->]. done. }
    destruct (bool_decide (kind = "TypeColor")); [done|].
    destruct (is_packed_time kind size_bits unit) eqn:Epk.
    { unfold encode_packed_hms in He. destruct (parse_u32 _) as [secs|] eqn:Es; [|done].
      destruct (Z.leb_spec (24 * 3600) secs); [done|]. injection He as <-.
      pose proof (parse_u32_range _ _ Es) as Hu. unfold is_u32 in Hu.
      pose proof (placed_octets _ _ _ _ _ _ _ _ Ho Hp) as Hget. change (zlen [_; _; _]) with 3 in Hget.
      rewrite Hget. eexists. split; [reflexivity|]. rewrite packed_spec by lia. unfold encode_packed_hms.
      rewrite (trim_id _ (to_text_solid secs)), parse_printed_u32 by (unfold is_u32; lia).
      by rewrite (proj2 (Z.leb_gt _ _)) by lia. }
    destruct Hcase as [->|[Hc|(bits & -> & Hbits)]]; [by rewrite bool_decide_eq_true_2 in Eip|done|].
    destruct value as [v|]; [|injection He as <-; done].
    destruct (Z.eqb_spec (bits mod 8) 0) as [E8|]; [|injection He as <-; done].
    destruct (parse_i64 (trim v)) as [n|] eqn:En; [|done]. pose proof (parse_i64_range _ _ En) as Hn.
    exists (to_text n). cbn [mbind option_bind]. rewrite (proj2 (Z.ltb_lt 0 bits)), (proj2 (Z.leb_le bits 64)) by lia.
    cbn [andb]. rewrite (int_branch le image offset bit_offset bits n p size image' range) by done.
    rewrite E8. split; [done|]. rewrite parse_printed by done. exact He.
Qed.

(** A value written for a parameter decodes to a text that is written the same
    way: integers, enumeration members (by their octets too), texts, colours,
    addresses and durations come back as what the device holds. *)
Theorem value_reads_back codec le image offset bit_offset ptype value source p size image' range
    (Hi : bytes_ok image) (Ho : 0 <= offset) (Hb : is_u8 bit_offset) (Hr : readable ptype value)
    (He : encode_value codec (Some ptype) value source = Ok p)
    (Hp : place_checked le image offset bit_offset p size = Ok (image', range)) (Hne : p <> PEmpty) :
  exists t, decode_value codec (Some ptype) image' offset bit_offset le = Some t /\
    encode_value codec (Some ptype) (Some t) source = Ok p.
Proof. by eapply value_read_back. Qed.

End ReadBack.

(** ** Examples *)

(** No base64, no floats: values of the other types do not reach them. *)
Definition no_base64 : Base64 :=
  {| base64_decode := fun _ => None; base64_encode := fun _ => [];
     base64_octets := fun _ _ E => match E with eq_refl => I end |}.
Definition no_floats : FloatParams :=
  {| encode_float := fun _ _ _ => Err NotEncodable; decode_float := fun _ _ _ _ => None;
     float_octets := fun _ _ _ _ E => match E with eq_refl => I end |}.
#[local] Existing Instances no_base64 no_floats.
#[local] Instance demo_distance : ColourDistance := {| colour_dist := demo_dist; colour_nearer := Z.ltb |}.

(** The member "Ein" of a two-member enumeration with octets of its own. *)
Definition demo_enum : ParameterType :=
  TypeEnum (Some 16) [MkEnumValue 0 (chars "Aus") [] [] (Some [224; 6]); MkEnumValue 1 (chars "Ein") [] [] (Some [1])].

Lemma value_reads_back_witness :
  encode_value Undeclared (Some demo_enum) (Some (chars " Ein")) UserOverride = Ok (PBytes [1; 0]) /\
  exists t, decode_value Undeclared (Some demo_enum) [9; 1; 0] 1 0 false = Some t /\
    encode_value Undeclared (Some demo_enum) (Some t) UserOverride = Ok (PBytes [1; 0]).
Proof.
  assert (E : encode_value Undeclared (Some demo_enum) (Some (chars " Ein")) UserOverride = Ok (PBytes [1; 0]))
    by (vm_compute; reflexivity).
  split; [exact E|].
  assert (Hu : forall b, (0 <=? b) && (b <? 256) = true -> is_u8 b) by (unfold is_u8; lia).
  apply (value_reads_back Undeclared false [9] 1 0 demo_enum (Some (chars " Ein")) UserOverride (PBytes [1; 0])
    None [9; 1; 0] (1, 3)); [| lia|by apply Hu| |exact E|vm_compute; reflexivity|discriminate].
  - apply Forall_cons_2; [by apply Hu|apply Forall_nil_2].
  - cbn [readable demo_enum default option_rect from_option id]. split; [lia|]. split; [|right; split; [|split]].
    + repeat (apply Forall_cons_2; [unfold is_i64; cbn; lia|]). apply Forall_nil_2.
    + apply (bool_decide_unpack _). vm_compute. exact I.
    + intros n En. vm_compute in En. injection En as <-. right. by left.
    + intros e [<-|[<-|[]]]; eexists; (split; [reflexivity|]);
        (apply Forall_cons_2; [by apply Hu|apply Forall_cons_2; [by apply Hu|apply Forall_nil_2]]).
Defined.

(** An integer of another type, wider than 64 bits, is written but not read back. *)
Example wide_other_not_read_back :
  encode_value Ascii (Some (TypeOther "TypePicture" (Some 72) None)) (Some (chars "5")) VendorDefault
  = Ok (PBytes [0; 0; 0; 0; 0; 0; 0; 0; 5]) /\
  decode_value Ascii (Some (TypeOther "TypePicture" (Some 72) None)) [0; 0; 0; 0; 0; 0; 0; 0; 5] 0 0 false = None.
Proof. split; vm_compute; reflexivity. Qed.
