(* ===== verification/ParamImage.v ===== *)
(** * The parameter image of a product ([bussard-prod/src/image.rs])

    The images of the code segments of an application whose parameters are placed
    at their declared positions (no Dynamic section is evaluated): every
    parameter's default, the default members of the unions, the overrides, in that
    order, over the segments' data; then the fill of what no parameter wrote.

    Maps that the source sorts by id before it uses them are lists in the order of
    the ids.  Module keys are split by [split_selector]
    ([bussard-model/src/dynamic.rs]). *)

From Stdlib Require Import String.
From S2P Require Import Prelude Decimal TextCodec ColorCodec ParamField ParamValue Selector.

Local Open Scope string_scope.
Local Open Scope list_scope.
Local Open Scope Z_scope.

(** ** The application program *)

Inductive SegmentKind : Type := Relative | Absolute.

Record CodeSegment : Type := MkCodeSegment {
  cs_kind : SegmentKind;
  cs_size : option u32;
  cs_load_state_machine : option u32;
  cs_data : option bytes;
  cs_mask : option bytes }.

Record SegmentFill : Type := MkSegmentFill { sf_mode : u8; sf_fill : u8 }.

Definition SegmentFill_prefill (f : SegmentFill) : option u8 :=
  if negb (Z.land (sf_mode f) 1 =? 0) then Some (sf_fill f) else None.

(** The load operations the image depends on. *)
Inductive LoadOp : Type :=
| RelSegment (lsm_idx : option u32) (applies_to : option text) (fill : SegmentFill)
| OtherOp.

(** A parameter's [<Memory>]. *)
Record ParamMemory : Type := MkParamMemory {
  pm_code_segment : option text;
  pm_offset : option u32;
  pm_bit_offset : option u8;
  pm_base_offset : option text }.

(** A parameter, with its declared type resolved ([parameter_type_of]). *)
Record ProductParameter : Type := MkParameter {
  pr_id : text;
  pr_type : option ParameterType;
  pr_default : option text;
  pr_initial_value : option text;
  pr_memory : option ParamMemory }.

Record ParameterRef : Type := MkParameterRef {
  ref_id : text;
  ref_parameter : text;
  ref_value : option text }.

Record UnionMember : Type := MkUnionMember {
  um_parameter : text;
  um_offset : option u32;
  um_bit_offset : option u8;
  um_is_default : bool }.

Record ParamUnion : Type := MkParamUnion {
  un_size_bits : option u32;
  un_memory : option ParamMemory;
  un_members : list UnionMember }.

Record ModuleInstance : Type := MkModuleInstance {
  mi_id : text;
  mi_arg_values : gmap text Z }.

Record ApplicationProgram : Type := MkApplicationProgram {
  app_id : text;
  app_parameters : list ProductParameter;
  app_parameter_refs : list ParameterRef;
  app_unions : list ParamUnion;
  app_module_instances : list ModuleInstance;
  app_channel_parameter_refs : option (list text);
  app_code_segments : gmap text CodeSegment;
  app_load_ops : list LoadOp;
  app_text_parameter_encoding : option text;
  app_parameters_little_endian : bool }.

Definition find_parameter (app : ApplicationProgram) (id : text) : option ProductParameter :=
  List.find (fun p => bool_decide (pr_id p = id)) (app_parameters app).

Definition find_ref (app : ApplicationProgram) (id : text) : option ParameterRef :=
  List.find (fun r => bool_decide (ref_id r = id)) (app_parameter_refs app).

(** ** Keys *)

(** [rest.split('_').next()]. *)
Fixpoint until_underscore (t : text) : text :=
  match t with c :: t => if c =? 95 then [] else c :: until_underscore t | [] => [] end.

Definition under_app (app : ApplicationProgram) (rel : text) : text := app_id app ++ chars "_" ++ rel.

Definition resolve_parameter_key (app : ApplicationProgram) (key : text) : option (ProductParameter * option text) :=
  let '(instance, param_ref) := split_selector key in
  param ← match find_ref app (under_app app param_ref) with
          | Some pref => find_parameter app (ref_parameter pref)
          | None =>
              '(rel, _) ← rsplit_once (chars "_R-") param_ref;
              match find_parameter app (under_app app rel) with
              | Some p => Some p
              | None => find_parameter app rel
              end
          end;
  let selector := inst ← instance; rest ← strip_prefix (inst ++ chars "_MI-") key;
                  Some (inst ++ chars "_MI-" ++ until_underscore rest) in
  Some (param, selector).

(** ** Slots *)

Record Slot : Type := MkSlot {
  sl_type : option ParameterType;
  sl_segment : text;
  sl_offset : Z;
  sl_bit_offset : u8;
  sl_value : option text;
  sl_is_override : bool }.

Definition default_of (app : ApplicationProgram) (param : ProductParameter) : option text :=
  match pr_initial_value param with
  | Some v => Some v
  | None =>
      match List.find (fun r => bool_decide (ref_parameter r = pr_id param) && bool_decide (is_Some (ref_value r)))
              (app_parameter_refs app) with
      | Some r => ref_value r
      | None => pr_default param
      end
  end.

Definition default_slot (app : ApplicationProgram) (param : ProductParameter) (segment : text) (offset : Z)
    (bit_offset : u8) : Slot :=
  MkSlot (pr_type param) segment offset bit_offset (default_of app param) false.

(** The parameters a channel shows, of a module application. *)
Definition module_referenced_params (app : ApplicationProgram) : option (list text) :=
  match app_module_instances app with
  | [] => None
  | _ =>
      option_map (fun refs : list text =>
          omap (fun rel => option_map ref_parameter (find_ref app (under_app app rel))) refs)
        (app_channel_parameter_refs app)
  end.

Definition USIZE (v : Z) : option Z := if (0 <=? v) && (v <=? USIZE_MAX) then Some v else None.

Definition I64_MAX : Z := 9223372036854775807.

Definition i64_checked_add (a b : Z) : option Z :=
  if (- I64_MAX - 1 <=? a + b) && (a + b <=? I64_MAX) then Some (a + b) else None.

(** A parameter's own slots: none, one, or one per module instance. *)
Definition parameter_slots (app : ApplicationProgram) (param : ProductParameter) : list (result ParamError Slot) :=
  match (mem ← pr_memory param; segment ← pm_code_segment mem; Some (mem, segment)) with
  | None => []
  | Some (mem, segment) =>
      match pm_offset mem with
      | None => [Err MissingOffset]
      | Some offset =>
          let bit_offset := default 0 (pm_bit_offset mem) in
          match pm_base_offset mem, module_referenced_params app with
          | Some base_arg, Some referenced =>
              if negb (bool_decide (pr_id param ∈ referenced)) then []
              else
                let rel_arg := default base_arg (strip_prefix (app_id app ++ chars "_") base_arg) in
                map (fun instance =>
                    match mi_arg_values instance !! rel_arg with
                    | None => Err NoArgumentValue
                    | Some base =>
                        match v ← i64_checked_add offset base; USIZE v with
                        | Some at_ => Ok (default_slot app param segment at_ bit_offset)
                        | None => Err OutOfRangeAddress
                        end
                    end)
                  (app_module_instances app)
          | _, _ => [Ok (default_slot app param segment offset bit_offset)]
          end
      end
  end.

Definition union_member_position (union_offset : u32) (union_bit_offset : option u8) (member : UnionMember)
    : u32 * u8 :=
  let bits := default 0 union_bit_offset + default 0 (um_bit_offset member) in
  (u32_saturating_add (u32_saturating_add union_offset (default 0 (um_offset member))) (bits / 8), bits mod 8).

Definition union_slots (app : ApplicationProgram) (union : ParamUnion) : list (result ParamError Slot) :=
  match (mem ← un_memory union; segment ← pm_code_segment mem; base ← pm_offset mem;
         member ← match List.find um_is_default (un_members union) with
                  | Some m => Some m
                  | None => head (un_members union)
                  end;
         param ← find_parameter app (um_parameter member);
         let '(offset, bit_offset) := union_member_position base (pm_bit_offset mem) member in
         Some (default_slot app param segment offset bit_offset)) with
  | Some slot => [Ok slot]
  | None => []
  end.

Record OverrideMemory : Type := MkOverrideMemory {
  om_segment : option text;
  om_offset : option u32;
  om_bit_offset : u8;
  om_module_relative : bool }.

Definition override_memory (app : ApplicationProgram) (param : ProductParameter) : option OverrideMemory :=
  match pr_memory param with
  | Some mem =>
      Some (MkOverrideMemory (pm_code_segment mem) (pm_offset mem) (default 0 (pm_bit_offset mem))
              (bool_decide (is_Some (pm_base_offset mem))))
  | None =>
      head (omap (fun union =>
          member ← List.find (fun m => bool_decide (um_parameter m = pr_id param)) (un_members union);
          mem ← un_memory union; base ← pm_offset mem;
          let '(offset, bit_offset) := union_member_position base (pm_bit_offset mem) member in
          Some (MkOverrideMemory (pm_code_segment mem) (Some offset) bit_offset
                  (bool_decide (is_Some (pm_base_offset mem)))))
        (app_unions app))
  end.

Definition override_offset (mem : OverrideMemory) (instance : option text) (base_offsets : gmap text u32)
    : result ParamError (text * Z) :=
  match om_segment mem, om_offset mem with
  | None, _ => Err NoSegment
  | _, None => Err MissingOffset
  | Some segment, Some declared =>
      if negb (om_module_relative mem) then Ok (segment, declared)
      else
        match instance with
        | None => Err NoInstanceSelector
        | Some selector =>
            match base_offsets !! selector with
            | None => Err NoInstanceBase
            | Some base => if declared + base <=? u32_max then Ok (segment, declared + base) else Err OffsetOverflow
            end
        end
  end.

Definition override_slots (app : ApplicationProgram) (base_offsets : gmap text u32) (key raw_value : text)
    : list (result ParamError Slot) :=
  match resolve_parameter_key app key with
  | None =>
      match rsplit_once (chars "_R-") (snd (split_selector key)) with
      | Some _ => [Err UnknownParameter]
      | None => [Err InvalidKey]
      end
  | Some (param, instance) =>
      match override_memory app param with
      | None => []
      | Some mem =>
          match override_offset mem instance base_offsets with
          | Err e => [Err e]
          | Ok (segment, offset) =>
              [Ok (MkSlot (pr_type param) segment offset (om_bit_offset mem) (Some raw_value) true)]
          end
      end
  end.

Definition static_parameter_slots (app : ApplicationProgram) (overrides : list (text * text))
    (base_offsets : gmap text u32) : list (result ParamError Slot) :=
  flat_map (parameter_slots app) (app_parameters app) ++
  flat_map (union_slots app) (app_unions app) ++
  flat_map (fun '(key, raw_value) => override_slots app base_offsets key raw_value) overrides.

(** ** Segments *)

Definition segment_ok (seg : CodeSegment) : result ParamError unit :=
  let oversized (payload : option bytes) (limit : Z) :=
    match payload with Some octets => limit <? zlen octets | None => false end in
  if match cs_size seg with Some sz => MAX_SEGMENT_IMAGE <? sz | None => false end then Err OversizedSegment
  else
    let limit := default MAX_SEGMENT_IMAGE (cs_size seg) in
    if oversized (cs_data seg) limit || oversized (cs_mask seg) limit then Err OversizedPayload else Ok tt.

(** Which of several refusals is reported (the first in the order of the ids) is
    not modelled. *)
Definition validate_segments (app : ApplicationProgram) : result ParamError unit :=
  foldr (fun e r => match segment_ok (snd e) with Ok _ => r | Err e => Err e end) (Ok tt)
    (map_to_list (app_code_segments app)).

Definition base_image (app : ApplicationProgram) (seg_id : text) : bytes :=
  default [] (seg ← app_code_segments app !! seg_id; cs_data seg).

Definition ERASED_FILL : u8 := 255.

(** The parts between commas. *)
Fixpoint split_commas (t : text) : list text :=
  match t with
  | [] => [[]]
  | c :: t =>
      if c =? 44 then [] :: split_commas t
      else match split_commas t with part :: parts => (c :: part) :: parts | [] => [[c]] end
  end.

Definition applies_to_full (applies_to : option text) : bool :=
  match applies_to with
  | None => true
  | Some a => existsb (fun part => bool_decide (trim part = chars "full")) (split_commas a)
  end.

Definition unplaced_fill (app : ApplicationProgram) (seg : CodeSegment) : u8 :=
  match cs_load_state_machine seg with
  | None => ERASED_FILL
  | Some lsm =>
      default ERASED_FILL
        (fill ← head (omap (fun op => match op with
                                      | RelSegment (Some idx) applies_to fill =>
                                          if (idx =? lsm) && applies_to_full applies_to then Some fill else None
                                      | _ => None
                                      end) (app_load_ops app));
         SegmentFill_prefill fill)
  end.

(** ** The image *)

Abbreviation Images := (gmap text bytes).
Abbreviation PlacedOctets := (gmap text (gset Z)).

(** The octets of a range. *)
Definition octet_range (range : Z * Z) : gset Z := list_to_set (seqZ (fst range) (snd range - fst range)).

Definition mark (placed : PlacedOctets) (seg_id : text) (range : Z * Z) : PlacedOctets :=
  if snd range <=? fst range then placed
  else <[seg_id := default ∅ (placed !! seg_id) ∪ octet_range range]> placed.

(** [apply_erased_fill] on one image. *)
Definition erased_fill (app : ApplicationProgram) (placed : PlacedOctets) (seg_id : text) (image : bytes) : bytes :=
  match app_code_segments app !! seg_id with
  | Some seg =>
      match cs_kind seg, cs_data seg with
      | Relative, None =>
          let written := default ∅ (placed !! seg_id) in
          imap (fun i octet => if bool_decide (Z.of_nat i ∈ written) then octet else unplaced_fill app seg) image
      | _, _ => image
      end
  | None => image
  end.

Section Image.
  Context `{HB : Base64} `{HF : FloatParams} `{HC : ColourDistance}.

Definition text_codec (app : ApplicationProgram) : TextCodec :=
  TextCodec_from_declaration (app_text_parameter_encoding app).

Definition slot_source (slot : Slot) : ValueSource := if sl_is_override slot then UserOverride else VendorDefault.

(** The placement of a slot's value, in the program's byte order. *)
Definition encode_slot (app : ApplicationProgram) (slot : Slot) : result ParamError Placement :=
  encode_value (text_codec app) (sl_type slot) (sl_value slot) (slot_source slot).

Definition write_slot (app : ApplicationProgram) (images : Images) (slot : Slot)
    : result ParamError (Images * (Z * Z)) :=
  match encode_slot app slot with
  | Err e => Err e
  | Ok placement =>
      let seg_size := seg ← app_code_segments app !! sl_segment slot; cs_size seg in
      let image := default (base_image app (sl_segment slot)) (images !! sl_segment slot) in
      match place_checked (app_parameters_little_endian app) image (sl_offset slot) (sl_bit_offset slot)
              placement seg_size with
      | Err e => Err e
      | Ok (image, range) => Ok (<[sl_segment slot := image]> images, range)
      end
  end.

Fixpoint write_slots (app : ApplicationProgram) (slots : list (result ParamError Slot)) (images : Images)
    (placed : PlacedOctets) : result ParamError (Images * PlacedOctets) :=
  match slots with
  | [] => Ok (images, placed)
  | Err e :: _ => Err e
  | Ok slot :: slots =>
      match write_slot app images slot with
      | Err e => Err e
      | Ok (images, range) => write_slots app slots images (mark placed (sl_segment slot) range)
      end
  end.

(** [compute_parameter_image_placed_with] without a Dynamic section to evaluate;
    [triggered] says whether an override would run a calculation. *)
Definition compute_parameter_image_placed (app : ApplicationProgram) (triggered : bool)
    (overrides : list (text * text)) (base_offsets : gmap text u32) : result ParamError (Images * PlacedOctets) :=
  if triggered then Err CalculationTriggered
  else
    match validate_segments app with
    | Err e => Err e
    | Ok _ =>
        match write_slots app (static_parameter_slots app overrides base_offsets) ∅ ∅ with
        | Err e => Err e
        | Ok (images, placed) => Ok (map_imap (fun seg_id image => Some (erased_fill app placed seg_id image)) images, placed)
        end
    end.

End Image.

(** ** Lemmas: what the slots leave *)

Section ImageSpec.
  Context `{HB : Base64} `{HF : FloatParams} `{HC : ColourDistance}.
  Variable app : ApplicationProgram.

(** A slot the model can hold. *)
Definition slot_ok (slot : Slot) : Prop :=
  0 <= sl_offset slot /\ is_u8 (sl_bit_offset slot) /\ default True (option_map type_ok (sl_type slot)) /\
  Forall is_char (default [] (sl_value slot)).

Definition slot_placement (slot : Slot) : Placement :=
  match encode_slot app slot with
  | Ok p => ordered (app_parameters_little_endian app) (sl_bit_offset slot) p
  | Err _ => PEmpty
  end.

Definition slot_start (slot : Slot) : Z := span_start (sl_offset slot) (sl_bit_offset slot) (slot_placement slot).

(** The octets the image has at least after the slot. *)
Definition slot_octets (slot : Slot) : Z := span_octets (sl_offset slot) (sl_bit_offset slot) (slot_placement slot).

(** The slot covers the bit of the segment. *)
Definition covers (seg : text) (pos : Z) (slot : Slot) : bool :=
  bool_decide (sl_segment slot = seg) && (slot_start slot <=? pos)
  && (pos <? slot_start slot + span_len (slot_placement slot)).

(** The bit after a slot: the slot's where it covers it. *)
Definition bit_after (seg : text) (pos : Z) (b : bool) (slot : result ParamError Slot) : bool :=
  match slot with
  | Ok slot => if covers seg pos slot then payload_bit (slot_placement slot) (pos - slot_start slot) else b
  | Err _ => b
  end.

(** The bit the slots leave: the last covering one's, else the segment's own. *)
Definition last_bit (slots : list (result ParamError Slot)) (seg : text) (pos : Z) (b : bool) : bool :=
  foldl (bit_after seg pos) b slots.

Definition covered (slots : list (result ParamError Slot)) (seg : text) (octet : Z) : Prop :=
  exists slot pos, In (Ok slot) slots /\ covers seg pos slot = true /\ pos / 8 = octet.

Definition image_of (images : Images) (seg : text) : bytes := default (base_image app seg) (images !! seg).

Definition seg_limit (seg : text) : Z := image_limit (s ← app_code_segments app !! seg; cs_size s).

(** Every image is octets, within its segment. *)
Definition images_ok (images : Images) : Prop :=
  forall seg, bytes_ok (image_of images seg) /\
    zlen (image_of images seg) <= Z.max (zlen (base_image app seg)) (seg_limit seg).

Lemma slot_encoded slot p : slot_ok slot -> encode_slot app slot = Ok p -> placement_ok p.
Proof. intros (_ & _ & Ht & Hv) E. by eapply encode_value_ok. Qed.

Lemma write_slot_spec images slot images' range : images_ok images -> slot_ok slot ->
  write_slot app images slot = Ok (images', range) ->
  images_ok images' /\
  (forall seg pos, 0 <= pos -> image_bit (image_of images' seg) pos
     = bit_after seg pos (image_bit (image_of images seg) pos) (Ok slot)) /\
  (forall seg, zlen (image_of images' seg) = if bool_decide (sl_segment slot = seg)
     then Z.max (zlen (image_of images seg)) (slot_octets slot) else zlen (image_of images seg)) /\
  forall octet, fst range <= octet < snd range <-> covered [Ok slot] (sl_segment slot) octet.
Proof.
  intros Hi Hs. pose proof Hs as (Ho & Hb & _). unfold write_slot.
  destruct (encode_slot app slot) as [p|] eqn:Ep; [|done]. pose proof (slot_encoded slot p Hs Ep) as Hp.
  fold (image_of images (sl_segment slot)). destruct (Hi (sl_segment slot)) as [Hok Hlen].
  set (image := image_of images (sl_segment slot)) in *.
  destruct (place_checked _ image _ _ p _) as [[image' [first end_]]|] eqn:Ec; [|done]. intros [= <- <-].
  unfold is_u8 in Hb. pose proof (place_checked_ok _ _ _ _ _ _ _ _ Hp Ho (proj1 Hb) Ec) as (Eimg & Hend & Esnd & Efst & _).
  assert (Eq : slot_placement slot = ordered (app_parameters_little_endian app) (sl_bit_offset slot) p)
    by (unfold slot_placement; by rewrite Ep).
  rewrite <- Eq in *. destruct (ordered_span (app_parameters_little_endian app) (sl_offset slot) (sl_bit_offset slot) p Hp)
    as (Hq & Es & El). rewrite <- Eq in *. set (q := slot_placement slot) in *.
  destruct (place_spec image (sl_offset slot) (sl_bit_offset slot) q Hok Hq Ho (proj1 Hb)) as (K & L & B).
  cbn [fst snd] in *.
  assert (Hget : forall seg, image_of (<[sl_segment slot := image']> images) seg
    = if bool_decide (sl_segment slot = seg) then image' else image_of images seg).
  { intros seg. unfold image_of. case_bool_decide as E; [by rewrite E, lookup_insert_eq|by rewrite lookup_insert_ne]. }
  assert (Hoct : span_octets (sl_offset slot) (sl_bit_offset slot) q <= seg_limit (sl_segment slot)).
  { change (image_limit _) with (seg_limit (sl_segment slot)) in Hend.
    assert (Hlim : seg_limit (sl_segment slot) <= MAX_SEGMENT_IMAGE) by apply image_limit_max.
    rewrite placement_end_exact in Hend by (done || lia). destruct q; cbn [span_octets]; lia. }
  split; [|split; [|split]].
  - intros seg. rewrite Hget. case_bool_decide as E; [|apply Hi]. rewrite <- E, Eimg. split; [done|]. rewrite L. lia.
  - intros seg pos Hpos. rewrite Hget. cbn [bit_after]. unfold covers, slot_start. fold q.
    case_bool_decide as E; [|done]. cbn [andb]. rewrite Eimg, B by done. rewrite <- E. done.
  - intros seg. rewrite Hget. case_bool_decide as E; [|done]. rewrite Eimg, L, <- E. done.
  - intros octet. assert (Hcov : covered [Ok slot] (sl_segment slot) octet <->
      exists pos, pos / 8 = octet /\ slot_start slot <= pos < slot_start slot + span_len q).
    { unfold covered, covers. fold q. split.
      - intros (s & pos & [[= <-]|[]] & Hc & Ed). exists pos. split; [done|].
        apply andb_true_iff in Hc as [[_ H1%Z.leb_le]%andb_true_iff H2%Z.ltb_lt]. done.
      - intros (pos & Ed & Hr). exists slot, pos. split; [by left|]. rewrite bool_decide_eq_true_2 by done. split; [|done].
        destruct Hr as [H1 H2]. fold q. rewrite (proj2 (Z.leb_le _ _) H1), (proj2 (Z.ltb_lt _ _) H2). done. }
    rewrite Hcov. unfold slot_start. fold q.
    destruct (Z.eq_dec (span_len p) 0) as [Hz|Hz].
    + split.
      * intros Hr. exfalso. rewrite Hz in El. destruct q as [o|o|bits v|]; cbn [span_len placement_ok] in *.
        -- assert (Hl0 : zlen o = 0) by lia. rewrite Efst, Esnd in Hr. cbn [placement_end] in Hr.
           rewrite Hl0 in Hr. unfold u64_saturating_add in Hr. lia.
        -- assert (Hl0 : zlen o = 0) by lia. rewrite Efst, Esnd in Hr. cbn [placement_end] in Hr.
           rewrite Hl0 in Hr. unfold u64_saturating_add in Hr. lia.
        -- lia.
        -- rewrite Efst, Esnd in Hr. cbn [placement_end] in Hr. lia.
      * intros (pos & _ & Hr). lia.
    + assert (Hpos : 0 < span_len p) by (destruct p; cbn [span_len placement_ok] in *; unfold zlen in *; lia).
      pose proof (checked_in_bounds (app_parameters_little_endian app) image (sl_offset slot) (sl_bit_offset slot) p
        (s ← app_code_segments app !! sl_segment slot; cs_size s) Hok Hp Hpos Ho Hb) as H.
      rewrite Ec in H. destruct H as (_ & _ & _ & _ & H). rewrite H, Es, El. 
      split; intros (k & Ek & Hk); exists k; lia.
Qed.
Definition placed_of (placed : PlacedOctets) (seg : text) : gset Z := default ∅ (placed !! seg).

Lemma mark_spec placed seg range seg' octet :
  octet ∈ placed_of (mark placed seg range) seg' <->
  octet ∈ placed_of placed seg' \/ (seg = seg' /\ fst range <= octet < snd range).
Proof.
  unfold mark. destruct (Z.leb_spec (snd range) (fst range)); [split; [by left|intros [|[_ Hr]]; [done|lia]]|].
  unfold placed_of. destruct (decide (seg = seg')) as [<-|Hne].
  - rewrite lookup_insert_eq. cbn [default option_rect from_option id].
    unfold octet_range. rewrite elem_of_union, elem_of_list_to_set, elem_of_seqZ.
    split; (intros [|Hr]; [by left|right]); [split; [done|lia]|lia].
  - rewrite lookup_insert_ne by done. split; [by left|]. by intros [|[? _]].
Qed.

Lemma covered_app slots slots' seg octet :
  covered (slots ++ slots') seg octet <-> covered slots seg octet \/ covered slots' seg octet.
Proof.
  unfold covered. split.
  - intros (s & pos & [Hin|Hin]%in_app_iff & H); [left|right]; by exists s, pos.
  - intros [(s & pos & Hin & H)|(s & pos & Hin & H)]; exists s, pos; (split; [|done]); apply in_app_iff; tauto.
Qed.

Lemma covered_other slot seg octet : sl_segment slot <> seg -> ~ covered [Ok slot] seg octet.
Proof.
  intros Hne (s & pos & [[= <-]|[]] & Hc & _). unfold covers in Hc. by rewrite bool_decide_eq_false_2 in Hc.
Qed.

(** Writing slots one after another: the bits are the last covering one's, and
    the octets recorded are those the slots have a bit in. *)
Lemma write_slots_spec slots : forall images placed images' placed',
  images_ok images -> (forall slot, In (Ok slot) slots -> slot_ok slot) ->
  write_slots app slots images placed = Ok (images', placed') ->
  images_ok images' /\
  (forall seg pos, 0 <= pos -> image_bit (image_of images' seg) pos
     = last_bit slots seg pos (image_bit (image_of images seg) pos)) /\
  (forall seg, zlen (image_of images seg) <= zlen (image_of images' seg)) /\
  (forall slot, In (Ok slot) slots -> slot_octets slot <= zlen (image_of images' (sl_segment slot))) /\
  forall seg octet, octet ∈ placed_of placed' seg <-> octet ∈ placed_of placed seg \/ covered slots seg octet.
Proof.
  induction slots as [|[slot|e] slots IH]; intros images placed images' placed' Hi Hs E; cbn [write_slots] in E; [| |done].
  - injection E as <- <-. split; [done|]. split; [done|]. split; [done|]. split; [done|]. intros seg octet. split; [by left|].
    intros [|(s & pos & [] & _)]. done.
  - destruct (write_slot app images slot) as [[im range]|] eqn:Ew; [|done].
    destruct (write_slot_spec images slot im range Hi (Hs slot (or_introl eq_refl)) Ew) as (K1 & B1 & L1 & R1).
    destruct (IH im _ images' placed' K1 (fun s Hin => Hs s (or_intror Hin)) E) as (K2 & B2 & M2 & O2 & R2).
    assert (M1 : forall seg, zlen (image_of images seg) <= zlen (image_of im seg)).
    { intros seg. rewrite L1. case_bool_decide; lia. }
    split; [done|]. split; [|split; [|split]].
    + intros seg pos Hpos. rewrite B2, B1 by done. done.
    + intros seg. specialize (M1 seg). specialize (M2 seg). lia.
    + intros s [[= <-]|Hin]; [|by apply O2]. specialize (M2 (sl_segment slot)). specialize (L1 (sl_segment slot)).
      rewrite bool_decide_eq_true_2 in L1 by done. lia.
    + intros seg octet. rewrite R2, mark_spec. change (Ok slot :: slots) with ([Ok slot] ++ slots). rewrite covered_app.
      destruct (decide (sl_segment slot = seg)) as [<-|Hne]; [rewrite R1; tauto|].
      pose proof (covered_other slot seg octet Hne). tauto.
Qed.

(** The octet in an image that no parameter writes, if the segment is filled. *)
Definition fill_of (seg : text) : option u8 :=
  s ← app_code_segments app !! seg;
  match cs_kind s, cs_data s with Relative, None => Some (unplaced_fill app s) | _, _ => None end.

Lemma erased_fill_spec placed seg image n : (n < length image)%nat ->
  nth n (erased_fill app placed seg image) 0
  = match fill_of seg with
    | Some fill => if bool_decide (Z.of_nat n ∈ placed_of placed seg) then nth n image 0 else fill
    | None => nth n image 0
    end.
Proof.
  intros Hn. unfold erased_fill, fill_of. destruct (app_code_segments app !! seg) as [s|]; [|done].
  cbn [mbind option_bind]. destruct (cs_kind s), (cs_data s); try done.
  rewrite nth_lookup, list_lookup_imap. destruct (nth_lookup_or_length image n 0) as [E|]; [|lia].
  rewrite E. done.
Qed.

Lemma erased_fill_length placed seg image : length (erased_fill app placed seg image) = length image.
Proof.
  unfold erased_fill. destruct (app_code_segments app !! seg) as [s|]; [|done].
  destruct (cs_kind s), (cs_data s); try done. apply length_imap.
Qed.

Lemma start_ok : (forall seg s data, app_code_segments app !! seg = Some s -> cs_data s = Some data -> bytes_ok data) ->
  images_ok ∅.
Proof.
  intros Hd seg. unfold image_of. rewrite lookup_empty. cbn [default option_rect from_option id].
  split; [|lia]. unfold base_image. destruct (app_code_segments app !! seg) as [s|] eqn:E; [|constructor].
  cbn [mbind option_bind]. destruct (cs_data s) as [data|] eqn:Ed; [|constructor]. by eapply Hd.
Qed.

Lemma validated seg s : validate_segments app = Ok tt -> app_code_segments app !! seg = Some s ->
  segment_ok s = Ok tt.
Proof.
  unfold validate_segments. intros E Hs. apply elem_of_map_to_list, list_elem_of_In in Hs.
  induction (map_to_list (app_code_segments app)) as [|[k s'] l IH]; [done|]. cbn [foldr snd] in E.
  destruct Hs as [[= -> ->]|Hs].
  - by destruct (segment_ok s) as [[]|].
  - apply IH; [|done]. by destruct (segment_ok s').
Qed.

Lemma base_within seg : (forall s sz, app_code_segments app !! seg = Some s -> cs_size s = Some sz -> 0 <= sz) ->
  validate_segments app = Ok tt -> zlen (base_image app seg) <= seg_limit seg.
Proof.
  intros Hsz Hv. unfold base_image, seg_limit. destruct (app_code_segments app !! seg) as [s|] eqn:E; cbn [mbind option_bind].
  2: { unfold zlen, image_limit, MAX_SEGMENT_IMAGE. cbn. lia. }
  pose proof (validated seg s Hv E) as Hok. unfold segment_ok in Hok.
  destruct (match cs_size s with Some sz => _ | None => _ end) eqn:Esz; [done|].
  destruct (_ || _)%bool eqn:Eo; [done|]. apply orb_false_iff in Eo as [Eo _].
  destruct (cs_size s) as [sz|] eqn:Es; cbn [default option_rect from_option id image_limit] in *.
  - apply Z.ltb_ge in Esz. destruct (cs_data s) as [data|]; cbn [default option_rect from_option id].
    + apply Z.ltb_ge in Eo. lia.
    + specialize (Hsz s sz eq_refl Es). unfold zlen, MAX_SEGMENT_IMAGE. cbn. lia.
  - destruct (cs_data s) as [data|]; cbn [default option_rect from_option id]; [apply Z.ltb_ge in Eo; lia|].
    unfold zlen, MAX_SEGMENT_IMAGE. cbn. lia.
Qed.

(** Every slot was encoded and placed within its segment, whose image there is. *)
Lemma write_slots_each slots : forall images placed images' placed',
  write_slots app slots images placed = Ok (images', placed') ->
  (forall seg, is_Some (images !! seg) -> is_Some (images' !! seg)) /\
  Forall (fun slot => exists s p, slot = Ok s /\ encode_slot app s = Ok p /\ is_Some (images' !! sl_segment s) /\
      placement_end (sl_offset s) (sl_bit_offset s) (slot_placement s) <= seg_limit (sl_segment s)) slots.
Proof.
  induction slots as [|[slot|e] slots IH]; intros images placed images' placed' E; cbn [write_slots] in E; [| |done].
  - injection E as <- <-. by split.
  - destruct (write_slot app images slot) as [[im range]|] eqn:Ew; [|done].
    destruct (IH im _ images' placed' E) as [Hkeep Hall]. unfold write_slot in Ew.
    destruct (encode_slot app slot) as [p|] eqn:Ep; [|done]. unfold place_checked in Ew.
    fold (ordered (app_parameters_little_endian app) (sl_bit_offset slot) p) in Ew.
    assert (Eq : slot_placement slot = ordered (app_parameters_little_endian app) (sl_bit_offset slot) p)
      by (unfold slot_placement; by rewrite Ep).
    cbv zeta in Ew. rewrite <- Eq in Ew. fold (seg_limit (sl_segment slot)) in Ew.
    destruct (Z.ltb_spec (seg_limit (sl_segment slot))
      (placement_end (sl_offset slot) (sl_bit_offset slot) (slot_placement slot))) as [|Hle]; [done|].
    injection Ew as <- <-. split.
    + intros seg Hs. apply Hkeep. destruct (decide (sl_segment slot = seg)) as [<-|];
        [by rewrite lookup_insert_eq|by rewrite lookup_insert_ne].
    + constructor; [|done]. exists slot, p. split; [done|]. split; [done|]. split; [|done].
      apply Hkeep. by rewrite lookup_insert_eq.
Qed.

(** A bit that no later slot covers keeps its value. *)
Lemma last_bit_uncovered slots seg pos b : (forall s, In (Ok s) slots -> covers seg pos s = false) ->
  last_bit slots seg pos b = b.
Proof.
  revert b. induction slots as [|[s|e] slots IH]; intros b H; [done| |].
  - cbn [last_bit foldl bit_after]. rewrite (H s (or_introl eq_refl)). apply IH. intros s' Hs. apply H. by right.
  - apply IH. intros s' Hs. apply H. by right.
Qed.

Lemma last_bit_app slots slots' seg pos b : last_bit (slots ++ slots') seg pos b = last_bit slots' seg pos (last_bit slots seg pos b).
Proof. apply foldl_app. Qed.

Lemma last_bit_cons slot slots seg pos b : last_bit (slot :: slots) seg pos b = last_bit slots seg pos (bit_after seg pos b slot).
Proof. done. Qed.

(** ** Well-formed programs *)

Definition memory_ok (mem : ParamMemory) : Prop :=
  default True (option_map is_u32 (pm_offset mem)) /\ default True (option_map is_u8 (pm_bit_offset mem)).

Definition chars_ok (t : option text) : Prop := Forall is_char (default [] t).

(** Numbers in their width, texts of characters, types the encoder can place. *)
Record program_ok : Prop := {
  segments_ok : forall seg s, app_code_segments app !! seg = Some s ->
    default True (option_map is_u32 (cs_size s)) /\ default True (option_map bytes_ok (cs_data s));
  fills_ok : forall idx applies_to fill, In (RelSegment idx applies_to fill) (app_load_ops app) -> is_u8 (sf_fill fill);
  parameters_ok : forall p, In p (app_parameters app) ->
    default True (option_map type_ok (pr_type p)) /\ chars_ok (pr_default p) /\ chars_ok (pr_initial_value p) /\
    default True (option_map memory_ok (pr_memory p));
  refs_ok : forall r, In r (app_parameter_refs app) -> chars_ok (ref_value r);
  unions_ok : forall u, In u (app_unions app) -> default True (option_map memory_ok (un_memory u)) /\
    forall m, In m (un_members u) -> default True (option_map is_u32 (um_offset m)) /\
      default True (option_map is_u8 (um_bit_offset m)) }.

Definition inputs_ok (overrides : list (text * text)) (base_offsets : gmap text u32) : Prop :=
  Forall (fun kv => Forall is_char (snd kv)) overrides /\ forall k base, base_offsets !! k = Some base -> is_u32 base.

(** ** Lemmas: the slots of a well-formed program *)

Lemma find_parameter_in id p : find_parameter app id = Some p -> In p (app_parameters app).
Proof. intros E. exact (proj1 (find_some _ _ E)). Qed.

Lemma default_of_ok p : program_ok -> In p (app_parameters app) -> chars_ok (default_of app p).
Proof.
  intros Hok Hp. destruct (parameters_ok Hok p Hp) as (_ & Hd & Hi & _). unfold default_of.
  destruct (pr_initial_value p) as [v|]; [done|]. destruct (List.find _ _) as [r|] eqn:E; [|done].
  apply find_some in E as [Hr _]. by apply (refs_ok Hok).
Qed.

Lemma default_slot_ok p segment offset bit_offset : program_ok -> In p (app_parameters app) -> 0 <= offset ->
  is_u8 bit_offset -> slot_ok (default_slot app p segment offset bit_offset).
Proof.
  intros Hok Hp Ho Hb. destruct (parameters_ok Hok p Hp) as (Ht & _). unfold slot_ok. cbn. split; [done|]. split; [done|].
  split; [done|]. by apply default_of_ok.
Qed.

Lemma bit_offset_ok mem : memory_ok mem -> is_u8 (default 0 (pm_bit_offset mem)).
Proof. intros [_ H]. destruct (pm_bit_offset mem); cbn in *; [done|unfold is_u8; lia]. Qed.

Lemma USIZE_ok v at_ : USIZE v = Some at_ -> 0 <= at_.
Proof.
  unfold USIZE. destruct (_ && _)%bool eqn:E; [|done]. intros [= <-]. by apply andb_true_iff in E as [H%Z.leb_le _].
Qed.

Lemma parameter_slots_ok p slot : program_ok -> In p (app_parameters app) -> In (Ok slot) (parameter_slots app p) ->
  slot_ok slot.
Proof.
  intros Hok Hp. destruct (parameters_ok Hok p Hp) as (_ & _ & _ & Hm). unfold parameter_slots.
  destruct (pr_memory p) as [mem|]; cbn [mbind option_bind]; [|done]. cbn in Hm.
  destruct (pm_code_segment mem) as [segment|]; cbn [mbind option_bind]; [|done].
  pose proof (bit_offset_ok mem Hm) as Hb. destruct Hm as [Ho _].
  destruct (pm_offset mem) as [offset|]; [|intros [|[]]; done]. cbn in Ho.
  assert (Hplain : In (Ok slot) [Ok (E:=ParamError) (default_slot app p segment offset (default 0 (pm_bit_offset mem)))] -> slot_ok slot).
  { intros [[= <-]|[]]. apply default_slot_ok; try done. by destruct Ho. }
  destruct (pm_base_offset mem) as [base_arg|]; [|done]. destruct (module_referenced_params app) as [referenced|]; [|done].
  destruct (negb _); [done|]. intros (instance & E & _)%in_map_iff.
  destruct (mi_arg_values instance !! _) as [base|]; [|done].
  destruct (i64_checked_add offset base) as [v|]; cbn [mbind option_bind] in E; [|done].
  destruct (USIZE v) as [at_|] eqn:Eu; [|done]. injection E as <-. apply default_slot_ok; try done. by eapply USIZE_ok.
Qed.

Lemma union_position_ok u mem base member : program_ok -> In u (app_unions app) -> un_memory u = Some mem ->
  pm_offset mem = Some base -> In member (un_members u) ->
  0 <= fst (union_member_position base (pm_bit_offset mem) member) /\
  is_u8 (snd (union_member_position base (pm_bit_offset mem) member)).
Proof.
  intros Hok Hu Em Eo Hm. destruct (unions_ok Hok u Hu) as [Hmem Hall]. rewrite Em in Hmem. cbn in Hmem.
  pose proof (bit_offset_ok mem Hmem) as Hb. destruct Hmem as [Ho _]. rewrite Eo in Ho. cbn in Ho.
  destruct (Hall member Hm) as [H1 H2]. unfold is_u8, is_u32 in *.
  assert (H3 : 0 <= default 0 (um_offset member)) by (destruct (um_offset member); cbn in *; lia).
  assert (H4 : 0 <= default 0 (um_bit_offset member)) by (destruct (um_bit_offset member); cbn in *; lia).
  unfold union_member_position. cbn [fst snd]. set (bits := default 0 (pm_bit_offset mem) + _) in *.
  pose proof (Z.div_pos bits 8 ltac:(lia) ltac:(lia)). pose proof (Z.mod_pos_bound bits 8 ltac:(lia)).
  unfold u32_saturating_add, u32_max. lia.
Qed.

Lemma union_slots_ok u slot : program_ok -> In u (app_unions app) -> In (Ok slot) (union_slots app u) -> slot_ok slot.
Proof.
  intros Hok Hu. unfold union_slots. destruct (un_memory u) as [mem|] eqn:Em; cbn [mbind option_bind]; [|done].
  destruct (pm_code_segment mem) as [segment|]; cbn [mbind option_bind]; [|done].
  destruct (pm_offset mem) as [base|] eqn:Eo; cbn [mbind option_bind]; [|done].
  destruct (match List.find um_is_default _ with Some _ => _ | None => _ end) as [member|] eqn:Ec; cbn [mbind option_bind]; [|done].
  assert (Hm : In member (un_members u)).
  { destruct (List.find um_is_default _) as [m|] eqn:Ef.
    - injection Ec as <-. exact (proj1 (find_some _ _ Ef)).
    - apply list_elem_of_In. by apply head_Some_elem_of. }
  destruct (find_parameter app (um_parameter member)) as [p|] eqn:Ep; cbn [mbind option_bind]; [|done].
  pose proof (union_position_ok u mem base member Hok Hu Em Eo Hm) as [H1 H2].
  destruct (union_member_position _ _ _) as [offset bit]. cbn in *. intros [[= <-]|[]].
  apply default_slot_ok; try done. by eapply find_parameter_in.
Qed.

Lemma resolved_in key p selector : resolve_parameter_key app key = Some (p, selector) -> In p (app_parameters app).
Proof.
  unfold resolve_parameter_key. destruct (split_selector key) as [instance param_ref].
  destruct (find_ref app _) as [r|].
  - destruct (find_parameter app (ref_parameter r)) as [q|] eqn:E; cbn; [|done]. intros [= <- _]. by eapply find_parameter_in.
  - destruct (rsplit_once _ _) as [[rel tail]|]; cbn; [|done].
    destruct (find_parameter app (under_app app rel)) as [q|] eqn:E.
    + cbn. intros [= <- _]. by eapply find_parameter_in.
    + destruct (find_parameter app rel) as [q|] eqn:E'; cbn; [|done]. intros [= <- _]. by eapply find_parameter_in.
Qed.

Definition override_memory_ok (om : OverrideMemory) : Prop :=
  default True (option_map (Z.le 0) (om_offset om)) /\ is_u8 (om_bit_offset om).

Lemma override_memory_within p om : program_ok -> In p (app_parameters app) -> override_memory app p = Some om ->
  override_memory_ok om.
Proof.
  intros Hok Hp. destruct (parameters_ok Hok p Hp) as (_ & _ & _ & Hm). unfold override_memory, override_memory_ok.
  destruct (pr_memory p) as [mem|].
  - intros [= <-]. cbn in *. pose proof (bit_offset_ok mem Hm). destruct Hm as [Ho _].
    destruct (pm_offset mem); cbn in *; [by destruct Ho|done].
  - intros E. apply head_Some_elem_of, list_elem_of_omap in E as (u & Hu & E). apply list_elem_of_In in Hu.
    destruct (List.find _ _) as [member|] eqn:Ef; cbn [mbind option_bind] in E; [|done].
    destruct (un_memory u) as [mem|] eqn:Em; cbn [mbind option_bind] in E; [|done].
    destruct (pm_offset mem) as [base|] eqn:Eo; cbn [mbind option_bind] in E; [|done].
    pose proof (union_position_ok u mem base member Hok Hu Em Eo (proj1 (find_some _ _ Ef))) as [H1 H2].
    destruct (union_member_position _ _ _) as [offset bit]. injection E as <-. done.
Qed.

Lemma override_slots_ok base_offsets key raw slot : program_ok -> Forall is_char raw ->
  (forall k base, base_offsets !! k = Some base -> is_u32 base) ->
  In (Ok slot) (override_slots app base_offsets key raw) -> slot_ok slot.
Proof.
  intros Hok Hraw Hbase. unfold override_slots. destruct (resolve_parameter_key app key) as [[p selector]|] eqn:Er.
  2: { destruct (rsplit_once _ _); intros [|[]]; done. }
  pose proof (resolved_in _ _ _ Er) as Hp. destruct (override_memory app p) as [om|] eqn:Eo; [|done].
  pose proof (override_memory_within p om Hok Hp Eo) as [Ho Hb].
  destruct (override_offset om selector base_offsets) as [[segment offset]|e] eqn:Eoff; [|intros [|[]]; done].
  intros [[= <-]|[]]. unfold slot_ok. cbn. split; [|split; [done|split; [|done]]].
  - unfold override_offset in Eoff. destruct (om_segment om); [|done]. destruct (om_offset om) as [declared|]; [|done].
    cbn in Ho. destruct (negb _); [by injection Eoff as <- <-|]. destruct selector as [sel|]; [|done].
    destruct (base_offsets !! sel) as [base|] eqn:Eb; [|done]. destruct (_ <=? _); [|done]. injection Eoff as <- <-.
    destruct (Hbase _ _ Eb). lia.
  - exact (proj1 (parameters_ok Hok p Hp)).
Qed.

Lemma static_slots_ok overrides base_offsets slot : program_ok -> inputs_ok overrides base_offsets ->
  In (Ok slot) (static_parameter_slots app overrides base_offsets) -> slot_ok slot.
Proof.
  intros Hok [Hov Hbase]. unfold static_parameter_slots.
  intros [Hin|[Hin|Hin]%in_app_iff]%in_app_iff; apply in_flat_map in Hin as (x & Hx & Hin).
  - by eapply parameter_slots_ok.
  - by eapply union_slots_ok.
  - destruct x as [key raw]. eapply override_slots_ok; [done| |done|exact Hin].
    rewrite Forall_forall in Hov. apply (Hov (key, raw)). by apply list_elem_of_In.
Qed.

(** ** Properties *)

Lemma filled_bit placed seg image pos : 0 <= pos < 8 * zlen image ->
  image_bit (erased_fill app placed seg image) pos
  = match fill_of seg with
    | Some fill => if bool_decide (pos / 8 ∈ placed_of placed seg) then image_bit image pos
                   else Z.testbit fill (7 - pos mod 8)
    | None => image_bit image pos
    end.
Proof.
  intros Hpos. unfold image_bit.
  assert (Hd : 0 <= pos / 8 < zlen image) by (split; [apply Z.div_pos; lia|apply Z.div_lt_upper_bound; lia]).
  rewrite erased_fill_spec by (unfold zlen in *; lia). rewrite Z2Nat.id by lia.
  destruct (fill_of seg); [|done]. by case_bool_decide.
Qed.

Lemma unplaced_fill_ok seg : program_ok -> is_u8 (unplaced_fill app seg).
Proof.
  intros Hok. unfold unplaced_fill. destruct (cs_load_state_machine seg) as [lsm|]; [|done].
  destruct (head _) as [fill|] eqn:Eh; [|done]. cbn [mbind option_bind].
  apply head_Some_elem_of, list_elem_of_omap in Eh as (op & Hop & E). apply list_elem_of_In in Hop.
  destruct op as [[idx|] applies_to f|]; [|done|done]. destruct (_ && _)%bool; [|done]. injection E as <-.
  unfold SegmentFill_prefill. destruct (negb _); [|done]. by apply (fills_ok Hok (Some idx) applies_to).
Qed.

Lemma erased_fill_ok placed seg image : program_ok -> bytes_ok image -> bytes_ok (erased_fill app placed seg image).
Proof.
  intros Hok Hi. unfold erased_fill. destruct (app_code_segments app !! seg) as [s|]; [|done].
  destruct (cs_kind s); [|done]. destruct (cs_data s); [done|]. apply Forall_lookup. intros i x E.
  rewrite list_lookup_imap in E. destruct (image !! i) as [y|] eqn:Ey; cbn in E; [|done]. injection E as <-.
  case_bool_decide; [|by apply unplaced_fill_ok]. exact (Forall_lookup_1 _ _ _ _ Hi Ey).
Qed.

(** What [compute_parameter_image_placed] has done when it succeeds. *)
Lemma computed triggered overrides base_offsets images placed : program_ok -> inputs_ok overrides base_offsets ->
  compute_parameter_image_placed app triggered overrides base_offsets = Ok (images, placed) ->
  let slots := static_parameter_slots app overrides base_offsets in
  exists written, images_ok written /\
    (forall slot, In (Ok slot) slots -> slot_octets slot <= zlen (image_of written (sl_segment slot))) /\ validate_segments app = Ok tt /\
    (forall seg, images !! seg = option_map (erased_fill app placed seg) (written !! seg)) /\
    (forall seg pos, 0 <= pos -> image_bit (image_of written seg) pos
       = last_bit slots seg pos (image_bit (base_image app seg) pos)) /\
    (forall seg octet, octet ∈ placed_of placed seg <-> covered slots seg octet) /\
    Forall (fun slot => exists s p, slot = Ok s /\ encode_slot app s = Ok p /\ is_Some (written !! sl_segment s) /\
      placement_end (sl_offset s) (sl_bit_offset s) (slot_placement s) <= seg_limit (sl_segment s)) slots.
Proof.
  intros Hok Hin. unfold compute_parameter_image_placed. destruct triggered; [done|].
  destruct (validate_segments app) as [[]|] eqn:Ev; [|done]. cbv zeta.
  set (slots := static_parameter_slots app overrides base_offsets).
  destruct (write_slots app slots ∅ ∅) as [[written placed']|] eqn:Ew; [|done]. intros [= <- <-].
  assert (H0 : images_ok ∅).
  { apply start_ok. intros seg s data Es Ed. destruct (segments_ok Hok seg s Es) as [_ H]. by rewrite Ed in H. }
  destruct (write_slots_spec slots ∅ ∅ written placed' H0
    (fun s Hs => static_slots_ok overrides base_offsets s Hok Hin Hs) Ew) as (K & B & _ & O & P).
  destruct (write_slots_each slots ∅ ∅ written placed' Ew) as [_ Hall].
  exists written. split; [done|]. split; [done|]. split; [done|]. split; [|split; [|split; [|done]]].
  - intros seg. rewrite map_lookup_imap. by destruct (written !! seg).
  - intros seg pos Hpos. rewrite B by done. unfold image_of. by rewrite lookup_empty.
  - intros seg octet. rewrite P. unfold placed_of at 1. rewrite lookup_empty. cbn.
    split; [intros [He|]; [by apply elem_of_empty in He|done]|by right].
Qed.

(** C2: The images hold, bit for bit, what the slots say: the value of the last slot
    that has the bit (defaults first, then the unions' members, then the
    overrides), else the segment's data; and in a segment allocated without data
    the fill of its allocation wherever no slot has a bit. Each lies within its
    segment, and the octets reported as placed are those some slot has a bit in. *)
Theorem parameter_image_holds_last_values triggered overrides base_offsets images placed
    (Hok : program_ok) (Hin : inputs_ok overrides base_offsets)
    (Hc : compute_parameter_image_placed app triggered overrides base_offsets = Ok (images, placed)) :
  let slots := static_parameter_slots app overrides base_offsets in
  (forall slot, In slot slots -> exists s, slot = Ok s /\ is_Some (images !! sl_segment s)) /\
  forall seg image, images !! seg = Some image ->
    zlen image <= seg_limit seg /\
    (forall octet, octet ∈ placed_of placed seg <-> covered slots seg octet) /\
    forall pos, 0 <= pos < 8 * zlen image ->
      image_bit image pos
      = match fill_of seg with
        | Some fill => if bool_decide (pos / 8 ∈ placed_of placed seg)
                       then last_bit slots seg pos (image_bit (base_image app seg) pos)
                       else Z.testbit fill (7 - pos mod 8)
        | None => last_bit slots seg pos (image_bit (base_image app seg) pos)
        end.
Proof.
  destruct (computed _ _ _ _ _ Hok Hin Hc) as (written & K & O & Hv & Himg & B & P & Hall). cbv zeta. split.
  - intros slot Hs. rewrite Forall_forall in Hall. apply list_elem_of_In in Hs.
    destruct (Hall slot Hs) as (s & p & -> & _ & [im Em] & _). exists s. split; [done|]. rewrite Himg, Em. by eexists.
  - intros seg image E. rewrite Himg in E. destruct (written !! seg) as [im|] eqn:Em; [|done]. injection E as <-.
    assert (Hof : image_of written seg = im) by (unfold image_of; by rewrite Em).
    assert (Hl : zlen (erased_fill app placed seg im) = zlen im) by (unfold zlen; by rewrite erased_fill_length).
    rewrite Hl. split; [|split; [apply P|]].
    + destruct (K seg) as [_ H]. rewrite Hof in H.
      assert (zlen (base_image app seg) <= seg_limit seg); [|lia]. apply base_within; [|done].
      intros s sz Es Esz. destruct (segments_ok Hok seg s Es) as [Hsz _]. rewrite Esz in Hsz. by destruct Hsz.
    + intros pos Hpos. rewrite filled_bit, <- B, Hof by (done || lia). done.
Qed.

(** C3: A parameter's value can be read back from the computed image, whatever else
    was written, where its type has a reading and no later slot writes over its
    bits: it then decodes, at its own position and in the program's byte order, to
    a text that encodes to the same octets.  The types with a reading ([readable])
    are integers, enumerations that have no octet values or name each octet value
    once, texts that do not end in NUL, colours, IP addresses, packed times and the
    other types of 1 to 64 bits; floats, raw data, the type without data and other
    types wider than 64 bits have none, and a slot that encodes to no bits at all
    is not read. *)
Theorem written_parameter_reads_back triggered overrides base_offsets images placed before slot after p
    (Hok : program_ok) (Hin : inputs_ok overrides base_offsets)
    (Hc : compute_parameter_image_placed app triggered overrides base_offsets = Ok (images, placed))
    (Hs : static_parameter_slots app overrides base_offsets = before ++ Ok slot :: after)
    (Hlast : forall later pos, In (Ok later) after -> covers (sl_segment slot) pos slot = true ->
       covers (sl_segment slot) pos later = false)
    (Hr : match sl_type slot with Some t => readable t (sl_value slot) | None => False end)
    (He : encode_slot app slot = Ok p) (Hlen : 0 < span_len p) :
  exists image t, images !! sl_segment slot = Some image /\
    decode_value (text_codec app) (sl_type slot) image (sl_offset slot) (sl_bit_offset slot)
      (app_parameters_little_endian app) = Some t /\
    encode_value (text_codec app) (sl_type slot) (Some t) (slot_source slot) = Ok p.
Proof.
  destruct (computed _ _ _ _ _ Hok Hin Hc) as (written & K & O & Hv & Himg & B & P & Hall). rewrite Hs in *.
  pose proof (static_slots_ok overrides base_offsets slot Hok Hin) as Hslot. rewrite Hs in Hslot.
  specialize (Hslot ltac:(apply in_app_iff; right; by left)). pose proof Hslot as (Ho & Hb & _).
  pose proof (slot_encoded slot p Hslot He) as Hp.
  apply Forall_app in Hall as [_ [Hthis _]%Forall_cons]. destruct Hthis as (s & p' & [= <-] & E' & [im Em] & Hend).
  rewrite He in E'. injection E' as <-. set (seg := sl_segment slot) in *.
  assert (Eimg : images !! seg = Some (erased_fill app placed seg im)) by (rewrite Himg, Em; done).
  assert (Hof : image_of written seg = im) by (unfold image_of; by rewrite Em).
  set (image := erased_fill app placed seg im) in *.
  destruct (ordered_span (app_parameters_little_endian app) (sl_offset slot) (sl_bit_offset slot) p Hp) as (Hq & Es & El).
  assert (Eq : slot_placement slot = ordered (app_parameters_little_endian app) (sl_bit_offset slot) p)
    by (unfold slot_placement; by rewrite He).
  rewrite <- Eq in *. set (q := slot_placement slot) in *.
  assert (Hok' : bytes_ok image) by (apply erased_fill_ok; [done|]; rewrite <- Hof; apply K).
  assert (Hsame : place image (sl_offset slot) (sl_bit_offset slot) q = image).
  { destruct (place_spec image _ _ q Hok' Hq Ho (proj1 Hb)) as (K1 & L1 & B1).
    specialize (O slot ltac:(apply in_app_iff; right; by left)). fold seg in O. rewrite Hof in O.
    assert (Hl : zlen image = zlen im) by (unfold zlen, image; by rewrite erased_fill_length).
    unfold slot_octets in O. fold q in O.
    apply image_ext; [done|done|unfold zlen in *; lia|]. intros pos Hpos. rewrite B1 by done.
    destruct (_ && _)%bool eqn:Ec; [|done].
    assert (Hcov : covers seg pos slot = true).
    { unfold covers, slot_start. fold q. rewrite bool_decide_eq_true_2 by done. exact Ec. }
    assert (Hin8 : pos < 8 * zlen image).
    { apply andb_true_iff in Ec as [_ H%Z.ltb_lt]. unfold span_octets in O. rewrite Hl.
      pose proof (div_ceil_8_spec (span_start (sl_offset slot) (sl_bit_offset slot) q + span_len q)).
      destruct q; cbn [span_len] in *; lia. }
    unfold image. rewrite filled_bit by lia. rewrite <- Hof, B, last_bit_app, last_bit_cons by done. cbn [bit_after].
    rewrite Hcov, last_bit_uncovered by (intros; by apply Hlast).
    unfold slot_start. fold q. destruct (fill_of seg); [|done]. rewrite bool_decide_eq_true_2; [done|].
    apply P. exists slot, pos. split; [apply in_app_iff; right; by left|]. done. }
  assert (Hplace : place_checked (app_parameters_little_endian app) image (sl_offset slot) (sl_bit_offset slot) p
    (s ← app_code_segments app !! seg; cs_size s)
    = Ok (image, (match q with PField _ _ => sl_offset slot + sl_bit_offset slot / 8 | _ => sl_offset slot end,
         Z.max (placement_end (sl_offset slot) (sl_bit_offset slot) q)
           (match q with PField _ _ => sl_offset slot + sl_bit_offset slot / 8 | _ => sl_offset slot end)))).
  { unfold place_checked. fold (ordered (app_parameters_little_endian app) (sl_bit_offset slot) p). rewrite <- Eq.
    cbv zeta. fold (seg_limit seg). rewrite (proj2 (Z.ltb_ge _ _) Hend), Hsame. done. }
  destruct (sl_type slot) as [ptype|] eqn:Et; [|done]. unfold encode_slot in He. rewrite Et in He.
  destruct (value_read_back (text_codec app) (app_parameters_little_endian app) image (sl_offset slot) (sl_bit_offset slot)
    ptype (sl_value slot) (slot_source slot) p _ image _ Hok' Ho Hb Hr He Hplace) as (t & H1 & H2).
  { intros ->. cbn in Hlen. lia. }
  by exists image, t.
Qed.

End ImageSpec.

(** ** Examples *)

(** A filled segment of four octets with two parameters, the first overridden. *)
Definition demo_parameter (id default_value : string) (bits offset bit_offset : Z) : ProductParameter :=
  MkParameter (chars id) (Some (TypeInt (Some bits) None None false)) (Some (chars default_value)) None
    (Some (MkParamMemory (Some (chars "S1")) (Some offset) (Some bit_offset) None)).

Definition demo_app : ApplicationProgram :=
  MkApplicationProgram (chars "A") [demo_parameter "A_UP-1" "7" 8 0 0; demo_parameter "A_UP-2" "3" 4 2 2]
    [MkParameterRef (chars "A_UP-1_R-1") (chars "A_UP-1") None] [] [] None
    {[chars "S1" := MkCodeSegment Relative (Some 4) (Some 3) None None]}
    [RelSegment (Some 3) None (MkSegmentFill 1 170)] None false.

Definition demo_overrides : list (text * text) := [(chars "UP-1_R-1", chars "9")].

#[local] Existing Instances no_base64 no_floats.
#[local] Instance demo_distance : ColourDistance := {| colour_dist := demo_dist; colour_nearer := Z.ltb |}.

Example demo_image_computed :
  compute_parameter_image_placed demo_app false demo_overrides ∅
  = Ok ({[chars "S1" := [9; 170; 12]]}, {[chars "S1" := {[0; 2]}]}).
Proof. vm_compute. reflexivity. Qed.

Lemma demo_app_ok : program_ok demo_app.
Proof.
  assert (Hc : forall s, forallb (fun c => (0 <=? c) && (c <? 256)) (chars s) = true -> Forall is_char (chars s)).
  { intros s E. apply List.Forall_forall. intros c Hin. rewrite forallb_forall in E. specialize (E c Hin).
    unfold is_char. lia. }
  split.
  - intros seg s E. cbn [demo_app app_code_segments] in E. apply lookup_singleton_Some in E as [_ <-].
    cbn. unfold is_u32. lia.
  - intros idx applies_to fill [[= _ _ <-]|[]]. cbn. unfold is_u8. lia.
  - assert (H : forall id dv bits offset bit_offset,
      forallb (fun c => (0 <=? c) && (c <? 256)) (chars dv) = true -> 0 <= bits -> is_u32 offset -> is_u8 bit_offset ->
      let p := demo_parameter id dv bits offset bit_offset in
      default True (option_map type_ok (pr_type p)) /\ chars_ok (pr_default p) /\ chars_ok (pr_initial_value p) /\
      default True (option_map memory_ok (pr_memory p))).
    { intros id dv bits offset bit_offset E Hb Ho Hbo. cbn. split; [done|]. split; [by apply Hc|]. split; [constructor|]. by split. }
    intros p [<-|[<-|[]]]; apply H; try done; unfold is_u32, is_u8; lia.
  - intros r [<-|[]]. constructor.
  - intros u [].
Qed.

Lemma demo_inputs_ok : inputs_ok demo_overrides ∅.
Proof.
  split; [|intros k base E; by rewrite lookup_empty in E]. constructor; [|constructor]. cbn.
  repeat (apply Forall_cons_2; [unfold is_char; lia|]). constructor.
Qed.

Lemma parameter_image_holds_last_values_witness :
  let slots := static_parameter_slots demo_app demo_overrides ∅ in
  (forall slot, In slot slots -> exists s, slot = Ok s) /\
  image_bit [9; 170; 12] 4 = last_bit demo_app slots (chars "S1") 4 false.
Proof.
  destruct (parameter_image_holds_last_values demo_app false demo_overrides ∅ _ _ demo_app_ok demo_inputs_ok
    demo_image_computed) as [H1 H2].
  split.
  - intros slot Hs. destruct (H1 slot Hs) as (s & E & _). by exists s.
  - destruct (H2 (chars "S1") [9; 170; 12]) as (_ & _ & H3); [vm_compute; reflexivity|].
    specialize (H3 4 ltac:(vm_compute; split; [discriminate|reflexivity])). exact H3.
Defined.

(** The slots of the two parameters and of the override. *)
Definition demo_slot (bits : Z) (offset bit_offset : Z) (value : string) (is_override : bool) : Slot :=
  MkSlot (Some (TypeInt (Some bits) None None false)) (chars "S1") offset bit_offset (Some (chars value)) is_override.

Lemma demo_slots : static_parameter_slots demo_app demo_overrides ∅
  = [Ok (demo_slot 8 0 0 "7" false)] ++ Ok (demo_slot 4 2 2 "3" false) :: [Ok (demo_slot 8 0 0 "9" true)].
Proof. vm_compute. reflexivity. Qed.

Lemma written_parameter_reads_back_witness :
  exists image t, ({[chars "S1" := [9; 170; 12]]} : Images) !! chars "S1" = Some image /\
    decode_value Undeclared (Some (TypeInt (Some 4) None None false)) image 2 2 false = Some t.
Proof.
  destruct (written_parameter_reads_back demo_app false demo_overrides ∅ _ _ _ _ _ (PField 4 3)
    demo_app_ok demo_inputs_ok demo_image_computed demo_slots) as (image & t & H1 & H2 & _).
  - intros later pos [[= <-]|[]] Hc. assert (Hp : 18 <= pos).
    { unfold covers in Hc. apply andb_true_iff in Hc as [[_ H%Z.leb_le]%andb_true_iff _]. exact H. }
    unfold covers. apply andb_false_iff. right. apply Z.ltb_ge. vm_compute (_ + _). lia.
  - cbn. lia.
  - vm_compute. reflexivity.
  - cbn. lia.
  - exists image, t. split; [exact H1|exact H2].
Defined.
