(* ===== verification/Dynamic.v ===== *)
(** * The Dynamic section of an application program ([bussard-model/src/dynamic.rs])

    The walk over the Dynamic section that decides which parameters and
    com-objects a device has, and its repetition until the assigned values, the
    shared memory of the unions and the active parameters settle.

    Programs declare no calculations here ([DynamicSource::calculations] empty),
    so no script runs; the ordinals of module instances, which only label them,
    are left out.  The two vectors of reached items and of their places are one
    list of pairs. *)

From Stdlib Require Import String.
From S2P Require Import Prelude Decimal TextCodec Float64 WhenTest Selector ParamField ParamValue ParamImage.

Local Open Scope string_scope.
Local Open Scope list_scope.
Local Open Scope Z_scope.

(** ** Nodes *)

Record ComputedArg : Type := MkComputedArg {
  ca_arg : text;
  ca_allocator : option text;
  ca_value : option Z;
  ca_base : option text }.

Record Allocator : Type := MkAllocator { al_start : Z; al_max_inclusive : option Z }.

Record ChannelRef : Type := MkChannelRef {
  ch_id : text;
  ch_number : option u32;
  ch_name : option text;
  ch_text : option text;
  ch_text_parameter_ref : option text }.

Record BlockRef : Type := MkBlockRef {
  bl_id : text;
  bl_name : option text;
  bl_text : option text;
  bl_text_parameter_ref : option text;
  bl_param_ref : option text }.

#[warnings="-register-all"]
Inductive DynamicNode : Type :=
| DChannel (channel : ChannelRef) (children : list DynamicNode)
| DParameterBlock (block : BlockRef) (children : list DynamicNode)
| DParameterRefRef (r : text)
| DComObjectRefRef (r : text)
| DChoose (param_ref_id : text) (whens : list (WhenTest * list DynamicNode))
| DModule (id module_def : text) (args : gmap text Z) (computed_args : list ComputedArg)
| DRepeat (id : text) (param_ref_id : option text) (count : option u32) (children : list DynamicNode)
| DAssign (target : text) (source value : option text).

(** What the walk reads of a program. *)
Record DynamicSource : Type := MkDynamicSource {
  ds_program_id : text;
  ds_dynamic : list DynamicNode;
  ds_module_dynamics : list (text * list DynamicNode);
  ds_parameter_refs : list (text * (text * option text));
  ds_parameter : text -> option (option text * option text);
  ds_integer_width : text -> option (u32 * bool);
  ds_enum_members : text -> option (list EnumValue);
  ds_unions : list ParamUnion;
  ds_allocator : text -> option Allocator;
  ds_argument_allocates : text -> option Z;
  ds_initial_value : text -> option text;
  ds_is_virtual : text -> bool;
  ds_is_system_b : bool }.

Fixpoint assoc {V} (k : text) (l : list (text * V)) : option V :=
  match l with
  | [] => None
  | (k', v) :: l => if bool_decide (k' = k) then Some v else assoc k l
  end.

Definition ds_module_dynamic (app : DynamicSource) (module_def : text) : option (list DynamicNode) :=
  assoc module_def (ds_module_dynamics app).

Definition ds_parameter_ref (app : DynamicSource) (r : text) : option (text * option text) :=
  assoc r (ds_parameter_refs app).

Definition parameter_id (app : DynamicSource) (param_ref_id : text) : option text :=
  option_map fst (ds_parameter_ref app param_ref_id).

Definition MAX_MODULE_DEPTH : nat := 8.
Definition MAX_ASSIGN_PASSES : nat := 16.
Definition MAX_REPEAT : Z := 4096.

(** ** Values *)

(** Keyed by the module instance ([""] for the application) and the reference. *)
Abbreviation Key := (text * text)%type.
Abbreviation Values := (gmap (text * text) text).
Abbreviation Args := (gmap text Z).

Definition i64_saturating_add (a b : Z) : Z := Z.max (- I64_MAX - 1) (Z.min I64_MAX (a + b)).

Definition value_of (app : DynamicSource) (values : Values) (instance : text) (args : option Args) (param_ref_id : text)
    : option text :=
  '(param_id, ref_value) ← ds_parameter_ref app param_ref_id;
  match values !! (instance, param_ref_id) with
  | Some v => Some v
  | None =>
      let param := ds_parameter app param_id in
      let dflt := match ds_initial_value app param_id with
                  | Some v => Some v
                  | None => match ref_value with Some v => Some v | None => p ← param; fst p end
                  end in
      let base := p ← param; b ← snd p;
                  args ← args; (args : Args) !! default b (strip_prefix (ds_program_id app ++ chars "_") b) in
      match base with
      | Some base =>
          match match option_map trim dflt with None | Some [] => Some 0 | Some v => parse_i64 v end with
          | Some own => Some (to_text (i64_saturating_add own base))
          | None => dflt
          end
      | None => dflt
      end
  end.

(** A number is taken as it is, a label as its member's. *)
Definition enum_code_of (app : DynamicSource) (param_id value : text) : text :=
  match parse_i64 (trim value) with
  | Some _ => value
  | None =>
      match ds_enum_members app param_id with
      | Some values =>
          match enum_member_by_label values value with
          | Member code => to_text code
          | _ => value
          end
      | None => value
      end
  end.

(** ** The shown and the assigned parameters *)

(** Folds [f] over the nodes below, in document order. *)
Definition fold_nodes {N T} (f : N -> T -> T) : list N -> T -> T :=
  fix go (l : list N) (s : T) := match l with [] => s | n :: l => go l (f n s) end.

Definition fold_whens {N T} (f : N -> T -> T) (taken : nat -> WhenTest -> bool) : nat -> list (WhenTest * list N) -> T -> T :=
  fix go (i : nat) (l : list (WhenTest * list N)) (s : T) :=
    match l with
    | [] => s
    | (test, ns) :: l => go (S i) l (if taken i test then fold_nodes f ns s else s)
    end.

Fixpoint visit_all {T} (f : DynamicNode -> T -> T) (n : DynamicNode) (s : T) : T :=
  let s := f n s in
  match n with
  | DChannel _ children | DParameterBlock _ children | DRepeat _ _ _ children => fold_nodes (visit_all f) children s
  | DChoose _ whens => fold_whens (visit_all f) (fun _ _ => true) 0 whens s
  | _ => s
  end.

Definition visit_program {T} (app : DynamicSource) (f : DynamicNode -> T -> T) (s : T) : T :=
  fold_nodes (fun body s => fold_nodes (visit_all f) body s) (ds_dynamic app :: map snd (ds_module_dynamics app)) s.

Definition insert_parameter (app : DynamicSource) (r : text) (out : gset text) : gset text :=
  match parameter_id app r with Some id => {[id]} ∪ out | None => out end.

Definition placed_parameters (app : DynamicSource) : gset text :=
  visit_program app (fun n out => match n with DParameterRefRef r => insert_parameter app r out | _ => out end) ∅.

Definition assigned_parameters (app : DynamicSource) : gset text :=
  visit_program app (fun n out => match n with DAssign target _ _ => insert_parameter app target out | _ => out end) ∅.

(** ** Module instances *)

Record ActiveModule : Type := MkActiveModule {
  am_id : text;
  am_element_id : text;
  am_module_def : text;
  am_args : Args;
  am_parent : option nat;
  am_repetition : Z }.

(** The selector of an instance from its key. *)
Definition key_selector (id : text) : text := if contains (chars "_MI-") id then id else id ++ chars "_MI-1".

Definition ActiveModule_selector (m : ActiveModule) : text := key_selector (am_id m).

Definition instance_of (modules : list ActiveModule) (module : option nat) : option ActiveModule :=
  i ← module; nth_error modules i.

Definition instance_id (modules : list ActiveModule) (module : option nat) : text :=
  match instance_of modules module with Some m => am_id m | None => [] end.

Definition module_args (modules : list ActiveModule) (module : option nat) : option Args :=
  option_map am_args (instance_of modules module).

(** The reference belongs to the module definition. *)
Definition belongs_to (module_def ref_id : text) : bool :=
  match strip_prefix module_def ref_id with Some (95 :: _) => true | _ => false end.

(** The innermost instance around that the reference belongs to; the fuel is the
    number of instances ([scope_of]). *)
Fixpoint own_scope (fuel : nat) (modules : list ActiveModule) (at_ : option nat) (ref_id : text)
    : option (option nat) :=
  match fuel, at_ with
  | S fuel, Some i =>
      match nth_error modules i with
      | None => Some None
      | Some m => if belongs_to (am_module_def m) ref_id then Some (Some i) else own_scope fuel modules (am_parent m) ref_id
      end
  | _, _ => None
  end.

Definition scope_of (modules : list ActiveModule) (module : option nat) (ref_id : text) : option nat :=
  match own_scope (S (length modules)) modules module ref_id with
  | Some scope => scope
  | None => if starts_with (chars "MD-") ref_id then module else None
  end.

(** [parent] is the key of the enclosing instance. *)
Definition instance_key (parent : option text) (element module_def : text) (repetition : Z) : text :=
  match parent, contains (chars "_SM-") module_def with
  | Some p, true =>
      let outer := key_selector p in
      let own := default element (r ← strip_prefix (until_underscore outer) element; strip_prefix (chars "_") r) in
      outer ++ chars "_" ++ own ++ chars "_MI-" ++ to_text repetition
  | _, _ => if 1 <? repetition then element ++ chars "_MI-" ++ to_text repetition else element
  end.

(** ** The walk *)

(** Where the walk is: the enclosing instance, channel and blocks, and the
    repetition of the innermost [<Repeat>] (0 outside any). *)
Record At : Type := MkAt {
  at_module : option nat;
  at_channel : option ChannelRef;
  at_blocks : list BlockRef;
  at_repetition : Z }.

Definition at_start : At := MkAt None None [] 0.

Record Place : Type := MkPlace { pl_channel : option ChannelRef; pl_blocks : list BlockRef; pl_module : option nat }.

Definition place_at (a : At) : Place := MkPlace (at_channel a) (at_blocks a) (at_module a).

Inductive Container : Type := ContainerChannel (c : ChannelRef) | ContainerBlock (b : BlockRef).

(** A reached reference with its scope. *)
Abbreviation Active := (option nat * text)%type.

Record ReachedAssign : Type := MkReachedAssign {
  ra_target_module : option nat;
  ra_target : text;
  ra_source_module : option nat;
  ra_source : option text;
  ra_value : option text;
  ra_place : Place }.

Record Walk : Type := MkWalk {
  w_modules : list ActiveModule;
  w_parameters : list (Active * Place);
  w_com_objects : list (Active * Place);
  w_containers : list (Container * Place);
  w_assigns : list ReachedAssign;
  w_active_now : gset Key;
  w_allocators : gmap (option nat * text) Z }.

Definition walk_start : Walk := MkWalk [] [] [] [] [] ∅ ∅.

Definition w_push_module (m : ActiveModule) (w : Walk) : Walk :=
  MkWalk (w_modules w ++ [m]) (w_parameters w) (w_com_objects w) (w_containers w) (w_assigns w) (w_active_now w) (w_allocators w).
Definition w_push_parameter (key : Key) (p : Active * Place) (w : Walk) : Walk :=
  MkWalk (w_modules w) (w_parameters w ++ [p]) (w_com_objects w) (w_containers w) (w_assigns w) ({[key]} ∪ w_active_now w)
    (w_allocators w).
Definition w_push_com_object (c : Active * Place) (w : Walk) : Walk :=
  MkWalk (w_modules w) (w_parameters w) (w_com_objects w ++ [c]) (w_containers w) (w_assigns w) (w_active_now w) (w_allocators w).
Definition w_push_container (c : Container * Place) (w : Walk) : Walk :=
  MkWalk (w_modules w) (w_parameters w) (w_com_objects w) (w_containers w ++ [c]) (w_assigns w) (w_active_now w) (w_allocators w).
Definition w_push_assign (a : ReachedAssign) (w : Walk) : Walk :=
  MkWalk (w_modules w) (w_parameters w) (w_com_objects w) (w_containers w) (w_assigns w ++ [a]) (w_active_now w) (w_allocators w).
Definition w_set_allocators (l : gmap (option nat * text) Z) (w : Walk) : Walk :=
  MkWalk (w_modules w) (w_parameters w) (w_com_objects w) (w_containers w) (w_assigns w) (w_active_now w) l.

(** The shared memory of the unions after a pass. *)
Record SharedUnions : Type := MkSharedUnions {
  su_images : gmap (text * nat) bytes;
  su_values : Values }.

Definition no_shared : SharedUnions := MkSharedUnions ∅ ∅.

(** What a pass starts from. *)
Record Pass : Type := MkPass {
  ps_app : DynamicSource;
  ps_values : Values;
  ps_shared : SharedUnions;
  ps_placed : gset text;
  ps_assigned : gset text;
  ps_active_before : gset Key }.

Definition never_shown_virtual_b (c : Pass) (param_id : text) : bool :=
  negb (bool_decide (param_id ∈ ps_placed c)) && ds_is_system_b (ps_app c) && ds_is_virtual (ps_app c) param_id.

Definition selects_no_test_branch (c : Pass) (param_id : text) : bool :=
  never_shown_virtual_b c param_id && negb (bool_decide (param_id ∈ ps_assigned c)).

Definition is_active (c : Pass) (active_now : gset Key) (instance param_ref_id : text) (default_only : bool) : bool :=
  match parameter_id (ps_app c) param_ref_id with
  | None => true
  | Some id =>
      if negb (bool_decide (id ∈ ps_placed c)) then negb (default_only && never_shown_virtual_b c id)
      else bool_decide ((instance, param_ref_id) ∈ active_now) || bool_decide ((instance, param_ref_id) ∈ ps_active_before c)
  end.

(** The instance of the module definition around, for an allocator of its own;
    the fuel is the number of instances. *)
Fixpoint instance_around (fuel : nat) (modules : list ActiveModule) (at_ : option nat) (def : text) : option nat :=
  match fuel with
  | O => None
  | S fuel =>
      i ← at_; m ← nth_error modules i;
      if bool_decide (am_module_def m = def) then Some i else instance_around fuel modules (am_parent m) def
  end.

(** The value, if it has one, and the allocators after. *)
Definition computed_arg (app : DynamicSource) (parent : option nat) (arg : ComputedArg) (w : Walk) : option Z * Walk :=
  match match ca_base arg with
        | Some b => args ← module_args (w_modules w) parent; (args : Args) !! b
        | None => Some 0
        end with
  | None => (None, w)
  | Some base =>
      match ca_allocator arg with
      | None => (Some (i64_saturating_add (default 0 (ca_value arg)) base), w)
      | Some alloc =>
          match match rsplit_once (chars "_L-") alloc with
                | Some (def, _) =>
                    if starts_with (chars "MD-") def
                    then option_map Some (instance_around (S (length (w_modules w))) (w_modules w) parent def)
                    else Some None
                | None => Some None
                end, ds_allocator app alloc with
          | Some owner, Some decl =>
              let allocates := default 0 (ds_argument_allocates app (ca_arg arg)) in
              let value := default (al_start decl) (w_allocators w !! (owner, alloc)) in
              let entered := <[(owner, alloc) := value]> (w_allocators w) in
              if match al_max_inclusive decl with
                 | Some max => max <? i64_saturating_add (i64_saturating_add value (Z.max allocates 1)) (-1)
                 | None => false
                 end then (None, w_set_allocators entered w)
              else (Some (i64_saturating_add value base),
                    w_set_allocators (<[(owner, alloc) := i64_saturating_add value allocates]> entered) w)
          | _, _ => (None, w)
          end
      end
  end.

(** The literal arguments and the computed ones that have a value. *)
Fixpoint resolve_args (app : DynamicSource) (parent : option nat) (computed : list ComputedArg) (args : Args) (w : Walk)
    : Args * Walk :=
  match computed with
  | [] => (args, w)
  | arg :: computed =>
      let '(v, w) := computed_arg app parent arg w in
      resolve_args app parent computed (match v with Some v => <[ca_arg arg := v]> args | None => args end) w
  end.

Definition is_default_test (t : WhenTest) : bool := bool_decide (t = WhenDefault).

(** How often a [<Repeat>] repeats its children. *)
Definition repeat_count (c : Pass) (instance : text) (args : option Args) (param_ref_id : option text) (count : option u32) : Z :=
  let n := match param_ref_id with
           | Some r => default 0 (v ← value_of (ps_app c) (ps_values c) instance args r; parse_i64 (trim v))
           | None => default 0 count
           end in
  Z.max 0 (Z.min n MAX_REPEAT).

(** The value a [<choose>] branches on, as a number. *)
Definition choose_value (c : Pass) (instance : text) (args : option Args) (param_ref_id : text) : option f64 :=
  let key := (instance, param_ref_id) in
  let shared := match ps_values c !! key with None => su_values (ps_shared c) !! key | Some _ => None end in
  v ← match shared with
      | Some v => Some v
      | None => value_of (ps_app c) (ps_values c) instance args param_ref_id
      end;
  parse_f64 (trim v).

(** Whether the branch [i] of a [<choose>] is walked. *)
Definition branch_taken (c : Pass) (active_now : gset Key) (instance : text) (args : option Args) (param_ref_id : text)
    (tests : list WhenTest) : nat -> WhenTest -> bool :=
  let default_only := negb (bool_decide (tests = [])) && forallb is_default_test tests in
  if negb (is_active c active_now instance param_ref_id default_only) then fun _ _ => false
  else
    let no_tests := match parameter_id (ps_app c) param_ref_id with
                    | Some id => selects_no_test_branch c id
                    | None => false
                    end in
    let taken := taken_branches tests (choose_value c instance args param_ref_id) in
    fun i test => existsb (Nat.eqb i) taken && negb (no_tests && negb (is_default_test test)).

Section Run.
  Variable c : Pass.
  (** How the body of a module is walked; none at the greatest depth. *)
  Variable enter : option (list DynamicNode -> At -> Walk -> Walk).

Fixpoint run_node (n : DynamicNode) (a : At) (w : Walk) {struct n} : Walk :=
  match n with
  | DParameterRefRef r =>
      let scope := scope_of (w_modules w) (at_module a) r in
      w_push_parameter (instance_id (w_modules w) scope, r) ((scope, r), place_at a) w
  | DComObjectRefRef r =>
      w_push_com_object ((scope_of (w_modules w) (at_module a) r, r), place_at a) w
  | DChannel channel children =>
      let w := w_push_container (ContainerChannel channel, place_at a) w in
      let a := MkAt (at_module a) (Some channel) (at_blocks a) (at_repetition a) in
      fold_nodes (fun n w => run_node n a w) children w
  | DParameterBlock block children =>
      let w := w_push_container (ContainerBlock block, place_at a) w in
      let a := MkAt (at_module a) (at_channel a) (at_blocks a ++ [block]) (at_repetition a) in
      fold_nodes (fun n w => run_node n a w) children w
  | DChoose param_ref_id whens =>
      let scope := scope_of (w_modules w) (at_module a) param_ref_id in
      let taken := branch_taken c (w_active_now w) (instance_id (w_modules w) scope) (module_args (w_modules w) scope)
                     param_ref_id (map fst whens) in
      fold_whens (fun n w => run_node n a w) taken 0 whens w
  | DModule id module_def args computed_args =>
      match enter, ds_module_dynamic (ps_app c) module_def with
      | Some enter, Some body =>
          let '(resolved, w) := resolve_args (ps_app c) (at_module a) computed_args args w in
          let idx := length (w_modules w) in
          let repetition := Z.max (at_repetition a) 1 in
          let key := instance_key (option_map am_id (instance_of (w_modules w) (at_module a))) id module_def repetition in
          let w := w_push_module (MkActiveModule key id module_def resolved (at_module a) repetition) w in
          enter body (MkAt (Some idx) (at_channel a) (at_blocks a) 1) w
      | _, _ => w
      end
  | DRepeat _ param_ref_id count children =>
      let scope := r ← param_ref_id; scope_of (w_modules w) (at_module a) r in
      let n := repeat_count c (instance_id (w_modules w) scope) (module_args (w_modules w) scope) param_ref_id count in
      fold_nodes (fun k w =>
          let a := MkAt (at_module a) (at_channel a) (at_blocks a) (Z.of_nat k) in
          fold_nodes (fun n w => run_node n a w) children w)
        (seq 1 (Z.to_nat n)) w
  | DAssign target source value =>
      let modules := w_modules w in
      w_push_assign (MkReachedAssign (scope_of modules (at_module a) target) target
        (s ← source; scope_of modules (at_module a) s) source value (place_at a)) w
  end.

End Run.

(** The walk over the nodes, [levels] module levels deep at most. *)
Fixpoint run (levels : nat) (c : Pass) (nodes : list DynamicNode) (a : At) (w : Walk) : Walk :=
  let enter := match levels with O => None | S levels => Some (run levels c) end in
  fold_nodes (fun n w => run_node c enter n a w) nodes w.

(** The references this pass has shown, and the targets of its assigns. *)
Definition active_set (w : Walk) : gset Key :=
  foldl (fun out a => {[(instance_id (w_modules w) (ra_target_module a), ra_target a)]} ∪ out)
    (w_active_now w) (w_assigns w).

(** ** The shared memory of the unions *)

(** Where a union member sits: the union, its first bit, its width and sign. *)
Record UnionEntry : Type := MkUnionEntry { ue_union : nat; ue_pos : Z; ue_bits : Z; ue_signed : bool }.

Definition union_members (app : DynamicSource) : gmap text UnionEntry :=
  foldl (fun members '(ui, union) =>
      foldl (fun members member =>
          match ds_integer_width app (um_parameter member) with
          | None => members
          | Some (bits, signed) =>
              let pos := default 0 (um_offset member) * 8 + default 0 (um_bit_offset member) in
              <[um_parameter member := MkUnionEntry ui pos bits signed]> members
          end)
        members (un_members union))
    ∅ (zip (seq 0 (length (ds_unions app))) (ds_unions app)).

(** The references of the members, each with its member's entry. *)
Definition member_refs (app : DynamicSource) (members : gmap text UnionEntry) : list (text * UnionEntry) :=
  omap (fun '(rel, (param, _)) => option_map (fun e => (rel, e)) (members !! param)) (ds_parameter_refs app).

(** MSB first; bits past the image are not written. *)
Definition put_bits (image : bytes) (pos bits value : Z) : bytes :=
  foldl (fun image i =>
      let at_ := pos + i in
      let mask := Z.shiftr 128 (at_ mod 8) in
      alter (fun byte => if Z.land (Z.shiftr value (bits - 1 - i)) 1 =? 1 then Z.lor byte mask else Z.ldiff byte mask)
        (Z.to_nat (at_ / 8)) image)
    image (seqZ 0 bits).

Definition get_bits (image : bytes) (pos bits : Z) : Z :=
  foldl (fun acc i =>
      let at_ := pos + i in
      let bit := match image !! Z.to_nat (at_ / 8) with
                 | Some b => Z.land (Z.shiftr b (7 - at_ mod 8)) 1
                 | None => 0
                 end in
      Z.lor (Z.shiftl acc 1 mod 18446744073709551616) bit)
    0 (seqZ 0 bits).

(** A member's bits as its value. *)
Definition member_value (raw bits : Z) (signed : bool) : Z :=
  if signed && (0 <? bits) && (bits <? 64) && (Z.land (Z.shiftr raw (bits - 1)) 1 =? 1) then as_i64 raw - Z.shiftl 1 bits
  else as_i64 raw.

(** A reached member's value is laid into its union's memory. *)
Definition lay_member (app : DynamicSource) (members : gmap text UnionEntry) (values : Values) (modules : list ActiveModule)
    (images : gmap (text * nat) bytes) (p : Active) : gmap (text * nat) bytes :=
  let '(module, r) := p in
  let instance := instance_id modules module in
  match (id ← parameter_id app r; members !! id),
        (v ← value_of app values instance (module_args modules module) r; parse_i64 (trim v)) with
  | Some e, Some v =>
      let size := Z.max (default 0 (u ← nth_error (ds_unions app) (ue_union e); un_size_bits u)) (ue_pos e + ue_bits e) in
      let image := default (replicate (Z.to_nat (div_ceil_8 size)) 0) (images !! (instance, ue_union e)) in
      <[(instance, ue_union e) := put_bits image (ue_pos e) (ue_bits e) (v mod 18446744073709551616)]> images
  | _, _ => images
  end.

Definition reached_keys (w : Walk) : gset Key :=
  list_to_set (map (fun p => (instance_id (w_modules w) (fst (fst p)), snd (fst p))) (w_parameters w)).

Definition shared_memory (app : DynamicSource) (values : Values) (w : Walk) : SharedUnions :=
  let members := union_members app in
  if bool_decide (members = ∅) then no_shared
  else
    let images := foldl (lay_member app members values (w_modules w)) ∅ (map fst (w_parameters w)) in
    let read :=
      foldl (fun read '(rel, e) =>
          foldl (fun read '((instance, ui), image) =>
              if negb (ui =? ue_union e)%nat || bool_decide ((instance, rel) ∈ reached_keys w) then read
              else <[(instance, rel) := to_text (member_value (get_bits image (ue_pos e) (ue_bits e)) (ue_bits e)
                                                   (ue_signed e))]> read)
            read (map_to_list images))
        ∅ (member_refs app members) in
    MkSharedUnions images read.

(** ** Passes *)

(** What is carried from pass to pass. *)
Record Evaluation : Type := MkEvaluation {
  ev_values : Values;
  ev_overridden : gset Key;
  ev_shared : SharedUnions;
  ev_active : gset Key;
  ev_walk : Walk }.

(** A reached [<Assign>] sets its target; whether a value changed. *)
Definition apply_assign (app : DynamicSource) (modules : list ActiveModule) (s : Values * gset Key * bool)
    (a : ReachedAssign) : Values * gset Key * bool :=
  let '(values, overridden, changed) := s in
  match match ra_value a, ra_source a with
        | Some v, _ => Some v
        | None, Some src => value_of app values (instance_id modules (ra_source_module a))
                              (module_args modules (ra_source_module a)) src
        | None, None => None
        end with
  | None => s
  | Some new =>
      match parameter_id app (ra_target a) with
      | None => s
      | Some _ =>
          let key := (instance_id modules (ra_target_module a), ra_target a) in
          if bool_decide (values !! key = Some new) then s
          else (<[key := new]> values, overridden ∖ {[key]}, true)
      end
  end.

(** The pass a walk makes over the Dynamic section. *)
Definition pass_of (app : DynamicSource) (e : Evaluation) : Pass :=
  MkPass app (ev_values e) (ev_shared e) (placed_parameters app) (assigned_parameters app) (ev_active e).

Definition walk_of (app : DynamicSource) (e : Evaluation) : Walk :=
  run MAX_MODULE_DEPTH (pass_of app e) (ds_dynamic app) at_start walk_start.

Definition one_pass (app : DynamicSource) (e : Evaluation) : bool * Evaluation :=
  let w := walk_of app e in
  let next := shared_memory app (ev_values e) w in
  let now := active_set w in
  let changed := negb (bool_decide (su_images next = su_images (ev_shared e)))
                 || negb (bool_decide (now = ev_active e)) in
  let '(values, overridden, assigned) :=
    foldl (apply_assign app (w_modules w)) (ev_values e, ev_overridden e, false) (w_assigns w) in
  (changed || assigned, MkEvaluation values overridden next now w).

(** At most [n] passes, and whether the last of them changed nothing. *)
Fixpoint passes (n : nat) (app : DynamicSource) (e : Evaluation) : bool * Evaluation :=
  match n with
  | O => (false, e)
  | S n => let '(changed, e) := one_pass app e in if changed then passes n app e else (true, e)
  end.

(** The overrides' values, the keys set by them, and the keys of no reference. *)
Definition apply_override (app : DynamicSource) (s : Values * gset Key * list text) (o : text * text)
    : Values * gset Key * list text :=
  let '(values, overridden, unresolved) := s in
  let '(key, value) := o in
  let '(instance, param_ref) := split_selector key in
  match parameter_id app param_ref with
  | Some param_id =>
      let k := (default [] instance, param_ref) in
      (<[k := enum_code_of app param_id value]> values, {[k]} ∪ overridden, unresolved)
  | None => (values, overridden, unresolved ++ [key])
  end.

Definition first_evaluation (values : Values) (overridden : gset Key) : Evaluation :=
  MkEvaluation values overridden no_shared ∅ walk_start.

(** ** The configuration *)

Record ItemPlacement : Type := MkItemPlacement {
  plc_channel : option ChannelRef;
  plc_blocks : list BlockRef;
  plc_module : option nat;
  plc_module_instance : option text;
  plc_shown : bool }.

Record DynamicConfig : Type := MkDynamicConfig {
  dc_modules : list ActiveModule;
  dc_parameters : list (Active * ItemPlacement);
  dc_com_objects : list (Active * ItemPlacement);
  dc_containers : list (Container * ItemPlacement);
  dc_unresolved_overrides : list text;
  dc_values : Values;
  dc_overridden : gset Key }.

Definition placement_of (modules : list ActiveModule) (place : Place) (shown : bool) : ItemPlacement :=
  MkItemPlacement (pl_channel place) (pl_blocks place) (pl_module place)
    (option_map am_id (instance_of modules (pl_module place))) shown.

(** The first element of each key, in order. *)
Fixpoint first_of_each {A K} `{Countable K} (key : A -> K) (seen : gset K) (l : list A) : list A :=
  match l with
  | [] => []
  | x :: l => if bool_decide (key x ∈ seen) then first_of_each key seen l
              else x :: first_of_each key ({[key x]} ∪ seen) l
  end.

Definition container_id (c : Container) : text :=
  match c with ContainerChannel c => ch_id c | ContainerBlock b => bl_id b end.

(** The references shown, then the targets and sources of the assigns. *)
Definition written_parameters (w : Walk) : list (Active * ItemPlacement) :=
  map (fun p => (fst p, placement_of (w_modules w) (snd p) true)) (w_parameters w) ++
  flat_map (fun a =>
      let place := placement_of (w_modules w) (ra_place a) false in
      ((ra_target_module a, ra_target a), place)
      :: match ra_source a with Some s => [((ra_source_module a, s), place)] | None => [] end)
    (w_assigns w).

Definition evaluate_dynamic (app : DynamicSource) (overrides : list (text * text)) : DynamicConfig :=
  let '(values, overridden, unresolved) := foldl (apply_override app) (∅, ∅, []) overrides in
  let '(_, e) := passes MAX_ASSIGN_PASSES app (first_evaluation values overridden) in
  let w := ev_walk e in
  MkDynamicConfig (w_modules w)
    (first_of_each fst ∅ (written_parameters w))
    (first_of_each fst ∅ (map (fun c => (fst c, placement_of (w_modules w) (snd c) true)) (w_com_objects w)))
    (first_of_each (fun c => (plc_module (snd c), container_id (fst c))) ∅
       (map (fun c => (fst c, placement_of (w_modules w) (snd c) true)) (w_containers w)))
    unresolved (ev_values e) (ev_overridden e).

Definition DynamicConfig_instance_id (d : DynamicConfig) (module : option nat) : text := instance_id (dc_modules d) module.

Definition DynamicConfig_value (app : DynamicSource) (d : DynamicConfig) (module : option nat) (param_ref_id : text)
    : option text :=
  value_of app (dc_values d) (instance_id (dc_modules d) module) (module_args (dc_modules d) module) param_ref_id.

Definition DynamicConfig_vendor_default (app : DynamicSource) (d : DynamicConfig) (module : option nat) (param_ref_id : text)
    : option text :=
  value_of app ∅ (instance_id (dc_modules d) module) (module_args (dc_modules d) module) param_ref_id.

Definition DynamicConfig_is_override (app : DynamicSource) (d : DynamicConfig) (module : option nat) (param_ref_id : text)
    : bool :=
  bool_decide (is_Some (parameter_id app param_ref_id))
  && bool_decide ((instance_id (dc_modules d) module, param_ref_id) ∈ dc_overridden d).

Definition DynamicConfig_is_assigned (d : DynamicConfig) (module : option nat) (param_ref_id : text) : bool :=
  let key := (instance_id (dc_modules d) module, param_ref_id) in
  bool_decide (is_Some (dc_values d !! key)) && negb (bool_decide (key ∈ dc_overridden d)).
