(* ===== verification/DynamicSpec.v ===== *)
(** * What the evaluation of a Dynamic section computes

    The references a program shows, given which references are active, as a
    function of the nodes alone ([visit]): no walk, no order of discovery.  When
    the passes of [evaluate_dynamic] settle, their walk has reached exactly these,
    with the active references a fixed point, and the least one where no
    [<Assign>] and no union feeds back into the choices. *)

From Stdlib Require Import String.
From S2P Require Import Prelude Decimal TextCodec Float64 WhenTest Selector ParamField ParamValue ParamImage Dynamic.

Local Open Scope string_scope.
Local Open Scope list_scope.
Local Open Scope Z_scope.

(** ** The reference *)

(** A module instance around a node. *)
Record Frame : Type := MkFrame { fr_id : text; fr_def : text; fr_args : Args }.

(** The instances around a node, innermost first. *)
Definition Chain : Type := list Frame.

Definition chain_id (ch : Chain) : text := match ch with f :: _ => fr_id f | [] => [] end.
Definition chain_args (ch : Chain) : option Args := match ch with f :: _ => Some (fr_args f) | [] => None end.

(** The innermost instance that the reference belongs to, with those around it. *)
Fixpoint own_chain (ch : Chain) (r : text) : option Chain :=
  match ch with
  | [] => None
  | f :: rest => if belongs_to (fr_def f) r then Some ch else own_chain rest r
  end.

Definition chain_scope (ch : Chain) (r : text) : Chain :=
  match own_chain ch r with
  | Some scope => scope
  | None => if starts_with (chars "MD-") r then ch else []
  end.

Inductive Item : Type :=
| ItemParameter (k : Key)
| ItemComObject (k : Key)
| ItemAssign (k : Key).

Definition scoped (ch : Chain) (r : text) : Key := (chain_id (chain_scope ch r), r).

(** The arguments of a new instance, none of them from an allocator. *)
Definition plain_arg (parent : option Args) (arg : ComputedArg) : option Z :=
  option_map (i64_saturating_add (default 0 (ca_value arg)))
    match ca_base arg with
    | Some b => args ← parent; (args : Args) !! b
    | None => Some 0
    end.

Definition plain_args (parent : option Args) (computed : list ComputedArg) (args : Args) : Args :=
  foldl (fun args arg => match plain_arg parent arg with Some v => <[ca_arg arg := v]> args | None => args end)
    args computed.

Fixpoint select_whens {N I} (f : N -> list I) (taken : nat -> WhenTest -> bool) (i : nat) (l : list (WhenTest * list N))
    : list I :=
  match l with
  | [] => []
  | (test, ns) :: l => (if taken i test then flat_map f ns else []) ++ select_whens f taken (S i) l
  end.

Section Visit.
  Variable c : Pass.
  Variable enter : option (list DynamicNode -> Chain -> list Item).

(** What a node shows; a reference is active when it is in [ps_active_before]. *)
Fixpoint visit_node (n : DynamicNode) (ch : Chain) (repetition : Z) {struct n} : list Item :=
  match n with
  | DParameterRefRef r => [ItemParameter (scoped ch r)]
  | DComObjectRefRef r => [ItemComObject (scoped ch r)]
  | DAssign target _ _ => [ItemAssign (scoped ch target)]
  | DChannel _ children | DParameterBlock _ children => flat_map (fun n => visit_node n ch repetition) children
  | DChoose r whens =>
      let scope := chain_scope ch r in
      select_whens (fun n => visit_node n ch repetition)
        (branch_taken c ∅ (chain_id scope) (chain_args scope) r (map fst whens)) 0 whens
  | DModule id module_def args computed_args =>
      match enter, ds_module_dynamic (ps_app c) module_def with
      | Some enter, Some body =>
          enter body (MkFrame (instance_key (option_map fr_id (head ch)) id module_def (Z.max repetition 1)) module_def
                        (plain_args (chain_args ch) computed_args args) :: ch)
      | _, _ => []
      end
  | DRepeat _ param_ref_id count children =>
      let scope := match param_ref_id with Some r => chain_scope ch r | None => [] end in
      flat_map (fun k => flat_map (fun n => visit_node n ch (Z.of_nat k)) children)
        (seq 1 (Z.to_nat (repeat_count c (chain_id scope) (chain_args scope) param_ref_id count)))
  end.

End Visit.

(** What the nodes show, [levels] module levels deep at most. *)
Fixpoint visit_in (levels : nat) (c : Pass) (nodes : list DynamicNode) (ch : Chain) (repetition : Z) : list Item :=
  let enter := match levels with O => None | S levels => Some (fun body ch => visit_in levels c body ch 1) end in
  flat_map (fun n => visit_node c enter n ch repetition) nodes.

Definition visit (c : Pass) : list Item := visit_in MAX_MODULE_DEPTH c (ds_dynamic (ps_app c)) [] 0.

Definition item_parameters (l : list Item) : list Key := omap (fun i => match i with ItemParameter k => Some k | _ => None end) l.
Definition item_com_objects (l : list Item) : list Key := omap (fun i => match i with ItemComObject k => Some k | _ => None end) l.
Definition item_assigns (l : list Item) : list Key := omap (fun i => match i with ItemAssign k => Some k | _ => None end) l.

(** The references that a list of items makes active. *)
Definition active_items (l : list Item) : gset Key := list_to_set (item_parameters l ++ item_assigns l).

(** The pass with other references active. *)
Definition with_active (active : gset Key) (c : Pass) : Pass :=
  MkPass (ps_app c) (ps_values c) (ps_shared c) (ps_placed c) (ps_assigned c) active.

(** No argument of a module comes from an allocator. *)
Fixpoint allocator_free (n : DynamicNode) : bool :=
  match n with
  | DChannel _ children | DParameterBlock _ children | DRepeat _ _ _ children => forallb allocator_free children
  | DChoose _ whens => forallb (fun w => forallb allocator_free (snd w)) whens
  | DModule _ _ _ computed => forallb (fun a => bool_decide (ca_allocator a = None)) computed
  | _ => true
  end.

Definition app_allocator_free (app : DynamicSource) : bool :=
  forallb allocator_free (ds_dynamic app) && forallb (fun d => forallb allocator_free (snd d)) (ds_module_dynamics app).

(** ** Lemmas: induction on nodes *)

Lemma node_ind (P : DynamicNode -> Prop)
    (HC : forall c l, Forall P l -> P (DChannel c l)) (HB : forall b l, Forall P l -> P (DParameterBlock b l))
    (HP : forall r, P (DParameterRefRef r)) (HO : forall r, P (DComObjectRefRef r))
    (HW : forall r l, Forall (fun w => Forall P (snd w)) l -> P (DChoose r l))
    (HM : forall id d args l, P (DModule id d args l))
    (HR : forall id r n l, Forall P l -> P (DRepeat id r n l)) (HA : forall t s v, P (DAssign t s v)) :
  forall n, P n.
Proof.
  fix IH 1. intros n.
  assert (H : forall l, Forall P l) by (fix IHl 1; intros [|x l]; constructor; [apply IH|apply IHl]).
  destruct n; [apply HC|apply HB|apply HP|apply HO|apply HW|apply HM|apply HR|apply HA]; try apply H.
  revert whens. fix IHw 1. intros [|[t ns] l]; constructor; [|apply IHw].
  cbn. clear H. revert ns. fix IHl 1. intros [|x ns]; constructor; [apply IH|apply IHl].
Qed.

(** ** Lemmas: the instances of a walk as chains *)

Definition frame_of (m : ActiveModule) : Frame := MkFrame (am_id m) (am_module_def m) (am_args m).

Fixpoint chain_from (fuel : nat) (modules : list ActiveModule) (module : option nat) : Chain :=
  match fuel, module with
  | S fuel, Some i =>
      match nth_error modules i with
      | Some m => frame_of m :: chain_from fuel modules (am_parent m)
      | None => []
      end
  | _, _ => []
  end.

Definition chain_of (modules : list ActiveModule) (module : option nat) : Chain := chain_from (S (length modules)) modules module.

(** An instance comes after the one around it. *)
Definition modules_ok (modules : list ActiveModule) : Prop :=
  forall i m p, nth_error modules i = Some m -> am_parent m = Some p -> (p < i)%nat.

Definition valid (modules : list ActiveModule) (module : option nat) : Prop :=
  forall i, module = Some i -> (i < length modules)%nat.

Lemma valid_None modules : valid modules None.
Proof. by intros i [=]. Qed.

Lemma parent_valid modules i m : modules_ok modules -> nth_error modules i = Some m -> valid modules (am_parent m).
Proof.
  intros Hm E p Ep. pose proof (Hm i m p E Ep). assert (i < length modules)%nat by (apply nth_error_Some; congruence). lia.
Qed.

Lemma chain_fuel modules : modules_ok modules -> forall k1 k2 module,
  (forall i, module = Some i -> (i < k1)%nat /\ (i < k2)%nat) -> chain_from k1 modules module = chain_from k2 modules module.
Proof.
  intros Hm. induction k1 as [|k1 IH]; intros k2 module H; destruct module as [i|].
  - destruct (H i eq_refl). lia.
  - by destruct k2.
  - destruct (H i eq_refl). destruct k2 as [|k2]; [lia|]. cbn [chain_from]. destruct (nth_error modules i) as [m|] eqn:E; [|done].
    f_equal. apply IH. intros p Ep. pose proof (Hm i m p E Ep). lia.
  - by destruct k2.
Qed.

Lemma chain_from_at k modules i m : nth_error modules i = Some m ->
  chain_from (S k) modules (Some i) = frame_of m :: chain_from k modules (am_parent m).
Proof. intros E. cbn [chain_from]. by rewrite E. Qed.

Lemma chain_step modules i m : modules_ok modules -> nth_error modules i = Some m ->
  chain_of modules (Some i) = frame_of m :: chain_of modules (am_parent m).
Proof.
  intros Hm E. etransitivity; [apply (chain_from_at (length modules) modules i m E)|]. f_equal.
  unfold chain_of. apply chain_fuel; [done|]. intros p Ep. pose proof (Hm i m p E Ep). assert (i < length modules)%nat by (apply nth_error_Some; congruence). lia.
Qed.

Lemma chain_none modules : chain_of modules None = [].
Proof. done. Qed.

(** What is known of an instance stays so when instances are added. *)
Lemma chain_app modules ms module : modules_ok (modules ++ ms) -> valid modules module ->
  chain_of (modules ++ ms) module = chain_of modules module.
Proof.
  intros Hm. assert (Hm0 : modules_ok modules).
  { intros i m p E. apply (Hm i). rewrite nth_error_app1; [done|]. apply nth_error_Some. congruence. }
  destruct module as [i|]; [|done]. intros Hv. specialize (Hv i eq_refl). revert Hv.
  induction i as [i IH] using (well_founded_induction lt_wf). intros Hv.
  destruct (nth_error modules i) as [m|] eqn:E; [|by apply nth_error_None in E; lia].
  rewrite (chain_step modules i m), (chain_step (modules ++ ms) i m) by (done || by rewrite nth_error_app1).
  f_equal. destruct (am_parent m) as [p|] eqn:Ep; [|done]. pose proof (Hm0 i m p E Ep). apply IH; lia.
Qed.

Lemma instance_chain modules module : modules_ok modules -> valid modules module ->
  instance_id modules module = chain_id (chain_of modules module) /\
  module_args modules module = chain_args (chain_of modules module) /\
  option_map am_id (instance_of modules module) = option_map fr_id (head (chain_of modules module)).
Proof.
  intros Hm Hv. unfold instance_id, module_args, instance_of. destruct module as [i|]; [|done]. cbn [mbind option_bind].
  specialize (Hv i eq_refl). destruct (nth_error modules i) as [m|] eqn:E; [|by apply nth_error_None in E; lia].
  by rewrite (chain_step modules i m).
Qed.

(** The scope of a reference is the chain's. *)
Lemma own_scope_chain modules r : modules_ok modules -> forall fuel module,
  valid modules module -> (forall i, module = Some i -> (i < fuel)%nat) ->
  match own_chain (chain_of modules module) r with
  | Some ch => exists i, own_scope fuel modules module r = Some (Some i) /\ (i < length modules)%nat /\ chain_of modules (Some i) = ch
  | None => own_scope fuel modules module r = None
  end.
Proof.
  intros Hm. induction fuel as [|fuel IH]; intros module Hv Hf; destruct module as [i|]; [|done| |done].
  - specialize (Hf i eq_refl). lia.
  - specialize (Hv i eq_refl). destruct (nth_error modules i) as [m|] eqn:E; [|by apply nth_error_None in E; lia].
    pose proof (chain_step modules i m Hm E) as Ec. rewrite Ec. cbn [own_chain own_scope frame_of fr_def]. rewrite E.
    destruct (belongs_to (am_module_def m) r) eqn:Eb.
    + exists i. split; [done|]. split; [done|]. exact Ec.
    + apply IH; [by eapply parent_valid|]. intros p Ep. pose proof (Hm i m p E Ep). specialize (Hf i eq_refl). lia.
Qed.

Lemma scope_chain modules module r : modules_ok modules -> valid modules module ->
  valid modules (scope_of modules module r) /\ chain_of modules (scope_of modules module r) = chain_scope (chain_of modules module) r.
Proof.
  intros Hm Hv. unfold scope_of, chain_scope.
  pose proof (own_scope_chain modules r Hm (S (length modules)) module Hv) as H.
  destruct (own_chain (chain_of modules module) r) as [ch|].
  - destruct H as (i & -> & Hi & Ec); [intros i Ei; specialize (Hv i Ei); lia|]. split; [|done]. by intros j [= <-].
  - rewrite H by (intros i Ei; specialize (Hv i Ei); lia). destruct (starts_with _ r); [done|]. split; [apply valid_None|done].
Qed.

Lemma scoped_key modules module r : modules_ok modules -> valid modules module ->
  (instance_id modules (scope_of modules module r), r) = scoped (chain_of modules module) r.
Proof.
  intros Hm Hv. destruct (scope_chain modules module r Hm Hv) as [Hs Ec]. unfold scoped.
  destruct (instance_chain modules _ Hm Hs) as (-> & _). by rewrite Ec.
Qed.

(** ** Lemmas: the walk shows what the reference does *)

Definition param_keys (w : Walk) : list Key :=
  map (fun p => (instance_id (w_modules w) (fst (fst p)), snd (fst p))) (w_parameters w).
Definition com_object_keys (w : Walk) : list Key :=
  map (fun p => (instance_id (w_modules w) (fst (fst p)), snd (fst p))) (w_com_objects w).
Definition assign_keys (w : Walk) : list Key :=
  map (fun a => (instance_id (w_modules w) (ra_target_module a), ra_target a)) (w_assigns w).

Record walk_ok (w : Walk) : Prop := {
  wok_modules : modules_ok (w_modules w);
  wok_parameters : Forall (fun p => valid (w_modules w) (fst (fst p))) (w_parameters w);
  wok_com_objects : Forall (fun p => valid (w_modules w) (fst (fst p))) (w_com_objects w);
  wok_assigns : Forall (fun a => valid (w_modules w) (ra_target_module a)) (w_assigns w);
  wok_active : w_active_now w = list_to_set (param_keys w) }.

(** The active references of the walk so far. *)
Definition active_so_far (w : Walk) : gset Key := list_to_set (param_keys w ++ assign_keys w).

Lemma active_set_keys w : walk_ok w -> active_set w = active_so_far w.
Proof.
  intros Hw. unfold active_set, active_so_far, assign_keys. rewrite (wok_active w Hw), list_to_set_app_L.
  generalize (list_to_set (C := gset Key) (param_keys w)) as s. induction (w_assigns w) as [|a l IH]; intros s; cbn [foldl map list_to_set].
  - set_solver.
  - rewrite IH. set_solver.
Qed.

(** From one state of the walk to a later one: instances are only added; and
    [shown_A], [shown_B] are what is shown when the references of [A], or those of
    the previous pass [B], are active. *)
Record Steps (A B : gset Key) (shown_A shown_B : list Item) (w w' : Walk) : Prop := {
  st_ok : walk_ok w';
  st_modules : exists ms, w_modules w' = w_modules w ++ ms;
  st_grows : active_so_far w ⊆ active_so_far w';
  st_upper : active_so_far w ⊆ A -> active_items shown_A ⊆ A -> active_so_far w' ⊆ A;
  st_exact : active_so_far w' ⊆ B ->
    param_keys w' = param_keys w ++ item_parameters shown_B /\
    com_object_keys w' = com_object_keys w ++ item_com_objects shown_B /\
    assign_keys w' = assign_keys w ++ item_assigns shown_B }.

Lemma active_items_app l1 l2 : active_items (l1 ++ l2) = active_items l1 ∪ active_items l2.
Proof. unfold active_items, item_parameters, item_assigns. rewrite !omap_app, !list_to_set_app_L. set_solver. Qed.

Lemma Steps_refl A B w : walk_ok w -> Steps A B [] [] w w.
Proof.
  intros Hw. split; [done|exists []; by rewrite app_nil_r|done|done|].
  intros _. cbn. by rewrite !app_nil_r.
Qed.

Lemma Steps_trans A B a1 b1 a2 b2 w w1 w2 : Steps A B a1 b1 w w1 -> Steps A B a2 b2 w1 w2 ->
  Steps A B (a1 ++ a2) (b1 ++ b2) w w2.
Proof.
  intros [K1 [m1 M1] G1 U1 E1] [K2 [m2 M2] G2 U2 E2]. split; [done| | | |].
  - exists (m1 ++ m2). by rewrite M2, M1, app_assoc.
  - set_solver.
  - intros HA. rewrite active_items_app. intros Hi. apply U2; [apply U1; [done|]|]; set_solver.
  - intros HB. destruct (E2 HB) as (P2 & O2 & Q2). destruct E1 as (P1 & O1 & Q1); [set_solver|].
    unfold item_parameters, item_com_objects, item_assigns. rewrite !omap_app.
    rewrite P2, O2, Q2, P1, O1, Q1, !app_assoc. done.
Qed.

(** [Steps] for a fold over nodes. *)
Lemma Steps_fold {N} A B (f : N -> Walk -> Walk) (va vb : N -> list Item) (R : Walk -> Prop) l :
  (forall w ms w', R w -> w_modules w' = w_modules w ++ ms -> walk_ok w' -> R w') ->
  Forall (fun n => forall w, walk_ok w -> R w -> Steps A B (va n) (vb n) w (f n w)) l ->
  forall w, walk_ok w -> R w -> Steps A B (flat_map va l) (flat_map vb l) w (fold_nodes f l w).
Proof.
  intros HR. induction 1 as [|n l Hn Hl IH]; intros w Hw Hr; [by apply Steps_refl|]. cbn [flat_map fold_nodes].
  pose proof (Hn w Hw Hr) as S1. eapply Steps_trans; [exact S1|]. destruct S1 as [K [ms M] _ _ _].
  apply IH; [done|]. by eapply HR.
Qed.

(** The same for what is shown under other choices, when these agree. *)
Lemma Steps_weaken A B a b a' b' w w' : Steps A B a b w w' ->
  (active_so_far w ⊆ A -> active_items a ⊆ active_items a') -> (active_so_far w ⊆ B -> b = b') -> Steps A B a' b' w w'.
Proof.
  intros [K M G U E] HA HB. split; [done|done|done| |].
  - intros Hw Hi. apply U; [done|]. set_solver.
  - intros Hw. rewrite <- HB by set_solver. by apply E.
Qed.

(** What one step adds. *)
Lemma keys_app {X} (key : X -> option nat) (id : X -> text) modules ms (l : list X) : modules_ok (modules ++ ms) ->
  Forall (fun x => valid modules (key x)) l ->
  map (fun x => (instance_id (modules ++ ms) (key x), id x)) l = map (fun x => (instance_id modules (key x), id x)) l.
Proof.
  intros Hm Hl. apply map_ext_in. intros x Hx. rewrite Forall_forall in Hl. f_equal.
  assert (Hv : valid modules (key x)) by (apply Hl; by apply list_elem_of_In).
  unfold instance_id, instance_of. destruct (key x) as [i|] eqn:E; [|done]. cbn. rewrite nth_error_app1; [done|]. by apply Hv.
Qed.

Lemma push_module_steps A B w m : walk_ok w -> valid (w_modules w) (am_parent m) -> Steps A B [] [] w (w_push_module m w).
Proof.
  intros Hw Hv. destruct Hw as [H1 H2 H3 H4 H5].
  assert (Hm : modules_ok (w_modules w ++ [m])).
  { intros i m' p E Ep. destruct (Nat.lt_ge_cases i (length (w_modules w))) as [Hi|Hi].
    - rewrite nth_error_app1 in E by done. by eapply H1.
    - rewrite nth_error_app2 in E by done. destruct (i - length (w_modules w))%nat as [|k]; [|by destruct k].
      cbn in E. injection E as <-. specialize (Hv p Ep). lia. }
  assert (Hp : param_keys (w_push_module m w) = param_keys w) by (unfold param_keys; by apply (keys_app _ _ (w_modules w) [m])).
  assert (Ha : assign_keys (w_push_module m w) = assign_keys w) by (unfold assign_keys; by apply (keys_app _ _ (w_modules w) [m])).
  assert (Hc : com_object_keys (w_push_module m w) = com_object_keys w) by (unfold com_object_keys; by apply (keys_app _ _ (w_modules w) [m])).
  assert (Hmono : forall o, valid (w_modules w) o -> valid (w_modules (w_push_module m w)) o).
  { intros o Ho i Ei. cbn. rewrite length_app. specialize (Ho i Ei). lia. }
  assert (He : active_so_far (w_push_module m w) = active_so_far w) by (unfold active_so_far; by rewrite Hp, Ha).
  split.
  - split; [exact Hm| | | |by rewrite Hp]; (eapply Forall_impl; [eassumption|]; intros x; apply Hmono).
  - by exists [m].
  - by rewrite He.
  - rewrite He. auto.
  - intros _. rewrite Hp, Ha, Hc. cbn. by rewrite !app_nil_r.
Qed.

Lemma push_parameter_steps A B w m r p : walk_ok w -> valid (w_modules w) m ->
  let shown := [ItemParameter (instance_id (w_modules w) m, r)] in
  Steps A B shown shown w (w_push_parameter (instance_id (w_modules w) m, r) ((m, r), p) w).
Proof.
  intros [H1 H2 H3 H4 H5] Hv. cbv zeta. set (w' := w_push_parameter _ _ _).
  assert (Hp : param_keys w' = param_keys w ++ [(instance_id (w_modules w) m, r)]) by (unfold param_keys; cbn; by rewrite map_app).
  assert (He : active_so_far w' = active_so_far w ∪ {[(instance_id (w_modules w) m, r)]}).
  { unfold active_so_far. change (assign_keys w') with (assign_keys w). rewrite Hp, !list_to_set_app_L. cbn. set_solver. }
  split.
  - split; try assumption.
    + cbn. apply Forall_app. split; [done|]. by apply Forall_cons_2.
    + rewrite Hp, list_to_set_app_L. cbn. rewrite H5. set_solver.
  - exists []. by rewrite app_nil_r.
  - set_solver.
  - rewrite He. unfold active_items. cbn. set_solver.
  - intros _. change (assign_keys w') with (assign_keys w). change (com_object_keys w') with (com_object_keys w). rewrite Hp. cbn. by rewrite !app_nil_r.
Qed.

Lemma push_com_object_steps A B w m r p : walk_ok w -> valid (w_modules w) m ->
  let shown := [ItemComObject (instance_id (w_modules w) m, r)] in
  Steps A B shown shown w (w_push_com_object ((m, r), p) w).
Proof.
  intros [H1 H2 H3 H4 H5] Hv. cbv zeta. set (w' := w_push_com_object _ _).
  split.
  - split; try assumption. cbn. apply Forall_app. split; [done|]. by apply Forall_cons_2.
  - exists []. by rewrite app_nil_r.
  - done.
  - done.
  - intros _. change (assign_keys w') with (assign_keys w). change (param_keys w') with (param_keys w).
    assert (Hc : com_object_keys w' = com_object_keys w ++ [(instance_id (w_modules w) m, r)]) by (unfold com_object_keys; cbn; by rewrite map_app).
    rewrite Hc. cbn. by rewrite !app_nil_r.
Qed.

Lemma push_assign_steps A B w a : walk_ok w -> valid (w_modules w) (ra_target_module a) ->
  let shown := [ItemAssign (instance_id (w_modules w) (ra_target_module a), ra_target a)] in
  Steps A B shown shown w (w_push_assign a w).
Proof.
  intros [H1 H2 H3 H4 H5] Hv. cbv zeta. set (w' := w_push_assign _ _).
  assert (Hp : assign_keys w' = assign_keys w ++ [(instance_id (w_modules w) (ra_target_module a), ra_target a)])
    by (unfold assign_keys; cbn; by rewrite map_app).
  assert (He : active_so_far w' = active_so_far w ∪ {[(instance_id (w_modules w) (ra_target_module a), ra_target a)]}).
  { unfold active_so_far. change (param_keys w') with (param_keys w). rewrite Hp, !list_to_set_app_L. cbn. set_solver. }
  split.
  - split; try assumption. cbn. apply Forall_app. split; [done|]. by apply Forall_cons_2.
  - exists []. by rewrite app_nil_r.
  - set_solver.
  - rewrite He. unfold active_items. cbn. set_solver.
  - intros _. change (param_keys w') with (param_keys w). change (com_object_keys w') with (com_object_keys w). rewrite Hp. cbn. by rewrite !app_nil_r.
Qed.

(** A container is recorded, and nothing else changes. *)
Lemma push_container_steps A B w c : walk_ok w -> Steps A B [] [] w (w_push_container c w).
Proof.
  intros [H1 H2 H3 H4 H5]. split; [by split|exists []; by rewrite app_nil_r|done|done|].
  intros _. cbn. rewrite !app_nil_r. done.
Qed.

(** ** Lemmas: the choices *)

Lemma is_active_mono c active1 active2 instance r d : (active1 ∪ ps_active_before c) ⊆ active2 ->
  is_active c active1 instance r d = true -> is_active (with_active active2 c) ∅ instance r d = true.
Proof.
  intros H. unfold is_active, never_shown_virtual_b. cbn [ps_app ps_placed with_active ps_active_before].
  destruct (parameter_id (ps_app c) r); [|done]. destruct (negb _); [done|].
  rewrite !orb_true_iff, !bool_decide_eq_true. set_solver.
Qed.

Lemma is_active_exact c active B instance r d : active ⊆ B -> ps_active_before c = B ->
  is_active c active instance r d = is_active (with_active B c) ∅ instance r d.
Proof.
  intros H <-. unfold is_active, never_shown_virtual_b. cbn [ps_app ps_placed with_active ps_active_before].
  destruct (parameter_id (ps_app c) r); [|done]. destruct (negb _); [done|].
  apply eq_iff_eq_true. rewrite !orb_true_iff, !bool_decide_eq_true. set_solver.
Qed.

Lemma branch_taken_mono c active1 active2 instance args r tests i t : (active1 ∪ ps_active_before c) ⊆ active2 ->
  branch_taken c active1 instance args r tests i t = true ->
  branch_taken (with_active active2 c) ∅ instance args r tests i t = true.
Proof.
  intros H. unfold branch_taken. destruct (is_active c active1 _ _ _) eqn:E; [|done].
  by rewrite (is_active_mono _ _ _ _ _ _ H E).
Qed.

Lemma branch_taken_exact c active B instance args r tests i t : active ⊆ B -> ps_active_before c = B ->
  branch_taken c active instance args r tests i t = branch_taken (with_active B c) ∅ instance args r tests i t.
Proof. intros H HB. unfold branch_taken. by rewrite (is_active_exact c active B) by done. Qed.

Lemma select_whens_ext {N I} (f : N -> list I) t1 t2 l : (forall i t, t1 i t = t2 i t) -> forall i,
  select_whens f t1 i l = select_whens f t2 i l.
Proof. intros H. induction l as [|[t ns] l IH]; intros i; cbn; [done|]. by rewrite H, IH. Qed.

Lemma select_whens_mono {N} (f : N -> list Item) t1 t2 l : (forall i t, t1 i t = true -> t2 i t = true) -> forall i,
  active_items (select_whens f t1 i l) ⊆ active_items (select_whens f t2 i l).
Proof.
  intros H. induction l as [|[t ns] l IH]; intros i; cbn [select_whens]; [done|]. specialize (IH (S i)). rewrite !active_items_app.
  destruct (t1 i t) eqn:E; [rewrite (H _ _ E); set_solver|]. change (active_items []) with (∅ : gset Key). set_solver.
Qed.

(** ** Lemmas: a whole walk *)

(** Without allocators the arguments of an instance depend on its parent alone. *)
Lemma resolve_plain app parent computed : forallb (fun a => bool_decide (ca_allocator a = None)) computed = true ->
  forall args w, resolve_args app parent computed args w = (plain_args (module_args (w_modules w) parent) computed args, w).
Proof.
  induction computed as [|arg l IH]; intros Hl args w; [done|]. cbn [forallb] in Hl. apply andb_true_iff in Hl as [Ha Hl].
  apply bool_decide_eq_true in Ha.
  assert (E : computed_arg app parent arg w = (plain_arg (module_args (w_modules w) parent) arg, w)).
  { unfold computed_arg, plain_arg. rewrite Ha. destruct (ca_base arg) as [b|]; [|done].
    by destruct (module_args (w_modules w) parent ≫= (fun args => args !! b)). }
  cbn [resolve_args]. rewrite E. by apply IH.
Qed.

(** [Steps] for the taken branches. *)
Lemma Steps_whens {N} A B (f : N -> Walk -> Walk) (va vb : N -> list Item) (R : Walk -> Prop) taken l :
  (forall w ms w', R w -> w_modules w' = w_modules w ++ ms -> walk_ok w' -> R w') ->
  Forall (fun w => Forall (fun n => forall w, walk_ok w -> R w -> Steps A B (va n) (vb n) w (f n w)) (snd w)) l ->
  forall i w, walk_ok w -> R w -> Steps A B (select_whens va taken i l) (select_whens vb taken i l) w (fold_whens f taken i l w).
Proof.
  intros HR. induction 1 as [|[t ns] l Hn Hl IH]; intros i w Hw Hr; [by apply Steps_refl|]. cbn [select_whens fold_whens].
  assert (S1 : Steps A B (if taken i t then flat_map va ns else []) (if taken i t then flat_map vb ns else []) w
                 (if taken i t then fold_nodes f ns w else w)).
  { destruct (taken i t); [by apply (Steps_fold A B f va vb R)|by apply Steps_refl]. }
  eapply Steps_trans; [exact S1|]. destruct S1 as [K [ms M] _ _ _]. apply IH; [done|]. by eapply HR.
Qed.

(** The walk is in the instances of the chain. *)
Definition at_chain (m : option nat) (ch : Chain) (w : Walk) : Prop :=
  valid (w_modules w) m /\ chain_of (w_modules w) m = ch.

Lemma at_chain_grows m ch w ms w' : at_chain m ch w -> w_modules w' = w_modules w ++ ms -> walk_ok w' -> at_chain m ch w'.
Proof.
  intros [Hv Ec] M Hw. split.
  - intros i Ei. rewrite M, length_app. specialize (Hv i Ei). lia.
  - rewrite M, chain_app; [done| |done]. rewrite <- M. apply Hw.
Qed.

Section Walks.
Context (c : Pass) (A B : gset Key) (HB : ps_active_before c = B) (HAB : B ⊆ A).
Context (ew : option (list DynamicNode -> At -> Walk -> Walk)) (ea eb : option (list DynamicNode -> Chain -> list Item)).
(** How module bodies are walked, and what they show. *)
Hypothesis enter_steps :
  match ew, ea, eb with
  | Some ew, Some ea, Some eb =>
      forall def body, ds_module_dynamic (ps_app c) def = Some body -> forall a ch w, at_repetition a = 1 -> walk_ok w ->
        at_chain (at_module a) ch w -> Steps A B (ea body ch) (eb body ch) w (ew body a w)
  | None, None, None => True
  | _, _, _ => False
  end.

Definition node_steps (n : DynamicNode) : Prop :=
  forall a ch w, walk_ok w -> at_chain (at_module a) ch w ->
  Steps A B (visit_node (with_active A c) ea n ch (at_repetition a)) (visit_node (with_active B c) eb n ch (at_repetition a))
    w (run_node c ew n a w).

Lemma nodes_steps l a ch w : Forall node_steps l -> walk_ok w -> at_chain (at_module a) ch w ->
  Steps A B (flat_map (fun n => visit_node (with_active A c) ea n ch (at_repetition a)) l)
    (flat_map (fun n => visit_node (with_active B c) eb n ch (at_repetition a)) l)
    w (fold_nodes (fun n w => run_node c ew n a w) l w).
Proof.
  intros Hl Hw Hc. apply (Steps_fold A B (fun n w => run_node c ew n a w) _ _ (at_chain (at_module a) ch)); try done.
  - intros. by eapply at_chain_grows.
  - eapply Forall_impl; [exact Hl|]. intros n Hn w' Hw' Hc'. by apply Hn.
Qed.

(** A container around nodes. *)
Lemma container_steps l a a' ch w k : Forall node_steps l -> walk_ok w -> at_chain (at_module a) ch w ->
  at_module a' = at_module a -> at_repetition a' = at_repetition a ->
  Steps A B (flat_map (fun n => visit_node (with_active A c) ea n ch (at_repetition a)) l)
    (flat_map (fun n => visit_node (with_active B c) eb n ch (at_repetition a)) l)
    w (fold_nodes (fun n w => run_node c ew n a' w) l (w_push_container k w)).
Proof.
  intros Hl Hw Hc Em Er. pose proof (push_container_steps A B w k Hw) as S1.
  change (flat_map ?f l) with ([] ++ flat_map f l) at 1. rewrite <- (app_nil_l (flat_map (fun n => visit_node (with_active B c) _ _ _ _) l)).
  eapply Steps_trans; [exact S1|]. rewrite <- Er. apply nodes_steps; [done|apply S1|]. rewrite Em. exact Hc.
Qed.

Lemma choose_steps r l a ch w : Forall (fun w => Forall node_steps (snd w)) l -> walk_ok w -> at_chain (at_module a) ch w ->
  Steps A B (visit_node (with_active A c) ea (DChoose r l) ch (at_repetition a))
    (visit_node (with_active B c) eb (DChoose r l) ch (at_repetition a)) w (run_node c ew (DChoose r l) a w).
Proof.
  intros Hl Hw Hc. pose proof (wok_modules w Hw) as Hm. destruct Hc as [Hv Ec].
  destruct (scope_chain (w_modules w) (at_module a) r Hm Hv) as [Hs Es].
  destruct (instance_chain (w_modules w) _ Hm Hs) as (Ei & Ea & _). rewrite Es, Ec in Ei, Ea.
  cbn [visit_node run_node]. rewrite Ei, Ea.
  assert (Hnow : w_active_now w ⊆ active_so_far w).
  { rewrite (wok_active w Hw). unfold active_so_far. rewrite list_to_set_app_L. set_solver. }
  eapply Steps_weaken.
  - apply (Steps_whens A B (fun n w => run_node c ew n a w)
      (fun n => visit_node (with_active A c) ea n ch (at_repetition a))
      (fun n => visit_node (with_active B c) eb n ch (at_repetition a)) (at_chain (at_module a) ch)); [| |done|by split].
    + intros. by eapply at_chain_grows.
    + eapply Forall_impl; [exact Hl|]. intros [t ns] Hn. eapply Forall_impl; [exact Hn|]. intros n Hs' w' Hw' Hc'. by apply Hs'.
  - intros HA. apply select_whens_mono. intros i t. apply branch_taken_mono. set_solver.
  - intros HBw. apply select_whens_ext. intros i t. apply branch_taken_exact; [set_solver|done].
Qed.

Lemma repeat_steps id r n l a ch w : Forall node_steps l -> walk_ok w -> at_chain (at_module a) ch w ->
  Steps A B (visit_node (with_active A c) ea (DRepeat id r n l) ch (at_repetition a))
    (visit_node (with_active B c) eb (DRepeat id r n l) ch (at_repetition a)) w (run_node c ew (DRepeat id r n l) a w).
Proof.
  intros Hl Hw Hc. pose proof (wok_modules w Hw) as Hm.
  set (scope := r ← r; scope_of (w_modules w) (at_module a) r).
  assert (E : instance_id (w_modules w) scope = chain_id (match r with Some r => chain_scope ch r | None => [] end) /\
              module_args (w_modules w) scope = chain_args (match r with Some r => chain_scope ch r | None => [] end)).
  { destruct Hc as [Hv Ec]. destruct r as [r|]; [|done]. cbn in scope.
    destruct (scope_chain (w_modules w) (at_module a) r Hm Hv) as [Hs Es].
    destruct (instance_chain (w_modules w) _ Hm Hs) as (Ei & Ea & _). by rewrite <- Ec, <- Es. }
  destruct E as [Ei Ea]. cbn [visit_node run_node]. fold scope. rewrite Ei, Ea.
  apply (Steps_fold A B (fun k w => fold_nodes (fun n w => run_node c ew n
    (MkAt (at_module a) (at_channel a) (at_blocks a) (Z.of_nat k)) w) l w) _ _ (at_chain (at_module a) ch)); try done.
  - intros. by eapply at_chain_grows.
  - apply Forall_forall. intros k _ w' Hw' Hc'. by apply (nodes_steps l (MkAt (at_module a) (at_channel a) (at_blocks a) (Z.of_nat k))).
Qed.

Lemma module_steps id d args l a ch w : forallb (fun a => bool_decide (ca_allocator a = None)) l = true ->
  walk_ok w -> at_chain (at_module a) ch w ->
  Steps A B (visit_node (with_active A c) ea (DModule id d args l) ch (at_repetition a))
    (visit_node (with_active B c) eb (DModule id d args l) ch (at_repetition a)) w (run_node c ew (DModule id d args l) a w).
Proof.
  intros Hl Hw [Hv Ec]. pose proof (wok_modules w Hw) as Hm. pose proof enter_steps as He.
  destruct (instance_chain (w_modules w) _ Hm Hv) as (_ & Ea & Ek). rewrite Ec in Ea, Ek.
  cbn [visit_node run_node]. change (ps_app (with_active _ c)) with (ps_app c).
  destruct ew as [fw|], ea as [fa|], eb as [fb|]; try done; [|by apply Steps_refl].
  destruct (ds_module_dynamic (ps_app c) d) as [body|] eqn:Eb; [|by apply Steps_refl].
  rewrite (resolve_plain _ _ _ Hl), Ea, Ek.
  set (m := MkActiveModule _ _ _ _ _ _).
  pose proof (push_module_steps A B w m Hw Hv) as S1. set (w1 := w_push_module m w) in *.
  change (fa body ?x) with ([] ++ fa body x). change (fb body ?x) with ([] ++ fb body x).
  eapply Steps_trans; [exact S1|]. eapply He; [exact Eb|done|apply S1|].
  assert (Hm1 : modules_ok (w_modules w ++ [m])) by apply (wok_modules w1 (st_ok _ _ _ _ _ _ S1)).
  split; [intros i [= <-]; cbn; rewrite length_app; cbn; lia|].
  cbn [at_module]. change (w_modules w1) with (w_modules w ++ [m]). rewrite (chain_step _ _ m Hm1); [|by rewrite nth_error_app2, Nat.sub_diag].
  f_equal. cbn [am_parent m]. by rewrite chain_app.
Qed.

Lemma run_node_steps n : allocator_free n = true -> node_steps n.
Proof.
  assert (children : forall l, Forall (fun n => allocator_free n = true -> node_steps n) l ->
    forallb allocator_free l = true -> Forall node_steps l).
  { intros l. induction 1; cbn [forallb]; [done|]. intros [? ?]%andb_true_iff. constructor; auto. }
  induction n as [ch0 l IH|b l IH|r|r|r l IH|id d args l|id r n l IH|t s v] using node_ind; intros Hf a ch w Hw Hc;
    try pose proof (wok_modules w Hw) as Hm; cbn [allocator_free] in Hf.
  - apply (container_steps l a (MkAt (at_module a) (Some ch0) (at_blocks a) (at_repetition a))); auto.
  - apply (container_steps l a (MkAt (at_module a) (at_channel a) (at_blocks a ++ [b]) (at_repetition a))); auto.
  - destruct Hc as [Hv <-]. cbn [visit_node run_node]. rewrite <- (scoped_key _ _ r Hm Hv).
    apply push_parameter_steps; [done|]. by apply scope_chain.
  - destruct Hc as [Hv <-]. cbn [visit_node run_node]. rewrite <- (scoped_key _ _ r Hm Hv).
    apply push_com_object_steps; [done|]. by apply scope_chain.
  - apply choose_steps; try done. clear -IH Hf children. induction IH as [|[t ns] l Hn Hl IH]; [done|].
    cbn [forallb snd] in Hf. apply andb_true_iff in Hf as [? ?]. constructor; auto.
  - by apply module_steps.
  - apply repeat_steps; auto.
  - destruct Hc as [Hv <-]. cbn [visit_node run_node]. rewrite <- (scoped_key _ _ t Hm Hv).
    apply (push_assign_steps A B w (MkReachedAssign _ t _ s v _)); [done|]. by apply scope_chain.
Qed.
End Walks.

(** The bodies of the definitions are among those checked. *)
Lemma module_body_free app def body : app_allocator_free app = true -> ds_module_dynamic app def = Some body ->
  forallb allocator_free body = true.
Proof.
  unfold app_allocator_free, ds_module_dynamic. intros [_ H]%andb_true_iff. revert H.
  induction (ds_module_dynamics app) as [|[d b] l IH]; [done|]. cbn [forallb assoc snd]. intros [Hb Hl]%andb_true_iff.
  case_bool_decide; [by intros [= <-]|by apply IH].
Qed.

Lemma run_steps c A B : app_allocator_free (ps_app c) = true -> ps_active_before c = B -> B ⊆ A ->
  forall levels nodes a ch w, forallb allocator_free nodes = true -> walk_ok w -> at_chain (at_module a) ch w ->
  Steps A B (visit_in levels (with_active A c) nodes ch (at_repetition a))
    (visit_in levels (with_active B c) nodes ch (at_repetition a)) w (run levels c nodes a w).
Proof.
  intros Happ HB HAB. induction levels as [|levels IH]; intros nodes a ch w Hn Hw Hc; cbn [run visit_in];
    (apply nodes_steps; [|done|done]); apply Forall_forall; intros n Hin; apply run_node_steps; try done.
  1, 3: rewrite forallb_forall in Hn; apply Hn; by apply list_elem_of_In.
  intros def body Eb a' ch' w' Er Hw' Hc'. rewrite <- Er. apply IH; [|done|done]. by eapply module_body_free.
Qed.

Lemma walk_start_ok : walk_ok walk_start.
Proof. split; [by intros [|i]|constructor..|done]. Qed.

(** The walk of a pass against the reference, for any larger set of active references. *)
Lemma walk_steps app e A : app_allocator_free app = true -> ev_active e ⊆ A ->
  Steps A (ev_active e) (visit (with_active A (pass_of app e))) (visit (pass_of app e)) walk_start (walk_of app e).
Proof.
  intros Happ HA. unfold walk_of.
  apply (run_steps (pass_of app e) A (ev_active e) Happ eq_refl HA MAX_MODULE_DEPTH (ds_dynamic app) at_start [] walk_start).
  - by apply andb_true_iff in Happ as [? _].
  - apply walk_start_ok.
  - by split; [apply valid_None|].
Qed.

(** ** Lemmas: a pass that changes nothing *)

(** The value that a reached assign gives to its target. *)
Definition assigned_value (app : DynamicSource) (modules : list ActiveModule) (values : Values) (a : ReachedAssign) : option text :=
  match ra_value a, ra_source a with
  | Some v, _ => Some v
  | None, Some src => value_of app values (instance_id modules (ra_source_module a)) (module_args modules (ra_source_module a)) src
  | None, None => None
  end.

Definition assign_key (modules : list ActiveModule) (a : ReachedAssign) : Key :=
  (instance_id modules (ra_target_module a), ra_target a).

(** The target of a reached assign holds what it is assigned. *)
Definition assign_holds (app : DynamicSource) (modules : list ActiveModule) (values : Values) (a : ReachedAssign) : Prop :=
  forall v, assigned_value app modules values a = Some v -> is_Some (parameter_id app (ra_target a)) ->
  values !! assign_key modules a = Some v.

Lemma apply_assign_changed app modules l : forall values overridden,
  snd (foldl (apply_assign app modules) (values, overridden, true) l) = true.
Proof.
  induction l as [|a l IH]; intros values overridden; [done|]. cbn [foldl]. unfold apply_assign at 2.
  destruct (match ra_value a with Some _ => _ | None => _ end); [|apply IH].
  destruct (parameter_id app _); [|apply IH]. case_bool_decide; apply IH.
Qed.

Lemma apply_assign_quiet app modules l : forall values overridden values' overridden',
  foldl (apply_assign app modules) (values, overridden, false) l = (values', overridden', false) ->
  values' = values /\ overridden' = overridden /\ Forall (assign_holds app modules values) l.
Proof.
  induction l as [|a l IH]; intros values overridden values' overridden' E.
  { cbn in E. injection E as <- <-. by split; [|split]. }
  cbn [foldl] in E.
  assert (Hs : apply_assign app modules (values, overridden, false) a = (values, overridden, false) /\ assign_holds app modules values a).
  { revert E. unfold assign_holds, assigned_value, apply_assign at 2 3.
    destruct (match ra_value a with Some _ => _ | None => _ end) as [v|] eqn:Ev; [|done].
    destruct (parameter_id app (ra_target a)) as [id|]; [|by split; [|intros ? _ [? [=]]]].
    case_bool_decide as Hk; [intros _; by split; [|intros ? [= <-] _]|].
    intros E. pose proof (apply_assign_changed app modules l (<[(instance_id modules (ra_target_module a), ra_target a):=v]> values)
      (overridden ∖ {[(instance_id modules (ra_target_module a), ra_target a)]})) as Hc. rewrite E in Hc. done. }
  destruct Hs as [Es Hh]. rewrite Es in E. destruct (IH _ _ _ _ E) as (-> & -> & Hl). split; [done|split; [done|by constructor]].
Qed.

(** A pass that changed nothing left the values and the active references alone. *)
Lemma one_pass_settled app e1 e : one_pass app e1 = (false, e) ->
  ev_walk e = walk_of app e1 /\ ev_values e = ev_values e1 /\ ev_active e = ev_active e1 /\
  ev_active e = active_set (ev_walk e) /\ su_images (ev_shared e) = su_images (ev_shared e1) /\
  ev_shared e = shared_memory app (ev_values e) (ev_walk e) /\
  Forall (assign_holds app (w_modules (ev_walk e)) (ev_values e)) (w_assigns (ev_walk e)).
Proof.
  unfold one_pass. set (w := walk_of app e1). set (next := shared_memory app (ev_values e1) w).
  destruct (foldl _ _ _) as [[values overridden] assigned] eqn:E. intros [= H <-]. cbn [ev_walk ev_values ev_active ev_shared].
  rewrite !orb_false_iff, !negb_false_iff, !bool_decide_eq_true in H. destruct H as [[Hi Hn] ->].
  destruct (apply_assign_quiet _ _ _ _ _ _ _ E) as (-> & _ & Ha). done.
Qed.

Lemma passes_last app e : forall n e0, passes n app e0 = (true, e) -> exists e1, one_pass app e1 = (false, e).
Proof.
  induction n as [|n IH]; intros e0; cbn [passes]; [done|]. destruct (one_pass app e0) as [[|] e1] eqn:E; [apply IH|].
  intros [= <-]. by exists e0.
Qed.

(** The pass that starts from where an evaluation ended, the unions' memory given. *)
Definition settled_pass (app : DynamicSource) (e : Evaluation) (shared : SharedUnions) : Pass :=
  MkPass app (ev_values e) shared (placed_parameters app) (assigned_parameters app) (ev_active e).

(** Once settled, the walk has reached what the reference shows. *)
Lemma settled_keys app e1 e : app_allocator_free app = true -> one_pass app e1 = (false, e) ->
  let c := settled_pass app e (ev_shared e1) in
  param_keys (ev_walk e) = item_parameters (visit c) /\ com_object_keys (ev_walk e) = item_com_objects (visit c) /\
  assign_keys (ev_walk e) = item_assigns (visit c) /\ ev_active e = active_items (visit c).
Proof.
  intros Happ E. cbv zeta. destruct (one_pass_settled _ _ _ E) as (Ew & Ev & Ea & En & _).
  assert (Ec : settled_pass app e (ev_shared e1) = pass_of app e1) by (unfold settled_pass, pass_of; by rewrite Ev, Ea).
  rewrite Ec. destruct (walk_steps app e1 (ev_active e1) Happ (reflexivity _)) as [K _ _ _ X]. rewrite <- Ew in K, X.
  rewrite (active_set_keys _ K) in En. destruct X as (Xp & Xo & Xa); [rewrite <- En; by rewrite Ea|]. cbn in Xp, Xo, Xa.
  split; [done|split; [done|split; [done|]]]. rewrite En. unfold active_so_far, active_items. by rewrite Xp, Xa.
Qed.

(** ** Lemmas: programs whose values do not change *)

Fixpoint assign_free (n : DynamicNode) : bool :=
  match n with
  | DChannel _ children | DParameterBlock _ children | DRepeat _ _ _ children => forallb assign_free children
  | DChoose _ whens => forallb (fun w => forallb assign_free (snd w)) whens
  | DAssign _ _ _ => false
  | _ => true
  end.

Definition app_assign_free (app : DynamicSource) : bool :=
  forallb assign_free (ds_dynamic app) && forallb (fun d => forallb assign_free (snd d)) (ds_module_dynamics app).

(** A fold over nodes that each keep a property of the walk keeps it. *)
Lemma fold_nodes_keeps {N} (P : Walk -> Prop) (f : N -> Walk -> Walk) l : (forall n, n ∈ l -> forall w, P w -> P (f n w)) ->
  forall w, P w -> P (fold_nodes f l w).
Proof.
  induction l as [|n l IH]; intros Hf w Hw; [done|]. cbn. apply IH; [|apply Hf; [by left|done]].
  intros n' Hn. apply Hf. by right.
Qed.

Lemma fold_whens_keeps {N} (P : Walk -> Prop) (f : N -> Walk -> Walk) taken l :
  Forall (fun w => forall n, n ∈ snd w -> forall w, P w -> P (f n w)) l -> forall i w, P w -> P (fold_whens f taken i l w).
Proof.
  induction 1 as [|[t ns] l Hn Hl IH]; intros i w Hw; [done|]. cbn. apply IH. destruct (taken i t); [|done].
  by apply fold_nodes_keeps.
Qed.

Lemma resolve_assigns app parent computed : forall args w, w_assigns (snd (resolve_args app parent computed args w)) = w_assigns w.
Proof.
  induction computed as [|arg l IH]; intros args w; [done|]. cbn [resolve_args].
  destruct (computed_arg app parent arg w) as [v w'] eqn:E. rewrite IH. revert E. unfold computed_arg.
  repeat case_match; intros [= _ <-]; done.
Qed.

Lemma no_assigns c ew n : assign_free n = true ->
  match ew with
  | Some ew => forall def body, ds_module_dynamic (ps_app c) def = Some body -> forall a w, w_assigns w = [] -> w_assigns (ew body a w) = []
  | None => True
  end -> forall a w, w_assigns w = [] -> w_assigns (run_node c ew n a w) = [].
Proof.
  intros Hf He. revert Hf.
  assert (children : forall l, Forall (fun n => assign_free n = true -> forall a w, w_assigns w = [] -> w_assigns (run_node c ew n a w) = []) l ->
    forallb assign_free l = true -> forall n, n ∈ l -> forall a w, w_assigns w = [] -> w_assigns (run_node c ew n a w) = []).
  { intros l Hl Hf k Hk. rewrite Forall_forall in Hl. apply Hl; [done|]. rewrite forallb_forall in Hf. apply Hf. by apply list_elem_of_In. }
  induction n as [ch0 l IH|b l IH|r|r|r l IH|id d args l|id r k l IH|t s v] using node_ind; cbn [assign_free]; intros Hf a w Hw; try done;
    cbn [run_node].
  - apply (fold_nodes_keeps (fun w => w_assigns w = [])); [|done]. intros n' Hn. by apply (children l).
  - apply (fold_nodes_keeps (fun w => w_assigns w = [])); [|done]. intros n' Hn. by apply (children l).
  - apply (fold_whens_keeps (fun w => w_assigns w = [])); [|done]. clear -IH Hf children. induction IH as [|[t ns] l Hn Hl IH]; [done|].
    cbn [forallb snd] in Hf. apply andb_true_iff in Hf as [Hf1 Hf2]. constructor; [|by apply IH].
    intros n' Hin. by apply (children ns).
  - destruct ew as [fw|]; [|done]. destruct (ds_module_dynamic (ps_app c) d) as [body|] eqn:Eb; [|done].
    pose proof (resolve_assigns (ps_app c) (at_module a) l args w) as Er.
    destruct (resolve_args _ _ _ _ _) as [resolved w1]. apply (He d body Eb). cbn [snd] in Er. cbn. congruence.
  - apply (fold_nodes_keeps (fun w => w_assigns w = [])); [|done]. intros j _ w' Hw'.
    apply (fold_nodes_keeps (fun w => w_assigns w = [])); [|done]. intros n' Hn. by apply (children l).
Qed.

Lemma run_no_assigns c : app_assign_free (ps_app c) = true -> forall levels nodes a w, forallb assign_free nodes = true ->
  w_assigns w = [] -> w_assigns (run levels c nodes a w) = [].
Proof.
  intros Happ. induction levels as [|levels IH]; intros nodes a w Hn Hw; cbn [run];
    (apply (fold_nodes_keeps (fun w => w_assigns w = [])); [|done]); intros n Hin; apply no_assigns; try done.
  1, 2: rewrite forallb_forall in Hn; apply Hn; by apply list_elem_of_In.
  intros def body Eb a' w'. apply IH. apply andb_true_iff in Happ as [_ H]. revert H Eb. unfold ds_module_dynamic.
  induction (ds_module_dynamics (ps_app c)) as [|[d b] l IHl]; [done|]. cbn [forallb assoc snd]. intros [Hb Hl]%andb_true_iff.
  case_bool_decide; [by intros [= <-]|by apply IHl].
Qed.

Definition no_feedback (app : DynamicSource) : bool :=
  app_allocator_free app && app_assign_free app && bool_decide (length (ds_unions app) = 0%nat).

Lemma no_shared_memory app values w : length (ds_unions app) = 0%nat -> shared_memory app values w = no_shared.
Proof. intros E. unfold shared_memory, union_members. by destruct (ds_unions app). Qed.

(** The evaluation of such a program changes only what is active. *)
Lemma quiet_pass app e : app_assign_free app = true -> length (ds_unions app) = 0%nat -> ev_shared e = no_shared ->
  let e' := snd (one_pass app e) in
  ev_values e' = ev_values e /\ ev_shared e' = no_shared /\ ev_active e' = active_set (walk_of app e).
Proof.
  intros Ha Hu Hs. cbv zeta. unfold one_pass. rewrite (no_shared_memory app _ _ Hu).
  assert (E : w_assigns (walk_of app e) = []) by (apply run_no_assigns; [done|by apply andb_true_iff in Ha as [? _]|done]).
  rewrite E. done.
Qed.

(** Through the passes, what is active stays below any set that is closed under the choices. *)
Lemma passes_below app A n : no_feedback app = true -> forall e, ev_shared e = no_shared -> ev_active e ⊆ A ->
  active_items (visit (with_active A (pass_of app e))) ⊆ A ->
  let e' := snd (passes n app e) in
  ev_active e' ⊆ A /\ ev_values e' = ev_values e /\ ev_shared e' = no_shared.
Proof.
  intros Hf. unfold no_feedback in Hf. rewrite !andb_true_iff, bool_decide_eq_true in Hf. destruct Hf as [[Hal Has] Hu].
  induction n as [|n IH]; intros e Hs HA Hc; [done|]. cbv zeta. cbn [passes].
  pose proof (quiet_pass app e Has Hu Hs) as (Hv & Hs' & Ha). destruct (one_pass app e) as [changed e1]. cbn [snd] in Hv, Hs', Ha.
  assert (H1 : ev_active e1 ⊆ A).
  { destruct (walk_steps app e A Hal HA) as [K _ _ U _]. rewrite Ha, (active_set_keys _ K). by apply U. }
  destruct changed; [|done]. rewrite <- Hv. apply IH; [done|done|].
  unfold pass_of in Hc |- *. by rewrite Hv, Hs'; rewrite Hs in Hc.
Qed.

Lemma passes_quiet app e : app_assign_free app = true -> length (ds_unions app) = 0%nat ->
  forall n e0, ev_shared e0 = no_shared -> passes n app e0 = (true, e) ->
  exists e1, one_pass app e1 = (false, e) /\ ev_shared e1 = no_shared /\ ev_values e1 = ev_values e0.
Proof.
  intros Has Hu. induction n as [|n IH]; intros e0 Hs; cbn [passes]; [done|].
  pose proof (quiet_pass app e0 Has Hu Hs) as (Hv & Hs' & _). destruct (one_pass app e0) as [[|] e1] eqn:E; cbn [snd] in Hv, Hs'.
  - intros Ep. destruct (IH e1 Hs' Ep) as (e2 & ? & ? & ?). exists e2. by rewrite <- Hv.
  - intros [= <-]. by exists e0.
Qed.

(** ** Properties *)

(** C11: Once the passes of an evaluation settle (no allocator in the program),
    the walk has reached, in order, exactly the parameters, the com-objects and
    the assigns that are visible at its own values and active references: which
    references are active no longer depends on the order in which the walk met
    them, and they are a fixed point of visibility. *)
Theorem settled_walk_is_visible app n e0 e (Happ : app_allocator_free app = true) (E : passes n app e0 = (true, e)) :
  exists shared, su_images shared = su_images (ev_shared e) /\
  let shown := visit (settled_pass app e shared) in
  param_keys (ev_walk e) = item_parameters shown /\ com_object_keys (ev_walk e) = item_com_objects shown /\
  assign_keys (ev_walk e) = item_assigns shown /\ ev_active e = active_items shown.
Proof.
  destruct (passes_last _ _ _ _ E) as [e1 E1]. exists (ev_shared e1). split; [by destruct (one_pass_settled _ _ _ E1) as (_ & _ & _ & _ & -> & _)|].
  by apply settled_keys.
Qed.

(** C13: In a program without allocators, assigns and unions, a settled
    evaluation has found the least consistent set of active references: it is
    exactly what is visible under it, and every set closed under visibility
    contains it. *)
Theorem settled_active_least app n values overridden e (Hf : no_feedback app = true)
    (E : passes n app (first_evaluation values overridden) = (true, e)) :
  let visible A := active_items (visit (with_active A (pass_of app (first_evaluation values overridden)))) in
  visible (ev_active e) = ev_active e /\ forall A, visible A ⊆ A -> ev_active e ⊆ A.
Proof.
  cbv zeta. split.
  - unfold no_feedback in Hf. rewrite !andb_true_iff, bool_decide_eq_true in Hf. destruct Hf as [[Hal Has] Hu].
    destruct (passes_quiet app e Has Hu n (first_evaluation values overridden) eq_refl E) as (e1 & E1 & Es & Ev).
    destruct (settled_keys app e1 e Hal E1) as (_ & _ & _ & X). symmetry. rewrite X at 1. rewrite Es. unfold settled_pass.
    destruct (one_pass_settled _ _ _ E1) as (_ & -> & _). by rewrite Ev.
  - intros A HA. pose proof (passes_below app A n Hf (first_evaluation values overridden) eq_refl (empty_subseteq A) HA) as (H & _).
    by rewrite E in H.
Qed.

(** Once the passes settle, every reached assign holds: its target's value
    is the literal, or the value that its source has. *)
Theorem settled_assigns_hold app n e0 e a v (E : passes n app e0 = (true, e)) (Ha : a ∈ w_assigns (ev_walk e))
    (Hv : assigned_value app (w_modules (ev_walk e)) (ev_values e) a = Some v) (Hp : is_Some (parameter_id app (ra_target a))) :
  value_of app (ev_values e) (instance_id (w_modules (ev_walk e)) (ra_target_module a))
    (module_args (w_modules (ev_walk e)) (ra_target_module a)) (ra_target a) = Some v.
Proof.
  destruct (passes_last _ _ _ _ E) as [e1 E1]. destruct (one_pass_settled _ _ _ E1) as (_ & _ & _ & _ & _ & _ & H).
  rewrite Forall_forall in H. specialize (H a Ha v Hv Hp). unfold value_of. unfold parameter_id in Hp.
  destruct (ds_parameter_ref app (ra_target a)) as [[id rv]|]; [|by destruct Hp]. cbn.
  unfold assign_key in H. by rewrite H.
Qed.

(** ** Examples *)

(** A program of plain parameters [P-i], each with one reference. *)
Definition demo_source (dynamic : list DynamicNode) (modules : list (text * list DynamicNode))
    (refs : list (string * string * string)) : DynamicSource :=
  MkDynamicSource (chars "M-0001_A-0001") dynamic modules
    (map (fun '(r, p, v) => (chars r, (chars p, Some (chars v)))) refs)
    (fun _ => Some (None, None)) (fun _ => None) (fun _ => None) [] (fun _ => None) (fun _ => None) (fun _ => None)
    (fun _ => false) true.

Definition demo_show (r : string) : DynamicNode := DParameterRefRef (chars r).
Definition demo_choose (r : string) (v : Z) (l : list DynamicNode) : DynamicNode := DChoose (chars r) [(WhenValues [v], l)].

(** [R-1] shows [R-2], [R-2] shows a module with [R-3] in it; both choices come
    before what they choose on. *)
Definition demo_program : DynamicSource :=
  demo_source
    [demo_choose "P-2_R-2" 1 [DModule (chars "MD-1_M-1") (chars "MD-1") ∅ []];
     demo_choose "P-1_R-1" 1 [demo_show "P-2_R-2"; DComObjectRefRef (chars "O-1_R-1")];
     demo_show "P-1_R-1"]
    [(chars "MD-1", [demo_show "MD-1_P-3_R-3"; DComObjectRefRef (chars "MD-1_O-2_R-2")])]
    [("P-1_R-1", "P-1", "1"); ("P-2_R-2", "P-2", "1"); ("MD-1_P-3_R-3", "MD-1_P-3", "0")]%string.

Example demo_settles :
  let '(settled, e) := passes MAX_ASSIGN_PASSES demo_program (first_evaluation ∅ ∅) in
  settled = true /\
  param_keys (ev_walk e) = [(chars "MD-1_M-1", chars "MD-1_P-3_R-3"); ([], chars "P-2_R-2"); ([], chars "P-1_R-1")] /\
  com_object_keys (ev_walk e) = [(chars "MD-1_M-1", chars "MD-1_O-2_R-2"); ([], chars "O-1_R-1")].
Proof. vm_compute. repeat split. Qed.

Definition demo_evaluation : Evaluation := snd (passes MAX_ASSIGN_PASSES demo_program (first_evaluation ∅ ∅)).

Lemma demo_evaluation_settled : passes MAX_ASSIGN_PASSES demo_program (first_evaluation ∅ ∅) = (true, demo_evaluation).
Proof. vm_compute. reflexivity. Qed.

Lemma settled_walk_is_visible_witness : exists shared, su_images shared = su_images (ev_shared demo_evaluation) /\
  let shown := visit (settled_pass demo_program demo_evaluation shared) in
  param_keys (ev_walk demo_evaluation) = item_parameters shown /\ com_object_keys (ev_walk demo_evaluation) = item_com_objects shown /\
  assign_keys (ev_walk demo_evaluation) = item_assigns shown /\ ev_active demo_evaluation = active_items shown.
Proof.
  apply (settled_walk_is_visible demo_program MAX_ASSIGN_PASSES (first_evaluation ∅ ∅)); [reflexivity|exact demo_evaluation_settled].
Defined.

Lemma settled_active_least_witness :
  let visible A := active_items (visit (with_active A (pass_of demo_program (first_evaluation ∅ ∅)))) in
  visible (ev_active demo_evaluation) = ev_active demo_evaluation /\ forall A, visible A ⊆ A -> ev_active demo_evaluation ⊆ A.
Proof.
  apply (settled_active_least demo_program MAX_ASSIGN_PASSES ∅ ∅ demo_evaluation); [reflexivity|exact demo_evaluation_settled].
Defined.

(** [R-2] takes the value of [R-1], and what depends on it is shown. *)
Definition demo_assigning : DynamicSource :=
  demo_source
    [demo_choose "P-2_R-2" 7 [demo_show "P-3_R-3"]; DAssign (chars "P-2_R-2") (Some (chars "P-1_R-1")) None;
     demo_show "P-1_R-1"; demo_show "P-2_R-2"] []
    [("P-1_R-1", "P-1", "7"); ("P-2_R-2", "P-2", "0"); ("P-3_R-3", "P-3", "0")]%string.

Definition demo_assigned : Evaluation := snd (passes MAX_ASSIGN_PASSES demo_assigning (first_evaluation ∅ ∅)).

Definition demo_assign : ReachedAssign :=
  MkReachedAssign None (chars "P-2_R-2") None (Some (chars "P-1_R-1")) None (MkPlace None [] None).

Lemma demo_assigned_settled : passes MAX_ASSIGN_PASSES demo_assigning (first_evaluation ∅ ∅) = (true, demo_assigned).
Proof. vm_compute. reflexivity. Qed.

Lemma settled_assigns_hold_witness :
  value_of demo_assigning (ev_values demo_assigned) [] None (chars "P-2_R-2") = Some (chars "7").
Proof.
  refine (settled_assigns_hold demo_assigning MAX_ASSIGN_PASSES (first_evaluation ∅ ∅) demo_assigned demo_assign (chars "7")
    demo_assigned_settled _ _ _).
  - assert (E : w_assigns (ev_walk demo_assigned) = [demo_assign]) by (vm_compute; reflexivity). rewrite E. by left.
  - vm_compute. reflexivity.
  - vm_compute. by eexists.
Defined.

(** [R-i] shows [R-(i+1)], each choice before what it chooses on: one more
    reference is reached per pass, and the last one is reached only with a
    seventeenth pass. *)
Definition demo_ref (i : Z) : text := chars "P-" ++ to_text i ++ chars "_R-1".

Definition demo_long : DynamicSource :=
  let refs := map (fun i => (demo_ref i, (to_text i, Some (chars "1")))) (seqZ 0 17) in
  MkDynamicSource [] (map (fun i => DChoose (demo_ref i) [(WhenValues [1], [DParameterRefRef (demo_ref (i + 1))])])
      (reverse (seqZ 0 16)) ++ [DParameterRefRef (demo_ref 0)]) [] refs
    (fun _ => Some (None, None)) (fun _ => None) (fun _ => None) [] (fun _ => None) (fun _ => None) (fun _ => None)
    (fun _ => false) true.

Example long_program_cut_off :
  fst (passes MAX_ASSIGN_PASSES demo_long (first_evaluation ∅ ∅)) = false /\
  length (dc_parameters (evaluate_dynamic demo_long [])) = 16%nat /\
  (let '(settled, e) := passes 18 demo_long (first_evaluation ∅ ∅) in settled = true /\ length (w_parameters (ev_walk e)) = 17%nat).
Proof. vm_compute. repeat split. Qed.
