(* ===== verification/DptTables.v ===== *)
(** * The tables of the datapoint types ([bussard-model/src/dpt_tables.rs] and the tables of [codec.rs])

    The codes of the enumerations, the bits of the bit sets, the words of the two
    values of a bit and the units.  A label is a [string] of its UTF-8 octets, as
    in the source. *)

From Stdlib Require Import String.
From S2P Require Import Prelude.

Local Open Scope string_scope.
Local Open Scope list_scope.
Local Open Scope Z_scope.

Abbreviation label := string.

(** A code of an enumeration and its label. *)
Definition EnumEntry : Type := u8 * label.

(** The sub-types of 20.xxx that have a table. *)
Definition enum_table (sub : u16) : option (list EnumEntry) :=
  match sub with
  | 1 => Some [(0, "autonomous"); (1, "slave"); (2, "master")]
  | 2 => Some [(0, "Building in use"); (1, "Building not used"); (2, "Building protection")]
  | 3 => Some [(0, "occupied"); (1, "standby"); (2, "not occupied")]
  | 4 => Some [(0, "High"); (1, "Medium"); (2, "Low"); (3, "void")]
  | 5 => Some [(0, "normal"); (1, "presence simulation"); (2, "night round")]
  | 7 => Some [(1, "simple alarm"); (2, "basic alarm"); (3, "extended alarm")]
  | 8 => Some [(0, "disabled"); (1, "enabled"); (2, "auto")]
  | 11 => Some [(0, "no fault"); (1, "general device fault"); (2, "communication fault"); (3, "configuration fault");
      (4, "hardware fault"); (5, "software fault"); (6, "insufficient non volatile memory");
      (7, "insufficient volatile memory"); (8, "memory allocation command with size 0 received"); (9, "CRC error");
      (10, "watchdog reset detected"); (11, "invalid opcode detected"); (12, "general protection fault");
      (13, "maximal table length exceeded"); (14, "undefined load command received");
      (15, "group address table is not sorted"); (16, "invalid connection number (TSAP)");
      (17, "invalid group object number (ASAP)"); (18, "group object type exceeds max APDU length")]
  | 12 => Some [(0, "no fault"); (1, "sensor fault"); (2, "process fault / controller fault"); (3, "actuator fault");
      (4, "other fault")]
  | 13 => Some [(0, "not active"); (1, "1 s"); (2, "2 s"); (3, "3 s"); (4, "5 s"); (5, "10 s"); (6, "15 s");
      (7, "20 s"); (8, "30 s"); (9, "45 s"); (10, "1 min"); (11, "1.25 min"); (12, "1.5 min"); (13, "2 min");
      (14, "2.5 min"); (15, "3 min"); (16, "5 min"); (17, "15 min"); (18, "20 min"); (19, "30 min"); (20, "1 h");
      (21, "2 h"); (22, "3 h"); (23, "5 h"); (24, "12 h"); (25, "24 h")]
  | 14 => Some [(0, "calm"); (1, "light air"); (2, "light breeze"); (3, "gentle breeze"); (4, "moderate breeze");
      (5, "fresh breeze"); (6, "strong breeze"); (7, "near gale"); (8, "fresh gale"); (9, "strong gale");
      (10, "whole gale"); (11, "violent storm"); (12, "hurricane")]
  | 17 => Some [(0, "inactive"); (1, "digital input not inverted"); (2, "digital input inverted");
      (3, "analog input"); (4, "temperature sensor input")]
  | 20 => Some [(1, "SensorConnection"); (2, "ControllerConnection")]
  | 21 => Some [(0, "Cloudless"); (1, "Sunny"); (2, "Sunshiny"); (3, "Lightly cloudy"); (4, "Scattered clouds");
      (5, "Cloudy"); (6, "6 okta"); (7, "7 okta"); (8, "Overcast"); (9, "Sky obstructed from view")]
  | 22 => Some [(0, "do not send"); (1, "send always"); (2, "send if value changed during powerdown")]
  | 100 => Some [(0, "auto"); (1, "oil"); (2, "gas"); (3, "solid state fuel")]
  | 101 => Some [(1, "1 stage"); (2, "2 stage"); (3, "modulating")]
  | 102 => Some [(0, "Auto"); (1, "Comfort"); (2, "Standby"); (3, "Economy"); (4, "Building Protection")]
  | 103 => Some [(0, "Auto"); (1, "LegioProtect"); (2, "Normal"); (3, "Reduced"); (4, "Off/FrostProtect")]
  | 104 => Some [(0, "None"); (1, "Shift load priority"); (2, "Absolute load priority")]
  | 105 => Some [(0, "Auto"); (1, "Heat"); (2, "Morning Warmup"); (3, "Cool"); (4, "Night Purge"); (5, "Precool");
      (6, "Off"); (7, "Test"); (8, "Emergency Heat"); (9, "Fan only"); (10, "Free Cool"); (11, "Ice");
      (12, "Maximum Heating Mode"); (13, "Economic Heat/Cool Mode"); (14, "Dehumidification");
      (15, "Calibration Mode"); (16, "Emergency Cool Mode"); (17, "Emergency Steam Mode"); (20, "NoDem")]
  | 106 => Some [(0, "Normal"); (1, "EmergPressure"); (2, "EmergDepressure"); (3, "EmergPurge");
      (4, "EmergShutdown"); (5, "EmergFire")]
  | 107 => Some [(0, "Auto"); (1, "CoolingOnly"); (2, "HeatingOnly")]
  | 108 => Some [(1, "Heat stage A"); (2, "Heat stage B"); (3, "Cool stage A"); (4, "Cool stage B");
      (5, "Heat/Cool changeover")]
  | 109 => Some [(1, "Fresh air"); (2, "Supply Air"); (3, "Discharge Air"); (4, "Extract Air")]
  | 110 => Some [(1, "Heat Stage A On/Off"); (2, "Heat Stage A Proportional"); (3, "Heat Stage B Proportional")]
  | 111 => Some [(0, "not running"); (1, "permanently running"); (2, "running in intervals")]
  | 112 => Some [(0, "autonomous"); (1, "master"); (2, "slave")]
  | 113 => Some [(0, "normal setpoint"); (1, "alternative setpoint"); (2, "building protection setpoint")]
  | 115 => Some [(0, "inactive"); (1, "humidification"); (2, "dehumidification")]
  | 120 => Some [(1, "Air Damper"); (2, "VAV")]
  | 121 => Some [(0, "Backup Value"); (1, "Keep Last State")]
  | 122 => Some [(0, "Position unchanged"); (1, "Single close"); (2, "Single open")]
  | 600 => Some [(0, "off"); (1, "on"); (2, "no change"); (3, "value according to additional parameter");
      (4, "memory function value"); (5, "updated value"); (6, "value before locking")]
  | 601 => Some [(0, "off"); (1, "on"); (2, "no change"); (3, "value according to additional parameter");
      (4, "last value before bus power down")]
  | 602 => Some [(0, "0 s"); (1, "0.7 s"); (2, "1.0 s"); (3, "1.4 s"); (4, "2.0 s"); (5, "2.8 s"); (6, "4.0 s");
      (7, "5.7 s"); (8, "8.0 s"); (9, "11.3 s"); (10, "16.0 s"); (11, "22.6 s"); (12, "32.0 s"); (13, "45.3 s");
      (14, "64.0 s"); (15, "90.5 s")]
  | 603 => Some [(0, "BlinkingDisabled"); (1, "WithoutAcknowledge"); (2, "BlinkingWithAcknowledge")]
  | 604 => Some [(0, "automatic light control"); (1, "manual light control")]
  | 605 => Some [(1, "one PB mode"); (2, "two PBs mode")]
  | 606 => Some [(0, "inactive"); (1, "SwitchOff sent"); (2, "SwitchOn sent"); (3, "inverse of InfoOnOff sent")]
  | 607 => Some [(1, "one PB, toggle"); (2, "one PB, On/DimUp"); (3, "one PB, Off/DimDown"); (4, "two PBs mode")]
  | 608 => Some [(0, "last actual value"); (1, "value according to additional parameter");
      (2, "last received absolute setvalue")]
  | 609 => Some [(0, "automatic"); (1, "leading edge"); (2, "trailing edge"); (3, "switch mode only");
      (4, "automatic once"); (5, "CFL, leading"); (6, "CFL, trailing"); (7, "LED, leading"); (8, "LED, trailing")]
  | 610 => Some [(0, "undefined"); (1, "leading edge"); (2, "trailing edge"); (3, "detection not possible or error");
      (4, "calibration pending"); (5, "CFL, leading"); (6, "CFL, trailing"); (7, "LED, leading"); (8, "LED, trailing")]
  | 611 => Some [(1, "Start Function Test"); (2, "Start Duration Test"); (3, "Start Partial Duration Test");
      (4, "Stop Test"); (5, "Reset Function Test Done Flag"); (6, "Reset Duration Test Done")]
  | 612 => Some [(0, "Restore Factory Default Settings"); (1, "Goto Rest Mode"); (2, "Goto Inhibit Mode");
      (3, "Re-Light / Reset Inhibit"); (4, "Reset Lamp Time")]
  | 613 => Some [(1, "Request Converter Status"); (2, "Request Converter Test Result"); (3, "Request Battery Info");
      (4, "Request Converter FT Info"); (5, "Request Converter DT Info"); (6, "Request Converter PDT Info");
      (7, "Request Converter Info"); (8, "Request Converter Info Fix")]
  | _ => None
  end.

Definition enum_label (sub : u16) (code : u8) : option label :=
  t ← enum_table sub; option_map snd (find (fun e => fst e =? code) t).

(** The names of the bits of a 21.xxx or 22.xxx set, from bit 0; a reserved bit has none. *)
Definition flag_table (main sub : u16) : option (list label) :=
  match main, sub with
  | 21, 1 => Some ["OutOfService"; "Fault"; "Overridden"; "InAlarm"; "AlarmUnAck"]
  | 21, 2 => Some ["UserStopped"; "OwnIA"; "VerifyMode"]
  | 21, 100 => Some ["ForceRequest"; "Protection"; "Oversupply"; "Overrun"; "DHWNorm"; "DHWLegio"; "RoomHComf";
      "RoomHMax"]
  | 21, 101 => Some ["ForceRequest"]
  | 21, 102 => Some ["Fault"; "StatusECO"; "TempFlowLimit"; "TempReturnLimit"; "StatusMorningBoost";
      "StatusStartOptim"; "StatusStopOptim"; "SummerMode"]
  | 21, 103 => Some ["Fault"; "SDHWLoadActive"; "SolarLoadSufficient"]
  | 21, 104 => Some ["Oil"; "Gas"; "SolidState"]
  | 21, 105 => Some ["Fault"]
  | 21, 106 => Some ["Fault"; "FanActive"; "Heat"; "Cool"]
  | 21, 601 => Some ["LoadDetectionError"; "Undervoltage"; "Overcurrent"; "Underload"; "DefectiveLoad";
      "LampFailure"; "Overheat"]
  | 22, 100 => Some ["Fault"; "DHWLoadActive"; "LegioProtActive"; "DHWPushActive"; "OtherEnergySourceActive";
      "SolarEnergyOnly"; "SolarEnergySupport"; "TempOptimShiftActive"]
  | 22, 101 => Some ["Fault"; "StatusEcoH"; "TempFlowLimit"; "TempReturnLimit"; "StatusMorningBoostH";
      "StatusStartOptim"; "StatusStopOptim"; "HeatingDisabled"; "Heating"; "StatusEcoC"; "StatusPreCool";
      "CoolingDisabled"; "DewPointStatus"; "FrostAlarm"; "OverheatAlarm"]
  | _, _ => None
  end.

Definition bit_reserved (names : list label) (bit : nat) : bool :=
  match nth_error names bit with Some n => String.eqb n "" | None => true end.

Definition flag_reserved_mask (main sub : u16) : u16 :=
  match flag_table main sub with
  | None => 0
  | Some names =>
      foldl (fun m bit => Z.lor m (Z.shiftl 1 (Z.of_nat bit))) 0
        (List.filter (bit_reserved names) (seq 0 (if main =? 22 then 16 else 8)))
  end.

(** The words of a bit, for 0 and for 1. *)
Definition bool_labels (sub : option u16) : label * label :=
  match sub with
  | Some 1 => ("Off", "On")
  | Some 2 => ("False", "True")
  | Some 3 => ("Disable", "Enable")
  | Some 4 => ("No ramp", "Ramp")
  | Some 5 => ("No Alarm", "Alarm")
  | Some 6 => ("Low", "High")
  | Some 7 => ("Decrease", "Increase")
  | Some 8 => ("Up", "Down")
  | Some 9 => ("Open", "Close")
  | Some 10 => ("Stop", "Start")
  | Some 11 => ("Inactive", "Active")
  | Some 12 => ("Not inverted", "Inverted")
  | Some 13 => ("Start/stop", "Cyclically")
  | Some 14 => ("Fixed", "Calculated")
  | Some 15 => ("No action", "Reset")
  | Some 16 => ("No action", "Acknowledge")
  | Some 17 => ("Trigger (raw 0)", "Trigger (raw 1)")
  | Some 18 => ("Not occupied", "Occupied")
  | Some 19 => ("Closed", "Open")
  | Some 21 => ("OR", "AND")
  | Some 22 => ("scene 1 (raw 0)", "scene 2 (raw 1)")
  | Some 23 => ("Up/Down only (shutter)", "Up/Down + Step/Stop (blind)")
  | Some 24 => ("Day", "Night")
  | Some 100 => ("Cooling", "Heating")
  | _ => ("0", "1")
  end.

(** Further words accepted for a bit. *)
Definition bool_aliases (sub : option u16) : list label * list label :=
  match sub with
  | Some 5 => (["no-alarm"; "noalarm"], [])
  | Some 9 => ([], ["closed"])
  | Some 12 => (["normal"], [])
  | Some 13 => (["start-stop"; "start stop"], ["cyclic"])
  | Some 15 => (["none"], [])
  | Some 16 => (["none"], ["ack"])
  | Some 17 => ([], ["trigger"])
  | Some 18 => (["unoccupied"; "not-occupied"; "vacant"], [])
  | Some 19 => (["close"], [])
  | Some 21 => (["or"], ["and"])
  | Some 23 => (["shutter"], ["blind"; "blinds"])
  | Some 100 => (["cool"; "cooling"], ["heat"; "heating"])
  | _ => ([], [])
  end.

(** The units of the integer, the two-octet and the four-octet float types. *)
Definition int_unit (main : u16) (sub : option u16) : option label :=
  sub ← sub;
  match main, sub with
  | 5, 4 => Some "%"
  | 5, 10 | 6, 10 | 7, 1 | 8, 1 | 12, 1 | 13, 1 => Some "pulses"
  | 6, 1 => Some "%"
  | 7, 2 | 8, 2 => Some "ms"
  | 7, 5 | 8, 5 | 12, 100 | 13, 100 => Some "s"
  | 7, 6 | 8, 6 | 12, 101 => Some "min"
  | 7, 7 | 8, 7 | 12, 102 => Some "h"
  | 7, 11 => Some "mm"
  | 7, 12 => Some "mA"
  | 7, 13 => Some "lux"
  | 7, 600 => Some "K"
  | 8, 11 => Some "°"
  | 8, 12 => Some "m"
  | 12, 1200 | 13, 1200 => Some "l"
  | 12, 1201 | 13, 1201 => Some "m³"
  | 13, 10 => Some "Wh"
  | 13, 11 => Some "VAh"
  | 13, 12 => Some "VARh"
  | 13, 13 => Some "kWh"
  | 13, 14 => Some "kVAh"
  | 13, 15 => Some "kVARh"
  | 13, 16 => Some "MWh"
  | _, _ => None
  end.

Definition float16_unit (sub : option u16) : option label :=
  sub ← sub;
  match sub with
  | 1 => Some "°C"
  | 2 => Some "K"
  | 3 => Some "K/h"
  | 4 => Some "lux"
  | 5 => Some "m/s"
  | 6 => Some "Pa"
  | 7 => Some "%"
  | 8 => Some "ppm"
  | 9 => Some "m³/h"
  | 10 => Some "s"
  | 11 => Some "ms"
  | 20 => Some "mV"
  | 21 => Some "mA"
  | 22 => Some "W/m²"
  | 23 => Some "K/%"
  | 24 => Some "kW"
  | 25 => Some "l/h"
  | 26 => Some "l/m²"
  | 27 => Some "°F"
  | 28 => Some "km/h"
  | 29 => Some "g/m³"
  | 30 => Some "µg/m³"
  | _ => None
  end.

Definition float32_unit (sub : option u16) : option label :=
  sub ← sub;
  match sub with
  | 0 => Some "m/s²"
  | 1 => Some "rad/s²"
  | 2 => Some "J/mol"
  | 3 => Some "1/s"
  | 4 => Some "mol"
  | 6 | 54 => Some "rad"
  | 7 | 55 => Some "°"
  | 8 => Some "J s"
  | 9 | 34 => Some "rad/s"
  | 10 => Some "m²"
  | 11 => Some "F"
  | 12 | 22 | 25 | 26 => Some "C/m²"
  | 13 => Some "C/m³"
  | 14 => Some "m²/N"
  | 15 => Some "S"
  | 16 => Some "S/m"
  | 17 => Some "kg/m³"
  | 18 | 24 => Some "C"
  | 19 | 50 => Some "A"
  | 20 => Some "A/m²"
  | 21 => Some "C m"
  | 23 => Some "V/m"
  | 27 | 28 | 30 => Some "V"
  | 29 | 47 => Some "A m²"
  | 31 | 37 | 40 | 79 => Some "J"
  | 32 | 78 => Some "N"
  | 33 => Some "Hz"
  | 35 | 71 => Some "J/K"
  | 36 | 56 => Some "W"
  | 38 | 59 | 60 => Some "Ω"
  | 39 => Some "m"
  | 41 => Some "cd/m²"
  | 42 => Some "lm"
  | 43 => Some "cd"
  | 44 | 49 => Some "A/m"
  | 45 => Some "Wb"
  | 46 | 48 => Some "T"
  | 51 => Some "kg"
  | 52 => Some "kg/s"
  | 53 => Some "N s"
  | 58 | 66 => Some "Pa"
  | 61 => Some "Ω m"
  | 62 => Some "H"
  | 63 => Some "sr"
  | 64 => Some "W/m²"
  | 65 => Some "m/s"
  | 67 => Some "N/m"
  | 68 => Some "°C"
  | 69 | 70 => Some "K"
  | 72 => Some "W/(m K)"
  | 73 => Some "V/K"
  | 74 => Some "s"
  | 75 => Some "N m"
  | 76 => Some "m³"
  | 77 => Some "m³/s"
  | 80 => Some "VA"
  | 1200 => Some "m³/h"
  | 1201 => Some "l/s"
  | _ => None
  end.
