(* ===== verification/FloatArith.v ===== *)
(** * Arithmetic of binary floating-point numbers

    What the datapoint codecs use of [f32] and [f64] beside reading and comparing
    ([Float64]): products, quotients, conversions, the two roundings to an
    integer, and the octets of an [f32]; and that a common factor of a power of
    two passes through them. *)

From Stdlib Require Import SpecFloat.
From S2P Require Import Prelude Decimal TextCodec Float64.

Local Open Scope list_scope.
Local Open Scope Z_scope.

Definition f32 : Type := spec_float.

(** ** Operations *)

Definition f32_of_int (n : Z) : f32 := binary_normalize 24 128 n 0 false.

Definition f32_mul : f32 -> f32 -> f32 := SFmul 24 128.
Definition f32_div : f32 -> f32 -> f32 := SFdiv 24 128.
Definition f64_mul : f64 -> f64 -> f64 := SFmul 53 1024.
Definition f64_div : f64 -> f64 -> f64 := SFdiv 53 1024.

(** [v as f32], and [f64::from(v)]. *)
Definition f32_of_f64 (v : f64) : f32 := match v with S754_finite s m e => binary_round 24 128 s m e | v => v end.
Definition f64_of_f32 (v : f32) : f64 := match v with S754_finite s m e => binary_round 53 1024 s m e | v => v end.

Definition is_finite (v : spec_float) : bool := match v with S754_zero _ | S754_finite _ _ _ => true | _ => false end.

(** [m * 2 ^ e] rounded down, with what is left over. *)
Definition split_integer (m : positive) (e : Z) : Z * Z * Z :=
  if 0 <=? e then (Z.pos m * 2 ^ e, 0, 1) else (Z.pos m / 2 ^ (- e), Z.pos m mod 2 ^ (- e), 2 ^ (- e)).

Definition round_magnitude_even (m : positive) (e : Z) : Z :=
  let '(q, r, d) := split_integer m e in
  match 2 * r ?= d with Lt => q | Gt => q + 1 | Eq => if Z.even q then q else q + 1 end.

Definition round_magnitude_away (m : positive) (e : Z) : Z :=
  let '(q, r, d) := split_integer m e in
  match 2 * r ?= d with Lt => q | _ => q + 1 end.

(** [round_ties_even] and [round], as integers; none for infinities and NaN. *)
Definition round_ties_even (v : spec_float) : option Z :=
  match v with
  | S754_zero _ => Some 0
  | S754_finite s m e => Some (cond_Zopp s (round_magnitude_even m e))
  | _ => None
  end.

Definition round_half_away (v : spec_float) : option Z :=
  match v with
  | S754_zero _ => Some 0
  | S754_finite s m e => Some (cond_Zopp s (round_magnitude_away m e))
  | _ => None
  end.

(** [v.round() as u8]: saturating, 0 for NaN. *)
Definition round_as_u8 (v : spec_float) : u8 :=
  match v with
  | S754_infinity s => if s then 0 else 255
  | _ => Z.max 0 (Z.min 255 (default 0 (round_half_away v)))
  end.

(** [v.round()]. *)
Definition f32_round (v : f32) : f32 :=
  match v with
  | S754_finite s m e => binary_normalize 24 128 (cond_Zopp s (round_magnitude_away m e)) 0 s
  | v => v
  end.

(** [f32::from_bits] and [to_bits]; the payload of a NaN is not kept. *)
Definition f32_of_bits (b : u32) : f32 :=
  let s := Z.testbit b 31 in
  let e := Z.land (Z.shiftr b 23) 255 in
  let frac := Z.land b 8388607 in
  if e =? 255 then if frac =? 0 then S754_infinity s else S754_nan
  else if e =? 0 then match frac with Z.pos m => S754_finite s m (-149) | _ => S754_zero s end
  else S754_finite s (Z.to_pos (frac + 8388608)) (e - 150).

Definition f32_to_bits (v : f32) : u32 :=
  let sign (s : bool) := if s then 2147483648 else 0 in
  match v with
  | S754_zero s => sign s
  | S754_infinity s => sign s + 2139095040
  | S754_nan => 2143289344
  | S754_finite s m e => sign s + (if Z.pos m <? 8388608 then Z.pos m else (e + 150) * 8388608 + (Z.pos m - 8388608))
  end.

(** [lo..=hi] contains [v]. *)
Definition f32_between (lo hi v : f32) : bool := SFleb lo v && SFleb v hi.

(** ** Lemmas: octets *)

Lemma f32_bits_back b : is_u32 b -> is_finite (f32_of_bits b) = true -> f32_to_bits (f32_of_bits b) = b.
Proof.
  intros Hb. unfold is_u32 in Hb.
  assert (Hs : b = (if Z.testbit b 31 then 2147483648 else 0) + Z.land (Z.shiftr b 23) 255 * 8388608 + Z.land b 8388607).
  { change 8388607 with (Z.ones 23). change 255 with (Z.ones 8). rewrite !Z.land_ones, Z.shiftr_div_pow2 by lia.
    change (2 ^ 23) with 8388608. change (2 ^ 8) with 256.
    rewrite Z.testbit_eqb by lia. change (2 ^ 31) with 2147483648.
    assert (Hd : b / 8388608 / 256 = b / 2147483648) by (rewrite Z.div_div by lia; done).
    pose proof (Z.div_mod b 8388608 ltac:(lia)). pose proof (Z.div_mod (b / 8388608) 256 ltac:(lia)).
    assert (b / 2147483648 < 2) by (apply Z.div_lt_upper_bound; lia).
    assert (0 <= b / 2147483648) by (apply Z.div_pos; lia).
    destruct (Z.eqb_spec ((b / 2147483648) mod 2) 1) as [E|E]; [|]; rewrite Z.mod_small in E by lia; lia. }
  unfold f32_of_bits. set (s := Z.testbit b 31) in *. set (e := Z.land (Z.shiftr b 23) 255) in *. set (frac := Z.land b 8388607) in *.
  assert (He : 0 <= e < 256) by (unfold e; change 255 with (Z.ones 8); rewrite Z.land_ones by lia; apply Z.mod_pos_bound; lia).
  assert (Hf : 0 <= frac < 8388608) by (unfold frac; change 8388607 with (Z.ones 23); rewrite Z.land_ones by lia; apply Z.mod_pos_bound; lia).
  clearbody s e frac.
  destruct (Z.eqb_spec e 255); [by destruct (frac =? 0)|]. destruct (Z.eqb_spec e 0) as [->|H0].
  - destruct frac as [|m|m]; [|cbn [f32_to_bits]|lia]; intros _; [destruct s; cbn; lia|].
    destruct (Z.ltb_spec (Z.pos m) 8388608); [|lia]. destruct s; lia.
  - intros _. cbn [f32_to_bits]. rewrite Z2Pos.id by lia. destruct (Z.ltb_spec (frac + 8388608) 8388608); [lia|]. destruct s; lia.
Qed.

(** ** Lemmas: a power of two passes through the operations

    As long as no exponent reaches the ends of its range. *)

Section Shift.
Context (prec emax : Z).

Lemma shr_fexp_shift m e l k : emin prec emax <= e -> emin prec emax <= e + k ->
  shr_fexp prec emax m (e + k) l = (fst (shr_fexp prec emax m e l), snd (shr_fexp prec emax m e l) + k) /\
  e <= snd (shr_fexp prec emax m e l).
Proof.
  intros He Hk. unfold shr_fexp, fexp. set (d := Zdigits2 m).
  assert (Hnone : forall r x n, n <= 0 -> shr r x n = (r, x)) by (intros r x [|n|n] Hn; [done|lia|done]).
  destruct (Z.le_gt_cases (d - prec) 0) as [Hd|Hd].
  - rewrite !Hnone by lia. cbn. split; [done|lia].
  - rewrite !Z.max_l by lia. replace (d + (e + k) - prec - (e + k)) with (d + e - prec - e) by lia.
    destruct (d + e - prec - e) as [|p|p] eqn:E; [lia| |lia]. cbn. split; [f_equal; lia|lia].
Qed.

Lemma round_aux_shift s m e l k m' e' : emin prec emax <= e -> emin prec emax <= e + k ->
  binary_round_aux prec emax s m e l = S754_finite s m' e' -> e' + k <= emax - prec ->
  binary_round_aux prec emax s m (e + k) l = S754_finite s m' (e' + k).
Proof.
  intros He Hk. unfold binary_round_aux. destruct (shr_fexp_shift m e l k He Hk) as [-> Hm].
  destruct (shr_fexp prec emax m e l) as [r e1]. cbn [fst snd] in *.
  set (m1 := round_nearest_even _ _).
  destruct (shr_fexp_shift m1 e1 loc_Exact k) as [-> _]; [lia|lia|].
  destruct (shr_fexp prec emax m1 e1 loc_Exact) as [r2 e2]. cbn [fst snd].
  destruct (shr_m r2) as [|p|p]; try done. destruct (Z.leb_spec e2 (emax - prec)); [|done].
  intros [= -> ->] H2. by rewrite (proj2 (Z.leb_le (e' + k) (emax - prec))) by done.
Qed.

Lemma round_aux_sign s m e l m' e' : binary_round_aux prec emax false m e l = S754_finite false m' e' ->
  binary_round_aux prec emax s m e l = S754_finite s m' e'.
Proof.
  unfold binary_round_aux. destruct (shr_fexp prec emax m e l) as [r e1]. destruct (shr_fexp prec emax _ e1 loc_Exact) as [r2 e2].
  destruct (shr_m r2); try done. destruct (e2 <=? emax - prec); [|done]. by intros [= -> ->].
Qed.

Lemma round_shift s m e k m' e' : emin prec emax <= e -> emin prec emax <= e + k ->
  emin prec emax <= Z.pos (digits2_pos m) + e - prec -> emin prec emax <= Z.pos (digits2_pos m) + e + k - prec ->
  binary_round prec emax false m e = S754_finite false m' e' -> e' + k <= emax - prec ->
  binary_round prec emax s m (e + k) = S754_finite s m' (e' + k).
Proof.
  intros H1 H2 H3 H4. unfold binary_round, fexp, shl_align. set (d := Z.pos (digits2_pos m)) in *.
  rewrite !Z.max_l by lia.
  replace (d + (e + k) - prec - (e + k)) with (d + e - prec - e) by lia.
  replace (d + (e + k) - prec) with (d + e - prec + k) by lia.
  destruct (d + e - prec - e); intros E%(round_aux_sign s) Hk; (eapply round_aux_shift; [| |exact E|exact Hk]); lia.
Qed.

Lemma mul_shift s m1 e1 m2 e2 k m' e' : emin prec emax <= e1 + e2 -> emin prec emax <= e1 + k + e2 ->
  SFmul prec emax (S754_finite false m1 e1) (S754_finite false m2 e2) = S754_finite false m' e' -> e' + k <= emax - prec ->
  SFmul prec emax (S754_finite s m1 (e1 + k)) (S754_finite false m2 e2) = S754_finite s m' (e' + k).
Proof.
  intros H1 H2. cbn [SFmul xorb]. rewrite xorb_false_r. replace (e1 + k + e2) with (e1 + e2 + k) by lia.
  intros E%(round_aux_sign s) Hk. by apply round_aux_shift; [| lia| |].
Qed.

Lemma div_shift s m1 e1 m2 e2 k m' e' :
  let top := Z.pos (digits2_pos m1) + e1 - (Z.pos (digits2_pos m2) + e2) - prec in
  emin prec emax <= top -> emin prec emax <= top + k -> emin prec emax <= e1 - e2 -> emin prec emax <= e1 + k - e2 ->
  SFdiv prec emax (S754_finite false m1 e1) (S754_finite false m2 e2) = S754_finite false m' e' -> e' + k <= emax - prec ->
  SFdiv prec emax (S754_finite s m1 (e1 + k)) (S754_finite false m2 e2) = S754_finite s m' (e' + k).
Proof.
  cbv zeta. cbn [SFdiv xorb]. rewrite xorb_false_r. unfold SFdiv_core_binary, fexp. cbn [Zdigits2].
  set (d1 := Z.pos (digits2_pos m1)). set (d2 := Z.pos (digits2_pos m2)). intros H1 H2 H3 H4.
  replace (Z.min (Z.max (d1 + (e1 + k) - (d2 + e2) - prec) (emin prec emax)) (e1 + k - e2))
    with (Z.min (Z.max (d1 + e1 - (d2 + e2) - prec) (emin prec emax)) (e1 - e2) + k) by lia.
  set (e0 := Z.min (Z.max (d1 + e1 - (d2 + e2) - prec) (emin prec emax)) (e1 - e2)).
  replace (e1 + k - e2 - (e0 + k)) with (e1 - e2 - e0) by lia.
  destruct (Z.div_eucl _ _) as [q r]. intros E%(round_aux_sign s) Hk. apply round_aux_shift; [lia|lia|done|done].
Qed.

End Shift.

(** ** Lemmas: rounding to an integer *)

Lemma round_even_near m e n : e < 0 -> 0 <= n -> 2 * Z.abs (Z.pos m - n * 2 ^ (- e)) < 2 ^ (- e) -> round_magnitude_even m e = n.
Proof.
  intros He Hn H. unfold round_magnitude_even, split_integer. rewrite (proj2 (Z.leb_gt 0 e)) by done.
  set (d := 2 ^ (- e)) in *. assert (0 < d) by (apply Z.pow_pos_nonneg; lia).
  pose proof (Z.div_mod (Z.pos m) d ltac:(lia)) as Hq. pose proof (Z.mod_pos_bound (Z.pos m) d ltac:(lia)).
  set (q := Z.pos m / d) in *. set (r := Z.pos m mod d) in *.
  destruct (Z.compare_spec (2 * r) d); [|nia|nia].
  assert (q = n \/ q + 1 = n) by nia. exfalso. nia.
Qed.

Lemma round_even_at_least m e n : e < 0 -> 0 < n -> (2 * n - 1) * 2 ^ (- e) < 2 * Z.pos m -> n <= round_magnitude_even m e.
Proof.
  intros He Hn H. unfold round_magnitude_even, split_integer. rewrite (proj2 (Z.leb_gt 0 e)) by done.
  set (d := 2 ^ (- e)) in *. assert (0 < d) by (apply Z.pow_pos_nonneg; lia).
  pose proof (Z.div_mod (Z.pos m) d ltac:(lia)) as Hq. pose proof (Z.mod_pos_bound (Z.pos m) d ltac:(lia)).
  set (q := Z.pos m / d) in *. set (r := Z.pos m mod d) in *.
  destruct (Z.compare_spec (2 * r) d); [|nia|nia]. assert (n <= q) by nia. destruct (Z.even q); lia.
Qed.

(** An integer as a normalised mantissa and its exponent. *)
Lemma f64_of_int_normal s n m e : 2 ^ 52 <= Z.pos m < 2 ^ 53 -> -52 <= e <= 0 -> Z.pos m = n * 2 ^ (- e) ->
  f64_of_int (cond_Zopp s n) = S754_finite s m e.
Proof.
  intros Hm He E. assert (Hn : 0 < n) by (assert (0 < 2 ^ (- e)) by (apply Z.pow_pos_nonneg; lia); nia).
  destruct n as [|p|p]; [lia| |lia]. assert (Hp : Z.pos p < 2 ^ 53) by (assert (1 <= 2 ^ (- e)) by (apply (Z.pow_le_mono_r 2 0); lia); nia).
  destruct (round_small s p Hp) as (m0 & E0 & R).
  assert (Ed : exponent_of p = e).
  { unfold exponent_of. rewrite (digits2_unique p (53 + e)); [lia|lia|].
    replace (53 + e - 1) with (52 + e) by lia. 
    assert (2 ^ 52 = 2 ^ (52 + e) * 2 ^ (- e)) by (rewrite <- Z.pow_add_r by lia; f_equal; lia).
    assert (2 ^ 53 = 2 ^ (53 + e) * 2 ^ (- e)) by (rewrite <- Z.pow_add_r by lia; f_equal; lia).
    assert (0 < 2 ^ (- e)) by (apply Z.pow_pos_nonneg; lia). nia. }
  rewrite Ed in E0, R. assert (m0 = m) as -> by lia. unfold f64_of_int. by destruct s.
Qed.

(** Dividing by a power of two only changes the exponent. *)
Lemma div_pow2 s m ex e : 2 ^ 52 <= Z.pos m < 2 ^ 53 -> 0 <= e <= 52 -> -900 <= ex <= 900 ->
  f64_div (S754_finite s m ex) (f64_of_int (2 ^ e)) = S754_finite s m (ex - e).
Proof.
  intros Hm He Hx.
  assert (E2 : f64_of_int (2 ^ e) = S754_finite false 4503599627370496 (e - 52)).
  { apply (f64_of_int_normal false (2 ^ e)); [lia|lia|]. change (Z.pos 4503599627370496) with (2 ^ 52).
    rewrite <- Z.pow_add_r by lia. f_equal. lia. }
  rewrite E2. unfold f64_div, SFdiv, SFdiv_core_binary, fexp. cbn [Zdigits2].
  rewrite (digits2_unique m 53) by lia. change (Z.pos (digits2_pos 4503599627370496)) with 53. change (emin 53 1024) with (-1074).
  replace (Z.min _ _) with (ex - e - 1) by lia. replace (ex - (e - 52) - (ex - e - 1)) with 53 by lia.
  rewrite Z.shiftl_mul_pow2 by lia.
  destruct (Z.div_eucl _ _) as [q r] eqn:Eq.
  assert (Hq : q = Z.pos m * 2 /\ r = 0).
  { pose proof (Z_div_mod (Z.pos m * 2 ^ 53) 4503599627370496 ltac:(lia)) as H. rewrite Eq in H. destruct H as [H1 H2].
    change (2 ^ 53) with (4503599627370496 * 2) in H1. lia. }
  destruct Hq as [-> ->]. rewrite xorb_false_r. change (new_location 4503599627370496 0) with loc_Exact.
  change (Z.pos m * 2) with (Z.pos (m * 2)). rewrite Pos.mul_comm. change (2 * m)%positive with (m~0)%positive.
  unfold binary_round_aux, shr_fexp, fexp. cbn [Zdigits2 digits2_pos]. rewrite Pos2Z.inj_succ, (digits2_unique m 53) by lia.
  change (emin 53 1024) with (-1074). replace (Z.max _ _ - _) with 1 by lia.
  cbn [shr_record_of_loc shr SpecFloat.iter_pos shr_1 orb shr_m loc_of_shr_record round_nearest_even Zdigits2].
  rewrite (digits2_unique m 53) by lia. replace (Z.max _ _ - _) with 0 by lia. cbn [shr shr_m].
  rewrite (proj2 (Z.leb_le _ _)) by lia. f_equal. lia.
Qed.
