(* ===== verification/Float16.v ===== *)
(** * The two-octet float of DPT 9 ([bussard-model/src/codec.rs])

    The value [0.01 * M * 2 ^ E] of a pattern, the pattern of a value, and that a
    pattern read and written again stands for the same value. *)

From Stdlib Require Import SpecFloat.
From S2P Require Import Prelude Decimal TextCodec Float64 FloatArith.

Local Open Scope list_scope.
Local Open Scope Z_scope.

(** ** Operations *)

(** The count of hundredths a pattern stands for. *)
Definition float16_count (raw : u16) : Z :=
  let exponent := Z.land (Z.shiftr raw 11) 15 in
  let mantissa_raw := Z.land raw 2047 in
  let mantissa := if Z.testbit raw 15 then mantissa_raw - 2048 else mantissa_raw in
  Z.shiftl mantissa exponent.

Definition decode_float16 (hi lo : u8) : f32 :=
  f32_of_f64 (f64_div (f64_of_int (float16_count (u16_of hi lo))) (f64_of_int 100)).

(** [0.01 * -2048.0 * 32768.0] and [0.01 * 2046.0 * 32768.0]. *)
Definition FLOAT16_MIN : f32 :=
  f32_mul (f32_mul (of_decimal F32 false 1 (-2)) (f32_of_int (-2048))) (f32_of_int 32768).
Definition FLOAT16_MAX : f32 :=
  f32_mul (f32_mul (of_decimal F32 false 1 (-2)) (f32_of_int 2046)) (f32_of_int 32768).

(** The first exponent from [e] on whose mantissa fits. *)
Fixpoint find_exponent (n : nat) (e : Z) (scaled : f64) : option (Z * Z) :=
  match n with
  | O => None
  | S n =>
      match round_ties_even (f64_div scaled (f64_of_int (Z.shiftl 1 e))) with
      | Some m => if (-2048 <=? m) && (m <=? 2047) then Some (e, m) else find_exponent n (e + 1) scaled
      | None => find_exponent n (e + 1) scaled
      end
  end.

Definition encode_float16_raw (value : f64) : option u16 :=
  if negb (is_finite value) then None
  else
    let scaled := f64_mul value (f64_of_int 100) in
    '(exponent, mantissa) ← find_exponent 16 0 scaled;
    let '(sign, bits) := if mantissa <? 0 then (32768, mantissa + 2048) else (0, mantissa) in
    Some (Z.lor (Z.lor sign (Z.shiftl exponent 11)) (Z.land bits 2047)).

(** None: [Float16RangeError]. *)
Definition encode_float16 (value : f32) : option bytes :=
  if negb (is_finite value) || negb (f32_between FLOAT16_MIN FLOAT16_MAX value) then None
  else
    raw ← encode_float16_raw (f64_of_f32 value);
    if raw =? 32767 then None else Some (be_bytes 2 raw).

(** ** Lemmas: a pattern's value times 100

    A count of hundredths is [M * 2 ^ j] with eleven bits in [M]; the factor
    [2 ^ j] passes through every operation, and for each [M] the result is
    computed. *)

Definition hundred : f64 := S754_finite false 7036874417766400 (-46).

Lemma hundred_eq : f64_of_int 100 = hundred.
Proof. reflexivity. Qed.

Definition normal_mantissa (M : Z) : positive := Z.to_pos (M * 2 ^ 42).

(** What is computed for one [M]: the value as a float, that value times 100,
    and that these are close to [M / 100] and [M]. *)
Definition probe (M : Z) : option (positive * Z * (positive * Z)) :=
  match f64_div (S754_finite false (normal_mantissa M) (-42)) hundred with
  | S754_finite false m1 e1 =>
      match binary_round 24 128 false m1 e1 with
      | S754_finite false m2 e2 =>
          match binary_round 53 1024 false m2 e2 with
          | S754_finite false m3 e3 =>
              match f64_mul (S754_finite false m3 e3) hundred with
              | S754_finite false p q =>
                  if (-60 <=? e1) && (e1 <=? 0) && (-60 <=? e2) && (e2 <=? -19) && (-60 <=? e3) && (e3 <=? 0)
                     && (-60 <=? q) && (q <=? -40) && ((e2 <? -19) || (Z.pos m2 <=? 10737418))
                     && (negb (M =? 1024) || ((e2 =? -20) && (Z.pos m2 =? 10737418)))
                     && ((M =? 2047) || (e2 <? -19) || (Z.pos m2 <=? 10726932))
                     && (4503599627370496 <=? Z.pos p) && (Z.pos p <? 9007199254740992)
                     && (8 * Z.abs (Z.pos p - M * 2 ^ (- q)) <? 2 ^ (- q))
                  then Some (m2, e2, (p, q)) else None
              | _ => None
              end
          | _ => None
          end
      | _ => None
      end
  | _ => None
  end.

Lemma probe_all : forallb (fun k => bool_decide (is_Some (probe (1024 + Z.of_nat k)))) (seq 0 1024) = true.
Proof. vm_compute. reflexivity. Qed.

(** The value [s M * 2 ^ j / 100] as a float [m2], and times 100 as [p]. *)
Record Scaled (s : bool) (M j : Z) (m2 : positive) (e2 : Z) (p : positive) (q : Z) : Prop := {
  sc_value : f32_of_f64 (f64_div (S754_finite s (normal_mantissa M) (-42 + j)) hundred) = S754_finite s m2 (e2 + j);
  sc_times : f64_mul (f64_of_f32 (S754_finite s m2 (e2 + j))) hundred = S754_finite s p (q + j);
  sc_e2 : -60 <= e2 <= -19;
  sc_q : -60 <= q <= -40;
  sc_max : e2 < -19 \/ Z.pos m2 <= 10737418;
  sc_first : M = 1024 -> e2 = -20 /\ Z.pos m2 = 10737418;
  sc_top : M = 2047 \/ e2 < -19 \/ Z.pos m2 <= 10726932;
  sc_normal : 2 ^ 52 <= Z.pos p < 2 ^ 53;
  sc_near : 8 * Z.abs (Z.pos p - M * 2 ^ (- q)) < 2 ^ (- q) }.

Lemma scaled_at s M j : 1024 <= M < 2048 -> -11 <= j <= 16 -> exists m2 e2 p q, Scaled s M j m2 e2 p q.
Proof.
  intros HM Hj. assert (Hp : is_Some (probe M)).
  { pose proof probe_all as H. rewrite forallb_forall in H. specialize (H (Z.to_nat (M - 1024))).
    rewrite bool_decide_eq_true in H. replace (1024 + Z.of_nat (Z.to_nat (M - 1024))) with M in H by lia. apply H.
    apply in_seq. lia. }
  destruct Hp as [x Hp]. unfold probe in Hp.
  destruct (f64_div _ _) as [|[]| |[] m1 e1] eqn:E1; try done.
  destruct (binary_round 24 128 false m1 e1) as [|[]| |[] m2 e2] eqn:E2; try done.
  destruct (binary_round 53 1024 false m2 e2) as [|[]| |[] m3 e3] eqn:E3; try done.
  destruct (f64_mul _ _) as [|[]| |[] p q] eqn:E4; try done.
  destruct (_ && _) eqn:Hb in Hp; [|done]. clear Hp x.
  rewrite !andb_true_iff, !orb_true_iff, !andb_true_iff, negb_true_iff, !Z.leb_le, !Z.ltb_lt, Z.eqb_neq, !Z.eqb_eq in Hb.
  destruct Hb as [[[[[[[[[[[[[? ?] ?] ?] ?] ?] ?] ?] ?] ?] ?] ?] ?] ?].
  assert (Hd : forall x, 1 <= Z.pos (digits2_pos x)) by (intros; lia).
  exists m2, e2, p, q. split; try lia.
  - assert (Hm : Z.pos (digits2_pos (normal_mantissa M)) = 53).
    { apply digits2_unique; [lia|]. unfold normal_mantissa. change (2 ^ (53 - 1)) with 4503599627370496.
      change (2 ^ 53) with 9007199254740992. change (2 ^ 42) with 4398046511104. rewrite Z2Pos.id by lia. lia. }
    unfold f64_div, hundred in E1 |- *.
    rewrite (div_shift 53 1024 s _ (-42) _ (-46) j m1 e1); [|cbv zeta; try rewrite Hm; change (emin 53 1024) with (-1074); change (Z.pos (digits2_pos 7036874417766400)) with 53; lia..|done|lia].
    cbn [f32_of_f64]. specialize (Hd m1). apply round_shift; [change (emin 24 128) with (-149); lia..|done|lia].
  - cbn [f64_of_f32]. specialize (Hd m2).
    rewrite (round_shift 53 1024 s m2 e2 j m3 e3); [|change (emin 53 1024) with (-1074); lia..|done|lia].
    unfold f64_mul, hundred in E4 |- *. apply mul_shift; [change (emin 53 1024) with (-1074); lia..|done|lia].
Qed.

(** The first exponent whose rounded mantissa fits is the first at which the
    count itself has a mantissa that fits, so the pattern found stands for it. *)
Lemma find_exponent_exact s M j m2 e2 p q a m0 e0 (Hs : Scaled s M j m2 e2 p q) : 1024 <= M -> -10 <= j <= 16 ->
  0 < a -> a * 2 ^ 10 = M * 2 ^ (j + 10) -> 0 <= e0 < 16 -> cond_Zopp s a = m0 * 2 ^ e0 -> -2048 <= m0 <= 2047 ->
  forall k e N, Z.of_nat k = 16 - e -> 0 <= e <= e0 -> a = N * 2 ^ e ->
  exists e' m', find_exponent k e (S754_finite s p (q + j)) = Some (e', m') /\ 0 <= e' < 16 /\ -2048 <= m' <= 2047 /\
    m' * 2 ^ e' = cond_Zopp s a.
Proof.
  intros HM Hj Ha EM He0 Em Hm0. induction k as [|k IH]; intros e N Hk He EN; [lia|].
  pose proof (sc_q _ _ _ _ _ _ _ Hs) as Hq. pose proof (sc_near _ _ _ _ _ _ _ Hs) as Hnear.
  cbn [find_exponent]. rewrite Z.shiftl_1_l, div_pow2 by (apply Hs || lia). cbn [round_ties_even].
  set (D := 2 ^ (- (q + j - e))).
  assert (HD : 0 < D) by (apply Z.pow_pos_nonneg; lia).
  assert (HN : N * D = M * 2 ^ (- q)).
  { assert (H10 : 0 < 2 ^ (10 + j)) by (apply Z.pow_pos_nonneg; lia).
    apply (Z.mul_reg_r _ _ (2 ^ (10 + j))); [lia|].
    transitivity (N * 2 ^ (e + 10) * 2 ^ (- q)).
    - unfold D. rewrite <- !Z.mul_assoc, <- !Z.pow_add_r by lia. do 2 f_equal. lia.
    - transitivity (M * 2 ^ (j + 10) * 2 ^ (- q)); [|rewrite (Z.add_comm j); lia].
      f_equal. rewrite <- EM, EN, Z.pow_add_r by lia. lia. }
  assert (Hpe : 0 < 2 ^ e) by (apply Z.pow_pos_nonneg; lia). assert (HNpos : 0 < N) by nia.
  assert (Hclose : 8192 * Z.abs (Z.pos p - N * D) < N * D).
  { rewrite HN. assert (0 < 2 ^ (- q)) by (apply Z.pow_pos_nonneg; lia). nia. }
  assert (Hfit : -2048 <= cond_Zopp s N <= 2047 \/ (if s then 2049 <= N else 2048 <= N)) by (destruct s; cbn; lia).
  destruct Hfit as [Hfit|Hbig].
  - assert (HN2 : N <= 2048) by (destruct s; cbn in Hfit; lia).
    rewrite (round_even_near p (q + j - e) N); [|lia|lia|fold D; nia].
    rewrite (proj2 (Z.leb_le _ _)), (proj2 (Z.leb_le _ _)) by lia. cbn [andb]. exists e, (cond_Zopp s N).
    split; [done|]. split; [lia|]. split; [done|]. rewrite EN. destruct s; cbn; lia.
  - set (r := round_magnitude_even p (q + j - e)).
    assert (Hout : (-2048 <=? cond_Zopp s r) && (cond_Zopp s r <=? 2047) = false).
    { apply andb_false_iff. destruct s; cbn [cond_Zopp].
      - left. apply Z.leb_gt. assert (2049 <= r); [|lia]. apply round_even_at_least; [lia|lia|]. fold D. nia.
      - right. apply Z.leb_gt. assert (2048 <= r); [|lia]. apply round_even_at_least; [lia|lia|]. fold D. nia. }
    rewrite Hout. assert (He' : e < e0).
    { destruct (Z.eq_dec e e0) as [->|]; [|lia]. rewrite EN in Em. exfalso. destruct s; cbn in Em; nia. }
    apply (IH (e + 1) (cond_Zopp s m0 * 2 ^ (e0 - e - 1))); [lia|lia|].
    rewrite <- Z.mul_assoc, <- Z.pow_add_r by lia. replace (e0 - e - 1 + (e + 1)) with e0 by lia. destruct s; cbn in Em |- *; lia.
Qed.

(** ** Lemmas: patterns *)

(** The pattern of an exponent and a mantissa. *)
Definition float16_pattern (exponent mantissa : Z) : u16 :=
  let '(sign, bits) := if mantissa <? 0 then (32768, mantissa + 2048) else (0, mantissa) in
  Z.lor (Z.lor sign (Z.shiftl exponent 11)) (Z.land bits 2047).

Lemma pattern_value e m : 0 <= e < 16 -> -2048 <= m <= 2047 ->
  float16_pattern e m = (if m <? 0 then 32768 + (m + 2048) else m) + e * 2048.
Proof.
  intros He Hm. unfold float16_pattern.
  assert (H : forall b, 0 <= b < 2048 -> Z.land b 2047 = b).
  { intros b Hb. change 2047 with (Z.ones 11). rewrite Z.land_ones by lia. by apply Z.mod_small. }
  destruct (Z.ltb_spec m 0); rewrite H by lia.
  - change 32768 with (Z.shiftl 16 11) at 1. rewrite <- Z.shiftl_lor.
    rewrite lor_shiftl_add by (cbn; lia). change (Z.lor 16 e) with (Z.lor (Z.shiftl 1 4) e).
    rewrite lor_shiftl_add by (cbn; lia). cbn. lia.
  - rewrite Z.lor_0_l, lor_shiftl_add by (cbn; lia). cbn. lia.
Qed.

Lemma pattern_count e m : 0 <= e < 16 -> -2048 <= m <= 2047 ->
  is_u16 (float16_pattern e m) /\ float16_count (float16_pattern e m) = m * 2 ^ e.
Proof.
  intros He Hm. rewrite pattern_value by done. unfold float16_count, is_u16.
  set (b := if m <? 0 then m + 2048 else m). assert (Hb : 0 <= b < 2048) by (unfold b; destruct (Z.ltb_spec m 0); lia).
  set (sg := if m <? 0 then 16 else 0). assert (Hsg : sg = 0 \/ sg = 16) by (unfold sg; destruct (m <? 0); lia).
  replace ((if m <? 0 then 32768 + (m + 2048) else m) + e * 2048) with ((sg + e) * 2048 + b) by (unfold sg, b; destruct (m <? 0); lia).
  split; [lia|]. rewrite Z.shiftr_div_pow2 by lia. change (2 ^ 11) with 2048. rewrite Z.div_add_l, (Z.div_small b) by lia.
  assert (H4 : forall x, Z.land x 15 = x mod 2 ^ 4) by (intros x; by apply (Z.land_ones x 4)).
  assert (H11 : forall x, Z.land x 2047 = x mod 2 ^ 11) by (intros x; by apply (Z.land_ones x 11)).
  rewrite H4, H11.
  change (2 ^ 4) with 16. change (2 ^ 11) with 2048.
  replace ((sg + e + 0) mod 16) with e by (destruct Hsg as [-> | ->]; [rewrite Z.mod_small; lia|replace (16 + e + 0) with (e + 1 * 16) by lia; rewrite Z.mod_add, Z.mod_small; lia]).
  replace (((sg + e) * 2048 + b) mod 2048) with b by (rewrite Z.add_comm, Z.mod_add, Z.mod_small; lia).
  assert (Ht : Z.testbit ((sg + e) * 2048 + b) 15 = (m <? 0)).
  { rewrite Z.testbit_eqb by lia. change (2 ^ 15) with 32768. unfold sg. destruct (m <? 0).
    - replace ((16 + e) * 2048 + b) with (1 * 32768 + (e * 2048 + b)) by lia. rewrite Z.div_add_l, Z.div_small by lia. done.
    - rewrite Z.div_small by lia. done. }
  rewrite Ht, Z.shiftl_mul_pow2 by lia. f_equal. unfold b. destruct (Z.ltb_spec m 0); lia.
Qed.

(** Every pattern is of this form. *)
Lemma pattern_parts raw : is_u16 raw -> exists e m, 0 <= e < 16 /\ -2048 <= m <= 2047 /\
  raw = float16_pattern e m /\ float16_count raw = m * 2 ^ e.
Proof.
  intros Hr. unfold is_u16 in Hr.
  exists (raw / 2048 mod 16), (if 32768 <=? raw then raw mod 2048 - 2048 else raw mod 2048).
  pose proof (Z.mod_pos_bound (raw / 2048) 16 ltac:(lia)) as He. pose proof (Z.mod_pos_bound raw 2048 ltac:(lia)) as Hm.
  set (e := raw / 2048 mod 16) in *. set (m := if 32768 <=? raw then _ else _).
  assert (Hm' : -2048 <= m <= 2047) by (unfold m; destruct (32768 <=? raw); lia).
  assert (E : raw = float16_pattern e m).
  { rewrite pattern_value by done. unfold m.
    pose proof (Z.div_mod raw 2048 ltac:(lia)) as H1. pose proof (Z.div_mod (raw / 2048) 16 ltac:(lia)) as H2.
    rewrite Z.div_div in H2 by lia. change (2048 * 16) with 32768 in H2. fold e in H2.
    destruct (Z.leb_spec 32768 raw).
    - replace (raw / 32768) with 1 in H2 by (apply (Z.div_unique raw 32768 1 (raw - 32768)); lia).
      rewrite (proj2 (Z.ltb_lt _ _)) by lia. lia.
    - rewrite (Z.div_small raw 32768) in H2 by lia. rewrite (proj2 (Z.ltb_ge _ _)) by lia. lia. }
  split; [done|]. split; [done|]. split; [done|]. rewrite E at 1. by apply pattern_count.
Qed.

(** ** Lemmas: a value is read and written again *)

(** A count other than zero as eleven bits times a power of two. *)
Lemma count_normal e m : 0 <= e < 16 -> -2048 <= m <= 2047 -> m <> 0 -> exists s a M j,
  m * 2 ^ e = cond_Zopp s a /\ 0 < a /\ 1024 <= M < 2048 /\ -10 <= j <= 16 /\ a * 2 ^ 10 = M * 2 ^ (j + 10) /\
  (s = false -> j <= 15) /\ (j = 16 -> M = 1024) /\ (j = 15 -> M = 2047 -> e = 15 /\ Z.abs m = 2047).
Proof.
  intros He Hm H0. exists (m <? 0), (Z.abs m * 2 ^ e). set (b := Z.abs m). assert (Hb : 1 <= b <= 2048) by lia.
  assert (Hs : m * 2 ^ e = cond_Zopp (m <? 0) (b * 2 ^ e)) by (unfold b; destruct (Z.ltb_spec m 0); cbn; lia).
  assert (Hpe : 0 < 2 ^ e) by (apply Z.pow_pos_nonneg; lia).
  destruct (Z.eq_dec b 2048) as [E|E].
  - exists 1024, (e + 1). split; [done|]. split; [nia|]. split; [lia|]. split; [lia|]. split.
    + rewrite E. change 2048 with (2 ^ 11). change 1024 with (2 ^ 10). rewrite <- !Z.pow_add_r by lia. f_equal. lia.
    + split; [|split; [done|]]; [|intros; lia]. intros Hneg%Z.ltb_ge. lia.
  - set (l := Z.log2 b). pose proof (Z.log2_spec b ltac:(lia)) as Hl. fold l in Hl. pose proof (Z.log2_nonneg b). fold l in H.
    assert (Hl10 : l <= 10).
    { destruct (Z.le_gt_cases l 10); [done|]. pose proof (Z.pow_le_mono_r 2 11 l ltac:(lia) ltac:(lia)). lia. }
    assert (Hpl : 0 < 2 ^ (10 - l)) by (apply Z.pow_pos_nonneg; lia).
    assert (E10 : 2 ^ l * 2 ^ (10 - l) = 1024) by (rewrite <- Z.pow_add_r by lia; replace (l + (10 - l)) with 10 by lia; done).
    rewrite Z.pow_succ_r in Hl by lia.
    exists (b * 2 ^ (10 - l)), (e - 10 + l). split; [done|]. split; [nia|]. split; [nia|]. split; [lia|]. split.
    + rewrite <- !Z.mul_assoc, <- !Z.pow_add_r by lia. do 2 f_equal. lia.
    + split; [lia|]. split; [lia|]. intros Ej EM. assert (El : l = 10 \/ l < 10) by lia. destruct El as [El|El]; [|lia]. rewrite El in EM. cbn in EM. split; [lia|]. fold b. lia.
Qed.

Lemma decode_scaled n s a M j m2 e2 p q : n = cond_Zopp s a -> 1024 <= M < 2048 -> -10 <= j <= 16 -> 0 < a -> a * 2 ^ 10 = M * 2 ^ (j + 10) ->
  Scaled s M j m2 e2 p q -> f32_of_f64 (f64_div (f64_of_int n) (f64_of_int 100)) = S754_finite s m2 (e2 + j).
Proof.
  intros -> HM Hj Ha EM Hs. rewrite hundred_eq.
  rewrite (f64_of_int_normal s a (normal_mantissa M) (-42 + j)); [apply Hs| |lia|].
  - unfold normal_mantissa. rewrite Z2Pos.id by lia. lia.
  - unfold normal_mantissa. rewrite Z2Pos.id by lia. apply (Z.mul_reg_r _ _ (2 ^ 10)); [lia|].
    replace (a * 2 ^ (- (-42 + j)) * 2 ^ 10) with (a * 2 ^ 10 * 2 ^ (- (-42 + j))) by lia.
    rewrite EM, <- !Z.mul_assoc, <- !Z.pow_add_r by lia. do 2 f_equal. lia.
Qed.

(** The largest count is two to the 26 with a minus sign, or that of [7FFE]. *)
Lemma value_in_range s M j m2 e2 p q : Scaled s M j m2 e2 p q -> -10 <= j <= 16 -> (s = false -> j <= 15) -> (j = 16 -> M = 1024) ->
  (s = false -> j = 15 -> M <> 2047) -> f32_between FLOAT16_MIN FLOAT16_MAX (S754_finite s m2 (e2 + j)) = true.
Proof.
  intros Hs Hj Hpos Hfirst Htop. destruct Hs as [_ _ He2 _ Hmax Hone Hlast _ _].
  unfold f32_between. change FLOAT16_MIN with (S754_finite true 10737418 (-4)). change FLOAT16_MAX with (S754_finite false 10726932 (-4)).
  assert (Hcmp : forall m1 m2, Pos.compare_cont Eq m1 m2 = (Z.pos m1 ?= Z.pos m2)) by done.
  destruct s; unfold SFleb; cbn [SFcompare andb]; rewrite ?andb_true_r, Hcmp.
  - destruct (Z.compare_spec (-4) (e2 + j)) as [E|E|E]; [|exfalso|done].
    + destruct (Z.compare_spec 10737418 (Z.pos m2)); cbn; try done. exfalso. assert (j = 16 \/ j = 15) as [-> | ->] by lia; [|lia].
      destruct (Hone (Hfirst eq_refl)). lia.
    + assert (j = 16) as -> by lia. destruct (Hone (Hfirst eq_refl)). lia.
  - specialize (Hpos eq_refl). specialize (Htop eq_refl). destruct (Z.compare_spec (e2 + j) (-4)) as [E|E|E]; [|done|exfalso; lia].
    assert (j = 15) as -> by lia. specialize (Htop eq_refl). destruct (Z.compare_spec (Z.pos m2) 10726932); try done. lia.
Qed.

(** ** Properties *)

(** A two-octet float is read and written without loss: for every pattern
    but the invalid marker [7FFF], the value it is read as is in the range of the
    encoder, and the pattern it is written as stands for the same count of
    hundredths, although the value goes through three roundings of [f32] and
    [f64] on its way. *)
Theorem float16_reads_back hi lo (Hhi : is_u8 hi) (Hlo : is_u8 lo) (Hvalid : u16_of hi lo <> 32767) :
  exists hi' lo', encode_float16 (decode_float16 hi lo) = Some [hi'; lo'] /\ u16_of hi' lo' <> 32767 /\
  float16_count (u16_of hi' lo') = float16_count (u16_of hi lo) /\ decode_float16 hi' lo' = decode_float16 hi lo.
Proof.
  destruct (pattern_parts (u16_of hi lo)) as (e & m & He & Hm & Ep & Ec); [by apply u16_of_ok|].
  assert (Goal_raw : exists e' m', encode_float16 (decode_float16 hi lo) = Some (be_bytes 2 (float16_pattern e' m')) /\
    0 <= e' < 16 /\ -2048 <= m' <= 2047 /\ m' * 2 ^ e' = m * 2 ^ e /\ float16_pattern e' m' <> 32767).
  2: { destruct Goal_raw as (e' & m' & Ee & He' & Hm' & Ev & Hn). destruct (pattern_count e' m' He' Hm') as [Hr Hc].
       destruct (be_bytes_2_u16 _ Hr) as (h & l & Eb & _ & _ & Eu). exists h, l. rewrite Ee, Eb, Eu. split; [done|]. split; [done|].
       assert (E : float16_count (float16_pattern e' m') = float16_count (u16_of hi lo)) by (rewrite Hc, Ec; exact Ev).
       split; [exact E|]. unfold decode_float16. by rewrite Eu, E. }
  destruct (Z.eq_dec m 0) as [->|H0].
  { exists 0, 0. unfold decode_float16. rewrite Ec. cbn [Z.mul]. split; [vm_compute; reflexivity|]. split; [lia|]. split; [lia|]. split; [lia|done]. }
  destruct (count_normal e m He Hm H0) as (s & a & M & j & En & Ha & HM & Hj & EM & Hpos & Hfirst & Htop).
  destruct (scaled_at s M j HM) as (m2 & e2 & p & q & Hs); [lia|].
  pose proof (decode_scaled _ s a M j m2 e2 p q En HM Hj Ha EM Hs) as Ed.
  destruct (find_exponent_exact s M j m2 e2 p q a m e Hs ltac:(lia) Hj Ha EM He (eq_sym En) Hm 16 0 a eq_refl ltac:(lia) ltac:(lia))
    as (e' & m' & Ef & He' & Hm' & Ev).
  assert (Hsame : m' * 2 ^ e' = m * 2 ^ e) by congruence.
  assert (Hrange : f32_between FLOAT16_MIN FLOAT16_MAX (S754_finite s m2 (e2 + j)) = true).
  { apply (value_in_range s M j m2 e2 p q Hs Hj Hpos Hfirst). intros Es Ej EM7. destruct (Htop Ej EM7) as [-> Hm7].
    apply Hvalid. rewrite Ep. assert (m = 2047) as -> by (subst s; cbn in En; nia). reflexivity. }
  assert (Hnot : float16_pattern e' m' <> 32767).
  { intros E7. rewrite pattern_value in E7 by done. assert (e' = 15 /\ m' = 2047) as [-> ->] by (destruct (Z.ltb_spec m' 0); lia).
    apply Hvalid. rewrite Ep. assert (e = 15) as ->.
    { assert (He15 : e = 15 \/ e <= 14) by lia. destruct He15 as [|Hle]; [done|].
      pose proof (Z.pow_le_mono_r 2 e 14 ltac:(lia) Hle). cbn in Hsame. nia. }
    assert (m = 2047) as -> by (cbn in Hsame; lia). reflexivity. }
  exists e', m'. split; [|split; [done|split; [done|split; [done|done]]]].
  unfold encode_float16, decode_float16. rewrite Ec, Ed. cbn [is_finite negb orb]. rewrite Hrange. cbn [negb].
  unfold encode_float16_raw. assert (Hfin : is_finite (f64_of_f32 (S754_finite s m2 (e2 + j))) = true).
  { pose proof (sc_times _ _ _ _ _ _ _ Hs) as Ht. destruct (f64_of_f32 _); try done; by destruct s0. }
  rewrite Hfin. cbn [negb]. rewrite hundred_eq, (sc_times _ _ _ _ _ _ _ Hs), Ef. cbn [mbind option_bind].
  change (let '(sign, bits) := if m' <? 0 then (32768, m' + 2048) else (0, m') in _) with (Some (float16_pattern e' m') : option Z) || idtac.
  unfold float16_pattern in Hnot |- *. destruct (m' <? 0); cbn [mbind option_bind] in Hnot |- *; by rewrite (proj2 (Z.eqb_neq _ _) Hnot).
Qed.

(** ** Examples *)

Lemma float16_reads_back_witness :
  exists hi' lo', encode_float16 (decode_float16 12 53) = Some [hi'; lo'] /\ u16_of hi' lo' <> 32767 /\
  float16_count (u16_of hi' lo') = float16_count (u16_of 12 53) /\ decode_float16 hi' lo' = decode_float16 12 53.
Proof. apply (float16_reads_back 12 53); [unfold is_u8; lia..|done]. Defined.

(** 21.54 degrees, the coldest value, and a value that has no smaller exponent. *)
Example float16_examples :
  decode_float16 12 53 = of_decimal F32 false 2154 (-2) /\ encode_float16 (of_decimal F32 false 2154 (-2)) = Some [12; 53] /\
  encode_float16 (f32_of_int (-671089)) = None /\ encode_float16 (of_decimal F32 true 27315 (-2)) = Some [161; 85].
Proof. vm_compute. repeat split. Qed.
