(* ===== verification/Datapoint.v ===== *)
(** * Datapoint values ([bussard-model/src/codec.rs], [dpt.rs])

    The value a group telegram's payload stands for under a datapoint type, the
    payload of a value, and what a conforming receiver objects to in a payload.
    The texts of errors are left out; the findings of [validity_problems] are
    kept as the data their texts are made of. *)

From Stdlib Require Import String SpecFloat.
From S2P Require Import Prelude Decimal TextCodec Float64 DptTables FloatArith Float16.

Local Open Scope string_scope.
Local Open Scope list_scope.
Local Open Scope Z_scope.

(** ** Types *)

Inductive ApduSize : Type := ApduBits (n : u8) | ApduBytes (n : u8).

Record Dpt : Type := MkDpt { dpt_main : u16; dpt_sub : option u16 }.

Definition Dpt_expected_size (dpt : Dpt) : option ApduSize :=
  match dpt_main dpt with
  | 1 => Some (ApduBits 1)
  | 2 | 23 => Some (ApduBits 2)
  | 31 => Some (ApduBits 3)
  | 3 => Some (ApduBits 4)
  | 4 | 5 | 6 | 17 | 18 | 20 | 21 | 25 | 26 | 236 | 238 => Some (ApduBytes 1)
  | 7 | 8 | 9 | 22 | 200 | 201 | 202 | 204 | 207 | 211 | 217 | 234 | 237 | 239 | 244 | 246 => Some (ApduBytes 2)
  | 10 | 11 | 30 | 203 | 205 | 206 | 209 | 223 | 225 | 232 | 240 | 250 | 254 => Some (ApduBytes 3)
  | 12 | 13 | 14 | 15 | 27 | 210 | 214 | 220 | 231 | 241 | 253 | 276 => Some (ApduBytes 4)
  | 215 | 216 | 218 | 248 | 252 => Some (ApduBytes 5)
  | 212 | 219 | 221 | 222 | 224 | 229 | 235 | 242 | 245 | 249 | 251 | 274 => Some (ApduBytes 6)
  | 271 | 272 => Some (ApduBytes 7)
  | 19 | 29 | 213 | 230 | 243 | 255 | 273 => Some (ApduBytes 8)
  | 265 | 268 => Some (ApduBytes 9)
  | 247 | 257 | 266 => Some (ApduBytes 12)
  | 16 | 269 => Some (ApduBytes 14)
  | 256 => Some (ApduBytes 16)
  | 270 => Some (ApduBytes 20)
  | _ => None
  end.

Definition Dpt_is_packable (dpt : Dpt) : bool := match Dpt_expected_size dpt with Some (ApduBits _) => true | _ => false end.

(** [Dpt]'s [Display]: the sub number with three digits. *)
Definition Dpt_text (dpt : Dpt) : text :=
  to_text (dpt_main dpt) ++
  match dpt_sub dpt with
  | Some sub => chars "." ++ (if sub <? 10 then chars "00" else if sub <? 100 then chars "0" else []) ++ to_text sub
  | None => []
  end.

(** ** Values *)

Record DateTime : Type := MkDateTime {
  dt_year : u16;
  dt_month : u8;
  dt_day : u8;
  dt_weekday : u8;
  dt_hour : u8;
  dt_minute : u8;
  dt_second : u8;
  dt_fault : bool;
  dt_working_day : bool;
  dt_no_working_day : bool;
  dt_no_year : bool;
  dt_no_date : bool;
  dt_no_weekday : bool;
  dt_no_time : bool;
  dt_summer_time : bool;
  dt_quality : bool;
  dt_sync_source : bool }.

Record Rgbw : Type := MkRgbw {
  rgbw_r : u8; rgbw_g : u8; rgbw_b : u8; rgbw_w : u8;
  rgbw_r_valid : bool; rgbw_g_valid : bool; rgbw_b_valid : bool; rgbw_w_valid : bool }.

Inductive HvacMode : Type := HvacAuto | HvacComfort | HvacStandby | HvacEconomy | HvacBuildingProtection | HvacUnknown (code : u8).

Inductive TypedValue : Type :=
| VBool (value : bool) (l : label)
| VControl (control value : bool) (l : label)
| VPercent (p : f32)
| VUnsigned (value : u32) (unit : option label)
| VSigned (value : Z) (unit : option label)
| VFloat (value : f32) (unit : option label)
| VScaled (count : Z) (decimals : u8) (unit : label)
| VStep (direction : label) (step : u8)
| VTime (weekday hour minute second : u8)
| VDate (day month : u8) (year : u16)
| VDateTime (dt : DateTime)
| VText (t : text)
| VScene (n : u8)
| VSceneControl (learn : bool) (scene : u8)
| VHvacMode (mode : HvacMode)
| VEnum (code : u8) (l : option label)
| VFlags (bits : u16) (names : list label)
| VRgb (r g b : u8)
| VRgbw (c : Rgbw)
| VColourXyY (x y : u16) (brightness : u8) (colour_valid brightness_valid : bool)
| VFields (fields : list (label * text))
| VRaw (payload : bytes).

Inductive EncodeError : Type := EncodeMismatch | EncodeOutOfRange | EncodeUnsupported.

(** ** Parts of values *)

(** The size of a step in percent, as it is printed. *)
Definition step_percent (code : u8) : option label :=
  match code with
  | 1 => Some "100" | 2 => Some "50" | 3 => Some "25" | 4 => Some "12.5" | 5 => Some "6.25" | 6 => Some "3.125"
  | 7 => Some "1.5625" | _ => None
  end.

Definition step_labels (sub : option u16) : label * label :=
  match sub with Some 8 => ("Up", "Down") | _ => ("Decrease", "Increase") end.

(** The last [n] digits of a number, padded with zeros. *)
Fixpoint padded_digits (n : nat) (v : Z) : text :=
  match n with O => [] | S n => padded_digits n (v / 10) ++ [48 + v mod 10] end.

Definition format_fixed (count : Z) (decimals : u8) : text :=
  let sign := if count <? 0 then chars "-" else [] in
  let abs := Z.abs count in
  if decimals =? 0 then sign ++ to_text abs
  else
    let div := 10 ^ decimals in
    sign ++ to_text (abs / div) ++ chars "." ++ padded_digits (Z.to_nat decimals) (abs mod div).

Record Scaling : Type := MkScaling { sc_decimals : u8; sc_unit : label; sc_invalid : option Z }.

Definition scaling (dpt : Dpt) : option Scaling :=
  sub ← dpt_sub dpt;
  match dpt_main dpt, sub with
  | 7, 3 | 8, 3 => Some (MkScaling 2 "s" None)
  | 7, 4 | 8, 4 => Some (MkScaling 1 "s" None)
  | 8, 10 => Some (MkScaling 2 "%" (Some 32767))
  | 13, 2 => Some (MkScaling 4 "m³/h" None)
  | _, _ => None
  end.

Definition count_range (main : u16) : option (Z * Z) :=
  match main with
  | 7 => Some (0, 65535)
  | 8 => Some (-32768, 32767)
  | 13 => Some (-2147483648, 2147483647)
  | _ => None
  end.

Definition writable_range (main : u16) (sc : Scaling) : option (Z * Z) :=
  '(lo, hi) ← count_range main;
  Some (lo, if bool_decide (sc_invalid sc = Some hi) then hi - 1 else hi).

Definition flag_bit (b : Z) (mask : Z) : bool := negb (Z.land b mask =? 0).

Definition BIT_NAMES : list label :=
  ["b0"; "b1"; "b2"; "b3"; "b4"; "b5"; "b6"; "b7"; "b8"; "b9"; "b10"; "b11"; "b12"; "b13"; "b14"; "b15"].

Definition flag_names (main : u16) (sub : option u16) (bits : u16) : list label :=
  let table := s ← sub; flag_table main s in
  flat_map (fun bit =>
      let set := flag_bit bits (Z.shiftl 1 (Z.of_nat bit)) in
      if (main =? 22) && bool_decide (sub = Some 101) && (bit =? 8)%nat then [if set then "Heating" else "Cooling"]
      else if negb set then []
      else
        match table with
        | Some t => match nth_error t bit with Some n => if String.eqb n "" then [] else [n] | None => [] end
        | None => match nth_error BIT_NAMES bit with Some n => [n] | None => [] end
        end)
    (seq 0 (if main =? 22 then 16 else 8)).

Definition status_mode3_names (b : u8) : list label :=
  map (fun '(mask, (set, clear)) => if Z.land b mask =? 0 then set else clear)
    [(128, ("A set", "A clear")); (64, ("B set", "B clear")); (32, ("C set", "C clear")); (16, ("D set", "D clear"));
     (8, ("E set", "E clear"))] ++
  [match Z.land b 7 with 1 => "mode 0" | 2 => "mode 1" | 4 => "mode 2" | _ => "mode invalid" end].

Definition relative_step (b : u8) (valid : bool) : text :=
  if negb valid then chars "--"
  else
    match step_percent (Z.land b 7) with
    | Some pct => chars (if flag_bit b 8 then "Increase" else "Decrease") ++ chars " " ++ chars pct ++ chars " %"
    | None => chars "break"
    end.

(** [{v:.1}] of a float that is not negative. *)
Definition one_decimal (v : f64) : text :=
  match v with
  | S754_finite _ m e =>
      let n := round_magnitude_even (10 * m) e in to_text (n / 10) ++ chars "." ++ to_text (n mod 10)
  | _ => chars "0.0"
  end.

Definition as_i8 (b : Z) : Z := if b <? 128 then b else b - 256.
Definition as_i16 (v : Z) : Z := if v <? 32768 then v else v - 65536.
Definition as_i32 (v : Z) : Z := if v <? 2147483648 then v else v - 4294967296.

(** [str::from_utf8]; the fuel is the number of octets. *)
Fixpoint from_utf8 (fuel : nat) (l : bytes) : option text :=
  match fuel, l with
  | _, [] => Some []
  | O, _ => None
  | S fuel, b :: l =>
      if b <? 128 then option_map (cons b) (from_utf8 fuel l)
      else
        '(n, acc, lo, hi) ← utf8_lead b;
        let '(c, l) := utf8_rest n acc lo hi l in
        c ← c; option_map (cons c) (from_utf8 fuel l)
  end.

(** The octets up to the last that is not 0. *)
Definition trim_nuls (l : bytes) : bytes :=
  rev ((fix go (l : bytes) := match l with 0 :: l => go l | l => l end) (rev l)).

(** The octets before the first 0. *)
Fixpoint until_nul (l : bytes) : bytes := match l with [] => [] | b :: l => if b =? 0 then [] else b :: until_nul l end.

(** ** Reading a payload *)

Definition be_at (payload : bytes) (i n : nat) : option Z :=
  let part := take n (drop i payload) in
  if (length part =? n)%nat then Some (be_val part) else None.

Definition decode_datetime (p : bytes) : option DateTime :=
  match p with
  | b0 :: b1 :: b2 :: b3 :: b4 :: b5 :: flags :: quality :: _ =>
      Some (MkDateTime (1900 + b0) (Z.land b1 15) (Z.land b2 31) (Z.land (Z.shiftr b3 5) 7) (Z.land b3 31) (Z.land b4 63)
        (Z.land b5 63) (flag_bit flags 128) (flag_bit flags 64) (flag_bit flags 32) (flag_bit flags 16) (flag_bit flags 8)
        (flag_bit flags 4) (flag_bit flags 2) (flag_bit flags 1) (flag_bit quality 128) (flag_bit quality 64))
  | _ => None
  end.

Definition HvacMode_of_code (b : u8) : HvacMode :=
  match b with
  | 0 => HvacAuto | 1 => HvacComfort | 2 => HvacStandby | 3 => HvacEconomy | 4 => HvacBuildingProtection
  | other => HvacUnknown other
  end.

(** A [5.001] brightness as a percentage with one decimal. *)
Definition percent_text (b : u8) : text :=
  one_decimal (f64_div (f64_mul (f64_of_int b) (f64_of_int 100)) (f64_of_int 255)) ++ chars " %".

Definition decode_inner (dpt : Dpt) (payload : bytes) : option TypedValue :=
  let sub := dpt_sub dpt in
  match dpt_main dpt with
  | 1 =>
      b ← head payload;
      let value := flag_bit b 1 in
      let '(f, t) := bool_labels sub in
      Some (VBool value (if value then t else f))
  | 2 =>
      b ← head payload;
      let value := flag_bit b 1 in
      let '(f, t) := bool_labels sub in
      Some (VControl (flag_bit b 2) value (if value then t else f))
  | 3 =>
      b ← head payload;
      let b := Z.land b 15 in
      let '(zero, one) := step_labels sub in
      Some (VStep (if flag_bit b 8 then one else zero) (Z.land b 7))
  | 5 =>
      b ← head payload;
      match sub with
      | Some 1 => Some (VPercent (f32_div (f32_mul (f32_of_int b) (f32_of_int 100)) (f32_of_int 255)))
      | Some 3 =>
          Some (VFloat (f32_div (f32_round (f32_div (f32_mul (f32_of_int b) (f32_of_int 3600)) (f32_of_int 255))) (f32_of_int 10))
            (Some "°"))
      | _ => Some (VUnsigned b (int_unit 5 sub))
      end
  | 6 =>
      b ← head payload;
      if bool_decide (sub = Some 20) then Some (VFlags b (status_mode3_names b))
      else Some (VSigned (as_i8 b) (int_unit 6 sub))
  | 7 =>
      v ← be_at payload 0 2;
      match scaling dpt with
      | Some sc => Some (VScaled v (sc_decimals sc) (sc_unit sc))
      | None => Some (VUnsigned v (int_unit 7 sub))
      end
  | 8 =>
      v ← be_at payload 0 2;
      let v := as_i16 v in
      match scaling dpt with
      | Some sc => if bool_decide (sc_invalid sc = Some v) then None else Some (VScaled v (sc_decimals sc) (sc_unit sc))
      | None => Some (VSigned v (int_unit 8 sub))
      end
  | 9 =>
      match payload with
      | hi :: lo :: _ => if (hi =? 127) && (lo =? 255) then None else Some (VFloat (decode_float16 hi lo) (float16_unit sub))
      | _ => None
      end
  | 10 =>
      match payload with
      | b0 :: b1 :: b2 :: _ => Some (VTime (Z.land (Z.shiftr b0 5) 7) (Z.land b0 31) (Z.land b1 63) (Z.land b2 63))
      | _ => None
      end
  | 11 =>
      match payload with
      | b0 :: b1 :: b2 :: _ =>
          let yy := Z.land b2 127 in
          Some (VDate (Z.land b0 31) (Z.land b1 15) (if 90 <=? yy then 1900 + yy else 2000 + yy))
      | _ => None
      end
  | 12 => v ← be_at payload 0 4; Some (VUnsigned v (int_unit 12 sub))
  | 13 =>
      v ← be_at payload 0 4;
      let v := as_i32 v in
      match scaling dpt with
      | Some sc => Some (VScaled v (sc_decimals sc) (sc_unit sc))
      | None => Some (VSigned v (int_unit 13 sub))
      end
  | 14 => v ← be_at payload 0 4; Some (VFloat (f32_of_bits v) (float32_unit sub))
  | 16 => Some (VText (trim_nuls (take 14 payload)))
  | 28 => let t := until_nul payload in t ← from_utf8 (length t) t; Some (VText t)
  | 17 => b ← head payload; Some (VScene (Z.land b 63))
  | 18 => b ← head payload; Some (VSceneControl (flag_bit b 128) (Z.land b 63))
  | 20 =>
      b ← head payload;
      if bool_decide (sub = Some 102) then Some (VHvacMode (HvacMode_of_code b))
      else
        match (s ← sub; _ ← enum_table s; Some s) with
        | Some s => Some (VEnum b (enum_label s b))
        | None => Some (VUnsigned b None)
        end
  | 21 => b ← head payload; Some (VFlags b (flag_names 21 sub b))
  | 22 => bits ← be_at payload 0 2; Some (VFlags bits (flag_names 22 sub bits))
  | 19 => option_map VDateTime (decode_datetime payload)
  | 232 => match payload with r :: g :: b :: _ => Some (VRgb r g b) | _ => None end
  | 251 =>
      match payload with
      | r :: g :: b :: w :: _ :: valid :: _ =>
          Some (VRgbw (MkRgbw r g b w (flag_bit valid 8) (flag_bit valid 4) (flag_bit valid 2) (flag_bit valid 1)))
      | _ => None
      end
  | 242 =>
      x ← be_at payload 0 2; y ← be_at payload 2 2; brightness ← payload !! 4%nat; valid ← payload !! 5%nat;
      Some (VColourXyY x y brightness (flag_bit valid 2) (flag_bit valid 1))
  | 249 =>
      time ← be_at payload 0 2; kelvin ← be_at payload 2 2; brightness ← payload !! 4%nat; mask ← payload !! 5%nat;
      let field (bit : Z) (t : text) := if flag_bit mask bit then t else chars "--" in
      Some (VFields [("time", field 4 (format_fixed time 1 ++ chars " s"));
                     ("colour temperature", field 2 (to_text kelvin ++ chars " K"));
                     ("brightness", field 1 (percent_text brightness))])
  | 250 =>
      match payload with
      | ct :: br :: mask :: _ =>
          Some (VFields [("colour temperature", relative_step ct (flag_bit mask 2)); ("brightness", relative_step br (flag_bit mask 1))])
      | _ => None
      end
  | 252 =>
      match payload with
      | r :: g :: b :: w :: mask :: _ =>
          Some (VFields [("red", relative_step r (flag_bit mask 8)); ("green", relative_step g (flag_bit mask 4));
                         ("blue", relative_step b (flag_bit mask 2)); ("white", relative_step w (flag_bit mask 1))])
      | _ => None
      end
  | 254 =>
      match payload with
      | r :: g :: b :: _ =>
          Some (VFields [("red", relative_step r true); ("green", relative_step g true); ("blue", relative_step b true)])
      | _ => None
      end
  | _ => None
  end.

Definition decode (dpt : Dpt) (payload : bytes) : TypedValue := default (VRaw payload) (decode_inner dpt payload).

(** ** Writing a value *)

Definition UTF8_MAX_BYTES : nat := 200.

Definition bits_of (l : list bool) : Z := foldl (fun acc b => 2 * acc + Z.b2z b) 0 l.

Definition encode_datetime (dt : DateTime) : option bytes :=
  if negb ((1900 <=? dt_year dt) && (dt_year dt <=? 2155)) || (12 <? dt_month dt) || (31 <? dt_day dt) || (7 <? dt_weekday dt)
     || (24 <? dt_hour dt) || (59 <? dt_minute dt) || (59 <? dt_second dt)
     || ((dt_hour dt =? 24) && (negb (dt_minute dt =? 0) || negb (dt_second dt =? 0)))
  then None
  else
    Some [dt_year dt - 1900; Z.land (dt_month dt) 15; Z.land (dt_day dt) 31;
          Z.lor (Z.shiftl (Z.land (dt_weekday dt) 7) 5) (Z.land (dt_hour dt) 31); Z.land (dt_minute dt) 63; Z.land (dt_second dt) 63;
          bits_of [dt_fault dt; dt_working_day dt; dt_no_working_day dt; dt_no_year dt; dt_no_date dt; dt_no_weekday dt;
                   dt_no_time dt; dt_summer_time dt];
          bits_of [dt_quality dt; dt_sync_source dt; false; false; false; false; false; false]].

Definition HvacMode_code (mode : HvacMode) : u8 :=
  match mode with
  | HvacAuto => 0 | HvacComfort => 1 | HvacStandby => 2 | HvacEconomy => 3 | HvacBuildingProtection => 4 | HvacUnknown v => v
  end.

(** A text of 16.x: one octet a character. *)
Fixpoint text_octets (max : Z) (t : text) : option bytes :=
  match t with
  | [] => Some []
  | c :: t => if (c =? 0) || (max <? c) then None else option_map (cons c) (text_octets max t)
  end.

Definition encode_text (sub : option u16) (t : text) : result EncodeError bytes :=
  match text_octets (if bool_decide (sub = Some 0) then 127 else 255) t with
  | None => Err EncodeMismatch
  | Some out => if (14 <? length out)%nat then Err EncodeOutOfRange else Ok (out ++ replicate (14 - length out) 0)
  end.

(** The scaled sub-types take only their own count. *)
Definition encode_scaled (main : u16) (sc : Scaling) (lo hi : Z) (value : TypedValue) : result EncodeError bytes :=
  match value with
  | VScaled count decimals _ =>
      if negb (decimals =? sc_decimals sc) then Err EncodeMismatch
      else if negb ((lo <=? count) && (count <=? hi)) then Err EncodeOutOfRange
      else Ok (be_bytes (if (main =? 7) || (main =? 8) then 2 else 4) count)
  | _ => Err EncodeMismatch
  end.

Definition encode_main (dpt : Dpt) (value : TypedValue) : result EncodeError bytes :=
  match dpt_main dpt, value with
  | 1, VBool value _ => Ok [Z.b2z value]
  | 2, VControl control value _ => Ok [Z.lor (Z.shiftl (Z.b2z control) 1) (Z.b2z value)]
  | 3, VStep direction step =>
      let '(zero, one) := step_labels (dpt_sub dpt) in
      if negb (String.eqb direction one || String.eqb direction zero) then Err EncodeMismatch
      else if 7 <? step then Err EncodeOutOfRange
      else Ok [Z.lor (if String.eqb direction one then 8 else 0) step]
  | 5, _ =>
      match dpt_sub dpt, value with
      | Some 1, VPercent p =>
          if negb (f32_between (f32_of_int 0) (f32_of_int 100) p) then Err EncodeOutOfRange
          else Ok [round_as_u8 (f32_div (f32_mul p (f32_of_int 255)) (f32_of_int 100))]
      | Some 3, VFloat v _ =>
          if negb (f32_between (f32_of_int 0) (f32_of_int 360) v) then Err EncodeOutOfRange
          else Ok [round_as_u8 (f32_div (f32_mul v (f32_of_int 255)) (f32_of_int 360))]
      | Some 3, VUnsigned v _ =>
          if 360 <? v then Err EncodeOutOfRange
          else Ok [round_as_u8 (f32_div (f32_mul (f32_of_int v) (f32_of_int 255)) (f32_of_int 360))]
      | _, VUnsigned v _ => if v <=? 255 then Ok [v] else Err EncodeMismatch
      | _, _ => Err EncodeMismatch
      end
  | 6, VSigned v _ => if (-128 <=? v) && (v <=? 127) then Ok (be_bytes 1 v) else Err EncodeMismatch
  | 7, VUnsigned v _ => if v <=? 65535 then Ok (be_bytes 2 v) else Err EncodeMismatch
  | 8, VSigned v _ => if (-32768 <=? v) && (v <=? 32767) then Ok (be_bytes 2 v) else Err EncodeMismatch
  | 9, VFloat v _ => match encode_float16 v with Some b => Ok b | None => Err EncodeOutOfRange end
  | 12, VUnsigned v _ => Ok (be_bytes 4 v)
  | 13, VSigned v _ => if (-2147483648 <=? v) && (v <=? 2147483647) then Ok (be_bytes 4 v) else Err EncodeMismatch
  | 14, VFloat v _ => if is_finite v then Ok (be_bytes 4 (f32_to_bits v)) else Err EncodeOutOfRange
  | 17, VScene n => if n <=? 63 then Ok [Z.land n 63] else Err EncodeMismatch
  | 18, VSceneControl learn scene =>
      if scene <=? 63 then Ok [if learn then Z.lor (Z.land scene 63) 128 else Z.land scene 63] else Err EncodeMismatch
  | 20, VHvacMode mode => if bool_decide (dpt_sub dpt = Some 102) then Ok [HvacMode_code mode] else Err EncodeMismatch
  | 20, VEnum code _ => if bool_decide (dpt_sub dpt = Some 102) then Err EncodeMismatch else Ok [code]
  | 20, VUnsigned v _ =>
      if bool_decide (dpt_sub dpt = Some 102) then Err EncodeMismatch else if 255 <? v then Err EncodeOutOfRange else Ok [v]
  | 21, VFlags bits _ => if bits <=? 255 then Ok [bits] else Err EncodeOutOfRange
  | 22, VFlags bits _ => Ok (be_bytes 2 bits)
  | 10, VTime weekday hour minute second =>
      if (7 <? weekday) || (23 <? hour) || (59 <? minute) || (59 <? second) then Err EncodeOutOfRange
      else Ok [Z.lor (Z.shiftl weekday 5) hour; minute; second]
  | 11, VDate day month year =>
      if negb ((1990 <=? year) && (year <=? 2089)) || negb ((1 <=? month) && (month <=? 12)) || negb ((1 <=? day) && (day <=? 31))
      then Err EncodeOutOfRange
      else Ok [day; month; year mod 100]
  | 16, VText t => encode_text (dpt_sub dpt) t
  | 28, VText t =>
      if bool_decide (0 ∈ t) then Err EncodeMismatch
      else if (UTF8_MAX_BYTES <? length (utf8 t))%nat then Err EncodeOutOfRange
      else Ok (utf8 t ++ [0])
  | 19, VDateTime dt => match encode_datetime dt with Some b => Ok b | None => Err EncodeOutOfRange end
  | 232, VRgb r g b => Ok [r; g; b]
  | 251, VRgbw c =>
      Ok [rgbw_r c; rgbw_g c; rgbw_b c; rgbw_w c; 0; bits_of [rgbw_r_valid c; rgbw_g_valid c; rgbw_b_valid c; rgbw_w_valid c]]
  | (1 | 2 | 3 | 6 | 7 | 8 | 9 | 12 | 13 | 14 | 17 | 18 | 20 | 21 | 22 | 10 | 11 | 16 | 28 | 19 | 232 | 251), _ => Err EncodeMismatch
  | _, _ => Err EncodeUnsupported
  end.

Definition encode (dpt : Dpt) (value : TypedValue) : result EncodeError bytes :=
  match (sc ← scaling dpt; range ← writable_range (dpt_main dpt) sc; Some (sc, range)) with
  | Some (sc, (lo, hi)) => encode_scaled (dpt_main dpt) sc lo hi value
  | None => encode_main dpt value
  end.

(** ** What a conforming receiver objects to *)

Inductive Problem : Type :=
| ReservedBits (what : label) (bits : u8)
| OutsideRange (name : label) (value lo hi : u8)
| TariffReserved
| ModeNotOneHot (mode : u8)
| NotAscii (b : u8)
| CharacterAfterPadding
| NoTerminator
| HourTwentyFour
| CodeReserved (code : u8).

Definition reserved (what : label) (value mask : u8) : list Problem :=
  if Z.land value mask =? 0 then [] else [ReservedBits what (Z.land value mask)].

Definition range (name : label) (value lo hi : u8) : list Problem :=
  if (lo <=? value) && (value <=? hi) then [] else [OutsideRange name value lo hi].

Definition lor_all (l : bytes) : Z := foldl Z.lor 0 l.

(** The octets from the first 0 on. *)
Fixpoint from_nul (l : bytes) : bytes := match l with [] => [] | b :: l' => if b =? 0 then l else from_nul l' end.

Definition datetime_problems (p : bytes) : list Problem :=
  match p with
  | _ :: b1 :: b2 :: b3 :: b4 :: b5 :: flags :: quality :: _ =>
      let '(h, m, sec) := (Z.land b3 31, Z.land b4 63, Z.land b5 63) in
      reserved "the month octet" b1 240 ++ reserved "the day octet" b2 224 ++ reserved "the minutes octet" b4 192 ++
      reserved "the seconds octet" b5 192 ++ reserved "the quality octet" quality 63 ++
      (if Z.land flags 8 =? 0 then range "month" (Z.land b1 15) 1 12 ++ range "day" (Z.land b2 31) 1 31 else []) ++
      (if Z.land flags 2 =? 0 then
         range "hour" h 0 24 ++ range "minutes" m 0 59 ++ range "seconds" sec 0 59 ++
         (if (h =? 24) && (negb (m =? 0) || negb (sec =? 0)) then [HourTwentyFour] else [])
       else [])
  | _ => []
  end.

Definition validity_problems (dpt : Dpt) (payload : bytes) : list Problem :=
  match dpt_main dpt, dpt_sub dpt with
  | 5, Some 6 => match payload with b :: _ => if b =? 255 then [TariffReserved] else [] | [] => [] end
  | 6, Some 20 =>
      match payload with
      | b :: _ => match Z.land b 7 with 1 | 2 | 4 => [] | _ => [ModeNotOneHot (Z.land b 7)] end
      | [] => []
      end
  | 10, _ =>
      match payload with
      | b0 :: b1 :: b2 :: _ =>
          reserved "the minutes octet" b1 192 ++ reserved "the seconds octet" b2 192 ++ range "hour" (Z.land b0 31) 0 23 ++
          range "minutes" (Z.land b1 63) 0 59 ++ range "seconds" (Z.land b2 63) 0 59
      | _ => []
      end
  | 11, _ =>
      match payload with
      | b0 :: b1 :: b2 :: _ =>
          reserved "the day octet" b0 224 ++ reserved "the month octet" b1 240 ++ reserved "the year octet" b2 128 ++
          range "day" (Z.land b0 31) 1 31 ++ range "month" (Z.land b1 15) 1 12 ++ range "year" (Z.land b2 127) 0 99
      | _ => []
      end
  | 16, sub =>
      let t := take 14 payload in
      (if bool_decide (sub = Some 0) then match find (fun b => 127 <? b) t with Some b => [NotAscii b] | None => [] end else []) ++
      (if existsb (fun b => negb (b =? 0)) (from_nul t) then [CharacterAfterPadding] else [])
  | 28, _ => if existsb (Z.eqb 0) payload then [] else [NoTerminator]
  | 251, _ =>
      match payload with
      | _ :: _ :: _ :: _ :: b4 :: b5 :: _ => reserved "the reserved octet" b4 255 ++ reserved "the validity octet" b5 240
      | _ => []
      end
  | 242, _ => match payload with _ :: _ :: _ :: _ :: _ :: b5 :: _ => reserved "the validity octet" b5 252 | _ => [] end
  | 249, _ => match payload with _ :: _ :: _ :: _ :: _ :: b5 :: _ => reserved "the mask" b5 248 | _ => [] end
  | 250, _ =>
      match payload with
      | b0 :: b1 :: b2 :: _ => reserved "a step octet" (Z.lor b0 b1) 240 ++ reserved "the mask" b2 252
      | _ => []
      end
  | 252, _ =>
      match payload with
      | _ :: _ :: _ :: _ :: mask :: _ => reserved "a step octet" (lor_all (take 4 payload)) 240 ++ reserved "the mask" mask 240
      | _ => []
      end
  | 254, _ => if (3 <=? length payload)%nat then reserved "a step octet" (lor_all (take 3 payload)) 240 else []
  | 17, _ => match payload with b :: _ => reserved "the scene octet" b 192 | [] => [] end
  | 18, _ => match payload with b :: _ => reserved "the scene octet" b 64 | [] => [] end
  | 19, _ => datetime_problems payload
  | 20, Some sub =>
      match payload with
      | b :: _ => if bool_decide (is_Some (enum_table sub)) && bool_decide (enum_label sub b = None) then [CodeReserved b] else []
      | [] => []
      end
  | 21, Some sub => match payload with b :: _ => reserved "the bit set" b (flag_reserved_mask 21 sub mod 256) | [] => [] end
  | 22, Some sub =>
      match payload with
      | hi :: lo :: _ =>
          reserved "the high octet" hi (flag_reserved_mask 22 sub / 256) ++ reserved "the low octet" lo (flag_reserved_mask 22 sub mod 256)
      | _ => []
      end
  | _, _ => []
  end.

(** ** What the values range over *)

Definition value_ok (v : TypedValue) : Prop :=
  match v with
  | VBool _ _ | VControl _ _ _ | VColourXyY _ _ _ _ _ | VFields _ | VRaw _ => True
  | VPercent p => valid_binary 24 128 p = true
  | VFloat p _ => valid_binary 24 128 p = true
  | VUnsigned n _ => is_u32 n
  | VSigned _ _ => True
  | VScaled _ d _ => is_u8 d
  | VStep _ step => is_u8 step
  | VTime a b c d => is_u8 a /\ is_u8 b /\ is_u8 c /\ is_u8 d
  | VDate d m y => is_u8 d /\ is_u8 m /\ is_u16 y
  | VDateTime t => is_u16 (dt_year t) /\ is_u8 (dt_month t) /\ is_u8 (dt_day t) /\ is_u8 (dt_weekday t) /\ is_u8 (dt_hour t) /\
      is_u8 (dt_minute t) /\ is_u8 (dt_second t)
  | VText t => Forall is_char t
  | VScene n => is_u8 n
  | VSceneControl _ n => is_u8 n
  | VHvacMode (HvacUnknown n) => is_u8 n
  | VHvacMode _ => True
  | VEnum n _ => is_u8 n
  | VFlags n _ => is_u16 n
  | VRgb a b c => is_u8 a /\ is_u8 b /\ is_u8 c
  | VRgbw c => is_u8 (rgbw_r c) /\ is_u8 (rgbw_g c) /\ is_u8 (rgbw_b c) /\ is_u8 (rgbw_w c)
  end.
