(* ===== verification/DatapointSpec.v ===== *)
(** * What the datapoint codecs guarantee

    A value that is written is read back by the receiver ([shown]), a payload that
    conforms is written again as it was, and what is written conforms unless the
    caller chose a reserved code. *)

From Stdlib Require Import String SpecFloat.
From S2P Require Import Prelude Decimal TextCodec Float64 DptTables FloatArith Float16 Datapoint.

Local Open Scope string_scope.
Local Open Scope list_scope.
Local Open Scope Z_scope.

(** ** Lemmas: the ways a value is written *)

Definition SCALED : list (u16 * u16 * Scaling * Z * Z) :=
  [(7, 3, MkScaling 2 "s" None, 0, 65535); (7, 4, MkScaling 1 "s" None, 0, 65535);
   (8, 3, MkScaling 2 "s" None, -32768, 32767); (8, 4, MkScaling 1 "s" None, -32768, 32767);
   (8, 10, MkScaling 2 "%" (Some 32767), -32768, 32766); (13, 2, MkScaling 4 "m³/h" None, -2147483648, 2147483647)].

(** The ways [encode] succeeds. *)
Inductive EncodeView : Dpt -> TypedValue -> bytes -> Prop :=
| ViewScaled main sub sc lo hi n unit : In (main, sub, sc, lo, hi) SCALED -> lo <= n <= hi ->
    EncodeView (MkDpt main (Some sub)) (VScaled n (sc_decimals sc) unit) (be_bytes (if (main =? 7) || (main =? 8) then 2 else 4) n)
| ViewBool sub b l : EncodeView (MkDpt 1 sub) (VBool b l) [Z.b2z b]
| ViewControl sub c b l : EncodeView (MkDpt 2 sub) (VControl c b l) [Z.lor (Z.shiftl (Z.b2z c) 1) (Z.b2z b)]
| ViewStep sub up step : step <= 7 ->
    EncodeView (MkDpt 3 sub) (VStep (if up : bool then snd (step_labels sub) else fst (step_labels sub)) step)
      [Z.lor (if up then 8 else 0) step]
| ViewPercent p : f32_between (f32_of_int 0) (f32_of_int 100) p = true ->
    EncodeView (MkDpt 5 (Some 1)) (VPercent p) [round_as_u8 (f32_div (f32_mul p (f32_of_int 255)) (f32_of_int 100))]
| ViewAngle v u : f32_between (f32_of_int 0) (f32_of_int 360) v = true ->
    EncodeView (MkDpt 5 (Some 3)) (VFloat v u) [round_as_u8 (f32_div (f32_mul v (f32_of_int 255)) (f32_of_int 360))]
| ViewWholeAngle v u : v <= 360 ->
    EncodeView (MkDpt 5 (Some 3)) (VUnsigned v u) [round_as_u8 (f32_div (f32_mul (f32_of_int v) (f32_of_int 255)) (f32_of_int 360))]
| ViewU8 sub v u : sub <> Some 3 -> v <= 255 -> EncodeView (MkDpt 5 sub) (VUnsigned v u) [v]
| ViewI8 sub v u : -128 <= v <= 127 -> EncodeView (MkDpt 6 sub) (VSigned v u) (be_bytes 1 v)
| ViewU16 sub v u : scaling (MkDpt 7 sub) = None -> v <= 65535 -> EncodeView (MkDpt 7 sub) (VUnsigned v u) (be_bytes 2 v)
| ViewI16 sub v u : scaling (MkDpt 8 sub) = None -> -32768 <= v <= 32767 -> EncodeView (MkDpt 8 sub) (VSigned v u) (be_bytes 2 v)
| ViewF16 sub v u bs : encode_float16 v = Some bs -> EncodeView (MkDpt 9 sub) (VFloat v u) bs
| ViewTime sub d h m s : d <= 7 -> h <= 23 -> m <= 59 -> s <= 59 ->
    EncodeView (MkDpt 10 sub) (VTime d h m s) [Z.lor (Z.shiftl d 5) h; m; s]
| ViewDate sub d m y : 1990 <= y <= 2089 -> 1 <= m <= 12 -> 1 <= d <= 31 -> EncodeView (MkDpt 11 sub) (VDate d m y) [d; m; y mod 100]
| ViewU32 sub v u : EncodeView (MkDpt 12 sub) (VUnsigned v u) (be_bytes 4 v)
| ViewI32 sub v u : scaling (MkDpt 13 sub) = None -> -2147483648 <= v <= 2147483647 ->
    EncodeView (MkDpt 13 sub) (VSigned v u) (be_bytes 4 v)
| ViewF32 sub v u : is_finite v = true -> EncodeView (MkDpt 14 sub) (VFloat v u) (be_bytes 4 (f32_to_bits v))
| ViewText sub t bs : encode_text sub t = Ok bs -> EncodeView (MkDpt 16 sub) (VText t) bs
| ViewScene sub n : n <= 63 -> EncodeView (MkDpt 17 sub) (VScene n) [Z.land n 63]
| ViewSceneControl sub learn n : n <= 63 ->
    EncodeView (MkDpt 18 sub) (VSceneControl learn n) [if learn then Z.lor (Z.land n 63) 128 else Z.land n 63]
| ViewDateTime sub t bs : encode_datetime t = Some bs -> EncodeView (MkDpt 19 sub) (VDateTime t) bs
| ViewHvac mode : EncodeView (MkDpt 20 (Some 102)) (VHvacMode mode) [HvacMode_code mode]
| ViewEnum sub code l : sub <> Some 102 -> EncodeView (MkDpt 20 sub) (VEnum code l) [code]
| ViewCode sub v u : sub <> Some 102 -> v <= 255 -> EncodeView (MkDpt 20 sub) (VUnsigned v u) [v]
| ViewB8 sub bits l : bits <= 255 -> EncodeView (MkDpt 21 sub) (VFlags bits l) [bits]
| ViewB16 sub bits l : EncodeView (MkDpt 22 sub) (VFlags bits l) (be_bytes 2 bits)
| ViewUtf8 sub t : 0 ∉ t -> (length (utf8 t) <= UTF8_MAX_BYTES)%nat -> EncodeView (MkDpt 28 sub) (VText t) (utf8 t ++ [0])
| ViewRgb sub r g b : EncodeView (MkDpt 232 sub) (VRgb r g b) [r; g; b]
| ViewRgbw sub c : EncodeView (MkDpt 251 sub) (VRgbw c)
    [rgbw_r c; rgbw_g c; rgbw_b c; rgbw_w c; 0; bits_of [rgbw_r_valid c; rgbw_g_valid c; rgbw_b_valid c; rgbw_w_valid c]].

Definition SUPPORTED : list Z := [1; 2; 3; 5; 6; 7; 8; 9; 10; 11; 12; 13; 14; 16; 17; 18; 19; 20; 21; 22; 28; 232; 251].

Lemma encode_main_supported dpt v bs : encode_main dpt v = Ok bs -> dpt_main dpt ∈ SUPPORTED.
Proof.
  unfold encode_main. destruct (dpt_main dpt) as [|p|p]; [by destruct v| |by destruct v].
  do 8 (try (destruct p as [p|p|];
    try (intros _; apply (bool_decide_eq_true_1 _); reflexivity); try (by destruct v))).
Qed.

Lemma scaling_cases dpt sc : scaling dpt = Some sc -> exists main sub lo hi, dpt = MkDpt main (Some sub) /\
  In (main, sub, sc, lo, hi) SCALED /\ writable_range main sc = Some (lo, hi).
Proof.
  destruct dpt as [main [sub|]]; [|done]. unfold scaling. cbn [dpt_sub dpt_main mbind option_bind].
  intros H. exists main, sub.
  destruct main as [|m|m]; try done. do 4 (try (destruct m as [m|m|]; try done)); destruct sub as [|s|s]; try done; do 4 (try (destruct s as [s|s|]; try done));
    injection H as <-; eexists _, _; (split; [done|]; split; [|reflexivity]); cbn; tauto.
Qed.

Ltac split_leb E :=
  repeat match type of E with
  | context [?a <=? ?b] => destruct (Z.leb_spec a b); cbn [andb orb negb] in E; try discriminate E
  | context [?a <? ?b] => destruct (Z.ltb_spec a b); cbn [andb orb negb] in E; try discriminate E
  end.

Lemma encode_u8 sub v : sub <> Some 1 -> sub <> Some 3 ->
  encode_main (MkDpt 5 sub) v = match v with VUnsigned v _ => if v <=? 255 then Ok [v] else Err EncodeMismatch | _ => Err EncodeMismatch end.
Proof.
  intros H1 H3. unfold encode_main. cbn [dpt_main dpt_sub]. destruct sub as [[|p|p]|]; try (by destruct v).
  destruct p as [[p|p|]|p|]; try done; by destruct v.
Qed.

Lemma encode_five sub v bs : encode_main (MkDpt 5 sub) v = Ok bs -> EncodeView (MkDpt 5 sub) v bs.
Proof.
  intros E. destruct (decide (sub = Some 1)) as [->|H1]; [|destruct (decide (sub = Some 3)) as [->|H3]].
  - destruct v; try done; cbn in E.
    + destruct (f32_between _ _ _) eqn:Eb in E; [|done]. injection E as <-. by apply ViewPercent.
    + split_leb E. injection E as <-. by apply ViewU8.
  - destruct v; try done; cbn [encode_main dpt_main dpt_sub] in E.
    + split_leb E. injection E as <-. by apply ViewWholeAngle.
    + destruct (f32_between _ _ _) eqn:Eb in E; [|done]. injection E as <-. by apply ViewAngle.
  - rewrite encode_u8 in E by done. destruct v; try done. split_leb E. injection E as <-. by apply ViewU8.
Qed.

Lemma encode_twenty sub v bs : encode_main (MkDpt 20 sub) v = Ok bs -> EncodeView (MkDpt 20 sub) v bs.
Proof.
  intros E. destruct v; try done; cbn [encode_main dpt_main dpt_sub] in E; case_bool_decide; try done; subst.
  - split_leb E. injection E as <-. by apply ViewCode.
  - injection E as <-. apply ViewHvac.
  - injection E as <-. by apply ViewEnum.
Qed.

Lemma encode_step sub direction step bs : encode_main (MkDpt 3 sub) (VStep direction step) = Ok bs ->
  EncodeView (MkDpt 3 sub) (VStep direction step) bs.
Proof.
  cbn [encode_main dpt_main dpt_sub]. destruct (step_labels sub) as [zero one] eqn:El.
  destruct (String.eqb_spec direction one) as [->|]; [|destruct (String.eqb_spec direction zero) as [->|]; [|done]];
    cbn [orb negb]; intros E; split_leb E; injection E as <-.
  - replace one with (if true then snd (step_labels sub) else fst (step_labels sub)) by (by rewrite El). by apply (ViewStep sub true).
  - replace zero with (if false then snd (step_labels sub) else fst (step_labels sub)) by (by rewrite El). by apply (ViewStep sub false).
Qed.

(** [encode] succeeds in these ways only. *)
Lemma encode_view dpt v bs : encode dpt v = Ok bs -> EncodeView dpt v bs.
Proof.
  unfold encode. destruct (scaling dpt) as [sc|] eqn:Esc.
  { destruct (scaling_cases dpt sc Esc) as (main & sub & lo & hi & -> & Hin & Ew). cbn [mbind option_bind dpt_main]. rewrite Ew.
    cbn [mbind option_bind]. unfold encode_scaled. destruct v; try done.
    destruct (Z.eqb_spec decimals (sc_decimals sc)) as [->|]; [|done]. cbn [negb].
    destruct (Z.leb_spec lo count), (Z.leb_spec count hi); try done. intros [= <-]. by eapply ViewScaled. }
  cbn [mbind option_bind]. intros E. pose proof (encode_main_supported dpt v bs E) as Hm. destruct dpt as [main sub]. cbn [dpt_main] in Hm.
  apply list_elem_of_In in Hm. cbn in Hm.
  repeat destruct Hm as [<-|Hm]; try done; try (by apply encode_five); try (by apply encode_twenty); destruct v; try done;
    try (by apply encode_step); cbn [encode_main dpt_main dpt_sub] in E;
    try (split_leb E; injection E as <-; constructor; done || lia).
  - destruct (encode_float16 value) eqn:Ef; [|done]. injection E as <-. by constructor.
  - destruct (is_finite value) eqn:Ef; [|done]. injection E as <-. by constructor.
  - by constructor.
  - destruct (encode_datetime dt) eqn:Ef; [|done]. injection E as <-. by constructor.
  - case_bool_decide; [done|]. destruct (Nat.ltb_spec UTF8_MAX_BYTES (length (utf8 t))); [done|]. injection E as <-. by constructor.
Qed.

(** ** Lemmas: what is written conforms *)

(** The code a value has in a 20.xxx enumeration. *)
Definition value_code (v : TypedValue) : Z :=
  match v with VHvacMode m => HvacMode_code m | VEnum c _ => c | VUnsigned n _ => n | _ => 0 end.

(** The values that an encoder takes and a conforming receiver does not: a code
    the standard reserves, or a date without a month or a day. *)
Definition reserved_choice (dpt : Dpt) (v : TypedValue) : Prop :=
  match dpt_main dpt, dpt_sub dpt, v with
  | 5, Some 6, VUnsigned n _ => n = 255
  | 6, Some 20, _ => True
  | 19, _, VDateTime t => dt_no_date t = false /\ (dt_month t = 0 \/ dt_day t = 0)
  | 20, Some sub, _ => is_Some (enum_table sub) /\ enum_label sub (value_code v) = None
  | 21, Some sub, VFlags bits _ => Z.land bits (flag_reserved_mask 21 sub) <> 0
  | 22, Some sub, VFlags bits _ => Z.land bits (flag_reserved_mask 22 sub) <> 0
  | _, _, _ => False
  end.

#[export] Instance reserved_choice_dec dpt v : Decision (reserved_choice dpt v).
Proof. unfold reserved_choice. repeat case_match; apply _. Defined.

(** The payload has the size of the type. *)
Definition payload_fits (dpt : Dpt) (bs : bytes) : Prop :=
  bytes_ok bs /\
  match Dpt_expected_size dpt with
  | Some (ApduBits n) => exists b, bs = [b] /\ b < 2 ^ n
  | Some (ApduBytes n) => zlen bs = n
  | None => zlen bs <= 201
  end.

Lemma round_as_u8_ok v : is_u8 (round_as_u8 v).
Proof. unfold round_as_u8, is_u8. destruct v as [s|s| |s m e]; [|destruct s| |]; try lia. Qed.

Lemma reserved_none what value mask : Z.land value mask = 0 -> reserved what value mask = [].
Proof. intros H. unfold reserved. by rewrite H. Qed.

Lemma range_none name v lo hi : lo <= v <= hi -> range name v lo hi = [].
Proof. intros H. unfold range. by rewrite (proj2 (Z.leb_le _ _)), (proj2 (Z.leb_le _ _)) by lia. Qed.

(** A number below a power of two has no bit from there on. *)
Lemma land_high v mask k : 0 <= k -> 0 <= v < 2 ^ k -> mask mod 2 ^ k = 0 -> Z.land v mask = 0.
Proof.
  intros Hk Hv Hm. rewrite <- (Z.mod_small v (2 ^ k)) by done. rewrite <- Z.land_ones by done. rewrite <- Z.land_assoc.
  rewrite (Z.land_comm (Z.ones k)), Z.land_ones by done. by rewrite Hm, Z.land_0_r.
Qed.

Lemma land_small v k m : 0 <= k -> m = 2 ^ k - 1 -> 0 <= v < 2 ^ k -> Z.land v m = v.
Proof. intros Hk Hm Hv. rewrite (land_mask k) by done. by apply Z.mod_small. Qed.

Lemma text_octets_spec max t out : text_octets max t = Some out -> out = t /\ Forall (fun c => c <> 0 /\ c <= max) t.
Proof.
  revert out. induction t as [|c t IH]; intros out; cbn [text_octets]; [by intros [= <-]|].
  destruct (Z.eqb_spec c 0); [done|]. destruct (Z.ltb_spec max c); [done|]. cbn [orb].
  destruct (text_octets max t) as [o|]; [|done]. intros [= <-]. destruct (IH o eq_refl) as [-> Hf]. split; [done|]. by constructor.
Qed.

Lemma encode_text_spec sub t bs : encode_text sub t = Ok bs ->
  (length t <= 14)%nat /\ bs = t ++ replicate (14 - length t) 0 /\ Forall (fun c => c <> 0 /\ c <= (if bool_decide (sub = Some 0) then 127 else 255)) t.
Proof.
  unfold encode_text. destruct (text_octets _ t) as [out|] eqn:E; [|done]. destruct (text_octets_spec _ _ _ E) as [-> Hf].
  match goal with |- context [if ?b then Err _ else _] => destruct b eqn:El; [done|] end. apply Nat.ltb_ge in El. intros [= <-]. by split; [|split].
Qed.

Lemma from_nul_padded t n : Forall (fun c => c <> 0) t -> from_nul (t ++ replicate n 0) = replicate n 0.
Proof.
  induction 1 as [|c t Hc Ht IH]; [by destruct n|]. cbn [app from_nul]. destruct (Z.eqb_spec c 0); [done|]. done.
Qed.

Lemma no_octet_after_padding n : existsb (fun b => negb (b =? 0)) (replicate n 0) = false.
Proof. by induction n. Qed.

Lemma utf8_bytes t : Forall is_char t -> bytes_ok (utf8 t).
Proof.
  induction 1 as [|c t [Hc _] Ht IH]; [constructor|]. unfold utf8. cbn [flat_map]. apply Forall_app. split; [|exact IH].
  unfold utf8_char. repeat case_match; repeat apply Forall_cons_2; try apply Forall_nil_2; unfold is_u8;
    rewrite ?Z.ltb_lt, ?Z.ltb_ge in *; Z.to_euclidean_division_equations; lia.
Qed.

Lemma encode_datetime_spec t bs : encode_datetime t = Some bs ->
  1900 <= dt_year t <= 2155 /\ dt_month t <= 12 /\ dt_day t <= 31 /\ dt_weekday t <= 7 /\ dt_hour t <= 24 /\ dt_minute t <= 59 /\
  dt_second t <= 59 /\ (dt_hour t = 24 -> dt_minute t = 0 /\ dt_second t = 0).
Proof.
  unfold encode_datetime. destruct (_ || _) eqn:E; [done|]. intros _.
  rewrite !orb_false_iff, negb_false_iff, !andb_true_iff, !Z.leb_le, !Z.ltb_ge, andb_false_iff, Z.eqb_neq, orb_false_iff, !negb_false_iff, !Z.eqb_eq in E.
  lia.
Qed.

(** What is written has the size of the type. *)
Lemma written_fits dpt v bs : value_ok v -> EncodeView dpt v bs -> payload_fits dpt bs.
Proof.
  intros Hok View.
  assert (Hbe : forall main n v, Dpt_expected_size main = Some (ApduBytes (Z.of_nat n)) -> payload_fits main (be_bytes n v)).
  { intros main n w E. split; [apply be_bytes_ok|]. rewrite E. unfold zlen. by rewrite length_be_bytes. }
  assert (Hone : forall main b, is_u8 b -> Dpt_expected_size main = Some (ApduBytes 1) -> payload_fits main [b]).
  { intros main b Hb E. split; [by apply Forall_cons_2|]. by rewrite E. }
  assert (Hall : forall main bs n, bytes_ok bs -> zlen bs = n -> Dpt_expected_size main = Some (ApduBytes n) -> payload_fits main bs).
  { intros main b n Hb En E. split; [done|]. by rewrite E. }
  assert (Hsmall : forall b, 0 <= b <= 63 -> is_u8 (Z.land b 63)) by (intros b Hb; rewrite (land_small b 6) by lia; unfold is_u8; lia).
  destruct View; cbn [value_ok] in Hok; try (by apply (Hbe _ 2%nat)); try (by apply (Hbe _ 4%nat)); try (by apply (Hbe _ 1%nat));
    try (apply Hone; [apply round_as_u8_ok || (unfold is_u8, is_u16, is_u32 in *; lia)|done]).
  - cbn in H. repeat (destruct H as [[= <- <- <- <- <-]|H]; [by apply (Hbe _ 2%nat) || by apply (Hbe _ 4%nat)|]). done.
  - split; [apply Forall_cons_2; [by destruct b|constructor]|]. exists (Z.b2z b). split; [done|]. by destruct b.
  - split; [apply Forall_cons_2; [by destruct c, b|constructor]|]. eexists. split; [done|]. by destruct c, b.
  - unfold is_u8 in Hok. assert (Hs : forall s, 0 <= s < 8 -> 0 <= Z.lor (if up then 8 else 0) s < 16).
    { intros s Hs. destruct up; [|rewrite Z.lor_0_l; lia]. change 8 with (Z.shiftl 1 3). rewrite lor_shiftl_add by (cbn; lia). cbn. lia. }
    specialize (Hs step ltac:(lia)). split; [apply Forall_cons_2; [unfold is_u8; lia|constructor]|]. eexists. split; [done|]. cbn. lia.
  - unfold encode_float16 in H. destruct (_ || _); [done|]. destruct (encode_float16_raw _) as [raw|]; [|done]. cbn in H.
    destruct (raw =? 32767); [done|]. injection H as <-. by apply (Hbe _ 2%nat).
  - unfold is_u8 in Hok. apply (Hall _ _ 3); [|done|done].
    rewrite lor_shiftl_add by (cbn; lia). cbn. repeat apply Forall_cons_2; try apply Forall_nil_2; unfold is_u8; lia.
  - unfold is_u8, is_u16 in Hok. apply (Hall _ _ 3); [|done|done]. pose proof (Z.mod_pos_bound y 100 ltac:(lia)).
    repeat apply Forall_cons_2; try apply Forall_nil_2; unfold is_u8; lia.
  - destruct (encode_text_spec _ _ _ H) as (Hlen & -> & Hf). apply (Hall _ _ 14); [| |done].
    + apply Forall_app. split.
      * assert (Hboth := proj2 (Forall_and _ _) (conj Hok Hf)). eapply Forall_impl; [exact Hboth|].
        intros c [[Hc _] [_ Hm]]. unfold is_u8. case_bool_decide; lia.
      * apply Forall_replicate. unfold is_u8. lia.
    + unfold zlen. rewrite length_app, length_replicate. unfold text in *. lia.
  - apply Hone; [|done]. apply Hsmall. unfold is_u8 in Hok. lia.
  - apply Hone; [|done]. specialize (Hsmall n ltac:(unfold is_u8 in Hok; lia)). destruct learn; [|done].
    revert Hsmall. apply (u8_decide (fun x => is_u8 (Z.lor x 128))). vm_compute. reflexivity.
  - pose proof (encode_datetime_spec _ _ H) as Hr. unfold encode_datetime in H. destruct (_ || _); [done|]. injection H as <-.
    unfold is_u8, is_u16 in Hok. apply (Hall _ _ 8); [|done|done].
    rewrite (land_small (dt_month t) 4), (land_small (dt_day t) 5), (land_small (dt_weekday t) 3), (land_small (dt_hour t) 5),
      (land_small (dt_minute t) 6), (land_small (dt_second t) 6) by (cbn; lia).
    rewrite lor_shiftl_add by (cbn; lia).
    assert (Hb : forall a b c d e f g h, is_u8 (bits_of [a; b; c; d; e; f; g; h])) by (intros; repeat match goal with x : bool |- _ => destruct x end; done).
    repeat apply Forall_cons_2; try apply Forall_nil_2; try apply Hb; unfold is_u8; cbn; lia.
  - apply Hone; [|done]. destruct mode; cbn; unfold is_u8; try lia. exact Hok.
  - split.
    + apply Forall_app. split; [by apply utf8_bytes|]. by apply Forall_cons_2.
    + cbn. unfold zlen. rewrite length_app. cbn. unfold UTF8_MAX_BYTES in *. lia.
  - apply (Hall _ _ 3); [|done|done]. destruct Hok as (? & ? & ?). repeat apply Forall_cons_2; try apply Forall_nil_2; done.
  - apply (Hall _ _ 6); [|done|done]. destruct Hok as (? & ? & ? & ?). repeat apply Forall_cons_2; try apply Forall_nil_2; try done.
    by destruct (rgbw_r_valid c), (rgbw_g_valid c), (rgbw_b_valid c), (rgbw_w_valid c).
Qed.

(** The octets of a date and time. *)
Lemma encode_datetime_octets t bs : value_ok (VDateTime t) -> encode_datetime t = Some bs ->
  bs = [dt_year t - 1900; dt_month t; dt_day t; dt_weekday t * 32 + dt_hour t; dt_minute t; dt_second t;
        bits_of [dt_fault t; dt_working_day t; dt_no_working_day t; dt_no_year t; dt_no_date t; dt_no_weekday t; dt_no_time t; dt_summer_time t];
        bits_of [dt_quality t; dt_sync_source t; false; false; false; false; false; false]].
Proof.
  intros Hok H. pose proof (encode_datetime_spec _ _ H) as Hr. unfold encode_datetime in H. destruct (_ || _); [done|]. injection H as <-.
  cbn [value_ok] in Hok. unfold is_u8, is_u16 in Hok.
  rewrite (land_small (dt_month t) 4), (land_small (dt_day t) 5), (land_small (dt_weekday t) 3), (land_small (dt_hour t) 5),
    (land_small (dt_minute t) 6), (land_small (dt_second t) 6) by (cbn; lia).
  by rewrite lor_shiftl_add by (cbn; lia).
Qed.

(** The two parts of the octet with weekday and hour. *)
Lemma weekday_hour d h : 0 <= d < 8 -> 0 <= h < 32 -> Z.land (d * 32 + h) 31 = h /\ Z.land (Z.shiftr (d * 32 + h) 5) 7 = d.
Proof.
  intros Hd Hh. rewrite (land_mask 5), Z.add_comm, (Z.mod_add _ _ 32), Z.mod_small by (cbn; lia). split; [done|].
  rewrite Z.shiftr_div_pow2 by lia. change (2 ^ 5) with 32. rewrite Z.div_add, (Z.div_small h) by lia. cbn. rewrite (land_small d 3) by (cbn; lia). done.
Qed.

Lemma bits_of_8 a b c d e f g h : let w := bits_of [a; b; c; d; e; f; g; h] in
  flag_bit w 128 = a /\ flag_bit w 64 = b /\ flag_bit w 32 = c /\ flag_bit w 16 = d /\ flag_bit w 8 = e /\ flag_bit w 4 = f /\
  flag_bit w 2 = g /\ flag_bit w 1 = h.
Proof. destruct a, b, c, d, e, f, g, h; done. Qed.

Lemma datetime_conforms t bs : value_ok (VDateTime t) -> encode_datetime t = Some bs ->
  ~ (dt_no_date t = false /\ (dt_month t = 0 \/ dt_day t = 0)) -> datetime_problems bs = [].
Proof.
  intros Hok H Hno. pose proof (encode_datetime_spec _ _ H) as Hr. rewrite (encode_datetime_octets _ _ Hok H). clear H.
  cbn [value_ok] in Hok. unfold is_u8, is_u16 in Hok. unfold datetime_problems.
  destruct (weekday_hour (dt_weekday t) (dt_hour t) ltac:(lia) ltac:(lia)) as [-> _].
  rewrite !(land_small (dt_minute t) 6), !(land_small (dt_second t) 6) by (cbn; lia).
  rewrite (reserved_none _ (dt_month t)) by (apply (land_high _ _ 4); cbn; lia || done).
  rewrite (reserved_none _ (dt_day t)) by (apply (land_high _ _ 5); cbn; lia || done).
  rewrite (reserved_none _ (dt_minute t)), (reserved_none _ (dt_second t)) by (apply (land_high _ _ 6); cbn; lia || done).
  rewrite reserved_none by (by destruct (dt_quality t), (dt_sync_source t)). cbn [app].
  destruct (bits_of_8 (dt_fault t) (dt_working_day t) (dt_no_working_day t) (dt_no_year t) (dt_no_date t) (dt_no_weekday t) (dt_no_time t)
    (dt_summer_time t)) as (_ & _ & _ & _ & H8 & _ & H2 & _). unfold flag_bit in H8, H2. symmetry in H8, H2. apply negb_sym in H8, H2. rewrite H8, H2.
  rewrite (land_small (dt_month t) 4), (land_small (dt_day t) 5) by (cbn; lia).
  assert (E1 : (if negb (dt_no_date t) then range "month" (dt_month t) 1 12 ++ range "day" (dt_day t) 1 31 else []) = []).
  { destruct (dt_no_date t); [done|]. cbn [negb].
    assert (dt_month t <> 0 /\ dt_day t <> 0) as [? ?] by (split; intros H0; apply Hno; tauto). by rewrite !range_none by lia. }
  rewrite E1. cbn [app]. destruct (dt_no_time t); [done|]. cbn [negb]. rewrite !range_none by lia. cbn [app].
  destruct (Z.eqb_spec (dt_hour t) 24) as [E|]; [|done]. destruct (proj2 (proj2 (proj2 (proj2 (proj2 (proj2 (proj2 Hr)))))) E) as [-> ->]. done.
Qed.

(** What is written conforms unless a reserved code was chosen. *)
Lemma written_conforms dpt v bs : value_ok v -> EncodeView dpt v bs -> ~ reserved_choice dpt v -> validity_problems dpt bs = [].
Proof.
  intros Hok View Hno.
  assert (H63 : forall b m k, 0 <= b < 2 ^ k -> 0 <= k -> m mod 2 ^ k = 0 -> Z.land b m = 0) by (intros; by apply (land_high b m k)).
  assert (Hcode : forall sub b, (is_Some (enum_table sub) /\ enum_label sub b = None -> False) ->
    (if bool_decide (is_Some (enum_table sub)) && bool_decide (enum_label sub b = None) then [CodeReserved b] else []) = []).
  { intros sub b Hn. do 2 case_bool_decide; try done. exfalso. by apply Hn. }
  destruct View; cbn [value_ok] in Hok; unfold reserved_choice in Hno; cbn [dpt_main dpt_sub value_code] in Hno; unfold validity_problems; cbn [dpt_main dpt_sub]; try done.
  - cbn in H. by repeat (destruct H as [[= <- <- <- <- <-]|H]; [done|]).
  - destruct sub as [[|p|p]|]; try done. do 3 (try (destruct p as [p|p|]; try done)). by destruct (Z.eqb_spec v 255).
  - destruct sub as [[|p|p]|]; try done. by do 5 (try (destruct p as [p|p|]; try done)).
  - destruct Hok as (? & ? & ? & ?). unfold is_u8 in *.
    rewrite !reserved_none by (apply (H63 _ _ 6); cbn; lia || done).
    rewrite lor_shiftl_add by (cbn; lia).
    replace (Z.land (d * 2 ^ 5 + h) 31) with h; [|rewrite (land_mask 5), Z.add_comm, Z.mod_add, Z.mod_small by (cbn; lia); done].
    rewrite !(land_small _ 6) by (cbn; lia). by rewrite !range_none by lia.
  - destruct Hok as (? & ? & ?). unfold is_u8, is_u16 in *. pose proof (Z.mod_pos_bound y 100 ltac:(lia)).
    rewrite (reserved_none _ d) by (apply (H63 _ _ 5); cbn; lia || done). rewrite (reserved_none _ m) by (apply (H63 _ _ 4); cbn; lia || done).
    rewrite reserved_none by (apply (H63 _ _ 7); cbn; lia || done).
    rewrite (land_small d 5), (land_small m 4), (land_small _ 7) by (cbn; lia). by rewrite !range_none by lia.
  - destruct (encode_text_spec _ _ _ H) as (Hlen & -> & Hf). rewrite take_ge by (rewrite length_app, length_replicate; unfold text in *; lia).
    rewrite from_nul_padded by (eapply Forall_impl; [exact Hf|]; by intros c [? _]). rewrite no_octet_after_padding, app_nil_r.
    case_bool_decide; [|done]. destruct (find _ _) as [b|] eqn:Ef; [|done]. exfalso. apply find_some in Ef as [Hin Hb].
    apply Z.ltb_lt in Hb. apply in_app_or in Hin as [Hin|Hin].
    + rewrite Forall_forall in Hf. destruct (Hf b ltac:(by apply list_elem_of_In)). lia.
    + apply repeat_spec in Hin || (apply list_elem_of_In, elem_of_replicate in Hin as [-> _]). lia.
  - apply reserved_none. unfold is_u8 in Hok. rewrite (land_small n 6) by (cbn; lia). apply (H63 _ _ 6); cbn; lia || done.
  - apply reserved_none. unfold is_u8 in Hok. rewrite (land_small n 6) by (cbn; lia). destruct learn; [|apply (H63 _ _ 6); cbn; lia || done].
    rewrite Z.land_lor_distr_l. rewrite (H63 n 64 6) by (cbn; lia || done). done.
  - by apply (datetime_conforms t).
  - rewrite Hcode; [done|]. exact Hno.
  - destruct sub as [sub|]; [|done]. rewrite Hcode; [done|]. exact Hno.
  - destruct sub as [sub|]; [|done]. rewrite Hcode; [done|]. exact Hno.
  - destruct sub as [sub|]; [|done]. apply reserved_none. destruct (Z.eq_dec (Z.land bits (flag_reserved_mask 21 sub)) 0) as [E|]; [|done].
    rewrite <- (land_mask 8 255) by done. by rewrite Z.land_assoc, E.
  - destruct sub as [sub|]; [|done]. destruct (Z.eq_dec (Z.land bits (flag_reserved_mask 22 sub)) 0) as [E|]; [|done].
    unfold is_u16 in Hok. rewrite be_bytes_2 by done. rewrite !reserved_none; [done| |].
    + rewrite <- !(land_mask 8 255) by done. rewrite <- Z.land_assoc, (Z.land_comm 255), <- !Z.land_assoc, Z.land_assoc, E. done.
    + change 256 with (2 ^ 8). rewrite <- !Z.shiftr_div_pow2 by lia. by rewrite <- Z.shiftr_land, E.
  - rewrite existsb_app. cbn. by rewrite orb_true_r.
  - destruct c as [r g b w rv gv bv wv]. cbn. by destruct rv, gv, bv, wv.
Qed.

(** ** Lemmas: what is written is read back *)

Lemma from_utf8_text t : Forall is_char t -> forall fuel, (length (utf8 t) <= fuel)%nat -> from_utf8 fuel (utf8 t) = Some t.
Proof.
  induction 1 as [|c t Hc H IH]; intros fuel Hf; [by destruct fuel|]. unfold utf8 in *. cbn [flat_map] in *.
  rewrite length_app in Hf. pose proof (utf8_char_length c). destruct fuel as [|fuel]; [lia|].
  assert (Hrest : from_utf8 fuel (flat_map utf8_char t) = Some t) by (apply IH; lia).
  destruct (Z.lt_ge_cases c 128) as [Hlt|Hge].
  - unfold utf8_char at 1. rewrite (proj2 (Z.ltb_lt c 128)) by done. cbn [app from_utf8].
    rewrite (proj2 (Z.ltb_lt c 128)) by done. by rewrite Hrest.
  - destruct (utf8_sequence c (flat_map utf8_char t) Hc Hge) as (b & rest & n & acc & lo & hi & -> & Hb & El & Er).
    cbn [from_utf8]. rewrite (proj2 (Z.ltb_ge b 128)) by done. rewrite El. cbn [mbind option_bind]. rewrite Er. cbn. by rewrite Hrest.
Qed.

(** No octet of the text is 0. *)
Lemma until_nul_utf8 t : Forall is_char t -> 0 ∉ t -> until_nul (utf8 t ++ [0]) = utf8 t.
Proof.
  intros Hc H0. assert (Hn : Forall (fun b => b <> 0) (utf8 t)).
  { induction Hc as [|c t [Hc _] Ht IH]; [constructor|]. unfold utf8. cbn [flat_map]. apply Forall_app. split.
    - assert (c <> 0) by (intros ->; apply H0; by left). pose proof (Z.mod_pos_bound c 64 ltac:(lia)).
      pose proof (Z.mod_pos_bound (c / 64) 64 ltac:(lia)). pose proof (Z.mod_pos_bound (c / 4096) 64 ltac:(lia)).
      pose proof (Z.div_pos c 64 ltac:(lia) ltac:(lia)). pose proof (Z.div_pos c 4096 ltac:(lia) ltac:(lia)). pose proof (Z.div_pos c 262144 ltac:(lia) ltac:(lia)).
      unfold utf8_char. repeat case_match; repeat apply Forall_cons_2; try apply Forall_nil_2; lia.
    - apply IH. intros Hin. apply H0. by right. }
  induction Hn as [|b l Hb Hl IH]; [done|]. cbn [app until_nul]. destruct (Z.eqb_spec b 0); [done|]. by rewrite IH.
Qed.

Lemma trim_nuls_padded t n : Forall (fun c => c <> 0) t -> trim_nuls (t ++ replicate n 0) = t.
Proof.
  intros Ht. unfold trim_nuls. rewrite rev_app_distr. set (go := fix go (l : bytes) := match l with 0 :: l => go l | l => l end).
  assert (Hz : forall n l, go (rev (replicate n 0) ++ l) = go l).
  { intros k l. replace (rev (replicate k 0)) with (replicate k 0) by (induction k as [|k IH]; [done|]; cbn; rewrite <- IH; apply (replicate_cons_app k 0)).
    by induction k. }
  rewrite Hz. assert (Hg : go (rev t) = rev t).
  { destruct (rev t) as [|c l] eqn:E; [done|]. assert (c <> 0).
    { rewrite Forall_forall in Ht. apply Ht. apply list_elem_of_In, in_rev. rewrite E. by left. }
    by destruct c. }
  by rewrite Hg, rev_involutive.
Qed.

(** A finite float is its bits. *)
Lemma f32_of_bits_back v : valid_binary 24 128 v = true -> is_finite v = true -> f32_of_bits (f32_to_bits v) = v.
Proof.
  intros Hv Hf. destruct v as [s| | |s m e]; try done; [by destruct s|].
  cbn [valid_binary] in Hv. unfold bounded, canonical_mantissa in Hv. apply andb_true_iff in Hv as [Hc%Z.eqb_eq He%Z.leb_le].
  unfold fexp in Hc. change (SpecFloat.emin 24 128) with (-149) in Hc. pose proof (digits2_bounds m) as Hd.
  set (d := Z.pos (digits2_pos m)) in *. assert (0 < d) by (unfold d; lia).
  set (sg := if s then 1 else 0). assert (Hsg : 0 <= sg < 2 /\ (sg =? 1) = s) by (unfold sg; destruct s; split; done || lia).
  assert (Hparts : forall x f, 0 <= x < 256 -> 0 <= f < 8388608 -> let b := sg * 2147483648 + x * 8388608 + f in
    Z.testbit b 31 = s /\ Z.land (Z.shiftr b 23) 255 = x /\ Z.land b 8388607 = f).
  { intros x f Hx Hf'. cbv zeta. rewrite (land_mask 8 255), (land_mask 23 8388607), Z.shiftr_div_pow2 by done. change (2 ^ 23) with 8388608. change (2 ^ 8) with 256.
    split; [|split].
    - rewrite Z.testbit_eqb by lia. change (2 ^ 31) with 2147483648. rewrite <- Z.add_assoc, Z.div_add_l, Z.div_small, Z.mod_small by lia. rewrite Z.add_0_r. apply Hsg.
    - replace (sg * 2147483648 + x * 8388608 + f) with ((sg * 256 + x) * 8388608 + f) by lia.
      rewrite Z.div_add_l, (Z.div_small f), Z.add_0_r, Z.add_comm, Z.mod_add, Z.mod_small by lia. done.
    - replace (sg * 2147483648 + x * 8388608 + f) with (f + (sg * 256 + x) * 8388608) by lia. rewrite Z.mod_add, Z.mod_small by lia. done. }
  cbn [f32_to_bits]. replace (if s then 2147483648 else 0) with (sg * 2147483648) by (unfold sg; destruct s; lia).
  destruct (Z.ltb_spec (Z.pos m) 8388608) as [Hsub|Hnorm].
  - assert (d <= 23). { destruct (Z.le_gt_cases d 23); [done|]. pose proof (Z.pow_le_mono_r 2 23 (d - 1) ltac:(lia) ltac:(lia)). lia. }
    assert (e = -149) as -> by lia. destruct (Hparts 0 (Z.pos m)) as (H1 & H2 & H3); [lia|lia|].
    rewrite Z.mul_0_l, Z.add_0_r in H1, H2, H3. unfold f32_of_bits. by rewrite H1, H2, H3.
  - assert (d = 24).
    { assert (24 <= d). { destruct (Z.le_gt_cases 24 d); [done|]. pose proof (Z.pow_le_mono_r 2 d 23 ltac:(lia) ltac:(lia)). lia. } lia. }
    assert (Hm24 : Z.pos m < 16777216) by (change 16777216 with (2 ^ 24); rewrite <- H0; lia).
    destruct (Hparts (e + 150) (Z.pos m - 8388608)) as (H1 & H2 & H3); [lia|lia|].
    unfold f32_of_bits. rewrite <- !Z.add_assoc in *. rewrite H1, H2, H3.
    rewrite (proj2 (Z.eqb_neq _ _)), (proj2 (Z.eqb_neq _ _)) by lia. f_equal; lia.
Qed.

(** What a receiver shows for a value that was written: the same, with the
    labels and units of its type; none where the type rounds the value, or where
    another kind of value is read. *)
Definition shown (dpt : Dpt) (v : TypedValue) : option TypedValue :=
  let sub := dpt_sub dpt in
  match dpt_main dpt, v with
  | 1, VBool b _ => Some (VBool b (if b then snd (bool_labels sub) else fst (bool_labels sub)))
  | 2, VControl c b _ => Some (VControl c b (if b then snd (bool_labels sub) else fst (bool_labels sub)))
  | 5, VUnsigned n _ => if bool_decide (sub = Some 1) || bool_decide (sub = Some 3) then None else Some (VUnsigned n (int_unit 5 sub))
  | 6, VSigned n _ => if bool_decide (sub = Some 20) then None else Some (VSigned n (int_unit 6 sub))
  | (7 | 12), VUnsigned n _ => Some (VUnsigned n (int_unit (dpt_main dpt) sub))
  | (8 | 13), VSigned n _ => Some (VSigned n (int_unit (dpt_main dpt) sub))
  | (7 | 8 | 13), VScaled n d _ => option_map (fun sc => VScaled n d (sc_unit sc)) (scaling dpt)
  | 14, VFloat x _ => Some (VFloat x (float32_unit sub))
  | 20, VHvacMode m => Some (VHvacMode (HvacMode_of_code (HvacMode_code m)))
  | 20, (VEnum _ _ | VUnsigned _ _) =>
      Some (match s ← sub; _ ← enum_table s; Some s with
            | Some s => VEnum (value_code v) (enum_label s (value_code v))
            | None => VUnsigned (value_code v) None
            end)
  | (21 | 22), VFlags bits _ => Some (VFlags bits (flag_names (dpt_main dpt) sub bits))
  | (3 | 10 | 11 | 16 | 17 | 18 | 19 | 28 | 232 | 251), _ => Some v
  | _, _ => None
  end.

Lemma be_at_written n v : be_at (be_bytes n v) 0 n = Some (v mod 256 ^ Z.of_nat n).
Proof.
  unfold be_at. rewrite drop_0, take_ge by (by rewrite length_be_bytes). by rewrite length_be_bytes, Nat.eqb_refl, be_val_be_bytes.
Qed.

Lemma signed_back b v : 0 < b -> - b <= v < b -> (let w := v mod (2 * b) in if w <? b then w else w - 2 * b) = v.
Proof.
  intros Hb Hv. cbv zeta. destruct (Z.lt_ge_cases v 0).
  - replace (v mod (2 * b)) with (v + 2 * b) by (apply Z.mod_unique with (-1); lia). destruct (Z.ltb_spec (v + 2 * b) b); lia.
  - rewrite Z.mod_small by lia. destruct (Z.ltb_spec v b); lia.
Qed.

Lemma as_i8_back v : -128 <= v < 128 -> as_i8 (v mod 256) = v.
Proof. intros H. exact (signed_back 128 v ltac:(lia) ltac:(lia)). Qed.

Lemma as_i16_back v : -32768 <= v < 32768 -> as_i16 (v mod 65536) = v.
Proof. intros H. exact (signed_back 32768 v ltac:(lia) ltac:(lia)). Qed.

Lemma as_i32_back v : -2147483648 <= v < 2147483648 -> as_i32 (v mod 4294967296) = v.
Proof. intros H. exact (signed_back 2147483648 v ltac:(lia) ltac:(lia)). Qed.

Lemma be_at_2 v : be_at (be_bytes 2 v) 0 2 = Some (v mod 65536).
Proof. apply be_at_written. Qed.

Lemma be_at_4 v : be_at (be_bytes 4 v) 0 4 = Some (v mod 4294967296).
Proof. apply be_at_written. Qed.

Lemma f32_bits_range v : valid_binary 24 128 v = true -> is_finite v = true -> 0 <= f32_to_bits v < 4294967296.
Proof.
  intros Hv Hf. destruct v as [s| | |s m e]; try done; [by destruct s|]. cbn [valid_binary] in Hv. unfold bounded, canonical_mantissa in Hv.
  apply andb_true_iff in Hv as [Hc%Z.eqb_eq He%Z.leb_le]. unfold fexp in Hc. change (SpecFloat.emin 24 128) with (-149) in Hc.
  pose proof (digits2_bounds m) as Hd. set (d := Z.pos (digits2_pos m)) in *.
  assert (d <= 24) by lia. pose proof (Z.pow_le_mono_r 2 d 24 ltac:(lia) ltac:(lia)). cbn in H0.
  cbn [f32_to_bits]. destruct (Z.ltb_spec (Z.pos m) 8388608); destruct s; lia.
Qed.

Lemma read_back dpt v v' bs : value_ok v -> EncodeView dpt v bs -> shown dpt v = Some v' -> decode_inner dpt bs = Some v'.
Proof.
  intros Hok View Hs. destruct View; cbn [value_ok] in Hok; unfold shown in Hs; cbn [dpt_main dpt_sub value_code] in Hs; try done;
    unfold decode_inner; cbn [dpt_main dpt_sub head mbind option_bind].
  - cbn in H. repeat (destruct H as [[= <- <- <- <- <-]|H]; [cbn in Hs; injection Hs as <-; cbn [Z.eqb Pos.eqb orb];
      rewrite ?be_at_2, ?be_at_4; cbn [mbind option_bind]|]); [..|done].
    1, 2: by rewrite Z.mod_small by lia.
    1, 2: by rewrite as_i16_back by lia.
    + rewrite as_i16_back by lia. cbn. case_bool_decide as Hn; [injection Hn; lia|done].
    + by rewrite as_i32_back by lia.
  - injection Hs as <-. destruct (bool_labels sub). by destruct b.
  - injection Hs as <-. destruct (bool_labels sub). by destruct c, b.
  - injection Hs as <-. unfold is_u8 in Hok. destruct (step_labels sub) as [zero one].
    assert (Hb : Z.lor (if up then 8 else 0) step = (if up then 1 else 0) * 8 + step).
    { destruct up; [|done]. change 8 with (Z.shiftl 1 3) at 1. rewrite lor_shiftl_add by (cbn; lia). done. }
    rewrite Hb. rewrite (land_small _ 4) by (destruct up; cbn; lia).
    assert (Hcases : forall u, 0 <= u <= 7 -> flag_bit ((if up then 1 else 0) * 8 + u) 8 = up /\ Z.land ((if up then 1 else 0) * 8 + u) 7 = u).
    { intros u Hu. assert (u = 0 \/ u = 1 \/ u = 2 \/ u = 3 \/ u = 4 \/ u = 5 \/ u = 6 \/ u = 7) by lia.
      destruct up; repeat (destruct H0 as [-> |H0]; [done|]); by subst. }
    destruct (Hcases step ltac:(lia)) as [-> ->]. by destruct up.
  - repeat case_bool_decide; try done. injection Hs as <-. destruct sub as [[|p|p]|]; try done. destruct p as [[p|p|]|p|]; done.
  - case_bool_decide; [done|]. injection Hs as <-. change (be_bytes 1 v) with [(v / 1) mod 256]. cbn [head mbind option_bind].
    rewrite Z.div_1_r, as_i8_back by lia. done.
  - injection Hs as <-. rewrite be_at_2. cbn [mbind option_bind]. rewrite H. unfold is_u32 in Hok. by rewrite Z.mod_small by lia.
  - injection Hs as <-. rewrite be_at_2. cbn [mbind option_bind]. rewrite H. by rewrite as_i16_back by lia.
  - injection Hs as <-. destruct Hok as (? & ? & ? & ?). unfold is_u8 in *. rewrite lor_shiftl_add by (cbn; lia). change (2 ^ 5) with 32.
    destruct (weekday_hour d h ltac:(lia) ltac:(lia)) as [-> ->]. by rewrite !(land_small _ 6) by (cbn; lia).
  - injection Hs as <-. destruct Hok as (? & ? & ?). unfold is_u8, is_u16 in *. rewrite (land_small d 5), (land_small m 4) by (cbn; lia).
    pose proof (Z.mod_pos_bound y 100 ltac:(lia)). rewrite (land_small _ 7) by (cbn; lia). do 2 f_equal.
    pose proof (Z.div_mod y 100 ltac:(lia)). destruct (Z.leb_spec 90 (y mod 100)); nia.
  - injection Hs as <-. rewrite be_at_4. cbn [mbind option_bind]. unfold is_u32 in Hok. by rewrite Z.mod_small by lia.
  - injection Hs as <-. rewrite be_at_4. cbn [mbind option_bind]. rewrite H. by rewrite as_i32_back by lia.
  - injection Hs as <-. rewrite be_at_4. cbn [mbind option_bind]. rewrite Z.mod_small by (by apply f32_bits_range). by rewrite f32_of_bits_back.
  - injection Hs as <-. destruct (encode_text_spec _ _ _ H) as (Hlen & -> & Hf). rewrite take_ge by (rewrite length_app, length_replicate; unfold text in *; lia).
    rewrite trim_nuls_padded; [done|]. eapply Forall_impl; [exact Hf|]; by intros c [? _].
  - injection Hs as <-. unfold is_u8 in Hok. by rewrite !(land_small n 6) by (cbn; lia).
  - injection Hs as <-. unfold is_u8 in Hok. rewrite (land_small n 6) by (cbn; lia).
    assert (Hn : flag_bit n 128 = false /\ Z.land n 63 = n /\ flag_bit (Z.lor n 128) 128 = true /\ Z.land (Z.lor n 128) 63 = n).
    { assert (Hb : 0 <= n < Z.of_nat 64) by lia. revert Hb. generalize n.
      apply (below_decide 64 (fun n => flag_bit n 128 = false /\ Z.land n 63 = n /\ flag_bit (Z.lor n 128) 128 = true /\ Z.land (Z.lor n 128) 63 = n)).
      vm_compute. reflexivity. }
    destruct Hn as (H1 & H2 & H3 & H4). destruct learn; [by rewrite H3, H4|by rewrite H1, H2].
  - injection Hs as <-. rewrite (encode_datetime_octets _ _ Hok H). pose proof (encode_datetime_spec _ _ H) as Hr. unfold decode_datetime, is_u8, is_u16 in *.
    destruct (bits_of_8 (dt_fault t) (dt_working_day t) (dt_no_working_day t) (dt_no_year t) (dt_no_date t) (dt_no_weekday t) (dt_no_time t)
      (dt_summer_time t)) as (-> & -> & -> & -> & -> & -> & -> & ->).
    destruct (bits_of_8 (dt_quality t) (dt_sync_source t) false false false false false false) as (-> & -> & _).
    destruct (weekday_hour (dt_weekday t) (dt_hour t) ltac:(lia) ltac:(lia)) as [-> ->].
    rewrite (land_small (dt_month t) 4), (land_small (dt_day t) 5), (land_small (dt_minute t) 6), (land_small (dt_second t) 6) by (cbn; lia).
    replace (1900 + (dt_year t - 1900)) with (dt_year t) by lia. by destruct t.
  - injection Hs as <-. rewrite bool_decide_false by done. by destruct (s ← sub; _ ← enum_table s; Some s).
  - injection Hs as <-. rewrite bool_decide_false by done. by destruct (s ← sub; _ ← enum_table s; Some s).
  - injection Hs as <-. rewrite be_at_2. cbn [mbind option_bind]. unfold is_u16 in Hok. by rewrite Z.mod_small by lia.
  - injection Hs as <-. rewrite until_nul_utf8 by done. by rewrite from_utf8_text.
  - injection Hs as <-. destruct c as [r g b w rv gv bv wv]. cbn. by destruct rv, gv, bv, wv.
Qed.
(** ** Lemmas: a conforming payload is written again *)

Lemma reserved_nil what v m : reserved what v m = [] -> Z.land v m = 0.
Proof. unfold reserved. by destruct (Z.eqb_spec (Z.land v m) 0). Qed.

Lemma range_nil name v lo hi : range name v lo hi = [] -> lo <= v <= hi.
Proof. unfold range. destruct (Z.leb_spec lo v), (Z.leb_spec v hi); try done. Qed.

Lemma be_bytes_wrap n v a : be_bytes n (v + a * 256 ^ Z.of_nat n) = be_bytes n v.
Proof.
  assert (H : forall x, be_bytes n (x mod 256 ^ Z.of_nat n) = be_bytes n x).
  { intros x. rewrite <- be_val_be_bytes. rewrite <- (length_be_bytes n x) at 1. by rewrite be_bytes_be_val by apply be_bytes_ok. }
  rewrite <- (H (v + _)), <- (H v), Z.mod_add; [done|]. apply Z.pow_nonzero; lia.
Qed.

Lemma be_bytes_i16 l : bytes_ok l -> length l = 2%nat -> be_bytes 2 (as_i16 (be_val l)) = l.
Proof.
  intros Hl En. assert (E : be_bytes 2 (be_val l) = l) by (rewrite <- En at 1; by apply be_bytes_be_val). unfold as_i16.
  destruct (_ <? _); [done|]. rewrite <- E at 2. apply (be_bytes_wrap 2 (be_val l) (-1)).
Qed.

Lemma be_bytes_i32 l : bytes_ok l -> length l = 4%nat -> be_bytes 4 (as_i32 (be_val l)) = l.
Proof.
  intros Hl En. assert (E : be_bytes 4 (be_val l) = l) by (rewrite <- En at 1; by apply be_bytes_be_val). unfold as_i32.
  destruct (_ <? _); [done|]. rewrite <- E at 2. apply (be_bytes_wrap 4 (be_val l) (-1)).
Qed.

Lemma be_at_whole l n : length l = n -> be_at l 0 n = Some (be_val l).
Proof. intros E. unfold be_at. rewrite drop_0, take_ge by lia. by rewrite E, Nat.eqb_refl. Qed.

Lemma padded_text l : existsb (fun b => negb (b =? 0)) (from_nul l) = false -> exists t n, l = t ++ replicate n 0 /\ Forall (fun c => c <> 0) t.
Proof.
  induction l as [|b l IH]; [by exists [], 0%nat|]. cbn [from_nul]. destruct (Z.eqb_spec b 0) as [->|H].
  - intros E. exists [], (S (length l)). split; [|constructor]. cbn [app]. clear IH. cbn [existsb negb Z.eqb orb] in E. cbn [replicate]. f_equal.
    induction l as [|c l IH]; [done|]. cbn [existsb] in E. apply orb_false_iff in E as [E1 E2]. apply negb_false_iff, Z.eqb_eq in E1 as ->.
    cbn [replicate length]. f_equal. by apply IH.
  - intros E. destruct (IH E) as (t & n & -> & Ht). exists (b :: t), n. by split; [|constructor].
Qed.

Lemma octet_masks b : is_u8 b -> (Z.land b 192 = 0 -> Z.land b 63 = b) /\ (Z.land b 224 = 0 -> Z.land b 31 = b) /\
  (Z.land b 240 = 0 -> Z.land b 15 = b) /\ (Z.land b 128 = 0 -> Z.land b 127 = b) /\
  Z.lor (Z.shiftl (Z.land (Z.shiftr b 5) 7) 5) (Z.land b 31) = b /\
  Z.land (Z.land (Z.shiftr b 5) 7) 7 = Z.land (Z.shiftr b 5) 7 /\ Z.land (Z.land b 31) 31 = Z.land b 31 /\ Z.land (Z.shiftr b 5) 7 <= 7 /\
  bits_of [flag_bit b 128; flag_bit b 64; flag_bit b 32; flag_bit b 16; flag_bit b 8; flag_bit b 4; flag_bit b 2; flag_bit b 1] = b /\
  (Z.land b 63 = 0 -> bits_of [flag_bit b 128; flag_bit b 64; false; false; false; false; false; false] = b) /\
  (Z.land b 240 = 0 -> bits_of [flag_bit b 8; flag_bit b 4; flag_bit b 2; flag_bit b 1] = b) /\
  (Z.land b 64 = 0 -> (if flag_bit b 128 then Z.lor (Z.land (Z.land b 63) 63) 128 else Z.land (Z.land b 63) 63) = b) /\ Z.land b 63 <= 63.
Proof.
  refine (u8_decide (fun b => (Z.land b 192 = 0 -> Z.land b 63 = b) /\ (Z.land b 224 = 0 -> Z.land b 31 = b) /\
    (Z.land b 240 = 0 -> Z.land b 15 = b) /\ (Z.land b 128 = 0 -> Z.land b 127 = b) /\
    Z.lor (Z.shiftl (Z.land (Z.shiftr b 5) 7) 5) (Z.land b 31) = b /\
    Z.land (Z.land (Z.shiftr b 5) 7) 7 = Z.land (Z.shiftr b 5) 7 /\ Z.land (Z.land b 31) 31 = Z.land b 31 /\ Z.land (Z.shiftr b 5) 7 <= 7 /\
    bits_of [flag_bit b 128; flag_bit b 64; flag_bit b 32; flag_bit b 16; flag_bit b 8; flag_bit b 4; flag_bit b 2; flag_bit b 1] = b /\
    (Z.land b 63 = 0 -> bits_of [flag_bit b 128; flag_bit b 64; false; false; false; false; false; false] = b) /\
    (Z.land b 240 = 0 -> bits_of [flag_bit b 8; flag_bit b 4; flag_bit b 2; flag_bit b 1] = b) /\
    (Z.land b 64 = 0 -> (if flag_bit b 128 then Z.lor (Z.land (Z.land b 63) 63) 128 else Z.land (Z.land b 63) 63) = b) /\ Z.land b 63 <= 63) _ b).
  vm_compute. reflexivity.
Qed.

(** A percentage and an angle of one octet. *)
Definition octet_percent (b : u8) : f32 := f32_div (f32_mul (f32_of_int b) (f32_of_int 100)) (f32_of_int 255).

Definition octet_angle (b : u8) : f32 :=
  f32_div (f32_round (f32_div (f32_mul (f32_of_int b) (f32_of_int 3600)) (f32_of_int 255))) (f32_of_int 10).

Definition gives_octet (r : result EncodeError bytes) (b : u8) : bool := match r with Ok [x] => x =? b | _ => false end.

Lemma gives_octet_ok r b : gives_octet r b = true -> r = Ok [b].
Proof. destruct r as [[|x [|]]|]; try done. by intros ->%Z.eqb_eq. Qed.

Definition scales_back (b : u8) : bool :=
  gives_octet (encode_main (MkDpt 5 (Some 1)) (VPercent (octet_percent b))) b &&
  gives_octet (encode_main (MkDpt 5 (Some 3)) (VFloat (octet_angle b) (Some "°"))) b.

Lemma scales_back_all : all_below 256 scales_back = true.
Proof. vm_compute. reflexivity. Qed.

Lemma one_octet_scales b : is_u8 b -> encode_main (MkDpt 5 (Some 1)) (VPercent (octet_percent b)) = Ok [b] /\
  encode_main (MkDpt 5 (Some 3)) (VFloat (octet_angle b) (Some "°")) = Ok [b].
Proof.
  intros Hb. pose proof (all_below_spec 256 scales_back scales_back_all b Hb) as E. unfold scales_back in E.
  apply andb_true_iff in E as [E1 E3]. split; by apply gives_octet_ok.
Qed.

(** The values that can be written as they were read: not those shown as fields
    or as status bits, the infinities, the rounded two-octet floats, the UTF-8
    texts, and dates and times without a part. *)
Definition writes_back (dpt : Dpt) (v : TypedValue) : bool :=
  match dpt_main dpt, v with
  | 6, VSigned _ _ => true
  | 14, VFloat x _ => is_finite x
  | 19, VDateTime t => negb (dt_no_date t) && negb (dt_no_time t)
  | (1 | 2 | 3 | 5 | 7 | 8 | 10 | 11 | 12 | 13 | 16 | 17 | 18 | 20 | 21 | 22 | 232 | 251), _ => true
  | _, _ => false
  end.

Lemma writes_back_main dpt v : writes_back dpt v = true -> dpt_main dpt ∈ SUPPORTED.
Proof.
  unfold writes_back. destruct (dpt_main dpt) as [|p|p]; try done.
  do 8 (try (destruct p as [p|p|]; try (intros _; apply (bool_decide_eq_true_1 _); reflexivity); try done)).
Qed.

(** A count of a scaled type that is read is one that is written. *)
Lemma scaled_back main sub sc lo hi n : In (main, sub, sc, lo, hi) SCALED -> lo <= n <= hi ->
  encode (MkDpt main (Some sub)) (VScaled n (sc_decimals sc) (sc_unit sc)) = Ok (be_bytes (if (main =? 7) || (main =? 8) then 2 else 4) n).
Proof.
  intros H Hn. assert (E : scaling (MkDpt main (Some sub)) = Some sc /\ writable_range main sc = Some (lo, hi)).
  { cbn in H. by repeat (destruct H as [[= <- <- <- <- <-]|H]; [done|]). }
  destruct E as [E1 E2]. unfold encode. rewrite E1. cbn [mbind option_bind dpt_main]. rewrite E2. cbn [mbind option_bind encode_scaled].
  rewrite Z.eqb_refl, (proj2 (Z.leb_le _ n)), (proj2 (Z.leb_le n _)) by lia. done.
Qed.

(** Without a scaling, and with one. *)
Lemma encode_plain dpt v : scaling dpt = None -> encode dpt v = encode_main dpt v.
Proof. intros E. unfold encode. by rewrite E. Qed.

Lemma scaled_range main sub sc lo hi : In (main, sub, sc, lo, hi) SCALED ->
  (main = 7 -> lo = 0 /\ hi = 65535) /\ (main = 13 -> lo = -2147483648 /\ hi = 2147483647) /\
  (main = 8 -> lo = -32768 /\ (hi = 32767 \/ hi = 32766 /\ sc_invalid sc = Some 32767)).
Proof.
  intros H. cbn in H. repeat (destruct H as [[= <- <- <- <- <-]|H]; [split; [|split]; intros E; try discriminate E; cbn; auto|]). done.
Qed.

Lemma reencode_integer dpt payload v : bytes_ok payload -> zlen payload = (if dpt_main dpt =? 13 then 4 else 2) ->
  dpt_main dpt = 7 \/ dpt_main dpt = 8 \/ dpt_main dpt = 13 -> decode_inner dpt payload = Some v -> encode dpt v = Ok payload.
Proof.
  intros Hb Hl Hm Hd. assert (Hv := be_val_bound payload Hb). unfold zlen in *.
  assert (Hback : be_bytes (length payload) (be_val payload) = payload) by (by apply be_bytes_be_val).
  destruct dpt as [main sub]. cbn [dpt_main] in *.
  destruct (scaling (MkDpt main sub)) as [sc|] eqn:Esc.
  - destruct (scaling_cases _ _ Esc) as (main' & sub' & lo & hi & [= <- ->] & Hin & _). destruct (scaled_range _ _ _ _ _ Hin) as (R7 & R13 & R8).
    assert (Hscaled : forall n, lo <= n <= hi -> be_bytes (length payload) n = payload -> v = VScaled n (sc_decimals sc) (sc_unit sc) ->
      encode (MkDpt main (Some sub')) v = Ok payload).
    { intros n Hn Hp ->. rewrite (scaled_back main sub' sc lo hi n Hin Hn). f_equal. transitivity (be_bytes (length payload) n); [|done]. f_equal.
      destruct Hm as [-> |[-> | ->]]; cbn in *; lia. }
    destruct Hm as [-> |[-> | ->]]; unfold decode_inner in Hd; cbn [dpt_main dpt_sub] in Hd; cbn in Hl; rewrite be_at_whole in Hd by lia;
      cbn [mbind option_bind] in Hd; rewrite Esc in Hd; rewrite Hl in Hv.
    + injection Hd as <-. apply (Hscaled (be_val payload)); [|done|done]. destruct (R7 eq_refl) as [-> ->]. cbn in Hv. lia.
    + case_bool_decide as Hn; [done|]. injection Hd as <-. apply (Hscaled (as_i16 (be_val payload))); [|replace (length payload) with 2%nat by lia; apply be_bytes_i16; [done|lia]|done].
      cbn in Hv. assert (Hr : -32768 <= as_i16 (be_val payload) <= 32767) by (unfold as_i16; destruct (Z.ltb_spec (be_val payload) 32768); lia).
      destruct (R8 eq_refl) as [-> [-> |[-> Ei]]]; [done|].
      assert (as_i16 (be_val payload) <> 32767) by (intros E; apply Hn; by rewrite E). lia.
    + injection Hd as <-. apply (Hscaled (as_i32 (be_val payload))); [|replace (length payload) with 4%nat by lia; apply be_bytes_i32; [done|lia]|done].
      cbn in Hv. destruct (R13 eq_refl) as [-> ->]. unfold as_i32. destruct (Z.ltb_spec (be_val payload) 2147483648); lia.
  - rewrite encode_plain by done. destruct Hm as [-> |[-> | ->]]; unfold decode_inner in Hd; cbn [dpt_main dpt_sub] in Hd; cbn in Hl; rewrite be_at_whole in Hd by lia;
      cbn [mbind option_bind] in Hd; rewrite Esc in Hd; injection Hd as <-; cbn [encode_main dpt_main]; rewrite Hl in Hv; cbn in Hv.
    + rewrite (proj2 (Z.leb_le _ _)) by lia. f_equal. replace 2%nat with (length payload) by lia. done.
    + assert (-32768 <= as_i16 (be_val payload) <= 32767) by (unfold as_i16; destruct (Z.ltb_spec (be_val payload) 32768); lia).
      rewrite (proj2 (Z.leb_le _ _)), (proj2 (Z.leb_le _ _)) by lia. f_equal. apply be_bytes_i16; [done|lia].
    + assert (-2147483648 <= as_i32 (be_val payload) <= 2147483647) by (unfold as_i32; destruct (Z.ltb_spec (be_val payload) 2147483648); lia).
      rewrite (proj2 (Z.leb_le _ _)), (proj2 (Z.leb_le _ _)) by lia. f_equal. apply be_bytes_i32; [done|lia].
Qed.

(** The payload as its octets, from its size. *)
Ltac octets Hl :=
  repeat match goal with
  | l : list Z |- _ => destruct l as [|? l]; try (unfold zlen in Hl; cbn in Hl; lia)
  end; clear Hl.

(** Types of less than one octet. *)
Lemma reencode_bits main sub b v : 0 <= b < 2 ^ (if main =? 1 then 1 else if main =? 2 then 2 else 4) -> main ∈ [1; 2; 3] ->
  decode_inner (MkDpt main sub) [b] = Some v -> encode_main (MkDpt main sub) v = Ok [b].
Proof.
  intros Hb Hm Hd. apply list_elem_of_In in Hm. cbn in Hm.
  repeat destruct Hm as [<-|Hm]; try done; unfold decode_inner in Hd; cbn [dpt_main dpt_sub head mbind option_bind] in Hd; cbn in Hb.
  - destruct (bool_labels sub). injection Hd as <-. assert (b = 0 \/ b = 1) as [-> | ->] by lia; done.
  - destruct (bool_labels sub). injection Hd as <-. assert (b = 0 \/ b = 1 \/ b = 2 \/ b = 3) as [-> |[-> |[-> | ->]]] by lia; done.
  - assert (Hsub : step_labels sub = ("Up", "Down") \/ step_labels sub = ("Decrease", "Increase")).
    { unfold step_labels. repeat case_match; tauto. }
    assert (Hcase : exists n : nat, (n < 16)%nat /\ b = Z.of_nat n) by (exists (Z.to_nat b); lia). destruct Hcase as (n & Hn & ->).
    cbn [encode_main dpt_main dpt_sub]. destruct Hsub as [E|E]; rewrite E in Hd; injection Hd as <-; cbn [encode_main dpt_main dpt_sub]; rewrite E;
      do 16 (destruct n as [|n]; [reflexivity|]); lia.
Qed.

(** Types of one octet. *)
Lemma reencode_octet main sub b v : is_u8 b -> validity_problems (MkDpt main sub) [b] = [] -> main ∈ [5; 6; 17; 18; 20; 21] ->
  writes_back (MkDpt main sub) v = true -> decode_inner (MkDpt main sub) [b] = Some v -> encode_main (MkDpt main sub) v = Ok [b].
Proof.
  intros Hb Hval Hm Hw Hd. apply list_elem_of_In in Hm. cbn in Hm. destruct (octet_masks b Hb) as (H192 & _ & _ & _ & _ & _ & _ & _ & _ & _ & _ & H64 & H63).
  unfold is_u8 in Hb.
  repeat destruct Hm as [<-|Hm]; try done; unfold decode_inner, validity_problems in *; cbn [dpt_main dpt_sub head mbind option_bind] in Hd, Hval.
  - destruct (one_octet_scales b Hb) as [E1 E3]. destruct (decide (sub = Some 1)) as [->|H1]; [by injection Hd as <-|].
    destruct (decide (sub = Some 3)) as [->|H3]; [by injection Hd as <-|]. rewrite encode_u8 by done.
    assert (v = VUnsigned b (int_unit 5 sub)) as -> by (destruct sub as [[|p|p]|]; try congruence; destruct p as [[p|p|]|p|]; congruence).
    by rewrite (proj2 (Z.leb_le b 255)) by lia.
  - case_bool_decide; injection Hd as <-; [done|]. cbn [encode_main dpt_main].
    assert (Hr : -128 <= as_i8 b <= 127) by (unfold as_i8; destruct (Z.ltb_spec b 128); lia).
    rewrite (proj2 (Z.leb_le _ _)), (proj2 (Z.leb_le _ _)) by lia. cbn [andb]. f_equal. unfold as_i8. destruct (Z.ltb_spec b 128).
    + cbn. rewrite Z.div_1_r, Z.mod_small by lia. done.
    + rewrite (be_bytes_wrap 1 b (-1) : be_bytes 1 (b - 256) = _). cbn. rewrite Z.div_1_r, Z.mod_small by lia. done.
  - injection Hd as <-. apply reserved_nil in Hval. cbn [encode_main dpt_main]. rewrite (proj2 (Z.leb_le _ _)) by lia. by rewrite !H192.
  - injection Hd as <-. apply reserved_nil in Hval. cbn [encode_main dpt_main]. rewrite (proj2 (Z.leb_le _ _)) by lia. by rewrite H64.
  - case_bool_decide as H102.
    + injection Hd as <-. cbn [encode_main dpt_main dpt_sub]. rewrite bool_decide_true by done. do 2 f_equal. unfold HvacMode_of_code.
      assert (Hc : b = 0 \/ b = 1 \/ b = 2 \/ b = 3 \/ b = 4 \/ 5 <= b) by lia.
      do 5 (destruct Hc as [-> |Hc]; [done|]). destruct b as [|p|p]; [lia| |lia]. do 3 (try (destruct p as [p|p|]; try done; try lia)).
    + destruct (s ← sub; _ ← enum_table s; Some s); injection Hd as <-; cbn [encode_main dpt_main dpt_sub]; rewrite bool_decide_false by done; [done|].
      by rewrite (proj2 (Z.ltb_ge 255 b)) by lia.
  - injection Hd as <-. cbn [encode_main dpt_main]. by rewrite (proj2 (Z.leb_le b 255)) by lia.
Qed.

(** A date and time with both parts. *)
Lemma reencode_datetime y mo d wh mi sec flags q : Forall is_u8 [y; mo; d; wh; mi; sec; flags; q] ->
  datetime_problems [y; mo; d; wh; mi; sec; flags; q] = [] -> negb (flag_bit flags 8) && negb (flag_bit flags 2) = true ->
  option_map (fun t => encode_main (MkDpt 19 None) (VDateTime t)) (decode_datetime [y; mo; d; wh; mi; sec; flags; q])
    = Some (Ok [y; mo; d; wh; mi; sec; flags; q]).
Proof.
  intros Hb Hval Hw. repeat (apply Forall_cons in Hb as [? Hb]). clear Hb. unfold flag_bit in Hw. rewrite !negb_involutive in Hw.
  apply andb_true_iff in Hw as [W8 W2]. unfold datetime_problems in Hval. rewrite W8, W2 in Hval. rewrite !app_nil in Hval.
  destruct Hval as (R1%reserved_nil & R2%reserved_nil & R3%reserved_nil & R4%reserved_nil & R5%reserved_nil & [Rm%range_nil Rd%range_nil] & Rh%range_nil & Rmi%range_nil & Rs%range_nil & R24).
  destruct (octet_masks mo) as (_ & _ & Hmo & _), (octet_masks d) as (_ & Hd & _), (octet_masks mi) as (Hmi & _), (octet_masks sec) as (Hsec & _); [done..|].
  destruct (octet_masks wh) as (_ & _ & _ & _ & Hrec & H7 & H31 & Hle & _), (octet_masks flags) as (_ & _ & _ & _ & _ & _ & _ & _ & Hf & _),
    (octet_masks q) as (_ & _ & _ & _ & _ & _ & _ & _ & _ & Hq & _); [done..|].
  specialize (Hmo R1). specialize (Hd R2). specialize (Hmi R3). specialize (Hsec R4). specialize (Hq R5).
  rewrite Hmo in Rm. rewrite Hd in Rd. rewrite Hmi, Hsec in R24. rewrite Hmi in Rmi. rewrite Hsec in Rs. unfold is_u8 in *.
  cbn [decode_datetime option_map]. do 2 f_equal. cbn [encode_main dpt_main]. unfold encode_datetime.
  cbn [dt_year dt_month dt_day dt_weekday dt_hour dt_minute dt_second dt_fault dt_working_day dt_no_working_day dt_no_year dt_no_date dt_no_weekday
    dt_no_time dt_summer_time dt_quality dt_sync_source].
  rewrite Hmo, Hd, Hmi, Hsec, Hf, Hq, H7, H31, Hrec, Hmo, Hd, Hmi, Hsec.
  destruct (Z.land wh 31 =? 24); cbn [andb] in *; [destruct (negb (mi =? 0) || negb (sec =? 0)); [done|]|];
    rewrite (proj2 (Z.leb_le _ _)), (proj2 (Z.leb_le _ _)), !(proj2 (Z.ltb_ge _ _)) by lia; cbn [negb andb orb]; do 2 f_equal; lia.
Qed.

(** Types of several fields. *)
Lemma reencode_fields main sub payload v : bytes_ok payload -> payload_fits (MkDpt main sub) payload ->
  validity_problems (MkDpt main sub) payload = [] -> main ∈ [10; 11; 19; 232; 251] -> writes_back (MkDpt main sub) v = true ->
  decode_inner (MkDpt main sub) payload = Some v -> encode_main (MkDpt main sub) v = Ok payload.
Proof.
  intros Hb [_ Hl] Hval Hm Hw Hd. apply list_elem_of_In in Hm. cbn in Hm.
  repeat destruct Hm as [<-|Hm]; try done; unfold decode_inner, validity_problems in *; cbn [dpt_main dpt_sub Dpt_expected_size] in *; octets Hl;
    unfold bytes_ok in Hb; repeat (apply Forall_cons in Hb as [? Hb]); clear Hb.
  - injection Hd as <-. rewrite !app_nil in Hval. destruct Hval as (R1%reserved_nil & R2%reserved_nil & Rh%range_nil & Rm%range_nil & Rs%range_nil).
    destruct (octet_masks z) as (_ & _ & _ & _ & Hrec & _ & _ & H7 & _); [done|].
    destruct (octet_masks z0) as (Hz0 & _), (octet_masks z1) as (Hz1 & _); [done..|].
    cbn [encode_main dpt_main]. rewrite (proj2 (Z.ltb_ge _ _)), (proj2 (Z.ltb_ge _ _)), (proj2 (Z.ltb_ge _ _)), (proj2 (Z.ltb_ge _ _)) by lia.
    cbn [orb]. by rewrite Hrec, Hz0, Hz1.
  - injection Hd as <-. rewrite !app_nil in Hval.
    destruct Hval as (R1%reserved_nil & R2%reserved_nil & R3%reserved_nil & Rd%range_nil & Rm%range_nil & Ry%range_nil).
    destruct (octet_masks z) as (_ & Hz & _), (octet_masks z0) as (_ & _ & Hz0 & _), (octet_masks z1) as (_ & _ & _ & Hz1 & _); [done..|].
    rewrite Hz in * by done. rewrite Hz0 in * by done. rewrite Hz1 in * by done. cbn [encode_main dpt_main].
    assert (Hy : 1990 <= (if 90 <=? z1 then 1900 + z1 else 2000 + z1) <= 2089 /\ (if 90 <=? z1 then 1900 + z1 else 2000 + z1) mod 100 = z1).
    { destruct (Z.leb_spec 90 z1); (split; [lia|]); [replace (1900 + z1) with (z1 + 19 * 100) by lia|replace (2000 + z1) with (z1 + 20 * 100) by lia];
        rewrite Z.mod_add, Z.mod_small by lia; done. }
    destruct Hy as [Hy ->]. rewrite !(proj2 (Z.leb_le _ _)) by lia. done.
  - cbn [decode_datetime option_map] in Hd. injection Hd as <-. unfold writes_back in Hw. cbn [dpt_main dt_no_date dt_no_time] in Hw.
    assert (R := reencode_datetime z z0 z1 z2 z3 z4 z5 z6). cbn [decode_datetime option_map dt_no_date dt_no_time] in R.
    specialize (R ltac:(repeat apply Forall_cons_2; done) Hval Hw). injection R as R. exact R.
  - by injection Hd as <-.
  - injection Hd as <-. rewrite app_nil in Hval. destruct Hval as [R1%reserved_nil R2%reserved_nil].
    destruct (octet_masks z4) as (_ & _ & _ & _ & _ & _ & _ & _ & _ & _ & Hv & _); [done|].
    cbn [encode_main dpt_main rgbw_r rgbw_g rgbw_b rgbw_w rgbw_r_valid rgbw_g_valid rgbw_b_valid rgbw_w_valid]. rewrite Hv by done.
    do 5 f_equal. assert (Hz3 : z3 = Z.land z3 255) by (rewrite (land_small z3 8); unfold is_u8 in *; cbn; lia). by rewrite Hz3, R1.
Qed.
(** A text of one octet a character. *)
Lemma reencode_text sub payload v : bytes_ok payload -> payload_fits (MkDpt 16 sub) payload -> validity_problems (MkDpt 16 sub) payload = [] ->
  decode_inner (MkDpt 16 sub) payload = Some v -> encode_main (MkDpt 16 sub) v = Ok payload.
Proof.
  intros Hb [_ Hl] Hval Hd. unfold decode_inner, validity_problems in *. cbn [dpt_main dpt_sub Dpt_expected_size] in *. unfold zlen in Hl.
  rewrite take_ge in Hd, Hval by lia. injection Hd as <-. apply app_nil in Hval as [Ha Hp].
  destruct (existsb _ (from_nul payload)) eqn:Ep in Hp; [done|]. destruct (padded_text _ Ep) as (t & n & -> & Ht).
  rewrite trim_nuls_padded by done. rewrite length_app, length_replicate in Hl. apply Forall_app in Hb as [Hb _].
  cbn [encode_main dpt_main dpt_sub]. unfold encode_text.
  assert (E : text_octets (if bool_decide (sub = Some 0) then 127 else 255) t = Some t).
  { assert (Hmax : Forall (fun c => c <= (if bool_decide (sub = Some 0) then 127 else 255)) t).
    { apply Forall_forall. intros c Hc. pose proof Hb as Hc8. rewrite Forall_forall in Hc8. specialize (Hc8 c Hc). unfold is_u8 in Hc8.
      case_bool_decide; [|lia]. destruct (find _ _) eqn:Ef; [done|]. pose proof (find_none _ _ Ef c) as Hn.
      rewrite Z.ltb_ge in Hn. apply Hn. apply in_or_app. left. by apply list_elem_of_In. }
    clear -Ht Hmax. induction Ht as [|c t Hc Ht IH]; [done|]. apply Forall_cons in Hmax as [Hm Hmax]. cbn [text_octets].
    rewrite (proj2 (Z.eqb_neq c 0)), (proj2 (Z.ltb_ge _ c)) by done. cbn [orb]. by rewrite IH. }
  rewrite E. unfold text, char in *. rewrite (proj2 (Nat.ltb_ge 14 (length t))) by lia. do 3 f_equal. lia.
Qed.

Lemma reencode dpt payload v : payload_fits dpt payload -> validity_problems dpt payload = [] -> decode_inner dpt payload = Some v ->
  writes_back dpt v = true -> encode dpt v = Ok payload.
Proof.
  intros Hfit Hval Hd Hw. pose proof (writes_back_main dpt v Hw) as Hm. apply list_elem_of_In in Hm. destruct Hfit as [Hb Hl] eqn:EF. clear EF.
  destruct (decide (dpt_main dpt = 7 \/ dpt_main dpt = 8 \/ dpt_main dpt = 13)) as [Hint|Hint].
  { apply reencode_integer; try done. unfold Dpt_expected_size in Hl. destruct Hint as [E|[E|E]]; rewrite E in Hl |- *; done. }
  assert (Hs : scaling dpt = None).
  { destruct (scaling dpt) as [sc|] eqn:Es; [|done]. destruct (scaling_cases _ _ Es) as (m & su & lo & hi & -> & Hin & _). exfalso. apply Hint.
    cbn in Hin |- *. repeat (destruct Hin as [[= <- <- <- <- <-]|Hin]; [tauto|]). done. }
  rewrite encode_plain by done. destruct dpt as [main sub]. cbn [dpt_main] in *. cbn in Hm.
  assert (Hbe : forall n, length payload = n -> be_bytes n (be_val payload) = payload) by (intros n <-; by apply be_bytes_be_val).
  assert (Hv := be_val_bound payload Hb).
  repeat destruct Hm as [<-|Hm]; try (exfalso; apply Hint; tauto); try (by destruct v); try (by apply reencode_fields; try done; apply (bool_decide_eq_true_1 _); reflexivity);
    try (by apply reencode_text); try done; cbn [Dpt_expected_size dpt_main] in Hl;
    try (destruct Hl as (b & -> & Hlt); apply Forall_cons in Hb as [[? ?] _]; by apply reencode_bits; [cbn; lia|apply (bool_decide_eq_true_1 _); reflexivity|]);
    try (octets Hl; apply Forall_cons in Hb as [Hb _]; by apply reencode_octet; try done; apply (bool_decide_eq_true_1 _); reflexivity);
    unfold zlen in Hl, Hv; rewrite Hl in Hv; unfold decode_inner in Hd; cbn [dpt_main dpt_sub] in Hd; rewrite be_at_whole in Hd by lia; injection Hd as <-;
    cbn [encode_main dpt_main].
  - f_equal. apply Hbe. lia.
  - unfold writes_back in Hw. cbn [dpt_main] in Hw. rewrite Hw, f32_bits_back by done. f_equal. apply Hbe. lia.
  - f_equal. apply Hbe. lia.
Qed.

(** ** Properties *)

(** What bussard writes, a conforming receiver acts on: a payload that
    [encode] makes has the size of its datapoint type and nothing in it that
    [validity_problems] reports, unless the value itself is one the standard
    reserves: tariff 255, a code outside an enumeration, a reserved flag, or a
    date whose month or day is 0. *)
Theorem written_payload_conforms dpt v bs (Hok : value_ok v) (E : encode dpt v = Ok bs) :
  payload_fits dpt bs /\ (reserved_choice dpt v \/ validity_problems dpt bs = []).
Proof.
  apply encode_view in E. split; [by eapply written_fits|].
  destruct (decide (reserved_choice dpt v)); [by left|right; by eapply written_conforms].
Qed.

(** C30: A value that is written is the value the receiver reads, with the labels
    and units of its type: for every datapoint type that carries its values
    exactly, decoding what [encode] makes of a value gives that value. *)
Theorem written_value_reads_back dpt v v' bs (Hok : value_ok v) (E : encode dpt v = Ok bs) (Hs : shown dpt v = Some v') :
  decode dpt bs = v'.
Proof. apply encode_view in E. unfold decode. by rewrite (read_back dpt v v' bs). Qed.

(** A conforming payload that was read is written again octet for octet: for
    every datapoint type that has an encoder (but the rounded two-octet floats
    and the UTF-8 texts), and for every value of it that is finite and complete,
    encoding what [decode] makes of a payload gives the payload. *)
Theorem conforming_payload_reencodes dpt payload v (Hfit : payload_fits dpt payload) (Hval : validity_problems dpt payload = [])
    (Hd : decode_inner dpt payload = Some v) (Hw : writes_back dpt v = true) :
  decode dpt payload = v /\ encode dpt v = Ok payload.
Proof. split; [unfold decode; by rewrite Hd|by apply reencode]. Qed.

(** ** Examples *)

Definition demo_moment : DateTime :=
  MkDateTime 2026 10 8 4 21 54 3 false false true false false false false true true false.

Lemma written_payload_conforms_witness :
  payload_fits (MkDpt 19 (Some 1)) [126; 10; 8; 149; 54; 3; 33; 128] /\
  (reserved_choice (MkDpt 19 (Some 1)) (VDateTime demo_moment) \/ validity_problems (MkDpt 19 (Some 1)) [126; 10; 8; 149; 54; 3; 33; 128] = []).
Proof.
  apply (written_payload_conforms (MkDpt 19 (Some 1)) (VDateTime demo_moment)); [cbn; unfold is_u8, is_u16; lia|vm_compute; reflexivity].
Defined.

Lemma written_value_reads_back_witness :
  decode (MkDpt 8 (Some 10)) [249; 196] = VScaled (-1596) 2 "%".
Proof.
  apply (written_value_reads_back (MkDpt 8 (Some 10)) (VScaled (-1596) 2 "")); [cbn; unfold is_u8; lia|vm_compute; reflexivity|reflexivity].
Defined.

Lemma conforming_payload_reencodes_witness :
  decode (MkDpt 5 (Some 1)) [191] = VPercent (octet_percent 191) /\ encode (MkDpt 5 (Some 1)) (VPercent (octet_percent 191)) = Ok [191].
Proof.
  apply (conforming_payload_reencodes (MkDpt 5 (Some 1)) [191]); [|done|done|done].
  split; [apply Forall_cons_2; [unfold is_u8; lia|constructor]|done].
Defined.

(** A date without its month is written, and no receiver acts on it. *)
Example month_zero_written :
  let v := VDateTime (MkDateTime 2026 0 8 4 21 54 3 false false true false false false false true true false) in
  encode (MkDpt 19 (Some 1)) v = Ok [126; 0; 8; 149; 54; 3; 33; 128] /\
  validity_problems (MkDpt 19 (Some 1)) [126; 0; 8; 149; 54; 3; 33; 128] = [OutsideRange "month" 0 1 12].
Proof. vm_compute. repeat split. Qed.

(** What is shown for the status octet of 6.020 is not written again. *)
Example status_octet_not_written :
  encode (MkDpt 6 (Some 20)) (decode (MkDpt 6 (Some 20)) [1]) = Err EncodeMismatch.
Proof. reflexivity. Qed.
