(* ===== verification/MgmtError.v ===== *)
(** * Errors of the management layer ([bussard-mgmt/src/error.rs])

    Absent devices, refusing devices and transport failures.  A variant is
    without the device address it carries in the source (the connection's), and
    without texts that only the message needs. *)

From S2P Require Import Prelude Cursor Asdu.

Local Open Scope string_scope.
Local Open Scope Z_scope.

(** Which silence struck mid-session. *)
Inductive SilenceKind : Type :=
| Silence_NoResponse
| Silence_Disconnected.

#[export] Instance SilenceKind_eq_dec : EqDecision SilenceKind.
Proof. solve_decision. Defined.

Inductive MgmtError : Type :=
| NoResponse
| NotConfirmed
| MgmtError_Nak
| MgmtError_Disconnected
| MalformedResponse (reason : string)
| MemoryRefused (op : string) (addr : u32) (count : u8)
| MemoryReturnCode (service : string) (addr : u32) (code : u8)
| MemoryWriteCrc (addr : u32) (expected got : u16)
| DescriptorTypeUnsupported (requested : u8)
| MemoryVerifyFailed (addr : u32) (expected got : bytes)
| MemoryEchoMismatch (addr echo_addr : u32) (expected got : bytes)
| MidSessionSilence (kind : SilenceKind) (exchanges wraps : u32)
| AccessDenied (level : u8)
| SecureFailed (source : AsduError)
| FactoryKeyActive
| ServiceRejected (service target : string) (return_code : option u8)
| TransportFailed (source : TransportError).

#[export] Instance MgmtError_eq_dec : EqDecision MgmtError.
Proof. solve_decision. Defined.

Definition return_code_name (code : u8) : string :=
  match code with
  | 0 => "E_SUCCESS"
  | 1 => "E_SUCCESS_WITH_CRC"
  | 241 => "E_MEMORY_ERROR"
  | 244 => "E_LENGTH_EXCEEDS_MAX_APDU_LENGTH"
  | 245 => "E_DATA_OVERFLOW"
  | 246 => "E_DATA_MIN"
  | 247 => "E_DATA_MAX"
  | 248 => "E_DATA_VOID"
  | 249 => "E_TEMPORARILY_NOT_AVAILABLE"
  | 250 => "E_ACCESS_WRITE_ONLY"
  | 251 => "E_ACCESS_READ_ONLY"
  | 252 => "E_ACCESS_DENIED"
  | 253 => "E_ADDRESS_VOID"
  | 254 => "E_DATA_TYPE_CONFLICT"
  | 255 => "E_ERROR"
  | _ => "undefined"
  end.

(** Whether the error shows that a device is there. *)
Definition MgmtError_device_present (e : MgmtError) : bool :=
  match e with
  | NoResponse | NotConfirmed | MidSessionSilence Silence_NoResponse _ _ => false
  | _ => true
  end.
