(* ===== verification/Apci.v ===== *)
(** * The management services of the client ([bussard-mgmt/src/apci.rs])

    The 10-bit APCI values, the payload encoders and decoders of the property,
    memory, restart and authorize services, and the chunk sizes a device's
    maximum APDU length allows. *)

From S2P Require Import Prelude.

Local Open Scope list_scope.
Local Open Scope Z_scope.

(** ** Service codes *)

Definition A_DEVICE_DESCRIPTOR_READ : u16 := 768.
Definition A_DEVICE_DESCRIPTOR_RESPONSE : u16 := 832.
Definition APCI_SELECTOR_MASK : u16 := 960.
Definition A_AUTHORIZE_REQUEST : u16 := 977.
Definition A_AUTHORIZE_RESPONSE : u16 := 978.
Definition A_KEY_WRITE : u16 := 979.
Definition A_KEY_RESPONSE : u16 := 980.
Definition FREE_ACCESS_KEY : u32 := 4294967295.
Definition A_PROPERTY_VALUE_READ : u16 := 981.
Definition A_PROPERTY_VALUE_RESPONSE : u16 := 982.
Definition A_PROPERTY_VALUE_WRITE : u16 := 983.
Definition A_PROPERTY_DESCRIPTION_READ : u16 := 984.
Definition A_PROPERTY_DESCRIPTION_RESPONSE : u16 := 985.
Definition A_MEMORY_READ : u16 := 512.
Definition A_MEMORY_RESPONSE : u16 := 576.
Definition A_MEMORY_WRITE : u16 := 640.
Definition A_MEMORY_EXTENDED_WRITE : u16 := 507.
Definition A_MEMORY_EXTENDED_WRITE_RESPONSE : u16 := 508.
Definition A_MEMORY_EXTENDED_READ : u16 := 509.
Definition A_MEMORY_EXTENDED_READ_RESPONSE : u16 := 510.
Definition A_USER_MEMORY_READ : u16 := 704.
Definition A_USER_MEMORY_RESPONSE : u16 := 705.
Definition A_USER_MEMORY_WRITE : u16 := 706.
Definition A_RESTART : u16 := 896.
Definition A_RESTART_MASTER_RESET : u16 := 897.
Definition A_RESTART_RESPONSE : u16 := 929.
Definition A_INDIVIDUAL_ADDRESS_READ : u16 := 256.
Definition A_INDIVIDUAL_ADDRESS_RESPONSE : u16 := 320.
Definition A_INDIVIDUAL_ADDRESS_WRITE : u16 := 192.
Definition A_INDIVIDUAL_ADDRESS_SERIAL_READ : u16 := 988.
Definition A_INDIVIDUAL_ADDRESS_SERIAL_RESPONSE : u16 := 989.
Definition A_INDIVIDUAL_ADDRESS_SERIAL_WRITE : u16 := 990.

Definition DEVICE_OBJECT_INDEX : u8 := 0.
Definition PID_PROGMODE : u8 := 54.
Definition PID_SERIAL_NUMBER : u8 := 11.
Definition PID_MANUFACTURER_ID : u8 := 12.
Definition PID_ORDER_INFO : u8 := 15.
Definition PID_HARDWARE_TYPE : u8 := 78.
Definition PID_MAX_APDU_LENGTH : u8 := 56.

Definition MAX_USER_MEMORY_ADDRESS : u32 := 1048575.
Definition MAX_USER_MEMORY_LEN : u8 := 15.
Definition USER_MEMORY_APDU_OVERHEAD : u8 := 5.
Definition MAX_MEMORY_ADDRESS : u32 := 16777215.
Definition EXTENDED_MEMORY_APDU_OVERHEAD : u8 := 5.
Definition MAX_EXTENDED_MEMORY_LEN : u16 := 228.
Definition MEMORY_APDU_OVERHEAD : u8 := 3.
Definition CONSERVATIVE_MEMORY_CHUNK : u8 := 12.
Definition CONSERVATIVE_PROPERTY_READ_OCTETS : u8 := 8.
Definition PROPERTY_RESPONSE_OVERHEAD : u8 := 6.
Definition MAX_MEMORY_READ_LEN : u8 := 63.
Definition MAX_MEMORY_WRITE_LEN : u8 := 63.

(** ** Chunk sizes *)

Definition user_memory_chunk_for_apdu (max_apdu : u16) : u8 :=
  let usable := saturating_sub max_apdu USER_MEMORY_APDU_OVERHEAD in
  Z.max (as_u8 (Z.min usable MAX_USER_MEMORY_LEN)) 1.

Definition memory_chunk_for_apdu (max_apdu : u16) : u8 :=
  let usable := saturating_sub max_apdu MEMORY_APDU_OVERHEAD in
  let capped := Z.min usable MAX_MEMORY_WRITE_LEN in
  Z.max (as_u8 capped) 1.

Definition extended_memory_chunk_for_apdu (max_apdu : u16) : u16 :=
  let usable := saturating_sub max_apdu EXTENDED_MEMORY_APDU_OVERHEAD in
  Z.min (Z.max usable 1) MAX_EXTENDED_MEMORY_LEN.

Definition property_read_octets_for_apdu (max_apdu : u16) : u8 :=
  let usable := saturating_sub max_apdu PROPERTY_RESPONSE_OVERHEAD in
  let capped := Z.min usable MAX_MEMORY_READ_LEN in
  Z.max (as_u8 capped) 1.

(** ** User memory *)

Definition user_memory_header (addr : u32) (count : u8) : bytes :=
  let a := Z.land addr MAX_USER_MEMORY_ADDRESS in
  [Z.lor (as_u8 (Z.shiftl (as_u8 (Z.shiftr a 16)) 4)) (Z.land count 15);
   as_u8 (Z.shiftr a 8); as_u8 a].

Definition encode_user_memory_read (addr : u32) (count : u8) : u16 * bytes :=
  let count := Z.min count MAX_USER_MEMORY_LEN in
  (A_USER_MEMORY_READ, user_memory_header addr count).

Definition encode_user_memory_write (addr : u32) (data : bytes) : u16 * bytes :=
  let count := as_u8 (Z.min (zlen data) MAX_USER_MEMORY_LEN) in
  (A_USER_MEMORY_WRITE, user_memory_header addr count ++ take (Z.to_nat count) data).

Record UserMemoryApdu : Type := MkUserMemory {
  um_count : u8;
  um_addr : u32;
  um_data : bytes }.

(** [slice.get(i..i+n)]. *)
Definition get_range (i n : nat) (l : bytes) : option bytes :=
  if bool_decide (i + n <= length l)%nat then Some (slice i (i + n) l) else None.

Definition decode_user_memory (apci : u16) (payload : bytes) : option UserMemoryApdu :=
  if negb ((apci =? A_USER_MEMORY_READ) || (apci =? A_USER_MEMORY_RESPONSE)
           || (apci =? A_USER_MEMORY_WRITE)) then None else
  match payload with
  | h0 :: h1 :: h2 :: _ =>
      let count := Z.land h0 15 in
      let addr := Z.lor (Z.shiftl (Z.shiftr h0 4) 16) (u16_of h1 h2) in
      if apci =? A_USER_MEMORY_READ then Some (MkUserMemory count addr [])
      else MkUserMemory count addr <$> get_range 3 (Z.to_nat count) payload
  | _ => None
  end.

(** ** Properties *)

Definition encode_property_value_read (object_index property_id count : u8) (start : u16) : bytes :=
  let count := Z.min count 15 in
  let start := Z.land start 4095 in
  [object_index; property_id;
   Z.lor (as_u8 (Z.shiftl count 4)) (Z.land (as_u8 (Z.shiftr start 8)) 15);
   as_u8 (Z.land start 255)].

Definition encode_property_value_write (object_index property_id count : u8) (start : u16)
    (value : bytes) : bytes :=
  encode_property_value_read object_index property_id count start ++ value.

Record PropertyValueRead : Type := MkPropertyValueRead {
  pvd_object_index : u8;
  pvd_property_id : u8;
  pvd_count : u8;
  pvd_start : u16 }.

Definition decode_property_value_read (payload : bytes) : option PropertyValueRead :=
  match payload with
  | o :: p :: c :: s :: _ =>
      Some (MkPropertyValueRead o p (Z.land (Z.shiftr c 4) 15)
              (Z.lor (Z.shiftl (Z.land c 15) 8) s))
  | _ => None
  end.

Record PropertyValueResponse : Type := MkPropertyValueResponse {
  pvr_object_index : u8;
  pvr_property_id : u8;
  pvr_count : u8;
  pvr_start : u16;
  pvr_data : bytes }.

Definition decode_property_value_response (payload : bytes) : option PropertyValueResponse :=
  match payload with
  | o :: p :: c :: s :: data =>
      Some (MkPropertyValueResponse o p (Z.land (Z.shiftr c 4) 15)
              (Z.lor (Z.shiftl (Z.land c 15) 8) s) data)
  | _ => None
  end.

Definition encode_property_description_read (object_index property_id property_index : u8) : bytes :=
  [object_index; property_id; property_index].

Record PropertyDescriptionRead : Type := MkPropertyDescriptionRead {
  pdr_object_index : u8;
  pdr_property_id : u8;
  pdr_property_index : u8 }.

Definition decode_property_description_read (payload : bytes) : option PropertyDescriptionRead :=
  match payload with
  | o :: p :: i :: _ => Some (MkPropertyDescriptionRead o p i)
  | _ => None
  end.

Definition PROPERTY_DESCRIPTION_WRITE_ENABLE : u8 := 128.
Definition PROPERTY_DESCRIPTION_PDT_MASK : u8 := 63.

Record PropertyDescription : Type := MkPropertyDescription {
  pd_object_index : u8;
  pd_property_id : u8;
  pd_property_index : u8;
  pd_writable : bool;
  pd_pdt : u8;
  pd_max_elements : u16;
  pd_read_level : u8;
  pd_write_level : u8 }.

Definition encode_property_description_response (d : PropertyDescription) : bytes :=
  let type_octet := Z.lor (if pd_writable d then PROPERTY_DESCRIPTION_WRITE_ENABLE else 0)
                          (Z.land (pd_pdt d) PROPERTY_DESCRIPTION_PDT_MASK) in
  let max := Z.land (pd_max_elements d) 4095 in
  let access := Z.lor (as_u8 (Z.shiftl (Z.land (pd_read_level d) 15) 4))
                      (Z.land (pd_write_level d) 15) in
  [pd_object_index d; pd_property_id d; pd_property_index d; type_octet;
   as_u8 (Z.shiftr max 8); as_u8 (Z.land max 255); access].

Definition decode_property_description_response (payload : bytes) : option PropertyDescription :=
  match payload with
  | o :: p :: i :: t :: m1 :: m0 :: a :: _ =>
      Some (MkPropertyDescription o p i
              (negb (Z.land t PROPERTY_DESCRIPTION_WRITE_ENABLE =? 0))
              (Z.land t PROPERTY_DESCRIPTION_PDT_MASK)
              (Z.land (Z.lor (as_u16 (Z.shiftl m1 8)) m0) 4095)
              (Z.land (Z.shiftr a 4) 15) (Z.land a 15))
  | _ => None
  end.

(** ** Device descriptor, restart, authorize *)

Definition encode_device_descriptor_read (descriptor_type : u8) : u16 * bytes :=
  (Z.lor A_DEVICE_DESCRIPTOR_READ (Z.land descriptor_type 63), []).

Definition decode_device_descriptor_response (payload : bytes) : option u16 :=
  match payload with
  | hi :: lo :: _ => Some (u16_of hi lo)
  | _ => None
  end.

Definition encode_restart (variant : u8) : u16 * bytes :=
  (Z.lor A_RESTART (Z.land variant 63), []).

Definition encode_master_reset (erase_code channel_number : u8) : u16 * bytes :=
  (A_RESTART_MASTER_RESET, [erase_code; channel_number]).

Definition ERASE_CODE_CONFIRMED_RESTART : u8 := 1.
Definition ERASE_CODE_FACTORY_RESET_KEEP_IA : u8 := 7.

Record RestartResponse : Type := MkRestartResponse {
  rr_error_code : u8;
  rr_process_time_s : u16 }.

Definition decode_restart_response (payload : bytes) : u8 := default 0 (head payload).

Definition decode_restart_response_full (payload : bytes) : RestartResponse :=
  MkRestartResponse (decode_restart_response payload)
    (match payload with
     | _ :: hi :: lo :: _ => u16_of hi lo
     | _ => 0
     end).

Definition encode_authorize_request (key : u32) : bytes := 0 :: be_bytes 4 key.

Definition decode_authorize_response (payload : bytes) : option u8 := head payload.

(** ** Memory below 64 KiB: the count rides the low bits of the APCI *)

Definition encode_memory_read (addr : u16) (count : u8) : u16 * bytes :=
  let count := Z.land (Z.min count MAX_MEMORY_READ_LEN) 63 in
  (Z.lor A_MEMORY_READ count, be_bytes 2 addr).

Definition encode_memory_response (addr : u16) (data : bytes) : u16 * bytes :=
  let count := Z.land (as_u8 (Z.min (zlen data) MAX_MEMORY_READ_LEN)) 63 in
  (Z.lor A_MEMORY_RESPONSE count, be_bytes 2 addr ++ take (Z.to_nat count) data).

Record MemoryResponse : Type := MkMemoryResponse {
  mr_count : u8;
  mr_addr : u16;
  mr_data : bytes }.

Definition MemoryResponse_is_refusal (r : MemoryResponse) : bool := mr_count r =? 0.

Definition decode_memory_response (resp_apci : u16) (payload : bytes) : option MemoryResponse :=
  if negb (Z.land resp_apci APCI_SELECTOR_MASK =? A_MEMORY_RESPONSE) then None else
  match payload with
  | hi :: lo :: data =>
      let count := as_u8 (Z.land resp_apci 63) in
      if zlen data <? count then None
      else Some (MkMemoryResponse count (u16_of hi lo) (take (Z.to_nat count) data))
  | _ => None
  end.

Definition encode_memory_write (addr : u16) (data : bytes) : u16 * bytes :=
  let count := Z.land (as_u8 (Z.min (zlen data) MAX_MEMORY_WRITE_LEN)) 63 in
  (Z.lor A_MEMORY_WRITE count, be_bytes 2 addr ++ take (Z.to_nat count) data).

Record MemoryWrite : Type := MkMemoryWrite {
  mw_count : u8;
  mw_addr : u16;
  mw_data : bytes }.

Definition decode_memory_write (req_apci : u16) (payload : bytes) : option MemoryWrite :=
  if negb (Z.land req_apci APCI_SELECTOR_MASK =? A_MEMORY_WRITE) then None else
  match payload with
  | hi :: lo :: data =>
      let count := as_u8 (Z.land req_apci 63) in
      if zlen data <? count then None
      else Some (MkMemoryWrite count (u16_of hi lo) (take (Z.to_nat count) data))
  | _ => None
  end.

(** ** Extended memory: 24-bit addresses *)

Definition addr_3_octets_be (addr : u32) : bytes :=
  let a := Z.land addr MAX_MEMORY_ADDRESS in
  [as_u8 (Z.shiftr a 16); as_u8 (Z.shiftr a 8); as_u8 a].

Definition encode_memory_extended_write (addr : u32) (data : bytes) : u16 * bytes :=
  let count := as_u8 (Z.min (zlen data) MAX_EXTENDED_MEMORY_LEN) in
  (A_MEMORY_EXTENDED_WRITE, count :: addr_3_octets_be addr ++ take (Z.to_nat count) data).

Definition encode_memory_extended_read (addr : u32) (count : u16) : u16 * bytes :=
  let count := as_u8 (Z.min count MAX_EXTENDED_MEMORY_LEN) in
  (A_MEMORY_EXTENDED_READ, count :: addr_3_octets_be addr).

Record ExtendedMemoryRequest : Type := MkExtendedMemoryRequest {
  emq_count : u8;
  emq_addr : u32;
  emq_data : bytes }.

Definition decode_memory_extended_request (payload : bytes) (is_write : bool)
    : option ExtendedMemoryRequest :=
  match payload with
  | count :: a2 :: a1 :: a0 :: data =>
      let addr := be_val [0; a2; a1; a0] in
      if is_write then
        if zlen data <? count then None
        else Some (MkExtendedMemoryRequest count addr (take (Z.to_nat count) data))
      else Some (MkExtendedMemoryRequest count addr [])
  | _ => None
  end.

Record ExtendedMemoryResponse : Type := MkExtendedMemoryResponse {
  emr_return_code : u8;
  emr_addr : u32;
  emr_data : bytes }.

Definition encode_memory_extended_write_response (return_code : u8) (addr : u32) : u16 * bytes :=
  (A_MEMORY_EXTENDED_WRITE_RESPONSE, return_code :: addr_3_octets_be addr).

Definition encode_memory_extended_read_response (return_code : u8) (addr : u32) (data : bytes)
    : u16 * bytes :=
  (A_MEMORY_EXTENDED_READ_RESPONSE, return_code :: addr_3_octets_be addr ++ data).

Definition decode_memory_extended_response (resp_apci : u16) (payload : bytes)
    : option ExtendedMemoryResponse :=
  if negb (resp_apci =? A_MEMORY_EXTENDED_WRITE_RESPONSE)
     && negb (resp_apci =? A_MEMORY_EXTENDED_READ_RESPONSE) then None else
  match payload with
  | code :: a2 :: a1 :: a0 :: data =>
      Some (MkExtendedMemoryResponse code (be_val [0; a2; a1; a0]) data)
  | _ => None
  end.

(** ** Lemmas: headers *)

(** Shifts, masks and truncations as division and remainder, for [lia]. *)
Ltac bits_arith :=
  unfold as_u8, as_u16, u16_of in *;
  repeat rewrite shiftr_div in * by lia;
  repeat rewrite Z.shiftl_mul_pow2 in * by lia;
  repeat first
    [ rewrite (land_mask 4 15) in * by (lia || reflexivity)
    | rewrite (land_mask 6 63) in * by (lia || reflexivity)
    | rewrite (land_mask 8 255) in * by (lia || reflexivity)
    | rewrite (land_mask 12 4095) in * by (lia || reflexivity)
    | rewrite (land_mask 20 1048575) in * by (lia || reflexivity)
    | rewrite (land_mask 24 16777215) in * by (lia || reflexivity) ];
  change (2 ^ 4) with 16 in *; change (2 ^ 6) with 64 in *; change (2 ^ 8) with 256 in *;
  change (2 ^ 12) with 4096 in *; change (2 ^ 16) with 65536 in *;
  change (2 ^ 20) with 1048576 in *; change (2 ^ 24) with 16777216 in *.

Lemma lor_nibbles hi lo : 0 <= hi < 16 -> 0 <= lo < 16 ->
  let o := Z.lor (as_u8 (Z.shiftl hi 4)) lo in
  is_u8 o /\ Z.shiftr o 4 = hi /\ Z.land o 15 = lo.
Proof.
  intros Hh Hl o. assert (Ho : o = hi * 16 + lo).
  { unfold o, as_u8. rewrite Z.mod_small.
    - apply (lor_shiftl_add 4); lia.
    - rewrite Z.shiftl_mul_pow2 by lia. change (2 ^ 4) with 16. lia. }
  rewrite Ho. bits_arith. unfold is_u8. Z.to_euclidean_division_equations; lia.
Qed.

Lemma addr_3_octets_val addr : 0 <= addr <= MAX_MEMORY_ADDRESS ->
  exists a2 a1 a0, addr_3_octets_be addr = [a2; a1; a0] /\ bytes_ok [a2; a1; a0] /\
    be_val [0; a2; a1; a0] = addr.
Proof.
  unfold MAX_MEMORY_ADDRESS. intros Ha. eexists _, _, _. split; [reflexivity|].
  unfold MAX_MEMORY_ADDRESS. bits_arith. split.
  - repeat constructor; unfold is_u8; Z.to_euclidean_division_equations; lia.
  - cbn [be_val length]. change (Z.of_nat 0) with 0. change (Z.of_nat 1) with 1.
    change (Z.of_nat 2) with 2. change (Z.of_nat 3) with 3.
    rewrite (Z.mod_small addr) by lia.
    change (256 ^ 3) with 16777216. change (256 ^ 2) with 65536. change (256 ^ 1) with 256.
    change (256 ^ 0) with 1. Z.to_euclidean_division_equations; lia.
Qed.

Lemma user_memory_header_val addr count :
  0 <= addr <= MAX_USER_MEMORY_ADDRESS -> 0 <= count <= MAX_USER_MEMORY_LEN ->
  exists h0 h1 h2, user_memory_header addr count = [h0; h1; h2] /\ bytes_ok [h0; h1; h2] /\
    Z.land h0 15 = count /\ Z.lor (Z.shiftl (Z.shiftr h0 4) 16) (u16_of h1 h2) = addr.
Proof.
  unfold MAX_USER_MEMORY_ADDRESS, MAX_USER_MEMORY_LEN. intros Ha Hc.
  eexists _, _, _. split; [reflexivity|]. unfold MAX_USER_MEMORY_ADDRESS.
  assert (Hext : as_u8 (Z.shiftr (Z.land addr 1048575) 16) = addr / 65536).
  { bits_arith. Z.to_euclidean_division_equations; lia. }
  rewrite Hext.
  destruct (lor_nibbles (addr / 65536) (Z.land count 15)) as (Hu & Hs & Hl).
  { Z.to_euclidean_division_equations; lia. }
  { bits_arith. Z.to_euclidean_division_equations; lia. }
  assert (Hlow : u16_of (as_u8 (Z.shiftr (Z.land addr 1048575) 8)) (as_u8 (Z.land addr 1048575))
                 = addr mod 65536).
  { bits_arith. Z.to_euclidean_division_equations; lia. }
  split; [|split].
  - constructor; [done|]. repeat constructor; unfold is_u8, as_u8; apply Z.mod_pos_bound; lia.
  - rewrite Hl. bits_arith. Z.to_euclidean_division_equations; lia.
  - rewrite Hs, Hlow, lor_shiftl_add by (Z.to_euclidean_division_equations; lia).
    Z.to_euclidean_division_equations; lia.
Qed.

(** The count in the low bits of an APCI of a memory service. *)
Lemma apci_count base n : base = A_MEMORY_READ \/ base = A_MEMORY_RESPONSE \/ base = A_MEMORY_WRITE ->
  0 <= n < 64 ->
  Z.land (Z.lor base n) APCI_SELECTOR_MASK = base /\ as_u8 (Z.land (Z.lor base n) 63) = n /\
  0 <= Z.lor base n < 1024.
Proof.
  intros Hb Hn.
  assert (H : forall base, base = A_MEMORY_READ \/ base = A_MEMORY_RESPONSE \/ base = A_MEMORY_WRITE ->
    all_below 64 (fun n => bool_decide (Z.land (Z.lor base n) APCI_SELECTOR_MASK = base /\
      as_u8 (Z.land (Z.lor base n) 63) = n /\ 0 <= Z.lor base n < 1024)) = true)
    by (intros b [-> | [-> | ->]]; vm_compute; reflexivity).
  exact (below_decide 64 (fun n => Z.land (Z.lor base n) APCI_SELECTOR_MASK = base /\
      as_u8 (Z.land (Z.lor base n) 63) = n /\ 0 <= Z.lor base n < 1024) (H base Hb) n Hn).
Qed.

(** A count no larger than the limit survives the clamps. *)
Lemma clamp_count (data : bytes) limit : 0 <= limit <= 63 -> zlen data <= limit ->
  Z.land (as_u8 (Z.min (zlen data) limit)) 63 = zlen data.
Proof.
  intros Hl Hn. assert (0 <= zlen data) by (unfold zlen; lia).
  rewrite Z.min_l by done. unfold as_u8. rewrite (Z.mod_small _ 256) by lia.
  rewrite (land_mask 6 63) by (lia || reflexivity). apply Z.mod_small. lia.
Qed.

Lemma take_zlen (l : bytes) : take (Z.to_nat (zlen l)) l = l.
Proof. unfold zlen. rewrite Nat2Z.id. apply firstn_all. Qed.

Lemma encode_memory_write_eq addr data : is_u16 addr -> zlen data <= MAX_MEMORY_WRITE_LEN ->
  encode_memory_write addr data = (Z.lor A_MEMORY_WRITE (zlen data), be_bytes 2 addr ++ data).
Proof.
  intros Ha Hn. unfold encode_memory_write, MAX_MEMORY_WRITE_LEN in *.
  rewrite clamp_count, take_zlen by lia. done.
Qed.

(** ** Round trips *)

Lemma memory_write_roundtrip addr data : is_u16 addr -> zlen data <= MAX_MEMORY_WRITE_LEN ->
  decode_memory_write (fst (encode_memory_write addr data)) (snd (encode_memory_write addr data))
  = Some (MkMemoryWrite (zlen data) addr data).
Proof.
  intros Ha Hn. rewrite encode_memory_write_eq by done. unfold decode_memory_write. cbn [fst snd].
  assert (Hz : 0 <= zlen data < 64) by (unfold zlen, MAX_MEMORY_WRITE_LEN in *; lia).
  destruct (apci_count A_MEMORY_WRITE (zlen data)) as (-> & -> & _); [tauto|done|].
  rewrite Z.eqb_refl. destruct (be_bytes_2_u16 addr Ha) as (hi & lo & -> & _ & _ & <-). cbn [negb app].
  rewrite (proj2 (Z.ltb_ge _ _)) by lia. by rewrite take_zlen.
Qed.

Lemma memory_response_roundtrip addr data : is_u16 addr -> zlen data <= MAX_MEMORY_READ_LEN ->
  decode_memory_response (fst (encode_memory_response addr data))
    (snd (encode_memory_response addr data))
  = Some (MkMemoryResponse (zlen data) addr data).
Proof.
  intros Ha Hn. unfold encode_memory_response, MAX_MEMORY_READ_LEN in *.
  assert (Hz : 0 <= zlen data < 64) by (unfold zlen in *; lia).
  rewrite clamp_count, take_zlen by lia. unfold decode_memory_response. cbn [fst snd].
  destruct (apci_count A_MEMORY_RESPONSE (zlen data)) as (-> & -> & _); [tauto|done|].
  rewrite Z.eqb_refl. destruct (be_bytes_2_u16 addr Ha) as (hi & lo & -> & _ & _ & <-). cbn [negb app].
  rewrite (proj2 (Z.ltb_ge _ _)) by lia. by rewrite take_zlen.
Qed.

Lemma extended_write_roundtrip addr data :
  0 <= addr <= MAX_MEMORY_ADDRESS -> zlen data <= MAX_EXTENDED_MEMORY_LEN ->
  decode_memory_extended_request (snd (encode_memory_extended_write addr data)) true
  = Some (MkExtendedMemoryRequest (zlen data) addr data).
Proof.
  intros Ha Hn. unfold encode_memory_extended_write. cbn [snd].
  assert (Hz : as_u8 (Z.min (zlen data) MAX_EXTENDED_MEMORY_LEN) = zlen data).
  { unfold MAX_EXTENDED_MEMORY_LEN, as_u8 in *. rewrite Z.min_l by lia.
    apply Z.mod_small. unfold zlen in *. lia. }
  rewrite Hz, take_zlen. destruct (addr_3_octets_val addr Ha) as (a2 & a1 & a0 & -> & _ & Hv).
  unfold decode_memory_extended_request. cbn [app]. rewrite Hv.
  rewrite (proj2 (Z.ltb_ge _ _)) by lia. by rewrite take_zlen.
Qed.

Lemma extended_read_roundtrip addr count :
  0 <= addr <= MAX_MEMORY_ADDRESS -> 0 <= count <= MAX_EXTENDED_MEMORY_LEN ->
  decode_memory_extended_request (snd (encode_memory_extended_read addr count)) false
  = Some (MkExtendedMemoryRequest count addr []).
Proof.
  intros Ha Hn. unfold encode_memory_extended_read, MAX_EXTENDED_MEMORY_LEN in *. cbn [snd].
  destruct (addr_3_octets_val addr Ha) as (a2 & a1 & a0 & -> & _ & Hv).
  unfold decode_memory_extended_request. rewrite Hv, Z.min_l by lia.
  unfold as_u8. by rewrite Z.mod_small by lia.
Qed.

Lemma extended_response_roundtrip code addr data : 0 <= addr <= MAX_MEMORY_ADDRESS ->
  decode_memory_extended_response A_MEMORY_EXTENDED_READ_RESPONSE
    (snd (encode_memory_extended_read_response code addr data))
  = Some (MkExtendedMemoryResponse code addr data).
Proof.
  intros Ha. destruct (addr_3_octets_val addr Ha) as (a2 & a1 & a0 & E & _ & Hv).
  unfold encode_memory_extended_read_response. rewrite E. unfold decode_memory_extended_response.
  cbn [snd app]. by rewrite Hv.
Qed.

Lemma extended_write_response_roundtrip code addr : 0 <= addr <= MAX_MEMORY_ADDRESS ->
  decode_memory_extended_response A_MEMORY_EXTENDED_WRITE_RESPONSE
    (snd (encode_memory_extended_write_response code addr))
  = Some (MkExtendedMemoryResponse code addr []).
Proof.
  intros Ha. destruct (addr_3_octets_val addr Ha) as (a2 & a1 & a0 & E & _ & Hv).
  unfold encode_memory_extended_write_response. rewrite E. unfold decode_memory_extended_response.
  cbn [snd]. by rewrite Hv.
Qed.

Lemma user_write_roundtrip addr data :
  0 <= addr <= MAX_USER_MEMORY_ADDRESS -> zlen data <= MAX_USER_MEMORY_LEN ->
  decode_user_memory A_USER_MEMORY_WRITE (snd (encode_user_memory_write addr data))
  = Some (MkUserMemory (zlen data) addr data).
Proof.
  intros Ha Hn. unfold encode_user_memory_write. cbn [snd].
  assert (Hz : 0 <= zlen data) by (unfold zlen; lia).
  assert (Hc : as_u8 (Z.min (zlen data) MAX_USER_MEMORY_LEN) = zlen data).
  { unfold MAX_USER_MEMORY_LEN, as_u8 in *. rewrite Z.min_l by lia. apply Z.mod_small. lia. }
  rewrite Hc, take_zlen.
  destruct (user_memory_header_val addr (zlen data)) as (h0 & h1 & h2 & -> & _ & Hcount & Haddr);
    [done|lia|]. unfold decode_user_memory. cbn [app]. rewrite Hcount, Haddr.
  unfold get_range. rewrite bool_decide_eq_true_2.
  - unfold slice. rewrite Nat.add_comm, Nat.add_sub. change (drop 3 (h0 :: h1 :: h2 :: data)) with data.
    by rewrite take_zlen.
  - cbn [length]. unfold zlen. lia.
Qed.

Lemma user_read_roundtrip addr count :
  0 <= addr <= MAX_USER_MEMORY_ADDRESS -> 0 <= count <= MAX_USER_MEMORY_LEN ->
  decode_user_memory A_USER_MEMORY_READ (snd (encode_user_memory_read addr count))
  = Some (MkUserMemory count addr []).
Proof.
  intros Ha Hc. unfold encode_user_memory_read. rewrite Z.min_l by lia.
  destruct (user_memory_header_val addr count) as (h0 & h1 & h2 & -> & _ & Hcount & Haddr);
    [done|done|]. unfold decode_user_memory. cbn [snd]. by rewrite Hcount, Haddr.
Qed.

Lemma property_header_octets o p count start : 0 <= count <= 15 -> 0 <= start <= 4095 ->
  exists c s, encode_property_value_read o p count start = [o; p; c; s] /\ is_u8 c /\ is_u8 s /\
    Z.land (Z.shiftr c 4) 15 = count /\ Z.lor (Z.shiftl (Z.land c 15) 8) s = start.
Proof.
  intros Hc Hs. unfold encode_property_value_read. rewrite Z.min_l by lia.
  eexists _, _. split; [reflexivity|].
  assert (H4095 : Z.land start 4095 = start).
  { rewrite (land_mask 12 4095) by (lia || reflexivity). apply Z.mod_small. lia. }
  rewrite H4095.
  assert (Hhi : Z.land (as_u8 (Z.shiftr start 8)) 15 = start / 256).
  { bits_arith. Z.to_euclidean_division_equations; lia. }
  destruct (lor_nibbles count (Z.land (as_u8 (Z.shiftr start 8)) 15)) as (Hu & H1 & H2);
    [lia|rewrite Hhi; Z.to_euclidean_division_equations; lia|].
  assert (Hlo : as_u8 (Z.land start 255) = start mod 256).
  { bits_arith. Z.to_euclidean_division_equations; lia. }
  split; [done|]. rewrite Hlo. split; [unfold is_u8; apply Z.mod_pos_bound; lia|].
  rewrite H1, H2, Hhi. split.
  - rewrite (land_mask 4 15) by (lia || reflexivity). apply Z.mod_small. lia.
  - rewrite lor_shiftl_add by (Z.to_euclidean_division_equations; lia).
    change (2 ^ 8) with 256. Z.to_euclidean_division_equations; lia.
Qed.

Lemma property_value_roundtrip o p count start value : 0 <= count <= 15 -> 0 <= start <= 4095 ->
  decode_property_value_response (encode_property_value_write o p count start value)
  = Some (MkPropertyValueResponse o p count start value) /\
  decode_property_value_read (encode_property_value_read o p count start)
  = Some (MkPropertyValueRead o p count start).
Proof.
  intros Hc Hs. unfold encode_property_value_write.
  destruct (property_header_octets o p count start Hc Hs) as (c & s & -> & _ & _ & H1 & H2).
  cbn [app decode_property_value_response decode_property_value_read]. by rewrite H1, H2.
Qed.

(** A 12-bit count in two octets. *)
Lemma split_12_bits m : 0 <= m < 4096 ->
  Z.lor (as_u16 (Z.shiftl (as_u8 (Z.shiftr m 8)) 8)) (as_u8 (Z.land m 255)) = m.
Proof.
  intros Hm.
  assert (Hhi : as_u8 (Z.shiftr m 8) = m / 256) by (bits_arith; Z.to_euclidean_division_equations; lia).
  assert (Hlo : as_u8 (Z.land m 255) = m mod 256) by (bits_arith; Z.to_euclidean_division_equations; lia).
  rewrite Hhi, Hlo. unfold as_u16. rewrite Z.mod_small.
  - rewrite lor_shiftl_add by (Z.to_euclidean_division_equations; lia).
    change (2 ^ 8) with 256. Z.to_euclidean_division_equations; lia.
  - rewrite Z.shiftl_mul_pow2 by lia. change (2 ^ 8) with 256. Z.to_euclidean_division_equations; lia.
Qed.

Definition PropertyDescription_ok (d : PropertyDescription) : Prop :=
  0 <= pd_pdt d < 64 /\ 0 <= pd_max_elements d < 4096 /\
  0 <= pd_read_level d < 16 /\ 0 <= pd_write_level d < 16.

Lemma property_description_roundtrip d : PropertyDescription_ok d ->
  decode_property_description_response (encode_property_description_response d) = Some d.
Proof.
  destruct d as [o p i w pdt m r wl]. intros (Hp & Hm & Hr & Hw). simpl in *.
  unfold encode_property_description_response, decode_property_description_response. cbn.
  assert (Ht : forall pdt, 0 <= pdt < 64 -> forall w : bool,
    negb (Z.land (Z.lor (if w then 128 else 0) (Z.land pdt 63)) 128 =? 0) = w /\
    Z.land (Z.lor (if w then 128 else 0) (Z.land pdt 63)) 63 = pdt).
  { intros q Hq w'. refine (below_decide 64 (fun q =>
      negb (Z.land (Z.lor (if w' then 128 else 0) (Z.land q 63)) 128 =? 0) = w' /\
      Z.land (Z.lor (if w' then 128 else 0) (Z.land q 63)) 63 = q) _ q Hq).
    destruct w'; vm_compute; reflexivity. }
  destruct (Ht pdt Hp w) as [Hw1 Hw2].
  unfold PROPERTY_DESCRIPTION_WRITE_ENABLE, PROPERTY_DESCRIPTION_PDT_MASK. rewrite Hw1, Hw2.
  assert (Hr' : Z.land r 15 = r) by (rewrite (land_mask 4 15) by (lia || reflexivity); apply Z.mod_small; lia).
  assert (Hwl : Z.land wl 15 = wl) by (rewrite (land_mask 4 15) by (lia || reflexivity); apply Z.mod_small; lia).
  assert (Hm' : Z.land m 4095 = m) by (rewrite (land_mask 12 4095) by (lia || reflexivity); apply Z.mod_small; lia).
  rewrite Hr', Hwl, Hm'. destruct (lor_nibbles r wl Hr Hw) as (_ & -> & ->). rewrite Hr'.
  by rewrite split_12_bits, Hm' by done.
Qed.
