(* ===== verification/Connection.v ===== *)
(** * The client's transport connection ([bussard-mgmt/src/connection.rs, secure.rs])

    The client side of a connection-oriented transport connection: numbered
    requests with acknowledgement and repetition, responses with duplicate
    suppression, the Data Secure layer with its sync handshake, the reconnect
    after an idle timeout, and authorization.  The channel that carries the
    frames, with its clock, is the interface [L4World].  Durations and instants
    are in milliseconds. *)

From S2P Require Import Prelude Address Cursor Cemi Tpci Crypto Sequence Asdu SecureSession.
From S2P Require Import MgmtError Apci.

Local Open Scope string_scope.
Local Open Scope list_scope.
Local Open Scope Z_scope.

(** ** The Data Secure layer ([secure.rs]) *)

Record SecureLayer : Type := MkSecureLayer {
  sl_session : option DataSecureSession;
  sl_fallback : option Key16;
  sl_on_factory_key : bool }.

Definition SecureLayer_plain : SecureLayer := MkSecureLayer None None false.

Definition SecureLayer_activated (session : DataSecureSession) : SecureLayer :=
  MkSecureLayer (Some session) None false.

Definition SecureLayer_with_factory_key_fallback (l : SecureLayer) (fdsk : Key16) : SecureLayer :=
  match sl_session l with
  | Some _ => MkSecureLayer (sl_session l) (Some fdsk) (sl_on_factory_key l)
  | None => l
  end.

(** [self.fallback.take()]: the fallback is gone whatever the answer. *)
Definition SecureLayer_switch_to_factory_key (l : SecureLayer) : bool * SecureLayer :=
  match sl_session l, sl_fallback l with
  | Some session, Some fdsk =>
      (true, MkSecureLayer (Some (DataSecureSession_set_tool_key session fdsk)) None true)
  | _, _ => (false, MkSecureLayer (sl_session l) None (sl_on_factory_key l))
  end.

Definition SecureLayer_set_tool_key (l : SecureLayer) (tool_key : Key16) : bool * SecureLayer :=
  match sl_session l with
  | Some session =>
      (true, MkSecureLayer (Some (DataSecureSession_set_tool_key session tool_key))
               (sl_fallback l) (sl_on_factory_key l))
  | None => (false, l)
  end.

Definition SecureLayer_device_next_sequence (l : SecureLayer) (device : IndividualAddress)
    : option u64 :=
  session ← sl_session l;
  Sequence_value <$> DataSecureSession_peer_next_sequence session (IndividualAddress_raw device).

Definition SecureLayer_set_session (l : SecureLayer) (session : DataSecureSession) : SecureLayer :=
  MkSecureLayer (Some session) (sl_fallback l) (sl_on_factory_key l).

Definition SecureLayer_expect_device_sequence (l : SecureLayer) (device : IndividualAddress)
    (next : u64) : SecureLayer :=
  match sl_session l with
  | Some session =>
      SecureLayer_set_session l
        (DataSecureSession_expect_peer_sequence session (IndividualAddress_raw device)
           (Sequence_new next))
  | None => l
  end.

Definition SecureLayer_is_active (l : SecureLayer) : bool :=
  match sl_session l with Some _ => true | None => false end.

Definition SecureLayer_needs_sync (l : SecureLayer) : bool :=
  match sl_session l with
  | Some session => negb (DataSecureSession_is_synced session)
  | None => false
  end.

Definition SecureLayer_is_synced (l : SecureLayer) : bool :=
  match sl_session l with
  | Some session => DataSecureSession_is_synced session
  | None => false
  end.

Definition tp_addressing (source dest : IndividualAddress) (tpci : u8) : TpAddressing :=
  MkTpAddressing (IndividualAddress_raw source) (IndividualAddress_raw dest) false 0 tpci.

Section SecureLayer.
  Context `{C : SecureCiphers}.

Definition SecureLayer_sync_request (l : SecureLayer) (env : HighWaterState)
    (target source : IndividualAddress) (tpci : u8) (random : u64)
    : result MgmtError (u16 * bytes) * SecureLayer * HighWaterState :=
  match sl_session l with
  | None => (Err (SecureFailed (UnexpectedService 146)), l, env)
  | Some session =>
      let '(r, session, env) :=
        DataSecureSession_sync_request session env (tp_addressing source target tpci) random in
      (map_err SecureFailed r, SecureLayer_set_session l session, env)
  end.

Definition SecureLayer_wrap_outgoing (l : SecureLayer) (env : HighWaterState)
    (target source : IndividualAddress) (tpci : u8) (apci : u16) (data : bytes)
    : result MgmtError (u16 * bytes) * SecureLayer * HighWaterState :=
  match sl_session l with
  | None => (Ok (apci, data), l, env)
  | Some session =>
      let '(r, session, env) :=
        DataSecureSession_wrap session env (tp_addressing source target tpci) apci data in
      (map_err SecureFailed r, SecureLayer_set_session l session, env)
  end.

Definition SecureLayer_unwrap_incoming (l : SecureLayer) (source dest : IndividualAddress)
    (tpci : u8) (apci : u16) (data : bytes) : result MgmtError (u16 * bytes) * SecureLayer :=
  match sl_session l with
  | None => (Ok (apci, data), l)
  | Some session =>
      let '(r, session) :=
        DataSecureSession_unwrap session (tp_addressing source dest tpci) apci data in
      (match r with
       | Err e => Err (SecureFailed e)
       | Ok (Secured apci data) => Ok (apci, data)
       | Ok Plain => Ok (apci, data)
       | Ok (Synced _ _) => Ok (A_SECURE_DATA, [])
       end, SecureLayer_set_session l session)
  end.

End SecureLayer.

(** ** Budgets *)

Definition ACK_TIMEOUT : Z := 3000.
Definition CLIENT_MAX_REPETITIONS : u32 := 3.
Definition CLIENT_CONNECTION_TIMEOUT : Z := 6000.
Definition IDLE_DRAIN_FRAMES : nat := 64.
Definition IDLE_DRAIN_WAIT : Z := 20.
Definition RESPONSE_TIMEOUT : Z := 3000.
Definition PROBE_TIMEOUT : Z := 600.
Definition MAX_SYNC_BACKOFF : Z := 2000.
Definition SYNC_IDLE_MARGIN : Z := 1000.
Definition SECURE_APDU_OVERHEAD : u16 := 13.
Definition STANDARD_FRAME_APDU : u16 := 15.

Record Timeouts : Type := MkTimeouts {
  ack_timeout : Z;
  max_repetitions : u32;
  response_timeout : Z;
  absent_on_negative_confirmation : bool }.

(** The environment override ([BUSSARD_MGMT_TIMEOUT_MS]) is an argument. *)
Definition Timeouts_default (wait : option Z) : Timeouts :=
  MkTimeouts (default ACK_TIMEOUT wait) CLIENT_MAX_REPETITIONS (default RESPONSE_TIMEOUT wait) false.

Definition Timeouts_uniform (wait : Z) (max_repetitions : u32) (absent : bool) : Timeouts :=
  MkTimeouts wait max_repetitions wait absent.

Definition Timeouts_discovery : Timeouts := MkTimeouts 1500 1 1500 true.

Definition Timeouts_probe : Timeouts := MkTimeouts PROBE_TIMEOUT 0 PROBE_TIMEOUT false.

Record SyncRetry : Type := MkSyncRetry {
  attempts : u32;
  initial_backoff : Z;
  max_backoff : Z }.

Definition SyncRetry_with_backoff_cap (r : SyncRetry) (cap : Z) : SyncRetry :=
  MkSyncRetry (attempts r) (Z.min (initial_backoff r) cap) (Z.min (max_backoff r) cap).

Definition SyncRetry_with_env_cap (r : SyncRetry) (wait : option Z) : SyncRetry :=
  match wait with
  | Some cap => SyncRetry_with_backoff_cap r cap
  | None => r
  end.

Definition SyncRetry_default (wait : option Z) : SyncRetry :=
  SyncRetry_with_env_cap (MkSyncRetry 3 1000 MAX_SYNC_BACKOFF) wait.

Definition SyncRetry_after_restart (wait : option Z) : SyncRetry :=
  SyncRetry_with_env_cap (MkSyncRetry 7 1000 MAX_SYNC_BACKOFF) wait.

(** ** The connection's state *)

Inductive AuthorizeOutcome : Type :=
| Granted (level : u8)
| Denied (level : u8)
| Unsupported.

Definition AuthorizeOutcome_granted (o : AuthorizeOutcome) : bool :=
  match o with Granted _ => true | _ => false end.

Definition AuthorizeOutcome_level (o : AuthorizeOutcome) : option u8 :=
  match o with
  | Granted level | Denied level => Some level
  | Unsupported => None
  end.

Definition AuthorizeOutcome_grants (o : AuthorizeOutcome) (required : u8) : bool :=
  match o with
  | Granted level => level <=? required
  | _ => false
  end.

Definition is_minimum_access_level (level : u8) : bool := (level =? 3) || (15 <=? level).

Inductive MaxApduAbsence : Type := Answered | Unanswered.

Record ConnectionSeed : Type := MkConnectionSeed {
  seed_mask : option u16;
  seed_object_table : list (u8 * u16);
  seed_max_apdu : option u16;
  seed_authorize_unanswered : bool }.

Record Layer4Connection : Type := MkConnection {
  l4c_target : IndividualAddress;
  l4c_source : IndividualAddress;
  l4c_timeouts : Timeouts;
  l4c_send_seq : u8;
  l4c_recv_seq : u8;
  l4c_last_send_apci : u16;
  l4c_numbered_exchanges : u32;
  l4c_pending_response : option (u16 * bytes);
  l4c_expect_memory_echo : bool;
  l4c_max_apdu : option u16;
  l4c_max_apdu_absent : option MaxApduAbsence;
  l4c_closed : bool;
  l4c_peer_open : bool;
  l4c_last_traffic : Z;
  l4c_connection_timeout : Z;
  l4c_idle_reconnects : u32;
  l4c_authorize_key : option u32;
  l4c_secure : SecureLayer;
  l4c_sync_retry : SyncRetry;
  l4c_seed : option ConnectionSeed;
  l4c_last_authorize : option AuthorizeOutcome;
  l4c_data_priority : Priority;
  l4c_user_memory_above_64k : bool }.

(** Field updates. *)
Definition l4c_set_timeouts (v : Timeouts) (c : Layer4Connection) : Layer4Connection :=
  MkConnection (l4c_target c) (l4c_source c) v (l4c_send_seq c) (l4c_recv_seq c)
    (l4c_last_send_apci c) (l4c_numbered_exchanges c) (l4c_pending_response c)
    (l4c_expect_memory_echo c) (l4c_max_apdu c) (l4c_max_apdu_absent c) (l4c_closed c)
    (l4c_peer_open c) (l4c_last_traffic c) (l4c_connection_timeout c) (l4c_idle_reconnects c)
    (l4c_authorize_key c) (l4c_secure c) (l4c_sync_retry c) (l4c_seed c) (l4c_last_authorize c)
    (l4c_data_priority c) (l4c_user_memory_above_64k c).
Definition l4c_set_send_seq (v : u8) (c : Layer4Connection) : Layer4Connection :=
  MkConnection (l4c_target c) (l4c_source c) (l4c_timeouts c) v (l4c_recv_seq c)
    (l4c_last_send_apci c) (l4c_numbered_exchanges c) (l4c_pending_response c)
    (l4c_expect_memory_echo c) (l4c_max_apdu c) (l4c_max_apdu_absent c) (l4c_closed c)
    (l4c_peer_open c) (l4c_last_traffic c) (l4c_connection_timeout c) (l4c_idle_reconnects c)
    (l4c_authorize_key c) (l4c_secure c) (l4c_sync_retry c) (l4c_seed c) (l4c_last_authorize c)
    (l4c_data_priority c) (l4c_user_memory_above_64k c).
Definition l4c_set_recv_seq (v : u8) (c : Layer4Connection) : Layer4Connection :=
  MkConnection (l4c_target c) (l4c_source c) (l4c_timeouts c) (l4c_send_seq c) v
    (l4c_last_send_apci c) (l4c_numbered_exchanges c) (l4c_pending_response c)
    (l4c_expect_memory_echo c) (l4c_max_apdu c) (l4c_max_apdu_absent c) (l4c_closed c)
    (l4c_peer_open c) (l4c_last_traffic c) (l4c_connection_timeout c) (l4c_idle_reconnects c)
    (l4c_authorize_key c) (l4c_secure c) (l4c_sync_retry c) (l4c_seed c) (l4c_last_authorize c)
    (l4c_data_priority c) (l4c_user_memory_above_64k c).
Definition l4c_set_last_send_apci (v : u16) (c : Layer4Connection) : Layer4Connection :=
  MkConnection (l4c_target c) (l4c_source c) (l4c_timeouts c) (l4c_send_seq c) (l4c_recv_seq c)
    v (l4c_numbered_exchanges c) (l4c_pending_response c) (l4c_expect_memory_echo c)
    (l4c_max_apdu c) (l4c_max_apdu_absent c) (l4c_closed c) (l4c_peer_open c) (l4c_last_traffic
    c) (l4c_connection_timeout c) (l4c_idle_reconnects c) (l4c_authorize_key c) (l4c_secure c)
    (l4c_sync_retry c) (l4c_seed c) (l4c_last_authorize c) (l4c_data_priority c)
    (l4c_user_memory_above_64k c).
Definition l4c_set_numbered_exchanges (v : u32) (c : Layer4Connection) : Layer4Connection :=
  MkConnection (l4c_target c) (l4c_source c) (l4c_timeouts c) (l4c_send_seq c) (l4c_recv_seq c)
    (l4c_last_send_apci c) v (l4c_pending_response c) (l4c_expect_memory_echo c) (l4c_max_apdu
    c) (l4c_max_apdu_absent c) (l4c_closed c) (l4c_peer_open c) (l4c_last_traffic c)
    (l4c_connection_timeout c) (l4c_idle_reconnects c) (l4c_authorize_key c) (l4c_secure c)
    (l4c_sync_retry c) (l4c_seed c) (l4c_last_authorize c) (l4c_data_priority c)
    (l4c_user_memory_above_64k c).
Definition l4c_set_pending_response (v : option (u16 * bytes)) (c : Layer4Connection) : Layer4Connection :=
  MkConnection (l4c_target c) (l4c_source c) (l4c_timeouts c) (l4c_send_seq c) (l4c_recv_seq c)
    (l4c_last_send_apci c) (l4c_numbered_exchanges c) v (l4c_expect_memory_echo c) (l4c_max_apdu
    c) (l4c_max_apdu_absent c) (l4c_closed c) (l4c_peer_open c) (l4c_last_traffic c)
    (l4c_connection_timeout c) (l4c_idle_reconnects c) (l4c_authorize_key c) (l4c_secure c)
    (l4c_sync_retry c) (l4c_seed c) (l4c_last_authorize c) (l4c_data_priority c)
    (l4c_user_memory_above_64k c).
Definition l4c_set_expect_memory_echo (v : bool) (c : Layer4Connection) : Layer4Connection :=
  MkConnection (l4c_target c) (l4c_source c) (l4c_timeouts c) (l4c_send_seq c) (l4c_recv_seq c)
    (l4c_last_send_apci c) (l4c_numbered_exchanges c) (l4c_pending_response c) v (l4c_max_apdu
    c) (l4c_max_apdu_absent c) (l4c_closed c) (l4c_peer_open c) (l4c_last_traffic c)
    (l4c_connection_timeout c) (l4c_idle_reconnects c) (l4c_authorize_key c) (l4c_secure c)
    (l4c_sync_retry c) (l4c_seed c) (l4c_last_authorize c) (l4c_data_priority c)
    (l4c_user_memory_above_64k c).
Definition l4c_set_max_apdu (v : option u16) (c : Layer4Connection) : Layer4Connection :=
  MkConnection (l4c_target c) (l4c_source c) (l4c_timeouts c) (l4c_send_seq c) (l4c_recv_seq c)
    (l4c_last_send_apci c) (l4c_numbered_exchanges c) (l4c_pending_response c)
    (l4c_expect_memory_echo c) v (l4c_max_apdu_absent c) (l4c_closed c) (l4c_peer_open c)
    (l4c_last_traffic c) (l4c_connection_timeout c) (l4c_idle_reconnects c) (l4c_authorize_key
    c) (l4c_secure c) (l4c_sync_retry c) (l4c_seed c) (l4c_last_authorize c) (l4c_data_priority
    c) (l4c_user_memory_above_64k c).
Definition l4c_set_max_apdu_absent (v : option MaxApduAbsence) (c : Layer4Connection) : Layer4Connection :=
  MkConnection (l4c_target c) (l4c_source c) (l4c_timeouts c) (l4c_send_seq c) (l4c_recv_seq c)
    (l4c_last_send_apci c) (l4c_numbered_exchanges c) (l4c_pending_response c)
    (l4c_expect_memory_echo c) (l4c_max_apdu c) v (l4c_closed c) (l4c_peer_open c)
    (l4c_last_traffic c) (l4c_connection_timeout c) (l4c_idle_reconnects c) (l4c_authorize_key
    c) (l4c_secure c) (l4c_sync_retry c) (l4c_seed c) (l4c_last_authorize c) (l4c_data_priority
    c) (l4c_user_memory_above_64k c).
Definition l4c_set_closed (v : bool) (c : Layer4Connection) : Layer4Connection :=
  MkConnection (l4c_target c) (l4c_source c) (l4c_timeouts c) (l4c_send_seq c) (l4c_recv_seq c)
    (l4c_last_send_apci c) (l4c_numbered_exchanges c) (l4c_pending_response c)
    (l4c_expect_memory_echo c) (l4c_max_apdu c) (l4c_max_apdu_absent c) v (l4c_peer_open c)
    (l4c_last_traffic c) (l4c_connection_timeout c) (l4c_idle_reconnects c) (l4c_authorize_key
    c) (l4c_secure c) (l4c_sync_retry c) (l4c_seed c) (l4c_last_authorize c) (l4c_data_priority
    c) (l4c_user_memory_above_64k c).
Definition l4c_set_peer_open (v : bool) (c : Layer4Connection) : Layer4Connection :=
  MkConnection (l4c_target c) (l4c_source c) (l4c_timeouts c) (l4c_send_seq c) (l4c_recv_seq c)
    (l4c_last_send_apci c) (l4c_numbered_exchanges c) (l4c_pending_response c)
    (l4c_expect_memory_echo c) (l4c_max_apdu c) (l4c_max_apdu_absent c) (l4c_closed c) v
    (l4c_last_traffic c) (l4c_connection_timeout c) (l4c_idle_reconnects c) (l4c_authorize_key
    c) (l4c_secure c) (l4c_sync_retry c) (l4c_seed c) (l4c_last_authorize c) (l4c_data_priority
    c) (l4c_user_memory_above_64k c).
Definition l4c_set_last_traffic (v : Z) (c : Layer4Connection) : Layer4Connection :=
  MkConnection (l4c_target c) (l4c_source c) (l4c_timeouts c) (l4c_send_seq c) (l4c_recv_seq c)
    (l4c_last_send_apci c) (l4c_numbered_exchanges c) (l4c_pending_response c)
    (l4c_expect_memory_echo c) (l4c_max_apdu c) (l4c_max_apdu_absent c) (l4c_closed c)
    (l4c_peer_open c) v (l4c_connection_timeout c) (l4c_idle_reconnects c) (l4c_authorize_key c)
    (l4c_secure c) (l4c_sync_retry c) (l4c_seed c) (l4c_last_authorize c) (l4c_data_priority c)
    (l4c_user_memory_above_64k c).
Definition l4c_set_connection_timeout (v : Z) (c : Layer4Connection) : Layer4Connection :=
  MkConnection (l4c_target c) (l4c_source c) (l4c_timeouts c) (l4c_send_seq c) (l4c_recv_seq c)
    (l4c_last_send_apci c) (l4c_numbered_exchanges c) (l4c_pending_response c)
    (l4c_expect_memory_echo c) (l4c_max_apdu c) (l4c_max_apdu_absent c) (l4c_closed c)
    (l4c_peer_open c) (l4c_last_traffic c) v (l4c_idle_reconnects c) (l4c_authorize_key c)
    (l4c_secure c) (l4c_sync_retry c) (l4c_seed c) (l4c_last_authorize c) (l4c_data_priority c)
    (l4c_user_memory_above_64k c).
Definition l4c_set_idle_reconnects (v : u32) (c : Layer4Connection) : Layer4Connection :=
  MkConnection (l4c_target c) (l4c_source c) (l4c_timeouts c) (l4c_send_seq c) (l4c_recv_seq c)
    (l4c_last_send_apci c) (l4c_numbered_exchanges c) (l4c_pending_response c)
    (l4c_expect_memory_echo c) (l4c_max_apdu c) (l4c_max_apdu_absent c) (l4c_closed c)
    (l4c_peer_open c) (l4c_last_traffic c) (l4c_connection_timeout c) v (l4c_authorize_key c)
    (l4c_secure c) (l4c_sync_retry c) (l4c_seed c) (l4c_last_authorize c) (l4c_data_priority c)
    (l4c_user_memory_above_64k c).
Definition l4c_set_authorize_key (v : option u32) (c : Layer4Connection) : Layer4Connection :=
  MkConnection (l4c_target c) (l4c_source c) (l4c_timeouts c) (l4c_send_seq c) (l4c_recv_seq c)
    (l4c_last_send_apci c) (l4c_numbered_exchanges c) (l4c_pending_response c)
    (l4c_expect_memory_echo c) (l4c_max_apdu c) (l4c_max_apdu_absent c) (l4c_closed c)
    (l4c_peer_open c) (l4c_last_traffic c) (l4c_connection_timeout c) (l4c_idle_reconnects c) v
    (l4c_secure c) (l4c_sync_retry c) (l4c_seed c) (l4c_last_authorize c) (l4c_data_priority c)
    (l4c_user_memory_above_64k c).
Definition l4c_set_secure (v : SecureLayer) (c : Layer4Connection) : Layer4Connection :=
  MkConnection (l4c_target c) (l4c_source c) (l4c_timeouts c) (l4c_send_seq c) (l4c_recv_seq c)
    (l4c_last_send_apci c) (l4c_numbered_exchanges c) (l4c_pending_response c)
    (l4c_expect_memory_echo c) (l4c_max_apdu c) (l4c_max_apdu_absent c) (l4c_closed c)
    (l4c_peer_open c) (l4c_last_traffic c) (l4c_connection_timeout c) (l4c_idle_reconnects c)
    (l4c_authorize_key c) v (l4c_sync_retry c) (l4c_seed c) (l4c_last_authorize c)
    (l4c_data_priority c) (l4c_user_memory_above_64k c).
Definition l4c_set_sync_retry (v : SyncRetry) (c : Layer4Connection) : Layer4Connection :=
  MkConnection (l4c_target c) (l4c_source c) (l4c_timeouts c) (l4c_send_seq c) (l4c_recv_seq c)
    (l4c_last_send_apci c) (l4c_numbered_exchanges c) (l4c_pending_response c)
    (l4c_expect_memory_echo c) (l4c_max_apdu c) (l4c_max_apdu_absent c) (l4c_closed c)
    (l4c_peer_open c) (l4c_last_traffic c) (l4c_connection_timeout c) (l4c_idle_reconnects c)
    (l4c_authorize_key c) (l4c_secure c) v (l4c_seed c) (l4c_last_authorize c)
    (l4c_data_priority c) (l4c_user_memory_above_64k c).
Definition l4c_set_seed (v : option ConnectionSeed) (c : Layer4Connection) : Layer4Connection :=
  MkConnection (l4c_target c) (l4c_source c) (l4c_timeouts c) (l4c_send_seq c) (l4c_recv_seq c)
    (l4c_last_send_apci c) (l4c_numbered_exchanges c) (l4c_pending_response c)
    (l4c_expect_memory_echo c) (l4c_max_apdu c) (l4c_max_apdu_absent c) (l4c_closed c)
    (l4c_peer_open c) (l4c_last_traffic c) (l4c_connection_timeout c) (l4c_idle_reconnects c)
    (l4c_authorize_key c) (l4c_secure c) (l4c_sync_retry c) v (l4c_last_authorize c)
    (l4c_data_priority c) (l4c_user_memory_above_64k c).
Definition l4c_set_last_authorize (v : option AuthorizeOutcome) (c : Layer4Connection) : Layer4Connection :=
  MkConnection (l4c_target c) (l4c_source c) (l4c_timeouts c) (l4c_send_seq c) (l4c_recv_seq c)
    (l4c_last_send_apci c) (l4c_numbered_exchanges c) (l4c_pending_response c)
    (l4c_expect_memory_echo c) (l4c_max_apdu c) (l4c_max_apdu_absent c) (l4c_closed c)
    (l4c_peer_open c) (l4c_last_traffic c) (l4c_connection_timeout c) (l4c_idle_reconnects c)
    (l4c_authorize_key c) (l4c_secure c) (l4c_sync_retry c) (l4c_seed c) v (l4c_data_priority c)
    (l4c_user_memory_above_64k c).
Definition l4c_set_data_priority (v : Priority) (c : Layer4Connection) : Layer4Connection :=
  MkConnection (l4c_target c) (l4c_source c) (l4c_timeouts c) (l4c_send_seq c) (l4c_recv_seq c)
    (l4c_last_send_apci c) (l4c_numbered_exchanges c) (l4c_pending_response c)
    (l4c_expect_memory_echo c) (l4c_max_apdu c) (l4c_max_apdu_absent c) (l4c_closed c)
    (l4c_peer_open c) (l4c_last_traffic c) (l4c_connection_timeout c) (l4c_idle_reconnects c)
    (l4c_authorize_key c) (l4c_secure c) (l4c_sync_retry c) (l4c_seed c) (l4c_last_authorize c)
    v (l4c_user_memory_above_64k c).
Definition l4c_set_user_memory_above_64k (v : bool) (c : Layer4Connection) : Layer4Connection :=
  MkConnection (l4c_target c) (l4c_source c) (l4c_timeouts c) (l4c_send_seq c) (l4c_recv_seq c)
    (l4c_last_send_apci c) (l4c_numbered_exchanges c) (l4c_pending_response c)
    (l4c_expect_memory_echo c) (l4c_max_apdu c) (l4c_max_apdu_absent c) (l4c_closed c)
    (l4c_peer_open c) (l4c_last_traffic c) (l4c_connection_timeout c) (l4c_idle_reconnects c)
    (l4c_authorize_key c) (l4c_secure c) (l4c_sync_retry c) (l4c_seed c) (l4c_last_authorize c)
    (l4c_data_priority c) v.

(** ** The channel

    What carries the frames and the clock: [chan_send] completes when the
    transport confirmed the frame; [chan_recv] waits at most the given time for
    the next inbound frame of any station; [frames_until] bounds the frames that
    can still be received before an instant. *)
Inductive RecvOutcome : Type :=
| Received (frame : CemiFrame)
| RecvFailed (e : MgmtError)
| Elapsed.

Class L4World (W : Type) : Type := {
  chan_send : CemiFrame -> W -> result MgmtError unit * W;
  chan_recv : Z -> W -> RecvOutcome * W;
  chan_now : W -> Z;
  chan_sleep : Z -> W -> W;
  chan_random : W -> u64 * W;
  frames_until : Z -> W -> nat }.

(** Waiting for a deadline, every frame received uses up one of those that can
    still arrive before it, and sending adds none. *)
Class L4WorldLaws (W : Type) `{L4World W} : Prop := {
  recv_progress : forall w dl frame w', 0 < dl - chan_now w ->
    chan_recv (dl - chan_now w) w = (Received frame, w') ->
    (frames_until dl w' < frames_until dl w)%nat;
  send_progress : forall w dl frame, (frames_until dl (snd (chan_send frame w)) <= frames_until dl w)%nat }.

(** The connection, the process-wide sequence state and the channel. *)
Record L4State (W : Type) : Type := MkL4State {
  l4_conn : Layer4Connection;
  l4_shared : HighWaterState;
  l4_world : W }.
Arguments MkL4State {W}.
Arguments l4_conn {W}.
Arguments l4_shared {W}.
Arguments l4_world {W}.

(** Operations: a result and the state after, on errors too. *)
Definition L4Op (W A : Type) : Type := L4State W -> result MgmtError A * L4State W.

#[export] Instance L4Op_ret {W} : MRet (L4Op W) := fun A a s => (Ok a, s).
#[export] Instance L4Op_bind {W} : MBind (L4Op W) := fun A B k m s =>
  match m s with
  | (Ok a, s') => k a s'
  | (Err e, s') => (Err e, s')
  end.

Inductive AckOutcome : Type :=
| Acked
| AckNak
| PeerDisconnected
| ChannelFailed
| AckTimeout
| AckNotConfirmed
| ConnectRejected.

Section Connection.
  Context {W : Type} `{L4World W} `{C : SecureCiphers}.

Definition throw {A} (e : MgmtError) : L4Op W A := fun s => (Err e, s).
Definition get_conn : L4Op W Layer4Connection := fun s => (Ok (l4_conn s), s).
Definition get_now : L4Op W Z := fun s => (Ok (chan_now (l4_world s)), s).
Definition modify (f : Layer4Connection -> Layer4Connection) : L4Op W unit :=
  fun s => (Ok tt, MkL4State (f (l4_conn s)) (l4_shared s) (l4_world s)).

(** [conn.send]. *)
Definition l4_send (frame : CemiFrame) : L4Op W unit := fun s =>
  let '(r, w) := chan_send frame (l4_world s) in (r, MkL4State (l4_conn s) (l4_shared s) w).

(** [timeout(budget, conn.recv())]. *)
Definition l4_recv (budget : Z) : L4Op W RecvOutcome := fun s =>
  let '(r, w) := chan_recv budget (l4_world s) in
  (Ok r, MkL4State (l4_conn s) (l4_shared s) w).

Definition l4_sleep (d : Z) : L4Op W unit := fun s =>
  (Ok tt, MkL4State (l4_conn s) (l4_shared s) (chan_sleep d (l4_world s))).

(** Runs an operation whose error is dropped ([let _ = ...]). *)
Definition ignore (m : L4Op W unit) : L4Op W unit := fun s => (Ok tt, snd (m s)).

(** The outcome of an operation as a value ([match ... .await]). *)
Definition attempt {A} (m : L4Op W A) : L4Op W (result MgmtError A) := fun s =>
  let '(r, s') := m s in (Ok r, s').

(** ** Predicates *)

Definition is_self_addressed (c : Layer4Connection) : bool :=
  bool_decide (l4c_target c = l4c_source c).

Definition is_absence_confirmation (c : Layer4Connection) (frame : CemiFrame) : bool :=
  absent_on_negative_confirmation (l4c_timeouts c) && (l4c_numbered_exchanges c =? 0)
  && CemiFrame_is_negative_confirmation frame
  && CemiFrame_confirms frame (l4c_source c) (l4c_target c).

Definition is_connect_rejection (c : Layer4Connection) (frame : CemiFrame) : bool :=
  negb (is_self_addressed c) && (l4c_numbered_exchanges c =? 0)
  && CemiFrame_is_negative_confirmation frame
  && CemiFrame_confirms frame (l4c_source c) (l4c_target c)
  && bool_decide (classify (CemiFrame_tpci_octet frame) = Connect).

(** A frame of the peer to us. *)
Definition is_peer_frame (c : Layer4Connection) (frame : CemiFrame) : bool :=
  bool_decide (source frame = l4c_target c)
  && bool_decide (CemiFrame_individual_destination frame = Some (l4c_source c)).

Definition silence_error (c : Layer4Connection) (kind : SilenceKind) : MgmtError :=
  if l4c_numbered_exchanges c =? 0 then
    match kind with
    | Silence_NoResponse => NoResponse
    | Silence_Disconnected => MgmtError_Disconnected
    end
  else MidSessionSilence kind (l4c_numbered_exchanges c) (l4c_numbered_exchanges c / 16).

Definition is_stale_memory_echo (c : Layer4Connection) (apci : u16) : bool :=
  if l4c_expect_memory_echo c then false
  else if apci =? A_USER_MEMORY_RESPONSE then negb (l4c_last_send_apci c =? A_USER_MEMORY_READ)
  else (Z.land apci APCI_SELECTOR_MASK =? A_MEMORY_RESPONSE)
       && negb (Z.land (l4c_last_send_apci c) APCI_SELECTOR_MASK =? A_MEMORY_READ).

Definition idle_beyond_connection_timeout (c : Layer4Connection) (now : Z) : bool :=
  l4c_peer_open c && (l4c_connection_timeout c <=? now - l4c_last_traffic c).

Definition sync_backoff_bound (c : Layer4Connection) : Z :=
  saturating_sub (saturating_sub (l4c_connection_timeout c) (response_timeout (l4c_timeouts c)))
    SYNC_IDLE_MARGIN.

Definition extract_apdu (frame : CemiFrame) : u16 * bytes :=
  match tpci frame, apdu frame with
  | (TpciOther _ | DataGroup), ApduOther apci data => (apci, data)
  | _, _ => (0, [])
  end.

(** ** Closing *)

Definition peer_closed : L4Op W unit :=
  modify (fun c => l4c_set_peer_open false (l4c_set_closed true c)).

(** [abandon]: one best-effort T_Disconnect when the peer holds the connection. *)
Definition abandon : L4Op W unit :=
  c ← get_conn;
  _ ← modify (fun c => l4c_set_peer_open false (l4c_set_closed true c));
  if l4c_peer_open c
  then ignore (l4_send (CemiFrame_t_control (l4c_target c) (l4c_source c) T_DISCONNECT))
  else mret tt.

Definition Layer4Connection_close : L4Op W unit :=
  c ← get_conn;
  _ ← modify (fun c => l4c_set_peer_open false (l4c_set_closed true c));
  if negb (l4c_closed c) || l4c_peer_open c
  then l4_send (CemiFrame_t_control (l4c_target c) (l4c_source c) T_DISCONNECT)
  else mret tt.

Definition note_peer_frame : L4Op W unit :=
  now ← get_now;
  modify (fun c =>
    let c := l4c_set_last_traffic now c in
    if is_self_addressed c then c else l4c_set_peer_open true c).

Definition map_recv_error (e : MgmtError) : L4Op W MgmtError :=
  _ ← modify (l4c_set_closed true);
  c ← get_conn;
  mret (match e with
        | TransportFailed (TransportDisconnected _) | TransportFailed TransportClosed =>
            silence_error c Silence_Disconnected
        | other => other
        end).

(** ** Control frames *)

Definition send_control (octet : u8) : L4Op W unit :=
  c ← get_conn;
  _ ← l4_send (CemiFrame_t_control (l4c_target c) (l4c_source c) octet);
  now ← get_now;
  modify (l4c_set_last_traffic now).

Definition answer_wrong_sequence (seq : u8) : L4Op W unit :=
  c ← get_conn;
  let previous := Z.land (as_u8 (l4c_recv_seq c - 1)) 15 in
  send_control (if seq =? previous then t_ack seq else t_nak seq).

Definition advance_recv_seq : L4Op W unit :=
  modify (fun c => l4c_set_recv_seq (Z.land (l4c_recv_seq c + 1) 15) c).

(** [unwrap_apdu]. *)
Definition unwrap_apdu (frame : CemiFrame) : L4Op W (u16 * bytes) := fun s =>
  let c := l4_conn s in
  let '(apci, data) := extract_apdu frame in
  let dest := default (l4c_source c) (CemiFrame_individual_destination frame) in
  let '(r, secure) :=
    SecureLayer_unwrap_incoming (l4c_secure c) (source frame) dest (CemiFrame_tpci_octet frame)
      apci data in
  (r, MkL4State (l4c_set_secure secure c) (l4_shared s) (l4_world s)).

(** ** Waiting for the acknowledgement *)

(** One frame while waiting for the T_ACK of [seq]: the outcome, or [None] to keep
    waiting. *)
Definition ack_frame (seq : u8) (frame : CemiFrame) : L4Op W (option AckOutcome) :=
  c ← get_conn;
  if is_connect_rejection c frame then mret (Some ConnectRejected)
  else if is_absence_confirmation c frame then mret (Some AckNotConfirmed)
  else if negb (is_peer_frame c frame) then mret None
  else
    _ ← note_peer_frame;
    match classify (CemiFrame_tpci_octet frame) with
    | Ack acked => mret (if acked =? seq then Some Acked else None)
    | Nak naked => mret (if naked =? seq then Some AckNak else None)
    | Disconnect => mret (Some PeerDisconnected)
    | NumberedData nseq =>
        if nseq =? l4c_recv_seq c then
          _ ← ignore (send_control (t_ack nseq));
          _ ← advance_recv_seq;
          r ← attempt (unwrap_apdu frame);
          match r with
          | Err _ => mret None
          | Ok (apci, data) =>
              c ← get_conn;
              if is_stale_memory_echo c apci then mret None
              else
                _ ← modify (l4c_set_pending_response (Some (apci, data)));
                mret (Some Acked)
          end
        else
          _ ← ignore (answer_wrong_sequence nseq);
          mret None
    | _ => mret None
    end.

(** A loop over the frames received before [deadline]; [None] when the fuel runs
    out ([receive_loop_terminates]: [frames_until] and one more is enough). *)
Fixpoint receive_loop {A} (fuel : nat) (deadline : Z) (elapsed : L4Op W A)
    (failed : MgmtError -> L4Op W A) (body : CemiFrame -> L4Op W (option A)) (s : L4State W)
    : option (result MgmtError A * L4State W) :=
  match fuel with
  | O => None
  | S fuel =>
      let remaining := saturating_sub deadline (chan_now (l4_world s)) in
      if remaining =? 0 then Some (elapsed s) else
      match l4_recv remaining s with
      | (Err e, s) => Some (Err e, s)
      | (Ok Elapsed, s) => Some (elapsed s)
      | (Ok (RecvFailed e), s) => Some (failed e s)
      | (Ok (Received frame), s) =>
          match body frame s with
          | (Err e, s) => Some (Err e, s)
          | (Ok (Some a), s) => Some (Ok a, s)
          | (Ok None, s) => receive_loop fuel deadline elapsed failed body s
          end
      end
  end.

Definition receive_until {A} (deadline : Z) (elapsed : L4Op W A) (failed : MgmtError -> L4Op W A)
    (body : CemiFrame -> L4Op W (option A)) : L4Op W A := fun s =>
  match receive_loop (S (frames_until deadline (l4_world s))) deadline elapsed failed body s with
  | Some r => r
  | None => elapsed s
  end.

Definition await_ack (seq : u8) : L4Op W AckOutcome :=
  c ← get_conn;
  now ← get_now;
  receive_until (now + ack_timeout (l4c_timeouts c)) (mret AckTimeout)
    (fun _ => mret ChannelFailed) (ack_frame seq).

(** ** Numbered data *)

(** [send_numbered]'s loop: [repeats] repetitions remain. *)
Fixpoint send_numbered_loop (repeats : nat) (seq : u8) (frame : CemiFrame) : L4Op W unit :=
  _ ← l4_send frame;
  now ← get_now;
  _ ← modify (l4c_set_last_traffic now);
  outcome ← await_ack seq;
  match outcome with
  | Acked =>
      modify (fun c => l4c_set_numbered_exchanges (u32_saturating_add (l4c_numbered_exchanges c) 1)
                         (l4c_set_send_seq (Z.land (l4c_send_seq c + 1) 15) c))
  | AckNak =>
      match repeats with
      | O =>
          _ ← modify (l4c_set_peer_open true);
          _ ← abandon;
          throw MgmtError_Nak
      | S repeats => send_numbered_loop repeats seq frame
      end
  | PeerDisconnected =>
      _ ← peer_closed;
      c ← get_conn;
      throw (silence_error c Silence_Disconnected)
  | ChannelFailed =>
      _ ← abandon;
      c ← get_conn;
      throw (silence_error c Silence_Disconnected)
  | AckNotConfirmed | ConnectRejected =>
      _ ← peer_closed;
      throw NotConfirmed
  | AckTimeout =>
      match repeats with
      | O =>
          _ ← abandon;
          c ← get_conn;
          throw (silence_error c Silence_NoResponse)
      | S repeats => send_numbered_loop repeats seq frame
      end
  end.

Definition numbered_frame (c : Layer4Connection) (tpci_octet : u8) (apci : u16) (data : bytes)
    : CemiFrame :=
  CemiFrame_with_priority
    (CemiFrame_t_data_connected (l4c_target c) (l4c_source c) tpci_octet apci data)
    (l4c_data_priority c).

Definition send_numbered (tpci_octet : u8) (wire_apci : u16) (wire_data : bytes) : L4Op W unit :=
  c ← get_conn;
  send_numbered_loop (Z.to_nat (max_repetitions (l4c_timeouts c))) (l4c_send_seq c)
    (numbered_frame c tpci_octet wire_apci wire_data).

(** ** Receiving the response *)

Definition response_frame (frame : CemiFrame) : L4Op W (option (u16 * bytes)) :=
  c ← get_conn;
  if is_connect_rejection c frame then
    _ ← peer_closed;
    throw NotConfirmed
  else if negb (is_peer_frame c frame) then mret None
  else
    _ ← note_peer_frame;
    match classify (CemiFrame_tpci_octet frame) with
    | Disconnect =>
        _ ← peer_closed;
        c ← get_conn;
        throw (silence_error c Silence_Disconnected)
    | NumberedData seq =>
        if seq =? l4c_recv_seq c then
          _ ← send_control (t_ack seq);
          _ ← advance_recv_seq;
          r ← unwrap_apdu frame;
          c ← get_conn;
          if is_stale_memory_echo c (fst r) then mret None else mret (Some r)
        else
          _ ← answer_wrong_sequence seq;
          mret None
    | _ => mret None
    end.

Definition response_elapsed : L4Op W (u16 * bytes) :=
  _ ← modify (l4c_set_closed true);
  c ← get_conn;
  throw (silence_error c Silence_NoResponse).

Definition response_failed (e : MgmtError) : L4Op W (u16 * bytes) :=
  e ← map_recv_error e;
  _ ← abandon;
  throw e.

Definition recv_response : L4Op W (u16 * bytes) :=
  c ← get_conn;
  _ ← modify (l4c_set_pending_response None);
  match l4c_pending_response c with
  | Some pending =>
      if negb (is_stale_memory_echo c (fst pending)) then mret pending
      else if l4c_closed c then throw (silence_error c Silence_Disconnected)
      else now ← get_now;
           receive_until (now + response_timeout (l4c_timeouts c)) response_elapsed
             response_failed response_frame
  | None =>
      if l4c_closed c then throw (silence_error c Silence_Disconnected)
      else now ← get_now;
           receive_until (now + response_timeout (l4c_timeouts c)) response_elapsed
             response_failed response_frame
  end.

(** ** The Data Secure sync handshake *)

Definition wrap_outgoing (tpci_octet : u8) (apci : u16) (data : bytes) : L4Op W (u16 * bytes) :=
  fun s =>
    let c := l4_conn s in
    let '(r, secure, env) :=
      SecureLayer_wrap_outgoing (l4c_secure c) (l4_shared s) (l4c_target c) (l4c_source c)
        tpci_octet apci data in
    (r, MkL4State (l4c_set_secure secure c) env (l4_world s)).

Definition sync_request (tpci_octet : u8) : L4Op W (u16 * bytes) := fun s =>
  let c := l4_conn s in
  let '(random, w) := chan_random (l4_world s) in
  let '(r, secure, env) :=
    SecureLayer_sync_request (l4c_secure c) (l4_shared s) (l4c_target c) (l4c_source c)
      tpci_octet random in
  (r, MkL4State (l4c_set_secure secure c) env w).

(** One S-A_Sync exchange: the request sent and acknowledged, then the answer. *)
Definition sync_exchange : L4Op W (result MgmtError (u16 * bytes)) :=
  c ← get_conn;
  let tpci_octet := ndt (l4c_send_seq c) in
  wire ← sync_request tpci_octet;
  _ ← modify (l4c_set_last_send_apci (fst wire));
  _ ← send_numbered tpci_octet (fst wire) (snd wire);
  attempt recv_response.

Inductive SyncVerdict : Type := SyncDone | SyncRetryAgain | SyncGiveUp | SyncFailed (e : MgmtError).

Definition sync_verdict (attempt : u32) (synced : bool) (r : result MgmtError (u16 * bytes))
    : SyncVerdict :=
  match r with
  | Ok _ => if synced then SyncDone else SyncGiveUp
  | Err (MidSessionSilence Silence_NoResponse _ _) | Err NoResponse => SyncRetryAgain
  | Err (SecureFailed e) => if 1 <? attempt then SyncRetryAgain else SyncFailed (SecureFailed e)
  | Err (MidSessionSilence _ _ _) => SyncGiveUp
  | Err other => SyncFailed other
  end.

(** The attempts of [ensure_secure_sync], [todo] of them left; [true] when the
    handshake succeeded.  [reconnect] is [reconnect_after_idle]. *)
Fixpoint sync_attempts (reconnect : L4Op W unit) (todo : nat) (attempt : u32) (backoff : Z)
    : L4Op W bool :=
  match todo with
  | O => mret false
  | S todo =>
      r ← sync_exchange;
      c ← get_conn;
      match sync_verdict attempt (SecureLayer_is_synced (l4c_secure c)) r with
      | SyncDone => mret true
      | SyncGiveUp => mret false
      | SyncFailed e => throw e
      | SyncRetryAgain =>
          match todo with
          | O => mret false
          | S _ =>
              _ ← modify (l4c_set_closed false);
              c ← get_conn;
              _ ← l4_sleep (Z.min backoff (sync_backoff_bound c));
              now ← get_now;
              c ← get_conn;
              _ ← (if idle_beyond_connection_timeout c now then reconnect else mret tt);
              sync_attempts reconnect todo (attempt + 1)
                (Z.min (2 * backoff) (max_backoff (l4c_sync_retry c)))
          end
      end
  end.

(** The one attempt under the factory key: it only tells the two refusals apart. *)
Definition factory_key_attempt : L4Op W unit :=
  _ ← modify (l4c_set_closed false);
  r ← sync_exchange;
  c ← get_conn;
  match r with
  | Ok _ => if SecureLayer_is_synced (l4c_secure c) then throw FactoryKeyActive else mret tt
  | Err (MidSessionSilence _ _ _) | Err NoResponse | Err (SecureFailed _) => mret tt
  | Err other => throw other
  end.

Definition ensure_secure_sync (reconnect : L4Op W unit) : L4Op W unit :=
  c ← get_conn;
  if sl_on_factory_key (l4c_secure c) then throw FactoryKeyActive
  else if negb (SecureLayer_needs_sync (l4c_secure c)) then mret tt
  else
    let retry := l4c_sync_retry c in
    done ← sync_attempts reconnect (Z.to_nat (Z.max (attempts retry) 1)) 1 (initial_backoff retry);
    if (done : bool) then mret tt
    else
      c ← get_conn;
      let '(switched, secure) := SecureLayer_switch_to_factory_key (l4c_secure c) in
      _ ← modify (l4c_set_secure secure);
      _ ← (if switched then factory_key_attempt else mret tt);
      _ ← modify (l4c_set_closed true);
      throw (SecureFailed SyncUnanswered).

(** ** Requests *)

Definition send_data_with (reconnect : L4Op W unit) (apci : u16) (data : bytes) : L4Op W unit :=
  c ← get_conn;
  if l4c_closed c then throw MgmtError_Disconnected
  else
    now ← get_now;
    _ ← (if idle_beyond_connection_timeout c now then reconnect else mret tt);
    _ ← ensure_secure_sync reconnect;
    _ ← modify (l4c_set_last_send_apci apci);
    c ← get_conn;
    let tpci_octet := ndt (l4c_send_seq c) in
    wire ← wrap_outgoing tpci_octet apci data;
    send_numbered tpci_octet (fst wire) (snd wire).

Definition request_with (reconnect : L4Op W unit) (apci : u16) (data : bytes)
    : L4Op W (u16 * bytes) :=
  _ ← send_data_with reconnect apci data;
  recv_response.

(** Silence after an acknowledged request leaves the connection usable. *)
Definition reopen_if_acknowledged (exchanges_before : u32) : L4Op W unit :=
  modify (fun c => if exchanges_before <? l4c_numbered_exchanges c then l4c_set_closed false c else c).

Definition authorize_exchange (reconnect : L4Op W unit) (key : u32) : L4Op W AuthorizeOutcome :=
  c ← get_conn;
  let before := l4c_numbered_exchanges c in
  r ← attempt (request_with reconnect A_AUTHORIZE_REQUEST (encode_authorize_request key));
  match r with
  | Err (MidSessionSilence Silence_NoResponse _ _) | Err NoResponse =>
      _ ← reopen_if_acknowledged before;
      mret Unsupported
  | Err other => throw other
  | Ok (resp_apci, data) =>
      mret (if negb (resp_apci =? A_AUTHORIZE_RESPONSE) then Unsupported else
            match decode_authorize_response data with
            | Some level => if is_minimum_access_level level then Denied level else Granted level
            | None => Unsupported
            end)
  end.

Definition authorize_with (reconnect : L4Op W unit) (key : u32) : L4Op W AuthorizeOutcome :=
  _ ← modify (l4c_set_authorize_key (Some key));
  outcome ← authorize_exchange reconnect key;
  _ ← modify (l4c_set_last_authorize (Some outcome));
  mret outcome.

(** The drain before a reconnect: at most [n] queued frames are dropped. *)
Fixpoint drain (n : nat) : L4Op W unit :=
  match n with
  | O => mret tt
  | S n =>
      r ← l4_recv IDLE_DRAIN_WAIT;
      match r with
      | Received _ => drain n
      | _ => mret tt
      end
  end.

(** [reconnect_after_idle]; it authorizes again on the fresh connection, where a
    further reconnect is [reconnect]. *)
Definition reconnect_with (reconnect : L4Op W unit) : L4Op W unit :=
  _ ← drain IDLE_DRAIN_FRAMES;
  c ← get_conn;
  _ ← l4_send (CemiFrame_t_control (l4c_target c) (l4c_source c) T_DISCONNECT);
  _ ← l4_send (CemiFrame_t_control (l4c_target c) (l4c_source c) T_CONNECT);
  now ← get_now;
  _ ← modify (fun c =>
        l4c_set_idle_reconnects (u32_saturating_add (l4c_idle_reconnects c) 1)
          (l4c_set_last_traffic now (l4c_set_closed false (l4c_set_peer_open false
             (l4c_set_pending_response None (l4c_set_recv_seq 0 (l4c_set_send_seq 0 c)))))));
  match l4c_authorize_key c with
  | None => mret tt
  | Some key =>
      outcome ← authorize_with reconnect key;
      match outcome with
      | Denied level => throw (AccessDenied level)
      | _ => mret tt
      end
  end.

(** A reconnect within the authorization of a reconnect is bounded in the model;
    without Data Secure it never happens ([plain_reconnect_depth]). *)
Fixpoint reconnect_nested (depth : nat) : L4Op W unit :=
  match depth with
  | O => throw MgmtError_Disconnected
  | S depth => reconnect_with (reconnect_nested depth)
  end.

Definition RECONNECT_DEPTH : nat := 4.

Definition reconnect_after_idle : L4Op W unit := reconnect_nested RECONNECT_DEPTH.

Definition send_data (apci : u16) (data : bytes) : L4Op W unit :=
  send_data_with reconnect_after_idle apci data.

Definition request (apci : u16) (data : bytes) : L4Op W (u16 * bytes) :=
  request_with reconnect_after_idle apci data.

Definition authorize (key : u32) : L4Op W AuthorizeOutcome :=
  authorize_with reconnect_after_idle key.

Definition authorize_or_fail (key : u32) : L4Op W AuthorizeOutcome :=
  outcome ← authorize key;
  match outcome with
  | Denied level => throw (AccessDenied level)
  | _ => mret outcome
  end.

Definition request_unsecured (apci : u16) (data : bytes) : L4Op W (u16 * bytes) :=
  c ← get_conn;
  if l4c_closed c then throw MgmtError_Disconnected
  else
    _ ← modify (l4c_set_last_send_apci apci);
    _ ← send_numbered (ndt (l4c_send_seq c)) apci data;
    recv_response.

Definition send_data_unacked (apci : u16) (data : bytes) : L4Op W unit :=
  c ← get_conn;
  if l4c_closed c then throw MgmtError_Disconnected
  else
    _ ← ensure_secure_sync reconnect_after_idle;
    _ ← modify (l4c_set_last_send_apci apci);
    c ← get_conn;
    let tpci_octet := ndt (l4c_send_seq c) in
    wire ← wrap_outgoing tpci_octet apci data;
    c ← get_conn;
    _ ← l4_send (numbered_frame c tpci_octet (fst wire) (snd wire));
    modify (fun c => l4c_set_numbered_exchanges (u32_saturating_add (l4c_numbered_exchanges c) 1)
                       (l4c_set_send_seq (Z.land (l4c_send_seq c + 1) 15) c)).

Definition request_memory_write_echo (apci : u16) (data : bytes) : L4Op W (u16 * bytes) :=
  _ ← modify (l4c_set_expect_memory_echo true);
  r ← attempt (request apci data);
  _ ← modify (l4c_set_expect_memory_echo false);
  match r with
  | Ok a => mret a
  | Err e => throw e
  end.

Definition request_rekeyed (apci : u16) (data : bytes) (next_key : Key16) : L4Op W (u16 * bytes) :=
  c ← get_conn;
  if l4c_closed c then throw MgmtError_Disconnected
  else if negb (SecureLayer_is_active (l4c_secure c)) then throw (SecureFailed (UnexpectedService 144))
  else
    _ ← ensure_secure_sync reconnect_after_idle;
    _ ← modify (l4c_set_last_send_apci apci);
    c ← get_conn;
    let tpci_octet := ndt (l4c_send_seq c) in
    wire ← wrap_outgoing tpci_octet apci data;
    _ ← modify (fun c => l4c_set_secure (snd (SecureLayer_set_tool_key (l4c_secure c) next_key)) c);
    _ ← send_numbered tpci_octet (fst wire) (snd wire);
    recv_response.

Definition request_optional (apci : u16) (data : bytes) : L4Op W (option (u16 * bytes)) :=
  c ← get_conn;
  let before := l4c_numbered_exchanges c in
  r ← attempt (request apci data);
  c ← get_conn;
  match r with
  | Ok answer => mret (Some answer)
  | Err (MidSessionSilence Silence_NoResponse a b) =>
      if before <? l4c_numbered_exchanges c then
        _ ← modify (l4c_set_closed false);
        mret None
      else throw (MidSessionSilence Silence_NoResponse a b)
  | Err NoResponse =>
      if before <? l4c_numbered_exchanges c then
        _ ← modify (l4c_set_closed false);
        mret None
      else throw NoResponse
  | Err other => throw other
  end.

(** ** Opening *)

Definition ConnectOptions : Type := (Timeouts * SecureLayer)%type.

Definition Layer4Connection_connect (target source : IndividualAddress) (options : ConnectOptions)
    (wait : option Z) (env : HighWaterState) (w : W) : result MgmtError unit * L4State W :=
  let '(r, w) := chan_send (CemiFrame_t_control target source T_CONNECT) w in
  (r, MkL4State
        (MkConnection target source (fst options) 0 0 0 0 None false None None false false
           (chan_now w) CLIENT_CONNECTION_TIMEOUT 0 None (snd options) (SyncRetry_default wait)
           None None System false) env w).

Definition Layer4Connection_seed (seed : ConnectionSeed) (c : Layer4Connection) : Layer4Connection :=
  let c := match seed_max_apdu seed with
           | Some v => l4c_set_max_apdu (Some v) c
           | None => c
           end in
  l4c_set_seed (Some seed) c.

Definition seeded_object_table (c : Layer4Connection) : option (list (u8 * u16)) :=
  seed ← l4c_seed c;
  match seed_object_table seed with
  | [] => None
  | table => Some table
  end.

Definition seeded_mask (c : Layer4Connection) : option u16 := seed ← l4c_seed c; seed_mask seed.

Definition seeded_authorize_unanswered (c : Layer4Connection) : bool :=
  match l4c_seed c with
  | Some seed => seed_authorize_unanswered seed
  | None => false
  end.

(** ** Chunk sizes *)

Definition set_max_apdu (max_apdu : option u16) (c : Layer4Connection) : Layer4Connection :=
  match max_apdu with
  | Some v => if v =? 0 then c else l4c_set_max_apdu (Some v) c
  | None => c
  end.

Definition set_max_apdu_absent (c : Layer4Connection) : Layer4Connection :=
  match l4c_max_apdu c with
  | None => l4c_set_max_apdu_absent (Some Answered) c
  | Some _ => c
  end.

Definition inner_max_apdu (c : Layer4Connection) : option u16 :=
  v ← l4c_max_apdu c;
  Some (if SecureLayer_is_active (l4c_secure c)
        then Z.max (saturating_sub v SECURE_APDU_OVERHEAD) 1 else v).

Definition effective_max_apdu (c : Layer4Connection) : u16 :=
  default STANDARD_FRAME_APDU (inner_max_apdu c).

Definition max_memory_chunk (c : Layer4Connection) : u8 :=
  match inner_max_apdu c with
  | Some v => memory_chunk_for_apdu v
  | None => CONSERVATIVE_MEMORY_CHUNK
  end.

Definition max_extended_memory_chunk (c : Layer4Connection) : u16 :=
  match inner_max_apdu c with
  | Some v => extended_memory_chunk_for_apdu v
  | None => CONSERVATIVE_MEMORY_CHUNK
  end.

Definition max_property_read_octets (c : Layer4Connection) : u8 :=
  match inner_max_apdu c with
  | Some v => property_read_octets_for_apdu v
  | None => CONSERVATIVE_PROPERTY_READ_OCTETS
  end.

Definition max_user_memory_chunk (c : Layer4Connection) : u8 :=
  user_memory_chunk_for_apdu (default STANDARD_FRAME_APDU (inner_max_apdu c)).

(** ** Property and descriptor services *)

Definition decode_property_response (resp_apci : u16) (data : bytes)
    : result MgmtError PropertyValueResponse :=
  if negb (resp_apci =? A_PROPERTY_VALUE_RESPONSE)
  then Err (MalformedResponse "expected A_PropertyValue_Response")
  else ok_or (MalformedResponse "property value response too short")
         (decode_property_value_response data).

Definition lift {A} (r : result MgmtError A) : L4Op W A := fun s => (r, s).

Definition conn_property_request (object_index property_id : u8) (start : u16) (count : u8)
    : L4Op W PropertyValueResponse :=
  r ← request A_PROPERTY_VALUE_READ
        (encode_property_value_read object_index property_id count start);
  lift (decode_property_response (fst r) (snd r)).

Definition conn_property_write_request (object_index property_id count : u8) (start : u16)
    (value : bytes) : L4Op W PropertyValueResponse :=
  r ← request A_PROPERTY_VALUE_WRITE
        (encode_property_value_write object_index property_id count start value);
  lift (decode_property_response (fst r) (snd r)).

Definition property_description_request (object_index property_id property_index : u8)
    : L4Op W PropertyDescription :=
  r ← request A_PROPERTY_DESCRIPTION_READ
        (encode_property_description_read object_index property_id property_index);
  if negb (fst r =? A_PROPERTY_DESCRIPTION_RESPONSE)
  then throw (MalformedResponse "expected A_PropertyDescription_Response")
  else lift (ok_or (MalformedResponse "property description response too short")
               (decode_property_description_response (snd r))).

Definition read_property_description_optional (object_index property_id : u8)
    : L4Op W (option PropertyDescription) :=
  r ← request_optional A_PROPERTY_DESCRIPTION_READ
        (encode_property_description_read object_index property_id 0);
  match r with
  | None => mret None
  | Some (apci, data) =>
      mret (if negb (apci =? A_PROPERTY_DESCRIPTION_RESPONSE) then None
            else decode_property_description_response data)
  end.

Definition max_apdu_value (data : bytes) : option u16 :=
  match data with
  | [] => None
  | [b] => Some b
  | hi :: lo :: _ => Some (u16_of hi lo)
  end.

Definition negotiate_max_apdu : L4Op W (option u16) :=
  c ← get_conn;
  match l4c_max_apdu c, l4c_max_apdu_absent c with
  | Some v, _ => mret (Some v)
  | None, Some _ => mret None
  | None, None =>
      let before := l4c_numbered_exchanges c in
      r ← attempt (conn_property_request DEVICE_OBJECT_INDEX PID_MAX_APDU_LENGTH 1 1);
      match r with
      | Err (MalformedResponse _) =>
          _ ← modify (l4c_set_max_apdu_absent (Some Answered));
          mret None
      | Err (MidSessionSilence Silence_NoResponse _ _) | Err NoResponse =>
          _ ← reopen_if_acknowledged before;
          _ ← modify (l4c_set_max_apdu_absent (Some Unanswered));
          mret None
      | Err other => throw other
      | Ok resp =>
          match max_apdu_value (pvr_data resp) with
          | Some v =>
              if v =? 0 then
                _ ← modify (l4c_set_max_apdu_absent (Some Answered));
                mret None
              else
                _ ← modify (l4c_set_max_apdu (Some v));
                mret (Some v)
          | None =>
              _ ← modify (l4c_set_max_apdu_absent (Some Answered));
              mret None
          end
      end
  end.

Definition DESCRIPTOR_TYPE_UNSUPPORTED : u16 := 63.

Definition decode_device_descriptor (resp_apci : u16) (data : bytes) : result MgmtError u16 :=
  let is_response := Z.land resp_apci APCI_SELECTOR_MASK =? A_DEVICE_DESCRIPTOR_RESPONSE in
  let echoed_type := Z.land resp_apci (Z.lxor 65535 APCI_SELECTOR_MASK) in
  if is_response && (echoed_type =? DESCRIPTOR_TYPE_UNSUPPORTED)
  then Err (DescriptorTypeUnsupported 0)
  else if is_response && negb (echoed_type =? 0)
  then Err (MalformedResponse "answered another descriptor type")
  else match data with
       | hi :: lo :: _ =>
           if is_response then Ok (u16_of hi lo)
           else Err (MalformedResponse "expected A_DeviceDescriptor_Response")
       | _ => Err (MalformedResponse "expected A_DeviceDescriptor_Response")
       end.

Definition read_device_descriptor : L4Op W u16 :=
  let '(req_apci, payload) := encode_device_descriptor_read 0 in
  r ← request req_apci payload;
  lift (decode_device_descriptor (fst r) (snd r)).

Definition read_device_descriptor_unsecured : L4Op W u16 :=
  let '(req_apci, payload) := encode_device_descriptor_read 0 in
  r ← request_unsecured req_apci payload;
  lift (decode_device_descriptor (fst r) (snd r)).

Definition MAX_PROPERTY_INDEX : nat := 64.

(** The walk over the property indices, [n] of them left. *)
Fixpoint describe_from (n : nat) (object_index index : u8) (out : list PropertyDescription)
    : L4Op W (list PropertyDescription) :=
  match n with
  | O => mret out
  | S n =>
      r ← attempt (property_description_request object_index 0 index);
      match r with
      | Err (MalformedResponse _) | Err NoResponse
      | Err (MidSessionSilence Silence_NoResponse _ _) => mret out
      | Err other => throw other
      | Ok desc =>
          if pd_max_elements desc =? 0 then mret out
          else if existsb (fun d => pd_property_index d =? pd_property_index desc) out
          then mret out
          else describe_from n object_index (index + 1) (out ++ [desc])
      end
  end.

Definition describe_object_properties (object_index : u8) : L4Op W (list PropertyDescription) :=
  describe_from MAX_PROPERTY_INDEX object_index 1 [].

End Connection.

(** ** The waits end

    Handling a frame only sends, so every frame received uses up one of those that
    can still arrive before the deadline: the fuel of [receive_until] never runs
    out, and more of it changes nothing. *)

Section Waits.
  Context {W : Type} `{L4WorldLaws W} `{C : SecureCiphers}.

(** Adds no frame that could arrive before a deadline. *)
Definition quiet {A} (m : L4Op W A) : Prop := forall dl s,
  (frames_until dl (l4_world (snd (m s))) <= frames_until dl (l4_world s))%nat.

Lemma quiet_bind {A B} (m : L4Op W A) (k : A -> L4Op W B) :
  quiet m -> (forall a, quiet (k a)) -> quiet (m ≫= k).
Proof.
  intros Hm Hk dl s. unfold mbind, L4Op_bind. specialize (Hm dl s).
  destruct (m s) as [[a|e] s']; cbn [snd] in *; [|done]. specialize (Hk a dl s'). lia.
Qed.

Lemma quiet_same {A} (m : L4Op W A) : (forall s, l4_world (snd (m s)) = l4_world s) -> quiet m.
Proof. intros Hm dl s. by rewrite Hm. Qed.

Lemma quiet_send f : quiet (l4_send (W := W) f).
Proof.
  intros dl s. pose proof (send_progress (l4_world s) dl f) as Hp. unfold l4_send.
  by destruct (chan_send f (l4_world s)).
Qed.

Lemma quiet_ignore m : quiet m -> quiet (ignore (W := W) m).
Proof. done. Qed.

Lemma quiet_attempt {A} (m : L4Op W A) : quiet m -> quiet (attempt m).
Proof. intros Hm dl s. specialize (Hm dl s). unfold attempt. by destruct (m s). Qed.

Lemma quiet_unwrap f : quiet (unwrap_apdu (W := W) f).
Proof.
  apply quiet_same. intros s. unfold unwrap_apdu. destruct (extract_apdu f).
  by destruct (SecureLayer_unwrap_incoming _ _ _ _ _ _).
Qed.

End Waits.

Create HintDb quiet.
#[export] Hint Resolve quiet_bind quiet_send quiet_ignore quiet_attempt quiet_unwrap : quiet.
#[export] Hint Extern 5 (quiet _) => (apply quiet_same; intros s; reflexivity) : quiet.
#[export] Hint Extern 1 (quiet (if _ then _ else _)) => case_match : quiet.
#[export] Hint Extern 1 (quiet (match _ with _ => _ end)) => case_match : quiet.

Section WaitsEnd.
  Context {W : Type} `{L4WorldLaws W} `{C : SecureCiphers}.

Lemma quiet_control o : quiet (send_control (W := W) o).
Proof. unfold send_control. auto 10 with quiet. Qed.

Lemma quiet_wrong_sequence q : quiet (answer_wrong_sequence (W := W) q).
Proof. apply quiet_bind; [by apply quiet_same|]. intros c. apply quiet_control. Qed.

Lemma quiet_note_peer : quiet (note_peer_frame (W := W)).
Proof. unfold note_peer_frame. auto with quiet. Qed.

Hint Resolve quiet_control quiet_wrong_sequence quiet_note_peer : quiet.

Lemma quiet_ack_frame seq f : quiet (ack_frame (W := W) seq f).
Proof.
  unfold ack_frame. repeat first [apply quiet_bind; [by auto with quiet|intros ?]|case_match|
    by auto with quiet].
Qed.

Lemma quiet_response_frame f : quiet (response_frame (W := W) f).
Proof.
  unfold response_frame. repeat first [apply quiet_bind; [by auto with quiet|intros ?]|case_match|
    by auto with quiet].
Qed.

Lemma receive_loop_enough {A} deadline (elapsed : L4Op W A) failed body :
  (forall f, quiet (body f)) ->
  forall fuel s, (frames_until deadline (l4_world s) < fuel)%nat ->
  receive_loop fuel deadline elapsed failed body s
  = receive_loop (S (frames_until deadline (l4_world s))) deadline elapsed failed body s /\
  is_Some (receive_loop fuel deadline elapsed failed body s).
Proof.
  intros Hq. assert (Hgen : forall n fuel s, (frames_until deadline (l4_world s) < n)%nat -> (n <= fuel)%nat ->
    receive_loop fuel deadline elapsed failed body s = receive_loop n deadline elapsed failed body s /\
    is_Some (receive_loop fuel deadline elapsed failed body s)).
  { induction n as [|n IH]; [lia|]. intros [|fuel] s Hn Hf; [lia|]. cbn [receive_loop].
    destruct (Z.eqb_spec (saturating_sub deadline (chan_now (l4_world s))) 0) as [_|Hr]; [by eauto|].
    assert (Er : saturating_sub deadline (chan_now (l4_world s)) = deadline - chan_now (l4_world s))
      by (unfold saturating_sub in *; lia).
    rewrite Er in *. pose proof (recv_progress (l4_world s) deadline) as Hp.
    unfold l4_recv. destruct (chan_recv _ _) as [out w'] eqn:Ec.
    destruct out as [f| |]; [|by eauto..].
    specialize (Hp f w' ltac:(unfold saturating_sub in *; lia) eq_refl).
    pose proof (Hq f deadline (MkL4State (l4_conn s) (l4_shared s) w')) as Hb.
    destruct (body f _) as [[[a|]|e] s2]; [by eauto| |by eauto]. cbn [snd l4_world] in Hb.
    apply IH; lia. }
  intros fuel s Hf. apply Hgen; lia.
Qed.

(** C37: The waits for the T_ACK and for the response end in every world: with the fuel
    [receive_until] gives them they return a result, and no larger fuel changes
    it. *)
Theorem receive_loop_terminates (s : L4State W) deadline fuel :
  (frames_until deadline (l4_world s) < fuel)%nat ->
  (forall seq, exists r,
    receive_loop fuel deadline (mret AckTimeout) (fun _ => mret ChannelFailed) (ack_frame seq) s = Some r /\
    receive_until deadline (mret AckTimeout) (fun _ => mret ChannelFailed) (ack_frame seq) s = r) /\
  (exists r,
    receive_loop fuel deadline response_elapsed response_failed response_frame s = Some r /\
    receive_until deadline response_elapsed response_failed response_frame s = r).
Proof.
  intros Hf. assert (Hgen : forall A (elapsed : L4Op W A) failed body, (forall f, quiet (body f)) ->
    exists r, receive_loop fuel deadline elapsed failed body s = Some r /\
      receive_until deadline elapsed failed body s = r).
  { intros A elapsed failed body Hq.
    destruct (receive_loop_enough deadline elapsed failed body Hq fuel s Hf) as [E [r Er]].
    exists r. split; [done|]. unfold receive_until. by rewrite <- E, Er. }
  split; [intros seq|]; apply Hgen; [apply quiet_ack_frame|apply quiet_response_frame].
Qed.

End WaitsEnd.

(** ** Reconnects do not nest without Data Secure *)

Section Reconnect.
  Context {W : Type} `{L4World W} `{C : SecureCiphers}.

Lemma send_data_no_reconnect rc1 rc2 apci data (s : L4State W) :
  sl_session (l4c_secure (l4_conn s)) = None -> l4c_peer_open (l4_conn s) = false ->
  send_data_with rc1 apci data s = send_data_with rc2 apci data s.
Proof.
  intros Hs Hp. unfold send_data_with, ensure_secure_sync, idle_beyond_connection_timeout,
    SecureLayer_needs_sync, mbind, L4Op_bind, get_conn, get_now, mret, L4Op_ret.
  cbn [fst snd]. destruct (l4c_closed (l4_conn s)); [done|]. rewrite Hp. cbn [andb fst snd].
  destruct (sl_on_factory_key _); [done|]. by rewrite Hs.
Qed.

Lemma authorize_no_reconnect rc1 rc2 key (s : L4State W) :
  sl_session (l4c_secure (l4_conn s)) = None -> l4c_peer_open (l4_conn s) = false ->
  authorize_with rc1 key s = authorize_with rc2 key s.
Proof.
  intros Hs Hp. unfold authorize_with, authorize_exchange, request_with, attempt, mbind, L4Op_bind,
    modify, get_conn. cbn [fst snd].
  by rewrite (send_data_no_reconnect rc1 rc2) by done.
Qed.

Lemma drain_conn n : forall s : L4State W, fst (drain n s) = Ok tt /\ l4_conn (snd (drain n s)) = l4_conn s.
Proof.
  induction n as [|n IH]; intros s; [done|]. cbn [drain]. unfold mbind, L4Op_bind, l4_recv.
  destruct (chan_recv IDLE_DRAIN_WAIT (l4_world s)) as [[f|e|] w]; [|done..].
  apply (IH (MkL4State (l4_conn s) (l4_shared s) w)).
Qed.

Lemma op_bind_ok {A B} (m : L4Op W A) (k : A -> L4Op W B) s a s' :
  m s = (Ok a, s') -> (m ≫= k) s = k a s'.
Proof. intros E. unfold mbind, L4Op_bind. by rewrite E. Qed.

Lemma reconnect_no_reconnect rc1 rc2 (s : L4State W) :
  sl_session (l4c_secure (l4_conn s)) = None -> reconnect_with rc1 s = reconnect_with rc2 s.
Proof.
  intros Hs. unfold reconnect_with. destruct (drain_conn IDLE_DRAIN_FRAMES s) as [E1 E2].
  destruct (drain IDLE_DRAIN_FRAMES s) as [res s1] eqn:E. cbn [fst snd] in *. subst res.
  rewrite !(op_bind_ok _ _ _ _ _ E).
  unfold mbind, L4Op_bind, get_conn, get_now, modify, l4_send. cbn [fst snd].
  destruct (chan_send _ _) as [[[]|e] w]; [|done]. cbn [l4_conn l4_world l4_shared].
  destruct (chan_send _ _) as [[[]|e] w2]; [|done]. cbn [l4_conn l4_world l4_shared].
  destruct (l4c_authorize_key _) as [key|]; [|done].
  cbn [l4c_authorize_key l4c_set_idle_reconnects l4c_set_last_traffic l4c_set_closed
    l4c_set_peer_open l4c_set_pending_response l4c_set_recv_seq l4c_set_send_seq].
  rewrite (authorize_no_reconnect rc1 rc2 key); [done| |done]. cbn. by rewrite E2.
Qed.

(** Without Data Secure a reconnect never reconnects again: its authorization runs
    on a connection the peer has not answered yet, so what a further reconnect
    would do does not matter, and [RECONNECT_DEPTH] is no bound. *)
Lemma plain_reconnect_depth rc (s : L4State W) :
  sl_session (l4c_secure (l4_conn s)) = None -> reconnect_with rc s = reconnect_after_idle s.
Proof. apply reconnect_no_reconnect. Qed.

End Reconnect.

(** ** Witness: a channel that replays the given frames at one instant *)

#[local] Instance replay_world : L4World (list CemiFrame) := {
  chan_send _ w := (Ok tt, w);
  chan_recv _ w := match w with [] => (Elapsed, []) | frame :: w => (Received frame, w) end;
  chan_now _ := 0;
  chan_sleep _ w := w;
  chan_random w := (0, w);
  frames_until _ w := length w }.

#[local] Instance replay_world_laws : L4WorldLaws (list CemiFrame).
Proof.
  split; [|done]. intros w dl frame w' _. destruct w as [|f w]; [done|].
  intros [= _ <-]. cbn. lia.
Qed.

Definition demo_replay : L4State (list CemiFrame) :=
  snd (Layer4Connection_connect (IndividualAddress_from_raw 4353) (IndividualAddress_from_raw 4607)
         (Timeouts_default None, SecureLayer_plain) None (MkHighWater 0 0)
         (replicate 3 (CemiFrame_t_control (IndividualAddress_from_raw 4607)
                         (IndividualAddress_from_raw 4353) (t_ack 5))
          ++ [CemiFrame_t_control (IndividualAddress_from_raw 4607)
                (IndividualAddress_from_raw 4353) (t_ack 0)])).

(** Three foreign T_ACKs are skipped before the one awaited. *)
Lemma receive_loop_terminates_witness :
  fst (@receive_until _ _ _ 3000 (mret AckTimeout) (fun _ => mret ChannelFailed)
         (@ack_frame _ _ demo_ciphers 0) demo_replay) = Ok Acked /\
  exists r, @receive_loop _ _ _ 5 3000 (mret AckTimeout) (fun _ => mret ChannelFailed)
    (@ack_frame _ _ demo_ciphers 0) demo_replay = Some r.
Proof.
  destruct (@receive_loop_terminates _ _ _ demo_ciphers demo_replay 3000 5
    ltac:(apply Nat.ltb_lt; vm_compute; reflexivity))
    as [Hack _]. destruct (Hack 0) as (r & E & _).
  split; [vm_compute; reflexivity|]. exists r. exact E.
Defined.
