(* ===== verification/SimBus.v ===== *)
(** * The simulated bus as the client's channel ([knx-sim/src/bus/mod.rs])

    How the simulator's bus hands a frame of the tool to the addressed device and
    collects the answers, and the world in which the client's connection talks to
    one such device over a medium that may lose frames: an instance of
    [L4World]. *)

From S2P Require Import Prelude Address Cursor Cemi Tpci SimWire SimMemory.
From S2P Require Import SimTransport MgmtError Crypto Sequence Asdu SecureSession Apci.
From S2P Require Import Connection.

Local Open Scope string_scope.
Local Open Scope list_scope.
Local Open Scope Z_scope.

Section Bus.
  Context {A : Type} `{DeviceApp A}.

(** ** Delivery of an individually addressed frame ([deliver_from_tool]) *)

(** The reaction of the addressed device; a refusal is silence. *)
Definition device_reaction (d : Device A) (cemi : CemiLData) (now : Z)
    : list CemiLData * Device A :=
  match handle_cemi_at d cemi now with
  | (Ok reaction, d) => (responses reaction, d)
  | (Err _, d) => ([], d)
  end.

(** A numbered request answered by a numbered response is acknowledged first. *)
Definition acknowledge_first (dest : SimIndividualAddress) (cemi : CemiLData)
    (out : list CemiLData) : list CemiLData :=
  match out with
  | answer :: _ =>
      if is_numbered cemi && is_numbered answer then
        let seq := Z.land (Z.shiftr (nth 0 (sim_tpdu cemi) 0) 2) 15 in
        MkCemiLData SimLDataInd 176 96 dest (sim_ia_raw (sim_source cemi)) [sim_ack_byte seq] :: out
      else out
  | [] => []
  end.

(** The device listens to its own address; a frame to another one is lost on it. *)
Definition deliver_individual (d : Device A) (cemi : CemiLData) (now : Z)
    : list CemiLData * Device A :=
  let dest := sim_dest_individual cemi in
  if bool_decide (dest = d_address d) then
    let '(out, d) := device_reaction d cemi now in (acknowledge_first dest cemi out, d)
  else ([], d).

(** ** The world

    [sw_losses] says for each frame on the medium, in order, whether it is lost
    (no further frame is once it is used up).  The world's clock is in
    milliseconds, the device's instants in nanoseconds.  A frame takes a
    millisecond to receive. *)
Record SimWorld : Type := MkSimWorld {
  sw_device : Device A;
  sw_inbox : list CemiLData;
  sw_now : Z;
  sw_losses : list bool }.

Definition NS_PER_MS : Z := 1000000.

(** Frames put on the medium towards the tool. *)
Fixpoint transmit (out : list CemiLData) (w : SimWorld) : SimWorld :=
  match out with
  | [] => w
  | c :: out =>
      let inbox := if default false (head (sw_losses w)) then sw_inbox w else sw_inbox w ++ [c] in
      transmit out (MkSimWorld (sw_device w) inbox (sw_now w) (tail (sw_losses w)))
  end.

Definition set_device (d : Device A) (w : SimWorld) : SimWorld :=
  MkSimWorld d (sw_inbox w) (sw_now w) (sw_losses w).

(** The tool's frame, encoded by the client and decoded by the simulator. *)
Definition world_send (frame : CemiFrame) (w : SimWorld) : result MgmtError unit * SimWorld :=
  let lost := default false (head (sw_losses w)) in
  let w := MkSimWorld (sw_device w) (sw_inbox w) (sw_now w) (tail (sw_losses w)) in
  if lost then (Ok tt, w) else
  match sim_cemi_decode (CemiFrame_encode frame) with
  | Err _ => (Ok tt, w)
  | Ok cemi =>
      let '(out, d) := deliver_individual (sw_device w) cemi (sw_now w * NS_PER_MS) in
      (Ok tt, transmit out (set_device d w))
  end.

(** The next queued frame, or what the device's timers send meanwhile; [fuel]
    bounds the timers that fire within one wait. *)
Fixpoint world_recv (fuel : nat) (deadline : Z) (w : SimWorld) : RecvOutcome * SimWorld :=
  match sw_inbox w with
  | c :: inbox =>
      let w := MkSimWorld (sw_device w) inbox (sw_now w + 1) (sw_losses w) in
      (match CemiFrame_decode (sim_cemi_encode c) with
       | Ok frame => Received frame
       | Err e => RecvFailed (TransportFailed e)
       end, w)
  | [] =>
      let elapsed := (Elapsed, MkSimWorld (sw_device w) [] (Z.max (sw_now w) deadline) (sw_losses w)) in
      match fuel, next_l4_deadline (sw_device w) with
      | S fuel, Some t =>
          let at_ms := Z.max (sw_now w) ((t + NS_PER_MS - 1) / NS_PER_MS) in
          if deadline <? at_ms then elapsed else
          let '(out, d) := tick_l4 (sw_device w) (at_ms * NS_PER_MS) in
          world_recv fuel deadline (transmit out (MkSimWorld d [] at_ms (sw_losses w)))
      | _, _ => elapsed
      end
  end.

(** At most four timers of one device fire before it closes
    ([silence_closes_connection]). *)
Definition WORLD_TIMERS : nat := 5.

#[export] Instance sim_world : L4World SimWorld := {
  chan_send := world_send;
  chan_recv budget w := world_recv WORLD_TIMERS (sw_now w + budget) w;
  chan_now := sw_now;
  chan_sleep d w := MkSimWorld (sw_device w) (sw_inbox w) (sw_now w + Z.max 0 d) (sw_losses w);
  chan_random w := (0, w);
  frames_until deadline w := Z.to_nat (deadline - sw_now w) }.

Lemma transmit_now out : forall w, sw_now (transmit out w) = sw_now w.
Proof. induction out as [|c out IH]; intros w; [done|]. simpl. by rewrite IH. Qed.

Lemma transmit_device out : forall w, sw_device (transmit out w) = sw_device w.
Proof. induction out as [|c out IH]; intros w; [done|]. simpl. by rewrite IH. Qed.

Lemma transmit_in x out : forall w, In x (sw_inbox (transmit out w)) -> In x (sw_inbox w) \/ In x out.
Proof.
  induction out as [|c out IH]; intros w Hx; [by left|]. simpl in Hx.
  destruct (IH _ Hx) as [Hi|Ho]; [|by right; right]. simpl in Hi.
  destruct (default false _); [by left|]. apply in_app_iff in Hi as [Hi|[->|[]]]; [by left|].
  right. by left.
Qed.

Lemma world_send_now frame w : sw_now (snd (world_send frame w)) = sw_now w.
Proof.
  unfold world_send. destruct (default false _); [done|].
  destruct (sim_cemi_decode _) as [cemi|]; [|done].
  destruct (deliver_individual _ _ _) as [out d]. cbn [snd]. by rewrite transmit_now.
Qed.

Lemma world_recv_now fuel deadline : forall w,
  sw_now w <= sw_now (snd (world_recv fuel deadline w)) /\
  (forall frame, fst (world_recv fuel deadline w) = Received frame ->
    sw_now w < sw_now (snd (world_recv fuel deadline w))).
Proof.
  induction fuel as [|fuel IH]; intros w; cbn [world_recv];
    (destruct (sw_inbox w) as [|c inbox]; [|cbn [fst snd sw_now]; split; [lia|intros; lia]]).
  - cbn [fst snd sw_now]. split; [lia|done].
  - destruct (next_l4_deadline _) as [t|]; [|cbn [fst snd sw_now]; split; [lia|done]].
    remember (Z.max (sw_now w) ((t + NS_PER_MS - 1) / NS_PER_MS)) as at_ms eqn:Eat.
    destruct (deadline <? at_ms); [cbn [fst snd sw_now]; split; [lia|done]|].
    destruct (tick_l4 _ _) as [out d].
    match goal with |- context [world_recv fuel deadline ?w'] => destruct (IH w') as [H1 H2] end.
    rewrite transmit_now in H1, H2. cbn [sw_now] in H1, H2. split; [lia|].
    intros frame E. specialize (H2 frame E). lia.
Qed.

#[export] Instance sim_world_laws : L4WorldLaws SimWorld.
Proof.
  split.
  - intros w dl frame w' Hp E. cbn [chan_recv chan_now sim_world frames_until] in *.
    destruct (world_recv_now WORLD_TIMERS (sw_now w + (dl - sw_now w)) w) as [_ Hr].
    rewrite E in Hr. specialize (Hr frame eq_refl). cbn [snd] in Hr. lia.
  - intros w dl frame. cbn [chan_send sim_world frames_until]. rewrite world_send_now. lia.
Qed.

End Bus.

Arguments SimWorld : clear implicits.
