(* ===== verification/L4Compose.v ===== *)
(** * Client and device over a lossy medium

    The client's connection ([Connection]) run against the simulator's device
    ([SimTransport]) over the world of [SimBus]: whatever frames the medium loses
    and whatever the device's timers do, a request is served at most once, and a
    request that returns an answer was served exactly once with that answer. *)

From S2P Require Import Prelude Address Cursor Cemi Tpci SimWire SimMemory.
From S2P Require Import SimTransport MgmtError Crypto Sequence Asdu SecureSession Apci.
From S2P Require Import Connection SimBus.

Local Open Scope string_scope.
Local Open Scope list_scope.
Local Open Scope Z_scope.

(** ** Frames on the wire *)

Section Frames.
  Variables tool addr : u16.
  Hypotheses (Htool : is_u16 tool) (Haddr : is_u16 addr).

(** What the client sends. *)
Definition tool_control (octet : u8) : CemiFrame :=
  CemiFrame_t_control (IndividualAddress_from_raw addr) (IndividualAddress_from_raw tool) octet.

Definition tool_control_view (octet : u8) : CemiLData :=
  MkCemiLData SimLDataReq (Control1_to_byte (Control1_with_standard Control1_system true)) 96
    (MkSimIA tool) addr [octet].

(** What the device sends: control frames, and numbered answers. *)
Definition device_control (octet : u8) : CemiLData :=
  MkCemiLData SimLDataInd CTRL1_SYSTEM 96 (MkSimIA addr) tool [octet].

Definition device_answer (seq : u8) (apci : u16) (data : bytes) : CemiLData :=
  MkCemiLData SimLDataInd 188 96 (MkSimIA addr) tool (sim_encode_connected seq apci data).

(** An application payload that fits a frame. *)
Definition answer_fits (apci : u16) (data : bytes) : Prop :=
  0 <= apci < 1024 /\ (length data < 255)%nat.

Definition apdu_fits (apci : u16) (data : bytes) : Prop :=
  answer_fits apci data /\ bytes_ok data.

Lemma tool_control_sent octet : is_u8 octet ->
  sim_cemi_decode (CemiFrame_encode (tool_control octet)) = Ok (tool_control_view octet).
Proof.
  intros Ho. rewrite sim_decode_encode; [done|]. unfold CemiFrame_ok, tool_control. cbn.
  split; [constructor|]. split; [unfold zlen; simpl; lia|]. split; [unfold Control2_ok; simpl; lia|].
  split; [done|]. split; [by split|]. split; [done|]. unfold npdu_len_of. simpl. lia.
Qed.

Lemma device_control_seen octet :
  exists f, CemiFrame_decode (sim_cemi_encode (device_control octet)) = Ok f /\
    message_code f = LDataInd /\ source f = IndividualAddress_from_raw addr /\
    CemiFrame_individual_destination f = Some (IndividualAddress_from_raw tool) /\
    CemiFrame_tpci_octet f = octet.
Proof.
  unfold sim_cemi_encode, device_control. cbn [sim_tpdu sim_message_code sim_ctrl1 sim_ctrl2
    sim_source sim_ia_raw sim_dest length sim_mc_to_byte]. rewrite !be_bytes_2 by done. cbn [app].
  change (as_u8 (Z.of_nat (1 - 1))) with 0.
  pose proof (CemiFrame_decode_layout 41 LDataInd 0 [] CTRL1_SYSTEM 96 (addr / 256) (addr mod 256)
    (tool / 256) (tool mod 256) 0 [octet] [] eq_refl eq_refl eq_refl) as E. cbn [app] in E. rewrite E.
  cbn [decode_tpdu mbind result_bind]. eexists. split; [reflexivity|].
  assert (Hw : forall w, is_u16 w -> u16_of (w / 256) (w mod 256) = w) by (intros; zdiv).
  rewrite !Hw by done. done.
Qed.

Lemma encode_connected_octet seq apci data : 0 <= seq < 16 -> 0 <= apci < 1024 ->
  exists o0 o1, sim_encode_connected seq apci data = o0 :: o1 :: data /\
    Z.land o0 192 = 64 /\ Z.land (Z.shiftr o0 2) 15 = seq /\ is_u8 o0 /\ is_u8 o1 /\
    Z.lor (Z.shiftl (Z.land o0 3) 8) o1 = apci.
Proof.
  intros Hs Ha. unfold sim_encode_connected. eexists _, _. split; [reflexivity|].
  destruct (apci_split apci Ha) as (_ & H2 & _ & H4). pose proof (apci_hi_range apci Ha) as Hh.
  change (Z.land (as_u8 (Z.shiftr apci 8)) 3) with (apci_hi apci).
  change (as_u8 (Z.land apci 255)) with (apci_lo apci).
  assert (Hb : forall s, 0 <= s < 16 -> forall h, 0 <= h < 4 ->
    let o := Z.lor (sim_data_connected_byte s) h in
    Z.land o 192 = 64 /\ Z.land (Z.shiftr o 2) 15 = s /\ 0 <= o < 256 /\ Z.land o 3 = h).
  { intros s Hs' h Hh'. refine (below_decide 4 (fun h =>
      let o := Z.lor (sim_data_connected_byte s) h in
      Z.land o 192 = 64 /\ Z.land (Z.shiftr o 2) 15 = s /\ 0 <= o < 256 /\ Z.land o 3 = h) _ h Hh').
    refine (below_decide 16 (fun s => all_below 4 (fun h => bool_decide (
      let o := Z.lor (sim_data_connected_byte s) h in
      Z.land o 192 = 64 /\ Z.land (Z.shiftr o 2) 15 = s /\ 0 <= o < 256 /\ Z.land o 3 = h)) = true)
      _ s Hs'). vm_compute. reflexivity. }
  destruct (Hb seq Hs _ Hh) as (B1 & B2 & B3 & B4). cbn zeta in *. rewrite B1, B2, B4.
  do 2 (split; [done|]). split; [exact B3|]. split; [exact H2|].
  assert (E : Z.land (apci_hi apci) 3 = apci_hi apci).
  { rewrite (land_mask 2 3) by (lia || reflexivity). apply Z.mod_small. lia. }
  by rewrite E in H4.
Qed.

Lemma device_answer_seen seq apci data : 0 <= seq < 16 -> answer_fits apci data ->
  exists f, CemiFrame_decode (sim_cemi_encode (device_answer seq apci data)) = Ok f /\
    message_code f = LDataInd /\ source f = IndividualAddress_from_raw addr /\
    CemiFrame_individual_destination f = Some (IndividualAddress_from_raw tool) /\
    classify (CemiFrame_tpci_octet f) = NumberedData seq /\ extract_apdu f = (apci, data).
Proof.
  intros Hs [Ha Hl].
  destruct (encode_connected_octet seq apci data Hs Ha) as (o0 & o1 & E & H64 & Hseq & _ & _ & Happ).
  unfold sim_cemi_encode, device_answer. cbn [sim_tpdu sim_message_code sim_ctrl1 sim_ctrl2
    sim_source sim_ia_raw sim_dest sim_mc_to_byte]. rewrite E, !be_bytes_2 by done. cbn [app].
  replace (length (o0 :: o1 :: data) - 1)%nat with (S (length data)) by (simpl; lia).
  pose proof (CemiFrame_decode_layout 41 LDataInd 0 [] 188 96 (addr / 256) (addr mod 256)
    (tool / 256) (tool mod 256) (as_u8 (Z.of_nat (S (length data)))) (o0 :: o1 :: data) [] eq_refl eq_refl)
    as D. rewrite app_nil_r in D. cbn [app] in D. rewrite D by (cbn [length]; zdiv).
  cbn [decode_tpdu]. rewrite H64, Happ. cbn [Z.eqb mbind result_bind].
  eexists. split; [reflexivity|].
  assert (Hw : forall w, is_u16 w -> u16_of (w / 256) (w mod 256) = w) by (intros; zdiv).
  rewrite !Hw by done. cbn [message_code source CemiFrame_individual_destination destination
    CemiFrame_tpci_octet tpci apdu extract_apdu]. unfold classify, sequence. rewrite H64, Hseq. done.
Qed.

Lemma ndt_octet seq h : 0 <= seq < 16 -> 0 <= h < 4 ->
  let o := Z.lor (ndt seq) h in
  is_u8 (ndt seq) /\ Z.land (ndt seq) 192 <> 0 /\ Z.land o 192 = 64 /\
  Z.land (Z.shiftr o 2) 15 = seq /\ Z.land o 3 = h /\ Z.lor (Z.land (ndt seq) 3) h = h.
Proof.
  intros Hs Hh. refine (below_decide 4 (fun h => let o := Z.lor (ndt seq) h in
    is_u8 (ndt seq) /\ Z.land (ndt seq) 192 <> 0 /\ Z.land o 192 = 64 /\
    Z.land (Z.shiftr o 2) 15 = seq /\ Z.land o 3 = h /\ Z.lor (Z.land (ndt seq) 3) h = h) _ h Hh).
  refine (below_decide 16 (fun seq => all_below 4 (fun h => bool_decide (let o := Z.lor (ndt seq) h in
    is_u8 (ndt seq) /\ Z.land (ndt seq) 192 <> 0 /\ Z.land o 192 = 64 /\
    Z.land (Z.shiftr o 2) 15 = seq /\ Z.land o 3 = h /\ Z.lor (Z.land (ndt seq) 3) h = h)) = true)
    _ seq Hs). vm_compute. reflexivity.
Qed.

End Frames.

(** ** Applications that answer a request once

    On the requests of [answerable], a numbered request on an open connection is
    answered by nothing or by one numbered response to its sender, and the
    application keeps its address; and a request on a closed connection leaves the
    application as it was (the device descriptor of type 0 excepted). *)
Class AnsweringApp (A : Type) `{DeviceApp A} : Type := {
  answerable : SimApdu -> Prop;
  answering_laws :: DeviceAppLaws A;
  app_keeps_address : forall a open tx cemi apdu, answerable apdu ->
    app_address (ar_app (handle_apdu a open tx cemi apdu)) = app_address a;
  app_answers_once : forall a tx cemi apdu reaction,
    answerable apdu -> is_numbered cemi = true -> 0 <= tx < 16 ->
    ar_result (handle_apdu a true tx cemi apdu) = Ok reaction ->
    (responses reaction = [] /\ ar_tx_seq (handle_apdu a true tx cemi apdu) = tx) \/
    (exists apci data, answer_fits apci data /\
      responses reaction = [device_answer (sim_ia_raw (sim_source cemi)) (sim_ia_raw (app_address a))
                              tx apci data] /\
      ar_tx_seq (handle_apdu a true tx cemi apdu) = (tx + 1) mod 16);
  app_closed_unchanged : forall a tx cemi apdu,
    is_numbered cemi = true -> sim_apci apdu <> SimDeviceDescriptorRead 0 ->
    ar_app (handle_apdu a false tx cemi apdu) = a }.

Section Round.
  Context {A : Type} `{AnsweringApp A}.
  Variables tool addr : u16.
  Hypotheses (Htool : is_u16 tool) (Haddr : is_u16 addr).

(** One request: its sequence [s], the sequence [r] its answer will have, the
    application before it, and the request's frame. *)
  Variables (s r : u8) (a0 : A) (prio : Priority) (apci : u16) (data : bytes).
  Hypotheses (Hs : 0 <= s < 16) (Hr : 0 <= r < 16) (Hfits : apdu_fits apci data).
  Hypothesis Hservice : sim_apci_from_u10 apci <> SimDeviceDescriptorRead 0.
  Hypothesis Haddr0 : app_address a0 = MkSimIA addr.
  Hypothesis Hanswerable : answerable (MkSimApdu (sim_apci_from_u10 apci) apci data).

Definition req : CemiFrame :=
  CemiFrame_with_priority
    (CemiFrame_t_data_connected (IndividualAddress_from_raw addr) (IndividualAddress_from_raw tool)
       (ndt s) apci data) prio.

(** What the application makes of the request, once. *)
Definition served : AppResult A :=
  handle_apdu a0 true r (sim_view req) (MkSimApdu (sim_apci_from_u10 apci) apci data).

Definition answer_frame : option CemiLData :=
  match ar_result served with
  | Ok reaction => head (responses reaction)
  | Err _ => None
  end.

Definition app_after (p : bool) : A := if p then ar_app served else a0.

(** The answer to the request before this one. *)
Definition previous_answer (x : CemiLData) : Prop :=
  exists apci data, answer_fits apci data /\ x = device_answer tool addr ((r - 1) mod 16) apci data.

(** What may be under way to the tool: before the request is served only
    leftovers of the request before it, and after that only what answers it. *)
Definition stale (x : CemiLData) : Prop :=
  x = device_control tool addr (sim_ack_byte ((s - 1) mod 16)) \/
  x = device_control tool addr SIM_DISCONNECT_BYTE \/ previous_answer x.

Definition repeatable (p : bool) (x : CemiLData) : Prop :=
  if p then answer_frame = Some x \/ (answer_frame = None /\ previous_answer x)
  else previous_answer x.

Definition fresh (x : CemiLData) : Prop :=
  x = device_control tool addr (sim_ack_byte s) \/
  x = device_control tool addr SIM_DISCONNECT_BYTE \/ repeatable true x.

Definition emitted (p : bool) (x : CemiLData) : Prop := if p then fresh x else stale x.

(** The device has served the request ([p]) or not yet. *)
Record device_round (p : bool) (d : Device A) : Prop := MkDeviceRound {
  dr_address : d_address d = MkSimIA addr;
  dr_budget : d_exchange_budget d = None;
  dr_app : d_app d = app_after p \/
           (d_connected d = false /\ d_app d = app_clear_verify_mode (app_after p));
  dr_open : d_connected d = true ->
    l4_peer (d_l4 d) = MkSimIA tool /\ d_rx_seq d = (s + Z.b2z p) mod 16 /\
    d_tx_seq d = (if p then ar_tx_seq served else r) /\
    match l4_pending (d_l4 d) with
    | None => True
    | Some pd => repeatable p (pr_frame pd)
    end }.

(** Frames arrive in the order they were sent: leftovers before fresh ones.  [g]:
    the leftovers are gone. *)
Definition inbox_round (p g : bool) (l : list CemiLData) : Prop :=
  exists st fr, l = st ++ fr /\ Forall stale st /\ Forall fresh fr /\ (fr <> [] -> p = true) /\
    (g = true -> p = true /\ st = []).

Definition world_round (p g : bool) (w : SimWorld A) : Prop :=
  device_round p (sw_device w) /\ inbox_round p g (sw_inbox w).

(** ** The medium *)

Lemma emitted_disconnect p : emitted p (device_control tool addr SIM_DISCONNECT_BYTE).
Proof. destruct p; right; left; done. Qed.

Lemma emitted_repeatable p x : repeatable p x -> emitted p x.
Proof. destruct p; intros Hx; by right; right. Qed.

Lemma inbox_emit p g l x : inbox_round p g l -> emitted p x -> inbox_round p g (l ++ [x]).
Proof.
  intros (st & fr & -> & Hst & Hfr & Hp & Hg) Hx. destruct p.
  - exists st, (fr ++ [x]). rewrite app_assoc. split; [done|]. split; [done|].
    split; [|done]. apply Forall_app_2; [done|]. by apply Forall_singleton.
  - destruct fr as [|y fr]; [|by discriminate Hp]. destruct g; [by destruct (Hg eq_refl)|].
    exists (st ++ [x]), []. rewrite !app_nil_r. split; [done|]. split; [|done].
    apply Forall_app_2; [done|]. by apply Forall_singleton.
Qed.

Lemma inbox_transmit p g out : forall w : SimWorld A, inbox_round p g (sw_inbox w) ->
  Forall (emitted p) out -> inbox_round p g (sw_inbox (transmit out w)).
Proof.
  induction out as [|x out IH]; intros w Hw Ho; [done|]. inversion Ho; subst. simpl.
  apply IH; [|done]. simpl. destruct (default false _); [done|]. by apply inbox_emit.
Qed.

Lemma world_transmit p g out (w : SimWorld A) : world_round p g w -> Forall (emitted p) out ->
  world_round p g (transmit out w).
Proof. intros [Hd Hi] Ho. split; [by rewrite transmit_device|by apply inbox_transmit]. Qed.

Lemma inbox_served p g l : inbox_round p g l -> inbox_round true g l.
Proof.
  intros (st & fr & Hl & Hst & Hfr & Hp & Hg). exists st, fr. do 4 (split; [done|]). intros E.
  by destruct (Hg E).
Qed.

(** The next frame is a leftover, or they are all gone. *)
Lemma inbox_next p g x l : inbox_round p g (x :: l) ->
  exists g', (g = true -> g' = true) /\ inbox_round p g' l /\ (if g' then fresh x else stale x).
Proof.
  intros (st & fr & E & Hst & Hfr & Hp & Hg). destruct st as [|y st].
  - cbn [app] in E. subst fr. inversion Hfr; subst. exists true. split; [done|]. split; [|done].
    assert (p = true) as -> by (by apply Hp). by exists [], l.
  - injection E as <- ->. inversion Hst; subst. exists false.
    split; [intros E; by destruct (Hg E)|]. split; [|done]. by exists st, fr.
Qed.

(** ** The device *)

Lemma clear_verify_app (d : Device A) :
  d_app (clear_verify_if_sys7 d) = d_app d \/
  d_app (clear_verify_if_sys7 d) = app_clear_verify_mode (d_app d).
Proof. unfold clear_verify_if_sys7. destruct (app_sys7 _); [by right|by left]. Qed.

Lemma clear_verify_address (d : Device A) : d_address (clear_verify_if_sys7 d) = d_address d.
Proof.
  unfold clear_verify_if_sys7, d_address. destruct (app_sys7 _); [|done].
  apply app_clear_keeps_address.
Qed.

Lemma close_round p d : device_round p d -> d_connected d = true -> device_round p (l4_close d).
Proof.
  intros [Ha Hb Hp Ho] Hc. unfold l4_close.
  set (d' := set_pending None (set_connected false d)).
  destruct Hp as [Hp|[Hf _]]; [|congruence]. split.
  - by rewrite clear_verify_address.
  - by destruct (clear_verify_budget d') as [-> _].
  - destruct (clear_verify_app d') as [E|E]; rewrite E; [by left|right].
    split; [by rewrite clear_verify_connected|]. unfold d'. simpl. by rewrite Hp.
  - rewrite clear_verify_connected. done.
Qed.

Lemma abandon_round p d : device_round p d -> d_connected d = true ->
  device_round p (snd (l4_abandon d)) /\ Forall (emitted p) (fst (l4_abandon d)).
Proof.
  intros Hd Hc. rewrite abandon_out. split; [by apply close_round|].
  apply Forall_singleton. destruct (dr_open p d Hd Hc) as (-> & _).
  unfold t_control. rewrite (dr_address p d Hd). apply emitted_disconnect.
Qed.

Lemma expire_round p d now : device_round p d ->
  device_round p (snd (expire_l4 d now)) /\ Forall (emitted p) (fst (expire_l4 d now)).
Proof.
  intros Hd. unfold expire_l4. destruct (d_connected d) eqn:Hc; cbn [andb]; [|done].
  destruct (_ <=? _); [|done]. by apply abandon_round.
Qed.

Lemma traffic_round p d now : device_round p d -> device_round p (set_last_traffic now d).
Proof. intros [? ? ? Ho]. by split. Qed.

Lemma pending_round p d pd : device_round p d ->
  (d_connected d = true -> match pd with None => True | Some pd => repeatable p (pr_frame pd) end) ->
  device_round p (set_pending pd d).
Proof.
  intros [? ? ? Ho] Hpd. split; try done. intros Hc. destruct (Ho Hc) as (? & ? & ? & _).
  do 3 (split; [done|]). simpl. destruct pd; [by apply Hpd|done].
Qed.

(** A pending response is repeated, or the connection given up. *)
Lemma repeat_round p d pd now : device_round p d -> d_connected d = true ->
  l4_pending (d_l4 d) = Some pd ->
  device_round p (set_pending (Some (MkPending (pr_frame pd) (pr_seq pd) now
                                       (pr_repetitions pd + 1))) d) /\
  Forall (emitted p) [pr_frame pd].
Proof.
  intros Hd Hc Hpd. destruct (dr_open p d Hd Hc) as (_ & _ & _ & Hrep). rewrite Hpd in Hrep.
  split; [by apply pending_round|]. apply Forall_singleton. by apply emitted_repeatable.
Qed.

Lemma tick_round p d now : device_round p d ->
  device_round p (snd (tick_l4 d now)) /\ Forall (emitted p) (fst (tick_l4 d now)).
Proof.
  intros Hd. unfold tick_l4. destruct (d_connected d) eqn:Hc; cbn [negb]; [|done].
  destruct (_ <=? duration_since _ _); [by apply abandon_round|].
  destruct (l4_pending (d_l4 d)) as [pd|] eqn:Hpd; [|done].
  destruct (_ <? _); [done|]. destruct (MAX_REPETITIONS <=? _); [by apply abandon_round|].
  destruct (repeat_round p d pd now Hd Hc Hpd) as [H1 H2]. split; [|done].
  cbn [snd]. by apply traffic_round.
Qed.

Lemma control_round p d cemi t now : device_round p d -> t <> SimConnect ->
  device_round p (snd (handle_transport_control d cemi t now)) /\
  Forall (emitted p) (responses (fst (handle_transport_control d cemi t now))).
Proof.
  intros Hd Ht. unfold handle_transport_control.
  destruct (d_connected d && _) eqn:Hf; [|by destruct t].
  assert (Hc : d_connected d = true) by (by apply andb_true_iff in Hf as [? _]).
  assert (Hd' : device_round p (set_last_traffic now d)) by (by apply traffic_round).
  destruct t as [| |  |  |q|q]; try done.
  - split; [by apply close_round|done].
  - destruct (l4_pending _) as [pd|]; [|by split]. destruct (_ =? _); [|by split].
    split; [|done]. by apply pending_round.
  - destruct (l4_pending (d_l4 (set_last_traffic now d))) as [pd|] eqn:Hpd; [|by split].
    destruct (_ =? _); [|by split]. destruct (MAX_REPETITIONS <=? _).
    + destruct (abandon_round p (set_last_traffic now d) Hd' Hc) as [H1 H2].
      by destruct (l4_abandon _).
    + by apply repeat_round.
Qed.

Lemma connected_octet o q : is_u8 o -> sim_tpci_from_byte o = SimDataConnected q ->
  Z.land o 192 = 64.
Proof.
  intros Ho Et. pose proof (all_below_spec 256 (fun o => match sim_tpci_from_byte o with
    | SimDataConnected _ => Z.land o 192 =? 64 | _ => true end) ltac:(vm_compute; reflexivity) o Ho)
    as E. cbv beta in E. rewrite Et in E. by apply Z.eqb_eq.
Qed.

(** Frames the tool may send besides its request. *)
Definition harmless (o : u8) : Prop :=
  is_u8 o /\ Z.land o 192 <> 64 /\ sim_tpci_from_byte o <> SimConnect /\
  sim_tpci_from_byte o <> SimDataUnnumbered.

Lemma deliver_control_round p d o now : device_round p d -> harmless o ->
  device_round p (snd (deliver_individual d (tool_control_view tool addr o) now)) /\
  Forall (emitted p) (fst (deliver_individual d (tool_control_view tool addr o) now)).
Proof.
  intros Hd (Ho & Hn & Hcon & Hun). unfold deliver_individual.
  rewrite bool_decide_eq_true_2 by (by rewrite (dr_address p d Hd)).
  assert (Hreact : device_round p (snd (device_reaction d (tool_control_view tool addr o) now)) /\
    Forall (emitted p) (fst (device_reaction d (tool_control_view tool addr o) now))).
  { unfold device_reaction, handle_cemi_at. cbn [tool_control_view sim_tpdu].
    destruct (expire_round p d now Hd) as [He1 He2]. destruct (expire_l4 d now) as [ex d1].
    cbn [fst snd] in He1, He2.
    destruct (sim_tpci_from_byte o) eqn:Et; try done.
    2-4: match goal with |- context [handle_transport_control ?d ?c ?t ?n] =>
      destruct (control_round p d c t n He1 ltac:(done)) as [H1 H2];
      destruct (handle_transport_control d c t n) as [react d2] end;
      cbn [fst snd responses] in *; split; [done|by apply Forall_app_2].
    exfalso. apply Hn. by eapply connected_octet. }
  destruct (device_reaction d (tool_control_view tool addr o) now) as [out d']. cbn [fst snd] in *.
  split; [by destruct Hreact|]. unfold acknowledge_first.
  destruct out as [|x out]; [done|]. cbn [is_numbered tool_control_view sim_tpdu].
  apply Z.eqb_neq in Hn. rewrite Hn. by destruct Hreact.
Qed.

(** ** The request at the device *)

Lemma request_octets : exists o0 o1,
  sim_tpdu (sim_view req) = o0 :: o1 :: data /\ Z.land o0 192 = 64 /\
  Z.land (Z.shiftr o0 2) 15 = s /\
  sim_apdu_parse (sim_tpdu (sim_view req)) = Some (MkSimApdu (sim_apci_from_u10 apci) apci data).
Proof.
  destruct Hfits as [[Ha _] _]. pose proof (apci_hi_range apci Ha) as Hh.
  destruct (apci_split apci Ha) as (_ & _ & _ & H4).
  destruct (ndt_octet s (apci_hi apci) Hs Hh) as (_ & _ & O1 & O2 & O3 & _). cbn zeta in *.
  eexists _, _. split; [reflexivity|]. cbn zeta. split; [exact O1|]. split; [exact O2|].
  cbn [sim_view sim_tpdu req CemiFrame_with_priority CemiFrame_t_data_connected tpci apdu encode_tpdu fst
       sim_apdu_parse]. rewrite O3.
  assert (E : Z.land (apci_hi apci) 3 = apci_hi apci).
  { rewrite (land_mask 2 3) by (lia || reflexivity). apply Z.mod_small. lia. }
  rewrite E in H4. by rewrite H4.
Qed.

Lemma request_ok : CemiFrame_ok req.
Proof.
  destruct Hfits as [[Ha Hl] Hd]. pose proof (apci_hi_range apci Ha) as Hh.
  destruct (ndt_octet s (apci_hi apci) Hs Hh) as (O1 & O2 & _ & _ & _ & O3). cbn zeta in *.
  unfold CemiFrame_ok, req. cbn.
  split; [constructor|]. split; [unfold zlen; simpl; lia|]. split; [unfold Control2_ok; simpl; lia|].
  split; [done|]. split; [by split|]. split; [done|]. unfold npdu_len_of. simpl. lia.
Qed.

Lemma request_sent : sim_cemi_decode (CemiFrame_encode req) = Ok (sim_view req).
Proof. apply sim_decode_encode, request_ok. Qed.

Lemma request_numbered : is_numbered (sim_view req) = true /\
  sim_tpci_from_byte (nth 0 (sim_tpdu (sim_view req)) 0) = SimDataConnected s.
Proof.
  destruct request_octets as (o0 & o1 & E & H64 & Hseq & _). unfold is_numbered. rewrite E.
  split; [by rewrite H64|]. cbn [nth]. rewrite numbered_tpci by done. by rewrite Hseq.
Qed.

Lemma served_answer reaction : ar_result served = Ok reaction ->
  (responses reaction = [] /\ answer_frame = None /\ ar_tx_seq served = r) \/
  (exists apci' data', answer_fits apci' data' /\
    responses reaction = [device_answer tool addr r apci' data'] /\
    answer_frame = Some (device_answer tool addr r apci' data') /\ ar_tx_seq served = (r + 1) mod 16).
Proof.
  intros E. unfold answer_frame. rewrite E.
  destruct (app_answers_once a0 r (sim_view req) (MkSimApdu (sim_apci_from_u10 apci) apci data) reaction
      Hanswerable (proj1 request_numbered) Hr E)
    as [[E1 E2]|(apci' & data' & Hf & E1 & E2)]; rewrite E1.
  - by left.
  - right. exists apci', data'. rewrite Haddr0. by repeat split; try apply Hf.
Qed.

(** An open device that has not served the request serves it now. *)
Lemma served_state d d2 : device_round false d -> d_connected d = true ->
  d_app d2 = ar_app served -> d_exchange_budget d2 = None ->
  l4_peer (d_l4 d2) = l4_peer (d_l4 d) -> d_rx_seq d2 = Z.land (d_rx_seq d + 1) 15 ->
  d_tx_seq d2 = ar_tx_seq served ->
  (d_connected d2 = true ->
   match l4_pending (d_l4 d2) with None => True | Some pd => repeatable true (pr_frame pd) end) ->
  device_round true d2.
Proof.
  intros Hd Hc Happ Hb Hpeer Hrx Htx Hpd. destruct (dr_open false d Hd Hc) as (Hp & Hx & _).
  destruct (dr_app false d Hd) as [Ha|[Hf _]]; [|congruence].
  split; [|done|by left|].
  - unfold d_address. rewrite Happ. unfold served. rewrite app_keeps_address by done.
    change a0 with (app_after false). rewrite <- Ha. apply (dr_address false d Hd).
  - intros Hc2. split; [congruence|]. split; [|by split; [|apply Hpd]]. rewrite Hrx, Hx. simpl.
    rewrite rx_succ by (apply Z.mod_pos_bound; lia).
    rewrite Z.add_0_r, Z.add_mod_idemp_l; [done|lia].
Qed.

Lemma ack_not_numbered to q : is_numbered (device_control to addr (sim_ack_byte q)) = false.
Proof.
  assert (E : (Z.land (sim_ack_byte q) 192 =? 64) = false); [|done].
  unfold sim_ack_byte. rewrite !Z.land_lor_distr_l.
  change (Z.land 192 192) with 192. apply Z.eqb_neq. intros E.
  assert (Hb : Z.testbit 64 7 = true); [|by vm_compute in Hb].
  rewrite <- E, !Z.lor_spec. by rewrite (eq_refl : Z.testbit 192 7 = true).
Qed.

Lemma answer_numbered q apci' data' : 0 <= q < 16 -> answer_fits apci' data' ->
  is_numbered (device_answer tool addr q apci' data') = true.
Proof.
  intros Hq (Ha & _). destruct (encode_connected_octet q apci' data' Hq Ha) as (o0 & o1 & E & H64 & _).
  unfold is_numbered, device_answer. cbn [sim_tpdu]. rewrite E. by apply Z.eqb_eq.
Qed.

Lemma process_round d now : device_round false d -> d_connected d = true ->
  device_round true (snd (process_numbered d (sim_view req) s now)) /\
  Forall fresh (match fst (process_numbered d (sim_view req) s now) with
    | Ok reaction => acknowledge_first (MkSimIA addr) (sim_view req) (responses reaction)
    | Err _ => []
    end).
Proof.
  intros Hd Hc. destruct (dr_open false d Hd Hc) as (Hpeer & Hrx & Htx & Hpd).
  destruct (dr_app false d Hd) as [Happ|[Hf _]]; [|congruence]. cbn [app_after] in Happ.
  destruct request_octets as (o0 & o1 & Et & H64 & Hseq & Hparse).
  unfold process_numbered. rewrite Hparse. cbn [d_connected d_app d_tx_seq set_rx_seq].
  rewrite Hc, Happ, Htx. cbn iota. fold served.
  set (d2 := set_tx_seq _ _).
  assert (H2 : answer_frame = None -> device_round true d2).
  { intros Hnone. apply (served_state d); try done; [apply (dr_budget false d Hd)|].
    simpl in Hpd |- *. destruct (l4_pending _); [right; by split|done]. }
  assert (Hd2 : d_address d2 = MkSimIA addr)
    by (unfold d_address, d2; simpl; unfold served; by rewrite app_keeps_address by done).
  destruct (ar_result served) as [reaction|e] eqn:Eres; cbn [fst snd responses];
    [|split; [apply H2; unfold answer_frame; by rewrite Eres|done]].
  destruct (served_answer reaction Eres)
    as [(E & Hnone & _)|(apci' & data' & Hf & E & Hsome & Htx')]; rewrite E.
  - cbn [bool_decide decide_rel list_eq_dec]. rewrite bool_decide_eq_true_2 by done.
    unfold sim_t_ack, t_control, last_numbered. rewrite Hd2.
    change (MkCemiLData SimLDataInd CTRL1_SYSTEM 96 (MkSimIA addr) (sim_ia_raw (sim_source (sim_view req))) [sim_ack_byte s])
      with (device_control tool addr (sim_ack_byte s)).
    cbn [reverse rev_append List.find]. rewrite ack_not_numbered.
    split; [destruct (d_connected d2); by apply H2|].
    unfold acknowledge_first. rewrite ack_not_numbered, andb_false_r.
    apply Forall_singleton. by left.
  - rewrite bool_decide_eq_false_2 by done. unfold last_numbered.
    cbn [reverse rev_append List.find]. rewrite answer_numbered by done. split.
    + destruct (d_connected d2) eqn:Ec2;
        (apply (served_state d); try done; [apply (dr_budget false d Hd)|]).
      * by left.
      * intros Hc2. congruence.
    + unfold acknowledge_first. rewrite answer_numbered, (proj1 request_numbered) by done. cbn [andb].
      rewrite Et. cbn [nth]. rewrite Hseq. apply Forall_cons_2; [by left|].
      apply Forall_singleton. right. right. by left.
Qed.

(** Numbered data on a closed connection is refused. *)
Lemma process_closed_round p d now : device_round p d -> d_connected d = false ->
  exists e d', process_numbered d (sim_view req) s now = (Err e, d') /\ device_round p d'.
Proof.
  intros Hd Hc. destruct request_octets as (o0 & o1 & Et & H64 & _ & Hparse).
  unfold process_numbered. rewrite Hparse. cbn [d_connected d_app d_tx_seq set_rx_seq]. rewrite Hc.
  pose proof (app_needs_connection (d_app d) (d_tx_seq d) (sim_view req)
    (MkSimApdu (sim_apci_from_u10 apci) apci data)) as He.
  rewrite Et in He. destruct (He H64 Hservice) as [e E]. rewrite E. eexists e, _. split; [done|].
  pose proof (app_never_connects (d_app d) (d_tx_seq d) (sim_view req)
    (MkSimApdu (sim_apci_from_u10 apci) apci data)) as Hcl.
  pose proof (app_closed_unchanged (d_app d) (d_tx_seq d) (sim_view req)
    (MkSimApdu (sim_apci_from_u10 apci) apci data) (proj1 request_numbered) Hservice) as Hap.
  destruct Hd as [Ha Hb Hp Ho]. split; cbn -[handle_apdu].
  - unfold d_address. cbn -[handle_apdu]. rewrite Hap. exact Ha.
  - exact Hb.
  - rewrite Hap, Hcl. destruct Hp as [Hp|[_ Hp]]; [by left|by right].
  - rewrite Hcl. done.
Qed.

Lemma expire_open d now : d_connected (snd (expire_l4 d now)) = true ->
  fst (expire_l4 d now) = [] /\ d_connected d = true.
Proof.
  unfold expire_l4. destruct (d_connected d && _) eqn:E; [|done].
  unfold l4_abandon, l4_close. cbn [fst snd]. by rewrite clear_verify_connected.
Qed.

Lemma reaction_request_round p d now : device_round p d ->
  exists p', (p = true -> p' = true) /\ device_round p' (snd (device_reaction d (sim_view req) now)) /\
    Forall (emitted p') (acknowledge_first (MkSimIA addr) (sim_view req)
      (fst (device_reaction d (sim_view req) now))).
Proof.
  intros Hd. unfold device_reaction, handle_cemi_at.
  destruct request_octets as (o0 & o1 & Et & H64 & Hseq & Hparse). rewrite Et.
  destruct request_numbered as [Hnum Ho]. rewrite Et in Ho. cbn [nth] in Ho. rewrite Ho.
  destruct (expire_round p d now Hd) as [He1 He2]. pose proof (expire_open d now) as Hex.
  destruct (expire_l4 d now) as [ex d1]. cbn [fst snd] in *.
  unfold handle_numbered_data. destruct (d_connected d1) eqn:Hc.
  - destruct (Hex eq_refl) as [-> _]. destruct (dr_open p d1 He1 Hc) as (Hpeer & Hrx & _).
    rewrite bool_decide_eq_true_2 by (by rewrite Hpeer). cbn [andb negb].
    cbn [d_connected d_rx_seq set_last_traffic set_l4 d_exchange_budget]. rewrite Hc, Hrx. cbn [andb].
    destruct p; cbn [Z.b2z].
    + assert (Hla : Z.land (as_u8 ((s + 1) mod 16 - 1)) 15 = s).
      { rewrite (land_mask 4 15) by (lia || reflexivity). unfold as_u8. zdiv. }
      rewrite Hla, Z.eqb_refl. exists true. split; [done|]. cbn [fst snd app responses].
      split; [by apply traffic_round|]. unfold sim_t_ack, t_control, acknowledge_first.
      rewrite (dr_address true (set_last_traffic now d1) ltac:(by apply traffic_round)).
      change (MkCemiLData SimLDataInd CTRL1_SYSTEM 96 (MkSimIA addr)
        (sim_ia_raw (sim_source (sim_view req))) [sim_ack_byte s])
        with (device_control tool addr (sim_ack_byte s)).
      rewrite ack_not_numbered, andb_false_r. apply Forall_singleton. by left.
    + assert (Hla : (s =? Z.land (as_u8 ((s + 0) mod 16 - 1)) 15) = false).
      { rewrite (land_mask 4 15) by (lia || reflexivity). unfold as_u8. apply Z.eqb_neq. zdiv. }
      rewrite Hla. replace (s =? (s + 0) mod 16) with true by (symmetry; apply Z.eqb_eq; zdiv).
      cbn [negb]. rewrite (dr_budget false d1 He1). exists true. split; [done|].
      destruct (process_round (set_last_traffic now d1) now) as [H1 H2];
        [by apply traffic_round|done|].
      destruct (process_numbered _ _ _ _) as [[reaction|e] d2]; cbn [fst snd responses app] in *; done.
  - cbn [andb]. rewrite Hc. cbn [andb]. rewrite (dr_budget p d1 He1).
    destruct (process_closed_round p d1 now He1 Hc) as (e & d' & E & Hd'). rewrite E.
    exists p. done.
Qed.

Lemma deliver_request_round p d now : device_round p d ->
  exists p', (p = true -> p' = true) /\
    device_round p' (snd (deliver_individual d (sim_view req) now)) /\
    Forall (emitted p') (fst (deliver_individual d (sim_view req) now)).
Proof.
  intros Hd. unfold deliver_individual.
  change (sim_dest_individual (sim_view req)) with (MkSimIA addr).
  rewrite (dr_address p d Hd), bool_decide_eq_true_2 by done.
  destruct (reaction_request_round p d now Hd) as (p' & Hp & H1 & H2). exists p'.
  by destruct (device_reaction d (sim_view req) now).
Qed.

(** ** The world *)

Lemma world_send_control p g o (w : SimWorld A) : world_round p g w -> harmless o ->
  fst (world_send (tool_control tool addr o) w) = Ok tt /\
  world_round p g (snd (world_send (tool_control tool addr o) w)).
Proof.
  intros [Hd Hi] Ho. unfold world_send. destruct (default false _); [done|].
  rewrite (tool_control_sent tool addr Htool Haddr) by (by destruct Ho). cbn [sw_device sw_now].
  destruct (deliver_control_round p (sw_device w) o (sw_now w * NS_PER_MS) Hd Ho) as [H1 H2].
  destruct (deliver_individual _ _ _) as [out d]. cbn [fst snd] in *. split; [done|].
  by apply world_transmit.
Qed.

Lemma world_send_request p g (w : SimWorld A) : world_round p g w ->
  fst (world_send req w) = Ok tt /\ exists p', world_round p' g (snd (world_send req w)).
Proof.
  intros [Hd Hi]. unfold world_send. destruct (default false _); [split; [done|by exists p]|].
  rewrite request_sent. cbn [sw_device sw_now].
  destruct (deliver_request_round p (sw_device w) (sw_now w * NS_PER_MS) Hd) as (p' & Hp & H1 & H2).
  destruct (deliver_individual _ _ _) as [out d]. cbn [fst snd] in *. split; [done|].
  exists p'. apply world_transmit; [|done]. split; [done|]. cbn [set_device sw_inbox].
  destruct p'; [by eapply inbox_served|]. by destruct p; [specialize (Hp eq_refl)|].
Qed.

(** What the client hears: acknowledgements, a disconnect, the answer to the
    request before, or the answer to this one. *)
Definition peer_frame (f : CemiFrame) : Prop :=
  message_code f = LDataInd /\ source f = IndividualAddress_from_raw addr /\
  CemiFrame_individual_destination f = Some (IndividualAddress_from_raw tool).

Definition answers_with (v : u16 * bytes) : Prop :=
  answer_frame = Some (device_answer tool addr r (fst v) (snd v)) /\
  ar_tx_seq served = (r + 1) mod 16 /\ answer_fits (fst v) (snd v).

Definition heard (g : bool) (f : CemiFrame) : Prop :=
  peer_frame f /\
  (CemiFrame_tpci_octet f = sim_ack_byte ((s - 1) mod 16) \/
   (g = true /\ CemiFrame_tpci_octet f = sim_ack_byte s) \/
   CemiFrame_tpci_octet f = SIM_DISCONNECT_BYTE \/
   classify (CemiFrame_tpci_octet f) = NumberedData ((r - 1) mod 16) \/
   (g = true /\ classify (CemiFrame_tpci_octet f) = NumberedData r /\ answers_with (extract_apdu f))).

Lemma heard_control o : exists f,
  CemiFrame_decode (sim_cemi_encode (device_control tool addr o)) = Ok f /\ peer_frame f /\
  CemiFrame_tpci_octet f = o.
Proof.
  destruct (device_control_seen tool addr Htool Haddr o) as (f & E & H1 & H2 & H3 & H4).
  by exists f.
Qed.

Lemma heard_previous x g : previous_answer x ->
  exists f, CemiFrame_decode (sim_cemi_encode x) = Ok f /\ heard g f.
Proof.
  intros (ap & da & Hf & ->).
  destruct (device_answer_seen tool addr Htool Haddr ((r - 1) mod 16) ap da) as (f & E & H1 & H2 & H3 & H4 & H5);
    [apply Z.mod_pos_bound; lia|done|]. exists f. split; [done|].
  split; [done|]. by do 3 right; left.
Qed.

Lemma answer_frame_spec x : answer_frame = Some x ->
  exists v, answer_fits (fst v) (snd v) /\ x = device_answer tool addr r (fst v) (snd v) /\ answers_with v.
Proof.
  intros E. unfold answers_with. destruct (ar_result served) as [reaction|e] eqn:Er;
    [|unfold answer_frame in E; by rewrite Er in E].
  destruct (served_answer reaction Er) as [(_ & E' & _)|(ap & da & Hf & _ & E' & Htx)];
    rewrite E' in E; [done|]. injection E as <-. by exists (ap, da).
Qed.

Lemma heard_of (g : bool) x : (if g then fresh x else stale x) ->
  exists f, CemiFrame_decode (sim_cemi_encode x) = Ok f /\ heard g f.
Proof.
  assert (Hctl : forall o, o = sim_ack_byte ((s - 1) mod 16) \/ (g = true /\ o = sim_ack_byte s) \/
      o = SIM_DISCONNECT_BYTE ->
    exists f, CemiFrame_decode (sim_cemi_encode (device_control tool addr o)) = Ok f /\ heard g f).
  { intros o Ho. destruct (heard_control o) as (f & E & Hf & Eo). exists f. split; [done|].
    split; [done|]. rewrite Eo. destruct Ho as [Ho|[Ho|Ho]]; [by left|by right; left|by do 2 right; left]. }
  destruct g.
  - intros [->|[->|Hx]]; [apply Hctl; by right; left|apply Hctl; by right; right|].
    destruct Hx as [Ha|[_ Hx]]; [|by apply heard_previous].
    destruct (answer_frame_spec x Ha) as ([ap da] & Hf & -> & Hv).
    destruct (device_answer_seen tool addr Htool Haddr r ap da) as (f & E & H1 & H2 & H3 & H4 & H5);
      [done|done|]. exists f. split; [done|]. split; [done|]. do 4 right. rewrite H5. done.
  - intros [->|[->|Hx]]; [apply Hctl; by left|apply Hctl; by right; right|].
    by apply heard_previous.
Qed.

Lemma world_recv_round p fuel deadline : forall g (w : SimWorld A), world_round p g w ->
  exists g', (g = true -> g' = true) /\ world_round p g' (snd (world_recv fuel deadline w)) /\
    match fst (world_recv fuel deadline w) with
    | Received f => heard g' f
    | RecvFailed _ => False
    | Elapsed => True
    end.
Proof.
  assert (Hhead : forall g x inbox (w : SimWorld A), device_round p (sw_device w) ->
    inbox_round p g (x :: inbox) ->
    exists g', (g = true -> g' = true) /\
      world_round p g' (MkSimWorld (sw_device w) inbox (sw_now w + 1) (sw_losses w)) /\
      match match CemiFrame_decode (sim_cemi_encode x) with
            | Ok frame => Received frame
            | Err e => RecvFailed (TransportFailed e)
            end with
      | Received f => heard g' f
      | RecvFailed _ => False
      | Elapsed => True
      end).
  { intros g x inbox w Hd Hi. destruct (inbox_next p g x inbox Hi) as (g' & Hg & Hi' & Hx).
    destruct (heard_of g' x Hx) as (f & E & Hf). rewrite E. by exists g'. }
  induction fuel as [|fuel IH]; intros g w [Hd Hi]; cbn [world_recv];
    (destruct (sw_inbox w) as [|x inbox] eqn:Ei; [|by apply Hhead]).
  - by exists g.
  - destruct (next_l4_deadline _) as [t|]; [|by exists g].
    remember (Z.max _ _) as at_ms. destruct (_ <? _); [by exists g|].
    destruct (tick_round p (sw_device w) (at_ms * NS_PER_MS) Hd) as [H1 H2].
    destruct (tick_l4 _ _) as [out d]. cbn [fst snd] in *. apply IH. by apply world_transmit.
Qed.

End Round.
