(* ===== verification/L4Request.v ===== *)
(** * A request is served at most once, an answered one exactly once

    The client's [request] ([Connection]) run in the world of [SimBus], step by
    step with the device's side of the same exchange ([L4Compose]): Hoare triples
    over the operations of the connection, and the theorems of the composition. *)

From S2P Require Import Prelude Address Cursor Cemi Tpci SimWire SimMemory.
From S2P Require Import SimTransport MgmtError Crypto Sequence Asdu SecureSession Apci.
From S2P Require Import Connection SimBus L4Compose.

Local Open Scope string_scope.
Local Open Scope list_scope.
Local Open Scope Z_scope.

(** ** Triples *)

Definition hoare {W B} (P : L4State W -> Prop) (m : L4Op W B)
    (Q : result MgmtError B -> L4State W -> Prop) : Prop :=
  forall st, P st -> Q (fst (m st)) (snd (m st)).

Section Triples.
  Context {W : Type} `{L4World W} `{C : SecureCiphers}.
  Implicit Types (P : L4State W -> Prop).

Lemma hoare_bind {B D} P (m : L4Op W B) (k : B -> L4Op W D) (R : B -> L4State W -> Prop) Q :
  hoare P m (fun res st => match res with Ok b => R b st | Err e => Q (Err e) st end) ->
  (forall b, hoare (R b) (k b) Q) -> hoare P (m ≫= k) Q.
Proof.
  intros Hm Hk st HP. specialize (Hm st HP). unfold mbind, L4Op_bind.
  destruct (m st) as [[b|e] st']; cbn [fst snd] in *; [by apply Hk|done].
Qed.

Lemma hoare_pre {B} P P' (m : L4Op W B) Q : hoare P' m Q -> (forall st, P st -> P' st) -> hoare P m Q.
Proof. intros Hm Hp st HP. by apply Hm, Hp. Qed.

Lemma hoare_post {B} P (m : L4Op W B) Q Q' : hoare P m Q' -> (forall res st, Q' res st -> Q res st) ->
  hoare P m Q.
Proof. intros Hm Hq st HP. by apply Hq, Hm. Qed.

Lemma hoare_ret {B} P (b : B) (Q : result MgmtError B -> L4State W -> Prop) :
  (forall st, P st -> Q (Ok b) st) -> hoare P (mret b) Q.
Proof. intros Hq st HP. by apply Hq. Qed.

Lemma hoare_throw {B} P e (Q : result MgmtError B -> L4State W -> Prop) :
  (forall st, P st -> Q (Err e) st) -> hoare P (throw e) Q.
Proof. intros Hq st HP. by apply Hq. Qed.

Lemma hoare_exists {B X} (P : X -> L4State W -> Prop) (m : L4Op W B) Q :
  (forall x, hoare (P x) m Q) -> hoare (fun st => exists x, P x st) m Q.
Proof. intros Hm st [x HP]. by apply (Hm x). Qed.

Lemma hoare_pure {B} P (φ : Prop) (m : L4Op W B) Q :
  (φ -> hoare P m Q) -> hoare (fun st => P st /\ φ) m Q.
Proof. intros Hm st [HP Hφ]. by apply Hm. Qed.

Lemma hoare_get {B} P (k : Layer4Connection -> L4Op W B) Q :
  (forall c, hoare (fun st => P st /\ l4_conn st = c) (k c) Q) -> hoare P (get_conn ≫= k) Q.
Proof. intros Hk st HP. by apply (Hk (l4_conn st) st). Qed.

Lemma hoare_now {B} P (k : Z -> L4Op W B) Q :
  (forall now, hoare (fun st => P st /\ chan_now (l4_world st) = now) (k now) Q) ->
  hoare P (get_now ≫= k) Q.
Proof. intros Hk st HP. by apply (Hk (chan_now (l4_world st)) st). Qed.

Lemma hoare_modify {B} P R f (k : unit -> L4Op W B) Q :
  (forall st, P st -> R (MkL4State (f (l4_conn st)) (l4_shared st) (l4_world st))) ->
  hoare R (k tt) Q -> hoare P (modify f ≫= k) Q.
Proof. intros Hf Hk st HP. apply Hk. by apply Hf. Qed.

Lemma hoare_modify_end P f (Q : result MgmtError unit -> L4State W -> Prop) :
  (forall st, P st -> Q (Ok tt) (MkL4State (f (l4_conn st)) (l4_shared st) (l4_world st))) ->
  hoare P (modify f) Q.
Proof. intros Hf st HP. by apply Hf. Qed.

End Triples.

Section Request.
  Context {A : Type} `{AnsweringApp A} `{C : SecureCiphers}.
  Variables tool addr : u16.
  Hypotheses (Htool : is_u16 tool) (Haddr : is_u16 addr).
  Variables (s r : u8) (a0 : A) (prio : Priority) (apci : u16) (data : bytes).
  Hypotheses (Hs : 0 <= s < 16) (Hr : 0 <= r < 16) (Hfits : apdu_fits apci data).
  Hypothesis Hservice : sim_apci_from_u10 apci <> SimDeviceDescriptorRead 0.
  Hypothesis Haddr0 : app_address a0 = MkSimIA addr.
  Hypothesis Hanswerable : answerable (MkSimApdu (sim_apci_from_u10 apci) apci data).

Local Abbreviation St := (L4State (SimWorld A)).
Local Abbreviation Op := (L4Op (SimWorld A)).
Local Abbreviation req := (req tool addr s prio apci data).
Local Abbreviation world_round := (world_round tool addr s r a0 prio apci data).
Local Abbreviation heard := (heard tool addr s r a0 prio apci data).
Local Abbreviation answers_with := (answers_with tool addr s r a0 prio apci data).

(** ** The client's side of a round *)

(** [q] is the next sequence to send; [got]: the answer has arrived. *)
Record client_round (q : u8) (got : bool) (pending : option (u16 * bytes)) (c : Layer4Connection)
    : Prop := MkClientRound {
  cr_target : l4c_target c = IndividualAddress_from_raw addr;
  cr_source : l4c_source c = IndividualAddress_from_raw tool;
  cr_session : sl_session (l4c_secure c) = None;
  cr_factory : sl_on_factory_key (l4c_secure c) = false;
  cr_priority : l4c_data_priority c = prio;
  cr_send : l4c_send_seq c = q;
  cr_recv : l4c_recv_seq c = (r + Z.b2z got) mod 16;
  cr_pending : l4c_pending_response c = pending;
  cr_timeout : 0 < l4c_connection_timeout c }.

(** The traffic timer has just been set. *)
Definition recent (st : St) : Prop := l4c_last_traffic (l4_conn st) = sw_now (l4_world st).

Definition round_inv (q : u8) (pending : option (u16 * bytes)) (g got rc : bool) (st : St) : Prop :=
  (exists p, world_round p g (l4_world st)) /\ client_round q got pending (l4_conn st) /\
  (got = true -> g = true /\ exists v, answers_with v) /\ (rc = true -> recent st).

(** Waiting; hearing a frame; acknowledged, perhaps with the answer; given up. *)
Definition waiting (q : u8) (st : St) : Prop := exists g got, round_inv q None g got false st.

Definition hearing (q : u8) (f : CemiFrame) (st : St) : Prop :=
  exists g got, round_inv q None g got false st /\ heard g f.

Definition acknowledged (q : u8) (st : St) : Prop :=
  exists pending got, round_inv q pending true got true st /\
    match pending with Some v => got = true /\ answers_with v | None => True end.

Definition answered (q : u8) (v : u16 * bytes) (st : St) : Prop :=
  round_inv q None true true true st /\ answers_with v.

Definition served_or_not (st : St) : Prop := exists p g, world_round p g (l4_world st).

Lemma round_waiting q g got rc st : round_inv q None g got rc st -> waiting q st.
Proof. intros (Hw & Hc & Hg & _). by exists g, got. Qed.

Lemma round_lost q pd g got rc st : round_inv q pd g got rc st -> served_or_not st.
Proof. intros ((p & Hw) & _). by exists p, g. Qed.

Lemma acknowledged_lost q st : acknowledged q st -> served_or_not st.
Proof. intros (pd & got & Hi & _). by eapply round_lost. Qed.

Lemma waiting_lost q st : waiting q st -> served_or_not st.
Proof. intros (g & got & Hi). by eapply round_lost. Qed.

(** Fields the invariant does not speak of. *)
Lemma round_conn q pd g got rc st c : round_inv q pd g got rc st ->
  client_round q got pd c -> l4c_last_traffic c = l4c_last_traffic (l4_conn st) ->
  round_inv q pd g got rc (MkL4State c (l4_shared st) (l4_world st)).
Proof.
  intros (Hw & _ & Hg & Hr') Hc E. split; [done|]. split; [done|]. split; [done|].
  intros Hrc. unfold recent in *. cbn. rewrite E. by apply Hr'.
Qed.

Lemma lost_modify f : hoare served_or_not (modify f) (fun _ => served_or_not).
Proof. intros st Hst. done. Qed.

Lemma waiting_conn q st c :
  (forall got, client_round q got None (l4_conn st) -> client_round q got None c) ->
  waiting q st -> waiting q (MkL4State c (l4_shared st) (l4_world st)).
Proof. intros Hc (g & got & Hw & Hr' & Hg & _). exists g, got. split; [done|]. by split; [apply Hc|]. Qed.

(** ** Sending control frames *)

Lemma harmless_control (m : Z -> u8) : m = t_ack \/ m = t_nak -> forall q, harmless (m q).
Proof.
  intros Hm q. assert (Hq : 0 <= Z.land q 15 < 16) by (rewrite (land_mask 4 15); zdiv || reflexivity).
  assert (E : m q = m (Z.land q 15)).
  { destruct Hm as [->| ->]; unfold t_ack, t_nak; by rewrite <- Z.land_assoc. }
  rewrite E. revert Hq. generalize (Z.land q 15). intros k Hk.
  destruct Hm as [->| ->].
  - refine (below_decide 16 (fun k => is_u8 (t_ack k) /\ Z.land (t_ack k) 192 <> 64 /\
      sim_tpci_from_byte (t_ack k) <> SimConnect /\
      sim_tpci_from_byte (t_ack k) <> SimDataUnnumbered) _ k Hk). vm_compute. reflexivity.
  - refine (below_decide 16 (fun k => is_u8 (t_nak k) /\ Z.land (t_nak k) 192 <> 64 /\
      sim_tpci_from_byte (t_nak k) <> SimConnect /\
      sim_tpci_from_byte (t_nak k) <> SimDataUnnumbered) _ k Hk). vm_compute. reflexivity.
Qed.

Lemma harmless_disconnect : harmless T_DISCONNECT.
Proof. unfold harmless. done. Qed.

Lemma send_frame_control q pd g got rc o : harmless o ->
  hoare (round_inv q pd g got rc)
    (fun st => l4_send (CemiFrame_t_control (l4c_target (l4_conn st)) (l4c_source (l4_conn st)) o) st)
    (fun res st => res = Ok tt /\ round_inv q pd g got rc st).
Proof.
  intros Ho st ((p & Hw) & Hc & Hg & Hrc). unfold l4_send.
  rewrite (cr_target _ _ _ _ Hc), (cr_source _ _ _ _ Hc). cbn [chan_send sim_world].
  destruct (world_send_control tool addr Htool Haddr s r a0 prio apci data
    p g o (l4_world st) Hw Ho) as [E Hw'].
  pose proof (world_send_now (tool_control tool addr o) (l4_world st)) as Hnow.
  unfold tool_control in *. destruct (world_send _ _) as [res w]. cbn [fst snd] in *.
  split; [done|]. split; [by exists p|]. split; [done|]. split; [done|]. intros E'.
  unfold recent in *. cbn. rewrite Hnow. by apply Hrc.
Qed.

Lemma send_control_round q pd g got rc o : harmless o ->
  hoare (round_inv q pd g got rc) (send_control o) (fun res st => res = Ok tt /\ round_inv q pd g got rc st).
Proof.
  intros Ho st Hst. destruct (send_frame_control q pd g got rc o Ho st Hst)
    as [E Hi]. unfold send_control, mbind, L4Op_bind, get_conn, get_now, modify. cbn [fst snd] in *.
  destruct (l4_send _ st) as [res st']. cbn [fst snd] in *. subst res. cbn [fst snd].
  split; [done|]. destruct Hi as (Hw & [] & Hg & _). done.
Qed.

Lemma abandon_round_trip q pd g got rc :
  hoare (round_inv q pd g got rc) abandon (fun _ => served_or_not).
Proof.
  intros st Hst. unfold abandon, mbind, L4Op_bind, get_conn, modify. cbn [fst snd].
  destruct (l4c_peer_open (l4_conn st)); [|by destruct Hst as ((p & Hw) & _); exists p, g].
  set (st' := MkL4State _ _ _).
  assert (Hst' : round_inv q pd g got rc st').
  { apply (round_conn q pd g got rc st); [done| |done]. by destruct Hst as (_ & [] & _). }
  destruct (send_frame_control q pd g got rc T_DISCONNECT harmless_disconnect st' Hst') as [_ Hi].
  unfold ignore. cbn [fst snd]. by eapply round_lost.
Qed.

Lemma ignore_control q pd g got rc o : harmless o ->
  hoare (round_inv q pd g got rc) (ignore (send_control o))
    (fun res st => res = Ok tt /\ round_inv q pd g got rc st).
Proof.
  intros Ho st Hst. unfold ignore. cbn [fst snd]. split; [done|].
  by apply (send_control_round q pd g got rc o Ho st Hst).
Qed.

Lemma wrong_sequence_harmless q (c : Layer4Connection) :
  harmless (if q =? Z.land (as_u8 (l4c_recv_seq c - 1)) 15 then t_ack q else t_nak q).
Proof. destruct (q =? _); apply harmless_control; [by left|by right]. Qed.

(** ** Hearing a frame *)

Lemma heard_not_rejection c g f : heard g f ->
  is_connect_rejection c f = false /\ is_absence_confirmation c f = false.
Proof.
  intros [(Hm & _) _]. unfold is_connect_rejection, is_absence_confirmation,
    CemiFrame_is_negative_confirmation. rewrite Hm. cbn [bool_decide decide_rel].
  by rewrite bool_decide_eq_false_2, ?andb_false_r by done.
Qed.

Lemma heard_peer q pd got c g f : client_round q got pd c -> heard g f -> is_peer_frame c f = true.
Proof.
  intros Hc [(_ & Hsrc & Hdst) _]. unfold is_peer_frame.
  rewrite (cr_target _ _ _ _ Hc), (cr_source _ _ _ _ Hc), Hsrc, Hdst.
  by rewrite !bool_decide_eq_true_2 by done.
Qed.

Lemma classify_ack k : 0 <= k < 16 -> classify (sim_ack_byte k) = Ack k.
Proof.
  intros Hk. refine (below_decide 16 (fun j => classify (sim_ack_byte j) = Ack j) _ k Hk).
  vm_compute. reflexivity.
Qed.

(** What a frame heard is to the client: an acknowledgement, of the request only
    once it is served, a disconnect, data of another sequence, or the answer in
    sequence, not had before. *)
Lemma heard_cases q pd got g f c : client_round q got pd c -> (got = true -> g = true) -> heard g f ->
  (exists k, classify (CemiFrame_tpci_octet f) = Ack k /\ (k = s -> g = true)) \/
  classify (CemiFrame_tpci_octet f) = Disconnect \/
  (exists k, classify (CemiFrame_tpci_octet f) = NumberedData k /\ k <> l4c_recv_seq c) \/
  (classify (CemiFrame_tpci_octet f) = NumberedData (l4c_recv_seq c) /\ got = false /\ g = true /\
   answers_with (extract_apdu f)).
Proof.
  intros Hc Hg [_ Hf]. rewrite (cr_recv _ _ _ _ Hc).
  destruct Hf as [Ek|[[-> Ek]|[Ed|[Ep|(-> & Er & Ha)]]]].
  - left. exists ((s - 1) mod 16). rewrite Ek, classify_ack by (apply Z.mod_pos_bound; lia).
    split; [done|]. intros E. zdiv.
  - left. exists s. by rewrite Ek, classify_ack.
  - right. left. rewrite Ed. reflexivity.
  - right. right. left. exists ((r - 1) mod 16). split; [done|]. destruct got; simpl; zdiv.
  - right. right. destruct got; simpl.
    + left. exists r. split; [done|]. zdiv.
    + right. rewrite Z.add_0_r, Z.mod_small by lia. done.
Qed.

Lemma note_peer_round q pd g got rc :
  hoare (round_inv q pd g got rc) note_peer_frame (fun res st => res = Ok tt /\ round_inv q pd g got true st).
Proof.
  intros st Hst. unfold note_peer_frame, mbind, L4Op_bind, get_now, modify. cbn [fst snd].
  split; [done|]. destruct Hst as (Hw & [] & Hg & _). split; [done|].
  unfold is_self_addressed, recent. cbn. by destruct (bool_decide _).
Qed.

Lemma plain_unwrap q pd g got rc f :
  hoare (round_inv q pd g got rc) (unwrap_apdu f)
    (fun res st => res = Ok (extract_apdu f) /\ round_inv q pd g got rc st).
Proof.
  intros st Hst. unfold unwrap_apdu. destruct (extract_apdu f) as [ap da] eqn:E.
  unfold SecureLayer_unwrap_incoming. destruct (Hst) as (_ & Hc & _).
  rewrite (cr_session _ _ _ _ Hc). cbn [fst snd]. split; [done|].
  apply (round_conn q pd g got rc st); [done| |done]. by destruct Hc.
Qed.

Lemma advance_round q pd rc : (exists v, answers_with v) ->
  hoare (round_inv q pd true false rc) (@advance_recv_seq (SimWorld A))
    (fun res st => res = Ok tt /\ round_inv q pd true true rc st).
Proof.
  intros Ha st (Hw & Hc & Hg & Hrc). split; [done|]. split; [done|]. split; [|done]. destruct Hc as [].
  split; try done. cbn. rewrite cr_recv0. cbn [Z.b2z].
  rewrite (land_mask 4 15) by (zdiv || reflexivity). zdiv.
Qed.

Lemma hoare_get_round {B} q pd g got rc (k : Layer4Connection -> Op B) Q :
  (forall c, client_round q got pd c -> (got = true -> g = true) ->
    hoare (round_inv q pd g got rc) (k c) Q) ->
  hoare (round_inv q pd g got rc) (get_conn ≫= k) Q.
Proof.
  intros Hk st Hst. destruct (Hst) as (_ & Hc & Hg & _).
  apply (Hk (l4_conn st) Hc); [|done]. intros E. by apply Hg.
Qed.

(** A step that returns [b] and keeps the round. *)
Lemma hoare_step {B D} P R (m : Op B) b (k : B -> Op D) Q :
  hoare P m (fun res st => res = Ok b /\ R st) -> hoare R (k b) Q -> hoare P (m ≫= k) Q.
Proof.
  intros Hm Hk. apply (hoare_bind P m k (fun b' st => b' = b /\ R st)).
  - eapply hoare_post; [exact Hm|]. intros res st [-> HR]. done.
  - intros b' st [-> HR]. by apply Hk.
Qed.

Lemma wrong_sequence_round q pd g got rc k : hoare (round_inv q pd g got rc) (answer_wrong_sequence k)
  (fun res st => res = Ok tt /\ round_inv q pd g got rc st).
Proof.
  apply hoare_get_round. intros c Hc Hg. apply send_control_round, wrong_sequence_harmless.
Qed.

Lemma ignore_step {P} (m : Op unit) R : hoare P m (fun res st => res = Ok tt /\ R st) ->
  hoare P (ignore m) (fun res st => res = Ok tt /\ R st).
Proof. intros Hm st HP. split; [done|]. by apply Hm. Qed.

Lemma attempt_step {B} P (m : Op B) b R : hoare P m (fun res st => res = Ok b /\ R st) ->
  hoare P (attempt m) (fun res st => res = Ok (Ok b) /\ R st).
Proof.
  intros Hm st HP. destruct (Hm st HP) as [E HR]. unfold attempt.
  destruct (m st) as [res st']. cbn [fst snd] in *. by subst.
Qed.

Definition ack_post (res : result MgmtError (option AckOutcome)) (st : St) : Prop :=
  match res with
  | Ok (Some Acked) => acknowledged s st
  | Ok _ => waiting s st
  | Err _ => served_or_not st
  end.

Lemma ack_frame_round f : hoare (hearing s f) (ack_frame s f) ack_post.
Proof.
  apply hoare_exists. intros g. apply hoare_exists. intros got. apply hoare_pure. intros Hf.
  assert (Hwait : forall rc st, round_inv s None g got rc st -> ack_post (Ok None) st)
    by (intros rc st Hi; by eapply round_waiting).
  apply hoare_get_round. intros c Hc Hg. destruct (heard_not_rejection c g f Hf) as [-> ->].
  rewrite (heard_peer _ _ _ _ _ _ Hc Hf). cbn [negb].
  eapply hoare_step; [apply note_peer_round|].
  destruct (heard_cases _ _ _ _ _ _ Hc Hg Hf) as [(k & E & Hk)|[E|[(k & E & Hk)|(E & -> & -> & Ha)]]];
    rewrite E.
  - apply hoare_ret. intros st Hst. destruct (Z.eqb_spec k s) as [->|_]; [|by eapply Hwait].
    rewrite Hk in Hst by done. by exists None, got.
  - apply hoare_ret. intros st Hst. by eapply round_waiting.
  - apply Z.eqb_neq in Hk. rewrite Hk.
    eapply hoare_step; [apply ignore_step, wrong_sequence_round|].
    apply hoare_ret. apply Hwait.
  - rewrite Z.eqb_refl.
    eapply hoare_step; [apply ignore_control, harmless_control; by left|].
    eapply hoare_step; [apply advance_round; by exists (extract_apdu f)|].
    eapply hoare_step; [apply attempt_step, plain_unwrap|].
    destruct (extract_apdu f) as [ap da]. apply hoare_get_round. intros c' Hc' _.
    destruct (is_stale_memory_echo c' ap);
      [apply hoare_ret; intros st Hst; by eapply round_waiting|].
    apply (hoare_modify _ (acknowledged s)); [|by apply hoare_ret].
    intros st (Hw & [] & Hg' & Hrc). by exists (Some (ap, da)), true.
Qed.

(** ** Waiting for frames *)

Lemma recv_round q b : hoare (waiting q) (l4_recv b) (fun res st =>
  match res with
  | Ok Elapsed => waiting q st
  | Ok (Received f) => hearing q f st
  | _ => False
  end).
Proof.
  intros st (g & got & (p & Hw) & Hc & Hg & _). unfold l4_recv. cbn [chan_recv sim_world].
  destruct (world_recv_round tool addr Htool Haddr s r a0 prio apci data Hs Hr Hfits Haddr0 Hanswerable p
    WORLD_TIMERS (sw_now (l4_world st) + b) g (l4_world st) Hw) as (g' & Hgg & Hw' & Hout).
  destruct (world_recv _ _ _) as [out w']. cbn [fst snd] in *.
  assert (Hi : round_inv q None g' got false (MkL4State (l4_conn st) (l4_shared st) w')).
  { split; [by exists p|]. split; [done|]. split; [|done]. intros E.
    destruct (Hg E) as [Hg1 Hv]. split; [by apply Hgg|done]. }
  destruct out; [by exists g', got|done|by exists g', got].
Qed.

Lemma loop_round {B} q fuel deadline (elapsed : Op B) failed body
    (Q : result MgmtError B -> St -> Prop) :
  hoare (waiting q) elapsed Q ->
  (forall f, hoare (hearing q f) (body f) (fun res st =>
    match res with Ok None => waiting q st | Ok (Some b) => Q (Ok b) st | Err e => Q (Err e) st end)) ->
  forall st, waiting q st ->
  match receive_loop fuel deadline elapsed failed body st with
  | Some (res, st') => Q res st'
  | None => True
  end.
Proof.
  intros He Hb. induction fuel as [|fuel IH]; intros st Hst; [done|]. cbn [receive_loop].
  destruct (_ =? 0); [specialize (He st Hst); by destruct (elapsed st)|].
  pose proof (recv_round q (saturating_sub deadline (chan_now (l4_world st))) st Hst) as Hr'.
  destruct (l4_recv _ st) as [[out|e] st1]; [|done]. cbn [fst snd] in Hr'.
  destruct out as [f|e|]; [|done|specialize (He st1 Hr'); by destruct (elapsed st1)].
  specialize (Hb f st1 Hr'). destruct (body f st1) as [[[b|]|e] st2]; [done|by apply IH|done].
Qed.

Lemma until_round {B} q deadline (elapsed : Op B) failed body (Q : result MgmtError B -> St -> Prop) :
  hoare (waiting q) elapsed Q ->
  (forall f, hoare (hearing q f) (body f) (fun res st =>
    match res with Ok None => waiting q st | Ok (Some b) => Q (Ok b) st | Err e => Q (Err e) st end)) ->
  hoare (waiting q) (receive_until deadline elapsed failed body) Q.
Proof.
  intros He Hb st Hst. unfold receive_until.
  pose proof (loop_round q (S (frames_until deadline (l4_world st))) deadline elapsed failed body Q
    He Hb st Hst) as Hl.
  destruct (receive_loop _ _ _ _ _ _) as [[res st']|]; [done|by apply He].
Qed.

Lemma await_ack_round : hoare (waiting s) (await_ack s) (fun res st =>
  match res with
  | Ok Acked => acknowledged s st
  | Ok _ => waiting s st
  | Err _ => served_or_not st
  end).
Proof.
  apply hoare_get. intros c. apply hoare_now. intros now.
  eapply hoare_pre; [|intros st [[Hst _] _]; exact Hst]. apply until_round.
  - by apply hoare_ret.
  - intros f. eapply hoare_post; [apply ack_frame_round|]. by intros [[[]|]|e] st Hst.
Qed.

(** ** Sending the request *)

Definition sent_post (res : result MgmtError unit) (st : St) : Prop :=
  match res with
  | Ok _ => acknowledged ((s + 1) mod 16) st
  | Err _ => served_or_not st
  end.

Lemma send_request_round : hoare (waiting s) (l4_send req) (fun res st => res = Ok tt /\ waiting s st).
Proof.
  intros st (g & got & (p & Hw) & Hc & Hg & _). unfold l4_send. cbn [chan_send sim_world].
  destruct (world_send_request tool addr Htool Haddr s r a0 prio apci data Hs Hr Hfits Hservice Haddr0
    Hanswerable p g (l4_world st) Hw) as (E & p' & Hw').
  destruct (world_send _ _) as [res w]. cbn [fst snd] in *. split; [done|]. exists g, got.
  split; [by exists p'|done].
Qed.

(** An error after the last attempt. *)
Lemma abandon_silent {B} kind : hoare served_or_not
  (c ← get_conn; throw (silence_error c kind) : Op B)
  (fun res st => match res with Ok _ => False | Err _ => served_or_not st end).
Proof. intros st Hst. done. Qed.

Lemma abandon_ok (st : St) : fst (abandon st) = Ok tt.
Proof.
  unfold abandon, mbind, L4Op_bind, get_conn, modify. cbn [fst snd].
  by destruct (l4c_peer_open (l4_conn st)).
Qed.

Lemma abandon_then {B} q (m : Op B) Q : hoare served_or_not m Q ->
  hoare (waiting q) (_ ← abandon; m) Q.
Proof.
  intros Hm. apply (hoare_step _ served_or_not _ tt); [|done]. intros st (g & got & Hi).
  split; [apply abandon_ok|by apply (abandon_round_trip q None g got false)].
Qed.

Lemma give_up_sent kind : hoare served_or_not
  (c ← get_conn; throw (silence_error c kind) : Op unit) sent_post.
Proof. intros st Hst. done. Qed.

Lemma closed_sent kind : hoare (waiting s)
  (_ ← peer_closed; c ← get_conn; throw (silence_error c kind) : Op unit) sent_post.
Proof. intros st Hst. by apply waiting_lost in Hst. Qed.

Lemma numbered_sent : hoare (acknowledged s)
  (modify (fun c => l4c_set_numbered_exchanges (u32_saturating_add (l4c_numbered_exchanges c) 1)
                      (l4c_set_send_seq (Z.land (l4c_send_seq c + 1) 15) c)) : Op unit) sent_post.
Proof.
  apply hoare_modify_end. intros st (pd & got & (Hw & [] & Hg) & Hpd).
  exists pd, got. split; [|done]. split; [done|]. split; [|done]. split; try done. cbn.
  rewrite cr_send0, (land_mask 4 15) by (zdiv || reflexivity). reflexivity.
Qed.

Lemma opened_sent (m : Op unit) : hoare (waiting s) m sent_post ->
  hoare (waiting s) (_ ← modify (l4c_set_peer_open true); m) sent_post.
Proof.
  intros Hm. apply (hoare_modify _ (waiting s)); [|done].
  intros st. apply (waiting_conn s st). by intros got [].
Qed.

Lemma send_numbered_round n : hoare (waiting s) (send_numbered_loop n s req) sent_post.
Proof.
  induction n as [|n IH]; cbn [send_numbered_loop].
  all: eapply hoare_step; [apply send_request_round|].
  all: apply hoare_now; intros now; apply (hoare_modify _ (waiting s));
    [intros st [Hst _]; apply (waiting_conn s st); [by intros got []|done]|].
  all: apply (hoare_bind _ _ _ (fun outcome st =>
      match outcome with Acked => acknowledged s st | _ => waiting s st end));
    [eapply hoare_post; [apply await_ack_round|by intros [[]|e]]|]; intros [];
    first [apply numbered_sent|exact IH|apply closed_sent|apply abandon_then, give_up_sent|
      apply opened_sent, abandon_then; by intros st Hst|
      intros st Hst; by apply waiting_lost in Hst].
Qed.

Lemma send_round : hoare (waiting s) (send_numbered (ndt s) apci data) sent_post.
Proof.
  apply hoare_exists. intros g. apply hoare_exists. intros got.
  apply hoare_get_round. intros c Hc Hg. unfold numbered_frame.
  rewrite (cr_target _ _ _ _ Hc), (cr_source _ _ _ _ Hc), (cr_priority _ _ _ _ Hc), (cr_send _ _ _ _ Hc).
  intros st Hi. apply send_numbered_round. by exists g, got.
Qed.

(** ** The response *)

Definition response_post (q : u8) (res : result MgmtError (u16 * bytes)) (st : St) : Prop :=
  match res with
  | Ok v => answered q v st
  | Err _ => served_or_not st
  end.

Lemma closed_response q kind : hoare served_or_not
  (_ ← peer_closed; c ← get_conn; throw (silence_error c kind) : Op (option (u16 * bytes)))
  (fun res st => match res with
    | Ok None => waiting q st | Ok (Some v) => answered q v st | Err _ => served_or_not st end).
Proof. by intros st Hst. Qed.

Lemma response_frame_round q f : hoare (hearing q f) (response_frame f)
  (fun res st => match res with
    | Ok None => waiting q st | Ok (Some v) => answered q v st | Err _ => served_or_not st end).
Proof.
  apply hoare_exists. intros g. apply hoare_exists. intros got. apply hoare_pure. intros Hf.
  apply hoare_get_round. intros c Hc Hg. destruct (heard_not_rejection c g f Hf) as [-> _].
  rewrite (heard_peer _ _ _ _ _ _ Hc Hf). cbn [negb].
  eapply hoare_step; [apply note_peer_round|].
  destruct (heard_cases _ _ _ _ _ _ Hc Hg Hf) as [(k & E & _)|[E|[(k & E & Hk)|(E & -> & -> & Ha)]]];
    rewrite E.
  - apply hoare_ret. intros st Hst. by eapply round_waiting.
  - eapply hoare_pre; [apply closed_response|]. intros st Hst. by eapply round_lost.
  - apply Z.eqb_neq in Hk. rewrite Hk.
    eapply hoare_step; [apply wrong_sequence_round|]. apply hoare_ret. intros st Hst.
    by eapply round_waiting.
  - rewrite Z.eqb_refl.
    eapply hoare_step; [apply send_control_round, harmless_control; by left|].
    eapply hoare_step; [apply advance_round; by exists (extract_apdu f)|].
    eapply hoare_step; [apply plain_unwrap|].
    apply hoare_get_round. intros c' Hc' _.
    destruct (is_stale_memory_echo c' _); apply hoare_ret; intros st Hst; [by eapply round_waiting|done].
Qed.

Lemma response_loop_round q deadline : hoare (waiting q)
  (receive_until deadline response_elapsed response_failed response_frame) (response_post q).
Proof.
  apply until_round; [|apply response_frame_round].
  intros st Hst. by apply waiting_lost in Hst.
Qed.

Lemma recv_response_round q : hoare (acknowledged q) recv_response (response_post q).
Proof.
  apply hoare_exists. intros pd. apply hoare_exists. intros got.
  apply hoare_pure. intros Hpd.
  apply hoare_get_round. intros c Hc Hg. rewrite (cr_pending _ _ _ _ Hc).
  apply (hoare_modify _ (round_inv q None true got true)); [intros st (Hw & [] & Hg'); done|].
  assert (Hrest : hoare (round_inv q None true got true)
    (if l4c_closed c then throw (silence_error c Silence_Disconnected)
     else now ← get_now;
          receive_until (now + response_timeout (l4c_timeouts c)) response_elapsed
            response_failed response_frame) (response_post q)).
  { destruct (l4c_closed c); [apply hoare_throw; intros st Hst; by eapply round_lost|].
    apply hoare_now. intros now. eapply hoare_pre; [apply response_loop_round|].
    intros st [Hst _]. by eapply round_waiting. }
  destruct pd as [v|]; [|exact Hrest]. destruct (negb _); [|exact Hrest].
  apply hoare_ret. intros st Hst. by destruct Hpd as [-> Ha].
Qed.

(** ** The request *)

Lemma send_data_round reconnect : hoare
  (fun st => waiting s st /\ idle_beyond_connection_timeout (l4_conn st) (chan_now (l4_world st)) = false)
  (send_data_with reconnect apci data) sent_post.
Proof.
  apply hoare_get. intros c. destruct (l4c_closed c).
  { apply hoare_throw. intros st [[Hst _] _]. by apply waiting_lost in Hst. }
  apply hoare_now. intros now.
  apply (hoare_pre _ (fun st => waiting s st /\ idle_beyond_connection_timeout c now = false));
    [|by intros st [[[Hst Hidle] <-] <-]].
  apply hoare_pure. intros ->. apply hoare_exists. intros g. apply hoare_exists. intros got.
  set (I := round_inv s None g got false).
  apply (hoare_step _ I _ tt); [by apply hoare_ret|].
  apply (hoare_step _ I _ tt).
  { apply hoare_get_round. intros c' Hc' _. unfold SecureLayer_needs_sync.
    rewrite (cr_factory _ _ _ _ Hc'), (cr_session _ _ _ _ Hc'). by apply hoare_ret. }
  apply (hoare_modify _ I); [intros st (Hw & [] & Hg'); done|].
  apply hoare_get_round. intros c' Hc' _. rewrite (cr_send _ _ _ _ Hc').
  apply (hoare_step _ I _ (apci, data)).
  { intros st (Hw & Hc'' & Hg'). unfold wrap_outgoing, SecureLayer_wrap_outgoing.
    rewrite (cr_session _ _ _ _ Hc''). cbn [fst snd]. split; [done|]. destruct Hc''. done. }
  cbn [fst snd]. eapply hoare_pre; [apply send_round|]. intros st Hst. by exists g, got.
Qed.

Lemma request_round : hoare
  (fun st => waiting s st /\ idle_beyond_connection_timeout (l4_conn st) (chan_now (l4_world st)) = false)
  (request apci data) (response_post ((s + 1) mod 16)).
Proof.
  apply (hoare_bind _ _ _ (fun _ => acknowledged ((s + 1) mod 16)));
    [apply send_data_round|intros _; apply recv_response_round].
Qed.

End Request.

(** ** Between requests *)

Section Ready.
  Context {A : Type} `{AnsweringApp A} `{C : SecureCiphers}.
  Variables tool addr : u16.

(** The device and the client agree before a request with sequence [s] whose
    answer will have [r]: the application is [a] (a closed connection may have
    cleared its verify mode), and only leftovers are under way. *)
Record link_ready (s r : u8) (a : A) (st : L4State (SimWorld A)) : Prop := MkLinkReady {
  lr_address : app_address a = MkSimIA addr;
  lr_budget : d_exchange_budget (sw_device (l4_world st)) = None;
  lr_app : d_app (sw_device (l4_world st)) = a \/
           (d_connected (sw_device (l4_world st)) = false /\
            d_app (sw_device (l4_world st)) = app_clear_verify_mode a);
  lr_open : d_connected (sw_device (l4_world st)) = true ->
    l4_peer (d_l4 (sw_device (l4_world st))) = MkSimIA tool /\
    d_rx_seq (sw_device (l4_world st)) = s /\ d_tx_seq (sw_device (l4_world st)) = r /\
    match l4_pending (d_l4 (sw_device (l4_world st))) with
    | None => True
    | Some pd => previous_answer tool addr r (pr_frame pd)
    end;
  lr_inbox : Forall (stale tool addr s r) (sw_inbox (l4_world st));
  lr_target : l4c_target (l4_conn st) = IndividualAddress_from_raw addr;
  lr_source : l4c_source (l4_conn st) = IndividualAddress_from_raw tool;
  lr_session : sl_session (l4c_secure (l4_conn st)) = None;
  lr_factory : sl_on_factory_key (l4c_secure (l4_conn st)) = false;
  lr_send : l4c_send_seq (l4_conn st) = s;
  lr_recv : l4c_recv_seq (l4_conn st) = r;
  lr_pending : l4c_pending_response (l4_conn st) = None;
  lr_timeout : 0 < l4c_connection_timeout (l4_conn st) }.

(** The request as the application sees it, served on an open connection. *)
Definition serve (s r : u8) (a : A) (prio : Priority) (q : u16 * bytes) : AppResult A :=
  served tool addr s r a prio (fst q) (snd q).

(** The application answered it with [v]. *)
Definition serves (res : AppResult A) (r : u8) (v : u16 * bytes) : Prop :=
  answer_fits (fst v) (snd v) /\
  exists reaction, ar_result res = Ok reaction /\
    responses reaction = [device_answer tool addr r (fst v) (snd v)].

(** The requests the composition speaks of: they fit a frame, are answerable, and
    are refused without a connection. *)
Definition request_ok (q : u16 * bytes) : Prop :=
  apdu_fits (fst q) (snd q) /\ sim_apci_from_u10 (fst q) <> SimDeviceDescriptorRead 0 /\
  answerable (MkSimApdu (sim_apci_from_u10 (fst q)) (fst q) (snd q)).

Lemma ready_waiting s r a st q : 0 <= s < 16 -> 0 <= r < 16 -> link_ready s r a st ->
  waiting tool addr s r a (l4c_data_priority (l4_conn st)) (fst q) (snd q) s st.
Proof.
  intros Hs Hr []. exists false, false. split; [exists false; split|split; [|done]].
  - split; [|done|by (destruct lr_app0; [left|right])|].
    + unfold d_address. destruct lr_app0 as [->|[_ ->]]; [done|by rewrite app_clear_keeps_address].
    + intros Hc. destruct (lr_open0 Hc) as (H1 & H2 & H3 & H4).
      rewrite Z.add_0_r, Z.mod_small by lia. done.
  - exists (sw_inbox (l4_world st)), []. by rewrite app_nil_r.
  - split; try done. cbn. by rewrite Z.add_0_r, Z.mod_small by lia.
Qed.

(** The device's side after a request served: with an answer, its sequence has
    moved on, without one it has not. *)
Lemma served_ready s r a prio q q' got pd st r' : 0 <= s < 16 -> 0 <= r < 16 -> request_ok q ->
  app_address a = MkSimIA addr ->
  round_inv tool addr s r a prio (fst q) (snd q) q' pd true got true st ->
  ar_tx_seq (serve s r a prio q) = r' -> q' = (s + 1) mod 16 -> (r + Z.b2z got) mod 16 = r' -> pd = None ->
  (forall x, repeatable tool addr s r a prio (fst q) (snd q) true x -> previous_answer tool addr r' x) ->
  link_ready q' r' (ar_app (serve s r a prio q)) st /\ recent st.
Proof.
  intros Hs Hr Hq Ha ((p & [Hd Hi]) & [] & _ & Hrc) Htx -> Hrecv -> Hx. split; [|by apply Hrc].
  destruct Hi as (stl & fr & Hin & _ & Hfr & _ & Hg). destruct (Hg eq_refl) as [-> ->]. cbn [app] in Hin.
  split; try done.
  - unfold serve, served. by rewrite app_keeps_address by apply Hq.
  - apply (dr_budget _ _ _ _ _ _ _ _ _ _ Hd).
  - apply (dr_app _ _ _ _ _ _ _ _ _ _ Hd).
  - intros Hc. destruct (dr_open _ _ _ _ _ _ _ _ _ _ Hd Hc) as (H1 & H2 & H3 & H4).
    split; [done|]. split; [done|]. split; [by rewrite H3|].
    destruct (l4_pending _) as [pd|]; [|done]. by apply Hx.
  - rewrite Hin. eapply Forall_impl; [exact Hfr|]. intros x [->|[->|Hx']].
    + left. f_equal. f_equal. zdiv.
    + by right; left.
    + right; right. by apply Hx.
  - congruence.
Qed.

Lemma answered_ready s r a prio q v st : 0 <= s < 16 -> 0 <= r < 16 -> request_ok q ->
  app_address a = MkSimIA addr ->
  answered tool addr s r a prio (fst q) (snd q) ((s + 1) mod 16) v st ->
  link_ready ((s + 1) mod 16) ((r + 1) mod 16) (ar_app (serve s r a prio q)) st /\ recent st.
Proof.
  intros Hs Hr Hq Ha [Hi (Hv & Htx & _)].
  apply (served_ready s r a prio q _ _ _ st _ Hs Hr Hq Ha Hi); [done..|].
  intros x [Hx|[Hx _]]; [|congruence].
  destruct (answer_frame_spec tool addr s r a prio _ _ Hs Hr (proj1 Hq) Ha (proj2 (proj2 Hq)) x Hx)
    as (v' & Hf' & -> & _). exists (fst v'), (snd v'). split; [done|]. f_equal. zdiv.
Qed.

Lemma answered_serves s r a prio q v : 0 <= s < 16 -> 0 <= r < 16 -> request_ok q ->
  app_address a = MkSimIA addr ->
  answers_with tool addr s r a prio (fst q) (snd q) v -> serves (serve s r a prio q) r v.
Proof.
  intros Hs Hr Hq Ha (Hv & _ & Hfv). unfold serves, serve. split; [done|].
  destruct (ar_result (served _ _ _ _ _ _ _ _)) as [reaction|e] eqn:E;
    [|unfold answer_frame in Hv; by rewrite E in Hv].
  destruct (served_answer tool addr s r a prio _ _ Hs Hr (proj1 Hq) Ha (proj2 (proj2 Hq)) reaction E)
    as [(_ & E' & _)|(ap & da & _ & Hr' & E' & _)]; [congruence|].
  exists reaction. split; [done|]. rewrite Hr'. congruence.
Qed.

(** The application served it without an answer. *)
Definition silent (res : AppResult A) : Prop :=
  exists reaction, ar_result res = Ok reaction /\ responses reaction = [].

Lemma silent_ready s r a prio q st : 0 <= s < 16 -> 0 <= r < 16 -> request_ok q ->
  app_address a = MkSimIA addr -> silent (serve s r a prio q) ->
  acknowledged tool addr s r a prio (fst q) (snd q) ((s + 1) mod 16) st ->
  link_ready ((s + 1) mod 16) r (ar_app (serve s r a prio q)) st /\ recent st.
Proof.
  intros Hs Hr Hq Ha (reaction & E & Er) (pd & got & Hi & Hpd).
  destruct (served_answer tool addr s r a prio _ _ Hs Hr (proj1 Hq) Ha (proj2 (proj2 Hq)) reaction E)
    as [(_ & Hnone & Htx)|(ap & da & _ & Er' & _)]; [|congruence].
  assert (Hno : forall v, ~ answers_with tool addr s r a prio (fst q) (snd q) v)
    by (intros v (Hv & _); congruence).
  assert (got = false) as ->.
  { destruct got; [|done]. destruct Hi as (_ & _ & Hg & _). destruct (Hg eq_refl) as [_ [v Hv]].
    by destruct (Hno v). }
  assert (pd = None) as -> by (destruct pd as [v|]; [destruct Hpd as [_ Hv]; by destruct (Hno v)|done]).
  apply (served_ready s r a prio q _ _ _ st _ Hs Hr Hq Ha Hi); try done.
  - cbn. by rewrite Z.add_0_r, Z.mod_small by lia.
  - intros x [Hx|[_ Hx]]; [congruence|done].
Qed.

(** The traffic timer just set, the connection is not idle. *)
Lemma recent_not_idle s r a st : link_ready s r a st -> recent st ->
  idle_beyond_connection_timeout (l4_conn st) (chan_now (l4_world st)) = false.
Proof.
  intros Hl Hrec. unfold idle_beyond_connection_timeout, recent in *. rewrite Hrec.
  cbn [chan_now sim_world]. rewrite Z.sub_diag.
  pose proof (lr_timeout _ _ _ _ Hl). apply andb_false_iff. right. apply Z.leb_gt. lia.
Qed.

End Ready.

(** ** A medium that loses nothing *)

Section Lossless.
  Context {A : Type} `{AnsweringApp A} `{C : SecureCiphers}.
  Variables tool addr : u16.
  Hypotheses (Htool : is_u16 tool) (Haddr : is_u16 addr).
  Variables (s r : u8) (a : A) (prio : Priority) (apci : u16) (data : bytes) (v : u16 * bytes).
  Hypotheses (Hs : 0 <= s < 16) (Hr : 0 <= r < 16) (Hq : request_ok (apci, data)).
  Hypothesis Haddr0 : app_address a = MkSimIA addr.
  Hypothesis Hv : serves tool addr (serve tool addr s r a prio (apci, data)) r v.

Local Abbreviation St := (L4State (SimWorld A)).
Local Abbreviation req := (req tool addr s prio apci data).

(** Between the operations of a request on a lossless medium: [inbox] is what the
    client has still to receive. *)
Record live (q : u8) (got : bool) (inbox : list CemiLData) (st : St) : Prop := MkLive {
  lv_inbox : sw_inbox (l4_world st) = inbox;
  lv_client : client_round tool addr r prio q got None (l4_conn st);
  lv_open : l4c_closed (l4_conn st) = false;
  lv_ack : 0 < ack_timeout (l4c_timeouts (l4_conn st));
  lv_response : 0 < response_timeout (l4c_timeouts (l4_conn st));
  lv_echo : is_stale_memory_echo (l4_conn st) (fst v) = false }.

(** The device is open, in sequence and in time. *)
Definition device_live (w : SimWorld A) : Prop :=
  sw_losses w = [] /\ d_address (sw_device w) = MkSimIA addr /\ d_app (sw_device w) = a /\
  d_connected (sw_device w) = true /\ l4_peer (d_l4 (sw_device w)) = MkSimIA tool /\
  d_rx_seq (sw_device w) = s /\ d_tx_seq (sw_device w) = r /\
  d_exchange_budget (sw_device w) = None /\ in_time (sw_device w) (sw_now w * NS_PER_MS).

Lemma transmit_lossless out : forall w : SimWorld A, sw_losses w = [] ->
  transmit out w = MkSimWorld (sw_device w) (sw_inbox w ++ out) (sw_now w) [].
Proof.
  induction out as [|x out IH]; intros [d i n l] E; cbn in E; subst l; [cbn; by rewrite app_nil_r|].
  cbn. rewrite IH by done. cbn. by rewrite <- app_assoc.
Qed.

Lemma world_send_ok f (w : SimWorld A) : fst (world_send f w) = Ok tt.
Proof.
  unfold world_send. destruct (default false _); [done|].
  destruct (sim_cemi_decode _); [|done]. by destruct (deliver_individual _ _ _).
Qed.

(** The device serves the request: its T_ACK, then the answer. *)
Lemma device_serves (w : SimWorld A) : device_live w ->
  fst (deliver_individual (sw_device w) (sim_view req) (sw_now w * NS_PER_MS))
  = [device_control tool addr (sim_ack_byte s); device_answer tool addr r (fst v) (snd v)].
Proof.
  intros (_ & Ha & Happ & Hc & Hp & Hrx & Htx & Hb & Ht). destruct Hv as (Hfv & reaction & Er & Hresp).
  destruct (request_octets tool addr s prio apci data Hs (proj1 Hq)) as (o0 & o1 & Et & H64 & Hseq & Hparse).
  destruct (request_numbered tool addr s prio apci data Hs (proj1 Hq)) as [Hnum Ho].
  unfold deliver_individual, device_reaction.
  change (sim_dest_individual (sim_view req)) with (MkSimIA addr).
  rewrite Ha, bool_decide_eq_true_2 by done.
  rewrite (handle_cemi_numbered _ _ s) by (done || (unfold numbered_seq; rewrite Et in Ho |- *; cbn [nth] in Ho; by rewrite Ho)).
  unfold handle_numbered_data. rewrite Hc, bool_decide_eq_true_2 by (by rewrite Hp). cbn [andb negb].
  cbn [d_connected d_rx_seq set_last_traffic set_l4 d_exchange_budget]. rewrite Hc, Hrx, Hb, rx_pred by done.
  replace (s =? (s - 1) mod 16) with false by (symmetry; apply Z.eqb_neq; zdiv). rewrite Z.eqb_refl. cbn [andb negb].
  unfold process_numbered. rewrite Hparse. cbn [d_connected d_app d_tx_seq set_rx_seq set_last_traffic set_l4].
  rewrite Hc, Happ, Htx. unfold serve, served in Er. cbn [fst snd] in Er. rewrite Er, Hresp.
  rewrite bool_decide_eq_false_2 by done. cbn [fst snd responses acknowledge_first].
  rewrite Hnum, answer_numbered by done. cbn [andb fst]. rewrite Et. cbn [nth]. by rewrite Hseq.
Qed.

Lemma send_live : hoare (fun st => live s false [] st /\ device_live (l4_world st)) (l4_send req)
  (fun res st => res = Ok tt /\
    live s false [device_control tool addr (sim_ack_byte s); device_answer tool addr r (fst v) (snd v)] st).
Proof.
  intros st [[Hin Hc Ho Ha Hrs He] Hd]. unfold l4_send. cbn [chan_send sim_world].
  pose proof (device_serves _ Hd) as Hserve. destruct Hd as (Hloss & _).
  unfold world_send. rewrite Hloss. cbn [head default from_option id sw_device sw_now tail].
  rewrite (request_sent tool addr Htool Haddr s prio apci data Hs (proj1 Hq)).
  destruct (deliver_individual _ _ _) as [out d]. cbn [fst] in Hserve. subst out.
  cbn [fst snd]. split; [done|]. rewrite transmit_lossless by done. split; try done. cbn. by rewrite Hin.
Qed.

Lemma recv_live q got x inbox f b : CemiFrame_decode (sim_cemi_encode x) = Ok f ->
  hoare (live q got (x :: inbox)) (l4_recv b) (fun res st => res = Ok (Received f) /\ live q got inbox st).
Proof.
  intros E st []. unfold l4_recv. cbn [chan_recv sim_world]. unfold world_recv, WORLD_TIMERS.
  rewrite lv_inbox0, E. cbn [fst snd]. by split.
Qed.

Lemma control_live q got o : hoare (live q got []) (send_control o)
  (fun res st => res = Ok tt /\ exists inbox, live q got inbox st).
Proof.
  intros st []. unfold send_control, l4_send, mbind, L4Op_bind, get_conn, get_now, modify.
  cbn [chan_send sim_world].
  match goal with |- context [world_send ?f ?w] => pose proof (world_send_ok f w) as E;
    destruct (world_send f w) as [res w'] end.
  cbn [fst] in E. subst res. cbn [fst snd]. split; [done|]. exists (sw_inbox w').
  split; try done. by destruct lv_client0.
Qed.

Lemma note_live q got inbox : hoare (live q got inbox) note_peer_frame
  (fun res st => res = Ok tt /\ live q got inbox st).
Proof.
  intros st []. unfold note_peer_frame, mbind, L4Op_bind, get_now, modify, is_self_addressed.
  cbn [fst snd]. split; [done|]. destruct lv_client0. by destruct (bool_decide _).
Qed.

Lemma hoare_get_live {B} q got inbox (k : Layer4Connection -> L4Op (SimWorld A) B) Q :
  (forall c, client_round tool addr r prio q got None c -> l4c_closed c = false ->
    0 < ack_timeout (l4c_timeouts c) -> 0 < response_timeout (l4c_timeouts c) ->
    is_stale_memory_echo c (fst v) = false -> hoare (live q got inbox) (k c) Q) ->
  hoare (live q got inbox) (get_conn ≫= k) Q.
Proof. intros Hk st Hst. destruct (Hst) as []. by apply (Hk (l4_conn st)). Qed.

(** One frame of the inbox ends a wait. *)
Lemma until_live {B} q got x inbox f wait (elapsed : L4Op (SimWorld A) B) failed body b R :
  0 < wait -> CemiFrame_decode (sim_cemi_encode x) = Ok f ->
  hoare (live q got inbox) (body f) (fun res st => res = Ok (Some b) /\ R st) ->
  hoare (live q got (x :: inbox)) (now ← get_now; receive_until (now + wait) elapsed failed body)
    (fun res st => res = Ok b /\ R st).
Proof.
  intros Hw Ef Hb st Hst. unfold mbind, L4Op_bind, get_now, receive_until. cbn [fst snd receive_loop].
  unfold saturating_sub. cbn [chan_now sim_world].
  match goal with |- context [?n =? 0] => replace (n =? 0) with false by (symmetry; apply Z.eqb_neq; lia) end.
  match goal with |- context [l4_recv ?n st] => pose proof (recv_live q got x inbox f n Ef st Hst) as [E Hl];
    destruct (l4_recv n st) as [res st1] end.
  cbn [fst snd] in E, Hl. subst res. specialize (Hb st1 Hl). destruct (body f st1) as [res st2].
  cbn [fst snd] in Hb. destruct Hb as [-> HR]. done.
Qed.

Lemma peer_frame_live q f : peer_frame tool addr f -> forall c, client_round tool addr r prio q false None c ->
  is_connect_rejection c f = false /\ is_absence_confirmation c f = false /\ is_peer_frame c f = true.
Proof.
  intros (Hm & Hsrc & Hdst) c Hc.
  unfold is_connect_rejection, is_absence_confirmation, CemiFrame_is_negative_confirmation, is_peer_frame.
  rewrite Hm, (cr_target _ _ _ _ _ _ _ _ Hc), (cr_source _ _ _ _ _ _ _ _ Hc), Hsrc, Hdst.
  rewrite (bool_decide_eq_false_2 (LDataInd = LDataCon)) by done. cbn [andb].
  rewrite !andb_false_r. cbn [andb]. split; [done|]. split; [done|].
  by rewrite !bool_decide_eq_true_2 by done.
Qed.

(** The T_ACK of the request. *)
Lemma await_live inbox : hoare (live s false (device_control tool addr (sim_ack_byte s) :: inbox)) (await_ack s)
  (fun res st => res = Ok Acked /\ live s false inbox st).
Proof.
  destruct (heard_control tool addr Htool Haddr (sim_ack_byte s)) as (f & Ef & Hf & Eo).
  apply hoare_get_live. intros c _ _ Hwait _ _. apply (until_live _ _ _ _ f); [done|done|].
  apply hoare_get_live. intros c' Hc' _ _ _ _.
  destruct (peer_frame_live s f Hf c' Hc') as (-> & -> & ->). cbn [negb].
  eapply hoare_step; [apply note_live|]. rewrite Eo.
  assert (Hcl : classify (sim_ack_byte s) = Ack s).
  { refine (below_decide 16 (fun j => classify (sim_ack_byte j) = Ack j) _ s Hs). vm_compute. reflexivity. }
  rewrite Hcl, Z.eqb_refl. by apply hoare_ret.
Qed.

Lemma live_modify {B} q got inbox fn (k : unit -> L4Op (SimWorld A) B) Q q' :
  (forall st, live q got inbox st -> live q' got inbox (MkL4State (fn (l4_conn st)) (l4_shared st) (l4_world st))) ->
  hoare (live q' got inbox) (k tt) Q -> hoare (live q got inbox) (modify fn ≫= k) Q.
Proof. apply hoare_modify. Qed.

Lemma send_numbered_live n : hoare (fun st => live s false [] st /\ device_live (l4_world st))
  (send_numbered_loop n s req)
  (fun res st => res = Ok tt /\
    live ((s + 1) mod 16) false [device_answer tool addr r (fst v) (snd v)] st).
Proof.
  destruct n; cbn [send_numbered_loop].
  all: eapply hoare_step; [apply send_live|].
  all: apply hoare_now; intros now; eapply hoare_pre; [|intros st [Hst _]; exact Hst].
  all: eapply live_modify; [intros st [? [] ? ? ? ?]; by split|].
  all: eapply hoare_step; [apply await_live|].
  all: apply hoare_modify_end; intros st [? [] ? ? ? ?]; split; [done|]; split; try done;
    split; try done; cbn; rewrite cr_send0, (land_mask 4 15) by (zdiv || reflexivity); reflexivity.
Qed.

(** The answer. *)
Lemma response_live q : hoare (live q false [device_answer tool addr r (fst v) (snd v)]) recv_response
  (fun res st => res = Ok v).
Proof.
  destruct (device_answer_seen tool addr Htool Haddr r (fst v) (snd v) Hr (proj1 Hv))
    as (f & Ef & H1 & H2 & H3 & H4 & H5).
  assert (Hf : peer_frame tool addr f) by done.
  apply hoare_get_live. intros c Hc Hop _ Hwait _. rewrite (cr_pending _ _ _ _ _ _ _ _ Hc), Hop.
  eapply live_modify; [intros st [? [] ? ? ? ?]; by split|].
  eapply hoare_post; [apply (until_live _ _ _ _ f _ _ _ _ v (fun _ => True)); [done|done|]|by intros res st [-> _]].
  apply hoare_get_live. intros c' Hc' _ _ _ _.
  destruct (peer_frame_live q f Hf c' Hc') as (-> & _ & ->). cbn [negb].
  eapply hoare_step; [apply note_live|]. rewrite H4, (cr_recv _ _ _ _ _ _ _ _ Hc').
  cbn [Z.b2z]. rewrite Z.add_0_r, Z.mod_small, Z.eqb_refl by done.
  eapply hoare_step; [apply control_live|]. apply hoare_exists. intros inbox.
  eapply (hoare_step _ (fun st => is_stale_memory_echo (l4_conn st) (fst v) = false /\
    sl_session (l4c_secure (l4_conn st)) = None) _ tt);
    [intros st [? [] ? ? ? ?]; done|].
  eapply (hoare_step _ (fun st => is_stale_memory_echo (l4_conn st) (fst v) = false) _ v).
  - intros st [He Hsec]. unfold unwrap_apdu, SecureLayer_unwrap_incoming. rewrite H5, Hsec.
    rewrite <- surjective_pairing. done.
  - intros st He. unfold mbind, L4Op_bind, get_conn. cbn [fst snd]. by rewrite He.
Qed.

(** Before a request that is not idle, on the plain connection, nothing is sent. *)
Lemma send_data_plain reconnect (st : St) q :
  client_round tool addr r prio q false None (l4_conn st) -> l4c_closed (l4_conn st) = false ->
  idle_beyond_connection_timeout (l4_conn st) (chan_now (l4_world st)) = false ->
  exists secure, sl_session secure = None /\ sl_on_factory_key secure = false /\
    send_data_with reconnect apci data st
    = send_numbered (ndt q) apci data
        (MkL4State (l4c_set_secure secure (l4c_set_last_send_apci apci (l4_conn st)))
           (l4_shared st) (l4_world st)).
Proof.
  intros [] Hop Hidle. exists (l4c_secure (l4_conn st)). do 2 (split; [done|]).
  unfold send_data_with, ensure_secure_sync, SecureLayer_needs_sync, wrap_outgoing,
    SecureLayer_wrap_outgoing, mbind, L4Op_bind, get_conn, get_now, modify, mret, L4Op_ret.
  cbn [fst snd chan_now sim_world] in *. rewrite Hop, Hidle. cbn [fst snd].
  rewrite cr_factory0, cr_session0. cbn [negb fst snd l4_conn l4_shared l4_world l4c_secure l4c_set_last_send_apci].
  rewrite cr_session0. cbn [fst snd]. by rewrite <- cr_send0.
Qed.

Lemma request_live (st : St) :
  client_round tool addr r prio s false None (l4_conn st) -> l4c_closed (l4_conn st) = false ->
  idle_beyond_connection_timeout (l4_conn st) (chan_now (l4_world st)) = false ->
  sw_inbox (l4_world st) = [] ->
  0 < ack_timeout (l4c_timeouts (l4_conn st)) -> 0 < response_timeout (l4c_timeouts (l4_conn st)) ->
  is_stale_memory_echo (l4c_set_last_send_apci apci (l4_conn st)) (fst v) = false ->
  device_live (l4_world st) -> fst (request apci data st) = Ok v.
Proof.
  intros Hc Hop Hidle Hin Ha Hre Hecho Hd.
  destruct (send_data_plain reconnect_after_idle st s Hc Hop Hidle) as (secure & Hs1 & Hs2 & E).
  unfold request, request_with, mbind at 1, L4Op_bind at 1. rewrite E.
  set (st1 := MkL4State _ _ _).
  assert (Hl : live s false [] st1) by (by destruct Hc; split).
  unfold send_numbered, mbind at 1, L4Op_bind at 1, get_conn at 1. cbn [fst snd]. unfold numbered_frame.
  destruct (lv_client _ _ _ _ Hl) as [Ht Hsr _ _ Hp Hsq _ _]. rewrite Ht, Hsr, Hp, Hsq.
  pose proof (send_numbered_live (Z.to_nat (max_repetitions (l4c_timeouts (l4_conn st1)))) st1 (conj Hl Hd)) as [E1 Hl1].
  match goal with |- context [send_numbered_loop ?n s ?f st1] =>
    change (send_numbered_loop n s f st1) with (send_numbered_loop n s req st1);
    destruct (send_numbered_loop n s req st1) as [res st2] end.
  cbn [fst snd] in *. subst res. by apply response_live in Hl1.
Qed.

End Lossless.

(** ** The properties *)

Section Properties.
  Context {A : Type} `{AnsweringApp A} `{C : SecureCiphers}.
  Variables tool addr : u16.
  Hypotheses (Htool : is_u16 tool) (Haddr : is_u16 addr).

(** The application is [a], but for the verify mode a closed connection clears. *)
Definition app_is (a : A) (d : Device A) : Prop :=
  d_app d = a \/ (d_connected d = false /\ d_app d = app_clear_verify_mode a).

(** A run of answered requests, each with its answer, none of them after an idle
    connection. *)
Inductive exchanges (st : L4State (SimWorld A)) :
    list ((u16 * bytes) * (u16 * bytes)) -> L4State (SimWorld A) -> Prop :=
| exchanges_none : exchanges st [] st
| exchanges_next l st1 q v st2 :
    exchanges st l st1 ->
    idle_beyond_connection_timeout (l4_conn st1) (chan_now (l4_world st1)) = false ->
    request (fst q) (snd q) st1 = (Ok v, st2) ->
    exchanges st (l ++ [(q, v)]) st2.

(** The specification: the application called on each request in order, its send
    sequence counting the answers. *)
Inductive calls (s r : u8) (a : A) : list ((u16 * bytes) * (u16 * bytes)) -> A -> Prop :=
| calls_none : calls s r a [] a
| calls_next l a1 q v prio :
    calls s r a l a1 ->
    let res := serve tool addr ((s + zlen l) mod 16) ((r + zlen l) mod 16) a1 prio q in
    serves tool addr res ((r + zlen l) mod 16) v ->
    calls s r a (l ++ [(q, v)]) (ar_app res).

Lemma request_round_at s r a st q :
  0 <= s < 16 -> 0 <= r < 16 -> link_ready tool addr s r a st -> request_ok q ->
  idle_beyond_connection_timeout (l4_conn st) (chan_now (l4_world st)) = false ->
  let prio := l4c_data_priority (l4_conn st) in
  response_post tool addr s r a prio (fst q) (snd q) ((s + 1) mod 16)
    (fst (request (fst q) (snd q) st)) (snd (request (fst q) (snd q) st)) /\
  sent_post tool addr s r a prio (fst q) (snd q)
    (fst (send_data (fst q) (snd q) st)) (snd (send_data (fst q) (snd q) st)).
Proof.
  intros Hs Hr Hl (Hf & Hd & Hans) Hidle prio. pose proof (lr_address _ _ _ _ _ _ Hl) as Ha.
  pose proof (conj (ready_waiting tool addr s r a st q Hs Hr Hl) Hidle) as Hw. split.
  - exact (request_round tool addr Htool Haddr s r a prio (fst q) (snd q) Hs Hr Hf Hd Ha Hans st Hw).
  - exact (send_data_round tool addr Htool Haddr s r a prio (fst q) (snd q) Hs Hr Hf Hd Ha Hans
             reconnect_after_idle st Hw).
Qed.

Lemma request_answered s r a st q v st' :
  0 <= s < 16 -> 0 <= r < 16 -> link_ready tool addr s r a st -> request_ok q ->
  idle_beyond_connection_timeout (l4_conn st) (chan_now (l4_world st)) = false ->
  request (fst q) (snd q) st = (Ok v, st') ->
  let once := serve tool addr s r a (l4c_data_priority (l4_conn st)) q in
  serves tool addr once r v /\
  link_ready tool addr ((s + 1) mod 16) ((r + 1) mod 16) (ar_app once) st' /\ recent st'.
Proof.
  intros Hs Hr Hl Hq Hidle E once. pose proof (lr_address _ _ _ _ _ _ Hl) as Ha.
  destruct (request_round_at s r a st q Hs Hr Hl Hq Hidle) as [Hround _].
  rewrite E in Hround. cbn [fst snd response_post] in Hround. split.
  - by apply (answered_serves tool addr s r a _ q v Hs Hr Hq Ha), Hround.
  - by apply (answered_ready tool addr s r a _ q v).
Qed.

Lemma request_refused s r a st q e st' :
  0 <= s < 16 -> 0 <= r < 16 -> link_ready tool addr s r a st -> request_ok q ->
  idle_beyond_connection_timeout (l4_conn st) (chan_now (l4_world st)) = false ->
  request (fst q) (snd q) st = (Err e, st') ->
  let once := serve tool addr s r a (l4c_data_priority (l4_conn st)) q in
  exists a', (a' = a \/ a' = ar_app once) /\ app_is a' (sw_device (l4_world st')).
Proof.
  intros Hs Hr Hl Hq Hidle E once.
  destruct (request_round_at s r a st q Hs Hr Hl Hq Hidle) as [Hround _].
  rewrite E in Hround. destruct Hround as (p & g & Hd & _). exists (if p then ar_app once else a).
  split; [destruct p; [by right|by left]|]. apply (dr_app _ _ _ _ _ _ _ _ _ _ Hd).
Qed.

(** Data sent without waiting for an answer, that the application does not answer. *)
Lemma data_sent s r a st q st' :
  0 <= s < 16 -> 0 <= r < 16 -> link_ready tool addr s r a st -> request_ok q ->
  idle_beyond_connection_timeout (l4_conn st) (chan_now (l4_world st)) = false ->
  send_data (fst q) (snd q) st = (Ok tt, st') ->
  let once := serve tool addr s r a (l4c_data_priority (l4_conn st)) q in
  silent once -> link_ready tool addr ((s + 1) mod 16) r (ar_app once) st' /\ recent st'.
Proof.
  intros Hs Hr Hl Hq Hidle E once Hsil. pose proof (lr_address _ _ _ _ _ _ Hl) as Ha.
  destruct (request_round_at s r a st q Hs Hr Hl Hq Hidle) as [_ Hround].
  rewrite E in Hround. by apply (silent_ready tool addr s r a _ q).
Qed.

Lemma data_refused s r a st q e st' :
  0 <= s < 16 -> 0 <= r < 16 -> link_ready tool addr s r a st -> request_ok q ->
  idle_beyond_connection_timeout (l4_conn st) (chan_now (l4_world st)) = false ->
  send_data (fst q) (snd q) st = (Err e, st') ->
  let once := serve tool addr s r a (l4c_data_priority (l4_conn st)) q in
  exists a', (a' = a \/ a' = ar_app once) /\ app_is a' (sw_device (l4_world st')).
Proof.
  intros Hs Hr Hl Hq Hidle E once.
  destruct (request_round_at s r a st q Hs Hr Hl Hq Hidle) as [_ Hround].
  rewrite E in Hround. destruct Hround as (p & g & Hd & _). exists (if p then ar_app once else a).
  split; [destruct p; [by right|by left]|]. apply (dr_app _ _ _ _ _ _ _ _ _ _ Hd).
Qed.

(** C15: A request is served at most once, an answered one exactly once.  Whatever
    frames the medium loses between the client and the device, when a request
    returns, the application has run on it not at all or once; and if the request
    returns an answer, the application has run on it exactly once, has given that
    very answer, and client and device agree again for the next request. *)
Theorem request_served_once s r a st q :
  0 <= s < 16 -> 0 <= r < 16 -> link_ready tool addr s r a st -> request_ok q ->
  idle_beyond_connection_timeout (l4_conn st) (chan_now (l4_world st)) = false ->
  let once := serve tool addr s r a (l4c_data_priority (l4_conn st)) q in
  match request (fst q) (snd q) st with
  | (Ok v, st') => serves tool addr once r v /\
      link_ready tool addr ((s + 1) mod 16) ((r + 1) mod 16) (ar_app once) st'
  | (Err _, st') => exists a', (a' = a \/ a' = ar_app once) /\ app_is a' (sw_device (l4_world st'))
  end.
Proof.
  intros Hs Hr Hl Hq Hidle once.
  destruct (request (fst q) (snd q) st) as [[v|e] st'] eqn:E.
  - by destruct (request_answered s r a st q v st' Hs Hr Hl Hq Hidle E) as (Hv & Hl' & _).
  - by apply (request_refused s r a st q e st').
Qed.

(** C28: The composition refines remote procedure calls.  Over a medium that loses
    whatever it likes, any run of answered requests is a sequence of calls of the
    application, each request served exactly once, in order, with the answer the
    caller got; and client and device agree at the end. *)
Theorem exchanges_refine_calls s r a st l st' :
  0 <= s < 16 -> 0 <= r < 16 -> link_ready tool addr s r a st -> exchanges st l st' ->
  Forall request_ok (map fst l) ->
  exists a', calls s r a l a' /\
    link_ready tool addr ((s + zlen l) mod 16) ((r + zlen l) mod 16) a' st'.
Proof.
  intros Hs Hr Hl He. induction He as [|l st1 q v st2 _ IH Hidle E]; intros Hq.
  - exists a. split; [constructor|]. change (zlen (@nil ((u16 * bytes) * (u16 * bytes)))) with 0.
    by rewrite !Z.add_0_r, !Z.mod_small by lia.
  - rewrite map_app in Hq. apply Forall_app in Hq as [Hql Hq]. inversion Hq as [|? ? Hq1 _]; subst.
    destruct (IH Hql) as (a1 & Hc & Hl1).
    destruct (request_answered ((s + zlen l) mod 16) ((r + zlen l) mod 16) a1 st1 q v st2
      ltac:(apply Z.mod_pos_bound; lia) ltac:(apply Z.mod_pos_bound; lia) Hl1 Hq1 Hidle E) as (Hv & Hl2 & _).
    eexists. split; [by eapply calls_next|].
    replace (zlen (l ++ [(q, v)])) with (zlen l + 1) by (unfold zlen; rewrite length_app; cbn [length]; lia).
    rewrite !Z.add_assoc. by rewrite !Zplus_mod_idemp_l in Hl2.
Qed.

(** C36: An undisturbed request is answered.  On a medium that loses nothing, with the
    device open, in sequence and in time and nothing left under way, a request
    the application answers, other than one whose answer would pass for a stale
    memory echo, returns that answer. *)
Theorem undisturbed_request_answered s r a st q v :
  0 <= s < 16 -> 0 <= r < 16 -> link_ready tool addr s r a st -> request_ok q ->
  serves tool addr (serve tool addr s r a (l4c_data_priority (l4_conn st)) q) r v ->
  device_live tool addr s r a (l4_world st) -> sw_inbox (l4_world st) = [] ->
  l4c_closed (l4_conn st) = false ->
  idle_beyond_connection_timeout (l4_conn st) (chan_now (l4_world st)) = false ->
  0 < ack_timeout (l4c_timeouts (l4_conn st)) -> 0 < response_timeout (l4c_timeouts (l4_conn st)) ->
  is_stale_memory_echo (l4c_set_last_send_apci (fst q) (l4_conn st)) (fst v) = false ->
  fst (request (fst q) (snd q) st) = Ok v.
Proof.
  intros Hs Hr Hl Hq Hv Hd Hin Hop Hidle Ha Hre Hecho.
  apply (request_live tool addr Htool Haddr s r a (l4c_data_priority (l4_conn st)) (fst q) (snd q) v); try done.
  - destruct Hl. split; try done. cbn. by rewrite Z.add_0_r, Z.mod_small by lia.
Qed.

End Properties.

(** ** Witnesses: the counting application over a lossy medium *)

#[export] Instance counting_app_answers : AnsweringApp (list u16).
Proof.
  refine {| answerable apdu := 0 <= sim_apci_raw apdu < 1024; answering_laws := counting_app_laws |}.
  - intros a open tx cemi apdu _. done.
  - intros a tx cemi apdu reaction Hap _ Htx. cbn [handle_apdu counting_app]. unfold counting_handle.
    cbn [negb]. destruct (_ =? 896); cbn [ar_result]; intros [= <-]; [by left|right].
    exists (sim_apci_raw apdu), []. split; [split; [done|simpl; lia]|].
    split; [done|]. cbn [ar_tx_seq]. rewrite (land_mask 4 15) by (lia || reflexivity). done.
  - intros a tx cemi apdu _ _. done.
Defined.

Definition demo_world (losses : list bool) : SimWorld (list u16) :=
  MkSimWorld (MkDevice [] false 0 0 None 0 (MkL4 (MkSimIA 0) 0 None false)) [] 1000 losses.

(** The connection opened on that world. *)
Definition demo_link (losses : list bool) : L4State (SimWorld (list u16)) :=
  snd (Layer4Connection_connect (IndividualAddress_from_raw 4353) (IndividualAddress_from_raw 4607)
         (Timeouts_default None, SecureLayer_plain) None (MkHighWater 0 0) (demo_world losses)).



(** The medium loses the T_ACK and the answer of the first transmission. *)
Definition demo_lossy : L4State (SimWorld (list u16)) := demo_link [false; false; true; true].
Definition demo_quiet : L4State (SimWorld (list u16)) := demo_link [].

Definition demo_request : u16 * bytes := (513, [0; 16]).

#[local] Existing Instance demo_ciphers.

Definition demo_answered : L4State (SimWorld (list u16)) :=
  snd (request (fst demo_request) (snd demo_request) demo_lossy).

Lemma demo_ready st : st = demo_quiet \/ st = demo_lossy -> link_ready 4607 4353 0 0 [] st.
Proof.
  intros [-> | ->]; split; try (vm_compute; reflexivity); try (left; vm_compute; reflexivity);
    try (intros _; vm_compute; done); vm_compute; constructor.
Qed.

Lemma demo_request_ok : request_ok demo_request.
Proof.
  split; [split; [split; simpl; lia|repeat constructor; unfold is_u8; lia]|].
  split; [done|simpl; lia].
Qed.

Lemma request_served_once_witness :
  fst (request 513 [0; 16] demo_lossy) = Ok (513, []) /\
  serves 4607 4353 (serve 4607 4353 0 0 [] System demo_request) 0 (513, []) /\
  d_app (sw_device (l4_world demo_answered)) = [513].
Proof.
  pose proof (request_served_once 4607 4353 ltac:(unfold is_u16; lia) ltac:(unfold is_u16; lia) 0 0 []
    demo_lossy demo_request ltac:(lia) ltac:(lia) (demo_ready _ (or_intror eq_refl)) demo_request_ok
    ltac:(vm_compute; reflexivity)) as Hs.
  assert (E : request (fst demo_request) (snd demo_request) demo_lossy = (Ok (513, []), demo_answered))
    by (vm_compute; reflexivity).
  cbn zeta in Hs. rewrite E in Hs. destruct Hs as [Hv _].
  split; [vm_compute; reflexivity|]. split; [exact Hv|vm_compute; reflexivity].
Defined.

Lemma demo_exchanges : exchanges demo_lossy [(demo_request, (513, []))] demo_answered.
Proof.
  apply (exchanges_next demo_lossy [] demo_lossy demo_request (513, []) demo_answered);
    [constructor|vm_compute; reflexivity|vm_compute; reflexivity].
Qed.

Lemma exchanges_refine_calls_witness : exists a',
  calls 4607 4353 0 0 [] [(demo_request, (513, []))] a' /\ a' = d_app (sw_device (l4_world demo_answered)).
Proof.
  destruct (exchanges_refine_calls 4607 4353 ltac:(unfold is_u16; lia) ltac:(unfold is_u16; lia) 0 0 []
    demo_lossy [(demo_request, (513, []))] demo_answered ltac:(lia) ltac:(lia)
    (demo_ready _ (or_intror eq_refl)) demo_exchanges
    ltac:(by apply Forall_singleton, demo_request_ok)) as (a' & Hc & Hl).
  exists a'. split; [exact Hc|]. destruct (lr_app _ _ _ _ _ _ Hl) as [<-|[E _]]; [reflexivity|].
  vm_compute in E. discriminate E.
Defined.

Lemma undisturbed_request_answered_witness :
  fst (request 513 [0; 16] demo_quiet) = Ok (513, []).
Proof.
  apply (undisturbed_request_answered 4607 4353 ltac:(unfold is_u16; lia) ltac:(unfold is_u16; lia) 0 0 []
    demo_quiet demo_request (513, []) ltac:(lia) ltac:(lia) (demo_ready _ (or_introl eq_refl))
    demo_request_ok); try (vm_compute; reflexivity).
  - split; [split; simpl; lia|].
    eexists. split; [reflexivity|vm_compute; reflexivity].
  - unfold device_live. repeat split; vm_compute; reflexivity.
Defined.
