(* ===== verification/Load.v ===== *)
(** * Load controls of the client ([bussard-mgmt/src/load.rs])

    The load-state values, the load-control records, the confirmation of a load
    event with its bounded wait through the intermediate states, and segment
    allocation.  The management connection is the interface [L4Management]. *)

From S2P Require Import Prelude MgmtError Apci.

Local Open Scope string_scope.
Local Open Scope list_scope.
Local Open Scope Z_scope.

Definition PID_LOAD_STATE_CONTROL : u8 := 5.
Definition PID_TABLE_REFERENCE : u8 := 7.

(** ** States and controls *)

Inductive LoadState : Type :=
| Unloaded
| Loaded
| Loading
| LoadState_Error
| Unloading
| LoadCompleting
| LoadState_Other (v : u8).

#[export] Instance LoadState_eq_dec : EqDecision LoadState.
Proof. solve_decision. Defined.

Definition LoadState_from_octet (v : u8) : LoadState :=
  match v with
  | 0 => Unloaded
  | 1 => Loaded
  | 2 => Loading
  | 3 => LoadState_Error
  | 4 => Unloading
  | 5 => LoadCompleting
  | _ => LoadState_Other v
  end.

Definition LoadState_is_intermediate (s : LoadState) : bool :=
  match s with
  | Unloading | LoadCompleting => true
  | _ => false
  end.

Definition LoadState_octet (s : LoadState) : u8 :=
  match s with
  | Unloaded => 0
  | Loaded => 1
  | Loading => 2
  | LoadState_Error => 3
  | Unloading => 4
  | LoadCompleting => 5
  | LoadState_Other v => v
  end.

Inductive LoadControl : Type :=
| NoOperation
| StartLoading
| LoadCompleted
| AdditionalLoadControls
| Unload.

#[export] Instance LoadControl_eq_dec : EqDecision LoadControl.
Proof. solve_decision. Defined.

Definition LoadControl_octet (c : LoadControl) : u8 :=
  match c with
  | NoOperation => 0
  | StartLoading => 1
  | LoadCompleted => 2
  | AdditionalLoadControls => 3
  | Unload => 4
  end.

Definition LoadControl_encode_full (c : LoadControl) : bytes :=
  LoadControl_octet c :: replicate 9 0.

Definition LoadControl_expected_state (c : LoadControl) : option LoadState :=
  match c with
  | StartLoading => Some Loading
  | LoadCompleted => Some Loaded
  | Unload | NoOperation | AdditionalLoadControls => None
  end.

Definition LD_CTRL_REL_SEGMENT : u8 := 11.

Definition encode_rel_segment (size : u32) (mode fill : u8) : bytes :=
  [LoadControl_octet AdditionalLoadControls; LD_CTRL_REL_SEGMENT] ++ be_bytes 4 size
  ++ [mode; fill; 0; 0].

(** ** Errors

    [WriteError], without the device address each variant carries (the
    connection's) and without the texts that only the message needs; [Mgmt] wraps
    an error of the connection. *)
Inductive WriteError : Type :=
| WriteNotConfirmed (object_index property_id : u8) (wrote echoed : bytes)
| UnexpectedLoadState (object_index : u8) (control : LoadControl) (expected actual : LoadState)
| LoadStateTimeout (object_index : u8) (control : LoadControl) (last : LoadState) (waited : Z)
| SecurityObjectState (control : LoadControl) (expected actual : LoadState)
| SecurityObjectNotLoaded (cause : WriteError)
| SecurityProgram (reason : string)
| ObjectAbsent (object_index : u8)
| LoadError (object_index : u8)
| NotLoaded (object_index : u8) (actual : LoadState)
| ImagePropMismatch (object_index : u8) (expected_crc device_crc : u16)
| PropCompareMismatch (object_index property_id : u8) (expected actual : bytes)
| PropertyMismatch (property what : string) (expected actual : bytes)
| RelMemCompareMismatch (object_index : u8) (base offset addr : u32) (expected actual : bytes)
| AddressOutOfRange (detail : string)
| RestartRefused (erase_code channel_number error_code : u8)
| Mgmt (e : MgmtError).

(** ** The management connection

    [S] is the state of the connection and of the device behind it. *)
Definition Mgmt_op (S A : Type) : Type := S -> result WriteError A * S.

#[export] Instance Mgmt_op_ret {S} : MRet (Mgmt_op S) := fun A a s => (Ok a, s).
#[export] Instance Mgmt_op_bind {S} : MBind (Mgmt_op S) := fun A B k m s =>
  match m s with
  | (Ok a, s') => k a s'
  | (Err e, s') => (Err e, s')
  end.

Definition fail {S A} (e : WriteError) : Mgmt_op S A := fun s => (Err e, s).

Class L4Management (S : Type) : Type := {
  property_request : u8 -> u8 -> u16 -> u8 -> Mgmt_op S PropertyValueResponse;
  property_write_request : u8 -> u8 -> u8 -> u16 -> bytes -> Mgmt_op S PropertyValueResponse;
  write_memory : u32 -> bytes -> Mgmt_op S unit;
  read_memory_strict : u32 -> u8 -> Mgmt_op S bytes;
  now : S -> Z;
  sleep : Z -> S -> S }.

(** Time does not go back, and a sleep takes at least its duration. *)
Class L4ManagementLaws (S : Type) `{L4Management S} : Prop := {
  request_now : forall o p i c s, now s <= now (snd (property_request o p i c s));
  read_memory_now : forall a n s, now s <= now (snd (read_memory_strict a n s));
  sleep_now : forall d s, now s + d <= now (sleep d s) }.

Section Operations.
  Context {S : Type} `{L4Management S}.

(** ** Property access *)

Definition write_property (object_index property_id count : u8) (start : u16) (value : bytes)
    (expected_echo : option bytes) : Mgmt_op S bytes :=
  resp ← property_write_request object_index property_id count start value;
  let want := default value expected_echo in
  if (pvr_count resp =? 0) || negb (bool_decide (pvr_data resp = want))
  then fail (WriteNotConfirmed object_index property_id want (pvr_data resp))
  else mret (pvr_data resp).

Definition read_property_elements (object_index property_id : u8) (start : u16) (count : u8)
    : Mgmt_op S bytes :=
  resp ← property_request object_index property_id start count;
  if negb (pvr_count resp =? count) then fail (Mgmt (ServiceRejected "A_PropertyValue_Read" "" None))
  else mret (pvr_data resp).

Definition read_load_state (object_index : u8) : Mgmt_op S LoadState :=
  resp ← property_request object_index PID_LOAD_STATE_CONTROL 1 1;
  match pvr_data resp with
  | octet :: _ =>
      if pvr_count resp =? 0 then fail (Mgmt (MalformedResponse "load state property is not readable"))
      else mret (LoadState_from_octet octet)
  | [] => fail (Mgmt (MalformedResponse "load state property is not readable"))
  end.

(** [zip] of [expected] and [actual] under the mask. *)
Definition equal_under_mask (expected actual : bytes) (mask : option bytes) : bool :=
  forallb (fun i =>
    let m := default 255 (mask ≫= fun m => m !! i) in
    Z.land (nth i expected 0) m =? Z.land (nth i actual 0) m)
    (seq 0 (Nat.min (length expected) (length actual))).

Definition compare_property (object_index property_id : u8) (start : u16) (expected : bytes)
    (mask : option bytes) : Mgmt_op S unit :=
  resp ← property_request object_index property_id start 1;
  let actual := take (length expected) (pvr_data resp) in
  if negb (pvr_count resp =? 0) && bool_decide (length actual = length expected)
     && equal_under_mask expected actual mask
  then mret tt
  else fail (PropCompareMismatch object_index property_id expected actual).

Definition rel_mem_compare_passes (expected actual : bytes) (mask : option bytes) (invert : bool)
    : bool :=
  if negb (bool_decide (length actual = length expected)) then false
  else if invert then negb (equal_under_mask expected actual mask)
  else equal_under_mask expected actual mask.

(** ** Waiting through the intermediate states *)

Record IntermediatePoll : Type := MkPoll { period : Z; max_wait : Z }.

(** Milliseconds. *)
Definition IntermediatePoll_STANDARD : IntermediatePoll := MkPoll 3000 30000.

Definition IntermediateWait_pause (started : Z) (poll : IntermediatePoll) (state : LoadState)
    (object_index : u8) (control : LoadControl) (s : S) : result WriteError (option Z) :=
  if negb (LoadState_is_intermediate state) then Ok None else
  let waited := now s - started in
  if max_wait poll <=? waited
  then Err (LoadStateTimeout object_index control state waited)
  else Ok (Some (Z.min (period poll) (max_wait poll - waited))).

(** The [while let Some(pause)] loop over a state read [read]; [None] when the
    fuel runs out. *)
Fixpoint settle (fuel : nat) (started : Z) (poll : IntermediatePoll) (object_index : u8)
    (control : LoadControl) (read : Mgmt_op S LoadState) (state : LoadState) (s : S)
    : option (result WriteError LoadState * S) :=
  match fuel with
  | O => None
  | Datatypes.S fuel' =>
      match IntermediateWait_pause started poll state object_index control s with
      | Err e => Some (Err e, s)
      | Ok None => Some (Ok state, s)
      | Ok (Some pause) =>
          match read (sleep pause s) with
          | (Err e, s') => Some (Err e, s')
          | (Ok state', s') => settle fuel' started poll object_index control read state' s'
          end
      end
  end.

(** Turns that are always enough: one per period of the longest wait, one for the
    shortened last one, and the first and last check. *)
Definition settle_fuel (poll : IntermediatePoll) : nat :=
  Datatypes.S (Datatypes.S (Datatypes.S (Z.to_nat (max_wait poll / period poll)))).

(** The loop as an operation; the fuel never runs out ([settle_terminates]). *)
Definition settled (poll : IntermediatePoll) (object_index : u8) (control : LoadControl)
    (read : Mgmt_op S LoadState) (state : LoadState) : Mgmt_op S LoadState := fun s =>
  match settle (settle_fuel poll) (now s) poll object_index control read state s with
  | Some r => r
  | None => (Err (Mgmt (MalformedResponse "fuel")), s)
  end.

(** ** Confirming a load control *)

Definition trusted_echo (control : LoadControl) : option LoadState :=
  match control with
  | Unload => Some Unloaded
  | StartLoading | AdditionalLoadControls => Some Loading
  | LoadCompleted => Some Loaded
  | NoOperation => None
  end.

Definition echoed_load_state (control : LoadControl) (response : PropertyValueResponse)
    : option LoadState :=
  match trusted_echo control with
  | None => None
  | Some expected =>
      match pvr_data response with
      | [octet] =>
          if (1 <=? pvr_count response) && bool_decide (LoadState_from_octet octet = expected)
          then Some expected else None
      | _ => None
      end
  end.

Definition intermediate_answer (response : PropertyValueResponse) : option LoadState :=
  match pvr_data response with
  | [octet] =>
      if (1 <=? pvr_count response) && LoadState_is_intermediate (LoadState_from_octet octet)
      then Some (LoadState_from_octet octet) else None
  | _ => None
  end.

Definition acceptable (control : LoadControl) (expected state : LoadState) : bool :=
  match control with
  | StartLoading => bool_decide (state = Loading) || bool_decide (state = Loaded)
  | _ => bool_decide (state = expected)
  end.

(** The checks on the settled state. *)
Definition check_load_state (object_index : u8) (control : LoadControl) (state : LoadState)
    : Mgmt_op S LoadState :=
  if bool_decide (state = LoadState_Error) then fail (LoadError object_index) else
  match LoadControl_expected_state control with
  | Some expected =>
      if negb (acceptable control expected state)
      then fail (UnexpectedLoadState object_index control expected state)
      else mret state
  | None => mret state
  end.

Definition confirm_load_control (object_index : u8) (control : LoadControl)
    (resp : PropertyValueResponse) (poll : IntermediatePoll) : Mgmt_op S LoadState :=
  state ← match echoed_load_state control resp with
          | Some state => mret state
          | None =>
              match intermediate_answer resp with
              | Some state => mret state
              | None => read_load_state object_index
              end
          end;
  state ← settled poll object_index control (read_load_state object_index) state;
  check_load_state object_index control state.

Definition write_load_control_with_poll (object_index : u8) (control : LoadControl)
    (poll : IntermediatePoll) : Mgmt_op S LoadState :=
  resp ← property_write_request object_index PID_LOAD_STATE_CONTROL 1 1
           (LoadControl_encode_full control);
  confirm_load_control object_index control resp poll.

Definition write_load_control (object_index : u8) (control : LoadControl) : Mgmt_op S LoadState :=
  write_load_control_with_poll object_index control IntermediatePoll_STANDARD.

Definition write_load_control_unless_absent (object_index : u8) (control : LoadControl)
    : Mgmt_op S (option LoadState) :=
  resp ← property_write_request object_index PID_LOAD_STATE_CONTROL 1 1
           (LoadControl_encode_full control);
  if pvr_count resp =? 0 then mret None else
  state ← confirm_load_control object_index control resp IntermediatePoll_STANDARD;
  mret (Some state).

(** ** Segment allocation *)

Record SegmentAllocation : Type := MkSegmentAllocation { sa_address : u32; sa_size : u32 }.

Definition read_table_reference (object_index : u8) : Mgmt_op S u32 :=
  resp ← property_request object_index PID_TABLE_REFERENCE 1 1;
  if 0 <? pvr_count resp then
    match pvr_data resp with
    | [a; b; c; d] => mret (be_val [a; b; c; d])
    | [hi; lo] => mret (be_val [hi; lo])
    | _ => fail (Mgmt (MalformedResponse "table reference is not a readable address"))
    end
  else fail (Mgmt (MalformedResponse "table reference is not a readable address")).

Definition allocate_segment (object_index : u8) (size : u32) (mode fill : u8)
    : Mgmt_op S SegmentAllocation :=
  resp ← property_write_request object_index PID_LOAD_STATE_CONTROL 1 1
           (encode_rel_segment size mode fill);
  state ← match echoed_load_state AdditionalLoadControls resp with
          | Some state => mret state
          | None => read_load_state object_index
          end;
  if bool_decide (state = LoadState_Error) then fail (LoadError object_index) else
  if negb (bool_decide (state = Loading) || bool_decide (state = Loaded))
  then fail (UnexpectedLoadState object_index AdditionalLoadControls Loading state) else
  seg_addr ← read_table_reference object_index;
  mret (MkSegmentAllocation seg_addr size).

End Operations.

(** ** Lemmas *)

Section Lemmas.
  Context {S : Type} `{L4ManagementLaws S}.

Lemma mgmt_bind_ok {A B} (m : Mgmt_op S A) (k : A -> Mgmt_op S B) s b s' :
  (m ≫= k) s = (Ok b, s') -> exists a s1, m s = (Ok a, s1) /\ k a s1 = (Ok b, s').
Proof.
  unfold mbind, Mgmt_op_bind. destruct (m s) as [[a|e] s1]; [eauto|done].
Qed.

(** An operation during which time does not go back. *)
Definition monotone {A} (m : Mgmt_op S A) : Prop := forall s, now s <= now (snd (m s)).

Lemma monotone_ret {A} (a : A) : monotone (mret a).
Proof. intros s. unfold mret, Mgmt_op_ret. simpl. lia. Qed.

Lemma monotone_fail {A} e : monotone (fail (A := A) e).
Proof. intros s. unfold fail. simpl. lia. Qed.

Lemma monotone_bind {A B} (m : Mgmt_op S A) (k : A -> Mgmt_op S B) :
  monotone m -> (forall a, monotone (k a)) -> monotone (m ≫= k).
Proof.
  intros Hm Hk s. unfold mbind, Mgmt_op_bind. specialize (Hm s).
  destruct (m s) as [[a|e] s1]; simpl in Hm |- *; [|done]. specialize (Hk a s1). lia.
Qed.

Lemma monotone_read_load_state o : monotone (read_load_state o).
Proof.
  apply monotone_bind; [intros s; apply request_now|]. intros r.
  destruct (pvr_data r); [apply monotone_fail|].
  destruct (_ =? _); [apply monotone_fail|apply monotone_ret].
Qed.

(** The wait: with a positive period, the fuel of [settle_fuel] is enough. *)
Lemma settle_spec poll o c (read : Mgmt_op S LoadState) started fuel :
  0 < period poll -> monotone read -> forall st s,
  (max_wait poll - (now s - started) <= Z.of_nat fuel * period poll) ->
  exists r s', settle (Datatypes.S (Datatypes.S fuel)) started poll o c read st s = Some (r, s') /\
    (forall st', r = Ok st' -> LoadState_is_intermediate st' = false).
Proof.
  intros Hp Hr. induction fuel as [|fuel IH]; intros st s Hs; cbn [settle];
    unfold IntermediateWait_pause at 1; (destruct (LoadState_is_intermediate st) eqn:Ei; cbn [negb];
    [|exists (Ok st), s; split; [done|]; by intros st' [= <-]]).
  - destruct (Z.leb_spec (max_wait poll) (now s - started)) as [Hle|Hlt]; [|simpl in Hs; lia].
    eexists _, s. split; [reflexivity|]. done.
  - destruct (Z.leb_spec (max_wait poll) (now s - started)) as [Hle|Hlt].
    { eexists _, s. split; [reflexivity|]. done. }
    remember (Z.min (period poll) (max_wait poll - (now s - started))) as pause eqn:Ep.
    pose proof (sleep_now pause s) as Hsl. specialize (Hr (sleep pause s)).
    destruct (read (sleep pause s)) as [[st1|e] s1]; simpl in Hr.
    + apply IH. rewrite Nat2Z.inj_succ, Z.mul_succ_l in Hs.
      assert (0 <= Z.of_nat fuel * period poll) by nia. lia.
    + exists (Err e), s1. split; [done|]. done.
Qed.

Lemma settle_terminates poll o c (read : Mgmt_op S LoadState) st s :
  0 < period poll -> monotone read ->
  exists r s', settle (settle_fuel poll) (now s) poll o c read st s = Some (r, s') /\
    settled poll o c read st s = (r, s') /\
    (forall st', r = Ok st' -> LoadState_is_intermediate st' = false).
Proof.
  intros Hp Hr. destruct (settle_spec poll o c read (now s)
    (Datatypes.S (Z.to_nat (max_wait poll / period poll))) Hp Hr st s) as (r & s' & E & Hi).
  - rewrite Nat2Z.inj_succ. pose proof (Z.mul_succ_div_gt (max_wait poll) (period poll) Hp) as Hd.
    destruct (Z.le_gt_cases 0 (max_wait poll / period poll)).
    + rewrite Z2Nat.id by done. nia.
    + nia.
  - exists r, s'. split; [exact E|]. split; [|exact Hi]. unfold settled, settle_fuel. by rewrite E.
Qed.

Lemma check_load_state_ok o c st (s : S) st' s' : check_load_state o c st s = (Ok st', s') ->
  st' = st /\ s' = s /\ st <> LoadState_Error /\
  (c = LoadCompleted -> st = Loaded) /\ (c = StartLoading -> st = Loading \/ st = Loaded).
Proof.
  unfold check_load_state. destruct (bool_decide_reflect (st = LoadState_Error)) as [|Hne]; [done|].
  destruct (LoadControl_expected_state c) as [expected|] eqn:Ee.
  - destruct (acceptable c expected st) eqn:Ea; [|done]. intros [= <- <-].
    destruct c; try done; injection Ee as <-; unfold acceptable in Ea.
    + apply orb_true_iff in Ea as [Ea|Ea]; apply bool_decide_eq_true in Ea; naive_solver.
    + apply bool_decide_eq_true in Ea. naive_solver.
  - intros [= <- <-]. destruct c; done.
Qed.

(** The settled state [confirm_load_control] checks, whatever its source. *)
Lemma confirm_shape o c resp poll s st s' :
  confirm_load_control o c resp poll s = (Ok st, s') ->
  exists st0 s0 s1, settled poll o c (read_load_state o) st0 s0 = (Ok st, s1) /\
    check_load_state o c st s1 = (Ok st, s').
Proof.
  intros E. apply mgmt_bind_ok in E as (st0 & s0 & _ & E).
  apply mgmt_bind_ok in E as (st1 & s1 & Es & Ec).
  pose proof (check_load_state_ok _ _ _ _ _ _ Ec) as (-> & _). by exists st0, s0, s1.
Qed.

End Lemmas.

(** ** The properties *)

Section Properties.
  Context {S : Type} `{L4ManagementLaws S}.

(** C39: A load event is confirmed in bounded time, and only in the right state.
    Whatever the device answers, the wait through the intermediate states ends
    within one read per period of the longest wait; and when the write of a load
    control succeeds, the state is settled and not Error, it is Loaded after
    LoadCompleted, and Loading or Loaded after StartLoading. *)
Theorem load_control_verdict o c poll :
  0 < period poll ->
  (forall st s, exists r s',
     settle (settle_fuel poll) (now s) poll o c (read_load_state o) st s = Some (r, s')) /\
  (forall s st s', write_load_control_with_poll o c poll s = (Ok st, s') ->
     LoadState_is_intermediate st = false /\ st <> LoadState_Error /\
     (c = LoadCompleted -> st = Loaded) /\ (c = StartLoading -> st = Loading \/ st = Loaded)).
Proof.
  intros Hp. split.
  - intros st s. destruct (settle_terminates poll o c (read_load_state o) st s Hp
      (monotone_read_load_state o)) as (r & s' & E & _). by exists r, s'.
  - intros s st s' E. apply mgmt_bind_ok in E as (resp & s0 & _ & E).
    apply confirm_shape in E as (st0 & s1 & s2 & Es & Ec).
    destruct (settle_terminates poll o c (read_load_state o) st0 s1 Hp
      (monotone_read_load_state o)) as (r & s3 & _ & E & Hi).
    rewrite Es in E. injection E as <- <-.
    apply check_load_state_ok in Ec as (_ & _ & He & Hc & Hs).
    split; [by apply Hi|]. done.
Qed.

End Properties.

(** ** Witness: a device that reports LoadCompleting twice

    The state is the clock and the answers to come. *)
Definition scripted_answer (s : Z * list u8) : result WriteError PropertyValueResponse * (Z * list u8) :=
  match s.2 with
  | [] => (Ok (MkPropertyValueResponse 4 5 1 1 [1]), s)
  | a :: r => (Ok (MkPropertyValueResponse 4 5 1 1 [a]), (s.1, r))
  end.

#[export] Instance scripted_device : L4Management (Z * list u8) := {
  property_request _ _ _ _ := scripted_answer;
  property_write_request _ _ _ _ _ := scripted_answer;
  write_memory _ _ s := (Ok tt, s);
  read_memory_strict _ _ s := (Ok [], s);
  now := fst;
  sleep d s := (s.1 + d, s.2) }.

#[export] Instance scripted_device_laws : L4ManagementLaws (Z * list u8).
Proof.
  split; intros; simpl; try lia. destruct s as [t [|a r]]; simpl; lia.
Qed.

Lemma load_control_verdict_witness :
  write_load_control 4 LoadCompleted (0, [5; 5; 1]) = (Ok Loaded, (6000, [])) /\
  LoadState_is_intermediate Loaded = false.
Proof.
  split; [vm_compute; reflexivity|].
  destruct (load_control_verdict (S := Z * list u8) 4 LoadCompleted IntermediatePoll_STANDARD eq_refl)
    as [_ H].
  exact (proj1 (H (0, [5; 5; 1]) Loaded (6000, []) ltac:(vm_compute; reflexivity))).
Defined.
