(* ===== verification/Mcb.v ===== *)
(** * The memory control block ([bussard-mgmt/src/load.rs], [knx-sim/src/device/mcb.rs])

    The CRC both sides compute over a loaded segment, the entry a device reports,
    and the check of the client's image against it, with what it detects. *)

From S2P Require Import Prelude MgmtError Apci Load.

Local Open Scope string_scope.
Local Open Scope list_scope.
Local Open Scope Z_scope.

Definition PID_MCB_TABLE : u8 := 27.

(** ** The memory control block *)

Definition MCB_ENTRY_LEN : nat := 8.

(** One turn of the bit loop: the [i]th bit of the message with its 16 zeros. *)
Definition crc_bit (data : bytes) (i : nat) : Z :=
  if (i / 8 <? length data)%nat
  then Z.land (Z.shiftr (nth (i / 8) data 0) (Z.of_nat (7 - i mod 8))) 1
  else 0.

Definition crc_turn (data : bytes) (result : u32) (i : nat) : u32 :=
  let result := as_u32 (Z.shiftl result 1) in
  let result := Z.lor result (crc_bit data i) in
  if negb (Z.land result 65536 =? 0) then Z.lxor result 4129 else result.

Definition crc16_ccitt (data : bytes) : u16 :=
  Z.land (foldl (crc_turn data) 65535 (seq 0 (8 * (length data + 2)))) 65535.

Definition mcb_entry (segment_data : bytes) (access : u8) : bytes :=
  be_bytes 4 (as_u32 (zlen segment_data)) ++ [0; access] ++ be_bytes 2 (crc16_ccitt segment_data).

Record McbEntry : Type := MkMcbEntry {
  mcb_segment_size : u32;
  mcb_crc_control : u8;
  mcb_access : u8;
  mcb_crc16 : u16 }.

Definition McbEntry_decode (b : bytes) : option McbEntry :=
  if (length b <? MCB_ENTRY_LEN)%nat then None else
  Some (MkMcbEntry (be_val (slice 0 4 b)) (nth 4 b 0) (nth 5 b 0) (be_val (slice 6 8 b))).

(** [as_chunks::<8>().0]: the whole chunks. *)
Definition mcb_chunks (b : bytes) : list bytes :=
  map (fun i => slice (8 * i) (8 * i + 8) b) (seq 0 (length b / 8)).

(** The walk of the entries over consecutive slices of the image: the number of
    entries checked. *)
Fixpoint mcb_walk (object_index : u8) (image : bytes) (entries : list McbEntry) (offset : Z)
    (checked : nat) : result WriteError nat :=
  match entries with
  | [] => Ok checked
  | entry :: rest =>
      let e := offset + mcb_segment_size entry in
      if zlen image <? e then Ok checked else
      let want := crc16_ccitt (slice (Z.to_nat offset) (Z.to_nat e) image) in
      if negb (mcb_crc16 entry =? want)
      then Err (ImagePropMismatch object_index want (mcb_crc16 entry))
      else mcb_walk object_index image rest e (checked + 1)
  end.

(** The check of the entries against the image the client wrote. *)
Definition mcb_check (object_index : u8) (image : bytes) (first : McbEntry)
    (entries : list McbEntry) : result WriteError unit :=
  checked ← mcb_walk object_index image entries 0 0;
  if (checked =? 0)%nat then
    let want := crc16_ccitt image in
    if negb (mcb_crc16 first =? want)
    then Err (ImagePropMismatch object_index want (mcb_crc16 first)) else Ok tt
  else Ok tt.

Section Mcb.
  Context {S : Type} `{L4Management S}.

Fixpoint read_mcb_entries (object_index : u8) (elements : list u16) : Mgmt_op S (list McbEntry) :=
  match elements with
  | [] => mret []
  | element :: rest =>
      resp ← property_request object_index PID_MCB_TABLE element 1;
      if (pvr_count resp =? 0) || (length (pvr_data resp) <? MCB_ENTRY_LEN)%nat
      then fail (Mgmt (MalformedResponse "no readable PID_MCB_TABLE entry"))
      else
        entries ← read_mcb_entries object_index rest;
        mret (omap McbEntry_decode (mcb_chunks (pvr_data resp)) ++ entries)
  end.

Definition read_mcb_table (object_index : u8) (start : u16) (count : u8)
    (expected : option bytes) : Mgmt_op S (list McbEntry) :=
  let upto := Z.min (start + Z.max count 1) 65535 in
  entries ← read_mcb_entries object_index (seqZ start (upto - start));
  match entries with
  | [] => fail (Mgmt (MalformedResponse "PID_MCB_TABLE has no 8-octet entry"))
  | first :: _ =>
      match expected with
      | None => mret entries
      | Some image =>
          match mcb_check object_index image first entries with
          | Ok _ => mret entries
          | Err e => fail e
          end
      end
  end.

End Mcb.

(** ** The simulator's side ([mcb.rs]) *)

Definition sim_crc_turn (data : bytes) (acc : u32) (i : nat) : u32 :=
  let acc := as_u32 (Z.shiftl acc 1) in
  let bit := if (i / 8 <? length data)%nat
             then Z.land (Z.shiftr (nth (i / 8) data 0) (Z.of_nat (7 - i mod 8))) 1
             else 0 in
  let acc := Z.lor acc bit in
  if negb (Z.land acc 65536 =? 0) then Z.lxor acc 4129 else acc.

Definition crc16_aug_ccitt (data : bytes) : u16 :=
  Z.land (foldl (sim_crc_turn data) 65535 (seq 0 (8 * (length data + 2)))) 65535.

Definition sim_mcb_entry (segment_data : bytes) : bytes :=
  be_bytes 4 (as_u32 (zlen segment_data)) ++ [0; 255] ++ be_bytes 2 (crc16_aug_ccitt segment_data).

(** ** The CRC as a shift register over the message's bits *)

(** The bits of an octet, most significant first. *)
Definition octet_bits (b : u8) : list Z :=
  map (fun k => Z.land (Z.shiftr b (Z.of_nat (7 - k))) 1) (seq 0 8).

(** The message: its octets and the 16 zeros. *)
Definition message_bits (data : bytes) : list Z := flat_map octet_bits (data ++ [0; 0]).

(** One step of the 16-bit register. *)
Definition register_step (s : u16) (b : Z) : u16 :=
  let t := Z.lor (Z.shiftl s 1) b in
  if negb (Z.land t 65536 =? 0) then Z.land (Z.lxor t 4129) 65535 else Z.land t 65535.

Definition register_run (bits : list Z) (s : u16) : u16 := foldl register_step s bits.

(** ** Lemmas *)

Definition is_bit (b : Z) : Prop := b = 0 \/ b = 1.

Lemma low_of_turn acc b : 0 <= acc -> is_bit b ->
  Z.land (Z.lor (as_u32 (Z.shiftl acc 1)) b) (Z.ones 17)
  = Z.lor (Z.shiftl (Z.land acc 65535) 1) b.
Proof.
  intros Ha Hb. apply Z.bits_inj'. intros n Hn.
  rewrite Z.land_spec, !Z.lor_spec, Z.shiftl_spec, Z.land_spec by lia.
  assert (Hbn : 0 < n -> Z.testbit b n = false).
  { intros H. destruct Hb as [->| ->]; [apply Z.bits_0|].
    change 1 with (Z.ones 1). apply Z.ones_spec_high. lia. }
  destruct (decide (n < 17)) as [Hl|Hl].
  - rewrite Z.ones_spec_low, andb_true_r by lia. f_equal. unfold as_u32.
    change 4294967296 with (2 ^ 32). rewrite Z.mod_pow2_bits_low, Z.shiftl_spec by lia.
    destruct (decide (n = 0)) as [->|]; [by rewrite !Z.testbit_neg_r by lia|].
    change 65535 with (Z.ones 16). rewrite (Z.ones_spec_low 16) by lia. by rewrite andb_true_r.
  - rewrite Z.ones_spec_high, andb_false_r by lia. change 65535 with (Z.ones 16).
    rewrite Z.ones_spec_high, andb_false_r, Hbn by lia. done.
Qed.

Lemma land_lxor_l a b c : Z.land (Z.lxor a b) c = Z.lxor (Z.land a c) (Z.land b c).
Proof.
  apply Z.bits_inj'. intros n Hn. rewrite Z.land_spec, !Z.lxor_spec, !Z.land_spec.
  by destruct (Z.testbit a n), (Z.testbit b n), (Z.testbit c n).
Qed.

Lemma turn_is_register_step acc b : 0 <= acc -> is_bit b ->
  Z.land (let r := Z.lor (as_u32 (Z.shiftl acc 1)) b in
          if negb (Z.land r 65536 =? 0) then Z.lxor r 4129 else r) 65535
  = register_step (Z.land acc 65535) b.
Proof.
  intros Ha Hb. pose proof (low_of_turn acc b Ha Hb) as Hlow. unfold register_step.
  set (r := Z.lor (as_u32 _) b) in *. set (t := Z.lor (Z.shiftl _ 1) b) in *.
  assert (Hm : forall m, Z.land (Z.ones 17) m = m -> Z.land r m = Z.land t m).
  { intros m Hm. rewrite <- Hlow, <- Z.land_assoc, Hm. done. }
  cbv zeta. rewrite (Hm 65536) by done. destruct (negb _).
  - rewrite !land_lxor_l. by rewrite (Hm 65535).
  - by rewrite (Hm 65535).
Qed.

Lemma turn_nonneg acc b : 0 <= acc -> is_bit b ->
  0 <= (let r := Z.lor (as_u32 (Z.shiftl acc 1)) b in
        if negb (Z.land r 65536 =? 0) then Z.lxor r 4129 else r).
Proof.
  intros Ha Hb. cbv zeta.
  assert (0 <= Z.lor (as_u32 (Z.shiftl acc 1)) b).
  { apply Z.lor_nonneg. unfold as_u32. split; [apply Z.mod_pos_bound; lia|]. destruct Hb; lia. }
  destruct (negb _); [|done]. apply Z.lxor_nonneg. lia.
Qed.

Lemma octet_bits_bit b : Forall is_bit (octet_bits b).
Proof.
  apply List.Forall_forall. intros x Hx. apply in_map_iff in Hx as (k & <- & _).
  change 1 with (Z.ones 1). rewrite Z.land_ones by lia. unfold is_bit.
  pose proof (Z.mod_pos_bound (Z.shiftr b (Z.of_nat (7 - k))) (2 ^ 1)). lia.
Qed.

Lemma crc_bit_octet data j k : (k < 8)%nat ->
  crc_bit data (8 * j + k) = nth k (octet_bits (nth j data 0)) 0.
Proof.
  intros Hk. unfold crc_bit, octet_bits.
  replace ((8 * j + k) / 8)%nat with j by (rewrite Nat.mul_comm, Nat.div_add_l, Nat.div_small; lia).
  replace ((8 * j + k) mod 8)%nat with k
    by (rewrite Nat.add_comm, Nat.mul_comm, Nat.Div0.mod_add, Nat.mod_small; lia).
  replace (nth k (map _ (seq 0 8)) 0)
    with (Z.land (Z.shiftr (nth j data 0) (Z.of_nat (7 - k))) 1)
    by (do 8 (destruct k as [|k]; [done|]); lia).
  destruct (Nat.ltb_spec j (length data)); [done|]. rewrite nth_overflow by lia. by rewrite Z.shiftr_0_l.
Qed.

Lemma crc_octet data j : map (crc_bit data) (seq (8 * j) 8) = octet_bits (nth j data 0).
Proof.
  transitivity (map (fun k => crc_bit data (8 * j + k)) (seq 0 8)).
  - remember (8 * j)%nat as m. simpl. repeat (apply f_equal2; [f_equal; lia|]). done.
  - transitivity (map (fun k => nth k (octet_bits (nth j data 0)) 0) (seq 0 8)); [|done].
    apply map_ext_in. intros k Hk. apply in_seq in Hk. apply crc_bit_octet. lia.
Qed.

Lemma map_crc_bit data n :
  map (crc_bit data) (seq 0 (8 * n)) = flat_map (fun j => octet_bits (nth j data 0)) (seq 0 n).
Proof.
  induction n as [|n IH]; [done|]. rewrite seq_S, flat_map_app.
  replace (8 * Datatypes.S n)%nat with (8 * n + 8)%nat by lia.
  rewrite seq_app, map_app, IH. f_equal. cbn [flat_map]. rewrite app_nil_r. apply crc_octet.
Qed.

Lemma crc_message_bits data :
  map (crc_bit data) (seq 0 (8 * (length data + 2))) = message_bits data.
Proof.
  rewrite map_crc_bit. unfold message_bits.
  replace (data ++ [0; 0]) with (map (fun j => nth j data 0) (seq 0 (length data + 2))).
  - rewrite !flat_map_concat_map, map_map. done.
  - rewrite seq_app, map_app. f_equal.
    + apply nth_ext with (d := 0) (d' := 0); [by rewrite length_map, length_seq|].
      intros n Hn. rewrite length_map, length_seq in Hn.
      rewrite (nth_indep _ 0 (nth 0 data 0)) by (rewrite length_map, length_seq; lia).
      rewrite (map_nth (fun j => nth j data 0)), seq_nth by lia. done.
    + simpl. rewrite !nth_overflow by lia. done.
Qed.

(** Both implementations are the register run over the message. *)
Lemma crc_is_register_run data : crc16_ccitt data = register_run (message_bits data) 65535.
Proof.
  unfold crc16_ccitt. rewrite <- crc_message_bits. unfold register_run.
  assert (Hfold : forall l acc, 0 <= acc ->
    Z.land (foldl (crc_turn data) acc l) 65535
    = foldl register_step (Z.land acc 65535) (map (crc_bit data) l)).
  { induction l as [|i l IH]; intros acc Ha; [done|]. cbn [foldl map].
    assert (Hb : is_bit (crc_bit data i)).
    { unfold crc_bit. destruct (_ <? _)%nat; [|by left]. change 1 with (Z.ones 1).
      rewrite Z.land_ones by lia. unfold is_bit.
      pose proof (Z.mod_pos_bound (Z.shiftr (nth (i / 8) data 0) (Z.of_nat (7 - i mod 8))) (2 ^ 1)). lia. }
    rewrite IH by (by apply turn_nonneg). f_equal. by apply turn_is_register_step. }
  by rewrite Hfold.
Qed.

Lemma crc_implementations_agree data : crc16_aug_ccitt data = crc16_ccitt data.
Proof. done. Qed.

(** ** Error detection *)

(** The register is linear: what two runs differ by is a run of its own. *)
Lemma register_step_shift : forall s, is_u16 s -> forall b, is_bit b ->
  register_step s b = Z.lxor (Z.lxor (Z.shiftl s 1) b) (if Z.testbit s 15 then 69665 else 0).
Proof.
  assert (H0 : forall s, is_u16 s ->
    register_step s 0 = Z.lxor (Z.lxor (Z.shiftl s 1) 0) (if Z.testbit s 15 then 69665 else 0) /\
    register_step s 1 = Z.lxor (Z.lxor (Z.shiftl s 1) 1) (if Z.testbit s 15 then 69665 else 0)).
  { apply (u16_decide (fun s =>
      register_step s 0 = Z.lxor (Z.lxor (Z.shiftl s 1) 0) (if Z.testbit s 15 then 69665 else 0) /\
      register_step s 1 = Z.lxor (Z.lxor (Z.shiftl s 1) 1) (if Z.testbit s 15 then 69665 else 0))).
    vm_compute. reflexivity. }
  intros s Hs b [->| ->]; by apply H0.
Qed.

Lemma register_step_range s b : is_u16 s -> is_bit b -> is_u16 (register_step s b).
Proof.
  intros Hs Hb.
  assert (H0 : forall s, is_u16 s -> is_u16 (register_step s 0) /\ is_u16 (register_step s 1)).
  { apply (u16_decide (fun s => is_u16 (register_step s 0) /\ is_u16 (register_step s 1))).
    vm_compute. reflexivity. }
  destruct Hb as [->| ->]; by apply H0.
Qed.

Lemma register_step_nonzero s : is_u16 s -> s <> 0 -> register_step s 0 <> 0.
Proof.
  apply (u16_decide (fun s => s <> 0 -> register_step s 0 <> 0)). vm_compute. reflexivity.
Qed.

Lemma lxor_u16 a b : is_u16 a -> is_u16 b -> is_u16 (Z.lxor a b).
Proof.
  intros Ha Hb. unfold is_u16 in *.
  assert (Hpow : forall x, 0 <= x < 65536 <-> Z.land x (Z.ones 16) = x).
  { intros x. rewrite Z.land_ones by lia. change (2 ^ 16) with 65536. split; [apply Z.mod_small|zdiv]. }
  rewrite Hpow in *. rewrite land_lxor_l. by rewrite Ha, Hb.
Qed.

Lemma lxor_bit a b : is_bit a -> is_bit b -> is_bit (Z.lxor a b).
Proof. intros [->| ->] [->| ->]; unfold is_bit; auto. Qed.

Lemma register_step_linear s1 s2 b1 b2 : is_u16 s1 -> is_u16 s2 -> is_bit b1 -> is_bit b2 ->
  Z.lxor (register_step s1 b1) (register_step s2 b2)
  = register_step (Z.lxor s1 s2) (Z.lxor b1 b2).
Proof.
  intros H1 H2 Hb1 Hb2. rewrite !register_step_shift by auto using lxor_u16, lxor_bit.
  rewrite Z.shiftl_lxor, Z.lxor_spec.
  assert (Hc : (if xorb (Z.testbit s1 15) (Z.testbit s2 15) then 69665 else 0)
    = Z.lxor (if Z.testbit s1 15 then 69665 else 0) (if Z.testbit s2 15 then 69665 else 0))
    by (by destruct (Z.testbit s1 15), (Z.testbit s2 15)).
  rewrite Hc. apply Z.bits_inj'. intros n Hn. rewrite !Z.lxor_spec.
  repeat match goal with |- context [Z.testbit ?x ?m] => destruct (Z.testbit x m) end; done.
Qed.

Lemma register_run_range l : forall s, is_u16 s -> Forall is_bit l -> is_u16 (register_run l s).
Proof.
  unfold register_run. induction l as [|b l IH]; intros s Hs Hl; [done|]. cbn [foldl].
  apply Forall_cons in Hl as [Hb Hl]. apply IH; [by apply register_step_range|done].
Qed.

Lemma register_run_linear l1 : forall l2 s1 s2, length l1 = length l2 ->
  is_u16 s1 -> is_u16 s2 -> Forall is_bit l1 -> Forall is_bit l2 ->
  Z.lxor (register_run l1 s1) (register_run l2 s2)
  = register_run (zip_with Z.lxor l1 l2) (Z.lxor s1 s2).
Proof.
  unfold register_run. induction l1 as [|a l1 IH]; intros [|b l2] s1 s2 Hlen H1 H2 Hl1 Hl2; try done.
  apply Forall_cons in Hl1 as [Ha Hl1]. apply Forall_cons in Hl2 as [Hb Hl2]. cbn [foldl zip_with].
  rewrite IH by (try apply register_step_range; try done; simpl in Hlen; lia).
  by rewrite register_step_linear.
Qed.

(** A difference survives any common rest of the message. *)
Lemma register_run_nonzero (l : list Z) : forall s, is_u16 s -> s <> 0 ->
  register_run (map (fun _ => 0) l) s <> 0.
Proof.
  unfold register_run. induction l as [|b l IH]; intros s Hs Hne; [done|]. cbn [map foldl].
  apply IH; [apply register_step_range; [done|by left]|by apply register_step_nonzero].
Qed.

Lemma lxor_self_bits (l : list Z) : zip_with Z.lxor l l = map (fun _ => 0) l.
Proof. induction l as [|b l IH]; [done|]. cbn [zip_with map]. by rewrite Z.lxor_nilpotent, IH. Qed.

Lemma common_rest l s1 s2 : Forall is_bit l -> is_u16 s1 -> is_u16 s2 -> s1 <> s2 ->
  register_run l s1 <> register_run l s2.
Proof.
  intros Hl H1 H2 Hne E. apply (register_run_nonzero l (Z.lxor s1 s2)).
  - by apply lxor_u16.
  - intros Hz. by apply Z.lxor_eq in Hz.
  - rewrite <- lxor_self_bits, <- register_run_linear by done. rewrite E. apply Z.lxor_nilpotent.
Qed.

(** Up to two octets shifted into the register by a difference: the difference
    itself. *)
Lemma shift_in_one a : is_u8 a -> register_run (octet_bits a) 0 = a.
Proof. apply (u8_decide (fun a => register_run (octet_bits a) 0 = a)). vm_compute. reflexivity. Qed.

Lemma shift_in_two a b : is_u8 a -> is_u8 b ->
  register_run (octet_bits a ++ octet_bits b) 0 = a * 256 + b.
Proof.
  apply (u8_decide2 (fun a b => register_run (octet_bits a ++ octet_bits b) 0 = a * 256 + b)
    (H := fun a b => decide (register_run (octet_bits a ++ octet_bits b) 0 = a * 256 + b))).
  vm_compute. reflexivity.
Qed.

Lemma octet_bits_lxor a b : is_u8 a -> is_u8 b ->
  zip_with Z.lxor (octet_bits a) (octet_bits b) = octet_bits (Z.lxor a b).
Proof.
  apply (u8_decide2 (fun a b => zip_with Z.lxor (octet_bits a) (octet_bits b) = octet_bits (Z.lxor a b))
    (H := fun a b => decide (zip_with Z.lxor (octet_bits a) (octet_bits b) = octet_bits (Z.lxor a b)))).
  vm_compute. reflexivity.
Qed.

Lemma flat_bits_bit l : Forall is_bit (flat_map octet_bits l).
Proof.
  induction l as [|a l IH]; [constructor|]. cbn [flat_map]. apply Forall_app. split; [|done].
  apply octet_bits_bit.
Qed.

Lemma length_octet_bits a : length (octet_bits a) = 8%nat.
Proof. done. Qed.

Lemma flat_bits_length x : forall y, length x = length y ->
  length (flat_map octet_bits x) = length (flat_map octet_bits y).
Proof.
  induction x as [|a x IH]; intros [|b y] Hlen; try done.
  cbn [flat_map]. rewrite !length_app, !length_octet_bits. simpl in Hlen. by rewrite (IH y) by lia.
Qed.

(** Two unequal windows of up to two octets leave the register in unequal states. *)
Lemma window_differs x y s : bytes_ok x -> bytes_ok y -> length x = length y ->
  (length x <= 2)%nat -> x <> y -> is_u16 s ->
  register_run (flat_map octet_bits x) s <> register_run (flat_map octet_bits y) s.
Proof.
  intros Hx Hy Hlen H2 Hne Hs E.
  assert (Hz : register_run (zip_with Z.lxor (flat_map octet_bits x) (flat_map octet_bits y)) 0 = 0).
  { transitivity (Z.lxor (register_run (flat_map octet_bits x) s) (register_run (flat_map octet_bits y) s)).
    - rewrite register_run_linear, Z.lxor_nilpotent; auto using flat_bits_bit, flat_bits_length.
    - rewrite E. apply Z.lxor_nilpotent. }
  destruct x as [|a [|b [|]]], y as [|c [|d [|]]]; try done; [| |simpl in H2; lia].
  - apply Forall_cons in Hx as [Ha _]. apply Forall_cons in Hy as [Hc _].
    cbn [flat_map] in Hz. rewrite !app_nil_r, octet_bits_lxor, shift_in_one in Hz by auto using lxor_u8.
    apply Z.lxor_eq in Hz. congruence.
  - apply Forall_cons in Hx as [Ha [Hb _]%Forall_cons]. apply Forall_cons in Hy as [Hc [Hd _]%Forall_cons].
    cbn [flat_map] in Hz. rewrite !app_nil_r, zip_with_app, !octet_bits_lxor in Hz by done.
    rewrite shift_in_two in Hz by auto using lxor_u8.
    pose proof (lxor_u8 a c Ha Hc). pose proof (lxor_u8 b d Hb Hd). unfold is_u8 in *.
    assert (Z.lxor a c = 0) as ->%Z.lxor_eq by lia. assert (Z.lxor b d = 0) as ->%Z.lxor_eq by lia. done.
Qed.

(** The CRC tells apart images that differ within two adjacent octets. *)
Lemma crc_detects_burst p x y q : bytes_ok x -> bytes_ok y -> length x = length y ->
  (length x <= 2)%nat -> x <> y -> crc16_ccitt (p ++ x ++ q) <> crc16_ccitt (p ++ y ++ q).
Proof.
  intros Hx Hy Hlen H2 Hne. rewrite !crc_is_register_run. unfold message_bits, register_run.
  rewrite <- !app_assoc, !(flat_map_app octet_bits p), (flat_map_app octet_bits x),
    (flat_map_app octet_bits y), !foldl_app.
  set (s := foldl register_step 65535 (flat_map octet_bits p)).
  assert (Hs : is_u16 s) by (apply register_run_range; [unfold is_u16; lia|apply flat_bits_bit]).
  apply common_rest with (l := flat_map octet_bits (q ++ [0; 0])) (s1 := register_run (flat_map octet_bits x) s)
    (s2 := register_run (flat_map octet_bits y) s);
    auto using flat_bits_bit, register_run_range, window_differs.
Qed.

(** ** The client's check against the device's entry *)

Lemma sim_mcb_entry_decode stored : zlen stored < 4294967296 ->
  omap McbEntry_decode (mcb_chunks (sim_mcb_entry stored))
  = [MkMcbEntry (zlen stored) 0 255 (crc16_ccitt stored)].
Proof.
  intros Hl. unfold sim_mcb_entry. rewrite crc_implementations_agree.
  assert (Hs : as_u32 (zlen stored) = zlen stored) by (apply Z.mod_small; unfold zlen in *; lia).
  rewrite Hs. unfold mcb_chunks.
  assert (Hlen : length (be_bytes 4 (zlen stored) ++ [0; 255] ++ be_bytes 2 (crc16_ccitt stored)) = 8%nat)
    by (rewrite !length_app, !length_be_bytes; done).
  rewrite Hlen. change (8 / 8)%nat with 1%nat. cbn [seq map].
  change (8 * 0)%nat with 0%nat. change (0 + 8)%nat with 8%nat. unfold slice at 1. rewrite drop_0.
  change (8 - 0)%nat with 8%nat. rewrite take_ge by lia. cbn [omap list_omap].
  unfold McbEntry_decode. rewrite Hlen. change (8 <? MCB_ENTRY_LEN)%nat with false. cbv iota.
  set (c := crc16_ccitt stored).
  assert (Hc : be_val (be_bytes 2 c) = c).
  { rewrite be_val_be_bytes. apply Z.mod_small. unfold c, crc16_ccitt. change 65535 with (Z.ones 16).
    rewrite Z.land_ones by lia. apply Z.mod_pos_bound. lia. }
  assert (Hz : be_val (be_bytes 4 (zlen stored)) = zlen stored).
  { rewrite be_val_be_bytes. apply Z.mod_small. unfold zlen in *. lia. }
  f_equal. f_equal; [exact Hz|exact Hc].
Qed.

Lemma mcb_check_single object_index image size control access crc :
  size = zlen image ->
  mcb_check object_index image (MkMcbEntry size control access crc) [MkMcbEntry size control access crc]
  = if crc =? crc16_ccitt image then Ok tt
    else Err (ImagePropMismatch object_index (crc16_ccitt image) crc).
Proof.
  intros ->. unfold mcb_check. cbn [mcb_walk mcb_segment_size mcb_crc16].
  rewrite Z.add_0_l, Z.ltb_irrefl.
  replace (slice (Z.to_nat 0) (Z.to_nat (zlen image)) image) with image.
  - by destruct (crc =? crc16_ccitt image).
  - unfold slice, zlen. rewrite Nat2Z.id. change (Z.to_nat 0) with 0%nat. rewrite drop_0, Nat.sub_0_r.
    by rewrite firstn_all.
Qed.

Section Verification.
  Context {S : Type} `{L4Management S}.

Lemma length_sim_mcb_entry stored : length (sim_mcb_entry stored) = 8%nat.
Proof. unfold sim_mcb_entry. by rewrite !length_app, !length_be_bytes. Qed.

(** One entry read from a device that computes it over [stored]. *)
Lemma read_mcb_single object_index image stored resp s s' :
  zlen image < 4294967296 -> zlen stored = zlen image ->
  property_request object_index PID_MCB_TABLE 1 1 s = (Ok resp, s') ->
  0 < pvr_count resp -> pvr_data resp = sim_mcb_entry stored ->
  read_mcb_table object_index 1 1 (Some image) s =
    (if crc16_ccitt stored =? crc16_ccitt image
     then Ok [MkMcbEntry (zlen image) 0 255 (crc16_ccitt stored)]
     else Err (ImagePropMismatch object_index (crc16_ccitt image) (crc16_ccitt stored)), s').
Proof.
  intros Hl Hs Hreq Hc Hd. unfold read_mcb_table.
  change (seqZ 1 (Z.min (1 + Z.max 1 1) 65535 - 1)) with [1].
  cbn [read_mcb_entries]. unfold mbind, Mgmt_op_bind. rewrite Hreq.
  rewrite (proj2 (Z.eqb_neq _ _)) by lia. rewrite Hd, length_sim_mcb_entry.
  change (8 <? MCB_ENTRY_LEN)%nat with false. cbn [orb].
  unfold mret, Mgmt_op_ret at 1. rewrite sim_mcb_entry_decode by lia. rewrite Hs. cbn [app].
  unfold Mgmt_op_ret. cbv beta iota. rewrite mcb_check_single by done. by destruct (_ =? _).
Qed.

(** C32: The image check of a download tells a damaged segment from an intact one.
    Against a device that reports the entry the simulator computes over what it
    stored, [read_mcb_table] succeeds when the stored octets are the image, and
    fails with [ImagePropMismatch] whenever they differ from it within any two
    adjacent octets, whatever the length. *)
Theorem image_verification object_index image stored resp s s' :
  zlen image < 4294967296 ->
  property_request object_index PID_MCB_TABLE 1 1 s = (Ok resp, s') ->
  0 < pvr_count resp -> pvr_data resp = sim_mcb_entry stored ->
  (stored = image -> exists entries,
     read_mcb_table object_index 1 1 (Some image) s = (Ok entries, s')) /\
  (forall p x y q, bytes_ok x -> bytes_ok y -> length x = length y -> (length x <= 2)%nat -> x <> y ->
     image = p ++ x ++ q -> stored = p ++ y ++ q ->
     read_mcb_table object_index 1 1 (Some image) s
     = (Err (ImagePropMismatch object_index (crc16_ccitt image) (crc16_ccitt stored)), s')).
Proof.
  intros Hl Hreq Hc Hd. split.
  - intros ->. rewrite (read_mcb_single object_index image image resp s s'), Z.eqb_refl by done. eauto.
  - intros p x y q Hx Hy Hlen H2 Hne -> ->.
    rewrite (read_mcb_single _ _ (p ++ y ++ q) resp s s'); try done.
    + rewrite (proj2 (Z.eqb_neq _ _)); [done|].
      apply crc_detects_burst; [done|done|lia|lia|congruence].
    + unfold zlen. rewrite !length_app. lia.
Qed.

End Verification.

(** What the check does not tell: a device that reports an entry of size zero with
    the CRC of nothing passes for any image. *)
Lemma empty_entry_passes object_index image :
  mcb_check object_index image (MkMcbEntry 0 0 255 7439) [MkMcbEntry 0 0 255 7439] = Ok tt.
Proof.
  unfold mcb_check. cbn [mcb_walk mcb_segment_size mcb_crc16]. change (0 + 0) with 0.
  rewrite (proj2 (Z.ltb_ge _ _)) by (unfold zlen; lia).
  replace (slice (Z.to_nat 0) (Z.to_nat 0) image) with (@nil Z) by done. done.
Qed.

(** ** Witness: one octet of a four-octet segment damaged *)

#[export] Instance mcb_device : L4Management bytes := {
  property_request _ _ _ _ s := (Ok (MkPropertyValueResponse 4 27 1 1 (sim_mcb_entry s)), s);
  property_write_request _ _ _ _ _ s := (Err (Mgmt NoResponse), s);
  write_memory _ _ s := (Ok tt, s);
  read_memory_strict _ _ s := (Ok [], s);
  now _ := 0;
  sleep _ s := s }.

Lemma image_verification_witness :
  fst (read_mcb_table (S := bytes) 4 1 1 (Some [1; 2; 3; 4]) [1; 2; 9; 4])
  = Err (ImagePropMismatch 4 (crc16_ccitt [1; 2; 3; 4]) (crc16_ccitt [1; 2; 9; 4])).
Proof.
  destruct (image_verification (S := bytes) 4 [1; 2; 3; 4] [1; 2; 9; 4]
    (MkPropertyValueResponse 4 27 1 1 (sim_mcb_entry [1; 2; 9; 4])) [1; 2; 9; 4] [1; 2; 9; 4])
    as [_ Hbad]; [reflexivity|reflexivity|reflexivity|reflexivity|].
  rewrite (Hbad [1; 2] [3] [9] [4]); try reflexivity; try discriminate;
    try (apply le_S, le_n); repeat constructor; discriminate.
Defined.
