(* ===== verification/Sys7.v ===== *)
(** * System 7 load controls of the client ([bussard-mgmt/src/sys7.rs])

    The absolute-segment records, their memory-mapped form, and the drive of a
    load-state machine over both realisations. *)

From S2P Require Import Prelude MgmtError Apci Load.

Local Open Scope string_scope.
Local Open Scope list_scope.
Local Open Scope Z_scope.

(** ** Records *)

Definition LOAD_EVENT_SIZE : nat := 10.
Definition S7_SUB_ALLOC_DATA : u8 := 0.
Definition S7_SUB_ALLOC_STACK : u8 := 1.
Definition S7_SUB_ALLOC_TASK : u8 := 2.
Definition S7_SUB_TASK_CTRL1 : u8 := 4.
Definition S7_SUB_TASK_PTR : u8 := 3.
Definition S7_SUB_TASK_CTRL2 : u8 := 5.

Definition encode_alloc_segment (subtype : u8) (start length : u16) (access mem_type seg_flags : u8)
    : bytes :=
  [LoadControl_octet AdditionalLoadControls; subtype] ++ be_bytes 2 start ++ be_bytes 2 length
  ++ [access; mem_type; seg_flags; 0].

Definition alloc_attr_octets (mem_type : u8) : u8 * u8 :=
  (242, if mem_type =? 3 then 128 else 0).

Record Sys7TaskIdentity : Type := MkTaskIdentity {
  pei_type : u8;
  manufacturer : u16;
  application_number : u16;
  application_version : u8 }.

Definition Sys7TaskIdentity_octets (t : Sys7TaskIdentity) : bytes :=
  [pei_type t] ++ be_bytes 2 (manufacturer t) ++ be_bytes 2 (application_number t)
  ++ [application_version t].

Definition encode_task_segment (address : u16) (identity : Sys7TaskIdentity) : bytes :=
  [LoadControl_octet AdditionalLoadControls; S7_SUB_ALLOC_TASK] ++ be_bytes 2 address
  ++ Sys7TaskIdentity_octets identity.

Definition encode_task_ctrl1 (address : u16) (count : u8) : bytes :=
  [LoadControl_octet AdditionalLoadControls; S7_SUB_TASK_CTRL1] ++ be_bytes 2 address
  ++ [count; 0; 0; 0; 0; 0].

Definition encode_task_ptr (init save pei_handler : u16) : bytes :=
  [LoadControl_octet AdditionalLoadControls; S7_SUB_TASK_PTR] ++ be_bytes 2 init
  ++ be_bytes 2 save ++ be_bytes 2 pei_handler ++ [0; 0].

Definition encode_task_ctrl2 (callback com_objects segment_1 segment_2 : u16) : bytes :=
  [LoadControl_octet AdditionalLoadControls; S7_SUB_TASK_CTRL2] ++ be_bytes 2 callback
  ++ be_bytes 2 com_objects ++ be_bytes 2 segment_1 ++ be_bytes 2 segment_2.

Definition MEMORY_LSM_RECORD_SIZE : nat := 11.

(** [wrap_memory_lsm_record] on the ten octets of an event. *)
Definition wrap_memory_lsm_record (lsm_index : u8) (event : bytes) : bytes :=
  [Z.lor (as_u8 (Z.shiftl (Z.land lsm_index 15) 4)) (Z.land (nth 0 event 0) 15);
   nth 1 event 0; 0] ++ slice 2 10 event.

Definition simple_event (control : LoadControl) : bytes :=
  LoadControl_octet control :: replicate 9 0.

Inductive LsmAccess : Type :=
| MemoryMapped (control_addr status_addr : u16)
| Property.

Section Sys7.
  Context {S : Type} `{L4Management S}.

Definition LsmAccess_send_event (a : LsmAccess) (lsm : u8) (event : bytes)
    : Mgmt_op S (option LoadState) :=
  match a with
  | MemoryMapped control_addr _ =>
      _ ← write_memory control_addr (wrap_memory_lsm_record lsm event);
      mret None
  | Property =>
      resp ← property_write_request lsm PID_LOAD_STATE_CONTROL 1 1 event;
      if pvr_count resp =? 0 then fail (ObjectAbsent lsm) else
      mret (match pvr_data resp with
            | [state] => Some (LoadState_from_octet state)
            | _ => None
            end)
  end.

Definition LsmAccess_read_state (a : LsmAccess) (lsm : u8) : Mgmt_op S LoadState :=
  match a with
  | MemoryMapped _ status_addr =>
      let addr := Z.min (status_addr + saturating_sub lsm 1) 65535 in
      data ← read_memory_strict addr 1;
      match data with
      | octet :: _ => mret (LoadState_from_octet octet)
      | [] => fail (Mgmt (MalformedResponse "LSM status read returned no octet"))
      end
  | Property =>
      resp ← property_request lsm PID_LOAD_STATE_CONTROL 1 1;
      if pvr_count resp =? 0 then fail (ObjectAbsent lsm) else
      match pvr_data resp with
      | octet :: _ => mret (LoadState_from_octet octet)
      | [] => fail (Mgmt (MalformedResponse "PID_LOAD_STATE_CONTROL returned no octet"))
      end
  end.

Definition LsmAccess_state_after (a : LsmAccess) (lsm : u8) (control : LoadControl)
    (reported : option LoadState) (poll : IntermediatePoll) : Mgmt_op S LoadState :=
  state ← match reported with
          | Some state => mret state
          | None => LsmAccess_read_state a lsm
          end;
  settled poll lsm control (LsmAccess_read_state a lsm) state.

Definition LsmAccess_read_settled_state (a : LsmAccess) (lsm : u8) (poll : IntermediatePoll)
    : Mgmt_op S LoadState :=
  LsmAccess_state_after a lsm NoOperation None poll.

Definition LsmAccess_drive_with_poll (a : LsmAccess) (lsm : u8) (control : LoadControl)
    (poll : IntermediatePoll) : Mgmt_op S LoadState :=
  reported ← LsmAccess_send_event a lsm (simple_event control);
  let reported :=
    if bool_decide (control = LoadCompleted)
    then match reported with
         | Some state =>
             if bool_decide (state = Loaded) || LoadState_is_intermediate state
             then Some state else None
         | None => None
         end
    else reported in
  state ← LsmAccess_state_after a lsm control reported poll;
  if bool_decide (state = LoadState_Error) then fail (LoadError lsm) else
  match control with
  | StartLoading =>
      if negb (bool_decide (state = Loading) || bool_decide (state = Loaded))
      then fail (UnexpectedLoadState lsm control Loading state) else mret state
  | LoadCompleted =>
      if negb (bool_decide (state = Loaded))
      then fail (UnexpectedLoadState lsm control Loaded state) else mret state
  | _ => mret state
  end.

Definition LsmAccess_drive (a : LsmAccess) (lsm : u8) (control : LoadControl) : Mgmt_op S LoadState :=
  LsmAccess_drive_with_poll a lsm control IntermediatePoll_STANDARD.

Definition LsmAccess_send_control (a : LsmAccess) (lsm : u8) (event : bytes) : Mgmt_op S unit :=
  reported ← LsmAccess_send_event a lsm event;
  state ← LsmAccess_state_after a lsm AdditionalLoadControls reported IntermediatePoll_STANDARD;
  match state with
  | LoadState_Error => fail (LoadError lsm)
  | Loading | Loaded => mret tt
  | other => fail (UnexpectedLoadState lsm AdditionalLoadControls Loading other)
  end.

(** ** Verify mode *)

Definition PID_DEVICE_CONTROL : u8 := 14.
Definition DEVICE_CONTROL_VERIFY_MODE : u8 := 4.

Inductive VerifyModeOutcome : Type :=
| Enabled (previous written : u8)
| AlreadyOn (previous : u8)
| Unsupported
| Refused (previous : u8).

Definition enable_verify_mode : Mgmt_op S VerifyModeOutcome :=
  read ← property_request DEVICE_OBJECT_INDEX PID_DEVICE_CONTROL 1 1;
  match pvr_data read with
  | previous :: _ =>
      if pvr_count read =? 0 then mret Unsupported else
      if negb (Z.land previous DEVICE_CONTROL_VERIFY_MODE =? 0) then mret (AlreadyOn previous) else
      let written := Z.lor previous DEVICE_CONTROL_VERIFY_MODE in
      resp ← property_write_request DEVICE_OBJECT_INDEX PID_DEVICE_CONTROL 1 1 [written];
      let took := match pvr_data resp with
                  | v :: _ => negb (Z.land v DEVICE_CONTROL_VERIFY_MODE =? 0)
                  | [] => true
                  end in
      if (pvr_count resp =? 0) || negb took then mret (Refused previous)
      else mret (Enabled previous written)
  | [] => mret Unsupported
  end.

End Sys7.

