(* ===== verification/SimLsm.v ===== *)
(** * Load-state machines of the simulator ([knx-sim/src/device/lsm.rs], [sys7_lsm.rs])

    The load events as a device decodes them, the System B and System 7 machines,
    and their agreement with what the client sends. *)

From S2P Require Import Prelude Apci Load Sys7.

Local Open Scope string_scope.
Local Open Scope list_scope.
Local Open Scope Z_scope.

(** ** System B *)

Inductive SimLoadState : Type :=
| SimUnloaded
| SimLoaded
| SimLoading
| SimError.

#[export] Instance SimLoadState_eq_dec : EqDecision SimLoadState.
Proof. solve_decision. Defined.

Definition SimLoadState_to_byte (s : SimLoadState) : u8 :=
  match s with
  | SimUnloaded => 0
  | SimLoaded => 1
  | SimLoading => 2
  | SimError => 3
  end.

Inductive LoadEvent : Type :=
| EvStartLoading
| EvLoadCompleted
| EvAllocRelSegment (size : u32) (fill : option u8)
| EvUnload.

Inductive LoadEventError : Type :=
| LoadEvent_Empty
| LoadEvent_UnknownEvent (v : u8)
| LoadEvent_UnsupportedSubCommand (v : u8)
| LoadEvent_MissingSize.

Definition LoadEvent_decode (data : bytes) : result LoadEventError LoadEvent :=
  match data with
  | [] => Err LoadEvent_Empty
  | 1 :: _ => Ok EvStartLoading
  | 2 :: _ => Ok EvLoadCompleted
  | 3 :: rest =>
      match rest with
      | [] => Err LoadEvent_MissingSize
      | sub :: _ =>
          if negb (sub =? 11) then Err (LoadEvent_UnsupportedSubCommand sub) else
          if (length data <? 6)%nat then Err LoadEvent_MissingSize else
          let size := be_val (slice 2 6 data) in
          let fill := match data !! 6%nat, data !! 7%nat with
                      | Some mode, fill =>
                          if negb (Z.land mode 1 =? 0) then Some (default 0 fill) else None
                      | _, _ => None
                      end in
          Ok (EvAllocRelSegment size fill)
      end
  | 4 :: _ => Ok EvUnload
  | other :: _ => Err (LoadEvent_UnknownEvent other)
  end.

Record LoadStateMachine : Type := MkLsm {
  lsm_state : SimLoadState;
  lsm_allocated_size : option u32 }.

Definition LoadStateMachine_new (initial : SimLoadState) : LoadStateMachine := MkLsm initial None.

Record TransitionError : Type := MkTransitionError {
  te_from : SimLoadState;
  te_event : LoadEvent }.

(** [apply]: the result and the machine after, which also changes on an error. *)
Definition LoadStateMachine_apply (m : LoadStateMachine) (event : LoadEvent)
    : result TransitionError SimLoadState * LoadStateMachine :=
  let ok m := (Ok (lsm_state m), m) in
  match lsm_state m, event with
  | _, EvUnload => ok (MkLsm SimUnloaded None)
  | (SimUnloaded | SimLoaded), EvStartLoading => ok (MkLsm SimLoading None)
  | SimLoading, EvStartLoading => ok m
  | SimLoading, EvAllocRelSegment size _ => ok (MkLsm SimLoading (Some size))
  | SimLoading, EvLoadCompleted => ok (MkLsm SimLoaded (lsm_allocated_size m))
  | SimUnloaded, (EvLoadCompleted | EvAllocRelSegment _ _)
  | SimLoaded, EvLoadCompleted => ok m
  | state, event =>
      (Err (MkTransitionError state event), MkLsm SimError (lsm_allocated_size m))
  end.

Definition LoadStateMachine_fail_allocation (m : LoadStateMachine) : LoadStateMachine :=
  MkLsm SimError None.

(** ** System 7 *)

Inductive Sys7Event : Type :=
| S7NoOperation
| S7StartLoading
| S7LoadCompleted
| S7Unload
| S7AllocAbsSegment (start length : u16) (subtype : u8)
| S7TaskSegment (address : u16)
| S7TaskCtrl1 (address : u16) (count : u8)
| S7TaskPtr (init save pei_handler : u16)
| S7TaskCtrl2 (callback com_objects segment_1 segment_2 : u16).

Inductive Sys7EventError : Type :=
| S7Empty
| S7UnknownEvent (v : u8)
| S7UnsupportedSubCommand (v : u8)
| S7TooShort (v : u8).

(** The big-endian word at octets [i] and [i + 1]. *)
Definition s7_field (record : bytes) (i : nat) : u16 := be_val (slice i (i + 2) record).

Definition Sys7Event_decode (record : bytes) : result Sys7EventError Sys7Event :=
  match record with
  | [] => Err S7Empty
  | 0 :: _ => Ok S7NoOperation
  | 1 :: _ => Ok S7StartLoading
  | 2 :: _ => Ok S7LoadCompleted
  | 4 :: _ => Ok S7Unload
  | 3 :: rest =>
      match rest with
      | [] => Err (S7TooShort 3)
      | sub :: _ =>
          if (0 <=? sub) && (sub <=? 2) then
            if (length record <? 6)%nat then Err (S7TooShort sub)
            else Ok (S7AllocAbsSegment (s7_field record 2) (s7_field record 4) sub)
          else if sub =? 4 then
            if (length record <? 4)%nat then Err (S7TooShort sub)
            else Ok (S7TaskCtrl1 (s7_field record 2) (default 0 (record !! 4%nat)))
          else if (sub =? 3) || (sub =? 5) then
            if (length record <? 10)%nat then Err (S7TooShort sub)
            else if sub =? 3
            then Ok (S7TaskPtr (s7_field record 2) (s7_field record 4) (s7_field record 6))
            else Ok (S7TaskCtrl2 (s7_field record 2) (s7_field record 4) (s7_field record 6)
                       (s7_field record 8))
          else Err (S7UnsupportedSubCommand sub)
      end
  | other :: _ => Err (S7UnknownEvent other)
  end.

Definition decode_memory_lsm_record (record : bytes) : result Sys7EventError (u8 * bytes) :=
  if (length record <? MEMORY_LSM_RECORD_SIZE)%nat
  then Err (S7TooShort (default 0 (head record)))
  else
    let r0 := nth 0 record 0 in
    Ok (Z.shiftr r0 4, [Z.land r0 15; nth 1 record 0] ++ slice 3 11 record).

Record Sys7LoadStateMachine : Type := MkS7Lsm {
  s7_state : SimLoadState;
  s7_task_committed : bool;
  s7_requires_task_segment : bool }.

Definition Sys7LoadStateMachine_new (initial : SimLoadState) : Sys7LoadStateMachine :=
  MkS7Lsm initial false true.

Definition Sys7LoadStateMachine_without_task_segment (initial : SimLoadState)
    : Sys7LoadStateMachine :=
  MkS7Lsm initial false false.

Inductive Sys7Step : Type :=
| S7State (s : SimLoadState)
| S7Alloc (start length : u16) (subtype : u8)
| S7TaskCommitted (address : u16)
| S7StepTaskCtrl1 (address : u16) (count : u8)
| S7NoOp
| S7Ignored.

Inductive Sys7TransitionError : Type :=
| S7Illegal (from : SimLoadState) (event : Sys7Event)
| S7MissingTaskSegment.

Definition Sys7LoadStateMachine_apply (m : Sys7LoadStateMachine) (event : Sys7Event)
    : result Sys7TransitionError Sys7Step * Sys7LoadStateMachine :=
  let req := s7_requires_task_segment m in
  match s7_state m, event with
  | _, S7NoOperation => (Ok S7NoOp, m)
  | _, S7Unload => (Ok (S7State SimUnloaded), MkS7Lsm SimUnloaded false req)
  | SimUnloaded, S7StartLoading => (Ok (S7State SimLoading), MkS7Lsm SimLoading false req)
  | SimLoaded, S7StartLoading => (Ok (S7State SimLoading), MkS7Lsm SimLoading true req)
  | SimLoading, S7StartLoading => (Ok (S7State SimLoading), m)
  | SimLoading, S7AllocAbsSegment start length subtype =>
      (Ok (S7Alloc start length subtype),
       if subtype =? 2 then MkS7Lsm SimLoading true req else m)
  | SimLoading, S7TaskSegment address =>
      (Ok (S7TaskCommitted address), MkS7Lsm SimLoading true req)
  | SimLoading, S7TaskCtrl1 address count => (Ok (S7StepTaskCtrl1 address count), m)
  | SimLoading, (S7TaskPtr _ _ _ | S7TaskCtrl2 _ _ _ _) => (Ok S7NoOp, m)
  | SimLoading, S7LoadCompleted =>
      if req && negb (s7_task_committed m)
      then (Err S7MissingTaskSegment, MkS7Lsm SimError (s7_task_committed m) req)
      else (Ok (S7State SimLoaded), MkS7Lsm SimLoaded (s7_task_committed m) req)
  | SimUnloaded, (S7AllocAbsSegment _ _ _ | S7TaskSegment _ | S7TaskCtrl1 _ _ | S7TaskPtr _ _ _
                 | S7TaskCtrl2 _ _ _ _ | S7LoadCompleted)
  | SimLoaded, S7LoadCompleted => (Ok S7Ignored, m)
  | from, event => (Err (S7Illegal from event), MkS7Lsm SimError (s7_task_committed m) req)
  end.

(** ** Runs *)

(** The machine after a sequence of events, errors included. *)
Definition lsm_run (m : LoadStateMachine) (l : list LoadEvent) : LoadStateMachine :=
  foldl (fun m e => snd (LoadStateMachine_apply m e)) m l.

Definition s7_run (m : Sys7LoadStateMachine) (l : list Sys7Event) : Sys7LoadStateMachine :=
  foldl (fun m e => snd (Sys7LoadStateMachine_apply m e)) m l.

(** An event that commits the task descriptor while loading. *)
Definition s7_commits (e : Sys7Event) : bool :=
  match e with
  | S7AllocAbsSegment _ _ subtype => subtype =? 2
  | S7TaskSegment _ => true
  | _ => false
  end.

(** The last size allocated by a sequence. *)
Definition last_size (l : list LoadEvent) : option u32 :=
  foldl (fun acc e => match e with EvAllocRelSegment size _ => Some size | _ => acc end) None l.

(** Events that stay within a load procedure. *)
Definition is_loading_event (e : LoadEvent) : bool :=
  match e with
  | EvStartLoading | EvAllocRelSegment _ _ => true
  | _ => false
  end.

(** ** Lemmas *)

Lemma be_val_2 v : is_u16 v -> be_val [v / 256; v mod 256] = v.
Proof. intros Hv. cbn [be_val length]. change (256 ^ Z.of_nat 1) with 256. zdiv. Qed.

(** A whole number of octets written and read back. *)
Lemma be_roundtrip n v : 0 <= v < 256 ^ Z.of_nat n -> be_val (be_bytes n v) = v.
Proof. intros Hv. rewrite be_val_be_bytes. by apply Z.mod_small. Qed.

Lemma last_size_snoc l e : last_size (l ++ [e]) =
  match e with EvAllocRelSegment size _ => Some size | _ => last_size l end.
Proof. unfold last_size. by rewrite foldl_app. Qed.

(** What the state of a machine says of the events it took. *)
Definition lsm_history (m : LoadStateMachine) (l : list LoadEvent) : Prop :=
  match lsm_state m with
  | SimLoading => exists pre mid, l = pre ++ EvStartLoading :: mid /\
      forallb is_loading_event mid = true /\ lsm_allocated_size m = last_size mid
  | SimLoaded => exists pre mid n, l = pre ++ EvStartLoading :: mid ++ replicate (S n) EvLoadCompleted /\
      forallb is_loading_event mid = true /\ lsm_allocated_size m = last_size mid
  | _ => True
  end.

Lemma lsm_history_step m l e : lsm_history m l ->
  lsm_history (snd (LoadStateMachine_apply m e)) (l ++ [e]).
Proof.
  unfold lsm_history, LoadStateMachine_apply. destruct m as [st size]. cbn [lsm_state lsm_allocated_size].
  destruct st, e as [| |sz fill|]; cbn [snd lsm_state lsm_allocated_size]; try done.
  - intros _. by exists l, [].
  - intros _. by exists l, [].
  - intros (pre & mid & n & -> & Hm & ->). exists pre, mid, (S n). split; [|done].
    rewrite <- app_assoc. cbn [app]. rewrite <- app_assoc. do 3 f_equal.
    change (replicate (S (S n)) EvLoadCompleted) with (EvLoadCompleted :: replicate (S n) EvLoadCompleted).
    by rewrite <- replicate_cons_app.
  - intros (pre & mid & -> & Hm & ->). exists pre, (mid ++ [EvStartLoading]).
    rewrite <- app_assoc, forallb_app, Hm, last_size_snoc. done.
  - intros (pre & mid & -> & Hm & ->). exists pre, mid, 0%nat. rewrite <- app_assoc. done.
  - intros (pre & mid & -> & Hm & ->). exists pre, (mid ++ [EvAllocRelSegment sz fill]).
    rewrite <- app_assoc, forallb_app, Hm, last_size_snoc. done.
Qed.

Lemma lsm_run_history l : lsm_history (lsm_run (LoadStateMachine_new SimUnloaded) l) l.
Proof.
  induction l as [|e l IH] using rev_ind; [done|].
  unfold lsm_run in *. rewrite foldl_app. by apply lsm_history_step.
Qed.

(** A machine whose task descriptor is committed, as every Loaded one's is. *)
Definition s7_committed (m : Sys7LoadStateMachine) : Prop :=
  s7_task_committed m = true \/ s7_state m = SimLoaded.

Lemma s7_commit_step m e : s7_requires_task_segment m = true ->
  s7_requires_task_segment (snd (Sys7LoadStateMachine_apply m e)) = true /\
  (s7_committed (snd (Sys7LoadStateMachine_apply m e)) ->
   s7_commits e = true \/ (e <> S7Unload /\ s7_committed m)).
Proof.
  destruct m as [st c r]. intros Hr. cbn [s7_requires_task_segment] in Hr. subst r.
  unfold Sys7LoadStateMachine_apply, s7_committed.
  cbn [s7_state s7_task_committed s7_requires_task_segment].
  destruct st, e as [| | | |start len subtype|a|a n|i v p|x y z w]; simpl; split; try done;
    try (destruct c; simpl; (done || (intros [H|H]; try discriminate H; auto)); fail);
    destruct (subtype =? 2); simpl; auto.
Qed.

Lemma s7_commit_history l :
  s7_requires_task_segment (s7_run (Sys7LoadStateMachine_new SimUnloaded) l) = true /\
  (s7_committed (s7_run (Sys7LoadStateMachine_new SimUnloaded) l) ->
   exists pre e post, l = pre ++ e :: post /\ s7_commits e = true /\
     Forall (fun e => e <> S7Unload) post).
Proof.
  induction l as [|e l [IHr IH]] using rev_ind; [split; [done|]; by intros [|]|].
  unfold s7_run in *. rewrite foldl_app. cbn [foldl].
  destruct (s7_commit_step _ e IHr) as [Hr Hc]. split; [exact Hr|].
  intros [He|[Hne Hold]]%Hc; [by exists l, e, []|].
  destruct (IH Hold) as (pre & e0 & post & -> & Hcom & Hpost).
  exists pre, e0, (post ++ [e]). rewrite <- app_assoc. split; [done|]. split; [done|].
  apply Forall_app. by repeat constructor.
Qed.

(** Records, decoded. *)
Lemma s7_field_at pre v post i : i = length pre -> is_u16 v ->
  s7_field (pre ++ be_bytes 2 v ++ post) i = v.
Proof.
  intros -> Hv. unfold s7_field. replace 2%nat with (length (be_bytes 2 v)) at 1 by apply length_be_bytes.
  rewrite slice_app. by apply be_roundtrip.
Qed.

Lemma rel_segment_decodes size mode fill : is_u32 size ->
  LoadEvent_decode (encode_rel_segment size mode fill)
  = Ok (EvAllocRelSegment size (if negb (Z.land mode 1 =? 0) then Some fill else None)).
Proof.
  intros Hs. unfold LoadEvent_decode, encode_rel_segment. cbn [app LoadControl_octet].
  change (LD_CTRL_REL_SEGMENT =? 11) with true. cbn [negb].
  change (3 :: LD_CTRL_REL_SEGMENT :: be_bytes 4 size ++ [mode; fill; 0; 0])
    with ([3; 11] ++ be_bytes 4 size ++ [mode; fill; 0; 0]).
  set (data := [3; 11] ++ _).
  assert (Hlen : length data = 10%nat) by (unfold data; rewrite !length_app, length_be_bytes; done).
  rewrite Hlen. change (10 <? 6)%nat with false. cbv iota.
  replace (slice 2 6 data) with (be_bytes 4 size).
  - rewrite be_roundtrip by exact Hs. done.
  - unfold data. symmetry. exact (slice_app [3; 11] (be_bytes 4 size) [mode; fill; 0; 0]).
Qed.

Lemma alloc_segment_decodes subtype start len access mem_type flags :
  0 <= subtype <= 2 -> is_u16 start -> is_u16 len ->
  Sys7Event_decode (encode_alloc_segment subtype start len access mem_type flags)
  = Ok (S7AllocAbsSegment start len subtype).
Proof.
  intros Hsub Hs Hl. unfold Sys7Event_decode, encode_alloc_segment. cbn [app LoadControl_octet].
  rewrite (proj2 (Z.leb_le 0 subtype)), (proj2 (Z.leb_le subtype 2)) by lia. cbn [andb].
  cbn [length app be_bytes]. change (10 <? 6)%nat with false. cbv iota. do 2 f_equal.
  - exact (s7_field_at [3; subtype] start (be_bytes 2 len ++ [access; mem_type; flags; 0]) 2 eq_refl Hs).
  - exact (s7_field_at ([3; subtype] ++ be_bytes 2 start) len [access; mem_type; flags; 0] 4 eq_refl Hl).
Qed.

Lemma task_segment_decodes address identity : is_u16 address ->
  exists len, Sys7Event_decode (encode_task_segment address identity)
    = Ok (S7AllocAbsSegment address len 2).
Proof.
  intros Ha. eexists. unfold Sys7Event_decode, encode_task_segment, Sys7TaskIdentity_octets.
  cbn [app LoadControl_octet length be_bytes]. change (10 <? 6)%nat with false.
  change ((0 <=? S7_SUB_ALLOC_TASK) && (S7_SUB_ALLOC_TASK <=? 2)) with true. cbv iota. f_equal.
  apply (f_equal (fun a => S7AllocAbsSegment a _ 2)).
  exact (s7_field_at [3; 2] address (Sys7TaskIdentity_octets identity) 2 eq_refl Ha).
Qed.

Lemma task_ctrl1_decodes address count : is_u16 address ->
  Sys7Event_decode (encode_task_ctrl1 address count) = Ok (S7TaskCtrl1 address count).
Proof.
  intros Ha. unfold Sys7Event_decode, encode_task_ctrl1. cbn [app LoadControl_octet length be_bytes].
  change (10 <? 4)%nat with false.
  change ((0 <=? S7_SUB_TASK_CTRL1) && (S7_SUB_TASK_CTRL1 <=? 2)) with false.
  change (S7_SUB_TASK_CTRL1 =? 4) with true. cbv iota. f_equal.
  apply (f_equal (fun a => S7TaskCtrl1 a count)).
  exact (s7_field_at [3; 4] address [count; 0; 0; 0; 0; 0] 2 eq_refl Ha).
Qed.

Lemma task_ptr_decodes a b c : is_u16 a -> is_u16 b -> is_u16 c ->
  Sys7Event_decode (encode_task_ptr a b c) = Ok (S7TaskPtr a b c).
Proof.
  intros Ha Hb Hc. unfold Sys7Event_decode, encode_task_ptr. cbn [app LoadControl_octet length be_bytes].
  change (10 <? 10)%nat with false.
  change ((0 <=? S7_SUB_TASK_PTR) && (S7_SUB_TASK_PTR <=? 2)) with false.
  change (S7_SUB_TASK_PTR =? 4) with false.
  change ((S7_SUB_TASK_PTR =? 3) || (S7_SUB_TASK_PTR =? 5)) with true.
  change (S7_SUB_TASK_PTR =? 3) with true. cbv iota. do 2 f_equal.
  - exact (s7_field_at [3; 3] a (be_bytes 2 b ++ be_bytes 2 c ++ [0; 0]) 2 eq_refl Ha).
  - exact (s7_field_at ([3; 3] ++ be_bytes 2 a) b (be_bytes 2 c ++ [0; 0]) 4 eq_refl Hb).
  - exact (s7_field_at ([3; 3] ++ be_bytes 2 a ++ be_bytes 2 b) c [0; 0] 6 eq_refl Hc).
Qed.

Lemma task_ctrl2_decodes a b c d : is_u16 a -> is_u16 b -> is_u16 c -> is_u16 d ->
  Sys7Event_decode (encode_task_ctrl2 a b c d) = Ok (S7TaskCtrl2 a b c d).
Proof.
  intros Ha Hb Hc Hd. unfold Sys7Event_decode, encode_task_ctrl2.
  cbn [app LoadControl_octet length be_bytes].
  change (10 <? 10)%nat with false.
  change ((0 <=? S7_SUB_TASK_CTRL2) && (S7_SUB_TASK_CTRL2 <=? 2)) with false.
  change (S7_SUB_TASK_CTRL2 =? 4) with false.
  change ((S7_SUB_TASK_CTRL2 =? 3) || (S7_SUB_TASK_CTRL2 =? 5)) with true.
  change (S7_SUB_TASK_CTRL2 =? 3) with false. cbv iota. do 2 f_equal.
  - exact (s7_field_at [3; 5] a (be_bytes 2 b ++ be_bytes 2 c ++ be_bytes 2 d) 2 eq_refl Ha).
  - exact (s7_field_at ([3; 5] ++ be_bytes 2 a) b (be_bytes 2 c ++ be_bytes 2 d) 4 eq_refl Hb).
  - exact (s7_field_at ([3; 5] ++ be_bytes 2 a ++ be_bytes 2 b) c (be_bytes 2 d) 6 eq_refl Hc).
  - exact (s7_field_at ([3; 5] ++ be_bytes 2 a ++ be_bytes 2 b ++ be_bytes 2 c) d [] 8 eq_refl Hd).
Qed.

(** The first octet of the memory-mapped record: the machine over the event. *)
Definition lsm_event_octet (lsm ev : u8) : u8 :=
  Z.lor (as_u8 (Z.shiftl (Z.land lsm 15) 4)) (Z.land ev 15).

Lemma lsm_nibbles lsm ev : 0 <= lsm < 16 -> 0 <= ev < 16 ->
  Z.shiftr (lsm_event_octet lsm ev) 4 = lsm /\ Z.land (lsm_event_octet lsm ev) 15 = ev.
Proof.
  intros Hl He.
  assert (H : all_below 16 (fun lsm => all_below 16 (fun ev =>
    (Z.shiftr (lsm_event_octet lsm ev) 4 =? lsm) && (Z.land (lsm_event_octet lsm ev) 15 =? ev))) = true)
    by (vm_compute; reflexivity).
  apply (all_below_spec 16 _ H) in Hl. apply (all_below_spec 16 _ Hl) in He.
  apply andb_true_iff in He as [H1 H2]. lia.
Qed.

Lemma memory_record_decodes lsm event : 0 <= lsm < 16 -> length event = 10%nat ->
  0 <= nth 0 event 0 < 16 ->
  decode_memory_lsm_record (wrap_memory_lsm_record lsm event) = Ok (lsm, event).
Proof.
  intros Hl Hlen He.
  destruct event as [|e0 [|e1 [|e2 [|e3 [|e4 [|e5 [|e6 [|e7 [|e8 [|e9 [|]]]]]]]]]]]; try done.
  simpl in He. destruct (lsm_nibbles lsm e0 Hl He) as [Hs Ha].
  unfold decode_memory_lsm_record, wrap_memory_lsm_record. cbn [nth app length slice drop take Nat.sub].
  change (11 <? MEMORY_LSM_RECORD_SIZE)%nat with false. cbv iota. unfold slice. simpl.
  change (Z.lor _ _) with (lsm_event_octet lsm e0). rewrite Hs, Ha. done.
Qed.

(** ** The properties *)

(** Loaded means loaded.  Whatever sequence of load events a System B object
    takes from the start, accepted or rejected, if it is Loaded afterwards then the
    sequence ends in a StartLoading, followed by nothing but StartLoading and
    allocations, and LoadCompleted (repeats of it change nothing); and the size it
    holds is that of the last allocation of this load. *)
Theorem loaded_means_completed l :
  lsm_state (lsm_run (LoadStateMachine_new SimUnloaded) l) = SimLoaded ->
  exists pre mid n, l = pre ++ EvStartLoading :: mid ++ replicate (S n) EvLoadCompleted /\
    forallb is_loading_event mid = true /\
    lsm_allocated_size (lsm_run (LoadStateMachine_new SimUnloaded) l) = last_size mid.
Proof.
  intros Hl. pose proof (lsm_run_history l) as Hh. unfold lsm_history in Hh. by rewrite Hl in Hh.
Qed.

(** A System 7 machine that requires a task segment is Loaded only after one
    was committed, by a task segment or a task-stack allocation, since its last
    Unload, whatever events it takes. *)
Theorem s7_loaded_needs_task_segment l :
  s7_state (s7_run (Sys7LoadStateMachine_new SimUnloaded) l) = SimLoaded ->
  exists pre e post, l = pre ++ e :: post /\ s7_commits e = true /\
    Forall (fun e => e <> S7Unload) post.
Proof. intros Hl. apply s7_commit_history. by right. Qed.

(** The device reads every load-control record as the client means it: the
    simple controls and the relative allocation on System B, the four absolute
    records on System 7 (the task segment as a task-stack allocation at its
    address), and the memory-mapped form carries the machine and the event
    unchanged. *)
Theorem device_decodes_client_records :
  (LoadEvent_decode (LoadControl_encode_full StartLoading) = Ok EvStartLoading /\
   LoadEvent_decode (LoadControl_encode_full LoadCompleted) = Ok EvLoadCompleted /\
   LoadEvent_decode (LoadControl_encode_full Unload) = Ok EvUnload) /\
  (forall size mode fill, is_u32 size ->
     LoadEvent_decode (encode_rel_segment size mode fill)
     = Ok (EvAllocRelSegment size (if negb (Z.land mode 1 =? 0) then Some fill else None))) /\
  (forall subtype start length access mem_type flags,
     0 <= subtype <= 2 -> is_u16 start -> is_u16 length ->
     Sys7Event_decode (encode_alloc_segment subtype start length access mem_type flags)
     = Ok (S7AllocAbsSegment start length subtype)) /\
  (forall address identity, is_u16 address ->
     exists length, Sys7Event_decode (encode_task_segment address identity)
       = Ok (S7AllocAbsSegment address length 2)) /\
  (forall address count, is_u16 address ->
     Sys7Event_decode (encode_task_ctrl1 address count) = Ok (S7TaskCtrl1 address count)) /\
  (forall a b c, is_u16 a -> is_u16 b -> is_u16 c ->
     Sys7Event_decode (encode_task_ptr a b c) = Ok (S7TaskPtr a b c)) /\
  (forall a b c d, is_u16 a -> is_u16 b -> is_u16 c -> is_u16 d ->
     Sys7Event_decode (encode_task_ctrl2 a b c d) = Ok (S7TaskCtrl2 a b c d)) /\
  (forall lsm event, 0 <= lsm < 16 -> length event = 10%nat -> 0 <= nth 0 event 0 < 16 ->
     decode_memory_lsm_record (wrap_memory_lsm_record lsm event) = Ok (lsm, event)).
Proof.
  split; [by vm_compute|]. split; [apply rel_segment_decodes|].
  split; [apply alloc_segment_decodes|]. split; [apply task_segment_decodes|].
  split; [apply task_ctrl1_decodes|]. split; [apply task_ptr_decodes|].
  split; [apply task_ctrl2_decodes|apply memory_record_decodes].
Qed.

(** ** Witnesses *)

Definition demo_load : list LoadEvent :=
  [EvLoadCompleted; EvStartLoading; EvAllocRelSegment 16 None; EvAllocRelSegment 32 None;
   EvLoadCompleted].

Lemma loaded_means_completed_witness : exists pre mid n,
  demo_load = pre ++ EvStartLoading :: mid ++ replicate (S n) EvLoadCompleted /\
  lsm_allocated_size (lsm_run (LoadStateMachine_new SimUnloaded) demo_load) = Some 32.
Proof.
  destruct (loaded_means_completed demo_load eq_refl) as (pre & mid & n & E & _ & _).
  exists pre, mid, n. split; [exact E|reflexivity].
Defined.

Definition demo_s7_load : list Sys7Event :=
  [S7StartLoading; S7AllocAbsSegment 17408 1024 0; S7AllocAbsSegment 17408 1 2; S7LoadCompleted].

Lemma s7_loaded_needs_task_segment_witness : exists pre e post,
  demo_s7_load = pre ++ e :: post /\ s7_commits e = true.
Proof.
  destruct (s7_loaded_needs_task_segment demo_s7_load eq_refl) as (pre & e & post & E & Hc & _).
  exists pre, e, post. split; [exact E|exact Hc].
Defined.

Lemma device_decodes_client_records_witness :
  LoadEvent_decode (encode_rel_segment 256 1 255) = Ok (EvAllocRelSegment 256 (Some 255)).
Proof.
  destruct device_decodes_client_records as (_ & H & _).
  exact (H 256 1 255 ltac:(split; [discriminate|reflexivity])).
Defined.
