(* ===== verification/SimLoad.v ===== *)
(** * Loading a simulated System B device ([knx-sim/src/device/load_state.rs])

    The load-control writes of a System B device with their effect on the load
    machines, the memory and the table references; the property reads and the
    memory write a download uses; and the client's download procedure run against
    it. *)

From S2P Require Import Prelude SimMemory MgmtError Apci Load Mcb Sys7 SimLsm.

Local Open Scope string_scope.
Local Open Scope list_scope.
Local Open Scope Z_scope.

(** ** State *)

Record ObjectState : Type := MkObjectState {
  os_lsm : LoadStateMachine;
  os_base : u32;
  os_mcb_written : option bytes }.

(** The load side of a System B device: the loadable objects, the ordinary
    properties of the interface objects (property id to value), the memory, the
    allocation limit, and the intermediate states to report. *)
Record LoadDevice : Type := MkLoadDevice {
  ld_loadables : gmap Z ObjectState;
  ld_objects : gmap Z (gmap Z bytes);
  ld_memory : Memory;
  ld_access_level : u8;
  ld_max_allocation : option u32;
  ld_intermediate_reports : u32;
  ld_intermediate : gmap Z (u8 * u32) }.

Definition ld_set_loadables l (d : LoadDevice) : LoadDevice :=
  MkLoadDevice l (ld_objects d) (ld_memory d) (ld_access_level d) (ld_max_allocation d)
    (ld_intermediate_reports d) (ld_intermediate d).
Definition ld_set_objects o (d : LoadDevice) : LoadDevice :=
  MkLoadDevice (ld_loadables d) o (ld_memory d) (ld_access_level d) (ld_max_allocation d)
    (ld_intermediate_reports d) (ld_intermediate d).
Definition ld_set_memory m (d : LoadDevice) : LoadDevice :=
  MkLoadDevice (ld_loadables d) (ld_objects d) m (ld_access_level d) (ld_max_allocation d)
    (ld_intermediate_reports d) (ld_intermediate d).
Definition ld_set_intermediate i (d : LoadDevice) : LoadDevice :=
  MkLoadDevice (ld_loadables d) (ld_objects d) (ld_memory d) (ld_access_level d)
    (ld_max_allocation d) (ld_intermediate_reports d) i.

Definition os_set_lsm (m : LoadStateMachine) (o : ObjectState) : ObjectState :=
  MkObjectState m (os_base o) (os_mcb_written o).
Definition os_set_base (b : u32) (o : ObjectState) : ObjectState :=
  MkObjectState (os_lsm o) b (os_mcb_written o).
Definition os_clear_mcb (o : ObjectState) : ObjectState :=
  MkObjectState (os_lsm o) (os_base o) None.

(** [if let Some(state) = self.loadables.get_mut(&object)]. *)
Definition update_loadable (f : ObjectState -> ObjectState) (object : u8) (d : LoadDevice)
    : LoadDevice :=
  ld_set_loadables (alter f object (ld_loadables d)) d.

Definition load_state (d : LoadDevice) (lsm_index : u8) : option SimLoadState :=
  match ld_loadables d !! lsm_index with
  | Some o => Some (lsm_state (os_lsm o))
  | None => None
  end.

(** ** Helpers of the handler *)

Definition overlaps_table_base (d : LoadDevice) (object : u8) (base size : u32) : bool :=
  let e := base + size in
  existsb (fun '(idx, o) =>
      negb (idx =? object) && ((1 <=? idx) && (idx <=? 3))
      && (base <=? os_base o) && (os_base o <? e))
    (map_to_list (ld_loadables d))
  || Memory_overlaps_other (ld_memory d) object base size.

Definition set_table_reference (object : u8) (base : u32) (d : LoadDevice) : LoadDevice :=
  ld_set_objects (alter (insert PID_TABLE_REFERENCE (be_bytes 4 base)) object (ld_objects d)) d.

Definition begin_intermediate (lsm_index : u8) (prior : SimLoadState) (completed : bool)
    (d : LoadDevice) : LoadDevice :=
  if ld_intermediate_reports d =? 0 then d else
  match completed, prior with
  | true, SimLoading =>
      ld_set_intermediate (<[lsm_index := (5, ld_intermediate_reports d)]> (ld_intermediate d)) d
  | true, _ => d
  | false, SimUnloaded => d
  | false, _ =>
      ld_set_intermediate (<[lsm_index := (4, ld_intermediate_reports d)]> (ld_intermediate d)) d
  end.

Definition is_intermediate (d : LoadDevice) (lsm_index : u8) : bool :=
  bool_decide (is_Some (ld_intermediate d !! lsm_index)).

Definition report_load_state (d : LoadDevice) (lsm_index : u8) : option u8 * LoadDevice :=
  match ld_intermediate d !! lsm_index with
  | Some (state, left_) =>
      let remaining := saturating_sub left_ 1 in
      let i := if remaining =? 0 then delete lsm_index (ld_intermediate d)
               else <[lsm_index := (state, remaining)]> (ld_intermediate d) in
      (Some state, ld_set_intermediate i d)
  | None => (SimLoadState_to_byte <$> load_state d lsm_index, d)
  end.

(** The header of a property answer. *)
Definition property_answer (object pid count : u8) (start : u16) (value : bytes) : bytes :=
  [object; pid; Z.lor (as_u8 (Z.shiftl count 4)) (Z.land (as_u8 (Z.shiftr start 8)) 15);
   as_u8 (Z.land start 255)] ++ value.

(** ** [PID_LOAD_STATE_CONTROL] writes *)

(** The allocation branch: [None] when the search for a place does not end. *)
Definition alloc_rel_segment (object : u8) (size : u32) (fill : option u8) (d : LoadDevice)
    : option (result DeviceError unit * LoadDevice) :=
  if (match ld_max_allocation d with Some max => max <? size | None => false end) then
    let d := update_loadable (fun o => os_set_lsm (LoadStateMachine_fail_allocation (os_lsm o)) o) object d in
    let d := ld_set_memory (Memory_erase_owner (ld_memory d) object) d in
    let d := set_table_reference object 0 d in
    Some (Err (LoadControlError "allocation exceeds the device"), d)
  else
    let base := match ld_loadables d !! object with Some o => os_base o | None => 0 end in
    placed ← if negb ((1 <=? object) && (object <=? 3)) && overlaps_table_base d object base size
             then
               base ← Memory_free_base (S (length (segments (ld_memory d)))) (ld_memory d) object 65536 size;
               Some (base, update_loadable (os_set_base base) object d)
             else Some (base, d);
    let '(base, d) := placed : u32 * LoadDevice in
    let d := set_table_reference object base d in
    let d := ld_set_memory (Memory_allocate (ld_memory d) object base size) d in
    let d := match fill with
             | Some byte => ld_set_memory (Memory_fill_owner (ld_memory d) object byte) d
             | None => d
             end in
    Some (Ok tt, d).

(** The effect of the event on the memory. *)
Definition load_event_effect (object : u8) (event : LoadEvent) (prior : SimLoadState) (d : LoadDevice)
    : option (result DeviceError unit * LoadDevice) :=
  match event, prior with
  | EvUnload, _ =>
      let d := ld_set_memory (Memory_release_owner (ld_memory d) object) d in
      let d := set_table_reference object 0 d in
      Some (Ok tt, update_loadable os_clear_mcb object d)
  | EvAllocRelSegment size fill, SimLoading => alloc_rel_segment object size fill d
  | _, _ => Some (Ok tt, d)
  end.

(** [on_load_state_write]: the value octets of the answer, and the device after;
    [None] when it does not return. *)
Definition on_load_state_write (object count : u8) (start : u16) (value : bytes) (d : LoadDevice)
    : option (result DeviceError bytes * LoadDevice) :=
  match ld_loadables d !! object with
  | None => Some (Err (NoProperty object PID_LOAD_STATE_CONTROL), d)
  | Some state =>
      match LoadEvent_decode value with
      | Err _ => Some (Err (LoadControlError "load event"), d)
      | Ok event =>
          if is_intermediate d object then
            let '(reported, d) := report_load_state d object in
            Some (Ok (property_answer object PID_LOAD_STATE_CONTROL count start [default 0 reported]), d)
          else
            let prior := lsm_state (os_lsm state) in
            let '(applied, lsm) := LoadStateMachine_apply (os_lsm state) event in
            let d := update_loadable (os_set_lsm lsm) object d in
            match applied with
            | Err _ => Some (Err (LoadControlError "illegal load-state transition"), d)
            | Ok new_state =>
                effect ← load_event_effect object event prior d;
                match effect : result DeviceError unit * LoadDevice with
                | (Err e, d) => Some (Err e, d)
                | (Ok _, d) =>
                    let d := match event with
                             | EvLoadCompleted =>
                                 if bool_decide (new_state = SimLoaded)
                                 then begin_intermediate object prior true d else d
                             | EvUnload => begin_intermediate object prior false d
                             | _ => d
                             end in
                    let '(reported, d) := report_load_state d object in
                    Some (Ok (property_answer object PID_LOAD_STATE_CONTROL count start
                                [default (SimLoadState_to_byte new_state) reported]), d)
                end
            end
      end
  end.

(** The [PID_LOAD_STATE_CONTROL] branch of [on_property_write] on System B. *)
Definition on_load_control_write (object count : u8) (start : u16) (value : bytes) (d : LoadDevice)
    : option (result DeviceError bytes * LoadDevice) :=
  if negb (ld_access_level d =? 0) then Some (Err (Unauthorized (ld_access_level d)), d) else
  if negb (length value =? 10)%nat then Some (Err (LoadControlError "value is always 10 octets"), d)
  else on_load_state_write object count start value d.

(** ** Reads and the memory write *)

Definition mcb_entry_for (d : LoadDevice) (object : u8) : option bytes :=
  let written := match ld_loadables d !! object with
                 | Some o => os_mcb_written o
                 | None => None
                 end in
  match written, Memory_segment_of (ld_memory d) object with
  | Some w, Some seg =>
      let size := be_val (take 4 w) in
      let b := Memory_read (ld_memory d) (seg_base seg) (Z.min size (seg_len seg)) in
      Some (take 6 w ++ be_bytes 2 (crc16_aug_ccitt b))
  | _, _ =>
      let span := match Memory_written_span (ld_memory d) object with
                  | Some b => Some b
                  | None => match ld_loadables d !! object with Some _ => Some [] | None => None end
                  end in
      sim_mcb_entry <$> span
  end.

(** [on_property_read] on an ordinary interface object. *)
Definition on_property_read (object pid count : u8) (start : u16) (d : LoadDevice)
    : bytes * LoadDevice :=
  let '(value, d) :=
    if pid =? PID_LOAD_STATE_CONTROL then
      let '(s, d) := report_load_state d object in
      ((fun s => [s]) <$> s, d)
    else if pid =? PID_MCB_TABLE then
      (if 1 <? count then None else mcb_entry_for d object, d)
    else
      (match ld_objects d !! object with Some props => props !! pid | None => None end, d) in
  match value with
  | Some value => (property_answer object pid count start value, d)
  | None => (property_answer object pid 0 start [], d)
  end.

(** [on_memory_write] on System B, verify mode off. *)
Definition on_memory_write (addr : u32) (payload : bytes) (d : LoadDevice)
    : result DeviceError unit * LoadDevice :=
  if negb (ld_access_level d =? 0) then (Err (Unauthorized (ld_access_level d)), d) else
  match Memory_segment_at (ld_memory d) addr with
  | None => (Err (MemoryRejected (OutOfSegment addr (zlen payload))), d)
  | Some seg =>
      let owner := seg_owner seg in
      if negb (bool_decide (load_state d owner = Some SimLoading))
      then (Err (LoadControlError "memory write while not Loading"), d)
      else
        match Memory_write (ld_memory d) owner addr payload with
        | Err e => (Err (MemoryRejected e), d)
        | Ok m => (Ok tt, ld_set_memory m d)
        end
  end.

(** ** The device behind the client's management connection

    The state is the device and the clock; a refusal is silence, and the client's
    request fails. *)

Definition answer_of (ans : bytes) (s : LoadDevice * Z)
    : result WriteError PropertyValueResponse * (LoadDevice * Z) :=
  match decode_property_value_response ans with
  | Some r => (Ok r, s)
  | None => (Err (Mgmt (MalformedResponse "response too short")), s)
  end.

#[export] Instance sim_device : L4Management (LoadDevice * Z) := {
  property_request o p start count s :=
    let '(ans, d) := on_property_read o p count start s.1 in answer_of ans (d, s.2);
  property_write_request o p count start value s :=
    if p =? PID_LOAD_STATE_CONTROL then
      match on_load_control_write o count start value s.1 with
      | Some (Ok ans, d) => answer_of ans (d, s.2)
      | Some (Err _, d) => (Err (Mgmt NoResponse), (d, s.2))
      | None => (Err (Mgmt NoResponse), s)
      end
    else (Err (Mgmt NoResponse), s);
  write_memory addr data s :=
    match on_memory_write addr data s.1 with
    | (Ok _, d) => (Ok tt, (d, s.2))
    | (Err _, d) => (Err (Mgmt NoResponse), (d, s.2))
    end;
  read_memory_strict addr n s := (Ok (Memory_read (ld_memory s.1) addr n), s);
  now := snd;
  sleep d s := (s.1, s.2 + d) }.

#[export] Instance sim_device_laws : L4ManagementLaws (LoadDevice * Z).
Proof.
  split; simpl.
  - intros o p i c [d t]. simpl. destruct (on_property_read o p c i d) as [ans d']. unfold answer_of.
    destruct (decode_property_value_response ans); simpl; lia.
  - intros. lia.
  - intros. lia.
Qed.

(** ** Lemmas *)

(** Object [o] of device [d] in load state [st], with its segment base. *)
Record object_at (d : LoadDevice) (o : u8) (st : SimLoadState) (base : u32) (mcb : option bytes) : Prop := {
  at_loadable : exists size, ld_loadables d !! o = Some (MkObjectState (MkLsm st size) base mcb);
  at_object : is_Some (ld_objects d !! o);
  at_access : ld_access_level d = 0;
  at_reports : ld_intermediate_reports d = 0;
  at_settled : ld_intermediate d !! o = None }.

Lemma report_settled d o st base mcb : object_at d o st base mcb ->
  report_load_state d o = (Some (SimLoadState_to_byte st), d).
Proof.
  intros [[size Hl] _ _ _ Hs]. unfold report_load_state, load_state. by rewrite Hs, Hl.
Qed.

Lemma not_intermediate d o st base mcb : object_at d o st base mcb -> is_intermediate d o = false.
Proof. intros [_ _ _ _ Hs]. unfold is_intermediate. rewrite Hs. apply bool_decide_false. by intros []. Qed.

Lemma begin_intermediate_none d o prior completed : ld_intermediate_reports d = 0 ->
  begin_intermediate o prior completed d = d.
Proof. intros H. unfold begin_intermediate. by rewrite H. Qed.

(** The device's step on one event it accepts without touching memory. *)
Lemma on_simple_event d o st base mcb value event st' size size' :
  ld_loadables d !! o = Some (MkObjectState (MkLsm st size) base mcb) ->
  object_at d o st base mcb -> length value = 10%nat -> LoadEvent_decode value = Ok event ->
  LoadStateMachine_apply (MkLsm st size) event = (Ok st', MkLsm st' size') ->
  (event = EvStartLoading \/ event = EvLoadCompleted) ->
  let d' := update_loadable (os_set_lsm (MkLsm st' size')) o d in
  on_load_control_write o 1 1 value d
  = Some (Ok (property_answer o PID_LOAD_STATE_CONTROL 1 1 [SimLoadState_to_byte st']), d') /\
  object_at d' o st' base mcb.
Proof.
  intros Hl Hat Hlen Hdec Happ Hev d'.
  assert (Hat' : object_at d' o st' base mcb).
  { destruct Hat as [_ Ho Ha Hr Hs]. split; try done. exists size'. unfold d', update_loadable. cbn.
    by rewrite lookup_alter_eq, Hl. }
  split; [|exact Hat']. unfold on_load_control_write. rewrite (at_access _ _ _ _ _ Hat). cbn [Z.eqb negb].
  rewrite Hlen. cbn [Nat.eqb negb]. unfold on_load_state_write. rewrite Hl, Hdec.
  rewrite (not_intermediate _ _ _ _ _ Hat). cbn [os_lsm]. rewrite Happ. fold d'.
  assert (Heff : forall prior, load_event_effect o event prior d' = Some (Ok tt, d'))
    by (intros prior; destruct Hev as [-> | ->]; done).
  rewrite Heff. cbn [mbind option_bind].
  rewrite begin_intermediate_none by exact (at_reports _ _ _ _ _ Hat').
  assert (Hsame : match event with
                  | EvLoadCompleted => if bool_decide (st' = SimLoaded) then d' else d'
                  | EvUnload => begin_intermediate o (lsm_state (MkLsm st size)) false d'
                  | _ => d'
                  end = d') by (destruct Hev as [-> | ->]; [done|by case_bool_decide]).
  rewrite Hsame, (report_settled _ _ _ _ _ Hat'). done.
Qed.

(** Two devices that agree on everything but object [o] and its memory. *)
Record same_others (o : u8) (d d' : LoadDevice) : Prop := {
  so_loadables : forall i, i <> o -> ld_loadables d' !! i = ld_loadables d !! i;
  so_segments : forall s, owned o s = false ->
    In s (segments (ld_memory d')) <-> In s (segments (ld_memory d));
  so_max : ld_max_allocation d' = ld_max_allocation d;
  so_objects : forall i, i <> o -> ld_objects d' !! i = ld_objects d !! i }.

Lemma same_others_trans o d1 d2 d3 : same_others o d1 d2 -> same_others o d2 d3 -> same_others o d1 d3.
Proof.
  intros [H1 H2 H3 H7] [H4 H5 H6 H8]. split.
  - intros i Hi. by rewrite H4, H1.
  - intros s Hs. by rewrite H5, H2.
  - by rewrite H6, H3.
  - intros i Hi. by rewrite H8, H7.
Qed.

Lemma overlaps_table_base_spec d o base size : overlaps_table_base d o base size = true <->
  (exists i os, ld_loadables d !! i = Some os /\ i <> o /\ 1 <= i <= 3 /\
     base <= os_base os < base + size) \/
  Memory_overlaps_other (ld_memory d) o base size = true.
Proof.
  unfold overlaps_table_base. rewrite orb_true_iff. apply or_iff_compat_r. rewrite existsb_exists. split.
  - intros ([i os] & Hin & Hp). exists i, os. apply list_elem_of_In, elem_of_map_to_list in Hin.
    rewrite !andb_true_iff, negb_true_iff, Z.eqb_neq in Hp. split; [done|]. lia.
  - intros (i & os & Hl & Hne & Hi & Hb). exists (i, os).
    split; [by apply list_elem_of_In, elem_of_map_to_list|].
    rewrite !andb_true_iff, negb_true_iff, Z.eqb_neq. lia.
Qed.

Lemma same_others_overlaps o d d' base size : same_others o d d' ->
  overlaps_table_base d' o base size = overlaps_table_base d o base size /\
  Memory_overlaps_other (ld_memory d') o base size = Memory_overlaps_other (ld_memory d) o base size.
Proof.
  intros [Hl Hs _ _].
  assert (Hov : Memory_overlaps_other (ld_memory d') o base size
    = Memory_overlaps_other (ld_memory d) o base size).
  { apply eq_true_iff_eq. rewrite !overlaps_other_in.
    split; intros (s & Hin & Ho & Hv); exists s; split; try done; by apply Hs. }
  split; [|exact Hov]. apply eq_true_iff_eq. rewrite !overlaps_table_base_spec, Hov.
  apply or_iff_compat_r. split; intros (i & os & E & Hne & H); exists i, os;
    rewrite Hl in * by done; done.
Qed.

(** Unload frees the object's memory. *)
Lemma unload_step d o st base mcb : object_at d o st base mcb ->
  exists d', on_load_control_write o 1 1 (LoadControl_encode_full Unload) d
    = Some (Ok (property_answer o PID_LOAD_STATE_CONTROL 1 1 [0]), d') /\
  object_at d' o SimUnloaded base None /\ same_others o d d' /\ cells (ld_memory d') = cells (ld_memory d).
Proof.
  intros Hat. destruct Hat as [[size Hl] [props Ho] Ha Hr Hs].
  assert (Hat : object_at d o st base mcb) by (split; eauto).
  unfold on_load_control_write. rewrite Ha. cbn [Z.eqb negb].
  change (length (LoadControl_encode_full Unload) =? 10)%nat with true. cbn [negb].
  unfold on_load_state_write. rewrite Hl.
  change (LoadEvent_decode (LoadControl_encode_full Unload)) with
    (Ok (E := LoadEventError) EvUnload). cbv iota.
  rewrite (not_intermediate _ _ _ _ _ Hat). cbn [os_lsm].
  assert (Happ : forall st size, LoadStateMachine_apply (MkLsm st size) EvUnload
    = (Ok SimUnloaded, MkLsm SimUnloaded None)) by (intros [] ?; done).
  rewrite Happ. cbn [load_event_effect mbind option_bind].
  set (d2 := update_loadable os_clear_mcb o _). rewrite begin_intermediate_none by done.
  assert (Hat' : object_at d2 o SimUnloaded base None).
  { split; try done.
    - exists None. cbn. rewrite !lookup_alter_eq, Hl. done.
    - cbn. rewrite lookup_alter_eq, Ho. by eexists. }
  rewrite (report_settled _ _ _ _ _ Hat'). exists d2. split; [done|]. split; [done|].
  split; [|done]. split; [|intros s Hs'|done|].
  - intros i Hi. cbn. by rewrite !lookup_alter_ne by done.
  - cbn. rewrite filter_In. rewrite Hs'. simpl. tauto.
  - intros i Hi. cbn. by rewrite lookup_alter_ne.
Qed.

Lemma start_step d o base : object_at d o SimUnloaded base None ->
  exists d', on_load_control_write o 1 1 (LoadControl_encode_full StartLoading) d
    = Some (Ok (property_answer o PID_LOAD_STATE_CONTROL 1 1 [2]), d') /\
  object_at d' o SimLoading base None /\ same_others o d d' /\ ld_memory d' = ld_memory d.
Proof.
  intros Hat. destruct (at_loadable _ _ _ _ _ Hat) as [size Hl]. eexists.
  destruct (on_simple_event d o SimUnloaded base None (LoadControl_encode_full StartLoading)
    EvStartLoading SimLoading size None Hl Hat) as [E Hat'];
    [reflexivity|reflexivity|reflexivity|by left|].
  split; [exact E|]. split; [exact Hat'|]. split; [|done]. split; [|done|done|done].
  intros i Hi. cbn. by rewrite lookup_alter_ne.
Qed.

Lemma complete_step d o base : object_at d o SimLoading base None ->
  exists d', on_load_control_write o 1 1 (LoadControl_encode_full LoadCompleted) d
    = Some (Ok (property_answer o PID_LOAD_STATE_CONTROL 1 1 [1]), d') /\
  object_at d' o SimLoaded base None /\ same_others o d d' /\ ld_memory d' = ld_memory d.
Proof.
  intros Hat. destruct (at_loadable _ _ _ _ _ Hat) as [size Hl]. eexists.
  destruct (on_simple_event d o SimLoading base None (LoadControl_encode_full LoadCompleted)
    EvLoadCompleted SimLoaded size size Hl Hat) as [E Hat'];
    [reflexivity|reflexivity|reflexivity|by right|].
  split; [exact E|]. split; [exact Hat'|]. split; [|done]. split; [|done|done|done].
  intros i Hi. cbn. by rewrite lookup_alter_ne.
Qed.

(** Filling a segment leaves the octets outside it. *)
Lemma fill_outside (byte : u8) k l : forall c : gmap Z u8, ~ In k l ->
  foldl (fun c addr => if byte =? 0 then delete addr c else <[addr := byte]> c) c l !! k = c !! k.
Proof.
  induction l as [|a l IH]; intros c Hk; [done|]. cbn [foldl]. rewrite IH by (intros H; apply Hk; by right).
  assert (a <> k) by (intros ->; apply Hk; by left).
  destruct (byte =? 0); [by rewrite lookup_delete_ne|by rewrite lookup_insert_ne].
Qed.

Lemma fill_owner_outside m o byte base size k : Memory_segment_of m o = Some (MkSegment o base size) ->
  ~ (base <= k < base + size) -> cells (Memory_fill_owner m o byte) !! k = cells m !! k.
Proof.
  intros Hm Hk. unfold Memory_fill_owner. rewrite Hm. cbn [seg_base seg_len cells]. apply fill_outside.
  intros Hin%list_elem_of_In%elem_of_seqZ. unfold u32_saturating_add in Hin. lia.
Qed.

Lemma find_app_skip {A} (f : A -> bool) l x : (forall y, In y l -> f y = false) -> f x = true ->
  List.find f (l ++ [x]) = Some x.
Proof.
  intros Hl Hx. induction l as [|y l IH]; simpl; [by rewrite Hx|].
  rewrite (Hl y) by (by left). apply IH. intros z Hz. apply Hl. by right.
Qed.

(** An allocation the device can place where the object's base is. *)
Lemma alloc_effect d o base size fill :
  object_at d o SimLoading base None ->
  (match ld_max_allocation d with Some max => size <= max | None => True end) ->
  1 <= o <= 3 \/ overlaps_table_base d o base size = false ->
  exists d', alloc_rel_segment o size fill d = Some (Ok tt, d') /\
  object_at d' o SimLoading base None /\ same_others o d d' /\
  (exists props, ld_objects d' !! o = Some props /\ props !! PID_TABLE_REFERENCE = Some (be_bytes 4 base)) /\
  segments (ld_memory d')
  = List.filter (fun s => negb (owned o s)) (segments (ld_memory d)) ++ [MkSegment o base size] /\
  forall k, ~ (base <= k < base + size) -> cells (ld_memory d') !! k = cells (ld_memory d) !! k.
Proof.
  intros [[sz Hl] [props Ho] Ha Hr Hs] Hmax Hplace. unfold alloc_rel_segment.
  assert (Hm : (match ld_max_allocation d with Some max => max <? size | None => false end) = false)
    by (destruct (ld_max_allocation d); [apply Z.ltb_ge; lia|done]).
  rewrite Hm, Hl. cbn [os_base].
  assert (Hstay : negb ((1 <=? o) && (o <=? 3)) && overlaps_table_base d o base size = false).
  { destruct Hplace as [Hp| ->]; [|apply andb_false_r].
    rewrite (proj2 (Z.leb_le _ _)), (proj2 (Z.leb_le _ _)) by lia. done. }
  rewrite Hstay. cbn [mbind option_bind].
  set (d3 := match fill with Some byte => _ | None => _ end).
  assert (Hsegs : segments (ld_memory d3)
    = List.filter (fun s => negb (owned o s)) (segments (ld_memory d)) ++ [MkSegment o base size]).
  { unfold d3. destruct fill; [|done]. cbn. unfold Memory_fill_owner. by destruct (Memory_segment_of _ _). }
  exists d3. split; [done|]. split; [|split; [|split; [|split; [exact Hsegs|]]]].
  - unfold d3. destruct fill; (split; [exists sz; exact Hl| |done|done|done]);
      cbn; rewrite lookup_alter_eq, Ho; by eexists.
  - split; [intros i Hi; unfold d3; by destruct fill| |unfold d3; by destruct fill|
      intros i Hi; unfold d3; destruct fill; cbn; by rewrite lookup_alter_ne].
    intros s Hs'. rewrite Hsegs, in_app_iff, filter_In, Hs'. simpl.
    split; [|tauto]. intros [[H _]|[<-|[]]]; [done|]. unfold owned in Hs'. simpl in Hs'.
    by rewrite Z.eqb_refl in Hs'.
  - exists (<[PID_TABLE_REFERENCE := be_bytes 4 base]> props). split; [|by rewrite lookup_insert_eq].
    unfold d3. destruct fill; cbn; by rewrite lookup_alter_eq, Ho.
  - intros k Hk. unfold d3. destruct fill as [byte|]; [|done]. cbn. rewrite (fill_owner_outside _ _ _ base size); [done| |done].
    unfold Memory_segment_of. cbn [Memory_allocate segments]. apply find_app_skip; [|unfold owned; apply Z.eqb_refl].
    intros s Hin. apply filter_In in Hin as [_ Hin]. by apply negb_true_iff.
Qed.

Lemma alloc_step d o base size mode fill :
  object_at d o SimLoading base None -> is_u32 size ->
  (match ld_max_allocation d with Some max => size <= max | None => True end) ->
  1 <= o <= 3 \/ overlaps_table_base d o base size = false ->
  exists d', on_load_control_write o 1 1 (encode_rel_segment size mode fill) d
    = Some (Ok (property_answer o PID_LOAD_STATE_CONTROL 1 1 [2]), d') /\
  object_at d' o SimLoading base None /\ same_others o d d' /\
  (exists props, ld_objects d' !! o = Some props /\ props !! PID_TABLE_REFERENCE = Some (be_bytes 4 base)) /\
  segments (ld_memory d')
  = List.filter (fun s => negb (owned o s)) (segments (ld_memory d)) ++ [MkSegment o base size] /\
  forall k, ~ (base <= k < base + size) -> cells (ld_memory d') !! k = cells (ld_memory d) !! k.
Proof.
  intros Hat Hsz Hmax Hplace. destruct (at_loadable _ _ _ _ _ Hat) as [sz Hl].
  unfold on_load_control_write. rewrite (at_access _ _ _ _ _ Hat). cbn [Z.eqb negb].
  assert (Hlen : length (encode_rel_segment size mode fill) = 10%nat)
    by (unfold encode_rel_segment; rewrite !length_app, length_be_bytes; done).
  rewrite Hlen. cbn [Nat.eqb negb]. unfold on_load_state_write. rewrite Hl.
  rewrite (rel_segment_decodes size mode fill Hsz). cbv iota.
  rewrite (not_intermediate _ _ _ _ _ Hat). cbn [os_lsm lsm_state LoadStateMachine_apply].
  set (d1 := update_loadable _ _ _).
  assert (Hat1 : object_at d1 o SimLoading base None).
  { destruct Hat as [_ Ho Ha Hr Hs]. split; try done. exists (Some size). cbn. by rewrite lookup_alter_eq, Hl. }
  assert (Hso : same_others o d d1).
  { split; [|done|done|done]. intros i Hi. cbn. by rewrite lookup_alter_ne. }
  destruct (same_others_overlaps o d d1 base size Hso) as [Hov _].
  destruct (alloc_effect d1 o base size (if negb (Z.land mode 1 =? 0) then Some fill else None) Hat1 Hmax)
    as (d3 & E & Hat3 & Hso3 & Hp & Hsegs & Hcells); [by rewrite Hov|].
  cbn [load_event_effect]. rewrite E. cbn [mbind option_bind].
  rewrite (report_settled _ _ _ _ _ Hat3). exists d3. split; [done|]. split; [exact Hat3|].
  split; [by eapply same_others_trans|]. split; [exact Hp|]. split; [exact Hsegs|exact Hcells].
Qed.

(** ** The memory after an allocation *)

Section Placed.
  Context (m : Memory) (o : u8) (base size : Z) (old : list Segment).
  Context (Hsegs : segments m = List.filter (fun s => negb (owned o s)) old ++ [MkSegment o base size]).
  Context (Hfree : Memory_overlaps_other m o base size = false).

Lemma placed_contains n : 0 < n <= size ->
  List.find (fun s => Segment_contains s base n) (segments m) = Some (MkSegment o base size).
Proof.
  intros Hn. rewrite Hsegs. apply find_app_skip.
  - intros s Hin. apply not_true_iff_false. intros Hc. apply contains_bounds in Hc.
    apply filter_In in Hin as [Hin Ho]. apply negb_true_iff in Ho.
    apply not_true_iff_false in Hfree. apply Hfree, overlaps_other_in. exists s.
    split; [rewrite Hsegs, in_app_iff, filter_In, Ho; by left|]. split; [done|].
    apply overlaps_bounds. unfold seg_end at 1. cbn [seg_base seg_len]. lia.
  - unfold Segment_contains, seg_end. cbn [seg_base seg_len]. apply andb_true_iff. lia.
Qed.

Lemma placed_owned : Memory_segment_of m o = Some (MkSegment o base size).
Proof.
  unfold Memory_segment_of. rewrite Hsegs. apply find_app_skip.
  - intros s Hin. apply filter_In in Hin as [_ Ho]. by apply negb_true_iff.
  - unfold owned. apply Z.eqb_refl.
Qed.

Lemma placed_write data : 0 < zlen data <= size ->
  Memory_write m o base data = Ok (MkMemory (write_cells (cells m) base 0 data) (segments m)).
Proof.
  intros Hd. unfold Memory_write. rewrite placed_contains by done. cbn [seg_owner].
  by rewrite Z.eqb_refl.
Qed.

End Placed.

(** An image as long as its segment is what the device's entry covers. *)
Lemma written_span_full c segs o base data : 0 <= base -> base + zlen data <= 4294967296 ->
  0 < zlen data ->
  Memory_segment_of (MkMemory (write_cells c base 0 data) segs) o = Some (MkSegment o base (zlen data)) ->
  Memory_written_span (MkMemory (write_cells c base 0 data) segs) o = Some data.
Proof.
  intros Hb Hl Hd Hseg. unfold Memory_written_span. rewrite Hseg. unfold seg_end. cbn [seg_base seg_len cells].
  set (keys := List.filter _ _).
  assert (Hlast : In (base + zlen data - 1) keys).
  { apply filter_In. split; [|rewrite andb_true_iff; lia].
    destruct (lookup_lt_is_Some_2 data (length data - 1)) as [b Eb]; [unfold zlen in Hd; lia|].
    apply in_map_iff. exists (base + zlen data - 1, b). split; [done|].
    apply list_elem_of_In, elem_of_map_to_list. rewrite write_cells_lookup, decide_True by lia.
    replace (Z.to_nat (base + zlen data - 1 - (base + 0))) with (length data - 1)%nat
      by (unfold zlen; lia). exact Eb. }
  pose proof (maximum_spec keys) as Hmax. destruct (maximum keys) as [h|]; [|by rewrite Hmax in Hlast].
  destruct Hmax as [Hin Hle]. apply Hle in Hlast. apply filter_In in Hin as [_ Hin].
  apply andb_true_iff in Hin as [_ Hh]. apply Z.ltb_lt in Hh.
  replace (h - base + 1) with (zlen data) by lia.
  f_equal. apply (Memory_read_written (MkMemory c segs)); done.
Qed.

(** ** The client's operations against the device *)

Lemma client_control o c st' d d' (t : Z) :
  on_load_control_write o 1 1 (LoadControl_encode_full c) d
    = Some (Ok (property_answer o PID_LOAD_STATE_CONTROL 1 1 [LoadState_octet st']), d') ->
  trusted_echo c = Some st' -> c <> AdditionalLoadControls ->
  write_load_control o c (d, t) = (Ok st', (d', t)).
Proof.
  intros E Ht Hc. unfold write_load_control, write_load_control_with_poll, mbind, Mgmt_op_bind.
  cbn [property_write_request sim_device fst snd]. rewrite Z.eqb_refl, E.
  destruct c; simpl in Ht; try done; injection Ht as <-; reflexivity.
Qed.

Lemma client_allocate o size mode fill base d d' props (t : Z) :
  on_load_control_write o 1 1 (encode_rel_segment size mode fill) d
    = Some (Ok (property_answer o PID_LOAD_STATE_CONTROL 1 1 [2]), d') ->
  ld_objects d' !! o = Some props -> props !! PID_TABLE_REFERENCE = Some (be_bytes 4 base) ->
  is_u32 base ->
  allocate_segment o size mode fill (d, t) = (Ok (MkSegmentAllocation base size), (d', t)).
Proof.
  intros E Ho Hp Hb. unfold allocate_segment, mbind, Mgmt_op_bind.
  cbn [property_write_request sim_device fst snd]. rewrite Z.eqb_refl, E.
  assert (Hans : answer_of (property_answer o PID_LOAD_STATE_CONTROL 1 1 [2]) (d', t)
    = (Ok (MkPropertyValueResponse o 5 1 1 [2]), (d', t))) by reflexivity.
  rewrite Hans. cbn [echoed_load_state trusted_echo pvr_data pvr_count].
  change ((1 <=? 1) && bool_decide (LoadState_from_octet 2 = Loading)) with true. cbv iota.
  unfold mret, Mgmt_op_ret at 1. cbn [bool_decide].
  rewrite (bool_decide_false (Loading = LoadState_Error)), (bool_decide_true (Loading = Loading)) by done.
  cbn [orb negb]. unfold read_table_reference, mbind, Mgmt_op_bind.
  cbn [property_request sim_device fst snd]. unfold on_property_read.
  change (PID_TABLE_REFERENCE =? PID_LOAD_STATE_CONTROL) with false.
  change (PID_TABLE_REFERENCE =? PID_MCB_TABLE) with false. cbv iota. rewrite Ho, Hp.
  assert (Hans2 : answer_of (property_answer o PID_TABLE_REFERENCE 1 1 (be_bytes 4 base)) (d', t)
    = (Ok (MkPropertyValueResponse o 7 1 1 (be_bytes 4 base)), (d', t))) by reflexivity.
  rewrite Hans2. cbn [pvr_count pvr_data]. change (0 <? 1) with true. cbv iota.
  pose proof (be_roundtrip 4 base Hb) as Hv. remember (be_bytes 4 base) as bs eqn:Ebs.
  assert (Hlen : length bs = 4%nat) by (subst bs; apply length_be_bytes).
  destruct bs as [|x0 [|x1 [|x2 [|x3 [|]]]]]; try done. unfold Mgmt_op_ret. by rewrite Hv.
Qed.

(** ** The download of one object, end to end *)

(** The client's operations in the order of a System B download of one object:
    free it, open it, have a segment allocated, write the image, close it, and
    check what the device stored. *)
Definition load_object {S} `{L4Management S} (o : u8) (mode fill : u8) (image : bytes)
    : Mgmt_op S SegmentAllocation :=
  _ ← write_load_control o Unload;
  _ ← write_load_control o StartLoading;
  seg ← allocate_segment o (zlen image) mode fill;
  _ ← write_memory (sa_address seg) image;
  _ ← write_load_control o LoadCompleted;
  _ ← read_mcb_table o 1 1 (Some image);
  mret seg.

(** The write of the image, and the check after the load. *)
Lemma write_step d o base image :
  object_at d o SimLoading base None -> 0 < zlen image ->
  Memory_segment_at (ld_memory d) base = Some (MkSegment o base (zlen image)) ->
  Memory_write (ld_memory d) o base image
    = Ok (MkMemory (write_cells (cells (ld_memory d)) base 0 image) (segments (ld_memory d))) ->
  exists d', on_memory_write base image d = (Ok tt, d') /\ object_at d' o SimLoading base None /\
    ld_memory d' = MkMemory (write_cells (cells (ld_memory d)) base 0 image) (segments (ld_memory d)) /\
    same_others o d d'.
Proof.
  intros Hat Hi Hseg Hw. unfold on_memory_write. rewrite (at_access _ _ _ _ _ Hat). cbn [Z.eqb negb].
  rewrite Hseg. cbn [seg_owner]. destruct (at_loadable _ _ _ _ _ Hat) as [size Hl].
  assert (Hst : load_state d o = Some SimLoading) by (unfold load_state; by rewrite Hl).
  rewrite Hst, bool_decide_true by done. cbn [negb]. rewrite Hw.
  eexists. split; [reflexivity|]. split; [|done]. by destruct Hat; split.
Qed.

Lemma mcb_read_step d o base image (t : Z) :
  object_at d o SimLoaded base None -> zlen image < 4294967296 ->
  Memory_written_span (ld_memory d) o = Some image ->
  read_mcb_table o 1 1 (Some image) (d, t)
  = (Ok [MkMcbEntry (zlen image) 0 255 (crc16_ccitt image)], (d, t)).
Proof.
  intros Hat Hl Hspan.
  rewrite (read_mcb_single o image image (MkPropertyValueResponse o PID_MCB_TABLE 1 1 (sim_mcb_entry image))
    (d, t) (d, t)); [by rewrite Z.eqb_refl|done|done| |done|done].
  cbn [property_request sim_device fst snd]. unfold on_property_read.
  change (PID_MCB_TABLE =? PID_LOAD_STATE_CONTROL) with false. rewrite Z.eqb_refl. cbv iota.
  change (1 <? 1) with false. cbv iota. unfold mcb_entry_for.
  destruct (at_loadable _ _ _ _ _ Hat) as [size Hlo]. rewrite Hlo, Hspan. reflexivity.
Qed.

(** C29: A download of one object does what it says, end to end.  Whatever load state
    the object was in, on a device that answers with access level 0 and reports no
    intermediate load states, if nothing of another object lies where its segment
    goes and the device has room, the client's unload, open, allocate, write,
    complete and check all succeed against the simulated device.  The segment is
    where the client was told, the object is Loaded and its memory holds the image.
    Nothing else changed: not another object's load state, base, properties or
    segment, nor an octet of the memory outside the segment. *)
Theorem download_end_to_end d o st base mcb mode fill image t :
  object_at d o st base mcb -> is_u32 base ->
  0 < zlen image -> base + zlen image <= 4294967296 -> is_u32 (zlen image) ->
  (match ld_max_allocation d with Some max => zlen image <= max | None => True end) ->
  1 <= o <= 3 \/ overlaps_table_base d o base (zlen image) = false ->
  Memory_overlaps_other (ld_memory d) o base (zlen image) = false ->
  exists d', load_object o mode fill image (d, t)
      = (Ok (MkSegmentAllocation base (zlen image)), (d', t)) /\
    load_state d' o = Some SimLoaded /\ Memory_read (ld_memory d') base (zlen image) = image /\
    Memory_segment_of (ld_memory d') o = Some (MkSegment o base (zlen image)) /\
    (forall i, i <> o -> ld_loadables d' !! i = ld_loadables d !! i /\ ld_objects d' !! i = ld_objects d !! i) /\
    (forall seg, seg_owner seg <> o -> In seg (segments (ld_memory d')) <-> In seg (segments (ld_memory d))) /\
    (forall k, ~ (base <= k < base + zlen image) -> cells (ld_memory d') !! k = cells (ld_memory d) !! k).
Proof.
  intros Hat Hb Hi Hfit Hsz Hmax Hplace Hfree.
  destruct (unload_step _ _ _ _ _ Hat) as (d1 & E1 & Hat1 & So1 & Hc1).
  destruct (start_step _ _ _ Hat1) as (d2 & E2 & Hat2 & So2 & Hm2).
  pose proof (same_others_trans _ _ _ _ So1 So2) as So12.
  destruct (same_others_overlaps o d d2 base (zlen image) So12) as [Hov2 Hfr2].
  destruct (alloc_step d2 o base (zlen image) mode fill Hat2 Hsz) as
    (d3 & E3 & Hat3 & So3 & (props & Hp & Hp7) & Hsegs & Hc3);
    [by rewrite (so_max _ _ _ So12)|by rewrite Hov2|].
  destruct (same_others_overlaps o d2 d3 base (zlen image) So3) as [_ Hfr3].
  rewrite Hfr2, Hfree in Hfr3.
  pose proof (placed_contains _ o base (zlen image) _ Hsegs Hfr3 1 ltac:(lia)) as Hseg1.
  pose proof (placed_write _ o base (zlen image) _ Hsegs Hfr3 image ltac:(lia)) as Hw.
  destruct (write_step d3 o base image Hat3 Hi Hseg1 Hw) as (d4 & E4 & Hat4 & Hm4 & So4).
  destruct (complete_step d4 o base Hat4) as (d5 & E5 & Hat5 & So5 & Hm5).
  pose proof (placed_owned _ o base (zlen image) _ Hsegs) as Hown.
  assert (So : same_others o d d5) by (eapply same_others_trans; [exact So12|]; eapply same_others_trans; [exact So3|];
    by eapply same_others_trans).
  assert (Hspan : Memory_written_span (ld_memory d5) o = Some image).
  { rewrite Hm5, Hm4. apply written_span_full; [unfold is_u32 in Hb; lia|done|done|exact Hown]. }
  exists d5. split; [|split; [|split; [|split; [|split; [|split]]]]].
  - unfold load_object, mbind, Mgmt_op_bind.
    rewrite (client_control o Unload Unloaded d d1 t E1), (client_control o StartLoading Loading d1 d2 t E2) by done.
    rewrite (client_allocate o (zlen image) mode fill base d2 d3 props t E3 Hp Hp7 Hb). cbn [sa_address].
    cbn [write_memory sim_device fst snd]. rewrite E4.
    rewrite (client_control o LoadCompleted Loaded d4 d5 t E5) by done.
    rewrite (mcb_read_step d5 o base image t Hat5) by (unfold is_u32 in Hsz; (lia || done)). done.
  - destruct (at_loadable _ _ _ _ _ Hat5) as [size Hl]. unfold load_state. by rewrite Hl.
  - rewrite Hm5, Hm4. apply Memory_read_written; [unfold is_u32 in Hb; lia|done].
  - rewrite Hm5, Hm4. exact Hown.
  - intros i Hne. split; [by apply (so_loadables _ _ _ So)|by apply (so_objects _ _ _ So)].
  - intros seg Hs. apply (so_segments _ _ _ So). by apply Z.eqb_neq.
  - intros k Hk. rewrite Hm5, Hm4. cbn [cells].
    rewrite write_cells_lookup, Z.add_0_r, decide_False by (unfold is_u32 in Hb; lia).
    rewrite Hc3 by done. by rewrite Hm2, Hc1.
Qed.

(** ** Witness: an application object placed beside its tables *)

Definition demo_object (st : SimLoadState) (base : u32) : ObjectState :=
  MkObjectState (MkLsm st None) base None.

Definition demo_load_device : LoadDevice :=
  MkLoadDevice {[1 := demo_object SimLoaded 24576; 4 := demo_object SimError 49152]}
    {[1 := ∅; 4 := ∅]} (MkMemory ∅ [MkSegment 1 24576 64]) 0 None 0 ∅.

Lemma download_end_to_end_witness : exists d',
  load_object 4 1 255 [10; 20; 30] (demo_load_device, 0) = (Ok (MkSegmentAllocation 49152 3), (d', 0)) /\
  Memory_read (ld_memory d') 49152 3 = [10; 20; 30] /\ cells (ld_memory d') !! 49155 = None /\
  ld_loadables d' !! 1 = Some (demo_object SimLoaded 24576).
Proof.
  destruct (download_end_to_end demo_load_device 4 SimError 49152 None 1 255 [10; 20; 30] 0)
    as (d' & E & _ & Hr & _ & Ho & _ & Hc).
  - split; [exists None; reflexivity|exists ∅; reflexivity|reflexivity|reflexivity|reflexivity].
  - split; [discriminate|reflexivity].
  - reflexivity.
  - discriminate.
  - split; [discriminate|reflexivity].
  - exact I.
  - right. vm_compute. reflexivity.
  - vm_compute. reflexivity.
  - exists d'. split; [exact E|]. split; [exact Hr|]. split.
    + rewrite Hc; [reflexivity|]. change (zlen [10; 20; 30]) with 3. lia.
    + by destruct (Ho 1 ltac:(discriminate)) as [-> _].
Defined.
