(* ===== verification/SimApp.v ===== *)
(** * The simulated device's application layer ([knx-sim/src/device/apci.rs, memory_access.rs])

    The dispatch of a decoded APDU on a System B device without Data Secure, and
    its memory, authorization and descriptor services, over the load side of
    [SimLoad]; the services of other files (properties, restart) are the interface
    [DeviceServices].  An instance of the transport layer's [DeviceApp] and, on the
    services modelled here, of [AnsweringApp]. *)

From S2P Require Import Prelude Address Cursor Cemi Tpci SimWire SimMemory.
From S2P Require Import SimTransport MgmtError Crypto Sequence Asdu SecureSession Apci.
From S2P Require Import Connection SimBus L4Compose Load Mcb Sys7 SimLsm SimLoad.

Local Open Scope string_scope.
Local Open Scope list_scope.
Local Open Scope Z_scope.

(** ** State *)

Record SimApp : Type := MkSimApp {
  sa_address : SimIndividualAddress;
  sa_mask : u16;
  sa_load : LoadDevice }.

Definition sa_set_load (d : LoadDevice) (a : SimApp) : SimApp :=
  MkSimApp (sa_address a) (sa_mask a) d.

Definition ld_set_access (level : u8) (d : LoadDevice) : LoadDevice :=
  MkLoadDevice (ld_loadables d) (ld_objects d) (ld_memory d) level (ld_max_allocation d)
    (ld_intermediate_reports d) (ld_intermediate d).

Definition SIM_PID_DEVICE_CONTROL : u8 := 14.
Definition A_SECURE_DATA_APCI : u16 := 1009.

(** A service's outcome: an error, or the APCI and data of its answer, if any. *)
Definition Service : Type := result DeviceError (option (u16 * bytes)) * SimApp.

(** The services of the files not modelled here; a restart may drop the
    connection and reset the device. *)
Class DeviceServices : Type := {
  svc_property_read : SimApp -> SimIndividualAddress -> SimApdu -> Service;
  svc_property_write : SimApp -> SimIndividualAddress -> SimApdu -> Service;
  svc_property_description_read : SimApp -> SimIndividualAddress -> SimApdu -> Service;
  svc_extended_property : SimApp -> SimIndividualAddress -> SimApdu -> Service;
  svc_function_property : SimApp -> SimIndividualAddress -> SimApdu -> Service;
  svc_restart : SimApp -> u8 -> CemiLData -> SimApdu -> AppResult SimApp }.

(** ** Verify mode *)

Definition verify_mode (d : LoadDevice) : bool :=
  match props ← ld_objects d !! 0; props !! SIM_PID_DEVICE_CONTROL with
  | Some (b :: _) => negb (Z.land b 4 =? 0)
  | _ => false
  end.

Definition clear_verify_mode (d : LoadDevice) : LoadDevice :=
  ld_set_objects
    (alter (alter (fun value => match value with
                                | b :: rest => Z.land b 251 :: rest
                                | [] => []
                                end) SIM_PID_DEVICE_CONTROL) 0 (ld_objects d)) d.

(** ** Memory services *)

(** [bussard_extended_request]: the count, the address and the data of a write. *)
Definition sim_extended_request (payload : bytes) (is_write : bool) : option (u8 * u32 * bytes) :=
  match payload with
  | count :: a2 :: a1 :: a0 :: data =>
      let addr := be_val [0; a2; a1; a0] in
      if is_write then
        if zlen data <? count then None else Some (count, addr, take (Z.to_nat count) data)
      else Some (count, addr, [])
  | _ => None
  end.

Definition addr_24 (addr : u32) : bytes :=
  [as_u8 (Z.shiftr addr 16); as_u8 (Z.shiftr addr 8); as_u8 addr].

Definition on_memory_read (a : SimApp) (apdu : SimApdu) : Service :=
  let n := sim_memory_count apdu in
  match sim_apdu_data apdu with
  | hi :: lo :: _ =>
      let addr := u16_of hi lo in
      (Ok (Some (Z.lor 576 (Z.land n 63),
                 be_bytes 2 addr ++ Memory_read (ld_memory (sa_load a)) addr n)), a)
  | _ => (Err (Malformed "A_MemoryRead" "missing address"), a)
  end.

(** The checks and the store shared by the three writes: access, segment, owner
    loading. *)
Definition store (addr : u32) (payload : bytes) (a : SimApp) : result DeviceError unit * SimApp :=
  let '(r, d) := on_memory_write addr payload (sa_load a) in (r, sa_set_load d a).

Definition require_access (a : SimApp) (k : Service) : Service :=
  if negb (ld_access_level (sa_load a) =? 0)
  then (Err (Unauthorized (ld_access_level (sa_load a))), a) else k.

Definition on_memory_write_apdu (a : SimApp) (apdu : SimApdu) : Service :=
  require_access a
    (let n := sim_memory_count apdu in
     match sim_apdu_data apdu with
     | hi :: lo :: data =>
         if zlen data <? n then (Err (Malformed "A_MemoryWrite" "payload shorter than declared count"), a)
         else
           let addr := u16_of hi lo in
           let '(r, a) := store addr (take (Z.to_nat n) data) a in
           match r with
           | Err e => (Err e, a)
           | Ok _ =>
               if verify_mode (sa_load a)
               then (Ok (Some (Z.lor 576 (Z.land n 63),
                               be_bytes 2 addr ++ Memory_read (ld_memory (sa_load a)) addr n)), a)
               else (Ok None, a)
           end
     | _ => (Err (Malformed "A_MemoryWrite" "payload shorter than declared count"), a)
     end).

Definition on_memory_extended_write (a : SimApp) (apdu : SimApdu) : Service :=
  require_access a
    match sim_extended_request (sim_apdu_data apdu) true with
    | None => (Err (Malformed "A_MemoryExtended_Write" "payload shorter than [count][addr:3]"), a)
    | Some (count, addr, data) =>
        let '(r, a) := store addr data a in
        match r with
        | Err e => (Err e, a)
        | Ok _ => (Ok (Some (sim_apci_to_u10 SimMemoryExtendedWriteResponse, 0 :: addr_24 addr)), a)
        end
    end.

Definition on_memory_extended_read (a : SimApp) (apdu : SimApdu) : Service :=
  match sim_extended_request (sim_apdu_data apdu) false with
  | None => (Err (Malformed "A_MemoryExtended_Read" "payload shorter than [count][addr:3]"), a)
  | Some (count, addr, _) =>
      (Ok (Some (sim_apci_to_u10 SimMemoryExtendedReadResponse,
                 0 :: addr_24 addr ++ Memory_read (ld_memory (sa_load a)) addr count)), a)
  end.

(** The 20-bit address and the count of a user-memory request, and its data. *)
Definition sim_user_memory_header (data : bytes) : option (u32 * Z * bytes) :=
  match data with
  | h0 :: h1 :: h2 :: rest =>
      Some (Z.lor (Z.shiftl (Z.shiftr h0 4) 16) (u16_of h1 h2), Z.land h0 15, rest)
  | _ => None
  end.

Definition on_user_memory_write (a : SimApp) (apdu : SimApdu) : Service :=
  require_access a
    match sim_user_memory_header (sim_apdu_data apdu) with
    | None => (Err (Malformed "A_UserMemory_Write" "payload shorter than [ext|count][addr:2]"), a)
    | Some (addr, n, data) =>
        if zlen data <? n then (Err (Malformed "A_UserMemory_Write" "payload shorter than declared count"), a)
        else
          let '(r, a) := store addr (take (Z.to_nat n) data) a in
          match r with
          | Err e => (Err e, a)
          | Ok _ =>
              if negb (verify_mode (sa_load a)) then (Ok None, a)
              else (Ok (Some (sim_apci_to_u10 SimUserMemoryResponse,
                              take 3 (sim_apdu_data apdu)
                              ++ Memory_read (ld_memory (sa_load a)) addr n)), a)
          end
    end.

Definition on_user_memory_read (a : SimApp) (apdu : SimApdu) : Service :=
  match sim_user_memory_header (sim_apdu_data apdu) with
  | None => (Err (Malformed "A_UserMemory_Read" "payload shorter than [ext|count][addr:2]"), a)
  | Some (addr, n, _) =>
      (Ok (Some (sim_apci_to_u10 SimUserMemoryResponse,
                 take 3 (sim_apdu_data apdu) ++ Memory_read (ld_memory (sa_load a)) addr n)), a)
  end.

(** ** Authorization and the descriptor *)

(** A System B device has no key of its own: every key grants level 0. *)
Definition on_authorize (a : SimApp) (apdu : SimApdu) : Service :=
  if (length (sim_apdu_data apdu) <? 5)%nat
  then (Err (Malformed "A_Authorize" "expected 5 data bytes"), a)
  else (Ok (Some (978, [0])), sa_set_load (ld_set_access 0 (sa_load a)) a).

Definition on_device_descriptor_read (a : SimApp) (dtype : u8) : Service :=
  (Ok (Some (Z.lor 832 (Z.land dtype 63), be_bytes 2 (sa_mask a))), a).

(** ** The dispatch *)

Section Dispatch.
  Context `{S : DeviceServices}.

(** [respond]: a numbered answer of the device, with the advanced sequence. *)
Definition app_respond (a : SimApp) (tx : u8) (to : SimIndividualAddress) (answer : option (u16 * bytes))
    : list CemiLData * u8 :=
  match answer with
  | Some (apci10, data) =>
      ([MkCemiLData SimLDataInd 188 96 (sa_address a) (sim_ia_raw to)
          (sim_encode_connected tx apci10 data)], Z.land (tx + 1) 15)
  | None => ([], tx)
  end.

Definition reply (tx : u8) (to : SimIndividualAddress) (connected : bool) (s : Service)
    : AppResult SimApp :=
  let '(r, a) := s in
  match r with
  | Err e => MkAppResult (Err e) a connected tx
  | Ok answer =>
      let '(out, tx) := app_respond a tx to answer in
      MkAppResult (Ok (MkReaction out false)) a connected tx
  end.

(** T_Data_Individual: no sequence, keep the APCI bits. *)
Definition unnumbered_answer (c : CemiLData) : CemiLData :=
  match sim_tpdu c with
  | b :: rest => MkCemiLData (sim_message_code c) (sim_ctrl1 c) (sim_ctrl2 c) (sim_source c) (sim_dest c)
                   (Z.land b 3 :: rest)
  | [] => c
  end.

(** The services of a connectionless request. *)
Definition connectionless_service (a : SimApp) (tool : SimIndividualAddress) (apdu : SimApdu) : Service :=
  match sim_apci apdu with
  | SimDeviceDescriptorRead t => on_device_descriptor_read a t
  | SimPropertyValueRead => svc_property_read a tool apdu
  | SimPropertyValueWrite => svc_property_write a tool apdu
  | SimPropertyDescriptionRead => svc_property_description_read a tool apdu
  | SimPropertyExtValueRead | SimPropertyExtValueWriteCon | SimPropertyExtDescriptionRead
  | SimFunctionPropertyExtCommand | SimFunctionPropertyExtStateRead => svc_extended_property a tool apdu
  | SimFunctionPropertyCommand | SimFunctionPropertyStateRead => svc_function_property a tool apdu
  | _ => (Err NotConnected, a)
  end.

(** The services of a request on the open connection, the restart excepted. *)
Definition connected_service (a : SimApp) (tool : SimIndividualAddress) (apdu : SimApdu) : Service :=
  match sim_apci apdu with
  | SimAuthorizeRequest => on_authorize a apdu
  | SimPropertyValueRead => svc_property_read a tool apdu
  | SimPropertyValueWrite => svc_property_write a tool apdu
  | SimMemoryRead _ => on_memory_read a apdu
  | SimMemoryWrite _ => on_memory_write_apdu a apdu
  | SimMemoryExtendedWrite => on_memory_extended_write a apdu
  | SimUserMemoryWrite => on_user_memory_write a apdu
  | SimUserMemoryRead => on_user_memory_read a apdu
  | SimMemoryExtendedRead => on_memory_extended_read a apdu
  | SimDeviceDescriptorRead t => on_device_descriptor_read a t
  | SimPropertyDescriptionRead => svc_property_description_read a tool apdu
  | SimPropertyExtValueRead | SimPropertyExtValueWriteCon | SimPropertyExtDescriptionRead
  | SimFunctionPropertyExtCommand | SimFunctionPropertyExtStateRead => svc_extended_property a tool apdu
  | SimFunctionPropertyCommand | SimFunctionPropertyStateRead => svc_function_property a tool apdu
  | _ => (Ok None, a)
  end.

Definition dispatch_apdu (a : SimApp) (connected : bool) (tx : u8) (cemi : CemiLData) (apdu : SimApdu)
    : AppResult SimApp :=
  let tool := sim_source cemi in
  if negb connected then
    let unnumbered := match sim_tpdu cemi with b :: _ => Z.land b 192 =? 0 | [] => false end in
    if negb unnumbered then MkAppResult (Err NotConnected) a false tx
    else
      let r := reply tx tool false (connectionless_service a tool apdu) in
      MkAppResult
        (match ar_result r with
         | Ok reaction => Ok (MkReaction (map unnumbered_answer (responses reaction)) (did_master_reset reaction))
         | Err e => Err e
         end) (ar_app r) false tx
  else
    match sim_apci apdu with
    | SimRestart | SimRestartResponse => svc_restart a tx cemi apdu
    | _ => reply tx tool true (connected_service a tool apdu)
    end.

(** [handle_apdu] of a device that was never security-activated. *)
Definition handle_plain_apdu (a : SimApp) (connected : bool) (tx : u8) (cemi : CemiLData) (apdu : SimApdu)
    : AppResult SimApp :=
  if sim_apci_raw apdu =? A_SECURE_DATA_APCI
  then MkAppResult (Err (SecureRefused SimNotActivated)) a connected tx
  else dispatch_apdu a connected tx cemi apdu.

#[export] Instance sim_app : DeviceApp SimApp := {
  app_address := sa_address;
  app_sys7 _ := false;
  app_clear_verify_mode a := sa_set_load (clear_verify_mode (sa_load a)) a;
  handle_apdu := handle_plain_apdu }.

(** ** The laws *)

#[export] Instance sim_app_laws : DeviceAppLaws SimApp.
Proof.
  split.
  - intros a tx cemi apdu. cbn [handle_apdu sim_app]. unfold handle_plain_apdu, dispatch_apdu.
    destruct (_ =? _); [done|]. cbn [negb]. by destruct (negb _).
  - intros a tx cemi apdu Hn _. cbn [handle_apdu sim_app]. unfold handle_plain_apdu, dispatch_apdu.
    destruct (_ =? _); [by eexists|]. cbn [negb].
    destruct (sim_tpdu cemi) as [|b t]; [by eexists|]. cbn [nth] in Hn. rewrite Hn. by eexists.
  - done.
Qed.

(** The services modelled here, with an answer that fits a frame: the simulator's
    frame counts the octets of an extended read above 250 modulo 256. *)
Definition modelled_service (apdu : SimApdu) : Prop :=
  sim_apci_raw apdu <> A_SECURE_DATA_APCI /\
  match sim_apci apdu with
  | SimMemoryExtendedRead => 0 <= nth 0 (sim_apdu_data apdu) 0 <= 250
  | SimMemoryRead _ | SimMemoryWrite _ | SimAuthorizeRequest | SimMemoryExtendedWrite | SimUserMemoryWrite | SimUserMemoryRead
  | SimDeviceDescriptorRead _ => True
  | _ => False
  end.

Definition service_fits (s : Service) : Prop :=
  match fst s with
  | Ok (Some (apci, data)) => answer_fits apci data
  | _ => True
  end.

(** The count in the low six bits. *)
Lemma six_bits base v : base = A_MEMORY_RESPONSE \/ base = A_DEVICE_DESCRIPTOR_RESPONSE ->
  0 <= Z.lor base (Z.land v 63) < 1024.
Proof.
  intros Hb. rewrite (land_mask 6 63) by (lia || reflexivity).
  assert (Hv : 0 <= v mod 2 ^ 6 < 64) by (change (2 ^ 6) with 64; apply Z.mod_pos_bound; lia).
  revert Hv. generalize (v mod 2 ^ 6). intros n Hn.
  destruct Hb as [-> | ->];
    [refine (below_decide 64 (fun n => 0 <= Z.lor A_MEMORY_RESPONSE n < 1024) _ n Hn)|
     refine (below_decide 64 (fun n => 0 <= Z.lor A_DEVICE_DESCRIPTOR_RESPONSE n < 1024) _ n Hn)];
    vm_compute; reflexivity.
Qed.

Lemma memory_count_range apdu : 0 <= sim_memory_count apdu < 64.
Proof.
  unfold sim_memory_count. rewrite (land_mask 6 63) by (lia || reflexivity). unfold as_u8.
  change (2 ^ 6) with 64. zdiv.
Qed.

Lemma length_read m addr n k : 0 <= n <= k -> (length (Memory_read m addr n) <= Z.to_nat k)%nat.
Proof. intros Hn. pose proof (length_Memory_read m addr n) as Hl. unfold zlen in Hl. lia. Qed.

Lemma memory_answer_fits addr m n : 0 <= n < 64 ->
  answer_fits (Z.lor 576 (Z.land n 63)) (be_bytes 2 addr ++ Memory_read m addr n).
Proof.
  intros Hn. split; [apply (six_bits A_MEMORY_RESPONSE); by left|].
  rewrite length_app, length_be_bytes. pose proof (length_read m addr n 63). lia.
Qed.

Lemma user_answer_fits h m addr n : 0 <= n < 16 ->
  answer_fits (sim_apci_to_u10 SimUserMemoryResponse) (take 3 h ++ Memory_read m addr n).
Proof.
  intros Hn. split; [cbn; lia|]. rewrite length_app, length_take.
  pose proof (length_read m addr n 15). lia.
Qed.

Lemma user_header_count data addr n rest : sim_user_memory_header data = Some (addr, n, rest) ->
  0 <= n < 16.
Proof.
  destruct data as [|h0 [|h1 [|h2 t]]]; try done. cbn [sim_user_memory_header]. intros [= <- <- <-].
  rewrite (land_mask 4 15) by (lia || reflexivity). apply Z.mod_pos_bound. lia.
Qed.

(** Case analysis on the outcome of a store. *)
Ltac case_store :=
  match goal with |- context [store ?addr ?data ?a] => destruct (store addr data a) as [[[]|] ?]; [|done] end.

Lemma access_fits a k : service_fits k -> service_fits (require_access a k).
Proof. intros Hk. unfold require_access. by destruct (negb _). Qed.

Lemma write_fits a apdu :
  service_fits (on_memory_write_apdu a apdu) /\ service_fits (on_user_memory_write a apdu) /\
  service_fits (on_memory_extended_write a apdu).
Proof.
  split; [|split]; apply access_fits; cbn zeta.
  - destruct (sim_apdu_data apdu) as [|hi [|lo data]]; try done. destruct (zlen data <? _); [done|].
    case_store. destruct (verify_mode _); [|done].
    apply memory_answer_fits, memory_count_range.
  - destruct (sim_user_memory_header _) as [[[addr n] data]|] eqn:E; [|done].
    destruct (zlen data <? _); [done|]. case_store.
    destruct (negb _); [done|]. apply user_answer_fits. by eapply user_header_count.
  - destruct (sim_extended_request _ _) as [[[count addr] data]|]; [|done].
    case_store. split; cbn; lia.
Qed.

Lemma read_fits a apdu :
  service_fits (on_memory_read a apdu) /\ service_fits (on_user_memory_read a apdu) /\
  (0 <= nth 0 (sim_apdu_data apdu) 0 <= 250 -> service_fits (on_memory_extended_read a apdu)).
Proof.
  unfold on_memory_read, on_user_memory_read, on_memory_extended_read. split; [|split].
  - destruct (sim_apdu_data apdu) as [|hi [|lo data]]; try done.
    apply memory_answer_fits, memory_count_range.
  - destruct (sim_user_memory_header _) as [[[addr n] data]|] eqn:E; [|done].
    apply user_answer_fits. by eapply user_header_count.
  - intros Hc. destruct (sim_apdu_data apdu) as [|count [|a2 [|a1 [|a0 data]]]]; try done.
    cbn [nth] in Hc. cbn [sim_extended_request service_fits fst]. split; [cbn; lia|].
    cbn [length]. rewrite length_app. cbn [length addr_24].
    pose proof (length_read (ld_memory (sa_load a)) (be_val [0; a2; a1; a0]) count 250 ltac:(lia)). lia.
Qed.

Lemma modelled_fits a tool apdu : modelled_service apdu -> service_fits (connected_service a tool apdu).
Proof.
  intros [_ Hm]. destruct (write_fits a apdu) as (H1 & H2 & H3), (read_fits a apdu) as (H4 & H5 & H6).
  unfold connected_service. destruct (sim_apci apdu); try done.
  - by apply H6.
  - split; [apply (six_bits A_DEVICE_DESCRIPTOR_RESPONSE); by right|]. rewrite length_be_bytes. lia.
  - unfold on_authorize. destruct (_ <? _)%nat; [done|]. split; cbn; lia.
Qed.

Lemma store_address addr payload a r a' : store addr payload a = (r, a') -> sa_address a' = sa_address a.
Proof. unfold store. destruct (on_memory_write _ _ _). by intros [= _ <-]. Qed.

Lemma modelled_keeps_address a tool apdu : modelled_service apdu ->
  sa_address (snd (connected_service a tool apdu)) = sa_address a.
Proof.
  intros [_ Hm]. unfold connected_service, on_memory_read, on_memory_write_apdu, on_memory_extended_write,
    on_memory_extended_read, on_user_memory_write, on_user_memory_read, on_authorize, require_access.
  destruct (sim_apci apdu); try done;
    repeat first [done|case_match; cbn [snd]; try done];
    repeat match goal with E : store _ _ _ = (_, _) |- _ => apply store_address in E end; try done; simplify_eq; try done.
Qed.

Lemma numbered_not_unnumbered cemi : is_numbered cemi = true ->
  match sim_tpdu cemi with b :: _ => Z.land b 192 =? 0 | [] => false end = false.
Proof. unfold is_numbered. destruct (sim_tpdu cemi); [done|]. intros E. apply Z.eqb_eq in E. by rewrite E. Qed.

(** A modelled service on the open connection is the dispatch's last branch. *)
Lemma dispatch_modelled a tx cemi apdu : modelled_service apdu ->
  handle_plain_apdu a true tx cemi apdu
  = reply tx (sim_source cemi) true (connected_service a (sim_source cemi) apdu).
Proof.
  intros [Hr Hm]. unfold handle_plain_apdu, dispatch_apdu.
  rewrite (proj2 (Z.eqb_neq _ _)) by done. cbn [negb]. by destruct (sim_apci apdu).
Qed.

Lemma reply_app tx tool b s : ar_app (reply tx tool b s) = snd s.
Proof. destruct s as [[o|e] a]; [|done]. cbn. by destruct (app_respond a tx tool o). Qed.

#[export] Instance sim_app_answers : AnsweringApp SimApp.
Proof.
  refine {| answerable := modelled_service; answering_laws := sim_app_laws |}; cbn [app_address handle_apdu sim_app].
  - intros a [] tx cemi apdu Hm.
    + rewrite dispatch_modelled by done. rewrite reply_app. by apply modelled_keeps_address.
    + unfold handle_plain_apdu, dispatch_apdu. destruct (_ =? _); [done|]. cbn [negb].
      destruct (negb _); [done|]. cbn [ar_app]. rewrite reply_app. destruct Hm as [_ Hm].
      unfold connectionless_service. by destruct (sim_apci apdu).
  - intros a tx cemi apdu reaction Hm Hn Htx. rewrite dispatch_modelled by done.
    pose proof (modelled_fits a (sim_source cemi) apdu Hm) as Hf.
    pose proof (modelled_keeps_address a (sim_source cemi) apdu Hm) as Ha.
    destruct (connected_service _ _ _) as [[[[ap da]|]|e] a']; cbn [reply app_respond ar_result]; intros [= <-].
    + right. exists ap, da. cbn in Ha. split; [done|]. cbn [responses ar_tx_seq].
      rewrite (land_mask 4 15) by (lia || reflexivity). unfold device_answer. rewrite Ha.
      by destruct (sim_source cemi), (sa_address a).
    + by left.
  - intros a tx cemi apdu Hn _. unfold handle_plain_apdu, dispatch_apdu. destruct (_ =? _); [done|].
    cbn [negb]. by rewrite (numbered_not_unnumbered cemi Hn).
Defined.

End Dispatch.
