(* ===== verification/SimSecureApp.v ===== *)
(** * The security-activated device ([knx-sim/src/device/data_secure.rs, apci.rs])

    The interception of the simulated device's application layer: what an
    activated device does with an A_SecureData, with a S-A_Sync_Req and with a
    plain request, around any application of the class [ActivatedApp]; an instance
    of the transport layer's [DeviceApp].  A tool that shares the key is answered
    as a device without Data Secure would answer it in the clear. *)

From S2P Require Import Prelude Address Cursor Cemi Tpci SimWire SimMemory SimTransport Crypto Sequence Asdu.
From S2P Require Import SecureSession MgmtError Connection SimLsm SimLoad SimApp SimIpSecure SimDataSecure.

Local Open Scope string_scope.
Local Open Scope list_scope.
Local Open Scope Z_scope.

(** ** The application behind the interception

    [act_dispatch] is [dispatch_apdu]; [act_take_pending] are the tool key and the
    send sequence the security object has been given since the last call. *)
Class ActivatedApp (A : Type) : Type := {
  act_address : A -> SimIndividualAddress;
  act_sys7 : A -> bool;
  act_clear_verify_mode : A -> A;
  act_own_serial : A -> option bytes;
  act_take_pending : A -> option bytes * option u64 * A;
  act_dispatch : A -> bool -> u8 -> CemiLData -> SimApdu -> AppResult A }.

(** No service opens a connection, a numbered request needs one, and neither
    verify mode nor the security object changes the address. *)
Class ActivatedAppLaws (A : Type) `{ActivatedApp A} : Prop := {
  act_never_connects : forall a tx cemi apdu, ar_connected (act_dispatch a false tx cemi apdu) = false;
  act_needs_connection : forall a tx cemi apdu, Z.land (nth 0 (sim_tpdu cemi) 0) 192 = 64 ->
    exists e, ar_result (act_dispatch a false tx cemi apdu) = Err e;
  act_clear_keeps_address : forall a, act_address (act_clear_verify_mode a) = act_address a }.

Record Activated (A : Type) : Type := MkActivated {
  av_app : A;
  av_session : SimDataSession }.
Arguments MkActivated {A}.
Arguments av_app {A}.
Arguments av_session {A}.

Definition carrier_tpci_int (cemi : CemiLData) : u8 :=
  match sim_tpdu cemi with
  | b :: _ => if Z.land b 192 =? 64 then Z.land (Z.shiftr b 2) 63 else 0
  | [] => 0
  end.

Definition strip_transport_seq (tpdu : bytes) : bytes :=
  match tpdu with
  | b :: rest => Z.land b 3 :: rest
  | [] => []
  end.

(** The first octet of a secured answer: the transport bits of the plain one. *)
Definition response_tpci (b : u8) : u8 :=
  if Z.land b 192 =? 64 then Z.lor 64 (as_u8 (Z.shiftl (Z.land (Z.shiftr b 2) 15) 2)) else 0.

Definition with_tpdu (tpdu : bytes) (c : CemiLData) : CemiLData :=
  MkCemiLData (sim_message_code c) (sim_ctrl1 c) (sim_ctrl2 c) (sim_source c) (sim_dest c) tpdu.

Definition unnumbered_carrier (cemi : CemiLData) : bool :=
  match sim_tpdu cemi with
  | b :: _ => Z.land b 192 =? 0
  | [] => false
  end.

Definition is_protected_function (apci : SimApci) : bool :=
  match apci with
  | SimAuthorizeRequest | SimPropertyValueRead | SimPropertyValueWrite | SimPropertyDescriptionRead
  | SimPropertyExtValueRead | SimPropertyExtValueWriteCon | SimPropertyExtDescriptionRead
  | SimFunctionPropertyExtCommand | SimFunctionPropertyExtStateRead
  | SimFunctionPropertyCommand | SimFunctionPropertyStateRead
  | SimMemoryRead _ | SimMemoryWrite _ | SimMemoryExtendedRead | SimMemoryExtendedWrite
  | SimDeviceDescriptorRead _ | SimRestart | SimRestartResponse => true
  | _ => false
  end.

Definition PID_MAX_APDU_LENGTH : u8 := 56.

Section Activated.
  Context `{C : SecureCiphers} {A : Type} `{!ActivatedApp A}.

(** [respond]. *)
Definition act_respond (a : A) (tx : u8) (to : SimIndividualAddress) (apci10 : u16) (data : bytes) : CemiLData * u8 :=
  (MkCemiLData SimLDataInd 188 96 (act_address a) (sim_ia_raw to) (sim_encode_connected tx apci10 data), Z.land (tx + 1) 15).

(** ** S-A_Data *)

(** One answer, wrapped under the device's own sequence; a transport PDU passes. *)
Definition secure_response (algorithm : SecAlgorithm) (s : SimDataSession) (resp : CemiLData) : CemiLData * SimDataSession :=
  match sim_apdu_parse (sim_tpdu resp) with
  | None => (resp, s)
  | Some _ =>
      let '(asdu, _, s) :=
        SimDataSession_wrap_outgoing s resp (carrier_tpci_int resp) algorithm (strip_transport_seq (sim_tpdu resp)) in
      let tpci := response_tpci (nth 0 (sim_tpdu resp) 0) in
      (with_tpdu (Z.lor tpci (Z.land (as_u8 (Z.shiftr A_SECURE_DATA_APCI 8)) 3)
                  :: as_u8 (Z.land A_SECURE_DATA_APCI 255) :: asdu) resp, s)
  end.

Fixpoint secure_responses (algorithm : SecAlgorithm) (s : SimDataSession) (resps : list CemiLData)
    : list CemiLData * SimDataSession :=
  match resps with
  | [] => ([], s)
  | resp :: resps =>
      let '(resp, s) := secure_response algorithm s resp in
      let '(resps, s) := secure_responses algorithm s resps in
      (resp :: resps, s)
  end.

(** What the security object was given takes effect before the answer. *)
Definition apply_pending (a : A) (s : SimDataSession) : A * SimDataSession :=
  let '(key, seq, a) := act_take_pending a in
  let s := match key with Some key => sds_set_tool_key key s | None => s end in
  let s := match seq with Some seq => sds_set_tx_seq seq s | None => s end in
  (a, s).

Definition handle_sync_request (now : Z) (av : Activated A) (connected : bool) (tx : u8) (cemi : CemiLData) (tpci : u8)
    (apdu : SimApdu) : AppResult (Activated A) :=
  let a := av_app av in
  let '(resp, tx') := act_respond a tx (sim_source cemi) A_SECURE_DATA_APCI [] in
  let connectionless := unnumbered_carrier cemi in
  let resp := if connectionless then with_tpdu (strip_transport_seq (sim_tpdu resp)) resp else resp in
  let tx' := if connectionless then tx else tx' in
  let '(r, s) := SimDataSession_answer_sync_request (av_session av) cemi tpci (sim_apdu_data apdu) resp
                   (carrier_tpci_int resp) (MkSyncReceiver (act_own_serial a) now) in
  match r with
  | Ok asdu => MkAppResult (Ok (MkReaction [with_tpdu (sim_tpdu resp ++ asdu) resp] false)) (MkActivated a s) connected tx'
  | Err e => MkAppResult (Err (SecureRefused e)) (MkActivated a s) connected tx
  end.

Definition is_sync_request (apdu : SimApdu) : bool :=
  match sim_apdu_data apdu with
  | b :: _ => match SimScf_from_byte b with
              | Some scf => bool_decide (sscf_service scf = SecSyncReq)
              | None => false
              end
  | [] => false
  end.

Definition handle_secure_data (now : Z) (av : Activated A) (connected : bool) (tx : u8) (cemi : CemiLData) (apdu : SimApdu)
    : AppResult (Activated A) :=
  let tpci := carrier_tpci_int cemi in
  if is_sync_request apdu then handle_sync_request now av connected tx cemi tpci apdu else
  let '(r, s) := SimDataSession_unwrap_incoming (av_session av) cemi tpci (sim_apdu_data apdu) in
  match r with
  | Err e => MkAppResult (Err (SecureRefused e)) (MkActivated (av_app av) s) connected tx
  | Ok unwrapped =>
      match sim_apdu_parse (inner_tpdu unwrapped) with
      | None => MkAppResult (Err (Malformed "A_SecureData inner APDU" "too short")) (MkActivated (av_app av) s) connected tx
      | Some inner =>
          let r := act_dispatch (av_app av) connected tx cemi inner in
          match ar_result r with
          | Err e => MkAppResult (Err e) (MkActivated (ar_app r) s) (ar_connected r) (ar_tx_seq r)
          | Ok reaction =>
              let '(a, s) := apply_pending (ar_app r) s in
              let '(secured, s) := secure_responses (sscf_algorithm (uw_scf unwrapped)) s (responses reaction) in
              MkAppResult (Ok (MkReaction secured (did_master_reset reaction))) (MkActivated a s)
                (ar_connected r) (ar_tx_seq r)
          end
      end
  end.

(** ** The interception *)

Definition lift_app (s : SimDataSession) (r : AppResult A) : AppResult (Activated A) :=
  MkAppResult (ar_result r) (MkActivated (ar_app r) s) (ar_connected r) (ar_tx_seq r).

(** The services an activated device answers in the clear; [None] for the others. *)
Definition plain_allowed_on_activated (av : Activated A) (connected : bool) (tx : u8) (cemi : CemiLData) (apdu : SimApdu)
    : option (AppResult (Activated A)) :=
  let dispatched := lift_app (av_session av) (act_dispatch (av_app av) connected tx cemi apdu) in
  match sim_apci apdu with
  | SimDeviceDescriptorRead 0 =>
      let '(resp, tx) := act_respond (av_app av) tx (sim_source cemi) 832 [255; 255] in
      Some (MkAppResult (Ok (MkReaction [resp] false)) av connected tx)
  | SimAuthorizeRequest => Some dispatched
  | SimPropertyValueRead =>
      if bool_decide (head (sim_apdu_data apdu) = Some 0) && bool_decide (sim_apdu_data apdu !! 1%nat = Some PID_MAX_APDU_LENGTH)
      then Some dispatched else None
  | _ => None
  end.

Definition handle_activated_apdu (now : Z) (av : Activated A) (connected : bool) (tx : u8) (cemi : CemiLData) (apdu : SimApdu)
    : AppResult (Activated A) :=
  if sim_apci_raw apdu =? A_SECURE_DATA_APCI then
    if negb connected && negb (unnumbered_carrier cemi) then MkAppResult (Err NotConnected) av connected tx
    else handle_secure_data now av connected tx cemi apdu
  else
    match plain_allowed_on_activated av connected tx cemi apdu with
    | Some r => r
    | None =>
        if is_protected_function (sim_apci apdu)
        then MkAppResult (Err (SecureRefused SimPlainAccessRefused)) av connected tx
        else lift_app (av_session av) (act_dispatch (av_app av) connected tx cemi apdu)
    end.

(** The application of an activated device at an instant. *)
Definition activated_app (now : Z) : DeviceApp (Activated A) := {|
  app_address av := act_address (av_app av);
  app_sys7 av := act_sys7 (av_app av);
  app_clear_verify_mode av := MkActivated (act_clear_verify_mode (av_app av)) (av_session av);
  handle_apdu := handle_activated_apdu now |}.

End Activated.

(** ** The transport layer's laws hold of it *)

Lemma numbered_is_not_unnumbered cemi : Z.land (nth 0 (sim_tpdu cemi) 0) 192 = 64 -> unnumbered_carrier cemi = false.
Proof. unfold unnumbered_carrier. destruct (sim_tpdu cemi) as [|b r]; [done|]. cbn [nth]. by intros ->. Qed.

Section Laws.
  Context `{C : SecureCiphers} {A : Type} `{!ActivatedApp A, !ActivatedAppLaws A}.

Lemma secure_data_never_connects now (av : Activated A) tx cemi apdu :
  ar_connected (handle_secure_data now av false tx cemi apdu) = false.
Proof.
  unfold handle_secure_data, handle_sync_request. destruct (is_sync_request apdu).
  - destruct (act_respond _ _ _ _ _) as [resp tx']. destruct (SimDataSession_answer_sync_request _ _ _ _ _ _ _) as [[] s]; done.
  - destruct (SimDataSession_unwrap_incoming _ _ _ _) as [[u|e] s]; [|done].
    destruct (sim_apdu_parse _) as [inner|]; [|done].
    pose proof (act_never_connects (av_app av) tx cemi inner) as Hc.
    destruct (ar_result _); [|done]. destruct (apply_pending _ _) as [b s']. by destruct (secure_responses _ _ _).
Qed.

Lemma activated_app_laws now : @DeviceAppLaws (Activated A) (activated_app now).
Proof.
  split; cbn [handle_apdu activated_app].
  - intros av tx cemi apdu. unfold handle_activated_apdu. destruct (_ =? _).
    + destruct (negb false && _); [done|]. apply secure_data_never_connects.
    + unfold plain_allowed_on_activated. pose proof (act_never_connects (av_app av) tx cemi apdu).
      repeat case_match; simplify_eq; done.
  - intros av tx cemi apdu Hn Hd. unfold handle_activated_apdu. destruct (_ =? _).
    + rewrite numbered_is_not_unnumbered by done. by eexists.
    + unfold plain_allowed_on_activated. destruct (act_needs_connection (av_app av) tx cemi apdu Hn) as [e He].
      repeat case_match; simplify_eq; cbn [ar_result lift_app]; eauto; done.
  - intros av. apply act_clear_keeps_address.
Qed.

End Laws.

(** ** A tool that shares the key *)

(** The transport octet of a request: unnumbered, or numbered with a sequence. *)
Definition request_octet (tpci : u8) : Prop := tpci = 0 \/ exists seq, 0 <= seq < 16 /\ tpci = 64 + 4 * seq.

Definition tool_frame (tool dev : IndividualAddress) (tpci : u8) (apci : u16) (data : bytes) : CemiLData :=
  MkCemiLData SimLDataInd 188 96 (MkSimIA (IndividualAddress_raw tool)) (IndividualAddress_raw dev)
    (Z.lor tpci (as_u8 (Z.land (Z.shiftr apci 8) 3)) :: as_u8 (Z.land apci 255) :: data).

(** An answer: addressed from the device to the tool, its transport octet as the
    device's are, its APDU of a size a secured frame carries. *)
Definition answer_frame (tool dev : IndividualAddress) (r : CemiLData) : Prop :=
  sim_source r = MkSimIA (IndividualAddress_raw dev) /\ sim_dest r = IndividualAddress_raw tool /\
  Z.land (sim_ctrl2 r) 143 = 0 /\
  exists tpci apci data, request_octet tpci /\ 0 <= apci < 1024 /\ zlen data < 254 /\ bytes_ok data /\
    sim_tpdu r = Z.lor tpci (as_u8 (Z.land (Z.shiftr apci 8) 3)) :: as_u8 (Z.land apci 255) :: data.

(** The APDU a frame carries in the clear. *)
Definition plain_apdu (r : CemiLData) : u16 * bytes :=
  match sim_tpdu r with
  | t0 :: t1 :: data => (Z.lor (Z.shiftl (Z.land t0 3) 8) t1, data)
  | _ => (0, [])
  end.

Section Tool.
  Context `{C : SecureCiphers}.

(** What the tool reads of one answer. *)
Definition tool_reads (l : SecureLayer) (tool dev : IndividualAddress) (r : CemiLData)
    : result MgmtError (u16 * bytes) * SecureLayer :=
  let '(apci, data) := plain_apdu r in
  SecureLayer_unwrap_incoming l dev tool (Z.land (nth 0 (sim_tpdu r) 0) 252) apci data.

Fixpoint tool_reads_all (l : SecureLayer) (tool dev : IndividualAddress) (rs : list CemiLData)
    : list (result MgmtError (u16 * bytes)) * SecureLayer :=
  match rs with
  | [] => ([], l)
  | r :: rs =>
      let '(out, l) := tool_reads l tool dev r in
      let '(outs, l) := tool_reads_all l tool dev rs in
      (out :: outs, l)
  end.

End Tool.

(** A request of a conversation: its transport octet, APCI and data. *)
Definition Request : Type := u8 * u16 * bytes.

(** What a conversation yields per request: a refusal or the answers. *)
Definition Outcome : Type := result DeviceError (list (result MgmtError (u16 * bytes))).

Section Conversations.
  Context `{C : SecureCiphers} {A : Type} `{!ActivatedApp A}.

(** The requests one after the other to a device without Data Secure, ... *)
Fixpoint plain_conversation (tool dev : IndividualAddress) (a : A) (connected : bool) (tx : u8) (reqs : list Request)
    : list Outcome :=
  match reqs with
  | [] => []
  | (tpci, apci, data) :: reqs =>
      let frame := tool_frame tool dev tpci apci data in
      let r := act_dispatch a connected tx frame (MkSimApdu (sim_apci_from_u10 apci) apci data) in
      match ar_result r with
      | Ok reaction => Ok (map (fun c => Ok (plain_apdu c)) (responses reaction))
      | Err e => Err e
      end :: plain_conversation tool dev (ar_app r) (ar_connected r) (ar_tx_seq r) reqs
  end.

(** ... and secured to the activated one, at the instants the clock shows. *)
Fixpoint secured_conversation (tool dev : IndividualAddress) (clock : list Z) (l : SecureLayer) (env : HighWaterState)
    (av : Activated A) (connected : bool) (tx : u8) (reqs : list Request) : list Outcome :=
  match reqs with
  | [] => []
  | (tpci, apci, data) :: reqs =>
      match SecureLayer_wrap_outgoing l env dev tool tpci apci data with
      | (Ok (outer, asdu), l, env) =>
          let frame := tool_frame tool dev tpci outer asdu in
          let r := handle_activated_apdu (default 0 (head clock)) av connected tx frame
                     (MkSimApdu (sim_apci_from_u10 outer) outer asdu) in
          let '(outcome, l) := match ar_result r with
                               | Ok reaction => let '(answers, l) := tool_reads_all l tool dev (responses reaction) in (Ok answers, l)
                               | Err e => (Err e, l)
                               end in
          outcome :: secured_conversation tool dev (tail clock) l env (ar_app r) (ar_connected r) (ar_tx_seq r) reqs
      | (Err _, _, _) => []
      end
  end.

Definition request_ok (req : Request) : Prop :=
  let '(tpci, apci, data) := req in request_octet tpci /\ 0 <= apci < 1024 /\ zlen data < 254 /\ bytes_ok data.

(** The requests are of a size a frame carries, the device answers them with
    frames of its own, none of them changes the key, and the device's sequence
    lasts: [left] numbers remain. *)
Fixpoint conversation_fits (tool dev : IndividualAddress) (a : A) (connected : bool) (tx : u8) (remaining : Z)
    (reqs : list Request) : Prop :=
  match reqs with
  | [] => True
  | (tpci, apci, data) :: reqs' =>
      let r := act_dispatch a connected tx (tool_frame tool dev tpci apci data) (MkSimApdu (sim_apci_from_u10 apci) apci data) in
      let answers := match ar_result r with Ok reaction => responses reaction | Err _ => [] end in
      request_ok (tpci, apci, data) /\ Forall (answer_frame tool dev) answers /\
      act_take_pending (ar_app r) = (None, None, ar_app r) /\ zlen answers <= remaining /\
      conversation_fits tool dev (ar_app r) (ar_connected r) (ar_tx_seq r) (remaining - zlen answers) reqs'
  end.

End Conversations.

(** An application sees of a request's frame where it comes from and how it is
    carried, and refuses a numbered request without a connection. *)
Class TransparentApp (A : Type) `{ActivatedApp A} : Prop := {
  transparent_frame : forall a connected tx tool dev tpci apci apci' data data' apdu, request_octet tpci ->
    act_dispatch a connected tx (tool_frame tool dev tpci apci data) apdu
    = act_dispatch a connected tx (tool_frame tool dev tpci apci' data') apdu;
  transparent_refusal : forall a tx tool dev seq apci data apdu, 0 <= seq < 16 ->
    act_dispatch a false tx (tool_frame tool dev (64 + 4 * seq) apci data) apdu
    = MkAppResult (Err NotConnected) a false tx }.

(** The two ends agree on the key, and neither's next sequence is used up for the
    other. *)
Definition in_step_secure (tool dev : IndividualAddress) (l : SecureLayer) (s : SimDataSession) : Prop :=
  exists c, sl_session l = Some c /\ tool_key c = Key16_new (sds_tool_key s) /\ Sequence_ok (send_seq c) /\
    rx_bound (sds_rx_last s) (sds_rx_floor s) (IndividualAddress_raw tool) < Sequence_value (send_seq c) /\
    is_u48 (sds_tx_seq s) /\
    (forall v, last_seen c !! IndividualAddress_raw dev = Some v -> Sequence_value v < sds_tx_seq s).

(** ** Lemmas *)

Definition is_request_octet (tpci : u8) : bool :=
  (tpci =? 0) || ((64 <=? tpci) && (tpci <? 128) && (Z.land tpci 3 =? 0)).

Lemma is_request_octet_complete tpci : request_octet tpci -> is_u8 tpci /\ is_request_octet tpci = true.
Proof.
  intros [->|(seq & Hs & ->)]; [done|]. split; [unfold is_u8; lia|].
  apply (below_decide 16 (fun seq => is_request_octet (64 + 4 * seq) = true)); [vm_compute; reflexivity|exact Hs].
Qed.

Lemma octet_facts tpci h : request_octet tpci -> 0 <= h < 4 ->
  Z.land (Z.lor tpci h) 3 = h /\ Z.land (Z.lor tpci h) 252 = tpci /\ response_tpci (Z.lor tpci h) = tpci /\
  Z.land (Z.lor tpci h) 192 = Z.land tpci 192 /\
  as_u8 (Z.shiftl (if Z.land (Z.lor tpci h) 192 =? 64 then Z.land (Z.shiftr (Z.lor tpci h) 2) 63 else 0) 2) + 3
  = Z.lor (Z.land tpci 252) APCI_SEC_HIGH.
Proof.
  intros Ht Hh. assert (Hh8 : is_u8 h) by (unfold is_u8; lia).
  apply is_request_octet_complete in Ht as [Hu Ht]. revert Ht Hh.
  refine (u8_decide2 (fun tpci h => is_request_octet tpci = true -> 0 <= h < 4 ->
    Z.land (Z.lor tpci h) 3 = h /\ Z.land (Z.lor tpci h) 252 = tpci /\ response_tpci (Z.lor tpci h) = tpci /\
    Z.land (Z.lor tpci h) 192 = Z.land tpci 192 /\
    as_u8 (Z.shiftl (if Z.land (Z.lor tpci h) 192 =? 64 then Z.land (Z.shiftr (Z.lor tpci h) 2) 63 else 0) 2) + 3
    = Z.lor (Z.land tpci 252) APCI_SEC_HIGH) _ tpci h Hu Hh8). vm_compute. reflexivity.
Qed.

Lemma apci_octets apci : 0 <= apci < 1024 ->
  let hi := as_u8 (Z.land (Z.shiftr apci 8) 3) in let lo := as_u8 (Z.land apci 255) in
  0 <= hi < 4 /\ is_u8 lo /\ Z.lor (Z.shiftl hi 8) lo = apci /\ Z.land hi 252 = 0 /\ Z.land hi 3 = hi.
Proof.
  intros Ha. apply (below_decide 1024 (fun a =>
    0 <= as_u8 (Z.land (Z.shiftr a 8) 3) < 4 /\ is_u8 (as_u8 (Z.land a 255)) /\
    Z.lor (Z.shiftl (as_u8 (Z.land (Z.shiftr a 8) 3)) 8) (as_u8 (Z.land a 255)) = a /\
    Z.land (as_u8 (Z.land (Z.shiftr a 8) 3)) 252 = 0 /\
    Z.land (as_u8 (Z.land (Z.shiftr a 8) 3)) 3 = as_u8 (Z.land (Z.shiftr a 8) 3)));
    [vm_compute; reflexivity|exact Ha].
Qed.

(** Both ends take the same nonce context from a frame between them. *)
Lemma frame_same_nonce src dst tpci h rest c : request_octet tpci -> 0 <= h < 4 ->
  sim_source c = MkSimIA (IndividualAddress_raw src) -> sim_dest c = IndividualAddress_raw dst ->
  Z.land (sim_ctrl2 c) 143 = 0 -> sim_tpdu c = Z.lor tpci h :: rest ->
  same_nonce (FrameContext_from_cemi c (carrier_tpci_int c)) (tp_addressing src dst tpci).
Proof.
  intros Ht Hh Hs Hd Hc Etp. destruct (octet_facts tpci h Ht Hh) as (_ & _ & _ & _ & Hn).
  unfold same_nonce, FrameContext_from_cemi, carrier_tpci_int. cbn [address_fields addr_type_frame_format tpci_int tp_tpci tp_addressing].
  rewrite Hs, Hd, Hc, Etp. done.
Qed.

Definition sim_algorithm (a : SecurityAlgorithm) : SecAlgorithm :=
  match a with
  | AuthenticationOnly => AuthOnly
  | AuthenticationEncryption => AuthEnc
  end.

Lemma tool_scf_view a : scf_view (tool_scf (sim_algorithm a)) = Scf_tool_data a.
Proof. by destruct a. Qed.

Section Steps.
  Context `{C : SecureCiphers, L : !SecureCiphersLaws C}.

(** One request on its way: what the tool sends, the device opens; both are in
    step for the next. *)
Lemma request_in_step tool dev l s env tpci apci data : in_step_secure tool dev l s -> request_ok (tpci, apci, data) ->
  (forall c, sl_session l = Some c -> Sequence_value (send_seq c) < MAX_SEQUENCE) ->
  exists asdu l' env' scf seqb s', SecureLayer_wrap_outgoing l env dev tool tpci apci data = (Ok (A_SECURE_DATA, asdu), l', env') /\
    is_sync_request (MkSimApdu (sim_apci_from_u10 A_SECURE_DATA) A_SECURE_DATA asdu) = false /\
    (let frame := tool_frame tool dev tpci A_SECURE_DATA asdu in
     SimDataSession_unwrap_incoming s frame (carrier_tpci_int frame) asdu = (Ok (MkUnwrapped (inner_apdu_bytes apci data) scf seqb), s')) /\
    in_step_secure tool dev l' s' /\ in_step_secure tool dev l' s /\ sds_tx_seq s' = sds_tx_seq s /\
    (forall c c', sl_session l = Some c -> sl_session l' = Some c' -> Sequence_value (send_seq c') = Sequence_value (send_seq c) + 1).
Proof.
  intros (c & El & Hk & Hc & Hrx & Htx & Hls) (Ht & Ha & Hl & Hd) Hmax. specialize (Hmax c El).
  destruct (wrap_ok c env (tp_addressing tool dev tpci) apci data Hl Hd) as (asdu & Ho & Ee & Ew).
  set (frame := tool_frame tool dev tpci A_SECURE_DATA asdu).
  set (scf := tool_scf (sim_algorithm (ss_algorithm c))).
  set (ctx := FrameContext_from_cemi frame (carrier_tpci_int frame)).
  assert (Hn : same_nonce ctx (tp_addressing tool dev tpci)).
  { by apply (frame_same_nonce tool dev tpci (as_u8 (Z.land (Z.shiftr A_SECURE_DATA 8) 3)) (as_u8 (Z.land A_SECURE_DATA 255) :: asdu)). }
  assert (Hi : zlen (inner_apdu_bytes apci data) < 256) by (unfold zlen, inner_apdu_bytes in *; cbn [length]; lia).
  unfold asdu_encode in Ee. rewrite <- tool_scf_view, Hk in Ee. fold scf in Ee.
  rewrite (wrap_with_context_eq (sds_tool_key s) scf (send_seq c) _ ctx _ Hn Hi) in Ee. apply Ok_inj in Ee.
  eexists asdu, _, _, scf, (Sequence_to_bytes (send_seq c)), _. split.
  { unfold SecureLayer_wrap_outgoing. rewrite El, Ew. reflexivity. }
  split.
  { unfold is_sync_request. cbn [sim_apdu_data]. rewrite <- Ee. unfold wrap_with_context.
    destruct (ss_algorithm c); cbn [sim_algorithm tool_scf scf sscf_algorithm] in *;
      (destruct (encrypt_data_ctr _ _ _ _)); reflexivity. }
  split.
  { cbn zeta. fold frame. unfold SimDataSession_unwrap_incoming, SimDataSession_unwrap_with_context. fold ctx.
    change (sim_ia_raw (sim_source frame)) with (IndividualAddress_raw tool).
    rewrite <- Ee, (open_fresh_wrapped _ _ _ _ _ (tp_addressing tool dev tpci)) by (done || by apply inner_apdu_bytes_ok).
    rewrite (proj2 (fresh_check_ok _ _) Hrx). cbn [mbind result_bind].
    rewrite (proj2 (reserved_check_ok (inner_apdu_bytes apci data) _)) by (cbn [inner_apdu_bytes reserved_clear]; apply (apci_octets apci Ha)).
    reflexivity. }
  split; [|split; [|split; [done|]]].
  2:{ eexists. split; [reflexivity|]. cbn [tool_key set_send_seq send_seq last_seen].
    repeat split_and; [exact Hk|by apply Sequence_next_ok| |exact Htx|exact Hls].
    rewrite Sequence_next_value by done. unfold MAX_SEQUENCE in *. lia. }
  - eexists. split; [reflexivity|]. cbn [tool_key set_send_seq send_seq last_seen].
    repeat split_and; [exact Hk|by apply Sequence_next_ok| |exact Htx|exact Hls].
    cbn [uw_seq SimDataSession_commit_rx sds_put_rx_last sds_rx_last sds_rx_floor]. rewrite rx_bound_raise, decide_True by done.
    rewrite Sequence_next_value, seq_from_bytes_eq, Sequence_from_to by (done || apply Sequence_to_bytes_ok || apply length_Sequence_to_bytes).
    unfold MAX_SEQUENCE in *. lia.
  - intros c0 c' El0 [= <-]. rewrite El in El0. injection El0 as <-. cbn [send_seq set_send_seq].
    rewrite Sequence_next_value by done. lia.
Qed.

(** One answer on its way: the tool reads what the device would have sent in the
    clear. *)
Lemma answer_in_step tool dev l s alg r : in_step_secure tool dev l s -> answer_frame tool dev r ->
  sds_tx_seq s < MAX_SEQUENCE ->
  let '(frame, s') := secure_response alg s r in
  exists l', tool_reads l tool dev frame = (Ok (plain_apdu r), l') /\ in_step_secure tool dev l' s' /\
    sds_tx_seq s' = sds_tx_seq s + 1 /\ (forall c c', sl_session l = Some c -> sl_session l' = Some c' -> send_seq c' = send_seq c).
Proof.
  intros (c & El & Hk & Hc & Hrx & Htx & Hls) (Hs & Hd & Hc2 & tpci & apci & data & Ht & Ha & Hl & Hdo & Etp) Hmax.
  destruct (apci_octets apci Ha) as (Hh & Hlo & Hap & Hr & Hm). set (hi := as_u8 (Z.land (Z.shiftr apci 8) 3)) in *.
  destruct (octet_facts tpci hi Ht Hh) as (H3 & _ & Hrt & _ & _).
  unfold secure_response. rewrite Etp. cbn [sim_apdu_parse strip_transport_seq nth]. rewrite H3, Hrt.
  set (lo := as_u8 (Z.land apci 255)) in *.
  set (ctx := FrameContext_from_cemi r (carrier_tpci_int r)).
  assert (Hn : same_nonce ctx (tp_addressing dev tool tpci)) by by apply (frame_same_nonce dev tool tpci hi (lo :: data)).
  set (inner := inner_apdu_bytes apci data). change (hi :: lo :: data) with inner.
  assert (Hi : zlen inner < 256) by (unfold zlen, inner, inner_apdu_bytes in *; cbn [length]; lia).
  set (scf := tool_scf alg). set (seq := MkSequence (sds_tx_seq s)).
  unfold SimDataSession_wrap_outgoing, SimDataSession_take_tx_seq. fold ctx scf. change (seq_to_bytes (sds_tx_seq s)) with (Sequence_to_bytes seq).
  set (asdu := wrap_with_context (sds_tool_key s) scf (Sequence_to_bytes seq) inner ctx).
  cbn [sds_tool_key sds_put_tx_seq]. fold asdu.
  pose proof (wrap_with_context_eq (sds_tool_key s) scf seq inner ctx _ Hn Hi) as Ew. fold asdu in Ew. rewrite <- Hk in Ew.
  assert (Ho : bytes_ok asdu).
  { destruct (asdu_encode_ok (tool_key c) (scf_view scf) seq (tp_addressing dev tool tpci) apci data Hl Hdo) as (x & Ex & Hx).
    unfold asdu_encode in Ex. fold inner in Ex. rewrite Ew in Ex. apply Ok_inj in Ex as ->. exact Hx. }
  pose proof (asdu_decode_encode (tool_key c) (scf_view scf) seq (tp_addressing dev tool tpci) apci data asdu eq_refl Htx Ha Ho Ew) as Edec.
  destruct (asdu_encode_head (tool_key c) (scf_view scf) seq (tp_addressing dev tool tpci) apci data asdu Ew) as (rest & Er).
  assert (Htpdu : Z.land (as_u8 (Z.shiftr A_SECURE_DATA_APCI 8)) 3 = 3) by reflexivity.
  destruct (octet_facts tpci 3 Ht ltac:(lia)) as (E3 & E252 & _).
  assert (Hacc : accepts c (IndividualAddress_raw dev) seq = true).
  { unfold accepts. destruct (last_seen c !! IndividualAddress_raw dev) as [v|] eqn:Ev; [|done]. apply Z.ltb_lt. by apply Hls. }
  assert (Etx : Z.land ((sds_tx_seq s + 1) mod 18446744073709551616) MAX_SEQUENCE = sds_tx_seq s + 1).
  { unfold is_u48, MAX_SEQUENCE in *. rewrite Z.mod_small by lia. rewrite (land_mask 48) by (done || reflexivity).
    apply Z.mod_small. change (2 ^ 48) with 281474976710656. lia. }
  clearbody asdu. subst asdu. eexists. split.
  { unfold tool_reads, plain_apdu. cbn [with_tpdu sim_tpdu nth]. rewrite Htpdu, E3, E252.
    change (Z.lor (Z.shiftl 3 8) (as_u8 (Z.land A_SECURE_DATA_APCI 255))) with A_SECURE_DATA.
    unfold SecureLayer_unwrap_incoming. rewrite El. rewrite (unwrap_data c (tp_addressing dev tool tpci) (scf_view scf) rest _ eq_refl Edec).
    cbn [tp_source tp_addressing di_sequence di_apci di_data]. rewrite Hacc, Etp, H3, Hap. reflexivity. }
  split; [|split; [exact Etx|]].
  - eexists. split; [reflexivity|]. cbn [tool_key set_last_seen send_seq last_seen sds_tool_key sds_put_tx_seq sds_rx_last sds_rx_floor sds_tx_seq].
    rewrite Etx. repeat split_and; [exact Hk|exact Hc|exact Hrx|unfold is_u48, MAX_SEQUENCE in *; lia|].
    intros v. destruct (decide (IndividualAddress_raw dev = IndividualAddress_raw dev)) as [_|]; [|done].
    rewrite lookup_insert_eq. intros [= <-]. cbn. lia.
  - intros c0 c' El0 [= <-]. rewrite El in El0. by injection El0 as <-.
Qed.

Lemma answers_in_step tool dev alg rs : forall l s, in_step_secure tool dev l s -> Forall (answer_frame tool dev) rs ->
  sds_tx_seq s + zlen rs <= MAX_SEQUENCE ->
  let '(frames, s') := secure_responses alg s rs in
  exists l', tool_reads_all l tool dev frames = (map (fun r => Ok (plain_apdu r)) rs, l') /\ in_step_secure tool dev l' s' /\
    sds_tx_seq s' = sds_tx_seq s + zlen rs /\
    (forall c c', sl_session l = Some c -> sl_session l' = Some c' -> send_seq c' = send_seq c).
Proof.
  induction rs as [|r rs IH]; intros l s Hst Hf Hm; cbn [secure_responses].
  { exists l. repeat split_and; [done|done|unfold zlen; cbn; lia|]. intros c c' E E'. congruence. }
  apply Forall_cons in Hf as [Hr Hf].
  assert (Hz : zlen (r :: rs) = zlen rs + 1) by (unfold zlen; cbn [length]; lia). assert (0 <= zlen rs) by (unfold zlen; lia).
  pose proof (answer_in_step tool dev l s alg r Hst Hr ltac:(lia)) as H1.
  destruct (secure_response alg s r) as [frame s1]. destruct H1 as (l1 & E1 & Hst1 & Ht1 & Hc1).
  specialize (IH l1 s1 Hst1 Hf ltac:(lia)). destruct (secure_responses alg s1 rs) as [frames s2]. destruct IH as (l2 & E2 & Hst2 & Ht2 & Hc2).
  exists l2. cbn [tool_reads_all]. rewrite E1, E2. repeat split_and; [done|done|lia|].
  intros c c' E E'. destruct Hst1 as (c1 & Ec1 & _). rewrite (Hc2 c1 c' Ec1 E'). by apply Hc1.
Qed.

End Steps.

Section Transparency.
  Context `{C : SecureCiphers, L : !SecureCiphersLaws C} {A : Type} `{!ActivatedApp A, !TransparentApp A}.

Lemma inner_apdu_parse apci data : 0 <= apci < 1024 ->
  sim_apdu_parse (inner_apdu_bytes apci data) = Some (MkSimApdu (sim_apci_from_u10 apci) apci data).
Proof.
  intros Ha. destruct (apci_octets apci Ha) as (_ & _ & Hap & _ & Hm). unfold inner_apdu_bytes. cbn [sim_apdu_parse].
  by rewrite Hm, Hap.
Qed.

(** The interception lets a request through, or refuses it as the application
    would. *)
Lemma activated_lets_through tool dev now (av : Activated A) (connected : bool) tx tpci asdu : request_octet tpci ->
  let frame := tool_frame tool dev tpci A_SECURE_DATA asdu in
  let apdu := MkSimApdu (sim_apci_from_u10 A_SECURE_DATA) A_SECURE_DATA asdu in
  (connected = false /\ (exists seq, 0 <= seq < 16 /\ tpci = 64 + 4 * seq) /\
   handle_activated_apdu now av connected tx frame apdu = MkAppResult (Err NotConnected) av false tx) \/
  handle_activated_apdu now av connected tx frame apdu = handle_secure_data now av connected tx frame apdu.
Proof.
  intros Ht frame apdu. unfold handle_activated_apdu. cbn [sim_apci_raw apdu]. rewrite Z.eqb_refl.
  destruct connected; [by right|]. cbn [negb andb].
  destruct Ht as [->|(seq & Hs & ->)]; [by right|]. left. split; [done|]. split; [eauto|].
  unfold unnumbered_carrier, frame, tool_frame. cbn [sim_tpdu].
  destruct (octet_facts (64 + 4 * seq) (as_u8 (Z.land (Z.shiftr A_SECURE_DATA 8) 3))) as (_ & _ & _ & -> & _); [right; eauto|done|].
  assert (E : Z.land (64 + 4 * seq) 192 = 64).
  { apply (below_decide 16 (fun seq => Z.land (64 + 4 * seq) 192 = 64)); [vm_compute; reflexivity|exact Hs]. }
  by rewrite E.
Qed.

Lemma conversation_in_step tool dev reqs : forall clock l env s a connected tx,
  in_step_secure tool dev l s -> conversation_fits tool dev a connected tx (MAX_SEQUENCE - sds_tx_seq s) reqs ->
  (forall c, sl_session l = Some c -> Sequence_value (send_seq c) + zlen reqs <= MAX_SEQUENCE) ->
  secured_conversation tool dev clock l env (MkActivated a s) connected tx reqs = plain_conversation tool dev a connected tx reqs.
Proof.
  induction reqs as [|[[tpci apci] data] reqs IH]; intros clock l env s a connected tx Hst Hfit Hmax; [done|].
  unfold Request in *. assert (Hz : zlen ((tpci, apci, data) :: reqs) = zlen reqs + 1) by (unfold zlen; cbn [length]; lia). rewrite Hz in Hmax.
  assert (0 <= zlen reqs) by (unfold zlen; lia).
  cbn [conversation_fits] in Hfit. cbn [secured_conversation plain_conversation].
  set (apdu := MkSimApdu (sim_apci_from_u10 apci) apci data) in *.
  set (r := act_dispatch a connected tx (tool_frame tool dev tpci apci data) apdu) in *.
  destruct Hfit as (Hreq & Hans & Hpend & Hrem & Hfit). pose proof Hreq as (Ht & Ha & _).
  destruct (request_in_step tool dev l s env tpci apci data Hst Hreq) as (asdu & l1 & env1 & scf & seqb & s1 & Ew & Hsync & Eun & Hst1 & Hst1' & Htx1 & Hc1).
  { intros c E. specialize (Hmax c E). lia. }
  rewrite Ew. set (frame := tool_frame tool dev tpci A_SECURE_DATA asdu) in *. set (now := default 0 (head clock)).
  assert (Hmax1 : forall c', sl_session l1 = Some c' -> Sequence_value (send_seq c') + zlen reqs <= MAX_SEQUENCE).
  { intros c' E'. destruct Hst as (c & Ec & _). rewrite (Hc1 c c' Ec E'). specialize (Hmax c Ec). lia. }
  destruct (activated_lets_through tool dev now (MkActivated a s) connected tx tpci asdu Ht) as [(-> & (seq & Hs & Etp) & Eh)|Eh];
    cbn zeta in Eh; fold frame in Eh; rewrite Eh; clear Eh.
  { unfold r in *. rewrite Etp in *. rewrite transparent_refusal in * by done.
    cbn [ar_result ar_app ar_connected ar_tx_seq] in *. f_equal. apply IH; [done| |done]. change (zlen []) with 0 in Hfit. by rewrite Z.sub_0_r in Hfit. }
  unfold handle_secure_data. rewrite Hsync. cbn [av_session av_app sim_apdu_data]. rewrite Eun. cbn [inner_tpdu uw_scf].
  rewrite inner_apdu_parse by done. fold apdu.
  assert (Er : act_dispatch a connected tx frame apdu = r) by by apply transparent_frame. rewrite Er.
  revert Hans Hrem Hfit. destruct (ar_result r) as [reaction|e]; intros Hans Hrem Hfit; cbn [ar_result ar_app ar_connected ar_tx_seq].
  2:{ f_equal. change (zlen []) with 0 in Hfit. rewrite Z.sub_0_r in Hfit. apply IH; [done|by rewrite Htx1|done]. }
  unfold apply_pending. rewrite Hpend.
  pose proof (answers_in_step tool dev (sscf_algorithm scf) (responses reaction) l1 s1 Hst1 Hans ltac:(rewrite Htx1; lia)) as H2.
  destruct (secure_responses (sscf_algorithm scf) s1 (responses reaction)) as [frames s2].
  cbn [ar_result ar_app ar_connected ar_tx_seq responses]. destruct H2 as (l2 & E2 & Hst2 & Htx2 & Hc2). rewrite E2.
  f_equal. apply IH; [done| |].
  - rewrite Htx2, Htx1. by replace (MAX_SEQUENCE - (sds_tx_seq s + zlen (responses reaction))) with (MAX_SEQUENCE - sds_tx_seq s - zlen (responses reaction)) by lia.
  - intros c E. destruct Hst1 as (c1 & Ec1 & _). rewrite (Hc2 c1 c Ec1 E). by apply Hmax1.
Qed.

End Transparency.

(** ** The sync before it *)

(** A frame of the device with an A_SecureData payload, in the two carriages. *)
Definition device_octet (connectionless : bool) (tx : u8) : u8 := if connectionless then 0 else 64 + 4 * tx.

Lemma device_octet_ok connectionless tx : 0 <= tx < 16 -> request_octet (device_octet connectionless tx).
Proof. intros H. destruct connectionless; [by left|]. right. by exists tx. Qed.

Lemma secure_connected_octet tx : 0 <= tx < 16 ->
  Z.lor (sim_data_connected_byte tx) (Z.land (as_u8 (Z.shiftr A_SECURE_DATA_APCI 8)) 3) = Z.lor (64 + 4 * tx) 3.
Proof.
  intros H. apply (below_decide 16 (fun tx =>
    Z.lor (sim_data_connected_byte tx) (Z.land (as_u8 (Z.shiftr A_SECURE_DATA_APCI 8)) 3) = Z.lor (64 + 4 * tx) 3));
    [vm_compute; reflexivity|exact H].
Qed.

Section Sync.
  Context `{C : SecureCiphers, L : !SecureCiphersLaws C} {A : Type} `{!ActivatedApp A}.

(** A tool with the device's key, whatever its counters and the device's. *)
Definition ready_to_sync (tool dev : IndividualAddress) (now : Z) (l : SecureLayer) (av : Activated A) : Prop :=
  exists c, sl_session l = Some c /\ session_ok c /\ tool_key c = Key16_new (sds_tool_key (av_session av)) /\
    act_address (av_app av) = MkSimIA (IndividualAddress_raw dev) /\ 0 < sds_tx_seq (av_session av) < MAX_SEQUENCE /\
    (match sds_last_sync_res (av_session av) with Some t => t + SYNC_IGNORE_WINDOW <= now | None => True end).

(** What the tool sends next, once the device has answered. *)
Definition synced_sequence (tool : IndividualAddress) (l : SecureLayer) (s : SimDataSession) : u64 :=
  match sl_session l with
  | Some c => Z.max (Sequence_value (send_seq c)) (sync_stored s (IndividualAddress_raw tool) (send_seq c) + 1)
  | None => 0
  end.

Lemma tool_syncs tool dev now l env (av : Activated A) connected tx tpci random :
  ready_to_sync tool dev now l av -> synced_sequence tool l (av_session av) <= MAX_SEQUENCE -> 0 <= tx < 16 ->
  tpci = 0 \/ (connected = true /\ request_octet tpci) ->
  exists asdu l1 env1 resp s1 l2,
    SecureLayer_sync_request l env dev tool tpci random = (Ok (A_SECURE_DATA, asdu), l1, env1) /\
    handle_activated_apdu now av connected tx (tool_frame tool dev tpci A_SECURE_DATA asdu)
      (MkSimApdu (sim_apci_from_u10 A_SECURE_DATA) A_SECURE_DATA asdu)
    = MkAppResult (Ok (MkReaction [resp] false)) (MkActivated (av_app av) s1) connected
        (if tpci =? 0 then tx else Z.land (tx + 1) 15) /\
    tool_reads l1 tool dev resp = (Ok (A_SECURE_DATA, []), l2) /\
    SecureLayer_is_synced l2 = true /\ in_step_secure tool dev l2 s1 /\ sds_tx_seq s1 = sds_tx_seq (av_session av) /\
    (forall c, sl_session l2 = Some c -> Sequence_value (send_seq c) = synced_sequence tool l (av_session av)).
Proof.
  intros (c & El & [Hc _] & Hk & Haddr & Htx & Hdue) Hfit Htx4 Hconn.
  assert (Ht : request_octet tpci) by (destruct Hconn as [->|[_ ?]]; [by left|done]).
  set (s := av_session av) in *. unfold synced_sequence in *. rewrite El in *.
  set (challenge := fresh_challenge random).
  assert (Hch : bytes_ok challenge) by (unfold challenge, fresh_challenge; auto with bus).
  assert (Hchl : length challenge = CHALLENGE_LEN) by reflexivity.
  destruct (sync_request_ok c env (tp_addressing tool dev tpci) challenge Hch Hchl) as (rq & Hro & Erq & Hreq).
  set (asdu := Scf_to_byte (Scf_tool_sync SvcSyncReq) :: rq) in *.
  set (frame := tool_frame tool dev tpci A_SECURE_DATA asdu).
  set (connectionless := unnumbered_carrier frame).
  assert (Hcl : connectionless = (tpci =? 0)).
  { unfold connectionless, unnumbered_carrier, frame, tool_frame. cbn [sim_tpdu].
    destruct (octet_facts tpci (as_u8 (Z.land (Z.shiftr A_SECURE_DATA 8) 3)) Ht ltac:(done)) as (_ & _ & _ & -> & _).
    destruct Ht as [->|(seq & Hs & ->)]; [done|].
    apply (below_decide 16 (fun seq => (Z.land (64 + 4 * seq) 192 =? 0) = (64 + 4 * seq =? 0))); [vm_compute; reflexivity|exact Hs]. }
  set (resp := MkCemiLData SimLDataInd 188 96 (act_address (av_app av)) (IndividualAddress_raw tool)
                 (Z.lor (device_octet connectionless tx) 3 :: [241])).
  assert (Hdo : request_octet (device_octet connectionless tx)) by by apply device_octet_ok.
  assert (Hn : same_nonce (FrameContext_from_cemi frame (carrier_tpci_int frame)) (tp_addressing tool dev tpci))
    by by apply (frame_same_nonce tool dev tpci (as_u8 (Z.land (Z.shiftr A_SECURE_DATA 8) 3)) (as_u8 (Z.land A_SECURE_DATA 255) :: asdu)).
  assert (Hrn : same_nonce (FrameContext_from_cemi resp (carrier_tpci_int resp)) (tp_addressing dev tool (device_octet connectionless tx)))
    by by apply (frame_same_nonce dev tool _ 3 [241]).
  assert (Hst0 : 0 <= sync_stored s (IndividualAddress_raw tool) (send_seq c)) by (unfold sync_stored, saturating_sub; lia).
  destruct (device_answers_sync s frame (carrier_tpci_int frame) _ resp (carrier_tpci_int resp) _
    (MkSyncReceiver (act_own_serial (av_app av)) now) (send_seq c) challenge asdu Hn Hrn Hc Hch Hchl)
    as (res & nonce & Hno & Eres & Eans).
  { by rewrite <- Hk. }
  { unfold sync_request_due. cbn [sr_now sr_own_serial]. destruct (sds_last_sync_res s) as [t|].
    - destruct (Z.ltb_spec (saturating_sub now t) SYNC_IGNORE_WINDOW); [unfold saturating_sub, SYNC_IGNORE_WINDOW in *; lia|].
      by destruct (act_own_serial (av_app av)); [destruct (bool_decide _)|].
    - by destruct (act_own_serial (av_app av)); [destruct (bool_decide _)|]. }
  { unfold is_u48, MAX_SEQUENCE in *. lia. }
  { change (sim_ia_raw (sim_source frame)) with (IndividualAddress_raw tool). lia. }
  change (sim_ia_raw (sim_source frame)) with (IndividualAddress_raw tool) in *.
  set (stored := sync_stored s (IndividualAddress_raw tool) (send_seq c)) in *.
  set (l1 := SecureLayer_set_session l (set_sync (Pending challenge) c)).
  set (s1 := sync_answered s (IndividualAddress_raw tool) (send_seq c) now).
  set (answer := with_tpdu (sim_tpdu resp ++ res) resp).
  destruct (encode_sync_res_ok (tool_key c) (MkSyncResponse (MkSequence (sds_tx_seq s)) (MkSequence (stored + 1))) challenge nonce
    (tp_addressing dev tool (device_octet connectionless tx)) Hch) as (rs & Ers & Hrso).
  rewrite Hk, Eres in Ers. apply Ok_inj in Ers.
  assert (Hso : Sequence_ok (MkSequence (sds_tx_seq s)) /\ Sequence_ok (MkSequence (stored + 1)))
    by (unfold Sequence_ok, is_u48, MAX_SEQUENCE in *; cbn [Sequence_value]; lia).
  pose proof (decode_encode_sync_res (tool_key c) res _ challenge (MkSyncResponse (MkSequence (sds_tx_seq s)) (MkSequence (stored + 1)))
    (Scf_tool_sync SvcSyncRes) nonce
    ltac:(rewrite Ers; exact Hrso) Hchl (proj1 Hso) (proj2 Hso) eq_refl Hno ltac:(rewrite Hk; exact Eres)) as Edec.
  rewrite Ers in Edec.
  destruct (unwrap_sync_response (set_sync (Pending challenge) c) _ rs challenge _ eq_refl Edec)
    as (c2 & Hun & Hdone & Hk2 & _ & Hval & Hcase & Hfl).
  cbn [responder_sequence requester_sequence send_seq set_sync Sequence_value tool_key tp_source tp_addressing] in *.
  exists asdu, l1, (record_sent c (send_seq c) env), answer, s1, (SecureLayer_set_session l1 c2).
  split.
  { unfold SecureLayer_sync_request, DataSecureSession_sync_request. rewrite El. fold challenge. rewrite Hreq. reflexivity. }
  split; [|split; [|split; [|split; [|split; [reflexivity|]]]]].
  - destruct (activated_lets_through tool dev now av connected tx tpci asdu Ht) as [(Hf & (seq & Hs & Etp) & _)|Eh].
    { exfalso. destruct Hconn as [->|[-> _]]; [lia|done]. }
    cbn zeta in Eh. fold frame. fold frame in Eh. rewrite Eh. unfold handle_secure_data.
    change (is_sync_request _) with true. cbn match. unfold handle_sync_request, act_respond. fold connectionless.
    change (sim_ia_raw (sim_source frame)) with (IndividualAddress_raw tool).
    assert (Eresp : (if connectionless then with_tpdu (strip_transport_seq (sim_encode_connected tx A_SECURE_DATA_APCI []))
        (MkCemiLData SimLDataInd 188 96 (act_address (av_app av)) (IndividualAddress_raw tool) (sim_encode_connected tx A_SECURE_DATA_APCI []))
      else MkCemiLData SimLDataInd 188 96 (act_address (av_app av)) (IndividualAddress_raw tool) (sim_encode_connected tx A_SECURE_DATA_APCI []))
      = resp).
    { unfold resp, sim_encode_connected. rewrite secure_connected_octet by done. destruct connectionless; [|reflexivity].
      unfold with_tpdu. cbn [strip_transport_seq sim_message_code sim_ctrl1 sim_ctrl2 sim_source sim_dest].
      destruct (octet_facts (64 + 4 * tx) 3) as (-> & _); [right; by exists tx|lia|]. reflexivity. }
    cbn [sim_tpdu] in *. rewrite Eresp. cbn [sim_apdu_data]. fold s. rewrite Eans. rewrite <- Hcl. by destruct connectionless.
  - unfold tool_reads, plain_apdu, answer. cbn [with_tpdu sim_tpdu resp app nth].
    destruct (octet_facts (device_octet connectionless tx) 3 Hdo ltac:(lia)) as (E3 & E252 & _). rewrite E3, E252.
    unfold SecureLayer_unwrap_incoming. cbn [sl_session l1 SecureLayer_set_session].
    change (Z.lor (Z.shiftl 3 8) 241) with A_SECURE_DATA. rewrite Ers, Hun. reflexivity.
  - cbn. unfold DataSecureSession_is_synced. by rewrite bool_decide_true.
  - exists c2. split; [reflexivity|]. cbn [s1 sync_answered sds_tool_key sds_put_last_sync_res sds_put_rx_last sds_rx_last sds_rx_floor sds_tx_seq].
    fold stored. rewrite rx_bound_insert, decide_True by done. repeat split_and.
    + by rewrite Hk2.
    + destruct Hcase as [->| ->]; [done|apply Hso].
    + lia.
    + exact (proj1 Hso).
    + intros v Ev. rewrite Hfl in Ev. injection Ev as <-. rewrite Sequence_new_small by (unfold is_u48, saturating_sub, MAX_SEQUENCE in *; lia).
      cbn [Sequence_value]. unfold saturating_sub. lia.
  - intros c' [= <-]. rewrite Hval. done.
Qed.

End Sync.

(** ** The System B application, activated *)

Definition PID_SERIAL_NUMBER : u8 := 11.

(** The device object's serial number, when it has six octets. *)
Definition own_serial (d : LoadDevice) : option bytes :=
  match props ← ld_objects d !! 0; props !! PID_SERIAL_NUMBER with
  | Some value => if (length value =? 6)%nat then Some value else None
  | None => None
  end.

(** [SimApp] has no security object: nothing is ever pending. *)
#[export] Instance activated_sim_app `{S : DeviceServices} : ActivatedApp SimApp := {
  act_address := sa_address;
  act_sys7 _ := false;
  act_clear_verify_mode a := sa_set_load (clear_verify_mode (sa_load a)) a;
  act_own_serial a := own_serial (sa_load a);
  act_take_pending a := (None, None, a);
  act_dispatch := dispatch_apdu }.

#[export] Instance activated_sim_app_laws `{S : DeviceServices} : ActivatedAppLaws SimApp.
Proof.
  split; cbn [act_dispatch activated_sim_app]; [| |done].
  - intros a tx cemi apdu. unfold dispatch_apdu. cbn [negb]. by destruct (negb _).
  - intros a tx cemi apdu Hn. unfold dispatch_apdu. cbn [negb].
    change (match sim_tpdu cemi with b :: _ => Z.land b 192 =? 0 | [] => false end) with (unnumbered_carrier cemi).
    rewrite numbered_is_not_unnumbered by done. by eexists.
Qed.

(** A restart looks at the frame's source only. *)
Lemma sim_app_transparent `{S : DeviceServices} :
  (forall a tx cemi cemi' apdu, sim_source cemi = sim_source cemi' -> svc_restart a tx cemi apdu = svc_restart a tx cemi' apdu) ->
  TransparentApp SimApp.
Proof.
  intros Hr. split; cbn [act_dispatch activated_sim_app].
  - intros a connected tx tool dev tpci apci apci' data data' apdu Ht. unfold dispatch_apdu.
    set (f := tool_frame tool dev tpci apci data). set (f' := tool_frame tool dev tpci apci' data').
    assert (Hs : sim_source f = sim_source f') by reflexivity.
    assert (Hu : forall ap da, match sim_tpdu (tool_frame tool dev tpci ap da) with b :: _ => Z.land b 192 =? 0 | [] => false end
                               = (Z.land tpci 192 =? 0)).
    { intros ap da. cbn [sim_tpdu tool_frame].
      assert (Hh : 0 <= as_u8 (Z.land (Z.shiftr ap 8) 3) < 4)
        by (rewrite (land_mask 2 3) by (lia || reflexivity); unfold as_u8; change (2 ^ 2) with 4; zdiv).
      by destruct (octet_facts tpci _ Ht Hh) as (_ & _ & _ & -> & _). }
    unfold f, f'. rewrite !Hu. rewrite (Hr a tx _ (tool_frame tool dev tpci apci' data') apdu) by done. reflexivity.
  - intros a tx tool dev seq apci data apdu Hs. unfold dispatch_apdu. cbn [negb].
    change (match sim_tpdu (tool_frame tool dev (64 + 4 * seq) apci data) with b :: _ => Z.land b 192 =? 0 | [] => false end)
      with (unnumbered_carrier (tool_frame tool dev (64 + 4 * seq) apci data)).
    rewrite numbered_is_not_unnumbered; [done|]. cbn [sim_tpdu tool_frame nth].
    assert (Hh : 0 <= as_u8 (Z.land (Z.shiftr apci 8) 3) < 4)
      by (rewrite (land_mask 2 3) by (lia || reflexivity); unfold as_u8; change (2 ^ 2) with 4; zdiv).
    destruct (octet_facts (64 + 4 * seq) _ (or_intror (ex_intro _ seq (conj Hs eq_refl))) Hh) as (_ & _ & _ & -> & _).
    apply (below_decide 16 (fun seq => Z.land (64 + 4 * seq) 192 = 64)); [vm_compute; reflexivity|exact Hs].
Qed.

(** ** Properties *)

(** C20: Data Secure changes nothing but the octets on the wire: a tool that shares
    the key of an activated device, which has not answered a sync within its ignore
    window of a second, syncs with it, whatever the two counters are.  From then on
    a conversation of requests it secures, at whatever times, gets the outcomes the
    same requests get in the clear from the same application without Data Secure,
    refusals and the state between the requests included.  The conversation is of
    numbered or unnumbered requests of at most 253 octets that set neither the tool
    key nor the sending sequence; what the device answers goes to the tool and has
    at most 253 octets; both sequences last for it ([conversation_fits]). *)
Theorem secured_requests_answered_as_plain `{C : SecureCiphers, L : !SecureCiphersLaws C} {A : Type}
    `{!ActivatedApp A, !TransparentApp A} tool dev now l env (av : Activated A) connected tx tpci random reqs :
  let tx' := if tpci =? 0 then tx else Z.land (tx + 1) 15 in
  ready_to_sync tool dev now l av -> 0 <= tx < 16 -> tpci = 0 \/ (connected = true /\ request_octet tpci) ->
  synced_sequence tool l (av_session av) + zlen reqs <= MAX_SEQUENCE ->
  conversation_fits tool dev (av_app av) connected tx' (MAX_SEQUENCE - sds_tx_seq (av_session av)) reqs ->
  exists asdu l1 env1 resp s1 l2,
    SecureLayer_sync_request l env dev tool tpci random = (Ok (A_SECURE_DATA, asdu), l1, env1) /\
    handle_activated_apdu now av connected tx (tool_frame tool dev tpci A_SECURE_DATA asdu)
      (MkSimApdu (sim_apci_from_u10 A_SECURE_DATA) A_SECURE_DATA asdu)
    = MkAppResult (Ok (MkReaction [resp] false)) (MkActivated (av_app av) s1) connected tx' /\
    tool_reads l1 tool dev resp = (Ok (A_SECURE_DATA, []), l2) /\ SecureLayer_is_synced l2 = true /\
    forall clock env2,
      secured_conversation tool dev clock l2 env2 (MkActivated (av_app av) s1) connected tx' reqs
      = plain_conversation tool dev (av_app av) connected tx' reqs.
Proof.
  intros tx' Hready Htx Hconn Hfit Hconv.
  destruct (tool_syncs tool dev now l env av connected tx tpci random Hready ltac:(unfold zlen in *; lia) Htx Hconn)
    as (asdu & l1 & env1 & resp & s1 & l2 & H1 & H2 & H3 & H4 & H5 & H6 & H7).
  exists asdu, l1, env1, resp, s1, l2. repeat split_and; [exact H1|exact H2|exact H3|exact H4|].
  intros clock env2. apply conversation_in_step; [done|by rewrite H6|]. intros c Ec. by rewrite (H7 c Ec).
Qed.

(** A device with one segment loading; the tool writes three octets, reads them
    back, and reads the device descriptor without a connection's sequence. *)
#[local] Instance secured_demo_services : DeviceServices := {|
  svc_property_read a _ _ := (Err NotConnected, a);
  svc_property_write a _ _ := (Err NotConnected, a);
  svc_property_description_read a _ _ := (Err NotConnected, a);
  svc_extended_property a _ _ := (Err NotConnected, a);
  svc_function_property a _ _ := (Err NotConnected, a);
  svc_restart a tx _ _ := MkAppResult (Err NotConnected) a true tx |}.

Definition secured_demo_app : SimApp :=
  MkSimApp (MkSimIA 4356) 1968
    (MkLoadDevice {[ 3 := MkObjectState (MkLsm SimLoading (Some 64)) 16384 None ]} ∅
       (MkMemory ∅ [MkSegment 3 16384 64]) 0 None 0 ∅).

Definition secured_demo_layer : SecureLayer := SecureLayer_activated (demo_session 1234).
Definition secured_demo_device : Activated SimApp :=
  MkActivated secured_demo_app (SimDataSession_new (replicate 16 7) 500 2000).
Definition secured_demo_requests : list Request :=
  [(68, 643, [64; 0; 1; 2; 3]); (72, 515, [64; 0]); (76, 768, []); (80, 646, [0; 0; 1; 2; 3; 4; 5; 6])].

(** The conditions of the theorem on a concrete conversation: the octets of an
    answer are its own witnesses. *)
Ltac octet_of tpci := right; exists ((tpci - 64) / 4); split; [done|reflexivity].
Ltac answer_is tpci apci data :=
  split; [reflexivity|split; [reflexivity|split; [reflexivity|]]];
  exists tpci, apci, data; split; [octet_of tpci|split; [done|split; [done|split; [solve_bytes|vm_compute; reflexivity]]]].
Ltac fits_step tpci :=
  split; [split; [octet_of tpci|split; [done|split; [done|solve_bytes]]]|];
  split; [match goal with |- Forall _ ?x => let y := eval vm_compute in x in change x with y end|
          split; [vm_compute; reflexivity|split; [vm_compute; discriminate|]]].

Lemma secured_requests_answered_as_plain_witness :
  exists l2 s1, forall clock env2,
    @secured_conversation demo_ciphers SimApp _ (IndividualAddress_from_raw 4351) (IndividualAddress_from_raw 4356) clock l2 env2
      (MkActivated secured_demo_app s1) true 1 secured_demo_requests
    = [Ok []; Ok [Ok (579, [64; 0; 1; 2; 3])]; Ok [Ok (832, [7; 176])]; Err (MemoryRejected (OutOfSegment 0 6))].
Proof.
  pose proof (@sim_app_transparent secured_demo_services ltac:(done)) as HT.
  destruct (@secured_requests_answered_as_plain demo_ciphers _ SimApp _ HT (IndividualAddress_from_raw 4351)
    (IndividualAddress_from_raw 4356) 0 secured_demo_layer (MkHighWater 0 0) secured_demo_device true 0 64 42
    secured_demo_requests) as (asdu & l1 & env1 & resp & s1 & l2 & _ & _ & _ & _ & H).
  - exists (demo_session 1234). repeat split; done.
  - done.
  - right. split; [done|]. right. exists 0. done.
  - vm_compute. discriminate.
  - cbn [Z.eqb secured_demo_requests conversation_fits].
    fits_step 68; [constructor|].
    fits_step 72; [constructor; [answer_is 68 579 [64; 0; 1; 2; 3]|constructor]|].
    fits_step 76; [constructor; [answer_is 72 832 [7; 176]|constructor]|].
    fits_step 80; [constructor|exact I].
  - exists l2, s1. intros clock env2. etransitivity; [exact (H clock env2)|vm_compute; reflexivity].
Defined.
