(* ===== verification/ClientMemory.v ===== *)
(** * Device memory from the client ([bussard-mgmt/src/memory.rs])

    The one place device memory is read and written: the choice between the
    plain, the extended and the user-memory services, the chunk sizes from the
    negotiated APDU, the loops over the chunks and the checks of every answer,
    over the connection of [Connection]. *)

From S2P Require Import Prelude Address Cursor Cemi Tpci Crypto Sequence Asdu SecureSession.
From S2P Require Import MgmtError Apci Connection Load Mcb.

Local Open Scope string_scope.
Local Open Scope list_scope.
Local Open Scope Z_scope.

(** ** The service and the chunk of an access *)

Definition select_extended_memory (addr : u32) (len : nat) : bool :=
  65535 <? addr + (Z.max (Z.of_nat len) 1 - 1).

Inductive MemoryService : Type := MemPlain | MemExtended | MemUser.

#[export] Instance MemoryService_eq_dec : EqDecision MemoryService.
Proof. solve_decision. Defined.

Definition memory_service (c : Layer4Connection) (addr : u32) (len : nat) : MemoryService :=
  if negb (select_extended_memory addr len) then MemPlain
  else if l4c_user_memory_above_64k c then MemUser
  else MemExtended.

Definition memory_chunk_for (c : Layer4Connection) (addr : u32) (len : nat) : Z :=
  let raw := match memory_service c addr len with
             | MemPlain => max_memory_chunk c
             | MemExtended => max_extended_memory_chunk c
             | MemUser => max_user_memory_chunk c
             end in
  Z.min (Z.max raw 1) 255.

Definition STALE_ECHO_SKIPS : nat := 2.

(** ** Checks of an extended write's answer *)

Fixpoint crc16_false_bits (n : nat) (crc : u16) : u16 :=
  match n with
  | O => crc
  | S n =>
      crc16_false_bits n
        (if negb (Z.land crc 32768 =? 0) then Z.lxor (as_u16 (Z.shiftl crc 1)) 4129
         else as_u16 (Z.shiftl crc 1))
  end.

Definition crc16_ccitt_false (data : bytes) : u16 :=
  foldl (fun crc octet => crc16_false_bits 8 (Z.lxor crc (Z.shiftl octet 8))) 65535 data.

Definition check_extended_write_response (addr : u32) (request : bytes) (resp_apci : u16)
    (data : bytes) : result MgmtError unit :=
  resp ← ok_or (MalformedResponse "expected A_MemoryExtended_Write_Response")
           (decode_memory_extended_response resp_apci data);
  match emr_return_code resp with
  | 0 => Ok tt
  | 1 =>
      match emr_data resp with
      | hi :: lo :: _ =>
          let got := u16_of hi lo in
          let expected := crc16_ccitt request in
          if (got =? expected) || (got =? crc16_ccitt_false request) then Ok tt
          else Err (MemoryWriteCrc addr expected got)
      | _ => Err (MalformedResponse "E_SUCCESS_WITH_CRC carries no CRC")
      end
  | code => Err (MemoryReturnCode "A_MemoryExtended_Write" addr code)
  end.

(** ** Addresses of chunks *)

Definition chunk_address (base : u32) (offset : nat) : result WriteError u32 :=
  ok_or (Mgmt (MalformedResponse "memory write range exceeds the 24-bit address space"))
    (if (Z.of_nat offset <? 4294967296) && (base + Z.of_nat offset <? 4294967296)
        && (base + Z.of_nat offset <=? MAX_MEMORY_ADDRESS)
     then Some (base + Z.of_nat offset) else None).

Definition user_chunk_address (base : u32) (offset len : nat) : result WriteError u32 :=
  addr ← chunk_address base offset;
  if MAX_USER_MEMORY_ADDRESS <? addr + Z.max (Z.of_nat len) 1 - 1
  then Err (AddressOutOfRange "user-memory write past 20 bits")
  else Ok addr.

(** ** Bounds of a chunk *)

Lemma chunk_positive c at_ len : 1 <= memory_chunk_for c at_ len <= 255.
Proof. unfold memory_chunk_for. lia. Qed.

(** The most octets one telegram of a service carries. *)
Definition service_limit (service : MemoryService) : Z :=
  match service with
  | MemPlain => MAX_MEMORY_WRITE_LEN
  | MemExtended => MAX_EXTENDED_MEMORY_LEN
  | MemUser => MAX_USER_MEMORY_LEN
  end.

Lemma chunk_limit c at_ len : memory_chunk_for c at_ len <= service_limit (memory_service c at_ len).
Proof.
  unfold memory_chunk_for, service_limit, MAX_MEMORY_WRITE_LEN, MAX_EXTENDED_MEMORY_LEN, MAX_USER_MEMORY_LEN.
  destruct (memory_service c at_ len); unfold max_memory_chunk, max_extended_memory_chunk,
    max_user_memory_chunk, memory_chunk_for_apdu, extended_memory_chunk_for_apdu, user_memory_chunk_for_apdu,
    MAX_MEMORY_WRITE_LEN, MAX_EXTENDED_MEMORY_LEN, MAX_USER_MEMORY_LEN, CONSERVATIVE_MEMORY_CHUNK,
    saturating_sub, as_u8; try destruct (inner_max_apdu c); try lia; zdiv.
Qed.

Section Memory.
  Context {W : Type} `{L4World W} `{C : SecureCiphers}.

(** Memory operations: the connection's, with the errors of [WriteError]. *)
Definition MemOp (A : Type) : Type := Mgmt_op (L4State W) A.

(** [?] on a result of the connection ([From<MgmtError>]). *)
Definition mgmt {A} (m : L4Op W A) : MemOp A := fun s =>
  let '(r, s') := m s in (map_err Mgmt r, s').

Definition conn : MemOp Layer4Connection := mgmt get_conn.

Definition of_result {A} (r : result WriteError A) : MemOp A := fun s => (r, s).

Definition discard_pending_response : L4Op W unit := modify (l4c_set_pending_response None).

(** ** Reading *)

(** At most [n] late write echoes, which name another address, are skipped. *)
Fixpoint skip_memory_echoes (n : nat) (addr : u16) (answer : u16 * bytes) : MemOp (u16 * bytes) :=
  match n with
  | O => mret answer
  | S n =>
      match decode_memory_response (fst answer) (snd answer) with
      | Some echo =>
          if negb (mr_addr echo =? addr)
          then answer ← mgmt recv_response; skip_memory_echoes n addr answer
          else mret answer
      | None => mret answer
      end
  end.

Fixpoint skip_user_echoes (n : nat) (addr : u32) (answer : u16 * bytes) : MemOp (u16 * bytes) :=
  match n with
  | O => mret answer
  | S n =>
      match decode_user_memory (fst answer) (snd answer) with
      | Some echo =>
          if (fst answer =? A_USER_MEMORY_RESPONSE) && negb (um_addr echo =? addr)
          then answer ← mgmt recv_response; skip_user_echoes n addr answer
          else mret answer
      | None => mret answer
      end
  end.

Definition read_memory_user (addr : u32) (len : u8) : MemOp bytes :=
  if MAX_USER_MEMORY_ADDRESS <? Z.min (addr + (Z.max len 1 - 1)) 4294967295
  then fail (AddressOutOfRange "user-memory read past 20 bits")
  else
    let len := Z.min len MAX_USER_MEMORY_LEN in
    let '(req_apci, payload) := encode_user_memory_read addr len in
    answer ← mgmt (request req_apci payload);
    answer ← skip_user_echoes STALE_ECHO_SKIPS addr answer;
    let malformed := Mgmt (MalformedResponse "expected A_UserMemory_Response") in
    resp ← of_result (ok_or malformed
             (resp ← decode_user_memory (fst answer) (snd answer);
              if (fst answer =? A_USER_MEMORY_RESPONSE) && (um_addr resp =? addr)
              then Some resp else None));
    if (um_count resp =? 0) && (0 <? len) then fail (Mgmt (MemoryRefused "read" addr len))
    else mret (um_data resp).

Definition read_memory_extended (addr : u32) (len : u8) : MemOp bytes :=
  let '(req_apci, payload) := encode_memory_extended_read addr len in
  answer ← mgmt (request req_apci payload);
  resp ← of_result (ok_or (Mgmt (MalformedResponse "expected A_MemoryExtended_Read_Response"))
           (decode_memory_extended_response (fst answer) (snd answer)));
  if negb (emr_return_code resp =? 0)
  then fail (Mgmt (MemoryReturnCode "A_MemoryExtended_Read" addr (emr_return_code resp)))
  else mret (emr_data resp).

Definition read_memory (addr : u32) (len : u8) : MemOp bytes :=
  c ← conn;
  match memory_service c addr (Z.to_nat len) with
  | MemExtended => read_memory_extended addr len
  | MemUser => read_memory_user addr len
  | MemPlain =>
      let addr16 := as_u16 addr in
      let '(req_apci, payload) := encode_memory_read addr16 len in
      answer ← mgmt (request req_apci payload);
      answer ← skip_memory_echoes STALE_ECHO_SKIPS addr16 answer;
      resp ← of_result (ok_or (Mgmt (MalformedResponse "expected A_Memory_Response with matching count"))
               (decode_memory_response (fst answer) (snd answer)));
      mret (mr_data resp)
  end.

Definition read_memory_strict (addr : u32) (len : u8) : MemOp bytes :=
  got ← read_memory addr len;
  if bool_decide (got = []) && (0 <? len) && negb (select_extended_memory addr (Z.to_nat len))
  then fail (Mgmt (MemoryRefused "read" addr len))
  else mret got.

(** The address of the chunk of a read at [out] octets. *)
Definition read_chunk_address (addr : u32) (out : nat) : result WriteError u32 :=
  ok_or (AddressOutOfRange "read chunk")
    (if (Z.of_nat out <? 4294967296) && (addr + Z.of_nat out <? 4294967296)
        && (addr + Z.of_nat out <=? MAX_MEMORY_ADDRESS)
     then Some (addr + Z.of_nat out) else None).

(** [read_memory_range]'s loop; each turn gains at least an octet, so [len] turns
    are enough ([read_chunks_enough]). *)
Fixpoint read_chunks (fuel : nat) (addr : u32) (len : nat) (chunk : Z) (out : bytes) : MemOp bytes :=
  if (len <=? length out)%nat then mret (take len out) else
  match fuel with
  | O => fail (Mgmt (MalformedResponse "fuel"))
  | S fuel =>
      let want := Z.min (Z.of_nat (len - length out)) chunk in
      addr' ← of_result (read_chunk_address addr (length out));
      got ← read_memory_strict addr' want;
      if bool_decide (got = []) then fail (Mgmt (MalformedResponse "memory read came back empty"))
      else read_chunks fuel addr len chunk (out ++ got)
  end.

Definition read_memory_range (addr : u32) (len : nat) : MemOp bytes :=
  if (len =? 0)%nat then mret [] else
  if negb (addr + Z.of_nat len <=? MAX_MEMORY_ADDRESS + 1) then fail (AddressOutOfRange "read") else
  c ← conn;
  read_chunks len addr len (memory_chunk_for c addr len) [].

(** ** Writing *)

Definition write_one_chunk (base : u32) (offset : nat) (piece : bytes) (service : MemoryService)
    : MemOp unit :=
  match service with
  | MemUser =>
      addr ← of_result (user_chunk_address base offset (length piece));
      let '(req_apci, payload) := encode_user_memory_write addr piece in
      _ ← mgmt (send_data req_apci payload);
      mgmt discard_pending_response
  | MemExtended =>
      addr ← of_result (chunk_address base offset);
      let '(req_apci, payload) := encode_memory_extended_write addr piece in
      answer ← mgmt (request req_apci payload);
      of_result (map_err Mgmt (check_extended_write_response addr payload (fst answer) (snd answer)))
  | MemPlain =>
      addr ← of_result (chunk_address base offset);
      let '(req_apci, payload) := encode_memory_write (as_u16 addr) piece in
      _ ← mgmt (send_data req_apci payload);
      mgmt discard_pending_response
  end.

Definition write_one_user_chunk_echoed (base : u32) (offset : nat) (piece : bytes) : MemOp unit :=
  addr ← of_result (user_chunk_address base offset (length piece));
  let '(req_apci, payload) := encode_user_memory_write addr piece in
  answer ← mgmt (request_memory_write_echo req_apci payload);
  echo ← of_result (ok_or (Mgmt (MalformedResponse "expected the verify echo (A_UserMemory_Response)"))
           (echo ← decode_user_memory (fst answer) (snd answer);
            if fst answer =? A_USER_MEMORY_RESPONSE then Some echo else None));
  if (um_addr echo =? addr) && (um_count echo =? 0) && negb (bool_decide (piece = []))
  then fail (Mgmt (MemoryRefused "write" addr (as_u8 (zlen piece))))
  else if negb (um_addr echo =? addr) || negb (bool_decide (um_data echo = piece))
  then fail (Mgmt (MemoryEchoMismatch addr (um_addr echo) piece (um_data echo)))
  else mret tt.

Definition write_one_chunk_echoed (base : u32) (offset : nat) (piece : bytes) : MemOp unit :=
  addr ← of_result (chunk_address base offset);
  addr16 ← of_result (ok_or (Mgmt (MalformedResponse "plain memory write exceeds 16 bits"))
             (if addr <? 65536 then Some addr else None));
  let '(req_apci, payload) := encode_memory_write addr16 piece in
  answer ← mgmt (request_memory_write_echo req_apci payload);
  echo ← of_result (ok_or (Mgmt (MalformedResponse "expected the verify echo (A_Memory_Response)"))
           (decode_memory_response (fst answer) (snd answer)));
  if (mr_addr echo =? addr16) && MemoryResponse_is_refusal echo && negb (bool_decide (piece = []))
  then fail (Mgmt (MemoryRefused "write" addr (as_u8 (zlen piece))))
  else if negb (mr_addr echo =? addr16) || negb (bool_decide (mr_data echo = piece))
  then fail (Mgmt (MemoryEchoMismatch addr (mr_addr echo) piece (mr_data echo)))
  else mret tt.

(** The loop over the chunks of a write, [write] sending one; [on_written] is the
    progress callback.  The chunk is at least 1, so [length data] turns are enough
    ([write_chunks_enough]). *)
Fixpoint write_chunks (fuel : nat) (write : nat -> bytes -> MemOp unit)
    (on_written : nat -> MemOp unit) (chunk : Z) (data : bytes) (offset : nat) : MemOp unit :=
  if (length data <=? offset)%nat then mret tt else
  match fuel with
  | O => fail (Mgmt (MalformedResponse "fuel"))
  | S fuel =>
      let n := Nat.min (Z.to_nat chunk) (length data - offset) in
      let piece := slice offset (offset + n) data in
      _ ← write offset piece;
      _ ← on_written (offset + n)%nat;
      write_chunks fuel write on_written chunk data (offset + n)
  end.

Definition write_memory_chunked (addr : u32) (data : bytes) (on_written : nat -> MemOp unit)
    : MemOp unit :=
  if bool_decide (data = []) then mret tt else
  c ← conn;
  let service := memory_service c addr (length data) in
  let write_chunk := memory_chunk_for c addr (length data) in
  write_chunks (length data) (fun offset piece => write_one_chunk addr offset piece service)
    on_written write_chunk data 0.

Definition write_memory (addr : u32) (data : bytes) : MemOp unit :=
  write_memory_chunked addr data (fun _ => mret tt).

Definition write_memory_verified (addr : u32) (data : bytes) (on_written : nat -> MemOp unit)
    : MemOp unit := write_memory_chunked addr data on_written.

Definition write_memory_echoed (addr : u32) (data : bytes) (on_written : nat -> MemOp unit)
    : MemOp unit :=
  if bool_decide (data = []) then mret tt else
  c ← conn;
  let service := memory_service c addr (length data) in
  if bool_decide (service = MemExtended) then write_memory_chunked addr data on_written else
  let write_chunk := memory_chunk_for c addr (length data) in
  let write offset piece :=
    if bool_decide (service = MemUser) then write_one_user_chunk_echoed addr offset piece
    else write_one_chunk_echoed addr offset piece in
  write_chunks (length data) write on_written write_chunk data 0.

(** ** The loops' fuel is enough *)

Lemma bind_ext {A B} (m : MemOp A) (k k' : A -> MemOp B) st : (forall a st, k a st = k' a st) ->
  (m ≫= k) st = (m ≫= k') st.
Proof. intros E. unfold mbind, Mgmt_op_bind. destruct (m st) as [[a|e] st']; [apply E|done]. Qed.

Lemma read_chunks_enough addr len chunk extra fuel : forall out st, (len - length out <= fuel)%nat ->
  read_chunks (fuel + extra) addr len chunk out st = read_chunks fuel addr len chunk out st.
Proof.
  induction fuel as [|fuel IH]; intros out st Hf.
  - cbn [Nat.add]. destruct extra; cbn [read_chunks]; by rewrite (proj2 (Nat.leb_le _ _)) by lia.
  - cbn [Nat.add read_chunks]. destruct (Nat.leb_spec len (length out)); [done|].
    apply bind_ext. intros addr' st1. apply bind_ext. intros got st2.
    case_bool_decide as Eg; [done|]. apply IH. rewrite length_app.
    destruct got; [done|]. cbn [length]. lia.
Qed.

Lemma write_chunks_enough write on_written chunk data extra fuel : 1 <= chunk ->
  forall offset st, (length data - offset <= fuel)%nat ->
  write_chunks (fuel + extra) write on_written chunk data offset st
  = write_chunks fuel write on_written chunk data offset st.
Proof.
  intros Hc. induction fuel as [|fuel IH]; intros offset st Hf.
  - cbn [Nat.add]. destruct extra; cbn [write_chunks]; by rewrite (proj2 (Nat.leb_le _ _)) by lia.
  - cbn [Nat.add write_chunks]. destruct (Nat.leb_spec (length data) offset); [done|].
    apply bind_ext. intros [] st1. apply bind_ext. intros [] st2. apply IH. lia.
Qed.

End Memory.

Arguments MemOp : clear implicits.
