(* ===== verification/MemNet.v ===== *)
(** * Memory transfers over the network

    The client's memory services ([ClientMemory]) run against the simulated device
    ([SimApp]) over the lossy medium of [L4Request]: what a read that returns
    brings is what the device's memory holds, and a write that returns has written
    exactly its octets, whatever frames are lost, however the span is cut into
    chunks and whichever service carries them. *)

From S2P Require Import Prelude Address Cursor Cemi Tpci SimWire SimMemory.
From S2P Require Import SimTransport MgmtError Crypto Sequence Asdu SecureSession Apci.
From S2P Require Import Connection SimBus L4Compose L4Request Load Mcb Sys7 SimLsm SimLoad.
From S2P Require Import SimApp ClientMemory.

Local Open Scope string_scope.
Local Open Scope list_scope.
Local Open Scope Z_scope.

(** ** The device's answer to each memory service *)

Section Served.
  Context `{S : DeviceServices}.
  Implicit Types a : SimApp.

(** The request as the device parses it. *)
Definition parsed (q : u16 * bytes) : SimApdu := MkSimApdu (sim_apci_from_u10 (fst q)) (fst q) (snd q).

Lemma sim_memory_apci n : 0 <= n < 64 ->
  sim_apci_from_u10 (Z.lor A_MEMORY_READ n) = SimMemoryRead n /\
  sim_apci_from_u10 (Z.lor A_MEMORY_WRITE n) = SimMemoryWrite n.
Proof.
  intros Hn. refine (below_decide 64 (fun n => sim_apci_from_u10 (Z.lor A_MEMORY_READ n) = SimMemoryRead n /\
    sim_apci_from_u10 (Z.lor A_MEMORY_WRITE n) = SimMemoryWrite n) _ n Hn). vm_compute. reflexivity.
Qed.

Lemma plain_read_served a tool addr n : is_u16 addr -> 0 <= n <= 63 ->
  connected_service a tool (parsed (encode_memory_read addr n))
  = (Ok (Some (encode_memory_response addr (Memory_read (ld_memory (sa_load a)) addr n))), a).
Proof.
  intros Ha Hn. unfold encode_memory_read, MAX_MEMORY_READ_LEN. rewrite Z.min_l by lia.
  rewrite (land_mask 6 63), Z.mod_small by (lia || reflexivity || (change (2 ^ 6) with 64; lia)).
  unfold parsed, connected_service. cbn [fst snd sim_apci].
  rewrite (proj1 (sim_memory_apci n ltac:(lia))). unfold on_memory_read, sim_memory_count.
  cbn [sim_apci_raw sim_apdu_data].
  destruct (apci_count A_MEMORY_READ n) as (_ & -> & _); [by left|lia|].
  destruct (be_bytes_2_u16 addr Ha) as (hi & lo & E & _ & _ & Eu). rewrite E, Eu.
  unfold encode_memory_response, MAX_MEMORY_READ_LEN. rewrite length_Memory_read by lia.
  rewrite Z.min_l by lia. unfold as_u8. rewrite (Z.mod_small n 256) by lia.
  rewrite (land_mask 6 63), Z.mod_small by (lia || reflexivity || (change (2 ^ 6) with 64; lia)).
  pose proof (take_zlen (Memory_read (ld_memory (sa_load a)) addr n)) as Et.
  rewrite length_Memory_read in Et by lia. rewrite Et, E. reflexivity.
Qed.

Lemma addr_24_octets addr : 0 <= addr <= MAX_MEMORY_ADDRESS -> addr_24 addr = addr_3_octets_be addr.
Proof.
  unfold MAX_MEMORY_ADDRESS, addr_3_octets_be, addr_24. intros Ha.
  unfold MAX_MEMORY_ADDRESS. rewrite (land_mask 24 16777215), Z.mod_small;
    [done|change (2 ^ 24) with 16777216; lia|lia|reflexivity].
Qed.

Lemma sim_extended_request_same payload w : sim_extended_request payload w
  = (fun r => (emq_count r, emq_addr r, emq_data r)) <$> decode_memory_extended_request payload w.
Proof.
  unfold sim_extended_request, decode_memory_extended_request.
  destruct payload as [|c [|a2 [|a1 [|a0 data]]]]; try done. destruct w; [|done].
  by destruct (zlen data <? c).
Qed.

Lemma extended_read_served a tool addr n : 0 <= addr <= MAX_MEMORY_ADDRESS ->
  0 <= n <= MAX_EXTENDED_MEMORY_LEN ->
  connected_service a tool (parsed (encode_memory_extended_read addr n))
  = (Ok (Some (encode_memory_extended_read_response 0 addr
                 (Memory_read (ld_memory (sa_load a)) addr n))), a).
Proof.
  intros Ha Hn. unfold parsed, connected_service. cbn [sim_apci fst encode_memory_extended_read].
  change (sim_apci_from_u10 A_MEMORY_EXTENDED_READ) with SimMemoryExtendedRead. cbn iota.
  unfold on_memory_extended_read. cbn [sim_apdu_data].
  rewrite sim_extended_request_same, extended_read_roundtrip by done.
  cbn [fmap option_fmap option_map emq_count emq_addr emq_data].
  by rewrite addr_24_octets by done.
Qed.

Lemma user_read_served a tool addr n : 0 <= addr <= MAX_USER_MEMORY_ADDRESS ->
  0 <= n <= MAX_USER_MEMORY_LEN ->
  connected_service a tool (parsed (encode_user_memory_read addr n))
  = (Ok (Some (A_USER_MEMORY_RESPONSE,
               user_memory_header addr n ++ Memory_read (ld_memory (sa_load a)) addr n)), a).
Proof.
  intros Ha Hn. unfold parsed, connected_service, encode_user_memory_read. cbn [sim_apci fst snd].
  change (sim_apci_from_u10 A_USER_MEMORY_READ) with SimUserMemoryRead. cbn iota.
  rewrite Z.min_l by lia. unfold on_user_memory_read. cbn [sim_apdu_data].
  destruct (user_memory_header_val addr n Ha Hn) as (h0 & h1 & h2 & -> & _ & Hc & Hv).
  cbn [sim_user_memory_header]. by rewrite Hc, Hv.
Qed.

(** The store of a write the device accepts. *)
Definition stores a (addr : u32) (data : bytes) a' : Prop :=
  ld_access_level (sa_load a) = 0 /\ verify_mode (sa_load a) = false /\
  store addr data a = (Ok tt, a').

Lemma stores_verify a addr data a' : stores a addr data a' -> verify_mode (sa_load a') = false.
Proof.
  intros (_ & Hv & E). unfold store, on_memory_write in E. rewrite <- Hv.
  destruct (negb _); [done|]. destruct (Memory_segment_at _ _); [|done].
  destruct (negb _); [done|]. destruct (Memory_write _ _ _ _); [|done]. by injection E as <-.
Qed.

Lemma require_access_free a k : ld_access_level (sa_load a) = 0 -> require_access a k = k.
Proof. intros H. unfold require_access. by rewrite H. Qed.

Lemma plain_write_served a tool addr data a' : is_u16 addr -> zlen data <= MAX_MEMORY_WRITE_LEN ->
  stores a addr data a' ->
  connected_service a tool (parsed (encode_memory_write addr data)) = (Ok None, a').
Proof.
  intros Ha Hn Hst. pose proof (stores_verify _ _ _ _ Hst) as Hv. destruct Hst as (Hacc & _ & Hst).
  rewrite encode_memory_write_eq by done.
  assert (Hz : 0 <= zlen data < 64) by (unfold zlen, MAX_MEMORY_WRITE_LEN in *; lia).
  unfold parsed, connected_service. cbn [fst snd sim_apci].
  rewrite (proj2 (sim_memory_apci _ Hz)). unfold on_memory_write_apdu, sim_memory_count.
  cbn [sim_apci_raw sim_apdu_data]. rewrite require_access_free by done.
  destruct (apci_count A_MEMORY_WRITE (zlen data)) as (_ & -> & _); [by right; right|done|].
  destruct (be_bytes_2_u16 addr Ha) as (hi & lo & -> & _ & _ & Eu). cbn [app]. rewrite Eu.
  rewrite (proj2 (Z.ltb_ge _ _)) by lia. rewrite take_zlen, Hst. by rewrite Hv.
Qed.

Lemma extended_write_served a tool addr data a' : 0 <= addr <= MAX_MEMORY_ADDRESS ->
  zlen data <= MAX_EXTENDED_MEMORY_LEN -> stores a addr data a' ->
  connected_service a tool (parsed (encode_memory_extended_write addr data))
  = (Ok (Some (encode_memory_extended_write_response 0 addr)), a').
Proof.
  intros Ha Hn (Hacc & _ & Hst). unfold parsed, connected_service.
  cbn [sim_apci fst encode_memory_extended_write].
  change (sim_apci_from_u10 A_MEMORY_EXTENDED_WRITE) with SimMemoryExtendedWrite. cbn iota.
  unfold on_memory_extended_write. cbn [sim_apdu_data]. rewrite require_access_free by done.
  rewrite sim_extended_request_same, extended_write_roundtrip by done.
  cbn [fmap option_fmap option_map emq_count emq_addr emq_data]. rewrite Hst.
  by rewrite addr_24_octets by done.
Qed.

Lemma user_write_served a tool addr data a' : 0 <= addr <= MAX_USER_MEMORY_ADDRESS ->
  zlen data <= MAX_USER_MEMORY_LEN -> stores a addr data a' ->
  connected_service a tool (parsed (encode_user_memory_write addr data)) = (Ok None, a').
Proof.
  intros Ha Hn Hst. pose proof (stores_verify _ _ _ _ Hst) as Hv. destruct Hst as (Hacc & _ & Hst).
  unfold parsed, connected_service, encode_user_memory_write. cbn [sim_apci fst snd].
  change (sim_apci_from_u10 A_USER_MEMORY_WRITE) with SimUserMemoryWrite. cbn iota.
  assert (Hz : 0 <= zlen data) by (unfold zlen; lia).
  assert (Hc : as_u8 (Z.min (zlen data) MAX_USER_MEMORY_LEN) = zlen data).
  { unfold MAX_USER_MEMORY_LEN, as_u8 in *. rewrite Z.min_l by lia. apply Z.mod_small. lia. }
  rewrite Hc, take_zlen. unfold on_user_memory_write. cbn [sim_apdu_data].
  rewrite require_access_free by done.
  destruct (user_memory_header_val addr (zlen data)) as (h0 & h1 & h2 & -> & _ & Hcount & Haddr);
    [done|lia|]. cbn [app sim_user_memory_header]. rewrite Hcount, Haddr.
  rewrite (proj2 (Z.ltb_ge _ _)) by lia. rewrite take_zlen, Hst. by rewrite Hv.
Qed.

End Served.

(** ** Triples for what an operation returns *)

Section Sound.
  Context {St : Type}.

(** Started in [P], the operation ends in [Q] if it returns a value and in [X] on
    an error. *)
Definition sound {E B} (P : St -> Prop) (m : St -> result E B * St) (Q : B -> St -> Prop)
    (X : St -> Prop) : Prop :=
  forall st, P st -> match m st with (Ok b, st') => Q b st' | (Err _, st') => X st' end.

Lemma sound_bind {B D} P (m : Mgmt_op St B) (k : B -> Mgmt_op St D) R Q X :
  sound P m R X -> (forall b, sound (R b) (k b) Q X) -> sound P (m ≫= k) Q X.
Proof.
  intros Hm Hk st HP. specialize (Hm st HP). unfold mbind, Mgmt_op_bind.
  destruct (m st) as [[b|e] st']; [by apply Hk|done].
Qed.

Lemma sound_ret {B} P (b : B) (Q : B -> St -> Prop) X : (forall st, P st -> Q b st) ->
  sound P (mret b : Mgmt_op St B) Q X.
Proof. intros H st HP. by apply H. Qed.

Lemma sound_fail {B} P e (Q : B -> St -> Prop) (X : St -> Prop) : (forall st, P st -> X st) ->
  sound P (fail e) Q X.
Proof. intros H st HP. by apply H. Qed.

Lemma sound_post {E B} P (m : St -> result E B * St) Q Q' (X X' : St -> Prop) : sound P m Q' X' ->
  (forall b st, Q' b st -> Q b st) -> (forall st, X' st -> X st) -> sound P m Q X.
Proof.
  intros Hm HQ HX st HP. specialize (Hm st HP).
  destruct (m st) as [[b|e] st']; [by apply HQ|by apply HX].
Qed.

Lemma sound_pure {E B} P (φ : Prop) (m : St -> result E B * St) Q X : (φ -> sound P m Q X) ->
  sound (fun st => φ /\ P st) m Q X.
Proof. intros H st [Hφ HP]. by apply H. Qed.

End Sound.

Section Net.
  Context `{S : DeviceServices} `{C : SecureCiphers}.
  Variables tool addr : u16.
  Hypotheses (Htool : is_u16 tool) (Haddr : is_u16 addr).

Local Abbreviation St := (L4State (SimWorld SimApp)).
Local Abbreviation net_request_ok := (request_ok (A := SimApp)).

(** Client and device agree, at whatever sequences, and the connection is fresh. *)
Definition ready (a : SimApp) (st : St) : Prop := exists s r,
  0 <= s < 16 /\ 0 <= r < 16 /\ link_ready tool addr s r a st /\ recent st.

(** What an operation that fails leaves: the device's memory as it is in [a]. *)
Definition holds (a : SimApp) (st : St) : Prop :=
  ld_memory (sa_load (d_app (sw_device (l4_world st)))) = ld_memory (sa_load a).

Lemma app_is_holds a st : app_is a (sw_device (l4_world st)) -> holds a st.
Proof. unfold holds. by intros [-> | [_ ->]]. Qed.

Lemma ready_holds a st : ready a st -> holds a st.
Proof. intros (s & r & _ & _ & Hl & _). apply app_is_holds, (lr_app _ _ _ _ _ _ Hl). Qed.

Lemma encode_connected_inj tx ap da ap' da' : 0 <= tx < 16 -> 0 <= ap < 1024 -> 0 <= ap' < 1024 ->
  sim_encode_connected tx ap da = sim_encode_connected tx ap' da' -> ap = ap' /\ da = da'.
Proof.
  intros Ht Ha Ha' E. destruct (encode_connected_octet tx ap da Ht Ha) as (o0 & o1 & E1 & _ & _ & _ & _ & H1).
  destruct (encode_connected_octet tx ap' da' Ht Ha') as (o0' & o1' & E2 & _ & _ & _ & _ & H2).
  rewrite E1, E2 in E. injection E as <- <- <-. by split; [congruence|].
Qed.

(** The device after a request that failed: as before it, or as its service left it. *)
Definition torn (a a' : SimApp) (st : St) : Prop := holds a st \/ holds a' st.

Lemma ready_torn a a' st : ready a st -> torn a a' st.
Proof. intros H. left. by apply ready_holds. Qed.

Lemma app_torn a q a' s r prio st : net_request_ok q ->
  (a' = a \/ a' = ar_app (serve tool addr s r a prio q)) -> app_is a' (sw_device (l4_world st)) ->
  torn a (snd (connected_service a (MkSimIA tool) (parsed q))) st.
Proof.
  intros Hq [-> | ->] H%app_is_holds; [by left|right]. revert H. unfold serve, served.
  cbn [handle_apdu sim_app]. rewrite dispatch_modelled by apply (proj2 (proj2 Hq)).
  rewrite reply_app. done.
Qed.

(** A request that returns was served once, by its service. *)
Lemma request_sound a q : net_request_ok q -> sound (ready a) (request (fst q) (snd q)) (fun v st' =>
  fst (connected_service a (MkSimIA tool) (parsed q)) = Ok (Some v) /\
  ready (snd (connected_service a (MkSimIA tool) (parsed q))) st')
  (torn a (snd (connected_service a (MkSimIA tool) (parsed q)))).
Proof.
  intros Hq st (s & r & Hs & Hr & Hl & Hrec). pose proof (proj2 (proj2 Hq)) as Hm.
  destruct (request (fst q) (snd q) st) as [[v|e] st'] eqn:E; cycle 1.
  { destruct (request_refused tool addr Htool Haddr s r a st q e st' Hs Hr Hl Hq
      (recent_not_idle _ _ _ _ _ _ Hl Hrec) E) as (a' & Ha' & Happ). by eapply app_torn. }
  destruct (request_answered tool addr Htool Haddr s r a st q v st' Hs Hr Hl Hq
    (recent_not_idle _ _ _ _ _ _ Hl Hrec) E) as ((Hf & reaction & Er & Hresp) & Hl' & Hrec').
  unfold serve, served in *. cbn [handle_apdu sim_app] in *.
  rewrite dispatch_modelled in * by done.
  change (sim_source (sim_view _)) with (MkSimIA tool) in *. rewrite reply_app in Hl'. fold (parsed q) in *.
  pose proof (modelled_fits a (MkSimIA tool) (parsed q) Hm) as Hfit.
  destruct (connected_service a (MkSimIA tool) (parsed q)) as [[[[ap da]|]|e] a'];
    cbn [reply app_respond ar_result snd fst] in *; try discriminate Er.
  - injection Er as <-. cbn [responses] in Hresp.
    apply (f_equal (fun l => match l with c :: _ => sim_tpdu c | [] => [] end)) in Hresp as He.
    cbn [device_answer sim_tpdu] in He.
    destruct (encode_connected_inj r ap da (fst v) (snd v) Hr (proj1 Hfit) (proj1 Hf) He) as [-> ->].
    split; [by destruct v|]. exists ((s + 1) mod 16), ((r + 1) mod 16).
    split; [apply Z.mod_pos_bound; lia|]. by split; [apply Z.mod_pos_bound; lia|].
  - injection Er as <-. discriminate Hresp.
Qed.

Lemma mgmt_sound {B} P (m : L4Op (SimWorld SimApp) B) Q X : sound P m Q X -> sound P (mgmt m) Q X.
Proof.
  intros Hm st HP. specialize (Hm st HP). unfold mgmt. by destruct (m st) as [[b|e] st'].
Qed.

Lemma service_sound a q v a' : net_request_ok q ->
  connected_service a (MkSimIA tool) (parsed q) = (Ok (Some v), a') ->
  sound (ready a) (mgmt (request (fst q) (snd q))) (fun v' st' => v' = v /\ ready a' st') (torn a a').
Proof.
  intros Hq E. apply mgmt_sound. pose proof (request_sound a q Hq) as H. rewrite E in H.
  eapply sound_post; [exact H| |done]. by intros v' st [[= ->] Hr].
Qed.

Lemma read_service_sound a q v : net_request_ok q ->
  connected_service a (MkSimIA tool) (parsed q) = (Ok (Some v), a) ->
  sound (ready a) (mgmt (request (fst q) (snd q))) (fun v' st' => v' = v /\ ready a st') (holds a).
Proof.
  intros Hq E. eapply sound_post; [by apply service_sound|done|]. by intros st [H|H].
Qed.

(** Data sent that its service does not answer was served once. *)
Lemma send_sound a q a' : net_request_ok q ->
  connected_service a (MkSimIA tool) (parsed q) = (Ok None, a') ->
  sound (ready a) (send_data (fst q) (snd q)) (fun _ st' => ready a' st') (torn a a').
Proof.
  intros Hq Eserv st (s & r & Hs & Hr & Hl & Hrec). pose proof (proj2 (proj2 Hq)) as Hm.
  destruct (send_data (fst q) (snd q) st) as [[[]|e] st'] eqn:E; cycle 1.
  { destruct (data_refused tool addr Htool Haddr s r a st q e st' Hs Hr Hl Hq
      (recent_not_idle _ _ _ _ _ _ Hl Hrec) E) as (a1 & Ha1 & Happ).
    pose proof (app_torn a q a1 s r _ st' Hq Ha1 Happ) as Ht. by rewrite Eserv in Ht. }
  assert (Eonce : serve tool addr s r a (l4c_data_priority (l4_conn st)) q
    = MkAppResult (Ok (MkReaction [] false)) a' true r).
  { unfold serve, served. cbn [handle_apdu sim_app]. rewrite dispatch_modelled by done.
    change (sim_source (sim_view _)) with (MkSimIA tool). fold (parsed q). by rewrite Eserv. }
  destruct (data_sent tool addr Htool Haddr s r a st q st' Hs Hr Hl Hq
    (recent_not_idle _ _ _ _ _ _ Hl Hrec) E) as [Hl' Hrec'].
  { rewrite Eonce. by eexists. }
  rewrite Eonce in Hl'. exists ((s + 1) mod 16), r. split; [apply Z.mod_pos_bound; lia|]. done.
Qed.

Lemma conn_sound a X : sound (ready a) conn (fun _ st => ready a st) X.
Proof. by intros st HP. Qed.

Lemma of_result_sound {B} a (r : result WriteError B) (X : St -> Prop) : (forall st, ready a st -> X st) ->
  sound (ready a) (of_result r) (fun b st => r = Ok b /\ ready a st) X.
Proof. intros HX st HP. unfold of_result. destruct r; [done|by apply HX]. Qed.

Lemma discard_sound a X : sound (ready a) (mgmt discard_pending_response) (fun _ st => ready a st) X.
Proof.
  intros st (s & r & Hs & Hr & [] & Hrec). cbn. exists s, r. split; [done|]. split; [done|]. by split.
Qed.

(** ** Reading *)

(** What reads bring: the memory from [at_] on, not past [n] octets. *)
Definition brings (a : SimApp) (at_ : u32) (n : Z) (got : bytes) : Prop :=
  exists k, 0 <= k <= n /\ got = Memory_read (ld_memory (sa_load a)) at_ k.

Lemma modelled_request_ok q svc : sim_apci_from_u10 (fst q) = svc ->
  0 <= fst q < 1024 -> fst q <> A_SECURE_DATA_APCI -> bytes_ok (snd q) -> (length (snd q) < 255)%nat ->
  match svc with
  | SimMemoryRead _ | SimMemoryWrite _ | SimMemoryExtendedWrite | SimUserMemoryRead | SimUserMemoryWrite => True
  | SimMemoryExtendedRead => 0 <= nth 0 (snd q) 0 <= 250
  | _ => False
  end -> net_request_ok q.
Proof.
  intros E Hr Hs Hb Hl Hm. unfold request_ok. rewrite E. split; [by split|].
  split; [by intros ->|]. split; [done|]. cbn [sim_apci sim_apdu_data]. by destruct svc.
Qed.

Lemma plain_read_ok n at_ : 0 <= n <= 63 -> is_u16 at_ -> net_request_ok (encode_memory_read at_ n).
Proof.
  intros Hn Ha. unfold encode_memory_read, MAX_MEMORY_READ_LEN. rewrite Z.min_l by lia.
  rewrite (land_mask 6 63), Z.mod_small by (lia || reflexivity || (change (2 ^ 6) with 64; lia)).
  destruct (apci_count A_MEMORY_READ n) as (Hsel & _ & Hr); [by left|lia|].
  destruct (be_bytes_2_u16 at_ Ha) as (hi & lo & E & Hhi & Hlo & _). rewrite E.
  apply (modelled_request_ok _ (SimMemoryRead n)); cbn [fst snd]; try done.
  - apply sim_memory_apci. lia.
  - intros E'. rewrite E' in Hsel. discriminate Hsel.
  - apply Forall_cons_2; [done|]. by apply Forall_cons_2.
  - cbn. lia.
Qed.

Lemma plain_write_ok at_ data : is_u16 at_ -> zlen data <= MAX_MEMORY_WRITE_LEN -> bytes_ok data ->
  net_request_ok (encode_memory_write at_ data).
Proof.
  intros Ha Hn Hb. rewrite encode_memory_write_eq by done.
  assert (Hz : 0 <= zlen data < 64) by (unfold zlen, MAX_MEMORY_WRITE_LEN in *; lia).
  destruct (apci_count A_MEMORY_WRITE (zlen data)) as (Hsel & _ & Hr); [by right; right|lia|].
  destruct (be_bytes_2_u16 at_ Ha) as (hi & lo & E & Hhi & Hlo & _). rewrite E.
  apply (modelled_request_ok _ (SimMemoryWrite (zlen data))); cbn [fst snd]; try done.
  - by apply sim_memory_apci.
  - intros E'. rewrite E' in Hsel. discriminate Hsel.
  - apply Forall_cons_2; [done|]. by apply Forall_cons_2.
  - rewrite length_app. cbn [length]. unfold zlen in Hz. lia.
Qed.

Lemma extended_read_ok at_ n : 0 <= at_ <= MAX_MEMORY_ADDRESS -> 0 <= n <= MAX_EXTENDED_MEMORY_LEN ->
  net_request_ok (encode_memory_extended_read at_ n).
Proof.
  unfold MAX_EXTENDED_MEMORY_LEN. intros Ha Hn. unfold encode_memory_extended_read, MAX_EXTENDED_MEMORY_LEN.
  rewrite Z.min_l by lia. unfold as_u8. rewrite Z.mod_small by lia.
  destruct (addr_3_octets_val at_ Ha) as (a2 & a1 & a0 & -> & Hb & _).
  apply (modelled_request_ok _ SimMemoryExtendedRead); cbn [fst snd nth length]; try done; try lia.
  constructor; [unfold is_u8; lia|done].
Qed.

Lemma extended_write_ok at_ data : 0 <= at_ <= MAX_MEMORY_ADDRESS -> zlen data <= MAX_EXTENDED_MEMORY_LEN ->
  bytes_ok data -> net_request_ok (encode_memory_extended_write at_ data).
Proof.
  unfold MAX_EXTENDED_MEMORY_LEN. intros Ha Hn Hd. unfold encode_memory_extended_write, MAX_EXTENDED_MEMORY_LEN.
  assert (Hz : 0 <= zlen data) by (unfold zlen; lia).
  rewrite Z.min_l by lia. unfold as_u8. rewrite Z.mod_small, take_zlen by lia.
  destruct (addr_3_octets_val at_ Ha) as (a2 & a1 & a0 & -> & Hb & _).
  apply (modelled_request_ok _ SimMemoryExtendedWrite); cbn [fst snd]; try done.
  - constructor; [unfold is_u8; lia|]. by apply Forall_app_2.
  - cbn [length]. rewrite length_app. cbn [length]. unfold zlen in Hn. lia.
Qed.

Lemma user_read_ok at_ n : 0 <= at_ <= MAX_USER_MEMORY_ADDRESS -> 0 <= n <= MAX_USER_MEMORY_LEN ->
  net_request_ok (encode_user_memory_read at_ n).
Proof.
  intros Ha Hn. unfold encode_user_memory_read. rewrite Z.min_l by lia.
  destruct (user_memory_header_val at_ n Ha Hn) as (h0 & h1 & h2 & -> & Hb & _).
  apply (modelled_request_ok _ SimUserMemoryRead); cbn [fst snd length]; try done; lia.
Qed.

Lemma user_write_ok at_ data : 0 <= at_ <= MAX_USER_MEMORY_ADDRESS -> zlen data <= MAX_USER_MEMORY_LEN ->
  bytes_ok data -> net_request_ok (encode_user_memory_write at_ data).
Proof.
  intros Ha Hn Hd. unfold encode_user_memory_write. assert (Hz : 0 <= zlen data) by (unfold zlen; lia).
  assert (Hc : as_u8 (Z.min (zlen data) MAX_USER_MEMORY_LEN) = zlen data).
  { unfold MAX_USER_MEMORY_LEN, as_u8 in *. rewrite Z.min_l by lia. apply Z.mod_small. lia. }
  rewrite Hc, take_zlen.
  destruct (user_memory_header_val at_ (zlen data)) as (h0 & h1 & h2 & -> & Hb & _); [done|lia|].
  apply (modelled_request_ok _ SimUserMemoryWrite); cbn [fst snd]; try done.
  - by apply Forall_app_2.
  - rewrite length_app. cbn [length]. unfold zlen, MAX_USER_MEMORY_LEN in *. lia.
Qed.

(** An answer that names the address asked for ends the skipping at once. *)
Lemma skip_memory_none a n at_ data : is_u16 at_ -> zlen data <= MAX_MEMORY_READ_LEN ->
  sound (ready a) (skip_memory_echoes n at_ (encode_memory_response at_ data))
    (fun answer st => answer = encode_memory_response at_ data /\ ready a st) (holds a).
Proof.
  intros Ha Hn. destruct n as [|n]; cbn [skip_memory_echoes]; [by apply sound_ret|].
  rewrite memory_response_roundtrip by done. cbn [mr_addr]. rewrite Z.eqb_refl. by apply sound_ret.
Qed.

Lemma plain_read_sound a at_ len : 0 <= at_ -> 0 <= len -> at_ + Z.max len 1 <= 65536 ->
  sound (ready a) (let '(req_apci, payload) := encode_memory_read (as_u16 at_) len in
    answer ← mgmt (request req_apci payload);
    answer ← skip_memory_echoes STALE_ECHO_SKIPS (as_u16 at_) answer;
    resp ← of_result (ok_or (Mgmt (MalformedResponse "expected A_Memory_Response with matching count"))
             (decode_memory_response (fst answer) (snd answer)));
    mret (mr_data resp)) (fun got st => brings a at_ len got /\ ready a st) (holds a).
Proof.
  intros Ha Hn Hs. assert (Ha16 : is_u16 at_) by (unfold is_u16; lia).
  unfold as_u16. rewrite Z.mod_small by (unfold is_u16 in Ha16; lia).
  set (n := Z.min len 63).
  assert (En : encode_memory_read at_ len = encode_memory_read at_ n).
  { unfold encode_memory_read, n, MAX_MEMORY_READ_LEN. do 3 f_equal. lia. }
  rewrite En. set (q := encode_memory_read at_ n).
  rewrite (surjective_pairing q).
  assert (Hn' : 0 <= n <= 63) by (unfold n; lia).
  set (data := Memory_read (ld_memory (sa_load a)) at_ n).
  assert (Hl : zlen data = n) by (apply length_Memory_read; lia).
  apply (sound_bind _ _ _ (fun v st => v = encode_memory_response at_ data /\ ready a st)).
  { apply read_service_sound; [by apply plain_read_ok|by apply plain_read_served]. }
  intros v. apply sound_pure. intros ->.
  apply (sound_bind _ _ _ (fun v st => v = encode_memory_response at_ data /\ ready a st));
    [by apply skip_memory_none; [|unfold MAX_MEMORY_READ_LEN; lia]|].
  intros v. apply sound_pure. intros ->.
  rewrite memory_response_roundtrip by (done || (unfold MAX_MEMORY_READ_LEN; lia)).
  eapply sound_bind; [apply of_result_sound, ready_holds|]. intros resp. apply sound_pure. intros [= <-].
  apply sound_ret. intros st Hr. split; [|done]. exists n. unfold n in *. split; [lia|done].
Qed.

Lemma extended_read_sound a at_ len : 0 <= at_ <= MAX_MEMORY_ADDRESS -> 0 <= len ->
  sound (ready a) (read_memory_extended at_ len) (fun got st => brings a at_ len got /\ ready a st) (holds a).
Proof.
  intros Ha Hn. unfold read_memory_extended. set (n := Z.min len 228).
  assert (En : encode_memory_extended_read at_ len = encode_memory_extended_read at_ n).
  { unfold encode_memory_extended_read, n, MAX_EXTENDED_MEMORY_LEN. by rewrite <- Z.min_assoc, Z.min_id. }
  rewrite En. set (q := encode_memory_extended_read at_ n). rewrite (surjective_pairing q).
  assert (Hn' : 0 <= n <= MAX_EXTENDED_MEMORY_LEN) by (unfold n, MAX_EXTENDED_MEMORY_LEN; lia).
  set (data := Memory_read (ld_memory (sa_load a)) at_ n).
  apply (sound_bind _ _ _ (fun v st => v = encode_memory_extended_read_response 0 at_ data /\ ready a st)).
  { apply read_service_sound; [by apply extended_read_ok|by apply extended_read_served]. }
  intros v. apply sound_pure. intros ->.
  cbn [fst encode_memory_extended_read_response]. rewrite extended_response_roundtrip by done.
  eapply sound_bind; [apply of_result_sound, ready_holds|]. intros resp. apply sound_pure. intros [= <-].
  cbn [emr_return_code emr_data Z.eqb negb]. apply sound_ret. intros st Hr. split; [|done].
  exists n. unfold n in *. split; [lia|done].
Qed.

Lemma user_response_decodes at_ n data : 0 <= at_ <= MAX_USER_MEMORY_ADDRESS ->
  0 <= n <= MAX_USER_MEMORY_LEN -> zlen data = n ->
  decode_user_memory A_USER_MEMORY_RESPONSE (user_memory_header at_ n ++ data)
  = Some (MkUserMemory n at_ data).
Proof.
  intros Ha Hn Hl. destruct (user_memory_header_val at_ n Ha Hn) as (h0 & h1 & h2 & -> & _ & Hc & Hv).
  unfold decode_user_memory. cbn [app]. rewrite Hc, Hv. unfold get_range.
  cbn [Z.eqb A_USER_MEMORY_RESPONSE A_USER_MEMORY_READ A_USER_MEMORY_WRITE orb negb Pos.eqb].
  rewrite bool_decide_eq_true_2 by (cbn [length]; unfold zlen in *; lia).
  unfold slice. rewrite Nat.add_comm, Nat.add_sub. change (drop 3 (h0 :: h1 :: h2 :: data)) with data.
  rewrite <- Hl, take_zlen. done.
Qed.

Lemma user_read_sound a at_ len : 0 <= at_ -> 0 <= len ->
  sound (ready a) (read_memory_user at_ len) (fun got st => brings a at_ len got /\ ready a st) (holds a).
Proof.
  intros Ha Hn. unfold read_memory_user. destruct (Z.ltb_spec MAX_USER_MEMORY_ADDRESS
    (Z.min (at_ + (Z.max len 1 - 1)) 4294967295)) as [_|Htop]; [apply sound_fail, ready_holds|].
  assert (Ha20 : 0 <= at_ <= MAX_USER_MEMORY_ADDRESS) by (unfold MAX_USER_MEMORY_ADDRESS in *; lia).
  cbv zeta. set (n := Z.min len MAX_USER_MEMORY_LEN).
  assert (Hn' : 0 <= n <= MAX_USER_MEMORY_LEN) by (unfold n, MAX_USER_MEMORY_LEN; lia).
  set (q := encode_user_memory_read at_ n). rewrite (surjective_pairing q).
  set (data := Memory_read (ld_memory (sa_load a)) at_ n).
  assert (Hl : zlen data = n) by (apply length_Memory_read; lia).
  set (answer := (A_USER_MEMORY_RESPONSE, user_memory_header at_ n ++ data)).
  assert (Hdec : decode_user_memory (fst answer) (snd answer) = Some (MkUserMemory n at_ data))
    by (by apply user_response_decodes).
  apply (sound_bind _ _ _ (fun v st => v = answer /\ ready a st)).
  { apply read_service_sound; [by apply user_read_ok|by apply user_read_served]. }
  intros v. apply sound_pure. intros ->.
  apply (sound_bind _ _ _ (fun v st => v = answer /\ ready a st)).
  { unfold STALE_ECHO_SKIPS. cbn [skip_user_echoes]. rewrite Hdec. cbn [um_addr].
    rewrite !Z.eqb_refl. by apply sound_ret. }
  intros v. apply sound_pure. intros ->. rewrite Hdec. cbn [mbind option_bind um_addr fst answer].
  rewrite !Z.eqb_refl. cbn [andb ok_or].
  eapply sound_bind; [apply of_result_sound, ready_holds|]. intros resp. apply sound_pure. intros [= <-].
  cbn [um_count um_data]. destruct ((n =? 0) && (0 <? n)); [apply sound_fail, ready_holds|].
  apply sound_ret. intros st Hr. split; [|done]. exists n. unfold n in *. split; [lia|done].
Qed.

Lemma read_memory_sound a at_ len : 0 <= at_ <= MAX_MEMORY_ADDRESS -> 0 <= len ->
  sound (ready a) (read_memory at_ len) (fun got st => brings a at_ len got /\ ready a st) (holds a).
Proof.
  intros Ha Hn. eapply sound_bind; [apply conn_sound|]. intros c.
  destruct (memory_service c at_ (Z.to_nat len)) eqn:E.
  - apply plain_read_sound; [lia|done|]. unfold memory_service, select_extended_memory in E.
    destruct (Z.ltb_spec 65535 (at_ + (Z.max (Z.of_nat (Z.to_nat len)) 1 - 1))); [|lia].
    cbn [negb] in E. by destruct (l4c_user_memory_above_64k c).
  - by apply extended_read_sound.
  - by apply user_read_sound; [lia|].
Qed.

Lemma read_strict_sound a at_ len : 0 <= at_ <= MAX_MEMORY_ADDRESS -> 0 <= len ->
  sound (ready a) (read_memory_strict at_ len) (fun got st => brings a at_ len got /\ ready a st) (holds a).
Proof.
  intros Ha Hn. eapply sound_bind; [by apply read_memory_sound|]. intros got.
  destruct (_ && _); [apply sound_fail; by intros st [_ Hr%ready_holds]|]. by apply sound_ret.
Qed.

Lemma take_Memory_read m at_ n k : 0 <= n <= k -> take (Z.to_nat n) (Memory_read m at_ k) = Memory_read m at_ n.
Proof.
  intros Hn. replace k with (n + (k - n)) by lia. rewrite <- Memory_read_app by lia.
  apply take_app_length'. pose proof (length_Memory_read m at_ n ltac:(lia)) as Hl. unfold zlen in Hl. lia.
Qed.

(** Octets so far are the memory's, and stay so with the next chunk. *)
Lemma read_chunks_sound a at_ len chunk fuel : 0 <= at_ -> 0 < chunk ->
  at_ + Z.of_nat len <= MAX_MEMORY_ADDRESS + 1 ->
  forall out, (length out <= len)%nat ->
  out = Memory_read (ld_memory (sa_load a)) at_ (zlen out) ->
  sound (ready a) (read_chunks fuel at_ len chunk out) (fun got st =>
    got = Memory_read (ld_memory (sa_load a)) at_ (Z.of_nat len) /\ ready a st) (holds a).
Proof.
  intros Ha Hc Hend. induction fuel as [|fuel IH]; intros out Hlen Hout; cbn [read_chunks].
  all: destruct (Nat.leb_spec len (length out)) as [Hdone|Hmore].
  1, 3: apply sound_ret; intros st Hst; split; [|done]; rewrite firstn_all2 by lia;
    rewrite Hout; f_equal; unfold zlen; lia.
  { apply sound_fail, ready_holds. }
  eapply sound_bind; [apply of_result_sound, ready_holds|]. intros at'. apply sound_pure. unfold read_chunk_address.
  destruct ((Z.of_nat (length out) <? 4294967296) && _ && _); [|done]. intros [= <-].
  set (want := Z.min (Z.of_nat (len - length out)) chunk).
  eapply sound_bind; [apply read_strict_sound; unfold MAX_MEMORY_ADDRESS, want in *; lia|].
  intros got. apply sound_pure. intros (k & Hk & ->).
  destruct (bool_decide _) eqn:Enil; [apply sound_fail, ready_holds|].
  assert (Hl : zlen (Memory_read (ld_memory (sa_load a)) (at_ + Z.of_nat (length out)) k) = k)
    by (apply length_Memory_read; lia).
  apply IH.
  - rewrite length_app. unfold zlen in Hl. unfold want in Hk. lia.
  - change (Z.of_nat (length out)) with (zlen out) in *. unfold zlen at 2. rewrite length_app, Nat2Z.inj_add.
    fold (zlen out) (zlen (Memory_read (ld_memory (sa_load a)) (at_ + zlen out) k)). rewrite Hl.
    rewrite Hout at 1. rewrite Memory_read_app by (unfold zlen; lia). done.
Qed.

Lemma read_range_sound a at_ len : 0 <= at_ ->
  sound (ready a) (read_memory_range at_ len) (fun got st =>
    got = Memory_read (ld_memory (sa_load a)) at_ (Z.of_nat len) /\ ready a st) (holds a).
Proof.
  intros Ha. unfold read_memory_range. destruct (Nat.eqb_spec len 0) as [->|Hn]; [by apply sound_ret|].
  destruct (Z.leb_spec (at_ + Z.of_nat len) (MAX_MEMORY_ADDRESS + 1)) as [Hend|]; [|apply sound_fail, ready_holds].
  cbn [negb]. eapply sound_bind; [apply conn_sound|]. intros c.
  apply read_chunks_sound; [done| |done|cbn; lia|done].
  pose proof (chunk_positive c at_ len). lia.
Qed.

(** ** Writing *)

(** A span of one open segment, free of any other, whose owner is loading. *)
Record open_at (a : SimApp) (at_ : u32) (len : Z) : Prop := MkOpenAt {
  oa_access : ld_access_level (sa_load a) = 0;
  oa_verify : verify_mode (sa_load a) = false;
  oa_segment : exists seg, In seg (segments (ld_memory (sa_load a))) /\
    Segment_contains seg at_ len = true /\
    load_state (sa_load a) (seg_owner seg) = Some SimLoading /\
    (forall t, In t (segments (ld_memory (sa_load a))) ->
       Segment_overlaps t (MkSegment (seg_owner seg) at_ len) = true -> t = seg) }.

(** The device with the octets written. *)
Definition written (a : SimApp) (at_ : u32) (data : bytes) : SimApp :=
  sa_set_load (ld_set_memory (MkMemory (write_cells (cells (ld_memory (sa_load a))) at_ 0 data)
                                (segments (ld_memory (sa_load a)))) (sa_load a)) a.

Lemma find_unique {X} (f : X -> bool) l x : In x l -> f x = true ->
  (forall y, In y l -> f y = true -> y = x) -> List.find f l = Some x.
Proof.
  induction l as [|z l IH]; [done|]. intros Hin Hx Hu. cbn [List.find]. destruct (f z) eqn:Ez.
  - f_equal. apply Hu; [by left|done].
  - apply IH; [|done|intros y Hy; apply Hu; by right]. destruct Hin as [->|]; [congruence|done].
Qed.

Lemma open_stores a at_ len k data : 0 <= at_ -> open_at a at_ len -> 0 <= k -> 0 < zlen data ->
  k + zlen data <= len -> stores a (at_ + k) data (written a (at_ + k) data).
Proof.
  intros Ha [Hacc Hv (seg & Hin & Hc & Hld & Hu)] Hk Hd Hlen. split; [done|]. split; [done|].
  apply contains_bounds in Hc as [Hc1 Hc2].
  assert (Hfind : forall n, 0 < n -> k + n <= len ->
    List.find (fun s => Segment_contains s (at_ + k) n) (segments (ld_memory (sa_load a))) = Some seg).
  { intros n Hn Hkn. apply find_unique; [done| |].
    - unfold Segment_contains. apply andb_true_iff. lia.
    - intros t Ht [Ht1 Ht2]%contains_bounds. apply Hu; [done|]. apply overlaps_bounds.
      unfold seg_end in *. cbn [seg_base seg_len]. lia. }
  unfold store, on_memory_write. rewrite Hacc. cbn [Z.eqb negb].
  unfold Memory_segment_at. rewrite Hfind by lia. rewrite Hld, bool_decide_eq_true_2 by done. cbn [negb].
  unfold Memory_write. rewrite Hfind by lia. rewrite Z.eqb_refl. done.
Qed.

Lemma open_written a at_ len at' data : open_at a at_ len -> open_at (written a at' data) at_ len.
Proof. intros [Hacc Hv Hseg]. by split. Qed.

Lemma write_cells_shift data : forall c at_ k i, write_cells c (at_ + k) i data = write_cells c at_ (k + i) data.
Proof.
  induction data as [|b data IH]; intros c at_ k i; [done|]. cbn [write_cells].
  rewrite IH. f_equal; [f_equal; f_equal; lia|lia].
Qed.

Lemma write_cells_app d1 d2 : forall c at_ i,
  write_cells c at_ i (d1 ++ d2) = write_cells (write_cells c at_ i d1) at_ (i + zlen d1) d2.
Proof.
  induction d1 as [|b d1 IH]; intros c at_ i.
  - cbn. by rewrite Z.add_0_r.
  - cbn [app write_cells]. rewrite IH. f_equal. unfold zlen. cbn [length]. lia.
Qed.

Lemma written_app a at_ d1 d2 :
  written (written a at_ d1) (at_ + zlen d1) d2 = written a at_ (d1 ++ d2).
Proof.
  unfold written. cbn. rewrite write_cells_shift, write_cells_app. by rewrite Z.add_0_r.
Qed.

Lemma written_nil a at_ : written a at_ [] = a.
Proof. by destruct a as [mask serial [? ? [? ?]]]. Qed.

Lemma chunk_address_ok base offset addr' : chunk_address base offset = Ok addr' ->
  addr' = base + Z.of_nat offset /\ addr' <= MAX_MEMORY_ADDRESS.
Proof.
  unfold chunk_address. destruct (_ && _) eqn:E; [|done]. intros [= <-].
  apply andb_true_iff in E as [_ E]. apply Z.leb_le in E. done.
Qed.

Lemma user_chunk_address_ok base offset len addr' : user_chunk_address base offset len = Ok addr' ->
  addr' = base + Z.of_nat offset /\ addr' <= MAX_USER_MEMORY_ADDRESS.
Proof.
  unfold user_chunk_address. destruct (chunk_address base offset) as [x|] eqn:E; [|done].
  cbn [mbind result_bind]. destruct (Z.ltb_spec MAX_USER_MEMORY_ADDRESS (x + Z.max (Z.of_nat len) 1 - 1));
    [done|]. intros [= <-]. split; [by apply chunk_address_ok in E as [-> _]|lia].
Qed.

Lemma write_chunk_sound a base offset piece service : 0 <= base -> bytes_ok piece ->
  zlen piece <= service_limit service ->
  (service = MemPlain -> base + Z.of_nat offset < 65536) ->
  stores a (base + Z.of_nat offset) piece (written a (base + Z.of_nat offset) piece) ->
  sound (ready a) (write_one_chunk base offset piece service)
    (fun _ st => ready (written a (base + Z.of_nat offset) piece) st)
    (torn a (written a (base + Z.of_nat offset) piece)).
Proof.
  intros Hb Hok Hlim Hplain Hst. destruct service; cbn [write_one_chunk].
  - eapply sound_bind; [apply of_result_sound, ready_torn|]. intros addr'. apply sound_pure.
    intros [-> Hmax]%chunk_address_ok. assert (Ha16 : is_u16 (base + Z.of_nat offset))
      by (unfold is_u16; specialize (Hplain eq_refl); lia).
    unfold as_u16. rewrite Z.mod_small by (unfold is_u16 in Ha16; lia).
    set (q := encode_memory_write _ _). rewrite (surjective_pairing q).
    apply (sound_bind _ _ _ (fun _ st => ready (written a (base + Z.of_nat offset) piece) st));
      [|intros []; apply discard_sound]. apply mgmt_sound.
    apply send_sound; [by apply plain_write_ok|by apply plain_write_served].
  - eapply sound_bind; [apply of_result_sound, ready_torn|]. intros addr'. apply sound_pure.
    intros [-> Hmax]%chunk_address_ok.
    set (q := encode_memory_extended_write _ _). rewrite (surjective_pairing q).
    apply (sound_bind _ _ _ (fun v st => v = encode_memory_extended_write_response 0 (base + Z.of_nat offset) /\
      ready (written a (base + Z.of_nat offset) piece) st)).
    { apply service_sound; [apply extended_write_ok; (done || lia)|].
      apply (extended_write_served a (MkSimIA tool)); (done || lia). }
    intros v. apply sound_pure. intros ->. unfold check_extended_write_response.
    cbn [fst encode_memory_extended_write_response]. rewrite extended_write_response_roundtrip by lia.
    cbn. by intros st Hr.
  - eapply sound_bind; [apply of_result_sound, ready_torn|]. intros addr'. apply sound_pure.
    intros [-> Hmax]%user_chunk_address_ok.
    set (q := encode_user_memory_write _ _). rewrite (surjective_pairing q).
    apply (sound_bind _ _ _ (fun _ st => ready (written a (base + Z.of_nat offset) piece) st));
      [|intros []; apply discard_sound]. apply mgmt_sound.
    apply send_sound; [apply user_write_ok; (done || lia)|apply user_write_served; (done || lia)].
Qed.

(** What a write that fails leaves: a prefix of the data, written. *)
Definition torn_write (a : SimApp) (base : u32) (data : bytes) (st : St) : Prop :=
  exists k, (k <= length data)%nat /\ holds (written a base (take k data)) st.

Lemma write_chunks_sound a base data service chunk fuel : 0 <= base -> bytes_ok data -> 1 <= chunk ->
  chunk <= service_limit service ->
  (service = MemPlain -> base + zlen data <= 65536) ->
  forall a1 offset, (offset <= length data)%nat -> open_at a1 base (zlen data) ->
  a1 = written a base (take offset data) ->
  sound (ready a1)
    (write_chunks fuel (fun offset piece => write_one_chunk base offset piece service)
       (fun _ => mret tt) chunk data offset)
    (fun _ st => ready (written a base data) st) (torn_write a base data).
Proof.
  intros Hb Hok Hc Hlim Hplain. induction fuel as [|fuel IH]; intros a1 offset Hoff Hopen ->; cbn [write_chunks].
  all: destruct (Nat.leb_spec (length data) offset) as [Hdone|Hmore].
  1, 3: apply sound_ret; intros st; by rewrite firstn_all2.
  { apply sound_fail. intros st Hst%ready_holds. by exists offset. }
  set (n := Nat.min (Z.to_nat chunk) (length data - offset)).
  set (piece := slice offset (offset + n) data).
  assert (Hn : (0 < n <= length data - offset)%nat) by (unfold n; lia).
  assert (Hpl : length piece = n).
  { unfold piece, slice. rewrite length_take, length_drop. lia. }
  assert (Hnext : take (offset + n) data = take offset data ++ piece).
  { unfold piece, slice. replace (offset + n - offset)%nat with n by lia. by rewrite take_take_drop. }
  assert (Hzt : zlen (take offset data) = Z.of_nat offset) by (unfold zlen; rewrite length_take; lia).
  assert (Hw : written (written a base (take offset data)) (base + Z.of_nat offset) piece
    = written a base (take (offset + n) data)) by (by rewrite <- Hzt, written_app, Hnext).
  apply (sound_bind _ _ _ (fun _ st => ready (written a base (take (offset + n) data)) st)).
  { rewrite <- Hw. eapply sound_post; [apply write_chunk_sound; [done| | | |]|done|].
    - unfold piece, slice. by apply Forall_take, Forall_drop.
    - unfold zlen. rewrite Hpl. unfold n. lia.
    - intros E. specialize (Hplain E). unfold zlen in Hplain. lia.
    - apply (open_stores _ base (zlen data)); unfold zlen; rewrite ?Hpl; (done || lia).
    - rewrite Hw. intros st [H|H]; [by exists offset|exists (offset + n)%nat; split; [lia|done]]. }
  intros []. apply (sound_bind _ _ _ (fun _ st => ready (written a base (take (offset + n) data)) st));
    [by apply sound_ret|]. intros [].
  apply IH; [lia| |done]. rewrite <- Hw. by apply open_written.
Qed.

Lemma write_memory_sound a base data : 0 <= base -> bytes_ok data -> open_at a base (zlen data) ->
  sound (ready a) (ClientMemory.write_memory base data)
    (fun _ st => ready (written a base data) st) (torn_write a base data).
Proof.
  intros Hb Hok Hopen. unfold ClientMemory.write_memory, write_memory_chunked.
  case_bool_decide as Hnil.
  - subst data. apply sound_ret. intros st Hr. by rewrite written_nil.
  - eapply sound_bind; [apply conn_sound|]. intros c. cbv zeta.
    apply (write_chunks_sound a); try done.
    + apply chunk_positive.
    + apply chunk_limit.
    + intros E. unfold memory_service, select_extended_memory in E.
      destruct (Z.ltb_spec 65535 (base + (Z.max (Z.of_nat (length data)) 1 - 1))); [|unfold zlen; lia].
      cbn [negb] in E. by destruct (l4c_user_memory_above_64k c).
    + lia.
    + by rewrite written_nil.
Qed.

End Net.
