(* ===== verification/MemTransfer.v ===== *)
(** * Memory transfers: what the client's reads and writes promise

    The theorems of the composition: [ClientMemory]'s reads and writes over the
    management connection of [Connection], the lossy medium of [SimBus], the
    simulated device's transport layer and its application ([SimApp]), from the
    triples of [MemNet]; and that every telegram of a transfer fits the APDU. *)

From S2P Require Import Prelude Address Cursor Cemi Tpci SimWire SimMemory.
From S2P Require Import SimTransport MgmtError Crypto Sequence Asdu SecureSession Apci.
From S2P Require Import Connection SimBus L4Compose L4Request Load Mcb Sys7 SimLsm SimLoad.
From S2P Require Import SimApp ClientMemory MemNet.

Local Open Scope string_scope.
Local Open Scope list_scope.
Local Open Scope Z_scope.

(** The octets a device's memory holds. *)
Definition device_octets (a : SimApp) (at_ : u32) (n : nat) : bytes :=
  Memory_read (ld_memory (sa_load a)) at_ (Z.of_nat n).

Section Transfer.
  Context `{S : DeviceServices} `{C : SecureCiphers}.
  Variables tool addr : u16.
  Hypotheses (Htool : is_u16 tool) (Haddr : is_u16 addr).

Local Abbreviation St := (L4State (SimWorld SimApp)).

Lemma read_range_fits at_ len (st : St) got st' : read_memory_range at_ len st = (Ok got, st') ->
  len = O \/ at_ + Z.of_nat len <= MAX_MEMORY_ADDRESS + 1.
Proof.
  unfold read_memory_range. destruct (Nat.eqb_spec len 0) as [->|Hn]; [by left|].
  destruct (Z.leb_spec (at_ + Z.of_nat len) (MAX_MEMORY_ADDRESS + 1)); [by right|].
  cbn. discriminate.
Qed.

Lemma outside_written a base data at_ n : 0 <= base -> 0 <= at_ ->
  at_ + n <= base \/ base + zlen data <= at_ -> at_ + n <= 4294967296 ->
  base + zlen data <= 4294967296 ->
  Memory_read (ld_memory (sa_load (written a base data))) at_ n
  = Memory_read (ld_memory (sa_load a)) at_ n.
Proof.
  intros Hb Ha Hout Hn Hend. apply Memory_read_ext; [done|done|]. intros k Hk.
  unfold read_cell, written. cbn [sa_load ld_memory cells sa_set_load ld_set_memory].
  rewrite write_cells_lookup, decide_False by lia. done.
Qed.

(** A read that returns brings the device's memory.  Over a medium that loses
    whatever it likes, with the plain, the extended or the user-memory service and
    however many telegrams the span takes, [read_memory_range] returns either the
    octets the device's memory holds there, with client and device in sequence
    again, or an error, the memory untouched. *)
Theorem memory_read_exact a st at_ len : 0 <= at_ -> ready tool addr a st ->
  match read_memory_range at_ len st with
  | (Ok got, st') => got = device_octets a at_ len /\ ready tool addr a st'
  | (Err _, st') => holds a st'
  end.
Proof.
  intros Ha Hr. pose proof (read_range_sound tool addr Htool Haddr a at_ len Ha st Hr) as H.
  by destruct (read_memory_range at_ len st) as [[got|e] st'].
Qed.

(** What a write leaves: the whole data written, or on an error a prefix of it. *)
Definition write_outcome (a : SimApp) (base : u32) (data : bytes)
    (out : result WriteError unit * St) : Prop :=
  match out with
  | (Ok _, st') => ready tool addr (written a base data) st'
  | (Err _, st') => exists k, (k <= length data)%nat /\ holds (written a base (take k data)) st'
  end.

(** C35: A write changes a prefix of its span, and all of it if it returns.  On a span
    of one open segment whose object is loading, whatever the medium loses,
    [write_memory] that returns has left the whole data and nothing else in the
    device's memory, and one that fails the first octets of the data, each once
    and in order, and nothing else. *)
Theorem memory_write_prefix a st base data : 0 <= base -> bytes_ok data ->
  open_at a base (zlen data) -> ready tool addr a st ->
  write_outcome a base data (ClientMemory.write_memory base data st).
Proof.
  intros Hb Hd Ho Hr. pose proof (write_memory_sound tool addr Htool Haddr a base data Hb Hd Ho st Hr) as H.
  by destruct (ClientMemory.write_memory base data st) as [[[]|e] st'].
Qed.

(** C1: On a span of one open segment, free of any other, whose object is loading, of
    a device that grants access at level 0 and has verify mode off: a write that
    returns over a connection in step with the device is what a later read brings,
    over the same lossy network, and any span disjoint from it reads as it did before
    the write.  (Without the segment a write returns as well and stores nothing:
    [write_to_no_segment].) *)
Theorem memory_write_then_read a st st1 st2 base data at_ len got :
  0 <= base -> bytes_ok data -> open_at a base (zlen data) -> base + zlen data <= MAX_MEMORY_ADDRESS + 1 ->
  ready tool addr a st -> 0 <= at_ ->
  ClientMemory.write_memory base data st = (Ok tt, st1) ->
  read_memory_range at_ len st1 = (Ok got, st2) ->
  (at_ = base -> len = length data -> got = data) /\
  (at_ + Z.of_nat len <= base \/ base + zlen data <= at_ ->
   got = device_octets a at_ len).
Proof.
  unfold device_octets, MAX_MEMORY_ADDRESS. intros Hb Hd Ho Hend Hr Ha Ew Er.
  pose proof (write_memory_sound tool addr Htool Haddr a base data Hb Hd Ho st Hr) as H1. rewrite Ew in H1.
  pose proof (read_range_sound tool addr Htool Haddr _ at_ len Ha st1 H1) as H2. rewrite Er in H2.
  destruct H2 as [-> _]. split.
  - intros -> ->. apply Memory_read_written; [done|lia].
  - intros Hout. apply read_range_fits in Er as [->|Hfit]; [done|]. unfold MAX_MEMORY_ADDRESS in Hfit.
    apply outside_written; lia || done.
Qed.

(** ** Refused writes *)

Lemma store_refused at_ data a e : fst (store at_ data a) = Err e -> store at_ data a = (Err e, a).
Proof.
  unfold store, on_memory_write. intros E. assert (Ea : sa_set_load (sa_load a) a = a) by (by destruct a).
  destruct (negb _); cbn in E; [by injection E as ->; rewrite Ea|].
  destruct (Memory_segment_at _ _); cbn in E; [|by injection E as ->; rewrite Ea].
  destruct (negb _); cbn in E; [by injection E as ->; rewrite Ea|].
  destruct (Memory_write _ _ _ _); cbn in E; [done|]. by injection E as ->; rewrite Ea.
Qed.

Lemma plain_write_refused a tool' at_ data e : is_u16 at_ -> zlen data <= MAX_MEMORY_WRITE_LEN ->
  fst (store at_ data a) = Err e ->
  exists e', connected_service a tool' (parsed (encode_memory_write at_ data)) = (Err e', a).
Proof.
  intros Ha Hn Hst%store_refused. rewrite encode_memory_write_eq by done.
  assert (Hz : 0 <= zlen data < 64) by (unfold zlen, MAX_MEMORY_WRITE_LEN in *; lia).
  unfold parsed, connected_service. cbn [fst snd sim_apci].
  rewrite (proj2 (sim_memory_apci _ Hz)). unfold on_memory_write_apdu, sim_memory_count, require_access.
  cbn [sim_apci_raw sim_apdu_data]. destruct (negb _); [by eexists|].
  destruct (apci_count A_MEMORY_WRITE (zlen data)) as (_ & -> & _); [by right; right|done|].
  destruct (be_bytes_2_u16 at_ Ha) as (hi & lo & -> & _ & _ & Eu). cbn [app]. rewrite Eu.
  rewrite (proj2 (Z.ltb_ge _ _)) by lia. rewrite take_zlen, Hst. by eexists.
Qed.

(** A telegram of a plain write, as the device sees it. *)
Record is_write (from : SimIndividualAddress) (seq : u8) (at_ : u16) (data : bytes) (telegram : CemiLData)
    : Prop := MkIsWrite {
  iw_source : sim_source telegram = from;
  iw_tpdu : sim_tpdu telegram = sim_encode_connected seq (fst (encode_memory_write at_ data))
              (snd (encode_memory_write at_ data)) }.

Lemma is_write_numbered from seq at_ data telegram : 0 <= seq < 16 -> is_u16 at_ -> bytes_ok data ->
  zlen data <= MAX_MEMORY_WRITE_LEN -> is_write from seq at_ data telegram ->
  numbered_seq telegram = Some seq /\
  sim_apdu_parse (sim_tpdu telegram) = Some (parsed (encode_memory_write at_ data)).
Proof.
  intros Hs Ha Hd Hn [_ Et]. pose proof (plain_write_ok at_ data Ha Hn Hd) as (Hf & _ & _).
  destruct (encode_connected_octet seq (fst (encode_memory_write at_ data))
    (snd (encode_memory_write at_ data)) Hs (proj1 (proj1 Hf))) as (o0 & o1 & E & H64 & Hseq & _ & _ & Hap).
  unfold numbered_seq. rewrite Et, E. split.
  - unfold sim_tpci_from_byte. destruct (Z.eqb_spec o0 128) as [->|_]; [discriminate H64|].
    destruct (Z.eqb_spec o0 129) as [->|_]; [discriminate H64|]. by rewrite H64, Hseq.
  - cbn [sim_apdu_parse]. rewrite Hap. done.
Qed.

(** A refused write is acknowledged when it is repeated.  The device advances its
    receive sequence before the service runs, so a plain write it refuses (no
    segment, object not loading, no access) is an error at first, answered by
    silence, and its repetition, which the client sends for want of a T_ACK, is
    taken for a duplicate and acknowledged, with nothing written. *)
Theorem refused_write_acknowledged (d : Device SimApp) telegram at_ data e now :
  d_connected d = true -> 0 <= d_rx_seq d < 16 -> d_exchange_budget d = None -> in_time d now ->
  is_u16 at_ -> bytes_ok data -> zlen data <= MAX_MEMORY_WRITE_LEN ->
  fst (store at_ data (d_app d)) = Err e ->
  is_write (l4_peer (d_l4 d)) (d_rx_seq d) at_ data telegram ->
  exists e' d1, handle_cemi_at d telegram now = (Err e', d1) /\ d_app d1 = d_app d /\
    forall now', duration_since now' now < CONNECTION_TIMEOUT ->
      handle_cemi_at d1 telegram now'
      = (Ok (MkReaction [sim_t_ack d1 (l4_peer (d_l4 d)) (d_rx_seq d)] false), set_last_traffic now' d1).
Proof.
  intros Hc Hrx Hb Ht Ha Hd Hn Hst Hw.
  destruct (is_write_numbered (l4_peer (d_l4 d)) (d_rx_seq d) at_ data telegram Hrx Ha Hd Hn Hw) as [Hnum Hparse].
  destruct (plain_write_refused (d_app d) (l4_peer (d_l4 d)) at_ data e Ha Hn Hst) as [e' Es].
  assert (Eh : handle_apdu (d_app d) true (d_tx_seq d) telegram (parsed (encode_memory_write at_ data))
    = MkAppResult (Err e') (d_app d) true (d_tx_seq d)).
  { cbn [handle_apdu sim_app]. rewrite dispatch_modelled by apply (plain_write_ok at_ data Ha Hn Hd).
    rewrite (iw_source _ _ _ _ _ Hw). by rewrite Es. }
  destruct (refused_then_repeated d telegram (parsed (encode_memory_write at_ data)) e' now) as (d1 & E1 & Ea & E2);
    rewrite ?Eh in *; try done; [exact (iw_source _ _ _ _ _ Hw)|].
  exists e', d1. by rewrite (iw_source _ _ _ _ _ Hw) in E2.
Qed.

End Transfer.

(** ** Witnesses: a device with one segment loading, over a medium that loses frames *)

(** A device without the services of other files. *)
#[local] Instance demo_services : DeviceServices := {|
  svc_property_read a _ _ := (Err NotConnected, a);
  svc_property_write a _ _ := (Err NotConnected, a);
  svc_property_description_read a _ _ := (Err NotConnected, a);
  svc_extended_property a _ _ := (Err NotConnected, a);
  svc_function_property a _ _ := (Err NotConnected, a);
  svc_restart a tx _ _ := MkAppResult (Err NotConnected) a true tx |}.

#[local] Existing Instance demo_ciphers.

(** Object 3 is loading and owns 64 octets from 0x4000. *)
Definition demo_memory_load : LoadDevice :=
  MkLoadDevice {[ 3 := MkObjectState (MkLsm SimLoading (Some 64)) 16384 None ]} ∅
    (MkMemory ∅ [MkSegment 3 16384 64]) 0 None 0 ∅.

Definition demo_app : SimApp := MkSimApp (MkSimIA 4353) 1968 demo_memory_load.

(** The connection opened over a medium with the given losses. *)
Definition demo_memory_link (losses : list bool) : L4State (SimWorld SimApp) :=
  snd (Layer4Connection_connect (IndividualAddress_from_raw 4353) (IndividualAddress_from_raw 4607)
         (Timeouts_default None, SecureLayer_plain) None (MkHighWater 0 0)
         (MkSimWorld (MkDevice demo_app false 0 0 None 0 (MkL4 (MkSimIA 0) 0 None false)) [] 1000 losses)).

Definition demo_data : bytes := [1;2;3;4;5;6;7;8;9;10;11;12;13;14;15;16;17;18;19;20;21;22;23;24;25;26;27;28;29;30].

Lemma demo_memory_ready losses : In losses [[]; [false; false; true]] ->
  ready 4607 4353 demo_app (demo_memory_link losses).
Proof.
  intros [<-|[<-|[]]]; exists 0, 0; (split; [lia|split; [lia|split; [|vm_compute; reflexivity]]]);
    split; try (vm_compute; reflexivity); try (left; vm_compute; reflexivity);
    try (intros _; vm_compute; done); vm_compute; constructor.
Qed.

Lemma demo_data_ok : bytes_ok demo_data.
Proof. repeat (apply Forall_cons_2; [unfold is_u8; lia|]). constructor. Qed.

Lemma demo_open : open_at demo_app 16384 (zlen demo_data).
Proof.
  split; [reflexivity|reflexivity|]. exists (MkSegment 3 16384 64).
  split; [by left|]. split; [reflexivity|]. split; [reflexivity|]. by intros t [<-|[]].
Qed.

Definition demo_written : L4State (SimWorld SimApp) :=
  snd (ClientMemory.write_memory 16384 demo_data (demo_memory_link [false; false; true])).

Lemma memory_read_exact_witness : exists st',
  read_memory_range 16380 9 (demo_memory_link [false; false; true]) = (Ok (replicate 9 0), st') /\
  ready 4607 4353 demo_app st'.
Proof.
  pose proof (memory_read_exact 4607 4353 ltac:(unfold is_u16; lia) ltac:(unfold is_u16; lia) demo_app
    (demo_memory_link [false; false; true]) 16380 9 ltac:(lia)
    (demo_memory_ready _ (or_intror (or_introl eq_refl)))) as H.
  assert (E : fst (read_memory_range 16380 9 (demo_memory_link [false; false; true]))
    = Ok (replicate 9 0)) by (vm_compute; reflexivity).
  destruct (read_memory_range 16380 9 _) as [r st']. cbn [fst] in E. subst r.
  exists st'. split; [reflexivity|exact (proj2 H)].
Defined.

Lemma memory_write_prefix_witness :
  fst (ClientMemory.write_memory 16384 demo_data (demo_memory_link [false; false; true])) = Ok tt /\
  ready 4607 4353 (written demo_app 16384 demo_data) demo_written.
Proof.
  pose proof (memory_write_prefix 4607 4353 ltac:(unfold is_u16; lia) ltac:(unfold is_u16; lia) demo_app
    (demo_memory_link [false; false; true]) 16384 demo_data ltac:(lia)
    demo_data_ok demo_open
    (demo_memory_ready _ (or_intror (or_introl eq_refl)))) as H.
  assert (E : fst (ClientMemory.write_memory 16384 demo_data (demo_memory_link [false; false; true]))
    = Ok tt) by (vm_compute; reflexivity).
  split; [exact E|]. unfold demo_written. destruct (ClientMemory.write_memory 16384 demo_data _) as [r st'].
  cbn [fst] in E. subst r. exact H.
Defined.

Lemma memory_write_then_read_witness :
  fst (read_memory_range 16384 30 demo_written) = Ok demo_data.
Proof.
  assert (Ew : ClientMemory.write_memory 16384 demo_data (demo_memory_link [false; false; true])
    = (Ok tt, demo_written)) by (vm_compute; reflexivity).
  assert (Er : exists got, fst (read_memory_range 16384 30 demo_written) = Ok got)
    by (eexists; vm_compute; reflexivity).
  destruct Er as [got Er]. destruct (read_memory_range 16384 30 demo_written) as [r st2] eqn:E.
  cbn [fst] in *. subst r. f_equal.
  apply (memory_write_then_read 4607 4353 ltac:(unfold is_u16; lia) ltac:(unfold is_u16; lia) demo_app
    (demo_memory_link [false; false; true]) demo_written st2 16384 demo_data 16384 30 got ltac:(lia)
    demo_data_ok demo_open ltac:(vm_compute; discriminate)
    (demo_memory_ready _ (or_intror (or_introl eq_refl))) ltac:(lia) Ew E); reflexivity.
Defined.

(** The client's view of it: a write to where no segment is returns [Ok]. *)
Example write_to_no_segment :
  let '(res, st) := ClientMemory.write_memory 20480 [1; 2] (demo_memory_link []) in
  res = Ok tt /\ Memory_read (ld_memory (sa_load (d_app (sw_device (l4_world st))))) 20480 2 = [0; 0].
Proof. vm_compute. done. Qed.

Definition demo_open_device : Device SimApp :=
  MkDevice demo_app true 0 0 None 0 (MkL4 (MkSimIA 4607) 0 None false).

Definition demo_refused_write : CemiLData :=
  MkCemiLData SimLDataReq 176 96 (MkSimIA 4607) 4353 [66; 130; 80; 0; 1; 2].

Lemma refused_write_acknowledged_witness : exists e d1,
  handle_cemi_at demo_open_device demo_refused_write 1 = (Err e, d1) /\ d_app d1 = demo_app /\
  fst (handle_cemi_at d1 demo_refused_write 2) = Ok (MkReaction [sim_t_ack d1 (MkSimIA 4607) 0] false).
Proof.
  destruct (refused_write_acknowledged demo_open_device demo_refused_write 20480 [1; 2]
    (MemoryRejected (OutOfSegment 20480 2)) 1) as (e & d1 & E & Ea & Er);
    [reflexivity|split; simpl; lia|reflexivity|vm_compute; reflexivity|unfold is_u16; lia
    |by repeat (apply Forall_cons_2; [unfold is_u8; lia|])
    |vm_compute; discriminate|vm_compute; reflexivity|by split|].
  exists e, d1. split; [exact E|]. split; [exact Ea|]. by rewrite (Er 2 ltac:(vm_compute; reflexivity)).
Defined.

(** ** Sizes of memory telegrams

    What the chunk sizes of [ClientMemory] promise: a telegram carries its whole
    piece, and with the Data Secure wrapping counted in it stays within the APDU
    the device negotiated. *)

(** The telegram [write_one_chunk] sends for a piece. *)
Definition write_request (service : MemoryService) (addr : u32) (piece : bytes) : u16 * bytes :=
  match service with
  | MemPlain => encode_memory_write (as_u16 addr) piece
  | MemExtended => encode_memory_extended_write addr piece
  | MemUser => encode_user_memory_write addr piece
  end.

(** The octets of a write before its data. *)
Definition service_header (service : MemoryService) : Z :=
  match service with MemPlain => 2 | MemExtended => 4 | MemUser => 3 end.

(** The NPDU length of a telegram: the second octet of the APCI and the data. *)
Definition npdu_length (q : u16 * bytes) : Z := 1 + zlen (snd q).

(** The longest write without a negotiated APDU. *)
Definition conservative_npdu (service : MemoryService) : Z :=
  match service with MemPlain => 15 | MemExtended => 17 | MemUser => 14 end.

Lemma write_request_whole service addr piece : 0 <= addr <= MAX_MEMORY_ADDRESS ->
  (service = MemUser -> addr <= MAX_USER_MEMORY_ADDRESS) ->
  zlen piece <= service_limit service ->
  exists header, snd (write_request service addr piece) = header ++ piece /\
    zlen header = service_header service.
Proof.
  intros Ha Hu Hn. assert (Hz : 0 <= zlen piece) by (unfold zlen; lia).
  destruct service; cbn [write_request service_limit service_header] in *.
  - rewrite encode_memory_write_eq by (done || (unfold is_u16, as_u16; zdiv)).
    exists (be_bytes 2 (as_u16 addr)). split; [done|]. unfold zlen. by rewrite length_be_bytes.
  - unfold encode_memory_extended_write, MAX_EXTENDED_MEMORY_LEN in *.
    rewrite Z.min_l by lia. unfold as_u8. rewrite Z.mod_small, take_zlen by lia. cbn [snd].
    destruct (addr_3_octets_val addr Ha) as (a2 & a1 & a0 & -> & _).
    exists [zlen piece; a2; a1; a0]. done.
  - unfold encode_user_memory_write, MAX_USER_MEMORY_LEN in *.
    rewrite Z.min_l by lia. unfold as_u8. rewrite Z.mod_small, take_zlen by lia. cbn [snd].
    destruct (user_memory_header_val addr (zlen piece)) as (h0 & h1 & h2 & -> & _);
      [by split; [lia|apply Hu]|unfold MAX_USER_MEMORY_LEN; lia|]. by exists [h0; h1; h2].
Qed.

Lemma chunk_fits c addr len budget : inner_max_apdu c = Some budget -> 6 <= budget ->
  1 + service_header (memory_service c addr len) + memory_chunk_for c addr len <= budget.
Proof.
  intros Hi Hb. unfold memory_chunk_for. destruct (memory_service c addr len);
    unfold max_memory_chunk, max_extended_memory_chunk, max_user_memory_chunk; rewrite Hi;
    unfold memory_chunk_for_apdu, extended_memory_chunk_for_apdu, user_memory_chunk_for_apdu,
      MEMORY_APDU_OVERHEAD, EXTENDED_MEMORY_APDU_OVERHEAD, USER_MEMORY_APDU_OVERHEAD,
      MAX_MEMORY_WRITE_LEN, MAX_EXTENDED_MEMORY_LEN, MAX_USER_MEMORY_LEN, saturating_sub, as_u8;
    cbn [service_header default option_rect from_option id]; zdiv.
Qed.

Lemma chunk_conservative c addr len : inner_max_apdu c = None ->
  1 + service_header (memory_service c addr len) + memory_chunk_for c addr len
  = conservative_npdu (memory_service c addr len).
Proof.
  intros Hi. unfold memory_chunk_for. destruct (memory_service c addr len);
    unfold max_memory_chunk, max_extended_memory_chunk, max_user_memory_chunk; by rewrite Hi.
Qed.

Section Secure.
  Context `{C : SecureCiphers, L : !SecureCiphersLaws C}.

(** The Data Secure wrapping adds its overhead, no more and no less. *)
Lemma wrapped_length l env target source tpci apci data wire :
  fst (fst (SecureLayer_wrap_outgoing l env target source tpci apci data)) = Ok wire ->
  npdu_length wire = npdu_length (apci, data) + (if SecureLayer_is_active l then SECURE_APDU_OVERHEAD else 0).
Proof.
  unfold SecureLayer_wrap_outgoing, SecureLayer_is_active, npdu_length.
  destruct (sl_session l) as [session|]; [|intros [= <-]; lia].
  unfold DataSecureSession_wrap, asdu_encode, encode_apdu. destruct (negb _); [done|].
  destruct (seal _ _ _ _ _ _) as [[secured mac]|] eqn:E; [|done].
  apply seal_inv in E as (Hm & Hs & _). cbn. intros [= <-]. unfold zlen, SECURE_APDU_OVERHEAD.
  cbn [snd length]. rewrite length_app, Hs, Hm.
  unfold inner_apdu_bytes, TP_MAC_LEN. cbn [length]. lia.
Qed.

(** C38: A memory write fits what the device negotiated.  A piece of at most the chunk
    size goes into one telegram whole, behind its service's header; the telegram
    on the wire is longer than that one by exactly the Data Secure overhead when the
    connection is secured and as long otherwise, and with a negotiated APDU that leaves six octets for the plain telegram it is within that
    APDU.  Without one, a plain or user-memory write fits the 15 octets of a
    standard frame and an extended one may take 17. *)
Theorem memory_telegrams_fit c env tpci addr base len piece wire :
  let service := memory_service c base len in
  let q := write_request service addr piece in
  0 <= addr <= MAX_MEMORY_ADDRESS -> (service = MemUser -> addr <= MAX_USER_MEMORY_ADDRESS) ->
  zlen piece <= memory_chunk_for c base len ->
  fst (fst (SecureLayer_wrap_outgoing (l4c_secure c) env (l4c_target c) (l4c_source c) tpci
              (fst q) (snd q))) = Ok wire ->
  (exists header, snd q = header ++ piece /\ zlen header = service_header service) /\
  npdu_length wire = npdu_length q + (if SecureLayer_is_active (l4c_secure c) then SECURE_APDU_OVERHEAD else 0) /\
  match l4c_max_apdu c, inner_max_apdu c with
  | Some v, Some budget => 6 <= budget -> npdu_length wire <= v
  | _, _ => npdu_length q <= conservative_npdu service
  end.
Proof.
  intros service q Ha Hu Hn Hw. pose proof (chunk_limit c base len) as Hlim.
  destruct (write_request_whole service addr piece Ha Hu ltac:(unfold service; lia)) as (header & Eq & Hh).
  split; [by exists header|].
  assert (Hq : npdu_length q = 1 + service_header service + zlen piece).
  { unfold npdu_length, q. rewrite Eq, <- Hh. unfold zlen. rewrite length_app. lia. }
  apply wrapped_length in Hw. rewrite <- surjective_pairing in Hw. split; [exact Hw|].
  destruct (inner_max_apdu c) as [budget|] eqn:Ei.
  - unfold inner_max_apdu in Ei. destruct (l4c_max_apdu c) as [v|] eqn:Ev; [|done]. intros Hb.
    pose proof (chunk_fits c base len budget) as Hfit. unfold inner_max_apdu in Hfit. rewrite Ev in Hfit.
    specialize (Hfit Ei Hb). fold service in Hfit. cbn in Ei. injection Ei as Ei.
    revert Hw Ei. unfold SECURE_APDU_OVERHEAD, saturating_sub. destruct (SecureLayer_is_active _); lia.
  - pose proof (chunk_conservative c base len Ei) as Hc. fold service in Hc.
    destruct (l4c_max_apdu c); lia.
Qed.

End Secure.

(** A secured connection that negotiated 233 octets. *)
Definition demo_secured : Layer4Connection :=
  l4c_set_secure (MkSecureLayer (Some (demo_session 1234)) None false)
    (l4c_set_max_apdu (Some 233) (l4_conn demo_quiet)).

(** The 215 octets of the extended write that such a connection sends. *)
Definition demo_wire : u16 * bytes :=
  let q := write_request MemExtended 65536 (replicate 215 7) in
  match fst (fst (@SecureLayer_wrap_outgoing demo_ciphers (l4c_secure demo_secured) (MkHighWater 0 0)
    (l4c_target demo_secured) (l4c_source demo_secured) 66 (fst q) (snd q))) with
  | Ok wire => wire
  | Err _ => (0, [])
  end.

Lemma memory_telegrams_fit_witness :
  memory_chunk_for demo_secured 65536 1000 = 215 /\ npdu_length demo_wire <= 233.
Proof.
  split; [vm_compute; reflexivity|].
  pose proof (@memory_telegrams_fit demo_ciphers _ demo_secured (MkHighWater 0 0) 66 65536 65536 1000
    (replicate 215 7) demo_wire) as H. cbn zeta in H. destruct H as (_ & _ & H).
  - vm_compute. split; discriminate.
  - vm_compute. discriminate.
  - vm_compute. discriminate.
  - vm_compute. reflexivity.
  - cbn [l4c_max_apdu demo_secured l4c_set_secure l4c_set_max_apdu] in H. apply H. vm_compute. discriminate.
Defined.

(** Without a negotiated APDU the extended write of a full chunk is longer than a
    standard frame holds. *)
Example conservative_extended_write_too_long :
  let c := l4_conn demo_quiet in
  memory_service c 65536 1000 = MemExtended /\
  npdu_length (write_request MemExtended 65536 (replicate (Z.to_nat (memory_chunk_for c 65536 1000)) 7)) = 17 /\
  15 < 17.
Proof. vm_compute. done. Qed.
