(* ===== verification/PropertyExt.v ===== *)
(** * The extended property services from the client ([bussard-mgmt/src/property_ext.rs])

    The header of the services (object type, instance and property id packed in
    five octets), the payloads with their decoders, and the exchanges over a
    connection: a read and a confirmed write of elements, whole tables read and
    written in requests sized to the negotiated APDU, descriptions, functions and
    the load control of the security object.

    The exchanges are over [L4Requests], what they use of a connection; the
    connection of [Connection] is an instance.  The texts of errors are left out. *)

From S2P Require Import Prelude Address Cursor Cemi Tpci Crypto Sequence Asdu SecureSession.
From S2P Require Import MgmtError Apci Connection Load.

Local Open Scope string_scope.
Local Open Scope list_scope.
Local Open Scope Z_scope.

Definition A_PROPERTY_EXT_VALUE_READ : u16 := 460.
Definition A_PROPERTY_EXT_VALUE_RESPONSE : u16 := 461.
Definition A_PROPERTY_EXT_VALUE_WRITE_CON : u16 := 462.
Definition A_PROPERTY_EXT_VALUE_WRITE_CON_RESPONSE : u16 := 463.
Definition A_PROPERTY_EXT_DESCRIPTION_READ : u16 := 466.
Definition A_PROPERTY_EXT_DESCRIPTION_RESPONSE : u16 := 467.
Definition A_FUNCTION_PROPERTY_EXT_COMMAND : u16 := 468.
Definition A_FUNCTION_PROPERTY_EXT_STATE_READ : u16 := 469.
Definition A_FUNCTION_PROPERTY_EXT_STATE_RESPONSE : u16 := 470.

Definition OT_SECURITY : u16 := 17.
Definition PID_SECURITY_LOAD_STATE_CONTROL : u16 := 5.
Definition PID_GRP_KEY_TABLE : u16 := 53.
Definition PID_SECURITY_INDIVIDUAL_ADDRESS_TABLE : u16 := 54.
Definition PID_GO_SECURITY_FLAGS : u16 := 61.

Definition PROPERTY_EXT_WRITE_OVERHEAD : u16 := 9.

(** ** The header of the services *)

Record PropertyExtAddress : Type := MkExtAddress {
  pea_object_type : u16;
  pea_object_instance : u16;
  pea_property_id : u16 }.

#[export] Instance PropertyExtAddress_eq_dec : EqDecision PropertyExtAddress.
Proof. solve_decision. Defined.

Definition PropertyExtAddress_ok (a : PropertyExtAddress) : Prop :=
  is_u16 (pea_object_type a) /\ 0 <= pea_object_instance a < 4096 /\ 0 <= pea_property_id a < 4096.

Definition PropertyExtAddress_security (property_id : u16) : PropertyExtAddress :=
  MkExtAddress OT_SECURITY 1 property_id.

Definition PropertyExtAddress_encode (a : PropertyExtAddress) : bytes :=
  let packed := Z.lor (Z.shiftl (Z.land (pea_object_instance a) 4095) 12) (Z.land (pea_property_id a) 4095) in
  be_bytes 2 (pea_object_type a) ++ [as_u8 (Z.shiftr packed 16); as_u8 (Z.shiftr packed 8); as_u8 packed].

Definition PropertyExtAddress_decode (payload : bytes) : option PropertyExtAddress :=
  match payload with
  | t0 :: t1 :: h2 :: h3 :: h4 :: _ =>
      let packed := Z.lor (Z.lor (Z.shiftl h2 16) (Z.shiftl h3 8)) h4 in
      Some (MkExtAddress (u16_of t0 t1) (as_u16 (Z.shiftr packed 12)) (Z.land packed 4095))
  | _ => None
  end.

(** ** Payloads *)

Definition encode_property_ext_value_read (addr : PropertyExtAddress) (count : u8) (start : u16) : bytes :=
  PropertyExtAddress_encode addr ++ [count] ++ be_bytes 2 start.

Definition encode_property_ext_value_write (addr : PropertyExtAddress) (count : u8) (start : u16) (data : bytes) : bytes :=
  encode_property_ext_value_read addr count start ++ data.

Record PropertyExtValue : Type := MkExtValue {
  pev_addr : PropertyExtAddress; pev_count : u8; pev_start : u16; pev_data : bytes }.

Definition decode_property_ext_value (payload : bytes) : option PropertyExtValue :=
  addr ← PropertyExtAddress_decode payload;
  match drop 5 payload with
  | count :: s_hi :: s_lo :: data => Some (MkExtValue addr count (u16_of s_hi s_lo) data)
  | _ => None
  end.

Record PropertyExtWriteConResponse : Type := MkExtWriteCon {
  pwc_addr : PropertyExtAddress; pwc_count : u8; pwc_start : u16; pwc_return_code : u8 }.

Definition decode_property_ext_write_con_response (payload : bytes) : option PropertyExtWriteConResponse :=
  v ← decode_property_ext_value payload;
  return_code ← head (pev_data v);
  Some (MkExtWriteCon (pev_addr v) (pev_count v) (pev_start v) return_code).

Definition encode_property_ext_description_read (addr : PropertyExtAddress) (property_index : u16) : bytes :=
  PropertyExtAddress_encode addr ++ be_bytes 2 (Z.land property_index 4095).

Record PropertyExtDescription : Type := MkExtDescription {
  ped_addr : PropertyExtAddress;
  ped_description_type : u8;
  ped_property_index : u16;
  ped_dpt_main : u16;
  ped_dpt_sub : u16;
  ped_write_enable : bool;
  ped_pdt : u8;
  ped_max_elements : u16;
  ped_read_level : u8;
  ped_write_level : u8 }.

Definition encode_property_ext_description_response (d : PropertyExtDescription) : bytes :=
  let index_word := Z.lor (Z.shiftl (Z.land (ped_description_type d) 15) 12) (Z.land (ped_property_index d) 4095) in
  PropertyExtAddress_encode (ped_addr d) ++ be_bytes 2 index_word ++ be_bytes 2 (ped_dpt_main d)
  ++ be_bytes 2 (ped_dpt_sub d)
  ++ [Z.lor (if ped_write_enable d then 128 else 0) (Z.land (ped_pdt d) 63)]
  ++ be_bytes 2 (ped_max_elements d)
  ++ [Z.lor (as_u8 (Z.shiftl (ped_read_level d) 4)) (Z.land (ped_write_level d) 15)].

Definition decode_property_ext_description_response (payload : bytes) : option PropertyExtDescription :=
  addr ← PropertyExtAddress_decode payload;
  match drop 5 payload with
  | p0 :: p1 :: p2 :: p3 :: p4 :: p5 :: p6 :: p7 :: p8 :: p9 :: _ =>
      let index_word := u16_of p0 p1 in
      Some (MkExtDescription addr (as_u8 (Z.shiftr index_word 12)) (Z.land index_word 4095) (u16_of p2 p3)
              (u16_of p4 p5) (negb (Z.land p6 128 =? 0)) (Z.land p6 63) (u16_of p7 p8) (Z.shiftr p9 4) (Z.land p9 15))
  | _ => None
  end.

Definition encode_function_property_ext (addr : PropertyExtAddress) (data : bytes) : bytes :=
  PropertyExtAddress_encode addr ++ data.

Record FunctionPropertyExtCommand : Type := MkExtCommand { fpc_addr : PropertyExtAddress; fpc_data : bytes }.

Definition decode_function_property_ext (payload : bytes) : option FunctionPropertyExtCommand :=
  addr ← PropertyExtAddress_decode payload; Some (MkExtCommand addr (drop 5 payload)).

Record FunctionPropertyExtState : Type := MkExtState {
  fps_addr : PropertyExtAddress; fps_return_code : u8; fps_data : bytes }.

Definition decode_function_property_ext_state_response (payload : bytes) : option FunctionPropertyExtState :=
  addr ← PropertyExtAddress_decode payload;
  match drop 5 payload with
  | return_code :: data => Some (MkExtState addr return_code data)
  | [] => None
  end.

(** ** What the exchanges use of a connection *)

Definition Req_op (S A : Type) : Type := S -> result MgmtError A * S.

#[export] Instance Req_op_ret {S} : MRet (Req_op S) := fun A a s => (Ok a, s).
#[export] Instance Req_op_bind {S} : MBind (Req_op S) := fun A B k m s =>
  match m s with
  | (Ok a, s') => k a s'
  | (Err e, s') => (Err e, s')
  end.

Class L4Requests (S : Type) : Type := {
  l4_request : u16 -> bytes -> Req_op S (u16 * bytes);
  l4_request_optional : u16 -> bytes -> Req_op S (option (u16 * bytes));
  l4_max_apdu : S -> u16;
  l4_exchanges : S -> u32;
  l4_reopen_after_unanswered : S -> S }.

#[export] Instance connection_requests {W} `{L4World W} `{SecureCiphers} : L4Requests (L4State W) := {
  l4_request := request;
  l4_request_optional := request_optional;
  l4_max_apdu s := effective_max_apdu (l4_conn s);
  l4_exchanges s := l4c_numbered_exchanges (l4_conn s);
  l4_reopen_after_unanswered s := MkL4State (l4c_set_closed false (l4_conn s)) (l4_shared s) (l4_world s) }.

Section Requests.
  Context {S : Type} `{L4Requests S}.

Definition refuse {A} (e : MgmtError) : Req_op S A := fun s => (Err e, s).
Definition checked {A} (r : result MgmtError A) : Req_op S A := fun s => (r, s).
Definition of_conn {A} (f : S -> A) : Req_op S A := fun s => (Ok (f s), s).

Definition malformed : MgmtError := MalformedResponse "extended property service".

Definition max_write_elements (s : S) (element_size : nat) : nat :=
  let budget := Z.to_nat (saturating_sub (l4_max_apdu s) PROPERTY_EXT_WRITE_OVERHEAD) in
  Nat.min (Nat.max (budget / Nat.max element_size 1) 1) 255.

Definition max_read_elements : S -> nat -> nat := max_write_elements.

(** ** Elements of a property *)

Definition read_property_ext (addr : PropertyExtAddress) (count : u8) (start : u16) : Req_op S PropertyExtValue :=
  answer ← l4_request A_PROPERTY_EXT_VALUE_READ (encode_property_ext_value_read addr count start);
  let '(resp_apci, data) := answer in
  if negb (resp_apci =? A_PROPERTY_EXT_VALUE_RESPONSE) then refuse malformed else
  resp ← checked (ok_or malformed (decode_property_ext_value data));
  if negb (bool_decide (pev_addr resp = addr)) || negb (pev_start resp =? start) then refuse malformed else
  if pev_count resp =? 0 then refuse (ServiceRejected "A_PropertyExtValue_Read" "" None)
  else mret resp.

Definition read_property_ext_element_count (addr : PropertyExtAddress) : Req_op S u16 :=
  resp ← read_property_ext addr 1 0;
  match pev_data resp with
  | hi :: lo :: _ => mret (u16_of hi lo)
  | [b] => mret b
  | [] => refuse malformed
  end.

(** The loop over a table of [count] elements: [next] is the first element not
    read yet, [chunk] the elements asked for at once. *)
Fixpoint read_table_loop (fuel : nat) (addr : PropertyExtAddress) (element_size : nat) (count : u16)
    (chunk : nat) (next : Z) (out : bytes) : Req_op S bytes := fun s =>
  match fuel with
  | O => (Err (MalformedResponse "fuel"), s)
  | Datatypes.S fuel =>
      if count <? next then (Ok out, s) else
      let remaining := (Z.to_nat (count - next) + 1)%nat in
      let want := Nat.min (Nat.max (Nat.min chunk remaining) 1) 255 in
      match read_property_ext addr (Z.of_nat want) next s with
      | (Ok resp, s') =>
          let got := Nat.min (Z.to_nat (pev_count resp)) want in
          let octets := (got * element_size)%nat in
          if (got =? 0)%nat || (length (pev_data resp) <? octets)%nat then (Err malformed, s')
          else read_table_loop fuel addr element_size count chunk (next + Z.of_nat got)
                 (out ++ take octets (pev_data resp)) s'
      | (Err (ServiceRejected a b c), s') =>
          if (1 <? want)%nat then read_table_loop fuel addr element_size count (want / 2) next out s'
          else (Err (ServiceRejected a b c), s')
      | (Err e, s') => (Err e, s')
      end
  end.

(** Every turn takes an element or halves the chunk, which is at most 255
    ([read_table_enough]). *)
Definition read_table_fuel (count : u16) : nat := (Z.to_nat count + 256)%nat.

Definition read_property_ext_table (addr : PropertyExtAddress) (element_size : nat) : Req_op S bytes :=
  count ← read_property_ext_element_count addr;
  let element_size := Nat.max element_size 1 in
  chunk ← of_conn (fun s => max_read_elements s element_size);
  read_table_loop (read_table_fuel count) addr element_size count chunk 1 [].

(** [None] for a device that declines the service, or acknowledges it and stays
    silent. *)
Definition declined_as_none {A} (f : Req_op S A) : Req_op S (option A) := fun s =>
  match f s with
  | (Ok v, s') => (Ok (Some v), s')
  | (Err e, s') =>
      match e with
      | ServiceRejected _ _ _ | MalformedResponse _ => (Ok None, s')
      | NoResponse | MidSessionSilence Silence_NoResponse _ _ =>
          if l4_exchanges s <? l4_exchanges s' then (Ok None, l4_reopen_after_unanswered s') else (Err e, s')
      | _ => (Err e, s')
      end
  end.

Definition write_property_ext_con (addr : PropertyExtAddress) (count : u8) (start : u16) (data : bytes) : Req_op S unit :=
  answer ← l4_request A_PROPERTY_EXT_VALUE_WRITE_CON (encode_property_ext_value_write addr count start data);
  let '(resp_apci, resp) := answer in
  if negb (resp_apci =? A_PROPERTY_EXT_VALUE_WRITE_CON_RESPONSE) then refuse malformed else
  conf ← checked (ok_or malformed (decode_property_ext_write_con_response resp));
  if negb (bool_decide (pwc_addr conf = addr)) || negb (pwc_start conf =? start) || negb (pwc_count conf =? count)
  then refuse malformed
  else if negb (pwc_return_code conf =? 0)
  then refuse (ServiceRejected "A_PropertyExtValue_WriteCon" "" (Some (pwc_return_code conf)))
  else mret tt.

(** [data.chunks(octets)] with the start index of each chunk. *)
Fixpoint write_elements_loop (fuel : nat) (addr : PropertyExtAddress) (element_size per : nat) (index : u16)
    (data : bytes) : Req_op S unit :=
  match fuel, data with
  | _, [] => mret tt
  | O, _ => refuse (MalformedResponse "fuel")
  | Datatypes.S fuel, _ =>
      let chunk := take (per * element_size) data in
      let count := Z.of_nat (length chunk / element_size) in
      _ ← write_property_ext_con addr (as_u8 count) index chunk;
      write_elements_loop fuel addr element_size per (Z.min (index + as_u16 count) 65535)
        (drop (per * element_size) data)
  end.

Definition write_property_ext_chunked (addr : PropertyExtAddress) (start : u16) (element_size : nat) (data : bytes)
    : Req_op S unit := fun s =>
  let element_size := Nat.max element_size 1 in
  if negb (length data mod element_size =? 0)%nat then (Err malformed, s)
  else write_elements_loop (length data) addr element_size (max_write_elements s element_size) start data s.

(** ** Descriptions and functions *)

Definition read_property_ext_description (addr : PropertyExtAddress) (property_index : u16)
    : Req_op S PropertyExtDescription :=
  answer ← l4_request A_PROPERTY_EXT_DESCRIPTION_READ (encode_property_ext_description_read addr property_index);
  let '(resp_apci, data) := answer in
  if negb (resp_apci =? A_PROPERTY_EXT_DESCRIPTION_RESPONSE) then refuse malformed
  else checked (ok_or malformed (decode_property_ext_description_response data)).

Definition read_property_ext_description_optional (addr : PropertyExtAddress) : Req_op S (option PropertyExtDescription) :=
  answer ← l4_request_optional A_PROPERTY_EXT_DESCRIPTION_READ (encode_property_ext_description_read addr 0);
  match answer with
  | None => mret None
  | Some (resp_apci, data) =>
      if negb (resp_apci =? A_PROPERTY_EXT_DESCRIPTION_RESPONSE) then mret None
      else mret (decode_property_ext_description_response data)
  end.

Definition function_property_ext_request (req_apci : u16) (addr : PropertyExtAddress) (data : bytes)
    : Req_op S FunctionPropertyExtState :=
  answer ← l4_request req_apci (encode_function_property_ext addr data);
  let '(resp_apci, resp) := answer in
  if negb (resp_apci =? A_FUNCTION_PROPERTY_EXT_STATE_RESPONSE) then refuse malformed else
  state ← checked (ok_or malformed (decode_function_property_ext_state_response resp));
  if negb (bool_decide (fps_addr state = addr)) then refuse malformed else
  if negb (fps_return_code state =? 0)
  then refuse (ServiceRejected (if req_apci =? A_FUNCTION_PROPERTY_EXT_COMMAND then "A_FunctionPropertyExt_Command"
                                else "A_FunctionPropertyExt_State_Read") "" (Some (fps_return_code state)))
  else mret state.

Definition function_property_ext_command (addr : PropertyExtAddress) (data : bytes) : Req_op S FunctionPropertyExtState :=
  function_property_ext_request A_FUNCTION_PROPERTY_EXT_COMMAND addr data.

Definition function_property_ext_state_read (addr : PropertyExtAddress) (data : bytes) : Req_op S FunctionPropertyExtState :=
  function_property_ext_request A_FUNCTION_PROPERTY_EXT_STATE_READ addr data.

(** ** The load state of the security object *)

Definition security_load_control (control : LoadControl) : Req_op S LoadState :=
  state ← function_property_ext_command (PropertyExtAddress_security PID_SECURITY_LOAD_STATE_CONTROL)
            (LoadControl_encode_full control);
  octet ← checked (ok_or malformed (head (fps_data state)));
  mret (LoadState_from_octet octet).

Definition security_load_state : Req_op S LoadState :=
  let addr := PropertyExtAddress_security PID_SECURITY_LOAD_STATE_CONTROL in
  state ← declined_as_none (function_property_ext_state_read addr []);
  match state ≫= (fun st => head (fps_data st)) with
  | Some octet => mret (LoadState_from_octet octet)
  | None =>
      value ← read_property_ext addr 1 1;
      octet ← checked (ok_or malformed (head (pev_data value)));
      mret (LoadState_from_octet octet)
  end.
End Requests.

(** ** Facts *)

Lemma encoded_address a : PropertyExtAddress_ok a ->
  PropertyExtAddress_encode a
  = [pea_object_type a / 256; pea_object_type a mod 256; pea_object_instance a / 16;
     (pea_object_instance a mod 16) * 16 + pea_property_id a / 256; pea_property_id a mod 256].
Proof.
  intros (Ht & Hi & Hp). unfold PropertyExtAddress_encode. rewrite be_bytes_2 by done.
  rewrite !(land_mask 12) by lia. change (2 ^ 12) with 4096. rewrite !(Z.mod_small _ 4096) by lia.
  rewrite (lor_shiftl_add 12) by lia. rewrite !shiftr_div by lia. unfold as_u8.
  change (2 ^ 12) with 4096. change (2 ^ 16) with 65536. change (2 ^ 8) with 256. cbn [app].
  set (i := pea_object_instance a) in *. set (p := pea_property_id a) in *.
  assert (((i * 4096 + p) / 65536) mod 256 = i / 16) as -> by zdiv.
  assert (((i * 4096 + p) / 256) mod 256 = i mod 16 * 16 + p / 256) as -> by zdiv.
  assert ((i * 4096 + p) mod 256 = p mod 256) as -> by zdiv. done.
Qed.

Lemma length_encoded_address a : length (PropertyExtAddress_encode a) = 5%nat.
Proof. unfold PropertyExtAddress_encode. by rewrite length_app, length_be_bytes. Qed.

Lemma decode_address a rest : PropertyExtAddress_ok a ->
  PropertyExtAddress_decode (PropertyExtAddress_encode a ++ rest) = Some a.
Proof.
  intros Ha. rewrite encoded_address by done. destruct a as [t i p], Ha as (Ht & Hi & Hp).
  cbn [pea_object_type pea_object_instance pea_property_id] in *. cbn [app PropertyExtAddress_decode].
  assert (E : Z.lor (Z.lor (Z.shiftl (i / 16) 16) (Z.shiftl (i mod 16 * 16 + p / 256) 8)) (p mod 256) = i * 4096 + p).
  { rewrite (Z.shiftl_mul_pow2 (_ + _)) by lia. rewrite (lor_shiftl_add 16) by (unfold_widths; zdiv).
    replace (i / 16 * 2 ^ 16 + (i mod 16 * 16 + p / 256) * 2 ^ 8)
      with (Z.shiftl (i / 16 * 256 + (i mod 16 * 16 + p / 256)) 8) by (rewrite Z.shiftl_mul_pow2 by lia; lia).
    rewrite (lor_shiftl_add 8) by zdiv. change (2 ^ 8) with 256. zdiv. }
  rewrite E. do 2 f_equal.
  - unfold u16_of. zdiv.
  - rewrite shiftr_div by lia. change (2 ^ 12) with 4096. unfold as_u16. zdiv.
  - rewrite (land_mask 12) by lia. change (2 ^ 12) with 4096. zdiv.
Qed.

Lemma address_octets_ok a : PropertyExtAddress_ok a -> bytes_ok (PropertyExtAddress_encode a).
Proof.
  intros Ha. rewrite encoded_address by done. destruct Ha as (Ht & Hi & Hp).
  repeat constructor; unfold is_u16, is_u8 in *; zdiv.
Qed.

Lemma drop_address a rest : drop 5 (PropertyExtAddress_encode a ++ rest) = rest.
Proof. rewrite drop_app_ge by (rewrite length_encoded_address; lia). by rewrite length_encoded_address. Qed.

Lemma security_address_ok pid : 0 <= pid < 4096 -> PropertyExtAddress_ok (PropertyExtAddress_security pid).
Proof. intros H. repeat split; cbn; unfold is_u16, OT_SECURITY; lia. Qed.

Lemma decode_value a count start data : PropertyExtAddress_ok a -> is_u16 start ->
  decode_property_ext_value (encode_property_ext_value_write a count start data) = Some (MkExtValue a count start data).
Proof.
  intros Ha Hs. unfold decode_property_ext_value, encode_property_ext_value_write, encode_property_ext_value_read.
  rewrite <- !(assoc_L app), decode_address, drop_address by done. cbn [mbind option_bind].
  destruct (be_bytes_2_u16 start Hs) as (hi & lo & -> & _ & _ & <-). done.
Qed.

Lemma decode_function_state a rc data : PropertyExtAddress_ok a ->
  decode_function_property_ext_state_response (PropertyExtAddress_encode a ++ [rc] ++ data) = Some (MkExtState a rc data).
Proof.
  intros Ha. unfold decode_function_property_ext_state_response. by rewrite decode_address, drop_address by done.
Qed.

(** ** The loops end *)

Section Loops.
  Context {S : Type} `{L4Requests S}.

Lemma read_property_ext_count addr count start (s : S) resp s' :
  read_property_ext addr count start s = (Ok resp, s') -> pev_count resp <> 0.
Proof.
  unfold read_property_ext, mbind, Req_op_bind. destruct (l4_request _ _ s) as [[[a d]|e] s1]; [|done].
  destruct (negb _); [done|]. unfold checked. destruct (ok_or _ _) as [v|]; [|done].
  destruct (_ || _); [done|]. destruct (Z.eqb_spec (pev_count v) 0); [done|]. by intros [= -> ->].
Qed.

(** What is left: the elements, and the halvings of the chunk. *)
Definition table_work (count : u16) (chunk : nat) (next : Z) : nat :=
  (Z.to_nat (count + 1 - next) + Nat.min (Nat.max chunk 1) 255)%nat.

Lemma read_table_enough addr size count fuel extra : forall chunk next out (s : S),
  (table_work count chunk next < fuel)%nat ->
  read_table_loop (fuel + extra) addr size count chunk next out s = read_table_loop fuel addr size count chunk next out s.
Proof.
  induction fuel as [|fuel IH]; intros chunk next out s Hf; [lia|]. cbn [read_table_loop Nat.add].
  destruct (Z.ltb_spec count next) as [|Hn]; [done|].
  set (want := Nat.min (Nat.max (Nat.min chunk (Z.to_nat (count - next) + 1)) 1) 255).
  assert (Hw : (1 <= want <= Nat.min (Nat.max chunk 1) 255)%nat) by lia.
  destruct (read_property_ext addr (Z.of_nat want) next s) as [[resp|e] s'] eqn:Er.
  - pose proof (read_property_ext_count _ _ _ _ _ _ Er) as Hc.
    destruct (Nat.eqb_spec (Nat.min (Z.to_nat (pev_count resp)) want) 0) as [|Hg]; [done|]. cbn [orb].
    destruct (_ <? _)%nat; [done|]. apply IH. unfold table_work in *. lia.
  - destruct e; try done. destruct (Nat.ltb_spec 1 want) as [H1|]; [|done]. apply IH. unfold table_work in *.
    pose proof (Nat.div_lt want 2 ltac:(lia) ltac:(lia)).
    assert (1 <= want / 2)%nat by (apply Nat.div_str_pos; lia). lia.
Qed.

Lemma write_elements_enough addr size per fuel extra : (0 < per * size)%nat -> forall index data (s : S),
  (length data <= fuel)%nat ->
  write_elements_loop (fuel + extra) addr size per index data s = write_elements_loop fuel addr size per index data s.
Proof.
  intros Hp. induction fuel as [|fuel IH]; intros index data s Hf.
  - destruct data; [|cbn in Hf; lia]. by destruct extra.
  - destruct data as [|b data]; [done|]. cbn [Nat.add write_elements_loop]. unfold mbind, Req_op_bind.
    destruct (write_property_ext_con _ _ _ _ s) as [[u|e] s']; [|done]. apply IH.
    rewrite length_drop. cbn [length] in *. lia.
Qed.
End Loops.

(** A table of [count] elements is read in at most [read_table_fuel count] turns. *)
Lemma table_fuel_enough count chunk : (chunk <= 255)%nat -> 0 <= count -> (table_work count chunk 1 < read_table_fuel count)%nat.
Proof.
  intros Hc Hn. unfold table_work, read_table_fuel. lia.
Qed.
