(* ===== verification/ObjectTable.v ===== *)
(** * The interface-object table of a device ([bussard-mgmt/src/io_list.rs], [probe_object_types] of connection.rs)

    The discovery of a device's interface objects: the walk over [PID_OBJECT_TYPE],
    and the shortcut through the device object's [PID_IO_LIST], which is taken only
    when it agrees with [PID_OBJECT_TYPE] where it is checked.  What the discovery
    uses of a connection is [L4Properties]; the client's connection is an instance. *)

From Stdlib Require Import String.
From S2P Require Import Prelude Crypto MgmtError Apci Connection PropertyExt.

Local Open Scope list_scope.
Local Open Scope Z_scope.

(** ** What the discovery uses of a connection *)

Class L4Properties (S : Type) : Type := {
  lp_request : u8 -> u8 -> u16 -> u8 -> Req_op S PropertyValueResponse;
  lp_read_octets : S -> u8;
  lp_exchanges : S -> u32;
  lp_reopen : S -> S;
  lp_seeded : S -> option (list (u8 * u16)) }.

#[export] Instance connection_properties {W} `{L4World W} `{SecureCiphers} : L4Properties (L4State W) := {
  lp_request := conn_property_request;
  lp_read_octets s := max_property_read_octets (l4_conn s);
  lp_exchanges s := l4c_numbered_exchanges (l4_conn s);
  lp_reopen s := MkL4State (l4c_set_closed false (l4_conn s)) (l4_shared s) (l4_world s);
  lp_seeded s := seeded_object_table (l4_conn s) }.

Definition OT_DEVICE : u16 := 0.
Definition OT_APPLICATION_PROGRAM : u16 := 3.
Definition MAX_OBJECT_INDEX : nat := 16.
Definition PID_OBJECT_TYPE : u8 := 1.
Definition PID_IO_LIST : u8 := 71.
Definition MAX_ELEMENTS_PER_READ : u8 := 15.

Inductive ObjectTableSource : Type := IoList | Walk.

Section Objects.
  Context {S : Type} `{L4Properties S}.

(** ** The walk *)

Definition probe_object_type (index : u8) : Req_op S (option u16) := fun s =>
  match lp_request index PID_OBJECT_TYPE 1 1 s with
  | (Ok resp, s') =>
      (Ok (if pvr_count resp =? 0 then None else
           match pvr_data resp with
           | hi :: lo :: _ => Some (u16_of hi lo)
           | _ => None
           end), s')
  | (Err (MalformedResponse _), s') => (Ok None, s')
  | (Err other, s') => (Err other, s')
  end.

(** The indices from [index] on, [n] of them. *)
Fixpoint probe_from (n : nat) (index : u8) : Req_op S (list (u8 * u16)) :=
  match n with
  | O => mret []
  | Datatypes.S n =>
      r ← probe_object_type index;
      match r with
      | Some ot => rest ← probe_from n (index + 1); mret ((index, ot) :: rest)
      | None => mret []
      end
  end.

Definition probe_object_types : Req_op S (list (u8 * u16)) := fun s =>
  match lp_seeded s with
  | Some table => (Ok table, s)
  | None => probe_from MAX_OBJECT_INDEX 0 s
  end.

(** ** The list *)

(** [None] for a refusal of the device. *)
Definition tolerant_read (start : u16) (count : u8) : Req_op S (option PropertyValueResponse) := fun s =>
  match lp_request 0 PID_IO_LIST start count s with
  | (Ok resp, s') => (Ok (if pvr_count resp =? 0 then None else Some resp), s')
  | (Err (MalformedResponse _), s') => (Ok None, s')
  | (Err ((NoResponse | MidSessionSilence Silence_NoResponse _ _) as e), s') =>
      if lp_exchanges s <? lp_exchanges s' then (Ok None, lp_reopen s') else (Err e, s')
  | (Err other, s') => (Err other, s')
  end.

(** The words of a list of elements, a trailing octet left out. *)
Fixpoint be_words (data : bytes) : list u16 :=
  match data with
  | hi :: lo :: data => u16_of hi lo :: be_words data
  | _ => []
  end.

Definition io_per_read (s : S) : u8 := Z.max 1 (Z.min (lp_read_octets s / 2) MAX_ELEMENTS_PER_READ).

(** The reads of the elements; every turn takes at least one, so the number of
    elements is fuel enough ([io_list_enough]). *)
Fixpoint read_io_elements (fuel : nat) (count : u16) (per_read : u8) (types : list u16)
    : Req_op S (option (list u16)) :=
  if (zlen types <? count) then
    match fuel with
    | O => refuse (MalformedResponse "fuel")
    | Datatypes.S fuel =>
        let remaining := count - zlen types in
        let want := Z.min (Z.min remaining 255) per_read in
        let start := Z.min (zlen types + 1) 65535 in
        answer ← tolerant_read start want;
        match answer with
        | None => mret None
        | Some resp =>
            if negb (pvr_count resp =? want) || (zlen (pvr_data resp) <? 2 * want) then mret None
            else read_io_elements fuel count per_read (types ++ take (Z.to_nat want) (be_words (pvr_data resp)))
        end
    end
  else mret (Some types).

Definition io_count (resp : PropertyValueResponse) : option u16 :=
  if pvr_count resp =? 1 then
    match pvr_data resp with
    | hi :: lo :: _ => Some (u16_of hi lo)
    | _ => None
    end
  else None.

Definition read_io_list : Req_op S (option (list u16)) :=
  answer ← tolerant_read 0 1;
  match answer ≫= io_count with
  | None => mret None
  | Some count =>
      if (count =? 0) || (Z.of_nat MAX_OBJECT_INDEX <? count) then mret None
      else per_read ← of_conn io_per_read; read_io_elements (Z.to_nat count) count per_read []
  end.

(** ** The check and the choice *)

Definition io_entry (e : nat * u16) : option (u8 * u16) :=
  let '(i, ot) := e in if Z.of_nat i <=? 255 then Some (Z.of_nat i, ot) else None.

Definition io_table (types : list u16) : list (u8 * u16) := omap io_entry (imap pair types).

(** The places of the table that are checked. *)
Definition io_checks (table : list (u8 * u16)) : list nat :=
  let last := (length table - 1)%nat in
  (if (0 <? last)%nat then [last] else []) ++
  match list_find (fun '(_, ot) => ot = OT_APPLICATION_PROGRAM) table with
  | Some (app, _) => if negb (app =? 0)%nat && negb (app =? last)%nat then [app] else []
  | None => []
  end.

(** Whether the probes of the places give what the table says. *)
Fixpoint checks_agree (table : list (u8 * u16)) (checks : list nat) : Req_op S bool :=
  match checks with
  | [] => mret true
  | i :: checks =>
      match table !! i with
      | None => mret true
      | Some (index, want) =>
          t ← probe_object_type index;
          if negb (bool_decide (t = Some want)) then mret false else checks_agree table checks
      end
  end.

Definition checked_table (types : list u16) : Req_op S (option (list (u8 * u16))) :=
  if negb (bool_decide (head types = Some OT_DEVICE)) then mret None else
  let table := io_table types in
  agree ← checks_agree table (io_checks table);
  if negb agree then mret None
  else if (length table <? MAX_OBJECT_INDEX)%nat then
    next ← probe_object_type (zlen table);
    mret (match next with Some _ => None | None => Some table end)
  else mret (Some table).

Definition discover_object_table : Req_op S (list (u8 * u16) * ObjectTableSource) :=
  types ← read_io_list;
  table ← match types with Some types => checked_table types | None => mret None end;
  match table with
  | Some table => mret (table, IoList)
  | None => table ← probe_object_types; mret (table, Walk)
  end.
End Objects.

(** ** A device with an object table

    [held s] says that in [s] the device is there and nothing was seeded: it answers
    a read of an object's type with the type, or with no element past the last
    object, and a read of the list with the elements asked for. *)
Section Device.
  Context {S : Type} `{L4Properties S}.

Definition answers (m : Req_op S PropertyValueResponse) (held : S -> Prop) (count : u8) (data : bytes) : Prop :=
  forall s, held s -> exists resp s', m s = (Ok resp, s') /\ held s' /\ pvr_count resp = count /\ pvr_data resp = data.

Definition words_be (ws : list u16) : bytes := ws ≫= fun w => be_bytes 2 w.

Record table_device (types : list u16) (held : S -> Prop) : Prop := MkTableDevice {
  td_words : Forall is_u16 types;
  td_fits : (length types <= MAX_OBJECT_INDEX)%nat;
  td_first : head types = Some OT_DEVICE;
  td_unseeded : forall s, held s -> lp_seeded s = None;
  td_type : forall i t, types !! i = Some t -> answers (lp_request (Z.of_nat i) PID_OBJECT_TYPE 1 1) held 1 (be_bytes 2 t);
  td_end : answers (lp_request (zlen types) PID_OBJECT_TYPE 1 1) held 0 [];
  td_count : answers (lp_request 0 PID_IO_LIST 0 1) held 1 (be_bytes 2 (zlen types));
  td_list : forall start n, (start + n <= length types)%nat -> (0 < n)%nat -> Z.of_nat n <= MAX_ELEMENTS_PER_READ ->
    answers (lp_request 0 PID_IO_LIST (Z.of_nat start + 1) (Z.of_nat n)) held (Z.of_nat n)
      (words_be (take n (drop start types))) }.

(** The table of the types, by index. *)
Definition object_table (types : list u16) : list (u8 * u16) := imap (fun i t => (Z.of_nat i, t)) types.

Lemma word_be w rest : is_u16 w ->
  exists hi lo, be_bytes 2 w ++ rest = hi :: lo :: rest /\ u16_of hi lo = w.
Proof. intros Hw. unfold is_u16 in Hw. eexists _, _. split; [reflexivity|]. unfold u16_of. zdiv. Qed.

Lemma words_read_back ws : Forall is_u16 ws -> be_words (words_be ws) = ws.
Proof.
  induction 1 as [|w ws Hw _ IH]; [done|]. change (words_be (w :: ws)) with (be_bytes 2 w ++ words_be ws).
  destruct (word_be w (words_be ws) Hw) as (hi & lo & -> & E). cbn [be_words]. by rewrite IH, E.
Qed.

Lemma words_length ws : length (words_be ws) = (2 * length ws)%nat.
Proof. induction ws as [|w ws IH]; [done|]. change (words_be (w :: ws)) with (be_bytes 2 w ++ words_be ws). rewrite length_app, IH. cbn. lia. Qed.

Context (types : list u16) (held : S -> Prop) (Hdev : table_device types held).

Lemma probe_held i s : held s -> (i <= length types)%nat ->
  exists s', probe_object_type (Z.of_nat i) s = (Ok (types !! i), s') /\ held s'.
Proof.
  intros Hs Hi. unfold probe_object_type. destruct (types !! i) as [t|] eqn:Et.
  - destruct (td_type _ _ Hdev i t Et s Hs) as (r & s' & E & Hs' & Ec & Ed). exists s'. rewrite E, Ec, Ed. split; [|done].
    pose proof (Forall_lookup_1 _ _ _ _ (td_words _ _ Hdev) Et) as Ht.
    destruct (word_be t [] Ht) as (hi & lo & Eb & Ew). rewrite app_nil_r in Eb. by rewrite Eb, Ew.
  - apply lookup_ge_None in Et. replace (Z.of_nat i) with (zlen types) by (unfold zlen; lia).
    destruct (td_end _ _ Hdev s Hs) as (r & s' & E & Hs' & Ec & _). exists s'. rewrite E, Ec. done.
Qed.

Lemma probe_from_held n : forall i s, held s -> (i <= length types)%nat ->
  (length types <= i + n)%nat ->
  exists s', probe_from n (Z.of_nat i) s = (Ok (drop i (object_table types)), s') /\ held s'.
Proof.
  assert (Hlen : length (object_table types) = length types) by (unfold object_table; apply length_imap).
  induction n as [|n IH]; intros i s Hs Hi Hn; cbn [probe_from].
  - exists s. rewrite drop_ge by lia. done.
  - unfold mbind, Req_op_bind. destruct (probe_held i s Hs Hi) as (s1 & -> & Hs1).
    destruct (types !! i) as [t|] eqn:Et.
    + assert (Hlt := lookup_lt_Some _ _ _ Et). replace (Z.of_nat i + 1) with (Z.of_nat (Datatypes.S i)) by lia.
      destruct (IH (Datatypes.S i) s1 Hs1 ltac:(lia) ltac:(lia)) as (s2 & -> & Hs2). exists s2. split; [|done].
      unfold mret, Req_op_ret. do 2 f_equal. symmetry. apply drop_S. unfold object_table. by rewrite list_lookup_imap, Et.
    + apply lookup_ge_None in Et. exists s1. rewrite drop_ge by lia. done.
Qed.

Lemma walk_held s : held s -> exists s', probe_object_types s = (Ok (object_table types), s') /\ held s'.
Proof.
  intros Hs. unfold probe_object_types. rewrite (td_unseeded _ _ Hdev s Hs).
  destruct (probe_from_held MAX_OBJECT_INDEX 0 s Hs ltac:(lia) (td_fits _ _ Hdev)) as (s' & E & Hs').
  exists s'. split; [|done]. exact E.
Qed.

Lemma tolerant_held start n s : held s -> (start + n <= length types)%nat -> (0 < n)%nat -> Z.of_nat n <= MAX_ELEMENTS_PER_READ ->
  exists resp s', tolerant_read (Z.of_nat start + 1) (Z.of_nat n) s = (Ok (Some resp), s') /\ held s' /\
    pvr_count resp = Z.of_nat n /\ pvr_data resp = words_be (take n (drop start types)).
Proof.
  intros Hs Hle Hn Hmax. destruct (td_list _ _ Hdev start n Hle Hn Hmax s Hs) as (r & s' & E & Hs' & Ec & Ed).
  exists r, s'. unfold tolerant_read. rewrite E, Ec. destruct (Z.eqb_spec (Z.of_nat n) 0); [lia|]. done.
Qed.

Lemma io_list_enough fuel : forall k per s, held s -> (k <= length types)%nat -> (length types <= k + fuel)%nat ->
  1 <= per <= MAX_ELEMENTS_PER_READ ->
  exists s', read_io_elements fuel (zlen types) per (take k types) s = (Ok (Some types), s') /\ held s'.
Proof.
  induction fuel as [|fuel IH]; intros k per s Hs Hk Hf Hper; cbn [read_io_elements].
  all: assert (Hz : zlen (take k types) = Z.of_nat k) by (unfold zlen; rewrite length_take; lia).
  all: rewrite Hz; unfold zlen in *; destruct (Z.ltb_spec (Z.of_nat k) (Z.of_nat (length types))) as [Hlt|Hge].
  - lia.
  - exists s. rewrite firstn_all2 by lia. done.
  - assert (Hfits := td_fits _ _ Hdev). unfold MAX_OBJECT_INDEX, MAX_ELEMENTS_PER_READ in *.
    set (n := Z.to_nat (Z.min (Z.min (Z.of_nat (length types) - Z.of_nat k) 255) per)).
    assert (Hn : Z.min (Z.min (Z.of_nat (length types) - Z.of_nat k) 255) per = Z.of_nat n) by (unfold n; lia).
    rewrite Hn. clearbody n. replace (Z.min (Z.of_nat k + 1) 65535) with (Z.of_nat k + 1) by lia.
    destruct (tolerant_held k n s Hs ltac:(lia) ltac:(lia) ltac:(unfold MAX_ELEMENTS_PER_READ; lia)) as (r & s1 & E & Hs1 & Ec & Ed).
    unfold mbind, Req_op_bind. rewrite E, Ec, Ed, Z.eqb_refl, words_length, length_take, length_drop.
    rewrite (proj2 (Z.ltb_ge _ _)) by lia. cbn [negb orb]. rewrite ?Nat2Z.id.
    rewrite words_read_back by (apply Forall_take, Forall_drop; exact (td_words _ _ Hdev)).
    rewrite take_take, Nat.min_id, take_take_drop. apply IH; [done|lia|lia|done].
  - exists s. rewrite firstn_all2 by lia. done.
Qed.

Lemma list_held s : held s -> exists s', read_io_list s = (Ok (Some types), s') /\ held s'.
Proof.
  intros Hs. assert (Hfits := td_fits _ _ Hdev). assert (Hpos : (0 < length types)%nat).
  { pose proof (td_first _ _ Hdev). destruct types; [done|cbn; lia]. }
  unfold read_io_list, mbind, Req_op_bind. unfold tolerant_read.
  destruct (td_count _ _ Hdev s Hs) as (r & s1 & -> & Hs1 & Ec & Ed). rewrite Ec. cbn [Z.eqb].
  unfold mbind, option_bind, io_count. rewrite Ec, Ed. cbn [Z.eqb Pos.eqb].
  unfold MAX_OBJECT_INDEX in *.
  assert (Hw : is_u16 (zlen types)) by (unfold is_u16, zlen; lia).
  destruct (word_be (zlen types) [] Hw) as (hi & lo & Eb & Ew). rewrite app_nil_r in Eb. rewrite Eb, Ew.
  assert (Hz : (zlen types =? 0) || (Z.of_nat 16 <? zlen types) = false)
    by (apply orb_false_intro; [apply Z.eqb_neq|apply Z.ltb_ge]; unfold zlen; lia).
  rewrite Hz. unfold of_conn.
  apply (io_list_enough _ 0 _ s1 Hs1); [lia|unfold zlen; lia|unfold io_per_read, MAX_ELEMENTS_PER_READ; lia].
Qed.

Lemma io_table_from ws : forall k, (k + length ws <= 256)%nat ->
  omap io_entry (imap (fun i w => (k + i, w)%nat) ws)
  = imap (fun i w => (Z.of_nat (k + i), w)) ws.
Proof.
  induction ws as [|w ws IH]; intros k Hk; cbn [length] in Hk; [done|]. rewrite !imap_cons. cbn -[imap Z.of_nat Z.leb].
  rewrite Nat.add_0_r. unfold io_entry at 1. rewrite (proj2 (Z.leb_le _ _)) by lia. f_equal.
  transitivity (omap io_entry
                  (imap (fun i w => (Datatypes.S k + i, w)%nat) ws)).
  - f_equal. apply imap_ext. intros. cbn. by rewrite Nat.add_succ_r.
  - rewrite IH by lia. apply imap_ext. intros. cbn -[Z.of_nat]. by rewrite Nat.add_succ_r.
Qed.

Lemma table_of_types : io_table types = object_table types.
Proof.
  assert (Hfits := td_fits _ _ Hdev). unfold MAX_OBJECT_INDEX in Hfits. exact (io_table_from types 0 ltac:(lia)).
Qed.

(** The places checked are places of the table. *)
Lemma agree_held checks : Forall (fun i => i < length types)%nat checks -> forall s, held s ->
  exists s', checks_agree (object_table types) checks s = (Ok true, s') /\ held s'.
Proof.
  induction 1 as [|i checks Hi _ IH]; intros s Hs; cbn [checks_agree]; [by exists s|].
  destruct (lookup_lt_is_Some_2 types i Hi) as [t Et].
  unfold object_table at 1. rewrite list_lookup_imap, Et. cbn [fmap option_fmap option_map].
  unfold mbind, Req_op_bind. destruct (probe_held i s Hs ltac:(lia)) as (s1 & -> & Hs1). rewrite Et.
  rewrite bool_decide_true by done. by apply IH.
Qed.

Lemma checks_inside : Forall (fun i => i < length types)%nat (io_checks (object_table types)).
Proof.
  assert (Hlen : length (object_table types) = length types) by (unfold object_table; apply length_imap).
  unfold io_checks. rewrite Hlen. apply Forall_app. split.
  - destruct (Nat.ltb_spec 0 (length types - 1)); [|done]. apply Forall_singleton. lia.
  - destruct (list_find _ _) as [[app x]|] eqn:Ef; [|done]. apply list_find_Some in Ef as (Ef & _ & _).
    apply lookup_lt_Some in Ef. rewrite Hlen in Ef. destruct (_ && _); [|done]. by apply Forall_singleton.
Qed.

(** C18: On a device whose object list is complete and in index order the discovery
    returns, from the list, the table that the walk over the objects' types returns. *)
Theorem discovered_table_is_walked s : held s ->
  exists s1 s2, discover_object_table s = (Ok (object_table types, IoList), s1) /\ held s1 /\
    probe_object_types s = (Ok (object_table types), s2) /\
    (forall i t, types !! i = Some t -> object_table types !! i = Some (Z.of_nat i, t)).
Proof.
  intros Hs. destruct (walk_held s Hs) as (s2 & Hw & _). destruct (list_held s Hs) as (s1 & El & Hs1).
  destruct (agree_held _ checks_inside s1 Hs1) as (s3 & Ea & Hs3).
  assert (Hlen : length (object_table types) = length types) by (unfold object_table; apply length_imap).
  assert (Hend : exists s4, checked_table types s1 = (Ok (Some (object_table types)), s4) /\ held s4).
  { unfold checked_table, mbind, Req_op_bind. rewrite bool_decide_true by exact (td_first _ _ Hdev). cbn [negb].
    rewrite table_of_types, Ea. cbn [negb]. destruct (Nat.ltb_spec (length (object_table types)) MAX_OBJECT_INDEX); [|by exists s3].
    unfold zlen. rewrite Hlen. destruct (probe_held (length types) s3 Hs3 ltac:(lia)) as (s4 & -> & Hs4). exists s4.
    by rewrite (proj2 (lookup_ge_None types _)) by lia. }
  destruct Hend as (s4 & Ec & Hs4). exists s4, s2. split; [|split; [done|split; [done|]]].
  - unfold discover_object_table, mbind, Req_op_bind. by rewrite El, Ec.
  - intros i t Et. unfold object_table. by rewrite list_lookup_imap, Et.
Qed.
End Device.

(** ** A device to run on

    The state counts the requests, two elements fit a read. *)
#[local] Instance list_device (types : list u16) : L4Properties nat := {
  lp_request index pid start count s :=
    (Ok (if pid =? PID_OBJECT_TYPE
         then match types !! Z.to_nat index with
              | Some t => MkPropertyValueResponse index pid 1 start (be_bytes 2 t)
              | None => MkPropertyValueResponse index pid 0 start []
              end
         else if start =? 0 then MkPropertyValueResponse index pid 1 start (be_bytes 2 (zlen types))
         else MkPropertyValueResponse index pid count start
                (words_be (take (Z.to_nat count) (drop (Z.to_nat (start - 1)) types)))), Datatypes.S s);
  lp_read_octets s := 5;
  lp_exchanges s := Z.of_nat s;
  lp_reopen s := s;
  lp_seeded s := None }.

Lemma list_device_table types : Forall is_u16 types -> (length types <= MAX_OBJECT_INDEX)%nat ->
  head types = Some OT_DEVICE -> table_device (H := list_device types) types (fun _ => True).
Proof.
  intros Hw Hf Hh. constructor; try done; intros.
  - intros s _. cbn -[be_bytes]. rewrite Nat2Z.id. eexists _, _. split; [reflexivity|]. by rewrite H.
  - intros s _. cbn -[be_bytes]. unfold zlen. rewrite Nat2Z.id, (proj2 (lookup_ge_None types _)) by lia. by eexists _, _.
  - intros s _. cbn -[be_bytes]. by eexists _, _.
  - intros s _. cbn -[be_bytes Z.of_nat Z.sub Z.add]. rewrite (proj2 (Z.eqb_neq _ _)) by lia. eexists _, _. split; [reflexivity|].
    cbn -[Z.of_nat Z.sub Z.add]. rewrite Nat2Z.id. replace (Z.to_nat (Z.of_nat start + 1 - 1)) with start by lia. done.
Qed.

Lemma discovered_table_is_walked_witness :
  let types := [0; 1; 2; 3; 17] in
  exists s1, discover_object_table (H := list_device types) 0%nat
             = (Ok ([(0, 0); (1, 1); (2, 2); (3, 3); (4, 17)], IoList), s1) /\ s1 = 7%nat.
Proof.
  pose (types := [0; 1; 2; 3; 17]).
  assert (Hd : table_device (H := list_device types) types (fun _ => True)).
  { apply list_device_table; [|vm_compute; lia|reflexivity]. repeat constructor; vm_compute; intuition discriminate. }
  destruct (discovered_table_is_walked (H := list_device types) types (fun _ => True) Hd 0%nat I) as (s1 & s2 & E & _).
  exists s1. split; [exact E|]. vm_compute in E. injection E. intros <-. reflexivity.
Defined.
