(* ===== verification/SimSecurity.v ===== *)
(** * The security interface object of the simulator ([knx-sim/src/device/security_object])

    The object a Data Secure device keeps its configuration in: its load-state
    machine, the group key table, the security individual address table and the
    group-object flags, the tool key and the sequence number, reached through the
    extended property services.  A request is answered, refused as malformed, or
    makes the simulator panic ([None] of [SecurityObject_handle]) where a slice is
    taken out of its bounds.  The summaries for the log are left out. *)

From S2P Require Import Prelude SimWire.

Local Open Scope Z_scope.

Definition IOT_SECURITY : u16 := 17.
Definition SECURITY_OBJECT_INSTANCE : u16 := 1.

Definition SEC_OBJECT_TYPE : u16 := 1.
Definition SEC_LOAD_STATE_CONTROL : u16 := 5.
Definition SEC_SECURITY_MODE : u16 := 51.
Definition SEC_GRP_KEY_TABLE : u16 := 53.
Definition SEC_IA_TABLE : u16 := 54.
Definition SEC_FAILURES_LOG : u16 := 55.
Definition SEC_TOOL_KEY : u16 := 56.
Definition SEC_REPORT : u16 := 57.
Definition SEC_REPORT_CONTROL : u16 := 58.
Definition SEC_SEQUENCE_NUMBER_SENDING : u16 := 59.
Definition SEC_GO_FLAGS : u16 := 61.

Definition RC_SUCCESS : u8 := 0.
Definition RC_DATA_VOID : u8 := 248.
Definition RC_INVALID_COMMAND : u8 := 242.
Definition RC_IMPOSSIBLE_COMMAND : u8 := 243.
Definition RC_OUT_OF_MIN_RANGE : u8 := 246.
Definition RC_OUT_OF_MAX_RANGE : u8 := 247.
Definition RC_TEMPORARILY_NOT_AVAILABLE : u8 := 249.
Definition RC_ACCESS_READ_ONLY : u8 := 251.
Definition RC_ADDRESS_VOID : u8 := 253.

Definition FALLBACK_MAX_GROUP_OBJECTS : u16 := 4095.
Definition MAX_GROUP_KEY_ROWS : u16 := 1024.
Definition MAX_IA_TABLE_ROWS : u16 := 64.
Definition GRP_KEY_ROW : nat := 18.
Definition IA_ROW : nat := 8.
Definition GO_FLAG : nat := 1.
Definition TOOL_KEY_LEN : nat := 16.
Definition SEC_SEQ_LEN : nat := 6.
Definition GO_FLAG_MASK : u8 := 3.

(** ** State *)

Inductive FailureKind : Type := FailureSeqNr | FailureCryptographic | FailureAccess.

Definition FailureKind_to_byte (k : FailureKind) : u8 :=
  match k with FailureSeqNr => 2 | FailureCryptographic => 3 | FailureAccess => 4 end.

Record FailuresLog : Type := MkFailures {
  fl_seq : u16; fl_crypto : u16; fl_access : u16; fl_latest : option (u16 * bytes * FailureKind) }.

Definition FailuresLog_default : FailuresLog := MkFailures 0 0 0 None.

Inductive SecLoadState : Type := SecUnloaded | SecLoaded | SecLoading | SecError.

#[export] Instance SecLoadState_eq_dec : EqDecision SecLoadState.
Proof. solve_decision. Defined.

Definition SecLoadState_to_byte (s : SecLoadState) : u8 :=
  match s with SecUnloaded => 0 | SecLoaded => 1 | SecLoading => 2 | SecError => 3 end.

Record SecurityLimits : Type := MkLimits { sl_group_objects : option u16; sl_address_table_len : option u16 }.

Record Table : Type := MkTable { t_elem_size : nat; t_bytes : bytes }.

Definition Table_new (elem_size : nat) : Table := MkTable elem_size [].
Definition Table_count (t : Table) : nat := (length (t_bytes t) / t_elem_size t)%nat.
(** [resize(end, 0)] where the table is too short, then [copy_from_slice]. *)
Definition Table_write (start : u16) (data : bytes) (t : Table) : Table :=
  let off := ((Z.to_nat start - 1) * t_elem_size t)%nat in
  let end_ := (off + length data)%nat in
  let bytes := t_bytes t ++ replicate (end_ - length (t_bytes t)) 0 in
  MkTable (t_elem_size t) (take off bytes ++ data ++ drop end_ bytes).
Definition Table_truncate (count : nat) (t : Table) : Table :=
  MkTable (t_elem_size t) (take (count * t_elem_size t) (t_bytes t)).
Definition Table_clear (t : Table) : Table := MkTable (t_elem_size t) [].

Record SecurityObject : Type := MkSecurityObject {
  so_load_state : SecLoadState;
  so_security_mode : u8;
  so_group_keys : Table;
  so_ia_table : Table;
  so_go_flags : Table;
  so_tool_key_writes : u32;
  so_seq_sending : bytes;
  so_pending_tool_key : option bytes;
  so_pending_seq : option u64;
  so_failures : FailuresLog;
  so_report : u8;
  so_report_control : u8;
  so_group_key_capacity : u16;
  so_ia_capacity : u16 }.

Definition so_set_load_state (v : SecLoadState) (o : SecurityObject) : SecurityObject :=
  MkSecurityObject v (so_security_mode o) (so_group_keys o) (so_ia_table o) (so_go_flags o) (so_tool_key_writes o)
    (so_seq_sending o) (so_pending_tool_key o) (so_pending_seq o) (so_failures o) (so_report o) (so_report_control o)
    (so_group_key_capacity o) (so_ia_capacity o).
Definition so_set_security_mode (v : u8) (o : SecurityObject) : SecurityObject :=
  MkSecurityObject (so_load_state o) v (so_group_keys o) (so_ia_table o) (so_go_flags o) (so_tool_key_writes o)
    (so_seq_sending o) (so_pending_tool_key o) (so_pending_seq o) (so_failures o) (so_report o) (so_report_control o)
    (so_group_key_capacity o) (so_ia_capacity o).
Definition so_set_tables (keys ias flags : Table) (o : SecurityObject) : SecurityObject :=
  MkSecurityObject (so_load_state o) (so_security_mode o) keys ias flags (so_tool_key_writes o)
    (so_seq_sending o) (so_pending_tool_key o) (so_pending_seq o) (so_failures o) (so_report o) (so_report_control o)
    (so_group_key_capacity o) (so_ia_capacity o).
Definition so_set_tool_key (writes : u32) (key : bytes) (o : SecurityObject) : SecurityObject :=
  MkSecurityObject (so_load_state o) (so_security_mode o) (so_group_keys o) (so_ia_table o) (so_go_flags o) writes
    (so_seq_sending o) (Some key) (so_pending_seq o) (so_failures o) (so_report o) (so_report_control o)
    (so_group_key_capacity o) (so_ia_capacity o).
Definition so_set_seq (value : bytes) (o : SecurityObject) : SecurityObject :=
  MkSecurityObject (so_load_state o) (so_security_mode o) (so_group_keys o) (so_ia_table o) (so_go_flags o)
    (so_tool_key_writes o) value (so_pending_tool_key o) (Some (be_val value)) (so_failures o) (so_report o)
    (so_report_control o) (so_group_key_capacity o) (so_ia_capacity o).
Definition so_set_report (report report_control : u8) (failures : FailuresLog) (o : SecurityObject) : SecurityObject :=
  MkSecurityObject (so_load_state o) (so_security_mode o) (so_group_keys o) (so_ia_table o) (so_go_flags o)
    (so_tool_key_writes o) (so_seq_sending o) (so_pending_tool_key o) (so_pending_seq o) failures report
    report_control (so_group_key_capacity o) (so_ia_capacity o).

Definition SecurityObject_new_activated : SecurityObject :=
  MkSecurityObject SecLoaded 1 (Table_new GRP_KEY_ROW) (Table_new IA_ROW) (Table_new GO_FLAG) 0
    (replicate SEC_SEQ_LEN 0) None None FailuresLog_default 0 0 MAX_GROUP_KEY_ROWS MAX_IA_TABLE_ROWS.

(** The capacities the product declares. *)
Definition SecurityObject_with_capacity (group_key_rows ia_rows : option u16) (o : SecurityObject) : SecurityObject :=
  MkSecurityObject (so_load_state o) (so_security_mode o) (so_group_keys o) (so_ia_table o) (so_go_flags o)
    (so_tool_key_writes o) (so_seq_sending o) (so_pending_tool_key o) (so_pending_seq o) (so_failures o) (so_report o)
    (so_report_control o) (default (so_group_key_capacity o) group_key_rows) (default (so_ia_capacity o) ia_rows).

Definition SecurityObject_into_factory (o : SecurityObject) : SecurityObject := so_set_security_mode 0 o.

Definition u16_saturating_succ (n : u16) : u16 := Z.min (n + 1) 65535.

Definition SecurityObject_record_failure (kind : FailureKind) (sender : u16) (seq : bytes) (o : SecurityObject)
    : bool * SecurityObject :=
  let f := so_failures o in
  let failures := match kind with
    | FailureSeqNr => MkFailures (u16_saturating_succ (fl_seq f)) (fl_crypto f) (fl_access f) (Some (sender, seq, kind))
    | FailureCryptographic =>
        MkFailures (fl_seq f) (u16_saturating_succ (fl_crypto f)) (fl_access f) (Some (sender, seq, kind))
    | FailureAccess => MkFailures (fl_seq f) (fl_crypto f) (u16_saturating_succ (fl_access f)) (Some (sender, seq, kind))
    end in
  (negb (Z.land (so_report_control o) 1 =? 0), so_set_report (Z.lor (so_report o) 1) (so_report_control o) failures o).

Definition SecurityObject_go_flag (n : u16) (o : SecurityObject) : option u8 :=
  if n =? 0 then None else option_map (fun f => Z.land f GO_FLAG_MASK) (t_bytes (so_go_flags o) !! (Z.to_nat n - 1)%nat).

(** ** The header of a service *)

Record ExtHeader : Type := MkExtHeader { eh_object_type : u16; eh_instance : u16; eh_pid : u16 }.

Definition ExtHeader_parse (data : bytes) : option ExtHeader :=
  match data with
  | h0 :: h1 :: h2 :: h3 :: h4 :: _ =>
      Some (MkExtHeader (u16_of h0 h1) (Z.lor (Z.shiftl h2 4) (Z.shiftr h3 4)) (Z.lor (Z.shiftl (Z.land h3 15) 8) h4))
  | _ => None
  end.

Definition ExtHeader_encode (h : ExtHeader) : bytes :=
  be_bytes 2 (eh_object_type h)
  ++ [as_u8 (Z.shiftr (eh_instance h) 4);
      Z.lor (as_u8 (Z.shiftl (as_u8 (Z.land (eh_instance h) 15)) 4)) (Z.land (as_u8 (Z.shiftr (eh_pid h) 8)) 15);
      as_u8 (Z.land (eh_pid h) 255)].

Definition is_security_object (h : ExtHeader) : bool :=
  (eh_object_type h =? IOT_SECURITY) && (eh_instance h =? SECURITY_OBJECT_INSTANCE).

Inductive ExtServiceError : Type := ExtMalformed.

Definition ExtReply : Type := (SimApci * bytes)%type.

(** ** Functions: the load state, the security mode, the failures log *)

Definition apply_load_event (body : bytes) (o : SecurityObject) : u8 * SecurityObject :=
  if negb (length body =? 10)%nat then (RC_INVALID_COMMAND, o) else
  match body with
  | 0 :: _ => (RC_SUCCESS, o)
  | 1 :: _ => (RC_SUCCESS, so_set_load_state SecLoading o)
  | 2 :: _ =>
      if bool_decide (so_load_state o = SecLoading) then (RC_SUCCESS, so_set_load_state SecLoaded o)
      else (RC_IMPOSSIBLE_COMMAND, o)
  | 4 :: _ =>
      (RC_SUCCESS, so_set_tables (Table_clear (so_group_keys o)) (Table_clear (so_ia_table o)) (Table_clear (so_go_flags o))
                     (so_set_load_state SecUnloaded o))
  | _ => (RC_INVALID_COMMAND, o)
  end.

Definition apply_security_mode (body : bytes) (o : SecurityObject) : (u8 * u8) * SecurityObject :=
  match rev body with
  | mode :: service :: _ =>
      if negb (service =? 0) || (1 <? mode) then ((RC_INVALID_COMMAND, service), o)
      else ((RC_SUCCESS, service), so_set_security_mode mode o)
  | _ => ((RC_INVALID_COMMAND, 0), o)
  end.

Definition failures_log_command (body : bytes) (o : SecurityObject) : (u8 * bytes) * SecurityObject :=
  match body with
  | [reserved; service; info] =>
      if negb (service =? 0) then ((RC_INVALID_COMMAND, [service]), o)
      else if negb (reserved =? 0) || negb (info =? 0) then ((RC_DATA_VOID, [service]), o)
      else ((RC_SUCCESS, [0]), so_set_report (so_report o) (so_report_control o) FailuresLog_default o)
  | _ => ((RC_DATA_VOID, option_list (body !! 1%nat)), o)
  end.

Definition failures_log_read (body : bytes) (o : SecurityObject) : u8 * bytes :=
  match body with
  | [reserved; service; info] =>
      if negb (reserved =? 0) then (RC_DATA_VOID, [service]) else
      match service, info with
      | 0, 0 =>
          let f := so_failures o in
          (RC_SUCCESS, [0; 0; 0; 0] ++ be_bytes 2 (fl_seq f) ++ be_bytes 2 (fl_crypto f) ++ be_bytes 2 (fl_access f))
      | 1, 0 =>
          match fl_latest (so_failures o) with
          | Some (ia, seq, kind) => (RC_SUCCESS, [1; 0] ++ be_bytes 2 ia ++ [0; 0; 0] ++ seq ++ [FailureKind_to_byte kind])
          | None => (RC_DATA_VOID, [1])
          end
      | 0, _ | 1, _ => (RC_DATA_VOID, [service])
      | other, _ => (RC_INVALID_COMMAND, [other])
      end
  | _ => (RC_DATA_VOID, option_list (body !! 1%nat))
  end.

Definition security_mode_read (body : bytes) (o : SecurityObject) : u8 * bytes :=
  match body with
  | [0; 0] => (RC_SUCCESS, [0; so_security_mode o])
  | _ :: service :: _ => (RC_INVALID_COMMAND, [service])
  | _ => (RC_INVALID_COMMAND, [])
  end.

Definition on_function_command (data : bytes) (o : SecurityObject) : result ExtServiceError ExtReply * SecurityObject :=
  match ExtHeader_parse data with
  | None => (Err ExtMalformed, o)
  | Some h =>
      let body := drop 5 data in
      let '(rc, state_data, o) :=
        if negb (is_security_object h) then (RC_ADDRESS_VOID, [], o)
        else if eh_pid h =? SEC_LOAD_STATE_CONTROL then
          let '(rc, o) := apply_load_event body o in
          (rc, if rc =? RC_SUCCESS then [SecLoadState_to_byte (so_load_state o)] else [], o)
        else if eh_pid h =? SEC_SECURITY_MODE then
          let '((rc, service), o) := apply_security_mode body o in (rc, [service], o)
        else if eh_pid h =? SEC_FAILURES_LOG then
          let '((rc, data), o) := failures_log_command body o in (rc, data, o)
        else (RC_ADDRESS_VOID, [], o) in
      (Ok (SimFunctionPropertyExtStateResponse, ExtHeader_encode h ++ [rc] ++ state_data), o)
  end.

Definition on_function_state_read (data : bytes) (o : SecurityObject) : result ExtServiceError ExtReply :=
  match ExtHeader_parse data with
  | None => Err ExtMalformed
  | Some h =>
      let '(rc, state_data) :=
        if negb (is_security_object h) then (RC_ADDRESS_VOID, [])
        else if eh_pid h =? SEC_LOAD_STATE_CONTROL then (RC_SUCCESS, [SecLoadState_to_byte (so_load_state o)])
        else if eh_pid h =? SEC_SECURITY_MODE then security_mode_read (drop 5 data) o
        else if eh_pid h =? SEC_FAILURES_LOG then failures_log_read (drop 5 data) o
        else (RC_ADDRESS_VOID, []) in
      Ok (SimFunctionPropertyExtStateResponse, ExtHeader_encode h ++ [rc] ++ state_data)
  end.

(** ** Values *)

Definition go_flag_elements (o : SecurityObject) (limits : SecurityLimits) : nat :=
  Nat.max (match sl_group_objects limits with
           | Some n => Z.to_nat n
           | None => Table_count (so_go_flags o)
           end) (Table_count (so_go_flags o)).

Definition read_scalar (count : u8) (start : u16) (v : bytes) : option bytes :=
  match start, count with
  | 0, 1 => Some (be_bytes 2 1)
  | 1, 1 => Some v
  | _, _ => None
  end.

(** The elements of a table of [elements] elements, zeros past the octets stored;
    [None] when the offset lies past the octets stored, where the slice panics. *)
Definition read_table (count : u8) (start : u16) (octets : bytes) (elem elements : nat) : option (option bytes) :=
  if start =? 0 then Some (if count =? 1 then Some (be_bytes 2 (as_u16 (Z.of_nat elements))) else None) else
  if Z.of_nat elements <? start + count - 1 then Some None else
  let size := (Z.to_nat count * elem)%nat in
  let off := ((Z.to_nat start - 1) * elem)%nat in
  if (length octets <? off)%nat then None
  else let avail := Nat.min (length octets - off) size in
       Some (Some (slice off (off + avail) octets ++ replicate (size - avail) 0)).

Definition read_value (h : ExtHeader) (count : u8) (start : u16) (limits : SecurityLimits) (o : SecurityObject)
    : option (option bytes) :=
  if negb (is_security_object h) || (count =? 0) then Some None else
  let scalar v := Some (read_scalar count start v) in
  if eh_pid h =? SEC_OBJECT_TYPE then scalar (be_bytes 2 IOT_SECURITY)
  else if eh_pid h =? SEC_LOAD_STATE_CONTROL then scalar [SecLoadState_to_byte (so_load_state o)]
  else if eh_pid h =? SEC_SECURITY_MODE then scalar [so_security_mode o]
  else if eh_pid h =? SEC_SEQUENCE_NUMBER_SENDING then scalar (so_seq_sending o)
  else if eh_pid h =? SEC_REPORT then scalar [so_report o]
  else if eh_pid h =? SEC_REPORT_CONTROL then scalar [so_report_control o]
  else if eh_pid h =? SEC_IA_TABLE then
    read_table count start (t_bytes (so_ia_table o)) IA_ROW (Table_count (so_ia_table o))
  else if eh_pid h =? SEC_GO_FLAGS then
    read_table count start (t_bytes (so_go_flags o)) GO_FLAG (go_flag_elements o limits)
  else Some None.

Definition on_value_read (data : bytes) (limits : SecurityLimits) (o : SecurityObject)
    : option (result ExtServiceError ExtReply) :=
  match ExtHeader_parse data, drop 5 data with
  | Some h, count :: s_hi :: s_lo :: _ =>
      let start := u16_of s_hi s_lo in
      value ← read_value h count start limits o;
      Some (Ok (SimPropertyExtValueResponse,
                ExtHeader_encode h ++ [if bool_decide (is_Some value) then count else 0] ++ be_bytes 2 start
                ++ default [] value))
  | _, _ => Some (Err ExtMalformed)
  end.

Definition is_writable_pid (pid : u16) : bool :=
  (pid =? SEC_TOOL_KEY) || (pid =? SEC_SEQUENCE_NUMBER_SENDING) || (pid =? SEC_GRP_KEY_TABLE)
  || (pid =? SEC_REPORT) || (pid =? SEC_REPORT_CONTROL) || (pid =? SEC_IA_TABLE) || (pid =? SEC_GO_FLAGS).

(** A whole number of rows of the key table, each with an index of the address
    table: the return code of the first row that is not. *)
Fixpoint check_key_rows (fuel : nat) (rows : bytes) (address_table_len : option u16) : u8 :=
  match fuel, rows with
  | S fuel, hi :: lo :: _ =>
      if (length rows <? GRP_KEY_ROW)%nat then RC_SUCCESS else
      let index := u16_of hi lo in
      if index =? 0 then RC_OUT_OF_MIN_RANGE
      else match address_table_len with
           | Some len => if len <? index then RC_OUT_OF_MAX_RANGE
                         else check_key_rows fuel (drop GRP_KEY_ROW rows) address_table_len
           | None => check_key_rows fuel (drop GRP_KEY_ROW rows) address_table_len
           end
  | _, _ => RC_SUCCESS
  end.

(** The element size and the capacity of a table property, and the table. *)
Definition table_limits (pid : u16) (limits : SecurityLimits) (o : SecurityObject) : nat * u16 :=
  if pid =? SEC_GRP_KEY_TABLE then
    (GRP_KEY_ROW, match sl_address_table_len limits with
                  | Some n => Z.min n (so_group_key_capacity o)
                  | None => so_group_key_capacity o
                  end)
  else if pid =? SEC_IA_TABLE then (IA_ROW, so_ia_capacity o)
  else (GO_FLAG, default FALLBACK_MAX_GROUP_OBJECTS (sl_group_objects limits)).

Definition table_of_pid (pid : u16) (o : SecurityObject) : Table :=
  if pid =? SEC_GRP_KEY_TABLE then so_group_keys o
  else if pid =? SEC_IA_TABLE then so_ia_table o
  else so_go_flags o.

Definition set_table_of_pid (pid : u16) (t : Table) (o : SecurityObject) : SecurityObject :=
  if pid =? SEC_GRP_KEY_TABLE then so_set_tables t (so_ia_table o) (so_go_flags o) o
  else if pid =? SEC_IA_TABLE then so_set_tables (so_group_keys o) t (so_go_flags o) o
  else so_set_tables (so_group_keys o) (so_ia_table o) t o.

Definition write_scalar (pid : u16) (count : u8) (start : u16) (value : bytes) (o : SecurityObject)
    : u8 * SecurityObject :=
  let one (len : nat) := (start =? 1) && (count =? 1) && (length value =? len)%nat in
  if pid =? SEC_TOOL_KEY then
    if negb (one TOOL_KEY_LEN) then (RC_INVALID_COMMAND, o)
    else (RC_SUCCESS, so_set_tool_key (so_tool_key_writes o + 1) value o)
  else if (pid =? SEC_REPORT) || (pid =? SEC_REPORT_CONTROL) then
    if negb (one 1%nat) then (RC_INVALID_COMMAND, o) else
    let v := default 0 (head value) in
    if (if pid =? SEC_REPORT then 0 else 1) <? v then (RC_OUT_OF_MAX_RANGE, o)
    else (RC_SUCCESS, if pid =? SEC_REPORT then so_set_report v (so_report_control o) (so_failures o) o
                      else so_set_report (so_report o) v (so_failures o) o)
  else
    if negb (one SEC_SEQ_LEN) then (RC_INVALID_COMMAND, o) else (RC_SUCCESS, so_set_seq value o).

Definition write_table (pid : u16) (count : u8) (start : u16) (value : bytes) (limits : SecurityLimits) (o : SecurityObject)
    : u8 * SecurityObject :=
  if negb (bool_decide (so_load_state o = SecLoading)) then (RC_TEMPORARILY_NOT_AVAILABLE, o) else
  let '(elem, capacity) := table_limits pid limits o in
  let table := table_of_pid pid o in
  if start =? 0 then
    match value with
    | [hi; lo] =>
        if negb (count =? 1) then (RC_INVALID_COMMAND, o) else
        let n := Z.to_nat (u16_of hi lo) in
        if (Table_count table <? n)%nat then (RC_OUT_OF_MAX_RANGE, o)
        else (RC_SUCCESS, set_table_of_pid pid (Table_truncate n table) o)
    | _ => (RC_INVALID_COMMAND, o)
    end
  else if negb (length value =? Z.to_nat count * elem)%nat then (RC_INVALID_COMMAND, o)
  else if (Z.of_nat (Table_count table) + 1 <? start) || (capacity <? start + count - 1) then (RC_OUT_OF_MAX_RANGE, o)
  else
    let rows := if pid =? SEC_GRP_KEY_TABLE then check_key_rows (length value) value (sl_address_table_len limits)
                else RC_SUCCESS in
    if negb (rows =? RC_SUCCESS) then (rows, o)
    else (RC_SUCCESS, set_table_of_pid pid (Table_write start value table) o).

Definition write_value (h : ExtHeader) (count : u8) (start : u16) (value : bytes) (limits : SecurityLimits) (o : SecurityObject)
    : u8 * SecurityObject :=
  let pid := eh_pid h in
  if negb (is_security_object h) then (RC_ADDRESS_VOID, o)
  else if pid =? SEC_OBJECT_TYPE then (RC_ACCESS_READ_ONLY, o)
  else if (pid =? SEC_LOAD_STATE_CONTROL) || (pid =? SEC_SECURITY_MODE) then (RC_INVALID_COMMAND, o)
  else if negb (is_writable_pid pid) then (RC_ADDRESS_VOID, o)
  else if count =? 0 then (RC_INVALID_COMMAND, o)
  else if (pid =? SEC_GRP_KEY_TABLE) || (pid =? SEC_IA_TABLE) || (pid =? SEC_GO_FLAGS)
  then write_table pid count start value limits o
  else write_scalar pid count start value o.

Definition on_value_write (data : bytes) (limits : SecurityLimits) (o : SecurityObject)
    : result ExtServiceError ExtReply * SecurityObject :=
  match ExtHeader_parse data, drop 5 data with
  | Some h, count :: s_hi :: s_lo :: value =>
      let start := u16_of s_hi s_lo in
      let '(rc, o) := write_value h count start value limits o in
      (Ok (SimPropertyExtValueWriteConResponse, ExtHeader_encode h ++ [count] ++ be_bytes 2 start ++ [rc]), o)
  | _, _ => (Err ExtMalformed, o)
  end.

(** ** Descriptions *)

Record PropDesc : Type := MkPropDesc {
  pd_pid : u16; pd_pdt : u8; pd_writable : bool; pd_max_elements : u16; pd_read_level : u8; pd_write_level : u8 }.

Definition security_properties (limits : SecurityLimits) (o : SecurityObject) : list PropDesc :=
  let go_max := Z.min (default FALLBACK_MAX_GROUP_OBJECTS (sl_group_objects limits)) 4095 in
  [ MkPropDesc SEC_OBJECT_TYPE 4 false 1 3 15;
    MkPropDesc SEC_LOAD_STATE_CONTROL 0 true 1 3 0;
    MkPropDesc SEC_SECURITY_MODE 62 true 1 3 0;
    MkPropDesc SEC_GRP_KEY_TABLE 34 true (Z.min (so_group_key_capacity o) 4095) 15 0;
    MkPropDesc SEC_IA_TABLE 24 true (Z.min (so_ia_capacity o) 4095) 3 0;
    MkPropDesc SEC_TOOL_KEY 32 true 1 15 0;
    MkPropDesc SEC_SEQUENCE_NUMBER_SENDING 22 true 1 3 0;
    MkPropDesc SEC_GO_FLAGS 17 true go_max 3 0 ].

(** [position], with the 1-based index of the property found. *)
Fixpoint property_position (pid : u16) (index : Z) (props : list PropDesc) : option (u16 * PropDesc) :=
  match props with
  | [] => None
  | p :: props => if pd_pid p =? pid then Some (index, p) else property_position pid (index + 1) props
  end.

Definition on_description_read (data : bytes) (limits : SecurityLimits) (o : SecurityObject)
    : result ExtServiceError ExtReply :=
  match ExtHeader_parse data, drop 5 data with
  | Some h, i0 :: i1 :: _ =>
      let desc_type := Z.shiftr i0 4 in
      let req_index := Z.lor (Z.shiftl (Z.land i0 15) 8) i1 in
      let props := security_properties limits o in
      let found :=
        if negb (is_security_object h) then None
        else if negb (eh_pid h =? 0) then property_position (eh_pid h) 1 props
        else if req_index =? 0 then None
        else option_map (fun p => (req_index, p)) (props !! (Z.to_nat req_index - 1)%nat) in
      let '(index, rh, tail) :=
        match found with
        | Some (index, p) =>
            (index, MkExtHeader (eh_object_type h) (eh_instance h) (pd_pid p),
             [0; 0; 0; 0; Z.lor (if pd_writable p then 128 else 0) (Z.land (pd_pdt p) 63)]
             ++ be_bytes 2 (Z.land (pd_max_elements p) 4095)
             ++ [Z.lor (as_u8 (Z.shiftl (Z.land (pd_read_level p) 15) 4)) (Z.land (pd_write_level p) 15)])
        | None => (req_index, h, replicate 8 0)
        end in
      Ok (SimPropertyExtDescriptionResponse,
          ExtHeader_encode rh ++ [Z.lor (as_u8 (Z.shiftl desc_type 4)) (Z.land (as_u8 (Z.shiftr index 8)) 15);
                                  as_u8 (Z.land index 255)] ++ tail)
  | _, _ => Err ExtMalformed
  end.

(** ** The dispatch, and the lookups of the secured group path *)

Definition SecurityObject_handle (apci : SimApci) (data : bytes) (limits : SecurityLimits) (o : SecurityObject)
    : option (result ExtServiceError (option ExtReply) * SecurityObject) :=
  let reply (r : result ExtServiceError ExtReply) := (x ← r; mret (Some x)) in
  match apci with
  | SimFunctionPropertyExtCommand => let '(r, o) := on_function_command data o in Some (reply r, o)
  | SimFunctionPropertyExtStateRead => Some (reply (on_function_state_read data o), o)
  | SimPropertyExtValueRead => r ← on_value_read data limits o; Some (reply r, o)
  | SimPropertyExtValueWriteCon => let '(r, o) := on_value_write data limits o in Some (reply r, o)
  | SimPropertyExtDescriptionRead => Some (reply (on_description_read data limits o), o)
  | _ => Some (Ok None, o)
  end.

(** [as_chunks] of a table's octets: the whole rows. *)
Fixpoint whole_rows (fuel n : nat) (octets : bytes) : list bytes :=
  match fuel with
  | O => []
  | S fuel => if (length octets <? n)%nat then [] else take n octets :: whole_rows fuel n (drop n octets)
  end.

Definition row_key (row : bytes) : u16 :=
  match row with hi :: lo :: _ => u16_of hi lo | _ => 0 end.

Definition find_row (n : nat) (key : u16) (octets : bytes) : option bytes :=
  List.find (fun row => row_key row =? key) (whole_rows (length octets) n octets).

Definition group_key_for_address_index (index : u16) (o : SecurityObject) : option bytes :=
  option_map (drop 2) (find_row GRP_KEY_ROW index (t_bytes (so_group_keys o))).

Definition group_key_address_index (row : u16) (o : SecurityObject) : option u16 :=
  if row =? 0 then None else
  let off := ((Z.to_nat row - 1) * GRP_KEY_ROW)%nat in
  match slice off (off + 2) (t_bytes (so_group_keys o)) with
  | [hi; lo] => Some (u16_of hi lo)
  | _ => None
  end.

Definition ia_table_sequence (ia : u16) (o : SecurityObject) : option u64 :=
  option_map (fun row => be_val (drop 2 row)) (find_row IA_ROW ia (t_bytes (so_ia_table o))).
