(* ===== verification/SecurityTables.v ===== *)
(** * The Data Secure tables of a download ([bussard-download/src/security.rs])

    What a secured download writes into the security object of a device: the
    group key table, the security individual address table and the group-object
    flags, derived from the model and the keyring, checked against the capacity of
    the device, written over the extended property services and read back.

    The parts of the configuration these functions look at are the records
    [SecurityModel] and [DeviceView]; maps are ordered as the source's [BTreeMap]s
    where the order is observed. *)

From stdpp Require Import sorting.
From S2P Require Import Prelude OrderedMap Address Crypto Sequence MgmtError Load GroupTables PropertyExt.

Local Open Scope string_scope.
Local Open Scope list_scope.
Local Open Scope Z_scope.

Definition GO_FLAGS_PLAIN : u8 := 0.
Definition GO_FLAGS_SECURE : u8 := 3.

(** ** The rows of the tables *)

Record GroupKeyEntry : Type := MkGroupKeyEntry {
  gk_address_index : u16; gk_group_address : GroupAddress; gk_key : Key16 }.

Definition GroupKeyEntry_encode (e : GroupKeyEntry) : bytes :=
  be_bytes 2 (gk_address_index e) ++ Key16_bytes (gk_key e).

Record SecureSenderEntry : Type := MkSecureSenderEntry {
  se_address : IndividualAddress; se_sequence : u64 }.

#[export] Instance SecureSenderEntry_eq_dec : EqDecision SecureSenderEntry.
Proof. solve_decision. Defined.

Definition SecureSenderEntry_LEN : nat := 8.

Definition SecureSenderEntry_encode (e : SecureSenderEntry) : bytes :=
  be_bytes 2 (IndividualAddress_raw (se_address e)) ++ be_bytes 6 (Z.min (se_sequence e) MAX_SEQUENCE).

Definition SecureSenderEntry_decode (element : bytes) : option SecureSenderEntry :=
  if (length element <? SecureSenderEntry_LEN)%nat then None
  else match element with
       | hi :: lo :: rest =>
           Some (MkSecureSenderEntry (IndividualAddress_from_raw (u16_of hi lo)) (be_val (take 6 rest)))
       | _ => None
       end.

(** The whole elements, without those of individual address 0.0.0. *)
Fixpoint sender_rows (fuel : nat) (octets : bytes) : list SecureSenderEntry :=
  match fuel with
  | O => []
  | S fuel =>
      match SecureSenderEntry_decode octets with
      | None => []
      | Some e =>
          let rest := sender_rows fuel (drop SecureSenderEntry_LEN octets) in
          if IndividualAddress_raw (se_address e) =? 0 then rest else e :: rest
      end
  end.

Definition decode_sender_table (octets : bytes) : list SecureSenderEntry := sender_rows (length octets) octets.

Definition sender_table_bytes (entries : list SecureSenderEntry) : bytes := flat_map SecureSenderEntry_encode entries.

Record SecurityProgramData : Type := MkSecurityProgram {
  sp_senders : list SecureSenderEntry;
  sp_group_keys : list GroupKeyEntry;
  sp_go_flags : list u8 }.

Definition secured_objects (p : SecurityProgramData) : list u16 :=
  omap (fun x => x) (imap (fun i f => if f =? 0 then None else Some (as_u16 (Z.of_nat i + 1))) (sp_go_flags p)).

Definition group_key_table_bytes (p : SecurityProgramData) : bytes := flat_map GroupKeyEntry_encode (sp_group_keys p).

(** ** Capacities *)

Inductive SecurityPlanError : Type :=
| MissingGroupKey (ga : GroupAddress)
| OverCapacity (table : string) (needed : nat) (capacity : u32) (origin : string)
| ObjectOutOfRange (object count : u16).

Definition GROUP_KEY_TABLE : string := "group key table (PID 53)".
Definition SENDER_TABLE : string := "security individual address table (PID 54)".

Record Capacity : Type := MkCapacity { ca_entries : u32; ca_source : string }.

Record TableCapacity : Type := MkTableCapacity {
  tc_group_keys : option Capacity; tc_senders : option Capacity }.

(** The two capacities of the product data. *)
Definition TableCapacity_from_product (group_key_table_entries individual_address_entries : option u32) : TableCapacity :=
  let product := option_map (fun entries => MkCapacity entries "product data") in
  MkTableCapacity (product group_key_table_entries) (product individual_address_entries).

Definition TableCapacity_is_complete (c : TableCapacity) : bool :=
  bool_decide (is_Some (tc_group_keys c)) && bool_decide (is_Some (tc_senders c)).

Definition check_table (table : string) (needed : nat) (capacity : option Capacity) : result SecurityPlanError unit :=
  match capacity with
  | Some cap =>
      if ca_entries cap <? Z.of_nat needed then Err (OverCapacity table needed (ca_entries cap) (ca_source cap)) else Ok tt
  | None => Ok tt
  end.

Definition TableCapacity_check_counts (group_keys senders : nat) (c : TableCapacity) : result SecurityPlanError unit :=
  _ ← check_table GROUP_KEY_TABLE group_keys (tc_group_keys c);
  check_table SENDER_TABLE senders (tc_senders c).

Definition TableCapacity_check (p : SecurityProgramData) (c : TableCapacity) : result SecurityPlanError unit :=
  TableCapacity_check_counts (length (sp_group_keys p)) (length (sp_senders p)) c.

(** ** The program *)

(** [for (i, ga) in addresses.iter().enumerate()]. *)
Fixpoint key_entries (i : nat) (addresses : list GroupAddress) (secure_gas : gset u16) (group_keys : gmap u16 Key16)
    : result SecurityPlanError (list GroupKeyEntry) :=
  match addresses with
  | [] => Ok []
  | ga :: addresses =>
      match group_keys !! GroupAddress_raw ga with
      | Some key =>
          entries ← key_entries (S i) addresses secure_gas group_keys;
          Ok (MkGroupKeyEntry (as_u16 (Z.of_nat i + 1)) ga key :: entries)
      | None =>
          if bool_decide (GroupAddress_raw ga ∈ secure_gas) then Err (MissingGroupKey ga)
          else key_entries (S i) addresses secure_gas group_keys
      end
  end.

(** The flag of each secured object, in ascending order. *)
Fixpoint flag_objects (go_count : u16) (objects : list u16) (flags : list u8) : result SecurityPlanError (list u8) :=
  match objects with
  | [] => Ok flags
  | object :: objects =>
      if (object =? 0) || (Z.of_nat (length flags) <? object) then Err (ObjectOutOfRange object go_count)
      else flag_objects go_count objects (<[(Z.to_nat object - 1)%nat := GO_FLAGS_SECURE]> flags)
  end.

Definition ascending_set (s : gset u16) : list u16 := merge_sort Z.le (elements s).

Definition build_security_program (addresses : list GroupAddress) (go_count : u16) (secure_objects secure_gas : gset u16)
    (group_keys : gmap u16 Key16) : result SecurityPlanError SecurityProgramData :=
  entries ← key_entries 0 addresses secure_gas group_keys;
  flags ← flag_objects go_count (ascending_set secure_objects) (replicate (Z.to_nat go_count) 0);
  Ok (MkSecurityProgram [] entries flags).

(** ** What the model says *)

Record SecuritySettings : Type := MkSecuritySettings {
  ss_activated : bool; ss_secure_senders : list SecureSenderEntry }.

(** A device of the model: its security settings and its com-objects, each with
    whether it is [secure]. *)
Record DeviceView : Type := MkDeviceView {
  dv_security : option SecuritySettings; dv_com_objects : BTree bool }.

Record SecurityModel : Type := MkSecurityModel {
  sm_links : BTree (list Link);
  sm_groups : gmap u16 bool;
  sm_devices : gmap u16 DeviceView }.

Definition ga_secure (m : SecurityModel) (ga : GroupAddress) : bool :=
  default false (sm_groups m !! GroupAddress_raw ga).

Definition links_of (m : SecurityModel) (device : u16) : list Link := default [] (bt_get device (sm_links m)).

Definition is_keyed (group_keys : gmap u16 Key16) (ga : GroupAddress) : bool :=
  bool_decide (is_Some (group_keys !! GroupAddress_raw ga)).

(** [or_insert]. *)
Definition bt_or_insert (k : Z) (v : u64) (m : BTree u64) : BTree u64 := bt_update k (default v) m.

Definition linked_senders (m : SecurityModel) (device : u16) (group_keys : gmap u16 Key16) (sequences : gmap u16 u64)
    : BTree u64 :=
  let listened := List.filter (fun ga => is_keyed group_keys ga || ga_secure m ga)
                    (flat_map link_listen (links_of m device)) in
  foldl (fun senders '(peer, links) =>
      if peer =? device then senders else
      if existsb (fun ga => bool_decide (ga ∈ listened)) (omap link_send links) then
        let activated := match sm_devices m !! peer with
                         | Some d => match dv_security d with Some s => ss_activated s | None => false end
                         | None => false
                         end in
        bt_update peer (fun _ => if (activated : bool) then default 0 (sequences !! peer) else 0) senders
      else senders)
    [] (sm_links m).

Definition recorded_senders (m : SecurityModel) (device : u16) : list SecureSenderEntry :=
  match sm_devices m !! device with
  | Some d => match dv_security d with Some s => ss_secure_senders s | None => [] end
  | None => []
  end.

Definition secured_senders (model : option SecurityModel) (device : u16) (group_keys : gmap u16 Key16)
    (sequences : gmap u16 u64) (extra : list IndividualAddress) : list SecureSenderEntry :=
  let senders := match model with Some m => linked_senders m device group_keys sequences | None => [] end in
  let senders := foldl (fun senders e =>
      let a := IndividualAddress_raw (se_address e) in
      if a =? device then senders else bt_or_insert a (se_sequence e) senders)
    senders (match model with Some m => recorded_senders m device | None => [] end) in
  let senders := foldl (fun senders ia =>
      let a := IndividualAddress_raw ia in
      if a =? device then senders else bt_or_insert a 0 senders) senders extra in
  map (fun '(a, sequence) => MkSecureSenderEntry (IndividualAddress_from_raw a) sequence) senders.

Record DeviceSecurityView : Type := MkSecurityView { dsv_secure_objects : gset u16; dsv_secure_gas : gset u16 }.

Definition device_security_view (model : option SecurityModel) (device : u16) (group_keys : gmap u16 Key16)
    : DeviceSecurityView :=
  match model with
  | None => MkSecurityView ∅ ∅
  | Some m =>
      let links := links_of m device in
      let of_links :=
        foldl (fun view '(object, ga) =>
            MkSecurityView
              (if ga_secure m ga || is_keyed group_keys ga then {[ object ]} ∪ dsv_secure_objects view
               else dsv_secure_objects view)
              (if ga_secure m ga then {[ GroupAddress_raw ga ]} ∪ dsv_secure_gas view else dsv_secure_gas view))
          (MkSecurityView ∅ ∅)
          (flat_map (fun l => map (pair (link_object l)) (option_list (link_send l) ++ link_listen l)) links) in
      let own := match sm_devices m !! device with Some d => dv_com_objects d | None => [] end in
      let flagged := List.filter (fun '(number, secure) => (secure : bool) && existsb (fun l => link_object l =? number) links) own in
      MkSecurityView (list_to_set (map fst flagged) ∪ dsv_secure_objects of_links) (dsv_secure_gas of_links)
  end.

Record SecurityInputs : Type := MkInputs {
  in_secure_objects : gset u16;
  in_secure_gas : gset u16;
  in_group_keys : gmap u16 Key16;
  in_senders : list SecureSenderEntry;
  in_fallback_go_count : u16;
  in_admitted_tunnel : list IndividualAddress;
  in_capacity : TableCapacity }.

Definition security_inputs_for (model : option SecurityModel) (device : u16) (desired : DesiredTables)
    (group_keys : gmap u16 Key16) : SecurityInputs :=
  let ga_secure ga := match model with Some m => ga_secure m ga | None => false end in
  let own := match (m ← model; sm_devices m !! device) with Some d => dv_com_objects d | None => [] end in
  let '(objects, gas) :=
    foldl (fun '(objects, gas) '(tsap, asap) =>
        match (if tsap =? 0 then None else dt_addresses desired !! (Z.to_nat tsap - 1)%nat) with
        | None => (objects, gas)
        | Some ga =>
            let secure := ga_secure ga in
            (if secure || default false (bt_get asap own) || is_keyed group_keys ga then {[ asap ]} ∪ objects else objects,
             if (secure : bool) then {[ GroupAddress_raw ga ]} ∪ gas else gas)
        end) (∅, ∅) (dt_associations desired) in
  MkInputs objects gas group_keys []
    (Z.max (foldl Z.max 0 (map fst own)) (foldl Z.max 0 (elements (objects : gset u16)))) []
    (MkTableCapacity None None).

Definition keyed_addresses (inputs : SecurityInputs) (addresses : list GroupAddress) : list GroupAddress :=
  List.filter (is_keyed (in_group_keys inputs)) addresses.

Definition check_planned_capacity (addresses : list GroupAddress) (inputs : SecurityInputs) : result SecurityPlanError unit :=
  program ← build_security_program addresses (in_fallback_go_count inputs) (in_secure_objects inputs) (in_secure_gas inputs)
              (in_group_keys inputs);
  TableCapacity_check_counts (length (sp_group_keys program)) (length (in_senders inputs)) (in_capacity inputs).

(** ** Over the connection *)

Section Connection.
  Context {S : Type} `{L4Requests S}.

(** [?] on an error of the connection. *)
Definition of_request {A} (m : Req_op S A) : Mgmt_op S A := fun s => let '(r, s') := m s in (map_err Mgmt r, s').

Definition resolve_slot (pid : u16) (slot : option Capacity) : Req_op S (option Capacity) :=
  match slot with
  | Some c => mret (Some c)
  | None =>
      desc ← declined_as_none (read_property_ext_description (PropertyExtAddress_security pid) 0);
      mret (match desc with
            | Some d => if (pea_property_id (ped_addr d) =? pid) && (0 <? ped_max_elements d)
                        then Some (MkCapacity (ped_max_elements d) "property description") else None
            | None => None
            end)
  end.

Definition resolve_table_capacity (known : TableCapacity) : Req_op S TableCapacity :=
  keys ← resolve_slot PID_GRP_KEY_TABLE (tc_group_keys known);
  senders ← resolve_slot PID_SECURITY_INDIVIDUAL_ADDRESS_TABLE (tc_senders known);
  mret (MkTableCapacity keys senders).

Definition security_transition (control : LoadControl) : Mgmt_op S unit :=
  let expected := match control with
                  | Unload => Unloaded
                  | StartLoading => Loading
                  | _ => Loaded
                  end in
  actual ← of_request (security_load_control control);
  if bool_decide (actual = expected) then mret tt else fail (SecurityObjectState control expected actual).

Definition clear_security_address_table : Mgmt_op S unit :=
  of_request (write_property_ext_con (PropertyExtAddress_security PID_SECURITY_INDIVIDUAL_ADDRESS_TABLE) 1 0 [0; 0]).

(** An array property written from element 1; nothing for an empty one. *)
Definition write_array (pid : u16) (element_size : nat) (data : bytes) : Mgmt_op S unit :=
  of_request (write_property_ext_chunked (PropertyExtAddress_security pid) 1 element_size data).

Definition write_security_address_table (entries : list SecureSenderEntry) : Mgmt_op S unit :=
  match entries with
  | [] => mret tt
  | _ => write_array PID_SECURITY_INDIVIDUAL_ADDRESS_TABLE SecureSenderEntry_LEN (sender_table_bytes entries)
  end.

Definition write_group_key_table (entries : list GroupKeyEntry) : Mgmt_op S unit :=
  match entries with
  | [] => mret tt
  | _ => write_array PID_GRP_KEY_TABLE 18 (flat_map GroupKeyEntry_encode entries)
  end.

Definition write_go_security_flags (flags : list u8) : Mgmt_op S unit :=
  match flags with
  | [] => mret tt
  | _ => write_array PID_GO_SECURITY_FLAGS 1 flags
  end.

Definition left_not_loaded (err : WriteError) : WriteError :=
  match err with
  | SecurityObjectNotLoaded cause => SecurityObjectNotLoaded cause
  | other => SecurityObjectNotLoaded other
  end.

Definition write_security_program (p : SecurityProgramData) : Mgmt_op S unit := fun s =>
  let '(r, s') :=
    (_ ← security_transition Unload;
     _ ← security_transition StartLoading;
     _ ← clear_security_address_table;
     _ ← write_security_address_table (sp_senders p);
     _ ← write_group_key_table (sp_group_keys p);
     _ ← write_go_security_flags (sp_go_flags p);
     security_transition LoadCompleted) s in
  (map_err left_not_loaded r, s').

Definition plan_error {A} (r : result SecurityPlanError A) : Mgmt_op S A := fun s =>
  (map_err (fun _ => SecurityProgram "plan") r, s).

(** The element count of the flags, or the fallback of a device that refuses it. *)
Definition read_go_count (fallback : u16) : Mgmt_op S u16 := fun s =>
  match read_property_ext_element_count (PropertyExtAddress_security PID_GO_SECURITY_FLAGS) s with
  | (Ok n, s') => (Ok n, s')
  | (Err (ServiceRejected _ _ _), s') | (Err (MalformedResponse _), s') => (Ok fallback, s')
  | (Err e, s') => (Err (Mgmt e), s')
  end.

Definition prepare_security_program (addresses : list GroupAddress) (inputs : SecurityInputs)
    : Mgmt_op S SecurityProgramData :=
  go_count ← read_go_count (in_fallback_go_count inputs);
  built ← plan_error (build_security_program addresses go_count (in_secure_objects inputs) (in_secure_gas inputs)
                        (in_group_keys inputs));
  let program := MkSecurityProgram (in_senders inputs) (sp_group_keys built) (sp_go_flags built) in
  capacity ← (if TableCapacity_is_complete (in_capacity inputs) then mret (in_capacity inputs)
              else of_request (resolve_table_capacity (in_capacity inputs)));
  _ ← plan_error (TableCapacity_check program capacity);
  mret program.

Definition program_security_object (addresses : list GroupAddress) (inputs : SecurityInputs)
    : Mgmt_op S SecurityProgramData :=
  program ← prepare_security_program addresses inputs;
  _ ← write_security_program program;
  mret program.

(** ** Reading back *)

(** [None] for a table the device refuses. *)
Definition read_tolerant (pid : u16) (element_size : nat) : Req_op S (option bytes) := fun s =>
  match read_property_ext_table (PropertyExtAddress_security pid) element_size s with
  | (Ok octets, s') => (Ok (Some octets), s')
  | (Err (ServiceRejected _ _ _), s') | (Err (MalformedResponse _), s') => (Ok None, s')
  | (Err e, s') => (Err e, s')
  end.

Definition read_security_sender_table : Req_op S (option (list SecureSenderEntry)) :=
  octets ← read_tolerant PID_SECURITY_INDIVIDUAL_ADDRESS_TABLE SecureSenderEntry_LEN;
  mret (option_map decode_sender_table octets).

Definition read_security_flags : Req_op S (option bytes) := read_tolerant PID_GO_SECURITY_FLAGS 1.

(** Without the notes. *)
Record SecurityReadback : Type := MkReadback {
  srb_go_flags : option bytes; srb_senders : option (list SecureSenderEntry) }.

Definition read_security_object : Req_op S SecurityReadback :=
  flags ← read_security_flags;
  senders ← read_security_sender_table;
  mret (MkReadback flags senders).
End Connection.

Definition readback_secured_objects (r : SecurityReadback) : option (list u16) :=
  option_map (fun flags => omap (fun x => x) (imap (fun i f =>
    if (f =? 0) || (65535 <? Z.of_nat i + 1) then None else Some (Z.of_nat i + 1)) flags)) (srb_go_flags r).

Definition unconfirmed_flags (r : SecurityReadback) : list (u16 * u8) :=
  omap (fun x => x) (imap (fun i f =>
    if (f =? GO_FLAGS_PLAIN) || (f =? GO_FLAGS_SECURE) || (65535 <? Z.of_nat i + 1) then None
    else Some (Z.of_nat i + 1, f)) (default [] (srb_go_flags r))).
