(* ===== verification/SecurityNet.v ===== *)
(** * The Data Secure tables of a download, into a device of the simulator

    The client of [SecurityTables] connected to the security object of
    [SimSecurity]: every request reaches the object and its answer comes back.
    Programming the object either leaves it as it was, refused before its
    [Unload], or leaves it loaded with the keys, senders and flags that the model
    and the keyring give; what is read back is what was written. *)

From stdpp Require Import sorting.
From S2P Require Import Prelude OrderedMap Address Crypto Sequence SimWire SimSecurity.
From S2P Require Import MgmtError Load GroupTables PropertyExt SecurityTables.

Local Open Scope Z_scope.

(** ** The device behind a connection

    A request the object refuses as malformed, or that makes the simulator panic,
    has no answer. *)
Record SecureDevice : Type := MkSecureDevice {
  sd_object : SecurityObject; sd_limits : SecurityLimits; sd_max_apdu : u16; sd_exchanges : u32 }.

Definition answered_with (o : SecurityObject) (d : SecureDevice) : SecureDevice :=
  MkSecureDevice o (sd_limits d) (sd_max_apdu d) (sd_exchanges d + 1).

Definition security_answer (apci : u16) (data : bytes) (d : SecureDevice)
    : result MgmtError (u16 * bytes) * SecureDevice :=
  match SecurityObject_handle (sim_apci_from_u10 apci) data (sd_limits d) (sd_object d) with
  | Some (Ok (Some (a, r)), o) => (Ok (sim_apci_to_u10 a, r), answered_with o d)
  | Some (_, o) => (Err NoResponse, answered_with o d)
  | None => (Err NoResponse, d)
  end.

#[export] Instance device_requests : L4Requests SecureDevice := {
  l4_request := security_answer;
  l4_request_optional apci data d :=
    match security_answer apci data d with
    | (Ok answer, d') => (Ok (Some answer), d')
    | (Err _, d') => (Ok None, d')
    end;
  l4_max_apdu := sd_max_apdu;
  l4_exchanges := sd_exchanges;
  l4_reopen_after_unanswered d := d }.

(** ** The two codecs of the header agree *)

Lemma client_header a rest : PropertyExtAddress_ok a ->
  ExtHeader_parse (PropertyExtAddress_encode a ++ rest)
  = Some (MkExtHeader (pea_object_type a) (pea_object_instance a) (pea_property_id a)).
Proof.
  intros Ha. rewrite encoded_address by done. destruct a as [t i p], Ha as (Ht & Hi & Hp).
  cbn [pea_object_type pea_object_instance pea_property_id app ExtHeader_parse] in *.
  rewrite (land_mask 4), shiftr_div, (lor_shiftl_add 4) by (try done; zdiv).
  change (2 ^ 4) with 16. rewrite (lor_shiftl_add 8) by zdiv. change (2 ^ 8) with 256.
  unfold u16_of. do 2 f_equal; zdiv.
Qed.

Lemma device_header a : PropertyExtAddress_ok a ->
  ExtHeader_encode (MkExtHeader (pea_object_type a) (pea_object_instance a) (pea_property_id a)) = PropertyExtAddress_encode a.
Proof.
  intros Ha. rewrite encoded_address by done. destruct a as [t i p], Ha as (Ht & Hi & Hp).
  unfold ExtHeader_encode. cbn [pea_object_type pea_object_instance pea_property_id eh_object_type eh_instance eh_pid] in *.
  rewrite be_bytes_2 by done. rewrite !shiftr_div by lia. change (2 ^ 4) with 16. change (2 ^ 8) with 256.
  rewrite (land_mask 4 15), (land_mask 8 255) by (try done; lia). change (2 ^ 4) with 16. change (2 ^ 8) with 256.
  assert (E : as_u8 (Z.shiftl (as_u8 (i mod 16)) 4) = Z.shiftl (i mod 16) 4).
  { rewrite !Z.shiftl_mul_pow2 by lia. change (2 ^ 4) with 16. unfold as_u8. zdiv. }
  rewrite E. assert (Hq : Z.land (as_u8 (p / 256)) 15 = p / 256).
  { rewrite (land_mask 4) by (try done; lia). change (2 ^ 4) with 16. unfold as_u8. zdiv. }
  rewrite Hq, (lor_shiftl_add 4) by (change (2 ^ 4) with 16; zdiv). change (2 ^ 4) with 16.
  unfold as_u8. cbn [app].
  assert ((i / 16) mod 256 = i / 16) as -> by zdiv. assert ((p mod 256) mod 256 = p mod 256) as -> by zdiv. done.
Qed.

Definition secure_header (pid : u16) : ExtHeader := MkExtHeader 17 1 pid.

Lemma security_header pid rest : 0 <= pid < 4096 ->
  ExtHeader_parse (PropertyExtAddress_encode (PropertyExtAddress_security pid) ++ rest) = Some (secure_header pid).
Proof. intros H. by rewrite client_header by by apply security_address_ok. Qed.

Lemma header_back pid : 0 <= pid < 4096 ->
  ExtHeader_encode (secure_header pid) = PropertyExtAddress_encode (PropertyExtAddress_security pid).
Proof. intros H. by rewrite <- (device_header (PropertyExtAddress_security pid)) by by apply security_address_ok. Qed.

(** ** One exchange *)

Lemma checked_ok {A B} (a : A) (k : A -> Req_op SecureDevice B) d : (checked (Ok a) ≫= k) d = k a d.
Proof. done. Qed.

Definition rejected_write (rc : u8) : MgmtError := ServiceRejected "A_PropertyExtValue_WriteCon" "" (Some rc).

Lemma device_writes pid count start data d rc o : 0 <= pid < 4096 -> is_u16 start ->
  write_value (secure_header pid) count start data (sd_limits d) (sd_object d) = (rc, o) ->
  write_property_ext_con (PropertyExtAddress_security pid) count start data d
  = ((if rc =? 0 then Ok tt else Err (rejected_write rc)), answered_with o d).
Proof.
  intros Hp Hs Hw. unfold write_property_ext_con, mbind at 1, Req_op_bind at 1. cbn [l4_request device_requests].
  unfold security_answer. change (sim_apci_from_u10 A_PROPERTY_EXT_VALUE_WRITE_CON) with SimPropertyExtValueWriteCon.
  cbn [SecurityObject_handle]. unfold on_value_write, encode_property_ext_value_write, encode_property_ext_value_read.
  rewrite <- !(assoc_L app), security_header, drop_address by done. cbn [app].
  destruct (be_bytes_2_u16 start Hs) as (hi & lo & Eb & _ & _ & Eu). rewrite Eb. cbn [app]. rewrite Eu, Hw.
  cbn [mbind result_bind mret result_ret]. rewrite header_back by done.
  change (sim_apci_to_u10 SimPropertyExtValueWriteConResponse =? A_PROPERTY_EXT_VALUE_WRITE_CON_RESPONSE) with true.
  cbn [negb]. unfold decode_property_ext_write_con_response.
  pose proof (decode_value (PropertyExtAddress_security pid) count start [rc] (security_address_ok _ Hp) Hs) as D.
  unfold encode_property_ext_value_write, encode_property_ext_value_read in D.
  rewrite <- !(assoc_L app), Eb in D. rewrite Eb. cbn [app] in *. rewrite D.
  cbn [mbind option_bind head pev_data pev_addr pev_count pev_start ok_or].
  rewrite checked_ok. cbn [pwc_addr pwc_start pwc_count pwc_return_code]. rewrite bool_decide_true, !Z.eqb_refl by done. cbn [negb orb]. by destruct (rc =? 0).
Qed.

Lemma device_reads pid count start d v : 0 <= pid < 4096 -> is_u16 start -> 0 < count ->
  read_value (secure_header pid) count start (sd_limits d) (sd_object d) = Some (Some v) ->
  read_property_ext (PropertyExtAddress_security pid) count start d
  = (Ok (MkExtValue (PropertyExtAddress_security pid) count start v), answered_with (sd_object d) d).
Proof.
  intros Hp Hs Hc Hr. unfold read_property_ext, mbind at 1, Req_op_bind at 1. cbn [l4_request device_requests].
  unfold security_answer. change (sim_apci_from_u10 A_PROPERTY_EXT_VALUE_READ) with SimPropertyExtValueRead.
  cbn [SecurityObject_handle]. unfold on_value_read, encode_property_ext_value_read.
  rewrite security_header, drop_address by done. cbn [app].
  destruct (be_bytes_2_u16 start Hs) as (hi & lo & Eb & _ & _ & Eu). rewrite Eb. rewrite Eu, Hr.
  cbn [mbind option_bind result_bind mret result_ret]. rewrite header_back by done.
  change (sim_apci_to_u10 SimPropertyExtValueResponse =? A_PROPERTY_EXT_VALUE_RESPONSE) with true.
  cbn [negb]. rewrite bool_decide_true by done.
  pose proof (decode_value (PropertyExtAddress_security pid) count start v (security_address_ok _ Hp) Hs) as D.
  unfold encode_property_ext_value_write, encode_property_ext_value_read in D. rewrite <- !(assoc_L app), Eb in D.
  rewrite Eb. cbn [app default from_option id] in *. rewrite D.
  cbn [ok_or]. rewrite checked_ok. cbn [pev_addr pev_start pev_count].
  rewrite bool_decide_true, Z.eqb_refl by done. cbn [negb orb]. by rewrite (proj2 (Z.eqb_neq count 0)) by lia.
Qed.

(** ** The load state *)

Definition control_effect (control : LoadControl) (o : SecurityObject) : SecurityObject :=
  snd (apply_load_event (LoadControl_encode_full control) o).

Definition rejected_control (rc : u8) : MgmtError := ServiceRejected "A_FunctionPropertyExt_Command" "" (Some rc).

Lemma device_controls control d rc o :
  apply_load_event (LoadControl_encode_full control) (sd_object d) = (rc, o) ->
  security_load_control control d
  = ((if rc =? 0 then Ok (LoadState_from_octet (SecLoadState_to_byte (so_load_state o))) else Err (rejected_control rc)),
     answered_with o d).
Proof.
  intros Ha. unfold security_load_control, function_property_ext_command, function_property_ext_request.
  unfold mbind, Req_op_bind. cbn [l4_request device_requests].
  unfold security_answer. change (sim_apci_from_u10 A_FUNCTION_PROPERTY_EXT_COMMAND) with SimFunctionPropertyExtCommand.
  cbn [SecurityObject_handle]. unfold on_function_command, encode_function_property_ext.
  rewrite security_header, drop_address by (unfold PID_SECURITY_LOAD_STATE_CONTROL; lia).
  change (is_security_object (secure_header PID_SECURITY_LOAD_STATE_CONTROL)) with true. cbn [negb].
  change (eh_pid (secure_header PID_SECURITY_LOAD_STATE_CONTROL) =? SEC_LOAD_STATE_CONTROL) with true. cbn iota.
  rewrite Ha. cbn [mbind result_bind mret result_ret].
  change (sim_apci_to_u10 SimFunctionPropertyExtStateResponse =? A_FUNCTION_PROPERTY_EXT_STATE_RESPONSE) with true.
  cbn [negb]. rewrite header_back by (unfold PID_SECURITY_LOAD_STATE_CONTROL; lia).
  rewrite decode_function_state by (apply security_address_ok; unfold PID_SECURITY_LOAD_STATE_CONTROL; lia).
  unfold ok_or, checked. cbn [fps_addr fps_return_code fps_data]. rewrite bool_decide_true by done. cbn [negb].
  change (rc =? RC_SUCCESS) with (rc =? 0).
  change (A_FUNCTION_PROPERTY_EXT_COMMAND =? A_FUNCTION_PROPERTY_EXT_COMMAND) with true.
  destruct (rc =? 0); done.
Qed.

Lemma device_transition control d rc o expected :
  apply_load_event (LoadControl_encode_full control) (sd_object d) = (rc, o) -> rc = 0 ->
  LoadState_from_octet (SecLoadState_to_byte (so_load_state o)) = expected ->
  expected = match control with Unload => Unloaded | StartLoading => Loading | _ => Loaded end ->
  security_transition control d = (Ok tt, answered_with o d).
Proof.
  intros Ha -> He Hx. unfold security_transition, mbind, Mgmt_op_bind, of_request. rewrite (device_controls _ _ _ _ Ha).
  cbn [Z.eqb map_err]. rewrite He, Hx. by rewrite bool_decide_true.
Qed.

(** ** A table written in chunks *)

Definition is_table (pid : u16) : bool := (pid =? 53) || (pid =? 54) || (pid =? 61).

Definition row_size (pid : u16) : nat := if pid =? 53 then GRP_KEY_ROW else if pid =? 54 then IA_ROW else GO_FLAG.

(** Every row of the key table names an entry of the address table. *)
Definition rows_valid (pid : u16) (limit : option u16) (data : bytes) : Prop :=
  pid = SEC_GRP_KEY_TABLE -> forall i hi lo, ((i + 1) * GRP_KEY_ROW <= length data)%nat ->
    data !! (i * GRP_KEY_ROW)%nat = Some hi -> data !! (i * GRP_KEY_ROW + 1)%nat = Some lo ->
    1 <= u16_of hi lo /\ forall len, limit = Some len -> u16_of hi lo <= len.

Definition stores_table (pid : u16) (octets : bytes) (o : SecurityObject) : Prop :=
  table_of_pid pid o = MkTable (row_size pid) octets.

Lemma rows_checked limit fuel : forall data, rows_valid SEC_GRP_KEY_TABLE limit data ->
  check_key_rows fuel data limit = RC_SUCCESS.
Proof.
  induction fuel as [|fuel IH]; [done|]. intros data Hv. destruct data as [|hi [|lo data]]; [done..|].
  cbn [check_key_rows]. destruct (Nat.ltb_spec (length (hi :: lo :: data)) GRP_KEY_ROW) as [|Hl]; [done|].
  assert (Hd : rows_valid SEC_GRP_KEY_TABLE limit (drop GRP_KEY_ROW (hi :: lo :: data))).
  { intros _ i h l Hi Eh El. rewrite length_drop in Hi. rewrite lookup_drop in Eh, El.
    apply (Hv eq_refl (S i)); [unfold GRP_KEY_ROW in *; lia| |];
      [replace (S i * GRP_KEY_ROW)%nat with (GRP_KEY_ROW + i * GRP_KEY_ROW)%nat by lia; exact Eh|
       replace (S i * GRP_KEY_ROW + 1)%nat with (GRP_KEY_ROW + (i * GRP_KEY_ROW + 1))%nat by lia; exact El]. }
  destruct (Hv eq_refl O hi lo ltac:(lia) eq_refl eq_refl) as [H1 H2].
  rewrite (proj2 (Z.eqb_neq _ _)) by lia. destruct limit as [len|]; [|by apply IH].
  specialize (H2 len eq_refl). rewrite (proj2 (Z.ltb_ge _ _)) by lia. by apply IH.
Qed.

Lemma rows_valid_take pid limit n data : rows_valid pid limit data -> rows_valid pid limit (take n data).
Proof.
  intros Hv Hp i hi lo Hi Eh El. rewrite length_take in Hi.
  apply lookup_take_Some in Eh as [Eh _], El as [El _]. apply (Hv Hp i); [unfold GRP_KEY_ROW in *; lia|done|done].
Qed.

Lemma rows_valid_drop pid limit n data : rows_valid pid limit data -> rows_valid pid limit (drop (n * row_size pid) data).
Proof.
  intros Hv Hp i hi lo Hi Eh El. rewrite Hp in Hi, Eh, El. change (row_size SEC_GRP_KEY_TABLE) with GRP_KEY_ROW in *.
  rewrite length_drop in Hi. rewrite lookup_drop in Eh, El.
  replace (n * GRP_KEY_ROW + i * GRP_KEY_ROW)%nat with ((n + i) * GRP_KEY_ROW)%nat in Eh by lia.
  replace (n * GRP_KEY_ROW + (i * GRP_KEY_ROW + 1))%nat with ((n + i) * GRP_KEY_ROW + 1)%nat in El by lia.
  apply (Hv Hp (n + i)%nat); [unfold GRP_KEY_ROW in *; lia|done|done].
Qed.

Lemma row_size_pos pid : (0 < row_size pid)%nat.
Proof. unfold row_size. repeat case_match; unfold GRP_KEY_ROW, IA_ROW, GO_FLAG; lia. Qed.

Lemma table_pid pid : is_table pid = true -> pid = 53 \/ pid = 54 \/ pid = 61.
Proof. unfold is_table. rewrite !orb_true_iff, !Z.eqb_eq. tauto. Qed.

Definition capacity_of (pid : u16) (limits : SecurityLimits) (o : SecurityObject) : u16 := snd (table_limits pid limits o).

Lemma table_limits_of pid limits o : is_table pid = true ->
  table_limits pid limits o = (row_size pid, capacity_of pid limits o).
Proof. by intros [->|[->| ->]]%table_pid. Qed.

Lemma set_table_twice pid t t' o : is_table pid = true ->
  set_table_of_pid pid t' (set_table_of_pid pid t o) = set_table_of_pid pid t' o.
Proof. by intros [->|[->| ->]]%table_pid. Qed.

Lemma set_table_holds pid octets o : is_table pid = true ->
  stores_table pid octets (set_table_of_pid pid (MkTable (row_size pid) octets) o).
Proof. by intros [->|[->| ->]]%table_pid. Qed.

Lemma set_table_capacity pid t limits o : is_table pid = true ->
  capacity_of pid limits (set_table_of_pid pid t o) = capacity_of pid limits o.
Proof. by intros [->|[->| ->]]%table_pid. Qed.

Lemma set_table_state pid t o : is_table pid = true -> so_load_state (set_table_of_pid pid t o) = so_load_state o.
Proof. by intros [->|[->| ->]]%table_pid. Qed.

Lemma append_rows elem octets data start : length octets = ((Z.to_nat start - 1) * elem)%nat ->
  Table_write start data (MkTable elem octets) = MkTable elem (octets ++ data).
Proof.
  intros Hl. unfold Table_write. cbn [t_elem_size t_bytes]. rewrite <- Hl. f_equal.
  rewrite take_app_length, (drop_ge (octets ++ _)); [by rewrite app_nil_r|].
  rewrite length_app, length_replicate. lia.
Qed.

Lemma table_count_full elem octets n : (0 < elem)%nat -> length octets = (n * elem)%nat ->
  Table_count (MkTable elem octets) = n.
Proof. intros He Hl. unfold Table_count. cbn. rewrite Hl. by apply Nat.div_mul; lia. Qed.

Lemma write_more pid limits o octets start count data : is_table pid = true -> so_load_state o = SecLoading ->
  stores_table pid octets o -> 1 <= start -> length octets = ((Z.to_nat start - 1) * row_size pid)%nat ->
  0 < count -> length data = (Z.to_nat count * row_size pid)%nat -> start + count - 1 <= capacity_of pid limits o ->
  rows_valid pid (sl_address_table_len limits) data ->
  write_value (secure_header pid) count start data limits o
  = (RC_SUCCESS, set_table_of_pid pid (MkTable (row_size pid) (octets ++ data)) o).
Proof.
  intros Hp Hload Ht Hs Hl Hc Hd Hcap Hrows.
  assert (E : write_table pid count start data limits o
              = (RC_SUCCESS, set_table_of_pid pid (MkTable (row_size pid) (octets ++ data)) o)).
  { unfold write_table. rewrite bool_decide_true by done. cbn [negb]. rewrite table_limits_of, Ht by done.
    rewrite (proj2 (Z.eqb_neq start 0)) by lia. rewrite Hd, Nat.eqb_refl. cbn [negb].
    rewrite (table_count_full _ _ _ (row_size_pos pid) Hl).
    rewrite (proj2 (Z.ltb_ge _ start)), (proj2 (Z.ltb_ge _ (start + count - 1))) by lia. cbn [orb].
    assert (Hrc : (if pid =? SEC_GRP_KEY_TABLE then check_key_rows (Z.to_nat count * row_size pid) data (sl_address_table_len limits)
                   else RC_SUCCESS) = RC_SUCCESS).
    { destruct (Z.eqb_spec pid SEC_GRP_KEY_TABLE) as [Ep|]; [|done]. rewrite Ep in Hrows. by apply rows_checked. }
    rewrite Hrc. change (RC_SUCCESS =? RC_SUCCESS) with true. cbn [negb]. rewrite Ht. by rewrite (append_rows _ _ _ _ Hl). }
  unfold write_value, secure_header. cbn [eh_pid].
  change (is_security_object _) with true. cbn [negb].
  apply table_pid in Hp as Hp'. rewrite (proj2 (Z.eqb_neq count 0)) by lia. rewrite <- E.
  by destruct Hp' as [->|[->| ->]].
Qed.

(** A device that took octets into its tables. *)
Definition reached (o : SecurityObject) (d d' : SecureDevice) : Prop :=
  sd_object d' = o /\ sd_limits d' = sd_limits d /\ sd_max_apdu d' = sd_max_apdu d.

Lemma write_elements_step (d : SecureDevice) fuel addr size per index data : data <> [] ->
  write_elements_loop (S fuel) addr size per index data d
  = (let chunk := take (per * size) data in
     let count := Z.of_nat (length chunk / size) in
     match write_property_ext_con addr (as_u8 count) index chunk d with
     | (Ok _, d') => write_elements_loop fuel addr size per (Z.min (index + as_u16 count) 65535) (drop (per * size) data) d'
     | (Err e, d') => (Err e, d')
     end).
Proof. by destruct data. Qed.

Lemma chunks_written pid per fuel : (0 < per <= 255)%nat -> is_table pid = true ->
  forall data start octets d, (length data <= fuel)%nat ->
  so_load_state (sd_object d) = SecLoading -> stores_table pid octets (sd_object d) -> 1 <= start ->
  length octets = ((Z.to_nat start - 1) * row_size pid)%nat -> (length data mod row_size pid = 0)%nat ->
  start + Z.of_nat (length data / row_size pid) - 1 <= capacity_of pid (sd_limits d) (sd_object d) ->
  capacity_of pid (sd_limits d) (sd_object d) < 65536 ->
  rows_valid pid (sl_address_table_len (sd_limits d)) data ->
  exists d', write_elements_loop fuel (PropertyExtAddress_security pid) (row_size pid) per start data d = (Ok tt, d') /\
    reached (set_table_of_pid pid (MkTable (row_size pid) (octets ++ data)) (sd_object d)) d d'.
Proof.
  intros Hper Hp. pose proof (row_size_pos pid) as Hrow.
  assert (Hpid : 0 <= pid < 4096) by (apply table_pid in Hp; lia).
  induction fuel as [|fuel IH]; intros data start octets d Hf Hload Ht Hs Hl Hmod Hcap Hbound Hrows.
  - destruct data; [|cbn in Hf; lia]. exists d. split; [done|]. rewrite app_nil_r. split; [|done].
    unfold stores_table in Ht. rewrite <- Ht. apply table_pid in Hp as [->|[->| ->]]; by destruct (sd_object d).
  - destruct (decide (data = [])) as [->|Hne].
    { exists d. split; [done|]. rewrite app_nil_r. split; [|done].
      unfold stores_table in Ht. rewrite <- Ht. apply table_pid in Hp as [->|[->| ->]]; by destruct (sd_object d). }
    assert (Hn : (1 <= length data / row_size pid)%nat).
    { destruct (Nat.eq_dec (length data / row_size pid) 0) as [E|]; [|lia]. exfalso.
      pose proof (Nat.div_mod (length data) (row_size pid) ltac:(lia)) as Hdm. rewrite E, Hmod in Hdm.
      by destruct data; [|cbn in Hdm; lia]. }
    assert (Hdata : (length data = (length data / row_size pid) * row_size pid)%nat).
    { pose proof (Nat.div_mod (length data) (row_size pid) ltac:(lia)). lia. }
    set (n := (length data / row_size pid)%nat) in *. set (k := Nat.min per n).
    assert (Hkn : (1 <= k <= n)%nat /\ (k <= per)%nat) by (unfold k; lia).
    assert (Hchunk : length (take (per * row_size pid) data) = (k * row_size pid)%nat).
    { rewrite length_take, Hdata. unfold k. by rewrite Nat.mul_min_distr_r. }
    assert (Hk : as_u8 (Z.of_nat (length (take (per * row_size pid) data) / row_size pid)) = Z.of_nat k).
    { rewrite Hchunk, Nat.div_mul by lia. unfold as_u8. apply Z.mod_small. lia. }
    assert (Hk' : as_u16 (Z.of_nat (length (take (per * row_size pid) data) / row_size pid)) = Z.of_nat k).
    { rewrite Hchunk, Nat.div_mul by lia. unfold as_u16. apply Z.mod_small. lia. }
    assert (Hk0 : 0 < Z.of_nat k) by lia.
    assert (Hk1 : start + Z.of_nat k - 1 <= capacity_of pid (sd_limits d) (sd_object d)) by lia.
    pose proof (write_more pid (sd_limits d) (sd_object d) octets start (Z.of_nat k) (take (per * row_size pid) data)
                  Hp Hload Ht Hs Hl Hk0 ltac:(rewrite Nat2Z.id; exact Hchunk) Hk1
                  ltac:(by apply rows_valid_take)) as Hw.
    assert (Hstart : is_u16 start) by (unfold is_u16; lia).
    rewrite write_elements_step by done. cbv zeta. rewrite Hk, Hk'.
    rewrite (device_writes _ _ _ _ _ _ _ Hpid Hstart Hw). cbn [Z.eqb RC_SUCCESS].
    set (d1 := answered_with _ d).
    assert (Hrest : length (drop (per * row_size pid) data) = ((n - k) * row_size pid)%nat).
    { rewrite length_drop, Hdata. unfold k. destruct (Nat.min_spec per n) as [[? ->]|[? ->]]; nia. }
    destruct (Nat.eq_dec k n) as [Ekn|Ekn].
    { assert (Hnil : drop (per * row_size pid) data = []) by (apply nil_length_inv; rewrite Hrest; lia).
      assert (Hall : take (per * row_size pid) data = data) by (rewrite <- (take_drop (per * row_size pid) data) at 2; by rewrite Hnil, app_nil_r).
      exists d1. rewrite Hnil. split; [by destruct fuel|]. unfold d1. by rewrite Hall. }
    rewrite Z.min_l by lia.
    destruct (IH (drop (per * row_size pid) data) (start + Z.of_nat k) (octets ++ take (per * row_size pid) data) d1)
      as (d' & Hd' & Hr).
    + rewrite Hrest. rewrite Hdata in Hf. nia.
    + unfold d1. cbn [sd_object answered_with]. by rewrite set_table_state.
    + by apply set_table_holds.
    + lia.
    + rewrite length_app, Hl, Hchunk. replace (Z.to_nat (start + Z.of_nat k) - 1)%nat with (Z.to_nat start - 1 + k)%nat by lia. lia.
    + rewrite Hrest. apply Nat.Div0.mod_mul.
    + rewrite Hrest, Nat.div_mul by lia. unfold d1. cbn [sd_object sd_limits answered_with]. rewrite set_table_capacity by done. lia.
    + unfold d1. cbn [sd_object sd_limits answered_with]. by rewrite set_table_capacity.
    + by apply rows_valid_drop.
    + exists d'. split; [done|]. destruct Hr as (Ho & Hlim & Hapdu). unfold d1 in *. cbn [sd_object sd_limits sd_max_apdu answered_with] in *.
      split; [|done]. rewrite Ho, set_table_twice by done. by rewrite <- (assoc_L app), take_drop.
Qed.

(** ** The whole object programmed *)

Record object_ok (limits : SecurityLimits) (o : SecurityObject) : Prop := MkObjectOk {
  ok_keys : t_elem_size (so_group_keys o) = GRP_KEY_ROW;
  ok_ias : t_elem_size (so_ia_table o) = IA_ROW;
  ok_flags : t_elem_size (so_go_flags o) = GO_FLAG;
  ok_flag_count : Z.of_nat (length (t_bytes (so_go_flags o))) <= capacity_of SEC_GO_FLAGS limits o;
  ok_capacity : forall pid, is_table pid = true -> 0 <= capacity_of pid limits o < 65536 }.

Record program_fits (limits : SecurityLimits) (o : SecurityObject) (p : SecurityProgramData) : Prop := MkFits {
  fit_keys : Z.of_nat (length (sp_group_keys p)) <= capacity_of SEC_GRP_KEY_TABLE limits o;
  fit_senders : Z.of_nat (length (sp_senders p)) <= capacity_of SEC_IA_TABLE limits o;
  fit_flags : Z.of_nat (length (sp_go_flags p)) <= capacity_of SEC_GO_FLAGS limits o;
  fit_entries : Forall (fun e => Key16_ok (gk_key e) /\ 1 <= gk_address_index e < 65536 /\
    forall len, sl_address_table_len limits = Some len -> gk_address_index e <= len) (sp_group_keys p) }.

Definition programmed (p : SecurityProgramData) (o : SecurityObject) : SecurityObject :=
  so_set_load_state SecLoaded
    (so_set_tables (MkTable GRP_KEY_ROW (group_key_table_bytes p)) (MkTable IA_ROW (sender_table_bytes (sp_senders p)))
       (MkTable GO_FLAG (sp_go_flags p)) o).

Lemma flat_rows {A} (f : A -> bytes) n l : Forall (fun e => length (f e) = n) l -> length (flat_map f l) = (length l * n)%nat.
Proof. induction 1 as [|e l He Hl IH]; [done|]. cbn. rewrite length_app, He, IH. lia. Qed.

Lemma flat_row_at {A} (f : A -> bytes) n l i j : Forall (fun e => length (f e) = n) l -> (j < n)%nat ->
  flat_map f l !! (i * n + j)%nat = (e ← l !! i; f e !! j).
Proof.
  intros Hl Hj. revert i. induction Hl as [|e l He Hl IH]; intros i; [by rewrite lookup_nil|].
  cbn [flat_map]. destruct i as [|i]; cbn [lookup list_lookup].
  - rewrite Nat.mul_0_l, Nat.add_0_l, lookup_app_l by lia. done.
  - rewrite lookup_app_r by lia. rewrite He. replace (S i * n + j - n)%nat with (i * n + j)%nat by lia. apply IH.
Qed.

Lemma sender_lengths entries : Forall (fun e => length (SecureSenderEntry_encode e) = IA_ROW) entries.
Proof. apply Forall_forall. intros e _. unfold SecureSenderEntry_encode. by rewrite length_app, !length_be_bytes. Qed.

Lemma key_lengths limits o p : program_fits limits o p ->
  Forall (fun e => length (GroupKeyEntry_encode e) = GRP_KEY_ROW) (sp_group_keys p).
Proof.
  intros [_ _ _ Hf]. eapply Forall_impl; [exact Hf|]. intros e [Hk _]. unfold GroupKeyEntry_encode.
  by rewrite length_app, length_be_bytes, Hk.
Qed.

Lemma key_rows_valid limits o p : program_fits limits o p ->
  rows_valid SEC_GRP_KEY_TABLE (sl_address_table_len limits) (group_key_table_bytes p).
Proof.
  intros Hfit _ i hi lo _ Ehi Elo. pose proof (key_lengths _ _ _ Hfit) as Hlen. unfold group_key_table_bytes in *.
  rewrite <- (Nat.add_0_r (i * _)) in Ehi. rewrite (flat_row_at _ _ _ _ _ Hlen) in Ehi by (unfold GRP_KEY_ROW; lia).
  rewrite (flat_row_at _ _ _ _ _ Hlen) in Elo by (unfold GRP_KEY_ROW; lia).
  destruct (sp_group_keys p !! i) as [e|] eqn:Ee; [|done]. cbn [mbind option_bind] in Ehi, Elo.
  pose proof (Forall_lookup_1 _ _ _ _ (fit_entries _ _ _ Hfit) Ee) as (_ & Hidx & Hlim).
  unfold GroupKeyEntry_encode in *. destruct (be_bytes_2_u16 (gk_address_index e)) as (h & l & Eb & _ & _ & Eu);
    [unfold is_u16; lia|]. rewrite Eb in Ehi, Elo. injection Ehi as <-. injection Elo as <-. rewrite Eu. split; [lia|exact Hlim].
Qed.

(** An empty table of a loading object, written from its first element. *)
Lemma array_written pid data d : is_table pid = true -> so_load_state (sd_object d) = SecLoading ->
  stores_table pid [] (sd_object d) -> (length data mod row_size pid = 0)%nat ->
  Z.of_nat (length data / row_size pid) <= capacity_of pid (sd_limits d) (sd_object d) < 65536 ->
  rows_valid pid (sl_address_table_len (sd_limits d)) data ->
  exists d', write_array pid (row_size pid) data d = (Ok tt, d') /\
    reached (set_table_of_pid pid (MkTable (row_size pid) data) (sd_object d)) d d'.
Proof.
  intros Hp Hload Ht Hmod [Hcap Hb] Hrows. pose proof (row_size_pos pid) as Hrow.
  unfold write_array, of_request, write_property_ext_chunked. rewrite Nat.max_l by lia. rewrite Hmod. cbn [Nat.eqb negb].
  destruct (chunks_written pid (max_write_elements d (row_size pid)) (length data)) with (data := data) (start := 1)
    (octets := @nil Z) (d := d) as (d' & -> & Hr); try done; [unfold max_write_elements; lia|lia|].
  by exists d'.
Qed.

Definition opened (o : SecurityObject) : SecurityObject :=
  so_set_load_state SecLoading
    (so_set_tables (Table_clear (so_group_keys o)) (Table_clear (so_ia_table o)) (Table_clear (so_go_flags o))
       (so_set_load_state SecUnloaded o)).

Lemma opened_tables limits o : object_ok limits o ->
  stores_table SEC_GRP_KEY_TABLE [] (opened o) /\ stores_table SEC_IA_TABLE [] (opened o) /\ stores_table SEC_GO_FLAGS [] (opened o).
Proof.
  intros [H1 H2 H3 _ _]. destruct o as [? ? [? ?] [? ?] [? ?]]. cbn in *. subst. done.
Qed.

Lemma opened_capacity pid limits o : capacity_of pid limits (opened o) = capacity_of pid limits o.
Proof. done. Qed.

Lemma reached_trans o o' d d1 d2 : reached o d d1 -> reached o' d1 d2 -> reached o' d d2.
Proof. intros (_ & L1 & M1) (Ho & L2 & M2). repeat split; congruence. Qed.

(** An array of the program; an empty one is not sent, and its table is empty. *)
Lemma rows_written {A} pid (f : A -> bytes) entries (send : list A -> Mgmt_op SecureDevice unit) d :
  is_table pid = true -> Forall (fun e => length (f e) = row_size pid) entries ->
  send entries = match entries with [] => mret tt | _ => write_array pid (row_size pid) (flat_map f entries) end ->
  so_load_state (sd_object d) = SecLoading -> stores_table pid [] (sd_object d) ->
  Z.of_nat (length entries) <= capacity_of pid (sd_limits d) (sd_object d) < 65536 ->
  rows_valid pid (sl_address_table_len (sd_limits d)) (flat_map f entries) ->
  exists d', send entries d = (Ok tt, d') /\
    reached (set_table_of_pid pid (MkTable (row_size pid) (flat_map f entries)) (sd_object d)) d d'.
Proof.
  intros Hp Hlen Hsend Hload Ht Hcap Hrows. rewrite Hsend. destruct entries as [|e entries].
  - exists d. split; [done|]. split; [|done]. unfold stores_table in Ht. cbn [flat_map]. rewrite <- Ht.
    apply table_pid in Hp as [->|[->| ->]]; by destruct (sd_object d).
  - pose proof (row_size_pos pid). apply array_written; try done.
    + rewrite (flat_rows _ _ _ Hlen). apply Nat.Div0.mod_mul.
    + rewrite (flat_rows _ _ _ Hlen), Nat.div_mul by lia. done.
Qed.

Lemma flat_single (l : bytes) : flat_map (fun b => [b]) l = l.
Proof. induction l as [|b l IH]; [done|]. cbn. by rewrite IH. Qed.

Lemma cleared_again limits o : stores_table SEC_IA_TABLE [] o -> so_load_state o = SecLoading ->
  write_value (secure_header SEC_IA_TABLE) 1 0 [0; 0] limits o = (RC_SUCCESS, o).
Proof.
  intros Ht Hl. unfold write_value, secure_header. cbn [eh_pid]. change (is_security_object _) with true. cbn -[write_table].
  unfold write_table. rewrite bool_decide_true by done. cbn [negb]. rewrite table_limits_of, Ht by done.
  cbn. unfold stores_table in Ht. cbn in Ht. destruct o as [? ? ? ia ?]; cbn in *; subst ia. done.
Qed.

Lemma program_written p d : object_ok (sd_limits d) (sd_object d) -> program_fits (sd_limits d) (sd_object d) p ->
  exists d', write_security_program p d = (Ok tt, d') /\ reached (programmed p (sd_object d)) d d'.
Proof.
  intros Hok Hfit. set (o := sd_object d) in *. set (limits := sd_limits d) in *.
  destruct (opened_tables _ _ Hok) as (Hk & Hi & Hg). destruct Hok as [_ _ _ _ Hcap].
  pose proof (device_transition Unload d _ _ Unloaded eq_refl eq_refl eq_refl eq_refl) as E1. fold o in E1.
  match type of E1 with _ = (_, ?x) => set (d1 := x) in * end.
  pose proof (device_transition StartLoading d1 _ _ Loading eq_refl eq_refl eq_refl eq_refl) as E2.
  match type of E2 with _ = (_, ?x) => set (d2 := x) in * end.
  assert (O2 : sd_object d2 = opened o) by done.
  pose proof (device_writes SEC_IA_TABLE 1 0 [0; 0] d2 _ _ ltac:(unfold SEC_IA_TABLE; lia) ltac:(unfold is_u16; lia)
                (cleared_again (sd_limits d2) (sd_object d2) Hi eq_refl)) as E3.
  match type of E3 with _ = (_, ?x) => set (d3 := x) in * end.
  assert (R3 : reached (opened o) d d3) by done.
  destruct (rows_written SEC_IA_TABLE SecureSenderEntry_encode (sp_senders p) write_security_address_table d3)
    as (d4 & E4 & O4 & L4 & M4); try done.
  { apply sender_lengths. }
  { split; [apply (fit_senders _ _ _ Hfit)|by apply Hcap]. }
  destruct (rows_written SEC_GRP_KEY_TABLE GroupKeyEntry_encode (sp_group_keys p) write_group_key_table d4)
    as (d5 & E5 & O5 & L5 & M5); try done; try (rewrite O4; done).
  { apply (key_lengths _ _ _ Hfit). }
  { rewrite O4, L4. split; [apply (fit_keys _ _ _ Hfit)|by apply (Hcap SEC_GRP_KEY_TABLE)]. }
  { rewrite L4. apply (key_rows_valid _ _ _ Hfit). }
  destruct (rows_written SEC_GO_FLAGS (fun b => [b]) (sp_go_flags p) write_go_security_flags d5)
    as (d6 & E6 & O6 & L6 & M6); try done; try (rewrite O5, O4; done).
  { by apply Forall_forall. }
  { unfold write_go_security_flags. by rewrite flat_single. }
  { rewrite O5, L5, O4, L4. split; [apply (fit_flags _ _ _ Hfit)|by apply (Hcap SEC_GO_FLAGS)]. }
  rewrite flat_single in O6.
  assert (Hload : so_load_state (sd_object d6) = SecLoading) by (rewrite O6, O5, O4; done).
  assert (E7 : security_transition LoadCompleted d6 = (Ok tt, answered_with (so_set_load_state SecLoaded (sd_object d6)) d6)).
  { apply (device_transition _ _ RC_SUCCESS _ Loaded); try done.
    change (LoadControl_encode_full LoadCompleted) with [2; 0; 0; 0; 0; 0; 0; 0; 0; 0]. cbn.
    by rewrite bool_decide_true. }
  destruct R3 as (_ & L3 & M3). unfold write_security_program. unfold mbind, Mgmt_op_bind. rewrite E1, E2.
  unfold clear_security_address_table at 1, of_request at 1.
  change PID_SECURITY_INDIVIDUAL_ADDRESS_TABLE with SEC_IA_TABLE. rewrite E3. cbn [map_err]. rewrite E4, E5, E6, E7.
  eexists. split; [reflexivity|]. split; [|cbn [answered_with sd_limits sd_max_apdu]; split; congruence].
  cbn [answered_with sd_object]. rewrite O6, O5, O4. done.
Qed.

(** ** The reads before anything is written *)

Lemma reached_served d : reached (sd_object d) d (answered_with (sd_object d) d).
Proof. done. Qed.

Lemma go_count_read fallback d : Z.of_nat (go_flag_elements (sd_object d) (sd_limits d)) < 65536 ->
  read_go_count fallback d
  = (Ok (Z.of_nat (go_flag_elements (sd_object d) (sd_limits d))), answered_with (sd_object d) d).
Proof.
  intros Hn. set (n := go_flag_elements _ _) in *.
  assert (Hv : read_value (secure_header SEC_GO_FLAGS) 1 0 (sd_limits d) (sd_object d) = Some (Some (be_bytes 2 (Z.of_nat n)))).
  { unfold read_value, secure_header. cbn [eh_pid]. change (is_security_object _) with true. cbn -[be_bytes go_flag_elements read_table].
    unfold read_table. cbn -[be_bytes go_flag_elements]. fold n. unfold as_u16. by rewrite Z.mod_small by lia. }
  unfold read_go_count, read_property_ext_element_count, mbind, Req_op_bind.
  change PID_GO_SECURITY_FLAGS with SEC_GO_FLAGS.
  rewrite (device_reads SEC_GO_FLAGS 1 0 d _ ltac:(unfold SEC_GO_FLAGS; lia) ltac:(unfold is_u16; lia) ltac:(lia) Hv).
  cbn [pev_data]. destruct (be_bytes_2_u16 (Z.of_nat n)) as (hi & lo & -> & _ & _ & Eu); [unfold is_u16; lia|].
  unfold mret, Req_op_ret. by rewrite Eu.
Qed.

Lemma device_describes pid d p index : 0 < pid < 4096 ->
  property_position pid 1 (security_properties (sd_limits d) (sd_object d)) = Some (index, p) -> pd_pid p = pid ->
  0 <= index < 4096 -> 0 <= pd_max_elements p < 4096 ->
  exists desc, read_property_ext_description (PropertyExtAddress_security pid) 0 d = (Ok desc, answered_with (sd_object d) d) /\
    pea_property_id (ped_addr desc) = pid /\ ped_max_elements desc = pd_max_elements p.
Proof.
  intros Hp Hpos Epid Hi Hm. assert (Hp' : 0 <= pid < 4096) by lia.
  unfold read_property_ext_description, mbind, Req_op_bind. cbn [l4_request device_requests].
  unfold security_answer. change (sim_apci_from_u10 A_PROPERTY_EXT_DESCRIPTION_READ) with SimPropertyExtDescriptionRead.
  cbn [SecurityObject_handle]. unfold on_description_read, encode_property_ext_description_read.
  rewrite security_header, drop_address by done. change (be_bytes 2 (Z.land 0 4095)) with [0; 0].
  change (is_security_object (secure_header pid)) with true. cbn [negb].
  change (eh_pid (secure_header pid)) with pid. rewrite (proj2 (Z.eqb_neq pid 0)) by lia. cbn [negb]. rewrite Hpos, Epid.
  change (MkExtHeader (eh_object_type (secure_header pid)) (eh_instance (secure_header pid)) pid) with (secure_header pid).
  cbn [mbind result_bind mret result_ret]. rewrite header_back by done.
  change (sim_apci_to_u10 SimPropertyExtDescriptionResponse =? A_PROPERTY_EXT_DESCRIPTION_RESPONSE) with true. cbn [negb].
  unfold decode_property_ext_description_response. rewrite decode_address by (by apply security_address_ok).
  cbn [mbind option_bind]. rewrite drop_address. rewrite (land_mask 12 4095) by (try done; lia). change (2 ^ 12) with 4096.
  rewrite Z.mod_small by lia.
  destruct (be_bytes_2_u16 (pd_max_elements p)) as (hi & lo & -> & _ & _ & Eu); [unfold is_u16; lia|].
  cbn [app ok_or]. eexists. split; [reflexivity|]. cbn [ped_addr ped_max_elements]. by rewrite Eu.
Qed.

Definition reported (capacity : u16) : option Capacity :=
  if 0 <? Z.min capacity 4095 then Some (MkCapacity (Z.min capacity 4095) "property description") else None.

Lemma slot_resolved pid slot capacity d : 
  (pid = SEC_GRP_KEY_TABLE /\ capacity = so_group_key_capacity (sd_object d)
   \/ pid = SEC_IA_TABLE /\ capacity = so_ia_capacity (sd_object d)) ->
  0 <= capacity ->
  exists d', resolve_slot pid slot d = (Ok (match slot with Some c => Some c | None => reported capacity end), d')
    /\ reached (sd_object d) d d'.
Proof.
  intros Hp Hc. destruct slot as [c|]; [by exists d|].
  assert (Hd : exists desc, read_property_ext_description (PropertyExtAddress_security pid) 0 d = (Ok desc, answered_with (sd_object d) d) /\
    pea_property_id (ped_addr desc) = pid /\ ped_max_elements desc = Z.min capacity 4095).
  { destruct Hp as [[-> ->]|[-> ->]].
    - destruct (device_describes SEC_GRP_KEY_TABLE d _ _ ltac:(unfold SEC_GRP_KEY_TABLE; lia) eq_refl eq_refl) as (desc & H);
        [lia|cbn; lia|by exists desc].
    - destruct (device_describes SEC_IA_TABLE d _ _ ltac:(unfold SEC_IA_TABLE; lia) eq_refl eq_refl) as (desc & H);
        [lia|cbn; lia|by exists desc]. }
  destruct Hd as (desc & E & Ep & Em). unfold resolve_slot, mbind, Req_op_bind, declined_as_none. rewrite E.
  rewrite Ep, Em, Z.eqb_refl. cbn [andb]. exists (answered_with (sd_object d) d). split; [done|apply reached_served].
Qed.

(** ** What the tables say *)

Lemma whole_rows_flat {A} (f : A -> bytes) n l fuel : (0 < n)%nat -> Forall (fun e => length (f e) = n) l ->
  (length l <= fuel)%nat -> whole_rows fuel n (flat_map f l) = map f l.
Proof.
  intros Hn Hl. revert fuel. induction Hl as [|e l He Hl IH]; intros fuel Hf.
  - destruct fuel as [|fuel]; [done|]. cbn [flat_map map whole_rows length]. by destruct (Nat.ltb_spec 0 n); [|lia].
  - destruct fuel as [|fuel]; [cbn in Hf; lia|]. cbn [flat_map map whole_rows].
    rewrite length_app, He. destruct (Nat.ltb_spec (n + length (flat_map f l)) n) as [|_]; [lia|].
    rewrite <- He, take_app_length, drop_app_length, He. f_equal. apply IH. cbn in Hf. lia.
Qed.

Lemma find_row_flat {A} (f : A -> bytes) (key : A -> Z) n l k : (0 < n)%nat -> Forall (fun e => length (f e) = n) l ->
  Forall (fun e => row_key (f e) = key e) l ->
  find_row n k (flat_map f l) = option_map f (List.find (fun e => key e =? k) l).
Proof.
  intros Hn Hl Hk. unfold find_row. rewrite whole_rows_flat; [|done|done|].
  - clear Hl. induction Hk as [|e l He Hk IH]; [done|]. cbn. rewrite He. destruct (key e =? k); [done|apply IH].
  - rewrite (flat_rows _ _ _ Hl). nia.
Qed.

Lemma row_key_encode v rest : is_u16 v -> row_key (be_bytes 2 v ++ rest) = v.
Proof. intros Hv. by destruct (be_bytes_2_u16 v Hv) as (hi & lo & -> & _ & _ & Eu). Qed.

Lemma keys_of_table limits o p index : program_fits limits o p ->
  group_key_for_address_index index (programmed p o)
  = option_map (fun e => Key16_bytes (gk_key e)) (List.find (fun e => gk_address_index e =? index) (sp_group_keys p)).
Proof.
  intros Hfit. unfold group_key_for_address_index. cbn [programmed so_group_keys so_set_load_state so_set_tables t_bytes].
  unfold group_key_table_bytes. rewrite (find_row_flat _ gk_address_index); [|unfold GRP_KEY_ROW; lia|by eapply key_lengths|].
  - destruct (List.find _ _) as [e|]; [|done]. cbn [option_map]. unfold GroupKeyEntry_encode.
    rewrite drop_app_ge by (rewrite length_be_bytes; lia). by rewrite length_be_bytes.
  - eapply Forall_impl; [apply (fit_entries _ _ _ Hfit)|]. intros e (_ & Hi & _). apply row_key_encode. unfold is_u16. lia.
Qed.

Lemma senders_of_table p o a :
  Forall (fun e => is_u16 (IndividualAddress_raw (se_address e)) /\ 0 <= se_sequence e) (sp_senders p) ->
  ia_table_sequence a (programmed p o)
  = option_map (fun e => Z.min (se_sequence e) MAX_SEQUENCE)
      (List.find (fun e => IndividualAddress_raw (se_address e) =? a) (sp_senders p)).
Proof.
  intros Hs. unfold ia_table_sequence. cbn [programmed so_ia_table so_set_load_state so_set_tables t_bytes].
  unfold sender_table_bytes.
  rewrite (find_row_flat _ (fun e => IndividualAddress_raw (se_address e))); [|unfold IA_ROW; lia|apply sender_lengths|].
  - destruct (List.find _ _) as [e|] eqn:Ef; [|done]. cbn [option_map]. unfold SecureSenderEntry_encode.
    rewrite drop_app_ge by (rewrite length_be_bytes; lia). rewrite length_be_bytes.
    change (2 - 2)%nat with 0%nat. rewrite drop_0, be_val_be_bytes. apply List.find_some in Ef as [Hin _]. rewrite List.Forall_forall in Hs. specialize (Hs e Hin).
    f_equal. apply Z.mod_small. change (256 ^ Z.of_nat 6) with 281474976710656. unfold MAX_SEQUENCE. lia.
  - eapply Forall_impl; [exact Hs|]. intros e [Ha _]. by apply row_key_encode.
Qed.

(** The entries of the keyed addresses, by their place in the table. *)
Lemma key_entries_above gas keys addresses : forall i entries, key_entries i addresses gas keys = Ok entries ->
  Z.of_nat (i + length addresses) < 65536 -> Forall (fun e => Z.of_nat i + 1 <= gk_address_index e <= Z.of_nat (i + length addresses)) entries.
Proof.
  induction addresses as [|ga addresses IH]; intros i entries E Hi; cbn [key_entries] in E.
  - apply Ok_inj in E as <-. constructor.
  - cbn [length] in Hi. destruct (keys !! _) as [key|].
    + destruct (key_entries (S i) addresses gas keys) as [rest|] eqn:Er; [|done]. apply Ok_inj in E as <-.
      constructor; [cbn; unfold as_u16; rewrite Z.mod_small by lia; lia|].
      eapply Forall_impl; [apply (IH _ _ Er); lia|]. cbn [length]. intros e ?. lia.
    + destruct (bool_decide _); [done|]. eapply Forall_impl; [apply (IH _ _ E); lia|]. cbn [length]. intros e ?. lia.
Qed.

Lemma key_entries_find gas keys addresses : forall i entries, key_entries i addresses gas keys = Ok entries ->
  Z.of_nat (i + length addresses) < 65536 -> forall k ga, addresses !! k = Some ga ->
  option_map gk_key (List.find (fun e => gk_address_index e =? Z.of_nat (i + k) + 1) entries) = keys !! GroupAddress_raw ga.
Proof.
  induction addresses as [|g addresses IH]; intros i entries E Hi k ga Hk; [by rewrite lookup_nil in Hk|].
  cbn [key_entries] in E. cbn [length] in Hi.
  assert (Habove : forall rest, key_entries (S i) addresses gas keys = Ok rest ->
            List.find (fun e => gk_address_index e =? Z.of_nat i + 1) rest = None).
  { intros rest Er. apply key_entries_above in Er; [|lia]. destruct (List.find _ rest) as [e|] eqn:Ef; [|done].
    apply List.find_some in Ef as [Hin Heq%Z.eqb_eq]. rewrite List.Forall_forall in Er. specialize (Er e Hin). lia. }
  destruct k as [|k]; cbn [lookup list_lookup] in Hk.
  - injection Hk as ->. rewrite Nat.add_0_r. destruct (keys !! GroupAddress_raw ga) as [key|].
    + destruct (key_entries (S i) addresses gas keys) as [rest|] eqn:Er; [|done]. apply Ok_inj in E as <-.
      cbn [List.find gk_address_index]. unfold as_u16. rewrite Z.mod_small by lia. by rewrite Z.eqb_refl.
    + destruct (bool_decide _); [done|]. by rewrite (Habove _ E).
  - replace (i + S k)%nat with (S i + k)%nat by lia. destruct (keys !! GroupAddress_raw g) as [key|].
    + destruct (key_entries (S i) addresses gas keys) as [rest|] eqn:Er; [|done]. apply Ok_inj in E as <-.
      cbn [List.find gk_address_index]. unfold as_u16. rewrite Z.mod_small by lia.
      rewrite (proj2 (Z.eqb_neq (Z.of_nat i + 1) _)) by lia. apply (IH _ _ Er); [lia|done].
    + destruct (bool_decide _); [done|]. apply (IH _ _ E); [lia|done].
Qed.

Lemma key_entries_keyed gas keys addresses : forall i entries, key_entries i addresses gas keys = Ok entries ->
  Forall (fun e => exists ga, keys !! GroupAddress_raw ga = Some (gk_key e)) entries.
Proof.
  induction addresses as [|ga addresses IH]; intros i entries E; cbn [key_entries] in E.
  - apply Ok_inj in E as <-. constructor.
  - destruct (keys !! _) as [key|] eqn:Ek.
    + destruct (key_entries (S i) addresses gas keys) as [rest|] eqn:Er; [|done]. apply Ok_inj in E as <-.
      constructor; [by exists ga|]. by eapply IH.
    + destruct (bool_decide _); [done|]. by eapply IH.
Qed.

Lemma key_entries_secured gas keys addresses : forall i entries, key_entries i addresses gas keys = Ok entries ->
  forall k ga, addresses !! k = Some ga -> GroupAddress_raw ga ∈ gas -> is_Some (keys !! GroupAddress_raw ga).
Proof.
  induction addresses as [|ga addresses IH]; intros i entries E k g Hk Hg; cbn [key_entries] in E; [done|].
  destruct (keys !! GroupAddress_raw ga) as [key|] eqn:Ek.
  - destruct (key_entries (S i) addresses gas keys) as [rest|] eqn:Er; [|done].
    destruct k as [|k]; [injection Hk as <-; by eexists|by eapply IH].
  - destruct (bool_decide_reflect (GroupAddress_raw ga ∈ gas)) as [|Hn]; [done|].
    destruct k as [|k]; [injection Hk as <-; done|by eapply IH].
Qed.

Lemma key_entries_length gas keys addresses : forall i entries, key_entries i addresses gas keys = Ok entries ->
  (length entries <= length addresses)%nat.
Proof.
  induction addresses as [|ga addresses IH]; intros i entries E; cbn [key_entries] in E.
  - by apply Ok_inj in E as <-.
  - destruct (keys !! _) as [key|].
    + destruct (key_entries (S i) addresses gas keys) as [rest|] eqn:Er; [|done]. apply Ok_inj in E as <-.
      apply IH in Er. cbn. lia.
    + destruct (bool_decide _); [done|]. apply IH in E. cbn. lia.
Qed.

Lemma flag_objects_spec count objects : Forall (fun n => 0 <= n) objects -> forall flags flags',
  flag_objects count objects flags = Ok flags' ->
  length flags' = length flags /\ Forall (fun n => 1 <= n <= Z.of_nat (length flags)) objects /\
  forall n, 1 <= n -> flags' !! (Z.to_nat n - 1)%nat
    = if decide (n ∈ objects) then Some GO_FLAGS_SECURE else flags !! (Z.to_nat n - 1)%nat.
Proof.
  induction 1 as [|object objects Hpos Hobjs IH]; intros flags flags' E; cbn [flag_objects] in E.
  - apply Ok_inj in E as <-. split; [done|]. split; [constructor|]. intros n _. by rewrite decide_False by apply not_elem_of_nil.
  - destruct (Z.eqb_spec object 0) as [|H0]; [done|]. destruct (Z.ltb_spec (Z.of_nat (length flags)) object) as [|Hl]; [done|].
    cbn [orb] in E. apply IH in E as (E1 & E2 & E3). rewrite length_insert in E1, E2. split; [done|].
    split; [constructor; [lia|done]|]. intros n Hn. rewrite E3 by done. destruct (decide (n ∈ objects)) as [Hin|Hin].
    + by rewrite decide_True by by right.
    + destruct (decide (n = object)) as [->|Hne].
      * rewrite decide_True by left. apply list_lookup_insert_eq. lia.
      * rewrite (decide_False (P := n ∈ object :: objects)) by (rewrite elem_of_cons; tauto).
        apply list_lookup_insert_ne. lia.
Qed.

(** ** All or nothing *)

(** A device and a download that fit each other: the address table is the one the
    device holds, and the product declares no more than the device has. *)
Record download_ok (addresses : list GroupAddress) (inputs : SecurityInputs) (d : SecureDevice) : Prop := MkDownloadOk {
  do_object : object_ok (sd_limits d) (sd_object d);
  do_capacity : 0 < so_group_key_capacity (sd_object d) /\ 0 < so_ia_capacity (sd_object d);
  do_product : (forall c, tc_group_keys (in_capacity inputs) = Some c -> ca_entries c <= so_group_key_capacity (sd_object d))
    /\ (forall c, tc_senders (in_capacity inputs) = Some c -> ca_entries c <= so_ia_capacity (sd_object d));
  do_addresses : Z.of_nat (length addresses) < 65536
    /\ forall n, sl_address_table_len (sd_limits d) = Some n -> Z.of_nat (length addresses) <= n;
  do_keys : map_Forall (fun _ => Key16_ok) (in_group_keys inputs);
  do_senders : Forall (fun e => is_u16 (IndividualAddress_raw (se_address e)) /\ 0 <= se_sequence e) (in_senders inputs);
  do_objects : forall n, n ∈ in_secure_objects inputs -> 0 <= n }.

Definition bounded (capacity : u16) (slot : option Capacity) : Prop := exists c, slot = Some c /\ ca_entries c <= capacity.

Lemma bounded_check table n capacity slot : bounded capacity slot -> check_table table n slot = Ok tt -> Z.of_nat n <= capacity.
Proof.
  intros (c & -> & Hc). unfold check_table. destruct (Z.ltb_spec (ca_entries c) (Z.of_nat n)); [done|]. lia.
Qed.

Lemma bounded_slot slot capacity : 0 < capacity -> (forall c, slot = Some c -> ca_entries c <= capacity) ->
  bounded capacity (match slot with Some c => Some c | None => reported capacity end).
Proof.
  intros Hc Hs. destruct slot as [c|]; [exists c; auto|]. unfold reported.
  rewrite (proj2 (Z.ltb_lt _ _)) by lia. eexists. split; [done|]. cbn. lia.
Qed.

Lemma capacity_resolved addresses inputs d : download_ok addresses inputs d -> forall d1, reached (sd_object d) d d1 ->
  exists c d2,
    (if TableCapacity_is_complete (in_capacity inputs) then mret (in_capacity inputs)
     else of_request (resolve_table_capacity (in_capacity inputs))) d1 = (Ok c, d2) /\ reached (sd_object d) d d2 /\
    bounded (so_group_key_capacity (sd_object d)) (tc_group_keys c) /\ bounded (so_ia_capacity (sd_object d)) (tc_senders c).
Proof.
  intros [_ [Hk Hi] [Pk Pi] _ _ _ _] d1 R1. destruct (in_capacity inputs) as [ks is_]. cbn [tc_group_keys tc_senders] in *.
  unfold TableCapacity_is_complete. cbn [tc_group_keys tc_senders].
  pose proof (bounded_slot ks _ Hk Pk) as Bk. pose proof (bounded_slot is_ _ Hi Pi) as Bi.
  destruct (bool_decide (is_Some ks) && bool_decide (is_Some is_)) eqn:Ec.
  - apply andb_true_iff in Ec as [[c Ek]%bool_decide_eq_true [c' Ei]%bool_decide_eq_true]. subst.
    by exists (MkTableCapacity (Some c) (Some c')), d1.
  - destruct R1 as (O1 & L1 & M1).
    destruct (slot_resolved SEC_GRP_KEY_TABLE ks (so_group_key_capacity (sd_object d)) d1) as (d2 & E2 & R2);
      [left; by rewrite O1|lia|].
    destruct (slot_resolved SEC_IA_TABLE is_ (so_ia_capacity (sd_object d)) d2) as (d3 & E3 & R3);
      [right; by rewrite (proj1 R2), O1|lia|].
    eexists _, d3. unfold of_request, resolve_table_capacity, mbind, Req_op_bind.
    change PID_GRP_KEY_TABLE with SEC_GRP_KEY_TABLE. change PID_SECURITY_INDIVIDUAL_ADDRESS_TABLE with SEC_IA_TABLE.
    cbn [tc_group_keys tc_senders]. rewrite E2, E3. split; [reflexivity|].
    destruct R2 as (O2 & L2 & M2), R3 as (O3 & L3 & M3).
    split; [repeat split; congruence|]. done.
Qed.

Lemma ascending_elements s n : n ∈ ascending_set s <-> n ∈ s.
Proof. unfold ascending_set. rewrite merge_sort_Permutation. apply elem_of_elements. Qed.

Lemma go_elements_bound limits o : object_ok limits o ->
  Z.of_nat (go_flag_elements o limits) <= capacity_of SEC_GO_FLAGS limits o < 65536.
Proof.
  intros [_ _ Hsize Hcount Hcap]. pose proof (Hcap SEC_GO_FLAGS eq_refl) as Hb. unfold go_flag_elements, Table_count.
  rewrite Hsize. unfold GO_FLAG. rewrite Nat.div_1_r. unfold capacity_of in *. cbn in *.
  destruct (sl_group_objects limits) as [n|]; cbn in *; [lia|]. unfold FALLBACK_MAX_GROUP_OBJECTS in *. lia.
Qed.

(** What the checks before the [Unload] establish. *)
Lemma prepared addresses inputs d : download_ok addresses inputs d ->
  exists r d1, prepare_security_program addresses inputs d = (r, d1) /\ reached (sd_object d) d d1 /\
    forall p, r = Ok p ->
      program_fits (sd_limits d) (sd_object d) p /\ sp_senders p = in_senders inputs /\
      key_entries 0 addresses (in_secure_gas inputs) (in_group_keys inputs) = Ok (sp_group_keys p) /\
      length (sp_go_flags p) = go_flag_elements (sd_object d) (sd_limits d) /\
      exists count, flag_objects count (ascending_set (in_secure_objects inputs))
        (replicate (length (sp_go_flags p)) 0) = Ok (sp_go_flags p).
Proof.
  intros Hok. pose proof Hok as [Hobj _ _ [Hlen Hlimit] Hkeys Hsend Hobjects].
  pose proof (go_elements_bound _ _ Hobj) as Hgo. set (n := go_flag_elements (sd_object d) (sd_limits d)) in *.
  unfold prepare_security_program, mbind at 1, Mgmt_op_bind at 1. rewrite go_count_read by (fold n; lia). fold n.
  set (d1 := answered_with _ d). assert (R1 : reached (sd_object d) d d1) by done. clearbody d1.
  unfold mbind at 1, Mgmt_op_bind at 1, plan_error at 1.
  destruct (build_security_program _ _ _ _ _) as [built|e] eqn:Eb; cbn [map_err]; [|by eexists _, d1].
  destruct (capacity_resolved _ _ _ Hok d1 R1) as (c & d2 & E2 & R2 & Bk & Bs).
  unfold mbind at 1, Mgmt_op_bind at 1. rewrite E2. unfold mbind, Mgmt_op_bind, plan_error.
  destruct (TableCapacity_check _ c) as [[]|] eqn:Ec; cbn [map_err]; [|by eexists _, d2].
  eexists _, d2. split; [done|]. split; [done|]. intros p [= <-]. cbn [sp_senders sp_group_keys sp_go_flags].
  unfold build_security_program in Eb. destruct (key_entries _ _ _ _) as [entries|] eqn:Ek; [|done]. cbn in Eb.
  destruct (flag_objects _ _ _) as [flags|] eqn:Ef; [|done]. apply Ok_inj in Eb as <-. cbn [sp_group_keys sp_go_flags] in *.
  rewrite Nat2Z.id in Ef.
  assert (Hflags : length flags = n).
  { apply flag_objects_spec in Ef as (Hl & _); [by rewrite length_replicate in Hl|]. apply Forall_forall.
    intros x Hx%ascending_elements. by apply Hobjects. }
  unfold TableCapacity_check, TableCapacity_check_counts in Ec. cbn [sp_group_keys sp_senders] in Ec.
  destruct (check_table GROUP_KEY_TABLE _ _) as [[]|] eqn:Ec1; [|done]. cbn in Ec.
  apply (bounded_check _ _ _ _ Bk) in Ec1. apply (bounded_check _ _ _ _ Bs) in Ec.
  pose proof (key_entries_above _ _ _ _ _ Ek Hlen) as Habove.
  pose proof (key_entries_length _ _ _ _ _ Ek) as Hcount.
  split; [constructor; cbn [sp_group_keys sp_senders sp_go_flags]|].
  - unfold capacity_of. cbn. destruct (sl_address_table_len (sd_limits d)) as [m|]; [specialize (Hlimit m eq_refl); lia|lia].
  - exact Ec.
  - rewrite Hflags. lia.
  - apply Forall_forall. intros e He. rewrite Forall_forall in Habove. specialize (Habove e He).
    pose proof (key_entries_keyed _ _ _ _ _ Ek) as Hkeyed. rewrite Forall_forall in Hkeyed.
    destruct (Hkeyed e He) as (ga & Hga). split; [by apply (Hkeys _ _ Hga)|]. split; [lia|].
    intros len Hlim. specialize (Hlimit len Hlim). lia.
  - split; [done|]. split; [done|]. rewrite Hflags. split; [done|]. by eexists.
Qed.

(** C12: Programming the security object of a device either fails with the object as
    it was, or leaves the object loaded with the key of every keyed address under its
    place in the address table and none under the others, every sender with its
    sequence, and exactly the secured objects flagged; it never stops in between.
    It succeeds only when every address of the table that must be secured has a key
    and every secured object is one of the flagged ones: a missing key or an object
    out of range is refused before anything is unloaded. *)
Theorem security_object_all_or_nothing addresses inputs d : download_ok addresses inputs d ->
  match program_security_object addresses inputs d with
  | (Ok p, d') =>
      so_load_state (sd_object d') = SecLoaded /\
      (forall i ga, addresses !! i = Some ga ->
         group_key_for_address_index (Z.of_nat i + 1) (sd_object d')
         = option_map Key16_bytes (in_group_keys inputs !! GroupAddress_raw ga)) /\
      (forall a, ia_table_sequence a (sd_object d')
         = option_map (fun e => Z.min (se_sequence e) MAX_SEQUENCE)
             (List.find (fun e => IndividualAddress_raw (se_address e) =? a) (in_senders inputs))) /\
      (forall n, 1 <= n <= Z.of_nat (length (sp_go_flags p)) ->
         SecurityObject_go_flag n (sd_object d')
         = Some (if decide (n ∈ in_secure_objects inputs) then GO_FLAGS_SECURE else GO_FLAGS_PLAIN)) /\
      (forall n, n ∈ in_secure_objects inputs -> 1 <= n <= Z.of_nat (length (sp_go_flags p))) /\
      (forall i ga, addresses !! i = Some ga -> GroupAddress_raw ga ∈ in_secure_gas inputs ->
         is_Some (in_group_keys inputs !! GroupAddress_raw ga))
  | (Err _, d') => sd_object d' = sd_object d
  end.
Proof.
  intros Hok. destruct (prepared _ _ _ Hok) as (r & d1 & E1 & (O1 & L1 & M1) & Hp).
  unfold program_security_object, mbind, Mgmt_op_bind. rewrite E1. destruct r as [p|e]; [|done].
  destruct (Hp p eq_refl) as (Hfit & Hsend & Hkeys & _ & count & Hflags).
  destruct (program_written p d1) as (d2 & -> & O2 & _ & _); [rewrite O1, L1; apply Hok|by rewrite O1, L1|].
  unfold mret, Mgmt_op_ret. rewrite O2, O1.
  assert (Hpos : Forall (fun n => 0 <= n) (ascending_set (in_secure_objects inputs))).
  { apply Forall_forall. intros n Hn%ascending_elements. by apply (do_objects _ _ _ Hok). }
  split; [done|]. split; [|split; [|split; [|split]]].
  - intros i ga Hi. rewrite (keys_of_table _ _ _ _ Hfit).
    rewrite <- (key_entries_find _ _ _ _ _ Hkeys ltac:(apply Hok) i ga Hi), Nat.add_0_l. by destruct (List.find _ _).
  - intros a. rewrite senders_of_table, Hsend by (rewrite Hsend; apply Hok). done.
  - intros n Hn. destruct (flag_objects_spec _ _ Hpos _ _ Hflags) as (_ & _ & Hf). unfold SecurityObject_go_flag.
    rewrite (proj2 (Z.eqb_neq n 0)) by lia. cbn [programmed so_go_flags so_set_load_state so_set_tables t_bytes].
    rewrite Hf by lia. destruct (decide (n ∈ in_secure_objects inputs)) as [Hin|Hin].
    + by rewrite decide_True by by apply ascending_elements.
    + rewrite decide_False by (by rewrite ascending_elements). by rewrite lookup_replicate_2 by lia.
  - intros n Hn. destruct (flag_objects_spec _ _ Hpos _ _ Hflags) as (_ & Hin & _). rewrite length_replicate in Hin.
    rewrite Forall_forall in Hin. apply Hin. by apply ascending_elements.
  - exact (key_entries_secured _ _ _ _ _ Hkeys).
Qed.

(** ** Reading the tables back *)

(** The elements of a table that is stored whole, and how the device answers them. *)
Lemma table_answers octets elem elements count start : (0 < elem)%nat -> length octets = (elements * elem)%nat ->
  0 < count -> 1 <= start -> start + count - 1 <= Z.of_nat elements ->
  read_table count start octets elem elements
  = Some (Some (take (Z.to_nat count * elem) (drop ((Z.to_nat start - 1) * elem) octets))).
Proof.
  intros He Hl Hc Hs Hend. unfold read_table. rewrite (proj2 (Z.eqb_neq start 0)) by lia.
  rewrite (proj2 (Z.ltb_ge _ _)) by lia. rewrite Hl.
  assert (Ha : ((Z.to_nat start - 1) * elem + Z.to_nat count * elem <= elements * elem)%nat) by nia.
  destruct (Nat.ltb_spec (elements * elem) ((Z.to_nat start - 1) * elem)) as [|_]; [lia|].
  rewrite Nat.min_r by lia. rewrite Nat.sub_diag. cbn [replicate]. rewrite app_nil_r. unfold slice.
  by replace ((Z.to_nat start - 1) * elem + Z.to_nat count * elem - (Z.to_nat start - 1) * elem)%nat with (Z.to_nat count * elem)%nat by lia.
Qed.

Definition answers_table (pid : u16) (elem elements : nat) (octets : bytes) (o : SecurityObject) (limits : SecurityLimits) : Prop :=
  forall count start, 0 < count < 256 -> 0 <= start ->
    read_value (secure_header pid) count start limits o = read_table count start octets elem elements.

Lemma table_loop_reads pid elem elements octets o limits : 0 <= pid < 4096 -> (0 < elem)%nat ->
  length octets = (elements * elem)%nat -> Z.of_nat elements < 65536 -> answers_table pid elem elements octets o limits ->
  forall fuel chunk next out d, (Z.to_nat (Z.of_nat elements + 1 - next) < fuel)%nat -> 1 <= next <= Z.of_nat elements + 1 ->
  sd_object d = o -> sd_limits d = limits ->
  exists d', read_table_loop fuel (PropertyExtAddress_security pid) elem (Z.of_nat elements) chunk next out d
    = (Ok (out ++ drop ((Z.to_nat next - 1) * elem) octets), d') /\ reached o d d'.
Proof.
  intros Hp He Hl Hn Hans. induction fuel as [|fuel IH]; intros chunk next out d Hf Hnext Ho Hlim; [lia|].
  cbn [read_table_loop]. destruct (Z.ltb_spec (Z.of_nat elements) next) as [Hlast|Hmore].
  - exists d. split; [|by rewrite <- Ho]. f_equal. f_equal. rewrite drop_ge, app_nil_r; [done|]. rewrite Hl.
    replace (Z.to_nat next - 1)%nat with elements by lia. lia.
  - set (want := Nat.min (Nat.max (Nat.min chunk (Z.to_nat (Z.of_nat elements - next) + 1)) 1) 255).
    assert (Hw : (1 <= want <= 255)%nat /\ next + Z.of_nat want - 1 <= Z.of_nat elements) by lia. clearbody want.
    rewrite (device_reads pid (Z.of_nat want) next d (take (want * elem) (drop ((Z.to_nat next - 1) * elem) octets)));
      [|done|unfold is_u16; lia|lia|].
    2: { rewrite Ho, Hlim, Hans by lia. rewrite (table_answers _ _ elements) by (try done; lia). by rewrite Nat2Z.id. }
    cbn [pev_count pev_data]. rewrite Nat2Z.id, Nat.min_id, length_take, length_drop, Hl.
    assert (Hroom : ((Z.to_nat next - 1) * elem + want * elem <= elements * elem)%nat) by nia.
    rewrite (proj2 (Nat.eqb_neq want 0)) by lia. rewrite Nat.min_l by lia.
    rewrite (proj2 (Nat.ltb_ge _ _)) by lia. cbn [orb].
    destruct (IH chunk (next + Z.of_nat want) (out ++ take (want * elem) (take (want * elem) (drop ((Z.to_nat next - 1) * elem) octets)))
                (answered_with (sd_object d) d)) as (d' & -> & O' & L' & M'); [lia|lia|done|done|].
    exists d'. split; [|done]. f_equal. f_equal. rewrite <- (assoc_L app). f_equal. rewrite take_take, Nat.min_id.
    replace ((Z.to_nat (next + Z.of_nat want) - 1) * elem)%nat with ((Z.to_nat next - 1) * elem + want * elem)%nat by nia.
    by rewrite <- drop_drop, take_drop.
Qed.

Lemma table_reads pid elem elements octets d : 0 <= pid < 4096 -> (0 < elem)%nat ->
  length octets = (elements * elem)%nat -> Z.of_nat elements < 65536 ->
  answers_table pid elem elements octets (sd_object d) (sd_limits d) ->
  exists d', read_tolerant pid elem d = (Ok (Some octets), d') /\ reached (sd_object d) d d'.
Proof.
  intros Hp He Hl Hn Hans. unfold read_tolerant, read_property_ext_table, read_property_ext_element_count, mbind, Req_op_bind.
  assert (Hc : read_value (secure_header pid) 1 0 (sd_limits d) (sd_object d) = Some (Some (be_bytes 2 (Z.of_nat elements)))).
  { rewrite Hans by lia. unfold read_table. cbn -[be_bytes]. unfold as_u16. by rewrite Z.mod_small by lia. }
  rewrite (device_reads pid 1 0 d _ Hp ltac:(unfold is_u16; lia) ltac:(lia) Hc). cbn [pev_data].
  destruct (be_bytes_2_u16 (Z.of_nat elements)) as (hi & lo & -> & _ & _ & Eu); [unfold is_u16; lia|].
  unfold mret, Req_op_ret, of_conn. rewrite Eu, Nat.max_l by lia.
  destruct (table_loop_reads pid elem elements octets (sd_object d) (sd_limits d) Hp He Hl Hn Hans
    (read_table_fuel (Z.of_nat elements)) (max_read_elements (answered_with (sd_object d) d) elem) 1 [] (answered_with (sd_object d) d))
    as (d' & -> & R); [unfold read_table_fuel; lia|lia|done|done|].
  exists d'. done.
Qed.

Definition clamped (e : SecureSenderEntry) : SecureSenderEntry :=
  MkSecureSenderEntry (se_address e) (Z.min (se_sequence e) MAX_SEQUENCE).

Lemma decode_sender_row e rest : is_u16 (IndividualAddress_raw (se_address e)) -> 0 <= se_sequence e ->
  SecureSenderEntry_decode (SecureSenderEntry_encode e ++ rest) = Some (clamped e).
Proof.
  intros Ha Hs. unfold SecureSenderEntry_decode, SecureSenderEntry_encode.
  destruct (be_bytes_2_u16 _ Ha) as (hi & lo & -> & _ & _ & Eu). rewrite <- !(assoc_L app).
  set (seq := be_bytes 6 _). assert (Hl : length seq = 6%nat) by apply length_be_bytes.
  rewrite (proj2 (Nat.ltb_ge _ _)) by (rewrite !length_app, Hl; cbn; unfold SecureSenderEntry_LEN; lia).
  cbn [app]. rewrite <- Hl, take_app_length. unfold seq. rewrite be_val_be_bytes, Eu.
  unfold clamped. destruct e as [[raw] s]. cbn in *. do 2 f_equal. apply Z.mod_small.
  change (256 ^ Z.of_nat 6) with 281474976710656. unfold MAX_SEQUENCE. lia.
Qed.

Lemma decode_sender_bytes entries :
  Forall (fun e => is_u16 (IndividualAddress_raw (se_address e)) /\ 0 <= se_sequence e) entries ->
  decode_sender_table (sender_table_bytes entries)
  = List.filter (fun e => negb (IndividualAddress_raw (se_address e) =? 0)) (map clamped entries).
Proof.
  intros Hs. unfold decode_sender_table. assert (Hfuel : (length entries <= length (sender_table_bytes entries))%nat).
  { unfold sender_table_bytes. rewrite (flat_rows _ _ _ (sender_lengths entries)). unfold IA_ROW. lia. }
  revert Hfuel. generalize (length (sender_table_bytes entries)) as fuel.
  induction Hs as [|e entries [Ha Hq] Hs IH]; intros fuel Hf.
  - by destruct fuel.
  - destruct fuel as [|fuel]; [cbn in Hf; lia|]. cbn [sender_table_bytes flat_map sender_rows].
    rewrite decode_sender_row by done. cbn [clamped se_address map List.filter].
    assert (Hd : drop SecureSenderEntry_LEN (SecureSenderEntry_encode e ++ sender_table_bytes entries) = sender_table_bytes entries).
    { change SecureSenderEntry_LEN with IA_ROW. rewrite <- (Forall_inv (sender_lengths [e])). apply drop_app_length. }
    unfold sender_table_bytes in Hd. rewrite Hd. fold (sender_table_bytes entries). rewrite IH by (cbn in Hf; lia).
    by destruct (IndividualAddress_raw (se_address e) =? 0).
Qed.

(** What a successful programming of the security object wrote is what the
    read-back of the plan finds: the flags exactly, and the senders with their
    clamped sequences, without an entry of address 0.0.0; the reads change nothing. *)
Theorem security_tables_read_back addresses inputs d p d' : download_ok addresses inputs d ->
  program_security_object addresses inputs d = (Ok p, d') ->
  exists d'', read_security_object d' = (Ok (MkReadback (Some (sp_go_flags p))
      (Some (List.filter (fun e => negb (IndividualAddress_raw (se_address e) =? 0)) (map clamped (in_senders inputs))))), d'')
    /\ sd_object d'' = sd_object d'.
Proof.
  intros Hok Hrun. destruct (prepared _ _ _ Hok) as (r & d1 & E1 & (O1 & L1 & M1) & Hp).
  unfold program_security_object, mbind, Mgmt_op_bind in Hrun. rewrite E1 in Hrun. destruct r as [p0|e]; [|done].
  destruct (Hp p0 eq_refl) as (Hfit & Hsend & _ & Hcount & _).
  destruct (program_written p0 d1) as (d2 & E2 & O2 & L2 & _); [rewrite O1, L1; apply Hok|by rewrite O1, L1|].
  rewrite E2 in Hrun. apply pair_equal_spec in Hrun as [Ep Ed]. apply Ok_inj in Ep. subst p0 d2.
  pose proof (go_elements_bound _ _ (do_object _ _ _ Hok)) as Hgo.
  pose proof (ok_capacity _ _ (do_object _ _ _ Hok) SEC_IA_TABLE eq_refl) as Hia.
  pose proof (fit_senders _ _ _ Hfit) as Hfs.
  assert (Hflags : go_flag_elements (sd_object d') (sd_limits d') = length (sp_go_flags p)).
  { pose proof (ok_flags _ _ (do_object _ _ _ Hok)) as Hsize. rewrite L2, L1, O2. unfold go_flag_elements, Table_count in *.
    rewrite Hsize in *. cbn [programmed so_go_flags so_set_load_state so_set_tables t_bytes t_elem_size].
    unfold GO_FLAG in *. rewrite !Nat.div_1_r in *. destruct (sl_group_objects (sd_limits d)); lia. }
  destruct (table_reads SEC_GO_FLAGS GO_FLAG (length (sp_go_flags p)) (sp_go_flags p) d') as (d3 & E3 & O3 & L3 & M3).
  { unfold SEC_GO_FLAGS. lia. } { unfold GO_FLAG. lia. } { unfold GO_FLAG. lia. } { lia. }
  { intros count start Hc Hs. unfold read_value, secure_header. cbn [eh_pid].
    change (is_security_object _) with true. rewrite (proj2 (Z.eqb_neq count 0)) by lia. cbn -[read_table go_flag_elements].
    rewrite Hflags, O2. done. }
  destruct (table_reads SEC_IA_TABLE IA_ROW (length (sp_senders p)) (sender_table_bytes (sp_senders p)) d3) as (d4 & E4 & O4 & _ & _).
  { unfold SEC_IA_TABLE. lia. } { unfold IA_ROW. lia. }
  { unfold sender_table_bytes. by rewrite (flat_rows _ _ _ (sender_lengths _)). } { lia. }
  { intros count start Hc Hs. unfold read_value, secure_header. cbn [eh_pid].
    change (is_security_object _) with true. rewrite (proj2 (Z.eqb_neq count 0)) by lia. cbn -[read_table Table_count].
    rewrite O3, O2. cbn [programmed so_ia_table so_set_load_state so_set_tables t_bytes].
    rewrite (table_count_full IA_ROW _ (length (sp_senders p))); [done|unfold IA_ROW; lia|].
    unfold sender_table_bytes. by rewrite (flat_rows _ _ _ (sender_lengths _)). }
  exists d4. split; [|congruence]. unfold read_security_object, read_security_flags, read_security_sender_table.
  unfold mbind, Req_op_bind. change PID_GO_SECURITY_FLAGS with SEC_GO_FLAGS.
  change PID_SECURITY_INDIVIDUAL_ADDRESS_TABLE with SEC_IA_TABLE. change SecureSenderEntry_LEN with IA_ROW.
  change 1%nat with GO_FLAG at 1. rewrite E3, E4. cbn [option_map].
  rewrite decode_sender_bytes, Hsend by (rewrite Hsend; apply Hok). done.
Qed.

(** ** On a device *)

Definition demo_key (b : u8) : Key16 := Key16_new (replicate 16 b).

Definition demo_secure_object_device : SecureDevice :=
  MkSecureDevice SecurityObject_new_activated (MkLimits (Some 12) (Some 3)) 32 0.

Definition demo_group_addresses : list GroupAddress := map GroupAddress_from_raw [2305; 2306; 2310].

Definition demo_inputs : SecurityInputs :=
  MkInputs {[ 2; 5 ]} {[ 2310 ]} (<[ 2305 := demo_key 17 ]> (<[ 2310 := demo_key 34 ]> ∅))
    [MkSecureSenderEntry (IndividualAddress_from_raw 4357) 275149400526;
     MkSecureSenderEntry (IndividualAddress_from_raw 4368) 0;
     MkSecureSenderEntry (IndividualAddress_from_raw 4373) 281474976710660] 12 []
    (MkTableCapacity (Some (MkCapacity 3 "product data")) None).

Lemma demo_download_ok : download_ok demo_group_addresses demo_inputs demo_secure_object_device.
Proof.
  constructor.
  - constructor; try done. intros pid [->|[->| ->]]%table_pid; vm_compute; split; congruence.
  - done.
  - split; intros c; [intros [= <-]; vm_compute; congruence|done].
  - split; [done|]. intros n [= <-]. vm_compute. congruence.
  - intros k key. cbn. rewrite !lookup_insert_Some, lookup_empty.
    intros [[_ <-]|[_ [[_ <-]|[_ H]]]]; [done..|discriminate H].
  - repeat constructor; cbn; unfold is_u16; lia.
  - intros n. unfold demo_inputs. cbn. set_solver by lia.
Qed.

(** The device answers every request it is asked, each with few rows, and ends as
    programmed; without the key of a secured address nothing is touched. *)
Lemma security_object_all_or_nothing_witness :
  (exists p d', program_security_object demo_group_addresses demo_inputs demo_secure_object_device = (Ok p, d') /\
     sd_exchanges d' = 11 /\
     so_load_state (sd_object d') = SecLoaded /\
     group_key_for_address_index 1 (sd_object d') = Some (replicate 16 17) /\
     group_key_for_address_index 2 (sd_object d') = None /\
     ia_table_sequence 4357 (sd_object d') = Some 275149400526 /\
     SecurityObject_go_flag 5 (sd_object d') = Some 3 /\ SecurityObject_go_flag 6 (sd_object d') = Some 0)
  /\ fst (program_security_object demo_group_addresses
            (MkInputs ∅ {[ 2306 ]} ∅ [] 12 [] (MkTableCapacity None None)) demo_secure_object_device)
     = Err (SecurityProgram "plan").
Proof.
  split; [|vm_compute; reflexivity].
  pose proof (security_object_all_or_nothing _ _ _ demo_download_ok) as H.
  destruct (program_security_object demo_group_addresses demo_inputs demo_secure_object_device) as [r d'] eqn:E.
  assert (Er : is_ok r = true /\ sd_exchanges d' = 11).
  { assert (Er : is_ok (fst (r, d')) = true /\ sd_exchanges (snd (r, d')) = 11); [|done].
    rewrite <- E. vm_compute. done. }
  destruct r as [p|e]; [|destruct Er; discriminate]. exists p, d'. destruct H as (Hl & Hk & Hs & Hf & Ho & _).
  assert (Hlen : length (sp_go_flags p) = 12%nat).
  { assert (Hp : fst (Ok p, d') = Ok (E := WriteError) p) by done. rewrite <- E in Hp. vm_compute in Hp.
    apply Ok_inj in Hp as <-. done. }
  split; [done|]. split; [apply Er|]. split; [done|].
  split; [exact (Hk 0%nat (GroupAddress_from_raw 2305) eq_refl)|].
  split; [exact (Hk 1%nat (GroupAddress_from_raw 2306) eq_refl)|].
  split; [exact (Hs 4357)|].
  split; [apply (Hf 5); rewrite Hlen; lia|apply (Hf 6); rewrite Hlen; lia].
Defined.

Lemma security_tables_read_back_witness :
  exists p d' d'', program_security_object demo_group_addresses demo_inputs demo_secure_object_device = (Ok p, d') /\
    read_security_object d' = (Ok (MkReadback (Some [0; 3; 0; 0; 3; 0; 0; 0; 0; 0; 0; 0])
      (Some [MkSecureSenderEntry (IndividualAddress_from_raw 4357) 275149400526;
             MkSecureSenderEntry (IndividualAddress_from_raw 4368) 0;
             MkSecureSenderEntry (IndividualAddress_from_raw 4373) 281474976710655])), d'').
Proof.
  destruct (program_security_object demo_group_addresses demo_inputs demo_secure_object_device) as [r d'] eqn:E.
  destruct r as [p|e].
  - destruct (security_tables_read_back _ _ _ _ _ demo_download_ok E) as (d'' & Hr & _).
    exists p, d', d''. split; [done|]. rewrite Hr. do 2 f_equal.
    assert (Hp : fst (Ok p, d') = Ok (E := WriteError) p) by done. rewrite <- E in Hp. vm_compute in Hp.
    apply Ok_inj in Hp as <-. done.
  - exfalso. assert (He : is_ok (fst (Err (A := SecurityProgramData) e, d')) = true); [|done]. rewrite <- E. vm_compute. done.
Defined.

(** The flags of a device that no download has written: the simulator takes a slice
    past the octets it stores as soon as a read does not start at the first
    element, which a client does that cannot read all the flags at once. *)
Lemma unwritten_flags_panic :
  read_value (secure_header SEC_GO_FLAGS) 1 2 (MkLimits (Some 2) None) SecurityObject_new_activated = None
  /\ fst (read_security_flags (MkSecureDevice SecurityObject_new_activated (MkLimits (Some 300) None) 254 0)) = Err NoResponse.
Proof. split; vm_compute; reflexivity. Qed.
