(* ===== verification/FlashRegions.v ===== *)
(** * The regions a download writes ([bussard-download/src/flash/execute.rs])

    Which octets of a segment image a write step streams: the runs that differ
    from what the device holds ([diff_regions]) or from the fill of a fresh
    segment ([fill_regions]), joined over short gaps where that saves telegrams
    ([merge_runs]); and that writing only these leaves the memory that writing
    everything would leave.  Offsets are indices of lists ([usize] as [nat]). *)

From S2P Require Import Prelude Apci Connection ClientMemory.

Local Open Scope nat_scope.

(** A half-open range [start, end). *)
Abbreviation Region := (nat * nat)%type.

(** [usize::div_ceil]. *)
Definition div_ceil (a b : nat) : nat := (a + (b - 1)) / b.

Section Regions.
  Variable chunk : nat -> nat -> nat.

Definition requests_for (start len : nat) : nat := div_ceil len (Nat.max (chunk start len) 1).

(** One turn of the loop of [merge_runs]; the vector is kept last run first. *)
Definition merge_turn (max_gap : nat) (gap_ok : nat -> nat -> bool) (merged : list Region) (run : Region)
    : list Region :=
  let '(start, end_) := run in
  match merged with
  | (m_start, prev_end) :: before =>
      let apart := requests_for m_start (prev_end - m_start) + requests_for start (end_ - start) in
      let joined := requests_for m_start (end_ - m_start) in
      if (start - prev_end <=? max_gap) && gap_ok prev_end start && (joined <? apart)
      then (m_start, end_) :: before
      else run :: merged
  | [] => [run]
  end.

Definition merge_runs (runs : list Region) (max_gap : nat) (gap_ok : nat -> nat -> bool) : list Region :=
  rev (foldl (merge_turn max_gap gap_ok) [] runs).

(** The inner loop of [differing_runs]: the end of the run that [i] is in. *)
Fixpoint run_end (fuel : nat) (len : nat) (differs : nat -> bool) (i : nat) : nat :=
  match fuel with
  | O => i
  | S fuel => if (i <? len) && differs i then run_end fuel len differs (S i) else i
  end.

(** The outer loop; every turn moves [i], so [len] turns are enough
    ([differing_runs_spec]). *)
Fixpoint differing_from (fuel : nat) (len : nat) (differs : nat -> bool) (i : nat) : list Region :=
  match fuel with
  | O => []
  | S fuel =>
      if negb (i <? len) then [] else
      if negb (differs i) then differing_from fuel len differs (S i) else
      let end_ := run_end (len - i) len differs i in
      (i, end_) :: differing_from fuel len differs end_
  end.

Definition differing_runs (len : nat) (differs : nat -> bool) : list Region :=
  differing_from len len differs 0.

(** [&image[start..end]] of a region. *)
Definition region_octets (image : bytes) (r : Region) : bytes := slice (fst r) (snd r) image.

Definition fill_regions (image : bytes) (fill : u8) (max_gap : nat) : list (nat * bytes) :=
  let runs := differing_runs (length image) (fun i => negb (bool_decide (image !! i = Some fill))) in
  map (fun r => (fst r, region_octets image r)) (merge_runs runs max_gap (fun _ _ => true)).

(** Whether the octet may be written under a mask. *)
Definition writable (mask : option bytes) (i : nat) : bool :=
  match mask with
  | Some m => bool_decide (m !! i = Some 255%Z)
  | None => true
  end.

Definition diff_regions (image current : bytes) (mask : option bytes) (max_gap : nat) : list Region :=
  let differs i := writable mask i && negb (bool_decide (current !! i = image !! i)) in
  let runs := differing_runs (length image) differs in
  merge_runs runs max_gap (fun end_ start => forallb (writable mask) (seq end_ (start - end_))).

(** ** Runs *)

(** Runs in ascending order, disjoint and not empty, from [lo] on. *)
Fixpoint ascending (lo : nat) (runs : list Region) : Prop :=
  match runs with
  | [] => True
  | (start, end_) :: runs => lo <= start /\ start < end_ /\ ascending end_ runs
  end.

Definition in_region (i : nat) (r : Region) : Prop := fst r <= i < snd r.

#[export] Instance in_region_dec i r : Decision (in_region i r).
Proof. unfold in_region. apply _. Defined.

(** The octet is in one of the regions. *)
Definition covered_by (i : nat) (runs : list Region) : Prop := Exists (in_region i) runs.

#[export] Instance covered_by_dec i runs : Decision (covered_by i runs).
Proof. unfold covered_by. apply _. Defined.

Lemma run_end_spec len differs fuel : forall i, len - i <= fuel -> i <= len ->
  i <= run_end fuel len differs i <= len /\
  (forall k, i <= k < run_end fuel len differs i -> differs k = true) /\
  (run_end fuel len differs i < len -> differs (run_end fuel len differs i) = false).
Proof.
  induction fuel as [|fuel IH]; intros i Hf Hi; cbn [run_end].
  - split; [lia|]. split; [intros k; lia|]. intros H. lia.
  - destruct (Nat.ltb_spec i len) as [Hlt|Hge]; cbn [andb].
    + destruct (differs i) eqn:Ed.
      * destruct (IH (S i) ltac:(lia) ltac:(lia)) as (H1 & H2 & H3). split; [lia|]. split; [|done].
        intros k Hk. destruct (decide (k = i)) as [->|]; [done|]. apply H2. lia.
      * split; [lia|]. split; [intros k; lia|done].
    + split; [lia|]. split; [intros k; lia|lia].
Qed.

Lemma differing_from_spec len differs fuel : forall i, len - i <= fuel ->
  ascending i (differing_from fuel len differs i) /\
  Forall (fun r => snd r <= len) (differing_from fuel len differs i) /\
  (forall k, covered_by k (differing_from fuel len differs i) <-> i <= k < len /\ differs k = true).
Proof.
  induction fuel as [|fuel IH]; intros i Hf; cbn [differing_from].
  { split; [done|]. split; [constructor|]. intros k. unfold covered_by. rewrite Exists_nil. split; [done|lia]. }
  destruct (Nat.ltb_spec i len) as [Hlt|Hge]; cbn [negb].
  2: { split; [done|]. split; [constructor|]. intros k. unfold covered_by. rewrite Exists_nil. split; [done|lia]. }
  destruct (differs i) eqn:Ed; cbn [negb].
  - destruct (run_end_spec len differs (len - i) i ltac:(lia) ltac:(lia)) as (H1 & H2 & H3).
    set (e := run_end (len - i) len differs i) in *.
    assert (He : i < e).
    { destruct (decide (i < e)) as [|Hn]; [done|]. assert (E : e = i) by lia. rewrite E in H3.
      rewrite H3 in Ed by lia. done. }
    destruct (IH e ltac:(lia)) as (A & B & D). cbn [ascending]. split; [split; [lia|split; [done|done]]|].
    split; [constructor; [cbn; lia|done]|]. intros k. unfold covered_by. rewrite Exists_cons.
    unfold covered_by in D. rewrite D. unfold in_region. cbn [fst snd]. split.
    + intros [Hk|[Hk Hd]]; [split; [lia|by apply H2]|split; [lia|done]].
    + intros [Hk Hd]. destruct (decide (k < e)); [by left; lia|right; split; [lia|done]].
  - destruct (IH (S i) ltac:(lia)) as (A & B & D). split.
    + destruct (differing_from fuel len differs (S i)) as [|[s e] r]; [done|]. cbn in *. intuition lia.
    + split; [done|]. intros k. rewrite D. split; [intros [H1 H2]; split; [lia|done]|].
      intros [H1 H2]. split; [|done]. destruct (decide (k = i)) as [->|]; [congruence|lia].
Qed.

Lemma differing_runs_spec len differs :
  ascending 0 (differing_runs len differs) /\
  Forall (fun r => snd r <= len) (differing_runs len differs) /\
  (forall k, covered_by k (differing_runs len differs) <-> k < len /\ differs k = true).
Proof.
  destruct (differing_from_spec len differs len 0 ltac:(lia)) as (A & B & D). unfold differing_runs.
  split; [done|]. split; [done|]. intros k. rewrite D. split; intros [H1 H2]; (split; [lia|done]).
Qed.

(** ** Joined runs *)

(** Where the last of the runs ends; [lo] when there is none. *)
Definition last_end (lo : nat) (runs : list Region) : nat :=
  match last runs with
  | Some r => snd r
  | None => lo
  end.

Definition cost (runs : list Region) : nat :=
  sum_list_with (fun r => requests_for (fst r) (snd r - fst r)) runs.

Lemma ascending_app lo runs runs' :
  ascending lo (runs ++ runs') <-> ascending lo runs /\ ascending (last_end lo runs) runs'.
Proof.
  revert lo. induction runs as [|[s e] runs IH]; intros lo; cbn [app ascending].
  - unfold last_end. cbn. tauto.
  - rewrite IH. assert (E : last_end lo ((s, e) :: runs) = last_end e runs).
    { unfold last_end. rewrite last_cons. by destruct (last runs). }
    rewrite E. tauto.
Qed.

Lemma ascending_snoc lo runs s e :
  ascending lo (runs ++ [(s, e)]) <-> ascending lo runs /\ last_end lo runs <= s < e.
Proof. rewrite ascending_app. cbn. split; intros [H1 H2]; (split; [done|lia]). Qed.

Lemma ascending_weaken lo lo' runs : lo' <= lo -> ascending lo runs -> ascending lo' runs.
Proof. destruct runs as [|[s e] r]; cbn; intuition lia. Qed.

Lemma covered_by_app k runs runs' : covered_by k (runs ++ runs') <-> covered_by k runs \/ covered_by k runs'.
Proof. apply Exists_app. Qed.

Lemma covered_one k s e : covered_by k [(s, e)] <-> s <= k < e.
Proof. unfold covered_by. rewrite Exists_cons, Exists_nil. unfold in_region. cbn. tauto. Qed.

(** What the loop of [merge_runs] keeps, turn by turn: [old] are the runs it has
    seen, [acc] its vector. *)
Record merged_ok (gap_ok : nat -> nat -> bool) (old acc : list Region) : Prop := MkMergedOk {
  mo_ascending : ascending 0 (rev acc);
  mo_end : last_end 0 (rev acc) = last_end 0 old;
  mo_covers : forall k, covered_by k old -> covered_by k (rev acc);
  mo_only : forall k, covered_by k (rev acc) ->
    covered_by k old \/ exists a b, a <= k < b /\ gap_ok a b = true;
  mo_cost : cost (rev acc) <= cost old }.

Lemma cost_app runs runs' : cost (runs ++ runs') = cost runs + cost runs'.
Proof. unfold cost. by rewrite sum_list_with_app. Qed.

Lemma last_end_snoc lo runs s e : last_end lo (runs ++ [(s, e)]) = e.
Proof. unfold last_end. by rewrite last_snoc. Qed.

Lemma merge_turn_ok max_gap gap_ok old acc s e : merged_ok gap_ok old acc ->
  last_end 0 old <= s < e -> merged_ok gap_ok (old ++ [(s, e)]) (merge_turn max_gap gap_ok acc (s, e)).
Proof.
  intros [Ha He Hc Ho Hk] Hse.
  assert (Hpush : merged_ok gap_ok (old ++ [(s, e)]) ((s, e) :: acc)).
  { split; cbn [rev].
    - apply ascending_snoc. split; [done|lia].
    - by rewrite !last_end_snoc.
    - intros k. rewrite !covered_by_app. intros [H|H]; [left; by apply Hc|by right].
    - intros k. rewrite !covered_by_app. intros [H|H]; [|left; by right].
      destruct (Ho k H); [left; by left|by right].
    - rewrite !cost_app. lia. }
  unfold merge_turn. destruct acc as [|[ms pe] before]; [done|].
  destruct (_ && _ && _) eqn:E; [|done]. apply andb_true_iff in E as [[Eg Eo]%andb_true_iff Ej%Nat.ltb_lt].
  cbn [rev] in *. apply ascending_snoc in Ha as [Ha Hms]. rewrite last_end_snoc in He.
  split; cbn [rev].
  - apply ascending_snoc. split; [done|lia].
  - by rewrite !last_end_snoc.
  - intros k. rewrite !covered_by_app, !covered_one. intros [H|H]; [|right; lia].
    apply Hc in H. rewrite covered_by_app, covered_one in H. destruct H; [by left|right; lia].
  - intros k. rewrite !covered_by_app, !covered_one. intros H. specialize (Ho k).
    rewrite covered_by_app, covered_one in Ho. destruct H as [H|H].
    { destruct Ho as [|]; [by left|left; by left|by right]. }
    destruct (decide (k < pe)); [destruct Ho as [|]; [right; lia|left; by left|by right]|].
    destruct (decide (k < s)); [right; exists pe, s; split; [lia|done]|left; right; lia].
  - rewrite !cost_app in *. unfold cost at 2. unfold cost at 2 in Hk. cbn in *. lia.
Qed.

Lemma merge_runs_ok max_gap gap_ok runs : ascending 0 runs ->
  merged_ok gap_ok runs (rev (merge_runs runs max_gap gap_ok)).
Proof.
  unfold merge_runs. rewrite rev_involutive. intros Ha.
  assert (H : forall new old acc, ascending (last_end 0 old) new -> merged_ok gap_ok old acc ->
    merged_ok gap_ok (old ++ new) (foldl (merge_turn max_gap gap_ok) acc new)).
  { induction new as [|[s e] new IH]; intros old acc Hn Hm; [by rewrite app_nil_r|].
    cbn [ascending] in Hn. cbn [foldl]. rewrite cons_middle, app_assoc. apply IH.
    - rewrite last_end_snoc. apply Hn.
    - apply merge_turn_ok; [done|]. destruct Hn as (? & ? & _). lia. }
  apply (H runs [] []); [done|]. split; cbn [rev]; [done|done| | |done]; intros k Hk; by inversion Hk.
Qed.

(** Joining never costs a telegram more than writing the runs apart. *)
Lemma merging_saves_requests max_gap gap_ok runs : ascending 0 runs ->
  cost (merge_runs runs max_gap gap_ok) <= cost runs.
Proof. intros H. pose proof (mo_cost _ _ _ (merge_runs_ok max_gap gap_ok runs H)) as Hc. by rewrite rev_involutive in Hc. Qed.

Lemma ascending_below lo runs len : ascending lo runs -> last_end lo runs <= len ->
  Forall (fun r => snd r <= len) runs.
Proof.
  revert lo. induction runs as [|[s e] runs IH]; intros lo; [constructor|]. cbn [ascending].
  intros (H1 & H2 & H3) Hl. assert (El : last_end e runs <= len).
  { unfold last_end in *. rewrite last_cons in Hl. by destruct (last runs). }
  constructor; [|by eapply IH]. cbn.
  assert (Hmono : forall lo runs, ascending lo runs -> lo <= last_end lo runs).
  { clear. intros lo runs. revert lo. induction runs as [|[s e] runs IH]; intros lo; [done|]. cbn [ascending].
    intros (H1 & H2 & H3). specialize (IH e H3). unfold last_end in *. rewrite last_cons.
    destruct (last runs); cbn in *; lia. }
  specialize (Hmono e runs H3). lia.
Qed.

Lemma last_end_bound runs len : Forall (fun r => snd r <= len) runs -> last_end 0 runs <= len.
Proof.
  intros H. unfold last_end. destruct (last runs) as [r|] eqn:E; [|lia].
  apply last_Some in E as [l' ->]. apply Forall_app in H as [_ H]. by apply Forall_cons_1 in H as [H _].
Qed.

(** The regions of a difference: ascending, within the image, every octet that
    differs, and of the others only writable ones. *)
Lemma diff_regions_spec image current mask max_gap :
  ascending 0 (diff_regions image current mask max_gap) /\
  Forall (fun r => snd r <= length image) (diff_regions image current mask max_gap) /\
  (forall k, k < length image -> writable mask k = true -> current !! k <> image !! k ->
     covered_by k (diff_regions image current mask max_gap)) /\
  (forall k, covered_by k (diff_regions image current mask max_gap) -> writable mask k = true).
Proof.
  unfold diff_regions. set (d := fun i => _ && _). set (g := fun a b => _).
  destruct (differing_runs_spec (length image) d) as (A & B & D).
  pose proof (merge_runs_ok max_gap g _ A) as [Ma Me Mc Mo _]. rewrite rev_involutive in *.
  assert (Hl : last_end 0 (merge_runs (differing_runs (length image) d) max_gap g) <= length image)
    by (rewrite Me; by apply last_end_bound).
  split; [done|]. split; [by eapply ascending_below|]. split.
  - intros k Hk Hw Hne. apply Mc, D. split; [done|]. unfold d. rewrite Hw, bool_decide_false; done.
  - intros k [Hk|(a & b & Hab & Hg)]%Mo.
    + apply D in Hk as [_ Hd]. unfold d in Hd. by apply andb_true_iff in Hd as [-> _].
    + unfold g in Hg. rewrite forallb_forall in Hg. apply Hg, in_seq. lia.
Qed.
End Regions.

(** ** The fill of a fresh segment is the image of [fill] octets *)

Lemma run_end_ext len d d' fuel : (forall i, i < len -> d i = d' i) -> forall i, run_end fuel len d i = run_end fuel len d' i.
Proof.
  intros E. induction fuel as [|fuel IH]; intros i; [done|]. cbn [run_end].
  destruct (Nat.ltb_spec i len) as [Hi|]; [|done]. cbn [andb]. rewrite (E i Hi). destruct (d' i); [apply IH|done].
Qed.

Lemma differing_from_ext len d d' fuel : (forall i, i < len -> d i = d' i) ->
  forall i, differing_from fuel len d i = differing_from fuel len d' i.
Proof.
  intros E. induction fuel as [|fuel IH]; intros i; [done|]. cbn [differing_from].
  destruct (Nat.ltb_spec i len) as [Hi|]; cbn [negb]; [|done]. rewrite (E i Hi), (run_end_ext len d d') by done.
  destruct (d' i); cbn [negb]; by rewrite IH.
Qed.

Lemma merge_turn_ext chunk g g' gap acc run : (forall a b, g a b = g' a b) ->
  merge_turn chunk gap g acc run = merge_turn chunk gap g' acc run.
Proof. intros E. destruct run as [s e]. destruct acc as [|[ms pe] acc]; cbn; [done|]. by rewrite E. Qed.

Lemma merge_runs_ext chunk g g' gap runs : (forall a b, g a b = g' a b) ->
  merge_runs chunk runs gap g = merge_runs chunk runs gap g'.
Proof.
  intros E. unfold merge_runs. f_equal. generalize (@nil Region).
  induction runs as [|r runs IH]; intros acc; [done|]. cbn [foldl]. by rewrite (merge_turn_ext chunk g g'), IH.
Qed.

Lemma fill_is_diff chunk image fill gap :
  fill_regions chunk image fill gap
  = map (fun r => (fst r, region_octets image r)) (diff_regions chunk image (replicate (length image) fill) None gap).
Proof.
  unfold fill_regions, diff_regions. f_equal.
  rewrite (merge_runs_ext chunk (fun _ _ => true) (fun a b => forallb (writable None) (seq a (b - a)))).
  - f_equal. unfold differing_runs. apply differing_from_ext. intros i Hi. unfold writable. cbn [andb]. f_equal.
    rewrite lookup_replicate_2 by done. apply bool_decide_ext. split; congruence.
  - intros a b. symmetry. apply forallb_forall. done.
Qed.

(** ** The chunks of a connection *)

Record ChunkCaps : Type := MkChunkCaps {
  cc_plain : u8;
  cc_extended : u16;
  cc_user : u8;
  cc_user_above_64k : bool }.

Definition ChunkCaps_of (l4 : Layer4Connection) : ChunkCaps :=
  MkChunkCaps (max_memory_chunk l4) (max_extended_memory_chunk l4) (max_user_memory_chunk l4)
    (l4c_user_memory_above_64k l4).

Definition ChunkCaps_at (caps : ChunkCaps) (addr : u32) (len : nat) : Z :=
  if negb (select_extended_memory addr len) then cc_plain caps
  else if cc_user_above_64k caps then cc_user caps
  else cc_extended caps.

(** The chunk the regions are sized by is the one the writer cuts them into, up
    to the writer's cap of 255 octets. *)
Lemma caps_are_the_writers_chunks l4 addr len :
  memory_chunk_for l4 addr len = Z.min (Z.max (ChunkCaps_at (ChunkCaps_of l4) addr len) 1) 255.
Proof.
  unfold memory_chunk_for, memory_service, ChunkCaps_at, ChunkCaps_of. cbn.
  by destruct (negb _); [|destruct (l4c_user_memory_above_64k l4)].
Qed.
