(* ===== verification/FlashPlan.v ===== *)
(** * The plan of a download ([bussard-download/src/flash/mod.rs, par_procedure.rs, load_records.rs])

    The ordered steps of a validated download with the images they stream, the
    queries the executor and the reports make of it, and the methods that change
    it: the factory reset, the KNXnet/IP and Data Secure steps, the product's
    partial procedure; and the records that drive the load-state machines
    ([load_records.rs]).  The identifiers of segments are the texts of
    [ParamImage]; offsets into images are indices ([usize] as [nat]).  Labels and
    messages are left out. *)

From S2P Require Import Prelude Decimal TextCodec ColorCodec Address Crypto MgmtError Apci Load Sys7.
From S2P Require Import GroupTables SecurityTables ParamImage.
From S2P Require Import Mcb.

Local Open Scope string_scope.
Local Open Scope list_scope.
Local Open Scope Z_scope.

(** ** Data *)

#[export] Instance SegmentFill_eq_dec : EqDecision SegmentFill.
Proof. solve_decision. Defined.

(** The interface object of a property step. *)
Inductive PropObject : Type :=
| PropIndex (i : u32)
| PropType (object_type occurrence : u16).

#[export] Instance PropObject_eq_dec : EqDecision PropObject.
Proof. solve_decision. Defined.

Definition PropObject_index (o : PropObject) : option u32 :=
  match o with
  | PropIndex i => Some i
  | PropType _ _ => None
  end.

Inductive ImageKind : Type := ImageCode | ImageParameters | ImageTable.

#[export] Instance ImageKind_eq_dec : EqDecision ImageKind.
Proof. solve_decision. Defined.

(** What a write step streams: the octets [ir_offset, ir_offset + ir_len) of the
    image of a segment. *)
Record ImageRef : Type := MkImageRef {
  ir_segment_id : text;
  ir_kind : ImageKind;
  ir_len : nat;
  ir_offset : nat }.

#[export] Instance ImageRef_eq_dec : EqDecision ImageRef.
Proof. solve_decision. Defined.

Record KnxnetIpWrite : Type := MkKnxnetIpWrite {
  kw_prop_id : u8; kw_start : u16; kw_count : u16; kw_value : bytes }.

Record KnxnetIpProgram : Type := MkKnxnetIpProgram {
  kp_object : PropObject; kp_writes : list KnxnetIpWrite }.

(** One step of a download. *)
Inductive FlashStep : Type :=
| FsUnload (target : option u32) (absent_ok : bool)
| FsStartLoading (target : option u32)
| FsAllocateSegment (size : u32) (target : option u32) (fill : SegmentFill)
| FsWriteRelMem (offset : u32) (image : ImageRef) (target : option u32)
| FsWriteMem (address : u32) (image : ImageRef)
| FsWriteProp (object : PropObject) (prop_id : u32) (value : bytes) (start_element count : u16)
    (verify from_parameters : bool)
| FsDescribeProp (object : PropObject) (prop_id : u32)
| FsCompareProp (object : PropObject) (prop_id : u32) (expected mask : option bytes) (start_element : u16)
| FsCompareRelMem (target : option u32) (offset : u32) (expected mask : option bytes) (invert : bool)
| FsLoadImageProp (obj_idx prop_id count : u32) (image : option ImageRef) (advisory : bool)
| FsLoadCompleted (target : option u32)
| FsRestart
| FsDelay (milliseconds : u32)
| FsFactoryReset (erase_code : u8)
| FsMasterReset (erase_code channel_number : u8)
| FsSecurityLoadControl (control : LoadControl)
| FsSecurityClearAddressTable
| FsSecuritySenders (entries : list SecureSenderEntry)
| FsSecurityGroupKeys (entries : list GroupKeyEntry)
| FsSecurityGoFlags (flags : list u8)
| FsSys7Unload (lsm : u32)
| FsSys7StartLoading (lsm : u32)
| FsSys7AbsSegment (lsm address size : u32) (mem_type access seg_flags seg_type : u8) (image : option ImageRef)
| FsSys7TaskSegment (lsm address : u32) (identity : Sys7TaskIdentity)
| FsSys7TaskCtrl1 (lsm address count : u32)
| FsSys7TaskPtr (lsm : u32) (init save pei_handler : u16)
| FsSys7TaskCtrl2 (lsm : u32) (callback com_objects segment_1 segment_2 : u16)
| FsSys7LoadCompleted (lsm : u32)
| FsSys7CompareMem (address : u32) (expected : bytes)
| FsSys7PreDownloadRestart (unload : list u32)
| FsEnableVerifyMode
| FsKnxnetIpParameters (program : KnxnetIpProgram).

(** The octets of a segment a download leaves as the device holds them. *)
Record KeptOctets : Type := MkKeptOctets {
  ko_object : u32;
  ko_segment : text;
  ko_allocated : nat;
  ko_ranges : list (nat * nat);
  ko_address : option u32 }.

Definition KeptOctets_contains (k : KeptOctets) (octet : nat) : bool :=
  existsb (fun '(start, end_) => (start <=? octet)%nat && (octet <? end_)%nat) (ko_ranges k).

Inductive LsmRealisation : Type :=
| LsmMemoryMapped (control_addr status_addr : u16)
| LsmProperty.

Record Sys7Profile : Type := MkSys7Profile {
  s7p_lsm : LsmRealisation;
  s7p_authorize_level : u8;
  s7p_eeprom_mem_type : u8;
  s7p_ram_mem_type : u8;
  s7p_verify_mode : option u8 }.

Definition read_compare_write (p : Sys7Profile) : bool :=
  match s7p_verify_mode p with
  | None => true
  | Some _ => false
  end.

Definition lsm_access_from_profile (p : Sys7Profile) : LsmAccess :=
  match s7p_lsm p with
  | LsmMemoryMapped control_addr status_addr => MemoryMapped control_addr status_addr
  | LsmProperty => Property
  end.

Record Sys7Context : Type := MkSys7Context {
  s7c_profile : Sys7Profile;
  s7c_segment_masks : gmap text bytes;
  s7c_code_segments : gset text }.

Record AppIdentity : Type := MkAppIdentity {
  ai_id : text;
  ai_name : option text;
  ai_application_number : option u32;
  ai_application_version : option u32;
  ai_mask_version : text;
  ai_original_manufacturer : option text }.

Record FlashPlan : Type := MkFlashPlan {
  fp_identity : AppIdentity;
  fp_device_mask : u16;
  fp_steps : list FlashStep;
  fp_images : Images;
  fp_param_images : Images;
  fp_spliced_from_template : bool;
  fp_sys7 : option Sys7Context;
  fp_confirmed_restart : bool;
  fp_baseline : gmap text bytes;
  fp_placed : PlacedOctets;
  fp_unwritten : gmap text (list (nat * u8));
  fp_baseline_address : gmap text u32;
  fp_security_capacity : TableCapacity;
  fp_user_memory_above_64k : bool;
  fp_par_allocations : gmap (option Z) (u32 * SegmentFill);
  fp_par_procedure : bool;
  fp_kept : list KeptOctets }.

(** [self.steps = steps]. *)
Definition fp_set_steps (steps : list FlashStep) (p : FlashPlan) : FlashPlan :=
  MkFlashPlan (fp_identity p) (fp_device_mask p) steps (fp_images p) (fp_param_images p)
    (fp_spliced_from_template p) (fp_sys7 p) (fp_confirmed_restart p) (fp_baseline p) (fp_placed p)
    (fp_unwritten p) (fp_baseline_address p) (fp_security_capacity p) (fp_user_memory_above_64k p)
    (fp_par_allocations p) (fp_par_procedure p) (fp_kept p).

(** ** The application's identity *)

Fixpoint parse_hex_digits (acc : Z) (t : text) : option Z :=
  match t with
  | [] => Some acc
  | c :: t => match hex_digit c with
              | Some d => parse_hex_digits (acc * 16 + d) t
              | None => None
              end
  end.

(** [get(..4)] and [u16::from_str_radix(_, 16)], which takes a leading plus. *)
Definition four_hex_digits (t : text) : option u16 :=
  if (length t <? 4)%nat then None
  else match take 4 t with
       | 43 :: digits => parse_hex_digits 0 digits
       | digits => parse_hex_digits 0 digits
       end.

Definition KNX_VIRTUAL_APPLICATION_SECTION : u8 := 37.

Definition is_knx_virtual_application (id : text) : bool :=
  match strip_prefix (chars "M-00FA_A-") id with
  | None => false
  | Some rest =>
      match four_hex_digits rest with
      | Some number => number / 256 =? KNX_VIRTUAL_APPLICATION_SECTION
      | None => false
      end
  end.

Definition manufacturer_from_app_id (id : text) : option u16 :=
  rest ← strip_prefix (chars "M-") id; four_hex_digits rest.

Definition expected_manufacturers (i : AppIdentity) : list u16 :=
  let out := match manufacturer_from_app_id (ai_id i) with Some m => [m] | None => [] end in
  match ai_original_manufacturer i ≫= manufacturer_from_app_id with
  | Some original => if bool_decide (original ∈ out) then out else out ++ [original]
  | None => out
  end.

Definition program_version (i : AppIdentity) : option bytes :=
  manufacturer ← manufacturer_from_app_id (ai_id i);
  number ← ai_application_number i;
  version ← ai_application_version i;
  Some (app_program_version manufacturer (Z.land number 65535) (Z.land version 255)).

(** ** Queries *)

Definition is_factory_reset (s : FlashStep) : bool :=
  match s with FsFactoryReset _ => true | _ => false end.

Definition has_factory_reset (p : FlashPlan) : bool := existsb is_factory_reset (fp_steps p).

Definition ERASE_CODE_RESET_IA : u8 := 3.

Definition erases_resident_objects (p : FlashPlan) : bool :=
  existsb (fun s => match s with
                    | FsFactoryReset _ => true
                    | FsMasterReset erase_code _ =>
                        negb ((erase_code =? ERASE_CODE_CONFIRMED_RESTART) || (erase_code =? ERASE_CODE_RESET_IA))
                    | _ => false
                    end) (fp_steps p).

Definition is_restart (s : FlashStep) : bool :=
  match s with FsRestart => true | _ => false end.

Definition is_property_step (s : FlashStep) : bool :=
  match s with
  | FsWriteProp _ _ _ _ _ _ _ | FsDescribeProp _ _ | FsCompareProp _ _ _ _ _ | FsRestart => true
  | _ => false
  end.

Definition is_sys7 (p : FlashPlan) : bool := match fp_sys7 p with Some _ => true | None => false end.

Definition is_property_only (p : FlashPlan) : bool :=
  negb (is_sys7 p) && negb (bool_decide (fp_steps p = []))
  && forallb is_property_step (fp_steps p) && existsb (fun s => negb (is_restart s)) (fp_steps p).

Definition is_load_completed (s : FlashStep) : bool := match s with FsLoadCompleted _ => true | _ => false end.
Definition is_start_loading (s : FlashStep) : bool := match s with FsStartLoading _ => true | _ => false end.
Definition is_write_prop (s : FlashStep) : bool :=
  match s with FsWriteProp _ _ _ _ _ _ _ => true | _ => false end.
Definition is_security_load_control (s : FlashStep) : bool :=
  match s with FsSecurityLoadControl _ => true | _ => false end.

Definition has_security_program (p : FlashPlan) : bool := existsb is_security_load_control (fp_steps p).

Definition knxnet_ip (p : FlashPlan) : option KnxnetIpProgram :=
  match List.find (fun s => match s with FsKnxnetIpParameters _ => true | _ => false end) (fp_steps p) with
  | Some (FsKnxnetIpParameters program) => Some program
  | _ => None
  end.

Definition is_sys7_prelude (s : FlashStep) : bool :=
  match s with FsSys7PreDownloadRestart _ => true | _ => false end.

Definition has_sys7_prelude (p : FlashPlan) : bool := existsb is_sys7_prelude (fp_steps p).

Definition security_table_counts (p : FlashPlan) : nat * nat :=
  foldl (fun '(keys, senders) step =>
    match step with
    | FsSecurityGroupKeys entries => ((keys + length entries)%nat, senders)
    | FsSecuritySenders entries => (keys, (senders + length entries)%nat)
    | _ => (keys, senders)
    end) (0%nat, 0%nat) (fp_steps p).

Definition sys7_lsm (p : FlashPlan) : option LsmRealisation := s ← fp_sys7 p; Some (s7p_lsm (s7c_profile s)).

Definition sys7_read_compare (p : FlashPlan) : bool :=
  match fp_sys7 p with
  | Some s => read_compare_write (s7c_profile s)
  | None => false
  end.

Definition sys7_lsm_access (p : FlashPlan) : option LsmAccess :=
  s ← fp_sys7 p; Some (lsm_access_from_profile (s7c_profile s)).

Definition image_bytes (p : FlashPlan) (segment : text) : option bytes := fp_images p !! segment.

Definition segment_mask (p : FlashPlan) (segment : text) : option bytes :=
  s ← fp_sys7 p; s7c_segment_masks s !! segment.

Definition is_parameters_only (p : FlashPlan) : bool := negb (bool_decide (fp_baseline p = ∅)).

Definition targets_knx_virtual (p : FlashPlan) : bool := is_knx_virtual_application (ai_id (fp_identity p)).

(** The image a memory-write step streams. *)
Definition step_image (s : FlashStep) : option ImageRef :=
  match s with
  | FsWriteRelMem _ image _ | FsWriteMem _ image => Some image
  | FsSys7AbsSegment _ _ _ _ _ _ _ image => image
  | _ => None
  end.

(** The octets of an image that a write step streams. *)
Definition image_part (octets : bytes) (image : ImageRef) : bytes :=
  let start := Nat.min (ir_offset image) (length octets) in
  let end_ := Nat.min (ir_offset image + ir_len image) (length octets) in
  slice start (Nat.max end_ start) octets.

(** [rsplit_once('_')]'s tail, or the whole id. *)
Definition segment_tail (id : text) : text :=
  match rsplit_once (chars "_") id with
  | Some (_, tail) => tail
  | None => id
  end.

Definition written_segments (p : FlashPlan) : list text :=
  foldl (fun out step =>
    match step_image step with
    | Some image =>
        if bool_decide (ir_kind image = ImageTable) then out
        else let id := segment_tail (ir_segment_id image) in
             if bool_decide (id ∈ out) then out else out ++ [id]
    | None => out
    end) [] (fp_steps p).

Definition total_write_bytes (p : FlashPlan) : nat :=
  sum_list_with (fun s => match step_image s with Some image => ir_len image | None => O end) (fp_steps p).

(** One telegram per [MAX_MEMORY_WRITE_LEN] octets. *)
Definition estimated_write_frames (p : FlashPlan) : Z :=
  foldr (fun s total =>
    total + match step_image s with
            | Some image => (Z.of_nat (ir_len image) + (MAX_MEMORY_WRITE_LEN - 1)) / MAX_MEMORY_WRITE_LEN
            | None => 0
            end) 0 (fp_steps p).

(** Milliseconds. *)
Definition estimated_duration (p : FlashPlan) : Z := estimated_write_frames p * 40.

(** ** Changes of a plan *)

(** [iter().position(_)]: the first index where the test holds. *)
Fixpoint step_position (f : FlashStep -> bool) (steps : list FlashStep) : option nat :=
  match steps with
  | [] => None
  | s :: steps => if f s then Some O else option_map S (step_position f steps)
  end.

(** [iter().rposition(_)]: the last one. *)
Fixpoint rposition (f : FlashStep -> bool) (steps : list FlashStep) : option nat :=
  match steps with
  | [] => None
  | s :: steps => match rposition f steps with
                  | Some i => Some (S i)
                  | None => if f s then Some O else None
                  end
  end.

(** [splice(at..at, block)]. *)
Definition insert_at (at_ : nat) (block steps : list FlashStep) : list FlashStep :=
  take at_ steps ++ block ++ drop at_ steps.

Definition is_compare (s : FlashStep) : bool :=
  match s with FsCompareProp _ _ _ _ _ | FsCompareRelMem _ _ _ _ _ => true | _ => false end.

Definition insert_factory_reset (steps : list FlashStep) : list FlashStep :=
  insert_at (default (length steps) (step_position (fun s => negb (is_compare s)) steps))
    [FsFactoryReset ERASE_CODE_FACTORY_RESET_KEEP_IA] steps.

Definition require_factory_reset (p : FlashPlan) : FlashPlan :=
  if negb (is_sys7 p) && fp_confirmed_restart p && negb (has_factory_reset p) && negb (is_property_only p)
  then fp_set_steps (insert_factory_reset (fp_steps p)) p
  else p.

Definition is_closing_restart (s : FlashStep) : bool :=
  match s with FsRestart | FsMasterReset _ _ => true | _ => false end.

Definition add_knxnet_ip (program : KnxnetIpProgram) (p : FlashPlan) : FlashPlan :=
  if is_property_only p || bool_decide (is_Some (knxnet_ip p)) then p
  else let at_ := default (length (fp_steps p)) (rposition is_closing_restart (fp_steps p)) in
       fp_set_steps (insert_at at_ [FsKnxnetIpParameters program] (fp_steps p)) p.

Definition skip_sys7_prelude (p : FlashPlan) : FlashPlan :=
  fp_set_steps (List.filter (fun s => negb (is_sys7_prelude s)) (fp_steps p)) p.

Definition skip_factory_reset (p : FlashPlan) : FlashPlan :=
  fp_set_steps (List.filter (fun s => negb (is_factory_reset s)) (fp_steps p)) p.

(** The [while] loop that walks back over the property writes. *)
Fixpoint before_properties (steps : list FlashStep) (at_ : nat) : nat :=
  match at_ with
  | O => O
  | S i => match steps !! i with
           | Some s => if is_write_prop s then before_properties steps i else at_
           | None => at_
           end
  end.

Definition security_block (program : SecurityProgramData) : list FlashStep :=
  [FsSecurityLoadControl StartLoading; FsSecurityClearAddressTable]
  ++ (match sp_senders program with [] => [] | l => [FsSecuritySenders l] end)
  ++ (match sp_group_keys program with [] => [] | l => [FsSecurityGroupKeys l] end)
  ++ (match sp_go_flags program with [] => [] | l => [FsSecurityGoFlags l] end)
  ++ [FsSecurityLoadControl LoadCompleted].

Definition add_security_program (program : SecurityProgramData) (p : FlashPlan) : FlashPlan :=
  if is_sys7 p || has_security_program p || is_property_only p then p
  else
    let steps := fp_steps p in
    let first_load_completed := default (length steps) (step_position is_load_completed steps) in
    let block_at := before_properties steps first_load_completed in
    let steps := insert_at block_at (security_block program) steps in
    let unload_at := default O (step_position is_start_loading steps) in
    fp_set_steps (insert_at unload_at [FsSecurityLoadControl Unload] steps) p.

(** ** The product's partial procedure ([par_procedure.rs]) *)

(** What the probe of the device read of it. *)
Record ResidentObject : Type := MkResidentObject { ro_index : u8; ro_state : LoadState }.

(** The allocation a step makes, with the fill of the [par] procedure. *)
Definition par_step (par_allocations : gmap (option Z) (u32 * SegmentFill)) (s : FlashStep) : FlashStep :=
  match s with
  | FsAllocateSegment size target fill =>
      match par_allocations !! target with
      | Some (par_size, par_fill) => if par_size =? size then FsAllocateSegment size target par_fill else s
      | None => s
      end
  | _ => s
  end.

Definition loads_object (target : option u32) (s : FlashStep) : bool :=
  match s with
  | FsAllocateSegment _ t _ | FsStartLoading t => bool_decide (t = target)
  | _ => false
  end.

Definition unloaded_on_device (resident : list ResidentObject) (target : option u32) : bool :=
  match target with
  | Some idx => existsb (fun o => (ro_index o =? idx) && bool_decide (ro_state o = Unloaded)) resident
  | None => false
  end.

Definition is_filled_allocation (s : FlashStep) : bool :=
  match s with
  | FsAllocateSegment _ _ fill => bool_decide (is_Some (SegmentFill_prefill fill))
  | _ => false
  end.

(** The plan after, and whether it changed.  A device that was not probed has no
    resident objects. *)
Definition use_par_procedure (resident : list ResidentObject) (p : FlashPlan) : bool * FlashPlan :=
  if is_sys7 p || is_property_only p || is_parameters_only p || bool_decide (fp_par_allocations p = ∅)
     || fp_par_procedure p
  then (false, p)
  else
    let refilled := map (par_step (fp_par_allocations p)) (fp_steps p) in
    let changed := existsb (fun s => match s with
                                     | FsAllocateSegment size target fill =>
                                         match fp_par_allocations p !! target with
                                         | Some (par_size, par_fill) =>
                                             (par_size =? size) && negb (bool_decide (fill = par_fill))
                                         | None => false
                                         end
                                     | _ => false
                                     end) (fp_steps p) in
    let steps := List.filter (fun s => match s with
                                       | FsUnload target _ =>
                                           existsb (loads_object target) refilled
                                           || negb (unloaded_on_device resident target)
                                       | _ => true
                                       end) refilled in
    let changed := changed || negb (length steps =? length refilled)%nat in
    let p' := fp_set_steps steps p in
    let resets := negb (existsb is_filled_allocation steps) && has_factory_reset p' in
    let p' := if resets then skip_factory_reset p' else p' in
    let changed := changed || resets in
    (changed, MkFlashPlan (fp_identity p') (fp_device_mask p') (fp_steps p') (fp_images p')
       (fp_param_images p') (fp_spliced_from_template p') (fp_sys7 p') (fp_confirmed_restart p')
       (fp_baseline p') (fp_placed p') (fp_unwritten p') (fp_baseline_address p')
       (fp_security_capacity p') (fp_user_memory_above_64k p') (fp_par_allocations p') changed (fp_kept p')).

(** ** The load-control records of a download ([load_records.rs])

    The records a step sends to a load-state machine, listed without a device: the
    value of a property write, or the record a System 7 device takes in its memory.
    The executor of System 7 encodes its events with [sys7_event] too. *)

Inductive LoadControlForm : Type :=
| FormProperty (object : option u32)
| FormMemory (lsm : u8) (address : u16).

Record LoadControlRecord : Type := MkLoadRecord {
  lr_form : LoadControlForm; lr_event : string; lr_bytes : bytes }.

Definition simple (control : LoadControl) : string :=
  match control with
  | Unload => "unload"
  | StartLoading => "start-loading"
  | LoadCompleted => "load-completed"
  | AdditionalLoadControls => "additional"
  | NoOperation => "no-operation"
  end.

Definition system_b_records (step : FlashStep) : list LoadControlRecord :=
  let simple_record target control :=
    MkLoadRecord (FormProperty target) (simple control) (LoadControl_encode_full control) in
  match step with
  | FsUnload target _ => [simple_record target Unload]
  | FsStartLoading target => [simple_record target StartLoading]
  | FsLoadCompleted target => [simple_record target LoadCompleted]
  | FsAllocateSegment size target fill =>
      [MkLoadRecord (FormProperty target) "rel-segment" (encode_rel_segment size (sf_mode fill) (sf_fill fill))]
  | _ => []
  end.

(** ** System 7 *)

Record Sys7FieldOutOfRange : Type := MkOutOfRange { oor_field : string; oor_value : u32 }.

Definition field_u16 (field : string) (value : u32) : result Sys7FieldOutOfRange u16 :=
  if value <=? 65535 then Ok value else Err (MkOutOfRange field value).

(** The machine an event goes to, what it does and its octets. *)
Abbreviation Sys7Event := (u32 * string * bytes)%type.

Definition sys7_event (step : FlashStep) : option (result Sys7FieldOutOfRange Sys7Event) :=
  let simple_control (lsm : u32) (control : LoadControl) := Ok (lsm, simple control, simple_event control) in
  match step with
  | FsSys7Unload lsm => Some (simple_control lsm Unload)
  | FsSys7StartLoading lsm => Some (simple_control lsm StartLoading)
  | FsSys7LoadCompleted lsm => Some (simple_control lsm LoadCompleted)
  | FsSys7AbsSegment lsm address size mem_type access seg_flags seg_type _ =>
      Some (address ← field_u16 "segment address" address;
            size ← field_u16 "segment size" size;
            Ok (lsm, "abs-segment", encode_alloc_segment seg_type address size access mem_type seg_flags))
  | FsSys7TaskSegment lsm address identity =>
      Some (address ← field_u16 "task segment address" address;
            Ok (lsm, "task-segment", encode_task_segment address identity))
  | FsSys7TaskCtrl1 lsm address count =>
      Some (address ← field_u16 "task control address" address;
            if count <=? 255 then Ok (lsm, "task-ctrl1", encode_task_ctrl1 address count)
            else Err (MkOutOfRange "task control count" count))
  | FsSys7TaskPtr lsm init save pei_handler => Some (Ok (lsm, "task-ptr", encode_task_ptr init save pei_handler))
  | FsSys7TaskCtrl2 lsm callback com_objects segment_1 segment_2 =>
      Some (Ok (lsm, "task-ctrl2", encode_task_ctrl2 callback com_objects segment_1 segment_2))
  | _ => None
  end.

Definition sys7_events (step : FlashStep) : list Sys7Event :=
  match step with
  | FsSys7PreDownloadRestart unload => map (fun lsm => (lsm, simple Unload, simple_event Unload)) unload
  | _ => match sys7_event step with
         | Some (Ok event) => [event]
         | _ => []
         end
  end.

(** The index of a load-state machine that a record's nibble can carry. *)
Definition lsm_index (lsm : u32) : option u8 := if (1 <=? lsm) && (lsm <=? 15) then Some lsm else None.

Definition sys7_records (access : LsmAccess) (step : FlashStep) : list LoadControlRecord :=
  omap (fun '(lsm, event, octets) =>
    octet ← lsm_index lsm;
    Some (match access with
          | Property => MkLoadRecord (FormProperty (Some octet)) event octets
          | MemoryMapped control_addr _ =>
              MkLoadRecord (FormMemory octet control_addr) event (wrap_memory_lsm_record octet octets)
          end)) (sys7_events step).

Definition load_control_records (p : FlashPlan) (step : FlashStep) : list LoadControlRecord :=
  match sys7_lsm_access p with
  | Some access => sys7_records access step
  | None => system_b_records step
  end.

(** ** What a listed record is *)

Lemma encoded_event_length step lsm event octets : sys7_event step = Some (Ok (lsm, event, octets)) ->
  length octets = LOAD_EVENT_SIZE.
Proof.
  assert (Hb : forall v, length (be_bytes 2 v) = 2%nat) by (intros; apply length_be_bytes).
  destruct step; cbn [sys7_event]; try done; intros E; apply (inj Some) in E; unfold field_u16 in E;
    repeat (case_match; try done); cbn in E; repeat (case_match; try done); by injection E as <- <- <-.
Qed.

(** The nibble of a memory-mapped record gives the machine and the control back. *)
Lemma wrapped_record_names_machine lsm octets : 1 <= lsm <= 15 -> 0 <= nth 0 octets 0 < 16 ->
  let first := nth 0 (wrap_memory_lsm_record lsm octets) 0 in
  Z.shiftr first 4 = lsm /\ Z.land first 15 = nth 0 octets 0.
Proof.
  intros Hl Ho. cbv zeta. unfold wrap_memory_lsm_record. cbn [app nth].
  generalize (nth 0 octets 0) Ho. clear Ho octets. intros o Ho.
  assert (H : forall l, (1 <=? l) && (l <=? 15) = true -> forall o, (0 <=? o) && (o <? 16) = true ->
     Z.shiftr (Z.lor (as_u8 (Z.shiftl (Z.land l 15) 4)) (Z.land o 15)) 4 = l /\
     Z.land (Z.lor (as_u8 (Z.shiftl (Z.land l 15) 4)) (Z.land o 15)) 15 = o).
  { intros l Hl' o' Ho'.
    assert (Hin : l ∈ seqZ 1 15) by (apply elem_of_seqZ; lia).
    assert (Hin' : o' ∈ seqZ 0 16) by (apply elem_of_seqZ; lia).
    assert (Hall : Forall (fun l => Forall (fun o =>
      Z.shiftr (Z.lor (as_u8 (Z.shiftl (Z.land l 15) 4)) (Z.land o 15)) 4 = l /\
      Z.land (Z.lor (as_u8 (Z.shiftl (Z.land l 15) 4)) (Z.land o 15)) 15 = o) (seqZ 0 16)) (seqZ 1 15)).
    { apply (bool_decide_eq_true_1 _). vm_compute. reflexivity. }
    rewrite Forall_forall in Hall. specialize (Hall l Hin). rewrite Forall_forall in Hall. by apply Hall. }
  apply H; lia.
Qed.
