(* ===== verification/FlashPartial.v ===== *)
(** * The parameter-only download ([bussard-download/src/flash/partial.rs])

    A full plan cut down to the parameter memory of a device that already runs
    the application: the steps kept, the images blended with what the device
    holds, what is compared and written, and the way back from a backup. *)

From S2P Require Import Prelude Decimal TextCodec ColorCodec Address Crypto MgmtError Apci Load Sys7.
From S2P Require Import SecurityTables.
From S2P Require Import ParamImage FlashPlan FlashRegions.

Local Open Scope list_scope.
Local Open Scope Z_scope.

(** One parameter-bearing memory region read back off the device ([param_plan.rs]). *)
Record ParamRegion : Type := MkParamRegion {
  pr_segment_id : text;
  pr_address : u32;
  pr_bytes : bytes }.

Abbreviation ParamRegions := (gmap text ParamRegion).

Inductive PartialPlanError : Type :=
| NoParameterSegment
| UnreadableSegment (segment : text).

#[export] Instance PartialPlanError_eq_dec : EqDecision PartialPlanError.
Proof. solve_decision. Defined.

(** ** The steps of a System B device *)

(** What the first pass has found of the parameter writes. *)
Record Pass1 : Type := MkPass1 {
  p1_lsms : gset (option Z);
  p1_objects : gset Z;
  p1_alloc_at : gmap (option Z) nat;
  p1_last_alloc : option (option Z * nat);
  p1_kept_allocs : gset nat;
  p1_writes : nat }.

Definition pass1_start : Pass1 := MkPass1 ∅ ∅ ∅ None ∅ 0.

(** The machine a parameter write at [target] belongs to, and its allocation. *)
Definition write_allocation (st : Pass1) (target : option u32) : option u32 * option nat :=
  match p1_alloc_at st !! target with
  | Some at_ => (target, Some at_)
  | None => match p1_last_alloc st with
            | Some (t, at_) => (t, Some at_)
            | None => (target, None)
            end
  end.

Definition option_set {A} `{Countable A} (o : option A) : gset A :=
  match o with
  | Some a => {[ a ]}
  | None => ∅
  end.

Definition pass1_step (regions : ParamRegions) (i : nat) (step : FlashStep) (st : Pass1)
    : result PartialPlanError Pass1 :=
  match step with
  | FsAllocateSegment _ target _ =>
      Ok (MkPass1 (p1_lsms st) (p1_objects st) (<[target := i]> (p1_alloc_at st)) (Some (target, i))
            (p1_kept_allocs st) (p1_writes st))
  | FsWriteRelMem _ image target =>
      if negb (bool_decide (ir_kind image = ImageParameters)) then Ok st else
      if negb (bool_decide (is_Some (regions !! ir_segment_id image)))
      then Err (UnreadableSegment (ir_segment_id image)) else
      let '(lsm, alloc) := write_allocation st target in
      Ok (MkPass1 ({[ lsm ]} ∪ p1_lsms st)
            (option_set lsm ∪ option_set (t ← target; if t =? 0 then None else Some t) ∪ p1_objects st)
            (p1_alloc_at st) (p1_last_alloc st) (option_set alloc ∪ p1_kept_allocs st) (S (p1_writes st)))
  | _ => Ok st
  end.

Fixpoint pass1 (regions : ParamRegions) (i : nat) (steps : list FlashStep) (st : Pass1)
    : result PartialPlanError Pass1 :=
  match steps with
  | [] => Ok st
  | s :: steps => st ← pass1_step regions i s st; pass1 regions (S i) steps st
  end.

(** The allocation without a fill that keeps the memory. *)
Definition keeping_fill (par_allocations : gmap (option Z) (u32 * SegmentFill)) (target : option u32) : SegmentFill :=
  match par_allocations !! target with
  | Some (_, fill) => match SegmentFill_prefill fill with
                      | None => fill
                      | Some _ => MkSegmentFill 0 0
                      end
  | None => MkSegmentFill 0 0
  end.

Definition is_parameter_write (s : FlashStep) : bool :=
  match s with
  | FsWriteRelMem _ image _ => bool_decide (ir_kind image = ImageParameters)
  | _ => false
  end.

(** What the second pass makes of a step: the step it keeps, if any, and the
    segments written so far; [next] is the step after it. *)
Definition pass2_step (st : Pass1) (par_allocations : gmap (option Z) (u32 * SegmentFill)) (i : nat)
    (step : FlashStep) (next : option FlashStep) (written : gset text) : option FlashStep * gset text :=
  let keep (b : bool) := (if b then Some step else None, written) in
  match step with
  | FsUnload target _ | FsStartLoading target | FsLoadCompleted target =>
      keep (bool_decide (target ∈ p1_lsms st))
  | FsAllocateSegment size target _ =>
      if bool_decide (i ∈ p1_kept_allocs st)
      then (Some (FsAllocateSegment size target (keeping_fill par_allocations target)), written)
      else (None, written)
  | FsWriteRelMem _ image _ =>
      if negb (bool_decide (ir_kind image = ImageParameters)) then (None, written) else
      if bool_decide (ir_segment_id image ∈ written) then (None, written)
      else (Some step, {[ ir_segment_id image ]} ∪ written)
  | FsWriteProp (PropIndex obj_idx) _ _ _ _ _ _ | FsLoadImageProp obj_idx _ _ _ _ =>
      keep (bool_decide (obj_idx ∈ p1_objects st))
  | FsCompareProp _ _ _ _ _ | FsCompareRelMem _ _ _ _ _ | FsRestart | FsDelay _ => keep true
  | FsEnableVerifyMode => keep (match next with Some s => is_parameter_write s | None => false end)
  | _ => (None, written)
  end.

Fixpoint pass2 (st : Pass1) (par_allocations : gmap (option Z) (u32 * SegmentFill)) (i : nat)
    (steps : list FlashStep) (written : gset text) : list FlashStep :=
  match steps with
  | [] => []
  | s :: steps =>
      let '(kept, written) := pass2_step st par_allocations i s (head steps) written in
      option_list kept ++ pass2 st par_allocations (S i) steps written
  end.

Definition system_b_parameter_steps (p : FlashPlan) (regions : ParamRegions)
    : result PartialPlanError (list FlashStep) :=
  st ← pass1 regions 0 (fp_steps p) pass1_start;
  if (p1_writes st =? 0)%nat then Err NoParameterSegment
  else Ok (pass2 st (fp_par_allocations p) 0 (fp_steps p) ∅).

(** ** The steps of a System 7 device *)

Definition carries_params (p : FlashPlan) (segment : text) : bool :=
  match fp_param_images p !! segment with
  | Some b => negb (bool_decide (b = []))
  | None => false
  end.

Fixpoint sys7_lsms (p : FlashPlan) (regions : ParamRegions) (steps : list FlashStep) (lsms : gset Z)
    : result PartialPlanError (gset Z) :=
  match steps with
  | [] => Ok lsms
  | FsSys7AbsSegment lsm _ _ _ _ _ _ (Some image) :: steps =>
      if carries_params p (ir_segment_id image) then
        if bool_decide (is_Some (regions !! ir_segment_id image))
        then sys7_lsms p regions steps ({[ lsm ]} ∪ lsms)
        else Err (UnreadableSegment (ir_segment_id image))
      else sys7_lsms p regions steps lsms
  | _ :: steps => sys7_lsms p regions steps lsms
  end.

(** The plain absolute write a parameter segment becomes. *)
Definition sys7_parameter_write (p : FlashPlan) (regions : ParamRegions) (address : u32) (image : ImageRef) : FlashStep :=
  let segment := ir_segment_id image in
  FsWriteMem
    (match regions !! segment with
     | Some region => pr_address region
     | None => saturating_sub address (as_u32 (Z.of_nat (ir_offset image)))
     end)
    (MkImageRef segment ImageParameters
       (match fp_images p !! segment with Some b => length b | None => ir_len image end) 0).

Definition sys7_step (p : FlashPlan) (regions : ParamRegions) (lsms : gset Z) (step : FlashStep) (written : gset text)
    : option FlashStep * gset text :=
  match step with
  | FsSys7StartLoading lsm | FsSys7LoadCompleted lsm =>
      (if bool_decide (lsm ∈ lsms) then Some step else None, written)
  | FsSys7AbsSegment _ address _ _ _ _ _ (Some image) =>
      if negb (carries_params p (ir_segment_id image)) || bool_decide (ir_segment_id image ∈ written)
      then (None, written)
      else (Some (sys7_parameter_write p regions address image), {[ ir_segment_id image ]} ∪ written)
  | FsSys7CompareMem _ _ | FsCompareProp _ _ _ _ _ | FsLoadImageProp _ _ _ _ _
  | FsRestart | FsDelay _ | FsEnableVerifyMode => (Some step, written)
  | _ => (None, written)
  end.

Fixpoint sys7_steps (p : FlashPlan) (regions : ParamRegions) (lsms : gset Z) (steps : list FlashStep) (written : gset text)
    : list FlashStep :=
  match steps with
  | [] => []
  | s :: steps =>
      let '(kept, written) := sys7_step p regions lsms s written in
      option_list kept ++ sys7_steps p regions lsms steps written
  end.

Definition sys7_parameter_steps (p : FlashPlan) (regions : ParamRegions)
    : result PartialPlanError (list FlashStep) :=
  lsms ← sys7_lsms p regions (fp_steps p) ∅;
  if bool_decide (lsms = ∅) then Err NoParameterSegment
  else Ok (sys7_steps p regions lsms (fp_steps p) ∅).

(** ** The images *)

(** The segments the steps write, with what the device holds of them. *)
Definition partial_baseline (regions : ParamRegions) (steps : list FlashStep) : gmap text bytes :=
  foldl (fun m step =>
    match step with
    | FsWriteMem _ image | FsWriteRelMem _ image _ =>
        match regions !! ir_segment_id image with
        | Some r => <[ir_segment_id image := pr_bytes r]> m
        | None => m
        end
    | _ => m
    end) ∅ steps.

Definition is_placed (placed : PlacedOctets) (segment : text) (i : nat) : bool :=
  match placed !! segment with
  | Some octets => bool_decide (Z.of_nat i ∈ octets)
  | None => false
  end.

(** The loop over the octets of an image, from the [i]th: the image with the
    device's octets where no parameter is placed, and the octets left alone
    although they differ. *)
Fixpoint blend (placed : nat -> bool) (mask : option bytes) (current : bytes) (i : nat) (image : bytes)
    : bytes * list (nat * u8) :=
  match image with
  | [] => ([], [])
  | byte :: rest =>
      match current !! i with
      | None => (image, [])
      | Some held =>
          let '(rest, skipped) := blend placed mask current (S i) rest in
          if placed i then (byte :: rest, skipped)
          else (held :: rest,
                if writable mask i && negb (byte =? held) then (i, byte) :: skipped else skipped)
      end
  end.

(** The image and the octets left alone of one segment of the baseline. *)
Definition blend_segment (p : FlashPlan) (segment : text) (current : bytes) : option (bytes * list (nat * u8)) :=
  image ← fp_images p !! segment;
  Some (blend (is_placed (fp_placed p) segment) (segment_mask p segment) current 0 image).

(** The blended segments of the baseline. *)
Definition blended (p : FlashPlan) (baseline : gmap text bytes) : gmap text (bytes * list (nat * u8)) :=
  map_imap (blend_segment p) baseline.

Definition unless_empty {A} (l : list A) : option (list A) :=
  match l with
  | [] => None
  | _ => Some l
  end.

Definition parameters_only (p : FlashPlan) (regions : ParamRegions) : result PartialPlanError FlashPlan :=
  steps ← (if is_sys7 p then sys7_parameter_steps p regions else system_b_parameter_steps p regions);
  let baseline := partial_baseline regions steps in
  let segments := blended p baseline in
  Ok (MkFlashPlan (fp_identity p) (fp_device_mask p) steps
        (fmap fst segments ∪ fp_images p) (fp_param_images p)
        (fp_spliced_from_template p) (fp_sys7 p) (fp_confirmed_restart p) baseline (fp_placed p)
        (omap (fun b => unless_empty (snd b)) segments)
        (map_imap (fun segment _ => option_map pr_address (regions !! segment)) baseline)
        (fp_security_capacity p) (fp_user_memory_above_64k p) ∅ false (fp_kept p)).

(** ** What is written and what is left alone *)

Definition unwritten_bits (p : FlashPlan) : gmap text (list (nat * u8)) :=
  map_imap (fun segment octets =>
    Some (map (fun '(i, model) =>
      let held := default model (current ← fp_baseline p !! segment; current !! i) in
      (i, Z.lxor model held)) octets)) (fp_unwritten p).

(** [if let Some(byte) = image.get_mut(i) { *byte = model }], for each. *)
Definition put_back (octets : list (nat * u8)) (image : bytes) : bytes :=
  foldl (fun image '(i, model) => <[i := model]> image) image octets.

Definition model_image (p : FlashPlan) (segment : text) : option bytes :=
  image ← fp_images p !! segment;
  Some (put_back (default [] (fp_unwritten p !! segment)) image).

(** The octets of [desired] that the download writes, from the [i]th on. *)
Fixpoint changed_from (mask : option bytes) (current : bytes) (i : nat) (desired : bytes) : list (nat * u8) :=
  match desired with
  | [] => []
  | b :: desired =>
      let rest := changed_from mask current (S i) desired in
      if writable mask i && negb (bool_decide (current !! i = Some b))
      then (i, match current !! i with Some c => Z.lxor c b | None => 255 end) :: rest
      else rest
  end.

Definition changed_bits (p : FlashPlan) : gmap text (list (nat * u8)) :=
  map_imap (fun segment current =>
    unless_empty (changed_from (segment_mask p segment) current 0 (default [] (fp_images p !! segment))))
    (fp_baseline p).

Definition changed_octets (p : FlashPlan) : nat :=
  map_fold (fun _ changed total => (length changed + total)%nat) O (changed_bits p).

(** ** The way back from a backup *)

(** One turn of the loop: the octet after it, and whether the backup's octet is
    left out. *)
Definition restore_octet (writes : bool) (restored held : option u8) (byte : u8) : u8 * option u8 :=
  match writes, restored, held with
  | true, Some b, _ => (b, None)
  | _, _, Some h => (h, b ← restored; if b =? h then None else Some b)
  | _, _, None => (byte, None)
  end.

Fixpoint restore_from (writes : nat -> bool) (backup : option bytes) (current : bytes) (i : nat) (image : bytes)
    : bytes * list (nat * u8) :=
  match image with
  | [] => ([], [])
  | byte :: image =>
      let '(byte, left_out) := restore_octet (writes i) (b ← backup; b !! i) (current !! i) byte in
      let '(image, skipped) := restore_from writes backup current (S i) image in
      (byte :: image, match left_out with Some b => (i, b) :: skipped | None => skipped end)
  end.

Definition restore_segment (p : FlashPlan) (wanted : gmap text bytes) (skip : PlacedOctets) (segment : text) (current : bytes)
    : option (bytes * list (nat * u8)) :=
  image ← fp_images p !! segment;
  let writes i := is_placed (fp_placed p) segment i && negb (is_placed skip segment i) in
  Some (restore_from writes (wanted !! segment) current 0 image).

Definition restoring (wanted : gmap text bytes) (skip : PlacedOctets) (p : FlashPlan) : FlashPlan :=
  let segments := map_imap (restore_segment p wanted skip) (fp_baseline p) in
  MkFlashPlan (fp_identity p) (fp_device_mask p) (fp_steps p) (fmap fst segments ∪ fp_images p) (fp_param_images p)
    (fp_spliced_from_template p) (fp_sys7 p) (fp_confirmed_restart p) (fp_baseline p) (fp_placed p)
    (omap (fun b => unless_empty (snd b)) segments) (fp_baseline_address p) (fp_security_capacity p)
    (fp_user_memory_above_64k p) (fp_par_allocations p) (fp_par_procedure p) (fp_kept p).

(** ** The octets of a blended image *)

Lemma blend_length placed mask current image : forall i, length (fst (blend placed mask current i image)) = length image.
Proof.
  induction image as [|byte image IH]; intros i; [done|]. cbn [blend]. destruct (current !! i); [|done].
  specialize (IH (S i)). destruct (blend _ _ _ (S i) image). destruct (placed i); cbn in *; by rewrite IH.
Qed.

Lemma blend_octet placed mask current image : forall i k byte, image !! k = Some byte ->
  fst (blend placed mask current i image) !! k =
  Some (if placed (i + k)%nat then byte
        else if bool_decide (i + k < length current)%nat then nth (i + k) current 0 else byte).
Proof.
  induction image as [|b image IH]; intros i k byte Hk; [done|]. cbn [blend].
  destruct (current !! i) as [held|] eqn:Eh.
  - specialize (IH (S i)). destruct (blend placed mask current (S i) image) as [rest skipped]. cbn [fst] in IH.
    destruct k as [|k].
    + cbn in Hk. injection Hk as ->. rewrite Nat.add_0_r. pose proof (lookup_lt_Some _ _ _ Eh).
      destruct (placed i); cbn; [done|]. rewrite bool_decide_true by done.
      by rewrite (nth_lookup_Some _ _ 0 held).
    + cbn in Hk. specialize (IH k byte Hk). rewrite Nat.add_succ_comm in IH.
      destruct (placed i); cbn [fst]; cbn [lookup list_lookup]; exact IH.
  - cbn [fst]. rewrite Hk. apply lookup_ge_None in Eh. rewrite bool_decide_false by lia. by destruct (placed _).
Qed.

Lemma blend_skipped placed mask current image : forall i j model,
  In (j, model) (snd (blend placed mask current i image)) <->
  exists k held, j = (i + k)%nat /\ image !! k = Some model /\ current !! j = Some held /\
    placed j = false /\ writable mask j = true /\ model <> held.
Proof.
  induction image as [|b image IH]; intros i j model; cbn [blend].
  { cbn. split; [done|]. by intros (k & held & _ & H & _). }
  destruct (current !! i) as [held|] eqn:Eh.
  2: { cbn. split; [done|]. intros (k & held & -> & _ & H & _). apply lookup_lt_Some in H.
       apply lookup_ge_None in Eh. lia. }
  specialize (IH (S i) j model). destruct (blend placed mask current (S i) image) as [rest skipped]. cbn [snd] in IH.
  assert (Hrest : In (j, model) skipped <-> exists k held0, j = (i + S k)%nat /\ image !! k = Some model /\
    current !! j = Some held0 /\ placed j = false /\ writable mask j = true /\ model <> held0).
  { rewrite IH. split; intros (k & h & -> & H); exists k, h; (split; [lia|]);
      by replace (i + S k)%nat with (S i + k)%nat in * by lia. }
  destruct (placed i) eqn:Ep; cbn [snd].
  - rewrite Hrest. split.
    + intros (k & h & ? & H). by exists (S k), h.
    + intros ([|k] & h & -> & H); [rewrite Nat.add_0_r in H; by destruct H as (_ & _ & H & _); congruence|by exists k, h].
  - destruct (writable mask i && negb (b =? held)) eqn:Ew.
    + apply andb_true_iff in Ew as [Ew En%negb_true_iff%Z.eqb_neq]. cbn [In]. rewrite Hrest. split.
      * intros [[= <- <-]|(k & h & ? & H)]; [exists O, held; by rewrite Nat.add_0_r|by exists (S k), h].
      * intros ([|k] & h & -> & H); [left; rewrite Nat.add_0_r; destruct H as (H & _); cbn in H; congruence|right; by exists k, h].
    + rewrite Hrest. split.
      * intros (k & h & ? & H). by exists (S k), h.
      * intros ([|k] & h & -> & H); [exfalso|by exists k, h]. rewrite Nat.add_0_r in H.
        destruct H as (H1 & H2 & _ & H3 & H4). rewrite H3 in Ew. cbn in H1, Ew. injection H1 as ->.
        rewrite Eh in H2. injection H2 as ->. apply negb_false_iff, Z.eqb_eq in Ew. done.
Qed.

(** ** The octets a download changes *)

(** The memory once the bits of the changed octets are flipped. *)
Definition flip (changed : list (nat * u8)) (memory : bytes) : bytes :=
  foldl (fun memory '(i, bits) => alter (Z.lxor bits) i memory) memory changed.

Lemma flip_length changed : forall memory, length (flip changed memory) = length memory.
Proof.
  induction changed as [|[i bits] changed IH]; intros memory; [done|]. unfold flip in *. cbn [foldl].
  by rewrite IH, length_alter.
Qed.

Lemma flip_changed_from mask current desired : forall i memory k held,
  (forall k, (i <= k)%nat -> memory !! k = current !! k) -> memory !! k = Some held ->
  flip (changed_from mask current i desired) memory !! k =
  Some (if decide (i <= k)%nat then
          match desired !! (k - i)%nat with
          | Some b => if writable mask k then b else held
          | None => held
          end
        else held).
Proof.
  induction desired as [|b desired IH]; intros i memory k held Hm Hk; cbn [changed_from].
  { cbn. rewrite Hk. by destruct (decide _). }
  assert (Hnext : forall m', m' !! k = Some held -> (forall k, (S i <= k)%nat -> m' !! k = current !! k) ->
    (k = i -> held = if writable mask i then b else held) ->
    flip (changed_from mask current (S i) desired) m' !! k =
    Some (if decide (i <= k)%nat then
            match (b :: desired) !! (k - i)%nat with
            | Some b => if writable mask k then b else held
            | None => held
            end
          else held)).
  { intros m' Hk' Hm' Hi. rewrite (IH (S i) m' k held) by done. f_equal.
    destruct (decide (k = i)) as [->|Hne].
    - rewrite decide_False by lia. rewrite decide_True by lia. rewrite Nat.sub_diag. cbn. by apply Hi.
    - destruct (decide (S i <= k)%nat); [|by rewrite decide_False by lia].
      rewrite decide_True by lia. by replace (k - i)%nat with (S (k - S i)) by lia. }
  assert (Htail : forall k, (S i <= k)%nat -> memory !! k = current !! k) by (intros; apply Hm; lia).
  destruct (writable mask i) eqn:Ew; cbn [andb]; [|by apply Hnext].
  destruct (bool_decide_reflect (current !! i = Some b)) as [Ec|Ec]; cbn [negb].
  - apply Hnext; [done|done|]. intros ->. rewrite Hm in Hk by lia. congruence.
  - unfold flip. cbn [foldl]. fold (flip (changed_from mask current (S i) desired)
      (alter (Z.lxor (match current !! i with Some c => Z.lxor c b | None => 255 end)) i memory)).
    destruct (decide (k = i)) as [->|Hne].
    + rewrite (IH (S i) _ i b).
      * rewrite decide_False, decide_True, Nat.sub_diag by lia. cbn. by rewrite Ew.
      * intros k Hk'. rewrite list_lookup_alter_ne by lia. by apply Htail.
      * rewrite list_lookup_alter, Hk. cbn. rewrite Hm in Hk by lia. rewrite Hk, decide_True by done. f_equal.
        by rewrite Z.lxor_comm, <- Z.lxor_assoc, Z.lxor_nilpotent, Z.lxor_0_l.
    + rewrite (IH (S i) _ k held).
      * f_equal. destruct (decide (S i <= k)%nat); [|by rewrite decide_False by lia].
        rewrite decide_True by lia. by replace (k - i)%nat with (S (k - S i)) by lia.
      * intros k' Hk'. rewrite list_lookup_alter_ne by lia. by apply Htail.
      * by rewrite list_lookup_alter_ne.
Qed.

(** The changed octets are those that differ and may be written. *)
Lemma in_changed_from mask current desired : forall i j bits,
  In (j, bits) (changed_from mask current i desired) <->
  exists k b, j = (i + k)%nat /\ desired !! k = Some b /\ writable mask j = true /\ current !! j <> Some b /\
    bits = match current !! j with Some c => Z.lxor c b | None => 255 end.
Proof.
  induction desired as [|b desired IH]; intros i j bits; cbn [changed_from].
  { cbn. split; [done|]. by intros (k & b & _ & H & _). }
  assert (Hrest : In (j, bits) (changed_from mask current (S i) desired) <->
    exists k b0, j = (i + S k)%nat /\ desired !! k = Some b0 /\ writable mask j = true /\ current !! j <> Some b0 /\
    bits = match current !! j with Some c => Z.lxor c b0 | None => 255 end).
  { rewrite IH. split; intros (k & b0 & -> & H); exists k, b0; (split; [lia|]);
      by replace (i + S k)%nat with (S i + k)%nat in * by lia. }
  destruct (writable mask i && negb (bool_decide (current !! i = Some b))) eqn:E.
  - apply andb_true_iff in E as [Ew En%negb_true_iff%bool_decide_eq_false]. cbn [In]. rewrite Hrest. split.
    + intros [[= <- <-]|(k & b0 & ? & H)]; [exists O, b; rewrite Nat.add_0_r; done|by exists (S k), b0].
    + intros ([|k] & b0 & -> & H); [left|right; by exists k, b0]. rewrite Nat.add_0_r in *.
      destruct H as ([= ->] & _ & _ & ->). done.
  - rewrite Hrest. split.
    + intros (k & b0 & ? & H). by exists (S k), b0.
    + intros ([|k] & b0 & -> & H); [exfalso|by exists k, b0]. rewrite Nat.add_0_r in *.
      destruct H as ([= ->] & Hw & Hc & _). rewrite Hw in E. by rewrite bool_decide_false in E.
Qed.

Lemma put_back_length octets : forall image, length (put_back octets image) = length image.
Proof.
  induction octets as [|[i m] octets IH]; intros image; [done|]. unfold put_back in *. cbn [foldl].
  by rewrite IH, length_insert.
Qed.

Lemma put_back_octet octets k target : (forall model, In (k, model) octets -> model = target) ->
  forall image byte, image !! k = Some byte -> In (k, target) octets \/ byte = target ->
  put_back octets image !! k = Some target.
Proof.
  induction octets as [|[i m] octets IH]; intros Hu image byte Hk Ht.
  { destruct Ht as [[]| ->]. exact Hk. }
  unfold put_back in *. cbn [foldl]. destruct (decide (i = k)) as [->|Hne].
  - apply (IH ltac:(intros; apply Hu; by right) _ m).
    + apply list_lookup_insert_eq. by eapply lookup_lt_Some.
    + right. apply Hu. by left.
  - apply (IH ltac:(intros; apply Hu; by right) _ byte).
    + by rewrite list_lookup_insert_ne.
    + destruct Ht as [[[= -> _]|H]|H]; [done|by left|by right].
Qed.

(** ** The blended plan *)

(** A download cut down, taken apart: the segments of its baseline. *)
Lemma parameters_only_parts p regions q segment current image :
  parameters_only p regions = Ok q -> fp_baseline q !! segment = Some current ->
  fp_images p !! segment = Some image ->
  let b := blend (is_placed (fp_placed p) segment) (segment_mask p segment) current 0 image in
  fp_images q !! segment = Some (fst b) /\ fp_placed q = fp_placed p /\
  segment_mask q segment = segment_mask p segment /\
  default [] (fp_unwritten q !! segment) = snd b.
Proof.
  unfold parameters_only. intros (steps & _ & H)%bind_ok Hb Hi. injection H as <-.
  cbn [fp_baseline fp_images fp_placed fp_unwritten segment_mask fp_sys7] in *. unfold blended.
  set (bl := partial_baseline regions steps) in *.
  assert (Eb : map_imap (blend_segment p) bl !! segment
               = Some (blend (is_placed (fp_placed p) segment) (segment_mask p segment) current 0 image)).
  { rewrite map_lookup_imap, Hb. cbn. unfold blend_segment. by rewrite Hi. }
  split; [|split; [done|split; [done|]]].
  - rewrite lookup_union_l'; rewrite lookup_fmap, Eb; [done|by eexists].
  - rewrite lookup_omap, Eb. cbn. by destruct (snd _).
Qed.

(** ** The memory after the steps

    What a write step leaves of a segment's memory: the part of the image it streams,
    where the segment's mask lets it, and the rest as it was. *)
Definition write_masked (mask : option bytes) (at_ : nat) (part memory : bytes) : bytes :=
  imap (fun i held => if writable mask i && (at_ <=? i)%nat then default held (part !! (i - at_)%nat) else held) memory.

Definition step_memory (q : FlashPlan) (segment : text) (memory : bytes) (s : FlashStep) : bytes :=
  match step_image s with
  | Some image =>
      if bool_decide (ir_segment_id image = segment)
      then write_masked (segment_mask q segment) (ir_offset image) (image_part (default [] (fp_images q !! segment)) image) memory
      else memory
  | None => memory
  end.

(** The memory of a segment once the steps of a download have run. *)
Definition memory_after (q : FlashPlan) (segment : text) (memory : bytes) : bytes :=
  foldl (step_memory q segment) memory (fp_steps q).

(** The step streams the octet of the segment's image. *)
Definition streamed_by (segment : text) (i : nat) (s : FlashStep) : bool :=
  match step_image s with
  | Some image =>
      bool_decide (ir_segment_id image = segment)
      && (ir_offset image <=? i)%nat && (i <? ir_offset image + ir_len image)%nat
  | None => false
  end.

Definition streamed (q : FlashPlan) (segment : text) (i : nat) : bool := existsb (streamed_by segment i) (fp_steps q).

Lemma image_part_lookup octets image j :
  image_part octets image !! j = if (j <? ir_len image)%nat then octets !! (ir_offset image + j)%nat else None.
Proof.
  unfold image_part, slice. destruct (Nat.ltb_spec j (ir_len image)) as [Hj|Hj].
  - destruct (decide (ir_offset image + j < length octets)%nat) as [Hl|Hl].
    + rewrite lookup_take_lt, lookup_drop by lia. f_equal. lia.
    + rewrite (proj2 (lookup_ge_None octets _)) by lia. apply lookup_ge_None. rewrite length_take, length_drop. lia.
  - apply lookup_ge_None. rewrite length_take, length_drop. lia.
Qed.

Lemma step_memory_octet q segment memory s i held : memory !! i = Some held ->
  step_memory q segment memory s !! i =
  Some (if streamed_by segment i s && writable (segment_mask q segment) i
        then default held (default [] (fp_images q !! segment) !! i) else held).
Proof.
  intros Hi. unfold step_memory, streamed_by. destruct (step_image s) as [image|]; [|done].
  case_bool_decide; [|by rewrite Hi]. unfold write_masked. rewrite list_lookup_imap, Hi. cbn [fmap option_fmap option_map].
  f_equal. rewrite image_part_lookup, andb_comm.
  destruct (writable _ i), (Nat.leb_spec (ir_offset image) i); cbn [andb]; try (by rewrite ?andb_false_r).
  replace (ir_offset image + (i - ir_offset image))%nat with i by lia.
  destruct (Nat.ltb_spec (i - ir_offset image) (ir_len image)), (Nat.ltb_spec i (ir_offset image + ir_len image)); (done || lia).
Qed.

Lemma memory_after_octet q segment memory i held : memory !! i = Some held ->
  memory_after q segment memory !! i =
  Some (if streamed q segment i && writable (segment_mask q segment) i
        then default held (default [] (fp_images q !! segment) !! i) else held).
Proof.
  unfold memory_after, streamed. revert memory held. induction (fp_steps q) as [|s steps IH]; intros memory held Hi; [done|].
  cbn [foldl existsb]. rewrite (IH _ _ (step_memory_octet q segment memory s i held Hi)). f_equal.
  destruct (streamed_by segment i s), (existsb _ steps), (writable _ i); cbn; try done.
  by destruct (_ !! i).
Qed.

Lemma memory_after_length q segment memory : length (memory_after q segment memory) = length memory.
Proof.
  unfold memory_after. revert memory. induction (fp_steps q) as [|s steps IH]; intros memory; [done|]. cbn [foldl]. rewrite IH.
  unfold step_memory. destruct (step_image s); [|done]. destruct (bool_decide _); [|done]. apply length_imap.
Qed.

(** What the device would hold of a segment were every reported change written. *)
Definition as_reported (q : FlashPlan) (segment : text) (memory : bytes) : bytes :=
  flip (default [] (changed_bits q !! segment)) memory.

Lemma changed_of_segment q segment current image : fp_baseline q !! segment = Some current ->
  fp_images q !! segment = Some image ->
  default [] (changed_bits q !! segment) = changed_from (segment_mask q segment) current 0 image.
Proof.
  intros Hb Hi. unfold changed_bits. rewrite map_lookup_imap, Hb. cbn. rewrite Hi. cbn.
  by destruct (changed_from _ _ _ _).
Qed.

Lemma reported_octet q segment current image i held : fp_baseline q !! segment = Some current ->
  fp_images q !! segment = Some image -> current !! i = Some held ->
  as_reported q segment current !! i =
  Some (match image !! i with
        | Some b => if writable (segment_mask q segment) i then b else held
        | None => held
        end).
Proof.
  intros Hb Hi Hc. unfold as_reported. rewrite (changed_of_segment q segment current image) by done.
  rewrite (flip_changed_from _ current image 0 current i held) by done.
  rewrite decide_True by lia. by rewrite Nat.sub_0_r.
Qed.

(** The report is what the steps do, where they write. *)
Lemma reported_is_written q segment current image i : fp_baseline q !! segment = Some current ->
  fp_images q !! segment = Some image -> streamed q segment i = true ->
  as_reported q segment current !! i = memory_after q segment current !! i.
Proof.
  intros Hb Hi Hs. destruct (current !! i) as [held|] eqn:Hc.
  - rewrite (reported_octet q segment current image i held), (memory_after_octet q segment current i held) by done.
    rewrite Hs, Hi. cbn. destruct (image !! i), (writable _ i); done.
  - apply lookup_ge_None in Hc. rewrite !(proj2 (lookup_ge_None _ i)); [done| |].
    + by rewrite memory_after_length.
    + unfold as_reported. by rewrite flip_length.
Qed.

(** Each octet after the download: the model's where a parameter is placed and a
    step streams it. *)
Lemma downloaded_placed p regions q segment current image i held :
  parameters_only p regions = Ok q -> fp_baseline q !! segment = Some current ->
  fp_images p !! segment = Some image -> current !! i = Some held ->
  memory_after q segment current !! i =
  Some (if streamed q segment i && is_placed (fp_placed p) segment i && writable (segment_mask p segment) i
        then default held (image !! i) else held).
Proof.
  intros Hp Hb Hi Hc. destruct (parameters_only_parts _ _ _ _ _ _ Hp Hb Hi) as (Hi' & Epl & Em & Eu).
  set (b := blend _ _ _ _ _) in *.
  rewrite (memory_after_octet q segment current i held Hc), Hi', Em. cbn [default]. f_equal.
  destruct (image !! i) as [byte|] eqn:Ei.
  - unfold b. cbn [from_option id option_rect]. rewrite (blend_octet _ _ _ _ 0 i byte Ei). cbn [Nat.add].
    rewrite bool_decide_true by (by eapply lookup_lt_Some). rewrite (nth_lookup_Some _ _ 0 held) by done.
    by destruct (streamed q segment i), (is_placed _ _ i), (writable _ i).
  - apply lookup_ge_None in Ei. cbn [from_option id option_rect]. rewrite (proj2 (lookup_ge_None (fst b) i)).
    + by destruct (streamed q segment i), (is_placed _ _ i), (writable _ i).
    + unfold b. by rewrite blend_length.
Qed.

(** ** The parts a parameter-only download streams *)

(** A parameter write of the segment. *)
Definition writes_parameters (segment : text) (s : FlashStep) : bool :=
  match s with
  | FsWriteRelMem _ image _ => bool_decide (ir_kind image = ImageParameters) && bool_decide (ir_segment_id image = segment)
  | _ => false
  end.

(** Another step of the second pass streams nothing. *)
Lemma pass2_step_other st par i s next written : is_parameter_write s = false ->
  snd (pass2_step st par i s next written) = written /\
  forall s', fst (pass2_step st par i s next written) = Some s' -> step_image s' = None.
Proof.
  intros Hs. destruct s; cbn [pass2_step is_parameter_write] in *; try (by split).
  all: try (destruct object; [|by split]); try (destruct next as [n|]; [destruct (is_parameter_write n)|by split]).
  all: try (rewrite Hs; cbn [negb]; by split).
  all: try (destruct (bool_decide _)); (split; [done|]); intros s'; cbn [fst]; intros E; try done; by injection E as <-.
Qed.

Lemma streamed_none segment k s : step_image s = None -> streamed_by segment k s = false.
Proof. unfold streamed_by. by intros ->. Qed.

(** Of the parameter writes of a segment the second pass keeps the first. *)
Lemma pass2_streams st par segment k steps : forall i written,
  existsb (streamed_by segment k) (pass2 st par i steps written)
  = if bool_decide (segment ∈ written) then false
    else match List.find (writes_parameters segment) steps with
         | Some s => streamed_by segment k s
         | None => false
         end.
Proof.
  induction steps as [|s steps IH]; intros i written; [by destruct (bool_decide _)|]. cbn [pass2 List.find].
  destruct (is_parameter_write s) eqn:Ep.
  - destruct s; try done. cbn [is_parameter_write] in Ep. cbn [pass2_step writes_parameters].
    rewrite Ep. cbn [negb andb]. destruct (bool_decide_reflect (ir_segment_id image ∈ written)) as [Hin|Hin].
    + change (option_list None) with (@nil FlashStep). cbn [app]. rewrite IH. destruct (bool_decide_reflect (ir_segment_id image = segment)) as [<-|]; [|done].
      by rewrite bool_decide_true.
    + match goal with |- context [option_list (Some ?x)] => change (option_list (Some x)) with [x] end. cbn [app existsb]. rewrite IH.
      destruct (bool_decide_reflect (ir_segment_id image = segment)) as [<-|Hne].
      * rewrite (bool_decide_true (_ ∈ {[ _ ]} ∪ _)) by set_solver. by rewrite (bool_decide_false _ Hin), orb_false_r.
      * rewrite (bool_decide_ext (segment ∈ {[ir_segment_id image]} ∪ written) (segment ∈ written)) by set_solver.
        unfold streamed_by at 1. cbn [step_image]. by rewrite (bool_decide_false _ Hne).
  - destruct (pass2_step_other st par i s (head steps) written Ep) as [Ew Ek].
    destruct (pass2_step st par i s (head steps) written) as [kept written']. cbn [fst snd] in *. subst written'.
    rewrite existsb_app, IH.
    assert (Ewr : writes_parameters segment s = false) by (destruct s; try done; cbn in *; by rewrite Ep).
    rewrite Ewr. destruct kept as [s'|]; [|done]. change (option_list (Some s')) with [s']. cbn [existsb]. by rewrite streamed_none by by apply Ek.
Qed.

Lemma sys7_kept p regions lsms steps : forall written s, In s (sys7_steps p regions lsms steps written) ->
  exists s0 written', In s0 steps /\ fst (sys7_step p regions lsms s0 written') = Some s.
Proof.
  induction steps as [|s0 steps IH]; intros written s; [done|]. cbn [sys7_steps].
  destruct (sys7_step p regions lsms s0 written) as [kept written'] eqn:E. intros [H|H]%in_app_or.
  - exists s0, written. split; [by left|]. rewrite E. destruct kept; [|done]. by destruct H as [->|[]].
  - destruct (IH _ _ H) as (s1 & w & Hin & Hs). exists s1, w. split; [by right|done].
Qed.

(** A segment of the baseline is one that a step writes. *)
Lemma baseline_written regions steps segment current :
  partial_baseline regions steps !! segment = Some current ->
  exists s image, In s steps /\ ir_segment_id image = segment /\
    ((exists address, s = FsWriteMem address image) \/ exists offset target, s = FsWriteRelMem offset image target).
Proof.
  unfold partial_baseline. induction steps as [|s steps IH] using rev_ind; [done|]. rewrite foldl_app. cbn [foldl]. intros H.
  assert (Hrest : partial_baseline regions steps !! segment = Some current ->
    exists s0 image, In s0 (steps ++ [s]) /\ ir_segment_id image = segment /\
      ((exists address, s0 = FsWriteMem address image) \/ exists offset target, s0 = FsWriteRelMem offset image target)).
  { intros H'. destruct (IH H') as (s0 & image & Hin & Hi). exists s0, image. split; [apply in_app_iff; by left|done]. }
  destruct s; try (by apply Hrest).
  all: destruct (regions !! ir_segment_id image); [|by apply Hrest].
  all: destruct (decide (ir_segment_id image = segment)) as [E|Hne]; [|rewrite lookup_insert_ne in H by done; by apply Hrest].
  all: eexists _, image; (split; [apply in_app_iff; right; by left|]); (split; [done|]); first [left; by repeat eexists | right; by repeat eexists].
Qed.

(** On a System 7 device a segment of the baseline is one write, of the whole image. *)
Lemma sys7_streams p regions lsms segment current image k steps written :
  partial_baseline regions (sys7_steps p regions lsms steps written) !! segment = Some current ->
  fp_images p !! segment = Some image -> (k < length image)%nat ->
  existsb (streamed_by segment k) (sys7_steps p regions lsms steps written) = true.
Proof.
  intros Hb Hi Hk. destruct (baseline_written _ _ _ _ Hb) as (s & im & Hin & Hid & Hs).
  apply existsb_exists. exists s. split; [done|].
  destruct (sys7_kept _ _ _ _ _ _ Hin) as (s0 & w & _ & E).
  assert (Hw : exists address image0, s = sys7_parameter_write p regions address image0).
  { destruct s0; cbn [sys7_step] in E; try done; try (injection E as <-; destruct Hs as [[? Hs]|(? & ? & Hs)]; done).
    - destruct (bool_decide _); [|done]. injection E as <-. destruct Hs as [[? Hs]|(? & ? & Hs)]; done.
    - destruct image0 as [image0|]; [|done]. destruct (_ || _); [done|]. injection E as <-. by eexists _, _.
    - destruct (bool_decide _); [|done]. injection E as <-. destruct Hs as [[? Hs]|(? & ? & Hs)]; done. }
  destruct Hw as (address & image0 & ->). unfold sys7_parameter_write in *.
  destruct Hs as [[a [= _ <-]]|(? & ? & Hs)]; [|done]. cbn [ir_segment_id] in Hid.
  unfold streamed_by. cbn [step_image ir_segment_id ir_offset ir_len]. rewrite Hid, Hi, bool_decide_true by done.
  cbn [andb Nat.leb]. apply Nat.ltb_lt. lia.
Qed.

Lemma parameters_only_streams p regions q segment current image i :
  parameters_only p regions = Ok q -> fp_baseline q !! segment = Some current ->
  fp_images p !! segment = Some image -> (i < length image)%nat ->
  streamed q segment i =
  if is_sys7 p then true
  else match List.find (writes_parameters segment) (fp_steps p) with
       | Some s => streamed_by segment i s
       | None => false
       end.
Proof.
  unfold parameters_only, streamed. intros (steps & Hs & H)%bind_ok Hb Hi Hl. injection H as <-. cbn [fp_steps fp_baseline] in *.
  destruct (is_sys7 p).
  - unfold sys7_parameter_steps in Hs. apply bind_ok in Hs as (lsms & _ & Hs).
    destruct (bool_decide _); [done|]. injection Hs as <-. by eapply sys7_streams.
  - unfold system_b_parameter_steps in Hs. apply bind_ok in Hs as (st & _ & Hs).
    destruct (p1_writes st =? 0)%nat; [done|]. injection Hs as <-. by rewrite pass2_streams, bool_decide_false by set_solver.
Qed.


Lemma restore_octet_at writes backup current image : forall i k byte, image !! k = Some byte ->
  fst (restore_from writes backup current i image) !! k =
  Some (fst (restore_octet (writes (i + k)%nat) (b ← backup; b !! (i + k)%nat) (current !! (i + k)%nat) byte)).
Proof.
  induction image as [|b image IH]; intros i k byte Hk; [done|]. cbn [restore_from].
  specialize (IH (S i)). destruct (restore_octet (writes i) _ _ b) as [b' out] eqn:Eo.
  destruct (restore_from _ _ _ (S i) image) as [rest passed]. cbn [fst] in *. destruct k as [|k].
  - cbn in Hk. injection Hk as ->. cbn. by rewrite Nat.add_0_r, Eo.
  - cbn in Hk. specialize (IH k byte Hk). rewrite Nat.add_succ_comm in IH. exact IH.
Qed.

Lemma restore_length writes backup current image : forall i,
  length (fst (restore_from writes backup current i image)) = length image.
Proof.
  induction image as [|b image IH]; intros i; [done|]. cbn [restore_from]. specialize (IH (S i)).
  destruct (restore_octet _ _ _ b). destruct (restore_from _ _ _ (S i) image). cbn in *. by rewrite IH.
Qed.

Lemma restoring_segment wanted skip q segment current image :
  fp_baseline q !! segment = Some current -> fp_images q !! segment = Some image ->
  fp_images (restoring wanted skip q) !! segment =
  Some (fst (restore_from (fun i => is_placed (fp_placed q) segment i && negb (is_placed skip segment i))
               (wanted !! segment) current 0 image)).
Proof.
  intros Hb Hi. unfold restoring. cbn [fp_images].
  assert (E : map_imap (restore_segment q wanted skip) (fp_baseline q) !! segment
              = Some (restore_from (fun i => is_placed (fp_placed q) segment i && negb (is_placed skip segment i))
                        (wanted !! segment) current 0 image)).
  { rewrite map_lookup_imap, Hb. cbn. unfold restore_segment. by rewrite Hi. }
  rewrite lookup_union_l'; rewrite lookup_fmap, E; [done|by eexists].
Qed.


(** ** The steps that are kept *)

(** The objects the steps allocate on, in order. *)
Definition allocated_targets (steps : list FlashStep) : list (option u32) :=
  omap (fun s => match s with FsAllocateSegment _ target _ => Some target | _ => None end) steps.

(** The machine a parameter write after [before] belongs to: its own object when
    something is allocated there, else the object of the last allocation. *)
Definition machine_of (before : list FlashStep) (target : option u32) : option u32 :=
  if bool_decide (target ∈ allocated_targets before) then target
  else default target (last (allocated_targets before)).

(** The machine holds a parameter image of the plan. *)
Definition holds_parameters (steps : list FlashStep) (machine : option u32) : Prop :=
  exists before offset image target after,
    steps = before ++ FsWriteRelMem offset image target :: after /\
    ir_kind image = ImageParameters /\ machine = machine_of before target.

(** What the first pass knows after the steps [before] of [steps]. *)
Record pass1_ok (steps before : list FlashStep) (st : Pass1) : Prop := MkPass1Ok {
  po_alloc_at : dom (p1_alloc_at st) = list_to_set (allocated_targets before);
  po_last_alloc : option_map fst (p1_last_alloc st) = last (allocated_targets before);
  po_lsms : forall machine, machine ∈ p1_lsms st -> holds_parameters steps machine;
  po_writes : p1_writes st = length (List.filter is_parameter_write before) }.

Lemma allocated_targets_snoc before s :
  allocated_targets (before ++ [s]) =
  allocated_targets before ++ (match s with FsAllocateSegment _ target _ => [target] | _ => [] end).
Proof. unfold allocated_targets. rewrite omap_app. by destruct s. Qed.

Lemma write_allocation_machine steps before st target : pass1_ok steps before st ->
  fst (write_allocation st target) = machine_of before target.
Proof.
  intros [Ha Hl _ _]. unfold write_allocation, machine_of.
  destruct (p1_alloc_at st !! target) eqn:E.
  - apply elem_of_dom_2 in E. rewrite Ha, elem_of_list_to_set in E. by rewrite bool_decide_true.
  - apply not_elem_of_dom in E. rewrite Ha, elem_of_list_to_set in E. rewrite bool_decide_false by done.
    rewrite <- Hl. by destruct (p1_last_alloc st) as [[]|].
Qed.

Lemma pass1_step_ok regions steps before s after st st' : steps = before ++ s :: after ->
  pass1_ok steps before st -> pass1_step regions (length before) s st = Ok st' ->
  pass1_ok steps (before ++ [s]) st'.
Proof.
  intros Es Hok H. pose proof Hok as [Ha Hl Hm Hw].
  assert (Hsame : allocated_targets (before ++ [s]) = allocated_targets before -> is_parameter_write s = false ->
    st' = st -> pass1_ok steps (before ++ [s]) st').
  { intros E Ep ->. split; [by rewrite E|by rewrite E|done|].
    rewrite List.filter_app, length_app, <- Hw. cbn. rewrite Ep. cbn. lia. }
  destruct s; cbn [pass1_step] in H;
    try (apply Hsame; [by rewrite allocated_targets_snoc, app_nil_r|done|by injection H]).
  - injection H as <-. split; cbn [p1_alloc_at p1_last_alloc p1_lsms p1_writes].
    + rewrite dom_insert_L, Ha, allocated_targets_snoc, list_to_set_app_L. cbn [list_to_set].
      by rewrite union_empty_r_L, union_comm_L.
    + by rewrite allocated_targets_snoc, last_snoc.
    + done.
    + rewrite List.filter_app, length_app, <- Hw. cbn. lia.
  - destruct (bool_decide_reflect (ir_kind image = ImageParameters)) as [Ek|Ek]; cbn [negb] in H.
    2: { apply Hsame; [by rewrite allocated_targets_snoc, app_nil_r| |by injection H].
         cbn. by rewrite bool_decide_false. }
    destruct (bool_decide _); cbn [negb] in H; [|done].
    pose proof (write_allocation_machine steps before st target Hok) as Em.
    destruct (write_allocation st target) as [lsm alloc]. cbn [fst] in Em. injection H as <-.
    split; cbn [p1_alloc_at p1_last_alloc p1_lsms p1_writes].
    + by rewrite allocated_targets_snoc, app_nil_r.
    + by rewrite allocated_targets_snoc, app_nil_r.
    + intros machine [->%elem_of_singleton|Hin]%elem_of_union; [|by apply Hm].
      exists before, offset, image, target, after. by rewrite Em.
    + rewrite List.filter_app, length_app, <- Hw. cbn. rewrite bool_decide_true by done. cbn. lia.
Qed.

Lemma pass1_spec regions steps after : forall before st st', steps = before ++ after ->
  pass1_ok steps before st -> pass1 regions (length before) after st = Ok st' -> pass1_ok steps steps st'.
Proof.
  induction after as [|s after IH]; intros before st st' Es Hok H.
  { cbn in H. injection H as <-. by rewrite Es, app_nil_r in *. }
  cbn [pass1] in H. apply bind_ok in H as (st1 & H1 & H2).
  pose proof (pass1_step_ok regions steps before s after st st1 Es Hok H1) as Hok1.
  eapply (IH (before ++ [s])); [by rewrite <- app_assoc|exact Hok1|].
  rewrite length_app. cbn [length]. by rewrite Nat.add_1_r.
Qed.

Lemma pass1_start_ok steps : pass1_ok steps [] pass1_start.
Proof. split; cbn; [by rewrite dom_empty_L|done|set_solver|done]. Qed.

(** What a parameter-only download does to the device, step by step. *)
Definition parameter_step (p : FlashPlan) (regions : ParamRegions) (s : FlashStep) : Prop :=
  match s with
  | FsWriteRelMem _ image _ | FsWriteMem _ image =>
      ir_kind image = ImageParameters /\ is_Some (regions !! ir_segment_id image)
  | FsUnload target _ | FsStartLoading target | FsLoadCompleted target =>
      is_sys7 p = false /\ holds_parameters (fp_steps p) target
  | FsAllocateSegment _ _ fill => SegmentFill_prefill fill = None
  | FsWriteProp (PropIndex _) _ _ _ _ _ _ => is_sys7 p = false
  | FsCompareProp _ _ _ _ _ | FsCompareRelMem _ _ _ _ _ | FsLoadImageProp _ _ _ _ _
  | FsRestart | FsDelay _ | FsEnableVerifyMode => True
  | FsSys7StartLoading _ | FsSys7LoadCompleted _ | FsSys7CompareMem _ _ => is_sys7 p = true
  | _ => False
  end.

Lemma keeping_fill_keeps par target : SegmentFill_prefill (keeping_fill par target) = None.
Proof. unfold keeping_fill. destruct (par !! target) as [[size fill]|]; [|done]. by destruct (SegmentFill_prefill fill) eqn:E. Qed.

Lemma pass1_readable regions steps : forall i st st', pass1 regions i steps st = Ok st' ->
  forall offset image target, In (FsWriteRelMem offset image target) steps -> ir_kind image = ImageParameters ->
  is_Some (regions !! ir_segment_id image).
Proof.
  induction steps as [|s steps IH]; intros i st st' H offset image target; [done|].
  cbn [pass1] in H. apply bind_ok in H as (st1 & H1 & H2). intros [->|Hin] Hk; [|by eapply IH].
  cbn [pass1_step] in H1. rewrite bool_decide_true in H1 by done. cbn [negb] in H1.
  destruct (bool_decide_reflect (is_Some (regions !! ir_segment_id image))); [done|by cbn in H1].
Qed.

Lemma pass2_kept st par steps : forall i written s,
  In s (pass2 st par i steps written) ->
  exists i' s0 next written', In s0 steps /\ fst (pass2_step st par i' s0 next written') = Some s.
Proof.
  induction steps as [|s0 steps IH]; intros i written s; [done|]. cbn [pass2].
  destruct (pass2_step st par i s0 (head steps) written) as [kept written'] eqn:E.
  intros [H|H]%in_app_or.
  - exists i, s0, (head steps), written. split; [by left|]. rewrite E. destruct kept; [|done].
    destruct H as [->|[]]. done.
  - destruct (IH _ _ _ H) as (i' & s1 & next & w & Hin & Hs). exists i', s1, next, w. split; [by right|done].
Qed.

Lemma pass2_step_kept p regions st i s next written s' : is_sys7 p = false ->
  (forall machine, machine ∈ p1_lsms st -> holds_parameters (fp_steps p) machine) ->
  (forall offset image target, s = FsWriteRelMem offset image target -> ir_kind image = ImageParameters ->
     is_Some (regions !! ir_segment_id image)) ->
  fst (pass2_step st (fp_par_allocations p) i s next written) = Some s' -> parameter_step p regions s'.
Proof.
  intros H7 Hm Hr. destruct s; cbn [pass2_step]; try done.
  - destruct (bool_decide_reflect (target ∈ p1_lsms st)); [|done]. intros [= <-]. by split; [|apply Hm].
  - destruct (bool_decide_reflect (target ∈ p1_lsms st)); [|done]. intros [= <-]. by split; [|apply Hm].
  - destruct (bool_decide _); [|done]. intros [= <-]. apply keeping_fill_keeps.
  - destruct (bool_decide_reflect (ir_kind image = ImageParameters)) as [Ek|]; [|done]. cbn [negb].
    destruct (bool_decide _); [done|]. intros [= <-]. split; [done|]. by eapply Hr.
  - destruct object; [|done]. destruct (bool_decide _); [|done]. intros [= <-]. done.
  - intros [= <-]. done.
  - intros [= <-]. done.
  - destruct (bool_decide _); [|done]. intros [= <-]. done.
  - destruct (bool_decide_reflect (target ∈ p1_lsms st)); [|done]. intros [= <-]. by split; [|apply Hm].
  - intros [= <-]. done.
  - intros [= <-]. done.
  - destruct next as [n|]; [|done]. destruct (is_parameter_write n); [|done]. intros [= <-]. done.
Qed.

Lemma sys7_readable p regions steps : forall lsms lsms', sys7_lsms p regions steps lsms = Ok lsms' ->
  forall lsm address size mt ac sf st image,
  In (FsSys7AbsSegment lsm address size mt ac sf st (Some image)) steps ->
  carries_params p (ir_segment_id image) = true -> is_Some (regions !! ir_segment_id image).
Proof.
  induction steps as [|s steps IH]; intros lsms lsms' H lsm address size mt ac sf st image; [done|].
  intros [->|Hin] Hc.
  - cbn [sys7_lsms] in H. rewrite Hc in H.
    destruct (bool_decide_reflect (is_Some (regions !! ir_segment_id image))); done.
  - destruct s; cbn [sys7_lsms] in H; try (by eapply IH).
    destruct image0; [|by eapply IH]. destruct (carries_params _ _); [|by eapply IH].
    destruct (bool_decide _); [by eapply IH|done].
Qed.

Lemma sys7_step_kept p regions lsms s written s' : is_sys7 p = true ->
  (forall lsm address size mt ac sf st image,
     s = FsSys7AbsSegment lsm address size mt ac sf st (Some image) ->
     carries_params p (ir_segment_id image) = true -> is_Some (regions !! ir_segment_id image)) ->
  fst (sys7_step p regions lsms s written) = Some s' -> parameter_step p regions s'.
Proof.
  intros H7 Hr. destruct s; cbn [sys7_step]; try done; try (by intros [= <-]).
  - destruct (bool_decide _); [|done]. by intros [= <-].
  - destruct image as [image|]; [|done]. destruct (carries_params p (ir_segment_id image)) eqn:Ec; [|done].
    cbn [negb orb]. destruct (bool_decide _); [done|]. intros [= <-]. cbn. split; [done|]. by eapply Hr.
  - destruct (bool_decide _); [|done]. by intros [= <-].
Qed.

(** A parameter-only download touches the parameters and nothing else: it
    writes no memory but parameter images that were read back from the device; it
    allocates only so that the memory keeps its contents; it drives only the load
    machines that hold a parameter image; and it never resets the device, unloads a
    table, writes a task record, or touches the security object. *)
Theorem parameter_steps_spare_the_rest p regions q s :
  parameters_only p regions = Ok q -> In s (fp_steps q) -> parameter_step p regions s.
Proof.
  unfold parameters_only. intros (steps & Hs & H)%bind_ok Hin. injection H as <-. cbn [fp_steps] in Hin.
  destruct (is_sys7 p) eqn:E7.
  - unfold sys7_parameter_steps in Hs. apply bind_ok in Hs as (lsms & Hl & Hs).
    destruct (bool_decide _); [done|]. injection Hs as <-.
    destruct (sys7_kept _ _ _ _ _ _ Hin) as (s0 & w & Hin0 & Hk).
    eapply sys7_step_kept; [done| |exact Hk]. intros * -> Hc. by eapply sys7_readable.
  - unfold system_b_parameter_steps in Hs. apply bind_ok in Hs as (st & Hp & Hs).
    destruct (p1_writes st =? 0)%nat; [done|]. injection Hs as <-.
    destruct (pass2_kept _ _ _ _ _ _ Hin) as (i & s0 & next & w & Hin0 & Hk).
    eapply pass2_step_kept; [done| | |exact Hk].
    + eapply (pass1_spec regions (fp_steps p) (fp_steps p) []); [done|apply pass1_start_ok|exact Hp].
    + intros * -> Hkind. by eapply pass1_readable.
Qed.

(** ** Concrete downloads *)

Definition demo_segment : text := chars "M-1_A-6_RS-1".

Definition demo_part (offset len : nat) : FlashStep :=
  FsWriteRelMem (Z.of_nat offset) (MkImageRef demo_segment ImageParameters len offset) (Some 4).

Definition demo_table : FlashStep :=
  FsWriteRelMem 0 (MkImageRef (chars "obj-table-1") ImageTable 2 0) (Some 1).

(** A System B plan: a table, and the parameter segment of object 4 in [parts]. *)
Definition demo_plan (image : bytes) (octets : list Z) (parts : list FlashStep) : FlashPlan :=
  MkFlashPlan (MkAppIdentity (chars "M-0001_A-0006-01-0000") None None None (chars "07B0") None) 1968
    ([FsUnload (Some 1) false; FsUnload (Some 4) false; FsStartLoading (Some 1); FsStartLoading (Some 4);
      FsAllocateSegment 2 (Some 1) (MkSegmentFill 0 0); FsAllocateSegment 8 (Some 4) (MkSegmentFill 1 255);
      demo_table] ++ parts
     ++ [FsLoadCompleted (Some 1); FsLoadCompleted (Some 4); FsRestart])
    {[ demo_segment := image; chars "obj-table-1" := [0; 0] ]} {[ demo_segment := image ]}
    false None false ∅ {[ demo_segment := list_to_set octets ]} ∅ ∅ (MkTableCapacity None None) false ∅ false [].

Definition demo_regions (held : bytes) : ParamRegions :=
  {[ demo_segment := MkParamRegion demo_segment 24576 held ]}.

Definition demo_full : FlashPlan := demo_plan [10; 11; 12; 13; 14; 15; 16; 17] [1; 6] [demo_part 0 8].
Definition demo_held : bytes := [20; 21; 22; 23; 24; 25; 26; 27].

Definition demo_partial (p : FlashPlan) (held : bytes) : FlashPlan :=
  match parameters_only p (demo_regions held) with
  | Ok q => q
  | Err _ => p
  end.



Lemma parameter_steps_spare_the_rest_witness :
  fp_steps (demo_partial demo_full demo_held) =
  [FsUnload (Some 4) false; FsStartLoading (Some 4); FsAllocateSegment 8 (Some 4) (MkSegmentFill 0 0);
   demo_part 0 8; FsLoadCompleted (Some 4); FsRestart] /\
  parameter_step demo_full (demo_regions demo_held) (FsAllocateSegment 8 (Some 4) (MkSegmentFill 0 0)).
Proof.
  split; [vm_compute; reflexivity|].
  apply (parameter_steps_spare_the_rest demo_full (demo_regions demo_held) (demo_partial demo_full demo_held)).
  - vm_compute. reflexivity.
  - replace (fp_steps (demo_partial demo_full demo_held)) with
      [FsUnload (Some 4) false; FsStartLoading (Some 4); FsAllocateSegment 8 (Some 4) (MkSegmentFill 0 0);
       demo_part 0 8; FsLoadCompleted (Some 4); FsRestart] by (vm_compute; reflexivity).
    do 2 right. left. reflexivity.
Defined.

(** A segment that a load procedure writes in two parts (a branch that keeps the
    octets between them): the parameter-only download keeps the first part only, as
    the second names a segment already written.  The parameter in octet 6 differs and
    is reported as changed, and no step writes it. *)
Lemma second_part_is_not_written :
  let full := demo_plan [10; 11; 12; 13; 14; 15; 16; 17] [1; 6] [demo_part 0 4; demo_part 6 2] in
  let q := demo_partial full demo_held in
  parameters_only full (demo_regions demo_held) = Ok q /\
  existsb (streamed_by demo_segment 6) (fp_steps full) = true /\
  changed_bits q !! demo_segment = Some [(1%nat, 30); (6%nat, 10)] /\
  existsb (streamed_by demo_segment 6) (fp_steps q) = false.
Proof. vm_compute. repeat split. Qed.
