(* ===== verification/FlashSession.v ===== *)
(** * The session of a download ([bussard-download/src/flash/session.rs], and [write_image] of execute.rs)

    The connection a download runs over and how it survives a loss: the reconnect
    with its bounded retries, the primitives that are run again on a fresh
    connection, and the stream of an image that resumes at the octet confirmed
    last.  The connection and the device behind it are the interface
    [SessionLink]; durations are in milliseconds. *)

From S2P Require Import Prelude Cursor Asdu SimMemory MgmtError Apci Connection Load Mcb Sys7 ClientMemory FlashRegions.

Local Open Scope string_scope.
Local Open Scope list_scope.
Local Open Scope Z_scope.

(** ** Deaths of a connection *)

(** [TransportError::is_link_loss]. *)
Definition is_link_loss (e : TransportError) : bool :=
  match e with
  | TransportTimeout _ | HeartbeatLost | TransportDisconnected _ | TransportIo _ | SecureSessionEnded _ => true
  | _ => false
  end.

Definition is_connection_death (e : WriteError) : bool :=
  match e with
  | Mgmt (MidSessionSilence _ _ _) | Mgmt MgmtError_Disconnected | Mgmt NoResponse | Mgmt NotConfirmed => true
  | Mgmt (TransportFailed e) => is_link_loss e
  | _ => false
  end.

Definition reconnect_retryable (e : WriteError) (link_lost : bool) : bool :=
  if is_connection_death e then true
  else link_lost && match e with
                    | Mgmt (SecureFailed _) | Mgmt (TransportFailed (TransportTimeout _)) => true
                    | _ => false
                    end.

(** ** The link *)

(** The open connection of a session with what can replace it: the management
    services, the connector ([link_connect], [link_losses]), the authorization, and
    the stream of octets into memory, which tells how many octets it has confirmed
    and in how many chunks. *)
Class SessionLink (L : Type) : Type := {
  link_mgmt :: L4Management L;
  link_connect : Mgmt_op L unit;
  link_drop : L -> L;
  link_losses : L -> Z;
  link_authorize : u32 -> Mgmt_op L AuthorizeOutcome;
  link_set_max_apdu : option u16 -> L -> L;
  link_set_user_memory_above_64k : bool -> L -> L;
  link_memory_service : L -> u32 -> nat -> MemoryService;
  link_chunk_caps : L -> ChunkCaps;
  link_write : bool -> u32 -> bytes -> L -> (result WriteError unit * (nat * nat)) * L }.

Record VerifyEchoes : Type := MkVerifyEchoes {
  ve_chunks_written : nat; ve_echoes_compared : nat; ve_re_enabled : nat }.

Record VerifyModeState : Type := MkVerifyModeState {
  vm_armed : bool;
  vm_declined : option VerifyModeOutcome;
  vm_wanted : bool;
  vm_on_connection : bool;
  vm_echoes : VerifyEchoes }.

Definition VerifyModeState_default : VerifyModeState :=
  MkVerifyModeState false None false false (MkVerifyEchoes 0 0 0).

(** A session with one target; [ss_authorize] is the outcome cached for it. *)
Record Session (L : Type) : Type := MkSession {
  ss_link : L;
  ss_connected : bool;
  ss_connector : bool;
  ss_bcu_key : option u32;
  ss_authorize : option AuthorizeOutcome;
  ss_max_apdu : option u16;
  ss_verify : VerifyModeState;
  ss_user_memory_above_64k : bool }.
Arguments MkSession {L}.
Arguments ss_link {L}.
Arguments ss_connected {L}.
Arguments ss_connector {L}.
Arguments ss_bcu_key {L}.
Arguments ss_authorize {L}.
Arguments ss_max_apdu {L}.
Arguments ss_verify {L}.
Arguments ss_user_memory_above_64k {L}.

Definition MAX_RESUME_RECONNECTS : nat := 5.

(** [TUNNEL_RECONNECT_BUDGET] and [SECURE_REBOOT_WAIT]. *)
Definition RECONNECT_RESUME_BUDGET : Z := 60000 + 30000.

Section Session.
  Context {L : Type} `{SessionLink L}.

Abbreviation SessionOp := (Mgmt_op (Session L)).

Definition ss_set_link (l : L) (s : Session L) : Session L :=
  MkSession l (ss_connected s) (ss_connector s) (ss_bcu_key s) (ss_authorize s) (ss_max_apdu s) (ss_verify s)
    (ss_user_memory_above_64k s).
Definition ss_set_connected (b : bool) (s : Session L) : Session L :=
  MkSession (ss_link s) b (ss_connector s) (ss_bcu_key s) (ss_authorize s) (ss_max_apdu s) (ss_verify s)
    (ss_user_memory_above_64k s).
Definition ss_set_authorize (o : option AuthorizeOutcome) (s : Session L) : Session L :=
  MkSession (ss_link s) (ss_connected s) (ss_connector s) (ss_bcu_key s) o (ss_max_apdu s) (ss_verify s)
    (ss_user_memory_above_64k s).
Definition ss_set_verify (v : VerifyModeState) (s : Session L) : Session L :=
  MkSession (ss_link s) (ss_connected s) (ss_connector s) (ss_bcu_key s) (ss_authorize s) (ss_max_apdu s) v
    (ss_user_memory_above_64k s).

(** An operation of [session.l4()]. *)
Definition on_l4 {A} (m : Mgmt_op L A) : SessionOp A := fun s =>
  let '(r, l) := m (ss_link s) in (r, ss_set_link l s).

Definition update (f : Session L -> Session L) : SessionOp unit := fun s => (Ok tt, f s).
Definition ask {A} (f : Session L -> A) : SessionOp A := fun s => (Ok (f s), s).

(** ** Reconnecting *)

Definition authorize_session (losses : Z) : SessionOp unit :=
  cached ← ask ss_authorize;
  match cached with
  | Some Connection.Unsupported => mret tt
  | _ =>
      key ← ask (fun s => default FREE_ACCESS_KEY (ss_bcu_key s));
      outcome ← on_l4 (link_authorize key);
      lost ← ask (fun s => negb (link_losses (ss_link s) =? losses));
      match outcome with
      | Connection.Unsupported => if (lost : bool) then fail (Mgmt NoResponse) else update (ss_set_authorize (Some outcome))
      | _ => update (ss_set_authorize (Some outcome))
      end
  end.

Definition vm_new_connection (v : VerifyModeState) : VerifyModeState :=
  MkVerifyModeState (vm_armed v) (vm_declined v) (vm_wanted v) false (vm_echoes v).

Definition adopt (losses : Z) : SessionOp unit :=
  _ ← authorize_session losses;
  update (fun s =>
    ss_set_verify (vm_new_connection (ss_verify s))
      (ss_set_connected true
         (ss_set_link (link_set_user_memory_above_64k (ss_user_memory_above_64k s)
                         (link_set_max_apdu (ss_max_apdu s) (ss_link s))) s))).

Definition reconnect_once : SessionOp unit :=
  _ ← update (fun s => ss_set_connected false (ss_set_link (link_drop (ss_link s)) s));
  can ← ask ss_connector;
  if negb can then fail (Mgmt (TransportFailed TransportClosed)) else
  losses ← ask (fun s => link_losses (ss_link s));
  _ ← on_l4 link_connect;
  adopt losses.

(** The loop of [reconnect], with the retries left. *)
Fixpoint reconnect_loop (retries_left : nat) (first_failure : option Z) : SessionOp unit := fun s =>
  let losses := link_losses (ss_link s) in
  match reconnect_once s with
  | (Ok _, s') => (Ok tt, s')
  | (Err e, s') =>
      let link_lost := negb (link_losses (ss_link s') =? losses) in
      let since := default (now (ss_link s')) first_failure in
      match retries_left with
      | O => (Err e, s')
      | S retries_left =>
          if ss_connector s' && reconnect_retryable e link_lost
             && (now (ss_link s') - since <? RECONNECT_RESUME_BUDGET)
          then reconnect_loop retries_left (Some since) s'
          else (Err e, s')
      end
  end.

Definition reconnect : SessionOp unit := reconnect_loop MAX_RESUME_RECONNECTS None.

Definition resumable_death (e : WriteError) (s : Session L) : bool := is_connection_death e && ss_connector s.

(** The [resume!] macro, with the reconnects left. *)
Fixpoint resume {A} (reconnects_left : nat) (op : SessionOp A) : SessionOp A := fun s =>
  match op s with
  | (Ok v, s') => (Ok v, s')
  | (Err e, s') =>
      match reconnects_left with
      | O => (Err e, s')
      | S reconnects_left =>
          if resumable_death e s' then (_ ← reconnect; resume reconnects_left op) s' else (Err e, s')
      end
  end.

Definition resumable {A} (op : Mgmt_op L A) : SessionOp A := resume MAX_RESUME_RECONNECTS (on_l4 op).

Definition write_load_control_resumable (obj : u8) (control : LoadControl) : SessionOp LoadState :=
  resumable (write_load_control obj control).

Definition write_load_control_unless_absent_resumable (obj : u8) (control : LoadControl) : SessionOp (option LoadState) :=
  resumable (write_load_control_unless_absent obj control).

(** The context the source folds into the error is left out of [WriteError]. *)
Definition start_loading_resumable (obj : u8) : SessionOp unit :=
  resumable (_ ← write_load_control obj StartLoading; mret tt).

Definition allocate_resumable (obj : u8) (size : u32) (mode fill : u8) : SessionOp SegmentAllocation :=
  resumable (allocate_segment obj size mode fill).

Definition read_load_state_resumable (obj : u8) : SessionOp LoadState := resumable (read_load_state obj).

(** ** Verify mode of a download *)

Definition arm_verify_mode : SessionOp unit :=
  update (fun s => let v := ss_verify s in
    if vm_wanted v then s
    else ss_set_verify (MkVerifyModeState true (vm_declined v) (vm_wanted v) (vm_on_connection v) (vm_echoes v)) s).

Definition vm_took (o : VerifyModeOutcome) : bool :=
  match o with
  | Enabled _ _ | AlreadyOn _ => true
  | _ => false
  end.

(** Whether the next write's echoes are compared. *)
Definition ensure_verify_mode (plain : bool) : SessionOp bool :=
  v ← ask ss_verify;
  if negb (vm_wanted v) then
    if negb (vm_armed v && plain) then mret false else
    _ ← update (ss_set_verify (MkVerifyModeState false (vm_declined v) false (vm_on_connection v) (vm_echoes v)));
    outcome ← on_l4 enable_verify_mode;
    if vm_took outcome
    then _ ← update (ss_set_verify (MkVerifyModeState false (vm_declined v) true true (vm_echoes v))); mret true
    else _ ← update (ss_set_verify (MkVerifyModeState false (Some outcome) false (vm_on_connection v) (vm_echoes v)));
         mret false
  else if vm_on_connection v then mret true
  else
    outcome ← on_l4 enable_verify_mode;
    if vm_took outcome
    then
      let e := vm_echoes v in
      _ ← update (ss_set_verify (MkVerifyModeState (vm_armed v) (vm_declined v) true true
             (MkVerifyEchoes (ve_chunks_written e) (ve_echoes_compared e) (S (ve_re_enabled e)))));
      mret true
    else fail (Mgmt (MalformedResponse "verify mode not taken on the new connection")).

Definition note_memory_chunks (chunks : nat) (echoed : bool) (s : Session L) : Session L :=
  let v := ss_verify s in
  if negb (vm_wanted v) then s else
  let e := vm_echoes v in
  ss_set_verify (MkVerifyModeState (vm_armed v) (vm_declined v) (vm_wanted v) (vm_on_connection v)
    (MkVerifyEchoes (ve_chunks_written e + chunks)
       (if echoed then ve_echoes_compared e + chunks else ve_echoes_compared e)%nat (ve_re_enabled e))) s.

(** ** The stream of an image ([execute.rs]) *)

(** One turn of [write_image]: what it has written, with how many octets it has
    confirmed. *)
Definition write_tail (addr : u32) (data : bytes) (confirmed : nat) (s : Session L)
    : (result WriteError unit * nat) * Session L :=
  let tail := drop confirmed data in
  let tail_addr := u32_saturating_add addr (as_u32 (Z.of_nat confirmed)) in
  let plain := negb (bool_decide (link_memory_service (ss_link s) tail_addr (length tail) = MemExtended)) in
  match ensure_verify_mode plain s with
  | (Err e, s') => ((Err e, O), note_memory_chunks 0 false s')
  | (Ok echoed, s') =>
      let '((r, (n, chunks)), l) := link_write echoed tail_addr tail (ss_link s') in
      ((r, n), note_memory_chunks chunks echoed (ss_set_link l s'))
  end.

Fixpoint write_image_loop (fuel : nat) (addr : u32) (data : bytes) (confirmed stalled : nat) : SessionOp unit := fun s =>
  match fuel with
  | O => (Err (Mgmt (MalformedResponse "fuel")), s)
  | S fuel =>
      match write_tail addr data confirmed s with
      | ((Ok _, _), s') => (Ok tt, s')
      | ((Err e, n), s') =>
          if resumable_death e s' && ((0 <? n)%nat || (stalled <? MAX_RESUME_RECONNECTS)%nat)
          then (_ ← reconnect;
                write_image_loop fuel addr data (confirmed + n) (if (0 <? n)%nat then O else S stalled)) s'
          else (Err e, s')
      end
  end.

(** Turns that are always enough: as many stalls as are allowed for each octet and
    before the first ([image_stream_ends]). *)
Definition write_image_fuel (data : bytes) : nat := S (length data * S MAX_RESUME_RECONNECTS + MAX_RESUME_RECONNECTS).

Definition write_image (addr : u32) (data : bytes) : SessionOp unit :=
  write_image_loop (write_image_fuel data) addr data 0 0.
End Session.

(** ** What the link promises about the device's memory

    [A] is what is known of the device: [linked a] says the connection is open and
    the device is [a], [torn a] only that the device is [a]; [stored] is the device
    with octets written, [may_store] that a span takes writes. *)
Class LinkDevice (L A : Type) `{SessionLink L} : Type := {
  linked : A -> L -> Prop;
  torn : A -> L -> Prop;
  stored : A -> u32 -> bytes -> A;
  may_store : A -> u32 -> Z -> Prop }.

Class LinkDeviceLaws (L A : Type) `{LinkDevice L A} : Prop := {
  linked_torn : forall a l, linked a l -> torn a l;
  stored_nil : forall a at_, stored a at_ [] = a;
  stored_over : forall a at_ data k n j, may_store a at_ (zlen data) -> (n <= k <= length data)%nat ->
    (n + j <= length data)%nat ->
    stored (stored a at_ (take k data)) (at_ + Z.of_nat n) (take j (drop n data))
    = stored a at_ (take (Nat.max k (n + j)) data);
  may_store_range : forall a at_ n, may_store a at_ n -> 0 <= at_ /\ at_ + n < 4294967296;
  may_store_stored : forall a at_ n at' data, may_store a at_ n -> may_store (stored a at' data) at_ n;
  may_store_tail : forall a at_ n k, may_store a at_ n -> 0 <= k <= n -> may_store a (at_ + k) (n - k);
  write_law : forall a at_ data l, may_store a at_ (zlen data) -> bytes_ok data -> linked a l ->
    match link_write false at_ data l with
    | ((Ok _, _), l') => linked (stored a at_ data) l'
    | ((Err _, (n, _)), l') =>
        exists k, (n <= k <= length data)%nat /\ torn (stored a at_ (take k data)) l'
    end;
  write_bound : forall echoed at_ data l, (fst (snd (fst (link_write echoed at_ data l))) <= length data)%nat;
  drop_law : forall a l, torn a l -> torn a (link_drop l);
  connect_law : forall a l, torn a l ->
    match link_connect l with
    | (Ok _, l') => linked a l'
    | (Err _, l') => torn a l'
    end;
  authorize_law : forall a key l, linked a l ->
    match link_authorize key l with
    | (Ok _, l') => linked a l'
    | (Err _, l') => torn a l'
    end;
  set_max_apdu_law : forall a m l, linked a l -> linked a (link_set_max_apdu m l);
  set_user_memory_law : forall a b l, linked a l -> linked a (link_set_user_memory_above_64k b l) }.

Section Laws.
  Context {L A : Type} `{LinkDeviceLaws L A}.

(** No verify mode: the download has neither switched it on nor armed it. *)
Definition unverified (s : Session L) : Prop :=
  vm_wanted (ss_verify s) = false /\ vm_armed (ss_verify s) = false.

(** An operation that leaves the device as it is, and when it returns an open
    connection. *)
Definition keeps_device {B} (a : A) (op : Mgmt_op (Session L) B) (pre : Session L -> Prop) : Prop :=
  forall s, pre s -> unverified s ->
  match op s with
  | (Ok _, s') => linked a (ss_link s') /\ unverified s'
  | (Err _, s') => torn a (ss_link s') /\ unverified s'
  end.

Lemma authorize_keeps a losses : keeps_device a (authorize_session losses) (fun s => linked a (ss_link s)).
Proof.
  intros s Hl Hu. unfold authorize_session, ask, mbind, Mgmt_op_bind. cbv beta iota.
  assert (Hgo : match (let '(r, l) := link_authorize (default FREE_ACCESS_KEY (ss_bcu_key s)) (ss_link s) in
                       (r, ss_set_link l s)) with
                | (Ok _, s') => linked a (ss_link s') /\ unverified s'
                | (Err _, s') => torn a (ss_link s') /\ unverified s'
                end).
  { pose proof (authorize_law a (default FREE_ACCESS_KEY (ss_bcu_key s)) (ss_link s) Hl) as Ha.
    destruct (link_authorize _ _) as [[o|e] l]; by split. }
  unfold on_l4. destruct (ss_authorize s) as [[level|level|]|].
  all: try (split; [exact Hl|exact Hu]).
  all: destruct (let '(r, l) := link_authorize _ _ in (r, ss_set_link l s)) as [[o|e] s']; [|exact Hgo].
  all: destruct o as [?|?|]; [exact Hgo|exact Hgo|]; destruct (negb _); [|exact Hgo].
  all: destruct Hgo as [Hg1 Hg2]; split; [by apply linked_torn|done].
Qed.

Lemma adopt_keeps a losses : keeps_device a (adopt losses) (fun s => linked a (ss_link s)).
Proof.
  intros s Hl Hu. unfold adopt, mbind, Mgmt_op_bind. pose proof (authorize_keeps a losses s Hl Hu) as Ha.
  destruct (authorize_session losses s) as [[[]|e] s']; [|exact Ha]. destruct Ha as [Ha1 Ha2]. cbn.
  split; [by apply set_user_memory_law, set_max_apdu_law|exact Ha2].
Qed.

Lemma reconnect_once_keeps a : keeps_device a reconnect_once (fun s => torn a (ss_link s)).
Proof.
  intros s Ht Hu. unfold reconnect_once, update, ask, on_l4, mbind, Mgmt_op_bind. cbv beta iota.
  destruct (ss_connector _); cbn [negb]; cbv beta iota.
  2: { unfold fail. cbv beta iota. split; [by apply drop_law|exact Hu]. }
  cbn [ss_link ss_set_connected ss_set_link].
  pose proof (connect_law a (link_drop (ss_link s)) (drop_law a _ Ht)) as Hc.
  destruct (link_connect (link_drop (ss_link s))) as [[[]|e] l]; [|by split].
  by apply adopt_keeps.
Qed.

Lemma reconnect_loop_keeps a n : forall first, keeps_device a (reconnect_loop n first) (fun s => torn a (ss_link s)).
Proof.
  induction n as [|n IH]; intros first s Ht Hu; cbn [reconnect_loop].
  all: pose proof (reconnect_once_keeps a s Ht Hu) as Ho; destruct (reconnect_once s) as [[[]|e] s']; [exact Ho|].
  - exact Ho.
  - destruct (_ && _ && _); [|exact Ho]. destruct Ho as [Ho1 Ho2]. by apply IH.
Qed.

Lemma reconnect_keeps a : keeps_device a reconnect (fun s => torn a (ss_link s)).
Proof. apply reconnect_loop_keeps. Qed.

(** Without verify mode a turn of the stream is one write of the tail. *)
Lemma write_tail_unverified addr data confirmed s : unverified s ->
  write_tail addr data confirmed s =
  let '((r, (n, _)), l) := link_write false (u32_saturating_add addr (as_u32 (Z.of_nat confirmed)))
                             (drop confirmed data) (ss_link s) in
  ((r, n), ss_set_link l s).
Proof.
  intros [Hw Ha]. unfold write_tail, ensure_verify_mode, ask, mbind, Mgmt_op_bind. cbv beta iota.
  rewrite Hw, Ha. cbn [negb andb]. unfold mret, Mgmt_op_ret. cbv beta iota.
  destruct (link_write _ _ _ _) as [[r [n chunks]] l]. unfold note_memory_chunks. cbn. by rewrite Hw.
Qed.

Lemma tail_address (a : A) addr (data : bytes) confirmed : may_store a addr (zlen data) -> (confirmed <= length data)%nat ->
  u32_saturating_add addr (as_u32 (Z.of_nat confirmed)) = addr + Z.of_nat confirmed.
Proof.
  intros [Hlo Hhi]%may_store_range Hc. unfold zlen in Hhi. unfold u32_saturating_add, u32_max, as_u32.
  rewrite (Z.mod_small (Z.of_nat confirmed)) by lia. lia.
Qed.

(** What an image stream leaves. *)
Definition image_outcome (a : A) (addr : u32) (data : bytes) (out : result WriteError unit * Session L) : Prop :=
  match out with
  | (Ok _, s') => linked (stored a addr data) (ss_link s') /\ unverified s'
  | (Err _, s') => exists k, (k <= length data)%nat /\ torn (stored a addr (take k data)) (ss_link s')
  end.

Lemma write_image_loop_outcome (a : A) addr (data : bytes) fuel : may_store a addr (zlen data) -> bytes_ok data ->
  forall confirmed stalled k s, (confirmed <= k <= length data)%nat -> unverified s ->
  linked (stored a addr (take k data)) (ss_link s) ->
  image_outcome a addr data (write_image_loop fuel addr data confirmed stalled s).
Proof.
  intros Hm Hd. induction fuel as [|fuel IH]; intros confirmed stalled k s Hk Hu Hl; cbn [write_image_loop].
  { exists k. split; [lia|]. by apply linked_torn. }
  rewrite write_tail_unverified by done. rewrite (tail_address a addr data confirmed Hm) by lia.
  assert (Hz : zlen (drop confirmed data) = zlen data - Z.of_nat confirmed)
    by (unfold zlen; rewrite length_drop; lia).
  pose proof (write_law (stored a addr (take k data)) (addr + Z.of_nat confirmed) (drop confirmed data) (ss_link s)) as Hw.
  rewrite Hz in Hw. specialize (Hw ltac:(apply may_store_tail; [by apply may_store_stored|unfold zlen; lia])
    ltac:(by apply bytes_ok_drop) Hl).
  destruct (link_write _ _ _ _) as [[[[]|e] [n chunks]] l].
  - cbn [image_outcome ss_link ss_set_link]. split; [|exact Hu].
    replace data with (take (Nat.max k (confirmed + (length data - confirmed))) data) at 1
      by (rewrite firstn_all2; [done|lia]).
    rewrite <- stored_over by (done || lia). rewrite (firstn_all2 (drop confirmed data)); [exact Hw|].
    rewrite length_drop. lia.
  - destruct Hw as (j & Hj & Ht). rewrite length_drop in Hj. rewrite stored_over in Ht by (done || lia).
    destruct (resumable_death e (ss_set_link l s) && _).
    2: { exists (Nat.max k (confirmed + j)). split; [lia|exact Ht]. }
    unfold mbind, Mgmt_op_bind.
    pose proof (reconnect_keeps (stored a addr (take (Nat.max k (confirmed + j)) data)) (ss_set_link l s) Ht Hu) as Hr.
    destruct (reconnect (ss_set_link l s)) as [[[]|e'] s']; destruct Hr as [Hr1 Hr2].
    + apply (IH _ _ (Nat.max k (confirmed + j))); [lia|done|done].
    + exists (Nat.max k (confirmed + j)). split; [lia|exact Hr1].
Qed.

(** ** The stream ends *)

Lemma write_tail_bound addr (data : bytes) confirmed s :
  (snd (fst (write_tail addr data confirmed s)) <= length data - confirmed)%nat.
Proof.
  unfold write_tail. destruct (ensure_verify_mode _ s) as [[echoed|e] s']; [|cbn; lia].
  pose proof (write_bound echoed (u32_saturating_add addr (as_u32 (Z.of_nat confirmed))) (drop confirmed data) (ss_link s')) as Hb.
  destruct (link_write _ _ _ _) as [[r [n chunks]] l]. cbn in *. by rewrite length_drop in Hb.
Qed.

Lemma write_image_loop_enough addr (data : bytes) extra fuel : forall confirmed stalled s,
  (confirmed <= length data)%nat -> (stalled <= MAX_RESUME_RECONNECTS)%nat ->
  ((length data - confirmed) * S MAX_RESUME_RECONNECTS + (MAX_RESUME_RECONNECTS - stalled) < fuel)%nat ->
  write_image_loop (fuel + extra) addr data confirmed stalled s = write_image_loop fuel addr data confirmed stalled s.
Proof.
  induction fuel as [|fuel IH]; intros confirmed stalled s Hc Hs Hf; [by apply Nat.nlt_0_r in Hf|]. cbn [Nat.add write_image_loop].
  pose proof (write_tail_bound addr data confirmed s) as Hb.
  destruct (write_tail addr data confirmed s) as [[[[]|e] n] s']; [done|]. cbn [fst snd] in Hb.
  destruct (resumable_death e s'); cbn [andb]; [|done].
  destruct (Nat.ltb_spec 0 n) as [Hn|Hn]; cbn [orb].
  - unfold mbind, Mgmt_op_bind. destruct (reconnect s') as [[[]|e'] s'']; [|done].
    apply IH; [lia|lia|]. unfold MAX_RESUME_RECONNECTS in *. nia.
  - destruct (Nat.ltb_spec stalled MAX_RESUME_RECONNECTS) as [Hst|]; [|done].
    unfold mbind, Mgmt_op_bind. destruct (reconnect s') as [[[]|e'] s'']; [|done].
    apply IH; [lia|lia|]. unfold MAX_RESUME_RECONNECTS in *. nia.
Qed.

(** C19: The stream of an image ends: a turn that confirms an octet moves on, and at
    most [MAX_RESUME_RECONNECTS] turns in a row confirm none; the turns [write_image]
    is given are enough for every session, with and without verify mode. *)
Theorem image_stream_ends addr (data : bytes) s extra :
  write_image_loop (write_image_fuel data + extra) addr data 0 0 s = write_image addr data s.
Proof. apply write_image_loop_enough; unfold write_image_fuel, MAX_RESUME_RECONNECTS; lia. Qed.

(** C5: A stream of an image without verify mode survives the loss of its
    connection.  The download has neither switched verify mode on nor armed it
    ([unverified]), and the device's memory takes octets over the whole span.
    However often the connection then dies under the stream, [write_image] that
    returns has left the whole data in the device's memory, written over an open
    connection again, and one that fails a prefix of it, with nothing else changed:
    what was written and not confirmed is written over with the same octets. *)
Theorem image_stream_survives_deaths (a : A) addr (data : bytes) s :
  may_store a addr (zlen data) -> bytes_ok data -> linked a (ss_link s) -> unverified s ->
  image_outcome a addr data (write_image addr data s).
Proof.
  intros Hm Hd Hl Hu. unfold write_image. apply (write_image_loop_outcome a addr data _ Hm Hd 0 0 0); [lia|done|].
  by rewrite stored_nil.
Qed.
End Laws.

(** ** A memory behind a link that dies *)

Lemma write_cells_over c at_ data k n j : 0 <= at_ -> at_ + zlen data < 4294967296 ->
  (n <= k <= length data)%nat -> (n + j <= length data)%nat ->
  write_cells (write_cells c at_ 0 (take k data)) (at_ + Z.of_nat n) 0 (take j (drop n data))
  = write_cells c at_ 0 (take (Nat.max k (n + j)) data).
Proof.
  intros Ha He Hk Hj. unfold zlen in He. apply map_eq. intros i.
  rewrite !write_cells_lookup by (unfold zlen; rewrite ?length_take, ?length_drop; lia).
  unfold zlen. rewrite !length_take, length_drop, !Z.add_0_r.
  destruct (decide (at_ + Z.of_nat n <= i < _)) as [H1|H1].
  - rewrite decide_True by lia. rewrite !lookup_take_lt by lia. rewrite lookup_drop. f_equal. lia.
  - destruct (decide (at_ <= i < at_ + Z.of_nat (Nat.min k _))) as [H2|H2].
    + rewrite decide_True by lia. by rewrite !lookup_take_lt by lia.
    + by rewrite decide_False by lia.
Qed.

(** The memory, whether the connection is open, and after how many octets the next
    writes die. *)
Record DyingLink : Type := MkDyingLink { dy_cells : gmap Z u8; dy_open : bool; dy_deaths : list nat }.

Definition dying_write (_ : bool) (at_ : u32) (data : bytes) (l : DyingLink)
    : (result WriteError unit * (nat * nat)) * DyingLink :=
  if negb (dy_open l) then ((Err (Mgmt NoResponse), (0, 0)%nat), l) else
  match dy_deaths l with
  | [] => ((Ok tt, (length data, 1)%nat), MkDyingLink (write_cells (dy_cells l) at_ 0 data) true [])
  | k :: deaths =>
      let m := Nat.min k (length data) in
      ((Err (Mgmt NoResponse), (Nat.pred m, 1)%nat),
       MkDyingLink (write_cells (dy_cells l) at_ 0 (take m data)) false deaths)
  end.

#[export] Instance dying_mgmt : L4Management DyingLink := {
  property_request _ _ _ _ := fail (Mgmt NoResponse);
  property_write_request _ _ _ _ _ := fail (Mgmt NoResponse);
  write_memory at_ data := fun l => let '((r, _), l') := dying_write false at_ data l in (r, l');
  read_memory_strict _ _ := fail (Mgmt NoResponse);
  now _ := 0;
  sleep _ l := l }.

#[export] Instance dying_link : SessionLink DyingLink := {
  link_connect := fun l => (Ok tt, MkDyingLink (dy_cells l) true (dy_deaths l));
  link_drop := fun l => MkDyingLink (dy_cells l) false (dy_deaths l);
  link_losses _ := 0;
  link_authorize _ := mret (Granted 0);
  link_set_max_apdu _ l := l;
  link_set_user_memory_above_64k _ l := l;
  link_memory_service _ _ _ := MemPlain;
  link_chunk_caps _ := MkChunkCaps 12 12 12 false;
  link_write := dying_write }.

#[export] Instance dying_device : LinkDevice DyingLink (gmap Z u8) := {
  linked a l := dy_cells l = a /\ dy_open l = true;
  torn a l := dy_cells l = a;
  stored a at_ data := write_cells a at_ 0 data;
  may_store _ at_ n := 0 <= at_ /\ at_ + n < 4294967296 }.

#[export] Instance dying_device_laws : LinkDeviceLaws DyingLink (gmap Z u8).
Proof.
  split; cbn.
  - by intros a l [].
  - done.
  - intros * [Ha He] Hk Hj. by apply write_cells_over.
  - done.
  - done.
  - lia.
  - intros a at_ data l _ _ [Hc Ho]. unfold dying_write. rewrite Ho. cbn [negb].
    destruct (dy_deaths l) as [|k deaths]; cbn; [by rewrite Hc|].
    exists (Nat.min k (length data)). split; [lia|]. by rewrite Hc.
  - intros echoed at_ data l. unfold dying_write. destruct (dy_open l); cbn [negb]; [|cbn; lia].
    destruct (dy_deaths l); cbn; lia.
  - done.
  - done.
  - done.
  - done.
  - done.
Qed.

Definition dying_session (deaths : list nat) : Session DyingLink :=
  MkSession (MkDyingLink ∅ true deaths) true true None None None VerifyModeState_default false.

(** Dies after two octets, at once, and after three; every octet arrives. *)
Lemma image_stream_survives_deaths_witness :
  let '(r, s') := write_image 100 [1; 2; 3; 4; 5; 6] (dying_session [2; 0; 3]%nat) in
  r = Ok tt /\ image_outcome (∅ : gmap Z u8) 100 [1; 2; 3; 4; 5; 6]
                 (write_image 100 [1; 2; 3; 4; 5; 6] (dying_session [2; 0; 3]%nat)).
Proof.
  split; [vm_compute; reflexivity|].
  apply (image_stream_survives_deaths (∅ : gmap Z u8) 100 [1; 2; 3; 4; 5; 6]); [split; [lia|vm_compute; reflexivity]| |done|done].
  unfold bytes_ok. repeat (apply Forall_cons_2; [unfold is_u8; lia|]). apply Forall_nil_2.
Defined.

Lemma image_stream_ends_witness :
  write_image_loop (write_image_fuel [1; 2] + 3) 100 [1; 2] 0 0 (dying_session [0; 0; 0; 0; 0; 0; 0]%nat)
  = write_image 100 [1; 2] (dying_session [0; 0; 0; 0; 0; 0; 0]%nat) /\
  fst (write_image 100 [1; 2] (dying_session [0; 0; 0; 0; 0; 0; 0]%nat)) = Err (Mgmt NoResponse).
Proof.
  split; [|vm_compute; reflexivity].
  apply (image_stream_ends (L := DyingLink) (A := gmap Z u8)).
Defined.
