(* ===== verification/FlashReboot.v ===== *)
(** * Waiting out a restart ([bussard-download/src/flash/session.rs])

    How a session comes back after the device restarts: the quiet period, the
    readiness probes every interval until one is answered or the bound has passed,
    the reconnect with its retries across a loss of the gateway link, and the
    readiness measured on the way.  Times are in milliseconds; [wait_ms] and
    [timeout_ms] are the overrides of the bounds and of the management timeouts by
    the environment. *)

From S2P Require Import Prelude Cursor MgmtError Apci Connection Load ClientMemory FlashSession.

Local Open Scope Z_scope.

Definition MASTER_RESET_REBOOT_WAIT : Z := 10000.
Definition REBOOT_PROBE_MIN_WAIT : Z := 1500.
Definition REBOOT_PROBE_INTERVAL : Z := 500.
Definition CONFIRMED_RESTART_QUIET : Z := REBOOT_PROBE_INTERVAL.
Definition FACTORY_RESET_PROBE_FROM : Z := 3000.
Definition SECURE_REBOOT_WAIT : Z := 30000.

Definition reboot_wait_bound (wait_ms : option Z) : Z := default MASTER_RESET_REBOOT_WAIT wait_ms.
Definition secure_reboot_wait_bound (wait_ms : option Z) : Z := default SECURE_REBOOT_WAIT wait_ms.

Inductive RestartKind : Type := RkFactoryReset | RkRestart | RkMasterReset.

Record RebootReadiness : Type := MkReadiness {
  rr_kind : RestartKind; rr_process_time : Z; rr_ready_after : option Z }.

Record PendingReadiness : Type := MkPending { pr_accepted : Z; pr_first_answer : option Z }.

(** What the wait uses of the link beyond [SessionLink]: whether the device is a
    Data Secure one, the read of the descriptor on the probe's time budget (in the
    clear or not), the graceful disconnect, the timeouts of the connection, and the
    repetition of the sync after a restart. *)
Class RebootLink (L : Type) : Type := {
  reboot_session :: SessionLink L;
  link_secure : L -> bool;
  link_set_probe_timeouts : bool -> L -> L;
  link_describe : bool -> Mgmt_op L unit;
  link_disconnect : L -> L;
  link_numbered_exchanges : L -> u32;
  link_set_sync_retry : SyncRetry -> L -> L }.

(** A session with the readiness it has measured. *)
Record BootSession (L : Type) : Type := MkBootSession {
  bs_session : Session L;
  bs_readiness : list RebootReadiness;
  bs_pending : option PendingReadiness }.
Arguments MkBootSession {L}.
Arguments bs_session {L}.
Arguments bs_readiness {L}.
Arguments bs_pending {L}.

Section Reboot.
  Context {L : Type} {RL : RebootLink L}.
  Variables wait_ms timeout_ms : option Z.

Abbreviation BootOp := (Mgmt_op (BootSession L)).

Definition bs_set_session (x : Session L) (s : BootSession L) : BootSession L :=
  MkBootSession x (bs_readiness s) (bs_pending s).
Definition bs_set_pending (x : option PendingReadiness) (s : BootSession L) : BootSession L :=
  MkBootSession (bs_session s) (bs_readiness s) x.
Definition bs_link (s : BootSession L) : L := ss_link (bs_session s).
Definition bs_set_link (l : L) (s : BootSession L) : BootSession L := bs_set_session (ss_set_link l (bs_session s)) s.
Definition bs_now (s : BootSession L) : Z := now (bs_link s).

(** An operation of the session. *)
Definition on_session {A} (m : Mgmt_op (Session L) A) : BootOp A := fun s =>
  let '(r, x) := m (bs_session s) in (r, bs_set_session x s).

(** [sleep_until]. *)
Definition sleep_until (t : Z) (s : BootSession L) : BootSession L :=
  bs_set_link (sleep (Z.max 0 (t - bs_now s)) (bs_link s)) s.

Definition can_reconnect (s : BootSession L) : bool := ss_connector (bs_session s).

(** [self.l4 = None]. *)
Definition drop_connection (s : BootSession L) : BootSession L :=
  bs_set_session (ss_set_connected false (ss_set_link (link_drop (bs_link s)) (bs_session s))) s.

(** ** Probes *)

Definition note_probe_answered (s : BootSession L) : BootSession L :=
  match bs_pending s with
  | Some p => bs_set_pending (Some (MkPending (pr_accepted p) (Some (default (bs_now s) (pr_first_answer p))))) s
  | None => s
  end.

Definition probe_rebooted_device (s : BootSession L) : bool * BootSession L :=
  if negb (can_reconnect s) then (false, s) else
  match link_connect (bs_link s) with
  | (Err _, l) => (false, bs_set_link l s)
  | (Ok _, l) =>
      match link_describe false (link_set_probe_timeouts true l) with
      | (Ok _, l) => (true, note_probe_answered (bs_set_link (link_disconnect l) s))
      | (Err _, l) => (false, bs_set_link (link_disconnect l) s)
      end
  end.

(** The losses counted before the connection that answered, which is kept open. *)
Definition probe_secure_device (s : BootSession L) : option Z * BootSession L :=
  if negb (can_reconnect s) then (None, s) else
  let losses := link_losses (bs_link s) in
  match link_connect (bs_link s) with
  | (Err _, l) => (None, bs_set_link l s)
  | (Ok _, l) =>
      match link_describe true (link_set_probe_timeouts true l) with
      | (Ok _, l) => (Some losses, note_probe_answered (bs_set_link (link_set_probe_timeouts false l) s))
      | (Err _, l) => (None, bs_set_link (link_disconnect l) s)
      end
  end.

(** What an answered probe leaves. *)
Abbreviation ProbeAnswer := (option Z).

Definition probe_ready (s : BootSession L) : option ProbeAnswer * BootSession L :=
  if link_secure (bs_link s) then
    match probe_secure_device s with
    | (Some losses, s) => (Some (Some losses), s)
    | (None, s) => (None, s)
    end
  else
    let '(alive, s) := probe_rebooted_device s in (if alive then Some None else None, s).

Definition sleep_rest_of_interval (probe_started deadline : Z) : BootSession L -> BootSession L :=
  sleep_until (Z.min (probe_started + REBOOT_PROBE_INTERVAL) deadline).

(** The result also tells whether the loop ended. *)
Fixpoint probe_loop (fuel : nat) (deadline : Z) (s : BootSession L) : option (option ProbeAnswer) * BootSession L :=
  match fuel with
  | O => (None, s)
  | S fuel =>
      let probe_started := bs_now s in
      match probe_ready s with
      | (Some answer, s) => (Some (Some answer), s)
      | (None, s) =>
          if deadline <=? bs_now s then (Some None, s)
          else probe_loop fuel deadline (sleep_rest_of_interval probe_started deadline s)
      end
  end.

(** A turn takes an interval or reaches the deadline ([probes_end]). *)
Definition probe_fuel (deadline : Z) (s : BootSession L) : nat :=
  (Z.to_nat ((deadline - bs_now s) / REBOOT_PROBE_INTERVAL) + 3)%nat.

Definition probe_until (deadline : Z) (s : BootSession L) : option ProbeAnswer * BootSession L :=
  if negb (can_reconnect s) then (None, s)
  else let '(r, s) := probe_loop (probe_fuel deadline s) deadline s in (mjoin r, s).

(** The probes that measure a factory reset. *)
Fixpoint measure_loop (fuel : nat) (until : Z) (s : BootSession L) : option (BootSession L) :=
  match fuel with
  | O => None
  | S fuel =>
      if bs_now s <? until then
        let probe_started := bs_now s in
        match probe_ready s with
        | (Some (Some _), s) => Some (bs_set_link (link_disconnect (bs_link s)) s)
        | (Some None, s) => Some s
        | (None, s) => measure_loop fuel until (sleep_rest_of_interval probe_started until s)
        end
      else Some s
  end.

Definition measure_readiness_until (accepted until : Z) (s : BootSession L) : BootSession L :=
  if negb (can_reconnect s) then s else
  let s := sleep_until (accepted + FACTORY_RESET_PROBE_FROM) s in
  default s (measure_loop (probe_fuel until s) until s).

(** ** Reconnecting after a restart *)

Definition reconnect_after_plain_reboot (quiet : Z) : BootOp unit := fun s =>
  let bound := reboot_wait_bound wait_ms in
  let started := bs_now s in
  let s := bs_set_link (sleep (Z.min quiet bound) (bs_link s)) s in
  let '(_, s) := probe_until (started + bound) s in
  on_session reconnect_once s.

Definition sync_retry_after_restart : SyncRetry :=
  SyncRetry_with_backoff_cap (SyncRetry_after_restart timeout_ms) (secure_reboot_wait_bound wait_ms).

Definition reconnect_after_secure_reboot (quiet : Z) : BootOp unit := fun s =>
  let bound := secure_reboot_wait_bound wait_ms in
  let deadline := bs_now s + bound in
  let s := bs_set_link (sleep (Z.min quiet bound) (bs_link s)) s in
  let '(ready, s) := probe_until deadline s in
  let adopted (losses : Z) (s : BootSession L) :=
    on_session (adopt losses) (bs_set_link (link_set_sync_retry sync_retry_after_restart (bs_link s)) s) in
  match mjoin ready with
  | Some losses => adopted losses s
  | None =>
      if negb (can_reconnect s) then (Err (Mgmt (TransportFailed TransportClosed)), s) else
      let losses := link_losses (bs_link s) in
      match link_connect (bs_link s) with
      | (Ok _, l) => adopted losses (bs_set_link l s)
      | (Err e, l) => (Err e, bs_set_link l s)
      end
  end.

Definition reconnect_after_one_reboot (quiet : Z) : BootOp unit := fun s =>
  if link_secure (bs_link s) then reconnect_after_secure_reboot quiet s else reconnect_after_plain_reboot quiet s.

(** The loop, with the retries left. *)
Fixpoint after_reboot_loop (retries_left : nat) (quiet : Z) (first_failure : option Z) : BootOp unit := fun s =>
  let s := drop_connection s in
  let losses := link_losses (bs_link s) in
  match reconnect_after_one_reboot quiet s with
  | (Ok _, s') => (Ok tt, s')
  | (Err e, s') =>
      let link_lost := negb (link_losses (bs_link s') =? losses) in
      let since := default (bs_now s') first_failure in
      match retries_left with
      | O => (Err e, s')
      | S retries_left =>
          if can_reconnect s' && reconnect_retryable e link_lost && (bs_now s' - since <? RECONNECT_RESUME_BUDGET)
          then after_reboot_loop retries_left quiet (Some since) s'
          else (Err e, s')
      end
  end.

Definition reconnect_after_reboot_quiet (quiet : Z) : BootOp unit := after_reboot_loop MAX_RESUME_RECONNECTS quiet None.

Definition reconnect_after_reboot : BootOp unit := reconnect_after_reboot_quiet REBOOT_PROBE_MIN_WAIT.

Definition reconnect_after_master_reset (kind : RestartKind) (process_wait : Z) : BootOp unit := fun s =>
  if negb (can_reconnect s) then (Err (Mgmt (TransportFailed TransportClosed)), s) else
  let s := drop_connection s in
  let accepted := bs_now s in
  let s := bs_set_pending (Some (MkPending accepted None)) s in
  let until := accepted + process_wait in
  let s := if FACTORY_RESET_PROBE_FROM <? process_wait then measure_readiness_until accepted until s else s in
  let s := sleep_until until s in
  let '(r, s) := reconnect_after_reboot_quiet CONFIRMED_RESTART_QUIET s in
  match bs_pending s with
  | Some p =>
      (r, MkBootSession (bs_session s)
            (bs_readiness s ++ [MkReadiness kind process_wait
               (option_map (fun at_ => Z.max 0 (at_ - pr_accepted p)) (pr_first_answer p))]) None)
  | None => (r, s)
  end.

(** ** Cycling a live connection *)

Definition cycle_l4 : BootOp unit := fun s =>
  let s := if ss_connected (bs_session s)
           then bs_set_session (ss_set_connected false (ss_set_link (link_disconnect (bs_link s)) (bs_session s))) s
           else s in
  on_session reconnect s.

Definition session_exchanges (s : BootSession L) : u32 :=
  if ss_connected (bs_session s) then link_numbered_exchanges (bs_link s) else 0.
End Reboot.

(** ** A device that comes back

    From [ready_at] on the device takes connections, answers reads of its
    descriptor (and not before) and authorizes; no step of a probe takes longer than [step], and the
    gateway link is not lost. *)
Class ComesBack (L : Type) `{RebootLink L} (ready_at step : Z) : Prop := {
  cb_step : 0 <= step;
  cb_sleep : forall d (l : L), now (sleep d l) = now l + Z.max 0 d;
  cb_connect : forall (l : L), now l <= now (snd (link_connect l)) <= now l + step;
  cb_describe : forall u (l : L), now l <= now (snd (link_describe u l)) <= now l + step;
  cb_disconnect : forall (l : L), now l <= now (link_disconnect l) <= now l + step;
  cb_timeouts : forall b (l : L), now (link_set_probe_timeouts b l) = now l;
  cb_retry : forall r (l : L), now (link_set_sync_retry r l) = now l;
  cb_drop : forall (l : L), now (link_drop l) = now l;
  cb_takes : forall (l : L), ready_at <= now l -> is_ok (fst (link_connect l)) = true;
  cb_answers : forall u (l : L), ready_at <= now l -> is_ok (fst (link_describe u l)) = true;
  cb_early : forall u (l : L), is_ok (fst (link_describe u l)) = true -> ready_at <= now l;
  cb_authorizes : forall key (l : L), ready_at <= now l -> is_ok (fst (link_authorize key l)) = true;
  cb_kept : forall (l : L), link_losses l = 0 }.

Section Back.
  Context {L : Type} {RL : RebootLink L} (ready_at step : Z) {CB : ComesBack L ready_at step}.
  Implicit Types s : BootSession L.

(** The outcome of a probe at a time. *)
Lemma probe_times s : can_reconnect s = true ->
  can_reconnect (snd (probe_ready s)) = true /\
  bs_now s <= bs_now (snd (probe_ready s)) <= bs_now s + 3 * step /\
  (ready_at <= bs_now s -> is_Some (fst (probe_ready s))).
Proof.
  intros Hc. unfold probe_ready, probe_secure_device, probe_rebooted_device. rewrite Hc. cbn [negb].
  pose proof cb_step as Hp. unfold bs_now, bs_link in *. set (l := ss_link (bs_session s)) in *.
  assert (Hn : forall s' : BootSession L, bs_link (note_probe_answered s') = bs_link s'
                 /\ can_reconnect (note_probe_answered s') = can_reconnect s')
    by (intros s'; unfold note_probe_answered; by destruct (bs_pending s')).
  unfold bs_link in Hn. pose proof (cb_connect l) as H1. pose proof (cb_takes l) as H2.
  destruct (link_secure l).
  - destruct (link_connect l) as [[x|x] l1]; cbn [fst snd is_ok] in *.
    + pose proof (cb_describe true (link_set_probe_timeouts true l1)) as H3.
      pose proof (cb_answers true (link_set_probe_timeouts true l1)) as H4. rewrite cb_timeouts in H3, H4.
      destruct (link_describe true _) as [[y|y] l2]; cbn [fst snd is_ok] in *.
      * rewrite (proj1 (Hn _)), (proj2 (Hn _)). cbn. rewrite cb_timeouts. split; [done|]. split; [lia|done].
      * cbn. pose proof (cb_disconnect l2). split; [done|]. split; [lia|]. intros Hr.
        specialize (H4 ltac:(lia)). discriminate.
    + cbn. split; [done|]. split; [lia|]. intros Hr. specialize (H2 Hr). discriminate.
  - destruct (link_connect l) as [[x|x] l1]; cbn [fst snd is_ok] in *.
    + pose proof (cb_describe false (link_set_probe_timeouts true l1)) as H3.
      pose proof (cb_answers false (link_set_probe_timeouts true l1)) as H4. rewrite cb_timeouts in H3, H4.
      destruct (link_describe false _) as [[y|y] l2]; cbn [fst snd is_ok] in *.
      * rewrite (proj1 (Hn _)), (proj2 (Hn _)). cbn. pose proof (cb_disconnect l2). split; [done|]. split; [lia|done].
      * cbn. pose proof (cb_disconnect l2). split; [done|]. split; [lia|]. intros Hr.
        specialize (H4 ltac:(lia)). discriminate.
    + cbn. split; [done|]. split; [lia|]. intros Hr. specialize (H2 Hr). discriminate.
Qed.

Lemma rest_now started deadline s : can_reconnect (sleep_rest_of_interval started deadline s) = can_reconnect s /\
  bs_now (sleep_rest_of_interval started deadline s)
  = Z.max (bs_now s) (Z.min (started + REBOOT_PROBE_INTERVAL) deadline).
Proof.
  split; [done|]. unfold sleep_rest_of_interval, sleep_until, bs_now. cbn. rewrite cb_sleep. unfold bs_link. lia.
Qed.

(** The turns a probe loop can still take. *)
Definition turns_left (deadline : Z) s : Z := Z.max 0 (deadline - bs_now s) / REBOOT_PROBE_INTERVAL + 2.

Lemma turns_drop deadline s s' : bs_now s < deadline ->
  Z.min (bs_now s + REBOOT_PROBE_INTERVAL) deadline <= bs_now s' ->
  turns_left deadline s' + 1 <= turns_left deadline s \/ deadline <= bs_now s'.
Proof. unfold turns_left, REBOOT_PROBE_INTERVAL. intros Hs Hs'. Z.to_euclidean_division_equations. lia. Qed.

(** The loop ends by itself. *)
Lemma probes_end fuel deadline : forall s, can_reconnect s = true ->
  (if bs_now s <? deadline then turns_left deadline s <= Z.of_nat fuel else 1 <= Z.of_nat fuel) ->
  is_Some (fst (probe_loop fuel deadline s)) /\ can_reconnect (snd (probe_loop fuel deadline s)) = true /\
  bs_now s <= bs_now (snd (probe_loop fuel deadline s)).
Proof.
  induction fuel as [|fuel IH]; intros s Hc Hf.
  { exfalso. unfold turns_left, REBOOT_PROBE_INTERVAL in Hf. destruct (_ <? _); [|lia].
    pose proof (Z.div_pos (Z.max 0 (deadline - bs_now s)) 500). lia. }
  cbn [probe_loop]. destruct (probe_times s Hc) as (Hc1 & Ht & _). destruct (probe_ready s) as [[answer|] s1]; cbn [fst snd] in *.
  - split; [done|]. split; [done|lia].
  - destruct (Z.leb_spec deadline (bs_now s1)) as [Hd|Hd]; cbn [fst snd].
    + split; [done|]. split; [done|lia].
    + destruct (rest_now (bs_now s) deadline s1) as [Hc2 Hr]. rewrite Hc1 in Hc2.
      destruct (IH (sleep_rest_of_interval (bs_now s) deadline s1) Hc2) as (H1 & H2 & H3).
      * rewrite (proj2 (Z.ltb_lt _ _)) in Hf by lia.
        destruct (turns_drop deadline s (sleep_rest_of_interval (bs_now s) deadline s1)) as [Hdr|Hdr]; [lia|lia| |].
        -- destruct (_ <? _); [lia|]. unfold turns_left in Hf. 
           pose proof (Z.div_pos (Z.max 0 (deadline - bs_now s)) REBOOT_PROBE_INTERVAL). unfold REBOOT_PROBE_INTERVAL in *. lia.
        -- rewrite (proj2 (Z.ltb_ge _ _)) by lia. unfold turns_left, REBOOT_PROBE_INTERVAL in Hf.
           pose proof (Z.div_pos (Z.max 0 (deadline - bs_now s)) 500). lia.
      * split; [done|]. split; [done|lia].
Qed.

(** A device that is back a probe before the deadline is found. *)
Lemma probes_find fuel deadline : forall s, can_reconnect s = true ->
  ready_at + 3 * step <= deadline -> is_Some (fst (probe_loop fuel deadline s)) ->
  bs_now s <= deadline \/ ready_at <= bs_now s ->
  exists answer, fst (probe_loop fuel deadline s) = Some (Some answer) /\
  bs_now (snd (probe_loop fuel deadline s)) <= Z.max (bs_now s) (ready_at + Z.max REBOOT_PROBE_INTERVAL (3 * step)) + 3 * step.
Proof.
  induction fuel as [|fuel IH]; intros s Hc Hd Hsome Hin; [by destruct Hsome|].
  cbn [probe_loop] in *. destruct (probe_times s Hc) as (Hc1 & Ht & Hup). pose proof cb_step as Hp.
  destruct (probe_ready s) as [[answer|] s1]; cbn [fst snd] in *.
  - exists answer. split; [done|]. unfold REBOOT_PROBE_INTERVAL. lia.
  - assert (Hlt : bs_now s < ready_at) by (destruct (Z.lt_ge_cases (bs_now s) ready_at); [done|by destruct Hup]).
    destruct (Z.leb_spec deadline (bs_now s1)) as [Hd1|Hd1]; [lia|].
    destruct (rest_now (bs_now s) deadline s1) as [Hc2 Hr]. rewrite Hc1 in Hc2.
    destruct (IH _ Hc2 Hd Hsome) as (answer & E & Hb); [lia|]. exists answer. split; [done|].
    unfold REBOOT_PROBE_INTERVAL in *. lia.
Qed.

(** What the session knows of its target; waiting leaves it as it is. *)
Definition target_facts (x : Session L) := (ss_bcu_key x, ss_authorize x, ss_max_apdu x, ss_user_memory_above_64k x).

Lemma probe_ready_facts s : target_facts (bs_session (snd (probe_ready s))) = target_facts (bs_session s).
Proof.
  assert (Hn : forall s' : BootSession L, bs_session (note_probe_answered s') = bs_session s')
    by (intros s'; unfold note_probe_answered; by destruct (bs_pending s')).
  unfold probe_ready, probe_secure_device, probe_rebooted_device.
  destruct (link_secure (bs_link s)), (negb (can_reconnect s)); try done;
    destruct (link_connect (bs_link s)) as [[?|?] l]; try done;
    destruct (link_describe _ _) as [[?|?] l2]; cbn [snd]; by rewrite ?Hn.
Qed.

Lemma probe_loop_facts fuel deadline : forall s,
  target_facts (bs_session (snd (probe_loop fuel deadline s))) = target_facts (bs_session s).
Proof.
  induction fuel as [|fuel IH]; intros s; [done|]. cbn [probe_loop]. pose proof (probe_ready_facts s) as Hs.
  destruct (probe_ready s) as [[a|] s1]; cbn [snd] in *; [done|]. destruct (_ <=? _); [done|]. by rewrite IH.
Qed.

Lemma probe_until_facts deadline s : target_facts (bs_session (snd (probe_until deadline s))) = target_facts (bs_session s).
Proof.
  unfold probe_until. destruct (negb _); [done|]. pose proof (probe_loop_facts (probe_fuel deadline s) deadline s) as H.
  by destruct (probe_loop _ deadline s).
Qed.

(** The session has been authorized since the device came back, on the connection
    it now has: with the outcome the device gave, unless the device is known not to
    know the service. *)
Definition authorized_since (x x' : Session L) : Prop :=
  exists l l' outcome, ready_at <= now l /\
    (ss_authorize x = Some Connection.Unsupported /\ outcome = Connection.Unsupported /\ l' = l \/
     link_authorize (default FREE_ACCESS_KEY (ss_bcu_key x)) l = (Ok outcome, l')) /\
    ss_authorize x' = Some outcome /\
    ss_link x' = link_set_user_memory_above_64k (ss_user_memory_above_64k x) (link_set_max_apdu (ss_max_apdu x) l').

Lemma authorized_since_facts x y x' : target_facts x = target_facts y -> authorized_since x x' -> authorized_since y x'.
Proof. intros [= E1 E2 E3 E4]. unfold authorized_since. by rewrite E1, E2, E3, E4. Qed.

(** What an answered probe tells. *)
Definition answer_sound (answer : option Z) s : Prop :=
  ready_at <= bs_now s /\ (answer = None \/ answer = Some 0) /\ can_reconnect s = true.

Lemma probe_sound s answer : can_reconnect s = true -> fst (probe_ready s) = Some answer ->
  answer_sound answer (snd (probe_ready s)).
Proof.
  intros Hc Ha. destruct (probe_times s Hc) as (Hc' & _). revert Ha Hc'. unfold answer_sound.
  assert (Hn : forall s' : BootSession L, bs_now (note_probe_answered s') = bs_now s')
    by (intros s'; unfold note_probe_answered; by destruct (bs_pending s')).
  unfold probe_ready, probe_secure_device, probe_rebooted_device. rewrite Hc. cbn [negb].
  destruct (link_secure (bs_link s)); destruct (link_connect (bs_link s)) as [[x|x] l1]; try done.
  all: match goal with |- context [link_describe ?u ?l] => pose proof (cb_early u l) as He; pose proof (cb_describe u l) as Hd;
         destruct (link_describe u l) as [[y|y] l2] end; cbn [fst snd is_ok] in *; try done.
  all: intros [= <-] Hc'; rewrite Hn; specialize (He eq_refl); split_and!; try done.
  - unfold bs_now. cbn. rewrite cb_timeouts. lia.
  - right. f_equal. apply cb_kept.
  - unfold bs_now. cbn. pose proof (cb_disconnect l2). lia.
  - by left.
Qed.

Lemma loop_sound fuel deadline : forall s answer, can_reconnect s = true ->
  fst (probe_loop fuel deadline s) = Some (Some answer) -> answer_sound answer (snd (probe_loop fuel deadline s)).
Proof.
  induction fuel as [|fuel IH]; intros s answer Hc Ha; [done|]. cbn [probe_loop] in *.
  destruct (probe_times s Hc) as (Hc1 & _). pose proof (probe_sound s) as Hs.
  destruct (probe_ready s) as [[a|] s1]; cbn [fst snd] in *.
  - injection Ha as <-. by apply Hs.
  - destruct (_ <=? _); [done|]. apply IH; [|done]. by rewrite (proj1 (rest_now _ _ _)).
Qed.

Lemma probe_until_found deadline s : can_reconnect s = true -> ready_at + 3 * step <= deadline ->
  bs_now s <= deadline ->
  exists answer s', probe_until deadline s = (Some answer, s') /\ answer_sound answer s' /\
    bs_now s' <= Z.max (bs_now s) (ready_at + Z.max REBOOT_PROBE_INTERVAL (3 * step)) + 3 * step.
Proof.
  intros Hc Hd Hn. unfold probe_until. rewrite Hc. cbn [negb].
  destruct (probes_end (probe_fuel deadline s) deadline s Hc) as (He & _).
  { unfold probe_fuel, turns_left. rewrite Nat2Z.inj_add.
    destruct (Z.ltb_spec (bs_now s) deadline); [|lia]. rewrite Z2Nat.id by (apply Z.div_pos; unfold REBOOT_PROBE_INTERVAL; lia).
    rewrite Z.max_r by lia. lia. }
  destruct (probes_find (probe_fuel deadline s) deadline s Hc Hd He ltac:(lia)) as (answer & E & Hb).
  pose proof (loop_sound (probe_fuel deadline s) deadline s answer Hc E) as Hs.
  destruct (probe_loop _ deadline s) as [r s']. cbn [fst snd] in *. subst r. exists answer, s'. done.
Qed.

(** Once the device is back the authorization succeeds. *)
Lemma adopt_back (x : Session L) : ready_at <= now (ss_link x) ->
  exists x', adopt 0 x = (Ok tt, x') /\ ss_connected x' = true /\ authorized_since x x'.
Proof.
  intros Hr. pose proof (cb_authorizes (default FREE_ACCESS_KEY (ss_bcu_key x)) (ss_link x) Hr) as Ha.
  unfold authorized_since, adopt, authorize_session, ask, update, on_l4, mbind, Mgmt_op_bind. cbv beta iota.
  destruct (ss_authorize x) as [[?|?|]|] eqn:Ea; [| |eexists; do 2 (split; [reflexivity|]);
    exists (ss_link x), (ss_link x), Connection.Unsupported; split_and!; [done|by left|done|done]|].
  all: destruct (link_authorize _ (ss_link x)) as [[o|e] l] eqn:El; [|done]; cbn [fst is_ok] in Ha.
  all: rewrite cb_kept; cbn [Z.eqb negb]; destruct o; cbn;
    (eexists; do 2 (split; [reflexivity|]); exists (ss_link x), l; eexists; split_and!; [done|right; exact El|done|done]).
Qed.

Lemma reconnect_once_back (x : Session L) : ss_connector x = true -> ready_at <= now (ss_link x) ->
  exists x', reconnect_once x = (Ok tt, x') /\ ss_connected x' = true /\ authorized_since x x'.
Proof.
  intros Hc Hr. unfold reconnect_once, update, ask, mbind, Mgmt_op_bind, on_l4. cbv beta iota.
  cbn [ss_connector ss_link ss_set_connected ss_set_link]. rewrite Hc. cbn [negb]. cbv beta iota.
  cbn [ss_link ss_set_connected ss_set_link].
  pose proof (cb_connect (link_drop (ss_link x))) as H1. pose proof (cb_takes (link_drop (ss_link x))) as H2.
  rewrite cb_drop in H1, H2. specialize (H2 Hr). destruct (link_connect _) as [[u|e] l]; [|done].
  cbn [fst snd] in *. rewrite cb_kept.
  match goal with |- exists x', adopt 0 ?y = _ /\ _ => destruct (adopt_back y) as (x' & E & Hx & Ha) end; [cbn; lia|].
  by exists x'.
Qed.

Lemma after_one_reboot_back wait_ms timeout_ms quiet s :
  let bound := if link_secure (bs_link s) then secure_reboot_wait_bound wait_ms else reboot_wait_bound wait_ms in
  can_reconnect s = true -> 0 <= quiet -> 0 <= bound -> ready_at + 3 * step <= bs_now s + bound ->
  exists s', reconnect_after_one_reboot wait_ms timeout_ms quiet s = (Ok tt, s') /\ ss_connected (bs_session s') = true /\
    authorized_since (bs_session s) (bs_session s').
Proof.
  intros bound Hc Hq Hb Hd. unfold reconnect_after_one_reboot. subst bound. destruct (link_secure (bs_link s)).
  - unfold reconnect_after_secure_reboot. set (s1 := bs_set_link _ s).
    destruct (probe_until_found (bs_now s + secure_reboot_wait_bound wait_ms) s1) as (answer & s2 & E2 & (Hr & Ha & Hc2) & _);
      [done|done|unfold s1, bs_now; cbn; rewrite cb_sleep; unfold bs_link; lia|].
    pose proof (probe_until_facts (bs_now s + secure_reboot_wait_bound wait_ms) s1) as Hf. rewrite E2 in Hf. rewrite E2. cbn [snd] in Hf.
    assert (Hfin : forall s3, ready_at <= bs_now s3 -> target_facts (bs_session s3) = target_facts (bs_session s) ->
      exists s', on_session (adopt 0)
      (bs_set_link (link_set_sync_retry (sync_retry_after_restart wait_ms timeout_ms) (bs_link s3)) s3) = (Ok tt, s')
      /\ ss_connected (bs_session s') = true /\ authorized_since (bs_session s) (bs_session s')).
    { intros s3 H3 F3. destruct (adopt_back (ss_set_link (link_set_sync_retry (sync_retry_after_restart wait_ms timeout_ms) (bs_link s3)) (bs_session s3)))
        as (x & E & Hx & Hax); [cbn; by rewrite cb_retry|]. unfold on_session, bs_set_link, bs_set_session. cbn [bs_session]. rewrite E.
      eexists. split_and!; [done|done|]. exact (authorized_since_facts _ _ _ F3 Hax). }
    destruct Ha as [-> | ->]; cbn [mjoin option_join].
    + rewrite Hc2. cbn [negb]. pose proof (cb_connect (bs_link s2)) as H1. pose proof (cb_takes (bs_link s2) Hr) as H2.
      destruct (link_connect (bs_link s2)) as [[u|e] l]; [|done]. cbn [snd] in H1. rewrite cb_kept. apply Hfin; [|exact Hf].
      unfold bs_now in *. cbn. lia.
    + by apply Hfin.
  - unfold reconnect_after_plain_reboot. set (s1 := bs_set_link _ s).
    destruct (probe_until_found (bs_now s + reboot_wait_bound wait_ms) s1) as (answer & s2 & E2 & (Hr & _ & Hc2) & _);
      [done|done|unfold s1, bs_now; cbn; rewrite cb_sleep; unfold bs_link; lia|].
    pose proof (probe_until_facts (bs_now s + reboot_wait_bound wait_ms) s1) as Hf. rewrite E2 in Hf. rewrite E2. cbn [snd] in Hf.
    destruct (reconnect_once_back (bs_session s2) Hc2 Hr) as (x & E & Hx & Ha). unfold on_session. rewrite E.
    eexists. split_and!; [done|done|]. exact (authorized_since_facts _ _ _ Hf Ha).
Qed.

(** C8: A device that comes back after a restart, early enough before the wait's
    bound for a probe to find it, is reached: [reconnect_after_reboot] ends with an
    open connection that the device has authorized since, with the session's key or
    the free one (a device known not to have the service is not asked again).  Where
    a step of a probe takes at most [step], the probes find it no earlier than it is
    back and at most max(500 ms, 3 steps) and one more probe of 3 steps later. *)
Theorem restarted_device_is_reached wait_ms timeout_ms s :
  let bound := if link_secure (bs_link (drop_connection s)) then secure_reboot_wait_bound wait_ms else reboot_wait_bound wait_ms in
  can_reconnect s = true -> 0 <= bound -> ready_at + 3 * step <= bs_now s + bound ->
  (exists s', reconnect_after_reboot wait_ms timeout_ms s = (Ok tt, s') /\ ss_connected (bs_session s') = true /\
     authorized_since (bs_session s) (bs_session s')) /\
  (exists answer s', probe_until (bs_now s + bound) s = (Some answer, s') /\ ready_at <= bs_now s' /\
    bs_now s' <= Z.max (bs_now s) (ready_at + Z.max REBOOT_PROBE_INTERVAL (3 * step)) + 3 * step).
Proof.
  intros bound Hc Hb Hd. assert (Hn : bs_now (drop_connection s) = bs_now s) by (unfold bs_now; cbn; apply cb_drop). split.
  - destruct (after_one_reboot_back wait_ms timeout_ms REBOOT_PROBE_MIN_WAIT (drop_connection s)) as (s' & E & Hx & Ha);
      [done|done|done|by rewrite Hn|]. exists s'. split; [|done].
    unfold reconnect_after_reboot, reconnect_after_reboot_quiet. change MAX_RESUME_RECONNECTS with 5%nat. cbn [after_reboot_loop].
    by rewrite E.
  - destruct (probe_until_found (bs_now s + bound) s Hc Hd ltac:(lia)) as (answer & s' & E & (Hr & _) & Ht). by exists answer, s'.
Qed.
End Back.

(** ** A device to run on

    It restarts for six and a half seconds; an unanswered read takes 500 ms, an
    answered one 40. *)
Definition back_at : Z := 6500.

#[local] Instance slow_mgmt : L4Management Z := {
  property_request _ _ _ _ := fail (Mgmt NoResponse);
  property_write_request _ _ _ _ _ := fail (Mgmt NoResponse);
  write_memory _ _ := fail (Mgmt NoResponse);
  read_memory_strict _ _ := fail (Mgmt NoResponse);
  now l := l;
  sleep d l := l + Z.max 0 d }.

#[local] Instance slow_link : SessionLink Z := {
  link_connect := fun l => (Ok tt, l + 20);
  link_drop l := l;
  link_losses _ := 0;
  link_authorize _ := mret (Granted 0);
  link_set_max_apdu _ l := l;
  link_set_user_memory_above_64k _ l := l;
  link_memory_service _ _ _ := MemPlain;
  link_chunk_caps _ := FlashRegions.MkChunkCaps 12 12 12 false;
  link_write _ _ _ l := ((Err (Mgmt NoResponse), (0, 0)%nat), l) }.

#[local] Instance slow_reboot : RebootLink Z := {
  link_secure _ := false;
  link_set_probe_timeouts _ l := l;
  link_describe _ := fun l => if back_at <=? l then (Ok tt, l + 40) else (Err (Mgmt NoResponse), l + 500);
  link_disconnect l := l;
  link_numbered_exchanges _ := 0;
  link_set_sync_retry _ l := l }.

#[local] Instance slow_comes_back : ComesBack Z back_at 500.
Proof.
  constructor; cbn; try done; intros; try lia.
  - destruct (_ <=? _); cbn; lia.
  - by rewrite (proj2 (Z.leb_le _ _)) by lia.
  - by destruct (Z.leb_spec back_at l).
Qed.

Definition slow_session (start : Z) : BootSession Z :=
  MkBootSession (MkSession start true true None None None VerifyModeState_default false) [] None.

Lemma restarted_device_is_reached_witness :
  (exists s', reconnect_after_reboot None None (slow_session 0) = (Ok tt, s') /\ bs_now s' = 6780) /\
  exists answer s', probe_until 10000 (slow_session 0) = (Some answer, s') /\ bs_now s' <= 9500.
Proof.
  destruct (restarted_device_is_reached back_at 500 None None (slow_session 0)) as [(s' & E & _) (a & s2 & E2 & _ & Hb)].
  - reflexivity.
  - vm_compute. discriminate.
  - vm_compute. discriminate.
  - split.
    + exists s'. split; [exact E|]. replace s' with (snd (reconnect_after_reboot None None (slow_session 0))) by (by rewrite E). reflexivity.
    + change (probe_until 10000 (slow_session 0) = (Some a, s2)) in E2.
      exists a, s2. split; [exact E2|]. replace s2 with (snd (probe_until 10000 (slow_session 0))) by (by rewrite E2). vm_compute. discriminate.
Defined.
