(* ===== verification/FlashProps.v ===== *)
(** * The property steps of a download ([bussard-download/src/flash/props.rs], knxnet_ip.rs)

    Writing, reading, comparing and describing a property of an interface object
    named by its index (the plain services) or by its type (the extended services,
    with the index looked up when the device declines them), and the writes of the
    KNXnet/IP parameter object.  What they use of a connection is [PropertyLink]; the
    client's connection is an instance. *)

From Stdlib Require Import String.
From S2P Require Import Prelude Decimal TextCodec Address Crypto MgmtError Apci Connection Load ClientMemory PropertyExt ObjectTable FlashPlan FlashSession.

Local Open Scope string_scope.
Local Open Scope list_scope.
Local Open Scope Z_scope.

(** ** What the steps use of a connection *)

Class PropertyLink (S : Type) {M : L4Management S} : Type := {
  property_requests :: L4Requests S;
  property_objects :: L4Properties S;
  link_description_optional : u8 -> u8 -> Req_op S (option PropertyDescription) }.

#[export] Instance connection_management {W} `{L4World W} `{SecureCiphers} : L4Management (L4State W) := {
  property_request o p start count := mgmt (conn_property_request o p start count);
  property_write_request o p count start value := mgmt (conn_property_write_request o p count start value);
  write_memory := ClientMemory.write_memory;
  read_memory_strict := ClientMemory.read_memory_strict;
  now s := chan_now (l4_world s);
  sleep d s := MkL4State (l4_conn s) (l4_shared s) (chan_sleep d (l4_world s)) }.

#[export] Instance connection_property_link {W} `{L4World W} `{SecureCiphers} : PropertyLink (L4State W) := {
  link_description_optional := read_property_description_optional }.

Definition PROPERTY_APDU_OVERHEAD : u16 := 5.
Definition MAX_PLAIN_ELEMENTS : nat := 15.

(** [u8::try_from(v).unwrap_or(u8::MAX)], [u16::try_from(v).unwrap_or(u16::MAX)]. *)
Definition u8_or_max (v : Z) : u8 := if v <=? 255 then v else 255.
Definition u16_or_max (v : Z) : u16 := if v <=? 65535 then v else 65535.
Definition u16_saturating_add (a b : Z) : u16 := Z.min (a + b) 65535.

Definition ext_address (object_type occurrence : u16) (prop_id : u32) : PropertyExtAddress :=
  MkExtAddress object_type (u16_saturating_add occurrence 1) (u16_or_max prop_id).

(** The octets per element of [value] written as [count] elements. *)
Definition element_size (value : bytes) (count : u16) : nat :=
  Nat.max (length value / Z.to_nat (Z.max count 1)) 1.

Definition plain_target (index prop_id : u32) : u8 * u8 := (u8_or_max index, u8_or_max prop_id).

(** Whether [actual] is [expected] under the mask; a missing octet of it compares. *)
Definition masked_equal (expected actual : bytes) (mask : option bytes) : bool :=
  (length actual =? length expected)%nat && equal_under_mask expected actual mask.

Section Props.
  Context {S : Type} {M : L4Management S} {PL : PropertyLink S}.

Definition of_req {A} (m : Req_op S A) : Mgmt_op S A := fun s =>
  let '(r, s') := m s in (map_err Mgmt r, s').

(** ** The index of an object named by its type *)

(** The index of the [occurrence]-th object of the type. *)
Definition nth_of_type (object_type occurrence : u16) (types : list u16) : option u8 :=
  index ← filter (fun i => types !! i = Some object_type) (seq 0 (length types)) !! Z.to_nat occurrence;
  if Z.of_nat index <=? 255 then Some (Z.of_nat index) else None.

Definition index_of_type (object_type occurrence : u16) : Mgmt_op S u8 :=
  types ← of_req read_io_list;
  match types ≫= nth_of_type object_type occurrence with
  | Some index => mret index
  | None =>
      table ← of_req probe_object_types;
      match nth_of_type object_type occurrence (map snd table) with
      | Some index => mret index
      | None => fail (Mgmt (MalformedResponse "no interface object of the type"))
      end
  end.

(** ** The plain services *)

(** The elements of [elem] octets one plain request carries. *)
Definition plain_elements (elem : nat) (s : S) : nat :=
  let budget := Z.to_nat (saturating_sub (l4_max_apdu s) PROPERTY_APDU_OVERHEAD) in
  Nat.max 1 (Nat.min (budget / Nat.max elem 1) MAX_PLAIN_ELEMENTS).

(** The writes of the chunks from the element [at_] on; a turn takes an octet at
    least, so the number of octets is fuel enough ([write_plain_enough]). *)
Fixpoint write_plain_chunks (fuel : nat) (index pid : u8) (elem per : nat) (at_ : u16) (value : bytes) : Mgmt_op S unit :=
  match fuel, value with
  | _, [] => mret tt
  | O, _ => fail (Mgmt (MalformedResponse "fuel"))
  | Datatypes.S fuel, _ =>
      let chunk := take (per * elem) value in
      let n := Z.of_nat (length chunk / elem) in
      _ ← write_property index pid (as_u8 n) at_ chunk None;
      write_plain_chunks fuel index pid elem per (u16_saturating_add at_ (as_u16 n)) (drop (per * elem) value)
  end.

Definition write_plain (index pid : u8) (start count : u16) (value : bytes) : Mgmt_op S unit := fun s =>
  if count <=? 1 then (_ ← write_property index pid 1 start value None; mret tt) s
  else let elem := element_size value count in
       write_plain_chunks (length value) index pid elem (plain_elements elem s) start value s.

(** The reads of the elements from [at_] to before [end_]; a turn takes one at
    least. *)
Fixpoint read_elements (fuel : nat) (request : u16 -> u8 -> Mgmt_op S bytes) (per : u16) (at_ end_ : u16)
    (out : bytes) : Mgmt_op S bytes :=
  if at_ <? end_ then
    match fuel with
    | O => fail (Mgmt (MalformedResponse "fuel"))
    | Datatypes.S fuel =>
        let n := Z.min per (end_ - at_) in
        got ← request at_ (as_u8 n);
        read_elements fuel request per (at_ + n) end_ (out ++ got)
    end
  else mret out.

(** All the elements, [count] from [start] on. *)
Definition read_span (request : u16 -> u8 -> Mgmt_op S bytes) (per : nat) (start count : u16) : Mgmt_op S bytes :=
  let end_ := u16_saturating_add start (Z.max count 1) in
  read_elements (Z.to_nat (end_ - start)) request (as_u16 (Z.of_nat per)) start end_ [].

Definition read_plain (index pid : u8) (start count : u16) (elem : nat) : Mgmt_op S bytes := fun s =>
  read_span (read_property_elements index pid) (plain_elements elem s) start count s.

(** ** The extended services *)

Definition ext_elements (addr : PropertyExtAddress) (at_ : u16) (n : u8) : Mgmt_op S bytes :=
  resp ← of_req (read_property_ext addr n at_); mret (pev_data resp).

(** The source's [read_ext] has the error of the connection: [ext_err] takes it
    back out of [WriteError] for [declined_as_none]. *)
Definition ext_err (e : WriteError) : MgmtError :=
  match e with
  | Mgmt e => e
  | _ => MalformedResponse "not an error of the connection"
  end.

Definition read_ext (addr : PropertyExtAddress) (start count : u16) (elem : nat) : Req_op S bytes := fun s =>
  let '(r, s') := read_span (ext_elements addr) (max_read_elements s elem) start count s in (map_err ext_err r, s').

(** ** Reading and writing a property *)

Definition read_property_value (object : PropObject) (prop_id : u32) (start count : u16) (elem : nat) : Mgmt_op S bytes :=
  match object with
  | PropIndex index =>
      let '(index, pid) := plain_target index prop_id in read_plain index pid start count elem
  | PropType object_type occurrence =>
      read ← of_req (declined_as_none (read_ext (ext_address object_type occurrence prop_id) start count elem));
      match read with
      | Some data => mret data
      | None =>
          index ← index_of_type object_type occurrence;
          read_plain index (u8_or_max prop_id) start count elem
      end
  end.

(** The object the verifying read goes to. *)
Definition write_to_object (object : PropObject) (prop_id : u32) (start count : u16) (value : bytes)
    : Mgmt_op S PropObject :=
  match object with
  | PropIndex index =>
      let '(index, pid) := plain_target index prop_id in
      _ ← write_plain index pid start count value; mret (PropIndex index)
  | PropType object_type occurrence =>
      written ← of_req (declined_as_none
        (write_property_ext_chunked (ext_address object_type occurrence prop_id) start (element_size value count) value));
      match written with
      | Some _ => mret object
      | None =>
          index ← index_of_type object_type occurrence;
          _ ← write_plain index (u8_or_max prop_id) start count value;
          mret (PropIndex index)
      end
  end.

Definition write_property_value (object : PropObject) (prop_id : u32) (start count : u16) (value : bytes)
    (verify : bool) : Mgmt_op S unit :=
  object ← write_to_object object prop_id start count value;
  if verify then
    held ← read_property_value object prop_id start (Z.max count 1) (element_size value count);
    if negb (bool_decide (held = value)) then fail (PropertyMismatch "" "verify read-back" value held) else mret tt
  else mret tt.

Definition describe_property (object : PropObject) (prop_id : u32) : Mgmt_op S unit :=
  match object with
  | PropType object_type occurrence =>
      _ ← of_req (read_property_ext_description_optional (ext_address object_type occurrence prop_id)); mret tt
  | PropIndex index =>
      if (index <=? 255) && (prop_id <=? 255)
      then _ ← of_req (link_description_optional index prop_id); mret tt
      else mret tt
  end.

Definition compare_property_value (object : PropObject) (prop_id : u32) (start : u16) (expected : bytes)
    (mask : option bytes) : Mgmt_op S unit :=
  match object with
  | PropIndex index =>
      let '(index, pid) := plain_target index prop_id in compare_property index pid start expected mask
  | PropType _ _ =>
      held ← read_property_value object prop_id start 1 (Nat.max (length expected) 1);
      let actual := take (length expected) held in
      if masked_equal expected actual mask then mret tt
      else fail (PropertyMismatch "" "compare" expected actual)
  end.

(** ** The KNXnet/IP parameter object *)

Definition OT_KNXNET_IP_PARAMETER : u16 := 11.

Definition resolve_ip_object (object : PropObject) : Mgmt_op S PropObject := fun s =>
  match object with
  | PropType _ _ => (Ok object, s)
  | PropIndex index =>
      let look_up s :=
        match index_of_type OT_KNXNET_IP_PARAMETER 0 s with
        | (Ok found, s) => (Ok (PropIndex found), s)
        | (Err e, s) =>
            if is_connection_death e then (Err e, s)
            else (Err (Mgmt (MalformedResponse "no KNXnet/IP parameter object")), s)
        end in
      match read_property_value object PID_OBJECT_TYPE 1 1 2 s with
      | (Ok held, s) =>
          if bool_decide (held = be_bytes 2 OT_KNXNET_IP_PARAMETER) then (Ok object, s) else look_up s
      | (Err e, s) => if is_connection_death e then (Err e, s) else look_up s
      end
  end.

Fixpoint knxnet_ip_writes (object : PropObject) (writes : list KnxnetIpWrite) : Mgmt_op S unit :=
  match writes with
  | [] => mret tt
  | w :: writes =>
      _ ← write_property_value object (kw_prop_id w) (kw_start w) (kw_count w) (kw_value w) true;
      knxnet_ip_writes object writes
  end.

Definition write_knxnet_ip (program : KnxnetIpProgram) : Mgmt_op S unit :=
  object ← resolve_ip_object (kp_object program);
  knxnet_ip_writes object (kp_writes program).
End Props.

(** ** The program of the KNXnet/IP parameters *)

Inductive IpAssignment : Type := Dhcp | Static.

#[export] Instance IpAssignment_eq_dec : EqDecision IpAssignment.
Proof. solve_decision. Defined.

Definition METHOD_MANUAL : u8 := 1.
Definition METHOD_DHCP : u8 := 4.

Definition IpAssignment_method_bits (a : IpAssignment) : u8 :=
  match a with Dhcp => METHOD_DHCP | Static => METHOD_MANUAL end.

(** The fields of the device file's table that a download writes. *)
Record KnxnetConfig : Type := MkKnxnetConfig {
  kc_assignment : IpAssignment;
  kc_friendly_name : option text;
  kc_tunnels : list IndividualAddress }.

Definition PID_PROJECT_INSTALLATION_ID : u8 := 51.
Definition PID_ADDITIONAL_INDIVIDUAL_ADDRESSES : u8 := 53.
Definition PID_IP_ASSIGNMENT_METHOD : u8 := 55.
Definition PID_ROUTING_MULTICAST_ADDRESS : u8 := 66.
Definition PID_TTL : u8 := 67.
Definition PID_FRIENDLY_NAME : u8 := 76.
Definition FRIENDLY_NAME_OCTETS : nat := 30.
Definition ETS_PROJECT_INSTALLATION_ID : bytes := [0; 0].
Definition ETS_ROUTING_MULTICAST : bytes := [224; 0; 23; 12].
Definition ETS_ROUTING_TTL : u8 := 32.

Definition encode_friendly_name (name : text) : option bytes :=
  if negb (forallb (fun c => c <=? 255) name) || (FRIENDLY_NAME_OCTETS <? length name)%nat then None
  else Some (name ++ repeat 0 (FRIENDLY_NAME_OCTETS - length name)).

Definition plain_object (device_mask : u16) : option (u32 * u16) :=
  if device_mask =? 1968 then Some (6, 15)
  else if device_mask =? 1793 then Some (5, 10)
  else None.

(** Why a download is refused. *)
Inductive IpRefusal : Type := NoKnxnetTable | TunnelCount | NoFriendlyName | FriendlyNameUnencodable | StaticAddress.

(** [name.chunks(chunk)] as writes from the element [start] on; a chunk takes an
    octet at least. *)
Fixpoint friendly_name_writes (fuel : nat) (chunk : u16) (start : u16) (name : bytes) : list KnxnetIpWrite :=
  match fuel, name with
  | _, [] | O, _ => []
  | S fuel, _ =>
      let part := take (Z.to_nat (Z.max chunk 1)) name in
      let count := as_u16 (zlen part) in
      MkKnxnetIpWrite PID_FRIENDLY_NAME start count part
      :: friendly_name_writes fuel chunk (u16_saturating_add start count) (drop (Z.to_nat (Z.max chunk 1)) name)
  end.

(** [additional] and [secure] are the application's [AdditionalAddressesCount] and
    [IsSecureEnabled]. *)
Definition knxnet_ip_program (additional : option u16) (secure : bool) (device_mask : u16)
    (config : option KnxnetConfig) : result IpRefusal (option KnxnetIpProgram) :=
  match additional with
  | None => Ok None
  | Some slots =>
      if negb (0 <? slots) then Ok None else
      match config with
      | None => Err NoKnxnetTable
      | Some config =>
          if negb (zlen (kc_tunnels config) =? slots) then Err TunnelCount else
          match kc_friendly_name config with
          | None => Err NoFriendlyName
          | Some name =>
              match encode_friendly_name name with
              | None => Err FriendlyNameUnencodable
              | Some name =>
                  if bool_decide (kc_assignment config = Static) then Err StaticAddress else
                  let '(object, name_chunk) :=
                    match plain_object device_mask with
                    | Some (index, chunk) =>
                        if negb secure then (PropIndex index, chunk)
                        else (PropType OT_KNXNET_IP_PARAMETER 0, u16_or_max (Z.of_nat FRIENDLY_NAME_OCTETS))
                    | None => (PropType OT_KNXNET_IP_PARAMETER 0, u16_or_max (Z.of_nat FRIENDLY_NAME_OCTETS))
                    end in
                  let one prop_id value := MkKnxnetIpWrite prop_id 1 1 value in
                  Ok (Some (MkKnxnetIpProgram object
                    ([one PID_PROJECT_INSTALLATION_ID ETS_PROJECT_INSTALLATION_ID;
                      one PID_ROUTING_MULTICAST_ADDRESS ETS_ROUTING_MULTICAST;
                      one PID_TTL [ETS_ROUTING_TTL]]
                     ++ friendly_name_writes (length name) name_chunk 1 name
                     ++ [one PID_IP_ASSIGNMENT_METHOD [IpAssignment_method_bits (kc_assignment config)];
                         MkKnxnetIpWrite PID_ADDITIONAL_INDIVIDUAL_ADDRESSES 1 slots
                           (kc_tunnels config ≫= fun ia => be_bytes 2 (IndividualAddress_raw ia))])))
              end
          end
      end
  end.

(** ** A device whose reads tell what it holds

    [pd_plain d i p k] is the [k]-th element of the property [p] of object [i], and
    [pd_ext] the same by the object's type; reading changes nothing, and the index
    of a type names the same object. *)
Class PropertyDevice (S D : Type) {M : L4Management S} {PL : PropertyLink S} : Type := {
  pd_dev : S -> D;
  pd_plain : D -> u8 -> u8 -> Z -> bytes;
  pd_ext : D -> PropertyExtAddress -> Z -> bytes }.

Definition span (element : Z -> bytes) (start n : Z) : bytes := seqZ start n ≫= element.

Class PropertyDeviceLaws (S D : Type) `{PropertyDevice S D} : Prop := {
  plain_read_law : forall i p start n (s : S),
    pd_dev (snd (property_request i p start n s)) = pd_dev s /\
    forall resp, fst (property_request i p start n s) = Ok resp -> pvr_count resp = n ->
      pvr_data resp = span (pd_plain (pd_dev s) i p) start n;
  ext_read_law : forall addr start n (s : S),
    pd_dev (snd (read_property_ext addr n start s)) = pd_dev s /\
    forall resp, fst (read_property_ext addr n start s) = Ok resp ->
      pev_data resp = span (pd_ext (pd_dev s) addr) start n;
  lookup_law : forall t o (s : S),
    pd_dev (snd (index_of_type t o s)) = pd_dev s /\
    forall i d p, fst (index_of_type t o s) = Ok i -> p <= 255 ->
      pd_ext d (ext_address t o p) = pd_plain d i p;
  reopen_law : forall s : S, pd_dev (l4_reopen_after_unanswered s) = pd_dev s }.

Section Told.
  Context {S D : Type} {M : L4Management S} {PL : PropertyLink S} {PD : PropertyDevice S D} {PDL : PropertyDeviceLaws S D}.

(** The elements of a property as a step names it. *)
Definition elements (d : D) (object : PropObject) (prop_id : u32) : Z -> bytes :=
  match object with
  | PropIndex index => pd_plain d (u8_or_max index) (u8_or_max prop_id)
  | PropType t o => pd_ext d (ext_address t o prop_id)
  end.

Definition property_holds (d : D) (object : PropObject) (prop_id : u32) (start count : u16) (value : bytes) : Prop :=
  span (elements d object prop_id) start (Z.max count 1) = value.

(** A step's address in range of the plain services, and its elements in range. *)
Definition addressable (prop_id : u32) (start count : u16) : Prop :=
  0 <= prop_id <= 255 /\ 0 <= start /\ start + Z.max count 1 <= 65535.

(** An operation that keeps the device and returns what [f] says. *)
Definition tells {A} (m : Mgmt_op S A) (P : D -> A -> Prop) : Prop := forall s,
  pd_dev (snd (m s)) = pd_dev s /\ forall a, fst (m s) = Ok a -> P (pd_dev s) a.

Lemma span_app element start a b : 0 <= a -> 0 <= b ->
  span element start (a + b) = span element start a ++ span element (start + a) b.
Proof. intros Ha Hb. unfold span. by rewrite seqZ_app, bind_app by lia. Qed.

Lemma read_elements_tell (request : u16 -> u8 -> Mgmt_op S bytes) (f : D -> Z -> bytes) per end_ fuel :
  (forall at_ n, tells (request at_ n) (fun d data => data = span (f d) at_ n)) -> 1 <= per <= 255 ->
  forall at_ out, at_ <= end_ ->
  tells (read_elements fuel request per at_ end_ out) (fun d data => data = out ++ span (f d) at_ (end_ - at_)).
Proof.
  intros Hreq Hper. induction fuel as [|fuel IH]; intros at_ out Hle s; cbn [read_elements];
    destruct (Z.ltb_spec at_ end_) as [Hlt|Hge].
  1: by split.
  1, 3: split; [done|]; intros a [= <-]; replace (end_ - at_) with 0 by lia; by rewrite app_nil_r.
  set (n := Z.min per (end_ - at_)). assert (Hn : 1 <= n <= 255 /\ n <= end_ - at_) by lia. clearbody n.
  unfold as_u8. rewrite Z.mod_small by lia. unfold mbind, Mgmt_op_bind.
  destruct (Hreq at_ n s) as [Hk Hv]. destruct (request at_ n s) as [[got|e] s1]; cbn [fst snd] in *; [|by split].
  destruct (IH (at_ + n) (out ++ got) ltac:(lia) s1) as [Hk1 Hv1]. split; [congruence|].
  intros a Ha. rewrite (Hv1 a Ha), (Hv got eq_refl), Hk, <- (assoc_L app).
  f_equal. replace (end_ - at_) with (n + (end_ - (at_ + n))) by lia. by rewrite span_app by lia.
Qed.

Lemma read_span_tells request (f : D -> Z -> bytes) per start count :
  (forall at_ n, tells (request at_ n) (fun d data => data = span (f d) at_ n)) -> (1 <= per <= 255)%nat ->
  start + Z.max count 1 <= 65535 ->
  tells (read_span request per start count) (fun d data => data = span (f d) start (Z.max count 1)).
Proof.
  intros Hreq Hper Hr s. unfold read_span, u16_saturating_add, as_u16. rewrite Z.min_l, Z.mod_small by lia.
  destruct (read_elements_tell request f (Z.of_nat per) (start + Z.max count 1) (Z.to_nat (start + Z.max count 1 - start)) Hreq
              ltac:(lia) start [] ltac:(lia) s) as [Hk Hv].
  split; [done|]. intros a Ha. rewrite (Hv a Ha). cbn. f_equal. lia.
Qed.

Lemma plain_tells i p start count elem : start + Z.max count 1 <= 65535 ->
  tells (read_plain i p start count elem) (fun d data => data = span (pd_plain d i p) start (Z.max count 1)).
Proof.
  intros Hr s. unfold read_plain.
  apply (read_span_tells (read_property_elements i p) (fun d => pd_plain d i p)); [| |done].
  - intros at_ n s1. unfold read_property_elements, mbind, Mgmt_op_bind. destruct (plain_read_law i p at_ n s1) as [Hk Hv].
    destruct (property_request i p at_ n s1) as [[resp|e] s2]; cbn [fst snd] in *; [|by split].
    destruct (Z.eqb_spec (pvr_count resp) n) as [Hc|Hc]; cbn [negb]; [|by split].
    split; [done|]. intros a [= <-]. by apply Hv.
  - unfold plain_elements, MAX_PLAIN_ELEMENTS. lia.
Qed.

Lemma ext_tells addr start count elem s : start + Z.max count 1 <= 65535 ->
  pd_dev (snd (read_ext addr start count elem s)) = pd_dev s /\
  forall a, fst (read_ext addr start count elem s) = Ok a -> a = span (pd_ext (pd_dev s) addr) start (Z.max count 1).
Proof.
  intros Hr. unfold read_ext.
  assert (Ht : tells (read_span (ext_elements addr) (max_read_elements s elem) start count)
                 (fun d data => data = span (pd_ext d addr) start (Z.max count 1))).
  { apply (read_span_tells _ (fun d => pd_ext d addr)); [| |done].
    - intros at_ n s1. unfold ext_elements, of_req, mbind, Mgmt_op_bind. destruct (ext_read_law addr at_ n s1) as [Hk Hv].
      destruct (read_property_ext addr n at_ s1) as [[resp|e] s2]; cbn [fst snd map_err] in *; [|by split].
      split; [done|]. intros a [= <-]. by apply Hv.
    - unfold max_read_elements, max_write_elements. lia. }
  destruct (Ht s) as [Hk Hv]. destruct (read_span _ _ _ _ s) as [[data|e] s1]; cbn [fst snd map_err] in *; [|by split].
  split; [done|]. intros a [= <-]. by apply Hv.
Qed.

Lemma declined_tells {A} (f : Req_op S A) (P : D -> A -> Prop) s :
  pd_dev (snd (f s)) = pd_dev s -> (forall a, fst (f s) = Ok a -> P (pd_dev s) a) ->
  pd_dev (snd (declined_as_none f s)) = pd_dev s /\
  forall a, fst (declined_as_none f s) = Ok (Some a) -> P (pd_dev s) a.
Proof.
  intros Hk Hv. unfold declined_as_none. destruct (f s) as [[a|e] s1]; cbn [fst snd] in *.
  - split; [done|]. intros b [= <-]. by apply Hv.
  - destruct e; try match goal with k : SilenceKind |- _ => destruct k end; try destruct (_ <? _); cbn [fst snd];
      rewrite ?reopen_law; (split; [done|intros; congruence]).
Qed.

(** What a read of a property returns is what the device holds. *)
Lemma read_value_tells object prop_id start count elem : addressable prop_id start count ->
  tells (read_property_value object prop_id start count elem)
    (fun d data => property_holds d object prop_id start count data).
Proof.
  intros (Hp & Hs & Hr) s. unfold property_holds, elements. destruct object as [index|t o]; cbn [read_property_value].
  - destruct (plain_tells (u8_or_max index) (u8_or_max prop_id) start count elem Hr s) as [Hk Hv].
    split; [done|]. intros a Ha. symmetry. by apply Hv.
  - unfold of_req, mbind, Mgmt_op_bind. destruct (ext_tells (ext_address t o prop_id) start count elem s Hr) as [Hk Hv].
    destruct (declined_tells (read_ext (ext_address t o prop_id) start count elem)
                (fun d a => a = span (pd_ext d (ext_address t o prop_id)) start (Z.max count 1)) s Hk Hv) as [Hk1 Hv1].
    destruct (declined_as_none _ s) as [[[data|]|e] s1]; cbn [fst snd map_err] in *.
    + split; [done|]. intros a [= <-]. symmetry. by apply Hv1.
    + destruct (lookup_law t o s1) as [Hk2 Hv2]. destruct (index_of_type t o s1) as [[i|e] s2]; cbn [fst snd] in *.
      * destruct (plain_tells i (u8_or_max prop_id) start count elem Hr s2) as [Hk3 Hv3]. split; [congruence|].
        intros a Ha. rewrite (Hv3 a Ha), Hk2, Hk1, (Hv2 i (pd_dev s) prop_id eq_refl) by lia.
        unfold u8_or_max. by rewrite (proj2 (Z.leb_le _ _)) by lia.
      * split; [congruence|done].
    + by split.
Qed.

Lemma index_is_u8 t o s i s' : index_of_type t o s = (Ok i, s') -> u8_or_max i = i.
Proof.
  assert (Hn : forall types j, nth_of_type t o types = Some j -> u8_or_max j = j).
  { intros types j. unfold nth_of_type, u8_or_max. destruct (_ !! _) as [k|]; cbn -[Z.of_nat]; [|done].
    destruct (Z.of_nat k <=? 255) eqn:Ek; [|done]. intros [= <-]. by rewrite Ek. }
  unfold index_of_type, of_req, mbind, Mgmt_op_bind. destruct (read_io_list s) as [[types|e] s1]; cbn [map_err]; [|done].
  destruct (option_bind _ _ _ _) as [j|] eqn:Ej.
  - intros [= <- <-]. destruct types as [types|]; [|done]. by eapply Hn.
  - destruct (probe_object_types s1) as [[table|e] s2]; cbn [map_err]; [|done].
    destruct (nth_of_type t o (map snd table)) as [j|] eqn:Ej2; [|done]. intros [= <- <-]. by eapply Hn.
Qed.

(** The object the writes went to holds the same elements. *)
Lemma written_object object prop_id start count value s s' object' : 0 <= prop_id <= 255 ->
  match object with PropIndex i => 0 <= i <= 255 | PropType _ _ => True end ->
  write_to_object object prop_id start count value s = (Ok object', s') ->
  (forall d, elements d object' prop_id = elements d object prop_id).
Proof.
  intros Hp Hi. unfold write_to_object. destruct object as [index|t o].
  - unfold mbind, Mgmt_op_bind, plain_target. destruct (write_plain _ _ _ _ _ s) as [[u|e] s1]; [|done].
    intros [= <- <-] d. cbn. unfold u8_or_max. rewrite (proj2 (Z.leb_le index _)) by lia.
    by rewrite (proj2 (Z.leb_le index _)) by lia.
  - unfold of_req, mbind, Mgmt_op_bind. destruct (declined_as_none _ s) as [[[u|]|e] s1]; cbn [map_err]; [by intros [= <- <-]| |done].
    destruct (lookup_law t o s1) as [_ Hv]. destruct (index_of_type t o s1) as [[i|e] s2] eqn:Ei; [|done]. cbn [fst] in Hv.
    destruct (write_plain _ _ _ _ _ s2) as [[u|e] s3]; [|done]. intros [= <- <-] d. cbn [elements].
    rewrite (Hv i d prop_id eq_refl), (index_is_u8 _ _ _ _ _ Ei) by lia. unfold u8_or_max.
    by rewrite (proj2 (Z.leb_le prop_id _)) by lia.
Qed.

(** A property write with verification that returns leaves the device holding the
    value written, whichever service and index it went to in the end. *)
Theorem verified_write_is_held object prop_id start count value (s s' : S) :
  addressable prop_id start count ->
  match object with PropIndex i => 0 <= i <= 255 | PropType _ _ => True end ->
  write_property_value object prop_id start count value true s = (Ok tt, s') ->
  property_holds (pd_dev s') object prop_id start count value.
Proof.
  intros Ha Hi. unfold write_property_value, mbind, Mgmt_op_bind.
  destruct (write_to_object object prop_id start count value s) as [[object'|e] s1] eqn:Ew; [|done].
  assert (Ha' : addressable prop_id start (Z.max count 1)) by (unfold addressable in *; lia).
  destruct (read_value_tells object' prop_id start (Z.max count 1) (element_size value count) Ha' s1) as [Hk Hv].
  destruct (read_property_value object' _ _ _ _ s1) as [[held|e] s2]; [|done]. cbn [fst snd] in *.
  destruct (decide (held = value)) as [->|Hne]; [|by rewrite bool_decide_false by done].
  rewrite bool_decide_true by done. intros [= <-]. rewrite Hk. unfold property_holds in *.
  rewrite <- (Hv value eq_refl), (Z.max_l (Z.max count 1) 1) by lia. f_equal. symmetry.
  eapply written_object; [apply Ha|exact Hi|exact Ew].
Qed.
End Told.

(** ** The loops end *)

Section Enough.
  Context {S : Type} {M : L4Management S} {PL : PropertyLink S}.

(** More turns than elements change nothing. *)
Lemma read_elements_more request per end_ more fuel : 1 <= per -> forall at_ out (s : S),
  end_ - at_ <= Z.of_nat fuel ->
  read_elements (fuel + more) request per at_ end_ out s = read_elements fuel request per at_ end_ out s.
Proof.
  intros Hper. induction fuel as [|fuel IH]; intros at_ out s Hf; cbn [Nat.add].
  - destruct more; [done|]. cbn [read_elements]. by rewrite (proj2 (Z.ltb_ge _ _)) by lia.
  - cbn [read_elements]. destruct (Z.ltb_spec at_ end_); [|done]. unfold mbind, Mgmt_op_bind.
    destruct (request _ _ s) as [[got|e] s1]; [|done]. apply IH. lia.
Qed.

Lemma write_plain_enough index pid elem per more fuel : (0 < per * elem)%nat -> forall at_ value (s : S),
  (length value <= fuel)%nat ->
  write_plain_chunks (fuel + more) index pid elem per at_ value s = write_plain_chunks fuel index pid elem per at_ value s.
Proof.
  intros Hpos. induction fuel as [|fuel IH]; intros at_ value s Hf.
  - destruct value; [by destruct more|cbn in Hf; lia].
  - destruct value as [|b value]; [done|]. cbn [Nat.add write_plain_chunks]. unfold mbind, Mgmt_op_bind.
    destruct (write_property _ _ _ _ _ _ s) as [[x|e] s1]; [|done]. apply IH. rewrite length_drop. cbn in *. lia.
Qed.
End Enough.

(** ** The friendly name *)

(** The writes of the name cover it in order, from the first element on. *)
Lemma friendly_name_covered fuel chunk : 1 <= chunk <= 65535 -> forall start name,
  (length name <= fuel)%nat -> 1 <= start -> start + zlen name <= 65536 ->
  concat (map kw_value (friendly_name_writes fuel chunk start name)) = name /\
  forall i w, friendly_name_writes fuel chunk start name !! i = Some w ->
    kw_start w = start + Z.of_nat i * chunk /\ kw_count w = zlen (kw_value w) /\ 1 <= kw_count w <= chunk.
Proof.
  intros Hc. unfold zlen. induction fuel as [|fuel IH]; intros start name Hf Hs Hr.
  - destruct name; [done|cbn in Hf; lia].
  - destruct name as [|b name]; [done|]. set (l := b :: name) in *. assert (Hl : (0 < length l)%nat) by (cbn; lia).
    cbn [friendly_name_writes]. fold l. change (match l with [] => [] | _ :: _ => ?x end) with x.
    destruct (IH (u16_saturating_add start (as_u16 (Z.of_nat (length (take (Z.to_nat (Z.max chunk 1)) l)))))
                (drop (Z.to_nat (Z.max chunk 1)) l)) as [H1 H2]; unfold u16_saturating_add, as_u16 in *;
      rewrite ?length_take, ?length_drop in *; rewrite ?Z.mod_small by lia; try lia.
    rewrite Z.mod_small in H1, H2 by lia. clearbody l. cbn [map kw_value concat]. unfold zlen. rewrite ?length_take, ?Z.mod_small by lia.
    split; [by rewrite H1, take_drop|].
    intros [|i] w; cbn.
    + intros [= <-]. cbn. rewrite length_take. lia.
    + intros Hw. destruct (H2 i w Hw) as (E1 & E2 & E3). split; [|done]. rewrite E1.
      apply lookup_lt_Some in Hw. destruct (drop (Z.to_nat (Z.max chunk 1)) l) as [|x xs] eqn:Ed.
      { destruct fuel; cbn in Hw; lia. }
      assert (Hlen := length_drop l (Z.to_nat (Z.max chunk 1))). rewrite Ed in Hlen. cbn in Hlen. lia.
Qed.

(** ** A device to run on

    Two objects, the device and the KNXnet/IP parameters; the elements are octets,
    the extended services are declined, and the connection dies at a write. *)
Record DemoDevice : Type := MkDemoDevice {
  dm_props : gmap (Z * Z) bytes;
  dm_open : bool;
  dm_dies_after : option nat }.

Definition demo_types : list u16 := [0; OT_KNXNET_IP_PARAMETER].

Definition demo_element (d : gmap (Z * Z) bytes) (i p : u8) (k : Z) : bytes :=
  match d !! (i, p) with
  | Some held => if 1 <=? k then take 1 (drop (Z.to_nat (k - 1)) held) else []
  | None => []
  end.

Definition demo_read (i p : u8) (start : u16) (n : u8) (d : DemoDevice) : result MgmtError PropertyValueResponse :=
  if negb (dm_open d) then Err NoResponse else
  let data := span (demo_element (dm_props d) i p) start n in
  Ok (if zlen data =? n then MkPropertyValueResponse i p n start data else MkPropertyValueResponse i p 0 start []).

Definition demo_write (i p n : u8) (start : u16) (value : bytes) (d : DemoDevice)
    : result WriteError PropertyValueResponse * DemoDevice :=
  if negb (dm_open d) then (Err (Mgmt NoResponse), d) else
  match dm_dies_after d with
  | Some O => (Err (Mgmt NoResponse), MkDemoDevice (dm_props d) false None)
  | writes =>
      let held := default [] (dm_props d !! (i, p)) in
      let at_ := Z.to_nat (start - 1) in
      (Ok (MkPropertyValueResponse i p n start value),
       MkDemoDevice (<[(i, p) := take at_ held ++ value ++ drop (at_ + length value) held]> (dm_props d)) true
         (option_map Nat.pred writes))
  end.

#[export] Instance demo_mgmt : L4Management DemoDevice := {
  property_request i p start n d := (map_err Mgmt (demo_read i p start n d), d);
  property_write_request := demo_write;
  write_memory _ _ := fail (Mgmt NoResponse);
  read_memory_strict _ _ := fail (Mgmt NoResponse);
  now _ := 0;
  sleep _ d := d }.

#[export] Instance demo_requests : L4Requests DemoDevice := {
  l4_request _ _ d := (Err (ServiceRejected "" "" None), d);
  l4_request_optional _ _ d := (Ok None, d);
  l4_max_apdu _ := 15;
  l4_exchanges _ := 0;
  l4_reopen_after_unanswered d := d }.

#[export] Instance demo_objects : L4Properties DemoDevice := {
  lp_request i p start n d :=
    (if negb (dm_open d) then Err NoResponse
     else match demo_types !! Z.to_nat i with
          | Some t => if p =? PID_OBJECT_TYPE then Ok (MkPropertyValueResponse i p 1 start (be_bytes 2 t))
                      else Ok (MkPropertyValueResponse i p 0 start [])
          | None => Ok (MkPropertyValueResponse i p 0 start [])
          end, d);
  lp_read_octets _ := 10;
  lp_exchanges _ := 0;
  lp_reopen d := d;
  lp_seeded _ := None }.

#[export] Instance demo_link : PropertyLink DemoDevice := {
  link_description_optional _ _ d := (Ok None, d) }.

#[export] Instance demo_property_device : PropertyDevice DemoDevice (gmap (Z * Z) bytes) := {
  pd_dev := dm_props;
  pd_plain := demo_element;
  pd_ext d addr :=
    match nth_of_type (pea_object_type addr) (pea_object_instance addr - 1) demo_types with
    | Some i => demo_element d i (pea_property_id addr)
    | None => fun _ => []
    end }.

Lemma demo_lookup t o (d : DemoDevice) :
  index_of_type t o d = (if dm_open d then match nth_of_type t o demo_types with
                                           | Some i => Ok i
                                           | None => Err (Mgmt (MalformedResponse "no interface object of the type"))
                                           end else Err (Mgmt NoResponse), d).
Proof.
  destruct d as [props [|] dies]; [|reflexivity].
  unfold index_of_type, of_req, mbind, Mgmt_op_bind.
  replace (read_io_list (MkDemoDevice props true dies)) with
    (Ok (A := option (list u16)) (E := MgmtError) None, MkDemoDevice props true dies) by reflexivity.
  cbn [map_err mbind option_bind].
  replace (probe_object_types (MkDemoDevice props true dies)) with
    (Ok (E := MgmtError) [(0, 0); (1, 11)], MkDemoDevice props true dies) by reflexivity.
  cbn [map_err map snd dm_open]. change [0; 11] with demo_types. by destruct (nth_of_type t o demo_types).
Qed.

#[export] Instance demo_property_laws : PropertyDeviceLaws DemoDevice (gmap (Z * Z) bytes).
Proof.
  split.
  - intros i p start n d. cbn. split; [done|]. intros resp. unfold demo_read. destruct (negb _); [done|]. cbn.
    intros [= <-]. destruct (Z.eqb_spec (zlen (span (demo_element (dm_props d) i p) start n)) n); [done|].
    cbn. intros <-. done.
  - intros addr start n d. done.
  - intros t o d. rewrite demo_lookup. split; [done|]. intros i g p. cbn [fst]. destruct (dm_open d); [|done].
    destruct (nth_of_type t o demo_types) as [j|] eqn:Ej; [|done]. intros [= <-] Hp. cbn -[nth_of_type u16_or_max].
    assert (Ho : o <= 65534).
    { unfold nth_of_type in Ej. destruct (filter _ _ !! Z.to_nat o) as [k|] eqn:Ek; [|done].
      apply lookup_lt_Some in Ek. assert (Hl := length_filter (fun i => demo_types !! i = Some t) (seq 0 (length demo_types))).
      cbn [length demo_types seq] in *. lia. }
    unfold u16_saturating_add. rewrite Z.min_l by lia. replace (o + 1 - 1) with o by lia. rewrite Ej.
    unfold u16_or_max. by rewrite (proj2 (Z.leb_le _ _)) by lia.
  - done.
Qed.

Definition demo_start : DemoDevice := MkDemoDevice {[ (1, 76) := repeat 0 30 ]} true None.

Lemma verified_write_is_held_witness :
  exists d, write_property_value (PropType OT_KNXNET_IP_PARAMETER 0) 76 3 4 [72; 97; 117; 115] true demo_start = (Ok tt, d) /\
    property_holds (pd_dev d) (PropType OT_KNXNET_IP_PARAMETER 0) 76 3 4 [72; 97; 117; 115].
Proof.
  eexists. split; [vm_compute; reflexivity|].
  eapply (verified_write_is_held (PropType OT_KNXNET_IP_PARAMETER 0) 76 3 4 [72; 97; 117; 115] demo_start).
  - split_and!; lia.
  - exact I.
  - vm_compute. reflexivity.
Defined.
