(* ===== verification/FlashSteps.v ===== *)
(** * The step loop of a download ([bussard-download/src/flash/steps.rs])

    The loop the executors share: it skips what the executor skips, cycles the
    connection before a step when it has carried enough exchanges, and runs a step
    again on a new connection when the connection died in it.  What a step does is
    the executor's ([StepExecutor], the trait of the source), what the loop uses of
    the session is [StepSession].  The progress reports are left out. *)

From S2P Require Import Prelude MgmtError Load SecurityTables FlashPlan FlashSession.

Local Open Scope Z_scope.

Inductive Reboot : Type := RebootNo | Replayed | SelfReconnecting.

#[export] Instance Reboot_eq_dec : EqDecision Reboot.
Proof. solve_decision. Defined.

(** What the loop uses of a session. *)
Class StepSession (S : Type) : Type := {
  st_can_reconnect : S -> bool;
  st_link_losses : S -> Z;
  st_numbered_exchanges : S -> u32;
  st_cycle : Mgmt_op S unit;
  st_reconnect : Mgmt_op S unit;
  st_reconnect_after_reboot : Mgmt_op S unit }.

(** The executor's state is threaded beside the session. *)
Definition Step_op (S E : Type) : Type := E -> S -> (result WriteError unit * E) * S.

Class StepExecutor (S E : Type) : Type := {
  ex_reboot : FlashStep -> Reboot;
  ex_skip : FlashStep -> E -> bool * E;
  ex_restart_verified : E -> bool;
  ex_run : nat -> FlashStep -> Step_op S E;
  ex_recover : nat -> FlashStep -> WriteError -> E -> result WriteError unit * E }.

Section Steps.
  Context {S E : Type} {SS : StepSession S} {EX : StepExecutor S E}.

(** Runs a step, with the resumptions left. *)
Fixpoint attempt_step (resumes_left : nat) (i : nat) (step : FlashStep) : Step_op S E := fun e s =>
  let losses_before := st_link_losses s in
  match ex_run i step e s with
  | ((Ok _, e), s) => ((Ok tt, e), s)
  | ((Err err, e), s) =>
      let surrender := (ex_recover i step err e, s) in
      match resumes_left with
      | O => surrender
      | Datatypes.S resumes_left =>
          if is_connection_death err && st_can_reconnect s then
            if negb (bool_decide (ex_reboot step = SelfReconnecting)) then
              match st_reconnect s with
              | (Ok _, s) => attempt_step resumes_left i step e s
              | (Err err, s) => ((Err err, e), s)
              end
            else if negb (ex_restart_verified e) && negb (st_link_losses s =? losses_before) then
              match st_reconnect_after_reboot s with
              | (Ok _, s) => attempt_step resumes_left i step e s
              | (Err err, s) => ((Err err, e), s)
              end
            else surrender
          else surrender
      end
  end.

(** The proactive cycle between two steps. *)
Definition cycle_due (reconnect_threshold : u32) (step : FlashStep) (s : S) : bool :=
  (0 <? reconnect_threshold) && st_can_reconnect s && bool_decide (ex_reboot step = RebootNo)
  && (reconnect_threshold <=? st_numbered_exchanges s).

Definition run_step (reconnect_threshold : u32) (i : nat) (step : FlashStep) : Step_op S E := fun e s =>
  let '(skipped, e) := ex_skip step e in
  if (skipped : bool) then ((Ok tt, e), s) else
  match (if cycle_due reconnect_threshold step s then st_cycle s else (Ok tt, s)) with
  | (Err err, s) => ((Err err, e), s)
  | (Ok _, s) => attempt_step MAX_RESUME_RECONNECTS i step e s
  end.

(** The steps from the [i]th on. *)
Fixpoint run_steps_from (reconnect_threshold : u32) (i : nat) (steps : list FlashStep) : Step_op S E := fun e s =>
  match steps with
  | [] => ((Ok tt, e), s)
  | step :: steps =>
      match run_step reconnect_threshold i step e s with
      | ((Ok _, e), s) => run_steps_from reconnect_threshold (Datatypes.S i) steps e s
      | out => out
      end
  end.

Definition run_steps (p : FlashPlan) (reconnect_threshold : u32) : Step_op S E :=
  run_steps_from reconnect_threshold 0 (fp_steps p).

(** ** A rule for the loop

    [ready i] holds before the [i]th step, [broken i] after a run of it that
    failed; a reconnect leads from the one to the other. *)
Section Rule.
  Variables ready broken : nat -> E -> S -> Prop.

Definition step_sound (i : nat) (step : FlashStep) : Prop :=
    (forall e s, ready i e s -> fst (ex_skip step e) = true -> ready (Datatypes.S i) (snd (ex_skip step e)) s) /\
    (forall e s, ready i e s -> fst (ex_skip step e) = false -> ready i (snd (ex_skip step e)) s) /\
    (forall e s, ready i e s -> match st_cycle s with
                                | (Ok _, s') => ready i e s'
                                | (Err _, s') => broken i e s'
                                end) /\
    (forall e s, ready i e s -> match ex_run i step e s with
                                | ((Ok _, e'), s') => ready (Datatypes.S i) e' s'
                                | ((Err _, e'), s') => broken i e' s'
                                end) /\
    (forall e s, broken i e s -> match st_reconnect s with
                                 | (Ok _, s') => ready i e s'
                                 | (Err _, s') => broken i e s'
                                 end) /\
    (forall e s, broken i e s -> match st_reconnect_after_reboot s with
                                 | (Ok _, s') => ready i e s'
                                 | (Err _, s') => broken i e s'
                                 end) /\
    (forall e s err, broken i e s -> match ex_recover i step err e with
                                     | (Ok _, e') => ready (Datatypes.S i) e' s
                                     | (Err _, e') => broken i e' s
                                     end).

Lemma attempt_sound i step left : step_sound i step -> forall e s, ready i e s ->
  match attempt_step left i step e s with
  | ((Ok _, e'), s') => ready (Datatypes.S i) e' s'
  | ((Err _, e'), s') => broken i e' s'
  end.
Proof.
  intros (_ & _ & _ & Hrun & Hrec & Hreb & Hgive). induction left as [|left IH]; intros e s Hr; cbn [attempt_step];
    specialize (Hrun e s Hr); destruct (ex_run i step e s) as [[[u|err] e'] s']; try done.
  - specialize (Hgive e' s' err Hrun). by destruct (ex_recover i step err e') as [[|] ?].
  - assert (Hg : match (ex_recover i step err e', s') with
                 | ((Ok _, e''), s'') => ready (Datatypes.S i) e'' s''
                 | ((Err _, e''), s'') => broken i e'' s''
                 end) by (specialize (Hgive e' s' err Hrun); by destruct (ex_recover i step err e') as [[|] ?]).
    destruct (_ && st_can_reconnect s'); [|exact Hg]. destruct (negb (bool_decide _)).
    + specialize (Hrec e' s' Hrun). destruct (st_reconnect s') as [[u|x] s'']; [by apply IH|done].
    + destruct (negb _ && _); [|exact Hg]. specialize (Hreb e' s' Hrun).
      destruct (st_reconnect_after_reboot s') as [[u|x] s'']; [by apply IH|done].
Qed.

Lemma run_step_sound threshold i step : step_sound i step -> forall e s, ready i e s ->
  match run_step threshold i step e s with
  | ((Ok _, e'), s') => ready (Datatypes.S i) e' s'
  | ((Err _, e'), s') => broken i e' s'
  end.
Proof.
  intros Hs e s Hr. pose proof Hs as (Hskip & Hkeep & Hcycle & _). unfold run_step.
  specialize (Hskip e s Hr). specialize (Hkeep e s Hr). destruct (ex_skip step e) as [[|] e1]; cbn [fst snd] in *.
  - by apply Hskip.
  - specialize (Hkeep eq_refl). destruct (cycle_due threshold step s).
    + specialize (Hcycle e1 s Hkeep). destruct (st_cycle s) as [[u|x] s1]; [by apply attempt_sound|done].
    + by apply attempt_sound.
Qed.

Lemma run_steps_sound threshold steps : forall i e s,
  (forall k step, steps !! k = Some step -> step_sound (i + k) step) -> ready i e s ->
  match run_steps_from threshold i steps e s with
  | ((Ok _, e'), s') => ready (i + length steps)%nat e' s'
  | ((Err _, e'), s') => exists k, (k < length steps)%nat /\ broken (i + k)%nat e' s'
  end.
Proof.
  induction steps as [|step steps IH]; intros i e s Hs Hr; cbn [run_steps_from length].
  - by rewrite Nat.add_0_r.
  - pose proof (Hs O step eq_refl) as Hs0. rewrite Nat.add_0_r in Hs0.
    pose proof (run_step_sound threshold i step Hs0 e s Hr) as Hrun.
    destruct (run_step threshold i step e s) as [[[u|x] e'] s'].
    + specialize (IH (Datatypes.S i) e' s'). rewrite <- Nat.add_succ_comm.
      assert (Hs' : forall k st, steps !! k = Some st -> step_sound (Datatypes.S i + k) st).
      { intros k st Hk. rewrite Nat.add_succ_comm. by apply Hs. }
      specialize (IH Hs' Hrun). destruct (run_steps_from _ _ _ _ _) as [[[|] ?] ?]; [done|].
      destruct IH as (k & Hk & Hb). exists (Datatypes.S k). rewrite <- Nat.add_succ_comm. split; [lia|done].
    + exists O. rewrite Nat.add_0_r. split; [lia|done].
Qed.
End Rule.
End Steps.

(** ** The order of the runs *)

(** An executor that also notes the steps it runs. *)
Definition logging (S E : Type) {EX : StepExecutor S E} : StepExecutor S (E * list nat) := {|
  ex_reboot := ex_reboot;
  ex_skip step e := let '(b, e') := ex_skip step (fst e) in (b, (e', snd e));
  ex_restart_verified e := ex_restart_verified (fst e);
  ex_run i step e s := let '((r, e'), s') := ex_run i step (fst e) s in ((r, (e', snd e ++ [i])), s');
  ex_recover i step err e := let '(r, e') := ex_recover i step err (fst e) in (r, (e', snd e)) |}.

(** An executor that also notes what it was asked to skip, and its answers. *)
Definition asking (S E : Type) {EX : StepExecutor S E} : StepExecutor S (E * list (FlashStep * bool)) := {|
  ex_reboot := ex_reboot;
  ex_skip step e := let '(b, e') := ex_skip step (fst e) in (b, (e', snd e ++ [(step, b)]));
  ex_restart_verified e := ex_restart_verified (fst e);
  ex_run i step e s := let '((r, e'), s') := ex_run i step (fst e) s in ((r, (e', snd e)), s');
  ex_recover i step err e := let '(r, e') := ex_recover i step err (fst e) in (r, (e', snd e)) |}.

(** The runs of the steps up to the [n]th: in order, none more than six times. *)
Record ordered_runs (n : nat) (log : list nat) : Prop := MkOrdered {
  or_sorted : forall a b i j, log !! a = Some i -> log !! b = Some j -> (a <= b)%nat -> (i <= j)%nat;
  or_below : Forall (fun i => i < n)%nat log;
  or_often : forall i, (count_occ Nat.eq_dec log i <= Datatypes.S MAX_RESUME_RECONNECTS)%nat }.

Section Order.
  Context {S E : Type} {SS : StepSession S} {EX : StepExecutor S E}.

(** What an attempt with [left] resumptions adds to the log. *)
Definition logged_runs (left i : nat) (log : list nat) (out : (result WriteError unit * (E * list nat)) * S) : Prop :=
  exists n, (n <= Datatypes.S left)%nat /\ snd (snd (fst out)) = log ++ repeat i n /\ (0 < n)%nat.

Lemma recover_logged left i step err e log s :
  logged_runs left i log (ex_recover (StepExecutor := logging S E) i step err (e, log ++ [i]), s).
Proof.
  exists 1%nat. cbn [logging ex_recover fst snd]. destruct (ex_recover i step err e) as [r e'']. cbn.
  split; [lia|]. split; [done|lia].
Qed.

Lemma attempt_logged left i step : forall e log s,
  logged_runs left i log (attempt_step (EX := logging S E) left i step (e, log) s).
Proof.
  induction left as [|left IH]; intros e log s; cbn [attempt_step]; cbn [logging ex_run fst snd];
    destruct (ex_run i step e s) as [[[u|err] e'] s'].
  1, 3: exists 1%nat; split; [lia|split; [done|lia]].
  - apply recover_logged.
  - assert (Hagain : forall s'', logged_runs (Datatypes.S left) i log
                       (attempt_step (EX := logging S E) left i step (e', log ++ [i]) s'')).
    { intros s''. destruct (IH e' (log ++ [i]) s'') as (n & Hn & El & Hpos). exists (Datatypes.S n).
      rewrite El, <- (assoc_L app). split; [lia|]. split; [done|lia]. }
    assert (Hend : forall x s'', logged_runs (Datatypes.S left) i log ((Err x, (e', log ++ [i])), s'')).
    { intros x s''. exists 1%nat. cbn. split; [lia|]. split; [done|lia]. }
    destruct (_ && st_can_reconnect s'); [|apply recover_logged]. destruct (negb (bool_decide _)).
    + destruct (st_reconnect s') as [[|x] s'']; [apply Hagain|apply Hend].
    + destruct (negb _ && _); [|apply recover_logged].
      destruct (st_reconnect_after_reboot s') as [[|x] s'']; [apply Hagain|apply Hend].
Qed.

Lemma ordered_more i log n : ordered_runs i log -> (n <= Datatypes.S MAX_RESUME_RECONNECTS)%nat ->
  ordered_runs (Datatypes.S i) (log ++ repeat i n).
Proof.
  intros [Hs Hb Ho] Hn. constructor.
  - intros a b j k Ha Hb' Hab. apply lookup_app_Some in Ha as [Ha|[Hla Ha]], Hb' as [Hk|[Hlb Hk]].
    + by eapply Hs.
    + rewrite Forall_lookup in Hb. specialize (Hb _ _ Ha). apply list_elem_of_lookup_2, list_elem_of_In, repeat_spec in Hk. lia.
    + apply lookup_lt_Some in Hk. lia.
    + apply list_elem_of_lookup_2, list_elem_of_In, repeat_spec in Ha, Hk. lia.
  - apply Forall_app. split; [eapply Forall_impl; [exact Hb|]; intros; cbv beta in *; lia|].
    apply Forall_forall. intros j Hj%list_elem_of_In%repeat_spec. lia.
  - intros j. rewrite count_occ_app. destruct (decide (j = i)) as [->|Hne].
    + rewrite count_occ_repeat_eq by done. rewrite (proj1 (count_occ_not_In Nat.eq_dec log i)); [lia|].
      rewrite List.Forall_forall in Hb. intros Hin. specialize (Hb _ Hin). lia.
    + rewrite count_occ_repeat_neq by done. specialize (Ho j). lia.
Qed.

Lemma ordered_later i log : ordered_runs i log -> ordered_runs (Datatypes.S i) log.
Proof.
  intros Ho. assert (Hz : (0 <= Datatypes.S MAX_RESUME_RECONNECTS)%nat) by apply Nat.le_0_l.
  pose proof (ordered_more i log 0 Ho Hz) as H'. cbn [repeat] in H'. by rewrite app_nil_r in H'.
Qed.

(** What a step adds to the log: nothing when it is skipped, at least one run when
    it is not and the loop goes on. *)
Lemma run_step_logged threshold i step e log s : ordered_runs i log ->
  let out := run_step (EX := logging S E) threshold i step (e, log) s in
  ordered_runs (Datatypes.S i) (snd (snd (fst out))) /\ (exists n, snd (snd (fst out)) = log ++ repeat i n /\
    (fst (ex_skip step e) = true -> n = O) /\
    (is_ok (fst (fst out)) = true -> fst (ex_skip step e) = false -> (0 < n)%nat)).
Proof.
  intros Ho. cbv zeta. unfold run_step. cbn [logging ex_skip fst snd]. destruct (ex_skip step e) as [[|] e1]; cbn [fst snd].
  - split; [by apply ordered_later|]. exists O. cbn. by rewrite app_nil_r.
  - assert (Hgo : forall s1, let out := attempt_step (EX := logging S E) MAX_RESUME_RECONNECTS i step (e1, log) s1 in
      ordered_runs (Datatypes.S i) (snd (snd (fst out))) /\ exists n, snd (snd (fst out)) = log ++ repeat i n /\
        (false = true -> n = O) /\ (is_ok (fst (fst out)) = true -> false = false -> (0 < n)%nat)).
    { intros s1. cbv zeta. destruct (attempt_logged MAX_RESUME_RECONNECTS i step e1 log s1) as (n & Hn & El & Hok).
      rewrite El. split; [by apply ordered_more|]. by exists n. }
    destruct (cycle_due threshold step s); [|apply Hgo].
    destruct (st_cycle s) as [[|x] s1]; [apply Hgo|]. cbn. split; [by apply ordered_later|].
    exists O. cbn. by rewrite app_nil_r.
Qed.

Lemma run_steps_logged threshold steps : forall i e log s, ordered_runs i log ->
  let out := run_steps_from (EX := logging S E) threshold i steps (e, log) s in
  ordered_runs (i + length steps) (snd (snd (fst out))) /\
  (exists more, snd (snd (fst out)) = log ++ more /\ Forall (le i) more).
Proof.
  induction steps as [|step steps IH]; intros i e log s Ho; cbv zeta; cbn [run_steps_from length].
  - rewrite Nat.add_0_r. split; [done|]. exists []. by rewrite app_nil_r.
  - destruct (run_step_logged threshold i step e log s Ho) as (Ho' & n & El & _).
    assert (Hi : Forall (le i) (repeat i n)) by (apply Forall_forall; intros j Hj%list_elem_of_In%repeat_spec; lia).
    destruct (run_step (EX := logging S E) threshold i step (e, log) s) as [[[u|x] [e' log']] s']; cbn [fst snd] in *.
    + destruct (IH (Datatypes.S i) e' log' s' Ho') as (H1 & more & Hm & Hf). rewrite <- Nat.add_succ_comm.
      split; [done|]. exists (repeat i n ++ more). rewrite Hm, El, (assoc_L app). split; [done|].
      apply Forall_app. split; [done|]. eapply Forall_impl; [exact Hf|]. intros; cbv beta in *; lia.
    + split; [|by exists (repeat i n)].
      destruct Ho' as [H1 H2 H3]. constructor; [done| |done]. eapply Forall_impl; [exact H2|]. intros; cbv beta in *; lia.
Qed.
End Order.

Section Skips.
  Context {S E : Type} {SS : StepSession S} {EX : StepExecutor S E}.

(** An executor that notes what it skips and what it runs. *)
Definition noting : StepExecutor S ((E * list (FlashStep * bool)) * list nat) := logging S _ (EX := asking S E).

(** Attempts ask nothing. *)
Lemma attempt_asked left i step : forall e asked log s,
  snd (fst (snd (fst (attempt_step (EX := noting) left i step ((e, asked), log) s)))) = asked.
Proof.
  induction left as [|left IH]; intros e asked log s; cbn [attempt_step]; cbn [noting logging asking ex_run fst snd];
    destruct (ex_run i step e s) as [[[u|err] e'] s']; try done.
  all: assert (Hrec : forall lg, snd (fst (snd (ex_recover (StepExecutor := noting) i step err ((e', asked), lg)))) = asked)
         by (intros lg; cbn [noting logging asking ex_recover fst snd]; by destruct (ex_recover i step err e')).
  - apply Hrec.
  - destruct (_ && st_can_reconnect s'); [|apply Hrec]. destruct (negb (bool_decide _)).
    + destruct (st_reconnect s') as [[|x] s'']; [apply IH|done].
    + destruct (negb _ && _); [|apply Hrec]. destruct (st_reconnect_after_reboot s') as [[|x] s'']; [apply IH|done].
Qed.

Lemma run_step_asked threshold i step e asked log s :
  snd (fst (snd (fst (run_step (EX := noting) threshold i step ((e, asked), log) s))))
  = asked ++ [(step, fst (ex_skip step e))].
Proof.
  unfold run_step. cbn [noting logging asking ex_skip fst snd]. destruct (ex_skip step e) as [[|] e1]; [done|]. cbn [fst snd].
  fold noting. destruct (cycle_due threshold step s); [|apply attempt_asked].
  destruct (st_cycle s) as [[|x] s1]; [apply attempt_asked|done].
Qed.

Lemma run_steps_asked threshold steps : forall i e asked log s, ordered_runs i log ->
  let out := run_steps_from (EX := noting) threshold i steps ((e, asked), log) s in
  is_ok (fst (fst out)) = true ->
  exists verdicts, snd (fst (snd (fst out))) = asked ++ zip steps verdicts /\ length verdicts = length steps /\
    forall k b, verdicts !! k = Some b -> ((i + k)%nat ∈ snd (snd (fst out)) <-> b = false).
Proof.
  induction steps as [|step steps IH]; intros i e asked log s Ho; cbv zeta; cbn [run_steps_from].
  - intros _. exists []. by rewrite app_nil_r.
  - pose proof (run_step_logged (EX := asking S E) threshold i step (e, asked) log s Ho) as (Ho' & n & El & Hn0 & Hn).
    fold noting in Ho', El, Hn. pose proof (run_step_asked threshold i step e asked log s) as Ha.
    assert (Es : fst (ex_skip (StepExecutor := asking S E) step (e, asked)) = fst (ex_skip step e))
      by (cbn [asking ex_skip fst snd]; by destruct (ex_skip step e)). rewrite Es in Hn0, Hn.
    destruct (run_step (EX := noting) threshold i step ((e, asked), log) s) as [[[u|x] [[e' asked'] log']] s'];
      cbn [fst snd is_ok] in *; [|done]. intros Hok. subst asked' log'.
    destruct (IH (Datatypes.S i) e' _ _ s' Ho' Hok) as (verdicts & Ev & El & Hv).
    destruct (run_steps_logged (EX := asking S E) threshold steps (Datatypes.S i)
      (e', asked ++ [(step, fst (ex_skip step e))]) (log ++ repeat i n) s' Ho') as (_ & more & Em & Hmore).
    fold noting in Em. exists (fst (ex_skip step e) :: verdicts). rewrite Ev, <- (assoc_L app). split; [done|].
    split; [cbn; by rewrite El|]. intros [|k] b Hb; [|rewrite <- Nat.add_succ_comm; by apply Hv].
    injection Hb as <-. rewrite Nat.add_0_r, Em, !elem_of_app. split.
    + intros [[Hin|Hin]|Hin].
      * destruct Ho as [_ Hb _]. rewrite Forall_forall in Hb. specialize (Hb i Hin). lia.
      * destruct (fst (ex_skip step e)); [|done]. by rewrite (Hn0 eq_refl) in Hin; apply elem_of_nil in Hin.
      * rewrite Forall_forall in Hmore. specialize (Hmore i Hin). lia.
    + intros Hf. left. right. specialize (Hn eq_refl Hf). destruct n; [lia|by left].
Qed.

(** C17: The steps of a plan run in its order: no step runs once a later one has, and
    none runs more than six times (once, and again after each reconnect).  When the
    loop returns it has asked of every step of the plan, in the plan's order, whether
    to skip it, and has run exactly those that were not to be skipped. *)
Theorem steps_run_in_order p threshold (e : E) (s : S) :
  let out := run_steps (EX := noting) p threshold ((e, []), []) s in
  let log := snd (snd (fst out)) in
  let asked := snd (fst (snd (fst out))) in
  ordered_runs (length (fp_steps p)) log /\
  (is_ok (fst (fst out)) = true ->
   map fst asked = fp_steps p /\
   forall k step skipped, asked !! k = Some (step, skipped) -> (k ∈ log <-> skipped = false)).
Proof.
  cbv zeta. unfold run_steps. assert (Ho : ordered_runs 0 []) by (constructor; [done|constructor|intros i; cbn; lia]).
  split; [exact (proj1 (run_steps_logged (EX := asking S E) threshold (fp_steps p) 0 (e, []) [] s Ho))|].
  intros Hok. destruct (run_steps_asked threshold (fp_steps p) 0 e [] [] s Ho Hok) as (verdicts & -> & El & Hv).
  cbn [app]. split; [apply fst_zip; lia|]. intros k step b Hk. apply lookup_zip_Some in Hk as [_ Hk]. by apply Hv.
Qed.
End Skips.

(** ** A run

    A step dies as often as the executor's state says; three steps. *)
#[local] Instance counting_session : StepSession nat := {
  st_can_reconnect _ := true;
  st_link_losses _ := 0;
  st_numbered_exchanges s := Z.of_nat s;
  st_cycle s := (Ok tt, O);
  st_reconnect s := (Ok tt, O);
  st_reconnect_after_reboot s := (Ok tt, O) }.

#[local] Instance dying_executor : StepExecutor nat nat := {
  ex_reboot _ := RebootNo;
  ex_skip step e := (match step with FsDelay n => n =? 2 | _ => false end, e);
  ex_restart_verified _ := false;
  ex_run _ _ e s := match e with
                    | O => ((Ok tt, O), Datatypes.S s)
                    | Datatypes.S e => ((Err (Mgmt NoResponse), e), s)
                    end;
  ex_recover _ _ err e := (Err err, e) }.

Definition three_steps : FlashPlan :=
  MkFlashPlan (MkAppIdentity [] None None None [] None) 33 [FsDelay 1; FsDelay 2; FsDelay 3] ∅ ∅ false None false ∅ ∅ ∅ ∅
    (MkTableCapacity None None) false ∅ false [].

Lemma steps_run_in_order_witness :
  let out := run_steps (EX := noting) three_steps 10 ((2%nat, []), []) 0%nat in
  let log := snd (snd (fst out)) in
  let asked := snd (fst (snd (fst out))) in
  log = [0; 0; 0; 2]%nat /\ map snd asked = [false; true; false] /\
  ordered_runs 3 log /\ map fst asked = fp_steps three_steps /\
  forall k step skipped, asked !! k = Some (step, skipped) -> (k ∈ log <-> skipped = false).
Proof.
  destruct (steps_run_in_order three_steps 10 2%nat 0%nat) as [Ho Hall].
  split; [vm_compute; reflexivity|]. split; [vm_compute; reflexivity|]. split; [exact Ho|]. apply Hall. vm_compute. reflexivity.
Defined.
