(* ===== verification/FlashProperty.v ===== *)
(** * A property-only download ([bussard-download/src/flash/execute_props.rs], [run_shared_step] of steps.rs)

    The steps every family of devices runs the same way, the step loop on a session
    that can wait out a restart, and the download of a plan that only compares and
    writes properties: its steps, the read-back of every property it wrote, and the
    restart that is put off until after it. *)

From S2P Require Import Prelude Decimal MgmtError Connection Load ClientMemory PropertyExt ObjectTable SecurityTables FlashPlan FlashSession.
From S2P Require Import FlashReboot FlashProps FlashSteps.

Local Open Scope list_scope.
Local Open Scope Z_scope.

(** The link of a download: a session that can wait out a restart, the property
    services of its connection, and the bare restart, which nothing answers. *)
Class StepLink (L : Type) : Type := {
  step_reboot :: RebootLink L;
  step_props :: PropertyLink L;
  link_send_restart : L -> L }.

(** The findings that do not fail a download, as the data their texts are made of;
    [step] is the number the text names. *)
Inductive FlashWarning : Type :=
| PropertyNotHeld (object : PropObject) (prop_id : u32) (held : result WriteError bytes)
| NothingToUnload (step : nat) (object_index : u8)
| SegmentMoved (segment : text) (expected : option u32) (addr : u32)
| AdvisoryMcb (obj_idx : u32) (err : WriteError)
| PreUnloadSkipped (step : nat) (lsm : u32) (err : WriteError)
| FailedAfterRestart (step : nat) (err : WriteError)
| VerifyModeRefused (step : option nat) (previous : u8)
| VerifyModeUnsupported (step : option nat).

Record FlashOutcome : Type := MkFlashOutcome {
  fo_load_state : LoadState;
  fo_object_states : list (u8 * LoadState);
  fo_spot_checks_match : bool;
  fo_warnings : list FlashWarning;
  fo_reboot_readiness : list RebootReadiness;
  fo_verify_echoes : option VerifyEchoes;
  fo_property_only : bool }.

Definition FlashOutcome_ok (o : FlashOutcome) : bool :=
  if fo_property_only o then fo_spot_checks_match o
  else forallb (fun '(_, state) => bool_decide (state = Loaded)) (fo_object_states o)
       && bool_decide (fo_load_state o = Loaded) && fo_spot_checks_match o.

Section Property.
  Context {L : Type} {SL : StepLink L}.
  Variables wait_ms timeout_ms : option Z.

Abbreviation BootOp := (Mgmt_op (BootSession L)).

(** An operation of the connection. *)
Definition boot_l4 {A} (m : Mgmt_op L A) : BootOp A := on_session (on_l4 m).

#[export] Instance boot_steps : StepSession (BootSession L) := {
  st_can_reconnect := can_reconnect;
  st_link_losses s := if can_reconnect s then link_losses (bs_link s) else 0;
  st_numbered_exchanges := session_exchanges;
  st_cycle := cycle_l4;
  st_reconnect := on_session reconnect;
  st_reconnect_after_reboot := reconnect_after_reboot wait_ms timeout_ms }.

(** [None] for a step of another kind. *)
Definition run_shared_step (step : FlashStep) : option (BootOp unit) :=
  match step with
  | FsDescribeProp object prop_id => Some (boot_l4 (describe_property object prop_id))
  | FsCompareProp object prop_id expected mask start_element =>
      Some (match expected with
            | Some expected => boot_l4 (compare_property_value object prop_id start_element expected mask)
            | None => mret tt
            end)
  | FsWriteProp object prop_id value start_element count verify _ =>
      Some (boot_l4 (write_property_value object prop_id start_element count value verify))
  | FsKnxnetIpParameters program => Some (boot_l4 (write_knxnet_ip program))
  | FsDelay milliseconds => Some (fun s => (Ok tt, bs_set_link (sleep milliseconds (bs_link s)) s))
  | _ => None
  end.

Definition send_restart (s : BootSession L) : BootSession L := bs_set_link (link_send_restart (bs_link s)) s.

(** ** The executor; its state tells whether the plan ends with a restart *)

Definition property_run (_ : nat) (step : FlashStep) : Step_op (BootSession L) bool := fun restart s =>
  match step with
  | FsRestart => ((Ok tt, true), s)
  | _ =>
      match run_shared_step step with
      | None => ((Ok tt, restart), s)
      | Some op => let '(r, s) := op s in ((r, restart), s)
      end
  end.

#[export] Instance property_only : StepExecutor (BootSession L) bool := {
  ex_reboot _ := RebootNo;
  ex_skip _ restart := (false, restart);
  ex_restart_verified _ := false;
  ex_run := property_run;
  ex_recover _ _ err restart := (Err err, restart) }.

(** The properties of the plan that do not read back as written. *)
Fixpoint read_back (steps : list FlashStep) (s : BootSession L)
    : list FlashWarning * BootSession L :=
  match steps with
  | [] => ([], s)
  | FsWriteProp object prop_id value start_element count _ _ :: steps =>
      let '(held, s) := boot_l4 (read_property_value object prop_id start_element (Z.max count 1) (element_size value count)) s in
      let '(warnings, s) := read_back steps s in
      (match held with
       | Ok held => if bool_decide (held = value) then warnings else PropertyNotHeld object prop_id (Ok held) :: warnings
       | Err e => PropertyNotHeld object prop_id (Err e) :: warnings
       end, s)
  | _ :: steps => read_back steps s
  end.

Definition flash_properties (p : FlashPlan) : BootOp FlashOutcome := fun s =>
  match run_steps p 0 false s with
  | ((Err e, _), s) => (Err e, s)
  | ((Ok _, restart), s) =>
      let '(warnings, s) := read_back (fp_steps p) s in
      let s := if (restart : bool) then send_restart s else s in
      (Ok (MkFlashOutcome Loaded [] (bool_decide (warnings = [])) warnings [] None true), s)
  end.

(** ** What a verified download means *)

(** The loop has taken note of the restarts among the steps run. *)
Lemma restart_noted p s : forall e s', run_steps p 0 false s = ((Ok tt, e), s') -> e = existsb is_restart (fp_steps p).
Proof.
  intros e s' E. unfold run_steps in E.
  pose proof (run_steps_sound (fun i e _ => e = existsb is_restart (take i (fp_steps p)))
                (fun i e _ => e = existsb is_restart (take i (fp_steps p))) 0 (fp_steps p) 0 false s) as Hr.
  rewrite E in Hr. cbn [Nat.add] in Hr. rewrite firstn_all in Hr. apply Hr; [|done].
  intros k step Hk. unfold step_sound. cbn [ex_skip property_only fst snd ex_recover].
  assert (Hnext : existsb is_restart (take (Datatypes.S k) (fp_steps p)) = existsb is_restart (take k (fp_steps p)) || is_restart step).
  { rewrite (take_S_r _ _ _ Hk), existsb_app. cbn. by rewrite orb_false_r. }
  cbn [Nat.add]. split_and!; try done.
  - intros e0 s0 ->. by destruct (st_cycle s0) as [[|] ?].
  - intros e0 s0 ->. rewrite Hnext. cbn [ex_run property_only]. unfold property_run.
    destruct (is_restart step) eqn:Er; [destruct step; try done; by rewrite orb_true_r|]. rewrite orb_false_r.
    replace (match step with FsRestart => ((Ok tt, true), s0) | _ => _ end) with
      (match run_shared_step step with
       | None => ((Ok tt, existsb is_restart (take k (fp_steps p))), s0)
       | Some op => let '(r, s) := op s0 in ((r, existsb is_restart (take k (fp_steps p))), s)
       end) by (by destruct step).
    destruct (run_shared_step step) as [op|]; [|done]. by destruct (op s0) as [[|] ?].
  - intros e0 s0 ->. by destruct (st_reconnect s0) as [[|] ?].
  - intros e0 s0 ->. by destruct (st_reconnect_after_reboot s0) as [[|] ?].
Qed.

Context {D : Type} {PD : PropertyDevice L D} {PDL : PropertyDeviceLaws L D}.

(** A written property is held. *)
Definition step_holds (d : D) (step : FlashStep) : Prop :=
  match step with
  | FsWriteProp object prop_id value start count _ _ => property_holds d object prop_id start count value
  | _ => True
  end.

Definition step_addressable (step : FlashStep) : Prop :=
  match step with
  | FsWriteProp _ prop_id _ start count _ _ => addressable prop_id start count
  | _ => True
  end.

Lemma read_back_tells steps : Forall step_addressable steps -> forall s,
  pd_dev (bs_link (snd (read_back steps s))) = pd_dev (bs_link s) /\
  (fst (read_back steps s) = [] -> Forall (step_holds (pd_dev (bs_link s))) steps).
Proof.
  induction 1 as [|step steps Ha _ IH]; intros s; [by split|].
  assert (Hskip : read_back (step :: steps) s = read_back steps s -> step_holds (pd_dev (bs_link s)) step ->
    pd_dev (bs_link (snd (read_back (step :: steps) s))) = pd_dev (bs_link s) /\
    (fst (read_back (step :: steps) s) = [] -> Forall (step_holds (pd_dev (bs_link s))) (step :: steps))).
  { intros -> Hh. destruct (IH s) as [H1 H2]. split; [done|]. intros Hn. constructor; [done|by apply H2]. }
  destruct step; try (by apply Hskip). clear Hskip. cbn [read_back step_addressable step_holds] in *.
  set (m := read_property_value object prop_id start_element (Z.max count 1) (element_size value count)).
  assert (Hm : addressable prop_id start_element (Z.max count 1)) by (unfold addressable in *; lia).
  destruct (read_value_tells object prop_id start_element (Z.max count 1) (element_size value count) Hm (bs_link s)) as [Hk Hv].
  fold m in Hk, Hv. unfold boot_l4, on_session, on_l4. change (ss_link (bs_session s)) with (bs_link s).
  destruct (m (bs_link s)) as [held l]. cbn [fst snd] in *.
  set (s1 := bs_set_session _ s). assert (Hs1 : bs_link s1 = l) by done. destruct (IH s1) as [H1 H2].
  destruct (read_back steps s1) as [warnings s2]. cbn [fst snd] in *. rewrite Hs1, Hk in H1, H2. split; [done|].
  destruct held as [held|e]; [|done]. destruct (decide (held = value)) as [->|Hne]; [|by rewrite bool_decide_false by done].
  rewrite bool_decide_true by done. intros Hn. constructor; [|by apply H2].
  specialize (Hv value eq_refl). unfold property_holds in *. by rewrite (Z.max_l (Z.max count 1) 1) in Hv by lia.
Qed.

(** C7: A property-only download that reports success leaves every property it wrote
    with the value of the plan: the device holds the values when the read-back ends,
    and only then does the restart of the plan, if it has one, go out. *)
Theorem verified_properties_are_held p s out s' : Forall step_addressable (fp_steps p) ->
  flash_properties p s = (Ok out, s') -> FlashOutcome_ok out = true ->
  exists s1, Forall (step_holds (pd_dev (bs_link s1))) (fp_steps p) /\
    s' = (if existsb is_restart (fp_steps p) then send_restart s1 else s1).
Proof.
  intros Ha. unfold flash_properties. destruct (run_steps p 0 false s) as [[[[]|e] restart] s1] eqn:Er; [|done].
  apply restart_noted in Er as ->. destruct (read_back_tells _ Ha s1) as [Hk Hv].
  destruct (read_back (fp_steps p) s1) as [warnings s2]. cbn [fst snd] in *. intros [= <- <-]. cbn.
  intros Hw%bool_decide_eq_true_1. exists s2. split; [|done]. rewrite Hk. by apply Hv.
Qed.
End Property.

(** ** A download to run

    Onto the device of [FlashProps], whose connection dies at the second write; the
    restart shuts it down. *)
#[local] Instance demo_session_link : SessionLink DemoDevice := {
  link_connect := fun d => (Ok tt, MkDemoDevice (dm_props d) true (dm_dies_after d));
  link_drop d := MkDemoDevice (dm_props d) false (dm_dies_after d);
  link_losses _ := 0;
  link_authorize _ := mret (Granted 0);
  link_set_max_apdu _ d := d;
  link_set_user_memory_above_64k _ d := d;
  link_memory_service _ _ _ := MemPlain;
  link_chunk_caps _ := FlashRegions.MkChunkCaps 12 12 12 false;
  link_write _ _ _ d := ((Err (Mgmt NoResponse), (0, 0)%nat), d) }.

#[local] Instance demo_reboot_link : RebootLink DemoDevice := {
  link_secure _ := false;
  link_set_probe_timeouts _ d := d;
  link_describe _ := mret tt;
  link_disconnect d := d;
  link_numbered_exchanges _ := 0;
  link_set_sync_retry _ d := d }.

#[local] Instance demo_step_link : StepLink DemoDevice := {
  link_send_restart d := MkDemoDevice (dm_props d) false (dm_dies_after d) }.

Definition demo_properties : FlashPlan :=
  MkFlashPlan (MkAppIdentity [] None None None [] None) 33
    [FsWriteProp (PropType OT_KNXNET_IP_PARAMETER 0) 76 [72; 97; 117; 115] 1 4 true false;
     FsRestart;
     FsWriteProp (PropIndex 1) 67 [32] 1 1 false false] ∅ ∅ false None false ∅ ∅ ∅ ∅
    (MkTableCapacity None None) false ∅ false [].

Definition demo_boot (dies : option nat) : BootSession DemoDevice :=
  MkBootSession (MkSession (MkDemoDevice ∅ true dies) true true None None None VerifyModeState_default false) [] None.

Lemma verified_properties_are_held_witness :
  exists out s', flash_properties None None demo_properties (demo_boot (Some 1%nat)) = (Ok out, s') /\
    FlashOutcome_ok out = true /\ dm_dies_after (bs_link s') = None /\ dm_open (bs_link s') = false /\
    exists s1, s' = send_restart s1 /\ Forall (step_holds (pd_dev (bs_link s1))) (fp_steps demo_properties).
Proof.
  set (run := flash_properties None None demo_properties (demo_boot (Some 1%nat))).
  assert (Hrun : match run with
                 | (Ok out, s') => FlashOutcome_ok out && bool_decide (dm_dies_after (bs_link s') = None) && negb (dm_open (bs_link s'))
                 | _ => false
                 end = true) by (vm_compute; reflexivity).
  destruct run as [[out|e] s'] eqn:E; [|discriminate]. exists out, s'.
  apply andb_prop in Hrun as [[Hok Hd%bool_decide_eq_true_1]%andb_prop Ho%negb_true_iff].
  split; [reflexivity|]. split; [exact Hok|]. split; [exact Hd|]. split; [exact Ho|].
  destruct (verified_properties_are_held None None demo_properties (demo_boot (Some 1%nat)) out s') as (s1 & Hh & Es).
  - cbn [fp_steps demo_properties]. rewrite !Forall_cons. unfold step_addressable, addressable. split_and!; try lia; done.
  - exact E.
  - exact Hok.
  - exists s1. split; [exact Es|exact Hh].
Defined.
