(* ===== verification/FlashVerify.v ===== *)
(** * Verifying a download, and skipping what the device already holds ([bussard-download/src/flash/verify.rs])

    Which object a step loads, which objects need no re-load because their memory
    control block describes the image to be written, and the reads that decide
    after the last step whether the download succeeded.  A set of object indices
    is the list of its members in order. *)

From S2P Require Import Prelude Decimal SimMemory MgmtError Load Mcb Sys7 ClientMemory FlashPlan FlashSession FlashReboot FlashProperty.

Local Open Scope list_scope.
Local Open Scope Z_scope.

(** ** The object of a step *)

(** [resolve_object_target_opt] of execute.rs; [None] skips the step. *)
Definition resolve_object_target_opt (target : option u32) (object_table : list (u8 * u16)) (app_obj : u8)
    (spliced : bool) : option u8 :=
  match target with
  | Some idx =>
      if negb (idx =? 0) && (idx <=? 255) then
        if existsb (fun '(i, _) => i =? idx) object_table then Some idx
        else if spliced then None else Some app_obj
      else Some app_obj
  | None => Some app_obj
  end.

Definition mcb_skip_target (step : FlashStep) (object_table : list (u8 * u16)) (app_obj : u8) (p : FlashPlan)
    : option u8 :=
  match step with
  | FsUnload target _ | FsStartLoading target | FsAllocateSegment _ target _ | FsLoadCompleted target
  | FsWriteRelMem _ _ target =>
      resolve_object_target_opt target object_table app_obj (fp_spliced_from_template p)
  | _ => None
  end.

(** The segment of the only write into [obj], [found] the one met before; [None]
    when there is no such write or the match is uncertain. *)
Fixpoint sole_segment (steps : list FlashStep) (found : option text) (obj app_obj : u8)
    (object_table : list (u8 * u16)) (spliced : bool) : option text :=
  match steps with
  | [] => found
  | FsWriteRelMem offset image target :: steps =>
      if negb (bool_decide (resolve_object_target_opt target object_table app_obj spliced = Some obj))
      then sole_segment steps found obj app_obj object_table spliced
      else if negb (offset =? 0) || bool_decide (is_Some found) then None
      else sole_segment steps (Some (ir_segment_id image)) obj app_obj object_table spliced
  | _ :: steps => sole_segment steps found obj app_obj object_table spliced
  end.

Definition sole_object_image (p : FlashPlan) (obj app_obj : u8) (object_table : list (u8 * u16)) : option bytes :=
  segment_id ← sole_segment (fp_steps p) None obj app_obj object_table (fp_spliced_from_template p);
  if existsb (fun k => bool_decide (ko_segment k = segment_id)) (fp_kept p) then None
  else fp_images p !! segment_id.

Definition mcb_matches (image : bytes) (segment_size : u32) (crc16 : u16) : bool :=
  (segment_size =? as_u32 (zlen image)) && (crc16 =? crc16_ccitt image).

(** The object indices in order. *)
Definition object_indices : list u8 := seqZ 0 256.

(** ** The offline skip *)

Definition step_target (step : FlashStep) : option u32 :=
  match step with
  | FsUnload target _ | FsStartLoading target | FsAllocateSegment _ target _ | FsLoadCompleted target
  | FsWriteRelMem _ _ target => target
  | _ => None
  end.

(** Every object the plan names. *)
Definition named_table (steps : list FlashStep) : list (u8 * u16) :=
  let named := omap step_target steps in
  map (fun idx => (idx, 0)) (filter (fun idx => idx ∈ named) object_indices).

Definition is_skipped (p : FlashPlan) (table : list (u8 * u16)) (app_obj : u8) (skip : list u8) (step : FlashStep) : bool :=
  match mcb_skip_target step table app_obj p with
  | None => false
  | Some o => bool_decide (o ∈ skip)
  end.

Definition resident_skip (p : FlashPlan) (mcbs : gmap Z (u32 * u16)) (app_obj : u8) (loaded : u8 -> bool) (obj : u8) : bool :=
  match mcbs !! obj with
  | None => false
  | Some (size, crc) =>
      match sole_object_image p obj app_obj (named_table (fp_steps p)) with
      | None => false
      | Some image => mcb_matches image size crc && loaded obj
      end
  end.

Definition skip_resident_matches (p : FlashPlan) (mcbs : gmap Z (u32 * u16)) (app_obj : u8) (loaded : u8 -> bool)
    : list u8 * FlashPlan :=
  let skip := filter (fun o => resident_skip p mcbs app_obj loaded o = true) object_indices in
  if bool_decide (skip = []) then (skip, p) else
  let table := named_table (fp_steps p) in
  (skip, fp_set_steps (filter (fun step => is_skipped p table app_obj skip step = false) (fp_steps p)) p).

(** ** The reads of the executor *)

Record WrittenSample : Type := MkSample {
  ws_address : u32; ws_bytes : bytes; ws_segment : option (u8 * text) }.

Definition take_sample (b : bytes) : bytes := take (Nat.min (length b) 4) b.

(** The link with the read of memory that takes an empty answer. *)
Class VerifyLink (L : Type) : Type := {
  verify_session :: SessionLink L;
  link_read_memory : u32 -> u8 -> Mgmt_op L bytes }.

Section Verify.
  Context {L : Type} {VL : VerifyLink L}.

Abbreviation SessionOp := (Mgmt_op (Session L)).

Definition read_memory_resumable (addr : u32) (len : u8) : SessionOp bytes := resumable (link_read_memory addr len).

(** Whether the object's block describes the image and the object is loaded; a read
    that fails says no. *)
Definition resident_matches (p : FlashPlan) (app_obj : u8) (object_table : list (u8 * u16)) (obj : u8)
    (s : Session L) : bool * Session L :=
  match sole_object_image p obj app_obj object_table with
  | None => (false, s)
  | Some image =>
      match on_l4 (read_mcb_table obj 0 1 None) s with
      | (Ok (entry :: _), s) =>
          if negb (mcb_matches image (mcb_segment_size entry) (mcb_crc16 entry)) then (false, s)
          else match on_l4 (read_load_state obj) s with
               | (Ok Loaded, s) => (true, s)
               | (_, s) => (false, s)
               end
      | (_, s) => (false, s)
      end
  end.

Fixpoint resident_from (p : FlashPlan) (app_obj : u8) (object_table : list (u8 * u16)) (candidates : list u8)
    (s : Session L) : list u8 * Session L :=
  match candidates with
  | [] => ([], s)
  | obj :: candidates =>
      let '(yes, s) := resident_matches p app_obj object_table obj s in
      let '(matches, s) := resident_from p app_obj object_table candidates s in
      ((if yes then [obj] else []) ++ matches, s)
  end.

Definition write_candidates (p : FlashPlan) (app_obj : u8) (object_table : list (u8 * u16)) : list u8 :=
  let written := omap (fun step => match step with
                                   | FsWriteRelMem _ _ target =>
                                       resolve_object_target_opt target object_table app_obj (fp_spliced_from_template p)
                                   | _ => None
                                   end) (fp_steps p) in
  filter (fun o => o ∈ written) object_indices.

Definition resident_match_objects (p : FlashPlan) (app_obj : u8) (object_table : list (u8 * u16))
    (s : Session L) : list u8 * Session L :=
  resident_from p app_obj object_table (write_candidates p app_obj object_table) s.

(** ** The verification *)

(** The states of the objects not [seen] yet. *)
Fixpoint object_states (app_obj : u8) (load_state : LoadState) (objects seen : list u8) : SessionOp (list (u8 * LoadState)) :=
  match objects with
  | [] => mret []
  | obj :: objects =>
      if bool_decide (obj ∈ seen) then object_states app_obj load_state objects seen
      else
        state ← (if obj =? app_obj then mret load_state else read_load_state_resumable obj);
        states ← object_states app_obj load_state objects (seen ++ [obj]);
        mret ((obj, state) :: states)
  end.

Fixpoint spot_check (samples : list WrittenSample) : SessionOp bool :=
  match samples with
  | [] => mret true
  | sample :: samples =>
      got ← read_memory_resumable (ws_address sample) (as_u8 (zlen (ws_bytes sample)));
      rest ← spot_check samples;
      mret (bool_decide (got = ws_bytes sample) && rest)
  end.

Definition verify_outcome (app_obj : u8) (completed_objects : list u8) (samples : list WrittenSample)
    : SessionOp FlashOutcome :=
  load_state ← read_load_state_resumable app_obj;
  states ← object_states app_obj load_state (completed_objects ++ [app_obj]) [];
  spot_checks_match ← spot_check samples;
  mret (MkFlashOutcome load_state states spot_checks_match [] [] None false).

(** The objects, each once, in order. *)
Fixpoint distinct (seen objects : list u8) : list u8 :=
  match objects with
  | [] => []
  | obj :: objects => if bool_decide (obj ∈ seen) then distinct seen objects else obj :: distinct (seen ++ [obj]) objects
  end.

Definition uncovered (mcb_verified : list (u8 * text)) (sample : WrittenSample) : bool :=
  match ws_segment sample with
  | Some segment => bool_decide (segment ∉ mcb_verified)
  | None => true
  end.

Definition verify_after_reboot (app_obj : u8) (completed_objects : list u8) (samples : list WrittenSample)
    (mcb_verified : list (u8 * text)) : SessionOp FlashOutcome :=
  load_state ← read_load_state_resumable app_obj;
  if negb (bool_decide (load_state = Loaded)) then verify_outcome app_obj completed_objects samples
  else
    let states := map (fun obj => (obj, Loaded)) (distinct [] (completed_objects ++ [app_obj])) in
    spot_checks_match ← spot_check (filter (fun sample => uncovered mcb_verified sample = true) samples);
    mret (MkFlashOutcome load_state states spot_checks_match [] [] None false).
End Verify.

(** The object whose block covers an image that a check of [obj_idx] names. *)
Definition mcb_read_object (steps : list FlashStep) (spliced : bool) (image : ImageRef) (obj_idx : u32)
    (object_table : list (u8 * u16)) (app_obj : u8) : u8 :=
  let written_to_checked_object := existsb (fun step =>
    match step with
    | FsWriteRelMem _ w (Some t) => (t =? obj_idx) && bool_decide (ir_segment_id w = ir_segment_id image)
    | _ => false
    end) steps in
  if negb written_to_checked_object then app_obj
  else default app_obj (resolve_object_target_opt (Some obj_idx) object_table app_obj spliced).

(** An index past 255 goes to the application object, in a template's procedure too. *)
Lemma far_index_is_application table app_obj spliced idx : 255 < idx ->
  resolve_object_target_opt (Some idx) table app_obj spliced = Some app_obj.
Proof. intros H. unfold resolve_object_target_opt. by rewrite (proj2 (Z.leb_gt idx 255) H), andb_false_r. Qed.

(** ** A skipped object *)

(** The write of a step into [obj]. *)
Definition writes_into (p : FlashPlan) (app_obj : u8) (table : list (u8 * u16)) (obj : u8) (step : FlashStep) : bool :=
  match step with
  | FsWriteRelMem _ _ target =>
      bool_decide (resolve_object_target_opt target table app_obj (fp_spliced_from_template p) = Some obj)
  | _ => false
  end.

Lemma sole_segment_found p obj app_obj table steps seg0 :
  forall seg, sole_segment steps (Some seg0) obj app_obj table (fp_spliced_from_template p) = Some seg ->
  seg = seg0 /\ Forall (fun step => writes_into p app_obj table obj step = false) steps.
Proof.
  induction steps as [|step steps IH]; intros seg; cbn [sole_segment]; [by intros [= <-]|].
  destruct step; try (intros [-> Hs]%IH; split; [done|by constructor]). cbn [writes_into].
  destruct (bool_decide _) eqn:Eb; cbn [negb].
  - rewrite (bool_decide_true (is_Some (Some seg0))) by done. rewrite orb_true_r. done.
  - intros [-> Hs]%IH. split; [done|]. constructor; [by cbn; rewrite Eb|done].
Qed.

(** The plan writes the segment once into the object, from its start. *)
Lemma sole_segment_writes p obj app_obj table steps : forall seg,
  sole_segment steps None obj app_obj table (fp_spliced_from_template p) = Some seg ->
  exists before image target after, steps = before ++ FsWriteRelMem 0 image target :: after /\ ir_segment_id image = seg /\
    writes_into p app_obj table obj (FsWriteRelMem 0 image target) = true /\
    Forall (fun step => writes_into p app_obj table obj step = false) (before ++ after).
Proof.
  induction steps as [|step steps IH]; intros seg; cbn [sole_segment]; [done|].
  assert (Hskip : writes_into p app_obj table obj step = false ->
    sole_segment steps None obj app_obj table (fp_spliced_from_template p) = Some seg ->
    exists before image target after, step :: steps = before ++ FsWriteRelMem 0 image target :: after /\ ir_segment_id image = seg /\
      writes_into p app_obj table obj (FsWriteRelMem 0 image target) = true /\
      Forall (fun step => writes_into p app_obj table obj step = false) (before ++ after)).
  { intros Hw (before & image & target & after & -> & H1 & H2 & H3)%IH.
    exists (step :: before), image, target, after. split; [done|]. split; [done|]. split; [done|by constructor]. }
  destruct step; try (by apply Hskip). destruct (bool_decide _) eqn:Eb; cbn [negb]; [|by apply Hskip].
  clear Hskip. rewrite (bool_decide_false (is_Some None)) by (intros [? [=]]). rewrite orb_false_r.
  destruct (Z.eqb_spec offset 0) as [->|]; cbn [negb]; [|done].
  intros [-> Hs]%sole_segment_found. exists [], image, target, steps. done.
Qed.

Lemma object_index_elem o : o ∈ object_indices <-> 0 <= o < 256.
Proof. unfold object_indices. rewrite elem_of_seqZ. lia. Qed.

(** The steps that stay are the plan's, in order. *)
Lemma skip_keeps_fields p mcbs app_obj loaded skip q : skip_resident_matches p mcbs app_obj loaded = (skip, q) ->
  fp_images q = fp_images p /\
  fp_steps q = filter (fun step => is_skipped p (named_table (fp_steps p)) app_obj skip step = false) (fp_steps p).
Proof.
  unfold skip_resident_matches. set (sk := filter _ object_indices). destruct (decide (sk = [])) as [E|E].
  - rewrite bool_decide_true by done. intros [= <- <-]. split; [done|]. rewrite E.
    generalize (named_table (fp_steps p)). intros t. induction (fp_steps p) as [|step steps IH]; [done|].
    rewrite filter_cons_True; [by f_equal|]. unfold is_skipped. by destruct (mcb_skip_target _ _ _ _).
  - rewrite bool_decide_false by done. by intros [= <- <-].
Qed.

(** The offline skip leaves out the re-load of an object only when the device
    reports it loaded with a control block that describes the one image the plan
    streams into it, from its start and nothing else; the other steps stay in order. *)
Theorem skip_only_resident p mcbs app_obj loaded skip q : skip_resident_matches p mcbs app_obj loaded = (skip, q) ->
  (forall obj, obj ∈ skip -> loaded obj = true /\ exists image ref target before after,
     mcbs !! obj = Some (as_u32 (zlen image), crc16_ccitt image) /\ fp_images p !! ir_segment_id ref = Some image /\
     fp_steps p = before ++ FsWriteRelMem 0 ref target :: after /\
     Forall (fun step => writes_into p app_obj (named_table (fp_steps p)) obj step = false) (before ++ after)) /\
  sublist (fp_steps q) (fp_steps p) /\
  (forall step, step ∈ fp_steps p -> step ∉ fp_steps q ->
     exists obj, mcb_skip_target step (named_table (fp_steps p)) app_obj p = Some obj /\ obj ∈ skip).
Proof.
  intros E. destruct (skip_keeps_fields _ _ _ _ _ _ E) as [_ Hq]. split_and!.
  - intros obj Hin. assert (Hr : resident_skip p mcbs app_obj loaded obj = true).
    { unfold skip_resident_matches in E. set (sk := filter _ object_indices) in E.
      assert (Hsk : skip = sk) by (destruct (bool_decide (sk = [])); by injection E).
      rewrite Hsk in Hin. unfold sk in Hin. by apply list_elem_of_filter in Hin as [Hin _]. }
    revert Hr. unfold resident_skip. destruct (mcbs !! obj) as [[size crc]|]; [|done]. unfold sole_object_image.
    destruct (sole_segment _ _ _ _ _ _) as [seg|] eqn:Es; cbn [mbind option_bind]; [|done].
    destruct (existsb _ _); [done|]. destruct (fp_images p !! seg) as [image|] eqn:Ei; [|done].
    intros [[Hsz%Z.eqb_eq Hcrc%Z.eqb_eq]%andb_prop Hl]%andb_prop. split; [done|].
    apply sole_segment_writes in Es as (before & ref & target & after & Esteps & <- & _ & Hf).
    exists image, ref, target, before, after. by rewrite Hsz, Hcrc.
  - rewrite Hq. apply sublist_filter.
  - intros step Hin Hout. rewrite Hq, list_elem_of_filter in Hout.
    destruct (is_skipped p (named_table (fp_steps p)) app_obj skip step) eqn:Ek; [|naive_solver].
    unfold is_skipped in Ek. destruct (mcb_skip_target _ _ _ _) as [o|]; [|done]. exists o. split; [done|].
    by apply bool_decide_eq_true_1 in Ek.
Qed.

(** ** What a verified download means

    [vd_dev] is the device behind the link, whether a connection is open or not.  The
    reads and the reconnects leave it as it is, and a read that returns has told its
    load state ([held_state]) or its octets ([held_memory]). *)
Class VerifyDevice (L D : Type) {VL : VerifyLink L} : Type := {
  vd_dev : L -> D;
  held_state : D -> u8 -> LoadState;
  held_memory : D -> u32 -> u8 -> bytes }.

Definition read_tells {L D B} {VL : VerifyLink L} {VD : VerifyDevice L D} (m : Mgmt_op L B) (f : D -> B) : Prop :=
  forall l, vd_dev (snd (m l)) = vd_dev l /\ forall v, fst (m l) = Ok v -> v = f (vd_dev l).

Class VerifyDeviceLaws (L D : Type) `{VerifyDevice L D} : Prop := {
  state_law : forall obj, read_tells (read_load_state obj) (fun d => held_state d obj);
  memory_law : forall addr n, read_tells (link_read_memory addr n) (fun d => held_memory d addr n);
  vd_drop : forall (l : L), vd_dev (link_drop l) = vd_dev l;
  vd_connect : forall (l : L), vd_dev (snd (link_connect l)) = vd_dev l;
  vd_authorize : forall key (l : L), vd_dev (snd (link_authorize key l)) = vd_dev l;
  vd_max_apdu : forall m (l : L), vd_dev (link_set_max_apdu m l) = vd_dev l;
  vd_user_memory : forall b (l : L), vd_dev (link_set_user_memory_above_64k b l) = vd_dev l }.

Section Verified.
  Context {L D : Type} {VL : VerifyLink L} {VD : VerifyDevice L D} {VDL : VerifyDeviceLaws L D}.

Definition device_of (s : Session L) : D := vd_dev (ss_link s).

(** An operation of the session that leaves the device as it is and, when it returns,
    tells [P]. *)
Definition session_tells {B} (d : D) (m : Mgmt_op (Session L) B) (P : B -> Prop) : Prop :=
  forall s, device_of s = d -> device_of (snd (m s)) = d /\ forall v, fst (m s) = Ok v -> P v.

Definition anything {B} (_ : B) : Prop := True.

Lemma tells_bind {B C} d (m : Mgmt_op (Session L) B) (k : B -> Mgmt_op (Session L) C) P Q :
  session_tells d m P -> (forall v, P v -> session_tells d (k v) Q) -> session_tells d (m ≫= k) Q.
Proof.
  intros Hm Hk s Hs. unfold mbind, Mgmt_op_bind. destruct (Hm s Hs) as [H1 H2].
  destruct (m s) as [[v|e] s']; cbn [fst snd] in *; [|done]. apply (Hk v); [by apply H2|done].
Qed.

Lemma tells_ret {B} d (v : B) (P : B -> Prop) : P v -> session_tells d (mret v) P.
Proof. intros HP s Hs. split; [done|]. by intros v' [= <-]. Qed.

Lemma tells_weaken {B} d (m : Mgmt_op (Session L) B) (P Q : B -> Prop) :
  session_tells d m P -> (forall v, P v -> Q v) -> session_tells d m Q.
Proof. intros Hm HPQ s Hs. destruct (Hm s Hs) as [H1 H2]. split; [done|]. intros v Hv. by apply HPQ, H2. Qed.

Lemma tells_ask {B} d (f : Session L -> B) : session_tells d (ask f) anything.
Proof. intros s Hs. by split. Qed.

Lemma tells_fail {B} d e (P : B -> Prop) : session_tells d (fail e) P.
Proof. intros s Hs. by split. Qed.

Lemma tells_update d f : (forall s, device_of (f s) = device_of s) -> session_tells d (update f) anything.
Proof. intros Hf s Hs. cbn. by rewrite Hf. Qed.

Lemma tells_l4 {B} d (m : Mgmt_op L B) (P : B -> Prop) :
  (forall l, vd_dev l = d -> vd_dev (snd (m l)) = d /\ forall v, fst (m l) = Ok v -> P v) -> session_tells d (on_l4 m) P.
Proof.
  intros Hm s Hs. unfold on_l4. destruct (Hm (ss_link s) Hs) as [H1 H2]. by destruct (m (ss_link s)) as [r l].
Qed.

Lemma adopt_tells d losses : session_tells d (adopt losses) anything.
Proof.
  unfold adopt. apply (tells_bind d _ _ anything).
  - unfold authorize_session. apply (tells_bind d _ _ anything); [apply tells_ask|]. intros cached _.
    assert (Hauth : session_tells d
      (key ← ask (fun s => default Apci.FREE_ACCESS_KEY (ss_bcu_key s));
       outcome ← on_l4 (link_authorize key);
       lost ← ask (fun s => negb (link_losses (ss_link s) =? losses));
       match outcome with
       | Connection.Unsupported => if (lost : bool) then fail (Mgmt NoResponse) else update (ss_set_authorize (Some outcome))
       | _ => update (ss_set_authorize (Some outcome))
       end) anything).
    { apply (tells_bind d _ _ anything); [apply tells_ask|]. intros key _.
      apply (tells_bind d _ _ anything); [apply tells_l4; intros l <-; split; [apply vd_authorize|done]|]. intros outcome _.
      apply (tells_bind d _ _ anything); [apply tells_ask|]. intros lost _. destruct outcome; try (by apply tells_update).
      destruct lost; [apply tells_fail|by apply tells_update]. }
    destruct cached as [[]|]; try exact Hauth. by apply tells_ret.
  - intros _ _. apply tells_update. intros s. unfold device_of. cbn. by rewrite vd_user_memory, vd_max_apdu.
Qed.

Lemma reconnect_once_tells d : session_tells d reconnect_once anything.
Proof.
  unfold reconnect_once. apply (tells_bind d _ _ anything); [apply tells_update; intros s; apply vd_drop|]. intros _ _.
  apply (tells_bind d _ _ anything); [apply tells_ask|]. intros can _. destruct (negb can); [apply tells_fail|].
  apply (tells_bind d _ _ anything); [apply tells_ask|]. intros losses _.
  apply (tells_bind d _ _ anything); [apply tells_l4; intros l <-; split; [apply vd_connect|done]|]. intros _ _. apply adopt_tells.
Qed.

Lemma reconnect_tells d : session_tells d reconnect anything.
Proof.
  unfold reconnect. generalize MAX_RESUME_RECONNECTS, (@None Z). intros n.
  induction n as [|n IH]; intros first s Hs; cbn [reconnect_loop]; destruct (reconnect_once_tells d s Hs) as [H1 _];
    destruct (reconnect_once s) as [[u|e] s']; cbn [fst snd] in *; try done.
  destruct (_ && _); [|done]. by apply IH.
Qed.

Lemma resume_tells {B} d (op : Mgmt_op L B) f : read_tells op f -> session_tells d (resumable op) (fun v => v = f d).
Proof.
  intros Hop. assert (Hl4 : session_tells d (on_l4 op) (fun v => v = f d))
    by (apply tells_l4; intros l <-; apply Hop).
  unfold resumable. generalize MAX_RESUME_RECONNECTS. intros n.
  induction n as [|n IH]; intros s Hs; cbn [resume]; destruct (Hl4 s Hs) as [H1 H2];
    destruct (on_l4 op s) as [[v|e] s']; cbn [fst snd] in *; try done.
  destruct (resumable_death e s'); [|done].
  apply (tells_bind d reconnect (fun _ => resume n (on_l4 op)) anything); [apply reconnect_tells|intros _ _; exact IH|done].
Qed.

Lemma object_states_tell d app_obj objects : forall seen,
  session_tells d (object_states app_obj (held_state d app_obj) objects seen)
    (fun states => Forall (fun '(o, st) => st = held_state d o) states /\
                   forall o, o ∈ objects -> o ∈ seen \/ o ∈ map fst states).
Proof.
  induction objects as [|o objects IH]; intros seen; cbn [object_states].
  - apply tells_ret. split; [done|]. intros o Ho. by apply not_elem_of_nil in Ho.
  - destruct (bool_decide (o ∈ seen)) eqn:Eb.
    + eapply tells_weaken; [apply IH|]. intros states [H1 H2]. split; [done|]. intros x [->|Hx]%elem_of_cons; [|by apply H2].
      left. by apply bool_decide_eq_true_1 in Eb.
    + eapply (tells_bind d _ _ (fun st => st = held_state d o)).
      { destruct (Z.eqb_spec o app_obj) as [->|]; [by apply tells_ret|]. apply (resume_tells d _ _ (state_law o)). }
      intros st ->. eapply tells_bind; [apply IH|]. intros states [H1 H2]. apply tells_ret. split; [by constructor|].
      intros x [->|Hx]%elem_of_cons; [right; by left|].
      destruct (H2 x Hx) as [[Hs|Hs]%elem_of_app|Hs]; [by left| |right; by right].
      apply list_elem_of_singleton in Hs as ->. right. by left.
Qed.

Definition sample_held (d : D) (sample : WrittenSample) : Prop :=
  held_memory d (ws_address sample) (as_u8 (zlen (ws_bytes sample))) = ws_bytes sample.

Lemma spot_check_tells d samples : session_tells d (spot_check samples) (fun ok => ok = true -> Forall (sample_held d) samples).
Proof.
  induction samples as [|sample samples IH]; cbn [spot_check]; [by apply tells_ret|].
  eapply tells_bind; [apply (resume_tells d _ _ (memory_law (ws_address sample) _))|].
  intros got ->. eapply tells_bind; [apply IH|]. intros rest Hr.
  apply tells_ret. intros [Hg%bool_decide_eq_true_1 Hrest]%andb_prop. constructor; [exact Hg|by apply Hr].
Qed.

Lemma verify_tells d app_obj completed samples :
  session_tells d (verify_outcome app_obj completed samples)
    (fun out => FlashOutcome_ok out = true ->
       (forall o, o ∈ completed ++ [app_obj] -> held_state d o = Loaded) /\ Forall (sample_held d) samples).
Proof.
  unfold verify_outcome. eapply tells_bind; [apply (resume_tells d _ _ (state_law app_obj))|]. intros st ->.
  eapply tells_bind; [apply object_states_tell|]. intros states [H1 H2]. eapply tells_bind; [apply spot_check_tells|].
  intros ok Hok. apply tells_ret. unfold FlashOutcome_ok. cbn [fo_property_only fo_object_states fo_load_state fo_spot_checks_match].
  intros [[Hall Happ]%andb_prop Hs]%andb_prop. split; [|by apply Hok]. intros o Ho.
  destruct (H2 o Ho) as [Hn|Hn]; [by apply not_elem_of_nil in Hn|].
  apply list_elem_of_In, in_map_iff in Hn as ([o' st] & <- & Hin%list_elem_of_In).
  rewrite Forall_forall in H1. specialize (H1 _ Hin). cbn in H1 |- *. rewrite <- H1.
  apply list_elem_of_In in Hin. eapply List.forallb_forall in Hall; [|exact Hin]. by apply bool_decide_eq_true_1 in Hall.
Qed.

Lemma after_reboot_tells d app_obj completed samples mcb_verified :
  session_tells d (verify_after_reboot app_obj completed samples mcb_verified)
    (fun out => FlashOutcome_ok out = true -> held_state d app_obj = Loaded /\
       Forall (fun sample => uncovered mcb_verified sample = true -> sample_held d sample) samples).
Proof.
  unfold verify_after_reboot. eapply tells_bind; [apply (resume_tells d _ _ (state_law app_obj))|]. intros st ->.
  destruct (decide (held_state d app_obj = Loaded)) as [Hst|Hst].
  - rewrite bool_decide_true by done. cbn [negb]. eapply tells_bind; [apply spot_check_tells|]. intros ok Hc.
    apply tells_ret. unfold FlashOutcome_ok. cbn [fo_property_only fo_spot_checks_match].
    intros [_ Hs]%andb_prop. split; [done|]. specialize (Hc Hs). rewrite Forall_forall in Hc |- *. intros x Hx Hcov.
    apply Hc, list_elem_of_filter. done.
  - rewrite bool_decide_false by done. cbn [negb]. eapply tells_weaken; [apply verify_tells|].
    intros o Ho Hok'. destruct (Ho Hok') as [H1 H2]. split; [apply H1, elem_of_app; right; by left|].
    eapply Forall_impl; [exact H2|]. done.
Qed.

(** When a download is reported verified, every object it completed and the
    application object are in state Loaded in the device, and every sample of what it
    wrote is in the device's memory, also when connections died during the reads. *)
Theorem verified_download_is_loaded app_obj completed samples (s s' : Session L) out :
  verify_outcome app_obj completed samples s = (Ok out, s') -> FlashOutcome_ok out = true ->
  (forall o, o ∈ completed ++ [app_obj] -> held_state (device_of s') o = Loaded) /\
  (forall sample, sample ∈ samples ->
     held_memory (device_of s') (ws_address sample) (as_u8 (zlen (ws_bytes sample))) = ws_bytes sample) /\
  device_of s' = device_of s.
Proof.
  intros E Hok. destruct (verify_tells _ app_obj completed samples s eq_refl) as [H1 H2]. rewrite E in H1, H2. cbn in H1, H2.
  destruct (H2 out eq_refl Hok) as [H3 H4]. rewrite Forall_forall in H4. by rewrite H1.
Qed.

(** After the restart the reads of the segments that a check covers are left out. *)
Theorem verified_after_reboot_is_loaded app_obj completed samples mcb_verified (s s' : Session L) out :
  verify_after_reboot app_obj completed samples mcb_verified s = (Ok out, s') -> FlashOutcome_ok out = true ->
  held_state (device_of s') app_obj = Loaded /\
  (forall sample, sample ∈ samples -> uncovered mcb_verified sample = true -> sample_held (device_of s') sample).
Proof.
  intros E Hok. destruct (after_reboot_tells _ app_obj completed samples mcb_verified s eq_refl) as [H1 H2].
  rewrite E in H1, H2. cbn in H1, H2. rewrite H1. destruct (H2 out eq_refl Hok) as [H3 H4]. rewrite Forall_forall in H4. by split.
Qed.
End Verified.

(** ** A device to run on

    The connection is lost after so many reads, again and again. *)
Record FlakyDevice : Type := MkFlakyDevice { fk_loaded : list Z; fk_cells : gmap Z u8 }.
Record FlakyLink : Type := MkFlakyLink { fl_device : FlakyDevice; fl_open : bool; fl_losses : list nat }.

Definition flaky_read {A} (f : FlakyDevice -> A) : Mgmt_op FlakyLink A := fun l =>
  if negb (fl_open l) then (Err (Mgmt NoResponse), l) else
  match fl_losses l with
  | [] => (Ok (f (fl_device l)), l)
  | O :: losses => (Err (Mgmt NoResponse), MkFlakyLink (fl_device l) false losses)
  | S n :: losses => (Ok (f (fl_device l)), MkFlakyLink (fl_device l) true (n :: losses))
  end.

Definition flaky_state (d : FlakyDevice) (obj : u8) : LoadState := if bool_decide (obj ∈ fk_loaded d) then Loaded else Unloaded.

Definition flaky_memory (d : FlakyDevice) (addr : u32) (n : u8) : bytes :=
  map (fun at_ => default 255 (fk_cells d !! at_)) (seqZ addr n).

#[local] Instance flaky_mgmt : L4Management FlakyLink := {
  property_request o p start n :=
    flaky_read (fun d => Apci.MkPropertyValueResponse o p 1 1 [LoadState_octet (flaky_state d o)]);
  property_write_request _ _ _ _ _ := fail (Mgmt NoResponse);
  write_memory _ _ := fail (Mgmt NoResponse);
  read_memory_strict _ _ := fail (Mgmt NoResponse);
  now _ := 0;
  sleep _ l := l }.

#[local] Instance flaky_session : SessionLink FlakyLink := {
  link_connect := fun l => (Ok tt, MkFlakyLink (fl_device l) true (fl_losses l));
  link_drop l := MkFlakyLink (fl_device l) false (fl_losses l);
  link_losses _ := 0;
  link_authorize _ := mret (Connection.Granted 0);
  link_set_max_apdu _ l := l;
  link_set_user_memory_above_64k _ l := l;
  link_memory_service _ _ _ := MemPlain;
  link_chunk_caps _ := FlashRegions.MkChunkCaps 12 12 12 false;
  link_write _ _ _ l := ((Err (Mgmt NoResponse), (0, 0)%nat), l) }.

#[local] Instance flaky_verify : VerifyLink FlakyLink := { link_read_memory addr n := flaky_read (fun d => flaky_memory d addr n) }.

#[local] Instance flaky_device : VerifyDevice FlakyLink FlakyDevice := {
  vd_dev := fl_device; held_state := flaky_state; held_memory := flaky_memory }.

Lemma flaky_read_tells {A} (f : FlakyDevice -> A) : read_tells (flaky_read f) f.
Proof.
  intros l. unfold flaky_read. destruct (negb (fl_open l)); [by split|].
  destruct (fl_losses l) as [|[|n] losses]; (split; [done|]); intros v E; by simplify_eq/=.
Qed.

#[local] Instance flaky_device_laws : VerifyDeviceLaws FlakyLink FlakyDevice.
Proof.
  constructor; try done.
  - intros obj l. unfold read_load_state, mbind, Mgmt_op_bind. cbn [property_request flaky_session flaky_mgmt link_mgmt verify_session flaky_verify].
    pose proof (flaky_read_tells (fun d => Apci.MkPropertyValueResponse obj PID_LOAD_STATE_CONTROL 1 1 [LoadState_octet (flaky_state d obj)]) l) as [H1 H2].
    destruct (flaky_read _ l) as [[v|e] l']; cbn [fst snd] in *; [|by split]. specialize (H2 v eq_refl) as ->.
    split; [done|]. intros v [= <-]. cbn. unfold flaky_state. by destruct (bool_decide _).
  - intros addr n. exact (flaky_read_tells (fun d => flaky_memory d addr n)).
Qed.

Definition flaky_start : Session FlakyLink :=
  MkSession (MkFlakyLink (MkFlakyDevice [1; 2; 4] (write_cells ∅ 24576 0 [7; 8; 9; 10])) true [1; 1; 2]%nat) true true
    None None None VerifyModeState_default false.

Lemma verified_download_is_loaded_witness :
  let samples := [MkSample 24576 [7; 8; 9; 10] None] in
  exists out s', verify_outcome 4 [1; 2; 4] samples flaky_start = (Ok out, s') /\ FlashOutcome_ok out = true /\
    (forall o, o ∈ [1; 2; 4; 4] -> flaky_state (fl_device (ss_link s')) o = Loaded) /\
    flaky_memory (fl_device (ss_link s')) 24576 4 = [7; 8; 9; 10].
Proof.
  cbv zeta. eexists _, (snd (verify_outcome 4 [1; 2; 4] [MkSample 24576 [7; 8; 9; 10] None] flaky_start)).
  split; [vm_compute; reflexivity|]. split; [reflexivity|].
  destruct (verified_download_is_loaded 4 [1; 2; 4] [MkSample 24576 [7; 8; 9; 10] None] flaky_start
              (snd (verify_outcome 4 [1; 2; 4] [MkSample 24576 [7; 8; 9; 10] None] flaky_start))
              (MkFlashOutcome Loaded [(1, Loaded); (2, Loaded); (4, Loaded)] true [] [] None false)) as (H1 & H2 & _).
  - vm_compute. reflexivity.
  - reflexivity.
  - split; [exact H1|]. exact (H2 (MkSample 24576 [7; 8; 9; 10] None) ltac:(by left)).
Defined.

Definition resident_image : bytes := [1; 2; 3].

Definition resident_plan : FlashPlan :=
  MkFlashPlan (MkAppIdentity [] None None None [] None) 1968
    [FsUnload (Some 4) false; FsStartLoading (Some 4);
     FsWriteRelMem 0 (MkImageRef [115] ImageCode 3 0) (Some 4); FsLoadCompleted (Some 4);
     FsUnload (Some 5) true; FsRestart]
    {[ [115] := resident_image ]} ∅ false None false ∅ ∅ ∅ ∅ (SecurityTables.MkTableCapacity None None) false ∅ false [].

Lemma skip_only_resident_witness :
  let '(skip, q) := skip_resident_matches resident_plan {[ 4 := (3, crc16_ccitt resident_image) ]} 4 (fun _ => true) in
  skip = [4] /\ fp_steps q = [FsUnload (Some 5) true; FsRestart] /\ sublist (fp_steps q) (fp_steps resident_plan).
Proof.
  destruct (skip_resident_matches resident_plan {[ 4 := (3, crc16_ccitt resident_image) ]} 4 (fun _ => true)) as [skip q] eqn:E.
  destruct (skip_only_resident _ _ _ _ _ _ E) as (_ & Hsub & _).
  assert (Hs : skip = [4]) by (change skip with (fst (skip, q)); rewrite <- E; vm_compute; reflexivity).
  assert (Hq : fp_steps q = [FsUnload (Some 5) true; FsRestart]) 
    by (change q with (snd (skip, q)); rewrite <- E; vm_compute; reflexivity).
  split; [exact Hs|]. split; [exact Hq|exact Hsub].
Defined.
