(* ===== verification/FlashSystemB.v ===== *)
(** * The System B executor ([bussard-download/src/flash/execute.rs])

    What each step of a plan does to a System B device: the load-state machine of the
    object a step names, the allocation of its segments, the stream of its images, the
    comparisons and checks, the resets and the closing restart with its verification,
    and the state the executor carries from step to step.  It runs in the step loop of
    [FlashSteps] on the session of [FlashReboot].  The texts of warnings are left out.
    The rules for what writes leave in memory ([leaves]) are shared with [FlashSys7]. *)

From S2P Require Import Prelude Cursor Decimal SimMemory MgmtError Apci Load Mcb Sys7 ClientMemory PropertyExt ObjectTable SecurityTables.
From S2P Require Import ParamImage FlashRegions FlashPlan FlashSession FlashReboot FlashProps FlashSteps FlashProperty FlashVerify.

Local Open Scope string_scope.
Local Open Scope list_scope.
Local Open Scope Z_scope.

(** The link of an executor: the read of memory of [FlashVerify] on the session of
    [FlashReboot], and a frame nothing answers. *)
Class ExecLink (L : Type) {SL : StepLink L} : Type := {
  exec_read_memory : u32 -> u8 -> Mgmt_op L bytes;
  link_send_unacked : u16 -> bytes -> L -> L }.

#[export] Instance exec_verify {L} {SL : StepLink L} {XL : ExecLink L} : VerifyLink L := {
  verify_session := reboot_session;
  link_read_memory := exec_read_memory }.

(** ** The confirmed restart ([load.rs] of bussard-mgmt) *)

(** Milliseconds. *)
Definition restart_process_wait (r : RestartResponse) : Z := rr_process_time_s r * 1000.

Definition master_reset {T} {R : L4Requests T} (erase_code channel_number : u8) : Mgmt_op T RestartResponse :=
  let '(apci, payload) := encode_master_reset erase_code channel_number in
  answer ← of_req (l4_request apci payload);
  let '(resp_apci, resp) := answer in
  if negb (resp_apci =? A_RESTART_RESPONSE) then fail (Mgmt (MalformedResponse "expected A_Restart_Response")) else
  let response := decode_restart_response_full resp in
  if negb (rr_error_code response =? 0)
  then fail (RestartRefused erase_code channel_number (rr_error_code response))
  else mret response.

(** ** Comparing relative memory ([load.rs]) *)

(** The octets read so far are [actual]; an empty answer ends the reading. *)
Fixpoint read_compared {T} {M : L4Management T} (fuel : nat) (start : u32) (chunk : Z) (wanted : nat) (actual : bytes)
    : Mgmt_op T bytes :=
  match fuel with
  | O => mret actual
  | S fuel =>
      if (wanted <=? length actual)%nat then mret actual else
      let want := Z.min (Z.of_nat (wanted - length actual)) chunk in
      got ← Load.read_memory_strict (start + zlen actual) (as_u8 want);
      match got with
      | [] => mret actual
      | _ => read_compared fuel start chunk wanted (actual ++ got)
      end
  end.

Definition compare_rel_mem {L} {SL : SessionLink L} (object_index : u8) (base offset : u32) (expected : bytes) (mask : option bytes)
    (invert : bool) : Mgmt_op L unit := fun l =>
  match expected with
  | [] => (Ok tt, l)
  | _ =>
      let start := base + offset in
      if MAX_MEMORY_ADDRESS <? start then (Err (AddressOutOfRange "segment base + offset"), l) else
      if MAX_MEMORY_ADDRESS + 1 <? start + zlen expected then (Err (AddressOutOfRange "read of the span"), l) else
      let chunk := Z.min (Z.max (ChunkCaps_at (link_chunk_caps l) start (length expected)) 1) 255 in
      (actual ← read_compared (length expected) start chunk (length expected) [];
       let actual := take (length expected) actual in
       if rel_mem_compare_passes expected actual mask invert then mret tt
       else fail (RelMemCompareMismatch object_index base offset start expected actual)) l
  end.

Definition SPARSE_MERGE_GAP : nat := 100.

(** ** The state of the executor *)

Record SystemB : Type := MkSystemB {
  sb_security_open : bool;
  sb_segment_base : option u32;
  sb_segment_bases : gmap Z u32;
  sb_completed_objects : list u8;
  sb_warnings : list FlashWarning;
  sb_last_alloc_size : option u32;
  sb_last_alloc_fill : SegmentFill;
  sb_segment_fills : gmap Z SegmentFill;
  sb_last_alloc_target : option u8;
  sb_written_samples : list WrittenSample;
  sb_mcb_verified : list (u8 * text);
  sb_verified : option FlashOutcome;
  sb_partial_checked : list u8 }.

Definition SystemB_new : SystemB :=
  MkSystemB false None ∅ [] [] None (MkSegmentFill 0 0) ∅ None [] [] None [].

Definition sb_set_security_open (b : bool) (e : SystemB) : SystemB :=
  MkSystemB b (sb_segment_base e) (sb_segment_bases e) (sb_completed_objects e) (sb_warnings e) (sb_last_alloc_size e)
    (sb_last_alloc_fill e) (sb_segment_fills e) (sb_last_alloc_target e) (sb_written_samples e) (sb_mcb_verified e)
    (sb_verified e) (sb_partial_checked e).
Definition sb_warn (w : FlashWarning) (e : SystemB) : SystemB :=
  MkSystemB (sb_security_open e) (sb_segment_base e) (sb_segment_bases e) (sb_completed_objects e) (sb_warnings e ++ [w])
    (sb_last_alloc_size e) (sb_last_alloc_fill e) (sb_segment_fills e) (sb_last_alloc_target e) (sb_written_samples e)
    (sb_mcb_verified e) (sb_verified e) (sb_partial_checked e).
Definition sb_complete (obj : u8) (e : SystemB) : SystemB :=
  if bool_decide (obj ∈ sb_completed_objects e) then e else
  MkSystemB (sb_security_open e) (sb_segment_base e) (sb_segment_bases e) (sb_completed_objects e ++ [obj]) (sb_warnings e)
    (sb_last_alloc_size e) (sb_last_alloc_fill e) (sb_segment_fills e) (sb_last_alloc_target e) (sb_written_samples e)
    (sb_mcb_verified e) (sb_verified e) (sb_partial_checked e).
(** A segment of [obj] at [base]. *)
Definition sb_based (obj : u8) (base : u32) (fill : SegmentFill) (e : SystemB) : SystemB :=
  MkSystemB (sb_security_open e) (Some base) (<[obj := base]> (sb_segment_bases e)) (sb_completed_objects e) (sb_warnings e)
    (sb_last_alloc_size e) (sb_last_alloc_fill e) (<[obj := fill]> (sb_segment_fills e)) (sb_last_alloc_target e)
    (sb_written_samples e) (sb_mcb_verified e) (sb_verified e) (sb_partial_checked e).
Definition sb_allocated (obj : u8) (size : u32) (fill : SegmentFill) (e : SystemB) : SystemB :=
  MkSystemB (sb_security_open e) (sb_segment_base e) (sb_segment_bases e) (sb_completed_objects e) (sb_warnings e)
    (Some size) fill (sb_segment_fills e) (Some obj) (sb_written_samples e) (sb_mcb_verified e) (sb_verified e)
    (sb_partial_checked e).
Definition sb_sample (x : WrittenSample) (e : SystemB) : SystemB :=
  MkSystemB (sb_security_open e) (sb_segment_base e) (sb_segment_bases e) (sb_completed_objects e) (sb_warnings e)
    (sb_last_alloc_size e) (sb_last_alloc_fill e) (sb_segment_fills e) (sb_last_alloc_target e) (sb_written_samples e ++ [x])
    (sb_mcb_verified e) (sb_verified e) (sb_partial_checked e).
Definition sb_check_mcb (x : u8 * text) (e : SystemB) : SystemB :=
  MkSystemB (sb_security_open e) (sb_segment_base e) (sb_segment_bases e) (sb_completed_objects e) (sb_warnings e)
    (sb_last_alloc_size e) (sb_last_alloc_fill e) (sb_segment_fills e) (sb_last_alloc_target e) (sb_written_samples e)
    (x :: sb_mcb_verified e) (sb_verified e) (sb_partial_checked e).
Definition sb_verify (out : FlashOutcome) (e : SystemB) : SystemB :=
  MkSystemB (sb_security_open e) (sb_segment_base e) (sb_segment_bases e) (sb_completed_objects e) (sb_warnings e)
    (sb_last_alloc_size e) (sb_last_alloc_fill e) (sb_segment_fills e) (sb_last_alloc_target e) (sb_written_samples e)
    (sb_mcb_verified e) (Some out) (sb_partial_checked e).
Definition sb_check_partial (obj : u8) (e : SystemB) : SystemB :=
  MkSystemB (sb_security_open e) (sb_segment_base e) (sb_segment_bases e) (sb_completed_objects e) (sb_warnings e)
    (sb_last_alloc_size e) (sb_last_alloc_fill e) (sb_segment_fills e) (sb_last_alloc_target e) (sb_written_samples e)
    (sb_mcb_verified e) (sb_verified e) (obj :: sb_partial_checked e).

(** ** The executor *)

(** An operation on the executor's state and the session. *)
Definition Exec_op (E S A : Type) : Type := E -> S -> (result WriteError A * E) * S.

#[export] Instance Exec_op_ret {E S} : MRet (Exec_op E S) := fun A a e s => ((Ok a, e), s).
#[export] Instance Exec_op_bind {E S} : MBind (Exec_op E S) := fun A B k m e s =>
  match m e s with
  | ((Ok a, e), s) => k a e s
  | ((Err err, e), s) => ((Err err, e), s)
  end.

Definition xfail {E S A} (err : WriteError) : Exec_op E S A := fun e s => ((Err err, e), s).
Definition xmodify {E S} (f : E -> E) : Exec_op E S unit := fun e s => ((Ok tt, f e), s).
Definition asks {E S A} (f : E -> A) : Exec_op E S A := fun e s => ((Ok (f e), e), s).

(** The outcome of an operation, its error included. *)
Definition xattempt {E S A} (m : Exec_op E S A) : Exec_op E S (result WriteError A) := fun e s =>
  let '((r, e), s) := m e s in ((Ok r, e), s).

Section SystemB.
  Context {L : Type} {SL : StepLink L} {XL : ExecLink L}.
  Variables (wait_ms timeout_ms : option Z) (merge_gap : nat) (p : FlashPlan).
  Variables (app_obj : u8) (object_table : list (u8 * u16)) (skip_objects : list u8) (verify_after_restart : bool).

Abbreviation BootOp := (Mgmt_op (BootSession L)).
Abbreviation SbOp := (Exec_op SystemB (BootSession L)).

Definition boot {E A} (m : BootOp A) : Exec_op E (BootSession L) A := fun e s => let '(r, s) := m s in ((r, e), s).
Definition on_ss {E A} (m : Mgmt_op (Session L) A) : Exec_op E (BootSession L) A := boot (on_session m).
Definition l4 {E A} (m : Mgmt_op L A) : Exec_op E (BootSession L) A := on_ss (on_l4 m).

Definition resolve (target : option u32) : option u8 :=
  resolve_object_target_opt target object_table app_obj (fp_spliced_from_template p).

Definition system_b_reboot (step : FlashStep) : Reboot :=
  match step with
  | FsMasterReset _ _ | FsRestart | FsFactoryReset _ => SelfReconnecting
  | _ => RebootNo
  end.

Definition system_b_skip (step : FlashStep) (e : SystemB) : bool * SystemB :=
  match mcb_skip_target step object_table app_obj p with
  | Some obj =>
      if bool_decide (obj ∈ skip_objects)
      then (true, match step with FsLoadCompleted _ => sb_complete obj e | _ => e end)
      else (false, e)
  | None => (false, e)
  end.

(** ** Writing *)

Fixpoint write_runs (addr : u32) (runs : list (nat * bytes)) : Mgmt_op (Session L) unit :=
  match runs with
  | [] => mret tt
  | (start, run) :: runs =>
      _ ← write_image (as_u32 (addr + Z.of_nat start)) run;
      write_runs addr runs
  end.

Definition caps_chunk (addr : u32) (s : Session L) (start len : nat) : nat :=
  Z.to_nat (ChunkCaps_at (link_chunk_caps (ss_link s)) (as_u32 (addr + Z.of_nat start)) len).

(** The octets that differ from the ones the device holds. *)
Definition write_differing (addr : u32) (octets current : bytes) : Mgmt_op (Session L) unit := fun s =>
  let regions := diff_regions (caps_chunk addr s) octets current None merge_gap in
  write_runs addr (map (fun r => (fst r, region_octets octets r)) regions) s.

Definition write_filled (addr : u32) (octets : bytes) (fill : u8) : Mgmt_op (Session L) unit := fun s =>
  write_runs addr (fill_regions (caps_chunk addr s) octets fill merge_gap) s.

(** The base of the object's segment, or of the segment allocated last. *)
Definition rel_base (target : option u32) (e : SystemB) : u32 :=
  default 0 (match (o ← resolve target; sb_segment_bases e !! o) with Some b => Some b | None => sb_segment_base e end).

(** What the segment was filled with, when it was. *)
Definition rel_fill (target : option u32) (e : SystemB) : option u8 :=
  SegmentFill_prefill (default (sb_last_alloc_fill e) (o ← resolve target; sb_segment_fills e !! o)).

Definition run_write_rel_mem (offset : u32) (image : ImageRef) (target : option u32) : SbOp unit :=
  base ← asks (rel_base target);
  fill ← asks (rel_fill target);
  let addr := base + offset in
  if MAX_MEMORY_ADDRESS <? addr then xfail (AddressOutOfRange "segment base + offset") else
  let segment := ir_segment_id image in
  let octets := image_part (default [] (fp_images p !! segment)) image in
  _ ← match fp_baseline p !! segment with
      | Some current =>
          let expected := option_map (fun a => a + Z.of_nat (ir_offset image)) (fp_baseline_address p !! segment) in
          if base =? 0 then xfail (AddressOutOfRange "PID_TABLE_REFERENCE reads 0 after the allocation") else
          if bool_decide (expected = Some addr) then on_ss (write_differing addr octets (image_part current image)) else
          _ ← xmodify (sb_warn (SegmentMoved segment expected addr));
          on_ss (write_image addr octets)
      | None =>
          match fill with
          | Some fill => on_ss (write_filled addr octets fill)
          | None => on_ss (write_image addr octets)
          end
      end;
  match octets with
  | [] => mret tt
  | _ => xmodify (sb_sample (MkSample addr (take_sample octets) (option_map (fun o => (o, segment)) (resolve target))))
  end.

Definition run_write_mem (addr : u32) (image : ImageRef) : SbOp unit :=
  if MAX_MEMORY_ADDRESS <? addr then xfail (AddressOutOfRange "absolute address") else
  let octets := default [] (fp_images p !! ir_segment_id image) in
  _ ← match fp_baseline p !! ir_segment_id image with
      | Some current => on_ss (write_differing addr octets current)
      | None => on_ss (write_image addr octets)
      end;
  match octets with
  | [] => mret tt
  | _ => xmodify (sb_sample (MkSample addr (take_sample octets) None))
  end.

(** An entry of the table of memory control blocks per request; the padding that is
    less than an entry is no entry. *)
Fixpoint write_mcb_entries (fuel : nat) (obj : u8) (element : u16) (value : bytes) : Mgmt_op L unit :=
  match fuel with
  | O => mret tt
  | S fuel =>
      if (length value <? MCB_ENTRY_LEN)%nat then mret tt else
      _ ← write_property obj PID_MCB_TABLE 1 element (take MCB_ENTRY_LEN value) None;
      write_mcb_entries fuel obj (u16_saturating_add element 1) (drop MCB_ENTRY_LEN value)
  end.

(** ** The objects of the device *)

(** Each probe is run again on a fresh connection when the connection dies in it; a
    probe that succeeds starts the count of the reconnects anew. *)
Fixpoint discover_from (n : nat) (index : u8) : Mgmt_op (Session L) (list (u8 * u16)) :=
  match n with
  | O => mret []
  | S n =>
      found ← resumable (of_req (probe_object_type index));
      match found with
      | None => mret []
      | Some ot => rest ← discover_from n (index + 1); mret ((index, ot) :: rest)
      end
  end.

Definition application_object (table : list (u8 * u16)) : option u8 :=
  option_map fst (List.find (fun e => snd e =? OT_APPLICATION_PROGRAM) table).

Definition discover_object_table_resumable : Mgmt_op (Session L) (u8 * list (u8 * u16)) :=
  table ← discover_from MAX_OBJECT_INDEX 0;
  match application_object table with
  | Some index => mret (index, table)
  | None => fail (Mgmt (MalformedResponse "device is missing the application-program interface object"))
  end.

Definition confirm_app_object : Mgmt_op (Session L) u8 := fun s =>
  match on_l4 (of_req (probe_object_type app_obj)) s with
  | (Ok (Some ot), s') =>
      if ot =? OT_APPLICATION_PROGRAM then (Ok app_obj, s')
      else (found ← discover_object_table_resumable; mret (fst found)) s'
  | (_, s') => (found ← discover_object_table_resumable; mret (fst found)) s'
  end.

(** ** Restarts *)

Definition master_reset_confirmed (erase_code channel_number : u8) : BootOp unit := fun s =>
  match boot_l4 (master_reset erase_code channel_number) s with
  | (Ok response, s') => reconnect_after_master_reset wait_ms timeout_ms RkMasterReset (restart_process_wait response) s'
  | (Err (RestartRefused c n e), s') => (Err (RestartRefused c n e), s')
  | (Err _, s') => reconnect_after_reboot wait_ms timeout_ms s'
  end.

Definition run_master_reset (erase_code channel_number : u8) : SbOp unit :=
  _ ← boot (master_reset_confirmed erase_code channel_number);
  reset_obj ← asks (fun e => default app_obj (sb_last_alloc_target e));
  state ← on_ss (read_load_state_resumable reset_obj);
  _ ← match state with
      | Loading | Loaded => mret tt
      | _ => on_ss (start_loading_resumable reset_obj)
      end;
  size ← asks sb_last_alloc_size;
  match size with
  | None => mret tt
  | Some size =>
      fill ← asks sb_last_alloc_fill;
      alloc ← on_ss (allocate_resumable reset_obj size (sf_mode fill) (sf_fill fill));
      xmodify (sb_based reset_obj (sa_address alloc) fill)
  end.

Definition run_factory_reset (erase_code : u8) : BootOp unit := fun s =>
  if negb (can_reconnect s) then (Err (Mgmt (TransportFailed TransportClosed)), s) else
  (response ← boot_l4 (master_reset erase_code 0);
   reconnect_after_master_reset wait_ms timeout_ms RkFactoryReset (restart_process_wait response)) s.

(** The restart of the plan, which the device confirms or not. *)
Definition closing_restart : u16 * bytes :=
  if fp_confirmed_restart p then encode_master_reset ERASE_CODE_CONFIRMED_RESTART 0 else encode_restart 0.

Definition send_closing_restart (s : BootSession L) : BootSession L :=
  bs_set_link (link_send_unacked (fst closing_restart) (snd closing_restart) (bs_link s)) s.

Definition restart_and_return : BootOp unit := fun s =>
  if fp_confirmed_restart p then
    match boot_l4 (master_reset ERASE_CODE_CONFIRMED_RESTART 0) s with
    | (Ok response, s') => reconnect_after_master_reset wait_ms timeout_ms RkRestart (restart_process_wait response) s'
    | (Err _, s') => reconnect_after_reboot wait_ms timeout_ms s'
    end
  else reconnect_after_reboot wait_ms timeout_ms (send_closing_restart s).

Definition run_restart : SbOp unit := fun e s =>
  if verify_after_restart && can_reconnect s then
    (_ ← boot restart_and_return;
     post_app_obj ← on_ss confirm_app_object;
     out ← on_ss (verify_after_reboot post_app_obj (sb_completed_objects e) (sb_written_samples e) (sb_mcb_verified e));
     xmodify (sb_verify out)) e s
  else
    (out ← on_ss (verify_outcome app_obj (sb_completed_objects e) (sb_written_samples e));
     _ ← xmodify (sb_verify out);
     boot (fun s => (Ok tt, send_closing_restart s))) e s.

(** ** The steps *)

Definition table_exposes (index : u32) : bool := existsb (fun e => fst e =? index) object_table.

Definition run_unload (index : nat) (target : option u32) (absent_ok : bool) : SbOp unit :=
  if absent_ok then
    let obj := match target with
               | Some idx => if (0 <? idx) && (idx <=? 255) then idx else app_obj
               | None => app_obj
               end in
    state ← on_ss (write_load_control_unless_absent_resumable obj Unload);
    match state with
    | None => xmodify (sb_warn (NothingToUnload (Datatypes.S index) obj))
    | Some _ => mret tt
    end
  else
    match resolve target with
    | None => mret tt
    | Some obj =>
        checked ← asks (fun e => bool_decide (obj ∈ sb_partial_checked e));
        _ ← (if is_parameters_only p && negb checked then
               actual ← on_ss (read_load_state_resumable obj);
               if negb (bool_decide (actual = Loaded)) then xfail (NotLoaded obj actual) else
               xmodify (sb_check_partial obj)
             else mret tt);
        _ ← on_ss (write_load_control_resumable obj Unload);
        mret tt
    end.

Definition allocates_unwritten_table (obj_idx : u32) : bool :=
  (1 <=? obj_idx) && (obj_idx <=? 3)
  && existsb (fun s => match s with FsAllocateSegment _ (Some t) _ => t =? obj_idx | _ => false end) (fp_steps p)
  && negb (existsb (fun s => match s with FsWriteRelMem _ _ (Some t) => t =? obj_idx | _ => false end) (fp_steps p)).

Definition run_load_image_prop (obj_idx prop_id count : u32) (image : option ImageRef) (advisory : bool) : SbOp unit :=
  if negb (prop_id =? PID_MCB_TABLE) then mret tt else
  let expected := img ← image; fp_images p !! ir_segment_id img in
  let read_obj :=
    match image with
    | Some img =>
        if bool_decide (ir_kind img = ImageTable) then u8_or_max obj_idx
        else mcb_read_object (fp_steps p) (fp_spliced_from_template p) img obj_idx object_table app_obj
    | None => if allocates_unwritten_table obj_idx then u8_or_max obj_idx else app_obj
    end in
  outcome ← xattempt (l4 (read_mcb_table read_obj 1 (Z.min count 255) expected));
  match outcome with
  | Ok _ =>
      match image, expected with
      | Some img, Some _ => xmodify (sb_check_mcb (read_obj, ir_segment_id img))
      | _, _ => mret tt
      end
  | Err ((ImagePropMismatch _ _ _) as err) =>
      if advisory then xmodify (sb_warn (AdvisoryMcb obj_idx err)) else xfail err
  | Err err => xfail err
  end.

Definition run_write_prop (step : FlashStep) (object : PropObject) (prop_id : u32) (value : bytes) (start_element : u16)
    (from_parameters : bool) : BootOp unit :=
  let shared := default (mret tt) (run_shared_step step) in
  match PropObject_index object with
  | None => shared
  | Some idx =>
      if negb from_parameters && fp_spliced_from_template p && negb (table_exposes idx) then mret tt else
      if (prop_id =? PID_MCB_TABLE) && (MCB_ENTRY_LEN <? length value)%nat
      then boot_l4 (write_mcb_entries (length value) (u8_or_max idx) start_element value)
      else shared
  end.

Definition run_compare_rel_mem (target : option u32) (offset : u32) (expected mask : option bytes) (invert : bool) : SbOp unit :=
  match expected with
  | None => mret tt
  | Some expected =>
      match resolve target with
      | None => mret tt
      | Some obj =>
          known ← asks (fun e => match sb_segment_bases e !! obj with Some b => Some b | None => sb_segment_base e end);
          base ← match known with
                 | Some b => mret b
                 | None => l4 (read_table_reference obj)
                 end;
          l4 (compare_rel_mem obj base offset expected mask invert)
      end
  end.

Definition system_b_run (index : nat) (step : FlashStep) : SbOp unit :=
  match step with
  | FsSecurityLoadControl control =>
      _ ← (if bool_decide (control = Unload) then xmodify (sb_set_security_open true) else mret tt);
      _ ← l4 (security_transition control);
      if bool_decide (control = LoadCompleted) then xmodify (sb_set_security_open false) else mret tt
  | FsSecurityClearAddressTable => l4 clear_security_address_table
  | FsSecuritySenders entries => l4 (write_security_address_table entries)
  | FsSecurityGroupKeys entries => l4 (write_group_key_table entries)
  | FsSecurityGoFlags flags => l4 (write_go_security_flags flags)
  | FsUnload target absent_ok => run_unload index target absent_ok
  | FsStartLoading target =>
      match resolve target with
      | None => mret tt
      | Some obj => on_ss (start_loading_resumable obj)
      end
  | FsAllocateSegment size target fill =>
      match resolve target with
      | None => mret tt
      | Some obj =>
          alloc ← on_ss (allocate_resumable obj size (sf_mode fill) (sf_fill fill));
          xmodify (fun e => sb_allocated obj size fill (sb_based obj (sa_address alloc) fill e))
      end
  | FsWriteRelMem offset image target => run_write_rel_mem offset image target
  | FsWriteMem address image => run_write_mem address image
  | FsWriteProp object prop_id value start_element _ _ from_parameters =>
      boot (run_write_prop step object prop_id value start_element from_parameters)
  | FsCompareRelMem target offset expected mask invert => run_compare_rel_mem target offset expected mask invert
  | FsLoadImageProp obj_idx prop_id count image advisory => run_load_image_prop obj_idx prop_id count image advisory
  | FsEnableVerifyMode => on_ss arm_verify_mode
  | FsLoadCompleted target =>
      match resolve target with
      | None => mret tt
      | Some obj =>
          _ ← on_ss (write_load_control_resumable obj LoadCompleted);
          xmodify (sb_complete obj)
      end
  | FsMasterReset erase_code channel_number => run_master_reset erase_code channel_number
  | FsFactoryReset erase_code => boot (run_factory_reset erase_code)
  | FsRestart => run_restart
  | other => match run_shared_step other with
             | Some op => boot op
             | None => mret tt
             end
  end.

#[export] Instance system_b : StepExecutor (BootSession L) SystemB := {
  ex_reboot := system_b_reboot;
  ex_skip := system_b_skip;
  ex_restart_verified _ := false;
  ex_run index step e s := system_b_run index step e s;
  ex_recover _ _ err e := (Err err, e) }.

(** ** The download *)

(** The steps, then the verification unless the closing restart has done it; the result
    with whether the security object was left open. *)
Definition run_system_b (threshold : u32) (s : BootSession L) : (result WriteError FlashOutcome * bool) * BootSession L :=
  let '((r, e), s) := run_steps (SS := boot_steps wait_ms timeout_ms) p threshold SystemB_new s in
  let '(r, s) := match r with
                 | Err err => (Err err, s)
                 | Ok _ =>
                     match sb_verified e with
                     | Some out => (Ok out, s)
                     | None => on_session (verify_outcome app_obj (sb_completed_objects e) (sb_written_samples e)) s
                     end
                 end in
  (match r with
   | Ok out =>
       Ok (MkFlashOutcome (fo_load_state out) (fo_object_states out) (fo_spot_checks_match out) (sb_warnings e)
             (fo_reboot_readiness out) (fo_verify_echoes out) (fo_property_only out))
   | Err err => Err err
   end, sb_security_open e, s).
End SystemB.

(** ** What a write of regions leaves in memory *)

(** What is known of the device [A] tells the octet of every address; a read on an open
    connection answers the octets of the device or nothing. *)
Class CellDevice (L A : Type) {SL : StepLink L} {XL : ExecLink L} {LD : LinkDevice L A} : Type := {
  cell : A -> Z -> u8 }.

Class CellDeviceLaws (L A : Type) `{CellDevice L A} : Prop := {
  cell_stored : forall a at_ (data : bytes) k, may_store a at_ (zlen data) ->
    cell (stored a at_ data) k
    = default (cell a k) (if at_ <=? k then data !! Z.to_nat (k - at_) else None);
  may_store_part : forall (a : A) at_ n k m, may_store a at_ n -> 0 <= k -> 0 <= m -> k + m <= n -> may_store a (at_ + k) m;
  plain_chunk_law : forall (l : L), cc_plain (link_chunk_caps l) <= 255;
  exec_read_law : forall (a : A) at_ n l, linked a l -> 0 <= at_ -> 0 <= n -> at_ + n <= 65536 ->
    match exec_read_memory at_ n l with
    | (Ok got, l') => linked a l' /\ (got = [] \/ got = map (cell a) (seqZ at_ n))
    | (Err _, l') => torn a l'
    end }.

Section Cells.
  Context {L A : Type} {SL : StepLink L} {XL : ExecLink L} {LD : LinkDevice L A} {LDL : LinkDeviceLaws L A}.
  Context {CD : CellDevice L A} {CDL : CellDeviceLaws L A}.

(** From [a] to [a'] only octets of the image at [addr] that are [own]ed have changed,
    to the image's; the device takes the writes it took. *)
Definition partly (a a' : A) (addr : Z) (octets : bytes) (own : nat -> Prop) : Prop :=
  (forall k, cell a' k = cell a k \/ exists i, own i /\ k = addr + Z.of_nat i /\ octets !! i = Some (cell a' k)) /\
  (forall at_ n, may_store a at_ n -> may_store a' at_ n).

(** And every owned octet of the image is there. *)
Definition wholly (a a' : A) (addr : Z) (octets : bytes) (own : nat -> Prop) : Prop :=
  partly a a' addr octets own /\ forall i x, own i -> octets !! i = Some x -> cell a' (addr + Z.of_nat i) = x.

(** An operation that returns has written every owned octet, one that fails some of
    them; neither any other. *)
Definition leaves {B} (a : A) (addr : Z) (octets : bytes) (own : nat -> Prop) (out : result WriteError B * Session L) : Prop :=
  match out with
  | (Ok _, s') => exists a', linked a' (ss_link s') /\ unverified s' /\ wholly a a' addr octets own
  | (Err _, s') => exists a', torn a' (ss_link s') /\ partly a a' addr octets own
  end.

Lemma partly_refl a addr octets own : partly a a addr octets own.
Proof. split; [by left|done]. Qed.

Lemma partly_weaken a a' addr octets (own own' : nat -> Prop) : (forall i, own i -> own' i) ->
  partly a a' addr octets own -> partly a a' addr octets own'.
Proof.
  intros Ho [H1 H2]. split; [|done]. intros k. destruct (H1 k) as [|(i & Hi & Hk & Hx)]; [by left|right].
  exists i. split; [by apply Ho|done].
Qed.

Lemma partly_trans a a' a'' addr octets own : partly a a' addr octets own -> partly a' a'' addr octets own ->
  partly a a'' addr octets own.
Proof.
  intros [H1 H2] [H3 H4]. split; [|auto]. intros k. destruct (H3 k) as [E|]; [|by right].
  destruct (H1 k) as [E'|(i & Hi & Hk & Hx)]; [left; congruence|]. right. exists i. rewrite E. done.
Qed.

(** What is written stays written by a later write of the same image. *)
Lemma wholly_partly a a' a'' addr octets (own1 own2 : nat -> Prop) : wholly a a' addr octets own1 ->
  partly a' a'' addr octets own2 -> forall i x, own1 i -> octets !! i = Some x -> cell a'' (addr + Z.of_nat i) = x.
Proof.
  intros [_ H1] [H2 _] i x Hi Hx. destruct (H2 (addr + Z.of_nat i)) as [->|(j & _ & Hj & Hy)]; [by apply H1|].
  assert (j = i) as -> by lia. congruence.
Qed.

Lemma wholly_trans a a' a'' addr octets (own1 own2 : nat -> Prop) : wholly a a' addr octets own1 ->
  wholly a' a'' addr octets own2 -> wholly a a'' addr octets (fun i => own1 i \/ own2 i).
Proof.
  intros H1 H2. split.
  - eapply partly_trans; (eapply partly_weaken; [|apply H1 || apply H2]); tauto.
  - intros i x [Hi|Hi] Hx; [by eapply wholly_partly; [|apply H2|..]|by apply H2].
Qed.

Lemma wholly_weaken a a' addr octets (own own' : nat -> Prop) :
  (forall i, (i < length octets)%nat -> own i <-> own' i) ->
  wholly a a' addr octets own -> wholly a a' addr octets own'.
Proof.
  intros Ho [[H1 H2] H3]. split; [split; [|done]|].
  - intros k. destruct (H1 k) as [|(i & Hi & Hk & Hx)]; [by left|right]. exists i. split; [|done].
    apply Ho; [by eapply lookup_lt_Some|done].
  - intros i x Hi Hx. apply H3; [|done]. apply Ho; [by eapply lookup_lt_Some|done].
Qed.

Lemma leaves_weaken {B} a addr octets (own own' : nat -> Prop) (out : result WriteError B * Session L) :
  (forall i, (i < length octets)%nat -> own i <-> own' i) ->
  leaves a addr octets own out -> leaves a addr octets own' out.
Proof.
  intros Ho. destruct out as [[b|e] s']; cbn [leaves].
  - intros (a' & Hl & Hu & Hw). exists a'. split; [done|]. split; [done|]. by eapply wholly_weaken.
  - intros (a' & Ht & [H1 H2]). exists a'. split; [done|]. split; [|done]. intros k.
    destruct (H1 k) as [|(i & Hi & Hk & Hx)]; [by left|right]. exists i. split; [|done].
    apply Ho; [by eapply lookup_lt_Some|done].
Qed.

Lemma leaves_ret {B} a addr octets (b : B) s : linked a (ss_link s) -> unverified s ->
  leaves a addr octets (fun _ => False) ((mret b : Mgmt_op (Session L) B) s).
Proof. intros Hl Hu. exists a. split; [done|]. split; [done|]. split; [apply partly_refl|done]. Qed.

Lemma leaves_bind {B C} a addr octets (own1 own2 : nat -> Prop) (m : Mgmt_op (Session L) B) (k : B -> Mgmt_op (Session L) C) s :
  leaves a addr octets own1 (m s) ->
  (forall b a' s', linked a' (ss_link s') -> unverified s' -> wholly a a' addr octets own1 ->
     leaves a' addr octets own2 (k b s')) ->
  leaves a addr octets (fun i => own1 i \/ own2 i) ((m ≫= k) s).
Proof.
  intros Hm Hk. unfold mbind, Mgmt_op_bind. destruct (m s) as [[b|e] s1].
  - destruct Hm as (a1 & Hl & Hu & Hw). specialize (Hk b a1 s1 Hl Hu Hw). destruct (k b s1) as [[c|e] s2].
    + destruct Hk as (a2 & Hl2 & Hu2 & Hw2). exists a2. split; [done|]. split; [done|]. by eapply wholly_trans.
    + destruct Hk as (a2 & Ht & Hp). exists a2. split; [done|]. destruct Hw as [Hw _].
      eapply partly_trans; (eapply partly_weaken; [|exact Hw || exact Hp]); tauto.
  - destruct Hm as (a1 & Ht & Hp). exists a1. split; [done|]. eapply partly_weaken; [|exact Hp]. tauto.
Qed.

(** The whole image, and the prefix of it that a failure leaves. *)
Lemma stored_part (a : A) at_ (data : bytes) n : may_store a at_ (zlen data) -> (n <= length data)%nat ->
  partly a (stored a at_ (take n data)) at_ data (fun _ => True).
Proof.
  intros Hm Hn. assert (Hm' : may_store a at_ (zlen (take n data))).
  { rewrite <- (Z.add_0_r at_). eapply may_store_part; [exact Hm|lia|apply Nat2Z.is_nonneg|].
    unfold zlen. rewrite length_take. lia. }
  split; [|intros; by apply may_store_stored]. intros k. rewrite cell_stored by done.
  destruct (Z.leb_spec at_ k) as [Hk|]; [|by left].
  destruct (take n data !! Z.to_nat (k - at_)) as [x|] eqn:Ex; [|by left]. right. exists (Z.to_nat (k - at_)).
  split; [done|]. split; [lia|]. cbn. apply lookup_take_Some in Ex as [Ex _]. done.
Qed.
(** The octets of a region, in an image. *)
Lemma part_of_image (a a' : A) addr (octets : bytes) r n : (fst r <= snd r <= length octets)%nat ->
  (n <= snd r - fst r)%nat ->
  partly a a' (addr + Z.of_nat (fst r)) (take n (region_octets octets r)) (fun _ => True) ->
  partly a a' addr octets (fun i => (fst r <= i < fst r + n)%nat).
Proof.
  intros Hr Hn [H1 H2]. split; [|done]. intros k. destruct (H1 k) as [|(i & _ & Hk & Hx)]; [by left|right].
  assert (Hi : (i < n)%nat) by (apply lookup_lt_Some in Hx; rewrite length_take in Hx; lia).
  rewrite lookup_take_lt in Hx by done. exists (fst r + i)%nat. split; [lia|]. split; [lia|].
  unfold region_octets, slice in Hx. rewrite lookup_take_lt, lookup_drop in Hx by lia. done.
Qed.

Lemma region_length (octets : bytes) r : (fst r <= snd r <= length octets)%nat ->
  length (region_octets octets r) = (snd r - fst r)%nat.
Proof. intros H. unfold region_octets, slice. rewrite length_take, length_drop. lia. Qed.

Lemma write_region_leaves a addr (octets : bytes) r s : may_store a addr (zlen octets) -> bytes_ok octets ->
  (fst r <= snd r <= length octets)%nat -> linked a (ss_link s) -> unverified s ->
  leaves a addr octets (fun i => in_region i r) (write_image (addr + Z.of_nat (fst r)) (region_octets octets r) s).
Proof.
  intros Hm Hb Hr Hl Hu. set (data := region_octets octets r). assert (Hlen := region_length octets r Hr). fold data in Hlen.
  assert (Hmd : may_store a (addr + Z.of_nat (fst r)) (zlen data)).
  { eapply may_store_part; [exact Hm|lia|apply Nat2Z.is_nonneg|]. unfold zlen. lia. }
  assert (Hbd : bytes_ok data) by (unfold data, region_octets, slice; by apply Forall_take, Forall_drop).
  assert (Hpart : forall n, (n <= length data)%nat ->
    partly a (stored a (addr + Z.of_nat (fst r)) (take n data)) addr octets (fun i => (fst r <= i < fst r + n)%nat)).
  { intros n Hn. apply part_of_image; [done|lia|]. pose proof (stored_part a _ data n Hmd Hn) as [H1 H2]. split; [|done].
    intros k. destruct (H1 k) as [|(i & _ & Hk & Hx)]; [by left|]. destruct (decide (i < n)%nat) as [Hi|Hi].
    - right. exists i. split; [done|]. split; [done|]. by rewrite lookup_take_lt.
    - left. assert (Hmt : may_store a (addr + Z.of_nat (fst r)) (zlen (take n data))).
      { rewrite <- (Z.add_0_r (addr + _)). eapply may_store_part; [exact Hmd|lia|apply Nat2Z.is_nonneg|].
        unfold zlen. rewrite length_take. lia. }
      rewrite cell_stored by done. destruct (Z.leb_spec (addr + Z.of_nat (fst r)) k); [|done].
      rewrite lookup_ge_None_2; [done|]. rewrite length_take. lia. }
  pose proof (write_image_loop_outcome a _ data (write_image_fuel data) Hmd Hbd 0 0 0 s ltac:(lia) Hu) as Ho.
  rewrite take_0, stored_nil in Ho. specialize (Ho Hl). unfold write_image.
  destruct (write_image_loop _ _ _ _ _ s) as [[u|e] s'].
  - destruct Ho as [Hl' Hu']. exists (stored a (addr + Z.of_nat (fst r)) data). split; [done|]. split; [done|].
    specialize (Hpart (length data) ltac:(lia)). rewrite firstn_all in Hpart. split.
    + eapply partly_weaken; [|exact Hpart]. unfold in_region. intros i. lia.
    + intros i x [Hi1 Hi2] Hx. rewrite cell_stored by done. rewrite (proj2 (Z.leb_le _ _)) by lia.
      replace (Z.to_nat (addr + Z.of_nat i - (addr + Z.of_nat (fst r)))) with (i - fst r)%nat by lia.
      unfold data, region_octets, slice. rewrite lookup_take_lt, lookup_drop by lia.
      replace (fst r + (i - fst r))%nat with i by lia. by rewrite Hx.
  - destruct Ho as (n & Hn & Ht). eexists. split; [exact Ht|]. eapply partly_weaken; [|by apply Hpart].
    unfold in_region. intros i. lia.
Qed.

Definition inside (octets : bytes) (runs : list Region) : Prop := Forall (fun r => (fst r <= snd r <= length octets)%nat) runs.

Lemma partly_may a a' addr octets own at_ n : partly a a' addr octets own -> may_store a at_ n -> may_store a' at_ n.
Proof. intros [_ H]. apply H. Qed.

Lemma write_runs_leaves addr (octets : bytes) runs : bytes_ok octets -> inside octets runs ->
  forall (a : A) (s : Session L), may_store a addr (zlen octets) -> linked a (ss_link s) -> unverified s ->
  leaves a addr octets (fun i => covered_by i runs) (write_runs addr (map (fun r => (fst r, region_octets octets r)) runs) s).
Proof.
  intros Hb. induction 1 as [|r runs Hr _ IH]; intros a s Hm Hl Hu; cbn [map write_runs fst].
  - eapply leaves_weaken; [|by apply leaves_ret]. intros i _. unfold covered_by. by rewrite Exists_nil.
  - assert (Hat : as_u32 (addr + Z.of_nat (fst r)) = addr + Z.of_nat (fst r)).
    { apply may_store_range in Hm. unfold zlen in Hm. apply Z.mod_small. lia. }
    rewrite Hat. eapply leaves_weaken; [intros i _; symmetry; apply Exists_cons|].
    apply leaves_bind; [by apply write_region_leaves|]. intros _ a' s' Hl' Hu' [Hw _]. apply IH; [|done|done].
    by eapply partly_may.
Qed.

Lemma ascending_inside lo octets runs : ascending lo runs -> Forall (fun r => (snd r <= length octets)%nat) runs ->
  inside octets runs.
Proof.
  revert lo. induction runs as [|[start end_] runs IH]; intros lo; [constructor|]. cbn [ascending].
  intros (H1 & H2 & H3) [H4 H5]%Forall_cons_1. constructor; [cbn in *; lia|by eapply IH].
Qed.

(** The device holds the octets. *)
Definition holds_at (a : A) (addr : Z) (current octets : bytes) : Prop :=
  forall i, (i < length octets)%nat -> current !! i = Some (cell a (addr + Z.of_nat i)).

Lemma held_wholly a a' addr octets (own own' : nat -> Prop) : wholly a a' addr octets own ->
  (forall i, own i -> own' i) ->
  (forall i x, (i < length octets)%nat -> own' i -> ~ own i -> octets !! i = Some x -> cell a (addr + Z.of_nat i) = x) ->
  (forall i, Decision (own i)) -> wholly a a' addr octets own'.
Proof.
  intros Hw Ho Hheld Hdec. split; [eapply partly_weaken; [exact Ho|apply Hw]|]. intros i x Hi Hx.
  destruct (Hdec i) as [Hown|Hown]; [by apply Hw|]. specialize (Hheld i x (lookup_lt_Some _ _ _ Hx) Hi Hown Hx).
  destruct Hw as [[Hp _] _]. destruct (Hp (addr + Z.of_nat i)) as [->|(j & Hj & Hk & Hy)]; [done|].
  assert (j = i) as -> by lia. done.
Qed.

Lemma leaves_held {B} a addr octets (own own' : nat -> Prop) (out : result WriteError B * Session L) :
  leaves a addr octets own out -> (forall i, own i -> own' i) ->
  (forall i x, (i < length octets)%nat -> own' i -> ~ own i -> octets !! i = Some x -> cell a (addr + Z.of_nat i) = x) ->
  (forall i, Decision (own i)) -> leaves a addr octets own' out.
Proof.
  intros Hl Ho Hheld Hdec. destruct out as [[b|e] s']; cbn [leaves] in *.
  - destruct Hl as (a' & Hl & Hu & Hw). exists a'. split; [done|]. split; [done|]. by eapply held_wholly.
  - destruct Hl as (a' & Ht & Hp). exists a'. split; [done|]. by eapply partly_weaken.
Qed.

(** Writing only the octets that differ from the ones the device holds leaves the whole
    image there. *)
Lemma write_differing_leaves merge_gap a addr (octets current : bytes) s : bytes_ok octets ->
  may_store a addr (zlen octets) -> linked a (ss_link s) -> unverified s -> holds_at a addr current octets ->
  leaves a addr octets (fun _ => True) (write_differing merge_gap addr octets current s).
Proof.
  intros Hb Hm Hl Hu Hheld. unfold write_differing.
  destruct (diff_regions_spec (caps_chunk addr s) octets current None merge_gap) as (Ha & Hin & Hall & _).
  apply (leaves_held _ _ _ (fun i => covered_by i (diff_regions (caps_chunk addr s) octets current None merge_gap))).
  - apply write_runs_leaves; [done|by eapply ascending_inside|done|done|done].
  - done.
  - intros i x Hi _ Hn Hx. specialize (Hheld i Hi). destruct (decide (current !! i = octets !! i)) as [E|E].
    + rewrite E in Hheld. congruence.
    + exfalso. by apply Hn, Hall.
  - intros i. apply _.
Qed.

Lemma write_filled_leaves merge_gap a addr (octets : bytes) fill s : bytes_ok octets ->
  may_store a addr (zlen octets) -> linked a (ss_link s) -> unverified s ->
  (forall i, (i < length octets)%nat -> cell a (addr + Z.of_nat i) = fill) ->
  leaves a addr octets (fun _ => True) (write_filled merge_gap addr octets fill s).
Proof.
  intros Hb Hm Hl Hu Hfill. unfold write_filled. rewrite fill_is_diff.
  apply (write_differing_leaves merge_gap a addr octets (replicate (length octets) fill) s); try done.
  intros i Hi. rewrite lookup_replicate_2 by done. by rewrite Hfill.
Qed.

Lemma write_image_leaves a addr (octets : bytes) s : bytes_ok octets ->
  may_store a addr (zlen octets) -> linked a (ss_link s) -> unverified s ->
  leaves a addr octets (fun _ => True) (write_image addr octets s).
Proof.
  intros Hb Hm Hl Hu. pose proof (write_region_leaves a addr octets (0%nat, length octets) s Hm Hb ltac:(cbn; lia) Hl Hu) as H.
  cbn [fst] in H. rewrite Z.add_0_r in H. unfold region_octets, slice in H. cbn [fst snd] in H. rewrite drop_0, Nat.sub_0_r, firstn_all in H.
  eapply leaves_weaken; [|exact H]. intros i Hi. unfold in_region. cbn. split; [done|lia].
Qed.
End Cells.

(** ** The stream of a segment *)

Section Stream.
  Context {L A : Type} {SL : StepLink L} {XL : ExecLink L} {LD : LinkDevice L A} {LDL : LinkDeviceLaws L A}.
  Context {CD : CellDevice L A} {CDL : CellDeviceLaws L A}.

Definition leaves_boot {E} (a : A) (addr : Z) (octets : bytes) (out : (result WriteError unit * E) * BootSession L) : Prop :=
  leaves a addr octets (fun _ => True) (fst (fst out), bs_session (snd out)).

Lemma leaves_fails a addr octets own (err : WriteError) (s : Session L) : linked a (ss_link s) ->
  leaves a addr octets own (Err err : result WriteError unit, s).
Proof. intros Hl. exists a. split; [by apply linked_torn|apply partly_refl]. Qed.

Lemma on_ss_leaves {E} a addr octets (m : Mgmt_op (Session L) unit) (k : unit -> Exec_op E (BootSession L) unit) e s :
  leaves a addr octets (fun _ => True) (m (bs_session s)) ->
  (forall e s, exists e', k tt e s = ((Ok tt, e'), s)) -> leaves_boot a addr octets ((on_ss m ≫= k) e s).
Proof.
  intros Hm Hk. unfold mbind, Exec_op_bind, on_ss, boot, on_session. destruct (m (bs_session s)) as [[[]|err] x]; [|done].
  destruct (Hk e (bs_set_session x s)) as [e' ->]. done.
Qed.

Lemma modify_first {E} (f : E -> E) (m : Exec_op E (BootSession L) unit) (k : unit -> Exec_op E (BootSession L) unit) e s :
  (((xmodify f : Exec_op E (BootSession L) unit) ≫= fun _ => m) ≫= k) e s = (m ≫= k) (f e) s.
Proof. done. Qed.

Lemma noting_keeps {E} (octets : bytes) (f : E -> E) e (s : BootSession L) :
  exists e', (match octets with [] => mret tt | _ => xmodify f end : Exec_op E (BootSession L) unit) e s = ((Ok tt, e'), s).
Proof. destruct octets; by eexists. Qed.

End Stream.

(** ** A segment to write

    Into the memory of [FlashSession] whose connection dies, with the parts of an
    executor's link that the write does not use. *)
#[local] Instance dying_reboot : RebootLink DyingLink := {
  link_secure _ := false;
  link_set_probe_timeouts _ l := l;
  link_describe _ := mret tt;
  link_disconnect l := l;
  link_numbered_exchanges _ := 0;
  link_set_sync_retry _ l := l }.

#[local] Instance dying_requests : L4Requests DyingLink := {
  l4_request _ _ l := (Err (ServiceRejected "" "" None), l);
  l4_request_optional _ _ l := (Ok None, l);
  l4_max_apdu _ := 15;
  l4_exchanges _ := 0;
  l4_reopen_after_unanswered l := l }.

#[local] Instance dying_objects : L4Properties DyingLink := {
  lp_request i p start n l := (Ok (Apci.MkPropertyValueResponse i p 0 start []), l);
  lp_read_octets _ := 10;
  lp_exchanges _ := 0;
  lp_reopen l := l;
  lp_seeded _ := None }.

#[local] Instance dying_props : PropertyLink DyingLink := { link_description_optional _ _ l := (Ok None, l) }.

#[local] Instance dying_step : StepLink DyingLink := { link_send_restart l := MkDyingLink (dy_cells l) false (dy_deaths l) }.

#[local] Instance dying_exec : ExecLink DyingLink := {
  exec_read_memory at_ n l :=
    (if dy_open l then Ok (map (fun k => default 255 (dy_cells l !! k)) (seqZ at_ n)) else Err (Mgmt NoResponse), l);
  link_send_unacked _ _ l := MkDyingLink (dy_cells l) false (dy_deaths l) }.

#[local] Instance dying_cells : CellDevice DyingLink (gmap Z u8) := { cell a k := default 255 (a !! k) }.

#[local] Instance dying_cells_laws : CellDeviceLaws DyingLink (gmap Z u8).
Proof.
  constructor.
  - intros a at_ data k [H1 H2]. cbn in *. rewrite write_cells_lookup by (unfold zlen in *; lia). rewrite Z.add_0_r.
    destruct (Z.leb_spec at_ k) as [Hk|Hk].
    + destruct (decide (at_ <= k < at_ + zlen data)) as [Hd|Hd].
      * destruct (lookup_lt_is_Some_2 data (Z.to_nat (k - at_))) as [x Hx]; [unfold zlen in Hd; lia|]. by rewrite Hx.
      * rewrite lookup_ge_None_2; [done|]. unfold zlen in Hd. lia.
    + by rewrite decide_False by lia.
  - cbn. lia.
  - done.
  - intros a at_ n l [Hc Ho] _ _ _. cbn. rewrite Ho, Hc. split; [done|by right].
Qed.

Definition held_part : bytes := [1; 9; 3; 4; 9; 6].

Definition part_plan : FlashPlan :=
  MkFlashPlan (MkAppIdentity [] None None None [] None) 1968 [FsWriteRelMem 0 (MkImageRef [115] ImageCode 6 0) None]
    {[ [115] := [1; 2; 3; 4; 5; 6] ]} ∅ false None false {[ [115] := held_part ]} ∅ ∅ {[ [115] := 100 ]}
    (MkTableCapacity None None) false ∅ false [].

Definition part_session : BootSession DyingLink :=
  MkBootSession (MkSession (MkDyingLink (write_cells ∅ 100 0 held_part) true [0; 1]%nat) true true None None None
                   VerifyModeState_default false) [] None.

Definition part_state : SystemB := sb_based 4 100 (MkSegmentFill 0 0) SystemB_new.

