(* ===== verification/FlashSys7.v ===== *)
(** * The System 7 executor ([bussard-download/src/flash/execute_sys7.rs])

    What each step of a plan does to a System 7 device: the records of its load-state
    machines, the segments streamed to absolute addresses under their masks, written
    blind or read and compared first, the pre-download restart, and the verification
    by read-back.  It runs in the step loop of [FlashSteps].  A masked write leaves the
    octets the device owns as they are.  The texts of warnings are left out. *)

From S2P Require Import Prelude Cursor Decimal SimMemory MgmtError Apci Load Mcb Sys7 ClientMemory PropertyExt ObjectTable SecurityTables.
From S2P Require Import ParamImage FlashRegions FlashPlan FlashSession FlashReboot FlashProps FlashSteps FlashProperty FlashVerify.
From S2P Require Import FlashSystemB.

Local Open Scope string_scope.
Local Open Scope list_scope.
Local Open Scope Z_scope.

(** ** Fields *)

Definition sys7_u16 (field : string) (value : u32) : result WriteError u16 :=
  if value <=? 65535 then Ok value else Err (AddressOutOfRange field).

Definition lsm_octet (lsm : u32) : result WriteError u8 :=
  match lsm_index lsm with
  | Some octet => Ok octet
  | None => Err (AddressOutOfRange "System 7 LSM index")
  end.

(** [?] on a value computed without the connection. *)
Definition given {S A} (r : result WriteError A) : Mgmt_op S A := fun s => (r, s).

Definition LEGACY_MERGE_GAP : nat := 4.

(** ** Segments *)

Section Segments.
  Context {L : Type} {SL : StepLink L} {XL : ExecLink L}.

Abbreviation SessionOp := (Mgmt_op (Session L)).

Definition chunk_of (s : Session L) : nat := Z.to_nat (cc_plain (link_chunk_caps (ss_link s))).

(** The pieces of the span from [offset] on. *)
Fixpoint read_pieces (fuel : nat) (addr : u16) (chunk offset len : nat) : SessionOp bytes :=
  match fuel with
  | O => mret []
  | S fuel =>
      if (len <=? offset)%nat then mret [] else
      let take_ := Nat.min chunk (len - offset) in
      piece ← on_l4 (exec_read_memory (u16_saturating_add addr (as_u16 (Z.of_nat offset))) (as_u8 (Z.of_nat take_)));
      rest ← read_pieces fuel addr chunk (offset + take_) len;
      mret (piece ++ rest)
  end.

Definition read_sys7_memory (addr : u16) (len : nat) : SessionOp bytes := fun s =>
  read_pieces len addr (chunk_of s) 0 len s.

(** Each run of octets at its own address. *)
Fixpoint write_owned (addr : u16) (octets : bytes) (runs : list Region) : SessionOp unit :=
  match runs with
  | [] => mret tt
  | run :: runs =>
      _ ← write_image (u16_saturating_add addr (as_u16 (Z.of_nat (fst run)))) (region_octets octets run);
      write_owned addr octets runs
  end.

(** The maximal runs of the octets the mask gives the image, from [first] to [last]. *)
Definition owned_runs (first end_ : nat) (mask : option bytes) : list Region :=
  differing_from (end_ - first) end_ (writable mask) first.

Definition write_sys7_segment (addr : u16) (octets : bytes) (mask : option bytes) : SessionOp unit :=
  match mask with
  | None => write_image addr octets
  | Some _ => write_owned addr octets (owned_runs 0 (length octets) mask)
  end.

(** Whether what was read of the span differs from the image where the mask owns it. *)
Definition span_differs (octets : bytes) (mask : option bytes) (first last : nat) (got : bytes) : bool :=
  negb (length got =? S last - first)%nat
  || existsb (fun i => writable mask i && negb (bool_decide (got !! (i - first)%nat = octets !! i))) (seq first (S last - first)).

(** A chunk: read, compared where it is owned, and written and read again where it differs. *)
Definition compare_chunk (addr : u16) (octets : bytes) (mask : option bytes) (start end_ : nat) : SessionOp nat :=
  let inside := filter (fun i => writable mask i = true) (seq start (end_ - start)) in
  match head inside, last inside with
  | Some first, Some last =>
      let span_addr := u16_saturating_add addr (as_u16 (Z.of_nat first)) in
      let len := as_u8 (Z.of_nat (S last - first)) in
      got ← on_l4 (exec_read_memory span_addr len);
      if negb (span_differs octets mask first last got) then mret 0%nat else
      _ ← write_owned addr octets (owned_runs first (S last) mask);
      got ← on_l4 (exec_read_memory span_addr len);
      if span_differs octets mask first last got then fail (Mgmt (MemoryVerifyFailed span_addr (slice first (S last) octets) got)) else mret 1%nat
  | _, _ => mret 0%nat
  end.

(** The chunks from [start] on; the number of chunks written. *)
Fixpoint compare_chunks (fuel : nat) (addr : u16) (octets : bytes) (mask : option bytes) (chunk start : nat) : SessionOp nat :=
  match fuel with
  | O => mret 0%nat
  | S fuel =>
      if (length octets <=? start)%nat then mret 0%nat else
      let end_ := Nat.min (start + chunk) (length octets) in
      written ← compare_chunk addr octets mask start end_;
      more ← compare_chunks fuel addr octets mask chunk end_;
      mret (written + more)%nat
  end.

Definition read_compare_sys7_segment (addr : u16) (octets : bytes) (mask : option bytes) : SessionOp nat := fun s =>
  compare_chunks (length octets) addr octets mask (Nat.max (chunk_of s) 1) 0 s.

(** The mask of a parameter-only download: the octets that differ from the device's.  A
    chunk as long as the image stands for [usize::MAX]. *)
Definition difference_mask (octets current : bytes) (mask : option bytes) : bytes :=
  let regions := diff_regions (fun _ _ => length octets) octets current mask LEGACY_MERGE_GAP in
  map (fun i => if bool_decide (covered_by i regions) then 255 else 0) (seq 0 (length octets)).

(** Whether the image was written blind. *)
Definition stream_sys7_image (p : FlashPlan) (ctx : Sys7Context) (addr : u16) (image : ImageRef) : SessionOp bool :=
  match fp_images p !! ir_segment_id image with
  | None => fail (Mgmt (MalformedResponse "System 7 segment image resolved at plan time"))
  | Some whole =>
      let octets := image_part whole image in
      let mask := option_map (fun m => image_part m image) (s7c_segment_masks ctx !! ir_segment_id image) in
      let diff_mask := option_map (fun current => difference_mask octets (image_part current image) mask)
                         (fp_baseline p !! ir_segment_id image) in
      let mask := match diff_mask with Some m => Some m | None => mask end in
      if read_compare_write (s7c_profile ctx)
      then _ ← read_compare_sys7_segment addr octets mask; mret false
      else _ ← write_sys7_segment addr octets mask; mret true
  end.
(** [Session::enable_verify_mode]. *)
Definition session_enable_verify_mode : SessionOp VerifyModeOutcome :=
  outcome ← on_l4 enable_verify_mode;
  let on := vm_took outcome in
  _ ← update (fun s => let v := ss_verify s in
        ss_set_verify (MkVerifyModeState (vm_armed v) (vm_declined v) on on (vm_echoes v)) s);
  mret outcome.

(** ** The verification *)

Fixpoint lsm_octets (lsms : list u32) : result WriteError (list u8) :=
  match lsms with
  | [] => Ok []
  | lsm :: lsms => octet ← lsm_octet lsm; octets ← lsm_octets lsms; Ok (octet :: octets)
  end.

(** The states of several memory-mapped machines in one read; [None] for the reads one
    by one. *)
Definition read_lsm_states_at_once (lsm : LsmAccess) (octets : list u8) (s : Session L) : option (list LoadState) * Session L :=
  match lsm, octets with
  | MemoryMapped _ status_addr, octet :: rest =>
      let first := foldl Z.min octet rest in
      let last := foldl Z.max octet rest in
      let span := last - first + 1 in
      if (length octets <? 2)%nat || (first =? 0) then (None, s) else
      if cc_plain (link_chunk_caps (ss_link s)) <? span then (None, s) else
      let addr := status_addr + (first - 1) in
      if 65535 <? addr then (None, s) else
      match on_l4 (exec_read_memory addr span) s with
      | (Err _, s') => (None, s')
      | (Ok data, s') =>
          (if negb (zlen data =? span) then None
           else mapM (fun octet => option_map LoadState_from_octet (data !! Z.to_nat (octet - first))) octets, s')
      end
  | _, _ => (None, s)
  end.

Fixpoint lsm_states (lsm : LsmAccess) (lsms : list u32) : SessionOp (list (u8 * LoadState)) :=
  match lsms with
  | [] => mret []
  | idx :: lsms =>
      octet ← given (lsm_octet idx);
      state ← resumable (LsmAccess_read_state lsm octet);
      states ← lsm_states lsm lsms;
      mret ((octet, state) :: states)
  end.

(** A sample that cannot be read is no mismatch. *)
Fixpoint sys7_spot_check (samples : list (u16 * bytes)) (s : Session L) : bool * Session L :=
  match samples with
  | [] => (true, s)
  | (addr, expected) :: samples =>
      let '(got, s) := read_sys7_memory addr (length expected) s in
      let '(rest, s) := sys7_spot_check samples s in
      (match got with
       | Ok got => bool_decide (got = expected) && rest
       | Err _ => rest
       end, s)
  end.

(** An operation that cannot fail. *)
Definition total {A} (f : Session L -> A * Session L) : SessionOp A := fun s => let '(a, s) := f s in (Ok a, s).

Definition verify_sys7 (lsm : LsmAccess) (completed_lsms : list u32) (samples : list (u16 * bytes)) : SessionOp FlashOutcome :=
  octets ← given (lsm_octets completed_lsms);
  at_once ← total (read_lsm_states_at_once lsm octets);
  states ← match at_once with
           | Some ((_ :: _) as states) => mret (zip octets states)
           | _ => lsm_states lsm completed_lsms
           end;
  spot_checks_match ← total (sys7_spot_check samples);
  let all_loaded := forallb (fun e => bool_decide (snd e = Loaded)) states in
  mret (MkFlashOutcome (if all_loaded then Loaded else LoadState_Other 255) states spot_checks_match [] [] None false).
End Segments.

(** ** The state of the executor *)

Record System7 : Type := MkSystem7 {
  s7_verified : option FlashOutcome;
  s7_written_samples : list (u16 * bytes);
  s7_completed_lsms : list u32;
  s7_warnings : list FlashWarning }.

Definition s7_verify (out : FlashOutcome) (e : System7) : System7 :=
  MkSystem7 (Some out) (s7_written_samples e) (s7_completed_lsms e) (s7_warnings e).
Definition s7_sample (x : u16 * bytes) (e : System7) : System7 :=
  MkSystem7 (s7_verified e) (s7_written_samples e ++ [x]) (s7_completed_lsms e) (s7_warnings e).
Definition s7_complete (lsm : u32) (e : System7) : System7 :=
  MkSystem7 (s7_verified e) (s7_written_samples e) (s7_completed_lsms e ++ [lsm]) (s7_warnings e).
Definition s7_warn (w : FlashWarning) (e : System7) : System7 :=
  MkSystem7 (s7_verified e) (s7_written_samples e) (s7_completed_lsms e) (s7_warnings e ++ [w]).

Section System7.
  Context {L : Type} {SL : StepLink L} {XL : ExecLink L}.
  Variables (wait_ms timeout_ms : option Z) (p : FlashPlan) (ctx : Sys7Context) (verify_after_restart : bool).

Abbreviation S7Op := (Exec_op System7 (BootSession L)).

Definition lsm : LsmAccess := lsm_access_from_profile (s7c_profile ctx).

Definition system7_reboot (step : FlashStep) : Reboot :=
  match step with
  | FsRestart => SelfReconnecting
  | FsSys7PreDownloadRestart _ => Replayed
  | _ => RebootNo
  end.

Definition checked {A} (r : result WriteError A) : S7Op A := fun e s => ((r, e), s).

(** The event of an allocation or task step, to its machine. *)
Definition send_record (step : FlashStep) : S7Op unit :=
  match sys7_event step with
  | None => mret tt
  | Some event =>
      found ← checked (map_err (fun x => AddressOutOfRange (oor_field x)) event);
      let '(idx, _, octets) := found in
      octet ← checked (lsm_octet idx);
      l4 (LsmAccess_send_control lsm octet octets)
  end.

Definition run_start_loading (idx : u32) : S7Op unit :=
  octet ← checked (lsm_octet idx);
  _ ← (if is_parameters_only p then
         actual ← l4 (LsmAccess_read_settled_state lsm octet IntermediatePoll_STANDARD);
         if negb (bool_decide (actual = Loaded)) then xfail (NotLoaded octet actual) else mret tt
       else mret tt);
  _ ← l4 (LsmAccess_drive lsm octet StartLoading);
  mret tt.

Definition run_abs_segment (step : FlashStep) (address : u32) (seg_flags : u8) (image : option ImageRef) : S7Op unit :=
  _ ← send_record step;
  seg_addr ← checked (sys7_u16 "segment address" address);
  match image with
  | None => mret tt
  | Some img =>
      blind ← on_ss (stream_sys7_image p ctx seg_addr img);
      match fp_images p !! ir_segment_id img with
      | Some octets =>
          if (blind : bool) && bool_decide (s7c_segment_masks ctx !! ir_segment_id img = None) && negb (seg_flags =? 0)
          then xmodify (s7_sample (seg_addr, take_sample (image_part octets img))) else mret tt
      | None => mret tt
      end
  end.

Definition run_compare_mem (address : u32) (expected : bytes) : S7Op unit :=
  addr ← checked (sys7_u16 "compare address" address);
  got ← on_ss (read_sys7_memory addr (length expected));
  if bool_decide (got = expected) then mret tt else xfail (Mgmt (MemoryVerifyFailed addr expected got)).

Definition send_bare_restart (s : BootSession L) : BootSession L :=
  bs_set_link (link_send_unacked (fst (encode_restart 0)) (snd (encode_restart 0)) (bs_link s)) s.

Definition run_sys7_restart : S7Op unit := fun e s =>
  if verify_after_restart && can_reconnect s then
    (_ ← boot (fun s => reconnect_after_reboot wait_ms timeout_ms (send_bare_restart s));
     out ← on_ss (verify_sys7 lsm (s7_completed_lsms e) (s7_written_samples e));
     xmodify (s7_verify out)) e s
  else
    (out ← on_ss (verify_sys7 lsm (s7_completed_lsms e) (s7_written_samples e));
     _ ← xmodify (s7_verify out);
     boot (fun s => (Ok tt, send_bare_restart s))) e s.

(** A machine the device lacks, or one that refuses, does not stop the download. *)
Fixpoint pre_unload (index : nat) (unload : list u32) : S7Op unit :=
  match unload with
  | [] => mret tt
  | idx :: unload =>
      octet ← checked (lsm_octet idx);
      outcome ← xattempt (l4 (LsmAccess_drive lsm octet Unload));
      _ ← match outcome with
          | Ok _ => mret tt
          | Err ((ObjectAbsent _ | LoadError _) as err) => xmodify (s7_warn (PreUnloadSkipped (S index) idx err))
          | Err err => xfail err
          end;
      pre_unload index unload
  end.

Definition run_pre_download_restart (index : nat) (unload : list u32) : S7Op unit :=
  _ ← pre_unload index unload;
  boot (fun s => if can_reconnect s then reconnect_after_reboot wait_ms timeout_ms (send_bare_restart s) else (Ok tt, s)).

Definition run_enable_verify_mode (index : nat) : S7Op unit :=
  outcome ← on_ss session_enable_verify_mode;
  match outcome with
  | Refused previous => xmodify (s7_warn (VerifyModeRefused (Some (S index)) previous))
  | Unsupported => xmodify (s7_warn (VerifyModeUnsupported (Some (S index))))
  | _ => mret tt
  end.

Definition system7_run (index : nat) (step : FlashStep) : S7Op unit :=
  match step with
  | FsSys7Unload idx =>
      octet ← checked (lsm_octet idx);
      _ ← l4 (LsmAccess_drive lsm octet Unload);
      mret tt
  | FsSys7StartLoading idx => run_start_loading idx
  | FsSys7AbsSegment _ address _ _ _ seg_flags _ image => run_abs_segment step address seg_flags image
  | FsWriteMem address image =>
      addr ← checked (sys7_u16 "write address" address);
      _ ← on_ss (stream_sys7_image p ctx addr image);
      mret tt
  | FsSys7TaskSegment _ _ _ | FsSys7TaskCtrl1 _ _ _ | FsSys7TaskPtr _ _ _ _ | FsSys7TaskCtrl2 _ _ _ _ _ => send_record step
  | FsSys7LoadCompleted idx =>
      octet ← checked (lsm_octet idx);
      _ ← l4 (LsmAccess_drive lsm octet LoadCompleted);
      xmodify (s7_complete idx)
  | FsSys7CompareMem address expected => run_compare_mem address expected
  | FsLoadImageProp obj_idx prop_id count _ _ =>
      if prop_id =? PID_MCB_TABLE
      then _ ← l4 (read_mcb_table (u8_or_max obj_idx) 1 (Z.min (Z.max count 1) 255) None); mret tt
      else mret tt
  | FsRestart => run_sys7_restart
  | FsSys7PreDownloadRestart unload => run_pre_download_restart index unload
  | FsEnableVerifyMode => run_enable_verify_mode index
  | other => match run_shared_step other with
             | Some op => boot op
             | None => xfail (Mgmt (MalformedResponse "System 7 executor met a non-System-7 step"))
             end
  end.

Definition system7_recover (index : nat) (step : FlashStep) (err : WriteError) (e : System7) : result WriteError unit * System7 :=
  let after_restart :=
    match s7_verified e with
    | Some _ => (Ok tt, s7_warn (FailedAfterRestart (S index) err) e)
    | None => (Err err, e)
    end in
  match err, step with
  | ObjectAbsent object_index, FsSys7Unload _ => (Ok tt, s7_warn (NothingToUnload (S index) object_index) e)
  | _, _ => after_restart
  end.

#[export] Instance system7 : StepExecutor (BootSession L) System7 := {
  ex_reboot := system7_reboot;
  ex_skip _ e := (false, e);
  ex_restart_verified e := match s7_verified e with Some _ => true | None => false end;
  ex_run index step e s := system7_run index step e s;
  ex_recover := system7_recover }.

Definition flash_sys7 (threshold : u32) : Mgmt_op (BootSession L) FlashOutcome := fun s =>
  match run_steps (SS := boot_steps wait_ms timeout_ms) p threshold (MkSystem7 None [] [] []) s with
  | ((Err err, _), s) => (Err err, s)
  | ((Ok _, e), s) =>
      match (match s7_verified e with
             | Some out => (Ok out, s)
             | None => on_session (verify_sys7 lsm (s7_completed_lsms e) (s7_written_samples e)) s
             end) with
      | (Err err, s) => (Err err, s)
      | (Ok out, s) =>
          (Ok (MkFlashOutcome (fo_load_state out) (fo_object_states out) (fo_spot_checks_match out)
                 (fo_warnings out ++ s7_warnings e) (fo_reboot_readiness out) (fo_verify_echoes out) (fo_property_only out)), s)
      end
  end.
End System7.

(** ** What the stream of a masked segment leaves in memory *)

Section Masked.
  Context {L A : Type} {SL : StepLink L} {XL : ExecLink L} {LD : LinkDevice L A} {LDL : LinkDeviceLaws L A}.
  Context {CD : CellDevice L A} {CDL : CellDeviceLaws L A}.

Lemma write_owned_leaves (addr : u16) (octets : bytes) runs : bytes_ok octets -> 0 <= addr -> addr + zlen octets <= 65536 ->
  Forall (fun r => (fst r < snd r <= length octets)%nat) runs ->
  forall (a : A) (s : Session L), may_store a addr (zlen octets) -> linked a (ss_link s) -> unverified s ->
  leaves a addr octets (fun i => covered_by i runs) (write_owned addr octets runs s).
Proof.
  intros Hb Hlo Hhi. induction 1 as [|r runs Hr _ IH]; intros a s Hm Hl Hu; cbn [write_owned].
  - eapply leaves_weaken; [|by apply leaves_ret]. intros i _. unfold covered_by. by rewrite Exists_nil.
  - assert (Hat : u16_saturating_add addr (as_u16 (Z.of_nat (fst r))) = addr + Z.of_nat (fst r)).
    { unfold zlen in Hhi. unfold u16_saturating_add, as_u16. rewrite Z.mod_small by lia. lia. }
    rewrite Hat. eapply leaves_weaken; [intros i _; symmetry; apply Exists_cons|].
    apply leaves_bind; [by apply write_region_leaves; [done|done|lia|done|done]|].
    intros _ a' s' Hl' Hu' [Hw _]. apply IH; [|done|done]. by eapply partly_may.
Qed.

(** The runs of owned octets cover exactly these. *)
Lemma owned_runs_spec first end_ mask (octets : bytes) : (first <= end_ <= length octets)%nat ->
  Forall (fun r => (fst r < snd r <= length octets)%nat) (owned_runs first end_ mask) /\
  forall i, covered_by i (owned_runs first end_ mask) <-> (first <= i < end_)%nat /\ writable mask i = true.
Proof.
  intros Hfe. unfold owned_runs. destruct (differing_from_spec (fun _ _ => 0%nat) end_ (writable mask) (end_ - first) first ltac:(lia)) as (Ha & Hin & Hc).
  split; [|done]. clear Hc. revert Ha Hin. generalize first at 1. generalize (differing_from (end_ - first) end_ (writable mask) first).
  intros runs lo Ha Hin. revert lo Ha. induction Hin as [|[start stop] runs Hs _ IH]; intros lo Ha; [constructor|].
  destruct Ha as (H1 & H2 & H3). constructor; [cbn in *; lia|by eapply IH].
Qed.

Lemma write_sys7_segment_leaves (a : A) (addr : u16) (octets : bytes) mask s : bytes_ok octets -> 0 <= addr -> addr + zlen octets <= 65536 ->
  may_store a addr (zlen octets) -> linked a (ss_link s) -> unverified s ->
  leaves a addr octets (fun i => writable mask i = true) (write_sys7_segment addr octets mask s).
Proof.
  intros Hb Hlo Hhi Hm Hl Hu. unfold write_sys7_segment. destruct mask as [mask|].
  - destruct (owned_runs_spec 0 (length octets) (Some mask) octets ltac:(lia)) as [Hin Hc].
    eapply leaves_weaken; [|by apply write_owned_leaves]. intros i Hi. rewrite Hc. split; [by intros [_ ?]|]. split; [lia|done].
  - eapply leaves_weaken; [|by apply write_image_leaves]. done.
Qed.

(** ** The first and the last owned octet of a chunk *)

Lemma head_owned (P : nat -> Prop) `{!forall i, Decision (P i)} n : forall start,
  match head (filter P (seq start n)) with
  | Some first => P first /\ (start <= first < start + n)%nat /\ forall i, (start <= i < first)%nat -> ~ P i
  | None => forall i, (start <= i < start + n)%nat -> ~ P i
  end.
Proof.
  induction n as [|n IH]; intros start; cbn [seq]; [intros i; lia|]. rewrite filter_cons. destruct (decide (P start)) as [Hp|Hn].
  - cbn. split; [done|]. split; [lia|]. intros i. lia.
  - specialize (IH (S start)). destruct (head _) as [first|].
    + destruct IH as (H1 & H2 & H3). split; [done|]. split; [lia|]. intros i Hi.
      destruct (decide (i = start)) as [->|]; [done|]. apply H3. lia.
    + intros i Hi. destruct (decide (i = start)) as [->|]; [done|]. apply IH. lia.
Qed.

Lemma last_owned (P : nat -> Prop) `{!forall i, Decision (P i)} start n :
  match last (filter P (seq start n)) with
  | Some last => P last /\ (start <= last < start + n)%nat /\ forall i, (last < i < start + n)%nat -> ~ P i
  | None => forall i, (start <= i < start + n)%nat -> ~ P i
  end.
Proof.
  induction n as [|n IH]; [intros i; lia|]. rewrite seq_S, filter_app. cbn [app]. rewrite filter_cons, filter_nil.
  destruct (decide (P (start + n)%nat)) as [Hp|Hn].
  - rewrite last_snoc. split; [done|]. split; [lia|]. intros i. lia.
  - rewrite app_nil_r. destruct (last _) as [l|].
    + destruct IH as (H1 & H2 & H3). split; [done|]. split; [lia|]. intros i Hi.
      destruct (decide (i = start + n)%nat) as [->|]; [done|]. apply H3. lia.
    + intros i Hi. destruct (decide (i = start + n)%nat) as [->|]; [done|]. apply IH. lia.
Qed.

(** ** The read-compare write *)

Lemma exec_read_on (a : A) at_ n s : linked a (ss_link s) -> unverified s -> 0 <= at_ -> 0 <= n -> at_ + n <= 65536 ->
  match on_l4 (exec_read_memory at_ n) s with
  | (Ok got, s') => linked a (ss_link s') /\ unverified s' /\ (got = [] \/ got = map (cell a) (seqZ at_ n))
  | (Err _, s') => torn a (ss_link s')
  end.
Proof.
  intros Hl Hu H1 H2 H3. unfold on_l4. pose proof (exec_read_law a at_ n (ss_link s) Hl H1 H2 H3) as H.
  destruct (exec_read_memory at_ n (ss_link s)) as [[got|err] l]; [|done]. destruct H as [Hl' Hg]. done.
Qed.

(** A span that does not differ holds the owned octets. *)
Lemma span_agrees (a : A) addr (octets : bytes) mask first last got : (first <= last < length octets)%nat ->
  got = [] \/ got = map (cell a) (seqZ (addr + Z.of_nat first) (Z.of_nat (S last - first))) ->
  span_differs octets mask first last got = false ->
  forall i x, (first <= i <= last)%nat -> writable mask i = true -> octets !! i = Some x -> cell a (addr + Z.of_nat i) = x.
Proof.
  intros Hfl Hgot Hd i x Hi Hw Hx. apply orb_false_elim in Hd as [Hlen He].
  destruct Hgot as [->| ->]; [apply negb_false_iff, Nat.eqb_eq in Hlen; cbn in Hlen; lia|].
  apply not_true_iff_false in He. destruct (decide (cell a (addr + Z.of_nat i) = x)) as [|Hne]; [done|]. exfalso. apply He.
  apply existsb_exists. exists i. split; [apply in_seq; lia|]. rewrite Hw. cbn [andb].
  apply negb_true_iff, bool_decide_eq_false_2. rewrite Hx.
  rewrite list_lookup_fmap. rewrite lookup_seqZ_lt by lia. cbn. intros [= E]. apply Hne. rewrite <- E. f_equal. lia.
Qed.

Lemma compare_chunk_leaves (a : A) (addr : u16) (octets : bytes) mask start end_ s : bytes_ok octets ->
  0 <= addr -> addr + zlen octets <= 65536 -> (start <= end_ <= length octets)%nat -> (end_ - start <= 255)%nat ->
  may_store a addr (zlen octets) -> linked a (ss_link s) -> unverified s ->
  leaves a addr octets (fun i => (start <= i < end_)%nat /\ writable mask i = true) (compare_chunk addr octets mask start end_ s).
Proof.
  intros Hb Hlo Hhi Hse Hch Hm Hl Hu. unfold compare_chunk. unfold zlen in Hhi.
  pose proof (head_owned (fun i => writable mask i = true) (end_ - start) start) as Hh.
  pose proof (last_owned (fun i => writable mask i = true) start (end_ - start)) as Hla.
  destruct (head (filter _ _)) as [first|].
  2: { eapply leaves_weaken; [|by apply leaves_ret]. intros i _. split; [done|]. intros [Hi Hw]. eapply Hh; [|exact Hw]. lia. }
  destruct (last (filter _ _)) as [last|].
  2: { eapply leaves_weaken; [|by apply leaves_ret]. intros i _. split; [done|]. intros [Hi Hw]. eapply Hla; [|exact Hw]. lia. }
  destruct Hh as (Hwf & Hf & Hbefore), Hla as (Hwl & Hlt & Hafter).
  assert (Hown : forall i, (start <= i < end_)%nat -> writable mask i = true -> (first <= i <= last)%nat).
  { intros i Hi Hw. destruct (decide (i < first)%nat) as [H|]; [exfalso; eapply Hbefore; [|exact Hw]; lia|].
    destruct (decide (last < i)%nat) as [H|]; [exfalso; eapply Hafter; [|exact Hw]; lia|]. lia. }
  assert (Hfl : (first <= last)%nat) by (apply (Hown last); [lia|done]).
  assert (Hat : u16_saturating_add addr (as_u16 (Z.of_nat first)) = addr + Z.of_nat first).
  { unfold u16_saturating_add, as_u16. rewrite Z.mod_small by lia. lia. }
  assert (Hw8 : as_u8 (Z.of_nat (S last - first)) = Z.of_nat (S last - first)) by (apply Z.mod_small; lia).
  cbv zeta. rewrite Hat, Hw8. unfold mbind at 1, Mgmt_op_bind at 1.
  pose proof (exec_read_on a (addr + Z.of_nat first) (Z.of_nat (S last - first)) s Hl Hu ltac:(lia) ltac:(lia) ltac:(lia)) as Hr.
  destruct (on_l4 _ s) as [[got|err] s1]; [|exists a; split; [done|apply partly_refl]]. destruct Hr as (Hl1 & Hu1 & Hg).
  destruct (span_differs octets mask first last got) eqn:Ed; cbn [negb].
  - destruct (owned_runs_spec first (S last) mask octets ltac:(lia)) as [Hin Hc].
    eapply (leaves_weaken _ _ _ (fun i => covered_by i (owned_runs first (S last) mask) \/ False)).
    + intros i _. rewrite Hc. split; [intros [[Hi Hw]|[]]; split; [lia|done]|]. intros [Hi Hw]. left. split; [|done].
      specialize (Hown i Hi Hw). lia.
    + apply leaves_bind; [by apply write_owned_leaves|]. intros _ a' s2 Hl2 Hu2 _. unfold mbind, Mgmt_op_bind.
      pose proof (exec_read_on a' (addr + Z.of_nat first) (Z.of_nat (S last - first)) s2 Hl2 Hu2 ltac:(lia) ltac:(lia) ltac:(lia)) as Hr.
      destruct (on_l4 _ s2) as [[got2|err] s3]; [|exists a'; split; [done|apply partly_refl]]. destruct Hr as (Hl3 & Hu3 & _).
      destruct (span_differs _ _ _ _ got2); [|by apply leaves_ret].
      exists a'. split; [by apply linked_torn|apply partly_refl].
  - exists a. split; [done|]. split; [done|]. split; [apply partly_refl|]. intros i x [Hi Hw] Hx.
    eapply (span_agrees a addr octets mask first last got); [lia|exact Hg|exact Ed|by apply Hown|done|done].
Qed.

Lemma compare_chunks_leaves (addr : u16) (octets : bytes) mask chunk : bytes_ok octets ->
  0 <= addr -> addr + zlen octets <= 65536 -> (0 < chunk <= 255)%nat ->
  forall fuel start (a : A) s, (length octets - start <= fuel)%nat ->
  may_store a addr (zlen octets) -> linked a (ss_link s) -> unverified s ->
  leaves a addr octets (fun i => (start <= i)%nat /\ writable mask i = true) (compare_chunks fuel addr octets mask chunk start s).
Proof.
  intros Hb Hlo Hhi Hch. induction fuel as [|fuel IH]; intros start a s Hf Hm Hl Hu; cbn [compare_chunks].
  { eapply leaves_weaken; [|by apply leaves_ret]. intros i Hi. split; [done|]. lia. }
  destruct (Nat.leb_spec (length octets) start) as [Hge|Hlt].
  { eapply leaves_weaken; [|by apply leaves_ret]. intros i Hi. split; [done|]. lia. }
  set (end_ := Nat.min (start + chunk) (length octets)).
  eapply (leaves_weaken _ _ _ (fun i => ((start <= i < end_)%nat /\ writable mask i = true) \/
                                     (((end_ <= i)%nat /\ writable mask i = true) \/ False))).
  { intros i Hi. destruct (decide (i < end_)%nat); intuition lia. }
  cbv zeta. fold end_. apply leaves_bind; [apply compare_chunk_leaves; try done; lia|].
  intros w a' s' Hl' Hu' [Hw _]. apply leaves_bind.
  - apply IH; [lia|by eapply partly_may|done|done].
  - intros. by apply leaves_ret.
Qed.

Lemma read_compare_leaves (a : A) (addr : u16) (octets : bytes) mask s : bytes_ok octets -> 0 <= addr -> addr + zlen octets <= 65536 ->
  may_store a addr (zlen octets) -> linked a (ss_link s) -> unverified s ->
  leaves a addr octets (fun i => writable mask i = true) (read_compare_sys7_segment addr octets mask s).
Proof.
  intros Hb Hlo Hhi Hm Hl Hu. unfold read_compare_sys7_segment.
  pose proof (plain_chunk_law (ss_link s)) as Hc. eapply leaves_weaken; [|apply compare_chunks_leaves; try done].
  - intros i _. split; [by intros [_ ?]|]. split; [lia|done].
  - unfold chunk_of. lia.
  - lia.
Qed.

Lemma difference_mask_owns (octets current : bytes) mask i : (i < length octets)%nat ->
  writable (Some (difference_mask octets current mask)) i = true <->
  covered_by i (diff_regions (fun _ _ => length octets) octets current mask LEGACY_MERGE_GAP).
Proof.
  intros Hi. unfold writable, difference_mask. rewrite list_lookup_fmap, lookup_seq_lt by done. cbn [fmap option_fmap option_map].
  rewrite bool_decide_eq_true. case_bool_decide as Hc; cbn; split; congruence || done.
Qed.

(** The value of an operation does not matter for what it leaves. *)
Lemma leaves_then {B C} (a : A) addr octets own (m : Mgmt_op (Session L) B) (v : C) s : leaves a addr octets own (m s) ->
  leaves a addr octets own ((_ ← m; mret v) s).
Proof.
  intros Hm. eapply leaves_weaken; [|apply leaves_bind; [exact Hm|]]; [|intros b a' s' Hl Hu _; by apply (leaves_ret a' addr octets v)].
  intros i _. cbv beta. tauto.
Qed.

(** C10: The stream of a System 7 segment, without verify mode, leaves the octets the device owns alone: an
    octet the mask of the segment does not give to the image is what it was, whether
    the image is written blind or read and compared first, whether all of it is streamed
    or only what differs from the memory read before a parameter-only download, whether
    the stream succeeds or fails, and when connections die; and when it succeeds every
    octet the mask gives to the image is the image's. *)
Theorem system7_stream_spares_device_octets p ctx (addr : u16) image (a : A) (s : Session L) whole :
  fp_images p !! ir_segment_id image = Some whole ->
  let octets := image_part whole image in
  let mask := option_map (fun m => image_part m image) (s7c_segment_masks ctx !! ir_segment_id image) in
  0 <= addr -> addr + zlen octets <= 65536 -> may_store a addr (zlen octets) -> bytes_ok octets ->
  linked a (ss_link s) -> unverified s ->
  (forall current, fp_baseline p !! ir_segment_id image = Some current -> holds_at a addr (image_part current image) octets) ->
  leaves a addr octets (fun i => writable mask i = true) (stream_sys7_image p ctx addr image s).
Proof.
  intros Ew. cbv zeta. set (octets := image_part whole image). set (mask := option_map _ (s7c_segment_masks ctx !! _)).
  intros Hlo Hhi Hm Hb Hl Hu Hbase. unfold stream_sys7_image. rewrite Ew. fold octets mask.
  assert (Hstream : forall used, leaves a addr octets (fun i => writable used i = true)
    ((if read_compare_write (s7c_profile ctx) then _ ← read_compare_sys7_segment addr octets used; mret false
      else _ ← write_sys7_segment addr octets used; mret true) s)).
  { intros used. destruct (read_compare_write _); apply leaves_then; [by apply read_compare_leaves|by apply write_sys7_segment_leaves]. }
  destruct (fp_baseline p !! ir_segment_id image) as [current|]; cbn [option_map]; [|apply Hstream].
  specialize (Hbase current eq_refl). set (held := image_part current image) in *.
  destruct (diff_regions_spec (fun _ _ => length octets) octets held mask LEGACY_MERGE_GAP) as (_ & Hin & Hall & Honly).
  set (diff := difference_mask octets held mask).
  apply (leaves_held _ _ _ (fun i => writable (Some diff) i = true)); [apply Hstream| | |intros i; apply _].
  - intros i Hi. assert (Hlt : (i < length octets)%nat).
    { unfold writable in Hi. apply bool_decide_eq_true_1, lookup_lt_Some in Hi. unfold diff, difference_mask in Hi.
      by rewrite length_map, length_seq in Hi. }
    apply difference_mask_owns in Hi; [|done]. by apply Honly.
  - intros i x Hi Hw Hn Hx. specialize (Hbase i Hi).
    destruct (decide (held !! i = octets !! i)) as [E|E]; [rewrite E in Hbase; congruence|]. exfalso.
    apply Hn, difference_mask_owns; [done|]. by apply Hall.
Qed.
End Masked.

(** A sample that cannot be read passes, although it is of a segment that was written
    blind and that nothing else has compared. *)
Lemma unread_sample_passes {L} {SL : StepLink L} {XL : ExecLink L} addr expected (s : Session L) err s' :
  read_sys7_memory addr (length expected) s = (Err err, s') -> sys7_spot_check [(addr, expected)] s = (true, s').
Proof. intros E. cbn. by rewrite E. Qed.

(** ** A masked segment to stream

    Into the memory of [FlashSession], whose connection dies; the device owns the second
    and the fifth octet. *)
#[local] Existing Instance dying_reboot.
#[local] Existing Instance dying_requests.
#[local] Existing Instance dying_objects.
#[local] Existing Instance dying_props.
#[local] Existing Instance dying_step.
#[local] Existing Instance dying_exec.
#[local] Existing Instance dying_cells.
#[local] Existing Instance dying_cells_laws.

Definition masked_image : ImageRef := MkImageRef [115] ImageCode 6 0.

Definition masked_context (verify_mode : option u8) : Sys7Context :=
  MkSys7Context (MkSys7Profile LsmProperty 0 1 0 verify_mode) {[ [115] := [255; 0; 255; 255; 0; 255] ]} ∅.

Definition masked_plan : FlashPlan :=
  MkFlashPlan (MkAppIdentity [] None None None [] None) 1793 [] {[ [115] := [1; 2; 3; 4; 5; 6] ]} ∅ false (Some (masked_context None))
    false ∅ ∅ ∅ ∅ (MkTableCapacity None None) false ∅ false [].

Definition owned_memory : gmap Z u8 := write_cells ∅ 100 0 [1; 9; 9; 9; 9; 9].

Definition masked_session : Session DyingLink :=
  MkSession (MkDyingLink owned_memory true [0; 1]%nat) true true None None None VerifyModeState_default false.

Lemma system7_stream_spares_device_octets_witness :
  exists s', stream_sys7_image masked_plan (masked_context None) 100 masked_image masked_session = (Ok false, s') /\
    dy_deaths (ss_link s') = [] /\ map (fun k => dy_cells (ss_link s') !! k) (seqZ 100 6) = map Some [1; 9; 3; 4; 9; 6] /\
    exists a', linked a' (ss_link s') /\ forall k, k = 101 \/ k = 104 -> cell a' k = 9.
Proof.
  set (out := stream_sys7_image masked_plan (masked_context None) 100 masked_image masked_session).
  assert (Hout : match fst out with Ok b => negb b | Err _ => false end && bool_decide (dy_deaths (ss_link (snd out)) = [])
    && bool_decide (map (fun k => dy_cells (ss_link (snd out)) !! k) (seqZ 100 6) = map Some [1; 9; 3; 4; 9; 6]) = true)
    by (vm_compute; reflexivity).
  assert (Hl : leaves owned_memory 100 [1; 2; 3; 4; 5; 6] (fun i => writable (Some [255; 0; 255; 255; 0; 255]) i = true) out).
  { pose proof (system7_stream_spares_device_octets masked_plan (masked_context None) 100 masked_image owned_memory masked_session
                  [1; 2; 3; 4; 5; 6]) as H. cbv zeta in H. fold out in H.
    assert (Eo : image_part [1; 2; 3; 4; 5; 6] masked_image = [1; 2; 3; 4; 5; 6]) by (vm_compute; reflexivity).
    assert (Em : option_map (fun m => image_part m masked_image) (s7c_segment_masks (masked_context None) !! ir_segment_id masked_image)
                 = Some [255; 0; 255; 255; 0; 255]) by (vm_compute; reflexivity).
    rewrite Eo, Em in H. apply H; clear H.
    - vm_compute. reflexivity.
    - lia.
    - vm_compute. discriminate.
    - split; [lia|vm_compute; reflexivity].
    - unfold bytes_ok. rewrite !Forall_cons. unfold is_u8. split_and!; try lia. constructor.
    - split; reflexivity.
    - split; reflexivity.
    - intros current E. assert (E' : fp_baseline masked_plan !! ir_segment_id masked_image = None) by (vm_compute; reflexivity).
      rewrite E' in E. discriminate. }
  destruct out as [[b|err] s']; [|discriminate]. cbn [fst snd] in Hout.
  apply andb_prop in Hout as [[Hb%negb_true_iff Hd%bool_decide_eq_true_1]%andb_prop Hc%bool_decide_eq_true_1]. subst b.
  exists s'. split; [reflexivity|]. split; [exact Hd|]. split; [exact Hc|].
  destruct Hl as (a' & Ha & _ & [[Hp _] _]). exists a'. split; [exact Ha|]. intros k Hk.
  destruct (Hp k) as [->|(i & Hi & E & _)].
  - destruct Hk as [->| ->]; vm_compute; reflexivity.
  - exfalso. assert (Hik : i = 1%nat \/ i = 4%nat) by lia. destruct Hik as [->| ->]; discriminate Hi.
Defined.
