(* ===== verification/Flash.v ===== *)
(** * A download ([flash] of bussard-download/src/flash/execute.rs)

    The download of a plan: the executor of the device's family, what is read before
    the first step (the object table, the resident images that need no re-load, the
    capacity of the security tables), and the outcome; and what a System B download
    that reports success means for the device. *)

From S2P Require Import Prelude Cursor Decimal SimMemory MgmtError Apci Load Mcb Sys7 ClientMemory PropertyExt ObjectTable SecurityTables.
From S2P Require Import ParamImage FlashRegions FlashPlan FlashSession FlashReboot FlashProps FlashSteps FlashProperty FlashVerify.
From S2P Require Import FlashSystemB FlashSys7.

Local Open Scope string_scope.
Local Open Scope list_scope.
Local Open Scope Z_scope.

(** ** The environment *)

Definition RECONNECT_EXCHANGE_THRESHOLD : u32 := 10.

Definition threshold_for (env : option text) (knx_virtual : bool) : u32 :=
  default (if knx_virtual then RECONNECT_EXCHANGE_THRESHOLD else 0) (v ← env; parse_u32 (trim v)).

Record FlashOptions : Type := MkFlashOptions { opt_verify_after_restart : bool; opt_skip_matching_mcb : bool }.

(** ** The download *)

Section Flash.
  Context {L : Type} {SL : StepLink L} {XL : ExecLink L}.
  Variables (wait_ms timeout_ms : option Z) (env : option text) (merge_gap : nat).
  (** What the pre-flight has read of the object table. *)
  Variable facts : list (u8 * u16).
  Variables (p : FlashPlan) (options : FlashOptions).

Abbreviation BootOp := (Mgmt_op (BootSession L)).

Definition known_object_table : option (u8 * list (u8 * u16)) :=
  option_map (fun index => (index, facts)) (application_object facts).

Definition set_user_memory_above_64k (user : bool) (s : Session L) : Session L :=
  let s := MkSession (ss_link s) (ss_connected s) (ss_connector s) (ss_bcu_key s) (ss_authorize s) (ss_max_apdu s)
             (ss_verify s) user in
  if ss_connected s then ss_set_link (link_set_user_memory_above_64k user (ss_link s)) s else s.

Definition check_security_capacity : Mgmt_op L unit :=
  let '(keys, senders) := security_table_counts p in
  let known := fp_security_capacity p in
  capacity ← (if TableCapacity_is_complete known then mret known else of_request (resolve_table_capacity known));
  match TableCapacity_check_counts keys senders capacity with
  | Ok _ => mret tt
  | Err _ => fail (SecurityProgram "capacity")
  end.

(** What is read before the first step: the application object, the object table and
    the objects that need no re-load. *)
Definition prepare_system_b : BootOp (u8 * list (u8 * u16) * list u8) :=
  found ← match known_object_table with
          | Some known => mret known
          | None => on_session discover_object_table_resumable
          end;
  let '(app_obj, object_table) := found in
  skip ← (if opt_skip_matching_mcb options && negb (erases_resident_objects p) && negb (is_parameters_only p)
          then on_session (total (resident_match_objects p app_obj object_table)) else mret []);
  _ ← (if has_security_program p then boot_l4 check_security_capacity else mret tt);
  mret (app_obj, object_table, skip).

(** The body of [flash]; the result with whether the security object was left open. *)
Definition flash_steps (s : BootSession L) : (result WriteError FlashOutcome * bool) * BootSession L :=
  let threshold := threshold_for env (targets_knx_virtual p) in
  match fp_sys7 p with
  | Some ctx =>
      let '(r, s) := flash_sys7 wait_ms timeout_ms p ctx (opt_verify_after_restart options) threshold s in ((r, false), s)
  | None =>
      if is_property_only p then let '(r, s) := flash_properties wait_ms timeout_ms p s in ((r, false), s)
      else
        match prepare_system_b s with
        | (Err e, s) => ((Err e, false), s)
        | (Ok (app_obj, object_table, skip), s) =>
            run_system_b wait_ms timeout_ms merge_gap p app_obj object_table skip (opt_verify_after_restart options) threshold s
        end
  end.

Definition verify_echoes (s : Session L) : option VerifyEchoes :=
  let v := ss_verify s in
  if vm_wanted v || (0 <? ve_chunks_written (vm_echoes v))%nat then Some (vm_echoes v) else None.

Definition declined_warnings (s : Session L) : list FlashWarning :=
  match vm_declined (ss_verify s) with
  | Some (Refused previous) => [VerifyModeRefused None previous]
  | Some Unsupported => [VerifyModeUnsupported None]
  | _ => []
  end.

Definition flash : BootOp FlashOutcome := fun s =>
  let s := bs_set_session (set_user_memory_above_64k (fp_user_memory_above_64k p) (bs_session s)) s in
  let '((r, security_open), s) := flash_steps s in
  (match r with
   | Err err => Err (if (security_open : bool) then left_not_loaded err else err)
   | Ok out =>
       Ok (MkFlashOutcome (fo_load_state out) (fo_object_states out) (fo_spot_checks_match out)
             (fo_warnings out ++ declined_warnings (bs_session s)) (bs_readiness s)
             (verify_echoes (bs_session s)) (fo_property_only out))
   end, s).
End Flash.

(** ** What the executor of System B keeps

    [grows e e']: nothing the executor has noted to verify is lost, and the verdict is
    the one there was. *)
Definition grows (e e' : SystemB) : Prop :=
  (forall o, o ∈ sb_completed_objects e -> o ∈ sb_completed_objects e') /\
  (forall x, x ∈ sb_written_samples e -> x ∈ sb_written_samples e') /\ sb_verified e' = sb_verified e.

Lemma grows_refl e : grows e e.
Proof. done. Qed.

Lemma grows_trans e1 e2 e3 : grows e1 e2 -> grows e2 e3 -> grows e1 e3.
Proof. intros (A & B & C) (A' & B' & C'). split; [auto|]. split; [auto|]. congruence. Qed.

Create HintDb growing.

Section Growing.
  Context {L : Type} {SL : StepLink L} {XL : ExecLink L}.

Abbreviation SbOp := (Exec_op SystemB (BootSession L)).

Definition growing {A} (m : SbOp A) : Prop := forall e s, grows e (snd (fst (m e s))).

Lemma growing_ret {A} (a : A) : growing (mret a : SbOp A).
Proof. intros e s. done. Qed.

Lemma growing_fail {A} err : growing (xfail err : SbOp A).
Proof. intros e s. done. Qed.

Lemma growing_bind {A B} (m : SbOp A) (k : A -> SbOp B) : growing m -> (forall a, growing (k a)) -> growing (m ≫= k).
Proof.
  intros Hm Hk e s. unfold mbind, Exec_op_bind. specialize (Hm e s). destruct (m e s) as [[[a|err] e'] s']; [|done].
  eapply grows_trans; [exact Hm|]. apply Hk.
Qed.

Lemma growing_boot {A} (m : Mgmt_op (BootSession L) A) : growing (boot m : SbOp A).
Proof. intros e s. unfold boot. by destruct (m s). Qed.

Lemma growing_asks {A} (f : SystemB -> A) : growing (asks f : SbOp A).
Proof. intros e s. done. Qed.

Lemma growing_attempt {A} (m : SbOp A) : growing m -> growing (xattempt m).
Proof. intros Hm e s. unfold xattempt. specialize (Hm e s). by destruct (m e s) as [[r e'] s']. Qed.

Lemma growing_modify f : (forall e, grows e (f e)) -> growing (xmodify f : SbOp unit).
Proof. intros Hf e s. apply Hf. Qed.

Lemma grows_complete o e : grows e (sb_complete o e).
Proof.
  unfold sb_complete. destruct (bool_decide _); [done|]. split; [|done]. intros x Hx. cbn. by apply elem_of_app; left.
Qed.

Lemma grows_sample x e : grows e (sb_sample x e).
Proof. split; [done|]. split; [|done]. intros y Hy. cbn. by apply elem_of_app; left. Qed.
End Growing.

#[export] Hint Resolve growing_ret growing_fail growing_boot growing_asks growing_attempt grows_complete grows_sample : growing.

(** The cases of an operation, down to its primitive ones. *)
Ltac growing_cases :=
  repeat first
    [ progress (unfold l4, on_ss)
    | apply growing_bind; [|intros]
    | apply growing_attempt
    | apply growing_modify; intros; first [apply grows_complete | apply grows_sample | done]
    | solve [auto with growing]
    | match goal with |- growing (match ?x with _ => _ end) => destruct x end
    | match goal with |- growing (if ?x then _ else _) => destruct x end
    | match goal with |- growing (let '(_, _) := ?x in _) => destruct x end ].

(** ** The objects of the device

    A probe that is answered has told the type of the object at the index, or that
    there is none, and the device is as it was. *)
Class TypedDevice (L D : Type) {SL : StepLink L} {XL : ExecLink L} {VD : VerifyDevice L D} : Type := {
  held_type : D -> u8 -> option u16 }.

Class TypedDeviceLaws (L D : Type) `{TypedDevice L D} : Prop := {
  type_law : forall index, read_tells (of_req (probe_object_type index)) (fun d => held_type d index) }.

Section Typed.
  Context {L : Type} {SL : StepLink L} {XL : ExecLink L}.
  Context {D : Type} {VD : VerifyDevice L D} {VDL : VerifyDeviceLaws L D} {TD : TypedDevice L D} {TDL : TypedDeviceLaws L D}.

(** The objects of a device from an index on, up to the first place without one. *)
Fixpoint held_objects (d : D) (n : nat) (index : u8) : list (u8 * u16) :=
  match n with
  | O => []
  | S n => match held_type d index with
           | None => []
           | Some ot => (index, ot) :: held_objects d n (index + 1)
           end
  end.

(** The first application-program object of a device. *)
Definition held_application (d : D) : option u8 := application_object (held_objects d MAX_OBJECT_INDEX 0).

Lemma held_objects_type d n : forall index i ot, (i, ot) ∈ held_objects d n index -> held_type d i = Some ot.
Proof.
  induction n as [|n IH]; intros index i ot Hin; cbn [held_objects] in Hin; [by apply not_elem_of_nil in Hin|].
  destruct (held_type d index) as [t|] eqn:Et; [|by apply not_elem_of_nil in Hin].
  apply elem_of_cons in Hin as [[= -> ->]|Hin]; [done|by eapply IH].
Qed.

Lemma held_application_type d i : held_application d = Some i -> held_type d i = Some OT_APPLICATION_PROGRAM.
Proof.
  unfold held_application, application_object. destruct (List.find _ _) as [[j ot]|] eqn:E; [|done]. intros [= <-].
  apply List.find_some in E as [Hin Ho%Z.eqb_eq]. cbn [fst snd] in *. subst ot. eapply held_objects_type, list_elem_of_In, Hin.
Qed.

Lemma discover_from_tells d n : forall index,
  session_tells d (discover_from n index) (fun table => table = held_objects d n index).
Proof.
  induction n as [|n IH]; intros index; cbn [discover_from held_objects]; [by apply tells_ret|].
  eapply tells_bind; [apply (resume_tells d _ _ (type_law index))|]. intros found ->.
  destruct (held_type d index) as [ot|]; [|by apply tells_ret].
  eapply tells_bind; [apply IH|]. intros rest ->. by apply tells_ret.
Qed.

Lemma discover_tells d : session_tells d discover_object_table_resumable (fun found => held_application d = Some (fst found)).
Proof.
  unfold discover_object_table_resumable. eapply tells_bind; [apply discover_from_tells|]. intros table ->.
  fold (held_application d). destruct (held_application d) as [i|]; [by apply tells_ret|apply tells_fail].
Qed.

(** The application object after the restart: the known one, when the device still
    says so, else the first one it has. *)
Definition confirmed_application (d : D) (app_obj post : u8) : Prop :=
  held_type d post = Some OT_APPLICATION_PROGRAM /\ (post = app_obj \/ held_application d = Some post).

Lemma confirm_tells d app_obj : session_tells d (confirm_app_object app_obj) (confirmed_application d app_obj).
Proof.
  assert (Hwalk : session_tells d (found ← discover_object_table_resumable; mret (fst found)) (confirmed_application d app_obj)).
  { eapply tells_bind; [apply discover_tells|]. intros found Hf. apply tells_ret. split; [by apply held_application_type|by right]. }
  intros s Hs. unfold confirm_app_object.
  pose proof (tells_l4 d (of_req (probe_object_type app_obj)) (fun t => t = held_type d app_obj)) as Hp.
  assert (Ht : forall l, vd_dev l = d -> vd_dev (snd (of_req (probe_object_type app_obj) l)) = d /\
    forall t, fst (of_req (probe_object_type app_obj) l) = Ok t -> t = held_type d app_obj)
    by (intros l <-; apply (type_law app_obj)).
  destruct (Hp Ht s Hs) as [H1 H2].
  destruct (on_l4 (of_req (probe_object_type app_obj)) s) as [[[ot|]|e] s1]; cbn [fst snd] in *; [|exact (Hwalk s1 H1)|exact (Hwalk s1 H1)].
  specialize (H2 _ eq_refl). destruct (Z.eqb_spec ot OT_APPLICATION_PROGRAM) as [->|]; [|exact (Hwalk s1 H1)].
  split; [done|]. intros v [= <-]. split; [by rewrite <- H2|by left].
Qed.
End Typed.

(** ** What a System B download that reports success means *)

Section Reported.
  Context {L : Type} {SL : StepLink L} {XL : ExecLink L}.
  Context {D : Type} {VD : VerifyDevice L D} {VDL : VerifyDeviceLaws L D} {TD : TypedDevice L D} {TDL : TypedDeviceLaws L D}.
  Variables (wait_ms timeout_ms : option Z) (merge_gap : nat) (p : FlashPlan).
  Variables (app_obj : u8) (object_table : list (u8 * u16)) (skip_objects : list u8) (verify_after_restart : bool).

Abbreviation run_step_b := (system_b_run wait_ms timeout_ms merge_gap p app_obj object_table verify_after_restart).

Definition device (s : BootSession L) : D := device_of (bs_session s).

(** The absolute write of a step is sampled. *)
Definition sampled (step : FlashStep) (e : SystemB) : Prop :=
  match step with
  | FsWriteMem address image =>
      let octets := default [] (fp_images p !! ir_segment_id image) in
      octets = [] \/ MkSample address (take_sample octets) None ∈ sb_written_samples e
  | _ => True
  end.

(** The object a step completes is noted. *)
Definition completed (step : FlashStep) (e : SystemB) : Prop :=
  match step with
  | FsLoadCompleted target =>
      forall obj, resolve p app_obj object_table target = Some obj -> obj ∈ sb_completed_objects e
  | _ => True
  end.

Definition noted (step : FlashStep) (e : SystemB) : Prop := sampled step e /\ completed step e.

Lemma noted_grows step e e' : grows e e' -> noted step e -> noted step e'.
Proof.
  intros (A & B & _) [Hs Hc]. split; destruct step; try done; cbn in *; [|by auto].
  destruct Hs as [|]; [by left|right; by apply B].
Qed.

Lemma run_grows i step : is_restart step = false -> growing (run_step_b i step).
Proof.
  intros Hr. destruct step; try done; cbn [system_b_run];
    unfold run_unload, run_write_rel_mem, run_write_mem, run_compare_rel_mem, run_load_image_prop, run_master_reset;
    growing_cases.
Qed.

Lemma run_notes i step e s : is_restart step = false ->
  fst (fst (run_step_b i step e s)) = Ok tt -> noted step (snd (fst (run_step_b i step e s))).
Proof.
  intros Hr. destruct step; try done; cbn [system_b_run noted sampled completed]; intros E; (split; [|done]) || (split; [done|]).
  - cbn [sampled]. unfold run_write_mem in *. destruct (MAX_MEMORY_ADDRESS <? address); [done|]. cbv zeta in *.
    destruct (default [] (fp_images p !! ir_segment_id image)) as [|o rest]; [by left|]. right.
    unfold mbind, Exec_op_bind in *.
    match type of E with context [match ?m e s with _ => _ end] => destruct (m e s) as [[[u|err] e1] s1] end; [|done].
    cbn. apply elem_of_app. right. by left.
  - intros obj Eobj. rewrite Eobj in E |- *. unfold mbind, Exec_op_bind in *.
    destruct (on_ss (write_load_control_resumable obj LoadCompleted) e s) as [[[u|err] e1] s1]; [|done]. cbn. unfold sb_complete.
    destruct (bool_decide (obj ∈ sb_completed_objects e1)) eqn:Eb; [by apply bool_decide_eq_true_1 in Eb|].
    cbn. apply elem_of_app. right. by left.
Qed.

Lemma skip_notes step e : grows e (snd (system_b_skip p app_obj object_table skip_objects step e)) /\
  (fst (system_b_skip p app_obj object_table skip_objects step e) = true ->
   noted step (snd (system_b_skip p app_obj object_table skip_objects step e))).
Proof.
  unfold system_b_skip. destruct (mcb_skip_target step object_table app_obj p) as [obj|] eqn:Et; [|done].
  destruct (bool_decide (obj ∈ skip_objects)); [|done]. cbn [fst snd].
  split; [destruct step; try done; apply grows_complete|]. intros _. split; destruct step; try done.
  cbn [completed mcb_skip_target] in *. intros o Eo. unfold resolve in Eo. rewrite Et in Eo. injection Eo as <-.
  unfold sb_complete. destruct (bool_decide (obj ∈ sb_completed_objects e)) eqn:Eb; [by apply bool_decide_eq_true_1 in Eb|].
  cbn. apply elem_of_app. right. by left.
Qed.

(** ** The verdict *)

(** What a good outcome tells of the device, from what the executor has noted; after
    the restart only the application object's state is read. *)
Definition told (restarted : bool) (e : SystemB) (d : D) : Prop :=
  (forall x, x ∈ sb_written_samples e -> ws_segment x = None -> sample_held d x) /\
  if restarted then exists app, held_state d app = Loaded /\ confirmed_application d app_obj app
  else held_state d app_obj = Loaded /\ forall o, o ∈ sb_completed_objects e -> held_state d o = Loaded.

Lemma outcome_told e s : match verify_outcome app_obj (sb_completed_objects e) (sb_written_samples e) s with
  | (Ok out, s') => FlashOutcome_ok out = true -> told false e (device_of s')
  | (Err _, _) => True
  end.
Proof.
  destruct (verify_tells _ app_obj (sb_completed_objects e) (sb_written_samples e) s eq_refl) as [H1 H2].
  destruct (verify_outcome _ _ _ s) as [[out|err] s']; [|done]. cbn [fst snd] in *. intros Hok.
  destruct (H2 out eq_refl Hok) as [H3 H4]. rewrite H1. rewrite Forall_forall in H4.
  split; [intros x Hx _; by apply H4|]. split; [apply H3, elem_of_app; right; by left|].
  intros o Ho. apply H3, elem_of_app. by left.
Qed.

(** The verdict of the closing restart: read before it, or after the device is back. *)
Definition verdict (e : SystemB) (s : BootSession L) : Prop := exists out restarted s1,
  sb_verified e = Some out /\ s = (if restarted : bool then s1 else send_closing_restart p s1) /\
  (restarted = true -> verify_after_restart = true) /\ (FlashOutcome_ok out = true -> told restarted e (device s1)).

Lemma restart_verdict e s : match run_restart wait_ms timeout_ms p app_obj verify_after_restart e s with
  | ((Ok _, e'), s') => grows (sb_verify (default (MkFlashOutcome Loaded [] true [] [] None false) (sb_verified e')) e) e' /\ verdict e' s'
  | ((Err _, e'), _) => e' = e
  end.
Proof.
  unfold run_restart. destruct (verify_after_restart && can_reconnect s) eqn:Ev.
  - apply andb_prop in Ev as [Ev _]. unfold mbind, Exec_op_bind, boot, on_ss, on_session, boot, xmodify.
    destruct (restart_and_return _ _ p s) as [[u|err] s1]; [|done].
    destruct (confirm_tells (device s1) app_obj (bs_session s1) eq_refl) as [C1 C2].
    destruct (confirm_app_object app_obj (bs_session s1)) as [[post|err] x]; [|done]. cbn [fst snd] in *.
    specialize (C2 post eq_refl).
    destruct (after_reboot_tells _ post (sb_completed_objects e) (sb_written_samples e) (sb_mcb_verified e) x eq_refl) as [H1 H2].
    cbn [bs_session bs_set_session].
    destruct (verify_after_reboot post _ _ _ x) as [[out|err] x']; [|done]. cbn [fst snd] in *.
    split; [done|]. eexists out, true, _. split; [done|]. split; [done|]. split; [done|]. intros Hok.
    destruct (H2 out eq_refl Hok) as [H3 H4]. rewrite Forall_forall in H4. unfold device. cbn [bs_session bs_set_session].
    rewrite H1. split; [|exists post; split; [done|by rewrite C1]].
    intros y Hy Hn. apply H4; [done|]. unfold uncovered. by rewrite Hn.
  - unfold mbind, Exec_op_bind, boot, on_ss, on_session, boot, xmodify.
    pose proof (outcome_told e (bs_session s)) as Ho.
    destruct (verify_outcome _ _ _ (bs_session s)) as [[out|err] x]; [|done]. split; [done|].
    exists out, false, (bs_set_session x s). done.
Qed.

(** ** The steps of the plan *)

(** The steps before the closing restart, and the restart when the plan has one. *)
Definition closes (body tail : list FlashStep) : Prop :=
  fp_steps p = body ++ tail /\ (tail = [] \/ tail = [FsRestart]) /\ Forall (fun step => is_restart step = false) body.

Definition all_noted (i : nat) (e : SystemB) : Prop :=
  forall k step, (k < i)%nat -> fp_steps p !! k = Some step -> is_restart step = false -> noted step e.

Definition sb_ready (n i : nat) (e : SystemB) (s : BootSession L) : Prop :=
  all_noted i e /\ ((i <= n)%nat -> sb_verified e = None) /\ ((n < i)%nat -> verdict e s).

Definition sb_broken (i : nat) (e : SystemB) (s : BootSession L) : Prop := all_noted i e /\ sb_verified e = None.

Lemma all_noted_grows i e e' : grows e e' -> all_noted i e -> all_noted i e'.
Proof. intros Hg H k step Hk El Hr. eapply noted_grows; [exact Hg|]. by eapply H. Qed.

Lemma all_noted_next i e step : all_noted i e -> fp_steps p !! i = Some step -> (is_restart step = false -> noted step e) ->
  all_noted (S i) e.
Proof.
  intros H Ei Hn k st Hk El Hr. destruct (decide (k = i)) as [->|Hne]; [|apply (H k); [lia|done|done]].
  rewrite Ei in El. injection El as <-. by apply Hn.
Qed.

(** A step of the plan is one of the body, or the closing restart. *)
Lemma closes_lookup body tail i step : closes body tail -> fp_steps p !! i = Some step ->
  ((i < length body)%nat /\ is_restart step = false) \/ (i = length body /\ step = FsRestart /\ tail = [FsRestart]).
Proof.
  intros (E & Ht & Hb) Ei. rewrite E in Ei. apply lookup_app_Some in Ei as [Ei|[Hle Ei]].
  - left. split; [by eapply lookup_lt_Some|]. rewrite Forall_lookup in Hb. by eapply Hb.
  - right. destruct Ht as [->| ->]; [done|]. destruct (i - length body)%nat as [|n] eqn:En; [|done].
    injection Ei as <-. split; [lia|done].
Qed.

Lemma system_b_step_sound body tail i step : closes body tail -> fp_steps p !! i = Some step ->
  step_sound (SS := boot_steps wait_ms timeout_ms)
    (EX := system_b wait_ms timeout_ms merge_gap p app_obj object_table skip_objects verify_after_restart)
    (sb_ready (length body)) sb_broken i step.
Proof.
  intros Hp Ei. pose proof (closes_lookup body tail i step Hp Ei) as Hat.
  assert (Hle : (i <= length body)%nat) by (destruct Hat as [[? _]|[? _]]; lia).
  assert (Hready : forall e s, all_noted i e -> sb_verified e = None -> sb_ready (length body) i e s).
  { intros e s Hn Hv. split; [done|]. split; [done|lia]. }
  assert (Hnone : forall e s, sb_ready (length body) i e s -> all_noted i e /\ sb_verified e = None).
  { intros e s (Hn & Hv & _). split; [done|by apply Hv]. }
  split_and!.
  - intros e s [Hn Hv]%Hnone Hs. cbn [ex_skip system_b] in *. destruct (skip_notes step e) as [Hg Hnow].
    destruct Hat as [[Hlt Hr]|(_ & -> & _)]; [|done]. split; [|split].
    + eapply all_noted_next; [by eapply all_noted_grows|done|]. intros _. by apply Hnow.
    + intros _. destruct Hg as (_ & _ & ->). done.
    + lia.
  - intros e s [Hn Hv]%Hnone Hs. cbn [ex_skip system_b] in *. destruct (skip_notes step e) as [Hg _].
    apply Hready; [by eapply all_noted_grows|]. destruct Hg as (_ & _ & ->). done.
  - intros e s [Hn Hv]%Hnone. destruct (st_cycle s) as [[|] ?]; [by apply Hready|done].
  - intros e s [Hn Hv]%Hnone. destruct Hat as [[Hlt Hr]|(-> & -> & _)]; cbn [ex_run system_b].
    + pose proof (run_grows i step Hr e s) as Hg. pose proof (run_notes i step e s Hr) as Hnow.
      destruct (run_step_b i step e s) as [[[u|err] e'] s']; cbn [fst snd] in *.
      * split; [|split; [|lia]].
        -- eapply all_noted_next; [by eapply all_noted_grows|done|]. intros _. destruct u. by apply Hnow.
        -- intros _. destruct Hg as (_ & _ & ->). done.
      * split; [by eapply all_noted_grows|]. destruct Hg as (_ & _ & ->). done.
    + cbn [system_b_run]. pose proof (restart_verdict e s) as Hv'.
      destruct (run_restart _ _ _ _ _ e s) as [[[u|err] e'] s']; [|by subst e'].
      destruct Hv' as [Hg Hverd]. split; [|split; [lia|done]].
      eapply all_noted_next; [|done|done]. eapply all_noted_grows; [exact Hg|]. exact Hn.
  - intros e s [Hn Hv]. destruct (st_reconnect s) as [[|] ?]; [by apply Hready|done].
  - intros e s [Hn Hv]. destruct (st_reconnect_after_reboot s) as [[|] ?]; [by apply Hready|done].
  - intros e s err Hb. exact Hb.
Qed.

(** What a good outcome means for the device [d], for the plan's steps. *)
Definition delivered (restarted : bool) (body : list FlashStep) (d : D) : Prop :=
  (forall address image octets, FsWriteMem address image ∈ body -> fp_images p !! ir_segment_id image = Some octets ->
     octets <> [] -> sample_held d (MkSample address (take_sample octets) None)) /\
  if restarted then exists app, held_state d app = Loaded /\ confirmed_application d app_obj app
  else held_state d app_obj = Loaded /\
    forall target obj, FsLoadCompleted target ∈ body -> resolve p app_obj object_table target = Some obj ->
      held_state d obj = Loaded.

Lemma told_of_body body tail restarted e d : closes body tail -> all_noted (length (fp_steps p)) e -> told restarted e d ->
  delivered restarted body d.
Proof.
  intros (E & _ & Hb) Hn (H2 & H3).
  assert (Hnoted : forall step, step ∈ body -> noted step e).
  { intros step Hs. rewrite Forall_forall in Hb. specialize (Hb _ Hs). apply list_elem_of_lookup in Hs as [k Hk].
    pose proof (lookup_lt_Some _ _ _ Hk). apply (Hn k); [|by rewrite E, lookup_app_l|done].
    rewrite E, length_app. lia. }
  split.
  - intros address image octets Hs Ei Hne. apply H2; [|done]. destruct (Hnoted _ Hs) as [Hsam _]. cbn [sampled] in Hsam.
    rewrite Ei in Hsam. cbn in Hsam. by destruct Hsam as [->|].
  - destruct restarted; [exact H3|]. destruct H3 as [Happ Hobj]. split; [done|]. intros target obj Hs Er. apply Hobj.
    destruct (Hnoted _ Hs) as [_ Hc]. by apply Hc.
Qed.

(** The steps and the verification, from what is read before the first step. *)
Lemma system_b_download_is_loaded body tail threshold s s' out security_open : closes body tail ->
  run_system_b wait_ms timeout_ms merge_gap p app_obj object_table skip_objects verify_after_restart threshold s
    = ((Ok out, security_open), s') -> FlashOutcome_ok out = true ->
  (exists s1, (tail = [] /\ s' = s1 \/ tail = [FsRestart] /\ s' = send_closing_restart p s1) /\ delivered false body (device s1)) \/
  verify_after_restart = true /\ tail = [FsRestart] /\ delivered true body (device s').
Proof.
  intros Hp E Hok. unfold run_system_b, run_steps in E.
  pose proof (run_steps_sound (SS := boot_steps wait_ms timeout_ms)
    (EX := system_b wait_ms timeout_ms merge_gap p app_obj object_table skip_objects verify_after_restart)
    (sb_ready (length body)) sb_broken threshold (fp_steps p) 0 SystemB_new s) as Hrun.
  specialize (Hrun (fun k step => system_b_step_sound body tail k step Hp)).
  assert (Hstart : sb_ready (length body) 0 SystemB_new s) by (split; [intros k st Hk; lia|split; [done|lia]]).
  specialize (Hrun Hstart). destruct (run_steps_from _ _ _ _ _) as [[[u|err] e1] s1]; [|done].
  rewrite Nat.add_0_l in Hrun. destruct Hrun as (Hn & Hv & Hw). pose proof Hp as (Esteps & Ht & _).
  rewrite Esteps, length_app in Hv, Hw. destruct Ht as [->| ->]; cbn [length] in Hv, Hw.
  - left. rewrite Hv in E by lia. unfold on_session in E. pose proof (outcome_told e1 (bs_session s1)) as Ho.
    destruct (verify_outcome _ _ _ (bs_session s1)) as [[out1|err] x]; [|done]. injection E as <- _ <-.
    exists (bs_set_session x s1). split; [by left|]. by eapply told_of_body; [..|apply (Ho Hok)].
  - destruct (Hw ltac:(lia)) as (out1 & restarted & s2 & Ev & Hs2 & Hr & Htold). rewrite Ev in E. injection E as <- _ <-.
    pose proof (told_of_body _ _ _ _ _ Hp Hn (Htold Hok)) as Hd. subst s1. destruct restarted.
    + right. split; [by apply Hr|]. done.
    + left. exists s2. split; [by right|done].
Qed.
End Reported.

Section Downloaded.
  Context {L : Type} {SL : StepLink L} {XL : ExecLink L}.
  Context {D : Type} {VD : VerifyDevice L D} {VDL : VerifyDeviceLaws L D} {TD : TypedDevice L D} {TDL : TypedDeviceLaws L D}.
  Variables (wait_ms timeout_ms : option Z) (env : option text) (merge_gap : nat).

Lemma prepare_application facts p options s app_obj object_table skip s' :
  prepare_system_b facts p options s = (Ok (app_obj, object_table, skip), s') ->
  application_object object_table = Some app_obj /\ (forall obj, application_object facts = Some obj -> object_table = facts).
Proof.
  unfold prepare_system_b, known_object_table. intros E.
  apply mgmt_bind_ok in E as ([app table] & s1 & E1 & E). apply mgmt_bind_ok in E as (x & s2 & _ & E).
  apply mgmt_bind_ok in E as (y & s3 & _ & E). injection E as -> -> _ _.
  destruct (application_object facts) as [index|] eqn:Ef; cbn [option_map] in E1.
  - injection E1 as -> -> _. done.
  - split; [|done]. unfold on_session, discover_object_table_resumable in E1.
    match type of E1 with context [let '(_, _) := ?m in _] => destruct m as [r x1] eqn:Er end. injection E1 as -> _.
    apply mgmt_bind_ok in Er as (t & x2 & _ & Er). destruct (application_object t) as [i|] eqn:Ei; [|done].
    injection Er as -> -> _. done.
Qed.

End Downloaded.

(** ** A device to load

    Object 1 is its application program, which it stores at 20480; its connection is
    lost before the given answers, counted in reads. *)
Record LoadableDevice : Type := MkLoadable { ld_states : gmap Z u8; ld_cells : gmap Z u8 }.
Record LoadableLink : Type := MkLoadableLink { ll_device : LoadableDevice; ll_open : bool; ll_losses : list nat }.

Definition ll_act {A} (f : LoadableDevice -> A * LoadableDevice) : Mgmt_op LoadableLink A := fun l =>
  if negb (ll_open l) then (Err (Mgmt NoResponse), l) else
  match ll_losses l with
  | O :: losses => (Err (Mgmt NoResponse), MkLoadableLink (ll_device l) false losses)
  | S n :: losses => let '(a, d) := f (ll_device l) in (Ok a, MkLoadableLink d true (n :: losses))
  | [] => let '(a, d) := f (ll_device l) in (Ok a, MkLoadableLink d true [])
  end.

Definition ld_octet (d : LoadableDevice) (obj : u8) : u8 := default 0 (ld_states d !! obj).

Definition ld_state (d : LoadableDevice) (obj : u8) : LoadState := LoadState_from_octet (ld_octet d obj).

Definition ld_memory (d : LoadableDevice) (addr : u32) (n : u8) : bytes :=
  map (fun at_ => default 255 (ld_cells d !! at_)) (seqZ addr n).

Definition ld_property (d : LoadableDevice) (o p : u8) : bytes :=
  if p =? PID_LOAD_STATE_CONTROL then [ld_octet d o]
  else if p =? PID_TABLE_REFERENCE then be_bytes 4 20480 else [].

(** The state a load control leads to. *)
Definition ld_control (d : LoadableDevice) (o : u8) (value : bytes) : LoadableDevice :=
  match value with
  | 1 :: _ => MkLoadable (<[o := LoadState_octet Loading]> (ld_states d)) (ld_cells d)
  | 2 :: _ => MkLoadable (<[o := LoadState_octet Loaded]> (ld_states d)) (ld_cells d)
  | 4 :: _ => MkLoadable (<[o := LoadState_octet Unloaded]> (ld_states d)) (ld_cells d)
  | _ => d
  end.

#[local] Instance ll_mgmt : L4Management LoadableLink := {
  property_request o p start n := ll_act (fun d => (Apci.MkPropertyValueResponse o p 1 1 (ld_property d o p), d));
  property_write_request o p n start value :=
    ll_act (fun d => let d := ld_control d o value in
                     (Apci.MkPropertyValueResponse o p 1 1 [ld_octet d o], d));
  write_memory _ _ := fail (Mgmt NoResponse);
  read_memory_strict _ _ := fail (Mgmt NoResponse);
  now _ := 0;
  sleep _ l := l }.

#[local] Instance ll_session : SessionLink LoadableLink := {
  link_connect := fun l => (Ok tt, MkLoadableLink (ll_device l) true (ll_losses l));
  link_drop l := MkLoadableLink (ll_device l) false (ll_losses l);
  link_losses _ := 0;
  link_authorize _ := mret (Connection.Granted 0);
  link_set_max_apdu _ l := l;
  link_set_user_memory_above_64k _ l := l;
  link_memory_service _ _ _ := MemPlain;
  link_chunk_caps _ := FlashRegions.MkChunkCaps 12 12 12 false;
  link_write _ addr data l :=
    match ll_act (fun d => (tt, MkLoadable (ld_states d) (write_cells (ld_cells d) addr 0 data))) l with
    | (Ok _, l) => ((Ok tt, (length data, 1%nat)), l)
    | (Err e, l) => ((Err e, (0, 0)%nat), l)
    end }.

#[local] Instance ll_reboot : RebootLink LoadableLink := {
  link_secure _ := false;
  link_set_probe_timeouts _ l := l;
  link_describe _ := mret tt;
  link_disconnect l := l;
  link_numbered_exchanges _ := 0;
  link_set_sync_retry _ l := l }.

#[local] Instance ll_requests : L4Requests LoadableLink := {
  l4_request _ _ l := (Err (ServiceRejected "" "" None), l);
  l4_request_optional _ _ l := (Ok None, l);
  l4_max_apdu _ := 15;
  l4_exchanges _ := 0;
  l4_reopen_after_unanswered l := l }.

#[local] Instance ll_objects : L4Properties LoadableLink := {
  lp_request i p start n l :=
    if negb (ll_open l) then (Err NoResponse, l)
    else (Ok (if (p =? PID_OBJECT_TYPE) && (i <=? 1)
              then Apci.MkPropertyValueResponse i p 1 start (be_bytes 2 (if i =? 0 then OT_DEVICE else OT_APPLICATION_PROGRAM))
              else Apci.MkPropertyValueResponse i p 0 start []), l);
  lp_read_octets _ := 10;
  lp_exchanges _ := 0;
  lp_reopen l := l;
  lp_seeded _ := None }.

#[local] Instance ll_props : PropertyLink LoadableLink := { link_description_optional _ _ l := (Ok None, l) }.

#[local] Instance ll_step : StepLink LoadableLink := {
  link_send_restart l := MkLoadableLink (ll_device l) false (ll_losses l) }.

#[local] Instance ll_exec : ExecLink LoadableLink := {
  exec_read_memory addr n := ll_act (fun d => (ld_memory d addr n, d));
  link_send_unacked _ _ l := MkLoadableLink (ll_device l) false (ll_losses l) }.

#[local] Instance ll_verify_device : VerifyDevice LoadableLink LoadableDevice := {
  vd_dev := ll_device; held_state := ld_state; held_memory := ld_memory }.

Lemma ll_reads_tell {A} (f : LoadableDevice -> A) :
  read_tells (L := LoadableLink) (ll_act (fun d => (f d, d))) f.
Proof.
  intros l. unfold ll_act. destruct (negb (ll_open l)); [by split|].
  destruct (ll_losses l) as [|[|n] losses]; (split; [done|]); intros v E; by simplify_eq/=.
Qed.

#[local] Instance ll_device_laws : VerifyDeviceLaws LoadableLink LoadableDevice.
Proof.
  constructor; try done.
  - intros obj l. unfold read_load_state, mbind, Mgmt_op_bind. cbn [property_request ll_session ll_mgmt link_mgmt verify_session exec_verify reboot_session ll_reboot step_reboot ll_step].
    pose proof (ll_reads_tell (fun d => Apci.MkPropertyValueResponse obj PID_LOAD_STATE_CONTROL 1 1 (ld_property d obj PID_LOAD_STATE_CONTROL)) l) as [H1 H2].
    destruct (ll_act _ l) as [[v|e] l']; cbn [fst snd] in *; [|by split]. specialize (H2 v eq_refl) as ->.
    split; [done|]. by intros v [= <-].
  - intros addr n. exact (ll_reads_tell (fun d => ld_memory d addr n)).
Qed.

#[local] Instance ll_typed : TypedDevice LoadableLink LoadableDevice := {
  held_type _ i := if i <=? 1 then Some (if i =? 0 then OT_DEVICE else OT_APPLICATION_PROGRAM) else None }.

#[local] Instance ll_typed_laws : TypedDeviceLaws LoadableLink LoadableDevice.
Proof.
  constructor. intros i l.
  match goal with |- vd_dev (snd ?m) = _ /\ _ => assert (E : m =
    if negb (ll_open l) then (Err (Mgmt NoResponse), l)
    else (Ok (if i <=? 1 then Some (if i =? 0 then OT_DEVICE else OT_APPLICATION_PROGRAM) else None), l)) end.
  { unfold of_req, probe_object_type.
    match goal with |- context [lp_request ?a ?b ?c ?d ?e] => change (lp_request a b c d e) with (@lp_request LoadableLink ll_objects a b c d e) end.
    cbn [lp_request ll_objects]. destruct (negb (ll_open l)); [done|].
    destruct (i <=? 1); [destruct (i =? 0)|]; reflexivity. }
  rewrite E. cbn [held_type ll_typed]. destruct (negb (ll_open l)); (split; [done|]); intros v Ev; [done|]. by injection Ev as <-.
Qed.

Definition code_image : ImageRef := MkImageRef [115] ImageCode 6 0.
Definition data_image : ImageRef := MkImageRef [116] ImageCode 3 0.

Definition demo_body : list FlashStep :=
  [FsUnload None false; FsStartLoading None; FsAllocateSegment 6 None (MkSegmentFill 1 255); FsWriteRelMem 0 code_image None;
   FsWriteMem 24576 data_image; FsLoadCompleted None].

Definition demo_download : FlashPlan :=
  MkFlashPlan (MkAppIdentity [] None None None [] None) 1968 (demo_body ++ [FsRestart])
    {[ [115] := [1; 2; 3; 4; 5; 6]; [116] := [7; 8; 9] ]} ∅ false None false ∅ ∅ ∅ ∅ (MkTableCapacity None None) false ∅ false [].

Definition demo_loadable : BootSession LoadableLink :=
  MkBootSession (MkSession (MkLoadableLink (MkLoadable {[ 1 := LoadState_octet Loaded ]} ∅) true [3; 4; 1]%nat) true true None None None
                   VerifyModeState_default false) [] None.

Definition demo_run (verify_after_restart : bool) : result WriteError FlashOutcome * BootSession LoadableLink :=
  flash None None None 8 [(0, 0); (1, OT_APPLICATION_PROGRAM)] demo_download (MkFlashOptions verify_after_restart false) demo_loadable.

Lemma demo_closes : closes demo_download demo_body [FsRestart].
Proof. split; [reflexivity|]. split; [by right|]. unfold demo_body. rewrite !Forall_cons. split_and!; done. Qed.

